(* ===== verification/_CoqProject ===== *)
-Q . S2P
Prelude.v
Vct.v
Vend.v
Ws.v
Vsb.v
StorageFile.v
StorageFileInv.v
StorageFileOps.v
StorageFileThm.v
Argv.v
ArgvThm.v
Mem.v
Http.v
HttpLines.v
HttpDissect.v
HttpWire.v
HttpCollect.v
HttpThm.v
Critbit.v
CritbitTree.v
CritbitInv.v
CritbitOps.v
CritbitConc.v
CritbitThm.v
Ban.v
BanSpec.v
BanInv.v
BanInsert.v
BanCheck.v
BanThm.v
Vary.v
VarySpec.v
VaryMatch.v
VaryThm.v
BinHeap.v
BinHeapInv.v
BinHeapThm.v
BinHeapOps.v
BinHeapProps.v
Double.v
Obj.v
Expire.v
ExpireInv.v
ExpireOps.v
ExpireThm.v
Slinger.v
SlingerThm.v
Hash.v
HashInv.v
HashOps.v
HashLoop.v
HashLookup.v
HashRefs.v
HashPurge.v
HashSys.v
HashStep.v
HashThm.v
Vsm.v
VsmOps.v
VsmThm.v
CenterState.v
Center.v
CenterInv.v
CenterSteps.v
CenterThm.v
CenterProp.v
HttpConn.v
Wrw.v
WrwThm.v
Fetch.v
FetchInv.v
Coding.v
FetchThm.v
HttpConnThm.v
HttpWrite.v
Response.v
RespThm.v
BodyProp.v
Rfc2616.v
Rfc2616Thm.v
