(* ===== verification/Prelude.v ===== *)
(** Varnish Cache 3.0.2, the cache process: a model of its data structures and of
    the code that works on them, and what holds of them.

    Paths are those of the repository under [src/varnish-3.0.2/]: [B/] stands for
    [bin/varnishd/], [L/] for [lib/libvarnish/].

    * The program

    Varnish is a cache in front of HTTP servers.  A session parses a request into a
    [struct http], looks for an object by the digest of its hash, and delivers it or
    fetches it.  What it finds hangs from an object head: object cores, each with
    an object or a fetch under way.  Object heads are found by one of three
    "slingers", an object core has a timer and a place on the LRU list of its
    storage, objects can be banned and depend on request headers (Vary), and bodies
    are in ranges of a mapped file.  The subjects here are these parts of the child
    process and the libraries below them.

    * The files

    Each component has a file with its definitions, named after the source, and
    files with its proofs; the last of these, [*Thm] or [*Props] if there are
    several, holds the theorems and the examples that apply them.

    - [Prelude]: results with faults, machine integers, octets in objects, the
      tactics [res_inv], [run_wr] and [run].
    - [Vct] ([include/vct.h], [L/vct.c]): the table of character classes.
    - [Vend] ([include/vend.h]): big- and little-endian integers.
    - [Ws] ([B/cache_ws.c]): workspaces, [struct ws] is [Ws.ws].
    - [Vsb] ([include/vsb.h], [L/vsb.c]): string buffers, [struct vsb] is [Vsb.vsb].
    - [StorageFile], [StorageFileInv], [StorageFileOps], [StorageFileThm]
      ([B/storage_file.c]): ranges of the mapped file; [struct smf_sc] and
      [struct smf] are [smf_sc] and [smf].
    - [Argv], [ArgvThm] ([L/argv.c]): words of a command line.
    - [Mem]: memory, and the functions of the C library on strings.
    - [Http], [HttpLines], [HttpDissect], [HttpWire], [HttpCollect], [HttpThm]
      ([B/cache_http.c], [include/http_headers.h]): HTTP messages, [struct http] is
      [Http.http] with its slots as a list and its workspace beside it.
    - [Critbit], [CritbitTree], [CritbitInv], [CritbitOps], [CritbitConc],
      [CritbitThm] ([B/hash_critbit.c]): the lock-free tree of object heads.
    - [Slinger], [SlingerThm] ([B/hash_slinger.h], [B/hash_simple_list.c],
      [B/hash_classic.c]): the interface of a slinger as a class with its laws, and
      two instances.
    - [Ban], [BanSpec], [BanInv], [BanInsert], [BanCheck], [BanThm]
      ([B/cache_ban.c]): the list of bans and the objects on it.
    - [Vary], [VarySpec], [VaryMatch], [VaryThm] ([B/cache_vary.c]): matching
      strings.
    - [BinHeap], [BinHeapInv], [BinHeapThm], [BinHeapOps], [BinHeapProps] ([L/binary_heap.c]): the heap of timers.
    - [Double]: C's [double] as binary64, for timers.
    - [Obj] ([B/cache.h], [B/stevedore.c]): objects and object cores.
    - [Expire], [ExpireInv], [ExpireOps], [ExpireThm] ([B/cache_expire.c]): timers,
      LRU lists, what is taken when storage is short.
    - [Hash], [HashInv], [HashOps], [HashLoop], [HashLookup], [HashRefs],
      [HashPurge], [HashSys], [HashStep], [HashThm]
      ([B/cache_hash.c], parts of [B/stevedore.c]): the cache proper, which joins
      the slinger, the bans, the expiry and Vary: lookup, waiting, the end of a
      fetch, references, purging.  [HashInv] relates the state to a ghost: the table
      of the slinger, the timers, the history of bans and who holds references.
      [HashSys] is the system: any sequence of these calls by workers and sessions.
    - [Vsm], [VsmOps], [VsmThm] ([B/vsm.c], [include/vsm.h]): the chunks of
      the shared memory segment, and what its readers rely on.
    - [CenterState], [Center], [CenterInv], [CenterSteps], [CenterThm], [CenterProp]
      ([B/cache_center.c], with what it calls in [B/cache_fetch.c],
      [B/cache_response.c], [B/cache_esi_deliver.c], [B/cache_pool.c] and others):
      the steps of a request and the loop that takes them.  [CenterInv] has the
      contracts of what the steps ask and what holds at each step, [CenterSteps]
      shows that each step keeps it, [CenterThm] joins the steps, the includes of
      ESI and the life of sessions.
    - [HttpConn], [HttpConnThm] ([B/cache_httpconn.c]): connections and the reading of
      messages from them.
    - [Wrw], [WrwThm] ([B/cache_wrw.c]), [HttpWrite] ([http_Write]): the gathered writer,
      with chunks, and messages going out.
    - [Fetch], [FetchInv], [Coding], [FetchThm] ([B/cache_fetch.c], [stv_alloc],
      [RES_StreamPoll]): bodies from a connection into storage.  [Coding] has what the
      octets of a body look like: grammars of numbers, chunks and the three framings as
      relations, which the readers of the code are shown to recognise.
    - [Response], [RespThm] ([B/cache_response.c], the
      sending half of [FetchHdr], the body of [cnt_streambody]): responses, whole, in
      part or streamed.  [BodyProp] has what fetching and delivering come to.
    - [Rfc2616], [Rfc2616Thm] ([B/rfc2616.c], [http_GetHdrQ] of [B/cache_http.c],
      [TIM_parse] of [L/time.c]): what a response says of its body and its lifetime, and
      a request of compression and conditions, in terms of the header lines.

    * How the code is modelled

    A function of the source is a function of the same name from the state it
    changes to a result.  [Fail FAssert] is a failed assertion, which ends the
    process, [Fail FMemory] an access outside an object or through NULL: that a
    theorem gives [Ok] says that neither happens.  Integers that can wrap are [Z]
    with [u8] to [u64] written out.  Structures that point at each other are in
    finite maps from their addresses, NULL being [None] or 0; queues are lists of
    addresses; strings are octets in a memory map, or lists where nobody else
    changes them.  A part that holds a lock is one step, and the theorems are about all
    sequences of the steps, which [reach] relations describe.  A search of the
    critbit tree without the lock is one memory access a step, and so are the
    writers it runs against; the turn of the timer and the check of bans are also cut
    where they drop the lock, to show a race.  Otherwise a call that drops a lock half
    way is one step too: those of [cache_hash.c] that release the object head and then call
    the bans, the expiry or the slinger ([HSH_Lookup], [HSH_Deref], [HSH_Drop],
    [HSH_Purge]).  What another thread could do in between is outside the model.

    Code that is not in the repository, or that the model leaves to its client, is
    a parameter with its contract: PCRE (class [BanSpec.Pcre]), [malloc] and [mmap],
    the order of a heap (class [HeapOrder]), a slinger (class [SlingerLaws]).

    The state machine of requests is the exception: its functions are programs
    ([Center.prog]) that return, stop with a fault, or ask a question and go on with
    the answer, since what clients, backends, VCL and storage do next is not theirs.
    [run ok p tr o] says that [o] can come of the program [p] when the answers are
    [ok], with the questions and answers [tr].  [honest] answers keep what the parts
    promise; ten of them, the mishaps that [CenterInv.mishap] lists, are such that the
    steps do not provide for them, and the theorems are about the runs without any;
    [CenterProp.mishaps_stop] has a run for each in which it stops the child.  There the calls of the cache and of storage are
    reduced to their assertions and what they do to the session and its worker, and
    pointers to whether they are NULL.

    On a connection, what the peer sends is a list of what each [read] can find, which
    ends or breaks, and what each [writev] takes is a list of numbers: the theorems are
    for all such lists.  What a stevedore gives is a function of how often it was asked.

    * Fuel

    A loop that is not structural has fuel, and [Fail FFuel] when it runs out; no
    theorem allows it.  Loops over strings have the number of mapped addresses, those
    over lists the length of the list, those of the critbit tree the number of bits
    of a digest, those of the heap the number of elements, the search of
    [smf_open_chunk] the bits of a size, those that read from a connection the number of
    octets it has still to give: each is shown enough where the function is
    shown to give [Ok].  A session is followed for any number of turns, after which
    the program is [Forever]; a request inside ESI has more turns than it needs, and
    as many levels as are allowed.

    * What is shown

    - Representation: the class table holds the octets of its classes; encoding and
      decoding integers are inverse.
    - Memory: workspaces, string buffers, storage ranges stay in their bounds and
      apart for any sequence of calls; string buffers append as lists do; ranges are
      best fits within their free list and merge when they are freed; [smf_open]
      ends.
    - Messages: dissection stays within the receive buffer whatever it holds and
      inverts the wire format; removing, filtering and collecting header lines do
      what they do to the list of lines; Vary strings match exactly the requests
      that agree on the headers.
    - Object heads: the three slingers refine a table from digests; a reader of the
      critbit tree without the lock neither leaves the tree nor misses an object
      head that stays in it.
    - Bans: the list refines the history of all bans, whatever was merged or
      dropped, and an object is banned exactly if a later ban applies.
    - Expiry: heap and LRU lists agree, the timer takes what is due and first, and
      nuking takes the first that nobody uses.
    - The cache: whatever calls are made in any order, each within its contract,
      none fails an assertion; reference counts are the numbers of references; a
      lookup answers what a verdict on each object core of the head makes of them;
      the last reference frees, a purge hides, and the end of a fetch wakes the
      sessions that wait in their order.
    - Shared memory: the chunks always tile the segment, allocation keeps what is in
      use, and a reader that finds the mark unchanged has seen what was there.
    - Requests: unless one of ten mishaps happens, no worker fails an assertion on any
      session, each request ends, and the worker is left clean; the steps follow the
      graph in the comments; a response has one framing.
    - Bodies: whatever pieces octets come and go in, a message is received whole and
      what follows it is kept; an object gets the body that the headers and the framing
      of the response say, or fails;
      what is written with chunks is read back; a request and its body reach the backend
      as they came; and a client gets the answer that is due, whole, in part, without a
      body or streamed, after the headers that are added to those of the object.
    - Command lines: the parser reads within the line and reads back what is quoted.

    Where the source falls short of what it says, a theorem shows how: see the
    findings of the manifest.

    * Not modelled

    Threads, sockets, files and the pthread locks themselves; SHA-256; bodies that
    are compressed or uncompressed on their way ([B/cache_gzip.c]), the parser of ESI
    ([B/cache_esi_parse.c], [B/cache_esi_fetch.c]),
    backends and directors, persistent storage, the shared memory log, the manager
    process, the VCL compiler, the command line tools, and third-party code (zlib,
    jemalloc).  Statistics and log entries are left out except where a function
    returns them. *)
From stdpp Require Export base numbers list list_numbers gmap sets option strings.
From Stdlib Require Export ZArith Lia Bool.
From Stdlib Require Ascii.

#[global] Open Scope Z_scope.

(** * Faults and results

    The C code stops the process when an [assert] fails, and has undefined
    behaviour when it reads or writes outside an object.  Both are values
    here, so that "no assertion fails and nothing is accessed out of bounds"
    is the statement that a call returns [Ok]. *)

Inductive fault : Type :=
  | FAssert   (* assert(), AN(), AZ(), xxxassert(), CHECK_OBJ() failed *)
  | FMemory   (* access outside an object, or through NULL *)
  | FFuel.    (* the loop was cut short by the model: never in a theorem *)

Inductive res (A : Type) : Type :=
  | Ok (a : A)
  | Fail (f : fault).
Arguments Ok {A} _.
Arguments Fail {A} _.

#[global] Instance fault_eq_dec : EqDecision fault.
Proof. solve_decision. Defined.

#[global] Instance res_ret : MRet res := fun A a => Ok a.
#[global] Instance res_bind : MBind res := fun A B f m =>
  match m with Ok a => f a | Fail e => Fail e end.
#[global] Instance res_fmap : FMap res := fun A B f m =>
  match m with Ok a => Ok (f a) | Fail e => Fail e end.

(** [assert(b)] of the source. *)
Definition vassert (b : bool) : res unit := if b then Ok tt else Fail FAssert.

(** Dereferencing a lookup that must be there. *)
Definition deref {A} (o : option A) : res A :=
  match o with Some a => Ok a | None => Fail FMemory end.

Definition is_ok {A} (r : res A) : bool :=
  match r with Ok _ => true | Fail _ => false end.

Lemma bind_Ok {A B} (m : res A) (f : A -> res B) b :
  (m ≫= f) = Ok b <-> exists a, m = Ok a /\ f a = Ok b.
Proof.
  destruct m as [a|e]; simpl; split.
  - intros H. by exists a.
  - intros (a' & Ha & Hf). by simplify_eq.
  - discriminate.
  - intros (a' & Ha & Hf). discriminate.
Qed.

Lemma vassert_Ok b u : vassert b = Ok u <-> b = true.
Proof. destruct b, u; simpl; split; congruence || done. Qed.

Lemma vassert_true b : b = true -> vassert b = Ok tt.
Proof. by intros ->. Qed.

Lemma deref_Ok {A} (o : option A) a : deref o = Ok a <-> o = Some a.
Proof. destruct o; simpl; split; congruence. Qed.

(** Inverts [Ok] results of a monadic definition, and runs them forwards. *)
Ltac res_inv :=
  repeat match goal with
    | H : (_ ≫= _) = Ok _ |- _ =>
        let a := fresh "a" in let H1 := fresh "Hr" in
        apply bind_Ok in H; destruct H as (a & H1 & H)
    | H : vassert _ = Ok _ |- _ => apply vassert_Ok in H
    | H : deref _ = Ok _ |- _ => apply deref_Ok in H
    | H : mret _ = Ok _ |- _ => injection H as H
    | H : Ok _ = Ok _ |- _ => injection H as H
    | H : Fail _ = Ok _ |- _ => discriminate H
    | a : unit |- _ => destruct a
    end.

(** * Machine integers *)

Definition u8 (z : Z) : Z := z mod 2 ^ 8.
Definition u16 (z : Z) : Z := z mod 2 ^ 16.
Definition u32 (z : Z) : Z := z mod 2 ^ 32.
Definition u64 (z : Z) : Z := z mod 2 ^ 64.

Definition UINT_MAX : Z := 2 ^ 32 - 1.

Definition is_byte (b : Z) : Prop := 0 <= b < 256.
#[global] Instance is_byte_dec b : Decision (is_byte b).
Proof. unfold is_byte. apply _. Defined.

(** C's truth value of an integer. *)
Definition truth (z : Z) : bool := negb (z =? 0).

(** * Objects in memory, as lists of bytes *)

Definition rd (m : list Z) (i : Z) : res Z :=
  if i <? 0 then Fail FMemory else deref (m !! Z.to_nat i).

Definition wr (m : list Z) (i : Z) (v : Z) : res (list Z) :=
  if (0 <=? i) && (i <? Z.of_nat (length m))
  then Ok (<[Z.to_nat i := v]> m) else Fail FMemory.

Lemma rd_Ok m i v :
  rd m i = Ok v <-> 0 <= i /\ m !! Z.to_nat i = Some v.
Proof.
  unfold rd. destruct (Z.ltb_spec i 0); rewrite ?deref_Ok; split; try done.
  - intros [? _]. lia.
  - intros [_ ?]. done.
Qed.

Lemma wr_Ok m i v m' :
  wr m i v = Ok m' <->
  0 <= i < Z.of_nat (length m) /\ m' = <[Z.to_nat i := v]> m.
Proof.
  unfold wr. destruct (Z.leb_spec 0 i), (Z.ltb_spec i (Z.of_nat (length m)));
    simpl; split; try done; try (intros [? ?]; lia).
  - intros [= <-]. done.
  - by intros [_ ->].
Qed.

(** Disjoint bit fields add up. *)
Lemma land_shiftl_low a b n :
  0 <= n -> 0 <= b < 2 ^ n -> Z.land (Z.shiftl a n) b = 0.
Proof.
  intros Hn Hb. apply Z.bits_inj'. intros i Hi.
  rewrite Z.land_spec, Z.bits_0. destruct (Z.ltb_spec i n).
  - by rewrite Z.shiftl_spec_low.
  - rewrite <- (Z.mod_small b (2 ^ n)) by lia.
    by rewrite Z.mod_pow2_bits_high, andb_false_r by lia.
Qed.

Lemma lor_shiftl_add a b n :
  0 <= n -> 0 <= b < 2 ^ n -> Z.lor (Z.shiftl a n) b = a * 2 ^ n + b.
Proof.
  intros Hn Hb. pose proof (land_shiftl_low a b n Hn Hb) as H0.
  rewrite <- Z.lxor_lor by done. rewrite <- Z.add_nocarry_lxor by done.
  by rewrite Z.shiftl_mul_pow2.
Qed.

Lemma wr_in m i v :
  0 <= i < Z.of_nat (length m) -> wr m i v = Ok (<[Z.to_nat i := v]> m).
Proof. intros. by apply wr_Ok. Qed.

Lemma bind_Ret {A B} (a : A) (f : A -> res B) : (Ok a ≫= f) = f a.
Proof. reflexivity. Qed.

Lemma bind_mret {A B} (a : A) (f : A -> res B) : (mret (M := res) a ≫= f) = f a.
Proof. reflexivity. Qed.

Lemma deref_Some {A} (a : A) : deref (Some a) = Ok a.
Proof. reflexivity. Qed.

Lemma vassert_tt : vassert true = Ok tt.
Proof. reflexivity. Qed.

(** Running a definition forwards: [run] takes the steps that have a value, [run E]
    rewrites with [E] before each, and [assertion] shows an assertion. *)
Create HintDb run.
#[export] Hint Rewrite @bind_Ret @bind_mret @deref_Some vassert_tt : run.

Tactic Notation "run" := autorewrite with run; cbv beta iota zeta.
Tactic Notation "run" constr(E) := rewrite E; run.
Tactic Notation "run" constr(E) "," constr(E') := run E; run E'.
Tactic Notation "assertion" "by" tactic(t) :=
  lazymatch goal with |- context [mbind _ (vassert ?b)] => rewrite (vassert_true b) by t end; run.

(** Runs a sequence of writes at literal offsets. *)
Ltac run_wr :=
  repeat (rewrite wr_in by (rewrite ?length_insert; simpl; lia);
          rewrite ?bind_Ret).

(** Clearing the low bits. *)
Lemma land_lnot_mask x k :
  0 <= k -> Z.land x (Z.lnot (2 ^ k - 1)) = x - x mod 2 ^ k.
Proof.
  intros Hk. rewrite <- Z.ldiff_land.
  replace (2 ^ k - 1) with (Z.ones k) by (rewrite Z.ones_equiv; lia).
  rewrite Z.ldiff_ones_r, Z.shiftl_mul_pow2, Z.shiftr_div_pow2 by lia.
  pose proof (Z.div_mod x (2 ^ k)). lia.
Qed.

Lemma land_mask x k : 0 <= k -> Z.land x (2 ^ k - 1) = x mod 2 ^ k.
Proof.
  intros Hk. replace (2 ^ k - 1) with (Z.ones k) by (rewrite Z.ones_equiv; lia).
  by apply Z.land_ones.
Qed.

Lemma truth_true z : truth z = true <-> z <> 0.
Proof. unfold truth. destruct (Z.eqb_spec z 0); simpl; intuition congruence. Qed.

Lemma truth_false z : truth z = false <-> z = 0.
Proof. unfold truth. destruct (Z.eqb_spec z 0); simpl; intuition congruence. Qed.

Lemma u32_small z : 0 <= z < 2 ^ 32 -> u32 z = z.
Proof. intros. by apply Z.mod_small. Qed.

(** Reading a list at the place where it splits. *)
Lemma rd_at pre c post p : p = Z.of_nat (length pre) -> rd (pre ++ c :: post) p = Ok c.
Proof. intros ->. apply rd_Ok. split; [lia|]. by rewrite Nat2Z.id, list_lookup_middle. Qed.

Lemma drop_at {A} (pre post : list A) p :
  p = Z.of_nat (length pre) -> drop (Z.to_nat p) (pre ++ post) = post.
Proof. intros ->. by rewrite Nat2Z.id, drop_app_length. Qed.
