(* ===== verification/Vct.v ===== *)
(** Character classes: [lib/libvarnish/vct.c] and [include/vct.h].

    The table is written as the designated initialisers of the source, in
    their order; an index without one is 0, as C has it.  The theorems say
    which octets each class holds. *)
From S2P Require Import Prelude.

Module Vct.

Definition VCT_SP : Z := Z.shiftl 1 0.
Definition VCT_CRLF : Z := Z.shiftl 1 1.
Definition VCT_LWS : Z := Z.lor VCT_CRLF VCT_SP.
Definition VCT_CTL : Z := Z.shiftl 1 2.
Definition VCT_ALPHA : Z := Z.shiftl 1 3.
Definition VCT_SEPARATOR : Z := Z.shiftl 1 4.
Definition VCT_DIGIT : Z := Z.shiftl 1 5.
Definition VCT_HEX : Z := Z.shiftl 1 6.
Definition VCT_XMLNAMESTART : Z := Z.shiftl 1 7.
Definition VCT_XMLNAME : Z := Z.shiftl 1 8.

Definition VCT_UPALPHA : Z := VCT_ALPHA.
Definition VCT_LOALPHA : Z := VCT_ALPHA.

Definition vct_typtab_lo : list (Z * Z) :=
  [(0x00, VCT_CTL);
   (0x01, VCT_CTL);
   (0x02, VCT_CTL);
   (0x03, VCT_CTL);
   (0x04, VCT_CTL);
   (0x05, VCT_CTL);
   (0x06, VCT_CTL);
   (0x07, VCT_CTL);
   (0x08, VCT_CTL);
   (0x09, Z.lor VCT_CTL (Z.lor VCT_SP VCT_SEPARATOR));
   (0x0a, Z.lor VCT_CTL VCT_CRLF);
   (0x0b, VCT_CTL);
   (0x0c, VCT_CTL);
   (0x0d, Z.lor VCT_CTL VCT_CRLF);
   (0x0e, VCT_CTL);
   (0x0f, VCT_CTL);
   (0x10, VCT_CTL);
   (0x11, VCT_CTL);
   (0x12, VCT_CTL);
   (0x13, VCT_CTL);
   (0x14, VCT_CTL);
   (0x15, VCT_CTL);
   (0x16, VCT_CTL);
   (0x17, VCT_CTL);
   (0x18, VCT_CTL);
   (0x19, VCT_CTL);
   (0x1a, VCT_CTL);
   (0x1b, VCT_CTL);
   (0x1c, VCT_CTL);
   (0x1d, VCT_CTL);
   (0x1e, VCT_CTL);
   (0x1f, VCT_CTL);
   (0x20, Z.lor VCT_SP VCT_SEPARATOR);
   (0x22, VCT_SEPARATOR);
   (0x28, VCT_SEPARATOR);
   (0x29, VCT_SEPARATOR);
   (0x2c, VCT_SEPARATOR);
   (0x2d, VCT_XMLNAME);
   (0x2e, VCT_XMLNAME);
   (0x2f, VCT_SEPARATOR);
   (0x30, Z.lor VCT_DIGIT (Z.lor VCT_HEX VCT_XMLNAME));
   (0x31, Z.lor VCT_DIGIT (Z.lor VCT_HEX VCT_XMLNAME));
   (0x32, Z.lor VCT_DIGIT (Z.lor VCT_HEX VCT_XMLNAME));
   (0x33, Z.lor VCT_DIGIT (Z.lor VCT_HEX VCT_XMLNAME));
   (0x34, Z.lor VCT_DIGIT (Z.lor VCT_HEX VCT_XMLNAME));
   (0x35, Z.lor VCT_DIGIT (Z.lor VCT_HEX VCT_XMLNAME));
   (0x36, Z.lor VCT_DIGIT (Z.lor VCT_HEX VCT_XMLNAME));
   (0x37, Z.lor VCT_DIGIT (Z.lor VCT_HEX VCT_XMLNAME));
   (0x38, Z.lor VCT_DIGIT (Z.lor VCT_HEX VCT_XMLNAME));
   (0x39, Z.lor VCT_DIGIT (Z.lor VCT_HEX VCT_XMLNAME));
   (0x3a, Z.lor VCT_SEPARATOR VCT_XMLNAMESTART);
   (0x3b, VCT_SEPARATOR);
   (0x3c, VCT_SEPARATOR);
   (0x3d, VCT_SEPARATOR);
   (0x3e, VCT_SEPARATOR);
   (0x3f, VCT_SEPARATOR);
   (0x40, VCT_SEPARATOR);
   (0x41, Z.lor VCT_UPALPHA (Z.lor VCT_HEX VCT_XMLNAMESTART));
   (0x42, Z.lor VCT_UPALPHA (Z.lor VCT_HEX VCT_XMLNAMESTART));
   (0x43, Z.lor VCT_UPALPHA (Z.lor VCT_HEX VCT_XMLNAMESTART));
   (0x44, Z.lor VCT_UPALPHA (Z.lor VCT_HEX VCT_XMLNAMESTART));
   (0x45, Z.lor VCT_UPALPHA (Z.lor VCT_HEX VCT_XMLNAMESTART));
   (0x46, Z.lor VCT_UPALPHA (Z.lor VCT_HEX VCT_XMLNAMESTART));
   (0x47, Z.lor VCT_UPALPHA VCT_XMLNAMESTART);
   (0x48, Z.lor VCT_UPALPHA VCT_XMLNAMESTART);
   (0x49, Z.lor VCT_UPALPHA VCT_XMLNAMESTART);
   (0x4a, Z.lor VCT_UPALPHA VCT_XMLNAMESTART);
   (0x4b, Z.lor VCT_UPALPHA VCT_XMLNAMESTART);
   (0x4c, Z.lor VCT_UPALPHA VCT_XMLNAMESTART);
   (0x4d, Z.lor VCT_UPALPHA VCT_XMLNAMESTART);
   (0x4e, Z.lor VCT_UPALPHA VCT_XMLNAMESTART);
   (0x4f, Z.lor VCT_UPALPHA VCT_XMLNAMESTART);
   (0x50, Z.lor VCT_UPALPHA VCT_XMLNAMESTART);
   (0x51, Z.lor VCT_UPALPHA VCT_XMLNAMESTART);
   (0x52, Z.lor VCT_UPALPHA VCT_XMLNAMESTART);
   (0x53, Z.lor VCT_UPALPHA VCT_XMLNAMESTART);
   (0x54, Z.lor VCT_UPALPHA VCT_XMLNAMESTART);
   (0x55, Z.lor VCT_UPALPHA VCT_XMLNAMESTART);
   (0x56, Z.lor VCT_UPALPHA VCT_XMLNAMESTART);
   (0x57, Z.lor VCT_UPALPHA VCT_XMLNAMESTART);
   (0x58, Z.lor VCT_UPALPHA VCT_XMLNAMESTART);
   (0x59, Z.lor VCT_UPALPHA VCT_XMLNAMESTART);
   (0x5a, Z.lor VCT_UPALPHA VCT_XMLNAMESTART);
   (0x5b, VCT_SEPARATOR);
   (0x5c, VCT_SEPARATOR);
   (0x5d, VCT_SEPARATOR);
   (0x5f, VCT_XMLNAMESTART)].

Definition vct_typtab_hi : list (Z * Z) :=
  [(0x61, Z.lor VCT_LOALPHA (Z.lor VCT_HEX VCT_XMLNAMESTART));
   (0x62, Z.lor VCT_LOALPHA (Z.lor VCT_HEX VCT_XMLNAMESTART));
   (0x63, Z.lor VCT_LOALPHA (Z.lor VCT_HEX VCT_XMLNAMESTART));
   (0x64, Z.lor VCT_LOALPHA (Z.lor VCT_HEX VCT_XMLNAMESTART));
   (0x65, Z.lor VCT_LOALPHA (Z.lor VCT_HEX VCT_XMLNAMESTART));
   (0x66, Z.lor VCT_LOALPHA (Z.lor VCT_HEX VCT_XMLNAMESTART));
   (0x67, Z.lor VCT_LOALPHA VCT_XMLNAMESTART);
   (0x68, Z.lor VCT_LOALPHA VCT_XMLNAMESTART);
   (0x69, Z.lor VCT_LOALPHA VCT_XMLNAMESTART);
   (0x6a, Z.lor VCT_LOALPHA VCT_XMLNAMESTART);
   (0x6b, Z.lor VCT_LOALPHA VCT_XMLNAMESTART);
   (0x6c, Z.lor VCT_LOALPHA VCT_XMLNAMESTART);
   (0x6d, Z.lor VCT_LOALPHA VCT_XMLNAMESTART);
   (0x6e, Z.lor VCT_LOALPHA VCT_XMLNAMESTART);
   (0x6f, Z.lor VCT_LOALPHA VCT_XMLNAMESTART);
   (0x70, Z.lor VCT_LOALPHA VCT_XMLNAMESTART);
   (0x71, Z.lor VCT_LOALPHA VCT_XMLNAMESTART);
   (0x72, Z.lor VCT_LOALPHA VCT_XMLNAMESTART);
   (0x73, Z.lor VCT_LOALPHA VCT_XMLNAMESTART);
   (0x74, Z.lor VCT_LOALPHA VCT_XMLNAMESTART);
   (0x75, Z.lor VCT_LOALPHA VCT_XMLNAMESTART);
   (0x76, Z.lor VCT_LOALPHA VCT_XMLNAMESTART);
   (0x77, Z.lor VCT_LOALPHA VCT_XMLNAMESTART);
   (0x78, Z.lor VCT_LOALPHA VCT_XMLNAMESTART);
   (0x79, Z.lor VCT_LOALPHA VCT_XMLNAMESTART);
   (0x7a, Z.lor VCT_LOALPHA VCT_XMLNAMESTART);
   (0x7b, VCT_SEPARATOR);
   (0x7d, VCT_SEPARATOR);
   (0x7f, VCT_CTL);
   (0xb7, VCT_XMLNAME);
   (0xc0, VCT_XMLNAMESTART);
   (0xc1, VCT_XMLNAMESTART);
   (0xc2, VCT_XMLNAMESTART);
   (0xc3, VCT_XMLNAMESTART);
   (0xc4, VCT_XMLNAMESTART);
   (0xc5, VCT_XMLNAMESTART);
   (0xc6, VCT_XMLNAMESTART);
   (0xc7, VCT_XMLNAMESTART);
   (0xc8, VCT_XMLNAMESTART);
   (0xc9, VCT_XMLNAMESTART);
   (0xca, VCT_XMLNAMESTART);
   (0xcb, VCT_XMLNAMESTART);
   (0xcc, VCT_XMLNAMESTART);
   (0xcd, VCT_XMLNAMESTART);
   (0xce, VCT_XMLNAMESTART);
   (0xcf, VCT_XMLNAMESTART);
   (0xd0, VCT_XMLNAMESTART);
   (0xd1, VCT_XMLNAMESTART);
   (0xd2, VCT_XMLNAMESTART);
   (0xd3, VCT_XMLNAMESTART);
   (0xd4, VCT_XMLNAMESTART);
   (0xd5, VCT_XMLNAMESTART);
   (0xd6, VCT_XMLNAMESTART);
   (0xd8, VCT_XMLNAMESTART);
   (0xd9, VCT_XMLNAMESTART);
   (0xda, VCT_XMLNAMESTART);
   (0xdb, VCT_XMLNAMESTART);
   (0xdc, VCT_XMLNAMESTART);
   (0xdd, VCT_XMLNAMESTART);
   (0xde, VCT_XMLNAMESTART);
   (0xdf, VCT_XMLNAMESTART);
   (0xe0, VCT_XMLNAMESTART);
   (0xe1, VCT_XMLNAMESTART);
   (0xe2, VCT_XMLNAMESTART);
   (0xe3, VCT_XMLNAMESTART);
   (0xe4, VCT_XMLNAMESTART);
   (0xe5, VCT_XMLNAMESTART);
   (0xe6, VCT_XMLNAMESTART);
   (0xe7, VCT_XMLNAMESTART);
   (0xe8, VCT_XMLNAMESTART);
   (0xe9, VCT_XMLNAMESTART);
   (0xea, VCT_XMLNAMESTART);
   (0xeb, VCT_XMLNAMESTART);
   (0xec, VCT_XMLNAMESTART);
   (0xed, VCT_XMLNAMESTART);
   (0xee, VCT_XMLNAMESTART);
   (0xef, VCT_XMLNAMESTART);
   (0xf0, VCT_XMLNAMESTART);
   (0xf1, VCT_XMLNAMESTART);
   (0xf2, VCT_XMLNAMESTART);
   (0xf3, VCT_XMLNAMESTART);
   (0xf4, VCT_XMLNAMESTART);
   (0xf5, VCT_XMLNAMESTART);
   (0xf6, VCT_XMLNAMESTART);
   (0xf8, VCT_XMLNAMESTART);
   (0xf9, VCT_XMLNAMESTART);
   (0xfa, VCT_XMLNAMESTART);
   (0xfb, VCT_XMLNAMESTART);
   (0xfc, VCT_XMLNAMESTART);
   (0xfd, VCT_XMLNAMESTART);
   (0xfe, VCT_XMLNAMESTART);
   (0xff, VCT_XMLNAMESTART)].

(** A later designated initialiser of the same index would win; there is
    none, and [assoc] takes the first. *)
Fixpoint assoc (l : list (Z * Z)) (x : Z) : Z :=
  match l with
  | [] => 0
  | (k, v) :: l' => if k =? x then v else assoc l' x
  end.

Definition vct_typtab : list Z :=
  map (fun x => assoc (vct_typtab_lo ++ vct_typtab_hi) (Z.of_nat x)) (seq 0 256).

(** [vct_is]: the argument is converted to [unsigned char]. *)
Definition vct_is (x y : Z) : Z :=
  Z.land (default 0 (vct_typtab !! Z.to_nat (u8 x))) y.

Definition vct_issp (x : Z) : bool := truth (vct_is x VCT_SP).
Definition vct_ishex (x : Z) : bool := truth (vct_is x VCT_HEX).
Definition vct_iscrlf (x : Z) : bool := truth (vct_is x VCT_CRLF).
Definition vct_islws (x : Z) : bool := truth (vct_is x VCT_LWS).
Definition vct_isctl (x : Z) : bool := truth (vct_is x VCT_CTL).
Definition vct_isdigit (x : Z) : bool := truth (vct_is x VCT_DIGIT).
Definition vct_isalpha (x : Z) : bool := truth (vct_is x VCT_ALPHA).
Definition vct_issep (x : Z) : bool := truth (vct_is x VCT_SEPARATOR).
Definition vct_issepctl (x : Z) : bool :=
  truth (vct_is x (Z.lor VCT_SEPARATOR VCT_CTL)).
Definition vct_isxmlnamestart (x : Z) : bool :=
  truth (vct_is x VCT_XMLNAMESTART).
Definition vct_isxmlname (x : Z) : bool :=
  truth (vct_is x (Z.lor VCT_XMLNAMESTART VCT_XMLNAME)).

(** [vct_skipcrlf(p)]: how many octets a line end at [p] takes. *)
Definition vct_skipcrlf (p : list Z) : Z :=
  match p with 13 :: 10 :: _ => 2 | _ => 1 end.

(** Every octet, for checks by computation. *)
Definition octets : list Z := seqZ 0 256.

Lemma octets_all (P : Z -> bool) :
  forallb P octets = true -> forall x, is_byte x -> P x = true.
Proof.
  intros H x Hx. rewrite forallb_forall in H. apply H.
  apply list_elem_of_In, elem_of_seqZ. unfold is_byte in Hx. lia.
Qed.

Definition between (a x b : Z) : bool := (a <=? x) && (x <=? b).

(** RFC 2616 2.2: the separators. *)
Definition rfc2616_separators : list Z :=
  [0x28; 0x29; 0x3c; 0x3e; 0x40; 0x2c; 0x3b; 0x3a; 0x5c; 0x22; 0x2f;
   0x5b; 0x5d; 0x3f; 0x3d; 0x7b; 0x7d; 0x20; 0x09].

(** What each class is meant to hold, in terms of octet ranges. *)
Definition class_spec (x : Z) : bool :=
  Bool.eqb (vct_isdigit x) (between 0x30 x 0x39) &&
  Bool.eqb (vct_isalpha x) (between 0x41 x 0x5a || between 0x61 x 0x7a) &&
  Bool.eqb (vct_ishex x)
    (between 0x30 x 0x39 || between 0x41 x 0x46 || between 0x61 x 0x66) &&
  Bool.eqb (vct_issp x) ((x =? 0x20) || (x =? 9)) &&
  Bool.eqb (vct_iscrlf x) ((x =? 13) || (x =? 10)) &&
  Bool.eqb (vct_islws x) (vct_issp x || vct_iscrlf x) &&
  Bool.eqb (vct_isctl x) (between 0 x 0x1f || (x =? 0x7f)) &&
  Bool.eqb (vct_issep x) (bool_decide (x ∈ rfc2616_separators)) &&
  Bool.eqb (vct_issepctl x) (vct_issep x || vct_isctl x) &&
  Bool.eqb (vct_isxmlnamestart x)
    (vct_isalpha x || (x =? 0x3a) || (x =? 0x5f) ||
     (between 0xc0 x 0xff && negb (x =? 0xd7) && negb (x =? 0xf7))) &&
  Bool.eqb (vct_isxmlname x)
    (vct_isxmlnamestart x || vct_isdigit x || (x =? 0x2d) || (x =? 0x2e) ||
     (x =? 0xb7)).

Lemma class_spec_all : forallb class_spec octets = true.
Proof. vm_compute. reflexivity. Qed.

(** Every octet is in exactly the classes its meaning gives it: digits,
    letters, hex digits, blanks, line ends, controls, the nineteen separators
    of RFC 2616, and the XML name characters of the Latin-1 plane. *)
Theorem vct_classes (x : Z) (Hx : is_byte x) :
  vct_isdigit x = between 0x30 x 0x39 /\
  vct_isalpha x = between 0x41 x 0x5a || between 0x61 x 0x7a /\
  vct_ishex x =
    between 0x30 x 0x39 || between 0x41 x 0x46 || between 0x61 x 0x66 /\
  vct_issp x = (x =? 0x20) || (x =? 9) /\
  vct_iscrlf x = (x =? 13) || (x =? 10) /\
  vct_islws x = vct_issp x || vct_iscrlf x /\
  vct_isctl x = between 0 x 0x1f || (x =? 0x7f) /\
  vct_issep x = bool_decide (x ∈ rfc2616_separators) /\
  vct_issepctl x = vct_issep x || vct_isctl x /\
  vct_isxmlnamestart x =
    vct_isalpha x || (x =? 0x3a) || (x =? 0x5f) ||
    (between 0xc0 x 0xff && negb (x =? 0xd7) && negb (x =? 0xf7)) /\
  vct_isxmlname x =
    vct_isxmlnamestart x || vct_isdigit x || (x =? 0x2d) || (x =? 0x2e) ||
    (x =? 0xb7).
Proof.
  pose proof (octets_all class_spec class_spec_all x Hx) as H.
  unfold class_spec in H.
  repeat (apply andb_true_iff in H; destruct H as [H ?]).
  repeat match goal with E : Bool.eqb _ _ = true |- _ => apply eqb_prop in E end.
  repeat split; assumption.
Qed.

Lemma vct_classes_witness :
  is_byte 0x3b /\ vct_issep 0x3b = true /\ vct_isxmlname 0x3b = false.
Proof.
  assert (is_byte 0x3b) as Hb by (unfold is_byte; lia).
  split; [exact Hb|].
  destruct (vct_classes 0x3b Hb)
    as (_ & _ & _ & _ & _ & _ & _ & Hs & _ & _ & Hn).
  split; [rewrite Hs | rewrite Hn]; vm_compute; reflexivity.
Defined.

End Vct.
