(* ===== verification/Vend.v ===== *)
(** Byte order: [include/vend.h].

    The functions that read and write big- and little-endian integers at an
    unaligned address.  An address is an object (a list of octets) and the
    accesses are checked against it. *)
From S2P Require Import Prelude.

Module Vend.

Definition vbe16dec (p : list Z) : res Z :=
  p0 ← rd p 0; p1 ← rd p 1;
  mret (Z.lor (Z.shiftl p0 8) p1).

Definition vbe32dec (p : list Z) : res Z :=
  p0 ← rd p 0; p1 ← rd p 1; p2 ← rd p 2; p3 ← rd p 3;
  mret (Z.lor (Z.lor (Z.lor (Z.shiftl p0 24) (Z.shiftl p1 16))
                     (Z.shiftl p2 8)) p3).

Definition vbe64dec (p : list Z) : res Z :=
  h ← vbe32dec p; l ← vbe32dec (drop 4 p);
  mret (Z.lor (Z.shiftl h 32) l).

Definition vle32dec (p : list Z) : res Z :=
  p3 ← rd p 3; p2 ← rd p 2; p1 ← rd p 1; p0 ← rd p 0;
  mret (Z.lor (Z.lor (Z.lor (Z.shiftl p3 24) (Z.shiftl p2 16))
                     (Z.shiftl p1 8)) p0).

Definition vbe16enc (p : list Z) (u : Z) : res (list Z) :=
  p ← wr p 0 (Z.land (Z.shiftr u 8) 0xff);
  wr p 1 (Z.land u 0xff).

Definition vbe32enc (p : list Z) (u : Z) : res (list Z) :=
  p ← wr p 0 (Z.land (Z.shiftr u 24) 0xff);
  p ← wr p 1 (Z.land (Z.shiftr u 16) 0xff);
  p ← wr p 2 (Z.land (Z.shiftr u 8) 0xff);
  wr p 3 (Z.land u 0xff).

(** [vbe32enc(p + 4, ...)]: the object from [p + 4] on. *)
Definition vbe64enc (p : list Z) (u : Z) : res (list Z) :=
  p ← vbe32enc p (u32 (Z.shiftr u 32));
  q ← vbe32enc (drop 4 p) (u32 (Z.land u 0xffffffff));
  mret (take 4 p ++ q).

Definition vle16enc (p : list Z) (u : Z) : res (list Z) :=
  p ← wr p 0 (Z.land u 0xff);
  wr p 1 (Z.land (Z.shiftr u 8) 0xff).

Definition vle32enc (p : list Z) (u : Z) : res (list Z) :=
  p ← wr p 0 (Z.land u 0xff);
  p ← wr p 1 (Z.land (Z.shiftr u 8) 0xff);
  p ← wr p 2 (Z.land (Z.shiftr u 16) 0xff);
  wr p 3 (Z.land (Z.shiftr u 24) 0xff).

(** The value a sequence of octets has, most significant first. *)
Fixpoint be_value (acc : Z) (l : list Z) : Z :=
  match l with [] => acc | b :: l' => be_value (acc * 256 + b) l' end.

Lemma land_ff x : Z.land x 0xff = x mod 256.
Proof. change 0xff with (Z.ones 8). by rewrite Z.land_ones. Qed.

Lemma land_ffffffff x : Z.land x 0xffffffff = x mod 2 ^ 32.
Proof. change 0xffffffff with (Z.ones 32). by rewrite Z.land_ones. Qed.

Lemma enc_byte x : 0 <= Z.land x 0xff < 256.
Proof. rewrite land_ff. apply Z.mod_pos_bound. lia. Qed.

(** Four and two octets with room behind them. *)
Lemma split4 (p : list Z) :
  (4 <= length p)%nat -> exists a b c d r, p = a :: b :: c :: d :: r.
Proof.
  intros H. destruct p as [|a [|b [|c [|d r]]]]; simpl in H; try lia.
  by exists a, b, c, d, r.
Qed.

Lemma vbe16dec_be a b r :
  is_byte a -> is_byte b -> vbe16dec (a :: b :: r) = Ok (be_value 0 [a; b]).
Proof.
  unfold is_byte. intros. unfold vbe16dec. simpl. f_equal.
  rewrite lor_shiftl_add by lia. lia.
Qed.

Lemma vbe32dec_be a b c d r :
  is_byte a -> is_byte b -> is_byte c -> is_byte d ->
  vbe32dec (a :: b :: c :: d :: r) = Ok (be_value 0 [a; b; c; d]).
Proof.
  unfold is_byte. intros. unfold vbe32dec. simpl. f_equal.
  rewrite <- !Z.lor_assoc.
  rewrite (lor_shiftl_add c d 8) by lia.
  rewrite (lor_shiftl_add b _ 16) by lia.
  rewrite (lor_shiftl_add a _ 24) by lia. lia.
Qed.

Lemma vle32dec_rev a b c d r :
  vle32dec (a :: b :: c :: d :: r) = vbe32dec (d :: c :: b :: a :: r).
Proof. reflexivity. Qed.

Lemma vbe32enc_form a b c d r u :
  vbe32enc (a :: b :: c :: d :: r) u =
  Ok (Z.land (Z.shiftr u 24) 0xff :: Z.land (Z.shiftr u 16) 0xff
      :: Z.land (Z.shiftr u 8) 0xff :: Z.land u 0xff :: r).
Proof.
  unfold vbe32enc. run_wr. reflexivity.
Qed.

Lemma be_value_enc32 u :
  0 <= u < 2 ^ 32 ->
  be_value 0 [Z.land (Z.shiftr u 24) 0xff; Z.land (Z.shiftr u 16) 0xff;
              Z.land (Z.shiftr u 8) 0xff; Z.land u 0xff] = u.
Proof.
  intros Hu. simpl be_value. rewrite !land_ff, !Z.shiftr_div_pow2 by lia.
  Z.to_euclidean_division_equations. lia.
Qed.

Lemma vle32enc_form a b c d r u :
  vle32enc (a :: b :: c :: d :: r) u =
  Ok (Z.land u 0xff :: Z.land (Z.shiftr u 8) 0xff
      :: Z.land (Z.shiftr u 16) 0xff :: Z.land (Z.shiftr u 24) 0xff :: r).
Proof. unfold vle32enc. run_wr. reflexivity. Qed.

Lemma vbe16enc_form a b r u :
  vbe16enc (a :: b :: r) u =
  Ok (Z.land (Z.shiftr u 8) 0xff :: Z.land u 0xff :: r).
Proof. unfold vbe16enc. run_wr. reflexivity. Qed.

(** [enc] then [dec] is the identity, and only the first [n] octets are
    written. *)
Definition stores (n : nat) (enc : list Z -> Z -> res (list Z))
    (dec : list Z -> res Z) (p : list Z) (u : Z) : Prop :=
  exists p', enc p u = Ok p' /\ dec p' = Ok u /\
             drop n p' = drop n p /\ length p' = length p.

Lemma vbe16_stores p u :
  0 <= u < 2 ^ 16 -> (2 <= length p)%nat -> stores 2 vbe16enc vbe16dec p u.
Proof.
  intros Hu Hp. destruct p as [|a [|b r]]; simpl in Hp; try lia.
  eexists. rewrite vbe16enc_form. split; [done|].
  rewrite vbe16dec_be by apply enc_byte. split; [|done].
  f_equal. simpl be_value. rewrite !land_ff, !Z.shiftr_div_pow2 by lia.
  Z.to_euclidean_division_equations. lia.
Qed.

Lemma vbe32_stores p u :
  0 <= u < 2 ^ 32 -> (4 <= length p)%nat -> stores 4 vbe32enc vbe32dec p u.
Proof.
  intros Hu Hp. apply split4 in Hp as (a & b & c & d & r & ->).
  eexists. rewrite vbe32enc_form. split; [done|].
  rewrite vbe32dec_be by apply enc_byte. by rewrite be_value_enc32.
Qed.

Lemma vle32_stores p u :
  0 <= u < 2 ^ 32 -> (4 <= length p)%nat -> stores 4 vle32enc vle32dec p u.
Proof.
  intros Hu Hp. apply split4 in Hp as (a & b & c & d & r & ->).
  eexists. rewrite vle32enc_form. split; [done|].
  rewrite vle32dec_rev, vbe32dec_be by apply enc_byte.
  by rewrite be_value_enc32.
Qed.

Lemma vbe64_stores p u :
  0 <= u < 2 ^ 64 -> (8 <= length p)%nat -> stores 8 vbe64enc vbe64dec p u.
Proof.
  intros Hu Hp. unfold stores, vbe64enc, vbe64dec.
  assert (Hh : 0 <= u / 2 ^ 32 < 2 ^ 32)
    by (Z.to_euclidean_division_equations; lia).
  assert (E1 : u32 (Z.shiftr u 32) = u / 2 ^ 32).
  { unfold u32. rewrite Z.shiftr_div_pow2 by lia. by apply Z.mod_small. }
  assert (E2 : u32 (Z.land u 0xffffffff) = u mod 2 ^ 32).
  { unfold u32. rewrite land_ffffffff. by rewrite Z.mod_mod. }
  rewrite E1, E2.
  assert (Hl : 0 <= u mod 2 ^ 32 < 2 ^ 32) by (apply Z.mod_pos_bound; lia).
  destruct (vbe32_stores p (u / 2 ^ 32)) as (p1 & H1 & D1 & R1 & L1);
    [done|lia|].
  rewrite H1. simpl.
  destruct (vbe32_stores (drop 4 p1) (u mod 2 ^ 32)) as (q & H2 & D2 & R2 & L2);
    [done|rewrite length_drop; lia|].
  rewrite H2. simpl. eexists. split; [done|].
  rewrite length_drop in L2.
  assert (Ht : length (take 4 p1) = 4%nat) by (rewrite length_take; lia).
  assert (D1' : vbe32dec (take 4 p1 ++ q) = Ok (u / 2 ^ 32)).
  { assert (4 <= length p1)%nat as (a & b & c & d & r & ->)%split4 by lia.
    exact D1. }
  rewrite D1'. simpl.
  rewrite (drop_app_length' (take 4 p1)) by done. rewrite D2. simpl.
  rewrite lor_shiftl_add by lia.
  rewrite !length_app, Ht, L2. repeat split.
  - f_equal. pose proof (Z.div_mod u (2 ^ 32)). lia.
  - rewrite drop_app_ge, Ht by lia. simpl. rewrite R2, drop_drop.
    change (4 + 4)%nat with 8%nat.
    apply (f_equal (drop 4)) in R1. by rewrite !drop_drop in R1.
  - lia.
Qed.

(** Every width of [vend.h] round-trips: encoding a value that fits
    and decoding the same address gives the value back, and no octet past
    the width is touched. *)
Theorem vend_roundtrip (p : list Z) (u : Z)
  (Hp : (8 <= length p)%nat) (Hu : 0 <= u < 2 ^ 64) :
  stores 8 vbe64enc vbe64dec p u /\
  (u < 2 ^ 32 -> stores 4 vbe32enc vbe32dec p u) /\
  (u < 2 ^ 32 -> stores 4 vle32enc vle32dec p u) /\
  (u < 2 ^ 16 -> stores 2 vbe16enc vbe16dec p u).
Proof.
  split; [by apply vbe64_stores|].
  repeat split; intros.
  - apply vbe32_stores; lia.
  - apply vle32_stores; lia.
  - apply vbe16_stores; lia.
Qed.

Lemma vend_roundtrip_witness :
  stores 8 vbe64enc vbe64dec (replicate 9 7) 0x0102030405060708.
Proof.
  apply (vend_roundtrip (replicate 9 7) 0x0102030405060708).
  - simpl. lia.
  - lia.
Defined.

End Vend.
