(* ===== verification/Ws.v ===== *)
(** Workspaces: [bin/varnishd/cache_ws.c].

    A workspace is a bump allocator over one aligned block of memory, with a
    reservation at its free end.  [struct ws] is [Ws.ws]; addresses are
    integers, 0 is NULL, and the block lies below [2^63] (where pointer
    arithmetic cannot wrap).  The [DSL] debug log calls and the magic number
    are left out; the identity string is kept as the caller's value. *)
From S2P Require Import Prelude.

Module Ws.

(** [PALGN], [PAOK], [PRNDDN], [PRNDUP] of [cache.h], for 8-octet pointers:
    the arithmetic is on [uintptr_t]. *)
Definition PALGN : Z := 8 - 1.
Definition PAOK (p : Z) : bool := Z.land p PALGN =? 0.
Definition PRNDDN (p : Z) : Z := Z.land p (Z.lnot PALGN).
Definition PRNDUP (p : Z) : Z := Z.land (u64 (p + PALGN)) (Z.lnot PALGN).

Record ws := mkWs {
  ws_overflow : Z;   (* unsigned *)
  ws_s : Z;
  ws_f : Z;
  ws_r : Z;
  ws_e : Z;
}.

Definition set_f (w : ws) (f : Z) : ws :=
  mkWs (ws_overflow w) (ws_s w) f (ws_r w) (ws_e w).
Definition set_r (w : ws) (r : Z) : ws :=
  mkWs (ws_overflow w) (ws_s w) (ws_f w) r (ws_e w).

Definition WS_Assert (w : ws) : res unit :=
  vassert (truth (ws_s w));;
  vassert (PAOK (ws_s w));;
  vassert (truth (ws_e w));;
  vassert (PAOK (ws_e w));;
  vassert (ws_s w <? ws_e w);;
  vassert (ws_s w <=? ws_f w);;
  vassert (ws_f w <=? ws_e w);;
  vassert (PAOK (ws_f w));;
  if truth (ws_r w) then
    vassert (ws_s w <? ws_r w);;
    vassert (ws_r w <=? ws_e w);;
    vassert (PAOK (ws_r w))
  else mret tt.

Definition WS_Init (space len : Z) : res ws :=
  vassert (truth space);;
  vassert (PAOK space);;
  let w := mkWs 0 space space 0 (space + len) in
  vassert (PAOK len);;
  WS_Assert w;;
  mret w.

(** [p] is a snapshot, or 0 for the start. *)
Definition WS_Reset (w : ws) (p : Z) : res ws :=
  WS_Assert w;;
  vassert (negb (truth (ws_r w)));;
  w' ← (if p =? 0 then mret (set_f w (ws_s w))
        else vassert (ws_s w <=? p);;
             vassert (p <? ws_e w);;
             mret (set_f w p));
  WS_Assert w';;
  mret w'.

(** The result is the address, 0 on overflow. [bytes] is an [unsigned]
    that the rounding is assigned back to. *)
Definition WS_Alloc (w : ws) (bytes : Z) : res (ws * Z) :=
  WS_Assert w;;
  let bytes := u32 (PRNDUP bytes) in
  vassert (negb (truth (ws_r w)));;
  if ws_e w <? ws_f w + bytes then
    let w' := mkWs (u32 (ws_overflow w + 1)) (ws_s w) (ws_f w) (ws_r w) (ws_e w) in
    WS_Assert w';;
    mret (w', 0)
  else
    let r := ws_f w in
    let w' := set_f w (ws_f w + bytes) in
    WS_Assert w';;
    mret (w', r).

(** The octets of [s], without its NUL, are copied with the NUL. *)
Fixpoint memcpy (m : gmap Z Z) (p : Z) (s : list Z) : gmap Z Z :=
  match s with
  | [] => m
  | c :: s' => <[p := c]> (memcpy m (p + 1) s')
  end.

Definition WS_Dup (m : gmap Z Z) (w : ws) (s : list Z)
  : res (gmap Z Z * ws * Z) :=
  WS_Assert w;;
  let l := u32 (Z.of_nat (length s) + 1) in
  '(w', p) ← WS_Alloc w l;
  let m' := if truth p then memcpy m p (take (Z.to_nat l) (s ++ [0])) else m in
  WS_Assert w';;
  mret (m', w', p).

Definition WS_Free (w : ws) : res Z :=
  WS_Assert w;;
  mret (u32 (ws_e w - ws_f w)).

Definition WS_Snapshot (w : ws) : res Z :=
  WS_Assert w;;
  vassert (negb (truth (ws_r w)));;
  mret (ws_f w).

(** [pdiff] of [cache.h]. *)
Definition pdiff (b e : Z) : res Z :=
  vassert (b <=? e);;
  mret (u32 (e - b)).

Definition WS_Reserve (w : ws) (bytes : Z) : res (ws * Z) :=
  WS_Assert w;;
  vassert (negb (truth (ws_r w)));;
  let b2 := if bytes =? 0 then u32 (ws_e w - ws_f w)
            else if ws_e w - ws_f w <? bytes then u32 (ws_e w - ws_f w)
            else bytes in
  let b2 := u32 (PRNDDN b2) in
  vassert (ws_f w + b2 <=? ws_e w);;
  let w' := set_r w (ws_f w + b2) in
  WS_Assert w';;
  d ← pdiff (ws_f w') (ws_r w');
  mret (w', d).

Definition WS_Release (w : ws) (bytes : Z) : res ws :=
  WS_Assert w;;
  let bytes := u32 (PRNDUP bytes) in
  vassert (bytes <=? ws_e w - ws_f w);;
  vassert (truth (ws_r w));;
  vassert (ws_f w + bytes <=? ws_r w);;
  let w' := set_r (set_f w (ws_f w + bytes)) 0 in
  WS_Assert w';;
  mret w'.

Definition WS_ReleaseP (w : ws) (ptr : Z) : res ws :=
  WS_Assert w;;
  vassert (truth (ws_r w));;
  vassert (ws_f w <=? ptr);;
  vassert (ptr <=? ws_r w);;
  let w' := set_r (set_f w (ws_f w + PRNDUP (ptr - ws_f w))) 0 in
  WS_Assert w';;
  mret w'.

(** ** Alignment arithmetic *)

Lemma land_palgn p : Z.land p PALGN = p mod 8.
Proof. exact (land_mask p 3 ltac:(lia)). Qed.

Lemma PAOK_spec p : PAOK p = true <-> p mod 8 = 0.
Proof. unfold PAOK. rewrite land_palgn. apply Z.eqb_eq. Qed.

Lemma land_not_palgn p : Z.land p (Z.lnot PALGN) = p - p mod 8.
Proof. exact (land_lnot_mask p 3 ltac:(lia)). Qed.

Definition round_up (n : Z) : Z := (n + 7) / 8 * 8.

Lemma PRNDUP_spec n : 0 <= n < 2 ^ 63 -> PRNDUP n = round_up n.
Proof.
  intros Hn. unfold PRNDUP, u64. rewrite land_not_palgn.
  unfold PALGN. change (8 - 1) with 7.
  rewrite (Z.mod_small (n + 7) (2 ^ 64)) by lia. unfold round_up.
  pose proof (Z.div_mod (n + 7) 8). lia.
Qed.

Lemma round_up_bounds n : n <= round_up n < n + 8.
Proof. unfold round_up. Z.to_euclidean_division_equations. lia. Qed.

Lemma round_up_mod n : round_up n mod 8 = 0.
Proof. unfold round_up. apply Z.mod_mul. lia. Qed.

Lemma PRNDDN_spec n : PRNDDN n = n - n mod 8.
Proof. apply land_not_palgn. Qed.

(** ** Well-formed workspaces *)

(** What [WS_Assert] accepts, within the address range of the model. *)
Record ws_ok (w : ws) : Prop := {
  ok_s : 0 < ws_s w;
  ok_lt : ws_s w < ws_e w;
  ok_e : ws_e w < 2 ^ 63;
  ok_f : ws_s w <= ws_f w <= ws_e w;
  ok_s8 : ws_s w mod 8 = 0;
  ok_e8 : ws_e w mod 8 = 0;
  ok_f8 : ws_f w mod 8 = 0;
  ok_r : ws_r w = 0 \/ (ws_s w < ws_r w <= ws_e w /\ ws_r w mod 8 = 0);
}.

(** The block is shorter than [2^32]: every length fits [unsigned]. *)
Definition ws_small (w : ws) : Prop := ws_e w - ws_s w < 2 ^ 32.

Lemma WS_Assert_ok w : ws_ok w -> WS_Assert w = Ok tt.
Proof.
  intros []. unfold WS_Assert.
  rewrite (vassert_true (truth (ws_s w))) by (apply truth_true; lia).
  rewrite (vassert_true (PAOK (ws_s w))) by by apply PAOK_spec.
  rewrite (vassert_true (truth (ws_e w))) by (apply truth_true; lia).
  rewrite (vassert_true (PAOK (ws_e w))) by by apply PAOK_spec.
  rewrite (vassert_true (ws_s w <? ws_e w)) by lia.
  rewrite (vassert_true (ws_s w <=? ws_f w)) by lia.
  rewrite (vassert_true (ws_f w <=? ws_e w)) by lia.
  rewrite (vassert_true (PAOK (ws_f w))) by by apply PAOK_spec.
  simpl. destruct (truth (ws_r w)) eqn:Hr; [|done].
  apply truth_true in Hr. destruct ok_r0 as [|[? ?]]; [done|].
  rewrite (vassert_true (ws_s w <? ws_r w)) by lia.
  rewrite (vassert_true (ws_r w <=? ws_e w)) by lia.
  by rewrite (vassert_true (PAOK (ws_r w))) by by apply PAOK_spec.
Qed.

(** Conversely: what passes [WS_Assert] is well formed. *)
Lemma WS_Assert_inv w :
  WS_Assert w = Ok tt -> 0 <= ws_s w -> ws_e w < 2 ^ 63 -> ws_ok w.
Proof.
  unfold WS_Assert. intros H Hs He. res_inv.
  repeat match goal with
  | E : truth _ = true |- _ => apply truth_true in E
  | E : PAOK _ = true |- _ => apply PAOK_spec in E
  | E : (_ <? _) = true |- _ => apply Z.ltb_lt in E
  | E : (_ <=? _) = true |- _ => apply Z.leb_le in E
  end.
  split; try lia. destruct (truth (ws_r w)) eqn:Er.
  - res_inv. apply PAOK_spec in H.
    repeat match goal with
    | E : (_ <? _) = true |- _ => apply Z.ltb_lt in E
    | E : (_ <=? _) = true |- _ => apply Z.leb_le in E
    end. right. lia.
  - left. destruct (decide (ws_r w = 0)) as [|Hn]; [done|].
    apply truth_true in Hn. congruence.
Qed.

(** ** What each operation does *)

Lemma ws_ok_set_f w f :
  ws_ok w -> ws_s w <= f <= ws_e w -> f mod 8 = 0 -> ws_ok (set_f w f).
Proof. intros [] ??. split; simpl; lia || done. Qed.

Lemma ws_ok_set_r w r :
  ws_ok w -> r = 0 \/ (ws_s w < r <= ws_e w /\ r mod 8 = 0) ->
  ws_ok (set_r w r).
Proof. intros [] ?. split; simpl; lia || done. Qed.

Lemma add_mod8 a b : a mod 8 = 0 -> b mod 8 = 0 -> (a + b) mod 8 = 0.
Proof. intros. Z.to_euclidean_division_equations. lia. Qed.

Lemma truth_0 : truth 0 = false.
Proof. reflexivity. Qed.

(** [ws] with one more overflow counted. *)
Definition overflowed (w : ws) : ws :=
  mkWs (u32 (ws_overflow w + 1)) (ws_s w) (ws_f w) (ws_r w) (ws_e w).

Lemma round_up_u32 n :
  0 <= n <= UINT_MAX - 7 -> u32 (PRNDUP n) = round_up n /\ 0 <= round_up n.
Proof.
  unfold UINT_MAX. intros Hn. rewrite PRNDUP_spec by lia.
  pose proof (round_up_bounds n). split; [|lia]. apply u32_small.
  split; [lia|]. unfold round_up. Z.to_euclidean_division_equations. lia.
Qed.

Lemma WS_Alloc_ok w n :
  ws_ok w -> ws_r w = 0 -> 0 <= n <= UINT_MAX - 7 ->
  WS_Alloc w n =
  if ws_f w + round_up n <=? ws_e w
  then Ok (set_f w (ws_f w + round_up n), ws_f w)
  else Ok (overflowed w, 0).
Proof.
  intros Hw Hr Hn. destruct (round_up_u32 n Hn) as [E H0].
  unfold WS_Alloc. rewrite (WS_Assert_ok w), E, Hr by done. simpl.
  destruct (Z.ltb_spec (ws_e w) (ws_f w + round_up n)).
  - replace (ws_f w + round_up n <=? ws_e w) with false by lia.
    rewrite WS_Assert_ok; [by unfold overflowed; rewrite Hr|].
    destruct Hw. split; simpl; lia || done.
  - replace (ws_f w + round_up n <=? ws_e w) with true by lia.
    rewrite WS_Assert_ok; [done|]. apply ws_ok_set_f; [done| |].
    + destruct Hw; lia.
    + apply add_mod8; [by destruct Hw | apply round_up_mod].
Qed.

(** The room [WS_Reserve] hands out. *)
Definition reserve_room (w : ws) (n : Z) : Z :=
  if n =? 0 then ws_e w - ws_f w
  else Z.min (n - n mod 8) (ws_e w - ws_f w).

Lemma WS_Reserve_ok w n :
  ws_ok w -> ws_small w -> ws_r w = 0 -> 0 <= n <= UINT_MAX ->
  n = 0 \/ 8 <= n \/ ws_s w < ws_f w ->
  WS_Reserve w n = Ok (set_r w (ws_f w + reserve_room w n), reserve_room w n).
Proof.
  unfold UINT_MAX, ws_small. intros Hw Hs Hr Hn Hc.
  assert (Hw' := Hw). destruct Hw' as [h1 h2 h3 h4 h5 h6 h7 h8].
  set (room := ws_e w - ws_f w).
  assert (R8 : room mod 8 = 0)
    by (unfold room; Z.to_euclidean_division_equations; lia).
  assert (Hroom : 0 <= room < 2 ^ 32) by (unfold room; lia).
  unfold WS_Reserve. rewrite (WS_Assert_ok w), Hr, truth_0 by done. simpl.
  fold room. rewrite (u32_small room) by lia.
  assert (E : u32 (PRNDDN (if n =? 0 then room else if room <? n then room else n))
              = reserve_room w n).
  { unfold reserve_room. fold room.
    rewrite PRNDDN_spec. destruct (Z.eqb_spec n 0).
    - rewrite R8, u32_small; lia.
    - destruct (Z.ltb_spec room n).
      + rewrite R8, u32_small by lia. Z.to_euclidean_division_equations. lia.
      + rewrite u32_small; Z.to_euclidean_division_equations; lia. }
  rewrite E.
  assert (B : 0 <= reserve_room w n <= room /\ reserve_room w n mod 8 = 0 /\
              (reserve_room w n = 0 -> ws_s w < ws_f w)).
  { unfold reserve_room. fold room.
    destruct (Z.eqb_spec n 0); [unfold room in *; lia|].
    destruct (Z.min_spec (n - n mod 8) room) as [[? ->]|[? ->]];
      unfold room in *; Z.to_euclidean_division_equations; lia. }
  destruct B as (B1 & B2 & B3).
  rewrite (vassert_true (ws_f w + reserve_room w n <=? ws_e w))
    by (unfold room in *; lia).
  simpl. rewrite WS_Assert_ok.
  - simpl. unfold pdiff. rewrite vassert_true by lia. simpl.
    rewrite u32_small by lia. f_equal. f_equal. lia.
  - apply ws_ok_set_r; [done|]. right. split; [unfold room in *|].
    + destruct (decide (reserve_room w n = 0)); lia.
    + by apply add_mod8.
Qed.

Lemma reserve_room_bounds w n : ws_ok w -> 0 <= n ->
  0 <= reserve_room w n <= ws_e w - ws_f w /\ reserve_room w n mod 8 = 0 /\
  (reserve_room w n = 0 -> n = 0 \/ 8 <= n \/ ws_s w < ws_f w -> ws_s w < ws_f w).
Proof.
  intros [h1 h2 h3 h4 h5 h6 h7 h8] Hn. unfold reserve_room.
  destruct (Z.eqb_spec n 0); [Z.to_euclidean_division_equations; lia|].
  destruct (Z.min_spec (n - n mod 8) (ws_e w - ws_f w)) as [[? ->]|[? ->]]; Z.to_euclidean_division_equations; lia.
Qed.

Lemma WS_Init_ok space len : 0 < space /\ space mod 8 = 0 -> 0 < len < 2 ^ 32 /\ len mod 8 = 0 /\ space + len < 2 ^ 63 ->
  WS_Init space len = Ok (mkWs 0 space space 0 (space + len)) /\ ws_ok (mkWs 0 space space 0 (space + len)).
Proof.
  intros [Hs Hs8] (Hl & Hl8 & Hb).
  assert (Hw : ws_ok (mkWs 0 space space 0 (space + len))).
  { split; simpl; try lia; try done. by apply add_mod8. }
  split; [|done]. unfold WS_Init. rewrite (vassert_true (truth space)) by (apply truth_true; lia).
  rewrite (vassert_true (PAOK space)) by by apply PAOK_spec. rewrite (vassert_true (PAOK len)) by by apply PAOK_spec.
  cbn [mbind res_bind]. by rewrite WS_Assert_ok.
Qed.

Lemma WS_Release_ok w n :
  ws_ok w -> ws_r w <> 0 -> 0 <= n <= UINT_MAX - 7 ->
  ws_f w + round_up n <= ws_r w ->
  WS_Release w n = Ok (set_r (set_f w (ws_f w + round_up n)) 0).
Proof.
  intros Hw Hr Hn Hfit. destruct (round_up_u32 n Hn) as [E H0].
  assert (Hw' := Hw). destruct Hw' as [h1 h2 h3 h4 h5 h6 h7 h8].
  unfold WS_Release. rewrite (WS_Assert_ok w), E by done. simpl.
  rewrite (vassert_true (round_up n <=? _)) by lia. simpl.
  rewrite (vassert_true (truth _)) by by apply truth_true. simpl.
  rewrite vassert_true by lia. simpl.
  rewrite WS_Assert_ok; [done|]. apply ws_ok_set_r; [|by left].
  apply ws_ok_set_f; [done|lia|]. apply add_mod8; [done|apply round_up_mod].
Qed.

Lemma WS_ReleaseP_ok w p :
  ws_ok w -> ws_r w <> 0 -> ws_f w <= p <= ws_r w ->
  WS_ReleaseP w p = Ok (set_r (set_f w (ws_f w + round_up (p - ws_f w))) 0) /\
  ws_f w + round_up (p - ws_f w) <= ws_r w.
Proof.
  intros Hw Hr Hp.
  assert (Hw' := Hw). destruct Hw' as [h1 h2 h3 h4 h5 h6 h7 [?|h8]]; [done|].
  assert (Hle : ws_f w + round_up (p - ws_f w) <= ws_r w).
  { unfold round_up. Z.to_euclidean_division_equations. lia. }
  split; [|done]. pose proof (round_up_bounds (p - ws_f w)).
  unfold WS_ReleaseP. rewrite (WS_Assert_ok w) by done. simpl.
  rewrite (vassert_true (truth _)) by by apply truth_true. simpl.
  rewrite !vassert_true by lia. simpl. rewrite PRNDUP_spec by lia.
  rewrite WS_Assert_ok; [done|]. apply ws_ok_set_r; [|by left].
  apply ws_ok_set_f; [done|lia|]. apply add_mod8; [done|apply round_up_mod].
Qed.

Lemma WS_Snapshot_ok w :
  ws_ok w -> ws_r w = 0 -> WS_Snapshot w = Ok (ws_f w).
Proof. intros Hw Hr. unfold WS_Snapshot. by rewrite WS_Assert_ok, Hr. Qed.

Lemma WS_Reset_ok w p :
  ws_ok w -> ws_r w = 0 -> p = 0 \/ (ws_s w <= p < ws_e w /\ p mod 8 = 0) ->
  WS_Reset w p = Ok (set_f w (if p =? 0 then ws_s w else p)).
Proof.
  intros Hw Hr Hp. assert (Hw' := Hw). destruct Hw' as [h1 h2 h3 h4 h5 h6 h7 h8].
  unfold WS_Reset. rewrite (WS_Assert_ok w), Hr by done. simpl.
  destruct (Z.eqb_spec p 0); simpl.
  - rewrite WS_Assert_ok; [done|]. apply ws_ok_set_f; lia || done.
  - destruct Hp as [?|[? ?]]; [done|]. rewrite !vassert_true by lia. simpl.
    rewrite WS_Assert_ok; [done|]. apply ws_ok_set_f; lia || done.
Qed.

(** ** A client's view: the chunks it holds

    A client holds the chunks that [WS_Alloc] and the releases gave it, until
    it resets the workspace below them.  A chunk records the length that was
    asked for. *)
Definition chunk : Type := Z * Z.
Definition chunk_end (c : chunk) : Z := fst c + snd c.

Inductive ws_op :=
  | OpAlloc (n : Z) | OpDup (m : gmap Z Z) (t : list Z) | OpReserve (n : Z)
  | OpRelease (n : Z) | OpReleaseP (p : Z) | OpReset (p : Z) | OpSnapshot | OpFree.

(** The contract of each call: a reservation is open, or none is; what is released lies
    in it; a length can be rounded up in an [unsigned]; the workspace is reset to its
    begin or to an aligned point that it has passed, the end of it excluded (see
    [ws_snapshot_reset]); and an empty workspace has eight octets reserved, at least. *)
Definition ws_pre (o : ws_op) (w : ws) : Prop :=
  match o with
  | OpAlloc n => ws_r w = 0 /\ 0 <= n <= UINT_MAX - 7
  | OpDup _ t => ws_r w = 0 /\ Z.of_nat (length t) < UINT_MAX - 7
  | OpReserve n => ws_r w = 0 /\ 0 <= n <= UINT_MAX /\ (n = 0 \/ 8 <= n \/ ws_s w < ws_f w)
  | OpRelease n => ws_r w <> 0 /\ 0 <= n <= UINT_MAX - 7 /\ ws_f w + round_up n <= ws_r w
  | OpReleaseP p => ws_r w <> 0 /\ ws_f w <= p <= ws_r w
  | OpReset p => ws_r w = 0 /\ (p = 0 \/ p mod 8 = 0 /\ ws_s w <= p <= ws_f w /\ p < ws_e w)
  | OpSnapshot => ws_r w = 0
  | OpFree => True
  end.

Definition ws_run (o : ws_op) (x : ws * list chunk) : res (ws * list chunk) :=
  let '(w, cs) := x in
  match o with
  | OpAlloc n => '(w', p) ← WS_Alloc w n; mret (w', if truth p then (p, n) :: cs else cs)
  | OpDup m t => '(_, w', p) ← WS_Dup m w t; mret (w', if truth p then (p, Z.of_nat (length t) + 1) :: cs else cs)
  | OpReserve n => '(w', _) ← WS_Reserve w n; mret (w', cs)
  | OpRelease n => w' ← WS_Release w n; mret (w', (ws_f w, n) :: cs)
  | OpReleaseP p => w' ← WS_ReleaseP w p; mret (w', (ws_f w, p - ws_f w) :: cs)
  | OpReset p => w' ← WS_Reset w p; mret (w', filter (fun c => chunk_end c <= (if p =? 0 then ws_s w else p)) cs)
  | OpSnapshot => p ← WS_Snapshot w; mret (w, cs)
  | OpFree => n ← WS_Free w; mret (w, cs)
  end.

Fixpoint ws_calls (os : list ws_op) (x : ws * list chunk) : res (ws * list chunk) :=
  match os with [] => mret x | o :: os => x ← ws_run o x; ws_calls os x end.

(** Every call is within its contract in the state that the calls before it left. *)
Fixpoint obeys (os : list ws_op) (x : ws * list chunk) : Prop :=
  match os with [] => True | o :: os => ws_pre o (fst x) /\ forall x', ws_run o x = Ok x' -> obeys os x' end.

(** Chunks lie in the used part, and no two overlap. *)
Definition chunk_in (w : ws) (c : chunk) : Prop :=
  ws_s w <= fst c /\ 0 <= snd c /\ chunk_end c <= ws_f w /\ fst c mod 8 = 0.
Definition chunk_apart (c d : chunk) : Prop :=
  chunk_end c <= fst d \/ chunk_end d <= fst c.

(** The chunks, youngest first, go down in memory. *)
Fixpoint descending (top : Z) (cs : list chunk) : Prop :=
  match cs with
  | [] => True
  | c :: cs' => 0 <= snd c /\ chunk_end c <= top /\ descending (fst c) cs'
  end.

Record client_ok (w : ws) (cs : list chunk) : Prop := {
  cl_ws : ws_ok w;
  cl_in : Forall (chunk_in w) cs;
  cl_desc : descending (ws_f w) cs;
}.

Lemma descending_mono t t' cs : t <= t' -> descending t cs -> descending t' cs.
Proof. destruct cs; simpl; [done|]. intros ? (? & ? & ?). lia || (split_and!; lia || done). Qed.

Lemma descending_filter top cs (lim : Z) :
  descending top cs ->
  descending (Z.min top lim) (filter (fun c => chunk_end c <= lim) cs).
Proof.
  revert top. induction cs as [|c cs IH]; intros top; simpl; [done|].
  intros (H1 & H2 & H3). rewrite filter_cons. apply IH in H3.
  destruct (decide (chunk_end c <= lim)); simpl.
  - split_and!; [done|lia|]. eapply descending_mono; [|exact H3]. lia.
  - eapply descending_mono; [|exact H3]. unfold chunk_end in *. lia.
Qed.

Lemma descending_apart top cs i j c d :
  descending top cs -> (i < j)%nat -> cs !! i = Some c -> cs !! j = Some d ->
  chunk_end d <= fst c.
Proof.
  revert top i j. induction cs as [|x cs IH]; intros top i j; simpl; [done|].
  intros (H1 & H2 & H3) Hij Hi Hj.
  destruct j as [|j]; [lia|]. destruct i as [|i]; simpl in *.
  - simplify_eq. clear IH Hij H1 H2.
    revert c H3 j Hj. induction cs as [|y cs IH]; intros c H3 j Hj; [done|].
    simpl in H3. destruct H3 as (? & ? & ?).
    destruct j; simpl in *; simplify_eq; [done|].
    assert (chunk_end d <= fst y) by eauto. unfold chunk_end in *. lia.
  - apply (IH _ i j H3); [lia|done|done].
Qed.

Lemma chunk_in_mono w w' c :
  ws_s w' = ws_s w -> ws_f w <= ws_f w' -> chunk_in w c -> chunk_in w' c.
Proof. unfold chunk_in. intros -> ? (? & ? & ? & ?). repeat split; lia || done. Qed.

Lemma client_ok_keep w w' cs :
  client_ok w cs -> ws_ok w' -> ws_s w' = ws_s w -> ws_f w' = ws_f w ->
  client_ok w' cs.
Proof.
  intros [] Hw' Hs Hf. split; [done| |by rewrite Hf].
  eapply Forall_impl; [done|]. intros c. apply chunk_in_mono; lia.
Qed.

Lemma client_ok_push w w' cs n :
  client_ok w cs -> ws_ok w' -> ws_s w' = ws_s w -> 0 <= n ->
  ws_f w + n <= ws_f w' ->
  client_ok w' ((ws_f w, n) :: cs).
Proof.
  intros [Hw Hin Hd] Hw' Hs Hn Hf. split; [done| |].
  - constructor.
    + destruct Hw. repeat split; simpl; unfold chunk_end; simpl; lia || done.
    + eapply Forall_impl; [done|]. intros c. apply chunk_in_mono; lia.
  - simpl. unfold chunk_end. simpl. split_and!; lia || done.
Qed.

Lemma truth_neq z : z <> 0 -> truth z = true.
Proof. by rewrite truth_true. Qed.

(** [WS_Dup] leaves the workspace as [WS_Alloc] does. *)
Lemma WS_Dup_ok m w t : ws_ok w -> ws_r w = 0 -> Z.of_nat (length t) < UINT_MAX - 7 ->
  let n := round_up (Z.of_nat (length t) + 1) in
  exists m', WS_Dup m w t = if ws_f w + n <=? ws_e w then Ok (m', set_f w (ws_f w + n), ws_f w) else Ok (m, overflowed w, 0).
Proof.
  intros Hw Hr Ht n. assert (Hn : 0 <= Z.of_nat (length t) + 1 <= UINT_MAX - 7) by lia.
  unfold WS_Dup. rewrite (WS_Assert_ok w), (u32_small (_ + 1)) by (done || unfold UINT_MAX in *; lia). cbn [mbind res_bind].
  rewrite WS_Alloc_ok by done. fold n. pose proof (round_up_bounds (Z.of_nat (length t) + 1)).
  destruct (Z.leb_spec (ws_f w + n) (ws_e w)) as [Hfit|Hno]; cbn [mbind res_bind].
  - rewrite WS_Assert_ok; [by eexists|]. apply ws_ok_set_f; [done|destruct Hw; lia|].
    apply add_mod8; [by destruct Hw|apply round_up_mod].
  - rewrite WS_Assert_ok; [by exists m|]. destruct Hw; split; simpl; lia || done.
Qed.

(** A call within its contract returns, and keeps what the client holds apart. *)
Lemma ws_run_ok o w cs : client_ok w cs -> ws_small w -> ws_pre o w -> exists w' cs',
  ws_run o (w, cs) = Ok (w', cs') /\ client_ok w' cs' /\ ws_s w' = ws_s w /\ ws_e w' = ws_e w.
Proof.
  intros Hc Hsm Hpre. assert (Hw := cl_ws _ _ Hc). assert (Hw' := Hw). destruct Hw' as [h1 h2 h3 h4 h5 h6 h7 h8].
  assert (Hgrow : forall n, 0 <= n -> ws_f w + round_up n <= ws_e w -> ws_ok (set_f w (ws_f w + round_up n))).
  { intros n ? ?. pose proof (round_up_bounds n). apply ws_ok_set_f; [done|lia|apply add_mod8; [done|apply round_up_mod]]. }
  assert (Hover : client_ok (overflowed w) cs).
  { eapply client_ok_keep; [done| |done|done]. split; simpl; lia || done. }
  destruct o as [n|m t|n|n|p|p| |]; cbn [ws_run ws_pre] in *.
  - destruct Hpre as [Hr Hn]. rewrite WS_Alloc_ok by done. pose proof (round_up_bounds n).
    destruct (Z.leb_spec (ws_f w + round_up n) (ws_e w)); cbn [mbind res_bind mret res_ret].
    + rewrite truth_neq by lia. do 2 eexists. split_and!; [done| |done|done].
      apply client_ok_push; [done|apply Hgrow; lia|done|lia|simpl; lia].
    + do 2 eexists. split_and!; [done|exact Hover|done|done].
  - destruct Hpre as [Hr Hn]. destruct (WS_Dup_ok m w t Hw Hr Hn) as (m' & ->). pose proof (round_up_bounds (Z.of_nat (length t) + 1)).
    destruct (Z.leb_spec (ws_f w + round_up (Z.of_nat (length t) + 1)) (ws_e w)); cbn [mbind res_bind mret res_ret].
    + rewrite truth_neq by lia. do 2 eexists. split_and!; [done| |done|done].
      apply client_ok_push; [done|apply Hgrow; lia|done|lia|simpl; lia].
    + do 2 eexists. split_and!; [done|exact Hover|done|done].
  - destruct Hpre as (Hr & Hn & Hx). rewrite WS_Reserve_ok by done. cbn [mbind res_bind mret res_ret]. do 2 eexists. split_and!; [done| |done|done].
    eapply client_ok_keep; [done| |done|done]. apply ws_ok_set_r; [done|right].
    destruct (reserve_room_bounds w n Hw (proj1 Hn)) as (B1 & B2 & B3). split; [|by apply add_mod8].
    destruct (decide (reserve_room w n = 0)); lia.
  - destruct Hpre as (Hr & Hn & Hfit). pose proof (round_up_bounds n). assert (ws_r w <= ws_e w) by lia.
    rewrite WS_Release_ok by done. cbn [mbind res_bind mret res_ret]. do 2 eexists. split_and!; [done| |done|done].
    apply client_ok_push; [done| |done|lia|simpl; lia]. apply ws_ok_set_r; [apply Hgrow; lia|by left].
  - destruct Hpre as (Hr & Hp). destruct (WS_ReleaseP_ok w p Hw Hr Hp) as [-> Hfit]. pose proof (round_up_bounds (p - ws_f w)).
    assert (ws_r w <= ws_e w) by lia. cbn [mbind res_bind mret res_ret]. do 2 eexists. split_and!; [done| |done|done].
    apply client_ok_push; [done| |done|lia|simpl; lia]. apply ws_ok_set_r; [apply Hgrow; lia|by left].
  - destruct Hpre as (Hr & Hp). rewrite WS_Reset_ok; [|done|done|destruct Hp as [?|(? & ? & ?)]; [by left|right; split; [lia|done]]].
    cbn [mbind res_bind mret res_ret]. do 2 eexists. split_and!; [done| |done|done].
    assert (Hq : ws_s w <= (if p =? 0 then ws_s w else p) <= ws_f w /\ (if p =? 0 then ws_s w else p) mod 8 = 0).
    { destruct (Z.eqb_spec p 0); [split; [lia|done]|]. destruct Hp as [?|(? & ? & ?)]; [done|split; [lia|done]]. }
    destruct Hq as [Hq Hq8]. destruct Hc as [_ Hin Hd]. split; [apply ws_ok_set_f; [done|lia|done]| |].
    + apply Forall_forall. intros c [Hlim Hc]%list_elem_of_filter. rewrite Forall_forall in Hin. apply Hin in Hc as (? & ? & ? & ?).
      repeat split; simpl; lia || done.
    + apply (descending_filter _ _ (if p =? 0 then ws_s w else p)) in Hd. eapply descending_mono; [|exact Hd]. simpl. lia.
  - rewrite WS_Snapshot_ok by done. exists w, cs. by split_and!.
  - unfold WS_Free. rewrite WS_Assert_ok by done. exists w, cs. by split_and!.
Qed.

Lemma ws_calls_ok os w cs : client_ok w cs -> ws_small w -> obeys os (w, cs) -> exists w' cs',
  ws_calls os (w, cs) = Ok (w', cs') /\ client_ok w' cs' /\ ws_s w' = ws_s w /\ ws_e w' = ws_e w.
Proof.
  revert w cs. induction os as [|o os IH]; intros w cs Hc Hs Ho; cbn [ws_calls].
  - exists w, cs. by split_and!.
  - destruct Ho as [Hpre Ho]. destruct (ws_run_ok o w cs Hc Hs Hpre) as (w1 & cs1 & E & Hc1 & Es & Ee). rewrite E. cbn [mbind res_bind].
    destruct (IH w1 cs1 Hc1) as (w2 & cs2 & E2 & Hc2 & Es2 & Ee2); [unfold ws_small in *; by rewrite Es, Ee|by apply Ho|].
    exists w2, cs2. by rewrite Es2, Ee2.
Qed.

(** Octet [i] of a string with its NUL is at [p + i] after the copy. *)
Lemma memcpy_lookup m p l i :
  (i < length l)%nat -> memcpy m p l !! (p + Z.of_nat i) = l !! i.
Proof.
  revert m p i. induction l as [|c l IH]; intros m p i Hi; simpl in *; [lia|].
  destruct i as [|i]; simpl.
  - rewrite Z.add_0_r. by rewrite lookup_insert_eq.
  - rewrite lookup_insert_ne by lia.
    replace (p + Z.of_nat (S i)) with (p + 1 + Z.of_nat i) by lia.
    apply IH. lia.
Qed.

Lemma memcpy_other m p l a :
  ~ (p <= a < p + Z.of_nat (length l)) -> memcpy m p l !! a = m !! a.
Proof.
  revert m p. induction l as [|c l IH]; intros m p Ha; simpl in *; [done|].
  rewrite lookup_insert_ne by lia. apply IH. lia.
Qed.

(** C37. On an aligned block below 4 GiB no assertion of a workspace fails, [WS_Assert]
    before and after every call among them, whatever a client does within the contracts
    of the calls: [WS_Init], and then every sequence of allocations, copies of strings,
    reservations, releases, resets to a point it has passed, snapshots and questions,
    return.  And the chunks that the client still holds then are aligned, inside the
    block, and no two of them overlap. *)
Theorem ws_client_safe (space len : Z) (os : list ws_op)
  (Hspace : 0 < space /\ space mod 8 = 0) (Hlen : 0 < len < 2 ^ 32 /\ len mod 8 = 0 /\ space + len < 2 ^ 63)
  (Hos : forall w0, WS_Init space len = Ok w0 -> obeys os (w0, [])) :
  exists w0 w cs, WS_Init space len = Ok w0 /\ ws_calls os (w0, []) = Ok (w, cs) /\ WS_Assert w = Ok tt /\
  (forall i c, cs !! i = Some c ->
     fst c mod 8 = 0 /\ space <= fst c /\ chunk_end c <= space + len) /\
  (forall i j c d, cs !! i = Some c -> cs !! j = Some d -> i <> j ->
     chunk_apart c d).
Proof.
  destruct (WS_Init_ok space len Hspace Hlen) as [E0 Hw0].
  destruct (ws_calls_ok os (mkWs 0 space space 0 (space + len)) []) as (w & cs & E & [Hw Hin Hd] & Hs & He);
    [split; [done|constructor|done]|unfold ws_small; simpl; lia|by apply Hos|].
  exists (mkWs 0 space space 0 (space + len)), w, cs. split_and!; [done|done|by apply WS_Assert_ok| |].
  - rewrite Forall_lookup in Hin. simpl in Hs, He. intros i c (? & ? & ? & ?)%Hin. destruct Hw. lia.
  - intros i j c d Hi Hj Hne. destruct (Nat.lt_total i j) as [?|[?|?]]; [|done|].
    + right. by eapply (descending_apart _ _ i j).
    + left. by eapply (descending_apart _ _ j i).
Qed.

(** Two chunks, a reset below the second, and a reservation of which twelve octets are kept. *)
Definition ex_ops : list ws_op := [OpAlloc 20; OpAlloc 5; OpReset 4120; OpReserve 0; OpRelease 12].

Lemma ws_client_safe_witness :
  exists w0 w, WS_Init 4096 64 = Ok w0 /\ ws_calls ex_ops (w0, []) = Ok (w, [(4120, 12); (4096, 20)]) /\
    WS_Assert w = Ok tt /\ chunk_apart (4096, 20) (4120, 12).
Proof.
  destruct (ws_client_safe 4096 64 ex_ops) as (w0 & w & cs & E0 & E & Ha & _ & Hd); [by split|by split_and!| |].
  - intros w0 E. vm_compute in E. injection E as <-. cbn [obeys ex_ops].
    split; [by vm_compute|]. intros x E. vm_compute in E. injection E as <-.
    split; [by vm_compute|]. intros x E. vm_compute in E. injection E as <-.
    split; [split; [done|right; by vm_compute]|]. intros x E. vm_compute in E. injection E as <-.
    split; [split_and!; [done|done|done|by left]|]. intros x E. vm_compute in E. injection E as <-.
    split; [by vm_compute|]. done.
  - exists w0, w. assert (Ec : cs = [(4120, 12); (4096, 20)]).
    { vm_compute in E0. injection E0 as <-. vm_compute in E. by injection E as _ <-. }
    subst cs. split_and!; [exact E0|exact E|exact Ha|]. exact (Hd 1%nat 0%nat (4096, 20) (4120, 12) eq_refl eq_refl ltac:(lia)).
Defined.

(** [WS_Alloc] of one of the seven largest lengths an [unsigned] can hold
    succeeds on any workspace without taking any room: the rounding to a
    multiple of eight is done in 64 bits and truncated back to zero. *)
Theorem ws_alloc_wraps (w : ws) (n : Z)
  (Hw : ws_ok w) (Hr : ws_r w = 0) (Hn : UINT_MAX - 7 < n <= UINT_MAX) :
  WS_Alloc w n = Ok (w, ws_f w).
Proof.
  unfold UINT_MAX in Hn.
  assert (E : u32 (PRNDUP n) = 0).
  { rewrite PRNDUP_spec by lia.
    assert (round_up n = 2 ^ 32) as ->; [|done].
    unfold round_up. Z.to_euclidean_division_equations. lia. }
  unfold WS_Alloc. rewrite (WS_Assert_ok w), E, Hr, Z.add_0_r by done. simpl.
  replace (ws_e w <? ws_f w) with false by (destruct Hw; lia).
  assert (set_f w (ws_f w) = w) as -> by by destruct w.
  by rewrite WS_Assert_ok.
Qed.

Lemma ws_alloc_wraps_witness :
  WS_Alloc (mkWs 0 4096 4096 0 4104) 0xfffffffc =
  Ok (mkWs 0 4096 4096 0 4104, 4096).
Proof.
  apply (ws_alloc_wraps (mkWs 0 4096 4096 0 4104) 0xfffffffc).
  - split; simpl; try done. by left.
  - reflexivity.
  - unfold UINT_MAX. lia.
Defined.

(** [WS_Reset] to a [WS_Snapshot] restores the workspace, except when the
    workspace is exactly full: then [WS_Reset] refuses the address that
    [WS_Snapshot] itself gave, and the process stops. *)
Theorem ws_snapshot_reset (w : ws) (Hw : ws_ok w) (Hr : ws_r w = 0) :
  (p ← WS_Snapshot w; WS_Reset w p) =
  if ws_f w <? ws_e w then Ok w else Fail FAssert.
Proof.
  rewrite WS_Snapshot_ok by done. simpl.
  assert (Hw' := Hw). destruct Hw' as [h1 h2 h3 h4 h5 h6 h7 h8].
  destruct (Z.ltb_spec (ws_f w) (ws_e w)).
  - rewrite WS_Reset_ok by (lia || done).
    replace (ws_f w =? 0) with false by lia. by destruct w.
  - unfold WS_Reset. rewrite (WS_Assert_ok w), Hr by done. simpl.
    replace (ws_f w =? 0) with false by lia.
    rewrite (vassert_true (ws_s w <=? ws_f w)) by lia. simpl.
    by replace (ws_f w <? ws_e w) with false by lia.
Qed.

Lemma ws_snapshot_reset_witness :
  (p ← WS_Snapshot (mkWs 0 4096 4104 0 4104);
   WS_Reset (mkWs 0 4096 4104 0 4104) p) = Fail FAssert.
Proof.
  rewrite (ws_snapshot_reset (mkWs 0 4096 4104 0 4104)).
  - reflexivity.
  - split; simpl; try done. by left.
  - reflexivity.
Defined.

(** [WS_Dup] of a string: when the string and its NUL fit, the result is
    the old free pointer, the octets there are the string with its NUL, and no
    other octet changed; when they do not, NULL, nothing is written and one
    overflow is counted. *)
Theorem ws_dup_spec (m : gmap Z Z) (w : ws) (s : list Z)
  (Hw : ws_ok w) (Hr : ws_r w = 0)
  (Hs : Z.of_nat (length s) < UINT_MAX - 7) :
  let n := round_up (Z.of_nat (length s) + 1) in
  if ws_f w + n <=? ws_e w then
    exists m', WS_Dup m w s = Ok (m', set_f w (ws_f w + n), ws_f w) /\
      (forall i, (i <= length s)%nat ->
         m' !! (ws_f w + Z.of_nat i) = (s ++ [0]) !! i) /\
      (forall a, ~ (ws_f w <= a < ws_f w + n) -> m' !! a = m !! a)
  else WS_Dup m w s = Ok (m, overflowed w, 0).
Proof.
  intros n. unfold UINT_MAX in Hs.
  assert (El : u32 (Z.of_nat (length s) + 1) = Z.of_nat (length s) + 1)
    by (apply u32_small; lia).
  assert (HA := WS_Alloc_ok w (Z.of_nat (length s) + 1) Hw Hr).
  unfold UINT_MAX in HA. specialize (HA ltac:(lia)). fold n in HA.
  pose proof (round_up_bounds (Z.of_nat (length s) + 1)) as Hb. fold n in Hb.
  unfold WS_Dup. rewrite (WS_Assert_ok w), El, HA by done.
  destruct (Z.leb_spec (ws_f w + n) (ws_e w)) as [Hfit|Hno]; simpl.
  - assert (truth (ws_f w) = true) as -> by (apply truth_true; destruct Hw; lia).
    rewrite WS_Assert_ok.
    2:{ apply ws_ok_set_f; [done|destruct Hw; lia|].
        apply add_mod8; [by destruct Hw|apply round_up_mod]. }
    simpl. eexists. split; [done|].
    rewrite take_ge by (rewrite length_app; simpl; lia). split.
    + intros i Hi. apply memcpy_lookup. rewrite length_app. simpl. lia.
    + intros a Ha. apply memcpy_other. rewrite length_app. simpl. lia.
  - rewrite WS_Assert_ok; [done|]. destruct Hw; split; simpl; lia || done.
Qed.

Lemma ws_dup_spec_witness :
  exists m', WS_Dup ∅ (mkWs 0 4096 4096 0 4160) [104; 105] =
    Ok (m', mkWs 0 4096 4104 0 4160, 4096) /\ m' !! 4097 = Some 105.
Proof.
  destruct (ws_dup_spec ∅ (mkWs 0 4096 4096 0 4160) [104; 105])
    as (m' & H & Hi & _).
  - split; simpl; try done. by left.
  - reflexivity.
  - vm_compute. reflexivity.
  - exists m'. split; [exact H|]. exact (Hi 1%nat ltac:(simpl; lia)).
Defined.

End Ws.
