(* ===== verification/Vsb.v ===== *)
(** String buffers: [lib/libvarnish/vsb.c].

    [struct vsb] is [Vsb.vsb].  [malloc] is a parameter: it either refuses or
    gives an object of the size asked for, with arbitrary contents.  Formatted
    output is modelled from what [vsnprintf] would write: the functions take
    the text that the format and its arguments denote.  Characters are octets;
    [isgraph] and [isspace] are those of the C locale. *)
From S2P Require Import Prelude.

Module Vsb.

Definition VSB_MAGIC : Z := 0x4a82dd8a.
Definition VSB_FIXEDLEN : Z := 0x00000000.
Definition VSB_AUTOEXTEND : Z := 0x00000001.
Definition VSB_USRFLAGMSK : Z := 0x0000ffff.
Definition VSB_DYNAMIC : Z := 0x00010000.
Definition VSB_FINISHED : Z := 0x00020000.
Definition VSB_DYNSTRUCT : Z := 0x00080000.

Definition VSB_MINEXTENDSIZE : Z := 16.
Definition VSB_MAXEXTENDSIZE : Z := 4096.
Definition VSB_MAXEXTENDINCR : Z := 4096.

Definition ENOMEM : Z := 12.

Record vsb := mkVsb {
  s_magic : Z;
  s_buf : option (list Z);     (* None: NULL *)
  s_error : Z;
  s_size : Z;
  s_len : Z;
  s_flags : Z;
}.

Definition with_buf (s : vsb) b :=
  mkVsb (s_magic s) b (s_error s) (s_size s) (s_len s) (s_flags s).
Definition with_error (s : vsb) e :=
  mkVsb (s_magic s) (s_buf s) e (s_size s) (s_len s) (s_flags s).
Definition with_size (s : vsb) n :=
  mkVsb (s_magic s) (s_buf s) (s_error s) n (s_len s) (s_flags s).
Definition with_len (s : vsb) n :=
  mkVsb (s_magic s) (s_buf s) (s_error s) (s_size s) n (s_flags s).
Definition with_flags (s : vsb) f :=
  mkVsb (s_magic s) (s_buf s) (s_error s) (s_size s) (s_len s) f.

(** The predicates and flag macros at the top of the file. *)
Definition VSB_ISDYNAMIC (s : vsb) : bool := truth (Z.land (s_flags s) VSB_DYNAMIC).
Definition VSB_ISDYNSTRUCT (s : vsb) : bool :=
  truth (Z.land (s_flags s) VSB_DYNSTRUCT).
Definition VSB_ISFINISHED (s : vsb) : bool :=
  truth (Z.land (s_flags s) VSB_FINISHED).
Definition VSB_HASROOM (s : vsb) : bool := s_len s <? s_size s - 1.
Definition VSB_FREESPACE (s : vsb) : Z := s_size s - (s_len s + 1).
Definition VSB_CANEXTEND (s : vsb) : bool :=
  truth (Z.land (s_flags s) VSB_AUTOEXTEND).
Definition VSB_SETFLAG (s : vsb) (f : Z) : vsb :=
  with_flags s (Z.lor (s_flags s) f).
Definition VSB_CLEARFLAG (s : vsb) (f : Z) : vsb :=
  with_flags s (Z.land (s_flags s) (Z.lnot f)).

Definition roundup2 (x y : Z) : Z := Z.land (x + (y - 1)) (Z.lnot (y - 1)).

(** Conversion to a 32-bit [int]. *)
Definition int_of (z : Z) : Z := (z + 2 ^ 31) mod 2 ^ 32 - 2 ^ 31.

Definition assert_VSB_integrity (s : vsb) : res unit :=
  vassert (s_magic s =? VSB_MAGIC);;
  vassert (bool_decide (s_buf s <> None));;
  vassert (s_len s <? s_size s).

Definition assert_VSB_state (s : vsb) (state : Z) : res unit :=
  vassert (Z.land (s_flags s) VSB_FINISHED =? state).

(** [while (newsize < size) newsize *= 2;] — 16 doublings take any start
    above any size below [VSB_MAXEXTENDSIZE]. *)
Fixpoint double_until (fuel : nat) (newsize size : Z) : res Z :=
  if newsize <? size then
    match fuel with
    | O => Fail FFuel
    | S fuel => double_until fuel (newsize * 2) size
    end
  else mret newsize.

Definition VSB_extendsize (size : Z) : res Z :=
  newsize ← (if size <? VSB_MAXEXTENDSIZE
             then double_until 16 VSB_MINEXTENDSIZE size
             else mret (roundup2 size VSB_MAXEXTENDINCR));
  vassert (size <=? newsize);;
  mret newsize.

(** [memcpy(dst, src, n)] between two objects. *)
Definition memcpy (dst src : list Z) (n : Z) : res (list Z) :=
  if (0 <=? n) && (n <=? Z.of_nat (length dst)) && (n <=? Z.of_nat (length src))
  then mret (take (Z.to_nat n) src ++ drop (Z.to_nat n) dst)
  else Fail FMemory.

Section Malloc.

Variable malloc : Z -> option (list Z).

Definition VSB_extend (s : vsb) (addlen : Z) : res (vsb * Z) :=
  if negb (VSB_CANEXTEND s) then mret (s, -1) else
  newsize ← VSB_extendsize (int_of (s_size s + addlen));
  match malloc newsize with
  | None => mret (s, -1)
  | Some newbuf =>
      old ← deref (s_buf s);
      newbuf ← memcpy newbuf old (s_size s);
      let s := if VSB_ISDYNAMIC s then s else VSB_SETFLAG s VSB_DYNAMIC in
      mret (with_size (with_buf s (Some newbuf)) newsize, 0)
  end.

Definition VSB_newbuf (buf : option (list Z)) (length flags : Z)
  : res (option vsb) :=
  let s := mkVsb VSB_MAGIC buf 0 length 0 flags in
  (if Z.land (s_flags s) VSB_AUTOEXTEND =? 0 then vassert (1 <? s_size s)
   else mret tt);;
  match s_buf s with
  | Some _ => mret (Some s)
  | None =>
      s ← (if truth (Z.land flags VSB_AUTOEXTEND)
           then n ← VSB_extendsize (int_of (s_size s)); mret (with_size s n)
           else mret s);
      match malloc (s_size s) with
      | None => mret None
      | Some b => mret (Some (VSB_SETFLAG (with_buf s (Some b)) VSB_DYNAMIC))
      end
  end.

(** [VSB_new(s, ...)]: [dynstruct] says that [s] was NULL, and [struct_ok]
    that the structure could be allocated. *)
Definition VSB_new (dynstruct struct_ok : bool) (buf : option (list Z))
    (length flags : Z) : res (option vsb) :=
  vassert (0 <=? length);;
  vassert (Z.land flags (Z.lnot VSB_USRFLAGMSK) =? 0);;
  let flags := Z.land flags VSB_USRFLAGMSK in
  if negb dynstruct then VSB_newbuf buf length flags else
  if negb struct_ok then mret None else
  r ← VSB_newbuf buf length flags;
  match r with
  | None => mret None
  | Some s => mret (Some (VSB_SETFLAG s VSB_DYNSTRUCT))
  end.

Definition VSB_clear (s : vsb) : res vsb :=
  assert_VSB_integrity s;;
  mret (with_len (with_error (VSB_CLEARFLAG s VSB_FINISHED) 0) 0).

Definition VSB_setpos (s : vsb) (pos : Z) : res (vsb * Z) :=
  assert_VSB_integrity s;;
  assert_VSB_state s 0;;
  vassert (0 <=? pos);;
  vassert (pos <? s_size s);;
  if (pos <? 0) || (s_len s <? pos) then mret (s, -1)
  else mret (with_len s pos, 0).

(** [s->s_buf[s->s_len++] = (char)c]. *)
Definition store (s : vsb) (c : Z) : res vsb :=
  b ← deref (s_buf s);
  b ← wr b (s_len s) (u8 c);
  mret (with_len (with_buf s (Some b)) (s_len s + 1)).

Definition VSB_put_byte (s : vsb) (c : Z) : res vsb :=
  assert_VSB_integrity s;;
  assert_VSB_state s 0;;
  if truth (s_error s) then mret s else
  if VSB_FREESPACE s <=? 0 then
    '(s, r) ← VSB_extend s 1;
    let s := if r <? 0 then with_error s ENOMEM else s in
    if truth (s_error s) then mret s else store s c
  else store s c.

Fixpoint bcat_loop (s : vsb) (str : list Z) : res (vsb * Z) :=
  match str with
  | [] => mret (s, 0)
  | c :: str =>
      s ← VSB_put_byte s c;
      if truth (s_error s) then mret (s, -1) else bcat_loop s str
  end.

Definition VSB_bcat (s : vsb) (buf : list Z) : res (vsb * Z) :=
  assert_VSB_integrity s;;
  assert_VSB_state s 0;;
  if truth (s_error s) then mret (s, -1) else bcat_loop s buf.

Definition VSB_bcpy (s : vsb) (buf : list Z) : res (vsb * Z) :=
  assert_VSB_integrity s;;
  assert_VSB_state s 0;;
  s ← VSB_clear s;
  VSB_bcat s buf.

(** The string as the object it is in, up to its NUL. *)
Fixpoint cat_loop (s : vsb) (str : list Z) : res (vsb * Z) :=
  match str with
  | [] => Fail FMemory
  | c :: str =>
      if c =? 0 then mret (s, 0) else
      s ← VSB_put_byte s c;
      if truth (s_error s) then mret (s, -1) else cat_loop s str
  end.

Definition VSB_cat (s : vsb) (str : list Z) : res (vsb * Z) :=
  assert_VSB_integrity s;;
  assert_VSB_state s 0;;
  if truth (s_error s) then mret (s, -1) else cat_loop s str.

Definition VSB_cpy (s : vsb) (str : list Z) : res (vsb * Z) :=
  assert_VSB_integrity s;;
  assert_VSB_state s 0;;
  s ← VSB_clear s;
  VSB_cat s str.

(** [vsnprintf(buf + off, n, ...)], with the text it is to write: at most
    [n - 1] octets and a NUL; the whole length is returned. *)
Definition vsnprintf (buf : list Z) (off n : Z) (text : list Z)
  : res (list Z * Z) :=
  if (off <? 0) || (n <? 1) || (Z.of_nat (length buf) <? off + n)
  then Fail FMemory else
  let out := take (Z.to_nat (n - 1)) text ++ [0] in
  mret (take (Z.to_nat off) buf ++ out
          ++ drop (Z.to_nat off + length out) buf,
        Z.of_nat (length text)).

(** The do-while loop: one extension makes room for the text, so the third
    turn is never needed. *)
Fixpoint vprintf_loop (fuel : nat) (s : vsb) (text : list Z)
  : res (vsb * Z) :=
  match fuel with
  | O => Fail FFuel
  | S fuel =>
      b ← deref (s_buf s);
      '(b, len) ← vsnprintf b (s_len s) (VSB_FREESPACE s + 1) text;
      let s := with_buf s (Some b) in
      if VSB_FREESPACE s <? len then
        '(s, r) ← VSB_extend s (int_of (len - VSB_FREESPACE s));
        if r =? 0 then vprintf_loop fuel s text else mret (s, len)
      else mret (s, len)
  end.

Definition VSB_vprintf (s : vsb) (text : list Z) : res (vsb * Z) :=
  assert_VSB_integrity s;;
  assert_VSB_state s 0;;
  if truth (s_error s) then mret (s, -1) else
  '(s, len) ← vprintf_loop 3 s text;
  let len := if VSB_FREESPACE s <? len then VSB_FREESPACE s else len in
  let s := with_len s (s_len s + len) in
  let s := if negb (VSB_HASROOM s) && negb (VSB_CANEXTEND s)
           then with_error s ENOMEM else s in
  vassert (s_len s <? s_size s);;
  if truth (s_error s) then mret (s, -1) else mret (s, 0).

Definition VSB_printf (s : vsb) (text : list Z) : res (vsb * Z) :=
  VSB_vprintf s text.

Definition VSB_putc (s : vsb) (c : Z) : res (vsb * Z) :=
  s ← VSB_put_byte s c;
  if truth (s_error s) then mret (s, -1) else mret (s, 0).

Definition isspace (c : Z) : bool := (c =? 32) || ((9 <=? c) && (c <=? 13)).
Definition isgraph (c : Z) : bool := (33 <=? c) && (c <=? 126).

(** [while (s_len > 0 && isspace(s_buf[s_len - 1])) --s_len;], which takes at
    most [s_len] turns. *)
Fixpoint trim_loop (fuel : nat) (b : list Z) (len : Z) : res Z :=
  if 0 <? len then
    c ← rd b (len - 1);
    if isspace c then
      match fuel with
      | O => Fail FFuel
      | S fuel => trim_loop fuel b (len - 1)
      end
    else mret len
  else mret len.

Definition VSB_trim (s : vsb) : res (vsb * Z) :=
  assert_VSB_integrity s;;
  assert_VSB_state s 0;;
  if truth (s_error s) then mret (s, -1) else
  b ← deref (s_buf s);
  len ← trim_loop (Z.to_nat (s_len s)) b (s_len s);
  mret (with_len s len, 0).

(** The octets up to the NUL of the string at [p]. *)
Fixpoint cstring (p : list Z) : res (list Z) :=
  match p with
  | [] => Fail FMemory
  | c :: p => if c =? 0 then mret [] else l ← cstring p; mret (c :: l)
  end.

(** The octets that [for (q = p; q < p + len; q++)] reads; a [len] of -1
    stands for the length of the string. *)
Definition region (p : list Z) (len : Z) : res (list Z) :=
  if len =? -1 then cstring p
  else if len <=? 0 then mret []
  else if Z.of_nat (length p) <? len then Fail FMemory
  else mret (take (Z.to_nat len) p).

Definition needs_quote (c : Z) : bool :=
  negb (isgraph c) || (c =? 34) || (c =? 92).

(** The digits that the ["%o"] conversion prints. *)
Definition octal (c : Z) : list Z :=
  if c <? 8 then [48 + c]
  else if c <? 64 then [48 + c / 8; 48 + c mod 8]
  else [48 + c / 64; 48 + c / 8 mod 8; 48 + c mod 8].

Definition VSB_quote_char (s : vsb) (c : Z) : res vsb :=
  if c =? 32 then '(s, _) ← VSB_putc s c; mret s
  else if (c =? 92) || (c =? 34) then
    '(s, _) ← VSB_putc s 92; '(s, _) ← VSB_putc s c; mret s
  else if c =? 10 then '(s, _) ← VSB_cat s [92; 110; 0]; mret s
  else if c =? 13 then '(s, _) ← VSB_cat s [92; 114; 0]; mret s
  else if c =? 9 then '(s, _) ← VSB_cat s [92; 116; 0]; mret s
  else if isgraph c then '(s, _) ← VSB_putc s c; mret s
  else '(s, _) ← VSB_printf s (92 :: octal (Z.land c 0xff)); mret s.

Fixpoint quote_loop (s : vsb) (l : list Z) : res vsb :=
  match l with
  | [] => mret s
  | c :: l => s ← VSB_quote_char s c; quote_loop s l
  end.

Definition VSB_quote (s : vsb) (p : list Z) (len : Z) : res vsb :=
  l ← region p len;
  if negb (existsb needs_quote l) then '(s, _) ← VSB_bcat s l; mret s
  else
    '(s, _) ← VSB_putc s 34;
    s ← quote_loop s l;
    '(s, _) ← VSB_putc s 34;
    mret s.

(** The two messages of [VSB_unquote]. *)
Inductive unquote_error := Incomplete_sequence | Out_of_range.

Definition is_octal (c : Z) : bool := (48 <=? c) && (c <=? 55).

(** [strtoul(q, &r, 8)] on a string that starts with an octal digit: the
    value of the longest run of octal digits, and how many there are.  The
    run must end inside the object. *)
Fixpoint strtoul8 (acc : Z) (k : nat) (q : list Z) : res (Z * nat) :=
  match q with
  | [] => Fail FMemory
  | c :: q =>
      if is_octal c then strtoul8 (acc * 8 + (c - 48)) (S k) q
      else mret (acc, k)
  end.

(** [q] is what is left of the object at the pointer [q], and [n] is
    [p + len - q], 0 when the pointer has passed the end.  Each turn moves the
    pointer by at least one octet, so [fuel] is the [len] of the start. *)
Fixpoint unquote_loop (fuel : nat) (s : vsb) (q : list Z) (n : Z)
  : res (vsb * option unquote_error) :=
  if n <=? 0 then mret (s, None) else
  match fuel with
  | O => Fail FFuel
  | S fuel =>
      c ← rd q 0;
      if negb (c =? 92) then
        '(s, _) ← VSB_bcat s [c];
        unquote_loop fuel s (drop 1 q) (n - 1)
      else
        let q := drop 1 q in let n := n - 1 in
        if n <=? 0 then mret (s, Some Incomplete_sequence) else
        c ← rd q 0;
        if c =? 110 then
          '(s, _) ← VSB_bcat s [10]; unquote_loop fuel s (drop 1 q) (n - 1)
        else if c =? 114 then
          '(s, _) ← VSB_bcat s [13]; unquote_loop fuel s (drop 1 q) (n - 1)
        else if c =? 116 then
          '(s, _) ← VSB_bcat s [9]; unquote_loop fuel s (drop 1 q) (n - 1)
        else if is_octal c then
          '(u, k) ← strtoul8 0 0 q;
          if negb (Z.land u (Z.lnot 0xff) =? 0)
          then mret (s, Some Out_of_range)
          else
            '(s, _) ← VSB_bcat s [u];
            unquote_loop fuel s (drop k q) (n - Z.of_nat k)
        else
          '(s, _) ← VSB_bcat s [c]; unquote_loop fuel s (drop 1 q) (n - 1)
  end.

Definition VSB_unquote (s : vsb) (p : list Z) (len : Z)
  : res (vsb * option unquote_error) :=
  len ← (if len =? -1 then l ← cstring p; mret (Z.of_nat (length l))
         else mret len);
  unquote_loop (Z.to_nat len) s p len.

End Malloc.

Definition VSB_error (s : vsb) : Z := s_error s.

Definition VSB_finish (s : vsb) : res (vsb * Z) :=
  assert_VSB_integrity s;;
  assert_VSB_state s 0;;
  b ← deref (s_buf s);
  b ← wr b (s_len s) 0;
  let s := VSB_SETFLAG (with_buf s (Some b)) VSB_FINISHED in
  if truth (s_error s) then mret (s, -1) else mret (s, 0).

Definition VSB_data (s : vsb) : res (list Z) :=
  assert_VSB_integrity s;;
  assert_VSB_state s VSB_FINISHED;;
  deref (s_buf s).

Definition VSB_len (s : vsb) : res Z :=
  assert_VSB_integrity s;;
  if truth (s_error s) then mret (-1) else mret (s_len s).

(** The structure after [VSB_delete], and whether the buffer and the
    structure were freed. *)
Definition VSB_delete (s : vsb) : res (vsb * bool * bool) :=
  assert_VSB_integrity s;;
  let freed := VSB_ISDYNAMIC s in
  let isdyn := VSB_ISDYNSTRUCT s in
  mret (mkVsb 0 None 0 0 0 0, freed, isdyn).

Definition VSB_done (s : vsb) : bool := VSB_ISFINISHED s.

(** ** Sizes *)

Lemma roundup2_spec n :
  0 <= n -> roundup2 n VSB_MAXEXTENDINCR = (n + 4095) / 4096 * 4096.
Proof.
  intros Hn. unfold roundup2, VSB_MAXEXTENDINCR.
  change (4096 - 1) with (2 ^ 12 - 1). rewrite land_lnot_mask by lia.
  change (2 ^ 12) with 4096. replace (n + (4096 - 1)) with (n + 4095) by lia.
  pose proof (Z.div_mod (n + 4095) 4096). lia.
Qed.

Lemma VSB_extendsize_ok n :
  0 < n <= 2 ^ 30 ->
  exists m, VSB_extendsize n = Ok m /\ n <= m <= n + 4096 /\ 16 <= m.
Proof.
  intros Hn. unfold VSB_extendsize.
  assert (H : exists m, (if n <? VSB_MAXEXTENDSIZE
             then double_until 16 VSB_MINEXTENDSIZE n
             else mret (roundup2 n VSB_MAXEXTENDINCR)) = Ok m /\
             n <= m <= n + 4096 /\ 16 <= m).
  { unfold VSB_MAXEXTENDSIZE. destruct (Z.ltb_spec n 4096).
    - unfold VSB_MINEXTENDSIZE. simpl double_until.
      do 9 (case Z.ltb_spec; intros ?; [|eexists; split; [reflexivity|lia]]).
      lia.
    - rewrite roundup2_spec by lia. eexists. split; [reflexivity|].
      Z.to_euclidean_division_equations. lia. }
  destruct H as (m & -> & Hm). simpl. rewrite vassert_true by lia. by exists m.
Qed.

Lemma int_of_small z : 0 <= z < 2 ^ 31 -> int_of z = z.
Proof.
  intros. unfold int_of. rewrite Z.mod_small by lia. lia.
Qed.

(** ** The invariant *)

Definition bit_clear (f b : Z) : Prop := Z.land f b = 0.

(** A buffer that can be appended to: what [assert_VSB_integrity] and
    [assert_VSB_state] accept, and a size within the buffer. *)
Record writable (s : vsb) : Prop := {
  w_magic : s_magic s = VSB_MAGIC;
  w_buf : exists b, s_buf s = Some b /\ Z.of_nat (length b) = s_size s;
  w_len : 0 <= s_len s < s_size s;
  w_open : bit_clear (s_flags s) VSB_FINISHED;
}.

(** The string built so far. *)
Definition contents (s : vsb) : list Z :=
  match s_buf s with Some b => take (Z.to_nat (s_len s)) b | None => [] end.

(** [s] holds [l] and no error happened. *)
Record holds (s : vsb) (l : list Z) : Prop := {
  h_w : writable s;
  h_err : s_error s = 0;
  h_con : contents s = l;
}.

Lemma holds_len s l : holds s l -> Z.of_nat (length l) = s_len s.
Proof.
  intros [[_ (b & Hb & Hl) ? _] _ <-]. unfold contents. rewrite Hb, length_take.
  lia.
Qed.

Lemma integrity_ok s : writable s -> assert_VSB_integrity s = Ok tt.
Proof.
  intros [Hm (b & Hb & _) Hl _]. unfold assert_VSB_integrity.
  rewrite (vassert_true (s_magic s =? _)) by by apply Z.eqb_eq.
  rewrite (vassert_true (bool_decide _))
    by (apply bool_decide_eq_true; congruence).
  simpl. by rewrite vassert_true by lia.
Qed.

Lemma state_ok s : writable s -> assert_VSB_state s 0 = Ok tt.
Proof.
  intros [_ _ _ Ho]. unfold assert_VSB_state. by rewrite Ho.
Qed.

(** The precondition asserts of an append go through. *)
Ltac pass_asserts H :=
  rewrite ?(integrity_ok _ H), ?(state_ok _ H); simpl.

Lemma store_ok s l c :
  holds s l -> s_len s + 1 < s_size s ->
  exists s', store s c = Ok s' /\ holds s' (l ++ [u8 c]) /\
    s_size s' = s_size s /\ s_len s' = s_len s + 1 /\ s_flags s' = s_flags s.
Proof.
  intros [[Hm (b & Hb & Hl) Hr Ho] He Hc] Hroom. unfold store. rewrite Hb. simpl.
  rewrite wr_in by lia. simpl. eexists. split; [done|]. split; [|done].
  split; simpl; [|done|].
  - split; simpl; [done| |lia|done].
    eexists. split; [done|]. by rewrite length_insert.
  - unfold contents in *. rewrite Hb in Hc. simpl.
    replace (Z.to_nat (s_len s + 1)) with (S (Z.to_nat (s_len s))) by lia.
    erewrite take_S_r by (apply list_lookup_insert_eq; lia).
    by rewrite take_insert_ge, Hc by lia.
Qed.

(** [n] octets of room. *)
Lemma freespace_room s : 0 < VSB_FREESPACE s <-> s_len s + 1 < s_size s.
Proof. unfold VSB_FREESPACE. lia. Qed.

Definition no_alloc : Z -> option (list Z) := fun _ => None.

Lemma put_byte_room malloc s l c :
  holds s l -> s_len s + 1 < s_size s -> VSB_put_byte malloc s c = store s c.
Proof.
  intros [Hw He _] Hroom. unfold VSB_put_byte. pass_asserts Hw. rewrite He. simpl.
  by replace (VSB_FREESPACE s <=? 0) with false by (unfold VSB_FREESPACE; lia).
Qed.

(** ** Fixed buffers *)

Lemma extend_fixed malloc s n :
  VSB_CANEXTEND s = false -> VSB_extend malloc s n = Ok (s, -1).
Proof. intros H. unfold VSB_extend. by rewrite H. Qed.

Lemma put_byte_full malloc s l c :
  holds s l -> s_len s + 1 = s_size s -> VSB_CANEXTEND s = false ->
  VSB_put_byte malloc s c = Ok (with_error s ENOMEM).
Proof.
  intros [Hw He _] Hfull Hfix. unfold VSB_put_byte. pass_asserts Hw.
  rewrite He. simpl.
  replace (VSB_FREESPACE s <=? 0) with true by (unfold VSB_FREESPACE; lia).
  by rewrite extend_fixed.
Qed.

Lemma bcat_loop_fixed malloc d s l :
  holds s l -> VSB_CANEXTEND s = false ->
  exists s' r, bcat_loop malloc s d = Ok (s', r) /\ writable s' /\
    s_size s' = s_size s /\
    contents s' = take (Z.to_nat (s_size s - 1)) (l ++ map u8 d) /\
    (if s_size s - 1 <? Z.of_nat (length l + length d)
     then r = -1 /\ s_error s' = ENOMEM else r = 0 /\ s_error s' = 0).
Proof.
  revert s l. induction d as [|c d IH]; intros s l Hh Hfix.
  - simpl. exists s, 0. split; [done|]. split; [apply Hh|]. split; [done|].
    pose proof (holds_len _ _ Hh) as Hl. rewrite app_nil_r.
    destruct (w_len _ (h_w _ _ Hh)).
    rewrite take_ge by lia. split; [apply Hh|].
    case Z.ltb_spec; [lia|]. split; [done|apply Hh].
  - simpl bcat_loop. pose proof (holds_len _ _ Hh) as Hl.
    destruct (w_len _ (h_w _ _ Hh)).
    destruct (decide (s_len s + 1 = s_size s)) as [Hfull|Hroom].
    + rewrite (put_byte_full _ _ l) by done. simpl.
      eexists _, _. split; [done|]. destruct Hh as [[Hm (b & Hb & Hlb) Hr Ho] He Hc].
      split; [by split; simpl; [|exists b| |]|]. split; [done|].
      rewrite take_app_le by lia. split.
      * rewrite take_ge by lia. exact Hc.
      * case Z.ltb_spec; simpl; [done|lia].
    + rewrite (put_byte_room _ _ l) by (done || lia).
      destruct (store_ok s l c Hh ltac:(lia)) as (s1 & -> & Hh1 & Hs1 & Hl1 & Hf1).
      simpl. rewrite (h_err _ _ Hh1). simpl.
      destruct (IH s1 _ Hh1) as (s' & r & -> & Hw & Hsz & Hc & Hr).
      { unfold VSB_CANEXTEND. by rewrite Hf1. }
      exists s', r. split; [done|]. split; [done|]. split; [congruence|].
      rewrite Hs1, <- app_assoc in Hc. split; [exact Hc|].
      rewrite Hs1, length_app in Hr. simpl in Hr.
      by replace (Z.of_nat (length l + S (length d)))
        with (Z.of_nat (length l + 1 + length d)) by lia.
Qed.

(** ** Buffers that extend

    [malloc] is now one that always succeeds; the strings stay below half a
    gigabyte, so that no [int] overflows. *)

Definition LIMIT : Z := 2 ^ 29.

Record grows (s : vsb) (l : list Z) : Prop := {
  g_holds : holds s l;
  g_ext : VSB_CANEXTEND s = true;
  g_size : s_size s <= 2 ^ 30;
}.

(** The law of [malloc] that these lemmas use. *)
Definition total_malloc (malloc : Z -> option (list Z)) : Prop :=
  forall n, 0 < n -> exists b, malloc n = Some b /\ Z.of_nat (length b) = n.

Section Total.

Context (malloc : Z -> option (list Z)) (malloc_total : total_malloc malloc).

Lemma flags_dynamic f b :
  bit_clear VSB_DYNAMIC b -> Z.land (Z.lor f VSB_DYNAMIC) b = Z.land f b.
Proof.
  unfold bit_clear. intros H. by rewrite Z.land_lor_distr_l, H, Z.lor_0_r.
Qed.

Lemma memcpy_ok dst src n :
  0 <= n <= Z.of_nat (length dst) -> n <= Z.of_nat (length src) ->
  memcpy dst src n = Ok (take (Z.to_nat n) src ++ drop (Z.to_nat n) dst).
Proof.
  intros H1 H2. unfold memcpy.
  replace ((0 <=? n) && (n <=? Z.of_nat (length dst)) &&
    (n <=? Z.of_nat (length src))) with true by lia. done.
Qed.

(** An extension keeps the contents and makes the room asked for. *)
Lemma extend_ok s l n :
  grows s l -> 0 < n <= LIMIT -> s_size s + n <= 2 ^ 30 - 4096 ->
  exists s', VSB_extend malloc s n = Ok (s', 0) /\ grows s' l /\
    s_size s + n <= s_size s' /\ s_len s' = s_len s.
Proof.
  unfold LIMIT. intros [[[Hm (b & Hb & Hlb) Hl Ho] He Hc] Hx Hs] Hn Hsn.
  unfold VSB_extend. rewrite Hx. simpl. rewrite int_of_small by lia.
  destruct (VSB_extendsize_ok (s_size s + n)) as (m & -> & Hm1 & Hm2); [lia|].
  simpl. destruct (malloc_total m) as (nb & -> & Hnb); [lia|].
  rewrite Hb. simpl. rewrite memcpy_ok by lia. simpl.
  set (nbuf := take (Z.to_nat (s_size s)) b ++ drop (Z.to_nat (s_size s)) nb).
  assert (Hnl : Z.of_nat (length nbuf) = m).
  { unfold nbuf. rewrite length_app, length_take, length_drop. lia. }
  assert (Hnc : take (Z.to_nat (s_len s)) nbuf = l).
  { unfold nbuf. rewrite (take_ge b) by lia. rewrite take_app_le by lia.
    unfold contents in Hc. by rewrite Hb in Hc. }
  eexists. split; [done|].
  assert (Hf : forall b0, bit_clear VSB_DYNAMIC b0 ->
    Z.land (s_flags (if VSB_ISDYNAMIC s then s else VSB_SETFLAG s VSB_DYNAMIC)) b0
    = Z.land (s_flags s) b0).
  { intros b0 Hb0. destruct (VSB_ISDYNAMIC s); [done|]. by apply flags_dynamic. }
  assert (Hd : forall (P : vsb -> Prop), P s -> P (VSB_SETFLAG s VSB_DYNAMIC) ->
    P (if VSB_ISDYNAMIC s then s else VSB_SETFLAG s VSB_DYNAMIC))
    by by intros; destruct (VSB_ISDYNAMIC s).
  assert (Hlen' : s_len (if VSB_ISDYNAMIC s then s else VSB_SETFLAG s VSB_DYNAMIC)
    = s_len s) by (apply Hd; done).
  split; [|split; [simpl; lia|done]].
  split; [split|unfold VSB_CANEXTEND; simpl; rewrite Hf by done; exact Hx|simpl; lia].
  - split; simpl.
    + by apply Hd.
    + by exists nbuf.
    + rewrite Hlen'. lia.
    + unfold bit_clear. by rewrite Hf.
  - simpl. by apply Hd.
  - unfold contents. simpl. by rewrite Hlen'.
Qed.

Lemma grows_store s l c :
  grows s l -> s_len s + 1 < s_size s ->
  exists s', store s c = Ok s' /\ grows s' (l ++ [u8 c]).
Proof.
  intros [Hh Hx Hs] Hroom.
  destruct (store_ok s l c Hh Hroom) as (s' & H1 & H2 & H3 & H4 & H5).
  exists s'. split; [done|]. split; [done| |lia].
  unfold VSB_CANEXTEND. by rewrite H5.
Qed.

Lemma put_byte_grows s l c :
  grows s l -> Z.of_nat (length l) < LIMIT ->
  exists s', VSB_put_byte malloc s c = Ok s' /\ grows s' (l ++ [u8 c]).
Proof.
  unfold LIMIT. intros Hg Hlim. assert (Hh := g_holds _ _ Hg).
  pose proof (holds_len _ _ Hh) as Hl. destruct (w_len _ (h_w _ _ Hh)).
  destruct (decide (s_len s + 1 = s_size s)) as [Hfull|Hroom].
  - unfold VSB_put_byte. pass_asserts (h_w _ _ Hh).
    rewrite (h_err _ _ Hh). simpl.
    replace (VSB_FREESPACE s <=? 0) with true by (unfold VSB_FREESPACE; lia).
    destruct (extend_ok s l 1 Hg) as (s1 & -> & Hg1 & Hs1 & Hl1);
      [unfold LIMIT; lia|lia|].
    simpl. rewrite (h_err _ _ (g_holds _ _ Hg1)). simpl.
    apply grows_store; [done|lia].
  - rewrite (put_byte_room _ _ l) by (done || lia).
    apply grows_store; [done|lia].
Qed.

Lemma putc_grows s l c :
  grows s l -> Z.of_nat (length l) < LIMIT ->
  exists s', VSB_putc malloc s c = Ok (s', 0) /\ grows s' (l ++ [u8 c]).
Proof.
  intros Hg Hlim. unfold VSB_putc.
  destruct (put_byte_grows s l c Hg Hlim) as (s1 & -> & Hg1). simpl.
  rewrite (h_err _ _ (g_holds _ _ Hg1)). by exists s1.
Qed.

Lemma bcat_loop_grows d s l :
  grows s l -> Z.of_nat (length l + length d) <= LIMIT ->
  exists s', bcat_loop malloc s d = Ok (s', 0) /\ grows s' (l ++ map u8 d).
Proof.
  revert s l. induction d as [|c d IH]; intros s l Hg Hlim; simpl in *.
  - exists s. by rewrite app_nil_r.
  - destruct (put_byte_grows s l c Hg ltac:(lia)) as (s1 & -> & Hg1). simpl.
    rewrite (h_err _ _ (g_holds _ _ Hg1)). simpl.
    destruct (IH s1 _ Hg1) as (s2 & -> & Hg2).
    { rewrite length_app. simpl. lia. }
    exists s2. by rewrite <- app_assoc in Hg2.
Qed.

Lemma bcat_grows d s l :
  grows s l -> Z.of_nat (length l + length d) <= LIMIT ->
  exists s', VSB_bcat malloc s d = Ok (s', 0) /\ grows s' (l ++ map u8 d).
Proof.
  intros Hg Hlim. assert (Hh := g_holds _ _ Hg). unfold VSB_bcat.
  pass_asserts (h_w _ _ Hh). rewrite (h_err _ _ Hh). by apply bcat_loop_grows.
Qed.

Lemma cat_grows d r s l :
  grows s l -> Z.of_nat (length l + length d) <= LIMIT ->
  Forall (fun c => c <> 0) d ->
  exists s', VSB_cat malloc s (d ++ 0 :: r) = Ok (s', 0) /\
    grows s' (l ++ map u8 d).
Proof.
  intros Hg Hlim Hd. assert (Hh := g_holds _ _ Hg). unfold VSB_cat.
  pass_asserts (h_w _ _ Hh). rewrite (h_err _ _ Hh). simpl. clear Hh.
  revert s l Hg Hlim. induction Hd as [|c d Hc Hd IH]; intros s l Hg Hlim; simpl in *.
  - exists s. by rewrite app_nil_r.
  - apply Z.eqb_neq in Hc. rewrite Hc.
    destruct (put_byte_grows s l c Hg ltac:(lia)) as (s1 & -> & Hg1). simpl.
    rewrite (h_err _ _ (g_holds _ _ Hg1)). simpl.
    destruct (IH s1 _ Hg1) as (s2 & -> & Hg2).
    { rewrite length_app. simpl. lia. }
    exists s2. by rewrite <- app_assoc in Hg2.
Qed.

End Total.

(** [vsnprintf] into the free part of a buffer leaves the contents alone and
    puts the head of the text behind them. *)
Lemma vsnprintf_ok b off n text :
  0 <= off -> 1 <= n -> off + n <= Z.of_nat (length b) ->
  exists b', vsnprintf b off n text = Ok (b', Z.of_nat (length text)) /\
    length b' = length b /\
    take (Z.to_nat off) b' = take (Z.to_nat off) b /\
    take (Z.to_nat off + Z.to_nat (Z.min (n - 1) (Z.of_nat (length text)))) b' =
      take (Z.to_nat off) b ++ take (Z.to_nat (n - 1)) text.
Proof.
  intros Ho Hn Hb. unfold vsnprintf.
  replace ((off <? 0) || (n <? 1) || (Z.of_nat (length b) <? off + n))
    with false by lia.
  eexists. split; [done|].
  set (out := take (Z.to_nat (n - 1)) text ++ [0]).
  assert (Hout : length out = S (Z.to_nat (Z.min (n - 1) (Z.of_nat (length text))))).
  { unfold out. rewrite length_app, length_take. simpl. lia. }
  assert (Ht : length (take (Z.to_nat off) b) = Z.to_nat off)
    by (rewrite length_take; lia).
  repeat split.
  - rewrite !length_app, length_drop, Ht. lia.
  - rewrite take_app_le by lia. rewrite take_ge; [done|lia].
  - rewrite <- Ht at 1. rewrite take_app_add. f_equal.
    rewrite take_app_le by lia. unfold out. rewrite take_app_le.
    + apply take_ge. rewrite length_take. lia.
    + rewrite length_take. lia.
Qed.

(** The buffer replaced by one with the same contents. *)
Lemma grows_with_buf s l b b' :
  grows s l -> s_buf s = Some b -> length b' = length b ->
  take (Z.to_nat (s_len s)) b' = take (Z.to_nat (s_len s)) b ->
  grows (with_buf s (Some b')) l.
Proof.
  intros [[[Hm (b0 & Hb & Hl) Hr Ho] He Hc] Hx Hs] Hb' Hlen Htake.
  assert (b0 = b) by congruence. subst b0.
  split; [split|done|done]; [|done|].
  - split; simpl; try done. exists b'. by rewrite Hlen.
  - rewrite <- Hc. unfold contents. simpl. by rewrite Hb, Htake.
Qed.

Lemma grows_with_len s l l' b n :
  grows s l -> s_buf s = Some b -> 0 <= n < s_size s ->
  take (Z.to_nat n) b = l' -> grows (with_len s n) l'.
Proof.
  intros [[[Hm (b0 & Hb & Hl) Hr Ho] He Hc] Hx Hs] Hb' Hn Htake.
  split; [split|done|done]; [|done|].
  - split; simpl; try done. by exists b0.
  - unfold contents. simpl. by rewrite Hb'.
Qed.

Lemma grows_buf s l :
  grows s l -> exists b, s_buf s = Some b /\ Z.of_nat (length b) = s_size s /\
    0 <= s_len s < s_size s /\ Z.of_nat (length l) = s_len s /\
    take (Z.to_nat (s_len s)) b = l /\ s_size s <= 2 ^ 30.
Proof.
  intros [Hh Hx Hs]. pose proof (holds_len _ _ Hh).
  destruct Hh as [[Hm (b0 & Hb & Hl) Hr Ho] He Hc].
  exists b0. unfold contents in Hc. rewrite Hb in Hc. done.
Qed.

(** One turn of the loop with enough room. *)
Lemma vprintf_fits malloc fuel s l text :
  grows s l -> Z.of_nat (length text) <= VSB_FREESPACE s ->
  exists b', vprintf_loop malloc (S fuel) s text =
      Ok (with_buf s (Some b'), Z.of_nat (length text)) /\
    grows (with_buf s (Some b')) l /\
    take (Z.to_nat (s_len s + Z.of_nat (length text))) b' = l ++ text.
Proof.
  unfold VSB_FREESPACE. intros Hg Hfit.
  destruct (grows_buf _ _ Hg) as (b & Hb & Hbl & Hr & Hl & Ht & Hsz).
  simpl. rewrite Hb. simpl. unfold VSB_FREESPACE.
  destruct (vsnprintf_ok b (s_len s) (s_size s - (s_len s + 1) + 1) text)
    as (b' & -> & Hb'l & Hb't & Hb'f); try lia.
  simpl. replace (s_size s - (s_len s + 1) <? Z.of_nat (length text))
    with false by lia.
  exists b'. split; [done|]. split; [by eapply grows_with_buf|].
  rewrite Ht, (take_ge text) in Hb'f by lia. rewrite <- Hb'f. f_equal. lia.
Qed.

Lemma vprintf_loop_grows malloc (malloc_total : total_malloc malloc) s l text :
  grows s l -> Z.of_nat (length l + length text) <= LIMIT ->
  exists s' b', vprintf_loop malloc 3 s text = Ok (s', Z.of_nat (length text)) /\
    grows s' l /\ s_buf s' = Some b' /\
    Z.of_nat (length text) <= VSB_FREESPACE s' /\
    take (Z.to_nat (s_len s' + Z.of_nat (length text))) b' = l ++ text.
Proof.
  intros Hg Hlim.
  destruct (grows_buf _ _ Hg) as (b & Hb & Hbl & Hr & Hl & Ht & Hsz).
  destruct (decide (Z.of_nat (length text) <= VSB_FREESPACE s)) as [Hfit|Hno].
  { destruct (vprintf_fits malloc 2 s l text Hg Hfit) as (b' & -> & Hg' & Hb').
    by exists (with_buf s (Some b')), b'. }
  assert (Hno' := Hno). unfold VSB_FREESPACE, LIMIT in Hno, Hlim.
  cbn [vprintf_loop]. rewrite Hb. simpl deref. rewrite bind_Ret.
  destruct (vsnprintf_ok b (s_len s) (VSB_FREESPACE s + 1) text)
    as (b1 & -> & Hb1l & Hb1t & _); try (unfold VSB_FREESPACE; lia).
  rewrite bind_Ret.
  set (s1 := with_buf s (Some b1)).
  assert (Hg1 : grows s1 l) by by eapply grows_with_buf.
  change (VSB_FREESPACE s1) with (VSB_FREESPACE s).
  replace (VSB_FREESPACE s <? Z.of_nat (length text)) with true by lia.
  assert (Hint : int_of (Z.of_nat (length text) - VSB_FREESPACE s) =
                 Z.of_nat (length text) - VSB_FREESPACE s)
    by (apply int_of_small; unfold VSB_FREESPACE; lia).
  rewrite Hint.
  destruct (extend_ok malloc malloc_total s1 l
    (Z.of_nat (length text) - VSB_FREESPACE s) Hg1) as (s2 & -> & Hg2 & Hs2 & Hl2).
  1,2: unfold LIMIT, VSB_FREESPACE; simpl; lia.
  rewrite bind_Ret. simpl (0 =? 0). cbv iota.
  simpl in Hs2, Hl2. unfold VSB_FREESPACE in Hs2.
  destruct (vprintf_fits malloc 1 s2 l text Hg2) as (b' & E & Hg' & Hb').
  { unfold VSB_FREESPACE. lia. }
  cbn [vprintf_loop] in E. rewrite E.
  exists (with_buf s2 (Some b')), b'. split_and!; try done.
  unfold VSB_FREESPACE. simpl. lia.
Qed.

Lemma vprintf_grows malloc (malloc_total : total_malloc malloc) s l text :
  grows s l -> Z.of_nat (length l + length text) <= LIMIT ->
  exists s', VSB_printf malloc s text = Ok (s', 0) /\ grows s' (l ++ text).
Proof.
  intros Hg Hlim. assert (Hh := g_holds _ _ Hg).
  unfold VSB_printf, VSB_vprintf.
  rewrite (integrity_ok _ (h_w _ _ Hh)), (state_ok _ (h_w _ _ Hh)), !bind_Ret.
  rewrite (h_err _ _ Hh). change (truth 0) with false. cbv iota.
  destruct (vprintf_loop_grows malloc malloc_total s l text Hg Hlim)
    as (s1 & b1 & -> & Hg1 & Hb1 & Hfit & Ht).
  rewrite bind_Ret.
  replace (VSB_FREESPACE s1 <? Z.of_nat (length text)) with false by lia.
  unfold VSB_FREESPACE in Hfit.
  destruct (grows_buf _ _ Hg1) as (b & Hb & Hbl & Hr & Hl & _ & Hsz).
  assert (Hg2 : grows (with_len s1 (s_len s1 + Z.of_nat (length text))) (l ++ text)).
  { eapply grows_with_len; [done|exact Hb1|lia|done]. }
  set (s2 := with_len s1 _) in *.
  rewrite (g_ext _ _ Hg2), andb_false_r.
  destruct (w_len _ (h_w _ _ (g_holds _ _ Hg2))).
  rewrite vassert_true by lia. rewrite bind_Ret.
  rewrite (h_err _ _ (g_holds _ _ Hg2)). by exists s2.
Qed.

(** ** Quoting *)

(** What [VSB_quote] writes for one octet, and for a string inside the
    double quotes. *)
Definition quoted1 (c : Z) : list Z :=
  if c =? 32 then [c]
  else if (c =? 92) || (c =? 34) then [92; c]
  else if c =? 10 then [92; 110]
  else if c =? 13 then [92; 114]
  else if c =? 9 then [92; 116]
  else if isgraph c then [c]
  else 92 :: octal c.

Definition quoted (l : list Z) : list Z := concat (map quoted1 l).

Definition quote_spec (l : list Z) : list Z :=
  if existsb needs_quote l then 34 :: quoted l ++ [34] else l.

Lemma u8_byte c : is_byte c -> u8 c = c.
Proof. intros H. by apply Z.mod_small. Qed.

Lemma map_u8 l : Forall is_byte l -> map u8 l = l.
Proof. induction 1; simpl; [done|]. by rewrite u8_byte, IHForall. Qed.

Lemma length_quoted1 c : (1 <= length (quoted1 c) <= 4)%nat.
Proof.
  unfold quoted1, octal.
  repeat match goal with |- context [if ?b then _ else _] => destruct b end;
    simpl; lia.
Qed.

Lemma length_quoted l : (length (quoted l) <= 4 * length l)%nat.
Proof.
  induction l as [|c l IH]; simpl; [done|]. unfold quoted in *. simpl.
  rewrite length_app. pose proof (length_quoted1 c). lia.
Qed.

(** The characters that leave through the octal escape. *)
Definition octal_escaped (c : Z) : bool :=
  negb (isgraph c) && negb (bool_decide (c ∈ [32; 10; 13; 9])).

(** No octal escape is followed by an octal digit. *)
Fixpoint unambiguous (l : list Z) : bool :=
  match l with
  | c :: ((c2 :: _) as l') => negb (octal_escaped c && is_octal c2) && unambiguous l'
  | _ => true
  end.

Section Quoting.

Context (malloc : Z -> option (list Z)) (malloc_total : total_malloc malloc).

Lemma octal_bytes c : is_byte c -> Forall is_byte (octal c).
Proof.
  unfold is_byte, octal. intros Hc.
  destruct (Z.ltb_spec c 8), (Z.ltb_spec c 64);
    repeat constructor; Z.to_euclidean_division_equations; lia.
Qed.

Lemma land_ff_byte c : is_byte c -> Z.land c 0xff = c.
Proof.
  intros Hc. change 0xff with (2 ^ 8 - 1). rewrite land_mask by lia.
  by apply Z.mod_small.
Qed.

Lemma quote_char_grows s l c :
  grows s l -> is_byte c -> Z.of_nat (length l) + 4 <= LIMIT ->
  exists s', VSB_quote_char malloc s c = Ok s' /\ grows s' (l ++ quoted1 c).
Proof.
  intros Hg Hc Hlim.
  assert (Eputc : forall s l c, grows s l -> is_byte c ->
    Z.of_nat (length l) < LIMIT -> exists s', VSB_putc malloc s c = Ok (s', 0) /\
    grows s' (l ++ [c])).
  { intros s0 l0 c0 H0 H1 H2.
    rewrite <- (u8_byte c0 H1). destruct (putc_grows malloc malloc_total s0 l0 (u8 c0) H0 H2)
      as (s' & ? & ?). exists s'. by rewrite (u8_byte (u8 c0)) in *
      by (rewrite u8_byte; done). }
  assert (Ecat : forall x, is_byte x -> x <> 0 -> exists s',
    VSB_cat malloc s [92; x; 0] = Ok (s', 0) /\ grows s' (l ++ [92; x])).
  { intros x Hx Hx0.
    destruct (cat_grows malloc malloc_total [92; x] [] s l Hg) as (s' & H & H').
    - simpl. lia.
    - repeat constructor; done.
    - exists s'. split; [exact H|]. simpl in H'. by rewrite (u8_byte x) in H'. }
  unfold VSB_quote_char, quoted1.
  destruct (Z.eqb_spec c 32); [|destruct ((c =? 92) || (c =? 34)) eqn:E2].
  - destruct (Eputc s l c Hg Hc ltac:(lia)) as (s1 & -> & H1). by exists s1.
  - destruct (Eputc s l 92 Hg ltac:(done) ltac:(lia)) as (s1 & -> & H1).
    rewrite bind_Ret. cbv beta iota.
    destruct (Eputc s1 _ c H1 Hc) as (s2 & -> & H2).
    { rewrite length_app. simpl. lia. }
    exists s2. by rewrite <- app_assoc in H2.
  - destruct (Z.eqb_spec c 10).
    { destruct (Ecat 110) as (s1 & -> & H1); [done|done|]. by exists s1. }
    destruct (Z.eqb_spec c 13).
    { destruct (Ecat 114) as (s1 & -> & H1); [done|done|]. by exists s1. }
    destruct (Z.eqb_spec c 9).
    { destruct (Ecat 116) as (s1 & -> & H1); [done|done|]. by exists s1. }
    destruct (isgraph c).
    { destruct (Eputc s l c Hg Hc ltac:(lia)) as (s1 & -> & H1). by exists s1. }
    rewrite land_ff_byte by done.
    destruct (vprintf_grows malloc malloc_total s l (92 :: octal c) Hg)
      as (s1 & -> & H1); [|by exists s1].
    unfold octal. repeat destruct (_ <? _); simpl; lia.
Qed.

Lemma quote_loop_grows d s l :
  grows s l -> Forall is_byte d ->
  Z.of_nat (length l) + 4 * Z.of_nat (length d) <= LIMIT ->
  exists s', quote_loop malloc s d = Ok s' /\ grows s' (l ++ quoted d).
Proof.
  intros Hg Hd. revert s l Hg. induction Hd as [|c d Hc Hd IH]; intros s l Hg Hlim.
  - exists s. unfold quoted. simpl. by rewrite app_nil_r.
  - simpl in Hlim. simpl quote_loop.
    destruct (quote_char_grows s l c Hg Hc ltac:(lia)) as (s1 & -> & Hg1).
    rewrite bind_Ret. destruct (IH s1 _ Hg1) as (s2 & -> & Hg2).
    { rewrite length_app. pose proof (length_quoted1 c). lia. }
    exists s2. split; [done|]. unfold quoted in *. simpl.
    by rewrite <- app_assoc in Hg2.
Qed.

(** [VSB_quote] on a growing buffer appends [quote_spec]. *)
Lemma quote_grows s l p len d :
  grows s l -> region p len = Ok d -> Forall is_byte d ->
  Z.of_nat (length l) + 4 * Z.of_nat (length d) + 2 <= LIMIT ->
  exists s', VSB_quote malloc s p len = Ok s' /\ grows s' (l ++ quote_spec d).
Proof.
  intros Hg Hreg Hd Hlim. unfold VSB_quote, quote_spec. rewrite Hreg, bind_Ret.
  destruct (existsb needs_quote d); simpl negb; cbv iota.
  - destruct (putc_grows malloc malloc_total s l 34 Hg ltac:(lia)) as (s1 & -> & Hg1).
    rewrite bind_Ret. cbv beta iota.
    destruct (quote_loop_grows d s1 _ Hg1 Hd) as (s2 & -> & Hg2).
    { rewrite length_app. simpl. lia. }
    rewrite bind_Ret.
    destruct (putc_grows malloc malloc_total s2 _ 34 Hg2) as (s3 & -> & Hg3).
    { rewrite !length_app. pose proof (length_quoted d). simpl. lia. }
    exists s3. split; [done|]. rewrite <- !app_assoc in Hg3. exact Hg3.
  - destruct (bcat_grows malloc malloc_total d s l Hg ltac:(lia)) as (s1 & -> & Hg1).
    exists s1. by rewrite map_u8 in Hg1.
Qed.

(** ** Unquoting *)

Lemma bcat_byte s l c :
  grows s l -> is_byte c -> Z.of_nat (length l) < LIMIT ->
  exists s', VSB_bcat malloc s [c] = Ok (s', 0) /\ grows s' (l ++ [c]).
Proof.
  intros Hg Hc Hlim.
  destruct (bcat_grows malloc malloc_total [c] s l Hg) as (s' & H & H').
  { simpl. lia. }
  exists s'. simpl in H'. by rewrite (u8_byte c) in H'.
Qed.

Lemma is_octal_digit d : 0 <= d < 8 -> is_octal (48 + d) = true.
Proof. unfold is_octal. lia. Qed.

Lemma strtoul8_octal c x r :
  is_byte c -> is_octal x = false ->
  strtoul8 0 0 (octal c ++ x :: r) = Ok (c, length (octal c)).
Proof.
  unfold is_byte. intros Hc Hx. unfold octal.
  destruct (Z.ltb_spec c 8); [|destruct (Z.ltb_spec c 64)]; simpl;
    rewrite ?is_octal_digit, Hx by (Z.to_euclidean_division_equations; lia);
    (unfold mret, res_ret; f_equal; f_equal;
     Z.to_euclidean_division_equations; lia).
Qed.

Lemma octal_head c : is_byte c -> exists d r, octal c = d :: r /\ is_octal d = true.
Proof.
  unfold is_byte. intros Hc. unfold octal.
  destruct (Z.ltb_spec c 8); [|destruct (Z.ltb_spec c 64)];
    eexists _, _; (split; [reflexivity|]); apply is_octal_digit;
    Z.to_euclidean_division_equations; lia.
Qed.

(** A character that is not special after the backslash. *)
Definition verbatim (c : Z) : bool :=
  negb ((c =? 110) || (c =? 114) || (c =? 116) || is_octal c).

(** One turn on a character of its own. *)
Lemma unquote_plain fuel s l c rest m :
  grows s l -> is_byte c -> Z.of_nat (length l) < LIMIT -> 0 <= m -> c <> 92 ->
  exists s', grows s' (l ++ [c]) /\
    unquote_loop malloc (S fuel) s (c :: rest) (1 + m) =
    unquote_loop malloc fuel s' rest m.
Proof.
  intros Hg Hc Hlim Hm Hne. destruct (bcat_byte s l c Hg Hc Hlim) as (s' & E & Hg').
  exists s'. split; [done|]. cbn [unquote_loop].
  replace (1 + m <=? 0) with false by lia.
  change (rd (c :: rest) 0) with (Ok c). rewrite bind_Ret.
  replace (c =? 92) with false by lia. simpl negb. cbv iota. rewrite E, bind_Ret.
  simpl drop. by replace (1 + m - 1) with m by lia.
Qed.

(** One turn on a backslash and the character [c] that stands for [v]. *)
Lemma unquote_escape fuel s l c v rest m :
  grows s l -> is_byte v -> Z.of_nat (length l) < LIMIT -> 0 <= m ->
  (c = 110 /\ v = 10) \/ (c = 114 /\ v = 13) \/ (c = 116 /\ v = 9) \/
  (verbatim c = true /\ v = c) ->
  exists s', grows s' (l ++ [v]) /\
    unquote_loop malloc (S fuel) s (92 :: c :: rest) (2 + m) =
    unquote_loop malloc fuel s' rest m.
Proof.
  intros Hg Hv Hlim Hm Hcase.
  destruct (bcat_byte s l v Hg Hv Hlim) as (s' & E & Hg').
  exists s'. split; [done|]. cbn [unquote_loop].
  replace (2 + m <=? 0) with false by lia.
  change (rd (92 :: c :: rest) 0) with (Ok 92). rewrite bind_Ret.
  change (negb (92 =? 92)) with false. cbv iota zeta. simpl drop.
  replace (2 + m - 1 <=? 0) with false by lia.
  change (rd (c :: rest) 0) with (Ok c). rewrite bind_Ret.
  replace (2 + m - 1 - 1) with m by lia.
  destruct Hcase as [[-> ->]|[[-> ->]|[[-> ->]|[Hc ->]]]].
  1-3: simpl (_ =? _); cbv iota; by rewrite E.
  unfold verbatim in Hc. destruct (c =? 110), (c =? 114), (c =? 116), (is_octal c);
    try discriminate Hc. by rewrite E.
Qed.

(** One turn on an octal escape. *)
Lemma unquote_octal fuel s l c x rest m :
  grows s l -> is_byte c -> Z.of_nat (length l) < LIMIT -> 0 <= m ->
  is_octal x = false ->
  exists s', grows s' (l ++ [c]) /\
    unquote_loop malloc (S fuel) s (92 :: octal c ++ x :: rest)
      (1 + Z.of_nat (length (octal c)) + m) =
    unquote_loop malloc fuel s' (x :: rest) m.
Proof.
  intros Hg Hc Hlim Hm Hx.
  destruct (bcat_byte s l c Hg Hc Hlim) as (s' & E & Hg').
  exists s'. split; [done|]. cbn [unquote_loop].
  pose proof (strtoul8_octal c x rest Hc Hx) as Hs.
  assert (Hd : drop (length (octal c)) (octal c ++ x :: rest) = x :: rest)
    by apply drop_app_length.
  destruct (octal_head c Hc) as (d & r & Ho & Hod).
  set (k := length (octal c)) in *.
  assert (Hk : (1 <= k)%nat) by (unfold k; rewrite Ho; simpl; lia).
  replace (1 + Z.of_nat k + m <=? 0) with false by lia.
  change (rd (92 :: octal c ++ x :: rest) 0) with (Ok 92). rewrite bind_Ret.
  change (negb (92 =? 92)) with false. cbv iota zeta.
  change (drop 1 (92 :: octal c ++ x :: rest)) with (octal c ++ x :: rest).
  replace (1 + Z.of_nat k + m - 1 <=? 0) with false by lia.
  assert (Hrd : rd (octal c ++ x :: rest) 0 = Ok d) by by rewrite Ho.
  rewrite Hrd, bind_Ret, Hod.
  assert (d <> 110 /\ d <> 114 /\ d <> 116) as (H1 & H2 & H3)
    by (unfold is_octal in Hod; lia).
  apply Z.eqb_neq in H1, H2, H3. rewrite H1, H2, H3, Hs, bind_Ret.
  assert (Hl : (Z.land c (Z.lnot 0xff) =? 0) = true).
  { change 0xff with (2 ^ 8 - 1). rewrite land_lnot_mask by lia.
    rewrite Z.mod_small by done. lia. }
  rewrite Hl. simpl negb. cbv iota. rewrite E, bind_Ret, Hd.
  f_equal. lia.
Qed.

(** A turn on what [VSB_quote] wrote for [c]. *)
Lemma unquote1 fuel s l c x rest m :
  grows s l -> is_byte c -> Z.of_nat (length l) < LIMIT -> 0 <= m ->
  (octal_escaped c = true -> is_octal x = false) ->
  exists s', grows s' (l ++ [c]) /\
    unquote_loop malloc (S fuel) s (quoted1 c ++ x :: rest)
      (Z.of_nat (length (quoted1 c)) + m) =
    unquote_loop malloc fuel s' (x :: rest) m.
Proof.
  intros Hg Hc Hlim Hm Hx. unfold quoted1.
  destruct (Z.eqb_spec c 32) as [->|Hn32].
  { by apply (unquote_plain fuel s l 32 (x :: rest) m). }
  destruct ((c =? 92) || (c =? 34)) eqn:E2.
  { apply (unquote_escape fuel s l c c (x :: rest) m); try done.
    right; right; right. split; [|done]. unfold verbatim, is_octal. lia. }
  destruct (Z.eqb_spec c 10) as [->|?].
  { apply (unquote_escape fuel s l 110 10 (x :: rest) m); try done. by left. }
  destruct (Z.eqb_spec c 13) as [->|?].
  { apply (unquote_escape fuel s l 114 13 (x :: rest) m); try done.
    right; by left. }
  destruct (Z.eqb_spec c 9) as [->|?].
  { apply (unquote_escape fuel s l 116 9 (x :: rest) m); try done.
    right; right; by left. }
  destruct (isgraph c) eqn:Eg.
  { apply (unquote_plain fuel s l c (x :: rest) m); try done. lia. }
  change (length (92 :: octal c)) with (S (length (octal c))).
  rewrite Nat2Z.inj_succ, <- Z.add_1_l.
  apply unquote_octal; try done. apply Hx. unfold octal_escaped. rewrite Eg.
  rewrite bool_decide_eq_false_2; [done|].
  rewrite !elem_of_cons, elem_of_nil. lia.
Qed.

Lemma quoted1_head c x r :
  is_byte c -> quoted1 c = x :: r -> is_octal x = true -> is_octal c = true.
Proof.
  unfold quoted1. intros Hc Hq Ho.
  repeat match type of Hq with
  | (if ?b then _ else _) = _ => destruct b eqn:?
  end; by simplify_eq.
Qed.

Lemma unquote_loop_quoted d fuel s l e r :
  grows s l -> Forall is_byte d -> unambiguous d = true -> is_octal e = false ->
  Z.of_nat (length l + length d) <= LIMIT -> (length d <= fuel)%nat ->
  exists s', grows s' (l ++ d) /\
    unquote_loop malloc fuel s (quoted d ++ e :: r)
      (Z.of_nat (length (quoted d))) = Ok (s', None).
Proof.
  intros Hg Hd. revert fuel s l Hg.
  induction Hd as [|c d Hc Hd IH]; intros fuel s l Hg Hu He Hlim Hf.
  - exists s. rewrite app_nil_r. split; [done|]. destruct fuel; done.
  - simpl in Hlim, Hf. destruct fuel as [|fuel]; [lia|].
    assert (Hu' : unambiguous d = true).
    { simpl in Hu. destruct d; [done|]. by apply andb_true_iff in Hu as [_ ?]. }
    assert (Hq : exists x rest, quoted d ++ e :: r = x :: rest /\
      (octal_escaped c = true -> is_octal x = false)).
    { destruct d as [|c2 d']; [by exists e, r|]. simpl in Hu.
      apply andb_true_iff in Hu as [Hu _]. unfold quoted. simpl.
      destruct (quoted1 c2) as [|x q] eqn:Eq.
      { pose proof (length_quoted1 c2) as Hl. rewrite Eq in Hl. simpl in Hl. lia. }
      simpl. exists x, ((q ++ concat (map quoted1 d')) ++ e :: r).
      split; [by rewrite <- app_assoc|]. intros Hoe. rewrite Hoe in Hu. simpl in Hu.
      destruct (is_octal x) eqn:Ex; [|done].
      inversion Hd; subst. by rewrite (quoted1_head c2 x q) in Hu. }
    destruct Hq as (x & rest & Hq & Hx).
    assert (Ecat : quoted (c :: d) ++ e :: r = quoted1 c ++ x :: rest).
    { rewrite <- Hq. unfold quoted. simpl. by rewrite <- app_assoc. }
    assert (Elen : Z.of_nat (length (quoted (c :: d))) =
      Z.of_nat (length (quoted1 c)) + Z.of_nat (length (quoted d))).
    { unfold quoted. simpl. rewrite length_app. lia. }
    rewrite Ecat, Elen.
    destruct (unquote1 fuel s l c x rest (Z.of_nat (length (quoted d))) Hg Hc)
      as (s1 & Hg1 & ->); [lia|lia|done|].
    rewrite <- Hq.
    destruct (IH fuel s1 _ Hg1 Hu' He) as (s2 & Hg2 & ->).
    { rewrite length_app. simpl. lia. } { lia. }
    exists s2. by rewrite <- app_assoc in Hg2.
Qed.

End Quoting.

(** ** A growing buffer is a list

    The calls a client makes, what each does to the [vsb], and what it does to
    the string the client has in mind. *)

Inductive op :=
  | OPutc (c : Z)
  | OBcat (d : list Z)
  | OCat (d : list Z)       (* a string, without its NUL *)
  | OPrintf (text : list Z)
  | OQuote (d : list Z)
  | OTrim
  | OSetpos (n : nat)
  | OClear
  | OBcpy (d : list Z)
  | OCpy (d : list Z).      (* a string, without its NUL *)

Definition run_op (malloc : Z -> option (list Z)) (s : vsb) (o : op) : res vsb :=
  match o with
  | OPutc c => fst <$> VSB_putc malloc s c
  | OBcat d => fst <$> VSB_bcat malloc s d
  | OCat d => fst <$> VSB_cat malloc s (d ++ [0])
  | OPrintf t => fst <$> VSB_printf malloc s t
  | OQuote d => VSB_quote malloc s d (Z.of_nat (length d))
  | OTrim => fst <$> VSB_trim s
  | OSetpos n => fst <$> VSB_setpos s (Z.of_nat n)
  | OClear => VSB_clear s
  | OBcpy d => fst <$> VSB_bcpy malloc s d
  | OCpy d => fst <$> VSB_cpy malloc s (d ++ [0])
  end.

Fixpoint run_ops malloc (s : vsb) (os : list op) : res vsb :=
  match os with
  | [] => mret s
  | o :: os => s ← run_op malloc s o; run_ops malloc s os
  end.

Fixpoint drop_while (P : Z -> bool) (l : list Z) : list Z :=
  match l with
  | [] => []
  | c :: l' => if P c then drop_while P l' else l
  end.

Definition trim_right (l : list Z) : list Z :=
  reverse (drop_while isspace (reverse l)).

Definition spec_op (l : list Z) (o : op) : list Z :=
  match o with
  | OPutc c => l ++ [c]
  | OBcat d | OCat d | OPrintf d => l ++ d
  | OQuote d => l ++ quote_spec d
  | OTrim => trim_right l
  | OSetpos n => take n l
  | OClear => []
  | OBcpy d | OCpy d => d
  end.

Definition op_data (o : op) : list Z :=
  match o with
  | OPutc c => [c]
  | OBcat d | OCat d | OPrintf d | OQuote d | OBcpy d | OCpy d => d
  | OTrim | OSetpos _ | OClear => []
  end.

(** Arguments are octets, a string argument holds no NUL, and a position is
    inside the string. *)
Definition op_ok (l : list Z) (o : op) : Prop :=
  Forall is_byte (op_data o) /\
  match o with
  | OCat d | OCpy d => Forall (fun c => c <> 0) d
  | OSetpos n => (n <= length l)%nat
  | _ => True
  end.

Fixpoint ops_ok (l : list Z) (os : list op) : Prop :=
  match os with
  | [] => True
  | o :: os => op_ok l o /\ ops_ok (spec_op l o) os
  end.

(** What a call can add to the length. *)
Definition op_cost (o : op) : Z :=
  match o with
  | OQuote d => 4 * Z.of_nat (length d) + 2
  | _ => Z.of_nat (length (op_data o))
  end.

Lemma trim_right_snoc l c :
  trim_right (l ++ [c]) = if isspace c then trim_right l else l ++ [c].
Proof.
  unfold trim_right. rewrite reverse_snoc. simpl. destruct (isspace c); [done|].
  by rewrite reverse_cons, reverse_involutive.
Qed.

Lemma trim_loop_ok b n fuel :
  (n <= length b)%nat -> (n <= fuel)%nat ->
  exists k, trim_loop fuel b (Z.of_nat n) = Ok (Z.of_nat k) /\
    (k <= n)%nat /\ take k b = trim_right (take n b).
Proof.
  revert fuel. induction n as [|n IH]; intros fuel Hb Hf.
  - exists 0%nat. by destruct fuel.
  - destruct fuel as [|fuel]; [lia|].
    destruct (lookup_lt_is_Some_2 b n) as [c Hc]; [lia|].
    assert (Erd : rd b (Z.of_nat (S n) - 1) = Ok c).
    { apply rd_Ok. split; [lia|].
      by replace (Z.to_nat (Z.of_nat (S n) - 1)) with n by lia. }
    cbn [trim_loop]. rewrite (proj2 (Z.ltb_lt 0 (Z.of_nat (S n)))) by lia.
    rewrite Erd, bind_Ret, (take_S_r _ _ c Hc), trim_right_snoc.
    destruct (isspace c).
    + replace (Z.of_nat (S n) - 1) with (Z.of_nat n) by lia.
      destruct (IH fuel) as (k & -> & Hk & Ht); [lia|lia|].
      exists k. split; [done|]. split; [lia|done].
    + exists (S n). split; [done|]. split; [lia|]. by apply take_S_r.
Qed.

Lemma grows_trim s l :
  grows s l -> exists s', VSB_trim s = Ok (s', 0) /\ grows s' (trim_right l).
Proof.
  intros Hg. assert (Hh := g_holds _ _ Hg).
  destruct (grows_buf _ _ Hg) as (b & Hb & Hbl & Hr & Hl & Ht & Hsz).
  unfold VSB_trim.
  rewrite (integrity_ok _ (h_w _ _ Hh)), (state_ok _ (h_w _ _ Hh)), !bind_Ret.
  rewrite (h_err _ _ Hh), Hb. change (truth 0) with false. cbv iota.
  change (deref (Some b)) with (Ok b). rewrite bind_Ret.
  destruct (trim_loop_ok b (Z.to_nat (s_len s)) (Z.to_nat (s_len s)))
    as (k & E & Hk & Hkt); [lia|lia|].
  rewrite Z2Nat.id in E by lia. rewrite E, bind_Ret.
  eexists. split; [done|].
  apply (grows_with_len _ l _ b); [done|done|lia|].
  rewrite Nat2Z.id, Hkt. by rewrite Ht.
Qed.

Lemma grows_setpos s l n :
  grows s l -> (n <= length l)%nat ->
  exists s', VSB_setpos s (Z.of_nat n) = Ok (s', 0) /\ grows s' (take n l).
Proof.
  intros Hg Hn. assert (Hh := g_holds _ _ Hg).
  destruct (grows_buf _ _ Hg) as (b & Hb & Hbl & Hr & Hl & Ht & Hsz).
  unfold VSB_setpos.
  rewrite (integrity_ok _ (h_w _ _ Hh)), (state_ok _ (h_w _ _ Hh)), !bind_Ret.
  rewrite (vassert_true (0 <=? Z.of_nat n)),
    (vassert_true (Z.of_nat n <? s_size s)), !bind_Ret by lia.
  replace ((Z.of_nat n <? 0) || (s_len s <? Z.of_nat n)) with false by lia.
  eexists. split; [done|].
  apply (grows_with_len _ l _ b); [done|done|lia|].
  rewrite Nat2Z.id, <- Ht, take_take. f_equal. lia.
Qed.

Lemma grows_clear s l :
  grows s l -> exists s', VSB_clear s = Ok s' /\ grows s' [].
Proof.
  intros Hg. assert (Hh := g_holds _ _ Hg).
  destruct (grows_buf _ _ Hg) as (b & Hb & Hbl & Hr & Hl & Ht & Hsz).
  unfold VSB_clear. rewrite (integrity_ok _ (h_w _ _ Hh)), bind_Ret.
  eexists. split; [done|].
  assert (Hfl : forall m, Z.land VSB_FINISHED m = 0 ->
    Z.land (Z.land (s_flags s) (Z.lnot VSB_FINISHED)) m = Z.land (s_flags s) m).
  { intros m Hm. rewrite <- Z.land_assoc. f_equal. apply Z.bits_inj'.
    intros i Hi. apply (f_equal (fun z => Z.testbit z i)) in Hm.
    rewrite Z.land_spec, Z.bits_0 in Hm. rewrite Z.land_spec, Z.lnot_spec by done.
    by destruct (Z.testbit VSB_FINISHED i), (Z.testbit m i). }
  destruct Hg as [[[Hm _ _ Ho] He Hc] Hx Hs].
  split; [split|unfold VSB_CANEXTEND; simpl; by rewrite Hfl|done].
  - split; simpl; [done|by exists b|lia|].
    unfold bit_clear. rewrite <- Z.land_assoc.
    by rewrite (Z.land_comm (Z.lnot _)), Z.land_lnot_diag, Z.land_0_r.
  - done.
  - unfold contents. simpl. by rewrite Hb.
Qed.

(** Copying is appending to a cleared buffer. *)
Lemma bcpy_grows malloc (Hm : total_malloc malloc) d s l :
  grows s l -> Z.of_nat (length d) <= LIMIT ->
  exists s', VSB_bcpy malloc s d = Ok (s', 0) /\ grows s' (map u8 d).
Proof.
  intros Hg Hd. unfold VSB_bcpy. pass_asserts (h_w _ _ (g_holds _ _ Hg)).
  destruct (grows_clear s l Hg) as (s1 & -> & Hg1). rewrite bind_Ret.
  by apply (bcat_grows malloc Hm d s1 []).
Qed.

Lemma cpy_grows malloc (Hm : total_malloc malloc) d r s l :
  grows s l -> Z.of_nat (length d) <= LIMIT -> Forall (fun c => c <> 0) d ->
  exists s', VSB_cpy malloc s (d ++ 0 :: r) = Ok (s', 0) /\ grows s' (map u8 d).
Proof.
  intros Hg Hl Hd. unfold VSB_cpy. pass_asserts (h_w _ _ (g_holds _ _ Hg)).
  destruct (grows_clear s l Hg) as (s1 & -> & Hg1). rewrite bind_Ret.
  by apply (cat_grows malloc Hm d r s1 []).
Qed.

Lemma region_all d : region d (Z.of_nat (length d)) = Ok d.
Proof.
  unfold region. rewrite (proj2 (Z.eqb_neq _ _)) by lia.
  destruct (Z.leb_spec (Z.of_nat (length d)) 0).
  - destruct d; [done|simpl in *; lia].
  - rewrite (proj2 (Z.ltb_ge _ _)) by lia. by rewrite Nat2Z.id, firstn_all.
Qed.

Lemma run_op_grows malloc (Hm : total_malloc malloc) s l o :
  grows s l -> op_ok l o -> Z.of_nat (length l) + op_cost o <= LIMIT ->
  exists s', run_op malloc s o = Ok s' /\ grows s' (spec_op l o).
Proof.
  intros Hg [Hd Ho] Hlim. destruct o as [c|d|d|t|d| |n| |d|d]; simpl in *.
  - destruct (putc_grows malloc Hm s l c Hg) as (s' & -> & Hg'); [lia|].
    exists s'. inversion_clear Hd. by rewrite u8_byte in Hg'.
  - destruct (bcat_grows malloc Hm d s l Hg) as (s' & -> & Hg'); [lia|].
    exists s'. by rewrite map_u8 in Hg'.
  - destruct (cat_grows malloc Hm d [] s l Hg) as (s' & -> & Hg'); [lia|done|].
    exists s'. by rewrite map_u8 in Hg'.
  - destruct (vprintf_grows malloc Hm s l t Hg) as (s' & -> & Hg'); [lia|].
    by exists s'.
  - destruct (quote_grows malloc Hm s l d _ d Hg (region_all d) Hd) as (s' & -> & Hg'); [lia|].
    by exists s'.
  - destruct (grows_trim s l Hg) as (s' & -> & Hg'). by exists s'.
  - destruct (grows_setpos s l n Hg Ho) as (s' & -> & Hg'). by exists s'.
  - by apply (grows_clear s l).
  - destruct (bcpy_grows malloc Hm d s l Hg) as (s' & -> & Hg'); [lia|].
    exists s'. by rewrite map_u8 in Hg'.
  - destruct (cpy_grows malloc Hm d [] s l Hg) as (s' & -> & Hg'); [lia|done|].
    exists s'. by rewrite map_u8 in Hg'.
Qed.

Lemma length_spec_op l o :
  Z.of_nat (length (spec_op l o)) <= Z.of_nat (length l) + op_cost o.
Proof.
  assert (Ht : (length (trim_right l) <= length l)%nat).
  { induction l as [|c l IH] using rev_ind; [done|]. rewrite trim_right_snoc.
    destruct (isspace c); [|done]. rewrite length_app. lia. }
  destruct o as [c|d|d|t|d| |n| |d|d]; simpl; rewrite ?length_app, ?length_take;
    simpl; try lia.
  unfold quote_spec. pose proof (length_quoted d).
  destruct (existsb needs_quote d); simpl; rewrite ?length_app; simpl; lia.
Qed.

Lemma run_ops_grows malloc (Hm : total_malloc malloc) os s l :
  grows s l -> ops_ok l os ->
  Z.of_nat (length l) + foldr (fun o => Z.add (op_cost o)) 0 os <= LIMIT ->
  exists s', run_ops malloc s os = Ok s' /\ grows s' (foldl spec_op l os).
Proof.
  revert s l. induction os as [|o os IH]; intros s l Hg Hok Hlim; simpl in *.
  - by exists s.
  - destruct Hok as [Ho Hok].
    assert (Hpos : 0 <= foldr (fun o => Z.add (op_cost o)) 0 os).
    { clear. induction os as [|o os IH]; simpl; [done|].
      assert (0 <= op_cost o) by (destruct o; simpl; lia). lia. }
    destruct (run_op_grows malloc Hm s l o Hg Ho) as (s1 & -> & Hg1); [lia|].
    simpl. apply IH; [done|done|]. pose proof (length_spec_op l o). lia.
Qed.

Lemma new_auto_grows malloc (Hm : total_malloc malloc) :
  exists s, VSB_new malloc true true None 0 VSB_AUTOEXTEND = Ok (Some s) /\
    grows s [].
Proof.
  destruct (Hm 16) as (b & Hb & Hl); [lia|].
  unfold VSB_new, VSB_newbuf. simpl.
  change VSB_MINEXTENDSIZE with 16. rewrite Hb. simpl.
  eexists. split; [reflexivity|].
  split; [split|done|simpl; lia]; [|done|done].
  split; simpl; [done|by exists b|lia|done].
Qed.

(** [VSB_finish] and the two accessors. *)
Lemma finish_grows s l :
  grows s l -> exists s' r, VSB_finish s = Ok (s', 0) /\
    VSB_data s' = Ok (l ++ 0 :: r) /\ VSB_len s' = Ok (Z.of_nat (length l)).
Proof.
  intros Hg. assert (Hh := g_holds _ _ Hg).
  destruct (grows_buf _ _ Hg) as (b & Hb & Hbl & Hr & Hl & Ht & Hsz).
  unfold VSB_finish.
  rewrite (integrity_ok _ (h_w _ _ Hh)), (state_ok _ (h_w _ _ Hh)), !bind_Ret.
  rewrite Hb. change (deref (Some b)) with (Ok b).
  rewrite bind_Ret, wr_in, bind_Ret by lia. cbv zeta.
  set (s' := VSB_SETFLAG _ _).
  assert (He : s_error s' = 0) by exact (h_err _ _ Hh). rewrite He.
  exists s', (drop (S (Z.to_nat (s_len s))) b). split; [done|].
  assert (Hint : assert_VSB_integrity s' = Ok tt).
  { unfold assert_VSB_integrity. simpl.
    rewrite (w_magic _ (h_w _ _ Hh)). simpl. by rewrite vassert_true by lia. }
  assert (Hst : assert_VSB_state s' VSB_FINISHED = Ok tt).
  { unfold assert_VSB_state. simpl. rewrite Z.land_lor_distr_l.
    by rewrite (w_open _ (h_w _ _ Hh)). }
  split.
  - unfold VSB_data. rewrite Hint, Hst. simpl. f_equal.
    rewrite insert_take_drop by lia. by rewrite Ht.
  - unfold VSB_len. rewrite Hint, bind_Ret, He. simpl.
    unfold mret, res_ret. f_equal. lia.
Qed.

(** A finished buffer can be cleared and used again. *)
Lemma finish_clear s l s' r :
  grows s l -> VSB_finish s = Ok (s', r) -> exists s2, VSB_clear s' = Ok s2 /\ grows s2 [].
Proof.
  intros Hg. assert (Hh := g_holds _ _ Hg).
  destruct (grows_buf _ _ Hg) as (b & Hb & Hbl & Hr & Hl & Ht & Hsz).
  unfold VSB_finish.
  rewrite (integrity_ok _ (h_w _ _ Hh)), (state_ok _ (h_w _ _ Hh)), !bind_Ret.
  rewrite Hb. change (deref (Some b)) with (Ok b). rewrite bind_Ret, wr_in, bind_Ret by lia. cbv zeta.
  set (b' := <[_ := 0]> b). set (s1 := VSB_SETFLAG _ _). intros E.
  assert (s' = s1) as -> by (destruct (truth _); injection E; by intros _ <-). clear E.
  assert (Hg1 : grows (with_buf s (Some b')) l).
  { apply (grows_with_buf s l b b' Hg Hb); [apply length_insert|]. unfold b'. apply take_insert_ge. lia. }
  destruct (grows_clear _ _ Hg1) as (s2 & E2 & Hg2). exists s2. split; [|done]. rewrite <- E2.
  unfold VSB_clear. change (assert_VSB_integrity s1) with (assert_VSB_integrity (with_buf s (Some b'))).
  destruct (assert_VSB_integrity _); [rewrite !bind_Ret|done].
  unfold mret, res_ret. f_equal. unfold s1, VSB_CLEARFLAG, VSB_SETFLAG, with_len, with_error, with_buf. cbn. f_equal.
  apply Z.bits_inj'. intros i Hi. rewrite !Z.land_spec, Z.lor_spec, Z.lnot_spec by done.
  destruct (Z.testbit VSB_FINISHED i); cbn; [by rewrite !andb_false_r|by rewrite orb_false_r].
Qed.

(** C35. An auto-extending buffer implements the list it stands for, when [malloc] never
    refuses and what the calls can add is not above half a gigabyte ([LIMIT]): from
    [VSB_new_auto], any sequence of appends (of a character, of octets, of a string,
    formatted, quoted), copies that replace the contents ([VSB_bcpy], [VSB_cpy]), trims,
    repositionings and clears runs without a failed assertion, an access out of bounds or
    a recorded error, and [VSB_finish], [VSB_data] and [VSB_len] then give the list that
    the same calls build, NUL-terminated, and its length. *)
Theorem vsb_refines_list (malloc : Z -> option (list Z)) (os : list op)
  (Hm : total_malloc malloc) (Hok : ops_ok [] os)
  (Hlim : foldr (fun o => Z.add (op_cost o)) 0 os <= LIMIT) :
  exists s s1 s2 rest,
    VSB_new malloc true true None 0 VSB_AUTOEXTEND = Ok (Some s) /\
    run_ops malloc s os = Ok s1 /\ VSB_finish s1 = Ok (s2, 0) /\
    VSB_data s2 = Ok (foldl spec_op [] os ++ 0 :: rest) /\
    VSB_len s2 = Ok (Z.of_nat (length (foldl spec_op [] os))).
Proof.
  destruct (new_auto_grows malloc Hm) as (s & Hn & Hg).
  destruct (run_ops_grows malloc Hm os s [] Hg Hok) as (s1 & Hr & Hg1).
  { simpl. lia. }
  destruct (finish_grows s1 _ Hg1) as (s2 & rest & H1 & H2 & H3).
  by exists s, s1, s2, rest.
Qed.

(** A [malloc] that never refuses and clears what it gives. *)
Definition calloc (n : Z) : option (list Z) := Some (replicate (Z.to_nat n) 0).

Lemma calloc_total : total_malloc calloc.
Proof.
  intros n Hn. eexists. split; [reflexivity|]. rewrite length_replicate. lia.
Qed.

Lemma vsb_refines_list_witness :
  exists s2 rest, VSB_data s2 = Ok ([97; 98; 34; 92; 49; 34] ++ 0 :: rest).
Proof.
  destruct (vsb_refines_list calloc
    [OPutc 7; OCpy [97; 98; 32]; OTrim; OQuote [1]] calloc_total)
    as (s & s1 & s2 & rest & _ & _ & _ & H & _).
  - simpl. unfold op_ok. simpl. repeat constructor; unfold is_byte; lia.
  - vm_compute. congruence.
  - exists s2, rest. exact H.
Defined.

(** A fixed buffer keeps the first [s_size - 1] octets of what was
    appended, and reports an error exactly when something was cut off. *)
Theorem vsb_fixed_truncates (malloc : Z -> option (list Z)) (s : vsb)
  (l d : list Z) (Hs : holds s l) (Hfix : VSB_CANEXTEND s = false)
  (Hd : Forall is_byte d) :
  exists s' r, VSB_bcat malloc s d = Ok (s', r) /\
    contents s' = take (Z.to_nat (s_size s - 1)) (l ++ d) /\
    (r = -1 /\ VSB_error s' = ENOMEM <->
       s_size s - 1 < Z.of_nat (length l + length d)) /\
    (r = 0 /\ VSB_error s' = 0 <->
       Z.of_nat (length l + length d) <= s_size s - 1).
Proof.
  unfold VSB_bcat.
  rewrite (integrity_ok _ (h_w _ _ Hs)), (state_ok _ (h_w _ _ Hs)), !bind_Ret.
  rewrite (h_err _ _ Hs). change (truth 0) with false. cbv iota.
  destruct (bcat_loop_fixed malloc d s l Hs Hfix) as (s' & r & -> & _ & _ & Hc & Hr).
  exists s', r. split; [done|]. rewrite map_u8 in Hc by done. split; [done|].
  unfold VSB_error, ENOMEM in *.
  destruct (Z.ltb_spec (s_size s - 1) (Z.of_nat (length l + length d))); lia.
Qed.

(** A fixed buffer of four octets, for the witnesses. *)
Definition fixed4 : vsb := mkVsb VSB_MAGIC (Some [0; 0; 0; 0]) 0 4 0 VSB_FIXEDLEN.

Lemma fixed4_holds : holds fixed4 [].
Proof.
  split; [|done|done]. split; simpl; [done|by eexists|lia|done].
Qed.

Lemma vsb_fixed_truncates_witness :
  exists s', VSB_bcat no_alloc fixed4 [97; 98; 99; 100] = Ok (s', -1) /\
    contents s' = [97; 98; 99].
Proof.
  destruct (vsb_fixed_truncates no_alloc fixed4 [] [97; 98; 99; 100] fixed4_holds
    eq_refl) as (s' & r & H & Hc & Hr & _).
  - repeat constructor; unfold is_byte; lia.
  - destruct (proj2 Hr) as [-> _]; [simpl; lia|].
    exists s'. split; [exact H|exact Hc].
Defined.

Lemma quoted_plain d : existsb needs_quote d = false -> quoted d = d.
Proof.
  induction d as [|c d IH]; [done|]. simpl. intros H.
  apply orb_false_iff in H as [Hc Hd]. unfold quoted in *. simpl.
  rewrite (IH Hd). unfold needs_quote in Hc. unfold quoted1.
  destruct (isgraph c) eqn:Eg; [|done]. unfold isgraph in Eg. simpl in Hc.
  replace (c =? 32) with false by lia. rewrite (orb_comm (c =? 92)), Hc.
  replace (c =? 10) with false by lia. replace (c =? 13) with false by lia.
  by replace (c =? 9) with false by lia.
Qed.

(** [VSB_unquote] undoes [VSB_quote] on every string in which no octal
    escape is followed by an octal digit: what [VSB_quote] appends, less the
    double quotes it puts around, unquotes to the original octets. *)
Theorem vsb_unquote_quote (malloc : Z -> option (list Z)) (sq su : vsb)
  (lq lu d : list Z) (Hm : total_malloc malloc)
  (Hq : grows sq lq) (Hu : grows su lu)
  (Hd : Forall is_byte d) (Hun : unambiguous d = true)
  (Hlq : Z.of_nat (length lq) + 4 * Z.of_nat (length d) + 2 <= LIMIT)
  (Hlu : Z.of_nat (length lu + length d) <= LIMIT) :
  exists sq' su' body,
    VSB_quote malloc sq d (Z.of_nat (length d)) = Ok sq' /\
    contents sq' =
      lq ++ (if existsb needs_quote d then 34 :: body ++ [34] else body) /\
    VSB_unquote malloc su (body ++ [0]) (Z.of_nat (length body)) = Ok (su', None) /\
    contents su' = lu ++ d.
Proof.
  destruct (quote_grows malloc Hm sq lq d _ d Hq (region_all d) Hd Hlq)
    as (sq' & E & Hg).
  destruct (unquote_loop_quoted malloc Hm d (length (quoted d)) su lu 0 [] Hu Hd
    Hun eq_refl Hlu) as (su' & Hg' & E').
  { clear. induction d as [|c d IH]; simpl; [lia|]. unfold quoted in *. simpl.
    rewrite length_app. pose proof (length_quoted1 c). lia. }
  exists sq', su', (quoted d). split; [done|]. split; [|split].
  - rewrite (h_con _ _ (g_holds _ _ Hg)). unfold quote_spec.
    destruct (existsb needs_quote d) eqn:En; [done|]. by rewrite quoted_plain.
  - unfold VSB_unquote. rewrite (proj2 (Z.eqb_neq _ _)), bind_Ret by lia.
    by rewrite Nat2Z.id.
  - apply (h_con _ _ (g_holds _ _ Hg')).
Qed.

(** An empty growing buffer, for the witnesses. *)
Definition auto16 : vsb :=
  mkVsb VSB_MAGIC (Some (replicate 16 0)) 0 16 0
    (Z.lor (Z.lor VSB_AUTOEXTEND VSB_DYNAMIC) VSB_DYNSTRUCT).

Lemma auto16_grows : grows auto16 [].
Proof.
  split; [split|done|simpl; lia]; [|done|done].
  split; simpl; [done|by eexists|lia|done].
Qed.

Lemma vsb_unquote_quote_witness :
  exists su' body, VSB_unquote calloc auto16 (body ++ [0])
    (Z.of_nat (length body)) = Ok (su', None) /\
    contents su' = [104; 10; 1; 104; 34; 255].
Proof.
  destruct (vsb_unquote_quote calloc auto16 auto16 [] []
    [104; 10; 1; 104; 34; 255] calloc_total auto16_grows auto16_grows)
    as (sq' & su' & body & _ & _ & H & Hc).
  - repeat constructor; unfold is_byte; lia.
  - reflexivity.
  - vm_compute. congruence.
  - vm_compute. congruence.
  - exists su', body. split; [exact H|exact Hc].
Defined.

(** [VSB_quote] does not determine what it quoted: its octal escapes have
    no fixed width, so the two octets 1 and '3' and the one octet 11 come out
    the same, and [VSB_unquote] reads the one octet back. *)
Theorem vsb_quote_ambiguous (malloc : Z -> option (list Z)) (s : vsb)
  (l : list Z) (Hm : total_malloc malloc) (Hg : grows s l)
  (Hl : Z.of_nat (length l) + 10 <= LIMIT) :
  exists s1 s2 s3 body,
    VSB_quote malloc s [1; 51] 2 = Ok s1 /\
    VSB_quote malloc s [11] 1 = Ok s2 /\
    contents s1 = l ++ 34 :: body ++ [34] /\
    contents s2 = l ++ 34 :: body ++ [34] /\
    VSB_unquote malloc s (body ++ [0]) (Z.of_nat (length body)) = Ok (s3, None) /\
    contents s3 = l ++ [11].
Proof.
  destruct (quote_grows malloc Hm s l [1; 51] 2 [1; 51] Hg eq_refl)
    as (s1 & E1 & H1); [repeat constructor; unfold is_byte; lia|simpl; lia|].
  destruct (quote_grows malloc Hm s l [11] 1 [11] Hg eq_refl)
    as (s2 & E2 & H2); [repeat constructor; unfold is_byte; lia|simpl; lia|].
  destruct (unquote_loop_quoted malloc Hm [11] 3 s l 0 [] Hg) as (s3 & H3 & E3);
    [repeat constructor; unfold is_byte; lia|done|done|simpl; lia|simpl; lia|].
  exists s1, s2, s3, [92; 49; 51]. repeat split; try done.
  - apply (h_con _ _ (g_holds _ _ H1)).
  - apply (h_con _ _ (g_holds _ _ H2)).
  - apply (h_con _ _ (g_holds _ _ H3)).
Qed.

Lemma vsb_quote_ambiguous_witness :
  exists s1 s2, VSB_quote calloc auto16 [1; 51] 2 = Ok s1 /\
    VSB_quote calloc auto16 [11] 1 = Ok s2 /\ contents s1 = contents s2.
Proof.
  destruct (vsb_quote_ambiguous calloc auto16 [] calloc_total auto16_grows)
    as (s1 & s2 & s3 & body & E1 & E2 & C1 & C2 & _).
  - vm_compute. congruence.
  - exists s1, s2. split; [exact E1|]. split; [exact E2|].
    exact (eq_trans C1 (eq_sym C2)).
Defined.

(** A formatted append that exactly fills a fixed buffer is stored in
    full and still reported as an overflow, while an append of the same octets
    by [VSB_bcat] is not. *)
Theorem vsb_printf_exact_fit (malloc : Z -> option (list Z)) (s : vsb)
  (l text : list Z) (Hs : holds s l) (Hfix : VSB_CANEXTEND s = false)
  (Htext : Forall is_byte text)
  (Hfit : Z.of_nat (length l + length text) = s_size s - 1) :
  exists sp sb,
    VSB_printf malloc s text = Ok (sp, -1) /\ VSB_error sp = ENOMEM /\
    contents sp = l ++ text /\
    VSB_bcat malloc s text = Ok (sb, 0) /\ VSB_error sb = 0 /\
    contents sb = l ++ text.
Proof.
  pose proof (holds_len _ _ Hs) as Hl. assert (Hw := h_w _ _ Hs).
  destruct (w_buf _ Hw) as (b & Hb & Hbl).
  destruct (bcat_loop_fixed malloc text s l Hs Hfix) as (sb & r & Eb & _ & _ & Hc & Hr).
  rewrite map_u8, take_ge in Hc by (rewrite ?length_app; done || lia).
  rewrite (proj2 (Z.ltb_ge _ _)) in Hr by lia. destruct Hr as [-> Hr].
  destruct (vsnprintf_ok b (s_len s) (VSB_FREESPACE s + 1) text)
    as (b' & Ev & Hb'l & Hb't & Hb'f); try (unfold VSB_FREESPACE; lia).
  eexists _, sb. split; [|split; [|split; [|split; [|split; [exact Hr|exact Hc]]]]].
  - unfold VSB_printf, VSB_vprintf.
    rewrite (integrity_ok _ Hw), (state_ok _ Hw), !bind_Ret, (h_err _ _ Hs).
    change (truth 0) with false. cbv iota. cbn [vprintf_loop]. rewrite Hb.
    change (deref (Some b)) with (Ok b). rewrite bind_Ret, Ev, bind_Ret. cbv zeta.
    change (VSB_FREESPACE (with_buf s (Some b'))) with (VSB_FREESPACE s).
    rewrite (proj2 (Z.ltb_ge _ _)), bind_Ret by (unfold VSB_FREESPACE; lia).
    cbv zeta. change (VSB_FREESPACE (with_buf s (Some b'))) with (VSB_FREESPACE s).
    rewrite (proj2 (Z.ltb_ge _ _)) by (unfold VSB_FREESPACE; lia).
    assert (VSB_HASROOM (with_len (with_buf s (Some b'))
      (s_len (with_buf s (Some b')) + Z.of_nat (length text))) = false) as ->
      by (unfold VSB_HASROOM; simpl; lia).
    change (VSB_CANEXTEND (with_len _ _)) with (VSB_CANEXTEND s). rewrite Hfix.
    simpl negb. cbv iota. simpl andb. cbv iota.
    rewrite vassert_true, bind_Ret by (simpl; lia). reflexivity.
  - done.
  - unfold contents. simpl.
    assert (Ht : take (Z.to_nat (s_len s)) b = l).
    { rewrite <- (h_con _ _ Hs). unfold contents. by rewrite Hb. }
    rewrite Ht, (take_ge text) in Hb'f by (unfold VSB_FREESPACE; lia).
    rewrite <- Hb'f. f_equal. unfold VSB_FREESPACE. lia.
  - unfold VSB_bcat. rewrite (integrity_ok _ Hw), (state_ok _ Hw), !bind_Ret.
    by rewrite (h_err _ _ Hs).
Qed.

Lemma vsb_printf_exact_fit_witness :
  exists sp, VSB_printf no_alloc fixed4 [97; 98; 99] = Ok (sp, -1) /\
    contents sp = [97; 98; 99].
Proof.
  destruct (vsb_printf_exact_fit no_alloc fixed4 [] [97; 98; 99] fixed4_holds)
    as (sp & sb & H & _ & Hc & _).
  - reflexivity.
  - repeat constructor; unfold is_byte; lia.
  - reflexivity.
  - exists sp. split; [exact H|exact Hc].
Defined.

End Vsb.
