(* ===== verification/StorageFile.v ===== *)
(** The file stevedore: [bin/varnishd/storage_file.c].

    The file is mapped in chunks, and each chunk is cut into [struct smf]
    ranges.  All ranges, allocated or free, are on the [order] list by address;
    each free range is also on one of [NBUCKET] free lists by size, each
    allocated one on [used].

    A [struct smf] has an identity, its address in the C program ([smf_id]).
    The [order] list holds the structures themselves; the status lists hold
    identities.  A handler that has a pointer to a structure has its value
    here, and writes it back with [put].  Memory for the structures is always
    granted ([XXXAN]).  [Lck_Lock] and [Lck_Unlock] set the [locked] flag that
    [Lck_AssertHeld] tests.  The counters are [uint64_t]. *)
From S2P Require Import Prelude.

Module StorageFile.

Definition NBUCKET : nat := 128 / 4 + 1.
Definition MINPAGES : Z := 128.
Definition SSIZE_MAX : Z := 2 ^ 63 - 1.

Record storage := mkStorage {
  st_priv : option positive;
  st_ptr : Z;
  st_len : Z;
  st_space : Z;
}.

Record smf := mkSmf {
  smf_id : positive;
  smf_s : storage;
  smf_alloc : Z;
  smf_size : Z;
  smf_offset : Z;
  smf_ptr : Z;
  smf_flist : option nat;   (* index of the free list, None for NULL *)
}.

Record stats := mkStats {
  c_req : Z; c_fail : Z; c_bytes : Z; c_freed : Z;
  g_alloc : Z; g_bytes : Z; g_space : Z;
  g_smf : Z; g_smf_frag : Z; g_smf_large : Z;
}.

Record smf_sc := mkSc {
  sc_locked : bool;
  sc_stats : stats;
  sc_pagesize : Z;
  sc_filesize : Z;
  sc_order : list smf;
  sc_free : list (list positive);
  sc_used : list positive;
  sc_next : positive;   (* the next address malloc gives *)
}.

Definition set_alloc (n : smf) (a : Z) : smf :=
  mkSmf (smf_id n) (smf_s n) a (smf_size n) (smf_offset n) (smf_ptr n) (smf_flist n).
Definition set_size (n : smf) (z : Z) : smf :=
  mkSmf (smf_id n) (smf_s n) (smf_alloc n) z (smf_offset n) (smf_ptr n) (smf_flist n).
Definition set_flist (n : smf) (l : option nat) : smf :=
  mkSmf (smf_id n) (smf_s n) (smf_alloc n) (smf_size n) (smf_offset n) (smf_ptr n) l.
Definition set_s (n : smf) (s : storage) : smf :=
  mkSmf (smf_id n) s (smf_alloc n) (smf_size n) (smf_offset n) (smf_ptr n) (smf_flist n).
(** The [offset] and [ptr] fields moved by [d]. *)
Definition advance (n : smf) (d : Z) : smf :=
  mkSmf (smf_id n) (smf_s n) (smf_alloc n) (smf_size n)
    (smf_offset n + d) (smf_ptr n + d) (smf_flist n).
Definition with_id (n : smf) (i : positive) : smf :=
  mkSmf i (smf_s n) (smf_alloc n) (smf_size n) (smf_offset n) (smf_ptr n) (smf_flist n).

Definition set_locked (sc : smf_sc) b :=
  mkSc b (sc_stats sc) (sc_pagesize sc) (sc_filesize sc) (sc_order sc)
    (sc_free sc) (sc_used sc) (sc_next sc).
Definition set_stats (sc : smf_sc) st :=
  mkSc (sc_locked sc) st (sc_pagesize sc) (sc_filesize sc) (sc_order sc)
    (sc_free sc) (sc_used sc) (sc_next sc).
Definition set_order (sc : smf_sc) o :=
  mkSc (sc_locked sc) (sc_stats sc) (sc_pagesize sc) (sc_filesize sc) o
    (sc_free sc) (sc_used sc) (sc_next sc).
Definition set_free (sc : smf_sc) f :=
  mkSc (sc_locked sc) (sc_stats sc) (sc_pagesize sc) (sc_filesize sc)
    (sc_order sc) f (sc_used sc) (sc_next sc).
Definition set_used (sc : smf_sc) u :=
  mkSc (sc_locked sc) (sc_stats sc) (sc_pagesize sc) (sc_filesize sc)
    (sc_order sc) (sc_free sc) u (sc_next sc).
Definition set_next (sc : smf_sc) n :=
  mkSc (sc_locked sc) (sc_stats sc) (sc_pagesize sc) (sc_filesize sc)
    (sc_order sc) (sc_free sc) (sc_used sc) n.

(** ** Lists of structures, addressed by identity *)

Fixpoint find_smf (i : positive) (l : list smf) : option smf :=
  match l with
  | [] => None
  | n :: l => if decide (smf_id n = i) then Some n else find_smf i l
  end.

(** A write through the pointer to [n]. *)
Fixpoint put (n : smf) (l : list smf) : list smf :=
  match l with
  | [] => []
  | x :: l => if decide (smf_id x = smf_id n) then n :: l else x :: put n l
  end.

(** The VTAILQ operations on the [order] links. *)
Fixpoint insert_before (i : positive) (x : smf) (l : list smf) : list smf :=
  match l with
  | [] => []
  | n :: l => if decide (smf_id n = i) then x :: n :: l
              else n :: insert_before i x l
  end.

Fixpoint insert_after (i : positive) (x : smf) (l : list smf) : list smf :=
  match l with
  | [] => []
  | n :: l => if decide (smf_id n = i) then n :: x :: l
              else n :: insert_after i x l
  end.

Fixpoint next_of (i : positive) (l : list smf) : option smf :=
  match l with
  | [] => None
  | n :: l => if decide (smf_id n = i) then head l else next_of i l
  end.

Fixpoint prev_of (i : positive) (prev : option smf) (l : list smf) : option smf :=
  match l with
  | [] => None
  | n :: l => if decide (smf_id n = i) then prev else prev_of i (Some n) l
  end.

Definition remove_order (i : positive) (l : list smf) : list smf :=
  filter (fun n => smf_id n <> i) l.

(** The same on the [status] links. *)
Fixpoint insert_before_id (i x : positive) (l : list positive) : list positive :=
  match l with
  | [] => []
  | y :: l => if decide (y = i) then x :: y :: l else y :: insert_before_id i x l
  end.

Definition remove_id (i : positive) (l : list positive) : list positive :=
  filter (fun y => y <> i) l.

(** [*sp]: the structure at an address. *)
Definition node (sc : smf_sc) (i : positive) : res smf :=
  deref (find_smf i (sc_order sc)).

Definition put_node (sc : smf_sc) (n : smf) : smf_sc :=
  set_order sc (put n (sc_order sc)).

(** ** Counters *)

Definition count_frag (st : stats) (d : Z) : stats :=
  mkStats (c_req st) (c_fail st) (c_bytes st) (c_freed st) (g_alloc st)
    (g_bytes st) (g_space st) (g_smf st) (u64 (g_smf_frag st + d)) (g_smf_large st).
Definition count_large (st : stats) (d : Z) : stats :=
  mkStats (c_req st) (c_fail st) (c_bytes st) (c_freed st) (g_alloc st)
    (g_bytes st) (g_space st) (g_smf st) (g_smf_frag st) (u64 (g_smf_large st + d)).
Definition count_smf (st : stats) (d : Z) : stats :=
  mkStats (c_req st) (c_fail st) (c_bytes st) (c_freed st) (g_alloc st)
    (g_bytes st) (g_space st) (u64 (g_smf st + d)) (g_smf_frag st) (g_smf_large st).

(** ** Free lists *)

Definition Lck_AssertHeld (sc : smf_sc) : res unit := vassert (sc_locked sc).

(** The list a free range of [size] octets belongs on, and whether it counts
    as a large one. *)
Definition bucket (sc : smf_sc) (size : Z) : nat * bool :=
  let b := size / sc_pagesize sc in
  if Z.of_nat NBUCKET <=? b then (NBUCKET - 1, true)%nat
  else (Z.to_nat b, false).

(** The VTAILQ_FOREACH of [insfree]: the first range with a higher offset. *)
Fixpoint insfree_scan (sc : smf_sc) (sp : smf) (b : nat) (ns : Z)
    (l : list positive) : res (option positive) :=
  match l with
  | [] => mret None
  | i :: l =>
      sp2 ← node sc i;
      vassert (ns <=? smf_size sp2);;
      vassert (smf_alloc sp2 =? 0);;
      vassert (bool_decide (smf_flist sp2 = Some b));;
      if smf_offset sp <? smf_offset sp2 then mret (Some i)
      else insfree_scan sc sp b ns l
  end.

Definition insfree (sc : smf_sc) (sp : smf) : res smf_sc :=
  vassert (smf_alloc sp =? 0);;
  vassert (bool_decide (smf_flist sp = None));;
  Lck_AssertHeld sc;;
  let '(b, large) := bucket sc (smf_size sp) in
  let sc := set_stats sc (if large then count_large (sc_stats sc) 1
                          else count_frag (sc_stats sc) 1) in
  let sp := set_flist sp (Some b) in
  let sc := put_node sc sp in
  let ns := Z.of_nat b * sc_pagesize sc in
  l ← deref (sc_free sc !! b);
  sp2 ← insfree_scan sc sp b ns l;
  let l := match sp2 with
           | None => l ++ [smf_id sp]
           | Some i => insert_before_id i (smf_id sp) l
           end in
  mret (set_free sc (<[b := l]> (sc_free sc))).

(** The updated structure is returned, for the caller may have unlinked it
    from [order]. *)
Definition remfree (sc : smf_sc) (sp : smf) : res (smf_sc * smf) :=
  vassert (smf_alloc sp =? 0);;
  vassert (bool_decide (smf_flist sp <> None));;
  Lck_AssertHeld sc;;
  let '(b, large) := bucket sc (smf_size sp) in
  let sc := set_stats sc (if large then count_large (sc_stats sc) (-1)
                          else count_frag (sc_stats sc) (-1)) in
  vassert (bool_decide (smf_flist sp = Some b));;
  l ← deref (sc_free sc !! b);
  let sc := set_free sc (<[b := remove_id (smf_id sp) l]> (sc_free sc)) in
  let sp := set_flist sp None in
  mret (put_node sc sp, sp).

(** ** Allocation *)

(** [for (; b < NBUCKET - 1; b++)]: the head of the first non-empty list; [n]
    is [NBUCKET - 1 - b]. *)
Fixpoint first_bucket (sc : smf_sc) (b n : nat) : res (option positive) :=
  match n with
  | O => mret None
  | S n =>
      l ← deref (sc_free sc !! b);
      match l with
      | i :: _ => mret (Some i)
      | [] => first_bucket sc (S b) n
      end
  end.

Fixpoint first_fit (sc : smf_sc) (bytes : Z) (l : list positive)
  : res (option positive) :=
  match l with
  | [] => mret None
  | i :: l =>
      sp ← node sc i;
      if bytes <=? smf_size sp then mret (Some i) else first_fit sc bytes l
  end.

(** The search at the head of [alloc_smf]. *)
Definition search (sc : smf_sc) (bytes : Z) : res (option positive) :=
  let b := bytes / sc_pagesize sc in
  let b := if Z.of_nat NBUCKET <=? b then (NBUCKET - 1)%nat else Z.to_nat b in
  found ← first_bucket sc b (NBUCKET - 1 - b);
  match found with
  | Some i => mret (Some i)
  | None => l ← deref (sc_free sc !! (NBUCKET - 1)%nat);
            first_fit sc bytes l
  end.

Definition alloc_smf (sc : smf_sc) (bytes : Z) : res (smf_sc * option smf) :=
  vassert (bytes mod sc_pagesize sc =? 0);;
  found ← search sc bytes;
  match found with
  | None => mret (sc, None)
  | Some i =>
      sp ← node sc i;
      vassert (bytes <=? smf_size sp);;
      '(sc, sp) ← remfree sc sp;
      if smf_size sp =? bytes then
        let sp := set_alloc sp 1 in
        let sc := put_node sc sp in
        mret (set_used sc (sc_used sc ++ [smf_id sp]), Some sp)
      else
        (* Split from front *)
        let sp2 := with_id sp (sc_next sc) in
        let sc := set_next sc (Pos.succ (sc_next sc)) in
        let sc := set_stats sc (count_smf (sc_stats sc) 1) in
        let sp := set_size (advance sp bytes) (smf_size sp - bytes) in
        let sc := put_node sc sp in
        let sp2 := set_alloc (set_size sp2 bytes) 1 in
        let sc := set_order sc (insert_before (smf_id sp) sp2 (sc_order sc)) in
        let sc := set_used sc (sc_used sc ++ [smf_id sp2]) in
        sc ← insfree sc sp;
        mret (sc, Some sp2)
  end.

(** ** Freeing *)

(** [sp2] starts where [sp] ends, in memory and in the file. *)
Definition contiguous (sp sp2 : smf) : bool :=
  (smf_ptr sp2 =? smf_ptr sp + smf_size sp) &&
  (smf_offset sp2 =? smf_offset sp + smf_size sp).

(** The two halves of [free_smf] that look at the neighbours on [order]. *)
Definition merge_forward (sc : smf_sc) (sp : smf) : res (smf_sc * smf) :=
  match next_of (smf_id sp) (sc_order sc) with
  | Some sp2 =>
      if (smf_alloc sp2 =? 0) && contiguous sp sp2 then
        let sp := set_size sp (smf_size sp + smf_size sp2) in
        let sc := put_node sc sp in
        let sc := set_order sc (remove_order (smf_id sp2) (sc_order sc)) in
        '(sc, _) ← remfree sc sp2;
        mret (set_stats sc (count_smf (sc_stats sc) (-1)), sp)
      else mret (sc, sp)
  | None => mret (sc, sp)
  end.

Definition merge_back (sc : smf_sc) (sp : smf) : res (smf_sc * smf) :=
  match prev_of (smf_id sp) None (sc_order sc) with
  | Some sp2 =>
      if (smf_alloc sp2 =? 0) && contiguous sp2 sp then
        '(sc, sp2) ← remfree sc sp2;
        let sp2 := set_size sp2 (smf_size sp2 + smf_size sp) in
        let sc := put_node sc sp2 in
        let sc := set_order sc (remove_order (smf_id sp) (sc_order sc)) in
        mret (set_stats sc (count_smf (sc_stats sc) (-1)), sp2)
      else mret (sc, sp)
  | None => mret (sc, sp)
  end.

Definition free_smf (sc : smf_sc) (sp : smf) : res smf_sc :=
  vassert (negb (smf_alloc sp =? 0));;
  vassert (0 <? smf_size sp);;
  vassert (smf_size sp mod sc_pagesize sc =? 0);;
  let sc := set_used sc (remove_id (smf_id sp) (sc_used sc)) in
  let sp := set_alloc sp 0 in
  let sc := put_node sc sp in
  '(sc, sp) ← merge_forward sc sp;
  '(sc, sp) ← merge_back sc sp;
  insfree sc sp.

Definition trim_smf (sc : smf_sc) (sp : smf) (bytes : Z) : res smf_sc :=
  vassert (negb (smf_alloc sp =? 0));;
  vassert (0 <? bytes);;
  vassert (bytes <? smf_size sp);;
  vassert (bytes mod sc_pagesize sc =? 0);;
  vassert (smf_size sp mod sc_pagesize sc =? 0);;
  let sp2 := with_id sp (sc_next sc) in
  let sc := set_next sc (Pos.succ (sc_next sc)) in
  let sc := set_stats sc (count_smf (sc_stats sc) 1) in
  let sp2 := set_size sp2 (smf_size sp2 - bytes) in
  let sp := set_size sp bytes in
  let sc := put_node sc sp in
  let sp2 := advance sp2 bytes in
  let sc := set_order sc (insert_after (smf_id sp) sp2 (sc_order sc)) in
  let sc := set_used sc (sc_used sc ++ [smf_id sp2]) in
  free_smf sc sp2.

(** The VTAILQ_FOREACH of [new_smf], with the insertion at its end. *)
Fixpoint insert_by_ptr (sp : smf) (l : list smf) : list smf :=
  match l with
  | [] => [sp]
  | sp2 :: l => if smf_ptr sp <? smf_ptr sp2 then sp :: sp2 :: l
                else sp2 :: insert_by_ptr sp l
  end.

Definition no_storage : storage := mkStorage None 0 0 0.

Definition new_smf (sc : smf_sc) (ptr off len : Z) : res smf_sc :=
  vassert (len mod sc_pagesize sc =? 0);;
  let sp := mkSmf (sc_next sc) no_storage 1 len off ptr None in
  let sc := set_next sc (Pos.succ (sc_next sc)) in
  let sc := set_stats sc (count_smf (sc_stats sc) 1) in
  let sc := set_order sc (insert_by_ptr sp (sc_order sc)) in
  let sc := set_used sc (smf_id sp :: sc_used sc) in
  free_smf sc sp.

(** ** Mapping the file

    The [sc] that [smf_init] builds: no ranges yet.  [page_size] is the
    granularity asked for and [filesize] what [STV_FileSize] made of it. *)
Definition no_stats : stats := mkStats 0 0 0 0 0 0 0 0 0 0.

Definition smf_init_sc (page_size filesize : Z) : smf_sc :=
  mkSc false no_stats (u32 page_size) filesize [] (replicate NBUCKET []) [] 1%positive.

(**
    [mmap] is a parameter: the address at which the range is mapped, or
    failure.  It may look at what is mapped already. *)
Section Open.

Variable mmap : smf_sc -> Z -> Z -> option Z.

(** The recursion on halves.  [fail] and [sum] are passed by reference. *)
Fixpoint smf_open_chunk (fuel : nat) (sc : smf_sc) (sz off fail sum : Z)
  : res (smf_sc * Z * Z) :=
  vassert (negb (sz =? 0));;
  vassert (sz mod sc_pagesize sc =? 0);;
  if fail <? sc_pagesize sc * MINPAGES then mret (sc, fail, sum) else
  match fuel with
  | O => Fail FFuel
  | S fuel =>
      let halves :=
        let fail := if sz <? fail then sz else fail in
        let h := sz / 2 in
        let h := if SSIZE_MAX <? h then SSIZE_MAX else h in
        let h := h - h mod sc_pagesize sc in
        '(sc, fail, sum) ← smf_open_chunk fuel sc h off fail sum;
        smf_open_chunk fuel sc (sz - h) (off + h) fail sum in
      if (0 <? sz) && (sz <? fail) && (sz <? SSIZE_MAX) then
        match mmap sc sz off with
        | Some p => sc ← new_smf sc p off sz; mret (sc, fail, sum + sz)
        | None => halves
        end
      else halves
  end.

Definition count_space (st : stats) (d : Z) : stats :=
  mkStats (c_req st) (c_fail st) (c_bytes st) (c_freed st) (g_alloc st)
    (g_bytes st) (u64 (g_space st + d)) (g_smf st) (g_smf_frag st) (g_smf_large st).

(** [None] is [exit(2)]: too little could be mapped. [syspage] is
    [getpagesize()]. *)
Definition smf_open (fuel : nat) (sc : smf_sc) (syspage : Z)
  : res (option smf_sc) :=
  let sc := set_stats sc no_stats in
  let sc := set_locked sc true in
  '(sc, _, sum) ← smf_open_chunk fuel sc (sc_filesize sc) 0 (2 ^ 30) 0;
  let sc := set_locked sc false in
  if sum <? MINPAGES * syspage then mret None
  else mret (Some (set_stats sc (count_space (sc_stats sc) (sc_filesize sc)))).

End Open.

(** ** The stevedore's methods *)

(** [Lck_Lock] and [Lck_Unlock]: not recursive, and released by the holder. *)
Definition Lck_Lock (sc : smf_sc) : res smf_sc :=
  vassert (negb (sc_locked sc));; mret (set_locked sc true).
Definition Lck_Unlock (sc : smf_sc) : res smf_sc :=
  vassert (sc_locked sc);; mret (set_locked sc false).

(** [size += (sc->pagesize - 1); size &= ~(sc->pagesize - 1);] — [size] is a
    [size_t], but [pagesize] and with it the mask is an [unsigned]. *)
Definition round_pages (sc : smf_sc) (size : Z) : Z :=
  let size := u64 (size + u32 (sc_pagesize sc - 1)) in
  Z.land size (u32 (Z.lnot (u32 (sc_pagesize sc - 1)))).

Definition count_req (st : stats) : stats :=
  mkStats (u64 (c_req st + 1)) (c_fail st) (c_bytes st) (c_freed st) (g_alloc st)
    (g_bytes st) (g_space st) (g_smf st) (g_smf_frag st) (g_smf_large st).
Definition count_fail (st : stats) : stats :=
  mkStats (c_req st) (u64 (c_fail st + 1)) (c_bytes st) (c_freed st) (g_alloc st)
    (g_bytes st) (g_space st) (g_smf st) (g_smf_frag st) (g_smf_large st).
Definition count_alloc (st : stats) (n : Z) : stats :=
  mkStats (c_req st) (c_fail st) (u64 (c_bytes st + n)) (c_freed st)
    (u64 (g_alloc st + 1)) (u64 (g_bytes st + n)) (u64 (g_space st - n))
    (g_smf st) (g_smf_frag st) (g_smf_large st).
Definition count_trim (st : stats) (n : Z) : stats :=
  mkStats (c_req st) (c_fail st) (c_bytes st) (u64 (c_freed st + n))
    (g_alloc st) (u64 (g_bytes st - n)) (u64 (g_space st + n))
    (g_smf st) (g_smf_frag st) (g_smf_large st).
Definition count_free (st : stats) (n : Z) : stats :=
  mkStats (c_req st) (c_fail st) (c_bytes st) (u64 (c_freed st + n))
    (u64 (g_alloc st - 1)) (u64 (g_bytes st - n)) (u64 (g_space st + n))
    (g_smf st) (g_smf_frag st) (g_smf_large st).

(** The result is the identity of the range whose [storage] is handed out. *)
Definition smf_alloc_ (sc : smf_sc) (size : Z) : res (smf_sc * option positive) :=
  vassert (0 <? size);;
  let size := round_pages sc size in
  sc ← Lck_Lock sc;
  let sc := set_stats sc (count_req (sc_stats sc)) in
  '(sc, r) ← alloc_smf sc size;
  match r with
  | None =>
      let sc := set_stats sc (count_fail (sc_stats sc)) in
      sc ← Lck_Unlock sc;
      mret (sc, None)
  | Some smf =>
      let sc := set_stats sc (count_alloc (sc_stats sc) (smf_size smf)) in
      sc ← Lck_Unlock sc;
      vassert (smf_size smf =? size);;
      let smf := set_s smf (mkStorage (Some (smf_id smf)) (smf_ptr smf) 0 size) in
      mret (put_node sc smf, Some (smf_id smf))
  end.

(** [i] is the storage's [priv]. *)
Definition smf_trim (sc : smf_sc) (i : positive) (size : Z) : res smf_sc :=
  smf ← node sc i;
  vassert (0 <? size);;
  vassert (size <=? st_space (smf_s smf));;
  vassert (size <=? smf_size smf);;
  let size := round_pages sc size in
  if size <? smf_size smf then
    sc ← Lck_Lock sc;
    let sc := set_stats sc (count_trim (sc_stats sc) (smf_size smf - size)) in
    sc ← trim_smf sc smf size;
    smf ← node sc i;
    vassert (smf_size smf =? size);;
    sc ← Lck_Unlock sc;
    let s := smf_s smf in
    mret (put_node sc (set_s smf (mkStorage (st_priv s) (st_ptr s) (st_len s) size)))
  else mret sc.

Definition smf_free (sc : smf_sc) (i : positive) : res smf_sc :=
  smf ← node sc i;
  sc ← Lck_Lock sc;
  let sc := set_stats sc (count_free (sc_stats sc) (smf_size smf)) in
  sc ← free_smf sc smf;
  Lck_Unlock sc.

End StorageFile.
