(* ===== verification/StorageFileInv.v ===== *)
(** The file stevedore, proofs: the lists stay consistent, ranges never
    overlap, free neighbours are always merged, and the gauges count what is
    handed out. *)
From S2P Require Import Prelude StorageFile.
Import StorageFile.

Module SmfInv.

(** ** Positions in the order list *)

Definition ids (l : list smf) : list positive := map smf_id l.

Lemma ids_app l1 l2 : ids (l1 ++ l2) = ids l1 ++ ids l2.
Proof. apply map_app. Qed.

Lemma elem_of_ids l i : i ∈ ids l <-> exists n, n ∈ l /\ smf_id n = i.
Proof.
  unfold ids. rewrite list_elem_of_fmap. split; intros (n & ? & ?); by exists n.
Qed.

Lemma ids_perm l l' : l ≡ₚ l' -> ids l ≡ₚ ids l'.
Proof. apply Permutation_map. Qed.

#[export] Instance ids_proper : Proper ((≡ₚ) ==> (≡ₚ)) ids.
Proof. intros l l' H. by apply ids_perm. Qed.

Lemma find_split i l n :
  find_smf i l = Some n ->
  exists l1 l2, l = l1 ++ n :: l2 /\ smf_id n = i /\ i ∉ ids l1.
Proof.
  induction l as [|x l IH]; simpl; [done|]. destruct (decide (smf_id x = i)) as [E|Hne].
  - intros [= <-]. exists [], l. split; [done|]. split; [done|]. by apply not_elem_of_nil.
  - intros (l1 & l2 & -> & Hi & Hn)%IH. exists (x :: l1), l2.
    split; [done|]. split; [done|]. simpl. rewrite not_elem_of_cons. done.
Qed.

Section Mid.

Context (l1 l2 : list smf) (n : smf) (Hn : smf_id n ∉ ids l1).

Ltac solve_mid :=
  induction l1 as [|y l IH]; simpl in *;
  [by rewrite decide_True
  |rewrite not_elem_of_cons in Hn; destruct Hn as [Hy Hn'];
   rewrite decide_False by done; by rewrite ?IH].

Lemma find_mid : find_smf (smf_id n) (l1 ++ n :: l2) = Some n.
Proof. solve_mid. Qed.

Lemma put_mid n' :
  smf_id n' = smf_id n -> put n' (l1 ++ n :: l2) = (l1 ++ n' :: l2).
Proof.
  intros E. induction l1 as [|x l IH]; simpl in *.
  - by rewrite decide_True by congruence.
  - rewrite not_elem_of_cons in Hn. destruct Hn as [Hx Hn'].
    rewrite decide_False by congruence. by rewrite IH.
Qed.

Lemma insert_before_mid x :
  insert_before (smf_id n) x (l1 ++ n :: l2) = (l1 ++ x :: n :: l2).
Proof. solve_mid. Qed.

Lemma insert_after_mid x :
  insert_after (smf_id n) x (l1 ++ n :: l2) = (l1 ++ n :: x :: l2).
Proof. solve_mid. Qed.

Lemma next_mid : next_of (smf_id n) (l1 ++ n :: l2) = head l2.
Proof. solve_mid. Qed.

Lemma prev_mid p :
  prev_of (smf_id n) p (l1 ++ n :: l2) =
  match last l1 with Some x => Some x | None => p end.
Proof.
  revert p. induction l1 as [|x l IH]; intros p; simpl in *; [by rewrite decide_True|].
  rewrite not_elem_of_cons in Hn. destruct Hn as [Hx Hn'].
  rewrite decide_False by done. rewrite (IH Hn').
  destruct l as [|y l]; [done|]. rewrite last_cons_cons.
  destruct (last (y :: l)) eqn:E; [done|]. by apply last_None in E.
Qed.

End Mid.

Lemma remove_order_absent i l : i ∉ ids l -> remove_order i l = l.
Proof.
  unfold remove_order. induction l as [|x l IH]; simpl; [done|].
  rewrite not_elem_of_cons. intros [? ?]. rewrite filter_cons_True by done.
  by rewrite IH.
Qed.

Lemma remove_order_mid l1 l2 n :
  smf_id n ∉ ids l1 -> smf_id n ∉ ids l2 ->
  remove_order (smf_id n) (l1 ++ n :: l2) = l1 ++ l2.
Proof.
  intros H1 H2. unfold remove_order. rewrite filter_app, filter_cons_False by auto.
  f_equal; by apply remove_order_absent.
Qed.

Lemma put_absent n l : smf_id n ∉ ids l -> put n l = l.
Proof.
  induction l as [|x l IH]; simpl; [done|]. rewrite not_elem_of_cons.
  intros [? ?]. rewrite decide_False by done. by rewrite IH.
Qed.

Lemma NoDup_mid l1 n l2 :
  NoDup (ids (l1 ++ n :: l2)) -> (smf_id n ∉ ids l1) /\ (smf_id n ∉ ids l2).
Proof.
  rewrite ids_app. simpl. rewrite NoDup_app, NoDup_cons.
  intros (_ & H & H2 & _). split; [|done]. intros Hin. apply (H _ Hin).
  by left.
Qed.

(** ** Relations along a list *)

Fixpoint pairwise (R : smf -> smf -> Prop) (l : list smf) : Prop :=
  match l with
  | [] => True
  | a :: l => Forall (R a) l /\ pairwise R l
  end.

Lemma pairwise_app R l1 l2 :
  pairwise R (l1 ++ l2) <->
  pairwise R l1 /\ pairwise R l2 /\ Forall (fun a => Forall (R a) l2) l1.
Proof.
  induction l1 as [|a l1 IH]; simpl.
  - rewrite Forall_nil. tauto.
  - rewrite Forall_app, Forall_cons, IH. tauto.
Qed.

Fixpoint chain (R : smf -> smf -> Prop) (l : list smf) : Prop :=
  match l with
  | a :: ((b :: _) as l') => R a b /\ chain R l'
  | _ => True
  end.

Lemma chain_cons R a l :
  chain R (a :: l) <-> (forall b, head l = Some b -> R a b) /\ chain R l.
Proof.
  destruct l as [|b l]; simpl; [done|]. split; intros [H ?]; split; try done.
  - by intros ? [= <-].
  - by apply H.
Qed.

Lemma chain_mid R l1 n l2 :
  chain R (l1 ++ n :: l2) <->
  chain R l1 /\ (forall p, last l1 = Some p -> R p n) /\
  (forall q, head l2 = Some q -> R n q) /\ chain R l2.
Proof.
  induction l1 as [|a l1 IH]; simpl app.
  - rewrite chain_cons. simpl. naive_solver.
  - rewrite !chain_cons, IH. destruct l1 as [|b l1]; simpl.
    + naive_solver.
    + naive_solver.
Qed.

Fixpoint sum_by (f : smf -> Z) (l : list smf) : Z :=
  match l with [] => 0 | a :: l => f a + sum_by f l end.

Lemma sum_by_app f l1 l2 : sum_by f (l1 ++ l2) = sum_by f l1 + sum_by f l2.
Proof. induction l1; simpl; [done|]. rewrite IHl1. lia. Qed.

(** ** The status lists

    [g] is the list of structures that are in play; it is a permutation of
    the order list, except where [free_smf] has unlinked a neighbour from
    [order] and not yet from its free list. *)

Definition free_on (b : nat) (g : list smf) : list positive :=
  ids (filter (fun n => smf_flist n = Some b) g).
Definition in_use (g : list smf) : list positive :=
  ids (filter (fun n => smf_alloc n <> 0) g).

#[export] Instance free_on_proper b : Proper ((≡ₚ) ==> (≡ₚ)) (free_on b).
Proof. intros g g' H. unfold free_on. by rewrite H. Qed.
#[export] Instance in_use_proper : Proper ((≡ₚ) ==> (≡ₚ)) in_use.
Proof. intros g g' H. unfold in_use. by rewrite H. Qed.

Record linked (sc : smf_sc) (g : list smf) : Prop := {
  l_len : length (sc_free sc) = NBUCKET;
  l_free : forall b l, sc_free sc !! b = Some l -> l ≡ₚ free_on b g;
  l_used : sc_used sc ≡ₚ in_use g;
  l_nodup : NoDup (ids g);
}.

Lemma linked_perm sc g g' : g ≡ₚ g' -> linked sc g -> linked sc g'.
Proof.
  intros Hp [H1 H2 H3 H4]. split; [done| | |].
  - intros b l Hl. by rewrite (H2 b l Hl), Hp.
  - by rewrite H3, Hp.
  - by rewrite <- (ids_perm _ _ Hp).
Qed.

(** Every structure of [g] is where its identity points. *)
Definition stored (sc : smf_sc) (g : list smf) : Prop :=
  forall x, x ∈ g -> find_smf (smf_id x) (sc_order sc) = Some x.

Definition bucket_of (sc : smf_sc) (n : smf) : nat :=
  fst (bucket sc (smf_size n)).

(** A free range is on the list of its size, an allocated one on none. *)
Definition placed (sc : smf_sc) (n : smf) : Prop :=
  smf_flist n = if decide (smf_alloc n = 0) then Some (bucket_of sc n) else None.

Lemma bucket_lt sc z : 0 < sc_pagesize sc -> 0 <= z -> (fst (bucket sc z) < NBUCKET)%nat.
Proof.
  intros Hp Hz. unfold bucket, NBUCKET.
  assert (0 <= z / sc_pagesize sc) by (apply Z.div_pos; lia).
  destruct (Z.leb_spec (Z.of_nat (128 / 4 + 1)) (z / sc_pagesize sc)); simpl in *; lia.
Qed.

(** The size of a range is at least that of its list. *)
Lemma bucket_size sc z :
  0 < sc_pagesize sc -> 0 <= z ->
  Z.of_nat (fst (bucket sc z)) * sc_pagesize sc <= z.
Proof.
  intros Hp Hz. unfold bucket.
  assert (0 <= z / sc_pagesize sc) by (apply Z.div_pos; lia).
  assert (Hm : z / sc_pagesize sc * sc_pagesize sc <= z)
    by (rewrite Z.mul_comm; apply Z.mul_div_le; lia).
  destruct (Z.leb_spec (Z.of_nat NBUCKET) (z / sc_pagesize sc)); simpl.
  - etrans; [|exact Hm]. apply Z.mul_le_mono_nonneg_r; [lia|]. unfold NBUCKET in *.
    simpl in *. lia.
  - by rewrite Z2Nat.id.
Qed.

Lemma remove_id_absent i l : i ∉ l -> remove_id i l = l.
Proof.
  unfold remove_id. induction l as [|x l IH]; simpl; [done|].
  rewrite not_elem_of_cons. intros [? ?]. rewrite filter_cons_True by done.
  by rewrite IH.
Qed.

Lemma remove_id_cons i l : i ∉ l -> remove_id i (i :: l) = l.
Proof.
  intros H. unfold remove_id. rewrite filter_cons_False by auto.
  by apply remove_id_absent.
Qed.

Lemma remove_id_perm i l l' : l ≡ₚ i :: l' -> i ∉ l' -> remove_id i l ≡ₚ l'.
Proof.
  intros Hp Hi. unfold remove_id. rewrite Hp. fold (remove_id i (i :: l')).
  by rewrite remove_id_cons.
Qed.

Lemma insert_before_id_perm i x l : i ∈ l -> insert_before_id i x l ≡ₚ x :: l.
Proof.
  induction l as [|y l IH]; simpl; [by intros ?%elem_of_nil|].
  rewrite elem_of_cons. intros Hi. destruct (decide (y = i)); [done|].
  destruct Hi as [|Hi]; [congruence|]. rewrite (IH Hi). apply Permutation_swap.
Qed.

Lemma free_on_cons b n g :
  free_on b (n :: g) =
  if decide (smf_flist n = Some b) then smf_id n :: free_on b g else free_on b g.
Proof. unfold free_on. rewrite filter_cons. by destruct (decide _). Qed.

Lemma in_use_cons n g :
  in_use (n :: g) =
  if decide (smf_alloc n = 0) then in_use g else smf_id n :: in_use g.
Proof.
  unfold in_use. rewrite filter_cons.
  destruct (decide (smf_alloc n = 0)).
  - by rewrite decide_False by auto.
  - by rewrite decide_True.
Qed.

Lemma free_on_sub b g i : i ∈ free_on b g -> i ∈ ids g.
Proof.
  unfold free_on. rewrite !elem_of_ids. intros (n & [_ ?]%list_elem_of_filter & ?).
  by exists n.
Qed.

Lemma in_use_sub g i : i ∈ in_use g -> i ∈ ids g.
Proof.
  unfold in_use. rewrite !elem_of_ids. intros (n & [_ ?]%list_elem_of_filter & ?).
  by exists n.
Qed.

(** Only the two free-list gauges differ. *)
Definition frag_only (st st' : stats) : Prop :=
  exists a b, st' = mkStats (c_req st) (c_fail st) (c_bytes st) (c_freed st)
    (g_alloc st) (g_bytes st) (g_space st) (g_smf st) a b.

(** [sc] with other contents; its constants and its lock are kept. *)
Definition upd (sc : smf_sc) st o fr u nx : smf_sc :=
  mkSc (sc_locked sc) st (sc_pagesize sc) (sc_filesize sc) o fr u nx.

Lemma remfree_spec sc n g :
  linked sc (n :: g) -> sc_locked sc = true -> 0 < sc_pagesize sc ->
  smf_alloc n = 0 -> 0 <= smf_size n -> smf_flist n = Some (bucket_of sc n) ->
  exists st fr,
    let n' := set_flist n None in
    let sc' := upd sc st (put n' (sc_order sc)) fr (sc_used sc) (sc_next sc) in
    remfree sc n = Ok (sc', n') /\ frag_only (sc_stats sc) st /\
    linked sc' (n' :: g).
Proof.
  intros [Hlen Hfree Hused Hnd] Hlk Hps Ha Hsz Hfl.
  unfold remfree, Lck_AssertHeld. rewrite Ha, Hlk. simpl.
  rewrite bool_decide_eq_true_2 by congruence. simpl.
  pose proof (bucket_lt sc (smf_size n) Hps Hsz) as Hb.
  unfold bucket_of in Hfl.
  destruct (bucket sc (smf_size n)) as [b large]. simpl in *.
  rewrite bool_decide_eq_true_2 by done. simpl.
  destruct (lookup_lt_is_Some_2 (sc_free sc) b) as [l Hl]; [lia|].
  rewrite Hl. simpl. eexists _, _. split; [reflexivity|].
  assert (Hng : smf_id n ∉ ids g) by (simpl in Hnd; by apply NoDup_cons in Hnd as [? _]).
  split; [destruct large; by eexists _, _|].
  split; simpl.
  - by rewrite length_insert.
  - intros b' l' Hl'. rewrite free_on_cons. simpl.
    apply list_lookup_insert_Some in Hl' as [(<- & <- & _)|(Hne & Hl')].
    + apply remove_id_perm; [|by intros ?%free_on_sub].
      rewrite (Hfree _ _ Hl), free_on_cons. by rewrite decide_True.
    + rewrite (Hfree _ _ Hl'), free_on_cons. rewrite decide_False; [done|]. congruence.
  - rewrite Hused, !in_use_cons. simpl. done.
  - exact Hnd.
Qed.

Lemma find_put_ne n i l : smf_id n <> i -> find_smf i (put n l) = find_smf i l.
Proof.
  intros Hne. induction l as [|x l IH]; simpl; [done|].
  destruct (decide (smf_id x = smf_id n)) as [E|]; simpl.
  - rewrite decide_False by done. by rewrite decide_False by congruence.
  - by rewrite IH.
Qed.

Lemma insfree_scan_ok sc sp b ns l :
  (forall i, i ∈ l -> exists x, node sc i = Ok x /\ ns <= smf_size x /\
     smf_alloc x = 0 /\ smf_flist x = Some b) ->
  exists r, insfree_scan sc sp b ns l = Ok r /\
    match r with Some i => i ∈ l | None => True end.
Proof.
  induction l as [|i l IH]; intros Hl; simpl; [by eexists|].
  destruct (Hl i) as (x & -> & Hs & Ha & Hf); [by left|]. simpl.
  rewrite (vassert_true (ns <=? smf_size x)) by lia. rewrite Ha, Hf. simpl.
  rewrite bool_decide_eq_true_2 by done. simpl.
  destruct (smf_offset sp <? smf_offset x).
  - exists (Some i). split; [done|]. by left.
  - destruct IH as (r & -> & Hr); [intros; apply Hl; by right|].
    exists r. split; [done|]. destruct r; [by right|done].
Qed.

(** The sizes and lists of what is in play, [n] apart. *)
Definition all_placed (sc : smf_sc) (g : list smf) : Prop :=
  Forall (fun x => placed sc x /\ 0 <= smf_size x) g.

Lemma insfree_spec sc n g :
  linked sc (n :: g) -> sc_locked sc = true -> 0 < sc_pagesize sc ->
  smf_alloc n = 0 -> 0 <= smf_size n -> smf_flist n = None ->
  stored sc g -> all_placed sc g ->
  exists st fr,
    let n' := set_flist n (Some (bucket_of sc n)) in
    let sc' := upd sc st (put n' (sc_order sc)) fr (sc_used sc) (sc_next sc) in
    insfree sc n = Ok sc' /\ frag_only (sc_stats sc) st /\ linked sc' (n' :: g).
Proof.
  intros [Hlen Hfree Hused Hnd] Hlk Hps Ha Hsz Hfl Hst Hpl.
  unfold insfree, Lck_AssertHeld. rewrite Ha, Hlk, Hfl. simpl.
  pose proof (bucket_lt sc (smf_size n) Hps Hsz) as Hb.
  assert (Hbe : bucket_of sc n = fst (bucket sc (smf_size n))) by done.
  destruct (bucket sc (smf_size n)) as [b large] eqn:Ebk. simpl in *.
  destruct (lookup_lt_is_Some_2 (sc_free sc) b) as [l Hl]; [lia|].
  rewrite Hl. simpl.
  assert (Hng : smf_id n ∉ ids g) by (by apply NoDup_cons in Hnd as [? _]).
  set (sc1 := put_node _ _). set (ns := Z.of_nat b * sc_pagesize sc).
  destruct (insfree_scan_ok sc1 (set_flist n (Some b)) b ns l) as (r & -> & Hr).
  { intros i Hi. rewrite (Hfree _ _ Hl), free_on_cons, decide_False in Hi by congruence.
    unfold free_on in Hi. apply elem_of_ids in Hi as (x & [Hfx Hx]%list_elem_of_filter & <-).
    exists x. unfold all_placed in Hpl. rewrite Forall_forall in Hpl.
    destruct (Hpl x Hx) as [Hp Hxs]. unfold placed in Hp.
    assert (Hxa : smf_alloc x = 0) by (destruct (decide (smf_alloc x = 0)); congruence).
    rewrite decide_True in Hp by done.
    split.
    - unfold node, sc1. simpl. rewrite find_put_ne; [by rewrite Hst|].
      simpl. intros E. apply Hng. apply elem_of_ids. by exists x.
    - split; [|done]. pose proof (bucket_size sc (smf_size x) Hps Hxs) as Hbs.
      assert (b = bucket_of sc x) as -> by congruence. exact Hbs. }
  simpl. eexists _, _. split; [rewrite Hbe; reflexivity|].
  split; [destruct large; by eexists _, _|].
  assert (Hins : (match r with
      | Some i => insert_before_id i (smf_id n) l | None => l ++ [smf_id n] end)
      ≡ₚ smf_id n :: l).
  { destruct r as [i|]; [by apply insert_before_id_perm|].
    by rewrite Permutation_app_comm. }
  rewrite Hbe. simpl. split; simpl.
  - by rewrite length_insert.
  - intros b' l' Hl'. rewrite free_on_cons. simpl.
    apply list_lookup_insert_Some in Hl' as [(<- & <- & _)|(Hne & Hl')].
    + rewrite Hins, (Hfree _ _ Hl), free_on_cons.
      rewrite decide_False by congruence. by rewrite decide_True.
    + rewrite (Hfree _ _ Hl'), free_on_cons.
      rewrite decide_False by congruence. by rewrite decide_False by congruence.
  - rewrite Hused, !in_use_cons. simpl. done.
  - exact Hnd.
Qed.

(** ** Ranges *)

(** [a] ends before [b] starts in memory, and they are apart in the file. *)
Definition after (a b : smf) : Prop :=
  smf_ptr a + smf_size a <= smf_ptr b /\
  (smf_offset a + smf_size a <= smf_offset b \/
   smf_offset b + smf_size b <= smf_offset a).

Definition unmerged (a b : smf) : Prop :=
  ~ (smf_alloc a = 0 /\ smf_alloc b = 0 /\ contiguous a b = true).

(** [m] is a part of [n]. *)
Definition within (m n : smf) : Prop :=
  smf_ptr n <= smf_ptr m /\
  smf_ptr m + smf_size m <= smf_ptr n + smf_size n /\
  smf_offset m - smf_offset n = smf_ptr m - smf_ptr n.

Lemma after_within_l m n x : within m n -> after n x -> after m x.
Proof. unfold within, after. lia. Qed.
Lemma after_within_r m n x : within m n -> after x n -> after x m.
Proof. unfold within, after. lia. Qed.

Lemma pairwise_replace l1 n l2 ms :
  pairwise after (l1 ++ n :: l2) -> pairwise after ms ->
  Forall (fun m => within m n) ms ->
  pairwise after (l1 ++ ms ++ l2).
Proof.
  rewrite !pairwise_app. simpl. intros (H1 & [Hn H2] & H12) Hms Hw.
  split_and!; [done|done|done| |].
  - rewrite Forall_forall in *. intros m Hm. rewrite Forall_forall in *.
    intros x Hx. eapply after_within_l; [by apply Hw|]. by apply Hn.
  - rewrite Forall_forall in *. intros a Ha. specialize (H12 a Ha).
    rewrite Forall_cons in H12. destruct H12 as [Han Hal2].
    rewrite Forall_app. split; [|done]. rewrite Forall_forall. intros m Hm.
    eapply after_within_r; [by apply Hw|done].
Qed.

Lemma contiguous_spec a b :
  contiguous a b = true <->
  smf_ptr b = smf_ptr a + smf_size a /\ smf_offset b = smf_offset a + smf_size a.
Proof. unfold contiguous. rewrite andb_true_iff, !Z.eqb_eq. done. Qed.

(** [m] covers [a] and [b], which touch. *)
Definition joins (m a b : smf) : Prop :=
  contiguous a b = true /\ smf_ptr m = smf_ptr a /\ smf_offset m = smf_offset a /\
  smf_size m = smf_size a + smf_size b.

Lemma pairwise_join l1 a b m l2 :
  pairwise after (l1 ++ a :: b :: l2) -> joins m a b ->
  Forall (fun x => 0 < smf_size x) (l1 ++ a :: b :: l2) ->
  pairwise after (l1 ++ m :: l2).
Proof.
  intros Hp (Hc & H1 & H2 & H3) Hs. apply contiguous_spec in Hc as [Hc1 Hc2].
  rewrite Forall_app, !Forall_cons in Hs. destruct Hs as (Hs1 & Hsa & Hsb & Hs2).
  rewrite pairwise_app in Hp. simpl in Hp.
  destruct Hp as (Hp1 & ([_ Ha]%Forall_cons & Hb & Hp2) & H12).
  rewrite pairwise_app. simpl. split_and!; [done| |done|].
  - rewrite Forall_forall in *. intros x Hx.
    specialize (Ha x Hx). specialize (Hb x Hx). specialize (Hs2 x Hx).
    unfold after in *. lia.
  - rewrite Forall_forall in *. intros x Hx. specialize (H12 x Hx).
    specialize (Hs1 x Hx). rewrite !Forall_cons in H12.
    destruct H12 as (Hxa & Hxb & Hx2). constructor; [|done].
    unfold after in *. lia.
Qed.

(** ** The invariant *)

Record node_ok (sc : smf_sc) (n : smf) : Prop := {
  n_placed : placed sc n;
  n_pos : 0 < smf_size n;
  n_pages : smf_size n mod sc_pagesize sc = 0;
  n_alloc : smf_alloc n = 0 \/ smf_alloc n = 1;
}.

(** The ranges, whatever lists they are on. *)
Record ranges (sc : smf_sc) (o : list smf) : Prop := {
  r_apart : pairwise after o;
  r_merged : chain unmerged o;
  r_fresh : Forall (fun n => (smf_id n < sc_next sc)%positive) o;
}.

Record core (sc : smf_sc) : Prop := {
  c_ps : 0 < sc_pagesize sc;
  c_linked : linked sc (sc_order sc);
  c_nodes : Forall (node_ok sc) (sc_order sc);
  c_ranges : ranges sc (sc_order sc);
  c_count : g_smf (sc_stats sc) = u64 (Z.of_nat (length (sc_order sc)));
}.

Lemma nodup_stored o x : NoDup (ids o) -> x ∈ o -> find_smf (smf_id x) o = Some x.
Proof.
  intros Hnd Hx. apply list_elem_of_split in Hx as (l1 & l2 & ->).
  apply NoDup_mid in Hnd as [Hn _]. by apply find_mid.
Qed.

Lemma linked_intro sc sc' g g' :
  linked sc g -> sc_free sc' = sc_free sc -> sc_used sc' ≡ₚ in_use g' ->
  (forall b, free_on b g' = free_on b g) -> NoDup (ids g') -> linked sc' g'.
Proof.
  intros [H1 H2 H3 H4] Hf Hu Hfo Hnd. split; [by rewrite Hf| |done|done].
  intros b l Hl. rewrite Hf in Hl. by rewrite (H2 _ _ Hl), Hfo.
Qed.

Lemma node_ok_placed sc o : Forall (node_ok sc) o -> all_placed sc o.
Proof.
  intros H. eapply Forall_impl; [exact H|]. intros x []. split; [done|lia].
Qed.

(** [placed] and [node_ok] look at the page size only. *)
Lemma node_ok_upd sc st o fr u nx n : node_ok (upd sc st o fr u nx) n <-> node_ok sc n.
Proof. split; intros [? ? ? ?]; by split. Qed.

Lemma Forall_node_ok_upd sc st o fr u nx l :
  Forall (node_ok (upd sc st o fr u nx)) l <-> Forall (node_ok sc) l.
Proof.
  rewrite !Forall_forall. by setoid_rewrite node_ok_upd.
Qed.

Lemma fresh_not_in sc o :
  Forall (fun n => (smf_id n < sc_next sc)%positive) o -> sc_next sc ∉ ids o.
Proof.
  intros H (n & Hn & E)%elem_of_ids. rewrite Forall_forall in H.
  specialize (H n Hn). rewrite E in H. by apply Pos.lt_irrefl in H.
Qed.

(** ** Looking for room *)

Lemma first_bucket_ok sc b n :
  (b + n <= length (sc_free sc))%nat ->
  exists r, first_bucket sc b n = Ok r /\
  match r with
  | Some i => exists b' l, (b <= b' < b + n)%nat /\ sc_free sc !! b' = Some (i :: l)
  | None => forall b', (b <= b' < b + n)%nat -> sc_free sc !! b' = Some []
  end.
Proof.
  revert b. induction n as [|n IH]; intros b Hb; simpl.
  - exists None. split; [done|]. intros b' Hb'. lia.
  - destruct (lookup_lt_is_Some_2 (sc_free sc) b) as [l Hl]; [lia|].
    rewrite Hl. simpl. destruct l as [|i l].
    + destruct (IH (S b)) as (r & -> & Hr); [lia|]. exists r. split; [done|].
      destruct r as [i|].
      * destruct Hr as (b' & l & ? & ?). exists b', l. split; [lia|done].
      * intros b' Hb'. destruct (decide (b' = b)) as [->|]; [done|]. apply Hr. lia.
    + eexists. split; [done|]. exists b, l. split; [lia|done].
Qed.

Lemma first_fit_ok sc bytes l :
  (forall i, i ∈ l -> exists x, node sc i = Ok x) ->
  exists r, first_fit sc bytes l = Ok r /\
  match r with
  | Some i => i ∈ l /\ exists x, node sc i = Ok x /\ bytes <= smf_size x
  | None => forall i x, i ∈ l -> node sc i = Ok x -> smf_size x < bytes
  end.
Proof.
  induction l as [|i l IH]; intros Hl; simpl.
  - exists None. split; [done|]. intros i x Hi. by apply elem_of_nil in Hi.
  - destruct (Hl i) as (x & Hx); [by left|]. rewrite Hx. simpl.
    destruct (Z.leb_spec bytes (smf_size x)).
    + eexists. split; [done|]. split; [by left|]. by exists x.
    + destruct IH as (r & -> & Hr); [intros; apply Hl; by right|].
      exists r. split; [done|]. destruct r as [j|].
      * destruct Hr as (? & y & ? & ?). split; [by right|]. by exists y.
      * intros j y [->|Hj]%elem_of_cons Hy; [congruence|]. by eapply Hr.
Qed.

Lemma on_list sc b l i :
  core sc -> sc_free sc !! b = Some l -> i ∈ l ->
  exists n, n ∈ sc_order sc /\ smf_id n = i /\ node sc i = Ok n /\
    smf_alloc n = 0 /\ bucket_of sc n = b.
Proof.
  intros [Hps [Hlen Hfr _ Hnd] Hno _ _] Hl Hi.
  rewrite (Hfr _ _ Hl) in Hi. unfold free_on in Hi.
  apply elem_of_ids in Hi as (n & [Hf Hn]%list_elem_of_filter & <-).
  rewrite Forall_forall in Hno. destruct (Hno n Hn) as [Hp _ _ _].
  unfold placed in Hp. destruct (decide (smf_alloc n = 0)); [|congruence].
  exists n. split_and!; try done; [|congruence].
  unfold node. by rewrite (nodup_stored _ n).
Qed.

Lemma free_listed sc n :
  core sc -> n ∈ sc_order sc -> smf_alloc n = 0 ->
  exists l, sc_free sc !! bucket_of sc n = Some l /\ smf_id n ∈ l /\
    (bucket_of sc n < NBUCKET)%nat.
Proof.
  intros [Hps [Hlen Hfr _ Hnd] Hno _ _] Hn Ha.
  rewrite Forall_forall in Hno. destruct (Hno n Hn) as [Hp Hpos _ _].
  unfold placed in Hp. rewrite decide_True in Hp by done.
  pose proof (bucket_lt sc (smf_size n) Hps ltac:(lia)) as Hb.
  fold (bucket_of sc n) in Hb.
  destruct (lookup_lt_is_Some_2 (sc_free sc) (bucket_of sc n)) as [l Hl]; [lia|].
  exists l. split; [done|]. split; [|done]. rewrite (Hfr _ _ Hl).
  apply elem_of_ids. exists n. by rewrite list_elem_of_filter.
Qed.

Lemma div_mono_pages ps a b : 0 < ps -> a <= b -> a / ps <= b / ps.
Proof. intros. by apply Z.div_le_mono. Qed.

Lemma search_ok sc bytes :
  core sc -> 0 < bytes -> bytes mod sc_pagesize sc = 0 ->
  exists r, search sc bytes = Ok r /\
  match r with
  | Some i => exists n, n ∈ sc_order sc /\ smf_id n = i /\ smf_alloc n = 0 /\
                bytes <= smf_size n
  | None => forall n, n ∈ sc_order sc -> smf_alloc n = 0 -> smf_size n < bytes
  end.
Proof.
  intros Hc Hb Hm. assert (Hc' := Hc). destruct Hc' as [Hps [Hlen _ _ _] Hno _ _].
  rewrite Forall_forall in Hno. unfold search.
  set (ps := sc_pagesize sc) in *.
  set (b := if Z.of_nat NBUCKET <=? bytes / ps then (NBUCKET - 1)%nat
            else Z.to_nat (bytes / ps)).
  assert (Hq : 0 <= bytes / ps) by (apply Z.div_pos; lia).
  assert (Hbytes : bytes = ps * (bytes / ps))
    by (pose proof (Z.div_mod bytes ps); lia).
  assert (HbN : (b <= NBUCKET - 1)%nat).
  { unfold b, NBUCKET. destruct (Z.leb_spec (Z.of_nat (128 / 4 + 1)) (bytes / ps));
      simpl in *; lia. }
  destruct (first_bucket_ok sc b (NBUCKET - 1 - b)) as (r & -> & Hr);
    [rewrite Hlen; lia|].
  rewrite bind_Ret. destruct r as [i|].
  - destruct Hr as (b' & l & Hb' & Hl). eexists. split; [done|].
    destruct (on_list sc b' (i :: l) i Hc Hl) as (n & Hn & Hi & _ & Ha & Hbo); [by left|].
    exists n. split_and!; try done. destruct (Hno n Hn) as [_ Hpos _ _].
    pose proof (bucket_size sc (smf_size n) Hps ltac:(lia)) as Hbs.
    fold (bucket_of sc n) in Hbs. rewrite Hbo in Hbs. fold ps in Hbs.
    assert (bytes / ps <= Z.of_nat b').
    { unfold b in *. destruct (Z.leb_spec (Z.of_nat NBUCKET) (bytes / ps)); lia. }
    rewrite Hbytes. etrans; [|exact Hbs]. rewrite Z.mul_comm.
    apply Z.mul_le_mono_nonneg_r; lia.
  - destruct (lookup_lt_is_Some_2 (sc_free sc) (NBUCKET - 1)) as [l Hl];
      [rewrite Hlen; unfold NBUCKET; simpl; lia|].
    rewrite Hl. change (deref (Some l)) with (Ok l). rewrite bind_Ret.
    destruct (first_fit_ok sc bytes l) as (r & -> & Hf).
    { intros i Hi. destruct (on_list sc _ l i Hc Hl Hi) as (n & _ & _ & ? & _). by exists n. }
    exists r. split; [done|]. destruct r as [i|].
    + destruct Hf as (Hi & x & Hx & Hle).
      destruct (on_list sc _ l i Hc Hl Hi) as (n & Hn & Hid & Hnode & Ha & _).
      exists n. split_and!; try done. congruence.
    + intros n Hn Ha. destruct (free_listed sc n Hc Hn Ha) as (l' & Hl' & Hin & Hbn).
      destruct (decide (bucket_of sc n = NBUCKET - 1)%nat) as [E|Hne].
      * rewrite E, Hl in Hl'. injection Hl' as <-.
        destruct (on_list sc _ l _ Hc Hl Hin) as (n' & _ & Hid & Hnode & _).
        eapply Hf; [exact Hin|]. unfold node. by rewrite (nodup_stored _ n)
          by (apply Hc || done).
      * destruct (decide (b <= bucket_of sc n)%nat) as [Hle|Hlt].
        -- rewrite Hr in Hl' by lia. injection Hl' as <-. by apply elem_of_nil in Hin.
        -- apply Z.nle_gt. intros Hbig. apply Hlt.
           pose proof (div_mono_pages ps _ _ Hps Hbig) as Hd.
           unfold bucket_of, bucket in *. fold ps in Hlt, Hne |- *. unfold b.
           destruct (Z.leb_spec (Z.of_nat NBUCKET) (bytes / ps)),
             (Z.leb_spec (Z.of_nat NBUCKET) (smf_size n / ps)); simpl in *; lia.
Qed.

(** ** Allocation *)

Lemma ranges_fresh_weaken sc st o fr u nx l :
  Forall (fun n => (smf_id n < sc_next sc)%positive) l -> (sc_next sc <= nx)%positive ->
  Forall (fun n => (smf_id n < sc_next (upd sc st o fr u nx))%positive) l.
Proof. intros H Hle. eapply Forall_impl; [exact H|]. intros n ?. simpl in *. lia. Qed.

(** A range taken out of the free lists and marked allocated. *)
Lemma linked_take sc n g :
  linked sc (n :: g) -> smf_flist n = None -> smf_alloc n = 0 ->
  linked (set_used (put_node sc (set_alloc n 1)) (sc_used sc ++ [smf_id n]))
    (set_alloc n 1 :: g).
Proof.
  intros Hl Hf Ha. assert (Hl' := Hl). destruct Hl' as [_ _ Hu Hnd].
  eapply linked_intro; [exact Hl|done| | |exact Hnd].
  - simpl. rewrite Hu, !in_use_cons. simpl. rewrite Ha. simpl.
    by rewrite Permutation_app_comm.
  - intros b. rewrite !free_on_cons. simpl. done.
Qed.

Definition gauges_kept (st st' : stats) : Prop :=
  c_req st' = c_req st /\ c_fail st' = c_fail st /\ c_bytes st' = c_bytes st /\
  c_freed st' = c_freed st /\ g_alloc st' = g_alloc st /\
  g_bytes st' = g_bytes st /\ g_space st' = g_space st.

Lemma frag_only_kept st st' : frag_only st st' -> gauges_kept st st' /\ g_smf st' = g_smf st.
Proof. intros (a & b & ->). done. Qed.

Lemma gauges_kept_trans a b c :
  gauges_kept a b -> gauges_kept b c -> gauges_kept a c.
Proof. unfold gauges_kept. intros. naive_solver congruence. Qed.

(** What stays when a core operation returns. *)
Definition same_frame (sc sc' : smf_sc) : Prop :=
  sc_locked sc' = sc_locked sc /\ sc_pagesize sc' = sc_pagesize sc /\
  sc_filesize sc' = sc_filesize sc /\ gauges_kept (sc_stats sc) (sc_stats sc').

(** The two shapes of a successful allocation from the free range [f]. *)
Definition taken (bytes : Z) (f n : smf) (rest : list smf) : Prop :=
  smf_alloc n = 1 /\ smf_size n = bytes /\ smf_ptr n = smf_ptr f /\
  smf_offset n = smf_offset f /\
  (rest = [] /\ smf_size f = bytes \/
   exists r, rest = [r] /\ smf_alloc r = 0 /\ smf_ptr r = smf_ptr f + bytes /\
     smf_offset r = smf_offset f + bytes /\ smf_size r = smf_size f - bytes).

Lemma core_exact sc st fr l1 l2 f :
  core sc -> sc_order sc = l1 ++ f :: l2 -> smf_alloc f = 0 ->
  frag_only (sc_stats sc) st ->
  linked (upd sc st (l1 ++ set_flist f None :: l2) fr (sc_used sc) (sc_next sc))
    (set_flist f None :: l1 ++ l2) ->
  core (upd sc st (l1 ++ set_alloc (set_flist f None) 1 :: l2) fr
         (sc_used sc ++ [smf_id f]) (sc_next sc)).
Proof.
  intros [Hps [_ _ _ Hnd] Hno [Hap Hme Hfs] Hct] Ho Ha Hst Hl. rewrite Ho in *.
  apply frag_only_kept in Hst as [_ Hst].
  rewrite Forall_app, Forall_cons in Hno. destruct Hno as (Hn1 & Hnf & Hn2).
  split; simpl; [done| | | |].
  - pose proof (linked_take _ _ _ Hl eq_refl Ha) as Ht.
    eapply linked_perm; [|eapply linked_intro; [exact Ht|done|apply Ht|done|apply Ht]].
    by rewrite Permutation_middle.
  - rewrite Forall_node_ok_upd, Forall_app, Forall_cons. split_and!; [done| |done].
    destruct Hnf. split; simpl; [|done|done|by right]. unfold placed. simpl. done.
  - split.
    + apply (pairwise_replace l1 f l2 [set_alloc (set_flist f None) 1]); [done| |].
      * simpl. by rewrite Forall_nil.
      * constructor; [|done]. unfold within. simpl. lia.
    + apply chain_mid in Hme as (H1 & H2 & H3 & H4). apply chain_mid.
      split_and!; [done| | |done]; unfold unmerged; simpl; naive_solver lia.
    + simpl. rewrite Forall_app, Forall_cons in *. destruct Hfs as (? & ? & ?). done.
  - rewrite Hst, Hct, !length_app. done.
Qed.

Lemma mod_sub ps a b : a mod ps = 0 -> b mod ps = 0 -> (a - b) mod ps = 0.
Proof. intros Ha Hb. by rewrite Zminus_mod, Ha, Hb, Zmod_0_l. Qed.

Lemma mod_add ps a b : a mod ps = 0 -> b mod ps = 0 -> (a + b) mod ps = 0.
Proof. intros Ha Hb. by rewrite Zplus_mod, Ha, Hb, Zmod_0_l. Qed.

Lemma NoDup_swap_mid (l1 l2 : list positive) i :
  NoDup (l1 ++ i :: l2) -> NoDup (i :: l1 ++ l2).
Proof. by rewrite Permutation_middle. Qed.

Lemma u64_add a b : u64 (u64 a + b) = u64 (a + b).
Proof. unfold u64. by rewrite Zplus_mod_idemp_l. Qed.

(** The two parts of a free range cut at [bytes]. *)
Definition front (sc : smf_sc) (f : smf) (bytes : Z) : smf :=
  set_alloc (set_size (with_id (set_flist f None) (sc_next sc)) bytes) 1.
Definition back (f : smf) (bytes : Z) : smf :=
  set_size (advance (set_flist f None) bytes) (smf_size f - bytes).

Lemma core_split sc st fr l1 l2 f bytes :
  core sc -> sc_locked sc = true -> sc_order sc = l1 ++ f :: l2 ->
  smf_alloc f = 0 -> 0 < bytes < smf_size f -> bytes mod sc_pagesize sc = 0 ->
  frag_only (sc_stats sc) st ->
  linked (upd sc st (l1 ++ set_flist f None :: l2) fr (sc_used sc) (sc_next sc))
    (set_flist f None :: l1 ++ l2) ->
  exists st' fr' r, smf_id r = smf_id f /\ smf_alloc r = 0 /\
    smf_ptr r = smf_ptr f + bytes /\ smf_offset r = smf_offset f + bytes /\
    smf_size r = smf_size f - bytes /\
    let sc' := upd sc st' (l1 ++ front sc f bytes :: r :: l2) fr'
      (sc_used sc ++ [sc_next sc]) (Pos.succ (sc_next sc)) in
    insfree (upd sc (count_smf st 1) (l1 ++ front sc f bytes :: back f bytes :: l2)
      fr (sc_used sc ++ [sc_next sc]) (Pos.succ (sc_next sc))) (back f bytes) = Ok sc' /\
    gauges_kept (sc_stats sc) st' /\ core sc'.
Proof.
  intros [Hps [_ _ _ Hnd] Hno [Hap Hme Hfs] Hct] Hlk Ho Ha Hby Hpg Hst Hl.
  rewrite Ho in *. apply frag_only_kept in Hst as [Hgk Hst].
  rewrite Forall_app, Forall_cons in Hno. destruct Hno as (Hn1 & Hnf & Hn2).
  set (sp2 := front sc f bytes). set (sp := back f bytes).
  set (sc1 := upd _ _ _ _ _ _).
  pose proof (fresh_not_in _ _ Hfs) as Hnew.
  assert (Hlk1 : linked sc1 (sp :: sp2 :: l1 ++ l2)).
  { eapply linked_intro; [exact Hl|done| | |].
    - simpl. rewrite (l_used _ _ Hl). simpl. rewrite !in_use_cons. simpl. rewrite Ha. simpl.
      by rewrite Permutation_app_comm.
    - intros b. by rewrite !free_on_cons.
    - simpl. rewrite ids_app in Hnd. simpl in Hnd. apply NoDup_swap_mid in Hnd.
      apply NoDup_cons in Hnd as [Hx Hnd]. rewrite <- ids_app in Hx, Hnd.
      rewrite ids_app in Hnew. simpl in Hnew.
      rewrite not_elem_of_app, not_elem_of_cons in Hnew.
      constructor; [|constructor; [|exact Hnd]].
      + rewrite not_elem_of_cons. split; [|exact Hx]. intros E. by destruct Hnew as (_ & [] & _).
      + rewrite ids_app, not_elem_of_app. tauto. }
  assert (Hst1 : stored sc1 (sp2 :: l1 ++ l2)).
  { intros x Hx. apply nodup_stored.
    - simpl. destruct Hlk1 as [_ _ _ Hnd1]. revert Hnd1.
      apply NoDup_Permutation_proper, ids_perm. simpl. solve_Permutation.
    - simpl. set_solver. }
  assert (Hnof : node_ok sc1 sp2).
  { destruct Hnf. split; simpl; [|lia|done|by right]. unfold placed. simpl. done. }
  assert (Hall : all_placed sc1 (sp2 :: l1 ++ l2)).
  { apply node_ok_placed. constructor; [done|]. apply Forall_node_ok_upd.
    by apply Forall_app. }
  destruct (insfree_spec sc1 sp (sp2 :: l1 ++ l2) Hlk1 Hlk Hps Ha) as
    (st' & fr' & E & Hst' & Hlk'); [simpl; lia|done|done|done|].
  set (r := set_flist sp (Some (bucket_of sc1 sp))) in *.
  assert (Hput : put r (sc_order sc1) = l1 ++ sp2 :: r :: l2).
  { simpl. change (l1 ++ sp2 :: sp :: l2) with (l1 ++ [sp2] ++ sp :: l2).
    rewrite app_assoc, put_mid; [by rewrite <- app_assoc| |done].
    rewrite ids_app. simpl. apply NoDup_mid in Hnd as [Hx _].
    rewrite not_elem_of_app, not_elem_of_cons. split; [exact Hx|].
    split; [|by apply not_elem_of_nil]. intros E'. apply Hnew. apply elem_of_ids. exists f. split; [set_solver|done]. }
  rewrite Hput in E, Hlk'. apply frag_only_kept in Hst' as [Hgk' Hst'].
  exists st', fr', r. do 5 (split; [done|]). intros sc'. split; [exact E|].
  split; [eapply gauges_kept_trans; [exact Hgk|exact Hgk']|].
  assert (Hnor : node_ok sc1 r).
  { destruct Hnf. split; simpl; [|lia|by apply mod_sub|by left].
    unfold placed. simpl. by rewrite Ha. }
  split; simpl.
  - done.
  - eapply linked_perm; [|exact Hlk']. solve_Permutation.
  - unfold sc'. rewrite Forall_node_ok_upd, Forall_app, !Forall_cons.
    unfold sc1 in Hnof, Hnor. rewrite node_ok_upd in Hnof, Hnor. done.
  - split.
    + apply (pairwise_replace l1 f l2 [sp2; r]); [done| |].
      * simpl. unfold after. simpl. rewrite !Forall_cons, !Forall_nil. simpl. lia.
      * repeat constructor; unfold within; simpl; lia.
    + apply chain_mid in Hme as (H1 & H2 & H3 & H4). apply chain_mid.
      simpl. split_and!; [done| | |].
      * unfold unmerged. simpl. naive_solver.
      * intros q [= <-]. unfold unmerged. simpl. naive_solver.
      * apply chain_cons. split; [|done]. intros q Hq. specialize (H3 q Hq).
        unfold unmerged in *. rewrite contiguous_spec in *. simpl in *. intros (? & ? & ? & ?).
        apply H3. split_and!; [done|done|lia|lia].
    + simpl. rewrite Forall_app, !Forall_cons in *. destruct Hfs as (Hf1 & Hf2 & Hf3).
      split_and!; simpl; try lia.
      * eapply Forall_impl; [exact Hf1|]. simpl. lia.
      * eapply Forall_impl; [exact Hf3|]. simpl. lia.
  - rewrite Hst', length_app. simpl. rewrite Hst, Hct, u64_add.
    rewrite length_app. simpl. f_equal. lia.
Qed.

(** [alloc_smf] fails only when no free range is large enough; otherwise it
    takes the front of one. *)
Lemma alloc_smf_spec sc bytes :
  core sc -> sc_locked sc = true -> 0 < bytes ->
  bytes mod sc_pagesize sc = 0 ->
  (alloc_smf sc bytes = Ok (sc, None) /\
   forall n, n ∈ sc_order sc -> smf_alloc n = 0 -> smf_size n < bytes) \/
  exists sc' l1 f l2 n rest,
    alloc_smf sc bytes = Ok (sc', Some n) /\ core sc' /\ same_frame sc sc' /\
    sc_order sc = l1 ++ f :: l2 /\ smf_alloc f = 0 /\
    sc_order sc' = l1 ++ n :: rest ++ l2 /\ taken bytes f n rest.
Proof.
  intros Hc Hlk Hb Hpg. unfold alloc_smf.
  rewrite (vassert_true (_ =? 0)), bind_Ret by lia.
  destruct (search_ok sc bytes Hc Hb Hpg) as (r & -> & Hr). rewrite bind_Ret.
  destruct r as [i|]; [right|by left].
  destruct Hr as (f & Hf & <- & Ha & Hle). assert (Hc' := Hc).
  destruct Hc' as [Hps Hl Hno [Hap Hme Hfs] _].
  pose proof (l_nodup _ _ Hl) as Hnd.
  unfold node. rewrite (nodup_stored _ f) by done.
  change (deref (Some f)) with (Ok f). rewrite bind_Ret.
  rewrite (vassert_true (bytes <=? _)), bind_Ret by lia.
  apply list_elem_of_split in Hf as (l1 & l2 & Ho).
  rewrite Ho in Hnd, Hno. apply NoDup_mid in Hnd as [Hx Hy].
  rewrite Forall_app, Forall_cons in Hno. destruct Hno as (_ & [Hpl Hpos _ _] & _).
  unfold placed in Hpl. rewrite decide_True in Hpl by done.
  destruct (remfree_spec sc f (l1 ++ l2)) as (st & fr & E & Hst & Hlk1);
    [|done|done|done|lia|done|].
  { eapply linked_perm; [|exact Hl]. by rewrite Ho, Permutation_middle. }
  rewrite Ho, put_mid in E, Hlk1 by done. rewrite E, bind_Ret. cbv beta iota zeta.
  pose proof (frag_only_kept _ _ Hst) as [Hgk _].
  change (smf_size (set_flist f None)) with (smf_size f).
  destruct (Z.eqb_spec (smf_size f) bytes) as [Heq|Hne].
  - eexists _, l1, f, l2, _, []. split; [reflexivity|].
    pose proof (core_exact sc st fr l1 l2 f Hc Ho Ha Hst Hlk1) as Hcore.
    assert (Hput : put_node (upd sc st (l1 ++ set_flist f None :: l2) fr (sc_used sc)
      (sc_next sc)) (set_alloc (set_flist f None) 1) =
      upd sc st (l1 ++ set_alloc (set_flist f None) 1 :: l2) fr (sc_used sc) (sc_next sc)).
    { unfold put_node, upd, set_order. simpl. by rewrite put_mid. }
    rewrite Hput. split; [exact Hcore|]. split; [done|]. split; [done|].
    split; [done|]. split; [done|]. repeat split; try done. by left.
  - destruct (core_split sc st fr l1 l2 f bytes Hc Hlk Ho Ha ltac:(lia) Hpg Hst Hlk1)
      as (st' & fr' & r & Hi & Hra & Hrp & Hro & Hrs & Eins & Hgk' & Hcore).
    fold (front sc f bytes). fold (back f bytes).
    match goal with |- context [insfree ?x _] =>
      assert (x = upd sc (count_smf st 1) (l1 ++ front sc f bytes :: back f bytes :: l2)
        fr (sc_used sc ++ [sc_next sc]) (Pos.succ (sc_next sc))) as -> end.
    { unfold put_node, upd, set_order, set_used, set_stats, set_next. simpl.
      rewrite put_mid by done. by rewrite (insert_before_mid l1 l2 (back f bytes)). }
    rewrite Eins, bind_Ret.
    eexists _, l1, f, l2, (front sc f bytes), [r]. split; [reflexivity|].
    split; [exact Hcore|]. split; [done|]. split; [done|]. split; [done|].
    split; [done|]. repeat split; try done. right. by exists r.
Qed.

(** ** Freeing

    While [free_smf] works, the range [n] between [l1] and [l2] is free and on
    no list. *)
Record limbo (sc : smf_sc) (l1 : list smf) (n : smf) (l2 : list smf) : Prop := {
  m_ps : 0 < sc_pagesize sc;
  m_locked : sc_locked sc = true;
  m_order : sc_order sc = l1 ++ n :: l2;
  m_linked : linked sc (n :: l1 ++ l2);
  m_alloc : smf_alloc n = 0;
  m_flist : smf_flist n = None;
  m_pos : 0 < smf_size n;
  m_pages : smf_size n mod sc_pagesize sc = 0;
  m_nodes1 : Forall (node_ok sc) l1;
  m_nodes2 : Forall (node_ok sc) l2;
  m_apart : pairwise after (l1 ++ n :: l2);
  m_chain1 : chain unmerged l1;
  m_chain2 : chain unmerged l2;
  m_fresh : Forall (fun n => (smf_id n < sc_next sc)%positive) (l1 ++ n :: l2);
  m_count : g_smf (sc_stats sc) = u64 (Z.of_nat (length (l1 ++ n :: l2)));
}.

(** [n'] is [n] extended to the right over [l], nothing or one free range. *)
Definition grown_right (n n' : smf) (l l' : list smf) : Prop :=
  smf_ptr n' = smf_ptr n /\ smf_offset n' = smf_offset n /\
  (l = l' /\ smf_size n' = smf_size n \/
   exists q, l = q :: l' /\ smf_alloc q = 0 /\ contiguous n q = true /\
     smf_size n' = smf_size n + smf_size q).

Lemma limbo_nodup sc l1 n l2 :
  limbo sc l1 n l2 -> (smf_id n ∉ ids l1) /\ (smf_id n ∉ ids l2) /\
    NoDup (ids (l1 ++ l2)).
Proof.
  intros H. pose proof (l_nodup _ _ (m_linked _ _ _ _ H)) as Hnd. simpl in Hnd.
  apply NoDup_cons in Hnd as [Hx Hnd]. rewrite ids_app, not_elem_of_app in Hx. tauto.
Qed.

Lemma chain_tail R a l : chain R (a :: l) -> chain R l.
Proof. rewrite chain_cons. tauto. Qed.

Lemma chain_init R l a : chain R (l ++ [a]) -> chain R l.
Proof. intros H. apply chain_mid in H. tauto. Qed.

Lemma node_ok_frame sc sc' n :
  sc_pagesize sc' = sc_pagesize sc -> node_ok sc n -> node_ok sc' n.
Proof.
  intros Hp [H1 H2 H3 H4]. split; [|done|by rewrite Hp|done].
  unfold placed, bucket_of, bucket in *. by rewrite Hp.
Qed.

Lemma Forall_node_ok_frame sc sc' l :
  sc_pagesize sc' = sc_pagesize sc -> Forall (node_ok sc) l -> Forall (node_ok sc') l.
Proof. intros Hp H. eapply Forall_impl; [exact H|]. intros n. by apply node_ok_frame. Qed.

Lemma positive_sizes sc l1 n l2 :
  limbo sc l1 n l2 -> Forall (fun x => 0 < smf_size x) (l1 ++ n :: l2).
Proof.
  intros [_ _ _ _ _ _ Hp _ H1 H2 _ _ _ _ _]. rewrite Forall_app, Forall_cons.
  split_and!; [| done |]; (eapply Forall_impl; [eassumption|]; by intros ? []).
Qed.

Lemma forward_step sc l1 n q l2 :
  limbo sc l1 n (q :: l2) -> smf_alloc q = 0 -> contiguous n q = true ->
  exists sc', merge_forward sc n =
      Ok (sc', set_size n (smf_size n + smf_size q)) /\
    limbo sc' l1 (set_size n (smf_size n + smf_size q)) l2 /\ same_frame sc sc'.
Proof.
  intros H Hqa Hct. destruct (limbo_nodup _ _ _ _ H) as (Hx1 & Hx2 & Hnd).
  assert (H' := H). destruct H' as [Hps Hlk Ho Hl Ha Hf Hpos Hpg Hn1 Hn2 Hap Hc1 Hc2 Hfs Hcnt].
  apply Forall_cons in Hn2 as [[Hqpl Hqpos Hqpg _] Hn2].
  unfold placed in Hqpl. rewrite decide_True in Hqpl by done.
  apply NoDup_mid in Hnd as [Hq1 Hq2].
  simpl in Hx2. rewrite not_elem_of_cons in Hx2. destruct Hx2 as [Hnq Hx2].
  unfold merge_forward. rewrite Ho, next_mid by done.
  change (head (q :: l2)) with (Some q). cbv iota beta.
  rewrite Hqa, Hct. change ((0 =? 0) && true) with true. cbv iota.
  set (n1 := set_size n (smf_size n + smf_size q)).
  set (sc1 := set_order (put_node sc n1) _).
  assert (Ho1 : sc_order sc1 = l1 ++ n1 :: l2).
  { unfold sc1. simpl. rewrite Ho, put_mid by done.
    change (l1 ++ n1 :: q :: l2) with (l1 ++ [n1] ++ q :: l2).
    rewrite app_assoc, remove_order_mid; [by rewrite <- app_assoc| |done].
    rewrite ids_app, not_elem_of_app. split; [done|]. simpl.
    rewrite not_elem_of_cons. split; [auto|by apply not_elem_of_nil]. }
  assert (Hl1 : linked sc1 (q :: n1 :: l1 ++ l2)).
  { eapply (linked_perm _ (n1 :: l1 ++ q :: l2)); [solve_Permutation|].
    eapply linked_intro; [exact Hl|done| | |exact (l_nodup _ _ Hl)].
    - simpl. rewrite (l_used _ _ Hl), !in_use_cons. by simpl; rewrite Ha.
    - intros b. by rewrite !free_on_cons. }
  destruct (remfree_spec sc1 q (n1 :: l1 ++ l2) Hl1 Hlk Hps Hqa ltac:(lia) Hqpl)
    as (st & fr & E & Hst & Hl2).
  rewrite E, bind_Ret. cbv beta iota.
  eexists. split; [reflexivity|]. apply frag_only_kept in Hst as [Hgk Hst].
  assert (Hput : put (set_flist q None) (sc_order sc1) = l1 ++ n1 :: l2).
  { rewrite Ho1. apply put_absent. simpl.
    rewrite ids_app. simpl. rewrite not_elem_of_app, not_elem_of_cons. auto. }
  rewrite Hput in *. split; [|split; [done|split; [done|split; [done|exact Hgk]]]].
  assert (Hap' : pairwise after (l1 ++ n1 :: l2)).
  { eapply pairwise_join; [exact Hap| |by eapply positive_sizes]. done. }
  split; simpl; try done.
  - destruct Hl2 as [G1 G2 G3 G4]. simpl in G4. apply NoDup_cons in G4 as [_ G4].
    split; [exact G1| | |exact G4].
    + intros b l Hbl. rewrite (G2 _ _ Hbl), free_on_cons. done.
    + etrans; [exact G3|]. rewrite in_use_cons. simpl. by rewrite Hqa.
  - lia.
  - by apply mod_add.
  - by eapply Forall_node_ok_frame; [|exact Hn1].
  - by eapply Forall_node_ok_frame; [|exact Hn2].
  - by eapply chain_tail.
  - rewrite Forall_app in Hfs. destruct Hfs as (? & [? [? ?]%Forall_cons]%Forall_cons).
    by rewrite Forall_app, Forall_cons.
  - rewrite Hst. simpl. rewrite Hcnt, u64_add, !length_app. simpl. f_equal. lia.
Qed.

Lemma back_step sc l1 p n l2 :
  limbo sc (l1 ++ [p]) n l2 -> smf_alloc p = 0 -> contiguous p n = true ->
  exists sc' m, merge_back sc n = Ok (sc', m) /\
    m = set_size (set_flist p None) (smf_size p + smf_size n) /\
    limbo sc' l1 m l2 /\ same_frame sc sc'.
Proof.
  intros H Hpa Hct. destruct (limbo_nodup _ _ _ _ H) as (Hx1 & Hx2 & Hnd).
  assert (H' := H). destruct H' as [Hps Hlk Ho Hl Ha Hf Hpos Hpg Hn1 Hn2 Hap Hc1 Hc2 Hfs Hcnt].
  apply Forall_app in Hn1 as [Hn1 [[Hppl Hppos Hppg _] _]%Forall_cons].
  unfold placed in Hppl. rewrite decide_True in Hppl by done.
  rewrite <- app_assoc in Hnd. simpl in Hnd.
  apply NoDup_mid in Hnd as [Hp1 Hp2].
  rewrite ids_app, not_elem_of_app in Hx1. simpl in Hx1.
  rewrite not_elem_of_cons in Hx1. destruct Hx1 as (Hx1 & Hnp & _).
  unfold merge_back. rewrite Ho, prev_mid.
  2:{ rewrite ids_app, not_elem_of_app. simpl. rewrite not_elem_of_cons.
      split; [done|]. split; [done|by apply not_elem_of_nil]. }
  rewrite last_snoc, Hpa, Hct. change ((0 =? 0) && true) with true. cbv iota.
  assert (Hl1 : linked sc (p :: n :: l1 ++ l2)).
  { eapply linked_perm; [|exact Hl]. rewrite <- app_assoc. simpl. solve_Permutation. }
  destruct (remfree_spec sc p (n :: l1 ++ l2) Hl1 Hlk Hps Hpa ltac:(lia) Hppl)
    as (st & fr & E & Hst & Hl2).
  rewrite E, bind_Ret. cbv beta iota.
  eexists _, _. split; [reflexivity|]. split; [done|].
  apply frag_only_kept in Hst as [Hgk Hst].
  set (m := set_size (set_flist p None) _).
  assert (Hput1 : put (set_flist p None) (sc_order sc) =
    l1 ++ set_flist p None :: n :: l2).
  { rewrite Ho, <- app_assoc. simpl. by apply put_mid. }
  assert (Hput2 : put m (l1 ++ set_flist p None :: n :: l2) = l1 ++ m :: n :: l2)
    by (by apply put_mid).
  assert (Hrem : remove_order (smf_id n) (l1 ++ m :: n :: l2) = l1 ++ m :: l2).
  { change (l1 ++ m :: n :: l2) with (l1 ++ [m] ++ n :: l2).
    rewrite app_assoc, remove_order_mid; [by rewrite <- app_assoc| |done].
    rewrite ids_app, not_elem_of_app. split; [done|]. simpl.
    rewrite not_elem_of_cons. split; [done|by apply not_elem_of_nil]. }
  rewrite Hput1 in *. simpl. rewrite Hput2, Hrem.
  split; [|split; [done|split; [done|split; [done|exact Hgk]]]].
  rewrite <- app_assoc in Hap, Hfs, Hcnt. simpl in Hap, Hfs, Hcnt.
  assert (Hpos' := positive_sizes _ _ _ _ H). rewrite <- app_assoc in Hpos'.
  split; simpl; try done.
  - destruct Hl2 as [G1 G2 G3 G4]. simpl in G4.
    apply NoDup_cons in G4 as [G5 G4]. apply NoDup_cons in G4 as [_ G4].
    rewrite not_elem_of_cons in G5. destruct G5 as [_ G5].
    split; [exact G1| | |by constructor].
    + intros b l Hbl. rewrite (G2 _ _ Hbl), !free_on_cons. simpl. by rewrite Hf.
    + etrans; [exact G3|]. rewrite !in_use_cons. simpl. by rewrite Hpa, Ha.
  - lia.
  - by apply mod_add.
  - by eapply Forall_node_ok_frame; [|exact Hn1].
  - by eapply Forall_node_ok_frame; [|exact Hn2].
  - eapply pairwise_join; [exact Hap| |exact Hpos']. done.
  - by eapply chain_init.
  - rewrite Forall_app in Hfs. destruct Hfs as (? & [? [? ?]%Forall_cons]%Forall_cons).
    by rewrite Forall_app, Forall_cons.
  - rewrite Hst, Hcnt, u64_add, !length_app. simpl. f_equal. lia.
Qed.

(** The neighbours of the finished range. *)
Definition settled (l1 : list smf) (n : smf) (l2 : list smf) : Prop :=
  (forall p, last l1 = Some p -> unmerged p n) /\
  (forall q, head l2 = Some q -> unmerged n q).

(** What [merge_forward] makes of [n] and [l2], and [merge_back] of [l1] and
    the result. *)
Definition eaten_right (n n' : smf) (l2 l2' : list smf) : Prop :=
  smf_ptr n' = smf_ptr n /\ smf_offset n' = smf_offset n /\ smf_alloc n' = 0 /\
  (l2 = l2' /\ smf_size n' = smf_size n \/
   exists q, l2 = q :: l2' /\ smf_alloc q = 0 /\ contiguous n q = true /\
     smf_size n' = smf_size n + smf_size q).

Definition eaten_left (n n' : smf) (l1 l1' : list smf) : Prop :=
  smf_alloc n' = 0 /\
  (l1 = l1' /\ smf_size n' = smf_size n /\ smf_ptr n' = smf_ptr n /\
     smf_offset n' = smf_offset n \/
   exists p, l1 = l1' ++ [p] /\ smf_alloc p = 0 /\ contiguous p n = true /\
     smf_ptr n' = smf_ptr p /\ smf_offset n' = smf_offset p /\
     smf_size n' = smf_size p + smf_size n).

Lemma unmerged_dec a b :
  {smf_alloc a = 0 /\ smf_alloc b = 0 /\ contiguous a b = true} + {unmerged a b}.
Proof.
  unfold unmerged.
  destruct (decide (smf_alloc a = 0)), (decide (smf_alloc b = 0)),
    (contiguous a b); (left; done) || (right; naive_solver).
Qed.

Lemma merge_forward_spec sc l1 n l2 :
  limbo sc l1 n l2 ->
  exists sc' n' l2', merge_forward sc n = Ok (sc', n') /\ smf_id n' = smf_id n /\
    limbo sc' l1 n' l2' /\ same_frame sc sc' /\ eaten_right n n' l2 l2' /\
    (forall q, head l2' = Some q -> unmerged n' q).
Proof.
  intros H. destruct (limbo_nodup _ _ _ _ H) as (Hx1 & Hx2 & Hnd).
  assert (Ha := m_alloc _ _ _ _ H).
  destruct l2 as [|q l2].
  { exists sc, n, []. unfold merge_forward.
    rewrite (m_order _ _ _ _ H), next_mid by done. simpl.
    split_and!; try done. repeat split; try done. by left. }
  destruct (unmerged_dec n q) as [(_ & Hq & Hc)|Hu].
  - destruct (forward_step sc l1 n q l2 H Hq Hc) as (sc' & E & Hl & Hfr).
    exists sc', (set_size n (smf_size n + smf_size q)), l2.
    split_and!; try done.
    + repeat split; [done|]. right. by exists q.
    + intros q2 Hq2 (H1 & H2 & H3). pose proof (m_chain2 _ _ _ _ H) as Hch.
      apply chain_cons in Hch as [Hch _]. apply (Hch q2 Hq2).
      split_and!; [done|done|]. rewrite contiguous_spec in *. simpl in *. lia.
  - exists sc, n, (q :: l2). unfold merge_forward.
    rewrite (m_order _ _ _ _ H), next_mid by done.
    change (head (q :: l2)) with (Some q). cbv iota beta.
    split.
    { destruct ((smf_alloc q =? 0) && contiguous n q) eqn:E; [|done].
      apply andb_true_iff in E as [E1 E2]. apply Z.eqb_eq in E1. by destruct Hu. }
    split_and!; try done.
    + repeat split; [done|]. by left.
    + by intros ? [= <-].
Qed.

Lemma merge_back_spec sc l1 n l2 :
  limbo sc l1 n l2 -> (forall q, head l2 = Some q -> unmerged n q) ->
  exists sc' n' l1', merge_back sc n = Ok (sc', n') /\
    limbo sc' l1' n' l2 /\ same_frame sc sc' /\ eaten_left n n' l1 l1' /\
    settled l1' n' l2.
Proof.
  intros H Hr. destruct (limbo_nodup _ _ _ _ H) as (Hx1 & Hx2 & Hnd).
  assert (Ha := m_alloc _ _ _ _ H).
  destruct l1 as [|p l1 _] using rev_ind.
  { exists sc, n, []. unfold merge_back.
    rewrite (m_order _ _ _ _ H), prev_mid by done. simpl.
    split_and!; try done. split; [done|]. by left. }
  destruct (unmerged_dec p n) as [(Hp & _ & Hc)|Hu].
  - destruct (back_step sc l1 p n l2 H Hp Hc) as (sc' & m & E & Hm & Hl & Hfr).
    exists sc', m, l1. split_and!; try done.
    + split; [by rewrite Hm|]. right. exists p. by rewrite Hm.
    + split.
      * intros p' Hp' (H1 & H2 & H3). pose proof (m_chain1 _ _ _ _ H) as Hch.
        apply chain_mid in Hch as (_ & Hch & _). apply (Hch p' Hp').
        split_and!; [done|done|]. rewrite contiguous_spec in *.
        rewrite Hm in H3. done.
      * intros q Hq (H1 & H2 & H3). apply (Hr q Hq). split_and!; [done|done|].
        rewrite contiguous_spec in *. rewrite Hm in H3. simpl in H3. lia.
  - exists sc, n, (l1 ++ [p]). unfold merge_back.
    rewrite (m_order _ _ _ _ H), prev_mid, last_snoc by done.
    split.
    { destruct ((smf_alloc p =? 0) && contiguous p n) eqn:E; [|done].
      apply andb_true_iff in E as [E1 E2]. apply Z.eqb_eq in E1. by destruct Hu. }
    split_and!; try done.
    + split; [done|]. by left.
    + split; [|done]. rewrite last_snoc. by intros ? [= <-].
Qed.

End SmfInv.
