(* ===== verification/StorageFileOps.v ===== *)
(** The file stevedore, operations: [free_smf], [trim_smf], [new_smf], the
    mapping of the file and the three methods keep the invariant, for every
    sequence of calls. *)
From S2P Require Import Prelude StorageFile StorageFileInv.
Import StorageFile SmfInv.

Module SmfOps.

(** ** What is handed out, and what is left *)

Definition live (l : list smf) : list smf := filter (fun n => smf_alloc n <> 0) l.
Definition room (l : list smf) : Z :=
  sum_by smf_size (filter (fun n => smf_alloc n = 0) l).

Lemma live_app l1 l2 : live (l1 ++ l2) = live l1 ++ live l2.
Proof. apply filter_app. Qed.
Lemma live_free n l : smf_alloc n = 0 -> live (n :: l) = live l.
Proof. intros. unfold live. by rewrite filter_cons_False by auto. Qed.
Lemma live_alloc n l : smf_alloc n <> 0 -> live (n :: l) = n :: live l.
Proof. intros. unfold live. by rewrite filter_cons_True. Qed.
Lemma room_app l1 l2 : room (l1 ++ l2) = room l1 + room l2.
Proof. unfold room. by rewrite filter_app, sum_by_app. Qed.
Lemma room_free n l : smf_alloc n = 0 -> room (n :: l) = smf_size n + room l.
Proof. intros. unfold room. by rewrite filter_cons_True. Qed.
Lemma room_alloc n l : smf_alloc n <> 0 -> room (n :: l) = room l.
Proof. intros. unfold room. by rewrite filter_cons_False. Qed.

Lemma live_room l : room l + sum_by smf_size (live l) = sum_by smf_size l.
Proof.
  induction l as [|n l IH]; [done|]. destruct (decide (smf_alloc n = 0)) as [E|E].
  - rewrite room_free, live_free by done. simpl. lia.
  - rewrite room_alloc, live_alloc by done. simpl. lia.
Qed.

Lemma room_nonneg sc l : Forall (node_ok sc) l -> 0 <= room l.
Proof.
  induction 1 as [|n l [_ Hp _ _] _ IH]; [done|].
  destruct (decide (smf_alloc n = 0)) as [E|E];
    [rewrite room_free by done; lia|by rewrite room_alloc].
Qed.

Lemma eaten_right_account n n' l2 l2' :
  eaten_right n n' l2 l2' -> smf_alloc n = 0 ->
  live l2' = live l2 /\ smf_size n' + room l2' = smf_size n + room l2.
Proof.
  intros (_ & _ & _ & [(-> & Hs)|(q & -> & Hq & _ & Hs)]) Hn; [by rewrite Hs|].
  rewrite live_free, room_free by done. split; [done|lia].
Qed.

Lemma eaten_left_account n n' l1 l1' :
  eaten_left n n' l1 l1' ->
  live l1' = live l1 /\ smf_size n' + room l1' = smf_size n + room l1.
Proof.
  intros (_ & [(-> & Hs & _)|(p & -> & Hp & _ & _ & _ & Hs)]); [by rewrite Hs|].
  rewrite live_app, room_app, live_free, room_free by done.
  rewrite app_nil_r. change (room []) with 0. split; [done|lia].
Qed.

(** The range ends at [B] in the file, or before. *)
Definition ends_by (B : Z) (n : smf) : Prop := smf_offset n + smf_size n <= B.

Lemma eaten_right_ends B n n' l2 l2' :
  eaten_right n n' l2 l2' -> ends_by B n -> Forall (ends_by B) l2 ->
  ends_by B n' /\ Forall (ends_by B) l2'.
Proof.
  unfold ends_by.
  intros (_ & Ho & _ & [(-> & Hs)|(q & -> & _ & Hc & Hs)]) Hn H; [by rewrite Ho, Hs|].
  apply Forall_cons in H as [Hq H]. apply contiguous_spec in Hc as [_ Hc].
  split; [lia|done].
Qed.

Lemma eaten_left_ends B n n' l1 l1' :
  eaten_left n n' l1 l1' -> ends_by B n -> Forall (ends_by B) l1 ->
  ends_by B n' /\ Forall (ends_by B) l1'.
Proof.
  unfold ends_by.
  intros (_ & [(-> & Hs & _ & Ho)|(p & -> & _ & Hc & _ & Ho & Hs)]) Hn H;
    [by rewrite Ho, Hs|].
  apply Forall_app in H as [H [Hp _]%Forall_cons]. apply contiguous_spec in Hc as [_ Hc].
  split; [lia|done].
Qed.

(** ** Freeing *)

Lemma limbo_start sc l1 n l2 :
  core sc -> sc_locked sc = true -> sc_order sc = l1 ++ n :: l2 ->
  smf_alloc n <> 0 ->
  limbo (put_node (set_used sc (remove_id (smf_id n) (sc_used sc))) (set_alloc n 0))
    l1 (set_alloc n 0) l2.
Proof.
  intros [Hps Hl Hno [Hap Hch Hfr] Hct] Hlk Ho Ha.
  pose proof (l_nodup _ _ Hl) as Hnd. rewrite Ho in *.
  pose proof (NoDup_mid _ _ _ Hnd) as [Hx1 Hx2].
  rewrite Forall_app, Forall_cons in Hno. destruct Hno as (Hn1 & [Hpl Hpos Hpg _] & Hn2).
  unfold placed in Hpl. rewrite decide_False in Hpl by done.
  assert (Hnd' : NoDup (ids (n :: l1 ++ l2))).
  { revert Hnd. apply NoDup_Permutation_proper, ids_perm. by rewrite Permutation_middle. }
  assert (Hl' : linked sc (n :: l1 ++ l2))
    by (eapply linked_perm; [by rewrite Permutation_middle|exact Hl]).
  apply chain_mid in Hch as (Hc1 & _ & _ & Hc2).
  split; try done.
  - simpl. rewrite Ho. by apply put_mid.
  - eapply linked_intro; [exact Hl'|done| | |exact Hnd'].
    + simpl. rewrite in_use_cons. simpl. apply remove_id_perm.
      * rewrite (l_used _ _ Hl'), in_use_cons. by rewrite decide_False.
      * intros Hin%in_use_sub. simpl in Hnd'. by apply NoDup_cons in Hnd' as [? _].
    + intros b. by rewrite !free_on_cons.
  - by eapply Forall_node_ok_frame; [|exact Hn1].
  - by eapply Forall_node_ok_frame; [|exact Hn2].
  - apply (pairwise_replace l1 n l2 [set_alloc n 0]); [done| |].
    + simpl. by rewrite Forall_nil.
    + constructor; [|done]. unfold within. simpl. lia.
  - simpl. rewrite Forall_app, Forall_cons in *. done.
  - simpl. rewrite Hct, !length_app. done.
Qed.

Lemma core_settled sc l1 n l2 :
  limbo sc l1 n l2 -> settled l1 n l2 ->
  exists sc' n', insfree sc n = Ok sc' /\ core sc' /\ same_frame sc sc' /\
    sc_order sc' = l1 ++ n' :: l2 /\ n' = set_flist n (smf_flist n').
Proof.
  intros H Hset. destruct (limbo_nodup _ _ _ _ H) as (Hx1 & Hx2 & Hnd).
  destruct H as [Hps Hlk Ho Hl Ha Hf Hpos Hpg Hn1 Hn2 Hap Hc1 Hc2 Hfs Hcnt].
  assert (Hst : stored sc (l1 ++ l2)).
  { intros x Hx. rewrite Ho. apply nodup_stored; [|set_solver].
    destruct Hl as [_ _ _ Hnd1]. revert Hnd1.
    apply NoDup_Permutation_proper, ids_perm. by rewrite Permutation_middle. }
  assert (Hall : all_placed sc (l1 ++ l2))
    by (apply node_ok_placed; by apply Forall_app).
  destruct (insfree_spec sc n (l1 ++ l2) Hl Hlk Hps Ha ltac:(lia) Hf Hst Hall)
    as (st & fr & E & Hgk & Hl').
  set (n' := set_flist n (Some (bucket_of sc n))) in *.
  rewrite Ho, put_mid in E, Hl' by done.
  eexists _, n'. split; [exact E|]. apply frag_only_kept in Hgk as [Hgk Hg].
  split; [|split; [by repeat split; try apply Hgk|done]].
  assert (Hap' : pairwise after (l1 ++ n' :: l2)).
  { apply (pairwise_replace l1 n l2 [n']); [done| |].
    - simpl. by rewrite Forall_nil.
    - constructor; [|done]. unfold within. simpl. lia. }
  split; simpl; [done| | | |by rewrite Hg, Hcnt, !length_app].
  - eapply linked_perm; [|exact Hl']. by rewrite Permutation_middle.
  - rewrite Forall_node_ok_upd, Forall_app, Forall_cons. split_and!; [done| |done].
    split; simpl; [|done|done|by left]. unfold placed. simpl. by rewrite Ha.
  - split; [done| |by rewrite Forall_app, Forall_cons in *].
    destruct Hset as [S1 S2]. apply chain_mid. done.
Qed.

Lemma same_frame_trans a b c : same_frame a b -> same_frame b c -> same_frame a c.
Proof.
  intros (?&?&?&?) (?&?&?&?). repeat split; try congruence;
  by apply (gauges_kept_trans _ (sc_stats b)).
Qed.

(** [free_smf] returns the range, merged with its free neighbours. *)
Lemma free_smf_spec sc l1 n l2 :
  core sc -> sc_locked sc = true -> sc_order sc = l1 ++ n :: l2 ->
  smf_alloc n <> 0 ->
  exists sc', free_smf sc n = Ok sc' /\ core sc' /\ same_frame sc sc' /\
    live (sc_order sc') = live l1 ++ live l2 /\
    room (sc_order sc') = room (sc_order sc) + smf_size n /\
    forall B, Forall (ends_by B) (sc_order sc) -> Forall (ends_by B) (sc_order sc').
Proof.
  intros Hc Hlk Ho Ha. assert (Hno := c_nodes _ Hc). rewrite Ho in Hno.
  rewrite Forall_app, Forall_cons in Hno. destruct Hno as (_ & [_ Hpos Hpg _] & _).
  unfold free_smf.
  rewrite (vassert_true (negb (smf_alloc n =? 0))), bind_Ret
    by (by apply negb_true_iff, Z.eqb_neq).
  rewrite (vassert_true (0 <? smf_size n)), bind_Ret by lia.
  rewrite (vassert_true (_ mod _ =? 0)), bind_Ret by lia. cbv zeta.
  pose proof (limbo_start sc l1 n l2 Hc Hlk Ho Ha) as H0.
  destruct (merge_forward_spec _ _ _ _ H0) as (sc1 & n1 & l2' & -> & _ & H1 & F1 & E1 & U).
  rewrite bind_Ret. cbv beta iota.
  destruct (merge_back_spec _ _ _ _ H1 U) as (sc2 & n2 & l1' & -> & H2 & F2 & E2 & S).
  rewrite bind_Ret. cbv beta iota.
  destruct (core_settled _ _ _ _ H2 S) as (sc3 & n3 & -> & Hc3 & F3 & Ho3 & En).
  exists sc3. split; [done|]. split; [done|].
  assert (F0 : same_frame sc (put_node (set_used sc (remove_id (smf_id n) (sc_used sc)))
    (set_alloc n 0))) by (by repeat split).
  split.
  { apply (same_frame_trans _ _ _ F0), (same_frame_trans _ _ _ F1).
    exact (same_frame_trans _ _ _ F2 F3). }
  destruct (eaten_right_account _ _ _ _ E1) as [L1 R1]; [done|].
  destruct (eaten_left_account _ _ _ _ E2) as [L2 R2]. assert (E2' := E2).
  destruct E2' as [Ha2 _].
  assert (Ha3 : smf_alloc n3 = 0) by (by rewrite En).
  assert (Hs3 : smf_size n3 = smf_size n2) by (by rewrite En).
  rewrite Ho3, Ho, live_app, live_free, !room_app, room_free, room_alloc by done.
  rewrite L1, L2. split; [done|]. simpl in R1. split; [lia|].
  intros B. rewrite !Forall_app, !Forall_cons. intros (B1 & Bn & B2).
  destruct (eaten_right_ends B _ _ _ _ E1 Bn B2) as [Bn1 B2'].
  destruct (eaten_left_ends B _ _ _ _ E2 Bn1 B1) as [Bn2 B1'].
  split_and!; [done| |done]. by rewrite En.
Qed.

(** ** Trimming *)

(** An allocated range [n] cut in two at [bytes], both parts allocated. *)
Definition kept (n : smf) (bytes : Z) : smf := set_size n bytes.
Definition cut (sc : smf_sc) (n : smf) (bytes : Z) : smf :=
  advance (set_size (with_id n (sc_next sc)) (smf_size n - bytes)) bytes.

Lemma core_cut sc l1 n l2 bytes :
  core sc -> sc_order sc = l1 ++ n :: l2 -> smf_alloc n <> 0 ->
  0 < bytes < smf_size n -> bytes mod sc_pagesize sc = 0 ->
  core (upd sc (count_smf (sc_stats sc) 1) (l1 ++ kept n bytes :: cut sc n bytes :: l2)
    (sc_free sc) (sc_used sc ++ [sc_next sc]) (Pos.succ (sc_next sc))).
Proof.
  intros [Hps Hl Hno [Hap Hch Hfr] Hct] Ho Ha Hb Hpg.
  pose proof (l_nodup _ _ Hl) as Hnd. rewrite Ho in *.
  pose proof (fresh_not_in _ _ Hfr) as Hnew.
  rewrite Forall_app, Forall_cons in Hno.
  destruct Hno as (Hn1 & [Hpl Hpos Hpm Hal] & Hn2).
  unfold placed in Hpl. rewrite decide_False in Hpl by done.
  assert (Hcn : node_ok sc (cut sc n bytes)).
  { split; simpl; [|lia|by apply mod_sub|done]. unfold placed. simpl.
    by rewrite decide_False. }
  assert (Hkn : node_ok sc (kept n bytes)).
  { split; simpl; [|lia|done|done]. unfold placed. simpl. by rewrite decide_False. }
  split; simpl; [done| | | |].
  - eapply (linked_perm _ (cut sc n bytes :: kept n bytes :: l1 ++ l2)); [solve_Permutation|].
    assert (Hl' : linked sc (n :: l1 ++ l2))
      by (eapply linked_perm; [by rewrite Permutation_middle|exact Hl]).
    eapply linked_intro; [exact Hl'|done| | |].
    + simpl. rewrite (l_used _ _ Hl'), !in_use_cons. simpl. rewrite !decide_False by done.
      by rewrite Permutation_app_comm.
    + intros b. rewrite !free_on_cons. simpl. rewrite Hpl. done.
    + simpl. constructor; [|by apply (l_nodup _ _ Hl')].
      intros Hin. apply Hnew. rewrite ids_app. simpl. set_solver.
  - rewrite Forall_node_ok_upd, Forall_app, !Forall_cons. done.
  - split.
    + apply (pairwise_replace l1 n l2 [kept n bytes; cut sc n bytes]); [done| |].
      * simpl. unfold after. simpl. rewrite !Forall_cons, !Forall_nil. simpl. lia.
      * repeat constructor; unfold within; simpl; lia.
    + apply chain_mid in Hch as (H1 & H2 & H3 & H4). apply chain_mid.
      simpl. split_and!; [done| | |].
      * unfold unmerged. simpl. naive_solver.
      * intros q [= <-]. unfold unmerged. simpl. naive_solver.
      * apply chain_cons. split; [|done]. unfold unmerged. simpl. naive_solver.
    + simpl. rewrite Forall_app, !Forall_cons in *. destruct Hfr as (Hf1 & Hf2 & Hf3).
      split_and!; simpl; try lia.
      * eapply Forall_impl; [exact Hf1|]. simpl. lia.
      * eapply Forall_impl; [exact Hf3|]. simpl. lia.
  - rewrite Hct, u64_add, !length_app. simpl. f_equal. lia.
Qed.

Lemma trim_smf_spec sc l1 n l2 bytes :
  core sc -> sc_locked sc = true -> sc_order sc = l1 ++ n :: l2 ->
  smf_alloc n <> 0 -> 0 < bytes < smf_size n -> bytes mod sc_pagesize sc = 0 ->
  exists sc', trim_smf sc n bytes = Ok sc' /\ core sc' /\ same_frame sc sc' /\
    live (sc_order sc') = live l1 ++ kept n bytes :: live l2 /\
    room (sc_order sc') = room (sc_order sc) + smf_size n - bytes.
Proof.
  intros Hc Hlk Ho Ha Hb Hpg. pose proof (core_cut _ _ _ _ _ Hc Ho Ha Hb Hpg) as Hc1.
  assert (Hnd := l_nodup _ _ (c_linked _ Hc)). rewrite Ho in Hnd.
  apply NoDup_mid in Hnd as [Hx _].
  assert (Hno := c_nodes _ Hc). rewrite Ho, Forall_app, Forall_cons in Hno.
  destruct Hno as (_ & [_ _ Hpm _] & _).
  unfold trim_smf.
  rewrite (vassert_true (negb (smf_alloc n =? 0))), bind_Ret
    by (by apply negb_true_iff, Z.eqb_neq).
  rewrite (vassert_true (0 <? bytes)), bind_Ret by lia.
  rewrite (vassert_true (bytes <? _)), bind_Ret by lia.
  rewrite (vassert_true (bytes mod _ =? 0)), bind_Ret by lia.
  rewrite (vassert_true (smf_size n mod _ =? 0)), bind_Ret by lia. cbv zeta.
  match goal with |- context [free_smf ?x ?y] =>
    assert (x = upd sc (count_smf (sc_stats sc) 1)
        (l1 ++ kept n bytes :: cut sc n bytes :: l2)
        (sc_free sc) (sc_used sc ++ [sc_next sc]) (Pos.succ (sc_next sc))) as -> end.
  { unfold put_node, upd, set_order, set_used, set_stats, set_next. simpl.
    rewrite Ho, put_mid by done. by rewrite (insert_after_mid l1 l2 (kept n bytes)). }
  set (sc1 := upd _ _ _ _ _ _) in *.
  destruct (free_smf_spec sc1 (l1 ++ [kept n bytes]) (cut sc n bytes) l2 Hc1 Hlk)
    as (sc' & E & Hc' & Hf & Hlv & Hrm & _); [by rewrite <- app_assoc|done|].
  exists sc'. split; [exact E|]. split; [done|].
  split; [by eapply same_frame_trans; [|exact Hf]; repeat split|].
  rewrite Hlv, Hrm, Ho, live_app, (live_alloc (kept n bytes)), <- app_assoc by done.
  split; [done|]. simpl. rewrite !room_app, !room_alloc by done. lia.
Qed.

(** ** A chunk of the file *)

Lemma insert_by_ptr_spec sp l :
  exists l1 l2, l = l1 ++ l2 /\ insert_by_ptr sp l = l1 ++ sp :: l2 /\
    Forall (fun x => smf_ptr x <= smf_ptr sp) l1 /\
    (forall x, head l2 = Some x -> smf_ptr sp < smf_ptr x).
Proof.
  induction l as [|y l (l1 & l2 & -> & E & H1 & H2)]; simpl.
  - exists [], []. done.
  - destruct (Z.ltb_spec (smf_ptr sp) (smf_ptr y)).
    + exists [], (y :: l1 ++ l2). split_and!; try done. by intros ? [= <-].
    + exists (y :: l1), l2. rewrite E. split_and!; try done. constructor; [lia|done].
Qed.

(** The range is apart from all others, in memory and in the file. *)
Definition apart (ptr off len : Z) (x : smf) : Prop :=
  (ptr + len <= smf_ptr x \/ smf_ptr x + smf_size x <= ptr) /\
  (off + len <= smf_offset x \/ smf_offset x + smf_size x <= off).

Lemma pairwise_insert l1 sp l2 :
  0 < smf_size sp ->
  pairwise after (l1 ++ l2) -> Forall (fun x => 0 < smf_size x) (l1 ++ l2) ->
  Forall (fun x => smf_ptr x <= smf_ptr sp) l1 ->
  (forall x, head l2 = Some x -> smf_ptr sp < smf_ptr x) ->
  Forall (apart (smf_ptr sp) (smf_offset sp) (smf_size sp)) (l1 ++ l2) ->
  pairwise after (l1 ++ sp :: l2).
Proof.
  rewrite !pairwise_app, !Forall_app. simpl.
  intros Hsp (P1 & P2 & P12) [N1 N2] H1 H2 [A1 A2].
  assert (H2' : Forall (fun x => smf_ptr sp < smf_ptr x) l2).
  { destruct l2 as [|y l2]; [done|]. specialize (H2 y eq_refl).
    constructor; [done|]. destruct P2 as [P2 _]. apply Forall_cons in N2 as [Ny _].
    eapply Forall_impl; [exact P2|]. intros x [? _]. simpl in *. lia. }
  split_and!; [done| |done|].
  - rewrite Forall_forall in *. intros x Hx.
    destruct (A2 x Hx). specialize (N2 x Hx). specialize (H2' x Hx). unfold after. lia.
  - rewrite Forall_forall in *. intros x Hx. constructor; [|by apply P12].
    destruct (A1 x Hx). specialize (N1 x Hx). specialize (H1 x Hx). unfold after. lia.
Qed.

Lemma new_smf_spec sc ptr off len :
  core sc -> sc_locked sc = true -> 0 < len -> len mod sc_pagesize sc = 0 ->
  Forall (apart ptr off len) (sc_order sc) ->
  exists sc', new_smf sc ptr off len = Ok sc' /\ core sc' /\ same_frame sc sc' /\
    live (sc_order sc') = live (sc_order sc) /\
    room (sc_order sc') = room (sc_order sc) + len /\
    forall B, off + len <= B -> Forall (ends_by B) (sc_order sc) ->
      Forall (ends_by B) (sc_order sc').
Proof.
  intros [Hps Hl Hno [Hap Hch Hfr] Hct] Hlk Hlen Hpg Hapart.
  unfold new_smf. rewrite (vassert_true (_ =? 0)), bind_Ret by lia. cbv zeta.
  set (sp := mkSmf (sc_next sc) no_storage 1 len off ptr None).
  destruct (insert_by_ptr_spec sp (sc_order sc)) as (l1 & l2 & Ho & Ei & H1 & H2).
  pose proof (l_nodup _ _ Hl) as Hnd. pose proof (fresh_not_in _ _ Hfr) as Hnew.
  match goal with |- context [free_smf ?x ?y] =>
    set (sc1 := x) end.
  assert (Ho1 : sc_order sc1 = l1 ++ sp :: l2) by (simpl; exact Ei).
  assert (Hsp : node_ok sc sp) by (by split; [|simpl; lia| |right]).
  assert (Hc1 : core sc1).
  { split; rewrite ?Ho1; simpl.
    - done.
    - eapply (linked_perm _ (sp :: sc_order sc)); [rewrite Ho; solve_Permutation|].
      eapply linked_intro; [exact Hl|done| | |].
      + simpl. by rewrite (l_used _ _ Hl), in_use_cons.
      + intros b. by rewrite free_on_cons.
      + simpl. by constructor.
    - rewrite Ho, Forall_app in Hno.
      apply (Forall_node_ok_frame sc); [done|]. rewrite Forall_app, Forall_cons. tauto.
    - rewrite Ho in *. split.
      + apply pairwise_insert; try done. eapply Forall_impl; [exact Hno|]. by intros ? [].
      + apply chain_mid.
        assert (C : chain unmerged l1 /\ chain unmerged l2).
        { destruct l2 as [|y l2]; [rewrite app_nil_r in Hch; by split|].
          apply chain_mid in Hch as (C1 & _ & C2 & C3). split; [done|]. by apply chain_cons. }
        destruct C. split_and!; [done| | |done]; unfold unmerged; simpl; naive_solver.
      + rewrite Forall_app in Hfr. destruct Hfr as [F1 F2].
        rewrite Forall_app, Forall_cons. simpl. split_and!; try lia.
        * eapply Forall_impl; [exact F1|]. simpl. lia.
        * eapply Forall_impl; [exact F2|]. simpl. lia.
    - rewrite Hct, u64_add, Ho, !length_app. simpl. f_equal. lia. }
  destruct (free_smf_spec sc1 l1 sp l2 Hc1 Hlk Ho1 ltac:(done))
    as (sc' & E & Hc' & Hf & Hlv & Hrm & Hen).
  exists sc'. split; [exact E|]. split; [done|].
  split; [by eapply same_frame_trans; [|exact Hf]; repeat split|].
  rewrite Hlv, Hrm, Ho1, Ho, live_app. split; [done|].
  rewrite !room_app, room_alloc by done. simpl. split; [lia|].
  intros B Hb H. apply Hen. rewrite Ho1, Forall_app, Forall_cons.
  rewrite Forall_app in H. destruct H. by split_and!.
Qed.

End SmfOps.
