(* ===== verification/StorageFileThm.v ===== *)
(** The file stevedore, theorems: what [smf_open], [smf_alloc], [smf_trim] and
    [smf_free] do, for every sequence of calls a client may make. *)
From S2P Require Import Prelude StorageFile StorageFileInv StorageFileOps.
Import StorageFile SmfInv SmfOps.

Module SmfThm.

(** ** Rounding to pages *)

Lemma pow2_bounds k : 0 <= k < 32 -> 0 < 2 ^ k < 2 ^ 32.
Proof. intros. split; [apply Z.pow_pos_nonneg|apply Z.pow_lt_mono_r]; lia. Qed.

Lemma round_pages_div sc size k :
  0 <= k < 32 -> sc_pagesize sc = 2 ^ k -> 0 <= size ->
  size + (sc_pagesize sc - 1) < 2 ^ 64 ->
  round_pages sc size = u32 (size + (sc_pagesize sc - 1)) / sc_pagesize sc * sc_pagesize sc.
Proof.
  intros Hk Hp Hs Hlt. pose proof (pow2_bounds k Hk).
  unfold round_pages. rewrite Hp in *. rewrite (u32_small (2 ^ k - 1)) by lia.
  unfold u64. rewrite Z.mod_small by lia.
  unfold u32. rewrite <- !(Z.land_ones _ 32), (Z.land_comm (Z.lnot _)), Z.land_assoc by lia.
  rewrite land_lnot_mask by lia.
  pose proof (Z.div_mod (Z.land (size + (2 ^ k - 1)) (Z.ones 32)) (2 ^ k)). lia.
Qed.

Definition pow2_pages (sc : smf_sc) : Prop :=
  exists k, 0 <= k < 32 /\ sc_pagesize sc = 2 ^ k.

Lemma pow2_frame sc sc' :
  sc_pagesize sc' = sc_pagesize sc -> pow2_pages sc -> pow2_pages sc'.
Proof. intros E (k & Hk & H). exists k. by rewrite E. Qed.

(** [size] rounded up. *)
Definition rounded (sc : smf_sc) (size : Z) : Z :=
  (size + (sc_pagesize sc - 1)) / sc_pagesize sc * sc_pagesize sc.

Lemma pow2_pos sc : pow2_pages sc -> 0 < sc_pagesize sc < 2 ^ 32.
Proof.
  intros (k & Hk & ->). by apply pow2_bounds.
Qed.

Lemma round_pages_ok sc size :
  pow2_pages sc -> 0 <= size -> size + sc_pagesize sc <= 2 ^ 32 ->
  round_pages sc size = rounded sc size.
Proof.
  intros Hp Hs Hlt. pose proof (pow2_pos _ Hp). destruct Hp as (k & Hk & Hp).
  rewrite (round_pages_div sc size k) by lia. unfold rounded.
  by rewrite u32_small by lia.
Qed.

Lemma rounded_bounds sc size :
  pow2_pages sc -> size <= rounded sc size < size + sc_pagesize sc.
Proof.
  intros Hp. pose proof (pow2_pos _ Hp). unfold rounded.
  pose proof (Z.div_mod (size + (sc_pagesize sc - 1)) (sc_pagesize sc)).
  pose proof (Z.mod_pos_bound (size + (sc_pagesize sc - 1)) (sc_pagesize sc)). lia.
Qed.

Lemma rounded_pages sc size : pow2_pages sc -> rounded sc size mod sc_pagesize sc = 0.
Proof. intros Hp. pose proof (pow2_pos _ Hp). unfold rounded. by rewrite Z.mod_mul by lia. Qed.

Lemma pages_gap ps a b :
  0 < ps -> a mod ps = 0 -> b mod ps = 0 -> a < b -> a + ps <= b.
Proof.
  intros Hp Ha Hb Hlt. apply Z.mod_divide in Ha as [x ->]; [|lia].
  apply Z.mod_divide in Hb as [y ->]; [|lia].
  apply Z.mul_lt_mono_pos_r in Hlt; [nia|done].
Qed.

(** ** The invariant between calls *)

(** The [storage] of a range handed out describes it. *)
Definition handed (n : smf) : Prop :=
  st_priv (smf_s n) = Some (smf_id n) /\ st_ptr (smf_s n) = smf_ptr n /\
  st_space (smf_s n) = smf_size n /\ smf_size n < 2 ^ 32.

Record inv (sc : smf_sc) : Prop := {
  i_core : core sc;
  i_unlocked : sc_locked sc = false;
  i_pages : pow2_pages sc;
  i_handed : Forall handed (live (sc_order sc));
  i_bytes : g_bytes (sc_stats sc) = u64 (sum_by smf_size (live (sc_order sc)));
  i_alloc : g_alloc (sc_stats sc) = u64 (Z.of_nat (length (live (sc_order sc))));
  i_space : u64 (g_space (sc_stats sc) + g_bytes (sc_stats sc)) = u64 (sc_filesize sc);
}.

(** [core] does not look at the lock nor at the other counters. *)
Lemma core_stats sc sc' :
  core sc -> sc_pagesize sc' = sc_pagesize sc -> sc_order sc' = sc_order sc ->
  sc_free sc' = sc_free sc -> sc_used sc' = sc_used sc -> sc_next sc' = sc_next sc ->
  g_smf (sc_stats sc') = g_smf (sc_stats sc) -> core sc'.
Proof.
  intros [Hps [L1 L2 L3 L4] Hno [Hap Hch Hfr] Hct] Hp Ho Hf Hu Hn Hg.
  split; rewrite ?Hp, ?Ho; [done| | | |by rewrite Hg].
  - split; rewrite ?Hf, ?Hu; done.
  - by apply (Forall_node_ok_frame sc).
  - split; [done|done|by rewrite Hn].
Qed.

Lemma pairwise_set_s l1 n l2 s :
  pairwise after (l1 ++ n :: l2) -> pairwise after (l1 ++ set_s n s :: l2).
Proof.
  intros H. apply (pairwise_replace l1 n l2 [set_s n s]); [done| |].
  - simpl. by rewrite Forall_nil.
  - constructor; [|done]. unfold within. simpl. lia.
Qed.

(** ... nor at the [storage] of a range. *)
Lemma core_set_s sc l1 n l2 s :
  core sc -> sc_order sc = l1 ++ n :: l2 ->
  core (put_node sc (set_s n s)) /\
  sc_order (put_node sc (set_s n s)) = l1 ++ set_s n s :: l2.
Proof.
  intros [Hps Hl Hno [Hap Hch Hfr] Hct] Ho.
  assert (Hnd := l_nodup _ _ Hl). rewrite Ho in *.
  destruct (NoDup_mid _ _ _ Hnd) as [Hx _].
  assert (Ho' : sc_order (put_node sc (set_s n s)) = l1 ++ set_s n s :: l2).
  { simpl. rewrite Ho. by apply put_mid. }
  split; [|done]. split; rewrite ?Ho'; simpl; [done| | | |].
  - assert (Hl' : linked sc (n :: l1 ++ l2))
      by (eapply linked_perm; [by rewrite Permutation_middle|exact Hl]).
    apply (linked_perm _ (set_s n s :: l1 ++ l2)); [solve_Permutation|].
    eapply linked_intro; [exact Hl'|done| | |by apply (l_nodup _ _ Hl')].
    + simpl. by rewrite (l_used _ _ Hl'), !in_use_cons.
    + intros b. by rewrite !free_on_cons.
  - apply (Forall_node_ok_frame sc); [done|]. rewrite Forall_app, Forall_cons in *.
    destruct Hno as (? & [] & ?). by split_and!.
  - split.
    + by apply pairwise_set_s.
    + apply chain_mid in Hch as (? & ? & ? & ?). by apply chain_mid.
    + rewrite Forall_app, Forall_cons in *. done.
  - by rewrite Hct, !length_app.
Qed.

Lemma live_split l n : n ∈ live l ->
  exists l1 l2, l = l1 ++ n :: l2 /\ smf_alloc n <> 0.
Proof.
  intros [Ha Hin]%list_elem_of_filter. apply list_elem_of_split in Hin as (l1 & l2 & ->).
  by exists l1, l2.
Qed.

Lemma u64_congr a b c d : u64 a = u64 b -> u64 c = u64 d -> u64 (a + c) = u64 (b + d).
Proof. unfold u64. intros H1 H2. by rewrite Zplus_mod, H1, H2, <- Zplus_mod. Qed.

Lemma u64_u64 a : u64 (u64 a) = u64 a.
Proof. unfold u64. by rewrite Zmod_mod. Qed.

Lemma u64_sub a b : u64 (u64 a - b) = u64 (a - b).
Proof. rewrite <- !Z.add_opp_r. apply u64_add. Qed.

Lemma u64_shift a b n : u64 (u64 (a - n) + u64 (b + n)) = u64 (a + b).
Proof.
  unfold u64. rewrite <- Zplus_mod. f_equal. lia.
Qed.

Lemma u64_shift' a b n : u64 (u64 (a + n) + u64 (b - n)) = u64 (a + b).
Proof. unfold u64. rewrite <- Zplus_mod. f_equal. lia. Qed.

Lemma node_mid sc l1 n l2 :
  core sc -> sc_order sc = l1 ++ n :: l2 -> node sc (smf_id n) = Ok n.
Proof.
  intros Hc Ho. unfold node. rewrite (nodup_stored _ n); [done| |].
  - apply Hc.
  - rewrite Ho. set_solver.
Qed.

(** ** The three methods *)

Lemma Lck_Lock_ok sc : sc_locked sc = false -> Lck_Lock sc = Ok (set_locked sc true).
Proof. unfold Lck_Lock. by intros ->. Qed.

Lemma Lck_Unlock_ok sc : sc_locked sc = true -> Lck_Unlock sc = Ok (set_locked sc false).
Proof. unfold Lck_Unlock. by intros ->. Qed.

(** What the ranges of [sc] have become when [n] was handed out: it is a free range [f],
    or the front of one, at the same address and offset in the file, and then what is left
    of [f] is a free range behind it; every other range is as it was. *)
Definition handed_out (sc sc' : smf_sc) (n : smf) (bytes : Z) : Prop :=
  exists l1 f l2 rest, sc_order sc = l1 ++ f :: l2 /\ smf_alloc f = 0 /\
    sc_order sc' = l1 ++ n :: rest ++ l2 /\ taken bytes f n rest /\ handed n.

Lemma taken_account bytes f n rest l1 l2 :
  smf_alloc f = 0 -> taken bytes f n rest ->
  live (l1 ++ n :: rest ++ l2) = live l1 ++ n :: live l2 /\
  live (l1 ++ f :: l2) = live l1 ++ live l2 /\
  room (l1 ++ n :: rest ++ l2) = room (l1 ++ f :: l2) - bytes.
Proof.
  intros Hf (Ha & Hs & _ & _ & H).
  rewrite !live_app, !room_app, live_alloc, (live_free f), room_alloc, (room_free f)
    by (done || lia).
  destruct H as [[-> Hsz]|(r & -> & Hr & _ & _ & Hrs)]; simpl app.
  - split_and!; [done|done|lia].
  - rewrite live_free, room_free by done. split_and!; [done|done|lia].
Qed.

(** The ranges handed out, and the space left. *)
Lemma handed_out_account sc sc' n bytes : handed_out sc sc' n bytes ->
  exists v1 v2, live (sc_order sc) = v1 ++ v2 /\ live (sc_order sc') = v1 ++ n :: v2 /\
    smf_size n = bytes /\ handed n /\ room (sc_order sc') = room (sc_order sc) - bytes.
Proof.
  intros (l1 & f & l2 & rest & -> & Hf & -> & Ht & Hh).
  destruct (taken_account _ _ _ _ l1 l2 Hf Ht) as (-> & -> & ->).
  exists (live l1), (live l2). split_and!; try done. apply Ht.
Qed.

Lemma Forall_handed_insert v1 n v2 :
  Forall handed (v1 ++ v2) -> handed n -> Forall handed (v1 ++ n :: v2).
Proof. rewrite !Forall_app, Forall_cons. tauto. Qed.

Lemma sum_by_mid f v1 n v2 : sum_by f (v1 ++ n :: v2) = f n + sum_by f (v1 ++ v2).
Proof. rewrite !sum_by_app. simpl. lia. Qed.

Lemma smf_alloc_spec sc size :
  inv sc -> 0 < size -> size + sc_pagesize sc <= 2 ^ 32 ->
  (exists sc', smf_alloc_ sc size = Ok (sc', None) /\ inv sc' /\
     sc_order sc' = sc_order sc /\
     forall n, n ∈ sc_order sc -> smf_alloc n = 0 -> smf_size n < rounded sc size) \/
  exists sc' n, smf_alloc_ sc size = Ok (sc', Some (smf_id n)) /\ inv sc' /\
    handed_out sc sc' n (rounded sc size).
Proof.
  intros Hi Hs Hlt. assert (Hi' := Hi).
  destruct Hi' as [Hc Hul Hpp Hh Hb Hga Hsp].
  pose proof (pow2_pos _ Hpp) as Hps.
  destruct (rounded_bounds sc size Hpp) as [Hr1 Hr2].
  unfold smf_alloc_.
  rewrite (vassert_true (0 <? size)), bind_Ret by lia.
  rewrite (round_pages_ok sc size Hpp) by lia.
  rewrite Lck_Lock_ok, bind_Ret by done. cbv zeta.
  set (sc1 := set_stats (set_locked sc true) _).
  assert (Hc1 : core sc1) by (by apply (core_stats sc)).
  destruct (alloc_smf_spec sc1 (rounded sc size) Hc1 eq_refl)
    as [[E Hno]|(sc2 & l1 & f & l2 & n & rest & E & Hc2 & Hf & Ho & Ha & Ho2 & Ht)];
    [lia|exact (rounded_pages sc size Hpp)| |]; rewrite E, bind_Ret; cbv beta iota.
  - left. rewrite Lck_Unlock_ok, bind_Ret by done. eexists. split; [reflexivity|].
    split; [|done]. split; simpl; try done. by apply (core_stats sc).
  - right. destruct Hf as (Hf1 & Hf2 & Hf3 & Hf4).
    assert (Ht' := Ht). destruct Ht' as (Hna & Hns & _ & _ & _).
    rewrite Lck_Unlock_ok, bind_Ret by exact Hf1.
    rewrite (vassert_true (smf_size n =? _)), bind_Ret by lia.
    set (s := mkStorage _ _ _ _). set (sc3 := set_locked _ false).
    assert (Hc3 : core sc3) by (by apply (core_stats sc2)).
    destruct (core_set_s sc3 l1 n (rest ++ l2) s Hc3 Ho2) as [Hc4 Ho4].
    exists (put_node sc3 (set_s n s)), (set_s n s). split; [reflexivity|].
    assert (Hhn : handed (set_s n s)) by (repeat split; simpl; lia).
    assert (Ht4 : taken (rounded sc size) f (set_s n s) rest) by exact Ht.
    destruct (taken_account _ _ _ _ l1 l2 Ha Ht4) as (Lv & Lv0 & Rm).
    change (sc_order sc1) with (sc_order sc) in Ho.
    rewrite Ho, Lv0 in Hh, Hb, Hga.
    destruct Hf4 as (_ & _ & _ & _ & Gga & Gb & Gs). simpl in Gga, Gb, Gs.
    split.
    + split; rewrite ?Ho4, ?Lv; simpl; try done.
      * exact (pow2_frame sc _ Hf2 Hpp).
      * by apply Forall_handed_insert.
      * rewrite Gb, Hb, u64_add, sum_by_mid. f_equal. simpl. lia.
      * rewrite Gga, Hga, u64_add, !length_app. f_equal. simpl. lia.
      * rewrite Gs, Gb, Hf3, u64_shift. exact Hsp.
    + exists l1, f, l2, rest. by rewrite Ho4.
Qed.

Lemma live_uniq sc n n' :
  core sc -> n ∈ live (sc_order sc) -> n' ∈ live (sc_order sc) ->
  smf_id n = smf_id n' -> n = n'.
Proof.
  intros Hc [_ H1]%list_elem_of_filter [_ H2]%list_elem_of_filter E.
  pose proof (l_nodup _ _ (c_linked _ Hc)) as Hnd.
  apply (nodup_stored _ _ Hnd) in H1, H2. rewrite E in H1. congruence.
Qed.

(** [smf_free] puts the octets of the range back. *)
Definition given_back (sc sc' : smf_sc) (n : smf) : Prop :=
  exists v1 v2, live (sc_order sc) = v1 ++ n :: v2 /\ live (sc_order sc') = v1 ++ v2 /\
    room (sc_order sc') = room (sc_order sc) + smf_size n.

Lemma smf_free_spec sc n :
  inv sc -> n ∈ live (sc_order sc) ->
  exists sc', smf_free sc (smf_id n) = Ok sc' /\ inv sc' /\ given_back sc sc' n.
Proof.
  intros [Hc Hul Hpp Hh Hb Hga Hsp] Hn.
  destruct (live_split _ _ Hn) as (l1 & l2 & Ho & Ha).
  unfold smf_free. rewrite (node_mid sc l1 n l2 Hc Ho), bind_Ret.
  rewrite Lck_Lock_ok, bind_Ret by done. cbv zeta.
  set (sc1 := set_stats (set_locked sc true) _).
  assert (Hc1 : core sc1) by (by apply (core_stats sc)).
  destruct (free_smf_spec sc1 l1 n l2 Hc1 eq_refl Ho Ha) as (sc2 & -> & Hc2 & Hf & Lv & Rm & _).
  rewrite bind_Ret. destruct Hf as (Hf1 & Hf2 & Hf3 & Hf4).
  rewrite Lck_Unlock_ok by exact Hf1. rewrite ?bind_Ret.
  eexists. split; [reflexivity|].
  assert (Lv0 : live (sc_order sc) = live l1 ++ n :: live l2)
    by (by rewrite Ho, live_app, live_alloc).
  destruct Hf4 as (_ & _ & _ & _ & Gga & Gb & Gs). simpl in Gga, Gb, Gs.
  rewrite Lv0 in Hh, Hb, Hga. split.
  - split; simpl; rewrite ?Lv; try done.
    + by apply (core_stats sc2).
    + exact (pow2_frame sc _ Hf2 Hpp).
    + rewrite Forall_app, Forall_cons in *. tauto.
    + rewrite Gb, Hb, u64_sub, sum_by_mid. f_equal. lia.
    + rewrite Gga, Hga, u64_sub, !length_app. f_equal. simpl. lia.
    + rewrite Gs, Gb, Hf3, u64_shift'. exact Hsp.
  - exists (live l1), (live l2). done.
Qed.

(** Splittings of a list without duplicates around the same element. *)
Lemma live_split_uniq o v1 v2 w1 w2 n :
  NoDup (ids o) -> live o = v1 ++ n :: v2 -> live o = w1 ++ n :: w2 ->
  w1 ++ w2 = v1 ++ v2.
Proof.
  intros Hnd Hv Hw.
  assert (Hl : NoDup (ids (live o))) by (eapply sublist_NoDup; [exact Hnd|];
    apply (fmap_sublist smf_id), sublist_filter).
  rewrite <- (remove_order_mid w1 w2 n), <- (remove_order_mid v1 v2 n);
    [by rewrite <- Hv, <- Hw|..];
    [rewrite Hv in Hl|rewrite Hv in Hl|rewrite Hw in Hl|rewrite Hw in Hl];
    apply NoDup_mid in Hl; tauto.
Qed.

(** [smf_trim] keeps the front of the range and puts the rest back. *)
Definition trimmed (sc sc' : smf_sc) (n : smf) (bytes : Z) : Prop :=
  exists v1 n' v2, live (sc_order sc) = v1 ++ n :: v2 /\
    live (sc_order sc') = v1 ++ n' :: v2 /\
    smf_id n' = smf_id n /\ smf_ptr n' = smf_ptr n /\ smf_offset n' = smf_offset n /\
    smf_size n' = bytes /\ st_len (smf_s n') = st_len (smf_s n) /\ handed n' /\
    room (sc_order sc') = room (sc_order sc) + (smf_size n - bytes).

Lemma filter_mid_split (o v1 v2 : list smf) n :
  live o = v1 ++ n :: v2 ->
  exists l1 l2, o = l1 ++ n :: l2 /\ live l1 = v1 /\ live l2 = v2 /\ smf_alloc n <> 0.
Proof.
  revert v1. induction o as [|x o IH]; intros v1; [by destruct v1|].
  destruct (decide (smf_alloc x = 0)) as [E|E].
  - rewrite live_free by done. intros (l1 & l2 & -> & <- & <- & ?)%IH.
    exists (x :: l1), l2. by rewrite live_free.
  - rewrite live_alloc by done. destruct v1 as [|y v1]; simpl.
    + intros [= -> <-]. by exists [], o.
    + intros [= -> (l1 & l2 & -> & <- & <- & ?)%IH].
      exists (y :: l1), l2. by rewrite live_alloc.
Qed.

Lemma smf_trim_spec sc n size :
  inv sc -> n ∈ live (sc_order sc) -> 0 < size <= smf_size n ->
  exists sc', smf_trim sc (smf_id n) size = Ok sc' /\ inv sc' /\
    trimmed sc sc' n (rounded sc size).
Proof.
  intros Hi Hn Hs. assert (Hi' := Hi). destruct Hi' as [Hc Hul Hpp Hh Hb Hga Hsp].
  pose proof (pow2_pos _ Hpp) as Hps.
  destruct (rounded_bounds sc size Hpp) as [Hr1 Hr2].
  assert (Hhn : handed n) by (rewrite Forall_forall in Hh; by apply Hh).
  destruct (live_split _ _ Hn) as (l1 & l2 & Ho & Ha).
  assert (Lv0 : live (sc_order sc) = live l1 ++ n :: live l2)
    by (by rewrite Ho, live_app, live_alloc).
  pose proof (c_nodes _ Hc) as Hno. rewrite Ho, Forall_app, Forall_cons in Hno.
  destruct Hno as (_ & [_ Hpos Hpg _] & _).
  destruct Hhn as (Hh1 & Hh2 & Hh3 & Hh4).
  assert (Hroom : smf_size n + sc_pagesize sc <= 2 ^ 32).
  { destruct Hpp as (k & Hk & Hpp). rewrite Hpp in *. apply pages_gap; try done; [lia|].
    replace 32 with ((32 - k) + k) by lia. rewrite Z.pow_add_r by lia.
    apply Z.mod_mul. lia. }
  assert (Hle : rounded sc size <= smf_size n).
  { apply Z.nlt_ge. intros Hgt. apply (pages_gap (sc_pagesize sc)) in Hgt; try done; [lia|lia|].
    by apply rounded_pages. }
  unfold smf_trim. rewrite (node_mid sc l1 n l2 Hc Ho), bind_Ret.
  rewrite (vassert_true (0 <? size)), bind_Ret by lia.
  rewrite Hh3, (vassert_true (size <=? smf_size n)), !bind_Ret by lia.
  rewrite (round_pages_ok sc size Hpp) by lia. cbv zeta.
  destruct (Z.ltb_spec (rounded sc size) (smf_size n)) as [Hlt|Hge].
  2:{ exists sc. split; [done|]. split; [done|]. exists (live l1), n, (live l2).
      split_and!; done || lia. }
  rewrite Lck_Lock_ok, bind_Ret by done. cbv zeta.
  set (sc1 := set_stats (set_locked sc true) _).
  assert (Hc1 : core sc1) by (by apply (core_stats sc)).
  destruct (trim_smf_spec sc1 l1 n l2 (rounded sc size) Hc1 eq_refl Ho Ha)
    as (sc2 & -> & Hc2 & Hf & Lv & Rm); [lia|exact (rounded_pages sc size Hpp)|].
  rewrite bind_Ret. destruct Hf as (Hf1 & Hf2 & Hf3 & Hf4).
  destruct (filter_mid_split _ _ _ _ Lv) as (m1 & m2 & Ho2 & L1 & L2 & Ha2).
  assert (En := node_mid sc2 _ _ _ Hc2 Ho2).
  change (smf_id (kept n (rounded sc size))) with (smf_id n) in En.
  rewrite En, bind_Ret.
  rewrite (vassert_true (smf_size (kept n _) =? _)), bind_Ret by (simpl; lia).
  rewrite Lck_Unlock_ok by exact Hf1. rewrite ?bind_Ret.
  set (s := mkStorage _ _ _ _). set (sc3 := set_locked _ false).
  assert (Hc3 : core sc3) by (by apply (core_stats sc2)).
  destruct (core_set_s sc3 m1 (kept n (rounded sc size)) m2 s Hc3 Ho2) as [Hc4 Ho4].
  set (n' := set_s (kept n (rounded sc size)) s) in *.
  exists (put_node sc3 n'). split; [reflexivity|].
  assert (Hhn' : handed n') by (repeat split; simpl; done || lia).
  assert (Lv4 : live (sc_order (put_node sc3 n')) = live l1 ++ n' :: live l2).
  { rewrite Ho4, live_app, live_alloc by done. by rewrite L1, L2. }
  assert (Rm4 : room (sc_order (put_node sc3 n')) = room (sc_order sc2)).
  { rewrite Ho4, Ho2, !room_app, !room_alloc; done. }
  destruct Hf4 as (_ & _ & _ & _ & Gga & Gb & Gs). simpl in Gga, Gb, Gs.
  rewrite Lv0 in Hh, Hb, Hga. split.
  - split; rewrite ?Lv4; simpl; try done.
    + exact (pow2_frame sc _ Hf2 Hpp).
    + apply Forall_handed_insert; [|done]. rewrite Forall_app, Forall_cons in *. tauto.
    + rewrite Gb, Hb, u64_sub, !sum_by_mid. f_equal. simpl. lia.
    + rewrite Gga, Hga, !length_app. f_equal.
    + rewrite Gs, Gb, Hf3, u64_shift'. exact Hsp.
  - exists (live l1), n', (live l2). rewrite Rm4, Rm. split_and!; try done.
    change (sc_order sc1) with (sc_order sc). lia.
Qed.

(** ** Mapping the file *)

(** What the code relies on: [mmap] without [MAP_FIXED] gives a range that no
    other mapping has. *)
Definition mmap_apart (mmap : smf_sc -> Z -> Z -> option Z) : Prop :=
  forall sc sz off p, mmap sc sz off = Some p ->
    Forall (fun x => p + sz <= smf_ptr x \/ smf_ptr x + smf_size x <= p) (sc_order sc).

Section Open.

Context (mmap : smf_sc -> Z -> Z -> option Z) (Hmmap : mmap_apart mmap).

(** Nothing handed out, and nothing mapped past [off]. *)
Record mapped (off : Z) (sc : smf_sc) : Prop := {
  m_core : core sc;
  m_locked : sc_locked sc = true;
  m_live : live (sc_order sc) = [];
  m_ends : Forall (ends_by off) (sc_order sc);
}.

(** The halves of [k] pages. *)
Lemma halves_pages ps k :
  0 < ps -> 1 <= k ->
  ps * k / 2 - (ps * k / 2) mod ps = ps * (k / 2) /\
  ps * k - ps * (k / 2) = ps * (k - k / 2).
Proof.
  intros Hp Hk. split; [|ring].
  replace (ps * k / 2 - (ps * k / 2) mod ps) with (ps * (ps * k / 2 / ps))
    by (pose proof (Z.div_mod (ps * k / 2) ps); lia).
  f_equal. rewrite Zdiv_Zdiv by lia. rewrite (Z.mul_comm 2 ps).
  by rewrite Z.div_mul_cancel_l by lia.
Qed.

(** [k] pages can be opened: the assertion [sz != 0] holds all the way down,
    because the recursion gives up at [MINPAGES] and halves more than that. *)
Definition openable (ps : Z) (fuel : nat) (k fail : Z) : Prop :=
  1 <= k <= 2 ^ Z.of_nat fuel /\ ps * k <= SSIZE_MAX /\ (2 <= k \/ fail < ps * MINPAGES).

Lemma openable_halves ps fuel k fail :
  0 < ps -> openable ps (S fuel) k fail -> ps * MINPAGES <= fail ->
  let fail' := if ps * k <? fail then ps * k else fail in
  (forall f, f <= fail' -> openable ps fuel (k / 2) f) /\
  (forall f, f <= fail' -> openable ps fuel (k - k / 2) f) /\ 2 <= k.
Proof.
  intros Hp (Hk & Hmax & Hor) Hge fail'. unfold openable.
  rewrite Nat2Z.inj_succ, Z.pow_succ_r in Hk by lia.
  assert (Hk2 : 2 <= k) by lia.
  assert (Hsmall : k < MINPAGES -> forall f, f <= fail' -> f < ps * MINPAGES).
  { intros Hlt f Hf. unfold fail' in Hf. unfold MINPAGES in *.
    destruct (Z.ltb_spec (ps * k) fail); nia. }
  assert (Hhalf : 2 * (k / 2) <= k < 2 * (k / 2) + 2)
    by (pose proof (Z.div_mod k 2); pose proof (Z.mod_pos_bound k 2); lia).
  unfold MINPAGES in *.
  split_and!; try done; intros f Hf; specialize (fun H => Hsmall H f Hf);
    (split; [lia|split; [nia|]]); destruct (decide (k < 128)); [right|left|right|left]; auto; lia.
Qed.

Lemma mapped_new sc p off len :
  mapped off sc -> 0 < len -> len mod sc_pagesize sc = 0 ->
  Forall (fun x => p + len <= smf_ptr x \/ smf_ptr x + smf_size x <= p) (sc_order sc) ->
  exists sc', new_smf sc p off len = Ok sc' /\ mapped (off + len) sc' /\
    same_frame sc sc' /\ room (sc_order sc') = room (sc_order sc) + len.
Proof.
  intros [Hc Hlk Hlv Hen] Hlen Hpg Hap.
  destruct (new_smf_spec sc p off len Hc Hlk Hlen Hpg) as (sc' & E & Hc' & Hf & L & R & He).
  { apply Forall_forall. intros x Hx. rewrite Forall_forall in Hap, Hen.
    split; [by apply Hap|]. right. by apply Hen. }
  exists sc'. split_and!; try done. split; [done|by destruct Hf as [-> _]|by rewrite L|].
  apply He; [lia|]. eapply Forall_impl; [exact Hen|]. unfold ends_by. intros. lia.
Qed.

Lemma smf_open_chunk_spec fuel sc k off fail sum :
  mapped off sc -> openable (sc_pagesize sc) fuel k fail ->
  exists sc' fail' sum',
    smf_open_chunk mmap fuel sc (sc_pagesize sc * k) off fail sum = Ok (sc', fail', sum') /\
    mapped (off + sc_pagesize sc * k) sc' /\ same_frame sc sc' /\ fail' <= fail /\
    sum' - sum = room (sc_order sc') - room (sc_order sc) /\
    0 <= sum' - sum <= sc_pagesize sc * k.
Proof.
  revert sc k off fail sum.
  induction fuel as [|fuel IH]; intros sc k off fail sum Hm Hop;
    assert (Hm' := Hm); destruct Hm' as [Hc Hlk Hlv Hen];
    assert (Hps := c_ps _ Hc); assert (Hop' := Hop); destruct Hop' as (Hk & Hmax & Hor);
    set (ps := sc_pagesize sc) in *;
    assert (Hz : 0 < ps * k) by nia;
    assert (Hgrow : mapped (off + ps * k) sc)
      by (split; try done; eapply Forall_impl; [exact Hen|]; unfold ends_by; intros; lia);
    simpl smf_open_chunk;
    rewrite (vassert_true (negb (ps * k =? 0))), bind_Ret
      by (apply negb_true_iff, Z.eqb_neq; lia);
    fold ps;
    rewrite (vassert_true (ps * k mod ps =? 0)), bind_Ret
      by (rewrite Z.mul_comm, Z.mod_mul by lia; done);
    destruct (Z.ltb_spec fail (ps * MINPAGES)) as [Hlt|Hge];
    try (exists sc, fail, sum; split_and!; done || lia).
  destruct (openable_halves ps fuel k fail Hps Hop Hge) as (Hh1 & Hh2 & Hk2).
  set (fail' := if ps * k <? fail then ps * k else fail) in *.
  assert (Hfail : fail' <= fail) by (unfold fail'; destruct (Z.ltb_spec (ps * k) fail); lia).
  clearbody fail'.
  match goal with |- exists _ _ _, (if _ then match _ with Some _ => _ | None => ?h end else _) = _ /\ _ =>
    set (halves := h) end.
  assert (Hhalves : exists sc' fail' sum', halves = Ok (sc', fail', sum') /\
    mapped (off + ps * k) sc' /\ same_frame sc sc' /\ fail' <= fail /\
    sum' - sum = room (sc_order sc') - room (sc_order sc) /\ 0 <= sum' - sum <= ps * k).
  { unfold halves. cbv zeta.
    assert (Hh : (if SSIZE_MAX <? ps * k / 2 then SSIZE_MAX else ps * k / 2) = ps * k / 2)

      by (destruct (Z.ltb_spec SSIZE_MAX (ps * k / 2)); [|done];
          pose proof (Z.div_mod (ps * k) 2); pose proof (Z.mod_pos_bound (ps * k) 2); lia).
    rewrite Hh. destruct (halves_pages ps k Hps ltac:(lia)) as [E1 E2]. rewrite E1.
    destruct (IH sc (k / 2) off fail' sum Hm (Hh1 _ (Z.le_refl _)))
      as (sc1 & f1 & s1 & Er1 & M1 & F1 & L1 & R1 & B1).
    fold ps in Er1, M1, B1. rewrite Er1, bind_Ret. cbv beta iota. rewrite E2.
    assert (Eps : sc_pagesize sc1 = ps) by apply F1.
    destruct (IH sc1 (k - k / 2) (off + ps * (k / 2)) f1 s1 M1)
      as (sc2 & f2 & s2 & Er2 & M2 & F2 & L2 & R2 & B2);
      [rewrite Eps; apply Hh2; lia|].
    rewrite Eps in Er2, M2, B2. rewrite Er2. exists sc2, f2, s2. split; [done|].
    split; [by replace (off + ps * k) with (off + ps * (k / 2) + ps * (k - k / 2)) by ring|].
    split; [by eapply same_frame_trans|]. split_and!; lia. }
  destruct ((0 <? ps * k) && (ps * k <? fail) && (ps * k <? SSIZE_MAX)); [|done].
  destruct (mmap sc (ps * k) off) as [p|] eqn:Em; [|done].
  destruct (mapped_new sc p off (ps * k) Hm) as (sc' & -> & M & F & R);
    [lia|by rewrite Z.mul_comm, Z.mod_mul by lia|by apply Hmmap in Em|].
  rewrite bind_Ret. exists sc', fail, (sum + ps * k). split_and!; done || lia.
Qed.

(** What the configuration gives: the page size is a power of two, the file is
    a whole number of pages, at least two, and its size fits [off_t].  [fuel]
    halvings reach a single page. *)
Record config (fuel : nat) (page_size filesize : Z) : Prop := {
  cf_pages : exists k, 0 <= k < 32 /\ page_size = 2 ^ k;
  cf_file : exists n, filesize = page_size * n /\ 2 <= n <= 2 ^ Z.of_nat fuel;
  cf_max : filesize <= SSIZE_MAX;
}.

Lemma init_core page_size filesize :
  0 < page_size < 2 ^ 32 -> core (smf_init_sc page_size filesize).
Proof.
  intros Hp. split; simpl; try done.
  - rewrite u32_small by lia. lia.
  - split; simpl; try done; [|by apply NoDup_nil].
    intros b l Hl. change (replicate NBUCKET [] !! b = Some l) in Hl.
    by apply lookup_replicate in Hl as [-> _].
Qed.

Lemma smf_open_spec fuel page_size filesize syspage :
  config fuel page_size filesize ->
  exists r, smf_open mmap fuel (smf_init_sc page_size filesize) syspage = Ok r /\
  match r with
  | None => True
  | Some sc => inv sc /\ live (sc_order sc) = [] /\
      sc_pagesize sc = page_size /\ sc_filesize sc = filesize /\
      MINPAGES * syspage <= room (sc_order sc) <= filesize
  end.
Proof.
  intros [(k & Hk & Hps) (n & Hn & Hnf) Hmax]. pose proof (pow2_bounds k Hk) as Hb.
  unfold smf_open. cbv zeta.
  set (sc0 := smf_init_sc page_size filesize).
  assert (Ep : sc_pagesize sc0 = page_size) by (simpl; apply u32_small; lia).
  set (sc1 := set_locked (set_stats sc0 no_stats) true).
  assert (Hm : mapped 0 sc1).
  { split; [|done|done|by constructor]. apply (core_stats sc0); try done.
    apply init_core. lia. }
  destruct (smf_open_chunk_spec fuel sc1 n 0 (2 ^ 30) 0 Hm)
    as (sc2 & f2 & s2 & E & [Hc Hlk Hlv _] & Hf & _ & R & B).
  { change (sc_pagesize sc1) with (sc_pagesize sc0). rewrite Ep.
    split; [lia|]. split; [lia|]. left. lia. }
  change (sc_pagesize sc1) with (sc_pagesize sc0) in E, B. rewrite Ep in E, B.
  change (sc_filesize sc1) with filesize. rewrite Hn, E, bind_Ret.
  cbv beta iota. destruct (Z.ltb_spec s2 (MINPAGES * syspage)); [by eexists|].
  eexists. split; [reflexivity|]. destruct Hf as (_ & F2 & F3 & F4).
  destruct F4 as (_ & _ & _ & _ & Gga & Gb & Gs). simpl in Gga, Gb, Gs.
  split; [|split; [done|split; [simpl; rewrite F2; exact Ep|
    split; [simpl; rewrite F3; exact Hn|]]]].
  - split; simpl; rewrite ?Hlv; simpl; try done.
    + by apply (core_stats sc2).
    + exists k. split; [done|]. rewrite <- Hps. etrans; [exact F2|exact Ep].
    + rewrite Gs, Gb, F3. simpl. unfold u64. rewrite Z.add_0_r, Zmod_mod. done.
  - change (room (sc_order sc1)) with 0 in R. simpl. lia.
Qed.

(** ** Clients *)

Inductive op : Type :=
  | Alloc (size : Z)
  | Trim (i : positive) (size : Z)
  | Free (i : positive).

Definition call (sc : smf_sc) (o : op) : res smf_sc :=
  match o with
  | Alloc size => '(sc, _) ← smf_alloc_ sc size; mret sc
  | Trim i size => smf_trim sc i size
  | Free i => smf_free sc i
  end.

(** A client asks for less than 4 GiB, and trims and frees what it holds. *)
Definition permitted (sc : smf_sc) (o : op) : Prop :=
  match o with
  | Alloc size => 0 < size /\ size + sc_pagesize sc <= 2 ^ 32
  | Trim i size => exists n, n ∈ live (sc_order sc) /\ smf_id n = i /\ 0 < size <= smf_size n
  | Free i => exists n, n ∈ live (sc_order sc) /\ smf_id n = i
  end.

Inductive reachable : smf_sc -> Prop :=
  | reach_open fuel page_size filesize syspage sc :
      config fuel page_size filesize ->
      smf_open mmap fuel (smf_init_sc page_size filesize) syspage = Ok (Some sc) ->
      reachable sc
  | reach_call sc o sc' :
      reachable sc -> permitted sc o -> call sc o = Ok sc' -> reachable sc'.

Lemma call_inv sc o : inv sc -> permitted sc o -> exists sc', call sc o = Ok sc' /\ inv sc'.
Proof.
  intros Hi. destruct o as [size|i size|i]; simpl.
  - intros [H1 H2].
    destruct (smf_alloc_spec sc size Hi H1 H2) as [(sc' & -> & ? & _)|(sc' & n & -> & ? & _)];
      by exists sc'.
  - intros (n & Hn & <- & Hs).
    destruct (smf_trim_spec sc n size Hi Hn Hs) as (sc' & -> & ? & _). by exists sc'.
  - intros (n & Hn & <-).
    destruct (smf_free_spec sc n Hi Hn) as (sc' & -> & ? & _). by exists sc'.
Qed.

Lemma reachable_inv sc : reachable sc -> inv sc.
Proof.
  induction 1 as [fuel ps fs sy sc Hcf E|sc o sc' _ IH Hp E].
  - destruct (smf_open_spec fuel ps fs sy Hcf) as (r & E' & Hr).
    rewrite E in E'. injection E' as <-. apply Hr.
  - destruct (call_inv sc o IH Hp) as (sc2 & E' & Hi). congruence.
Qed.

End Open.

Lemma pairwise_lookup R l i j a b :
  pairwise R l -> l !! i = Some a -> l !! j = Some b -> (i < j)%nat -> R a b.
Proof.
  revert i j. induction l as [|x l IH]; [done|]. intros i j [Hx Hp] Hi Hj Hlt.
  destruct j as [|j]; [lia|]. destruct i as [|i]; simpl in *.
  - injection Hi as ->. rewrite Forall_forall in Hx. apply Hx.
    by eapply list_elem_of_lookup_2.
  - by eapply (IH i j); [| | |lia].
Qed.

Lemma chain_lookup R l i a b :
  chain R l -> l !! i = Some a -> l !! (S i) = Some b -> R a b.
Proof.
  revert i. induction l as [|x l IH]; [done|]. intros i [Hx Hc]%chain_cons Hi Hj.
  destruct i as [|i]; simpl in *.
  - injection Hi as ->. apply Hx. by destruct l.
  - by eapply IH.
Qed.

Lemma find_put i n l m :
  smf_id n = i -> find_smf i (put n l) = Some m -> m = n.
Proof.
  intros <-. induction l as [|x l IH]; simpl; [done|].
  destruct (decide (smf_id x = smf_id n)) as [E|E]; simpl.
  - rewrite decide_True by done. by intros [= <-].
  - rewrite decide_False by done. exact IH.
Qed.

Lemma round_pages_lt sc size : round_pages sc size < 2 ^ 32.
Proof.
  unfold round_pages, u32. rewrite <- (Z.land_ones (Z.lnot _) 32), Z.land_assoc by lia.
  rewrite Z.land_ones by lia. apply Z.mod_pos_bound. lia.
Qed.

(** ** An open file

    [mmap] that maps each range above all others. *)
Definition mmap_above (sc : smf_sc) (sz off : Z) : option Z :=
  Some (foldr (fun x m => Z.max m (smf_ptr x + smf_size x)) 4096 (sc_order sc)).

Lemma mmap_above_apart : mmap_apart mmap_above.
Proof.
  intros sc sz off p [= <-].
  eapply (Forall_impl (fun x => smf_ptr x + smf_size x <= _)); [|by right].
  induction (sc_order sc) as [|x l IH]; [by constructor|].
  simpl. constructor; [lia|]. eapply Forall_impl; [exact IH|]. simpl. intros. lia.
Qed.

(** 256 pages of 4 KiB. *)
Definition sc_1m : smf_sc :=
  match smf_open mmap_above 10 (smf_init_sc 4096 (2 ^ 20)) 4096 with
  | Ok (Some sc) => sc
  | _ => smf_init_sc 4096 (2 ^ 20)
  end.

Lemma config_1m : config 10 4096 (2 ^ 20).
Proof.
  split; [exists 12; split; [lia|done]|exists 256; split; [done|simpl; lia]|done].
Qed.

Lemma reachable_1m : reachable mmap_above sc_1m.
Proof. apply (reach_open _ 10 4096 (2 ^ 20) 4096 _ config_1m). by vm_compute. Qed.

(** The same with 5000 octets handed out. *)
Definition sc_5k : smf_sc :=
  match smf_alloc_ sc_1m 5000 with Ok (sc, _) => sc | Fail _ => sc_1m end.

Lemma reachable_5k : reachable mmap_above sc_5k.
Proof.
  apply (reach_call _ sc_1m (Alloc 5000)); [exact reachable_1m| |by vm_compute].
  split; [lia|by vm_compute].
Qed.

Definition smf_5k : smf := default (mkSmf 1 no_storage 0 0 0 0 None) (head (sc_order sc_5k)).

Lemma smf_5k_live : smf_5k ∈ live (sc_order sc_5k).
Proof.
  assert (live (sc_order sc_5k) = [smf_5k]) as -> by (by vm_compute). by left.
Qed.

(** ** Theorems *)

(** C26: Whatever a client does with the file stevedore that it is permitted to do, in
    whatever order, no assertion fails and nothing outside the lists is looked at: every
    permitted call returns.  It is permitted to ask for a size that is, with a page more,
    not above 4 GiB, to trim what it holds to less, and to free what it holds.  All
    ranges, handed out or free, stay apart in memory and in the file and sorted by
    address, and two free ranges that touch are always merged.  The gauges [g_alloc] and
    [g_bytes] hold the number of the ranges handed out and their octets, [g_smf] the
    number of all ranges, and [g_space] the size of the file less [g_bytes], whether or not
    all of the file could be mapped. *)
Theorem smf_client_safe mmap (Hmmap : mmap_apart mmap) sc (Hr : reachable mmap sc) :
  (forall i j a b, sc_order sc !! i = Some a -> sc_order sc !! j = Some b ->
     (i < j)%nat -> after a b) /\
  (forall i a b, sc_order sc !! i = Some a -> sc_order sc !! S i = Some b ->
     unmerged a b) /\
  g_alloc (sc_stats sc) = u64 (Z.of_nat (length (live (sc_order sc)))) /\
  g_bytes (sc_stats sc) = u64 (sum_by smf_size (live (sc_order sc))) /\
  g_smf (sc_stats sc) = u64 (Z.of_nat (length (sc_order sc))) /\
  u64 (g_space (sc_stats sc) + g_bytes (sc_stats sc)) = u64 (sc_filesize sc) /\
  forall o, permitted sc o -> exists sc', call sc o = Ok sc'.
Proof.
  pose proof (reachable_inv mmap Hmmap sc Hr) as Hi. assert (Hi' := Hi).
  destruct Hi' as [[_ _ _ [Hap Hch _] Hct] _ _ _ Hb Hga Hs].
  split_and!; [|intros i a b; exact (chain_lookup _ _ i a b Hch)|done|done|done|done|].
  { intros i j a b Ha Hj Hlt. exact (pairwise_lookup _ _ i j a b Hap Ha Hj Hlt). }
  intros o Hp. destruct (call_inv sc o Hi Hp) as (sc' & E & _). by exists sc'.
Qed.

Lemma smf_client_safe_witness :
  exists sc', call sc_5k (Free (smf_id smf_5k)) = Ok sc'.
Proof.
  destruct (smf_client_safe mmap_above mmap_above_apart sc_5k reachable_5k)
    as (_ & _ & _ & _ & _ & _ & H).
  apply H. exists smf_5k. split; [exact smf_5k_live|reflexivity].
Defined.

(** C38: [smf_alloc] of a size that is, with a page more, not above 4 GiB fails only if no
    free range holds the size rounded up to pages, and then changes nothing but counters.
    Otherwise it hands out a range of exactly that size whose [storage] describes it: a
    free range, or the front of one, whose rest stays free behind it; and no other range,
    handed out or free, is touched. *)
Theorem smf_alloc_correct mmap (Hmmap : mmap_apart mmap) sc size
    (Hr : reachable mmap sc) (Hs : 0 < size) (Hlt : size + sc_pagesize sc <= 2 ^ 32) :
  (exists sc', smf_alloc_ sc size = Ok (sc', None) /\ sc_order sc' = sc_order sc /\
     forall n, n ∈ sc_order sc -> smf_alloc n = 0 -> smf_size n < rounded sc size) \/
  exists sc' n, smf_alloc_ sc size = Ok (sc', Some (smf_id n)) /\
    size <= smf_size n < size + sc_pagesize sc /\
    handed_out sc sc' n (rounded sc size).
Proof.
  pose proof (reachable_inv mmap Hmmap sc Hr) as Hi.
  pose proof (rounded_bounds sc size (i_pages _ Hi)).
  destruct (smf_alloc_spec sc size Hi Hs Hlt) as [(sc' & E & _ & H1)|(sc' & n & E & _ & H1)].
  - left. by exists sc'.
  - right. exists sc', n. split_and!; [done| | |done];
    destruct (handed_out_account _ _ _ _ H1) as (? & ? & _ & _ & -> & _); lia.
Qed.

Lemma smf_alloc_correct_witness :
  exists sc' n, smf_alloc_ sc_5k 70000 = Ok (sc', Some (smf_id n)) /\
    70000 <= smf_size n < 70000 + 4096 /\ handed_out sc_5k sc' n (rounded sc_5k 70000).
Proof.
  destruct (smf_alloc_correct mmap_above mmap_above_apart sc_5k 70000 reachable_5k)
    as [(sc' & E & _)|(sc' & n & E & H & Ho)]; [lia|by vm_compute| |].
  - vm_compute in E. discriminate E.
  - exists sc', n. split; [exact E|split; [exact H|exact Ho]].
Defined.

(** [smf_free] of what [smf_alloc] has just handed out returns, and leaves
    the same ranges handed out and the same free space as before. *)
Theorem smf_alloc_free mmap (Hmmap : mmap_apart mmap) sc size sc1 i
    (Hr : reachable mmap sc) (Hs : 0 < size) (Hlt : size + sc_pagesize sc <= 2 ^ 32)
    (Ha : smf_alloc_ sc size = Ok (sc1, Some i)) :
  exists sc2, smf_free sc1 i = Ok sc2 /\ live (sc_order sc2) = live (sc_order sc) /\
    room (sc_order sc2) = room (sc_order sc) /\
    g_bytes (sc_stats sc2) = g_bytes (sc_stats sc).
Proof.
  pose proof (reachable_inv mmap Hmmap sc Hr) as Hi.
  destruct (smf_alloc_spec sc size Hi Hs Hlt)
    as [(sc' & E & _)|(sc' & n & E & Hi1 & (v1 & v2 & L0 & L1 & Hn & _ & R1)%handed_out_account)];
    rewrite E in Ha; [done|]. injection Ha as -> <-.
  destruct (smf_free_spec sc1 n Hi1) as (sc2 & E2 & Hi2 & (w1 & w2 & M0 & M1 & R2));
    [rewrite L1; set_solver|].
  assert (Hlv : live (sc_order sc2) = live (sc_order sc)).
  { rewrite L0, M1. rewrite L1 in M0.
    assert (Hnd := l_nodup _ _ (c_linked _ (i_core _ Hi1))).
    apply (live_split_uniq _ _ _ _ _ _ Hnd L1). by rewrite L1. }
  exists sc2. split_and!; [done|done|lia|].
  by rewrite (i_bytes _ Hi2), (i_bytes _ Hi), Hlv.
Qed.

Lemma smf_alloc_free_witness :
  exists sc2, smf_free sc_5k (smf_id smf_5k) = Ok sc2 /\
    live (sc_order sc2) = [] /\ room (sc_order sc2) = 2 ^ 20.
Proof.
  destruct (smf_alloc_free mmap_above mmap_above_apart sc_1m 5000 sc_5k (smf_id smf_5k)
    reachable_1m) as (sc2 & E & L & R & _); [lia|by vm_compute|by vm_compute|].
  exists sc2. split; [exact E|]. split; [rewrite L; by vm_compute|rewrite R; by vm_compute].
Defined.

(** [smf_trim] of a range that is handed out keeps its first pages, as
    many as hold the new size, at the same address and offset, and gives the
    other pages back; the other ranges handed out are not touched. *)
Theorem smf_trim_correct mmap (Hmmap : mmap_apart mmap) sc n size
    (Hr : reachable mmap sc) (Hn : n ∈ live (sc_order sc)) (Hs : 0 < size <= smf_size n) :
  exists sc', smf_trim sc (smf_id n) size = Ok sc' /\
    trimmed sc sc' n (rounded sc size) /\
    g_bytes (sc_stats sc') = u64 (g_bytes (sc_stats sc) - (smf_size n - rounded sc size)).
Proof.
  pose proof (reachable_inv mmap Hmmap sc Hr) as Hi.
  destruct (smf_trim_spec sc n size Hi Hn Hs) as (sc' & E & Hi' & Ht).
  exists sc'. split_and!; [done|done|].
  destruct Ht as (v1 & n' & v2 & L0 & L1 & _ & _ & _ & Hs' & _).
  rewrite (i_bytes _ Hi'), (i_bytes _ Hi), L0, L1, !sum_by_mid, u64_sub, Hs'.
  f_equal. lia.
Qed.

Lemma smf_trim_correct_witness :
  exists sc', smf_trim sc_5k (smf_id smf_5k) 100 = Ok sc' /\
    g_bytes (sc_stats sc') = 4096.
Proof.
  destruct (smf_trim_correct mmap_above mmap_above_apart sc_5k smf_5k 100 reachable_5k)
    as (sc' & E & _ & G).
  - exact smf_5k_live.
  - vm_compute. done.
  - exists sc'. split; [exact E|]. rewrite G. by vm_compute.
Defined.

(** [smf_open] returns for every page size that is a power of two and
    every file of at least two pages, whichever of its [mmap] calls fail: the
    recursion of [smf_open_chunk] ends, and no assertion fails.  If it does not
    exit, everything is free, at least [MINPAGES] system pages are mapped and
    no more than the file has. *)
Theorem smf_open_total mmap (Hmmap : mmap_apart mmap) fuel page_size filesize syspage
    (Hcf : config fuel page_size filesize) :
  exists r, smf_open mmap fuel (smf_init_sc page_size filesize) syspage = Ok r /\
  match r with
  | None => True
  | Some sc => inv sc /\ live (sc_order sc) = [] /\
      MINPAGES * syspage <= room (sc_order sc) <= filesize
  end.
Proof.
  destruct (smf_open_spec mmap Hmmap fuel page_size filesize syspage Hcf) as (r & E & Hr).
  exists r. split; [done|]. destruct r; naive_solver.
Qed.

Lemma smf_open_total_witness :
  exists r, smf_open mmap_above 10 (smf_init_sc 4096 (2 ^ 20)) 4096 = Ok r.
Proof.
  destruct (smf_open_total mmap_above mmap_above_apart 10 4096 (2 ^ 20) 4096 config_1m)
    as (r & E & _). exists r. exact E.
Defined.

(** The mask that rounds a size to pages is 32 bits wide, so that
    [smf_alloc] of 4 GiB or more, when it succeeds, hands out less than 4 GiB:
    the range is smaller than what was asked for. *)
Theorem smf_alloc_short sc size sc' i n
    (Hs : 2 ^ 32 <= size) (Ha : smf_alloc_ sc size = Ok (sc', Some i))
    (Hn : node sc' i = Ok n) :
  st_space (smf_s n) < size /\ smf_size n < size.
Proof.
  pose proof (round_pages_lt sc size) as Hlt. unfold smf_alloc_ in Ha.
  apply bind_Ok in Ha as (_ & _ & Ha). cbv zeta in Ha.
  apply bind_Ok in Ha as (sc1 & _ & Ha).
  apply bind_Ok in Ha as ([sc2 [m|]] & _ & Ha);
    apply bind_Ok in Ha as (sc3 & _ & Ha); [|done].
  apply bind_Ok in Ha as (? & Hm & Ha). apply vassert_Ok in Hm.
  injection Ha as <- <-. apply deref_Ok in Hn. apply find_put in Hn; [|done].
  rewrite Hn. simpl. lia.
Qed.

Lemma smf_alloc_short_witness :
  exists sc' n, smf_alloc_ sc_1m (2 ^ 32 + 100) = Ok (sc', Some (smf_id n)) /\
    smf_size n = 4096 /\ st_space (smf_s n) < 2 ^ 32 + 100.
Proof.
  destruct (smf_alloc_ sc_1m (2 ^ 32 + 100)) as [[sc' [i|]]|] eqn:E;
    [|vm_compute in E; discriminate E..].
  destruct (node sc' i) as [n|] eqn:En.
  - exists sc', n. pose proof (smf_alloc_short sc_1m (2 ^ 32 + 100) sc' i n ltac:(lia) E En)
      as [H _].
    vm_compute in E. injection E as <- <-. vm_compute in En. injection En as <-.
    split; [reflexivity|]. split; [reflexivity|exact H].
  - exfalso. vm_compute in E. injection E as <- <-. discriminate En.
Defined.

End SmfThm.
