(* ===== verification/Argv.v ===== *)
(** Command lines: [lib/libvarnish/argv.c].

    A string is the list of its octets with the NUL at the end, and a pointer into
    it an index; reading past the NUL is a fault.  [char] is taken as an octet.
    The vector that grows is a list; the allocations succeed. *)
From S2P Require Import Prelude.

Module Argv.

(** ** The C library *)

Definition isspace (c : Z) : bool := ((9 <=? c) && (c <=? 13)) || (c =? 32).
Definition isdigit (c : Z) : bool := (48 <=? c) && (c <=? 57).

Definition hexval (c : Z) : option Z :=
  if (48 <=? c) && (c <=? 57) then Some (c - 48)
  else if (97 <=? c) && (c <=? 102) then Some (c - 87)
  else if (65 <=? c) && (c <=? 70) then Some (c - 55)
  else None.

(** [while (isspace( *p)) p++;] *)
Fixpoint skip_space (fuel : nat) (m : list Z) (p : Z) : res Z :=
  c ← rd m p;
  if isspace c then
    match fuel with O => Fail FFuel | S fuel => skip_space fuel m (p + 1) end
  else mret p.

(** [sscanf] with [%02x] from [p] on: blanks are skipped; then at most two
    characters, a sign or hex digits; [0x] alone does not match. *)
Definition scan_02x (m : list Z) (p : Z) : res (option Z) :=
  p ← skip_space (length m) m p;
  c1 ← rd m p;
  if (c1 =? 43) || (c1 =? 45) then
    c2 ← rd m (p + 1);
    mret (v ← hexval c2; Some (if c1 =? 45 then u32 (- v) else v))
  else
    match hexval c1 with
    | None => mret None
    | Some v1 =>
        c2 ← rd m (p + 1);
        if (v1 =? 0) && ((c2 =? 120) || (c2 =? 88)) then mret None
        else mret (Some (match hexval c2 with Some v2 => v1 * 16 + v2 | None => v1 end))
    end.

(** ** Backslash sequences *)

(** The octal digits from [s + r] on; [n] may still come. *)
Fixpoint octal_loop (m : list Z) (s r c : Z) (n : nat) : res (Z * Z) :=
  match n with
  | O => mret (r, c)
  | S n =>
      x ← rd m (s + r);
      if negb (isdigit x) then mret (r, c)
      else if 7 <? x - 48 then mret (r, c)
      else octal_loop m s (r + 1) (u8 (Z.lor (Z.shiftl c 3) (x - 48))) n
  end.

(** How long the sequence at [s] is, 0 if it is none, and the octet it stands for. *)
Definition VAV_BackSlash (m : list Z) (s : Z) : res (Z * Z) :=
  b ← rd m s;
  vassert (b =? 92);;
  x ← rd m (s + 1);
  if x =? 110 then mret (2, 10)
  else if x =? 114 then mret (2, 13)
  else if x =? 116 then mret (2, 9)
  else if x =? 34 then mret (2, 34)
  else if x =? 92 then mret (2, 92)
  else if (48 <=? x) && (x <=? 55) then octal_loop m s 1 0 3
  else if x =? 120 then
    u ← scan_02x m (s + 2);
    match u with
    | Some u => vassert (Z.land u (Z.lnot 0xff) =? 0);; mret (4, u)
    | None => mret (0, 0)
    end
  else mret (0, 0).

(** The loop of [VAV_BackSlashDecode] from [q] to [e]; [r] octets were written,
    and [cap] are allocated. *)
Fixpoint decode_loop (fuel : nat) (m : list Z) (e cap q : Z) (r : list Z) : res (list Z) :=
  if e <=? q then
    if Z.of_nat (length r) <? cap then mret r else Fail FMemory
  else
    match fuel with
    | O => Fail FFuel
    | S fuel =>
        c ← rd m q;
        if negb (Z.of_nat (length r) <? cap) then Fail FMemory else
        if negb (c =? 92) then decode_loop fuel m e cap (q + 1) (r ++ [c])
        else
          '(i, c) ← VAV_BackSlash m q;
          decode_loop fuel m e cap (q + i) (r ++ [c])
    end.

(** The octets from [s] to [e], decoded. *)
Definition VAV_BackSlashDecode (m : list Z) (s e : Z) : res (list Z) :=
  decode_loop (S (S (length m))) m e (e - s + 1) s [].

(** ** Parsing *)

Definition ARGV_COMMENT : Z := Z.shiftl 1 0.
Definition ARGV_COMMA : Z := Z.shiftl 1 1.
Definition ARGV_NOESC : Z := Z.shiftl 1 2.

Inductive vav_err := err_invalid_backslash | err_missing_quote.

Definition has (flag f : Z) : bool := truth (Z.land flag f).

(** The inner loop: where the word that goes on at [s] ends. *)
Fixpoint word_loop (fuel : nat) (m : list Z) (flag : Z) (quote : bool) (s : Z)
  : res (vav_err + Z) :=
  match fuel with
  | O => Fail FFuel
  | S fuel =>
      c ← rd m s;
      if (c =? 92) && negb (has flag ARGV_NOESC) then
        '(i, _) ← VAV_BackSlash m s;
        if i =? 0 then mret (inl err_invalid_backslash)
        else word_loop fuel m flag quote (s + i)
      else if negb quote then
        if (c =? 0) || isspace c then mret (inr s)
        else if has flag ARGV_COMMA && (c =? 44) then mret (inr s)
        else word_loop fuel m flag quote (s + 1)
      else if (c =? 34) && negb (has flag ARGV_NOESC) then mret (inr s)
      else if c =? 0 then mret (inl err_missing_quote)
      else word_loop fuel m flag quote (s + 1)
  end.

(** The octets from [p] to [s]. *)
Definition slice (m : list Z) (p s : Z) : list Z := take (Z.to_nat (s - p)) (drop (Z.to_nat p) m).

(** [argv] is what was found so far; the result is [argv\[0\]] and the rest. *)
Fixpoint parse_loop (fuel : nat) (m : list Z) (flag : Z) (s : Z) (argv : list (list Z))
  : res (option vav_err * list (list Z)) :=
  match fuel with
  | O => Fail FFuel
  | S fuel =>
      c ← rd m s;
      if c =? 0 then mret (None, argv)
      else if isspace c then parse_loop fuel m flag (s + 1) argv
      else if has flag ARGV_COMMENT && (c =? 35) then mret (None, argv)
      else
        let quote := (c =? 34) && negb (has flag ARGV_NOESC) in
        let p := if quote then s + 1 else s in
        w ← word_loop (S (length m)) m flag quote p;
        match w with
        | inl err => mret (Some err, argv)
        | inr s =>
            a ← (if has flag ARGV_NOESC then mret (slice m p s) else VAV_BackSlashDecode m p s);
            c ← rd m s;
            parse_loop fuel m flag (if c =? 0 then s else s + 1) (argv ++ [a])
        end
  end.

Definition VAV_Parse (m : list Z) (flag : Z) : res (option vav_err * list (list Z)) :=
  parse_loop (S (length m)) m flag 0 [].

Example ex_parse :
  VAV_Parse [97; 98; 32; 34; 99; 92; 34; 100; 34; 0] 0 = Ok (None, [[97; 98]; [99; 34; 100]]).
Proof. by vm_compute. Qed.

End Argv.
