(* ===== verification/ArgvThm.v ===== *)
(** Command lines: the decoder follows the parser over any string whose [\x]
    sequences are complete, and the parser reads back every line written with the
    documented quoting. *)
From S2P Require Import Prelude Argv.

Module ArgvThm.
Import Argv.

(** ** Reading strings *)

(** [m] ends with its only NUL. *)
Definition cstr (m : list Z) : Prop := exists l, m = l ++ [0] /\ Forall (fun c => 0 < c < 256) l.

Definition strlen (m : list Z) : Z := Z.of_nat (length m) - 1.

Lemma cstr_rd m p : cstr m -> 0 <= p <= strlen m -> exists c, rd m p = Ok c.
Proof.
  intros (l & -> & _) Hp. unfold strlen in Hp. rewrite length_app in Hp. cbn in Hp.
  destruct (lookup_lt_is_Some_2 (l ++ [0]) (Z.to_nat p)) as [c Hc].
  { rewrite length_app. cbn. lia. }
  exists c. apply rd_Ok. split; [lia|done].
Qed.

Lemma cstr_in m p c : cstr m -> rd m p = Ok c -> c <> 0 -> 0 <= p < strlen m.
Proof.
  intros (l & -> & _) (Hp & Hc)%rd_Ok H0. unfold strlen. rewrite length_app. cbn.
  split; [done|]. destruct (decide (p < Z.of_nat (length l))); [lia|]. exfalso.
  rewrite lookup_app_r in Hc by lia.
  destruct (Z.to_nat p - length l)%nat as [|k]; cbn in Hc; [congruence|].
  by destruct k.
Qed.

Lemma cstr_byte m p c : cstr m -> rd m p = Ok c -> 0 <= c < 256.
Proof.
  intros (l & -> & Hl) (Hp & Hc)%rd_Ok.
  apply lookup_app_Some in Hc as [Hc|[_ Hc]].
  - rewrite Forall_lookup in Hl. specialize (Hl _ _ Hc). cbn in Hl. lia.
  - apply list_lookup_singleton_Some in Hc as [_ <-]. lia.
Qed.

(** Every [\x] is followed by two hex digits, the only form that is four
    octets long, as [VAV_BackSlash] takes it to be. *)
Definition is_hex (c : Z) : bool := if hexval c then true else false.

Fixpoint hex_ok (m : list Z) : bool :=
  match m with
  | [] => true
  | c :: m =>
      (negb ((c =? 92) && (nth 0 m 0 =? 120)) || is_hex (nth 1 m 0) && is_hex (nth 2 m 0))
        && hex_ok m
  end.

Lemma hex_ok_cons c m : hex_ok (c :: m) = true -> hex_ok m = true.
Proof. cbn [hex_ok]. by intros [_ H]%andb_true_iff. Qed.

Lemma hex_ok_drop n m : hex_ok m = true -> hex_ok (drop n m) = true.
Proof.
  revert m. induction n as [|n IH]; intros [|c m] H; try done. cbn [drop].
  apply IH. by eapply hex_ok_cons.
Qed.

Lemma drop_rd m p c : rd m p = Ok c -> drop (Z.to_nat p) m = c :: drop (Z.to_nat (p + 1)) m.
Proof.
  intros (Hp & Hc)%rd_Ok. rewrite Z2Nat.inj_add by lia. rewrite Nat.add_1_r. by apply drop_S.
Qed.

Lemma nth_rd m p : 0 <= p -> nth 0 (drop (Z.to_nat p) m) 0 <> 0 ->
  rd m p = Ok (nth 0 (drop (Z.to_nat p) m) 0).
Proof.
  intros Hp Hn. destruct (drop (Z.to_nat p) m) as [|c l] eqn:E; [done|]. apply rd_Ok.
  split; [done|]. by rewrite <- (Nat.add_0_r (Z.to_nat p)), <- lookup_drop, E.
Qed.

Lemma is_hex_nonzero c : is_hex c = true -> c <> 0.
Proof. by intros H ->. Qed.

Lemma hex_ok_at m p : hex_ok m = true -> rd m p = Ok 92 -> rd m (p + 1) = Ok 120 ->
  exists h l, rd m (p + 2) = Ok h /\ rd m (p + 3) = Ok l /\ is_hex h = true /\ is_hex l = true.
Proof.
  intros Hm H1 H2. apply (hex_ok_drop (Z.to_nat p)) in Hm.
  rewrite (drop_rd _ _ _ H1), (drop_rd _ _ _ H2) in Hm.
  replace (p + 1 + 1) with (p + 2) in Hm by lia.
  assert (Hp : 0 <= p) by by apply rd_Ok in H1 as [? _].
  cbn [hex_ok nth] in Hm. apply andb_true_iff in Hm as [[Dh Dl]%andb_true_iff _].
  pose proof (nth_rd m (p + 2) ltac:(lia) (is_hex_nonzero _ Dh)) as Hh.
  pose proof (drop_rd _ _ _ Hh) as Ed. replace (p + 2 + 1) with (p + 3) in Ed by lia.
  rewrite Ed in Dl. cbn [nth] in Dl.
  pose proof (nth_rd m (p + 3) ltac:(lia) (is_hex_nonzero _ Dl)) as Hl.
  eauto 6.
Qed.

(** ** Hex digits *)

Lemma hexval_range c v : hexval c = Some v -> 0 <= v < 16 /\ (48 <= c <= 57 \/ 97 <= c <= 102 \/ 65 <= c <= 70).
Proof. unfold hexval. repeat case_match; intros [= <-]; rewrite ?andb_true_iff, ?Z.leb_le in *; lia. Qed.

Lemma scan_02x_digits m p h l vh vl :
  rd m p = Ok h -> rd m (p + 1) = Ok l -> hexval h = Some vh -> hexval l = Some vl ->
  scan_02x m p = Ok (Some (vh * 16 + vl)).
Proof.
  intros Hh Hl Eh El.
  pose proof (hexval_range _ _ Eh) as (_ & Rh). pose proof (hexval_range _ _ El) as (_ & Rl).
  assert (Es : skip_space (length m) m p = Ok p).
  { destruct (length m); cbn [skip_space]; rewrite Hh, bind_Ret; unfold isspace.
    all: replace ((9 <=? h) && (h <=? 13) || (h =? 32)) with false by lia; done. }
  unfold scan_02x. rewrite Es, bind_Ret, Hh, bind_Ret.
  replace ((h =? 43) || (h =? 45)) with false by lia. rewrite Eh, Hl, bind_Ret, El.
  by replace ((vh =? 0) && ((l =? 120) || (l =? 88))) with false by lia.
Qed.

Lemma land_octet u : 0 <= u < 256 -> (Z.land u (Z.lnot 0xff) =? 0) = true.
Proof.
  intros Hu. change 0xff with (2 ^ 8 - 1). rewrite land_lnot_mask by lia.
  rewrite Z.mod_small by lia. apply Z.eqb_eq. lia.
Qed.

(** ** The sequences of a string *)

(** The unit at [p]: [i] octets that stand for [c]. *)
Inductive unit_at (m : list Z) (p : Z) : Z -> Z -> Prop :=
  | unit_lit c : rd m p = Ok c -> c <> 92 -> unit_at m p 1 c
  | unit_esc i c : rd m p = Ok 92 -> VAV_BackSlash m p = Ok (i, c) -> 0 < i -> unit_at m p i c.

(** From [p] to [q] by units, which stand for [l]. *)
Inductive walk (m : list Z) : Z -> Z -> list Z -> Prop :=
  | walk_nil p : walk m p p []
  | walk_cons p i c q l : unit_at m p i c -> walk m (p + i) q l -> walk m p q (c :: l).

Lemma unit_pos m p i c : unit_at m p i c -> 0 < i.
Proof. destruct 1; lia. Qed.

Lemma walk_le m p q l : walk m p q l -> p + Z.of_nat (length l) <= q.
Proof. induction 1 as [|p i c q l H%unit_pos]; cbn [length]; lia. Qed.

Lemma walk_app m p q r l1 l2 : walk m p q l1 -> walk m q r l2 -> walk m p r (l1 ++ l2).
Proof. induction 1; intros; [done|]. cbn. econstructor; [done|]. auto. Qed.

Lemma decode_walk m q e l : walk m q e l -> forall fuel cap r,
  (length l <= fuel)%nat -> Z.of_nat (length r + length l) < cap ->
  decode_loop fuel m e cap q r = Ok (r ++ l).
Proof.
  induction 1 as [p|p i c q l Hu Hw IH]; intros fuel cap r Hf Hc.
  - destruct fuel; cbn [decode_loop].
    all: rewrite (proj2 (Z.leb_le p p)) by lia; rewrite app_nil_r; cbn [length] in Hc;
      by replace (Z.of_nat (length r) <? cap) with true by lia.
  - pose proof (unit_pos _ _ _ _ Hu) as Hi. pose proof (walk_le _ _ _ _ Hw) as Hle.
    destruct fuel as [|fuel]; [cbn in Hf; lia|]. cbn [decode_loop length] in *.
    replace (q <=? p) with false by lia.
    assert (Hnext : forall c', c' = c ->
      decode_loop fuel m q cap (p + i) (r ++ [c']) = Ok (r ++ c :: l)).
    { intros c' ->. rewrite IH; [by rewrite <- app_assoc|lia|]. rewrite length_app. cbn. lia. }
    inversion Hu as [c' Hc' Hne Ei Ec|i' c' Hc' Hb _ Ei Ec]; subst; rewrite Hc', bind_Ret.
    all: replace (Z.of_nat (length r) <? cap) with true by lia; cbn [negb].
    + replace (c =? 92) with false by lia. cbn [negb]. by apply Hnext.
    + change (92 =? 92) with true. cbn [negb]. rewrite Hb, bind_Ret. by apply Hnext.
Qed.

Lemma decode_ok m p e l : 0 <= p -> e <= Z.of_nat (length m) -> walk m p e l ->
  VAV_BackSlashDecode m p e = Ok l.
Proof.
  intros Hp He Hw. pose proof (walk_le _ _ _ _ Hw). unfold VAV_BackSlashDecode.
  rewrite (decode_walk _ _ _ _ Hw); [done|lia|cbn [length]; lia].
Qed.

(** ** Safety *)

Lemma octal_loop_ok m s n : forall r c, cstr m -> 0 <= s -> 0 <= r -> s + r <= strlen m ->
  exists r' c', octal_loop m s r c n = Ok (r', c') /\ r <= r' /\ s + r' <= strlen m.
Proof.
  induction n as [|n IH]; intros r c Hm Hs Hr Hle; cbn [octal_loop]; [by exists r, c|].
  destruct (cstr_rd m (s + r) Hm ltac:(lia)) as [x Hx]. rewrite Hx, bind_Ret.
  destruct (isdigit x) eqn:Ed; cbn [negb]; [|by exists r, c].
  destruct (7 <? x - 48); [by exists r, c|].
  assert (Hn : x <> 0) by (unfold isdigit in Ed; lia).
  pose proof (cstr_in _ _ _ Hm Hx Hn).
  destruct (IH (r + 1) (u8 (Z.lor (Z.shiftl c 3) (x - 48))) Hm Hs ltac:(lia) ltac:(lia))
    as (r' & c' & E & H1 & H2).
  exists r', c'. split; [done|lia].
Qed.

Lemma backslash_ok m p : cstr m -> hex_ok m = true -> rd m p = Ok 92 ->
  exists i c, VAV_BackSlash m p = Ok (i, c) /\ 0 <= i /\ p + i <= strlen m.
Proof.
  intros Hm Hx Hp. pose proof (cstr_in _ _ _ Hm Hp ltac:(done)) as Hin.
  destruct (cstr_rd m (p + 1) Hm ltac:(lia)) as [x Hx1].
  unfold VAV_BackSlash. rewrite Hp, bind_Ret. change (92 =? 92) with true. cbn [vassert].
  rewrite bind_Ret, Hx1, bind_Ret.
  assert (Htwo : x <> 0 -> p + 2 <= strlen m).
  { intros H0. pose proof (cstr_in _ _ _ Hm Hx1 H0). lia. }
  destruct (Z.eqb_spec x 110); [eexists 2, _; split; [done|]; lia|].
  destruct (Z.eqb_spec x 114); [eexists 2, _; split; [done|]; lia|].
  destruct (Z.eqb_spec x 116); [eexists 2, _; split; [done|]; lia|].
  destruct (Z.eqb_spec x 34); [eexists 2, _; split; [done|]; lia|].
  destruct (Z.eqb_spec x 92); [eexists 2, _; split; [done|]; lia|].
  destruct ((48 <=? x) && (x <=? 55)) eqn:Eo.
  { destruct (octal_loop_ok m p 3 1 0 Hm ltac:(lia) ltac:(lia) ltac:(lia)) as (i & c & E & ? & ?).
    exists i, c. split; [done|lia]. }
  destruct (Z.eqb_spec x 120) as [->|]; [|eexists 0, _; split; [done|]; lia].
  destruct (hex_ok_at m p Hx Hp Hx1) as (h & l & Hh & Hl & Dh & Dl).
  unfold is_hex in Dh, Dl. destruct (hexval h) as [vh|] eqn:Eh; [|done].
  destruct (hexval l) as [vl|] eqn:El; [|done].
  replace (p + 3) with (p + 2 + 1) in Hl by lia.
  rewrite (scan_02x_digits m (p + 2) h l vh vl Hh Hl Eh El), bind_Ret.
  pose proof (hexval_range _ _ Eh). pose proof (hexval_range _ _ El) as [? Rl].
  rewrite land_octet by lia. cbn [vassert]. rewrite bind_Ret.
  pose proof (cstr_in _ _ _ Hm Hl ltac:(lia)).
  eexists 4, _. split; [done|]. lia.
Qed.

(** Where the word at [s] may end. *)
Definition word_end (m : list Z) (flag s : Z) (w : vav_err + Z) : Prop :=
  match w with
  | inl _ => True
  | inr e => s <= e <= strlen m /\ (has flag ARGV_NOESC = false -> exists l, walk m s e l) /\
      (e = s -> exists c, rd m e = Ok c /\
        (c = 0 \/ isspace c = true \/ has flag ARGV_COMMA && (c =? 44) = true \/
         has flag ARGV_NOESC = false /\ c = 34))
  end.

Lemma word_end_step m flag s i c w : has flag ARGV_NOESC = true \/ unit_at m s i c -> 0 < i ->
  word_end m flag (s + i) w -> word_end m flag s w.
Proof.
  intros Hu Hi. destruct w as [|e]; [done|]. cbn. intros (He & Hw & _).
  split; [lia|]. split; [|lia]. intros Hno. destruct Hu as [Hu|Hu]; [congruence|].
  destruct (Hw Hno) as [l Hl]. exists (c :: l). by econstructor.
Qed.

Lemma word_loop_ok m flag quote : cstr m -> (has flag ARGV_NOESC = true \/ hex_ok m = true) ->
  forall fuel s, 0 <= s <= strlen m -> (Z.to_nat (strlen m - s) < fuel)%nat ->
  exists w, word_loop fuel m flag quote s = Ok w /\ word_end m flag s w.
Proof.
  intros Hm Hx. induction fuel as [|fuel IH]; intros s Hs Hf; [lia|]. cbn [word_loop].
  destruct (cstr_rd m s Hm Hs) as [c Hc]. rewrite Hc, bind_Ret.
  assert (Hstop : c = 0 \/ isspace c = true \/ has flag ARGV_COMMA && (c =? 44) = true \/
         has flag ARGV_NOESC = false /\ c = 34 -> word_end m flag s (inr s)).
  { intros H. cbn. split; [lia|]. split; [intros _; exists []; constructor|eauto]. }
  assert (Hstep : forall i, 0 < i -> s + i <= strlen m ->
    (has flag ARGV_NOESC = true \/ exists c, unit_at m s i c) ->
    exists w, word_loop fuel m flag quote (s + i) = Ok w /\ word_end m flag s w).
  { intros i Hi Hle Hu. destruct (IH (s + i) ltac:(lia) ltac:(lia)) as (w & E & Hw).
    exists w. split; [done|]. destruct Hu as [Hu|[c' Hu]].
    - eapply (word_end_step m flag s i 0); [by left|done|done].
    - eapply (word_end_step m flag s i c'); [by right|done|done]. }
  destruct ((c =? 92) && negb (has flag ARGV_NOESC)) eqn:Eb.
  - apply andb_true_iff in Eb as [->%Z.eqb_eq Hno%negb_true_iff].
    destruct Hx as [Hx|Hx]; [congruence|].
    destruct (backslash_ok m s Hm Hx Hc) as (i & v & E & Hi & Hle). rewrite E, bind_Ret.
    destruct (Z.eqb_spec i 0); [by eexists|]. apply Hstep; [lia|done|].
    right. exists v. apply unit_esc; [done|done|lia].
  - assert (Hlit : c <> 0 ->
      exists w, word_loop fuel m flag quote (s + 1) = Ok w /\ word_end m flag s w).
    { intros H0. pose proof (cstr_in _ _ _ Hm Hc H0). apply Hstep; [lia|lia|].
      destruct (has flag ARGV_NOESC) eqn:Hno; [by left|right]. exists c. apply unit_lit; [done|lia]. }
    destruct quote; cbn [negb].
    + destruct ((c =? 34) && negb (has flag ARGV_NOESC)) eqn:Eq.
      { apply andb_true_iff in Eq as [E1%Z.eqb_eq E2%negb_true_iff].
        eexists. split; [done|]. apply Hstop. tauto. }
      destruct (Z.eqb_spec c 0); [by eexists|]. by apply Hlit.
    + destruct ((c =? 0) || isspace c) eqn:Es.
      { apply orb_true_iff in Es as [E1%Z.eqb_eq|E1]; eexists; (split; [done|]); apply Hstop; tauto. }
      destruct (has flag ARGV_COMMA && (c =? 44)) eqn:Ec.
      { eexists. split; [done|]. apply Hstop. tauto. }
      apply Hlit. apply orb_false_iff in Es as [?%Z.eqb_neq _]. done.
Qed.

(** ** The whole line *)

Lemma parse_loop_ok m flag : cstr m -> (has flag ARGV_NOESC = true \/ hex_ok m = true) ->
  forall fuel s argv, 0 <= s <= strlen m -> (Z.to_nat (strlen m - s) < fuel)%nat ->
  exists err args, parse_loop fuel m flag s argv = Ok (err, argv ++ args) /\
    Z.of_nat (length args) <= strlen m - s /\
    Forall (fun a => Z.of_nat (length a) <= strlen m) args.
Proof.
  intros Hm Hx. induction fuel as [|fuel IH]; intros s argv Hs Hf; [lia|]. cbn [parse_loop].
  destruct (cstr_rd m s Hm Hs) as [c Hc]. rewrite Hc, bind_Ret.
  assert (Hend : forall err : option vav_err, exists err' args, Ok (err, argv) = Ok (err', argv ++ args) /\
    Z.of_nat (length args) <= strlen m - s /\ Forall (fun a => Z.of_nat (length a) <= strlen m) args).
  { intros err. exists err, []. rewrite app_nil_r. cbn. split; [done|]. split; [lia|done]. }
  destruct (Z.eqb_spec c 0); [apply Hend|].
  pose proof (cstr_in _ _ _ Hm Hc ltac:(done)) as Hin.
  destruct (isspace c) eqn:Es.
  { destruct (IH (s + 1) argv ltac:(lia) ltac:(lia)) as (err & args & E & Hn & Ha).
    exists err, args. split; [done|]. split; [lia|done]. }
  destruct (has flag ARGV_COMMENT && (c =? 35)); [apply Hend|].
  set (quote := (c =? 34) && negb (has flag ARGV_NOESC)).
  set (p := if quote then s + 1 else s).
  assert (Hp : s <= p <= strlen m) by (unfold p; destruct quote; lia).
  destruct (word_loop_ok m flag quote Hm Hx (S (length m)) p ltac:(lia) ltac:(unfold strlen; lia))
    as ([err|e] & Ew & Hw); rewrite Ew, bind_Ret; [apply Hend|].
  destruct Hw as (He & Hwalk & Hsame).
  assert (exists a, (if has flag ARGV_NOESC then mret (slice m p e) else VAV_BackSlashDecode m p e) = Ok a
    /\ Z.of_nat (length a) <= strlen m) as (a & Ea & Hla).
  { destruct (has flag ARGV_NOESC) eqn:Hno.
    - eexists. split; [done|]. unfold slice. rewrite length_take. lia.
    - destruct (Hwalk eq_refl) as [l Hl]. exists l. pose proof (walk_le _ _ _ _ Hl).
      split; [|lia]. apply decode_ok; [lia|unfold strlen in He; lia|done]. }
  rewrite Ea, bind_Ret. destruct (cstr_rd m e Hm ltac:(lia)) as [c' Hc']. rewrite Hc', bind_Ret.
  set (s' := if c' =? 0 then e else e + 1).
  assert (Hs' : s < s' <= strlen m).
  { unfold s'. destruct (Z.eqb_spec c' 0) as [->|Hn].
    - split; [|lia]. destruct (decide (e = s)) as [->|]; [|lia]. congruence.
    - pose proof (cstr_in _ _ _ Hm Hc' Hn). lia. }
  destruct (IH s' (argv ++ [a]) ltac:(lia) ltac:(lia)) as (err & args & E & Hn & Ha).
  exists err, (a :: args). rewrite E, <- app_assoc. split; [done|].
  cbn [length]. split; [lia|by constructor].
Qed.

(** Safety and termination: for every string whose backslash-x sequences have
    their two hex digits (or with [ARGV_NOESC] for every string at all),
    [VAV_Parse] ends, no assertion fails, nothing outside the string is read and
    nothing is written past the end of an argument; the arguments are not more,
    and none is longer, than the string. *)
Theorem argv_parse_safe (m : list Z) (flag : Z)
  (Hm : cstr m) (Hx : has flag ARGV_NOESC = true \/ hex_ok m = true) :
  exists err args, VAV_Parse m flag = Ok (err, args) /\
    Z.of_nat (length args) <= strlen m /\
    Forall (fun a => Z.of_nat (length a) <= strlen m) args.
Proof.
  assert (0 <= strlen m).
  { destruct Hm as (l & -> & _). unfold strlen. rewrite length_app. cbn. lia. }
  destruct (parse_loop_ok m flag Hm Hx (S (length m)) 0 [] ltac:(lia) ltac:(unfold strlen; lia))
    as (err & args & E & Hn & Ha).
  exists err, args. split; [done|]. split; [lia|done].
Qed.

Lemma argv_parse_safe_witness :
  let m := [97; 92; 120; 52; 49; 32; 34; 98; 0] in
  exists err args, VAV_Parse m 0 = Ok (err, args) /\
    Z.of_nat (length args) <= strlen m /\
    Forall (fun a => Z.of_nat (length a) <= strlen m) args.
Proof.
  apply (argv_parse_safe [97; 92; 120; 52; 49; 32; 34; 98; 0] 0).
  - exists [97; 92; 120; 52; 49; 32; 34; 98]. split; [done|]. repeat constructor.
  - by right.
Defined.

(** ** Writing a line *)

(** An octet as it can be written in a word. *)
Inductive piece : Type :=
  | Lit (c : Z)         (* itself *)
  | Name (c : Z)        (* backslash and a letter, a quote or a backslash *)
  | Octal (c : Z)       (* three octal digits *)
  | Hex (c : Z).        (* two hex digits *)

Definition hexdigit (v : Z) : Z := if v <? 10 then 48 + v else 87 + v.

Definition escape_name (c : Z) : Z :=
  if c =? 10 then 110 else if c =? 13 then 114 else if c =? 9 then 116 else c.

Definition text (p : piece) : list Z :=
  match p with
  | Lit c => [c]
  | Name c => [92; escape_name c]
  | Octal c => [92; 48 + c / 64; 48 + (c / 8) mod 8; 48 + c mod 8]
  | Hex c => [92; 120; hexdigit (c / 16); hexdigit (c mod 16)]
  end.

Definition value (p : piece) : Z :=
  match p with Lit c => c | Name c => c | Octal c => c | Hex c => c end.

(** The octets that can stand for themselves, in quotes and outside. *)
Definition lit_ok (flag : Z) (quote : bool) (c : Z) : bool :=
  (0 <? c) && (c <? 256) && negb (c =? 92) &&
  (if quote then negb (c =? 34) else negb (isspace c) && negb (has flag ARGV_COMMA && (c =? 44))).

Definition piece_ok (flag : Z) (quote : bool) (p : piece) : bool :=
  match p with
  | Lit c => lit_ok flag quote c
  | Name c => bool_decide (c ∈ [10; 13; 9; 34; 92])
  | Octal c => (0 <=? c) && (c <? 256)
  | Hex c => (0 <=? c) && (c <? 256)
  end.

Record word := Word { w_quote : bool; w_text : list piece; w_sep : list Z }.

Definition word_text (w : word) : list Z :=
  if w_quote w then 34 :: flat_map text (w_text w) ++ [34] else flat_map text (w_text w).

(** A bare word is not empty and begins neither a quoted word nor a comment. *)
Definition starts_ok (flag : Z) (w : word) : bool :=
  w_quote w ||
  match w_text w with
  | [] => false
  | Lit c :: _ => negb (c =? 34) && negb (has flag ARGV_COMMENT && (c =? 35))
  | _ => true
  end.

(** Blanks between the words; none is needed after the last. *)
Definition word_ok (flag : Z) (last : bool) (w : word) : bool :=
  forallb (piece_ok flag (w_quote w)) (w_text w) && starts_ok flag w
  && forallb isspace (w_sep w) && (last || negb (bool_decide (w_sep w = []))).

Fixpoint words_ok (flag : Z) (ws : list word) : bool :=
  match ws with
  | [] => true
  | w :: ws => word_ok flag (bool_decide (ws = [])) w && words_ok flag ws
  end.

Fixpoint line (ws : list word) : list Z :=
  match ws with
  | [] => []
  | w :: ws => word_text w ++ w_sep w ++ line ws
  end.

(** ** Reading it back *)

(** The text from [length pre] on, octet by octet. *)
Lemma rd_text pre t post k c : t !! k = Some c ->
  rd (pre ++ t ++ post) (Z.of_nat (length pre) + Z.of_nat k) = Ok c.
Proof.
  intros Hk. apply rd_Ok. split; [lia|]. rewrite <- Nat2Z.inj_add, Nat2Z.id.
  rewrite lookup_app_r by lia. replace (_ + k - _)%nat with k by lia.
  apply lookup_app_l_Some. done.
Qed.

Lemma octal_loop_step m s r c n v : rd m (s + r) = Ok (48 + v) -> 0 <= v < 8 -> 0 <= c -> c * 8 + v < 256 ->
  octal_loop m s r c (S n) = octal_loop m s (r + 1) (c * 8 + v) n.
Proof.
  intros Hr Hv Hc Hle. cbn [octal_loop]. rewrite Hr, bind_Ret. unfold isdigit.
  replace ((48 <=? 48 + v) && (48 + v <=? 57)) with true by lia. cbn [negb].
  replace (7 <? 48 + v - 48) with false by lia.
  replace (48 + v - 48) with v by lia. rewrite lor_shiftl_add by lia.
  unfold u8. rewrite Z.mod_small by lia. done.
Qed.

Lemma backslash_octal m s c : 0 <= c < 256 -> rd m s = Ok 92 ->
  rd m (s + 1) = Ok (48 + c / 64) -> rd m (s + 2) = Ok (48 + (c / 8) mod 8) -> rd m (s + 3) = Ok (48 + c mod 8) ->
  VAV_BackSlash m s = Ok (4, c).
Proof.
  intros Hc H0 H1 H2 H3. unfold VAV_BackSlash. rewrite H0, bind_Ret. change (92 =? 92) with true.
  cbn [vassert]. rewrite bind_Ret, H1, bind_Ret.
  assert (0 <= c / 64 < 4) by (split; [apply Z.div_pos|apply Z.div_lt_upper_bound]; lia).
  pose proof (Z.mod_pos_bound (c / 8) 8). pose proof (Z.mod_pos_bound c 8).
  pose proof (Z.div_mod c 8). pose proof (Z.div_mod (c / 8) 8).
  assert (c / 8 / 8 = c / 64) by (by rewrite Z.div_div by lia).
  repeat match goal with |- context [48 + c / 64 =? ?k] =>
    replace (48 + c / 64 =? k) with false by lia end.
  replace ((48 <=? 48 + c / 64) && (48 + c / 64 <=? 55)) with true by lia.
  erewrite octal_loop_step by (done || lia). erewrite octal_loop_step by (done || lia).
  erewrite octal_loop_step by (done || lia). cbn [octal_loop]. unfold mret, res_ret. do 2 f_equal. lia.
Qed.

Lemma hexval_digit v : 0 <= v < 16 -> hexval (hexdigit v) = Some v.
Proof.
  intros Hv. unfold hexval, hexdigit. destruct (Z.ltb_spec v 10).
  - replace ((48 <=? 48 + v) && (48 + v <=? 57)) with true by lia. f_equal. lia.
  - replace ((48 <=? 87 + v) && (87 + v <=? 57)) with false by lia.
    replace ((97 <=? 87 + v) && (87 + v <=? 102)) with true by lia. f_equal. lia.
Qed.

Lemma backslash_hex m s c : 0 <= c < 256 -> rd m s = Ok 92 -> rd m (s + 1) = Ok 120 ->
  rd m (s + 2) = Ok (hexdigit (c / 16)) -> rd m (s + 3) = Ok (hexdigit (c mod 16)) ->
  VAV_BackSlash m s = Ok (4, c).
Proof.
  intros Hc H0 H1 H2 H3. unfold VAV_BackSlash. rewrite H0, bind_Ret. change (92 =? 92) with true.
  cbn [vassert]. rewrite bind_Ret, H1, bind_Ret. cbn.
  assert (0 <= c / 16 < 16) by (split; [apply Z.div_pos|apply Z.div_lt_upper_bound]; lia).
  pose proof (Z.mod_pos_bound c 16). pose proof (Z.div_mod c 16).
  replace (s + 3) with (s + 2 + 1) in H3 by lia.
  assert (E1 : hexval (hexdigit (c / 16)) = Some (c / 16)) by (apply hexval_digit; lia).
  assert (E2 : hexval (hexdigit (c mod 16)) = Some (c mod 16)) by (apply hexval_digit; lia).
  rewrite (scan_02x_digits m (s + 2) _ _ _ _ H2 H3 E1 E2).
  rewrite bind_Ret. replace (c / 16 * 16 + c mod 16) with c by lia.
  rewrite land_octet by done. done.
Qed.

Lemma backslash_name m s c : c ∈ [10; 13; 9; 34; 92] -> rd m s = Ok 92 ->
  rd m (s + 1) = Ok (escape_name c) -> VAV_BackSlash m s = Ok (2, c).
Proof.
  intros Hc H0 H1. unfold VAV_BackSlash. rewrite H0, bind_Ret. change (92 =? 92) with true.
  cbn [vassert]. rewrite bind_Ret, H1, bind_Ret.
  repeat (apply elem_of_cons in Hc as [->|Hc]; [done|]). by apply not_elem_of_nil in Hc.
Qed.

Lemma piece_unit flag quote pre p post : piece_ok flag quote p = true ->
  unit_at (pre ++ text p ++ post) (Z.of_nat (length pre)) (Z.of_nat (length (text p))) (value p).
Proof.
  intros Hok. pose proof (rd_text pre (text p) post) as Hr.
  pose proof (Hr 0%nat) as H0. pose proof (Hr 1%nat) as H1.
  pose proof (Hr 2%nat) as H2. pose proof (Hr 3%nat) as H3. clear Hr. rewrite Z.add_0_r in H0.
  destruct p as [c|c|c|c]; cbn [text value piece_ok length lookup] in *.
  - apply unit_lit; [by apply H0|]. unfold lit_ok in Hok. lia.
  - apply unit_esc; [by apply H0| |lia]. apply backslash_name; [by apply bool_decide_eq_true in Hok|by apply H0|by apply H1].
  - apply unit_esc; [by apply H0| |lia]. apply backslash_octal; [lia|by apply H0|by apply H1|by apply H2|by apply H3].
  - apply unit_esc; [by apply H0| |lia]. apply backslash_hex; [lia|by apply H0|by apply H1|by apply H2|by apply H3].
Qed.

Lemma word_loop_unit m flag quote fuel s i c : has flag ARGV_NOESC = false -> unit_at m s i c ->
  (rd m s = Ok 92 \/ lit_ok flag quote c = true /\ rd m s = Ok c) ->
  word_loop (S fuel) m flag quote s = word_loop fuel m flag quote (s + i).
Proof.
  intros Hno Hu Hl. cbn [word_loop].
  inversion Hu as [c' Hc' Hne Ei Ec|i' c' Hc' Hb Hi Ei Ec]; subst;
    rewrite Hc', bind_Ret, Hno; cbn [negb]; rewrite ?andb_true_r.
  - replace (c =? 92) with false by lia. destruct Hl as [?|[Hl _]]; [congruence|].
    unfold lit_ok in Hl. rewrite !andb_true_iff, !negb_true_iff in Hl. destruct Hl as [[[? ?] ?] Hq].
    destruct quote; cbn [negb]; rewrite ?andb_true_r.
    + replace (c =? 34) with false by lia. by replace (c =? 0) with false by lia.
    + apply andb_true_iff in Hq as [Hsp%negb_true_iff Hcm%negb_true_iff].
      rewrite Hsp, Hcm. by replace (c =? 0) with false by lia.
  - change (92 =? 92) with true. cbn match. rewrite Hb, bind_Ret. by replace (i =? 0) with false by lia.
Qed.

(** The word loop passes over the pieces. *)
Lemma word_loop_pieces flag quote : has flag ARGV_NOESC = false -> forall ps pre post fuel,
  forallb (piece_ok flag quote) ps = true ->
  let m := pre ++ flat_map text ps ++ post in
  let s := Z.of_nat (length pre) in
  let e := s + Z.of_nat (length (flat_map text ps)) in
  word_loop (length ps + fuel) m flag quote s = word_loop fuel m flag quote e /\
  walk m s e (map value ps).
Proof.
  intros Hno. induction ps as [|p ps IH]; intros pre post fuel Hok; cbn [flat_map map length] in *.
  { rewrite Z.add_0_r. split; [done|constructor]. }
  apply andb_true_iff in Hok as [Hp Hok].
  set (m := pre ++ (text p ++ flat_map text ps) ++ post). set (s := Z.of_nat (length pre)).
  set (e := s + Z.of_nat (length (text p ++ flat_map text ps))).
  assert (Em : m = pre ++ text p ++ (flat_map text ps ++ post)) by (unfold m; by rewrite <- app_assoc).
  pose proof (piece_unit flag quote pre p (flat_map text ps ++ post) Hp) as Hu. rewrite <- Em in Hu.
  specialize (IH (pre ++ text p) post fuel Hok). cbn zeta in IH.
  replace ((pre ++ text p) ++ flat_map text ps ++ post) with m in IH by (rewrite Em; by rewrite <- app_assoc).
  rewrite length_app, Nat2Z.inj_add in IH. fold s in IH.
  replace (s + Z.of_nat (length (text p)) + Z.of_nat (length (flat_map text ps))) with e in IH
    by (unfold e; rewrite length_app; lia).
  destruct IH as [E Hw]. split; [|by econstructor].
  rewrite Nat.add_succ_l. rewrite (word_loop_unit m flag quote _ s _ (value p) Hno Hu); [exact E|].
  assert (H0 : rd m s = Ok (hd 0 (text p))).
  { rewrite Em. unfold s. pose proof (rd_text pre (text p) (flat_map text ps ++ post) 0 (hd 0 (text p))) as H.
    rewrite Z.add_0_r in H. apply H. by destruct p. }
  rewrite H0. destruct p; [right|by left..]. done.
Qed.

Lemma pieces_short ps : (length ps <= length (flat_map text ps))%nat.
Proof.
  induction ps as [|p ps IH]; cbn [flat_map length]; [lia|]. rewrite length_app.
  destruct p; cbn [text length]; lia.
Qed.

Lemma pieces_word_loop flag quote ps pre post c : has flag ARGV_NOESC = false ->
  forallb (piece_ok flag quote) ps = true ->
  (if quote then c = 34 else c = 0 \/ isspace c = true) ->
  let m := pre ++ flat_map text ps ++ c :: post in
  let s := Z.of_nat (length pre) in
  let e := s + Z.of_nat (length (flat_map text ps)) in
  word_loop (S (length m)) m flag quote s = Ok (inr e) /\
  VAV_BackSlashDecode m s e = Ok (map value ps) /\ rd m e = Ok c.
Proof.
  intros Hno Hok Hc m s e. pose proof (pieces_short ps) as Hs.
  assert (Hlen : length m = (length pre + length (flat_map text ps) + S (length post))%nat)
    by (unfold m; rewrite !length_app; cbn [length]; lia).
  destruct (word_loop_pieces flag quote Hno ps pre (c :: post) (S (length m) - length ps) Hok) as [E Hw].
  fold m s e in E, Hw. replace (length ps + (S (length m) - length ps))%nat with (S (length m)) in E by lia.
  assert (He : rd m e = Ok c).
  { unfold m. rewrite app_assoc. apply rd_at. unfold e, s. rewrite length_app. lia. }
  split; [|split; [|done]].
  - rewrite E. destruct (S (length m) - length ps)%nat as [|f] eqn:Ef; [lia|]. cbn [word_loop].
    rewrite He, bind_Ret, Hno. cbn [negb]. rewrite !andb_true_r.
    destruct quote; cbn [negb].
    + by subst c.
    + replace (c =? 92) with false by (unfold isspace in Hc; lia).
      by replace ((c =? 0) || isspace c) with true by (destruct Hc as [->| ->]; by rewrite ?orb_true_r).
  - apply decode_ok; [unfold s; lia|unfold e, s; lia|done].
Qed.

Lemma skip_blanks flag b pre post argv fuel : forallb isspace b = true ->
  parse_loop (length b + fuel) (pre ++ b ++ post) flag (Z.of_nat (length pre)) argv =
  parse_loop fuel (pre ++ b ++ post) flag (Z.of_nat (length (pre ++ b))) argv.
Proof.
  revert pre. induction b as [|c b IH]; intros pre Hb; [by rewrite app_nil_r|].
  cbn [forallb] in Hb. apply andb_true_iff in Hb as [Hc Hb].
  cbn [length app Nat.add parse_loop]. rewrite (rd_at pre c (b ++ post)) by done.
  rewrite bind_Ret, Hc. replace (c =? 0) with false by (unfold isspace in Hc; lia).
  specialize (IH (pre ++ [c]) Hb). rewrite <- !app_assoc in IH. cbn [app] in IH.
  rewrite length_app in IH. cbn [length] in IH. rewrite Nat2Z.inj_add in IH. exact IH.
Qed.

(** Where [parse_loop] goes on after a word. *)
Lemma parse_word flag w pre c post argv fuel : has flag ARGV_NOESC = false ->
  forallb (piece_ok flag (w_quote w)) (w_text w) = true -> starts_ok flag w = true ->
  c = 0 \/ isspace c = true ->
  let m := pre ++ word_text w ++ c :: post in
  let e := Z.of_nat (length (pre ++ word_text w)) in
  parse_loop (S fuel) m flag (Z.of_nat (length pre)) argv =
  parse_loop fuel m flag (if w_quote w || (c =? 0) then e else e + 1) (argv ++ [map value (w_text w)]).
Proof.
  intros Hno Hok Hst Hc m e. destruct w as [q ps sep]; cbn [w_quote w_text] in *.
  unfold word_text, starts_ok in *. cbn [w_quote w_text] in *. destruct q; cbn [orb] in *.
  - destruct (pieces_word_loop flag true ps (pre ++ [34]) (c :: post) 34 Hno Hok eq_refl) as (Ew & Ed & Er).
    rewrite <- !app_assoc in Ew, Ed, Er. cbn [app] in Ew, Ed, Er.
    assert (Em : m = pre ++ 34 :: flat_map text ps ++ 34 :: c :: post)
      by (unfold m; cbn [app]; by rewrite <- !app_assoc).
    rewrite <- Em in Ew, Ed, Er. rewrite length_app, Nat2Z.inj_add in Ew, Ed, Er. cbn [length] in Ew, Ed, Er.
    change (Z.of_nat 1) with 1 in Ew, Ed, Er. cbn [parse_loop]. rewrite Em at 1. rewrite (rd_at pre 34) by done. rewrite bind_Ret.
    change (34 =? 0) with false. change (isspace 34) with false. change (34 =? 35) with false.
    change (34 =? 34) with true. rewrite andb_false_r, Hno. cbn [negb andb].
    rewrite Ew, bind_Ret.
    rewrite Ed, bind_Ret, Er, bind_Ret. change (34 =? 0) with false. cbn match.
    f_equal. unfold e. rewrite !length_app. cbn [length]. rewrite length_app. cbn [length]. lia.
  - destruct (pieces_word_loop flag false ps pre post c Hno Hok Hc) as (Ew & Ed & Er).
    fold m in Ew, Ed, Er. cbn [parse_loop].
    assert (exists c0, rd m (Z.of_nat (length pre)) = Ok c0 /\ c0 <> 0 /\ isspace c0 = false /\
      has flag ARGV_COMMENT && (c0 =? 35) = false /\ c0 <> 34) as (c0 & H0 & Hn & Hs & H35 & H34).
    { destruct ps as [|p ps]; [done|]. exists (hd 0 (text p)). split.
      { pose proof (rd_text pre (text p) (flat_map text ps ++ c :: post) 0 (hd 0 (text p))) as H.
        rewrite Z.add_0_r in H. unfold m. cbn [flat_map]. rewrite <- app_assoc. apply H. by destruct p. }
      cbn [forallb] in Hok. apply andb_true_iff in Hok as [Hp _].
      destruct p as [c0| | |]; cbn [hd text]; try (rewrite andb_false_r; done).
      cbn [piece_ok] in Hp. unfold lit_ok in Hp. apply andb_true_iff in Hst as [? ?%negb_true_iff].
      apply andb_true_iff in Hp as [? [?%negb_true_iff ?]%andb_true_iff].
      split_and!; done || lia. }
    rewrite H0, bind_Ret, Hs, H35. replace (c0 =? 0) with false by lia.
    replace (c0 =? 34) with false by lia. cbn [andb]. rewrite Ew, bind_Ret, Hno, Ed, bind_Ret, Er, bind_Ret.
    destruct (c =? 0); f_equal; unfold e; rewrite length_app; lia.
Qed.

Lemma parse_line flag : has flag ARGV_NOESC = false -> forall ws pre b argv fuel,
  words_ok flag ws = true -> forallb isspace b = true ->
  (length (b ++ line ws) < fuel)%nat ->
  parse_loop fuel (pre ++ b ++ line ws ++ [0]) flag (Z.of_nat (length pre)) argv =
  Ok (None, argv ++ map (fun w => map value (w_text w)) ws).
Proof.
  intros Hno. induction ws as [|w ws IH]; intros pre b argv fuel Hok Hb Hf; rewrite length_app in Hf.
  - cbn [line map length app] in *. replace fuel with (length b + S (fuel - length b - 1))%nat by lia.
    rewrite skip_blanks by done. cbn [parse_loop]. rewrite app_assoc.
    rewrite (rd_at (pre ++ b) 0) by done. by rewrite app_nil_r.
  - cbn [words_ok] in Hok. apply andb_true_iff in Hok as [Hw Hok].
    unfold word_ok in Hw. rewrite !andb_true_iff in Hw. destruct Hw as [[[Hps Hst] Hsep] Hlast].
    cbn [line map] in *. rewrite !length_app in Hf.
    replace fuel with (length b + S (fuel - length b - 1))%nat by lia.
    rewrite skip_blanks by done. rewrite <- !app_assoc.
    set (pre' := pre ++ b).
    rewrite (app_assoc pre b). fold pre'.
    assert (Hstep : forall c post blanks pre2, w_sep w ++ line ws ++ [0] = c :: post ->
      c = 0 \/ isspace c = true ->
      (if w_quote w || (c =? 0) then Z.of_nat (length (pre' ++ word_text w))
       else Z.of_nat (length (pre' ++ word_text w)) + 1) = Z.of_nat (length pre2) ->
      pre' ++ word_text w ++ c :: post = pre2 ++ blanks ++ line ws ++ [0] ->
      forallb isspace blanks = true -> (length blanks <= length (w_sep w))%nat ->
      (1 <= length (word_text w))%nat ->
      parse_loop (S (fuel - length b - 1)) (pre' ++ word_text w ++ w_sep w ++ line ws ++ [0]) flag
        (Z.of_nat (length pre')) argv =
      Ok (None, argv ++ map value (w_text w) :: map (fun w => map value (w_text w)) ws)).
    { intros c post blanks pre2 E Hc Hpos Em Hbl Hle H1. rewrite E.
      rewrite (parse_word flag w pre' c post) by done. rewrite Hpos, Em.
      rewrite IH; [by rewrite <- app_assoc|done|done|]. rewrite length_app. lia. }
    assert (H1 : (1 <= length (word_text w))%nat).
    { unfold word_text, starts_ok in *. destruct (w_quote w); [cbn; lia|].
      pose proof (pieces_short (w_text w)). destruct (w_text w); [done|]. cbn [length] in *. lia. }
    destruct (w_sep w) as [|c sep] eqn:Es.
    + cbn [app length] in *. assert (ws = []) as ->.
      { apply orb_true_iff in Hlast as [H|H]; [by apply bool_decide_eq_true in H|].
        apply negb_true_iff, bool_decide_eq_false in H. done. } cbn [line app] in *.
      apply (Hstep 0 [] [] (pre' ++ word_text w)); try done; [by left|by rewrite orb_true_r|by rewrite <- app_assoc].
    + cbn [forallb] in Hsep. apply andb_true_iff in Hsep as [Hc Hsep].
      assert (Hc0 : (c =? 0) = false) by (unfold isspace in Hc; lia).
      destruct (w_quote w) eqn:Eq.
      * apply (Hstep c (sep ++ line ws ++ [0]) (c :: sep) (pre' ++ word_text w)); try done;
          [by right|by rewrite <- app_assoc|cbn [forallb]; by rewrite Hc].
      * apply (Hstep c (sep ++ line ws ++ [0]) sep (pre' ++ word_text w ++ [c])); try done;
          [by right| |by rewrite <- !app_assoc|cbn [length]; lia].
        rewrite Hc0. cbn [orb]. rewrite !length_app. cbn [length]. lia.
Qed.

(** Round trip: a line of words, each bare or in quotes and written with
    literals, named, octal and hexadecimal escapes, with blanks before and between
    them, parses without error to exactly the octets the words stand for. *)
Theorem argv_roundtrip (flag : Z) (blanks : list Z) (ws : list word)
  (Hno : has flag ARGV_NOESC = false) (Hb : forallb isspace blanks = true)
  (Hok : words_ok flag ws = true) :
  VAV_Parse (blanks ++ line ws ++ [0]) flag = Ok (None, map (fun w => map value (w_text w)) ws).
Proof.
  unfold VAV_Parse. apply (parse_line flag Hno ws [] blanks []); [done|done|].
  rewrite !length_app. cbn [length]. lia.
Qed.

Definition ex_words : list word :=
  [ Word false [Lit 118; Lit 99; Lit 108] [32; 9];
    Word true [Lit 97; Lit 32; Name 34; Octal 0; Hex 255; Name 10] [32];
    Word false [Hex 35] [] ].

Lemma argv_roundtrip_witness :
  VAV_Parse ([32] ++ line ex_words ++ [0]) ARGV_COMMENT =
  Ok (None, map (fun w => map value (w_text w)) ex_words) /\
  map (fun w => map value (w_text w)) ex_words = [[118; 99; 108]; [97; 32; 34; 0; 255; 10]; [35]].
Proof.
  split; [|done]. apply (argv_roundtrip ARGV_COMMENT [32] ex_words); by vm_compute.
Defined.

(** The bound on hex escapes is needed: with one digit before the end of the
    string [VAV_Parse] steps over the NUL and reads past the string, because it
    takes the sequence to be four octets long whatever [sscanf] consumed; and a
    sign, which [%x] accepts, fails the assertion. *)
Theorem argv_hex_unsafe (flag h v : Z) (Hno : has flag ARGV_NOESC = false) (Hh : hexval h = Some v) :
  VAV_Parse [92; 120; h; 0] flag = Fail FMemory /\
  VAV_Parse [92; 120; 45; 49; 0] flag = Fail FAssert.
Proof.
  pose proof (hexval_range _ _ Hh) as [Rv Rh].
  assert (Hstart : forall l r, l = 92 :: r -> VAV_Parse l flag =
    w ← word_loop (S (length l)) l flag false 0;
    match w with
    | inl err => mret (Some err, [])
    | inr s => a ← VAV_BackSlashDecode l 0 s; c ← rd l s;
        parse_loop (length l) l flag (if c =? 0 then s else s + 1) [a]
    end).
  { intros l r ->. unfold VAV_Parse. cbn [parse_loop]. change (rd (92 :: r) 0) with (Ok 92).
    rewrite bind_Ret. change (isspace 92) with false. change (92 =? 0) with false.
    change (92 =? 35) with false. change (92 =? 34) with false. by rewrite andb_false_r, Hno. }
  assert (Hword : forall l r fuel, l = 92 :: r -> word_loop (S fuel) l flag false 0 =
    '(i, _) ← VAV_BackSlash l 0;
    if i =? 0 then mret (inl err_invalid_backslash) else word_loop fuel l flag false i).
  { intros l r fuel ->. cbn [word_loop]. change (rd (92 :: r) 0) with (Ok 92). by rewrite bind_Ret, Hno. }
  split; (erewrite Hstart by done); (erewrite Hword by done); [|done].
  assert (Eb : VAV_BackSlash [92; 120; h; 0] 0 = Ok (4, v)).
  { assert (h ∈ seqZ 48 10 ++ seqZ 65 6 ++ seqZ 97 6) as Hin
      by (rewrite !elem_of_app, !elem_of_seqZ; lia).
    vm_compute in Hin.
    repeat (apply elem_of_cons in Hin as [->|Hin]; [by injection Hh as <-|]).
    by apply not_elem_of_nil in Hin. }
  by rewrite Eb.
Qed.

Lemma argv_hex_unsafe_witness :
  VAV_Parse [92; 120; 53; 0] 0 = Fail FMemory /\ VAV_Parse [92; 120; 45; 49; 0] 0 = Fail FAssert.
Proof. by apply (argv_hex_unsafe 0 53 5). Defined.

End ArgvThm.
