(* ===== verification/Mem.v ===== *)
(** Memory as a map from addresses to octets, and the C library's string
    functions over it.

    A read of an address that is not mapped is [FMemory].  Each loop over a
    string has as fuel the number of mapped addresses: it reads another address
    at each step, so it ends, or faults, before. *)
From S2P Require Import Prelude.
From Stdlib Require Ascii String.

Module Mem.

Notation mem := (gmap Z Z).

Definition peek (m : mem) (p : Z) : res Z := deref (m !! p).

Definition poke (m : mem) (p v : Z) : res mem :=
  match m !! p with
  | Some _ => mret (<[p := v]> m)
  | None => Fail FMemory
  end.

(** The octets of a string literal. *)
Definition str (s : string) : list Z :=
  map (fun c => Z.of_nat (Ascii.nat_of_ascii c)) (String.list_ascii_of_string s).

(** [while (P( *p)) p++;] *)
Fixpoint skip_while (P : Z -> bool) (m : mem) (fuel : nat) (p : Z) : res Z :=
  c ← peek m p;
  if P c then
    match fuel with
    | O => Fail FFuel
    | S fuel => skip_while P m fuel (p + 1)
    end
  else mret p.

Definition skip (P : Z -> bool) (m : mem) (p : Z) : res Z :=
  skip_while P m (size m) p.

(** [strchr(p, '\0')] *)
Definition str_end (m : mem) (p : Z) : res Z := skip (fun c => negb (c =? 0)) m p.

(** The [n] octets at [p]. *)
Fixpoint region (m : mem) (p : Z) (n : nat) : res (list Z) :=
  match n with
  | O => mret []
  | S n => c ← peek m p; l ← region m (p + 1) n; mret (c :: l)
  end.

(** Copying [l] to [p]: the object must be there. *)
Fixpoint poke_all (m : mem) (p : Z) (l : list Z) : res mem :=
  match l with
  | [] => mret m
  | c :: l => m ← poke m p c; poke_all m (p + 1) l
  end.

(** [tolower] in the C locale. *)
Definition tolower (c : Z) : Z := if (65 <=? c) && (c <=? 90) then c + 32 else c.

(** [strncasecmp(s, p, n) == 0], [s] a constant string, without its NUL. *)
Fixpoint strncaseeq (m : mem) (s : list Z) (p : Z) (n : nat) {struct n} : res bool :=
  match n with
  | O => mret true
  | S n =>
      c ← peek m p;
      match s with
      | [] => mret (c =? 0)
      | x :: s =>
          if tolower x =? tolower c then
            if x =? 0 then mret true else strncaseeq m s (p + 1) n
          else mret false
      end
  end.

(** The same between two strings in memory. *)
Fixpoint strncaseeq2 (m : mem) (q p : Z) (n : nat) : res bool :=
  match n with
  | O => mret true
  | S n =>
      x ← peek m q;
      c ← peek m p;
      if tolower x =? tolower c then
        if x =? 0 then mret true else strncaseeq2 m (q + 1) (p + 1) n
      else mret false
  end.

(** [strcasecmp(p, s) == 0] and [strcmp(p, s) == 0]. *)
Fixpoint strcaseeq (m : mem) (p : Z) (s : list Z) : res bool :=
  c ← peek m p;
  match s with
  | [] => mret (c =? 0)
  | x :: s => if tolower x =? tolower c then strcaseeq m (p + 1) s else mret false
  end.

Fixpoint streq (m : mem) (p : Z) (s : list Z) : res bool :=
  c ← peek m p;
  match s with
  | [] => mret (c =? 0)
  | x :: s => if x =? c then streq m (p + 1) s else mret false
  end.

(** [memcmp(p, s, strlen(s)) == 0] *)
Fixpoint memeq (m : mem) (p : Z) (s : list Z) : res bool :=
  match s with
  | [] => mret true
  | x :: s => c ← peek m p; if x =? c then memeq m (p + 1) s else mret false
  end.

(** ** Lemmas *)

Lemma peek_ok m p c : m !! p = Some c -> peek m p = Ok c.
Proof. unfold peek. by intros ->. Qed.

(** [l] is in memory at [p]. *)
Definition mapped (m : mem) (p : Z) (l : list Z) : Prop :=
  forall i c, l !! i = Some c -> m !! (p + Z.of_nat i) = Some c.

Lemma mapped_cons m p c l : mapped m p (c :: l) <-> m !! p = Some c /\ mapped m (p + 1) l.
Proof.
  split.
  - intros H. split.
    + rewrite <- (Z.add_0_r p). by apply (H 0%nat).
    + intros i d Hi. replace (p + 1 + Z.of_nat i) with (p + Z.of_nat (S i)) by lia. by apply H.
  - intros [H0 H] [|i] d Hi.
    + rewrite Z.add_0_r. simpl in Hi. congruence.
    + replace (p + Z.of_nat (S i)) with (p + 1 + Z.of_nat i) by lia. by apply H.
Qed.

Lemma mapped_app m p l1 l2 :
  mapped m p (l1 ++ l2) <-> mapped m p l1 /\ mapped m (p + Z.of_nat (length l1)) l2.
Proof.
  revert p. induction l1 as [|c l1 IH]; intros p; simpl app.
  - simpl. rewrite Z.add_0_r. split; [|tauto]. intros H. split; [|done]. by intros i d ?.
  - rewrite !mapped_cons, IH. simpl length.
    replace (p + 1 + Z.of_nat (length l1)) with (p + Z.of_nat (S (length l1))) by lia. tauto.
Qed.

(** A run of mapped addresses is no longer than the map. *)
Lemma mapped_size m p l : mapped m p l -> (length l <= size m)%nat.
Proof.
  revert m p. induction l as [|c l IH]; intros m p H; simpl; [lia|].
  apply mapped_cons in H as [H0 H].
  assert (Hd : size (delete p m) = pred (size m)) by (by apply map_size_delete_Some; eexists).
  assert (Hz : size m <> 0%nat).
  { apply map_size_non_empty_iff. intros ->. by rewrite lookup_empty in H0. }
  enough (length l <= size (delete p m))%nat by lia. apply (IH _ (p + 1)).
  intros i d Hi. rewrite lookup_delete_ne by lia. by apply H.
Qed.

Lemma skip_while_run P m fuel p l c :
  mapped m p (l ++ [c]) -> Forall (fun x => P x = true) l -> P c = false ->
  (length l <= fuel)%nat ->
  skip_while P m fuel p = Ok (p + Z.of_nat (length l)).
Proof.
  revert p fuel. induction l as [|x l IH]; intros p fuel Hm Hl Hc Hf; simpl in Hm.
  - apply mapped_cons in Hm as [H0 _]. simpl. rewrite Z.add_0_r.
    destruct fuel; simpl; rewrite (peek_ok _ _ _ H0), bind_Ret, Hc; done.
  - apply mapped_cons in Hm as [H0 Hm]. apply Forall_cons in Hl as [Hx Hl].
    destruct fuel as [|fuel]; simpl in *; [lia|].
    rewrite (peek_ok _ _ _ H0), bind_Ret, Hx.
    rewrite (IH (p + 1) fuel) by (done || lia). f_equal. lia.
Qed.

Lemma skip_run P m p l c :
  mapped m p (l ++ [c]) -> Forall (fun x => P x = true) l -> P c = false ->
  skip P m p = Ok (p + Z.of_nat (length l)).
Proof.
  intros Hm Hl Hc. apply (skip_while_run P m _ p l c Hm Hl Hc).
  pose proof (mapped_size m p _ Hm) as Hs. rewrite length_app in Hs. simpl in Hs. lia.
Qed.

Lemma region_run m p l : mapped m p l -> region m p (length l) = Ok l.
Proof.
  revert p. induction l as [|c l IH]; intros p Hm; simpl; [done|].
  apply mapped_cons in Hm as [H0 Hm].
  rewrite (peek_ok _ _ _ H0), bind_Ret, (IH _ Hm), bind_Ret. done.
Qed.

Lemma region_mapped m p n l : region m p n = Ok l -> mapped m p l /\ length l = n.
Proof.
  revert p l. induction n as [|n IH]; intros p l; simpl.
  - intros [= <-]. split; [|done]. by intros i c ?.
  - intros H. apply bind_Ok in H as (c & Hc & H). apply bind_Ok in H as (l' & Hl & H).
    injection H as <-. apply deref_Ok in Hc. destruct (IH _ _ Hl) as [Hm <-].
    split; [|done]. by apply mapped_cons.
Qed.

End Mem.
