(* ===== verification/Http.v ===== *)
(** HTTP messages: [bin/varnishd/cache_http.c].

    A message is an array of [shd] slots, each a [txt], two pointers into
    memory; the first five slots hold the first line, the others from
    [HTTP_HDR_FIRST] up to [nhd] the header lines.  Null is address 0.  The
    workspace [hp->ws] is an argument and a result of the functions that use it;
    so is [losthdr], the counter of header lines dropped.  Header names are
    constant strings with their colon, as in [http_headers.h] without the length
    octet; a string literal that is stored in a slot has the address [literal]
    gives.  The shared memory log is left out, but for the assertion on
    [logtag]. *)
From S2P Require Import Prelude Vct Ws Mem.
Import Vct Mem.
From Stdlib Require String.
Local Open Scope string_scope.
Local Open Scope Z_scope.

Module Http.

(** ** Tables *)

Definition HTTPH_R_PASS : Z := Z.shiftl 1 0.
Definition HTTPH_A_PASS : Z := Z.shiftl 1 1.
Definition HTTPH_R_PIPE : Z := Z.shiftl 1 2.
Definition HTTPH_R_FETCH : Z := Z.shiftl 1 3.
Definition HTTPH_A_INS : Z := Z.shiftl 1 4.
Definition HTTPH_A_DELIVER : Z := Z.shiftl 1 5.

(** The names, and the operations that suppress the header. *)
Definition HTTPH : list (list Z * Z) :=
  [(str "Keep-Alive:", Z.lor (Z.lor HTTPH_R_PASS HTTPH_A_PASS) HTTPH_R_FETCH);
   (str "Accept:", 0);
   (str "Accept-Charset:", 0);
   (str "Accept-Encoding:", 0);
   (str "Accept-Language:", 0);
   (str "Accept-Ranges:", Z.lor HTTPH_R_FETCH HTTPH_A_INS);
   (str "Age:", HTTPH_A_INS);
   (str "Allow:", 0);
   (str "Authorization:", 0);
   (str "Cache-Control:", HTTPH_R_FETCH);
   (str "Connection:", Z.lor (Z.lor (Z.lor HTTPH_R_PASS HTTPH_A_PASS) HTTPH_R_FETCH) HTTPH_A_INS);
   (str "Content-Encoding:", 0);
   (str "Content-Langugae:", 0);
   (str "Content-Length:", Z.lor HTTPH_R_FETCH HTTPH_A_INS);
   (str "Content-Location:", 0);
   (str "Content-MD5:", 0);
   (str "Content-Range:", Z.lor HTTPH_R_FETCH HTTPH_A_INS);
   (str "Content-Type:", 0);
   (str "Date:", HTTPH_A_DELIVER);
   (str "ETag:", 0);
   (str "Expect:", 0);
   (str "Expires:", 0);
   (str "From:", 0);
   (str "Host:", 0);
   (str "If-Match:", HTTPH_R_FETCH);
   (str "If-Modified-Since:", HTTPH_R_FETCH);
   (str "If-None-Match:", HTTPH_R_FETCH);
   (str "If-Range:", HTTPH_R_FETCH);
   (str "If-Unmodified-Since:", HTTPH_R_FETCH);
   (str "Last-Modified:", 0);
   (str "Location:", 0);
   (str "Max-Forwards:", 0);
   (str "Pragma:", 0);
   (str "Proxy-Authenticate:", Z.lor HTTPH_R_FETCH HTTPH_A_INS);
   (str "Proxy-Authorization:", Z.lor HTTPH_R_FETCH HTTPH_A_INS);
   (str "Range:", Z.lor HTTPH_R_FETCH HTTPH_A_INS);
   (str "Referer:", 0);
   (str "Retry-After:", 0);
   (str "Server:", 0);
   (str "TE:", Z.lor (Z.lor (Z.lor HTTPH_R_PASS HTTPH_A_PASS) HTTPH_R_FETCH) HTTPH_A_INS);
   (str "Trailer:", Z.lor (Z.lor (Z.lor HTTPH_R_PASS HTTPH_A_PASS) HTTPH_R_FETCH) HTTPH_A_INS);
   (str "Transfer-Encoding:", Z.lor (Z.lor (Z.lor HTTPH_R_PASS HTTPH_A_PASS) HTTPH_R_FETCH) HTTPH_A_INS);
   (str "Upgrade:", Z.lor (Z.lor (Z.lor HTTPH_R_PASS HTTPH_A_PASS) HTTPH_R_FETCH) HTTPH_A_INS);
   (str "User-Agent:", 0);
   (str "Vary:", 0);
   (str "Via:", 0);
   (str "Warning:", 0);
   (str "WWW-Authenticate:", 0)].

Definition H_Connection : list Z := str "Connection:".
Definition H_Transfer_Encoding : list Z := str "Transfer-Encoding:".
Definition H_Content_Length : list Z := str "Content-Length:".
Definition H_Age : list Z := str "Age:".
Definition H_Expires : list Z := str "Expires:".
Definition H_Date : list Z := str "Date:".
Definition H_Cache_Control : list Z := str "Cache-Control:".
Definition H_If_Modified_Since : list Z := str "If-Modified-Since:".
Definition H_If_None_Match : list Z := str "If-None-Match:".
Definition H_ETag : list Z := str "ETag:".
Definition H_Accept_Encoding : list Z := str "Accept-Encoding:".
Definition H_Vary : list Z := str "Vary:".

Definition http_msg : list (Z * list Z) :=
  [(101, str "Switching Protocols");
   (200, str "OK");
   (201, str "Created");
   (202, str "Accepted");
   (203, str "Non-Authoritative Information");
   (204, str "No Content");
   (205, str "Reset Content");
   (206, str "Partial Content");
   (300, str "Multiple Choices");
   (301, str "Moved Permanently");
   (302, str "Found");
   (303, str "See Other");
   (304, str "Not Modified");
   (305, str "Use Proxy");
   (306, str "(Unused)");
   (307, str "Temporary Redirect");
   (400, str "Bad Request");
   (401, str "Unauthorized");
   (402, str "Payment Required");
   (403, str "Forbidden");
   (404, str "Not Found");
   (405, str "Method Not Allowed");
   (406, str "Not Acceptable");
   (407, str "Proxy Authentication Required");
   (408, str "Request Timeout");
   (409, str "Conflict");
   (410, str "Gone");
   (411, str "Length Required");
   (412, str "Precondition Failed");
   (413, str "Request Entity Too Large");
   (414, str "Request-URI Too Long");
   (415, str "Unsupported Media Type");
   (416, str "Requested Range Not Satisfiable");
   (417, str "Expectation Failed");
   (500, str "Internal Server Error");
   (501, str "Not Implemented");
   (502, str "Bad Gateway");
   (503, str "Service Unavailable");
   (504, str "Gateway Timeout");
   (505, str "HTTP Version Not Supported")].

(** ** Messages *)

Record txt := mkTxt { b : Z; e : Z }.

Definition no_txt : txt := mkTxt 0 0.

Definition HTTP_HDR_REQ : nat := 0.
Definition HTTP_HDR_URL : nat := 1.
Definition HTTP_HDR_PROTO : nat := 2.
Definition HTTP_HDR_STATUS : nat := 3.
Definition HTTP_HDR_RESPONSE : nat := 4.
Definition HTTP_HDR_FIRST : nat := 5.

Definition HTTP_Rx : Z := 1.
Definition HTTP_Tx : Z := 2.
Definition HTTP_Obj : Z := 3.
Definition HDF_FILTER : Z := Z.shiftl 1 0.

Record http := mkHttp {
  logtag : Z;
  hd : list txt;      (* of length [shd] *)
  hdf : list Z;
  nhd : nat;
  status : Z;
  protover : Z;
  conds : Z;
}.

Definition shd (hp : http) : nat := length (hd hp).

Definition set_logtag (hp : http) x :=
  mkHttp x (hd hp) (hdf hp) (nhd hp) (status hp) (protover hp) (conds hp).
Definition set_nhd (hp : http) x :=
  mkHttp (logtag hp) (hd hp) (hdf hp) x (status hp) (protover hp) (conds hp).
Definition set_status (hp : http) x :=
  mkHttp (logtag hp) (hd hp) (hdf hp) (nhd hp) x (protover hp) (conds hp).
Definition set_protover (hp : http) x :=
  mkHttp (logtag hp) (hd hp) (hdf hp) (nhd hp) (status hp) x (conds hp).
Definition set_conds (hp : http) x :=
  mkHttp (logtag hp) (hd hp) (hdf hp) (nhd hp) (status hp) (protover hp) x.

(** [hp->hd[u]] and [hp->hdf[u]]. *)
Definition get_hd (hp : http) (u : nat) : res txt := deref (hd hp !! u).
Definition get_hdf (hp : http) (u : nat) : res Z := deref (hdf hp !! u).
Definition set_hd (hp : http) (u : nat) (t : txt) : res http :=
  if (u <? length (hd hp))%nat
  then mret (mkHttp (logtag hp) (<[u := t]> (hd hp)) (hdf hp) (nhd hp) (status hp)
               (protover hp) (conds hp))
  else Fail FMemory.
Definition set_hdf (hp : http) (u : nat) (x : Z) : res http :=
  if (u <? length (hdf hp))%nat
  then mret (mkHttp (logtag hp) (hd hp) (<[u := x]> (hdf hp)) (nhd hp) (status hp)
               (protover hp) (conds hp))
  else Fail FMemory.

Definition Tcheck (t : txt) : res unit :=
  vassert (truth (b t));; vassert (truth (e t));; vassert (b t <=? e t).

Definition Tlen (t : txt) : res Z := Tcheck t;; mret (u32 (e t - b t)).

(** The log calls look at [logtag]. *)
Definition WSLH (hp : http) : res unit :=
  vassert ((HTTP_Rx <=? logtag hp) && (logtag hp <=? HTTP_Obj)).

Fixpoint message_loop (s : Z) (l : list (Z * list Z)) : list Z :=
  match l with
  | [] => str "Unknown Error"
  | (nbr, txt) :: l =>
      if s <? nbr then str "Unknown Error"
      else if nbr =? s then txt else message_loop s l
  end.

Definition http_StatusMessage (s : Z) : res (list Z) :=
  vassert ((100 <=? s) && (s <=? 999));;
  mret (message_loop s http_msg).

Definition HTTP_create (n : nat) : http :=
  mkHttp 0 (replicate n no_txt) (replicate n 0) 0 0 0 0.

Definition http_Setup (hp : http) : http :=
  mkHttp 0 (replicate (shd hp) no_txt) (replicate (shd hp) 0) HTTP_HDR_FIRST 0 0 0.

(** ** Looking for a header *)

(** [hdr] is the name with its colon. *)
Definition http_IsHdr (m : mem) (hh : txt) (hdr : list Z) : res bool :=
  Tcheck hh;;
  vassert (bool_decide (last hdr = Some 58));;
  strncaseeq m hdr (b hh) (length hdr).

(** The loop of [http_findhdr] from slot [u]; [n] slots are left.  [eq] compares
    [l] octets of the name with those at an address. *)
Fixpoint findhdr_loop (m : mem) (hp : http) (l : Z) (eq : Z -> res bool)
    (n : nat) (u : nat) : res nat :=
  match n with
  | O => mret 0%nat
  | S n =>
      t ← get_hd hp u;
      Tcheck t;;
      if e t <? b t + l + 1 then findhdr_loop m hp l eq n (S u) else
      c ← peek m (b t + l);
      if negb (c =? 58) then findhdr_loop m hp l eq n (S u) else
      same ← eq (b t);
      if negb same then findhdr_loop m hp l eq n (S u) else mret u
  end.

Definition http_findhdr (m : mem) (hp : http) (l : Z) (eq : Z -> res bool) : res nat :=
  findhdr_loop m hp l eq (nhd hp - HTTP_HDR_FIRST) HTTP_HDR_FIRST.

(** [None]: no such header; else where its value starts. *)
Definition http_GetHdr (m : mem) (hp : http) (hdr : list Z) : res (option Z) :=
  vassert (bool_decide (last hdr = Some 58));;
  let l := Z.of_nat (length hdr) in
  u ← http_findhdr m hp (l - 1) (fun p => strncaseeq m hdr p (length hdr - 1));
  if bool_decide (u = 0%nat) then mret None else
  t ← get_hd hp u;
  p ← skip vct_issp m (b t + l);
  mret (Some p).

(** The list loop of [http_GetHdrData]; [e] is the end of the string.  The
    result is where the element ends. *)
Fixpoint hdrdata_loop (m : mem) (field : list Z) (fuel : nat) (h e : Z)
  : res (option Z) :=
  if e <? h + Z.of_nat (length field) then mret None else
  match fuel with
  | O => Fail FFuel
  | S fuel =>
      c ← peek m h;
      if vct_islws c || (c =? 44) then hdrdata_loop m field fuel (h + 1) e else
      let f := h + Z.of_nat (length field) in
      ends ← (if f =? e then mret true else x ← peek m f; mret (vct_issepctl x));
      same ← (if (ends : bool) then memeq m h field else mret false);
      if (same : bool) then p ← skip vct_islws m f; mret (Some p) else
      h ← skip (fun x => negb (x =? 0) && negb (x =? 44)) m h;
      hdrdata_loop m field fuel h e
  end.

Definition http_GetHdrData (m : mem) (hp : http) (hdr field : list Z) : res (option Z) :=
  h ← http_GetHdr m hp hdr;
  match h with
  | None => mret None
  | Some h => e ← str_end m h; hdrdata_loop m field (S (size m)) h e
  end.

(** The pair: is there such a field, and its value if it has one. *)
Definition http_GetHdrField (m : mem) (hp : http) (hdr field : list Z)
  : res (bool * option Z) :=
  h ← http_GetHdrData m hp hdr field;
  match h with
  | None => mret (false, None)
  | Some h =>
      h ← skip vct_issp m h;
      c ← peek m h;
      if c =? 61 then p ← skip vct_issp m (h + 1); mret (true, Some p)
      else mret (true, None)
  end.

(** The loop of [http_DoConnection] over the words of the header; [close] is
    whether the connection is to be closed. *)
Fixpoint doconn_loop (m : mem) (fuel : nat) (hp : http) (p : Z) (close : bool)
  : res (http * bool) :=
  c ← peek m p;
  if c =? 0 then mret (hp, close) else
  match fuel with
  | O => Fail FFuel
  | S fuel =>
      if vct_issp c || (c =? 44) then doconn_loop m fuel hp (p + 1) close else
      q ← skip (fun x => negb (x =? 0) && negb ((x =? 44) || vct_issp x)) m (p + 1);
      u ← Ws.pdiff p q;
      is_close ← (if u =? 5 then strncaseeq m (str "close") p 5 else mret false);
      let close := close || is_close in
      f ← http_findhdr m hp u (fun hb => strncaseeq2 m p hb (Z.to_nat u));
      hp ← (if bool_decide (f = 0%nat) then mret hp
            else x ← get_hdf hp f; set_hdf hp f (Z.lor x HDF_FILTER));
      x ← peek m q;
      if x =? 0 then mret (hp, close) else doconn_loop m fuel hp (q + 1) close
  end.

Inductive close_reason := NotHTTP11 | ConnectionClose.

Definition http_DoConnection (m : mem) (hp : http) : res (http * option close_reason) :=
  p ← http_GetHdr m hp H_Connection;
  match p with
  | None => mret (hp, if protover hp <? 11 then Some NotHTTP11 else None)
  | Some p =>
      '(hp, close) ← doconn_loop m (S (size m)) hp p false;
      mret (hp, if (close : bool) then Some ConnectionClose else None)
  end.

Definition http_HdrIs (m : mem) (hp : http) (hdr val : list Z) : res bool :=
  p ← http_GetHdr m hp hdr;
  match p with None => mret false | Some p => strcaseeq m p val end.

Definition http_GetReq (hp : http) : res Z :=
  t ← get_hd hp HTTP_HDR_REQ;
  Tcheck t;;
  mret (b t).

(** ** Collecting header lines of one name

    The line is built in the workspace, from [cb] on and not past [ce]; [None]
    until there is a second line.  [cf] is the slot of the first, 0 before it is
    found. *)
Record collect := mkCollect {
  c_m : mem;
  c_w : Ws.ws;
  c_hp : http;
  c_f : nat;
  c_be : option (Z * Z);
}.

(** Copies [x] octets from [p] if they fit, else gives up the rest. *)
Definition collect_copy (m : mem) (cb ce p x : Z) : res (mem * Z) :=
  if cb + x <? ce then
    l ← region m p (Z.to_nat x);
    m ← poke_all m cb l;
    mret (m, cb + x)
  else mret (m, ce).

(** One line more, from slot [u]: it is appended, and the later ones move up one
    slot. *)
Definition collect_line (c : collect) (hdr : list Z) (u : nat) : res collect :=
  let hp := c_hp c in
  '(m, w, cb, ce) ← match c_be c with
    | Some (cb, ce) => mret (c_m c, c_w c, cb, ce)
    | None =>
        (* Found second header, start our collection *)
        '(w, ml) ← Ws.WS_Reserve (c_w c) 0;
        let cb := Ws.ws_f w in
        let ce := cb + ml in
        t ← get_hd hp (c_f c);
        x ← Tlen t;
        '(m, cb) ← collect_copy (c_m c) cb ce (b t) x;
        mret (m, w, cb, ce)
    end;
  vassert (truth cb);;
  vassert (truth ce);;
  (* Append the Nth header we found *)
  '(m, cb) ← (if cb <? ce then m ← poke m cb 44; mret (m, cb + 1) else mret (m, cb));
  t ← get_hd hp u;
  tl ← Tlen t;
  let l := Z.of_nat (length hdr) in
  '(m, cb) ← collect_copy m cb ce (b t + l) (u32 (tl - l));
  (* Shift remaining headers up one slot *)
  let moved := (take u (hd hp) ++ drop (S u) (take (nhd hp) (hd hp)) ++
                drop (nhd hp - 1) (hd hp))%list in
  let hp := mkHttp (logtag hp) moved (hdf hp) (nhd hp - 1) (status hp) (protover hp) (conds hp) in
  mret (mkCollect m w hp (c_f c) (Some (cb, ce))).

(** The inner loop: the lines of that name at slot [u]. *)
Fixpoint collect_slot (fuel : nat) (c : collect) (hdr : list Z) (u : nat) : res collect :=
  if (nhd (c_hp c) <=? u)%nat then mret c else
  match fuel with
  | O => Fail FFuel
  | S fuel =>
      t ← get_hd (c_hp c) u;
      hit ← http_IsHdr (c_m c) t hdr;
      if negb hit then mret c else
      Tcheck t;;
      if bool_decide (c_f c = 0%nat) then
        (* Found first header, just record the fact *)
        mret (mkCollect (c_m c) (c_w c) (c_hp c) u (c_be c))
      else
        c ← collect_line c hdr u;
        collect_slot fuel c hdr u
  end.

Fixpoint collect_loop (fuel : nat) (c : collect) (hdr : list Z) (u : nat) : res collect :=
  if (nhd (c_hp c) <=? u)%nat then mret c else
  match fuel with
  | O => Fail FFuel
  | S fuel =>
      c ← collect_slot (nhd (c_hp c)) c hdr u;
      collect_loop fuel c hdr (S u)
  end.

Definition http_CollectHdr (m : mem) (w : Ws.ws) (hp : http) (hdr : list Z)
  : res (mem * Ws.ws * http) :=
  c ← collect_loop (nhd hp) (mkCollect m w hp 0 None) hdr HTTP_HDR_FIRST;
  let m := c_m c in
  let w := c_w c in
  let hp := c_hp c in
  match c_be c with
  | None => mret (m, w, hp)
  | Some (cb, ce) =>
      vassert (truth ce);;
      if ce <=? cb then
        w ← Ws.WS_Release w 0;
        mret (m, w, hp)
      else
        m ← poke m cb 0;
        hp ← set_hd hp (c_f c) (mkTxt (Ws.ws_f w) cb);
        w ← Ws.WS_ReleaseP w (cb + 1);
        mret (m, w, hp)
  end.

(** ** Dissection *)

(** [struct http_conn]: the octets received, which a NUL follows. *)
Record http_conn := mkConn { maxhdr : Z; rxbuf : txt }.

(** Clearing line continuation to spaces: [while (vct_islws( *q)) *q++ = ' ';] *)
Fixpoint blank_lws (fuel : nat) (m : mem) (q : Z) : res (mem * Z) :=
  c ← peek m q;
  if vct_islws c then
    match fuel with
    | O => Fail FFuel
    | S fuel => m ← poke m q 32; blank_lws fuel m (q + 1)
    end
  else mret (m, q).

(** [vct_skipcrlf(p)]. *)
Definition skipcrlf (m : mem) (p : Z) : res Z :=
  c ← peek m p;
  if c =? 13 then d ← peek m (p + 1); mret (if d =? 10 then 2 else 1)
  else mret 1.

(** The end [q] of the header line that starts at [p], and where the next one
    starts. *)
Fixpoint find_end (fuel : nat) (m : mem) (te q r : Z) : res (mem * Z * Z) :=
  if te <=? r then mret (m, q, r) else
  match fuel with
  | O => Fail FFuel
  | S fuel =>
      c ← peek m r;
      if negb (vct_iscrlf c) then find_end fuel m te q (r + 1) else
      let q := r in
      n ← skipcrlf m r;
      let r := r + n in
      if te <=? r then mret (m, q, r) else
      c ← peek m r;
      if negb (vct_issp c) then mret (m, q, r) else
      '(m, q) ← blank_lws (size m) m q;
      find_end fuel m te q r
  end.

(** [while (q > p && vct_issp(q[-1])) q--;] *)
Fixpoint trim_sp (fuel : nat) (m : mem) (p q : Z) : res Z :=
  if q <=? p then mret q else
  match fuel with
  | O => Fail FFuel
  | S fuel =>
      c ← peek m (q - 1);
      if vct_issp c then trim_sp fuel m p (q - 1) else mret q
  end.

(** Is the header at [p] a conditional, [^\[Ii\]\[Ff\]-]? *)
Definition is_cond (m : mem) (p : Z) : res bool :=
  c0 ← peek m p;
  if (c0 =? 105) || (c0 =? 73) then
    c1 ← peek m (p + 1);
    if (c1 =? 102) || (c1 =? 70) then
      c2 ← peek m (p + 2); mret (c2 =? 45)
    else mret false
  else mret false.

(** The result is 0 or the status to answer with; [lost] counts the lines
    dropped. *)
Fixpoint dissect_loop (fuel : nat) (m : mem) (hp : http) (lost p : Z) (htc : http_conn)
  : res (mem * http * Z * Z) :=
  let te := e (rxbuf htc) in
  if te <=? p then mret (m, hp, lost, 0) else
  match fuel with
  | O => Fail FFuel
  | S fuel =>
      '(m, q, r) ← find_end (Z.to_nat (te - p)) m te p p;
      if maxhdr htc <? q - p then mret (m, hp, lost + 1, 413) else
      if p =? q then mret (m, hp, lost, 0) else
      cond ← is_cond m p;
      let hp := if (cond : bool) then set_conds hp 1 else hp in
      q ← trim_sp (Z.to_nat (q - p)) m p q;
      m ← poke m q 0;
      if (nhd hp <? shd hp)%nat then
        hp ← set_hdf hp (nhd hp) 0;
        hp ← set_hd hp (nhd hp) (mkTxt p q);
        WSLH hp;;
        dissect_loop fuel m (set_nhd hp (S (nhd hp))) lost r htc
      else mret (m, hp, lost + 1, 413)
  end.

Definition http_dissect_hdrs (m : mem) (hp : http) (lost p : Z) (htc : http_conn)
  : res (mem * http * Z * Z) :=
  c ← peek m p;
  let p := if c =? 13 then p + 1 else p in
  let hp := set_conds (set_nhd hp HTTP_HDR_FIRST) 0 in
  dissect_loop (Z.to_nat (e (rxbuf htc) - p)) m hp lost p htc.

(** Scans up to an octet [stop] holds of; [None] when [bad] holds of one before
    it. *)
Fixpoint field (stop bad : Z -> bool) (m : mem) (fuel : nat) (p : Z) : res (option Z) :=
  c ← peek m p;
  if stop c then mret (Some p) else
  if bad c then mret None else
  match fuel with
  | O => Fail FFuel
  | S fuel => field stop bad m fuel (p + 1)
  end.

(** [m ?? k]: 400 on [None]. *)
Definition or400 {A} (o : option Z) (st : A) (k : Z -> res (A * Z)) : res (A * Z) :=
  match o with None => mret (st, 400) | Some p => k p end.

Definition not_sp (c : Z) : bool := negb (vct_issp c).

Definition http_splitline (m : mem) (hp : http) (lost : Z) (htc : http_conn)
    (h1 h2 h3 : nat) : res (mem * http * Z * Z) :=
  Tcheck (rxbuf htc);;
  (* Skip leading LWS *)
  p ← skip vct_islws m (b (rxbuf htc));
  (* First field cannot contain SP, CRLF or CTL *)
  let q := p in
  o ← field vct_issp vct_isctl m (size m) p;
  or400 o (m, hp, lost) (fun p =>
  hp ← set_hd hp h1 (mkTxt q p);
  (* Skip SP *)
  o ← field not_sp vct_isctl m (size m) p;
  or400 o (m, hp, lost) (fun p =>
  (* Second field cannot contain LWS or CTL *)
  let q := p in
  o ← field vct_islws vct_isctl m (size m) p;
  or400 o (m, hp, lost) (fun p =>
  hp ← set_hd hp h2 (mkTxt q p);
  l2 ← Tlen (mkTxt q p);
  if l2 =? 0 then mret (m, hp, lost, 413) else
  (* Skip SP *)
  o ← field not_sp vct_isctl m (size m) p;
  or400 o (m, hp, lost) (fun p =>
  (* Third field is optional and cannot contain CTL *)
  let q := p in
  o ← field vct_iscrlf (fun c => negb (vct_issep c) && vct_isctl c) m (size m) p;
  or400 o (m, hp, lost) (fun p =>
  hp ← set_hd hp h3 (mkTxt q p);
  (* Skip CRLF *)
  n ← skipcrlf m p;
  let p := p + n in
  t1 ← get_hd hp h1;
  m ← poke m (e t1) 0;
  WSLH hp;;
  t2 ← get_hd hp h2;
  m ← poke m (e t2) 0;
  t3 ← get_hd hp h3;
  m ← (if truth (e t3) then poke m (e t3) 0 else mret m);
  http_dissect_hdrs m hp lost p htc))))).

Definition http_ProtoVer (m : mem) (hp : http) : res http :=
  t ← get_hd hp HTTP_HDR_PROTO;
  v10 ← strcaseeq m (b t) (str "HTTP/1.0");
  v11 ← strcaseeq m (b t) (str "HTTP/1.1");
  mret (set_protover hp (if (v10 : bool) then 10 else if (v11 : bool) then 11 else 9)).

Definition http_DissectRequest (m : mem) (hp : http) (lost : Z) (htc : http_conn)
  : res (mem * http * Z * Z) :=
  let hp := set_logtag hp HTTP_Rx in
  '(m, hp, lost, retval) ← http_splitline m hp lost htc
    HTTP_HDR_REQ HTTP_HDR_URL HTTP_HDR_PROTO;
  if negb (retval =? 0) then mret (m, hp, lost, retval) else
  hp ← http_ProtoVer m hp;
  mret (m, hp, lost, retval).

(** The three digits: the sum, where the loop stopped, and whether all were
    digits. *)
Fixpoint status_loop (m : mem) (js : list Z) (st p : Z) : res (Z * Z * bool) :=
  match js with
  | [] => mret (st, p, true)
  | j :: js =>
      c ← peek m p;
      if negb (vct_isdigit c) then mret (st, p, false)
      else status_loop m js (u16 (st + j * (c - 48))) (p + 1)
  end.

Section Literals.

(** Where a string literal is. *)
Variable literal : list Z -> Z.

Definition http_DissectResponse (m : mem) (hp : http) (lost : Z) (htc : http_conn)
  : res (mem * http * Z * Z) :=
  let hp := set_logtag hp HTTP_Rx in
  '(m, hp, lost, r) ← http_splitline m hp lost htc
    HTTP_HDR_PROTO HTTP_HDR_STATUS HTTP_HDR_RESPONSE;
  let retval := if negb (r =? 0) then 503 else 0 in
  retval ← (if retval =? 0 then
      t ← get_hd hp HTTP_HDR_PROTO;
      same ← memeq m (b t) (str "HTTP/1.");
      mret (if (same : bool) then 0 else 503)
    else mret retval);
  retval ← (if retval =? 0 then
      t ← get_hd hp HTTP_HDR_STATUS;
      l ← Tlen t;
      mret (if l =? 3 then 0 else 503)
    else mret retval);
  '(hp, retval) ← (if retval =? 0 then
      t ← get_hd hp HTTP_HDR_STATUS;
      '(st, p, ok) ← status_loop m [100; 10; 1] 0 (b t);
      c ← peek m p;
      mret (set_status hp st, if (ok : bool) && (c =? 0) then 0 else 503)
    else mret (hp, retval));
  hp ← (if negb (retval =? 0) then
      vassert ((100 <=? retval) && (retval <=? 999));;
      mret (set_status hp retval)
    else http_ProtoVer m hp);
  t ← get_hd hp HTTP_HDR_RESPONSE;
  empty ← (if b t =? 0 then mret true else l ← Tlen t; mret (l =? 0));
  hp ← (if (empty : bool) then
      msg ← http_StatusMessage (status hp);
      let p := literal msg in
      q ← str_end m p;
      set_hd hp HTTP_HDR_RESPONSE (mkTxt p q)
    else mret hp);
  mret (m, hp, lost, retval).

(** ** Building a message *)

Definition http_SetH (m : mem) (to : http) (n : nat) (fm : Z) : res http :=
  vassert (n <? shd to)%nat;;
  vassert (truth fm);;
  q ← str_end m fm;
  to ← set_hd to n (mkTxt fm q);
  set_hdf to n 0.

Definition http_copyh (to fm : http) (n : nat) : res http :=
  vassert (n <? HTTP_HDR_FIRST)%nat;;
  t ← get_hd fm n;
  Tcheck t;;
  to ← set_hd to n t;
  f ← get_hdf fm n;
  set_hdf to n f.

Definition http_ForceGet (m : mem) (to : http) : res http :=
  p ← http_GetReq to;
  same ← streq m p (str "GET");
  if (same : bool) then mret to
  else http_SetH m to HTTP_HDR_REQ (literal (str "GET")).

Definition http_CopyResp (m : mem) (to fm : http) : res http :=
  to ← http_SetH m to HTTP_HDR_PROTO (literal (str "HTTP/1.1"));
  http_copyh (set_status to (status fm)) fm HTTP_HDR_RESPONSE.

Definition http_SetResp (m : mem) (to : http) (proto st response : Z) : res http :=
  to ← http_SetH m to HTTP_HDR_PROTO proto;
  vassert ((100 <=? st) && (st <=? 999));;
  http_SetH m (set_status to st) HTTP_HDR_RESPONSE response.

Definition http_copyheader (to fm : http) (lost : Z) (n : nat) : res (http * Z) :=
  vassert (n <? shd fm)%nat;;
  t ← get_hd fm n;
  Tcheck t;;
  if (nhd to <? shd to)%nat then
    to ← set_hd to (nhd to) t;
    to ← set_hdf to (nhd to) 0;
    mret (set_nhd to (S (nhd to)), lost)
  else mret (to, lost + 1).

(** The [HTTPH] tests of a filter operation: is the header suppressed? *)
Fixpoint suppressed (m : mem) (t : txt) (how : Z) (l : list (list Z * Z)) : res bool :=
  match l with
  | [] => mret false
  | (hdr, fl) :: l =>
      hit ← (if truth (Z.land fl how) then http_IsHdr m t hdr else mret false);
      if (hit : bool) then mret true else suppressed m t how l
  end.

(** Does slot [u] pass the filter? *)
Definition passes (m : mem) (fm : http) (how : Z) (u : nat) : res bool :=
  t ← get_hd fm u;
  if b t =? 0 then mret false else
  f ← get_hdf fm u;
  if truth (Z.land f HDF_FILTER) then mret false else
  s ← suppressed m t how HTTPH;
  mret (negb s).

Fixpoint estimate_loop (m : mem) (fm : http) (how : Z) (l : Z) (n : nat) (us : list nat)
  : res (Z * nat) :=
  match us with
  | [] => mret (l, n)
  | u :: us =>
      ok ← passes m fm how u;
      if (ok : bool) then
        t ← get_hd fm u;
        tl ← Tlen t;
        estimate_loop m fm how (u32 (l + Ws.PRNDUP (u32 (tl + 1)))) (S n) us
      else estimate_loop m fm how l n us
  end.

Definition http_EstimateWS (m : mem) (fm : http) (how : Z) : res (Z * nat) :=
  estimate_loop m fm how 0 HTTP_HDR_FIRST (seq 0 (nhd fm)).

Fixpoint filter_loop (m : mem) (to fm : http) (how lost : Z) (us : list nat)
  : res (http * Z) :=
  match us with
  | [] => mret (to, lost)
  | u :: us =>
      ok ← passes m fm how u;
      if (ok : bool) then
        '(to, lost) ← http_copyheader to fm lost u;
        filter_loop m to fm how lost us
      else filter_loop m to fm how lost us
  end.

Definition http_FilterFields (m : mem) (to fm : http) (how lost : Z) : res (http * Z) :=
  let to := set_status (set_nhd to HTTP_HDR_FIRST) (status fm) in
  filter_loop m to fm how lost (seq HTTP_HDR_FIRST (nhd fm - HTTP_HDR_FIRST)).

(** Copies to the message's own workspace what lies outside it. *)
Fixpoint copyhome_loop (m : mem) (w : Ws.ws) (hp : http) (lost : Z) (us : list nat)
  : res (mem * Ws.ws * http * Z) :=
  match us with
  | [] => mret (m, w, hp, lost)
  | u :: us =>
      t ← get_hd hp u;
      if b t =? 0 then copyhome_loop m w hp lost us else
      if (Ws.ws_s w <=? b t) && (e t <=? Ws.ws_e w) then
        WSLH hp;; copyhome_loop m w hp lost us
      else
        l ← Tlen t;
        '(w, p) ← Ws.WS_Alloc w (u32 (l + 1));
        if truth p then
          WSLH hp;;
          s ← region m (b t) (Z.to_nat (l + 1));
          m ← poke_all m p s;
          hp ← set_hd hp u (mkTxt p (p + l));
          copyhome_loop m w hp lost us
        else
          (* XXX This leaves a slot empty *)
          hp ← set_hd hp u no_txt;
          copyhome_loop m w hp (lost + 1) us
  end.

Definition http_CopyHome (m : mem) (w : Ws.ws) (hp : http) (lost : Z)
  : res (mem * Ws.ws * http * Z) :=
  copyhome_loop m w hp lost (seq 0 (nhd hp)).

Definition http_ClrHeader (to : http) : http :=
  mkHttp (logtag to) (replicate (shd to) no_txt) (hdf to) HTTP_HDR_FIRST 0 0 0.

Definition http_SetHeader (m : mem) (to : http) (lost hdr : Z) : res (http * Z) :=
  if (shd to <=? nhd to)%nat then mret (to, lost + 1) else
  to' ← http_SetH m (set_nhd to (S (nhd to))) (nhd to) hdr;
  mret (to', lost).

(** [string] is the octets of the string, which lies elsewhere. *)
Definition http_PutField (m : mem) (w : Ws.ws) (to : http) (f : nat) (string : list Z)
  : res (mem * Ws.ws * http) :=
  let l := u32 (Z.of_nat (length string)) in
  '(w, p) ← Ws.WS_Alloc w (u32 (l + 1));
  if p =? 0 then
    to ← set_hd to f no_txt;
    to ← set_hdf to f 0;
    mret (m, w, to)
  else
    m ← poke_all m p (take (Z.to_nat (l + 1)) (string ++ [0]));
    to ← set_hd to f (mkTxt p (p + l));
    to ← set_hdf to f 0;
    mret (m, w, to).

(** [http_PutField], and a literal when the workspace is full. *)
Definition put_or (m : mem) (w : Ws.ws) (to : http) (f : nat) (string fallback : list Z)
  : res (mem * Ws.ws * http) :=
  '(m, w, to) ← http_PutField m w to f string;
  t ← get_hd to f;
  to ← (if b t =? 0 then http_SetH m to f (literal fallback) else mret to);
  t ← get_hd to f;
  Tcheck t;;
  mret (m, w, to).

Definition http_PutProtocol m w to (protocol : list Z) :=
  put_or m w to HTTP_HDR_PROTO protocol (str "HTTP/1.1").

Definition http_PutStatus (to : http) (st : Z) : res http :=
  vassert ((100 <=? st) && (st <=? 999));; mret (set_status to st).

Definition http_PutResponse m w to (response : list Z) :=
  put_or m w to HTTP_HDR_RESPONSE response (str "Lost Response").

(** [text] is what the format makes of the arguments. *)
Definition http_PrintfHeader (m : mem) (w : Ws.ws) (to : http) (lost : Z) (text : list Z)
  : res (mem * Ws.ws * http * Z) :=
  '(w, l) ← Ws.WS_Reserve w 0;
  let n := Z.of_nat (length text) in
  m ← (if l =? 0 then mret m
       else poke_all m (Ws.ws_f w) (take (Z.to_nat (l - 1)) text ++ [0]));
  if (l <=? n + 1) || (shd to <=? nhd to)%nat then
    w ← Ws.WS_Release w 0;
    mret (m, w, to, lost + 1)
  else
    to ← set_hd to (nhd to) (mkTxt (Ws.ws_f w) (Ws.ws_f w + n));
    to ← set_hdf to (nhd to) 0;
    w ← Ws.WS_Release w (n + 1);
    mret (m, w, set_nhd to (S (nhd to)), lost).

(** [xid] is printed in decimal: [text]. *)
Definition http_FilterHeader (m : mem) (w : Ws.ws) (bereq rq : http) (how lost : Z)
    (text : list Z) : res (mem * Ws.ws * http * Z) :=
  let hp := set_logtag bereq HTTP_Tx in
  hp ← http_copyh hp rq HTTP_HDR_REQ;
  hp ← http_copyh hp rq HTTP_HDR_URL;
  hp ← (if how =? HTTPH_R_FETCH
        then http_SetH m hp HTTP_HDR_PROTO (literal (str "HTTP/1.1"))
        else http_copyh hp rq HTTP_HDR_PROTO);
  '(hp, lost) ← http_FilterFields m hp rq how lost;
  http_PrintfHeader m w hp lost (str "X-Varnish: " ++ text)%list.

End Literals.

(** The loop of [http_Unset]: [u] reads, [v] writes. *)
Fixpoint unset_loop (m : mem) (hp : http) (hdr : list Z) (v : nat) (us : list nat)
  : res (http * nat) :=
  match us with
  | [] => mret (hp, v)
  | u :: us =>
      t ← get_hd hp u;
      if b t =? 0 then unset_loop m hp hdr v us else
      hit ← http_IsHdr m t hdr;
      if (hit : bool) then unset_loop m hp hdr v us else
      hp ← (if bool_decide (v = u) then mret hp
            else hp ← set_hd hp v t; f ← get_hdf hp u; set_hdf hp v f);
      unset_loop m hp hdr (S v) us
  end.

Definition http_Unset (m : mem) (hp : http) (hdr : list Z) : res http :=
  '(hp, v) ← unset_loop m hp hdr HTTP_HDR_FIRST
    (seq HTTP_HDR_FIRST (nhd hp - HTTP_HDR_FIRST));
  mret (set_nhd hp v).

Definition HTTP_Copy (to fm : http) : res http :=
  vassert (nhd fm <=? shd to)%nat;;
  mret (mkHttp (logtag fm) (take (nhd fm) (hd fm) ++ drop (nhd fm) (hd to))
    (take (nhd fm) (hdf fm) ++ drop (nhd fm) (hdf to))
    (nhd fm) (status fm) (protover fm) (conds fm)).

End Http.
