(* ===== verification/HttpLines.v ===== *)
(** HTTP messages as lists of header lines: looking up, removing, filtering and
    collecting. *)
From S2P Require Import Prelude Vct Ws Mem Http.
Import Vct Mem Http.

Module HttpLines.

(** ** Lines in memory *)

(** The slot [t] holds the line [l], which a NUL follows. *)
Definition holds (m : mem) (t : txt) (l : list Z) : Prop :=
  0 < b t /\ e t = b t + Z.of_nat (length l) /\ mapped m (b t) (l ++ [0]) /\
  Z.of_nat (length l) < 2 ^ 32 - 1.

(** A header line and its [hdf] flags. *)
Notation line := (list Z * Z)%type.

Definition holds_line (m : mem) (t : txt) (f : Z) (x : line) : Prop :=
  holds m t (fst x) /\ f = snd x.

(** The header lines of [hp] are [ls]. *)
Record has_lines (m : mem) (hp : http) (ls : list line) : Prop := {
  hl_hdf : length (hdf hp) = length (hd hp);
  hl_nhd : nhd hp = (HTTP_HDR_FIRST + length ls)%nat;
  hl_shd : (nhd hp <= shd hp)%nat;
  hl_lines : forall i x, ls !! i = Some x ->
    exists t f, hd hp !! (HTTP_HDR_FIRST + i)%nat = Some t /\
      hdf hp !! (HTTP_HDR_FIRST + i)%nat = Some f /\ holds_line m t f x;
}.

(** [hdr], a name with its colon, is what the line starts with. *)
Fixpoint named (hdr l : list Z) : bool :=
  match hdr, l with
  | [], _ => true
  | x :: hdr, c :: l => (tolower x =? tolower c) && named hdr l
  | _ :: _, [] => false
  end.

(** A header name: it ends in its only colon, and has no NUL. *)
Definition header_name (hdr : list Z) : Prop :=
  last hdr = Some 58 /\ Forall (fun c => 0 < c) hdr.

Lemma holds_Tcheck m t l : holds m t l -> Tcheck t = Ok tt.
Proof.
  intros (Hb & He & _). unfold Tcheck.
  rewrite (vassert_true (truth (b t))), bind_Ret by (apply truth_true; lia).
  rewrite (vassert_true (truth (e t))), bind_Ret by (apply truth_true; lia).
  apply vassert_true. lia.
Qed.

Lemma holds_Tlen m t l : holds m t l -> Tlen t = Ok (Z.of_nat (length l)).
Proof.
  intros H. unfold Tlen. rewrite (holds_Tcheck m t l H), bind_Ret.
  destruct H as (Hb & -> & _ & Hl). unfold mret, res_ret. f_equal.
  rewrite u32_small by lia. lia.
Qed.

Lemma tolower_pos x : 0 < x -> tolower x =? tolower 0 = false.
Proof.
  intros Hx. unfold tolower. destruct ((65 <=? x) && (x <=? 90)); simpl; apply Z.eqb_neq; lia.
Qed.

Lemma tolower_colon c : (tolower 58 =? tolower c) = (c =? 58).
Proof.
  change (tolower 58) with 58. unfold tolower.
  destruct (Z.leb_spec 65 c), (Z.leb_spec c 90); cbn [andb]; try apply Z.eqb_sym.
  rewrite (proj2 (Z.eqb_neq 58 _)), (proj2 (Z.eqb_neq c 58)); [done|lia|lia].
Qed.

(** [strncasecmp] of a name with a line. *)
Lemma strncaseeq_named m hdr p l n :
  mapped m p (l ++ [0]) -> Forall (fun c => 0 < c) hdr -> (n <= length hdr)%nat ->
  strncaseeq m hdr p n = Ok (named (take n hdr) l).
Proof.
  revert hdr p l. induction n as [|n IH]; intros hdr p l Hm Hh Hn; [done|].
  destruct hdr as [|x hdr]; [simpl in Hn; lia|].
  apply Forall_cons in Hh as [Hx Hh]. simpl in Hn.
  simpl strncaseeq. simpl take. destruct l as [|c l].
  - apply mapped_cons in Hm as [H0 _]. rewrite (peek_ok _ _ _ H0), bind_Ret.
    rewrite tolower_pos by done. done.
  - simpl app in Hm. apply mapped_cons in Hm as [H0 Hm]. rewrite (peek_ok _ _ _ H0), bind_Ret.
    simpl named. destruct (tolower x =? tolower c); [|done].
    rewrite (proj2 (Z.eqb_neq x 0)) by lia. simpl andb. apply IH; [done|done|lia].
Qed.

Lemma IsHdr_ok m t l hdr :
  holds m t l -> header_name hdr -> http_IsHdr m t hdr = Ok (named hdr l).
Proof.
  intros H [Hlast Hpos]. unfold http_IsHdr. rewrite (holds_Tcheck m t l H), bind_Ret.
  rewrite vassert_true, bind_Ret by (by apply bool_decide_eq_true_2).
  destruct H as (_ & _ & Hm & _).
  rewrite (strncaseeq_named m hdr (b t) l) by done. by rewrite firstn_all.
Qed.

(** ** Looking a header up *)

Lemma slot m hp ls i x :
  has_lines m hp ls -> ls !! i = Some x ->
  exists t, get_hd hp (HTTP_HDR_FIRST + i) = Ok t /\
    get_hdf hp (HTTP_HDR_FIRST + i) = Ok (snd x) /\ holds m t (fst x).
Proof.
  intros H Hi. destruct (hl_lines _ _ _ H i x Hi) as (t & f & Ht & Hf & Hh & ->).
  exists t. unfold get_hd, get_hdf. by rewrite Ht, Hf.
Qed.

(** Names compared without, and then with, their colon. *)
Lemma named_split name l :
  named (name ++ [58]) l = named name l && bool_decide (l !! length name = Some 58).
Proof.
  revert l. induction name as [|x name IH]; intros l.
  - destruct l as [|c l]; [done|]. cbn [app named]. rewrite andb_true_r, tolower_colon. simpl.
    destruct (Z.eqb_spec c 58); [subst; by rewrite bool_decide_eq_true_2|].
    by rewrite bool_decide_eq_false_2 by congruence.
  - destruct l as [|c l]; [done|]. simpl. by rewrite IH, andb_assoc.
Qed.

Lemma named_length hdr l : named hdr l = true -> (length hdr <= length l)%nat.
Proof.
  revert l. induction hdr as [|x hdr IH]; intros [|c l]; simpl; try (done || lia).
  intros [_ H]%andb_true_iff. apply IH in H. lia.
Qed.

(** The first line of that name from the [i]-th on. *)
Fixpoint first_named (hdr : list Z) (ls : list line) (i : nat) : option (nat * list Z) :=
  match ls with
  | [] => None
  | x :: ls => if named hdr (fst x) then Some (i, fst x) else first_named hdr ls (S i)
  end.

Lemma findhdr_loop_ok m hp ls name (eq : Z -> res bool) n i :
  has_lines m hp ls -> (i + n = length ls)%nat ->
  (forall t l, holds m t l -> eq (b t) = Ok (named name l)) ->
  findhdr_loop m hp (Z.of_nat (length name)) eq n (HTTP_HDR_FIRST + i) =
  Ok match first_named (name ++ [58]) (drop i ls) i with
     | Some (j, _) => (HTTP_HDR_FIRST + j)%nat
     | None => 0%nat
     end.
Proof.
  intros H. revert i. induction n as [|n IH]; intros i Hi Heq.
  - rewrite drop_ge by lia. done.
  - destruct (lookup_lt_is_Some_2 ls i) as [x Hx]; [lia|].
    rewrite (drop_S _ _ _ Hx). cbn [findhdr_loop first_named].
    destruct (slot m hp ls i x H Hx) as (t & Ht & _ & Hh).
    rewrite Ht, bind_Ret, (holds_Tcheck m t _ Hh), bind_Ret.
    rewrite named_split. pose proof Hh as (Hb & He & Hm & _).
    replace (S (HTTP_HDR_FIRST + i))%nat with (HTTP_HDR_FIRST + S i)%nat by lia.
    specialize (IH (S i) ltac:(lia) Heq).
    destruct (Z.ltb_spec (e t) (b t + Z.of_nat (length name) + 1)) as [Hlt|Hge].
    { rewrite IH. rewrite (lookup_ge_None_2 (fst x)) by lia.
      rewrite bool_decide_eq_false_2 by done. by rewrite andb_false_r. }
    destruct (lookup_lt_is_Some_2 (fst x) (length name)) as [c Hc]; [lia|].
    assert (Hp : peek m (b t + Z.of_nat (length name)) = Ok c).
    { apply peek_ok. apply Hm. by apply lookup_app_l_Some. }
    rewrite Hp, bind_Ret, Hc.
    destruct (Z.eqb_spec c 58) as [->|Hne]; simpl negb; cbv iota.
    + rewrite (Heq t _ Hh), bind_Ret. rewrite bool_decide_eq_true_2, andb_true_r by done.
      destruct (named name (fst x)); simpl negb; cbv iota; [done|exact IH].
    + rewrite bool_decide_eq_false_2, andb_false_r by congruence. exact IH.
Qed.

Lemma first_named_lookup hdr pre ls :
  match first_named hdr ls (length pre) with
  | Some (j, l) => exists f, (pre ++ ls) !! j = Some (l, f) /\ named hdr l = true
  | None => True
  end.
Proof.
  revert pre. induction ls as [|x ls IH]; intros pre; [done|]. simpl.
  destruct (named hdr (fst x)) eqn:Ex.
  - exists (snd x). split; [|done]. rewrite list_lookup_middle by done. by destruct x.
  - specialize (IH (pre ++ [x])). rewrite <- app_assoc, length_app in IH. simpl in IH.
    by rewrite Nat.add_1_r in IH.
Qed.

(** The value of a line: what follows the name and spaces. *)
Fixpoint drop_while (P : Z -> bool) (l : list Z) : list Z :=
  match l with
  | [] => []
  | c :: l' => if P c then drop_while P l' else l
  end.

Definition value (hdr l : list Z) : list Z := drop_while vct_issp (drop (length hdr) l).

Lemma drop_while_split P l :
  exists l1, l = l1 ++ drop_while P l /\ Forall (fun c => P c = true) l1 /\
    match drop_while P l with c :: _ => P c = false | [] => True end.
Proof.
  induction l as [|c l (l1 & E & H1 & H2)]; simpl; [by exists []|].
  destruct (P c) eqn:Ec.
  - exists (c :: l1). simpl. split; [by f_equal|]. split; [|done].
    by constructor.
  - exists []. done.
Qed.

(** Skipping within a string ends at its NUL at the latest. *)
Lemma skip_string P m p l :
  mapped m p (l ++ [0]) -> P 0 = false ->
  exists l1, skip P m p = Ok (p + Z.of_nat (length l1)) /\ l = l1 ++ drop_while P l /\
    mapped m (p + Z.of_nat (length l1)) (drop_while P l ++ [0]).
Proof.
  intros Hm H0. destruct (drop_while_split P l) as (l1 & E & H1 & H2).
  exists l1. rewrite E, <- app_assoc in Hm. split; [|split; [done|by apply mapped_app in Hm as [_ ?]]].
  destruct (drop_while P l) as [|c r].
  - by apply (skip_run P m p l1 0).
  - apply (skip_run P m p l1 c); try done.
    change (c :: r) with ([c] ++ r) in Hm. rewrite <- app_assoc, app_assoc in Hm.
    by apply mapped_app in Hm as [? _].
Qed.

Lemma issp_0 : vct_issp 0 = false.
Proof. by vm_compute. Qed.

Lemma header_split hdr : header_name hdr -> exists name, hdr = name ++ [58].
Proof. intros [Hl _]. by apply last_Some in Hl. Qed.

Lemma GetHdr_ok m hp ls hdr :
  has_lines m hp ls -> header_name hdr ->
  exists r, http_GetHdr m hp hdr = Ok r /\
  match first_named hdr ls 0, r with
  | None, None => True
  | Some (_, l), Some p => mapped m p (value hdr l ++ [0])
  | _, _ => False
  end.
Proof.
  intros H Hn. destruct (header_split _ Hn) as [name ->]. destruct Hn as [Hlast Hpos].
  unfold http_GetHdr. rewrite vassert_true, bind_Ret by (by apply bool_decide_eq_true_2).
  cbv zeta. rewrite length_app. simpl length.
  replace (Z.of_nat (length name + 1) - 1) with (Z.of_nat (length name)) by lia.
  replace (length name + 1 - 1)%nat with (length name) by lia.
  unfold http_findhdr. rewrite (hl_nhd _ _ _ H).
  replace (HTTP_HDR_FIRST + length ls - HTTP_HDR_FIRST)%nat with (length ls) by lia.
  change HTTP_HDR_FIRST with (HTTP_HDR_FIRST + 0)%nat.
  rewrite (findhdr_loop_ok m hp ls name _ (length ls) 0 H); [|lia|].
  2:{ intros t l (_ & _ & Hm & _). rewrite (strncaseeq_named m _ _ l) by (done || (rewrite length_app; lia)).
      by rewrite take_app_length. }
  rewrite bind_Ret, drop_0.
  pose proof (first_named_lookup (name ++ [58]) [] ls) as Hidx. simpl in Hidx.
  destruct (first_named (name ++ [58]) ls 0) as [[j l]|].
  - destruct Hidx as (f & Hj & Hnm).
    rewrite bool_decide_eq_false_2 by (unfold HTTP_HDR_FIRST; lia).
    destruct (slot m hp ls j (l, f) H Hj) as (t & Ht & _ & Hh). rewrite Ht, bind_Ret.
    destruct Hh as (_ & _ & Hm & _). simpl in Hm.
    pose proof (named_length _ _ Hnm) as Hlen. rewrite length_app in Hlen. simpl in Hlen.
    assert (Hm' : mapped m (b t + Z.of_nat (length name + 1)) (drop (length name + 1) l ++ [0])).
    { rewrite <- (take_drop (length name + 1) l), <- app_assoc in Hm.
      apply mapped_app in Hm as [_ Hm]. rewrite length_take, Nat.min_l in Hm by lia. done. }
    destruct (skip_string vct_issp m _ _ Hm' issp_0) as (l1 & -> & E & Hv).
    rewrite bind_Ret. eexists. split; [done|]. unfold value. by rewrite length_app.
  - rewrite bool_decide_eq_true_2 by done. by exists None.
Qed.

(** ** Slots *)

(** The slots from [i] on hold [ls]. *)
Definition slots (m : mem) (hp : http) (i : nat) (ls : list line) : Prop :=
  forall k x, ls !! k = Some x ->
    exists t f, hd hp !! (i + k)%nat = Some t /\ hdf hp !! (i + k)%nat = Some f /\
      holds_line m t f x.

Lemma slots_nil m hp i : slots m hp i [].
Proof. by intros k x ?. Qed.

Lemma slots_cons m hp i x ls :
  slots m hp i (x :: ls) <->
  (exists t f, hd hp !! i = Some t /\ hdf hp !! i = Some f /\ holds_line m t f x) /\
  slots m hp (S i) ls.
Proof.
  split.
  - intros H. split.
    + specialize (H 0%nat x eq_refl). by rewrite Nat.add_0_r in H.
    + intros k y Hk. specialize (H (S k) y Hk). by rewrite Nat.add_succ_r in H.
  - intros [H0 H] [|k] y Hk; simpl in Hk.
    + injection Hk as <-. by rewrite Nat.add_0_r.
    + rewrite Nat.add_succ_r. by apply H.
Qed.

Lemma slots_app m hp i l1 l2 :
  slots m hp i (l1 ++ l2) <-> slots m hp i l1 /\ slots m hp (i + length l1) l2.
Proof.
  revert i. induction l1 as [|x l1 IH]; intros i; simpl app.
  - simpl. rewrite Nat.add_0_r. split; [|tauto]. intros H. split; [apply slots_nil|done].
  - rewrite !slots_cons, IH. simpl. rewrite Nat.add_succ_r. tauto.
Qed.

(** [hp'] differs from [hp] in its lines only. *)
Record lines_only (hp hp' : http) : Prop := {
  lo_hd : length (hd hp') = length (hd hp);
  lo_hdf : length (hdf hp') = length (hdf hp);
  lo_logtag : logtag hp' = logtag hp;
  lo_status : status hp' = status hp;
  lo_protover : protover hp' = protover hp;
  lo_conds : conds hp' = conds hp;
  lo_first : forall u, (u < HTTP_HDR_FIRST)%nat ->
    hd hp' !! u = hd hp !! u /\ hdf hp' !! u = hdf hp !! u;
}.

Lemma lines_only_refl hp : lines_only hp hp.
Proof. by split. Qed.

Lemma lines_only_trans a b c : lines_only a b -> lines_only b c -> lines_only a c.
Proof.
  intros [? ? ? ? ? ? A] [? ? ? ? ? ? B]. split; try congruence.
  intros u Hu. destruct (A u Hu) as [<- <-]. by apply B.
Qed.

(** Writing a slot and its flags. *)
Lemma set_slot hp v t f :
  (HTTP_HDR_FIRST <= v < shd hp)%nat -> length (hdf hp) = length (hd hp) ->
  exists hp', (hp ← set_hd hp v t; set_hdf hp v f) = Ok hp' /\ lines_only hp hp' /\
    nhd hp' = nhd hp /\ hd hp' = <[v := t]> (hd hp) /\ hdf hp' = <[v := f]> (hdf hp).
Proof.
  intros Hv Hl. unfold shd in Hv. unfold set_hd, set_hdf.
  rewrite (proj2 (Nat.ltb_lt v (length (hd hp)))) by lia. simpl.
  rewrite (proj2 (Nat.ltb_lt v (length (hdf hp)))) by lia.
  eexists. split; [reflexivity|]. split; [|done]. split; simpl; try done.
  - apply length_insert.
  - apply length_insert.
  - intros u Hu. rewrite !list_lookup_insert_ne by lia. done.
Qed.

Lemma slots_insert m hp hp' v t f x ls i :
  hd hp' = <[v := t]> (hd hp) -> hdf hp' = <[v := f]> (hdf hp) ->
  (v < length (hd hp))%nat -> length (hdf hp) = length (hd hp) ->
  holds_line m t f x -> (i + length ls = v)%nat -> slots m hp i ls ->
  slots m hp' i (ls ++ [x]).
Proof.
  intros Eh Ef Hv Hl Hx Hi Hs. apply slots_app. split.
  - intros k y Hk. pose proof (lookup_lt_Some _ _ _ Hk).
    rewrite Eh, Ef, !list_lookup_insert_ne by lia. by apply Hs.
  - rewrite Hi. apply slots_cons. split; [|apply slots_nil].
    exists t, f. rewrite Eh, Ef, !list_lookup_insert_eq by lia. done.
Qed.

Lemma slots_later m hp hp' v t f ls i :
  hd hp' = <[v := t]> (hd hp) -> hdf hp' = <[v := f]> (hdf hp) ->
  (v < i)%nat -> slots m hp i ls -> slots m hp' i ls.
Proof.
  intros Eh Ef Hv Hs k y Hk. rewrite Eh, Ef, !list_lookup_insert_ne by lia. by apply Hs.
Qed.

(** ** Removing a header *)

Lemma unset_loop_ok m hdr rest : header_name hdr ->
  forall hp kept u,
  slots m hp HTTP_HDR_FIRST kept -> slots m hp u rest ->
  (HTTP_HDR_FIRST + length kept <= u)%nat -> (u + length rest <= shd hp)%nat ->
  length (hdf hp) = length (hd hp) ->
  exists hp', unset_loop m hp hdr (HTTP_HDR_FIRST + length kept) (seq u (length rest)) =
      Ok (hp', HTTP_HDR_FIRST +
           length (kept ++ filter (fun x => named hdr (fst x) = false) rest))%nat /\
    slots m hp' HTTP_HDR_FIRST (kept ++ filter (fun x => named hdr (fst x) = false) rest) /\
    lines_only hp hp'.
Proof.
  intros Hn. induction rest as [|x rest IH]; intros hp kept u Hk Hr Hu Hs Hl.
  - exists hp. rewrite app_nil_r. split; [done|]. split; [done|apply lines_only_refl].
  - apply slots_cons in Hr as [(t & f & Ht & Hf & Hh & ->) Hr].
    cbn [length seq unset_loop]. simpl length in Hs.
    unfold get_hd at 1. rewrite Ht. change (deref (Some t)) with (Ok t). rewrite bind_Ret.
    pose proof Hh as (Hb & _ & _). rewrite (proj2 (Z.eqb_neq (b t) 0)) by lia.
    rewrite (IsHdr_ok m t (fst x) hdr Hh Hn), bind_Ret.
    destruct (named hdr (fst x)) eqn:Ex; cbv iota.
    { rewrite filter_cons_False by congruence. apply (IH hp kept (S u)); try done; lia. }
    rewrite filter_cons_True by done.
    replace (kept ++ x :: filter (fun x => named hdr (fst x) = false) rest)
      with ((kept ++ [x]) ++ filter (fun x => named hdr (fst x) = false) rest)
      by (by rewrite <- app_assoc).
    set (v := (HTTP_HDR_FIRST + length kept)%nat) in *.
    replace (S v) with (HTTP_HDR_FIRST + length (kept ++ [x]))%nat
      by (unfold v; rewrite length_app; simpl; lia).
    destruct (decide (v = u)) as [Evu|Hvu].
    + rewrite bool_decide_eq_true_2 by done. unfold mret at 1, res_ret at 1. rewrite bind_Ret.
      apply (IH hp (kept ++ [x]) (S u)); try done; [|unfold v in *; rewrite length_app; cbn [length]; lia|lia].
      apply slots_app. split; [done|]. fold v. rewrite Evu. apply slots_cons. split; [|apply slots_nil].
      exists t, (snd x). done.
    + rewrite bool_decide_eq_false_2 by done. unfold get_hdf.
      destruct (set_slot hp v t (snd x)) as (hp1 & E & Hlo & Hn1 & E1 & E2); [lia|done|].
      apply bind_Ok in E as (hp0 & E0 & E). rewrite E0, bind_Ret.
      assert (Hf0 : hdf hp0 !! u = Some (snd x)).
      { unfold set_hd in E0. destruct (v <? length (hd hp))%nat; [|done].
        injection E0 as <-. done. }
      rewrite Hf0. change (deref (Some (snd x))) with (Ok (snd x)). rewrite bind_Ret, E, bind_Ret.
      unfold shd in *.
      destruct (IH hp1 (kept ++ [x]) (S u)) as (hp2 & E3 & S2 & L2).
      * eapply slots_insert; [exact E1|exact E2|lia|done| |reflexivity|done]. done.
      * eapply slots_later; [exact E1|exact E2|lia|done].
      * unfold v in *. rewrite length_app. cbn [length]. lia.
      * rewrite (lo_hd _ _ Hlo). lia.
      * by rewrite (lo_hd _ _ Hlo), (lo_hdf _ _ Hlo).
      * exists hp2. split; [exact E3|]. split; [done|]. by eapply lines_only_trans.
Qed.

Lemma has_lines_slots m hp ls : has_lines m hp ls -> slots m hp HTTP_HDR_FIRST ls.
Proof. intros H. exact (hl_lines _ _ _ H). Qed.

Lemma Unset_ok m hp ls hdr :
  has_lines m hp ls -> header_name hdr ->
  exists hp', http_Unset m hp hdr = Ok hp' /\
    has_lines m hp' (filter (fun x => named hdr (fst x) = false) ls) /\ lines_only hp hp'.
Proof.
  intros H Hn. unfold http_Unset. rewrite (hl_nhd _ _ _ H).
  replace (HTTP_HDR_FIRST + length ls - HTTP_HDR_FIRST)%nat with (length ls) by lia.
  destruct (unset_loop_ok m hdr ls Hn hp [] HTTP_HDR_FIRST) as (hp' & E & Hs & Hlo).
  - apply slots_nil.
  - by apply has_lines_slots.
  - cbn [length]. lia.
  - pose proof (hl_shd _ _ _ H). by rewrite (hl_nhd _ _ _ H) in *.
  - apply H.
  - change (HTTP_HDR_FIRST + length (@nil line))%nat with HTTP_HDR_FIRST in E.
    rewrite E, bind_Ret. cbv beta iota. eexists. split; [reflexivity|].
    split; [|by destruct Hlo; split].
    split; [simpl; by rewrite (lo_hd _ _ Hlo), (lo_hdf _ _ Hlo); apply H|done| |exact Hs].
    unfold shd. cbn [nhd set_nhd hd app]. rewrite (lo_hd _ _ Hlo). pose proof (hl_shd _ _ _ H) as Hsh.
    rewrite (hl_nhd _ _ _ H) in Hsh. unfold shd in Hsh.
    pose proof (length_filter (fun x : line => named hdr (fst x) = false) ls). lia.
Qed.

(** ** Filtering *)

(** The line survives the filter operation [how]. *)
Definition keep (how : Z) (x : line) : bool :=
  negb (truth (Z.land (snd x) HDF_FILTER)) &&
  negb (existsb (fun h => truth (Z.land (snd h) how) && named (fst h) (fst x)) HTTPH).

Definition header_name_b (hdr : list Z) : bool :=
  bool_decide (last hdr = Some 58) && forallb (fun c => 0 <? c) hdr.

Lemma header_name_b_ok hdr : header_name_b hdr = true -> header_name hdr.
Proof.
  unfold header_name_b. intros [H1 H2]%andb_true_iff. split; [exact (bool_decide_eq_true_1 _ H1)|].
  rewrite forallb_forall in H2. apply Forall_forall. intros c Hc.
  apply Z.ltb_lt, H2. by apply list_elem_of_In.
Qed.

Lemma HTTPH_names : Forall (fun h => header_name (fst h)) HTTPH.
Proof.
  apply Forall_forall. intros h Hh. apply header_name_b_ok.
  assert (Hb : forallb (fun h => header_name_b (fst h)) HTTPH = true) by (by vm_compute).
  rewrite forallb_forall in Hb. apply Hb. by apply list_elem_of_In.
Qed.

Lemma suppressed_ok m t l how tbl :
  holds m t l -> Forall (fun h => header_name (fst h)) tbl ->
  suppressed m t how tbl =
  Ok (existsb (fun h => truth (Z.land (snd h) how) && named (fst h) l) tbl).
Proof.
  intros H. induction 1 as [|[hdr fl] tbl Hn Htbl IH]; [done|]. simpl.
  destruct (truth (Z.land fl how)); simpl.
  - rewrite (IsHdr_ok m t l hdr H Hn), bind_Ret. destruct (named hdr l); [done|exact IH].
  - exact IH.
Qed.

Lemma passes_ok m fm how u t x :
  hd fm !! u = Some t -> hdf fm !! u = Some (snd x) -> holds m t (fst x) ->
  passes m fm how u = Ok (keep how x).
Proof.
  intros Ht Hf Hh. unfold passes, get_hd, get_hdf, keep. rewrite Ht, Hf. simpl deref.
  rewrite bind_Ret. pose proof Hh as (Hb & _). rewrite (proj2 (Z.eqb_neq (b t) 0)) by lia.
  rewrite bind_Ret. destruct (truth (Z.land (snd x) HDF_FILTER)); [done|].
  rewrite (suppressed_ok m t (fst x) how HTTPH Hh HTTPH_names), bind_Ret. done.
Qed.

(** Copied lines have no flags. *)
Definition plain (x : line) : line := (fst x, 0).

Lemma copyheader_ok m to fm lost u t x kept :
  hd fm !! u = Some t -> holds m t (fst x) ->
  length (hdf to) = length (hd to) -> nhd to = (HTTP_HDR_FIRST + length kept)%nat ->
  (nhd to <= shd to)%nat -> slots m to HTTP_HDR_FIRST kept ->
  let kept' := if (nhd to <? shd to)%nat then kept ++ [plain x] else kept in
  let lost' := if (nhd to <? shd to)%nat then lost else lost + 1 in
  exists to', http_copyheader to fm lost u = Ok (to', lost') /\ lines_only to to' /\
    slots m to' HTTP_HDR_FIRST kept' /\ nhd to' = (HTTP_HDR_FIRST + length kept')%nat.
Proof.
  intros Ht Hh Hl Hn Hsh Hs kept' lost'. unfold http_copyheader.
  assert (u < shd fm)%nat by (by eapply lookup_lt_Some).
  rewrite vassert_true, bind_Ret by (by apply Nat.ltb_lt).
  unfold get_hd. rewrite Ht. change (deref (Some t)) with (Ok t). rewrite bind_Ret.
  rewrite (holds_Tcheck m t _ Hh), bind_Ret. unfold kept', lost'.
  destruct (Nat.ltb_spec (nhd to) (shd to)) as [Hlt|Hge].
  - destruct (set_slot to (nhd to) t 0) as (to1 & E & Hlo & Hn1 & E1 & E2); [lia|done|].
    apply bind_Ok in E as (to0 & E0 & E). rewrite E0, bind_Ret.
    assert (Hn0 : nhd to0 = nhd to).
    { unfold set_hd in E0. destruct (nhd to <? length (hd to))%nat; [|done]. by injection E0 as <-. }
    rewrite Hn0, E, bind_Ret, Hn1. eexists. split; [reflexivity|].
    split; [by destruct Hlo; split|]. unfold shd in Hlt. split.
    + refine (slots_insert m to (set_nhd to1 _) (nhd to) t 0 (plain x) kept HTTP_HDR_FIRST E1 E2
        Hlt Hl _ _ Hs); [done|by rewrite Hn].
    + rewrite length_app. cbn [nhd set_nhd length]. lia.
  - exists to. split; [done|]. split; [apply lines_only_refl|]. done.
Qed.

Lemma filter_loop_ok m how rest : forall to fm lost kept u,
  slots m fm u rest -> slots m to HTTP_HDR_FIRST kept ->
  length (hdf to) = length (hd to) -> nhd to = (HTTP_HDR_FIRST + length kept)%nat ->
  (nhd to <= shd to)%nat ->
  let passed := map plain (filter (fun x => keep how x = true) rest) in
  let room := (shd to - nhd to)%nat in
  exists to', filter_loop m to fm how lost (seq u (length rest)) =
      Ok (to', lost + Z.of_nat (length (drop room passed))) /\
    lines_only to to' /\ slots m to' HTTP_HDR_FIRST (kept ++ take room passed) /\
    nhd to' = (HTTP_HDR_FIRST + length (kept ++ take room passed))%nat.
Proof.
  induction rest as [|x rest IH]; intros to fm lost kept u Hr Hs Hl Hn Hsh passed room; unfold passed, room; clear passed room.
  - exists to. cbn [map filter list_filter].
    rewrite drop_nil, take_nil, app_nil_r. simpl length. rewrite Z.add_0_r.
    split; [done|]. split; [apply lines_only_refl|]. done.
  - apply slots_cons in Hr as [(t & f & Ht & Hf & Hh & ->) Hr].
    cbn [length seq filter_loop]. rewrite (passes_ok m fm how u t x Ht Hf Hh), bind_Ret.
    destruct (keep how x) eqn:Ek.
    + rewrite filter_cons_True by done. cbn [map].
      destruct (copyheader_ok m to fm lost u t x kept Ht Hh Hl Hn Hsh Hs)
        as (to1 & E & Hlo1 & Hs1 & Hn1).
      rewrite E, bind_Ret. cbv beta iota.
      assert (Hsh1 : shd to1 = shd to) by apply Hlo1.
      assert (Hl1 : length (hdf to1) = length (hd to1))
        by (by rewrite (lo_hd _ _ Hlo1), (lo_hdf _ _ Hlo1)).
      destruct (Nat.ltb_spec (nhd to) (shd to)) as [Hlt|Hge].
      * destruct (IH to1 fm lost (kept ++ [plain x]) (S u) Hr Hs1 Hl1 Hn1)
          as (to2 & E2 & Hlo2 & Hs2 & Hn2).
        { rewrite Hn1, Hsh1, length_app. cbn [length]. lia. }
        assert (Er : (shd to - nhd to)%nat = S (shd to1 - nhd to1)).
        { rewrite Hn1, Hsh1, length_app, Hn. cbn [length]. lia. }
        rewrite Er. cbn [take drop firstn skipn]. rewrite <- app_assoc in Hs2, Hn2.
        exists to2. split; [exact E2|]. split; [by eapply lines_only_trans|done].
      * destruct (IH to1 fm (lost + 1) kept (S u) Hr Hs1 Hl1 Hn1) as (to2 & E2 & Hlo2 & Hs2 & Hn2).
        { rewrite Hn1, Hsh1. lia. }
        assert (Er : (shd to1 - nhd to1)%nat = 0%nat) by (rewrite Hn1, Hsh1; lia).
        assert (Er0 : (shd to - nhd to)%nat = 0%nat) by lia.
        rewrite Er in E2, Hs2, Hn2. rewrite Er0.
        rewrite drop_0 in E2 |- *. rewrite take_0 in *. exists to2.
        split; [rewrite E2; do 2 f_equal; cbn [length]; lia|].
        split; [by eapply lines_only_trans|done].
    + rewrite filter_cons_False by congruence. by apply IH.
Qed.

Lemma FilterFields_ok m to fm how lost ls :
  has_lines m fm ls -> length (hdf to) = length (hd to) -> (HTTP_HDR_FIRST <= shd to)%nat ->
  let passed := map plain (filter (fun x => keep how x = true) ls) in
  let room := (shd to - HTTP_HDR_FIRST)%nat in
  exists to', http_FilterFields m to fm how lost =
      Ok (to', lost + Z.of_nat (length (drop room passed))) /\
    has_lines m to' (take room passed) /\ status to' = status fm.
Proof.
  intros H Hl Hsh passed room. unfold http_FilterFields. rewrite (hl_nhd _ _ _ H).
  replace (HTTP_HDR_FIRST + length ls - HTTP_HDR_FIRST)%nat with (length ls) by lia.
  set (to0 := set_status _ _).
  destruct (filter_loop_ok m how ls to0 fm lost [] HTTP_HDR_FIRST) as (to' & E & Hlo & Hs & Hn).
  - by apply has_lines_slots.
  - apply slots_nil.
  - done.
  - done.
  - done.
  - exists to'. split; [exact E|]. split; [|by rewrite (lo_status _ _ Hlo)].
    cbn [app] in Hs, Hn. split; [|exact Hn| |exact Hs].
    + by rewrite (lo_hd _ _ Hlo), (lo_hdf _ _ Hlo).
    + rewrite Hn, length_take. unfold shd in *. rewrite (lo_hd _ _ Hlo).
      change (nhd to0) with HTTP_HDR_FIRST. change (hd to0) with (hd to). lia.
Qed.

End HttpLines.
