(* ===== verification/HttpDissect.v ===== *)
(** Dissecting what was received: the routines stay within the receive buffer and
    leave a well-formed message, whatever the octets are. *)
From S2P Require Import Prelude Vct Ws Mem Http HttpLines.
Import Vct Mem Http HttpLines.

Module HttpDissect.

(** ** The receive buffer *)

(** [m] is [m0] but for the octets from [lo] up to [te], where a NUL is. *)
Record buf (m0 : mem) (lo te : Z) (m : mem) : Prop := {
  buf_in : forall a, lo <= a <= te -> is_Some (m !! a);
  buf_nul : m !! te = Some 0;
  buf_out : forall a, a < lo \/ te < a -> m !! a = m0 !! a;
}.

Lemma buf_poke m0 lo te m p v :
  buf m0 lo te m -> lo <= p <= te -> (p = te -> v = 0) ->
  poke m p v = Ok (<[p := v]> m) /\ buf m0 lo te (<[p := v]> m).
Proof.
  intros [Hi Hn Ho] Hp Hv. unfold poke. destruct (Hi p Hp) as [x ->]. split; [done|]. split.
  - intros a Ha. destruct (decide (a = p)) as [->|].
    + rewrite lookup_insert_eq. by eexists.
    + rewrite lookup_insert_ne by done. by apply Hi.
  - destruct (decide (p = te)) as [->|].
    + rewrite lookup_insert_eq. by rewrite Hv.
    + by rewrite lookup_insert_ne by done.
  - intros a Ha. rewrite lookup_insert_ne by lia. by apply Ho.
Qed.

Lemma buf_peek m0 lo te m p :
  buf m0 lo te m -> lo <= p <= te -> exists c, m !! p = Some c /\ peek m p = Ok c.
Proof. intros H Hp. destruct (buf_in _ _ _ _ H p Hp) as [c Hc]. exists c. by rewrite (peek_ok _ _ _ Hc). Qed.

(** The octets from [p] on, up to the NUL at the end. *)
Lemma buf_list m0 lo te m p :
  buf m0 lo te m -> lo <= p <= te ->
  exists l, mapped m p (l ++ [0]) /\ te = p + Z.of_nat (length l).
Proof.
  intros H Hp. remember (Z.to_nat (te - p)) as n eqn:En. revert p Hp En.
  induction n as [|n IH]; intros p Hp En.
  - assert (p = te) as -> by lia. exists []. split; [|simpl; lia].
    apply mapped_cons. split; [apply H|]. by intros i c ?.
  - destruct (buf_peek _ _ _ _ p H Hp) as (c & Hc & _).
    destruct (IH (p + 1)) as (l & Hl & E); [lia|lia|].
    exists (c :: l). split; [by apply mapped_cons|simpl length; lia].
Qed.

(** The octets between two addresses satisfy [P]. *)
Definition span (P : Z -> Prop) (m : mem) (p q : Z) : Prop :=
  forall a, p <= a < q -> exists c, m !! a = Some c /\ P c.

Lemma mapped_span (P : Z -> Prop) m p l :
  mapped m p l -> Forall P l -> span P m p (p + Z.of_nat (length l)).
Proof.
  intros Hm Hl a Ha. destruct (lookup_lt_is_Some_2 l (Z.to_nat (a - p))) as [c Hc]; [lia|].
  exists c. split; [|by eapply Forall_lookup_1]. rewrite <- (Hm _ _ Hc). f_equal. lia.
Qed.

Lemma skip_in P m0 lo te m p :
  buf m0 lo te m -> lo <= p <= te -> P 0 = false ->
  exists q, skip P m p = Ok q /\ p <= q <= te.
Proof.
  intros H Hp H0. destruct (buf_list _ _ _ _ p H Hp) as (l & Hm & E).
  destruct (skip_string P m p l Hm H0) as (l1 & Es & El & _).
  exists (p + Z.of_nat (length l1)). split; [done|]. rewrite El, length_app in E. lia.
Qed.

Lemma field_list stop bad m p l fuel :
  mapped m p (l ++ [0]) -> stop 0 = true \/ bad 0 = true -> (length l <= fuel)%nat ->
  exists o, field stop bad m fuel p = Ok o /\
  match o with
  | None => True
  | Some q => p <= q <= p + Z.of_nat (length l) /\
      (exists c, m !! q = Some c /\ stop c = true) /\
      span (fun c => stop c = false /\ bad c = false) m p q
  end.
Proof.
  intros Hm H0 Hf. revert p fuel Hm Hf. induction l as [|c l IH]; intros p fuel Hm Hf.
  - apply mapped_cons in Hm as [Hc _]. destruct fuel; simpl;
      rewrite (peek_ok _ _ _ Hc), bind_Ret.
    all: destruct (stop 0) eqn:Es;
      [exists (Some p); split; [done|]; split; [lia|]; split; [by exists 0|intros a Ha; lia]|].
    all: destruct H0 as [?| ->]; [done|by exists None].
  - apply mapped_cons in Hm as [Hc Hm]. destruct fuel as [|fuel]; [simpl in Hf; lia|].
    simpl. rewrite (peek_ok _ _ _ Hc), bind_Ret. destruct (stop c) eqn:Es.
    { exists (Some p). split; [done|]. split; [lia|]. split; [by exists c|]. intros a Ha; lia. }
    destruct (bad c) eqn:Eb; [by exists None|].
    destruct (IH (p + 1) fuel Hm) as (o & Eo & Ho); [simpl in Hf; lia|]. exists o. split; [done|].
    destruct o as [q|]; [|done]. destruct Ho as (Hq & Hs & Hsp).
    split; [lia|]. split; [done|]. intros a Ha.
    destruct (decide (a = p)) as [->|]; [by exists c|apply Hsp; lia].
Qed.

Lemma field_in stop bad m0 lo te m p :
  buf m0 lo te m -> lo <= p <= te -> stop 0 = true \/ bad 0 = true ->
  exists o, field stop bad m (size m) p = Ok o /\
  match o with
  | None => True
  | Some q => p <= q <= te /\ (exists c, m !! q = Some c /\ stop c = true) /\
      span (fun c => stop c = false /\ bad c = false) m p q
  end.
Proof.
  intros H Hp H0. destruct (buf_list _ _ _ _ p H Hp) as (l & Hm & ->).
  apply (field_list stop bad m p l); [done|done|].
  pose proof (mapped_size m p _ Hm) as Hs. rewrite length_app in Hs. simpl in Hs. lia.
Qed.

Lemma skipcrlf_in m0 lo te m p c :
  buf m0 lo te m -> lo <= p <= te -> m !! p = Some c -> c <> 0 ->
  exists n, skipcrlf m p = Ok n /\ 1 <= n <= 2 /\ p + n <= te.
Proof.
  intros H Hp Hc H0. pose proof (buf_nul _ _ _ _ H) as Hn.
  assert (p <> te) by congruence. unfold skipcrlf. rewrite (peek_ok _ _ _ Hc), bind_Ret.
  destruct (c =? 13); [|exists 1; split; [done|lia]].
  destruct (buf_peek _ _ _ _ (p + 1) H) as (d & Hd & ->); [lia|]. rewrite bind_Ret.
  destruct (Z.eqb_spec d 10) as [->|]; [|exists 1; split; [done|lia]].
  exists 2. split; [done|]. assert (p + 1 <> te) by congruence. lia.
Qed.

(** ** Character classes *)

Lemma vct_octet (P : Z -> bool) :
  (forall x, P x = P (u8 x)) -> forallb P octets = true -> forall x, P x = true.
Proof.
  intros Hu H x. rewrite Hu. apply (octets_all P H). unfold u8, is_byte.
  pose proof (Z.mod_pos_bound x (2 ^ 8)). lia.
Qed.

Lemma vct_is_u8 x y : vct_is x y = vct_is (u8 x) y.
Proof. unfold vct_is, u8. by rewrite Z.mod_mod by lia. Qed.

Lemma crlf_lws c : vct_iscrlf c = true -> vct_islws c = true.
Proof.
  intros H. pose proof (vct_octet (fun c => implb (vct_iscrlf c) (vct_islws c))) as A.
  rewrite <- (A ltac:(intros x; unfold vct_iscrlf, vct_islws; by rewrite !(vct_is_u8 x))
                ltac:(by vm_compute) c). by rewrite H.
Qed.

Lemma lws_0 : vct_islws 0 = false.
Proof. by vm_compute. Qed.

Lemma crlf_0 : vct_iscrlf 0 = false.
Proof. by vm_compute. Qed.

Definition nocrlf (c : Z) : Prop := vct_iscrlf c = false.

Lemma span_weaken (P : Z -> Prop) m p p' q q' :
  span P m p q -> p <= p' -> q' <= q -> span P m p' q'.
Proof. intros H ?? a Ha. apply H. lia. Qed.

Lemma span_snoc (P : Z -> Prop) m p q c :
  span P m p q -> m !! q = Some c -> P c -> span P m p (q + 1).
Proof.
  intros H Hc HP a Ha. destruct (decide (a = q)) as [->|]; [by exists c|apply H; lia].
Qed.

(** ** Finding the end of a line *)

Lemma blank_lws_in m0 lo te m q fuel :
  buf m0 lo te m -> lo <= q <= te -> te - q <= Z.of_nat fuel ->
  exists m' q', blank_lws fuel m q = Ok (m', q') /\ buf m0 lo te m' /\ q <= q' <= te /\
    (forall a, a < q \/ q' <= a -> m' !! a = m !! a) /\
    (forall a, q <= a < q' -> m' !! a = Some 32) /\
    (exists c, m !! q' = Some c /\ vct_islws c = false).
Proof.
  revert m q. induction fuel as [|fuel IH]; intros m q H Hq Hf;
    destruct (buf_peek _ _ _ _ q H Hq) as (c & Hc & Hp); simpl; rewrite Hp, bind_Ret.
  all: destruct (vct_islws c) eqn:Ec;
    [|exists m, q; split; [done|]; split; [done|]; split; [lia|]; split; [done|];
      split; [intros; lia|by exists c]].
  all: assert (q <> te) by (intros ->; rewrite (buf_nul _ _ _ _ H) in Hc;
    injection Hc as <-; by rewrite lws_0 in Ec).
  - lia.
  - destruct (buf_poke _ _ _ _ q 32 H Hq) as [-> H1]; [done|]. rewrite bind_Ret.
    destruct (IH _ (q + 1) H1) as (m' & q' & -> & H2 & Hq' & Ho & Hs & d & Hd & Ed); [lia|lia|].
    exists m', q'. split; [done|]. split; [done|]. split; [lia|]. split; [|split].
    + intros a Ha. rewrite Ho by lia. by rewrite lookup_insert_ne by lia.
    + intros a Ha. destruct (decide (a = q)) as [->|]; [|apply Hs; lia].
      rewrite Ho by lia. by rewrite lookup_insert_eq.
    + exists d. by rewrite lookup_insert_ne in Hd by lia.
Qed.

Lemma skipcrlf_two m p n : skipcrlf m p = Ok n -> n = 1 \/ n = 2 /\ m !! (p + 1) = Some 10.
Proof.
  unfold skipcrlf. intros H. apply bind_Ok in H as (c & _ & H).
  destruct (c =? 13); [|injection H; auto].
  apply bind_Ok in H as (d & Hd & H). apply deref_Ok in Hd.
  destruct (Z.eqb_spec d 10); injection H as <-; [subst; auto|auto].
Qed.

Lemma find_end_in m0 lo te p fuel : forall m q r,
  buf m0 lo te m -> lo <= p -> p <= q <= te -> p <= r <= te ->
  span nocrlf m p (Z.max q r) -> te - r <= Z.of_nat fuel ->
  exists m' q' r', find_end fuel m te q r = Ok (m', q', r') /\ buf m0 lo te m' /\
    p <= q' <= r' /\ r <= r' <= te /\ (r < te -> r < r') /\ (q' < r' \/ r' = te) /\
    (forall a, a < p -> m' !! a = m !! a) /\ span nocrlf m' p q'.
Proof.
  induction fuel as [|fuel IH]; intros m q r H Hlo Hq Hr Hs Hf.
  all: cbn [find_end]; destruct (Z.leb_spec te r) as [Hle|Hlt];
    [exists m, q, r; split; [done|]; split; [done|]; split; [lia|]; split; [lia|];
     split; [lia|]; split; [lia|]; split; [done|]; eapply span_weaken; [exact Hs|lia|lia]|].
  { lia. }
  destruct (buf_peek _ _ _ _ r H) as (c & Hc & Hp); [lia|]. rewrite Hp, bind_Ret.
  destruct (vct_iscrlf c) eqn:Ec; cbn [negb].
  2:{ destruct (IH m q (r + 1)) as (m' & q' & r' & E & H' & A & B & C & D & F & G); try done; try lia.
      - destruct (Z.max_spec q r) as [[? Em]|[? Em]]; rewrite Em in Hs.
        + replace (Z.max q (r + 1)) with (r + 1) by lia. by eapply span_snoc.
        + destruct (decide (q = r)) as [->|].
          * replace (Z.max r (r + 1)) with (r + 1) by lia. by eapply span_snoc.
          * by replace (Z.max q (r + 1)) with q by lia.
      - exists m', q', r'. split; [done|]. split; [done|]. split; [lia|]. split; [lia|].
        split; [lia|]. done. }
  assert (Hsr : span nocrlf m p r) by (eapply span_weaken; [exact Hs|lia|lia]).
  destruct (skipcrlf_in _ _ _ m r c H) as (n & En & Hn & Hrn); [lia|done|..].
  { intros ->. by rewrite crlf_0 in Ec. }
  rewrite En, bind_Ret. cbv zeta.
  destruct (Z.leb_spec te (r + n)) as [Hle|Hlt2].
  { exists m, r, (r + n). split; [done|]. split; [done|]. split; [lia|]. split; [lia|].
    split; [lia|]. split; [lia|]. done. }
  destruct (buf_peek _ _ _ _ (r + n) H) as (d & Hd & Hpd); [lia|]. rewrite Hpd, bind_Ret.
  destruct (vct_issp d) eqn:Ed; cbn [negb].
  2:{ exists m, r, (r + n). split; [done|]. split; [done|]. split; [lia|]. split; [lia|].
      split; [lia|]. split; [lia|]. done. }
  destruct (blank_lws_in m0 lo te m r (size m) H) as (m1 & q1 & -> & H1 & Hq1 & Ho & Hb & x & Hx & Ex);
    [lia|..].
  { destruct (buf_list _ _ _ _ r H) as (l & Hm & ->); [lia|]. apply mapped_size in Hm.
    rewrite length_app in Hm. lia. }
  rewrite bind_Ret. cbv beta iota.
  assert (r < q1).
  { destruct (decide (q1 = r)) as [->|]; [|lia]. rewrite Hc in Hx. injection Hx as <-.
    by rewrite (crlf_lws _ Ec) in Ex. }
  assert (r + n <= q1).
  { destruct (skipcrlf_two m r n En) as [->|[-> H10]]; [lia|].
    destruct (decide (q1 = r + 1)) as [->|]; [|lia]. rewrite H10 in Hx. injection Hx as <-.
    done. }
  destruct (IH m1 q1 (r + n)) as (m' & q' & r' & E & H' & A & B & C & D & F & G); try done; try lia.
  - replace (Z.max q1 (r + n)) with q1 by lia. intros a Ha.
    destruct (Z.lt_ge_cases a r).
    + rewrite Ho by lia. apply Hsr. lia.
    + exists 32. split; [apply Hb; lia|done].
  - exists m', q', r'. split; [done|]. split; [done|]. split; [lia|]. split; [lia|].
    split; [lia|]. split; [done|]. split; [|done].
    intros a Ha. rewrite F by lia. apply Ho. lia.
Qed.

Lemma trim_sp_in m0 lo te m p q fuel :
  buf m0 lo te m -> lo <= p -> p <= q <= te -> q - p <= Z.of_nat fuel ->
  exists q', trim_sp fuel m p q = Ok q' /\ p <= q' <= q.
Proof.
  intros H Hlo. revert q. induction fuel as [|fuel IH]; intros q Hq Hf; cbn [trim_sp].
  all: destruct (Z.leb_spec q p); [exists q; split; [done|lia]|try lia].
  destruct (buf_peek _ _ _ _ (q - 1) H) as (c & _ & ->); [lia|]. rewrite bind_Ret.
  destruct (vct_issp c); [|exists q; split; [done|lia]].
  destruct (IH (q - 1)) as (q' & -> & ?); [lia|lia|]. exists q'. split; [done|lia].
Qed.

Lemma is_cond_in m0 lo te m p :
  buf m0 lo te m -> lo <= p <= te -> exists c, is_cond m p = Ok c.
Proof.
  intros H Hp. pose proof (buf_nul _ _ _ _ H) as Hn. unfold is_cond.
  destruct (buf_peek _ _ _ _ p H Hp) as (c0 & H0 & ->). rewrite bind_Ret.
  destruct ((c0 =? 105) || (c0 =? 73)) eqn:E0; [|by exists false].
  assert (Hpt : p <> te) by (intros ->; rewrite Hn in H0; by injection H0 as <-).
  destruct (buf_peek _ _ _ _ (p + 1) H) as (c1 & H1 & ->); [lia|]. rewrite bind_Ret.
  destruct ((c1 =? 102) || (c1 =? 70)) eqn:E1; [|by exists false].
  assert (Hpt1 : p + 1 <> te) by (intros E; rewrite E, Hn in H1; by injection H1 as <-).
  destruct (buf_peek _ _ _ _ (p + 2) H) as (c2 & H2 & ->); [lia|]. rewrite bind_Ret. by eexists.
Qed.

(** ** The header lines *)

(** The slots from [i] on hold [ls], within the buffer, and what is written at
    [p] or later does not touch them. *)
Definition inslots (m : mem) (hp : http) (lo p te : Z) (i : nat) (ls : list line) : Prop :=
  forall k x, ls !! k = Some x ->
    exists t f, hd hp !! (i + k)%nat = Some t /\ hdf hp !! (i + k)%nat = Some f /\
      holds_line m t f x /\ lo <= b t /\ e t <= te /\ (e t < p \/ te <= p).

Lemma holds_agree m m' t l p te :
  holds m t l -> e t <= te -> (e t < p \/ te <= p) ->
  (forall a, a < p -> m' !! a = m !! a) -> m' !! te = m !! te -> holds m' t l.
Proof.
  intros (Hb & He & Hm & Hl) Hte Hp Ha Ht. split; [done|]. split; [done|]. split; [|done].
  intros i c Hi. pose proof (lookup_lt_Some _ _ _ Hi) as Hlt. rewrite length_app in Hlt. simpl in Hlt.
  rewrite <- (Hm i c Hi). destruct (decide (b t + Z.of_nat i = te)) as [->|]; [done|]. apply Ha. lia.
Qed.

Lemma inslots_agree m m' hp lo p p' te i ls :
  inslots m hp lo p te i ls -> p <= p' ->
  (forall a, a < p -> m' !! a = m !! a) -> m' !! te = m !! te -> inslots m' hp lo p' te i ls.
Proof.
  intros H Hp Ha Ht k x Hk. destruct (H k x Hk) as (t & f & H1 & H2 & [H3 H3'] & H4 & H5 & H6).
  exists t, f. split; [done|]. split; [done|]. split.
  - split; [by eapply (holds_agree m m' t _ p te)|done].
  - split; [done|]. split; [done|]. lia.
Qed.

Lemma inslots_slots m hp lo p te i ls : inslots m hp lo p te i ls -> slots m hp i ls.
Proof. intros H k x Hk. destruct (H k x Hk) as (t & f & ? & ? & ? & _). eauto. Qed.

(** A line made of the octets between two addresses. *)
Lemma span_list (P : Z -> Prop) m p q :
  span P m p q -> p <= q -> exists l, mapped m p l /\ q = p + Z.of_nat (length l) /\ Forall P l.
Proof.
  intros H Hpq. remember (Z.to_nat (q - p)) as n eqn:En. revert p H Hpq En.
  induction n as [|n IH]; intros p H Hpq En.
  - exists []. split; [by intros i c ?|]. split; [simpl; lia|done].
  - destruct (H p) as (c & Hc & HP); [lia|].
    destruct (IH (p + 1)) as (l & Hl & E & HF); [|lia|lia|].
    { eapply span_weaken; [exact H|lia|lia]. }
    exists (c :: l). split; [by apply mapped_cons|]. split; [simpl length; lia|by constructor].
Qed.

(** Ending the octets from [p] with a NUL at [q] gives a slot. *)
Lemma slot_made (P : Z -> Prop) m p q :
  span P m p q -> 0 < p <= q -> q - p < 2 ^ 32 - 1 ->
  exists l, holds (<[q := 0]> m) (mkTxt p q) l /\ Forall P l.
Proof.
  intros H Hp Hq. destruct (span_list P m p q H) as (l & Hl & E & HF); [lia|].
  exists l. split; [|done]. split; [simpl; lia|]. split; [done|]. split; [|lia].
  apply mapped_app. simpl b. split.
  - intros i c Hi. pose proof (lookup_lt_Some _ _ _ Hi).
    rewrite lookup_insert_ne by lia. by apply Hl.
  - rewrite <- E. apply mapped_cons. split; [by rewrite lookup_insert_eq|]. by intros i c ?.
Qed.

(** A message under construction: the header lines found so far. *)
Record building (m : mem) (hp : http) (lo p te : Z) (ls : list line) : Prop := {
  bg_hdf : length (hdf hp) = length (hd hp);
  bg_nhd : nhd hp = (HTTP_HDR_FIRST + length ls)%nat;
  bg_shd : (nhd hp <= shd hp)%nat;
  bg_tag : logtag hp = HTTP_Rx;
  bg_slots : inslots m hp lo p te HTTP_HDR_FIRST ls;
  bg_lines : Forall (fun x => Forall nocrlf (fst x) /\ snd x = 0) ls;
}.

Lemma building_conds m hp lo p te ls c :
  building m hp lo p te ls -> building m (set_conds hp c) lo p te ls.
Proof. intros []. by split. Qed.

Lemma building_has_lines m hp lo p te ls : building m hp lo p te ls -> has_lines m hp ls.
Proof. intros []. split; try done. by eapply inslots_slots. Qed.

Lemma building_agree m m' hp lo p p' te ls :
  building m hp lo p te ls -> p <= p' ->
  (forall a, a < p -> m' !! a = m !! a) -> m' !! te = m !! te -> building m' hp lo p' te ls.
Proof. intros [] ???. split; try done. by eapply inslots_agree. Qed.

(** What dissection leaves of the first line and of the message's size. *)
Definition same_frame (hp hp' : http) : Prop :=
  length (hd hp') = length (hd hp) /\ length (hdf hp') = length (hdf hp) /\
  forall u, (u < HTTP_HDR_FIRST)%nat -> hd hp' !! u = hd hp !! u.

Lemma building_add m hp lo p te ls t l r :
  building m hp lo p te ls -> (nhd hp < shd hp)%nat -> holds m t l -> Forall nocrlf l ->
  lo <= b t -> e t <= te -> p <= r -> (e t < r \/ te <= r) ->
  exists hp', (hp ← set_hdf hp (nhd hp) 0; set_hd hp (nhd hp) t) = Ok hp' /\
    logtag hp' = HTTP_Rx /\ nhd hp' = nhd hp /\ same_frame hp hp' /\
    building m (set_nhd hp' (S (nhd hp))) lo r te (ls ++ [(l, 0)]).
Proof.
  intros [A1 A2 A3 A4 A5 A6] Hn Hh Hc Hlo Hte Hp Hr. unfold shd in *.
  unfold set_hdf, set_hd. rewrite (proj2 (Nat.ltb_lt (nhd hp) (length (hdf hp)))) by lia.
  simpl. rewrite (proj2 (Nat.ltb_lt (nhd hp) (length (hd hp)))) by lia.
  eexists. split; [reflexivity|]. split; [done|]. split; [done|]. split.
  { unfold same_frame. simpl. split; [by rewrite length_insert|]. split; [by rewrite length_insert|].
    intros u Hu. simpl. by rewrite list_lookup_insert_ne by lia. }
  split; simpl.
  - by rewrite !length_insert.
  - rewrite length_app, A2. unfold HTTP_HDR_FIRST. simpl length. lia.
  - unfold shd. simpl. rewrite length_insert. lia.
  - done.
  - intros k x Hk. cbn [hd hdf set_nhd]. apply lookup_app_Some in Hk as [Hk|[Hk1 Hk]].
    + pose proof (lookup_lt_Some _ _ _ Hk). rewrite !list_lookup_insert_ne by lia.
      destruct (A5 k x Hk) as (t' & f & ? & ? & ? & ? & ? & ?). exists t', f.
      split_and!; try done. lia.
    + assert (k = length ls) as ->.
      { pose proof (lookup_lt_Some _ _ _ Hk) as Hl. simpl in Hl. lia. }
      rewrite Nat.sub_diag in Hk. injection Hk as <-. exists t, 0.
      rewrite A2, !list_lookup_insert_eq by lia. done.
  - apply Forall_app. split; [done|]. by constructor.
Qed.

Lemma dissect_loop_in m0 lo te htc : e (rxbuf htc) = te -> te - lo < 2 ^ 32 - 1 -> 0 < lo ->
  forall fuel m hp lost p ls,
  buf m0 lo te m -> lo <= p <= te -> building m hp lo p te ls -> te - p <= Z.of_nat fuel ->
  exists m' hp' lost' r ls', dissect_loop fuel m hp lost p htc = Ok (m', hp', lost', r) /\
    buf m0 lo te m' /\ building m' hp' lo te te ls' /\ same_frame hp hp' /\
    (forall a, a < p -> m' !! a = m !! a) /\ (r = 0 \/ r = 413).
Proof.
  intros Ete Hlen H0lo. induction fuel as [|fuel IH]; intros m hp lost p ls H Hp Hb Hf.
  all: cbn [dissect_loop]; rewrite Ete; destruct (Z.leb_spec te p) as [Hle|Hlt].
  1,3: exists m, hp, lost, 0, ls; split; [done|]; split; [done|];
    split; [by eapply building_agree; [exact Hb|lia|..]|]; split; [done|]; split; [done|]; by left.
  { lia. }
  destruct (find_end_in m0 lo te p (Z.to_nat (te - p)) m p p H) as
    (m1 & q & r & -> & H1 & Hq & Hr & Hr1 & Hqr & Ha & Hs); [lia|lia|lia|intros a ?; lia|lia|].
  specialize (Hr1 Hlt). rewrite bind_Ret. cbv beta iota.
  assert (Hte1 : m1 !! te = m !! te) by (by rewrite (buf_nul _ _ _ _ H), (buf_nul _ _ _ _ H1)).
  assert (Hb1 : building m1 hp lo te te ls) by (eapply building_agree; [exact Hb|lia|done|done]).
  destruct (Z.ltb_spec (maxhdr htc) (q - p)).
  { exists m1, hp, (lost + 1), 413, ls. split; [done|]. split; [done|]. split; [done|].
    split; [done|]. split; [done|]. by right. }
  destruct (Z.eqb_spec p q) as [Epq|Hne].
  { exists m1, hp, lost, 0, ls. split; [done|]. split; [done|]. split; [done|].
    split; [done|]. split; [done|]. by left. }
  destruct (is_cond_in m0 lo te m1 p H1) as [c ->]; [lia|]. rewrite bind_Ret. cbv zeta.
  set (hpc := if c then set_conds hp 1 else hp).
  assert (Hbc : building m hpc lo p te ls).
  { unfold hpc. destruct c; [by apply building_conds|done]. }
  assert (Hfr : same_frame hp hpc) by (unfold hpc; by destruct c).
  destruct (trim_sp_in m0 lo te m1 p q (Z.to_nat (q - p)) H1) as (q2 & -> & Hq2); [lia|lia|lia|].
  rewrite bind_Ret. cbv beta.
  destruct (buf_poke m0 lo te m1 q2 0 H1) as [-> H2]; [lia|done|]. rewrite bind_Ret. cbv beta.
  assert (Hag : forall a, a < p -> <[q2:=0]> m1 !! a = m !! a).
  { intros a Hap. rewrite lookup_insert_ne by lia. by apply Ha. }
  assert (Hte2 : <[q2:=0]> m1 !! te = m !! te) by (by rewrite (buf_nul _ _ _ _ H2), (buf_nul _ _ _ _ H)).
  destruct (Nat.ltb_spec (nhd hpc) (shd hpc)) as [Hn|Hn].
  2:{ exists (<[q2:=0]> m1), hpc, (lost + 1), 413, ls. split; [done|]. split; [done|].
      split; [eapply building_agree; [exact Hbc|lia|done|done]|]. split; [done|]. split; [done|].
      by right. }
  destruct (slot_made nocrlf m1 p q2) as (l & Hl & Hcl); [|lia|lia|].
  { eapply span_weaken; [exact Hs|lia|lia]. }
  destruct (building_add (<[q2:=0]> m1) hpc lo p te ls (mkTxt p q2) l r)
    as (hp' & Eset & Etag & Enhd & Hfr' & Hb2); [..|].
  { eapply building_agree; [exact Hbc|lia|done|done]. }
  { done. } { done. } { done. } { simpl; lia. } { simpl; lia. } { lia. } { simpl; lia. }
  apply bind_Ok in Eset as (hpx & Ex1 & Ex2). rewrite Ex1, bind_Ret. cbv beta.
  rewrite Ex2, bind_Ret. cbv beta.
  unfold WSLH. rewrite Etag, (vassert_true (_ && _)), bind_Ret by (by vm_compute). cbv beta.
  rewrite Enhd.
  destruct (IH (<[q2:=0]> m1) (set_nhd hp' (S (nhd hpc))) lost r (ls ++ [(l, 0)]) H2)
    as (m' & hp2 & lost' & rv & ls' & E & Hb' & Hbu & Hfr2 & Hag2 & Hrv); [lia|done|lia|].
  exists m', hp2, lost', rv, ls'. split; [exact E|]. split; [done|]. split; [done|]. split.
  - destruct Hfr as (F1 & F2 & F3), Hfr' as (G1 & G2 & G3), Hfr2 as (K1 & K2 & K3). simpl in *.
    split; [congruence|]. split; [congruence|]. intros u Hu. by rewrite K3, G3, F3.
  - split; [|done]. intros a Hap. rewrite Hag2 by lia. by apply Hag.
Qed.

(** ** The first line *)

(** The message as dissection leaves it when it succeeds: the header lines, and
    strings in the slots [hs] of the first line; no line end anywhere. *)
Record dissected (m : mem) (hp : http) (hs : list nat) (ls : list line) : Prop := {
  di_lines : has_lines m hp ls;
  di_clean : Forall (fun x => Forall nocrlf (fst x) /\ snd x = 0) ls;
  di_first : forall h, h ∈ hs -> exists t l, hd hp !! h = Some t /\ holds m t l /\ Forall nocrlf l;
}.

Lemma dissect_hdrs_in m0 lo te htc m hp lost p :
  e (rxbuf htc) = te -> te - lo < 2 ^ 32 - 1 -> 0 < lo ->
  buf m0 lo te m -> lo <= p <= te ->
  length (hdf hp) = length (hd hp) -> (HTTP_HDR_FIRST <= shd hp)%nat -> logtag hp = HTTP_Rx ->
  exists m' hp' lost' r ls', http_dissect_hdrs m hp lost p htc = Ok (m', hp', lost', r) /\
    buf m0 lo te m' /\ building m' hp' lo te te ls' /\ same_frame hp hp' /\
    (forall a, a < p -> m' !! a = m !! a) /\ (r = 0 \/ r = 413).
Proof.
  intros Ete Hlen H0 H Hp Hl Hs Ht. unfold http_dissect_hdrs.
  destruct (buf_peek _ _ _ _ p H Hp) as (c & Hc & ->). rewrite bind_Ret. cbv zeta.
  set (p' := if c =? 13 then p + 1 else p).
  assert (Hp' : p <= p' <= te).
  { unfold p'. destruct (Z.eqb_spec c 13) as [->|]; [|lia].
    assert (p <> te) by (intros ->; rewrite (buf_nul _ _ _ _ H) in Hc; congruence). lia. }
  rewrite Ete.
  destruct (dissect_loop_in m0 lo te htc Ete Hlen H0 (Z.to_nat (te - p')) m
    (set_conds (set_nhd hp HTTP_HDR_FIRST) 0) lost p' []) as (m' & hp' & lost' & r & ls' & E & A & B & C & D & F);
    [done|lia| |lia|].
  - split; try done.
  - exists m', hp', lost', r, ls'. split; [done|]. split; [done|]. split; [done|]. split; [done|].
    split; [|done]. intros a Ha. apply D. lia.
Qed.

Lemma span_insert (P : Z -> Prop) m p q a v :
  span P m p q -> P v -> span P (<[a := v]> m) p q.
Proof.
  intros H Hv x Hx. destruct (decide (x = a)) as [->|].
  - exists v. by rewrite lookup_insert_eq.
  - rewrite lookup_insert_ne by done. by apply H.
Qed.

Lemma span_impl (P Q : Z -> Prop) m p q : (forall c, P c -> Q c) -> span P m p q -> span Q m p q.
Proof. intros HPQ H a Ha. destruct (H a Ha) as (c & ? & ?). exists c. auto. Qed.

(** A slot that ends in a NUL. *)
Lemma slot_ended (P : Z -> Prop) m p q :
  span P m p q -> m !! q = Some 0 -> 0 < p <= q -> q - p < 2 ^ 32 - 1 ->
  exists l, holds m (mkTxt p q) l /\ Forall P l.
Proof.
  intros H H0 Hp Hq. destruct (slot_made P m p q H Hp Hq) as (l & Hl & HF).
  rewrite insert_id in Hl by done. by exists l.
Qed.

Lemma holds_below m m' t l p :
  holds m t l -> e t < p -> (forall a, a < p -> m' !! a = m !! a) -> holds m' t l.
Proof.
  intros (Hb & He & Hm & Hl) Hp Ha. split; [done|]. split; [done|]. split; [|done].
  intros i c Hi. pose proof (lookup_lt_Some _ _ _ Hi) as Hlt. rewrite length_app in Hlt. simpl in Hlt.
  rewrite Ha by lia. by apply Hm.
Qed.

Lemma set_hd_ok hp u t :
  (u < shd hp)%nat -> exists hp', set_hd hp u t = Ok hp' /\ hd hp' = <[u := t]> (hd hp) /\
    hdf hp' = hdf hp /\ logtag hp' = logtag hp /\ nhd hp' = nhd hp /\ shd hp' = shd hp.
Proof.
  intros H. unfold set_hd, shd in *. rewrite (proj2 (Nat.ltb_lt u (length (hd hp)))) by done.
  eexists. split; [reflexivity|]. simpl. rewrite length_insert. done.
Qed.

Lemma get_hd_ok hp u t : hd hp !! u = Some t -> get_hd hp u = Ok t.
Proof. unfold get_hd. by intros ->. Qed.

Lemma nocrlf_ctl c : vct_isctl c = false -> nocrlf c.
Proof.
  intros H. unfold nocrlf.
  pose proof (vct_octet (fun c => implb (vct_iscrlf c) (vct_isctl c))) as A.
  specialize (A ltac:(intros x; unfold vct_iscrlf, vct_isctl; by rewrite !(vct_is_u8 x))
                ltac:(by vm_compute) c). cbv beta in A. destruct (vct_iscrlf c); [|done]. by rewrite H in A.
Qed.

Lemma nocrlf_lws c : vct_islws c = false -> nocrlf c.
Proof.
  intros H. unfold nocrlf. destruct (vct_iscrlf c) eqn:E; [|done].
  by rewrite (crlf_lws _ E) in H.
Qed.

(** The end of a successful first line: three slots found, the header lines
    dissected. *)
Lemma first_line m hp m' hp' ls te lo p h1 h2 h3 t1 t2 t3 :
  building m' hp' lo te te ls -> same_frame hp hp' ->
  (forall a, a < p -> m' !! a = m !! a) ->
  Forall (fun h => h < HTTP_HDR_FIRST)%nat [h1; h2; h3] ->
  hd hp !! h1 = Some t1 -> hd hp !! h2 = Some t2 -> hd hp !! h3 = Some t3 ->
  Forall (fun t => e t < p /\ exists l, holds m t l /\ Forall nocrlf l) [t1; t2; t3] ->
  dissected m' hp' [h1; h2; h3] ls.
Proof.
  intros Hb (_ & _ & Hf) Hag Hlt E1 E2 E3 Ht.
  split; [by eapply building_has_lines|apply Hb|].
  assert (Hx : forall h t, (h < HTTP_HDR_FIRST)%nat -> hd hp !! h = Some t ->
    (e t < p /\ exists l, holds m t l /\ Forall nocrlf l) ->
    exists t l, hd hp' !! h = Some t /\ holds m' t l /\ Forall nocrlf l).
  { intros h t Hh E (Hp & l & Hl & Hn). exists t, l. rewrite Hf by done. split; [done|].
    split; [by eapply holds_below|done]. }
  rewrite !Forall_cons in Hlt. rewrite !Forall_cons in Ht. destruct Hlt as (A1 & A2 & A3 & _), Ht as (B1 & B2 & B3 & _).
  intros h Hh. rewrite !elem_of_cons in Hh.
  destruct Hh as [->|[->|[->|Hh]]]; [eauto|eauto|eauto|by apply elem_of_nil in Hh].
Qed.

(** What a call leaves: the buffer, the message's size, and on success a
    dissected message. *)
Definition dissect_post (m0 : mem) (lo te : Z) (hp : http) (hs : list nat)
    (x : res (mem * http * Z * Z)) : Prop :=
  exists m' hp' lost' r, x = Ok (m', hp', lost', r) /\ buf m0 lo te m' /\
    shd hp' = shd hp /\ length (hdf hp') = length (hd hp') /\
    (r = 0 -> exists ls, dissected m' hp' hs ls) /\ (r = 0 \/ r = 400 \/ r = 413).

Lemma post_error m0 lo te hp hs m hp' lost r :
  buf m0 lo te m -> shd hp' = shd hp -> length (hdf hp') = length (hd hp') ->
  r = 400 \/ r = 413 -> dissect_post m0 lo te hp hs (Ok (m, hp', lost, r)).
Proof.
  intros H1 H2 H3 Hr. exists m, hp', lost, r. split; [done|]. split; [done|]. split; [done|].
  split; [done|]. split; [lia|lia].
Qed.

(** The last part of [http_splitline], from the writes on. *)
Lemma splitline_rest m0 lo te htc hp0 m hp lost h1 h2 h3 q1 p1 q2 p3 q3 p5 p :
  e (rxbuf htc) = te -> te - lo < 2 ^ 32 - 1 -> 0 < lo -> buf m0 lo te m ->
  shd hp = shd hp0 -> length (hdf hp) = length (hd hp) -> (HTTP_HDR_FIRST <= shd hp)%nat ->
  logtag hp = HTTP_Rx -> Forall (fun h => h < HTTP_HDR_FIRST)%nat [h1; h2; h3] ->
  hd hp !! h1 = Some (mkTxt q1 p1) -> hd hp !! h2 = Some (mkTxt q2 p3) ->
  hd hp !! h3 = Some (mkTxt q3 p5) ->
  lo <= q1 <= p1 -> p1 <= q2 <= p3 -> p3 <= q3 <= p5 -> p5 < p <= te ->
  span nocrlf m q1 p1 -> span nocrlf m q2 p3 -> span nocrlf m q3 p5 ->
  dissect_post m0 lo te hp0 [h1; h2; h3]
    (t1 ← get_hd hp h1; m ← poke m (e t1) 0; WSLH hp;;
     t2 ← get_hd hp h2; m ← poke m (e t2) 0;
     t3 ← get_hd hp h3; m ← (if truth (e t3) then poke m (e t3) 0 else mret m);
     http_dissect_hdrs m hp lost p htc).
Proof.
  intros Ete Hlen H0 H Hsh Hl Hs Ht Hlt E1 E2 E3 B1 B2 B3 Bp S1 S2 S3.
  rewrite (get_hd_ok _ _ _ E1), bind_Ret. cbn [e].
  destruct (buf_poke m0 lo te m p1 0 H) as [-> H1]; [lia|done|]. rewrite bind_Ret.
  unfold WSLH. rewrite Ht, (vassert_true (_ && _)), bind_Ret by (by vm_compute).
  rewrite (get_hd_ok _ _ _ E2), bind_Ret. cbn [e].
  destruct (buf_poke m0 lo te _ p3 0 H1) as [-> H2]; [lia|done|]. rewrite bind_Ret.
  rewrite (get_hd_ok _ _ _ E3), bind_Ret. cbn [e].
  rewrite (proj2 (truth_true p5)) by lia.
  destruct (buf_poke m0 lo te _ p5 0 H2) as [-> H3]; [lia|done|]. rewrite bind_Ret.
  destruct (dissect_hdrs_in m0 lo te htc _ hp lost p Ete Hlen H0 H3) as
    (m' & hp' & lost' & r & ls & -> & A & B & C & D & F); [lia|done|done|done|].
  exists m', hp', lost', r. split; [done|]. split; [done|].
  assert (Hsh' : shd hp' = shd hp0) by (rewrite <- Hsh; apply C). split; [done|].
  split; [apply B|]. split; [|lia]. intros _. exists ls.
  eapply first_line; [exact B|exact C|exact D|exact Hlt|exact E1|exact E2|exact E3|].
  assert (N0 : nocrlf 0) by (by vm_compute).
  rewrite !Forall_cons. cbn [e]. split_and!; [lia| |lia| |lia| |by constructor].
  - apply slot_ended; [by repeat apply span_insert| |lia|lia].
    destruct (decide (p5 = p1)) as [->|]; [by rewrite lookup_insert_eq|rewrite lookup_insert_ne by done].
    destruct (decide (p3 = p1)) as [->|]; [by rewrite lookup_insert_eq|rewrite lookup_insert_ne by done].
    by rewrite lookup_insert_eq.
  - apply slot_ended; [by repeat apply span_insert| |lia|lia].
    destruct (decide (p5 = p3)) as [->|]; [by rewrite lookup_insert_eq|rewrite lookup_insert_ne by done].
    by rewrite lookup_insert_eq.
  - apply slot_ended; [by repeat apply span_insert| |lia|lia]. by rewrite lookup_insert_eq.
Qed.

Lemma splitline_in m0 lo te htc m hp lost h1 h2 h3 :
  rxbuf htc = mkTxt lo te -> te - lo < 2 ^ 32 - 1 -> 0 < lo <= te -> buf m0 lo te m ->
  length (hdf hp) = length (hd hp) -> (HTTP_HDR_FIRST <= shd hp)%nat ->
  logtag hp = HTTP_Rx -> Forall (fun h => h < HTTP_HDR_FIRST)%nat [h1; h2; h3] ->
  NoDup [h1; h2; h3] ->
  dissect_post m0 lo te hp [h1; h2; h3] (http_splitline m hp lost htc h1 h2 h3).
Proof.
  intros Erx Hlen H0 H Hl Hs Ht Hlt Hnd. unfold http_splitline. rewrite Erx. cbn [b].
  assert (Tcheck (mkTxt lo te) = Ok tt) as ->.
  { unfold Tcheck. cbn [b e]. rewrite !vassert_true; try done; try (apply truth_true); lia. }
  rewrite bind_Ret.
  destruct (skip_in vct_islws m0 lo te m lo H) as (q1 & -> & Hq1); [lia|done|].
  rewrite bind_Ret. cbv zeta beta.
  pose proof (proj1 (Forall_cons _ _ _) Hlt) as [L1 Hlt'].
  pose proof (proj1 (Forall_cons _ _ _) Hlt') as [L2 Hlt''].
  pose proof (proj1 (Forall_cons _ _ _) Hlt'') as [L3 _].
  assert (N : h1 <> h2 /\ h1 <> h3 /\ h2 <> h3).
  { rewrite !NoDup_cons, !not_elem_of_cons in Hnd. tauto. }
  destruct (field_in vct_issp vct_isctl m0 lo te m q1 H) as ([p1|] & -> & F1); [lia|by right|..];
    rewrite bind_Ret; cbn [or400]; [|apply post_error; auto].
  destruct F1 as (F1 & _ & S1).
  destruct (set_hd_ok hp h1 (mkTxt q1 p1)) as (hp1 & -> & X1 & Y1 & T1 & _ & Z1); [lia|].
  rewrite bind_Ret.
  assert (Hl1 : length (hdf hp1) = length (hd hp1)).
  { rewrite X1, Y1, length_insert. done. }
  destruct (field_in not_sp vct_isctl m0 lo te m p1 H) as ([q2|] & -> & F2); [lia|by right|..];
    rewrite bind_Ret; cbn [or400]; [|apply post_error; auto].
  destruct F2 as (F2 & _ & _). cbv zeta beta.
  destruct (field_in vct_islws vct_isctl m0 lo te m q2 H) as ([p3|] & -> & F3); [lia|by right|..];
    rewrite bind_Ret; cbn [or400]; [|apply post_error; auto].
  destruct F3 as (F3 & _ & S3).
  destruct (set_hd_ok hp1 h2 (mkTxt q2 p3)) as (hp2 & -> & X2 & Y2 & T2 & _ & Z2); [lia|].
  rewrite bind_Ret.
  assert (Hl2 : length (hdf hp2) = length (hd hp2)).
  { rewrite X2, Y2, length_insert. done. }
  assert (Tlen (mkTxt q2 p3) = Ok (p3 - q2)) as ->.
  { unfold Tlen, Tcheck. cbn [b e].
    rewrite !vassert_true by (try apply truth_true; lia). rewrite !bind_Ret.
    unfold mret, res_ret. f_equal. apply u32_small. lia. }
  rewrite bind_Ret. destruct (p3 - q2 =? 0); [apply post_error; auto; congruence|].
  destruct (field_in not_sp vct_isctl m0 lo te m p3 H) as ([q3|] & -> & F4); [lia|by right|..];
    rewrite bind_Ret; cbn [or400]; [|apply post_error; auto; congruence].
  destruct F4 as (F4 & _ & _). cbv zeta beta.
  destruct (field_in vct_iscrlf (fun c => negb (vct_issep c) && vct_isctl c) m0 lo te m q3 H)
    as ([p5|] & -> & F5); [lia|by right|..];
    rewrite bind_Ret; cbn [or400]; [|apply post_error; auto; congruence].
  destruct F5 as (F5 & (c & Hc & Ec) & S5).
  destruct (set_hd_ok hp2 h3 (mkTxt q3 p5)) as (hp3 & -> & X3 & Y3 & T3 & _ & Z3); [lia|].
  rewrite bind_Ret.
  destruct (skipcrlf_in m0 lo te m p5 c H) as (n & -> & Hn & Hpn);
    [lia|done|intros ->; by rewrite crlf_0 in Ec|]. rewrite bind_Ret. cbv zeta beta.
  assert (Hlen1 : (h1 < length (hd hp))%nat) by (unfold shd in *; lia).
  assert (Hlen2 : (h2 < length (hd hp))%nat) by (unfold shd in *; lia).
  assert (Hlen3 : (h3 < length (hd hp))%nat) by (unfold shd in *; lia).
  eapply (splitline_rest m0 lo te htc hp m hp3 lost h1 h2 h3 q1 p1 q2 p3 q3 p5).
  all: try done.
  all: try (by rewrite Erx).
  all: try lia.
  all: try (rewrite X3, X2, X1).
  - rewrite Y3, Hl2, X2, X1, !length_insert. done.
  - rewrite !list_lookup_insert_ne by intuition. by rewrite list_lookup_insert_eq.
  - rewrite list_lookup_insert_ne by intuition. rewrite list_lookup_insert_eq; [done|].
    by rewrite length_insert.
  - rewrite list_lookup_insert_eq; [done|]. by rewrite !length_insert.
  - eapply span_impl; [|exact S1]. intros x [_ Hx]. by apply nocrlf_ctl.
  - eapply span_impl; [|exact S3]. intros x [Hx _]. by apply nocrlf_lws.
  - eapply span_impl; [|exact S5]. by intros x [Hx _].
Qed.

(** ** Requests *)

(** [strcasecmp] with a constant stays within the string. *)
Lemma strcaseeq_in m p l s :
  mapped m p (l ++ [0]) -> Forall (fun c => 0 < c) s -> exists r, strcaseeq m p s = Ok r.
Proof.
  revert p l. induction s as [|x s IH]; intros p l Hm Hs.
  - destruct l as [|c l]; apply mapped_cons in Hm as [H0 _]; simpl;
      rewrite (peek_ok _ _ _ H0), bind_Ret; by eexists.
  - apply Forall_cons in Hs as [Hx Hs]. destruct l as [|c l]; apply mapped_cons in Hm as [H0 Hm]; simpl;
      rewrite (peek_ok _ _ _ H0), bind_Ret.
    + rewrite tolower_pos by done. by eexists.
    + destruct (tolower x =? tolower c); [by eapply IH|by eexists].
Qed.

Lemma str_pos s : forallb (fun c => 0 <? c) (str s) = true -> Forall (fun c => 0 < c) (str s).
Proof.
  rewrite forallb_forall. intros H. apply Forall_forall. intros c Hc.
  apply Z.ltb_lt, H. by apply list_elem_of_In.
Qed.

Lemma ProtoVer_in m hp t l :
  hd hp !! HTTP_HDR_PROTO = Some t -> holds m t l ->
  exists v, http_ProtoVer m hp = Ok (set_protover hp v) /\ (v = 9 \/ v = 10 \/ v = 11).
Proof.
  intros Ht (_ & _ & Hm & _). unfold http_ProtoVer. rewrite (get_hd_ok _ _ _ Ht), bind_Ret.
  destruct (strcaseeq_in m (b t) l (str "HTTP/1.0") Hm) as [v10 ->]; [by apply str_pos|].
  destruct (strcaseeq_in m (b t) l (str "HTTP/1.1") Hm) as [v11 ->]; [by apply str_pos|].
  rewrite !bind_Ret. destruct v10, v11; eexists; (split; [reflexivity|auto]).
Qed.

Lemma dissected_protover m hp hs ls v : dissected m hp hs ls -> dissected m (set_protover hp v) hs ls.
Proof. intros [[] ? ?]. by split; [split| |]. Qed.

Lemma DissectRequest_in m0 lo te htc m hp lost :
  rxbuf htc = mkTxt lo te -> te - lo < 2 ^ 32 - 1 -> 0 < lo <= te -> buf m0 lo te m ->
  length (hdf hp) = length (hd hp) -> (HTTP_HDR_FIRST <= shd hp)%nat ->
  dissect_post m0 lo te hp [HTTP_HDR_REQ; HTTP_HDR_URL; HTTP_HDR_PROTO]
    (http_DissectRequest m hp lost htc).
Proof.
  intros Erx Hlen H0 H Hl Hs. unfold http_DissectRequest. cbv zeta.
  destruct (splitline_in m0 lo te htc m (set_logtag hp HTTP_Rx) lost
    HTTP_HDR_REQ HTTP_HDR_URL HTTP_HDR_PROTO) as (m' & hp' & lost' & r & -> & A & B & C & D & F);
    try done.
  { repeat constructor; unfold HTTP_HDR_FIRST, HTTP_HDR_REQ, HTTP_HDR_URL, HTTP_HDR_PROTO; lia. }
  { apply (bool_decide_unpack _). by vm_compute. }
  rewrite bind_Ret. cbv beta iota. destruct (Z.eqb_spec r 0) as [->|Hr]; cbn [negb].
  - destruct (D eq_refl) as [ls Hd].
    destruct (di_first _ _ _ _ Hd HTTP_HDR_PROTO) as (t & l & Ht & Hh & _); [set_solver|].
    destruct (ProtoVer_in m' hp' t l Ht Hh) as (v & -> & _). rewrite bind_Ret.
    exists m', (set_protover hp' v), lost', 0. split; [done|]. split; [done|]. split; [done|].
    split; [done|]. split; [|by left]. intros _. exists ls. by apply dissected_protover.
  - exists m', hp', lost', r. done.
Qed.

End HttpDissect.
