(* ===== verification/HttpWire.v ===== *)
(** Requests as they are on the wire: dissecting one gives back its parts. *)
From S2P Require Import Prelude Vct Ws Mem Http HttpLines HttpDissect.
Import Vct Mem Http HttpLines HttpDissect.

Module HttpWire.

(** ** The wire format *)

Definition CRLF : list Z := [13; 10].

Definition wire_lines (ls : list (list Z)) : list Z := concat (map (fun l => l ++ CRLF) ls).

Definition wire_request (meth url proto : list Z) (ls : list (list Z)) : list Z :=
  meth ++ [32] ++ url ++ [32] ++ proto ++ CRLF ++ wire_lines ls ++ CRLF.

(** A header line that is sent as it is stored. *)
Definition line_ok (maxhdr : Z) (l : list Z) : bool :=
  forallb (fun c => negb (vct_iscrlf c)) l &&
  match l with c :: _ => negb (vct_issp c) | [] => false end &&
  match last l with Some c => negb (vct_issp c) | None => false end &&
  (Z.of_nat (length l) <=? maxhdr).

Definition meth_ok (l : list Z) : bool :=
  negb (bool_decide (l = [])) && forallb (fun c => negb (vct_issp c) && negb (vct_isctl c)) l.

Definition url_ok (l : list Z) : bool :=
  negb (bool_decide (l = [])) && forallb (fun c => negb (vct_islws c) && negb (vct_isctl c)) l.

Definition proto_ok (l : list Z) : bool :=
  forallb (fun c => negb (vct_iscrlf c) && negb (negb (vct_issep c) && vct_isctl c)) l &&
  match l with c :: _ => negb (vct_issp c) | [] => true end.

(** Conditional headers: [If-...]. *)
Definition is_if (l : list Z) : bool :=
  match l with
  | c0 :: c1 :: c2 :: _ =>
      ((c0 =? 105) || (c0 =? 73)) && ((c1 =? 102) || (c1 =? 70)) && (c2 =? 45)
  | _ => false
  end.

(** ** Header lines *)

Lemma is_cond_line m p l : mapped m p (l ++ CRLF) -> is_cond m p = Ok (is_if l).
Proof.
  intros Hm. unfold is_cond, CRLF in *.
  destruct l as [|c0 l]; simpl app in Hm; apply mapped_cons in Hm as [H0 Hm];
    rewrite (peek_ok _ _ _ H0), bind_Ret; [done|]. simpl is_if.
  destruct ((c0 =? 105) || (c0 =? 73)); simpl; [|by destruct l as [|? [|? ?]]].
  destruct l as [|c1 l]; simpl app in Hm; apply mapped_cons in Hm as [H1 Hm];
    rewrite (peek_ok _ _ _ H1), bind_Ret; [done|].
  destruct ((c1 =? 102) || (c1 =? 70)); simpl; [|by destruct l].
  replace (p + 1 + 1) with (p + 2) in Hm by lia.
  destruct l as [|c2 l]; simpl app in Hm; apply mapped_cons in Hm as [H2 Hm];
    rewrite (peek_ok _ _ _ H2), bind_Ret; done.
Qed.

(** [find_end] over a line to its CRLF. *)
Lemma find_end_line te m q l fuel rest : forall r,
  mapped m r (l ++ CRLF ++ rest) -> Forall nocrlf l ->
  te = r + Z.of_nat (length l) + 2 + Z.of_nat (length rest) - 1 ->
  match rest with c :: _ => c = 0 /\ length rest = 1%nat \/ vct_issp c = false | [] => False end ->
  (length l < fuel)%nat ->
  find_end fuel m te q r =
    Ok (m, r + Z.of_nat (length l), r + Z.of_nat (length l) + 2).
Proof.
  revert fuel. induction l as [|c l IH]; intros fuel r Hm Hl Hte Hrest Hf.
  - destruct fuel as [|fuel]; [simpl in Hf; lia|]. cbn [find_end].
    destruct rest as [|x rest]; [done|]. simpl length in *.
    rewrite (proj2 (Z.leb_gt te r)) by lia.
    apply mapped_cons in Hm as [H0 Hm]. apply mapped_cons in Hm as [H1 Hm].
    apply mapped_cons in Hm as [H2 _].
    rewrite (peek_ok _ _ _ H0), bind_Ret. change (negb (vct_iscrlf 13)) with false. cbv iota zeta.
    unfold skipcrlf. rewrite (peek_ok _ _ _ H0), bind_Ret. change (13 =? 13) with true. cbv iota.
    rewrite (peek_ok _ _ _ H1), bind_Ret. change (10 =? 10) with true. cbv iota.
    unfold mret at 1, res_ret at 1. rewrite bind_Ret.
    replace (r + Z.of_nat 0) with r by lia.
    destruct (Z.leb_spec te (r + 2)); [done|].
    replace (r + 1 + 1) with (r + 2) in H2 by lia. rewrite (peek_ok _ _ _ H2), bind_Ret.
    destruct Hrest as [[-> Hone]| ->]; [lia|done].
  - destruct fuel as [|fuel]; [simpl in Hf; lia|]. cbn [find_end]. simpl length in *.
    apply Forall_cons in Hl as [Hc Hl]. simpl app in Hm. apply mapped_cons in Hm as [H0 Hm].
    rewrite (proj2 (Z.leb_gt te r)) by (destruct rest; [done|simpl in *; lia]).
    rewrite (peek_ok _ _ _ H0), bind_Ret. rewrite Hc. cbn [negb].
    rewrite (IH fuel (r + 1)) by (done || lia). do 2 f_equal; [f_equal|]; lia.
Qed.

Lemma trim_sp_line m p l fuel :
  mapped m p l -> match last l with Some c => vct_issp c = false | None => True end ->
  (length l <= fuel)%nat ->
  trim_sp fuel m p (p + Z.of_nat (length l)) = Ok (p + Z.of_nat (length l)).
Proof.
  intros Hm Hl Hf. destruct (last l) as [c|] eqn:El.
  - apply last_Some in El as [l' ->]. apply mapped_app in Hm as [_ Hm].
    apply mapped_cons in Hm as [H0 _]. rewrite length_app in *. simpl length in *.
    destruct fuel as [|fuel]; [lia|]. cbn [trim_sp].
    rewrite (proj2 (Z.leb_gt _ p)) by lia.
    replace (p + Z.of_nat (length l' + 1) - 1) with (p + Z.of_nat (length l')) by lia.
    by rewrite (peek_ok _ _ _ H0), bind_Ret, Hl.
  - apply last_None in El as ->. simpl. rewrite Z.add_0_r. destruct fuel; cbn [trim_sp];
      by rewrite Z.leb_refl.
Qed.

Lemma mapped_insert m p l a v :
  mapped m p l -> a < p \/ p + Z.of_nat (length l) <= a -> mapped (<[a := v]> m) p l.
Proof.
  intros Hm Ha i c Hi. pose proof (lookup_lt_Some _ _ _ Hi).
  rewrite lookup_insert_ne by lia. by apply Hm.
Qed.

Lemma line_ok_inv mx l : line_ok mx l = true ->
  Forall nocrlf l /\ (exists c l', l = c :: l' /\ vct_issp c = false) /\
  match last l with Some c => vct_issp c = false | None => True end /\
  Z.of_nat (length l) <= mx.
Proof.
  unfold line_ok. rewrite !andb_true_iff. intros [[[H1 H2] H3] H4]. split; [|split; [|split]].
  - rewrite forallb_forall in H1. apply Forall_forall. intros c Hc.
    apply negb_true_iff, H1. by apply list_elem_of_In.
  - destruct l as [|c l]; [done|]. exists c, l. by apply negb_true_iff in H2.
  - destruct (last l); [by apply negb_true_iff|done].
  - by apply Z.leb_le.
Qed.

(** What follows a line does not continue it. *)
Lemma wire_next ls mx : forallb (line_ok mx) ls = true ->
  exists c rest, wire_lines ls ++ CRLF ++ [0] = c :: rest /\ vct_issp c = false.
Proof.
  intros H. destruct ls as [|l ls]; [by exists 13, [10; 0]|].
  cbn [forallb] in H. apply andb_true_iff in H as [H _]. destruct (line_ok_inv _ _ H) as (_ & (c & l' & -> & Hc) & _).
  eexists c, _. split; [reflexivity|done].
Qed.

Definition plain_line (l : list Z) : line := (l, 0).

(** The loop over the wire format of the header lines. *)
Lemma dissect_wire htc lo te : e (rxbuf htc) = te -> te - lo < 2 ^ 32 - 1 -> 0 < lo ->
  0 <= maxhdr htc ->
  forall ls m hp lost p done fuel,
  forallb (line_ok (maxhdr htc)) ls = true ->
  mapped m p (wire_lines ls ++ CRLF ++ [0]) ->
  te = p + Z.of_nat (length (wire_lines ls)) + 2 -> lo <= p ->
  building m hp lo p te done -> (nhd hp + length ls <= shd hp)%nat ->
  te - p <= Z.of_nat fuel ->
  exists m' hp', dissect_loop fuel m hp lost p htc = Ok (m', hp', lost, 0) /\
    building m' hp' lo te te (done ++ map plain_line ls) /\ same_frame hp hp' /\
    (forall a, a < p -> m' !! a = m !! a) /\
    conds hp' = (if existsb is_if ls then 1 else conds hp).
Proof.
  intros Ete Hlen H0 Hmx. induction ls as [|l ls IH]; intros m hp lost p dn fuel Hok Hm Hte Hp Hb Hn Hf.
  - simpl in Hte. destruct fuel as [|fuel]; [lia|]. cbn [dissect_loop]. rewrite Ete.
    rewrite (proj2 (Z.leb_gt te p)) by lia.
    rewrite (find_end_line te m p [] _ [0]) by (done || (left; done) || (simpl length; lia)).
    rewrite bind_Ret. cbv beta iota. simpl Z.of_nat. rewrite Z.add_0_r, Z.sub_diag.
    rewrite (proj2 (Z.ltb_ge (maxhdr htc) 0)), Z.eqb_refl by lia.
    exists m, hp. split; [done|]. split; [|done]. simpl. rewrite app_nil_r.
    eapply building_agree; [exact Hb|lia|done|done].
  - cbn [forallb] in Hok. apply andb_true_iff in Hok as [Hl Hok].
    destruct (line_ok_inv _ _ Hl) as (Hc & (c & l' & El & Hsp) & Hlast & Hmax).
    assert (Ew : wire_lines (l :: ls) = l ++ CRLF ++ wire_lines ls)
      by (unfold wire_lines; simpl; by rewrite <- app_assoc).
    rewrite Ew in *. clear Ew. rewrite !length_app in Hte. change (length CRLF) with 2%nat in Hte.
    rewrite <- !app_assoc in Hm.
    destruct (wire_next ls _ Hok) as (c2 & rest & Er & Hc2). rewrite Er in Hm.
    assert (Elen : (length (c2 :: rest) = length (wire_lines ls) + 3)%nat)
      by (rewrite <- Er, !length_app; done).
    assert (Hl0 : (0 < length l)%nat) by (rewrite El; simpl; lia).
    destruct fuel as [|fuel]; [lia|]. cbn [dissect_loop]. rewrite Ete.
    rewrite (proj2 (Z.leb_gt te p)) by lia.
    rewrite (find_end_line te m p l _ (c2 :: rest)) by (done || (right; done) || lia).
    rewrite bind_Ret. cbv beta iota. set (q := p + Z.of_nat (length l)) in *.
    rewrite (proj2 (Z.ltb_ge (maxhdr htc) (q - p))) by (unfold q; lia).
    rewrite (proj2 (Z.eqb_neq p q)) by (unfold q; lia).
    apply mapped_app in Hm as Hm'. destruct Hm' as [Hml Hmr].
    rewrite (is_cond_line m p l), bind_Ret by (rewrite app_assoc in Hm; by apply mapped_app in Hm as [? _]).
    cbv zeta beta. replace (Z.to_nat (q - p)) with (length l) by (unfold q; lia).
    unfold q. rewrite (trim_sp_line m p l) by done. fold q. rewrite bind_Ret. cbv beta.
    apply mapped_app in Hmr as [Hq Hmr]. apply mapped_cons in Hq as [Hq _]. fold q in Hq, Hmr.
    unfold poke. rewrite Hq. unfold mret at 1, res_ret at 1. rewrite bind_Ret. cbv beta.
    set (hpc := if is_if l then set_conds hp 1 else hp).
    set (m1 := <[q := 0]> m).
    assert (Hag : forall a, a < q -> m1 !! a = m !! a).
    { intros a Ha. unfold m1. by rewrite lookup_insert_ne by lia. }
    assert (Hte1 : m1 !! te = m !! te).
    { unfold m1. by rewrite lookup_insert_ne by (unfold q; lia). }
    assert (Hbc : building m1 hpc lo p te dn).
    { eapply building_agree; [|reflexivity|intros a Ha; apply Hag; unfold q; lia|done].
      unfold hpc. destruct (is_if l); [by apply building_conds|done]. }
    assert (Hpc : nhd hpc = nhd hp /\ shd hpc = shd hp /\ same_frame hp hpc) by (unfold hpc; by destruct (is_if l)).
    destruct Hpc as (Hnc & Hsc & Hfr). simpl length in Hn.
    rewrite (proj2 (Nat.ltb_lt (nhd hpc) (shd hpc))) by lia.
    assert (Hh : holds m1 (mkTxt p q) l).
    { split; [simpl; lia|]. split; [done|]. split; [|lia]. apply mapped_app. split.
      - change (mapped (<[q := 0]> m) p l). apply mapped_insert; [done|right; unfold q; lia].
      - cbn [b]. fold q. apply mapped_cons. split; [by unfold m1; rewrite lookup_insert_eq|by intros i x ?]. }
    destruct (building_add m1 hpc lo p te dn (mkTxt p q) l (q + 2) Hbc)
      as (hp1 & Eset & Etag & Enhd & Hfr1 & Hb1);
      [lia|done|done|simpl; lia|cbn [e]; unfold q; lia|unfold q; lia|cbn [e]; lia|].
    apply bind_Ok in Eset as (hpx & Ex1 & Ex2). rewrite Ex1, bind_Ret. cbv beta.
    rewrite Ex2, bind_Ret. cbv beta.
    unfold WSLH. rewrite Etag, (vassert_true (_ && _)), bind_Ret by (by vm_compute). cbv beta.
    rewrite Enhd.
    destruct (IH m1 (set_nhd hp1 (S (nhd hpc))) lost (q + 2) (dn ++ [(l, 0)]) fuel Hok)
      as (m' & hp' & E & A & B & C & D).
    { rewrite Er. apply mapped_insert; [done|left; lia]. }
    { unfold q. lia. } { unfold q; lia. } { done. }
    { destruct Hfr1 as (F1 & _). unfold shd in *. simpl. lia. } { lia. }
    exists m', hp'. split; [exact E|]. split; [by rewrite <- app_assoc in A|]. split.
    { destruct Hfr as (F1 & F2 & F3), Hfr1 as (G1 & G2 & G3), B as (K1 & K2 & K3). simpl in *.
      split; [congruence|]. split; [congruence|]. intros u Hu. by rewrite K3, G3, F3. }
    split; [intros a Ha; rewrite C by (unfold q; lia); apply Hag; unfold q; lia|].
    rewrite D. cbn [existsb]. change (conds (set_nhd hp1 _)) with (conds hp1).
    assert (Ec1 : conds hp1 = conds hpc).
    { unfold set_hdf in Ex1. destruct (_ <? _)%nat; [|done]. injection Ex1 as <-.
      unfold set_hd in Ex2. destruct (_ <? _)%nat; [|done]. by injection Ex2 as <-. }
    rewrite Ec1. unfold hpc. destruct (is_if l), (existsb is_if ls); done.
Qed.

(** ** The request line *)

Lemma field_run stop bad m p l c fuel :
  mapped m p (l ++ [c]) -> Forall (fun x => stop x = false /\ bad x = false) l -> stop c = true ->
  (length l <= fuel)%nat ->
  field stop bad m fuel p = Ok (Some (p + Z.of_nat (length l))).
Proof.
  revert p fuel. induction l as [|x l IH]; intros p fuel Hm Hl Hc Hf.
  - apply mapped_cons in Hm as [H0 _]. simpl. rewrite Z.add_0_r.
    destruct fuel; simpl; by rewrite (peek_ok _ _ _ H0), bind_Ret, Hc.
  - apply mapped_cons in Hm as [H0 Hm]. apply Forall_cons in Hl as [[Hs Hb] Hl].
    destruct fuel as [|fuel]; simpl in Hf; [lia|]. simpl.
    rewrite (peek_ok _ _ _ H0), bind_Ret, Hs, Hb.
    rewrite (IH (p + 1) fuel) by (done || lia). do 2 f_equal. lia.
Qed.

(** Equality of strings up to case. *)
Definition nocase_eq (s l : list Z) : bool := named s l && (length s =? length l)%nat.

Definition proto_version (proto : list Z) : Z :=
  if nocase_eq (str "HTTP/1.0") proto then 10
  else if nocase_eq (str "HTTP/1.1") proto then 11 else 9.

Lemma strcaseeq_ok m p l s :
  mapped m p (l ++ [0]) -> Forall (fun c => 0 < c) s -> Forall (fun c => c <> 0) l ->
  strcaseeq m p s = Ok (nocase_eq s l).
Proof.
  unfold nocase_eq. revert p l. induction s as [|x s IH]; intros p l Hm Hs Hl.
  - destruct l as [|c l]; apply mapped_cons in Hm as [H0 _]; simpl;
      rewrite (peek_ok _ _ _ H0), bind_Ret; [done|].
    apply Forall_cons in Hl as [Hc _]. by rewrite (proj2 (Z.eqb_neq c 0)).
  - apply Forall_cons in Hs as [Hx Hs]. destruct l as [|c l]; apply mapped_cons in Hm as [H0 Hm]; simpl;
      rewrite (peek_ok _ _ _ H0), bind_Ret.
    + by rewrite tolower_pos by done.
    + apply Forall_cons in Hl as [_ Hl]. destruct (tolower x =? tolower c); [|done].
      simpl. by apply IH.
Qed.

Lemma ProtoVer_ok m hp t l :
  hd hp !! HTTP_HDR_PROTO = Some t -> mapped m (b t) (l ++ [0]) -> Forall (fun c => c <> 0) l ->
  http_ProtoVer m hp = Ok (set_protover hp (proto_version l)).
Proof.
  intros Ht Hm Hl. unfold http_ProtoVer. rewrite (get_hd_ok _ _ _ Ht), bind_Ret.
  rewrite !(strcaseeq_ok m (b t) l) by (done || by apply str_pos). by rewrite !bind_Ret.
Qed.

Lemma forallb_Forall (P : Z -> bool) (Q : Z -> Prop) l :
  (forall c, P c = true -> Q c) -> forallb P l = true -> Forall Q l.
Proof.
  intros HPQ. rewrite forallb_forall. intros H. apply Forall_forall. intros c Hc.
  apply HPQ, H. by apply list_elem_of_In.
Qed.

Lemma meth_ok_inv l : meth_ok l = true ->
  l <> [] /\ Forall (fun c => vct_issp c = false /\ vct_isctl c = false) l.
Proof.
  unfold meth_ok. rewrite andb_true_iff, negb_true_iff. intros [H1 H2]. split.
  - by apply bool_decide_eq_false in H1.
  - eapply forallb_Forall; [|exact H2]. intros c. cbv beta. rewrite andb_true_iff, !negb_true_iff. done.
Qed.

Lemma url_ok_inv l : url_ok l = true ->
  l <> [] /\ Forall (fun c => vct_islws c = false /\ vct_isctl c = false) l.
Proof.
  unfold url_ok. rewrite andb_true_iff, negb_true_iff. intros [H1 H2]. split.
  - by apply bool_decide_eq_false in H1.
  - eapply forallb_Forall; [|exact H2]. intros c. cbv beta. rewrite andb_true_iff, !negb_true_iff. done.
Qed.

Lemma proto_ok_inv l : proto_ok l = true ->
  Forall (fun c => vct_iscrlf c = false /\ negb (vct_issep c) && vct_isctl c = false) l /\
  match l with c :: _ => vct_issp c = false | [] => True end.
Proof.
  unfold proto_ok. rewrite andb_true_iff. intros [H1 H2]. split.
  - eapply forallb_Forall; [|exact H1]. intros c. cbv beta. rewrite andb_true_iff, !negb_true_iff. done.
  - destruct l; [done|by apply negb_true_iff].
Qed.

(** Blanks, line ends and controls, over every octet. *)
Lemma vct_implies (P Q : Z -> bool) :
  (forall x, P x = P (u8 x)) -> (forall x, Q x = Q (u8 x)) ->
  forallb (fun c => implb (P c) (Q c)) octets = true -> forall c, P c = true -> Q c = true.
Proof.
  intros HP HQ H c Hc. pose proof (vct_octet (fun c => implb (P c) (Q c))) as A.
  specialize (A ltac:(intros x; cbv beta; by rewrite HP, HQ) H c). cbv beta in A. by rewrite Hc in A.
Qed.

Lemma lws_not_meth c : vct_issp c = false -> vct_isctl c = false -> vct_islws c = false.
Proof.
  intros H1 H2. destruct (vct_islws c) eqn:E; [|done]. exfalso.
  assert (vct_issp c || vct_isctl c = true) as F; [|by rewrite H1, H2 in F].
  clear H1 H2. revert c E. apply (vct_implies vct_islws (fun c => vct_issp c || vct_isctl c));
    [intros x; by unfold vct_islws; rewrite vct_is_u8 | | by vm_compute].
  intros x. unfold vct_issp, vct_isctl. by rewrite !(vct_is_u8 x).
Qed.

Lemma sp_not_url c : vct_islws c = false -> vct_issp c = false.
Proof.
  intros H. destruct (vct_issp c) eqn:E; [|done]. rewrite <- H. symmetry.
  clear H. revert c E. apply (vct_implies vct_issp vct_islws); [..|by vm_compute];
    intros x; unfold vct_issp, vct_islws; by rewrite vct_is_u8.
Qed.

Lemma dissect_hdrs_wire htc lo te m hp lost p ls :
  e (rxbuf htc) = te -> te - lo < 2 ^ 32 - 1 -> 0 < lo -> 0 <= maxhdr htc ->
  forallb (line_ok (maxhdr htc)) ls = true ->
  mapped m p (wire_lines ls ++ CRLF ++ [0]) ->
  te = p + Z.of_nat (length (wire_lines ls)) + 2 -> lo <= p ->
  length (hdf hp) = length (hd hp) -> logtag hp = HTTP_Rx ->
  (HTTP_HDR_FIRST + length ls <= shd hp)%nat ->
  exists m' hp', http_dissect_hdrs m hp lost p htc = Ok (m', hp', lost, 0) /\
    building m' hp' lo te te (map plain_line ls) /\ same_frame hp hp' /\
    (forall a, a < p -> m' !! a = m !! a) /\
    conds hp' = (if existsb is_if ls then 1 else 0).
Proof.
  intros Ete Hlen H0 Hmx Hok Hm Hte Hp Hl Ht Hs. unfold http_dissect_hdrs. rewrite Ete.
  set (hp1 := set_conds (set_nhd hp HTTP_HDR_FIRST) 0).
  assert (Hb : forall p, building m hp1 lo p te []).
  { intros p'. split; try done. change (HTTP_HDR_FIRST <= shd hp)%nat. lia. }
  destruct ls as [|l ls].
  - simpl in Hm, Hte. apply mapped_cons in Hm as [Hc Hm]. apply mapped_cons in Hm as [Hd _].
    rewrite (peek_ok _ _ _ Hc), bind_Ret. cbn [Z.eqb Pos.eqb]. cbv zeta.
    replace (Z.to_nat (te - (p + 1))) with 1%nat by lia. cbn [dissect_loop]. rewrite Ete.
    rewrite (proj2 (Z.leb_gt te (p + 1))) by lia.
    replace (Z.to_nat (te - (p + 1))) with 1%nat by lia. cbn [find_end].
    rewrite (proj2 (Z.leb_gt te (p + 1))) by lia.
    rewrite (peek_ok _ _ _ Hd), bind_Ret. change (negb (vct_iscrlf 10)) with false. cbv iota zeta.
    unfold skipcrlf. rewrite (peek_ok _ _ _ Hd), bind_Ret. change (10 =? 13) with false. cbv iota.
    unfold mret at 1, res_ret at 1. rewrite bind_Ret.
    rewrite (proj2 (Z.leb_le te (p + 1 + 1))) by lia. unfold mret at 1, res_ret at 1.
    rewrite bind_Ret. cbv iota beta.
    rewrite (proj2 (Z.ltb_ge (maxhdr htc) (p + 1 - (p + 1)))), Z.eqb_refl by lia.
    exists m, hp1. split; [done|]. split; [apply Hb|done].
  - pose proof Hok as Hok'. cbn [forallb] in Hok'. apply andb_true_iff in Hok' as [Hl0 _].
    destruct (line_ok_inv _ _ Hl0) as (Hc & (c & l' & -> & _) & _).
    assert (Hpk : m !! p = Some c) by (by apply mapped_cons in Hm as [? _]).
    rewrite (peek_ok _ _ _ Hpk), bind_Ret.
    assert (c <> 13) as Hne.
    { apply Forall_cons in Hc as [Hc _]. intros ->. by vm_compute in Hc. }
    rewrite (proj2 (Z.eqb_neq c 13)) by done. cbv zeta.
    destruct (dissect_wire htc lo te Ete Hlen H0 Hmx ((c :: l') :: ls) m hp1 lost p []
      (Z.to_nat (te - p)) Hok Hm Hte Hp (Hb p)) as (m' & hp' & E & A & B & C & D); [done|lia|].
    exists m', hp'. done.
Qed.

(** The string [l] is in slot [h]. *)
Definition slot_is (m : mem) (hp : http) (h : nat) (l : list Z) : Prop :=
  exists t, hd hp !! h = Some t /\ holds m t l.

(** Putting three NULs into a request line. *)
Lemma ended_slot m p l q :
  mapped m p l -> q = p + Z.of_nat (length l) -> 0 < p -> Z.of_nat (length l) < 2 ^ 32 - 1 ->
  holds (<[q := 0]> m) (mkTxt p q) l.
Proof.
  intros Hm -> Hp Hl. split; [done|]. split; [done|]. split; [|done]. apply mapped_app. split.
  - apply mapped_insert; [done|right; cbn [b]; lia].
  - apply mapped_cons. split; [by rewrite lookup_insert_eq|by intros i x ?].
Qed.

Lemma holds_insert m t l a :
  holds m t l -> a < b t \/ e t < a -> holds (<[a := 0]> m) t l.
Proof.
  intros (Hb & He & Hm & Hl) Ha. split; [done|]. split; [done|]. split; [|done].
  apply mapped_insert; [done|]. rewrite length_app. cbn [length]. lia.
Qed.

Lemma poke_ok m p v c : m !! p = Some c -> poke m p v = Ok (<[p := v]> m).
Proof. unfold poke. by intros ->. Qed.

(** A wire image in memory, cut at its fields. *)
Record wire_at (m : mem) (lo : Z) (meth url proto : list Z) (ls : list (list Z)) : Prop := {
  wa_meth : mapped m lo (meth ++ [32]);
  wa_url : mapped m (lo + Z.of_nat (length meth)) (32 :: url ++ [32]);
  wa_proto : mapped m (lo + Z.of_nat (length meth) + 1 + Z.of_nat (length url)) (32 :: proto ++ CRLF);
  wa_lines : mapped m (lo + Z.of_nat (length meth) + 1 + Z.of_nat (length url) + 1 +
                       Z.of_nat (length proto) + 2) (wire_lines ls ++ CRLF ++ [0]);
}.

Lemma wire_at_mapped m lo meth url proto ls :
  mapped m lo (wire_request meth url proto ls ++ [0]) -> wire_at m lo meth url proto ls.
Proof.
  unfold wire_request. rewrite <- !app_assoc. intros H.
  pose proof (proj1 (mapped_app _ _ _ _) H) as [Hm H1].
  pose proof (proj1 (mapped_cons _ _ _ _) H1) as [Hs H2].
  pose proof (proj1 (mapped_app _ _ _ _) H2) as [Hu H3].
  pose proof (proj1 (mapped_cons _ _ _ _) H3) as [Hs2 H4].
  pose proof (proj1 (mapped_app _ _ _ _) H4) as [Hp H5].
  pose proof (proj1 (mapped_app _ _ _ _) H5) as [Hc H6].
  assert (Hnil : forall a, mapped m a []) by (intros a i x ?; done).
  change (Z.of_nat (length CRLF)) with 2 in H6. split.
  - apply mapped_app. split; [done|]. by apply mapped_cons.
  - apply mapped_cons. split; [done|]. apply mapped_app. split; [done|]. by apply mapped_cons.
  - apply mapped_cons. split; [done|]. apply mapped_app. done.
  - done.
Qed.

Lemma field_size stop bad m p l c r :
  mapped m p (l ++ c :: r) -> Forall (fun x => stop x = false /\ bad x = false) l -> stop c = true ->
  field stop bad m (size m) p = Ok (Some (p + Z.of_nat (length l))).
Proof.
  intros Hm Hl Hc. change (c :: r) with ([c] ++ r) in Hm. rewrite app_assoc in Hm.
  apply mapped_app in Hm as [Hm _]. apply (field_run stop bad m p l c); try done.
  apply mapped_size in Hm. rewrite length_app in Hm. lia.
Qed.

(** One blank is skipped. *)
Lemma field_blank m p l c r :
  mapped m p (32 :: l) -> l = c :: r -> vct_issp c = false ->
  field not_sp vct_isctl m (size m) p = Ok (Some (p + 1)).
Proof.
  intros Hm -> Hc. rewrite (field_size not_sp vct_isctl m p [32] c r); [done|done| |].
  - by repeat constructor.
  - unfold not_sp. by rewrite Hc.
Qed.

Lemma skip_none P m p c r : mapped m p (c :: r) -> P c = false -> skip P m p = Ok p.
Proof.
  intros Hm Hc. apply mapped_cons in Hm as [H0 _]. unfold skip.
  destruct (size m); simpl; by rewrite (peek_ok _ _ _ H0), bind_Ret, Hc.
Qed.

Lemma request_line_wire htc m hp lost lo meth url proto ls
 :
  let p1 := lo + Z.of_nat (length meth) in
  let p3 := p1 + 1 + Z.of_nat (length url) in
  let p5 := p3 + 1 + Z.of_nat (length proto) in
  0 < lo -> b (rxbuf htc) = lo -> Tcheck (rxbuf htc) = Ok tt ->
  Z.of_nat (length url) < 2 ^ 32 - 1 ->
  meth_ok meth = true -> url_ok url = true -> proto_ok proto = true ->
  wire_at m lo meth url proto ls ->
  length (hdf hp) = length (hd hp) -> (HTTP_HDR_FIRST <= shd hp)%nat ->
  logtag hp = HTTP_Rx ->
  exists hp', http_splitline m hp lost htc HTTP_HDR_REQ HTTP_HDR_URL HTTP_HDR_PROTO =
    http_dissect_hdrs (<[p5 := 0]> (<[p3 := 0]> (<[p1 := 0]> m))) hp' lost (p5 + 2) htc /\
    hd hp' !! HTTP_HDR_REQ = Some (mkTxt lo p1) /\
    hd hp' !! HTTP_HDR_URL = Some (mkTxt (p1 + 1) p3) /\
    hd hp' !! HTTP_HDR_PROTO = Some (mkTxt (p3 + 1) p5) /\
    length (hdf hp') = length (hd hp') /\ shd hp' = shd hp /\ logtag hp' = HTTP_Rx.
Proof.
  intros p1 p3 p5 H0 Eb Etc Hu32 Hmeth Hurl Hproto [W1 W2 W3 W4] Hl Hs Ht.
  destruct (meth_ok_inv _ Hmeth) as [Hm0 Fm], (url_ok_inv _ Hurl) as [Hu0 Fu],
    (proto_ok_inv _ Hproto) as [Fp Hp0]. fold p1 in W2, W3, W4. fold p3 in W3, W4. fold p5 in W4.
  unfold http_splitline. rewrite Etc, bind_Ret, Eb.
  assert (skip vct_islws m lo = Ok lo) as ->.
  { destruct meth as [|c meth']; [done|]. eapply skip_none; [exact W1|].
    apply Forall_cons in Fm as [[A B] _]. by apply lws_not_meth. }
  rewrite bind_Ret. cbv zeta beta.
  rewrite (field_size vct_issp vct_isctl m lo meth 32 []), bind_Ret by done. cbn [or400]. fold p1.
  destruct (set_hd_ok hp HTTP_HDR_REQ (mkTxt lo p1)) as (hp1 & -> & X1 & Y1 & T1 & _ & Z1);
    [unfold HTTP_HDR_FIRST, HTTP_HDR_REQ in *; lia|]. rewrite bind_Ret.
  rewrite (field_blank m p1 (url ++ [32]) (default 0 (head (url ++ [32]))) (tail (url ++ [32])));
    [|done|by destruct url|destruct url as [|c url']; [done|]].
  2:{ apply Forall_cons in Fu as [[A B] _]. by apply sp_not_url. }
  rewrite bind_Ret. cbn [or400]. cbv zeta beta.
  apply mapped_cons in W2 as [W2c W2].
  rewrite (field_size vct_islws vct_isctl m (p1 + 1) url 32 []), bind_Ret by done.
  cbn [or400]. fold p3.
  destruct (set_hd_ok hp1 HTTP_HDR_URL (mkTxt (p1 + 1) p3)) as (hp2 & -> & X2 & Y2 & T2 & _ & Z2);
    [unfold HTTP_HDR_FIRST, HTTP_HDR_URL in *; lia|]. rewrite bind_Ret.
  assert (Hu1 : (0 < length url)%nat) by (destruct url; [done|simpl; lia]).
  assert (Tlen (mkTxt (p1 + 1) p3) = Ok (Z.of_nat (length url))) as ->.
  { unfold Tlen, Tcheck. cbn [b e].
    rewrite !vassert_true by (try apply truth_true; unfold p3, p1; lia). rewrite !bind_Ret.
    unfold mret, res_ret. f_equal. rewrite u32_small; unfold p3; lia. }
  rewrite bind_Ret. rewrite (proj2 (Z.eqb_neq (Z.of_nat (length url)) 0)) by lia.
  rewrite (field_blank m p3 (proto ++ CRLF) (default 0 (head (proto ++ CRLF))) (tail (proto ++ CRLF)));
    [|done|by destruct proto|by destruct proto].
  rewrite bind_Ret. cbn [or400]. cbv zeta beta.
  apply mapped_cons in W3 as [W3c W3]. unfold CRLF in W3.
  rewrite (field_size vct_iscrlf _ m (p3 + 1) proto 13 [10]), bind_Ret by done.
  cbn [or400]. fold p5.
  destruct (set_hd_ok hp2 HTTP_HDR_PROTO (mkTxt (p3 + 1) p5)) as (hp3 & -> & X3 & Y3 & T3 & _ & Z3);
    [unfold HTTP_HDR_FIRST, HTTP_HDR_PROTO in *; lia|]. rewrite bind_Ret.
  apply mapped_app in W3 as [W3 W3e]. fold p5 in W3e.
  apply mapped_cons in W3e as [W3e W3f]. apply mapped_cons in W3f as [W3f _].
  assert (skipcrlf m p5 = Ok 2) as ->.
  { unfold skipcrlf. rewrite (peek_ok _ _ _ W3e), bind_Ret. cbn [Z.eqb Pos.eqb].
    by rewrite (peek_ok _ _ _ W3f), bind_Ret. }
  rewrite bind_Ret. cbv zeta.
  assert (N : (HTTP_HDR_FIRST <= length (hd hp))%nat) by exact Hs.
  assert (E1 : hd hp3 !! HTTP_HDR_REQ = Some (mkTxt lo p1)).
  { rewrite X3, X2, X1, !list_lookup_insert_ne by done. rewrite list_lookup_insert_eq; [done|].
    unfold HTTP_HDR_FIRST, HTTP_HDR_REQ in *; lia. }
  assert (E2 : hd hp3 !! HTTP_HDR_URL = Some (mkTxt (p1 + 1) p3)).
  { rewrite X3, X2, X1, list_lookup_insert_ne by done. rewrite list_lookup_insert_eq; [done|].
    rewrite length_insert. unfold HTTP_HDR_FIRST, HTTP_HDR_URL in *; lia. }
  assert (E3 : hd hp3 !! HTTP_HDR_PROTO = Some (mkTxt (p3 + 1) p5)).
  { rewrite X3, X2, X1, list_lookup_insert_eq; [done|].
    rewrite !length_insert. unfold HTTP_HDR_FIRST, HTTP_HDR_PROTO in *; lia. }
  rewrite (get_hd_ok _ _ _ E1), bind_Ret. cbn [e].
  apply mapped_app in W1 as [_ W1]. apply mapped_cons in W1 as [W1 _].
  rewrite (poke_ok m p1 0 32), bind_Ret by done.
  unfold WSLH. rewrite T3, T2, T1, Ht, (vassert_true (_ && _)), bind_Ret by (by vm_compute).
  rewrite (get_hd_ok _ _ _ E2), bind_Ret. cbn [e].
  rewrite (poke_ok _ p3 0 32), bind_Ret by (rewrite lookup_insert_ne by (unfold p3; lia); done).
  rewrite (get_hd_ok _ _ _ E3), bind_Ret. cbn [e].
  rewrite (proj2 (truth_true p5)) by (unfold p5, p3, p1; lia).
  rewrite (poke_ok _ p5 0 13), bind_Ret by (rewrite !lookup_insert_ne by (unfold p5, p3; lia); done).
  exists hp3. split; [done|]. split; [done|]. split; [done|]. split; [done|]. split; [|split].
  - by rewrite Y3, Y2, Y1, X3, X2, X1, !length_insert.
  - congruence.
  - congruence.
Qed.

Lemma same_frame_slot m m' hp hp' h t l p :
  same_frame hp hp' -> (h < HTTP_HDR_FIRST)%nat -> hd hp !! h = Some t -> holds m t l ->
  e t < p -> (forall a, a < p -> m' !! a = m !! a) -> slot_is m' hp' h l.
Proof.
  intros (_ & _ & Hf) Hh Ht Hl He Ha. exists t. rewrite Hf by done. split; [done|].
  by eapply holds_below.
Qed.

Lemma proto_nonzero proto : proto_ok proto = true -> Forall (fun c => c <> 0) proto.
Proof.
  intros H. destruct (proto_ok_inv _ H) as [Fp _]. eapply Forall_impl; [exact Fp|].
  intros c [_ Hc] ->. by vm_compute in Hc.
Qed.

Lemma DissectRequest_wire htc m hp lost lo meth url proto ls :
  let wire := wire_request meth url proto ls in
  0 < lo -> rxbuf htc = mkTxt lo (lo + Z.of_nat (length wire)) ->
  Z.of_nat (length wire) < 2 ^ 32 - 1 -> 0 <= maxhdr htc ->
  meth_ok meth = true -> url_ok url = true -> proto_ok proto = true ->
  forallb (line_ok (maxhdr htc)) ls = true ->
  mapped m lo (wire ++ [0]) ->
  length (hdf hp) = length (hd hp) -> (HTTP_HDR_FIRST + length ls <= shd hp)%nat ->
  exists m' hp', http_DissectRequest m hp lost htc = Ok (m', hp', lost, 0) /\
    slot_is m' hp' HTTP_HDR_REQ meth /\ slot_is m' hp' HTTP_HDR_URL url /\
    slot_is m' hp' HTTP_HDR_PROTO proto /\ has_lines m' hp' (map plain_line ls) /\
    protover hp' = proto_version proto /\ conds hp' = (if existsb is_if ls then 1 else 0).
Proof.
  intros wire H0 Erx Hlen Hmx Hm Hu Hp Hls Hw Hl Hs.
  apply wire_at_mapped in Hw as Hat.
  set (p1 := lo + Z.of_nat (length meth)).
  set (p3 := p1 + 1 + Z.of_nat (length url)).
  set (p5 := p3 + 1 + Z.of_nat (length proto)).
  assert (Hwl : Z.of_nat (length wire) =
    Z.of_nat (length meth) + Z.of_nat (length url) + Z.of_nat (length proto) +
    Z.of_nat (length (wire_lines ls)) + 6).
  { unfold wire, wire_request. rewrite !length_app. cbn [length CRLF]. lia. }
  unfold http_DissectRequest. cbv zeta.
  destruct (request_line_wire htc m (set_logtag hp HTTP_Rx) lost lo meth url proto ls)
    as (hp1 & -> & E1 & E2 & E3 & Hl1 & Hs1 & Ht1); try done.
  { by rewrite Erx. }
  { rewrite Erx. unfold Tcheck. cbn [b e]. rewrite !vassert_true; try done; try (apply truth_true); lia. }
  { lia. }
  { change (HTTP_HDR_FIRST <= shd hp)%nat. lia. }
  fold p1 in E1, E2, E3 |- *. fold p3 in E2, E3 |- *. fold p5 in E3 |- *.
  destruct Hat as [W1 W2 W3 W4]. fold p1 in W2, W3, W4. fold p3 in W3, W4. fold p5 in W4.
  set (m1 := <[p5 := 0]> (<[p3 := 0]> (<[p1 := 0]> m))).
  destruct (dissect_hdrs_wire htc lo (p5 + 2 + Z.of_nat (length (wire_lines ls)) + 2) m1 hp1 lost
    (p5 + 2) ls) as (m2 & hp2 & -> & B & C & D & F).
  { rewrite Erx. cbn [e]. unfold p5, p3, p1. lia. }
  { unfold p5, p3, p1. lia. } { done. } { done. } { done. }
  { unfold m1. repeat apply mapped_insert; try done; left; unfold p5, p3, p1; lia. }
  { done. } { unfold p5, p3, p1; lia. } { done. } { done. }
  { rewrite Hs1. exact Hs. }
  rewrite bind_Ret. cbv iota beta. cbn [Z.eqb negb].
  apply mapped_app in W1 as [W1 _]. apply mapped_cons in W2 as [_ W2].
  apply mapped_app in W2 as [W2 _]. apply mapped_cons in W3 as [_ W3]. apply mapped_app in W3 as [W3 _].
  assert (S1 : slot_is m2 hp2 HTTP_HDR_REQ meth).
  { eapply (same_frame_slot m1 m2 hp1 hp2 _ _ _ (p5 + 2)); [exact C|apply Nat.ltb_lt; reflexivity|exact E1| |cbn [e]; unfold p5, p3; lia|exact D].
    unfold m1. do 2 (apply holds_insert; [|cbn [e]; unfold p5, p3; lia]).
    apply ended_slot; [done|done|done|lia]. }
  assert (S2 : slot_is m2 hp2 HTTP_HDR_URL url).
  { eapply (same_frame_slot m1 m2 hp1 hp2 _ _ _ (p5 + 2)); [exact C|apply Nat.ltb_lt; reflexivity|exact E2| |cbn [e]; unfold p5; lia|exact D].
    unfold m1. apply holds_insert; [|cbn [e]; unfold p5; lia].
    apply ended_slot; [|done|unfold p1; lia|lia]. apply mapped_insert; [done|lia]. }
  assert (S3 : slot_is m2 hp2 HTTP_HDR_PROTO proto).
  { eapply (same_frame_slot m1 m2 hp1 hp2 _ _ _ (p5 + 2)); [exact C|apply Nat.ltb_lt; reflexivity|exact E3| |cbn [e]; lia|exact D].
    unfold m1. apply ended_slot; [|done|unfold p3, p1; lia|lia].
    repeat apply mapped_insert; try done; left; unfold p3; lia. }
  destruct S3 as (t3 & Et3 & Hh3). pose proof Hh3 as (_ & _ & Hm3 & _).
  rewrite (ProtoVer_ok m2 hp2 t3 proto Et3 Hm3 (proto_nonzero _ Hp)), bind_Ret.
  exists m2, (set_protover hp2 (proto_version proto)). split; [done|]. split; [done|].
  split; [done|]. split; [by exists t3|]. split; [|done].
  apply building_has_lines in B. by destruct B.
Qed.

End HttpWire.
