(* ===== verification/HttpCollect.v ===== *)
(** Collecting the header lines of one name into one. *)
From S2P Require Import Prelude Vct Ws Mem Http HttpLines.
Import Vct Mem Http HttpLines.

Module HttpCollect.

(** ** The specification *)

(** What is appended to the first line for a later one. *)
Definition appended (hdr l : list Z) : list Z := 44 :: drop (length hdr) l.

Definition joined (hdr first : list Z) (more : list (list Z)) : list Z :=
  first ++ concat (map (appended hdr) more).

Definition others (hdr : list Z) (ls : list (list Z)) : list (list Z) :=
  filter (fun l => named hdr l = false) ls.
Definition ofname (hdr : list Z) (ls : list (list Z)) : list (list Z) :=
  filter (fun l => named hdr l = true) ls.

Lemma ofname_cons hdr l ls :
  ofname hdr (l :: ls) = if named hdr l then l :: ofname hdr ls else ofname hdr ls.
Proof.
  unfold ofname. destruct (named hdr l) eqn:E.
  - by rewrite (filter_cons_True (fun l => named hdr l = true)).
  - rewrite (filter_cons_False (fun l => named hdr l = true)); [done|congruence].
Qed.

Lemma others_cons hdr l ls :
  others hdr (l :: ls) = if named hdr l then others hdr ls else l :: others hdr ls.
Proof.
  unfold others. destruct (named hdr l) eqn:E.
  - rewrite (filter_cons_False (fun l => named hdr l = false)); [done|congruence].
  - by rewrite (filter_cons_True (fun l => named hdr l = false)).
Qed.

(** The texts of the lines afterwards; [room] is what the workspace has left. *)
Fixpoint collected (hdr : list Z) (room : Z) (ls : list (list Z)) : list (list Z) :=
  match ls with
  | [] => []
  | l :: ls =>
      if named hdr l then
        (if Z.of_nat (length (joined hdr l (ofname hdr ls))) <? room
         then joined hdr l (ofname hdr ls) else l) :: others hdr ls
      else l :: collected hdr room ls
  end.

(** ** Memory *)

Lemma poke_all_ok (lo hi : Z) : forall l m p,
  lo <= p -> p + Z.of_nat (length l) <= hi ->
  (forall a, lo <= a < hi -> is_Some (m !! a)) ->
  exists m', poke_all m p l = Ok m' /\ mapped m' p l /\
    (forall a, a < p \/ p + Z.of_nat (length l) <= a -> m' !! a = m !! a) /\
    (forall a, lo <= a < hi -> is_Some (m' !! a)).
Proof.
  induction l as [|c l IH]; intros m p Hp Hl Hd.
  - exists m. split; [done|]. split; [by intros i x ?|]. done.
  - cbn [poke_all length] in *. destruct (Hd p) as [x Hx]; [lia|]. unfold poke. rewrite Hx, bind_Ret.
    destruct (IH (<[p := c]> m) (p + 1)) as (m' & -> & Hm & Ho & Hd').
    { lia. } { lia. }
    { intros a Ha. destruct (decide (a = p)) as [->|].
      - rewrite lookup_insert_eq. by eexists.
      - rewrite lookup_insert_ne by done. by apply Hd. }
    exists m'. split; [done|]. split; [|split; [|done]].
    + apply mapped_cons. split; [|done]. rewrite Ho by lia. by rewrite lookup_insert_eq.
    + intros a Ha. rewrite Ho by lia. by rewrite lookup_insert_ne by lia.
Qed.

Lemma mapped_agree m m' p l :
  mapped m p l -> (forall a, p <= a < p + Z.of_nat (length l) -> m' !! a = m !! a) -> mapped m' p l.
Proof.
  intros Hm Ha i c Hi. pose proof (lookup_lt_Some _ _ _ Hi). rewrite Ha by lia. by apply Hm.
Qed.

(** A slot outside the free area of the workspace. *)
Definition apart (w : Ws.ws) (t : txt) : Prop := e t < Ws.ws_f w \/ Ws.ws_e w <= b t.

(** The slots from [i] on have the texts [ls], outside the free area. *)
Definition texts (m : mem) (w : Ws.ws) (hp : http) (i : nat) (ls : list (list Z)) : Prop :=
  forall k l, ls !! k = Some l ->
    exists t, hd hp !! (i + k)%nat = Some t /\ holds m t l /\ apart w t.

Lemma texts_app m w hp i l1 l2 :
  texts m w hp i (l1 ++ l2) <-> texts m w hp i l1 /\ texts m w hp (i + length l1) l2.
Proof.
  split.
  - intros H. split; intros k l Hk.
    + apply H. by apply lookup_app_l_Some.
    + rewrite <- Nat.add_assoc. apply H. rewrite lookup_app_r by lia. by rewrite Nat.add_comm, Nat.add_sub.
  - intros [H1 H2] k l [Hk|[Hk1 Hk]]%lookup_app_Some; [by apply H1|].
    specialize (H2 _ _ Hk). by replace (i + k)%nat with (i + length l1 + (k - length l1))%nat by lia.
Qed.

Lemma texts_cons m w hp i l ls :
  texts m w hp i (l :: ls) <->
  (exists t, hd hp !! i = Some t /\ holds m t l /\ apart w t) /\ texts m w hp (S i) ls.
Proof.
  change (l :: ls) with ([l] ++ ls). rewrite texts_app. simpl. rewrite Nat.add_1_r.
  split; intros [H1 H2]; (split; [|done]).
  - specialize (H1 0%nat l eq_refl). by rewrite Nat.add_0_r in H1.
  - intros [|k] x Hx; [|done]. injection Hx as <-. by rewrite Nat.add_0_r.
Qed.

Lemma holds_outside m m' w t l :
  holds m t l -> apart w t ->
  (forall a, a < Ws.ws_f w \/ Ws.ws_e w <= a -> m' !! a = m !! a) -> holds m' t l.
Proof.
  intros (Hb & He & Hm & Hl) Ha Ho. split; [done|]. split; [done|]. split; [|done].
  eapply mapped_agree; [done|]. intros a Hx. rewrite length_app in Hx. simpl in Hx.
  apply Ho. unfold apart in Ha. lia.
Qed.

Lemma texts_agree m m' w hp hp' i ls :
  texts m w hp i ls ->
  (forall a, a < Ws.ws_f w \/ Ws.ws_e w <= a -> m' !! a = m !! a) -> hd hp' = hd hp ->
  texts m' w hp' i ls.
Proof.
  intros H Ho E k l Hk. destruct (H k l Hk) as (t & Ht & Hh & Ha).
  exists t. rewrite E. split; [done|]. split; [|done]. by eapply holds_outside.
Qed.

(** ** The buffer *)

Section Buffer.
Context (m0 : mem) (w0 : Ws.ws).
Context (Hw : Ws.ws_ok w0) (Hsm : Ws.ws_small w0) (Hr0 : Ws.ws_r w0 = 0).

Notation lo := (Ws.ws_f w0).
Notation hi := (Ws.ws_e w0).
Definition room : Z := Ws.ws_e w0 - Ws.ws_f w0.

(** [m] differs from [m0] in the free area only. *)
Definition outside (m : mem) : Prop :=
  (forall a, a < lo \/ hi <= a -> m !! a = m0 !! a) /\
  (forall a, lo <= a < hi -> is_Some (m !! a)).

(** The buffer holds [J], or is full. *)
Definition filled (m : mem) (cb : Z) (J : list Z) : Prop :=
  outside m /\
  if Z.of_nat (length J) <? room then cb = lo + Z.of_nat (length J) /\ mapped m lo J
  else cb = hi.

Lemma filled_le m cb J : filled m cb J -> lo <= cb <= hi.
Proof.
  intros [_ H]. destruct (Z.ltb_spec (Z.of_nat (length J)) room); unfold room in *;
    destruct Hw; [destruct H; lia|lia].
Qed.

Lemma filled_append m cb J l :
  filled m cb J -> cb + Z.of_nat (length l) < hi ->
  exists m', poke_all m cb l = Ok m' /\ filled m' (cb + Z.of_nat (length l)) (J ++ l).
Proof.
  intros Hf Hlt. pose proof (filled_le _ _ _ Hf) as Hle. destruct Hf as [[Ho Hd] Hf].
  destruct (poke_all_ok lo hi l m cb) as (m' & E & Hm & Ho' & Hd'); [lia|lia|done|].
  exists m'. split; [done|].
  destruct (Z.ltb_spec (Z.of_nat (length J)) room) as [Hj|Hj]; [|unfold room in *; lia].
  destruct Hf as [-> HJ]. split.
  - split; [|done]. intros a Ha. rewrite Ho' by lia. apply Ho. lia.
  - rewrite length_app. rewrite (proj2 (Z.ltb_lt _ room)) by (unfold room; lia).
    split; [lia|]. apply mapped_app. split; [|done].
    eapply mapped_agree; [exact HJ|]. intros a Ha. apply Ho'. lia.
Qed.

Lemma collect_copy_ok m cb J p l :
  filled m cb J -> mapped m p l ->
  exists m' cb', collect_copy m cb hi p (Z.of_nat (length l)) = Ok (m', cb') /\
    filled m' cb' (J ++ l).
Proof.
  intros Hf Hm. unfold collect_copy. destruct (Z.ltb_spec (cb + Z.of_nat (length l)) hi) as [Hlt|Hge].
  - rewrite Nat2Z.id, (region_run m p l Hm), bind_Ret.
    destruct (filled_append m cb J l Hf Hlt) as (m' & -> & Hf'). rewrite bind_Ret. eauto.
  - exists m, hi. split; [done|]. destruct Hf as [Ho Hf]. split; [done|].
    rewrite length_app. rewrite (proj2 (Z.ltb_ge _ room)); [done|].
    destruct (Z.ltb_spec (Z.of_nat (length J)) room); unfold room in *; lia.
Qed.

Lemma comma_ok m cb J :
  filled m cb J ->
  exists m' cb', (if cb <? hi then m ← poke m cb 44; mret (m, cb + 1) else mret (m, cb)) =
    Ok (m', cb') /\ filled m' cb' (J ++ [44]).
Proof.
  intros Hf. pose proof (filled_le _ _ _ Hf) as Hle. destruct (Z.ltb_spec cb hi) as [Hlt|Hge].
  - destruct Hf as [[Ho Hd] Hf].
    destruct (Z.ltb_spec (Z.of_nat (length J)) room) as [Hj|Hj]; [|unfold room in *; lia].
    destruct Hf as [-> HJ]. destruct (Hd (lo + Z.of_nat (length J))) as [x Hx]; [unfold room in *; lia|].
    unfold poke. rewrite Hx, bind_Ret. eexists _, _. split; [reflexivity|]. split.
    + split; intros a Ha.
      * rewrite lookup_insert_ne by lia. apply Ho. lia.
      * destruct (decide (a = lo + Z.of_nat (length J))) as [->|].
        -- rewrite lookup_insert_eq. by eexists.
        -- rewrite lookup_insert_ne by done. by apply Hd.
    + rewrite length_app. simpl length.
      destruct (Z.ltb_spec (Z.of_nat (length J + 1)) room); [|unfold room in *; lia].
      split; [lia|]. apply mapped_app. split.
      * eapply mapped_agree; [exact HJ|]. intros a Ha. by rewrite lookup_insert_ne by lia.
      * apply mapped_cons. split; [by rewrite lookup_insert_eq|by intros i y ?].
  - exists m, cb. split; [done|]. destruct Hf as [Ho Hf]. split; [done|].
    rewrite length_app. rewrite (proj2 (Z.ltb_ge _ room)); [lia|].
    destruct (Z.ltb_spec (Z.of_nat (length J)) room); unfold room in *; lia.
Qed.

(** The state of the collection: the first line is [l0], and so far [J]. *)
Definition collecting (c : collect) (l0 J : list Z) : Prop :=
  match c_be c with
  | None => c_m c = m0 /\ c_w c = w0 /\ J = l0
  | Some (cb, ce) => c_w c = Ws.set_r w0 hi /\ ce = hi /\ filled (c_m c) cb J
  end.

Lemma Reserve_all : Ws.WS_Reserve w0 0 = Ok (Ws.set_r w0 hi, room).
Proof.
  rewrite (Ws.WS_Reserve_ok w0 0) by (done || (unfold UINT_MAX; lia) || by left).
  unfold Ws.reserve_room. cbn [Z.eqb]. unfold room. do 2 f_equal. f_equal. lia.
Qed.

Lemma filled_nil : (forall a, lo <= a < hi -> is_Some (m0 !! a)) -> filled m0 lo [].
Proof.
  intros Hd. split; [done|]. simpl length. destruct (Z.ltb_spec (Z.of_nat 0) room).
  - split; [lia|by intros i x ?].
  - unfold room in *. destruct Hw. lia.
Qed.

(** ** One line more *)

(** What a step may change of the message: the slots and [nhd]. *)
Definition same_but (hp hp' : http) : Prop :=
  shd hp' = shd hp /\ hdf hp' = hdf hp /\ logtag hp' = logtag hp /\ status hp' = status hp /\
  protover hp' = protover hp /\ conds hp' = conds hp /\
  forall u, (u < HTTP_HDR_FIRST)%nat -> hd hp' !! u = hd hp !! u.

Lemma same_but_refl hp : same_but hp hp.
Proof. by repeat split. Qed.

Lemma same_but_trans a x y : same_but a x -> same_but x y -> same_but a y.
Proof.
  intros (A1 & A2 & A3 & A4 & A5 & A6 & A7) (B1 & B2 & B3 & B4 & B5 & B6 & B7).
  repeat split; try congruence. intros u Hu. by rewrite B7, A7.
Qed.

(** The slots after the [u]-th move up one. *)
Definition moved_up (hp : http) (u : nat) : http :=
  mkHttp (logtag hp) (take u (hd hp) ++ drop (S u) (take (nhd hp) (hd hp)) ++ drop (nhd hp - 1) (hd hp))
    (hdf hp) (nhd hp - 1) (status hp) (protover hp) (conds hp).

Lemma moved_up_ok m hp u A x R :
  texts m w0 hp HTTP_HDR_FIRST (A ++ x :: R) -> u = (HTTP_HDR_FIRST + length A)%nat ->
  nhd hp = (HTTP_HDR_FIRST + length (A ++ x :: R))%nat -> (nhd hp <= shd hp)%nat ->
  texts m w0 (moved_up hp u) HTTP_HDR_FIRST (A ++ R) /\ same_but hp (moved_up hp u) /\
  nhd (moved_up hp u) = (HTTP_HDR_FIRST + length (A ++ R))%nat.
Proof.
  intros Ht Hu Hn Hs. rewrite length_app in Hn. cbn [length] in Hn. unfold shd in Hs.
  assert (E1 : length (take u (hd hp)) = u) by (rewrite length_take; lia).
  assert (E2 : length (drop (S u) (take (nhd hp) (hd hp))) = (nhd hp - S u)%nat)
    by (rewrite length_drop, length_take; lia).
  split; [|split].
  - apply texts_app in Ht as [HA HR]. apply texts_cons in HR as [_ HR]. apply texts_app. split.
    + intros k l Hk. pose proof (lookup_lt_Some _ _ _ Hk). cbn [hd moved_up].
      rewrite lookup_app_l by lia. rewrite lookup_take_lt by lia. by apply HA.
    + intros k l Hk. pose proof (lookup_lt_Some _ _ _ Hk). cbn [hd moved_up].
      rewrite lookup_app_r by lia. rewrite lookup_app_l by lia.
      rewrite lookup_drop, lookup_take_lt by lia. destruct (HR k l Hk) as (t & Et & Hh & Ha).
      exists t. split; [|done]. rewrite <- Et. f_equal. lia.
  - repeat split. unfold shd. cbn [hd moved_up]. rewrite !length_app, E1, E2, length_drop. lia.
    intros v Hv. cbn [hd moved_up]. rewrite lookup_app_l by lia. by apply lookup_take_lt; lia.
  - cbn [nhd moved_up]. rewrite length_app. lia.
Qed.

Context (Hfree : forall a, lo <= a < hi -> is_Some (m0 !! a)).

Lemma collecting_outside c l0 J : collecting c l0 J -> outside (c_m c).
Proof.
  unfold collecting. destruct (c_be c) as [[cb ce]|].
  - intros (_ & _ & [H _]). done.
  - intros (-> & _ & _). done.
Qed.

Lemma slot_text m hp i l :
  texts m w0 hp i [l] -> exists t, get_hd hp i = Ok t /\ hd hp !! i = Some t /\ holds m t l /\ apart w0 t.
Proof.
  intros H. destruct (H 0%nat l eq_refl) as (t & Ht & Hh & Ha). rewrite Nat.add_0_r in Ht.
  exists t. unfold get_hd. by rewrite Ht.
Qed.

(** The collection begins at the second line. *)
Lemma collect_begin c l0 J :
  collecting c l0 J -> texts (c_m c) w0 (c_hp c) (c_f c) [l0] ->
  exists m cb, match c_be c with
    | Some (cb, ce) => mret (c_m c, c_w c, cb, ce)
    | None =>
        '(w, ml) ← Ws.WS_Reserve (c_w c) 0;
        let cb := Ws.ws_f w in
        let ce := cb + ml in
        t ← get_hd (c_hp c) (c_f c);
        x ← Tlen t;
        '(m, cb) ← collect_copy (c_m c) cb ce (b t) x;
        mret (m, w, cb, ce)
    end = Ok (m, Ws.set_r w0 hi, cb, hi) /\ filled m cb J.
Proof.
  unfold collecting. intros Hc Ht. destruct (c_be c) as [[cb ce]|].
  - destruct Hc as (-> & -> & Hf). by exists (c_m c), cb.
  - destruct Hc as (Em & -> & ->). rewrite Reserve_all, bind_Ret. cbv beta iota zeta.
    cbn [Ws.ws_f Ws.set_r]. replace (lo + room) with hi by (unfold room; lia).
    destruct (slot_text _ _ _ _ Ht) as (t & -> & _ & Hh & _). rewrite bind_Ret.
    rewrite (holds_Tlen _ _ _ Hh), bind_Ret. destruct Hh as (_ & _ & Hm & _).
    rewrite Em in *.
    destruct (collect_copy_ok m0 lo [] (b t) l0 (filled_nil Hfree)) as (m' & cb & -> & Hf).
    { by apply mapped_app in Hm as [? _]. }
    rewrite bind_Ret. by exists m', cb.
Qed.

Lemma collect_line_ok c l0 J A B x R hdr u :
  collecting c l0 J -> texts (c_m c) w0 (c_hp c) HTTP_HDR_FIRST (A ++ l0 :: B ++ x :: R) ->
  c_f c = (HTTP_HDR_FIRST + length A)%nat -> u = (HTTP_HDR_FIRST + length A + S (length B))%nat ->
  nhd (c_hp c) = (HTTP_HDR_FIRST + length (A ++ l0 :: B ++ x :: R))%nat ->
  (nhd (c_hp c) <= shd (c_hp c))%nat -> named hdr x = true ->
  exists c', collect_line c hdr u = Ok c' /\ collecting c' l0 (J ++ appended hdr x) /\
    texts (c_m c') w0 (c_hp c') HTTP_HDR_FIRST (A ++ l0 :: B ++ R) /\ c_f c' = c_f c /\
    nhd (c_hp c') = (HTTP_HDR_FIRST + length (A ++ l0 :: B ++ R))%nat /\
    c_be c' <> None /\ same_but (c_hp c) (c_hp c').
Proof.
  intros Hc Ht Hf Hu Hn Hs Hx. unfold collect_line. cbv zeta.
  pose proof (collecting_outside _ _ _ Hc) as [Hoc _].
  pose proof Ht as Ht'. apply texts_app in Ht' as [_ Ht']. rewrite <- Hf in Ht'.
  apply texts_cons in Ht' as [T0 Ht']. apply texts_app in Ht' as [_ Ht'].
  replace (S (c_f c) + length B)%nat with u in Ht' by lia.
  apply texts_cons in Ht' as [(tx & Etx & Hhx & Hax) _].
  destruct (collect_begin c l0 J Hc) as (m & cb & E & Hfl).
  { apply texts_cons. split; [done|]. by intros k l ?. }
  cbv zeta in E. rewrite E, bind_Ret. cbv beta iota. clear E.
  pose proof (filled_le _ _ _ Hfl) as Hle.
  assert (0 < lo /\ 0 < hi) as [Hlo0 Hhi0] by (destruct Hw; lia).
  rewrite (vassert_true (truth cb)), bind_Ret by (apply truth_true; lia).
  rewrite (vassert_true (truth hi)), bind_Ret by (apply truth_true; lia).
  destruct (comma_ok m cb J Hfl) as (m1 & cb1 & -> & Hfl1). rewrite bind_Ret. cbv beta iota.
  unfold get_hd at 1. rewrite Etx. cbn [deref]. rewrite bind_Ret.
  rewrite (holds_Tlen _ _ _ Hhx), bind_Ret.
  pose proof (named_length _ _ Hx) as Hlx. pose proof Hhx as (Hb & _ & Hm & H32).
  rewrite u32_small by lia.
  replace (Z.of_nat (length x) - Z.of_nat (length hdr)) with (Z.of_nat (length (drop (length hdr) x)))
    by (rewrite length_drop; lia).
  assert (Hagree : forall a, a < lo \/ hi <= a -> m1 !! a = c_m c !! a).
  { intros a Ha. rewrite Hoc by done. apply Hfl1. done. }
  destruct (collect_copy_ok m1 cb1 (J ++ [44]) (b tx + Z.of_nat (length hdr)) (drop (length hdr) x) Hfl1)
    as (m2 & cb2 & -> & Hfl2).
  { pose proof (holds_outside _ _ _ _ _ Hhx Hax Hagree) as (_ & _ & Hm1 & _).
    apply mapped_app in Hm1 as [Hm1 _]. rewrite <- (take_drop (length hdr) x) in Hm1.
    apply mapped_app in Hm1 as [_ Hm1]. by rewrite length_take, Nat.min_l in Hm1 by lia. }
  rewrite bind_Ret. cbv beta iota.
  destruct (moved_up_ok (c_m c) (c_hp c) u (A ++ l0 :: B) x R) as (M1 & M2 & M3).
  { by rewrite <- app_assoc. }
  { rewrite length_app. cbn [length]. lia. }
  { by rewrite <- app_assoc. }
  { done. }
  rewrite <- app_assoc in M1, M3. eexists. split; [reflexivity|]. cbn [c_m c_w c_hp c_f c_be].
  split; [|split; [|split; [done|split; [exact M3|split; [done|exact M2]]]]].
  - unfold collecting. cbn [c_m c_w c_hp c_f c_be]. split; [done|]. split; [done|].
    unfold appended. by rewrite <- app_assoc in Hfl2.
  - eapply texts_agree; [exact M1| |done]. intros a Ha. rewrite Hoc by done. apply Hfl2. done.
Qed.

(** ** The loops *)

(** The message while collecting: [A], the first line of the name, [B] without
    the name, and [R], not yet looked at. *)
Record at_line (c : collect) (l0 J : list Z) (A B R : list (list Z)) : Prop := {
  al_buf : collecting c l0 J;
  al_texts : texts (c_m c) w0 (c_hp c) HTTP_HDR_FIRST (A ++ l0 :: B ++ R);
  al_f : c_f c = (HTTP_HDR_FIRST + length A)%nat;
  al_nhd : nhd (c_hp c) = (HTTP_HDR_FIRST + length (A ++ l0 :: B ++ R))%nat;
  al_shd : (nhd (c_hp c) <= shd (c_hp c))%nat;
}.

Definition more (hdr : list Z) (P : list (list Z)) : list Z := concat (map (appended hdr) P).

Lemma collect_slot_ok hdr l0 A B : header_name hdr -> forall R fuel c J,
  at_line c l0 J A B R -> (length R <= fuel)%nat ->
  exists c' P R', collect_slot fuel c hdr (HTTP_HDR_FIRST + length A + S (length B)) = Ok c' /\
    R = P ++ R' /\ Forall (fun l => named hdr l = true) P /\
    match R' with x :: _ => named hdr x = false | [] => True end /\
    at_line c' l0 (J ++ more hdr P) A B R' /\ same_but (c_hp c) (c_hp c').
Proof.
  intros Hn. induction R as [|x R IH]; intros fuel c J Hal Hf.
  - exists c, [], []. destruct fuel; cbn [collect_slot]; rewrite (al_nhd _ _ _ _ _ _ Hal), app_nil_r.
    all: rewrite (proj2 (Nat.leb_le _ _)) by (rewrite length_app; cbn [length]; lia).
    all: unfold more; simpl; rewrite !app_nil_r; split_and!; done || apply same_but_refl.
  - destruct fuel as [|fuel]; [simpl in Hf; lia|]. cbn [collect_slot].
    pose proof Hal as [H1 H2 H3 H4 H5].
    rewrite H4. rewrite (proj2 (Nat.leb_gt _ _)) by (rewrite length_app; cbn [length]; rewrite length_app; cbn [length]; lia).
    pose proof H2 as Ht. apply texts_app in Ht as [_ Ht]. apply texts_cons in Ht as [_ Ht].
    apply texts_app in Ht as [_ Ht].
    replace (S (HTTP_HDR_FIRST + length A) + length B)%nat with (HTTP_HDR_FIRST + length A + S (length B))%nat in Ht by lia.
    set (u := (HTTP_HDR_FIRST + length A + S (length B))%nat) in *.
    apply texts_cons in Ht as [(t & Et & Hh & _) _].
    unfold get_hd. rewrite Et. cbn [deref]. rewrite bind_Ret, (IsHdr_ok _ _ _ _ Hh Hn), bind_Ret.
    destruct (named hdr x) eqn:Ex; cbn [negb].
    2:{ exists c, [], (x :: R). unfold more. simpl. rewrite app_nil_r. split_and!; done || apply same_but_refl. }
    rewrite (holds_Tcheck _ _ _ Hh), bind_Ret.
    rewrite bool_decide_eq_false_2 by (rewrite H3; unfold HTTP_HDR_FIRST; lia).
    destruct (collect_line_ok c l0 J A B x R hdr u) as (c1 & -> & G1 & G2 & G3 & G4 & _ & G6); try done.
    rewrite bind_Ret.
    destruct (IH fuel c1 (J ++ appended hdr x)) as (c' & P & R' & E & -> & HP & HR & Hal' & Hsb).
    { split; try done; [by rewrite G3|]. rewrite (proj1 G6). rewrite G4.
      revert H5. rewrite H4, !length_app. cbn [length]. rewrite !length_app. cbn [length]. lia. }
    { simpl in Hf. lia. }
    exists c', (x :: P), R'. split; [exact E|]. split; [done|]. split; [by constructor|].
    split; [done|]. split; [|by eapply same_but_trans].
    unfold more in *. cbn [map concat]. by rewrite app_assoc.
Qed.

Lemma ofname_split hdr P x R :
  Forall (fun l => named hdr l = true) P -> named hdr x = false ->
  ofname hdr (P ++ x :: R) = P ++ ofname hdr R /\ others hdr (P ++ x :: R) = x :: others hdr R.
Proof.
  intros HP Hx. induction HP as [|y P Hy HP [IH1 IH2]]; cbn [app]; rewrite ofname_cons, others_cons.
  - by rewrite Hx.
  - by rewrite Hy, IH1, IH2.
Qed.

Lemma ofname_all hdr P : Forall (fun l => named hdr l = true) P ->
  ofname hdr P = P /\ others hdr P = [].
Proof.
  induction 1 as [|y P Hy HP [IH1 IH2]]; [done|].
  by rewrite ofname_cons, others_cons, Hy, IH1, IH2.
Qed.

(** After the first line of the name. *)
Lemma collect_rest_ok hdr l0 A : header_name hdr -> forall n R fuel B c J,
  at_line c l0 J A B R -> (length R <= n)%nat -> (n <= fuel)%nat ->
  exists c', collect_loop fuel c hdr (HTTP_HDR_FIRST + length A + S (length B)) = Ok c' /\
    at_line c' l0 (J ++ more hdr (ofname hdr R)) A (B ++ others hdr R) [] /\
    same_but (c_hp c) (c_hp c').
Proof.
  intros Hn. induction n as [|n IH]; intros R fuel B c J Hal HR Hf.
  all: destruct R as [|x R]; [|try (simpl in HR; lia)].
  1,2: exists c; change (more hdr (ofname hdr [])) with (@nil Z); change (others hdr []) with (@nil (list Z)); rewrite !app_nil_r; split; [|split; [done|apply same_but_refl]];
    destruct fuel; cbn [collect_loop]; rewrite (al_nhd _ _ _ _ _ _ Hal), app_nil_r;
    rewrite (proj2 (Nat.leb_le _ _)) by (rewrite length_app; cbn [length]; lia); done.
  destruct fuel as [|fuel]; [lia|]. cbn [collect_loop].
  rewrite (al_nhd _ _ _ _ _ _ Hal).
  rewrite (proj2 (Nat.leb_gt _ _)) by (rewrite length_app; cbn [length]; rewrite length_app; cbn [length]; lia).
  destruct (collect_slot_ok hdr l0 A B Hn (x :: R)
    (HTTP_HDR_FIRST + length (A ++ l0 :: B ++ x :: R))%nat c J Hal) as (c1 & P & R' & -> & ER & HP & HR' & Hal1 & Hsb1).
  { rewrite !length_app. cbn [length]. rewrite length_app. cbn [length]. lia. }
  rewrite bind_Ret. rewrite ER in *. clear ER x R. destruct R' as [|y R'].
  - destruct (ofname_all hdr P HP) as [E1 E2]. rewrite app_nil_r, E1, E2, app_nil_r.
    exists c1. split; [|done].
    destruct fuel; cbn [collect_loop]; rewrite (al_nhd _ _ _ _ _ _ Hal1), app_nil_r;
      rewrite (proj2 (Nat.leb_le _ _)) by (rewrite length_app; cbn [length]; lia); done.
  - destruct (ofname_split hdr P y R' HP HR') as [E1 E2]. rewrite E1, E2.
    destruct (IH R' fuel (B ++ [y]) c1 (J ++ more hdr P)) as (c' & E & Hal' & Hsb').
    { destruct Hal1 as [G1 G2 G3 G4 G5]. split; try done; by rewrite <- app_assoc. }
    { rewrite length_app in HR. simpl in HR. lia. } { lia. }
    exists c'. rewrite length_app in E. cbn [length] in E.
    replace (HTTP_HDR_FIRST + length A + S (length B + 1))%nat
      with (S (HTTP_HDR_FIRST + length A + S (length B)))%nat in E by lia.
    split; [exact E|]. split; [|by eapply same_but_trans].
    unfold more in *. rewrite map_app, concat_app, app_assoc. by rewrite <- (app_assoc B) in Hal'.
Qed.

(** Before it. *)
Lemma collect_loop_ok hdr : header_name hdr -> forall R fuel A c,
  c_be c = None -> c_m c = m0 -> c_w c = w0 -> c_f c = 0%nat ->
  texts m0 w0 (c_hp c) HTTP_HDR_FIRST (A ++ R) ->
  nhd (c_hp c) = (HTTP_HDR_FIRST + length (A ++ R))%nat -> (nhd (c_hp c) <= shd (c_hp c))%nat ->
  Forall (fun l => named hdr l = false) A -> (length R <= fuel)%nat ->
  exists c', collect_loop fuel c hdr (HTTP_HDR_FIRST + length A) = Ok c' /\
    same_but (c_hp c) (c_hp c') /\
    ((ofname hdr R = [] /\ c' = c) \/
     exists A' l0 R', R = A' ++ l0 :: R' /\ Forall (fun l => named hdr l = false) A' /\
       named hdr l0 = true /\
       at_line c' l0 (joined hdr l0 (ofname hdr R')) (A ++ A') (others hdr R') []).
Proof.
  intros Hn. induction R as [|x R IH]; intros fuel A c Hbe Hm Hw' Hf Ht Hnh Hs HA Hfu.
  - exists c. split; [|split; [apply same_but_refl|by left]].
    destruct fuel; cbn [collect_loop]; rewrite Hnh, app_nil_r;
      by rewrite (proj2 (Nat.leb_le _ _)) by lia.
  - destruct fuel as [|fuel]; [simpl in Hfu; lia|]. cbn [collect_loop].
    assert (Hle : (nhd (c_hp c) <=? HTTP_HDR_FIRST + length A)%nat = false).
    { rewrite Hnh. apply Nat.leb_gt. rewrite length_app. cbn [length]. lia. }
    rewrite Hle.
    assert (Ec : exists k, nhd (c_hp c) = S k) by (rewrite Hnh; by eexists). destruct Ec as [k Ek].
    rewrite Ek. cbn [collect_slot].
    rewrite Hle.
    pose proof Ht as Ht'. apply texts_app in Ht' as [_ Ht']. apply texts_cons in Ht' as [(t & Et & Hh & _) _].
    unfold get_hd. rewrite Et. cbn [deref]. rewrite bind_Ret, Hm, (IsHdr_ok _ _ _ _ Hh Hn), bind_Ret.
    destruct (named hdr x) eqn:Ex; cbn [negb].
    + rewrite (holds_Tcheck _ _ _ Hh), bind_Ret, Hf. rewrite bool_decide_eq_true_2 by done.
      unfold mret at 1, res_ret at 1. rewrite bind_Ret.
      destruct (collect_rest_ok hdr x A Hn (length R) R fuel []
        (mkCollect m0 (c_w c) (c_hp c) (HTTP_HDR_FIRST + length A) (c_be c)) x)
        as (c' & E & Hal & Hsb); [|lia|simpl in Hfu; lia|].
      { split; try done. unfold collecting. cbn [c_be c_m c_w]. by rewrite Hbe. }
      cbn [length] in E. rewrite Nat.add_1_r in E. exists c'. split; [exact E|]. split; [exact Hsb|].
      right. exists [], x, R. split; [done|]. split; [done|]. split; [done|]. by rewrite app_nil_r.
    + unfold mret at 1, res_ret at 1. rewrite bind_Ret.
      destruct (IH fuel (A ++ [x]) c) as (c' & E & Hsb & Hcase); try done.
      { by rewrite <- app_assoc. } { by rewrite <- app_assoc. }
      { apply Forall_app. split; [done|by repeat constructor]. } { simpl in Hfu. lia. }
      rewrite length_app, Nat.add_assoc, Nat.add_1_r in E.
      exists c'. split; [exact E|]. split; [done|]. destruct Hcase as [[E1 ->]|(A' & l0 & R' & -> & HA' & Hl0 & Hal)].
      * left. split; [|done]. by rewrite ofname_cons, Ex.
      * right. exists (x :: A'), l0, R'. split; [done|]. split; [by constructor|]. split; [done|].
        by rewrite <- app_assoc in Hal.
Qed.

End Buffer.

Lemma collected_split hdr room A l0 R :
  Forall (fun l => named hdr l = false) A -> named hdr l0 = true ->
  collected hdr room (A ++ l0 :: R) =
  A ++ (if Z.of_nat (length (joined hdr l0 (ofname hdr R))) <? room
        then joined hdr l0 (ofname hdr R) else l0) :: others hdr R.
Proof.
  intros HA Hl0. induction HA as [|a A Ha HA IH]; cbn [app collected].
  - by rewrite Hl0.
  - by rewrite Ha, IH.
Qed.

Lemma collected_none hdr room ls : ofname hdr ls = [] -> collected hdr room ls = ls.
Proof.
  induction ls as [|l ls IH]; [done|]. rewrite ofname_cons. cbn [collected].
  destruct (named hdr l); [done|]. intros H. by rewrite IH.
Qed.

(** The header lines lie outside the free area of the workspace. *)
Definition lines_apart (w : Ws.ws) (hp : http) : Prop :=
  forall i t, (HTTP_HDR_FIRST <= i < nhd hp)%nat -> hd hp !! i = Some t -> apart w t.

Lemma has_lines_texts m w hp ls :
  has_lines m hp ls -> lines_apart w hp -> texts m w hp HTTP_HDR_FIRST (map fst ls).
Proof.
  intros H Ha k l Hk. rewrite list_lookup_fmap in Hk. apply fmap_Some in Hk as (x & Hx & ->).
  destruct (hl_lines _ _ _ H k x Hx) as (t & f & Ht & _ & Hh & _). exists t.
  split; [done|]. split; [done|]. apply (Ha (HTTP_HDR_FIRST + k)%nat); [|done].
  rewrite (hl_nhd _ _ _ H). apply lookup_lt_Some in Hx. lia.
Qed.

(** The texts with the flags of their slots. *)
Lemma texts_has_lines m w hp hp0 ls0 ts m0 :
  has_lines m0 hp0 ls0 -> texts m w hp HTTP_HDR_FIRST ts -> same_but hp0 hp ->
  nhd hp = (HTTP_HDR_FIRST + length ts)%nat -> (length ts <= length ls0)%nat ->
  has_lines m hp (zip ts (map snd ls0)) /\ lines_apart w hp.
Proof.
  intros H0 Ht (S1 & S2 & _) Hn Hl.
  assert (Hz : length (zip ts (map snd ls0)) = length ts).
  { rewrite length_zip_with, length_map. lia. }
  split; [split|].
  - rewrite S2, (hl_hdf _ _ _ H0). symmetry. exact S1.
  - by rewrite Hz.
  - rewrite Hn, S1. pose proof (hl_shd _ _ _ H0) as Hs. rewrite (hl_nhd _ _ _ H0) in Hs. lia.
  - intros i [l f] Hi. apply lookup_zip_with_Some in Hi as (l' & f' & E & Hi1 & Hi2). injection E as <- <-.
    rewrite list_lookup_fmap in Hi2. apply fmap_Some in Hi2 as (x & Hx & ->).
    destruct (Ht i l Hi1) as (t & Et & Hh & _). exists t, (snd x).
    destruct (hl_lines _ _ _ H0 i x Hx) as (t0 & f0 & _ & Ef & _ & Ef0). subst f0.
    rewrite S2. done.
  - intros i t Hi Et. rewrite Hn in Hi. destruct (lookup_lt_is_Some_2 ts (i - HTTP_HDR_FIRST)) as [l El]; [lia|].
    destruct (Ht _ _ El) as (t' & Et' & _ & Ha).
    replace (HTTP_HDR_FIRST + (i - HTTP_HDR_FIRST))%nat with i in Et' by lia. congruence.
Qed.

(** Where the collected line goes. *)
Lemma texts_insert m w hp A l0 B t J hp' :
  texts m w hp HTTP_HDR_FIRST (A ++ l0 :: B) -> holds m t J -> apart w t ->
  hd hp' = <[(HTTP_HDR_FIRST + length A)%nat := t]> (hd hp) ->
  texts m w hp' HTTP_HDR_FIRST (A ++ J :: B).
Proof.
  intros H Hh Ha E. apply texts_app in H as [HA HB]. apply texts_cons in HB as [(t0 & Et0 & _) HB].
  apply texts_app. split; [|apply texts_cons; split].
  - intros k l Hk. pose proof (lookup_lt_Some _ _ _ Hk). rewrite E, list_lookup_insert_ne by lia.
    by apply HA.
  - exists t. rewrite E, list_lookup_insert_eq by (by eapply lookup_lt_Some). done.
  - intros k l Hk. rewrite E, list_lookup_insert_ne by lia. by apply HB.
Qed.

Lemma texts_ws m w w' hp i ls :
  texts m w hp i ls -> Ws.ws_f w <= Ws.ws_f w' -> Ws.ws_e w' = Ws.ws_e w -> texts m w' hp i ls.
Proof.
  intros H Hf He k l Hk. destruct (H k l Hk) as (t & Et & Hh & Ha). exists t. split; [done|].
  split; [done|]. unfold apart in *. rewrite He. lia.
Qed.

(** What a call leaves of the workspace and the rest of memory. *)
Record kept (m m' : mem) (w w' : Ws.ws) : Prop := {
  kp_ok : Ws.ws_ok w';
  kp_r : Ws.ws_r w' = 0;
  kp_f : Ws.ws_f w <= Ws.ws_f w';
  kp_e : Ws.ws_e w' = Ws.ws_e w;
  kp_s : Ws.ws_s w' = Ws.ws_s w;
  kp_mem : forall a, a < Ws.ws_f w \/ Ws.ws_e w <= a -> m' !! a = m !! a;
}.

Lemma kept_refl m w : Ws.ws_ok w -> Ws.ws_r w = 0 -> kept m m w w.
Proof. intros. by split; try lia. Qed.

Lemma ws_ok_reserved w : Ws.ws_ok w -> Ws.ws_ok (Ws.set_r w (Ws.ws_e w)).
Proof. intros H. apply Ws.ws_ok_set_r; [done|]. right. destruct H. lia. Qed.

(** The end of [http_CollectHdr]. *)
Definition finish (c : collect) : res (mem * Ws.ws * http) :=
  match c_be c with
  | None => mret (c_m c, c_w c, c_hp c)
  | Some (cb, ce) =>
      vassert (truth ce);;
      if ce <=? cb then
        w ← Ws.WS_Release (c_w c) 0;
        mret (c_m c, w, c_hp c)
      else
        m ← poke (c_m c) cb 0;
        hp ← set_hd (c_hp c) (c_f c) (mkTxt (Ws.ws_f (c_w c)) cb);
        w ← Ws.WS_ReleaseP (c_w c) (cb + 1);
        mret (m, w, hp)
  end.

Lemma finish_ok m0 w0 c l0 J A B :
  Ws.ws_ok w0 -> Ws.ws_small w0 -> Ws.ws_r w0 = 0 -> at_line m0 w0 c l0 J A B [] ->
  exists m' w' hp', finish c = Ok (m', w', hp') /\ kept m0 m' w0 w' /\ same_but (c_hp c) hp' /\
    nhd hp' = nhd (c_hp c) /\
    texts m' w' hp' HTTP_HDR_FIRST
      (A ++ (if Z.of_nat (length J) <? room w0 then J else l0) :: B).
Proof.
  intros Hw Hsm Hr0 [Hb Ht Hf Hn Hs]. rewrite app_nil_r in Ht, Hn. unfold finish, collecting in *.
  destruct (c_be c) as [[cb ce]|].
  2:{ destruct Hb as (Em & -> & ->). rewrite Em in *. exists m0, w0, (c_hp c). split; [done|].
      split; [by apply kept_refl|]. split; [apply same_but_refl|]. split; [done|].
      by destruct (_ <? _). }
  destruct Hb as (Ew & -> & Hfl). pose proof Hfl as Hle. apply filled_le in Hle; [|done..].
  destruct Hfl as [[Ho Hd] Hfl]. rewrite Ew. cbn [Ws.ws_f Ws.set_r].
  pose proof Hw as [h1 h2 h3 h4 h5 h6 h7 h8].
  pose proof (ws_ok_reserved w0 Hw) as Hwr.
  rewrite (vassert_true (truth _)), bind_Ret by (apply truth_true; lia).
  destruct (Z.leb_spec (Ws.ws_e w0) cb) as [Hfull|Hfit].
  - assert (E : Z.of_nat (length J) <? room w0 = false).
    { destruct (Z.ltb_spec (Z.of_nat (length J)) (room w0)); [|done]. unfold room in *. lia. }
    rewrite E. rewrite (Ws.WS_Release_ok _ 0 Hwr), bind_Ret
      by (cbn [Ws.ws_f Ws.ws_r Ws.set_r]; change (Ws.round_up 0) with 0; unfold UINT_MAX; lia).
    eexists _, _, _. split; [reflexivity|]. change (Ws.round_up 0) with 0. split; [|split; [|split]].
    + split; simpl; try done; try lia. apply Ws.ws_ok_set_r; [|by left].
      apply Ws.ws_ok_set_f; [by apply ws_ok_reserved|simpl; lia|simpl; by rewrite Z.add_0_r].
    + apply same_but_refl.
    + done.
    + eapply texts_ws; [exact Ht|simpl; lia|done].
  - destruct (Z.ltb_spec (Z.of_nat (length J)) (room w0)) as [Hj|Hj]; [|lia].
    destruct Hfl as [-> HJ]. set (cb := Ws.ws_f w0 + Z.of_nat (length J)) in *.
    destruct (Hd cb) as [x Hx]; [unfold cb in *; lia|]. unfold poke. rewrite Hx, bind_Ret. cbv beta.
    assert (Hfs : (c_f c < shd (c_hp c))%nat).
    { rewrite Hf. rewrite length_app in Hn. cbn [length] in Hn. lia. }
    unfold set_hd. unfold shd in Hfs. rewrite (proj2 (Nat.ltb_lt _ _) Hfs). unfold mret at 1, res_ret at 1. rewrite bind_Ret. cbv beta.
    destruct (Ws.WS_ReleaseP_ok (Ws.set_r w0 (Ws.ws_e w0)) (cb + 1) Hwr) as [E Hrel]; [simpl; lia|simpl; unfold cb; lia|].
    rewrite E, bind_Ret. cbv beta. cbn [Ws.ws_f Ws.set_r Ws.ws_r] in *. clear E.
    pose proof (Ws.round_up_bounds (cb + 1 - Ws.ws_f w0)) as Hru.
    set (w' := Ws.set_r (Ws.set_f _ _) 0).
    assert (Ef : Ws.ws_f w' = Ws.ws_f w0 + Ws.round_up (cb + 1 - Ws.ws_f w0)) by done.
    eexists _, _, _. split; [reflexivity|]. split; [|split; [|split]].
    + split; try done; [|rewrite Ef; unfold cb in *; lia|].
      * apply Ws.ws_ok_set_r; [|by left]. apply Ws.ws_ok_set_f; [done|simpl; unfold cb in *; lia|].
        apply Ws.add_mod8; [done|apply Ws.round_up_mod].
      * intros a Ha. rewrite lookup_insert_ne by lia. by apply Ho.
    + repeat split; cbn [hd]; [by unfold shd; cbn [hd]; rewrite length_insert|].
      intros u Hu. rewrite list_lookup_insert_ne; [done|]. rewrite Hf. lia.
    + done.
    + eapply texts_insert with (t := mkTxt (Ws.ws_f w0) cb); [| | |cbn [hd]; by rewrite Hf].
      * apply (texts_ws _ w0 w'); [|rewrite Ef; unfold cb in *; lia|done].
        eapply texts_agree; [exact Ht| |done]. intros a Ha. by rewrite lookup_insert_ne by lia.
      * split; [simpl; lia|]. split; [done|]. split; [|unfold Ws.ws_small, room in *; lia].
        apply mapped_app. cbn [b]. fold cb. split.
        -- eapply mapped_agree; [exact HJ|]. intros a Ha. by rewrite lookup_insert_ne by (unfold cb; lia).
        -- apply mapped_cons. split; [by rewrite lookup_insert_eq|by intros i y ?].
      * left. rewrite Ef. cbn [e]. unfold cb in *. lia.
Qed.

Lemma CollectHdr_ok m w hp ls hdr :
  has_lines m hp ls -> header_name hdr -> lines_apart w hp ->
  Ws.ws_ok w -> Ws.ws_small w -> Ws.ws_r w = 0 ->
  (forall a, Ws.ws_f w <= a < Ws.ws_e w -> is_Some (m !! a)) ->
  exists m' w' hp', http_CollectHdr m w hp hdr = Ok (m', w', hp') /\
    has_lines m' hp' (zip (collected hdr (room w) (map fst ls)) (map snd ls)) /\
    lines_apart w' hp' /\ kept m m' w w' /\ same_but hp hp'.
Proof.
  intros H Hn Ha Hw Hsm Hr Hfree. pose proof (has_lines_texts _ _ _ _ H Ha) as Ht.
  pose proof (hl_nhd _ _ _ H) as Hnh. pose proof (hl_shd _ _ _ H) as Hsh.
  destruct (collect_loop_ok m w Hw Hsm Hr Hfree hdr Hn (map fst ls) (nhd hp) []
    (mkCollect m w hp 0 None)) as (c & E & Hsb & Hcase); try done.
  { by rewrite app_nil_l, length_map. } { rewrite length_map. lia. }
  cbn [length] in E. rewrite Nat.add_0_r in E.
  assert (EC : http_CollectHdr m w hp hdr = finish c) by (unfold http_CollectHdr; by rewrite E).
  rewrite EC. cbn [c_hp] in Hsb. destruct Hcase as [[Ho ->]|(A & l0 & R & ER & HA & Hl0 & Hal)].
  - exists m, w, hp. split; [done|]. rewrite collected_none by done.
    destruct (texts_has_lines m w hp hp ls (map fst ls) m H Ht) as [G1 G2];
      [apply same_but_refl|by rewrite length_map|by rewrite length_map|].
    split; [done|]. split; [done|]. split; [by apply kept_refl|apply same_but_refl].
  - destruct (finish_ok m w c l0 _ A _ Hw Hsm Hr Hal) as (m' & w' & hp' & -> & Hk & Hsb' & Hn' & Ht').
    pose proof (collected_split hdr (room w) A l0 R HA Hl0) as Ec. rewrite <- ER in Ec. rewrite <- Ec in Ht'.
    assert (Hlc : (length (others hdr R) <= length R)%nat) by apply length_filter.
    destruct (texts_has_lines m' w' hp' hp ls _ m H Ht') as [G1 G2].
    + by eapply same_but_trans.
    + rewrite Hn', (al_nhd _ _ _ _ _ _ _ _ Hal), Ec, app_nil_r, !length_app. done.
    + rewrite <- (length_map fst ls), Ec, ER, !length_app. cbn [length]. lia.
    + exists m', w', hp'. split; [done|]. split; [done|]. split; [done|]. split; [done|].
      by eapply same_but_trans.
Qed.

End HttpCollect.
