(* ===== verification/HttpThm.v ===== *)
(** What is proved of HTTP messages: dissection is safe and inverts the wire
    format; removing, looking up, filtering and collecting header lines. *)
From S2P Require Import Prelude Vct Ws Mem Http HttpLines HttpDissect HttpWire HttpCollect.
From Stdlib Require String.
Import Vct Mem Http HttpLines HttpDissect HttpWire HttpCollect.
Local Open Scope string_scope.
Local Open Scope Z_scope.

Module HttpThm.

(** ** Examples: deciding the hypotheses *)

(** Memory that holds [l] at [p]. *)
Definition mem_of (p : Z) (l : list Z) : mem := list_to_map (zip (seqZ p (Z.of_nat (length l))) l).

Fixpoint mapped_b (m : mem) (p : Z) (l : list Z) : bool :=
  match l with
  | [] => true
  | c :: l => bool_decide (m !! p = Some c) && mapped_b m (p + 1) l
  end.

Lemma mapped_b_ok m p l : mapped_b m p l = true -> mapped m p l.
Proof.
  revert p. induction l as [|c l IH]; intros p; simpl; [by intros _ i x ?|].
  intros [H1 H2]%andb_true_iff. apply mapped_cons. split; [by apply bool_decide_eq_true in H1|by apply IH].
Qed.

Definition holds_b (m : mem) (t : txt) (l : list Z) : bool :=
  (0 <? b t) && (e t =? b t + Z.of_nat (length l)) && mapped_b m (b t) (l ++ [0])%list &&
  (Z.of_nat (length l) <? 2 ^ 32 - 1).

Lemma holds_b_ok m t l : holds_b m t l = true -> holds m t l.
Proof.
  unfold holds_b, holds. rewrite !andb_true_iff, !Z.ltb_lt, Z.eqb_eq.
  intros [[[H1 H2] H3] H4]. split; [done|]. split; [done|]. split; [by apply mapped_b_ok|done].
Qed.

Fixpoint lines_b (m : mem) (ts : list txt) (fs : list Z) (ls : list line) : bool :=
  match ls, ts, fs with
  | [], _, _ => true
  | x :: ls, t :: ts, f :: fs => holds_b m t (fst x) && (f =? snd x) && lines_b m ts fs ls
  | _, _, _ => false
  end.

Lemma lines_b_ok m ls : forall ts fs, lines_b m ts fs ls = true ->
  forall i x, ls !! i = Some x ->
  exists t f, ts !! i = Some t /\ fs !! i = Some f /\ holds_line m t f x.
Proof.
  induction ls as [|y ls IH]; intros ts fs H i x Hi; [done|].
  destruct ts as [|t ts], fs as [|f fs]; try done. cbn [lines_b] in H.
  rewrite !andb_true_iff, Z.eqb_eq in H. destruct H as [[H1 H2] H3]. destruct i as [|i].
  - injection Hi as <-. exists t, f. split; [done|]. split; [done|]. split; [by apply holds_b_ok|done].
  - simpl in Hi |- *. by apply (IH ts fs).
Qed.

Definition has_lines_b (m : mem) (hp : http) (ls : list line) : bool :=
  (length (hdf hp) =? length (hd hp))%nat && (nhd hp =? HTTP_HDR_FIRST + length ls)%nat &&
  (nhd hp <=? shd hp)%nat && lines_b m (drop HTTP_HDR_FIRST (hd hp)) (drop HTTP_HDR_FIRST (hdf hp)) ls.

Lemma has_lines_b_ok m hp ls : has_lines_b m hp ls = true -> has_lines m hp ls.
Proof.
  unfold has_lines_b. rewrite !andb_true_iff, !Nat.eqb_eq, Nat.leb_le. intros [[[H1 H2] H3] H4].
  split; try done. intros i x Hi. destruct (lines_b_ok _ _ _ _ H4 i x Hi) as (t & f & Ht & Hf & Hh).
  exists t, f. rewrite !lookup_drop in *. done.
Qed.

(** ** Dissection *)

(** C33. Whatever octets were received, as long as a NUL follows them,
    [http_DissectRequest] reads and writes within the receive buffer only, ends,
    and answers 0, 400 or 413; on 0 the message has its three first-line fields
    and its header lines, NUL-terminated strings that hold no CR or LF. *)
Theorem http_dissect_safe (m : mem) (hp : http) (lost : Z) (htc : http_conn)
    (Hlen : e (rxbuf htc) - b (rxbuf htc) < 2 ^ 32 - 1)
    (Hlo : 0 < b (rxbuf htc) <= e (rxbuf htc))
    (Hbuf : forall a, b (rxbuf htc) <= a <= e (rxbuf htc) -> is_Some (m !! a))
    (Hnul : m !! e (rxbuf htc) = Some 0)
    (Hhdf : length (hdf hp) = length (hd hp)) (Hshd : (HTTP_HDR_FIRST <= shd hp)%nat) :
  exists m' hp' lost' r, http_DissectRequest m hp lost htc = Ok (m', hp', lost', r) /\
    (forall a, a < b (rxbuf htc) \/ e (rxbuf htc) < a -> m' !! a = m !! a) /\
    (r = 0 \/ r = 400 \/ r = 413) /\
    (r = 0 -> exists ls, has_lines m' hp' ls /\
      Forall (fun x => Forall nocrlf (fst x) /\ snd x = 0) ls /\
      forall h, h ∈ [HTTP_HDR_REQ; HTTP_HDR_URL; HTTP_HDR_PROTO] ->
        exists t l, hd hp' !! h = Some t /\ holds m' t l /\ Forall nocrlf l).
Proof.
  destruct (DissectRequest_in m (b (rxbuf htc)) (e (rxbuf htc)) htc m hp lost)
    as (m' & hp' & lost' & r & E & Hb & _ & _ & Hd & Hr); try done.
  { by destruct (rxbuf htc). }
  exists m', hp', lost', r. split; [done|]. split; [apply Hb|]. split; [done|].
  intros H0. destruct (Hd H0) as [ls [D1 D2 D3]]. exists ls. done.
Qed.

(** A request with a line continuation that runs into the end of the buffer. *)
Definition ex_bad : list Z := (str "GET / " ++ [13; 10] ++ str "A: b" ++ [13; 10; 32; 13])%list.

Lemma http_dissect_safe_witness :
  exists m' hp' lost' r,
    http_DissectRequest (mem_of 100 (ex_bad ++ [0])%list) (HTTP_create 9) 0
      (mkConn 80 (mkTxt 100 116)) = Ok (m', hp', lost', r) /\ (r = 0 \/ r = 400 \/ r = 413).
Proof.
  destruct (http_dissect_safe (mem_of 100 (ex_bad ++ [0])%list) (HTTP_create 9) 0
    (mkConn 80 (mkTxt 100 116))) as (m' & hp' & lost' & r & E & _ & Hr & _).
  - by vm_compute.
  - by vm_compute.
  - intros a Ha. cbn [b e rxbuf] in Ha.
    assert (Hall : forallb (fun a => bool_decide (is_Some (mem_of 100 (ex_bad ++ [0])%list !! a)))
      (seqZ 100 17) = true) by (by vm_compute).
    rewrite forallb_forall in Hall. specialize (Hall a). apply bool_decide_eq_true in Hall; [done|].
    apply list_elem_of_In, elem_of_seqZ. lia.
  - by vm_compute.
  - by vm_compute.
  - apply Nat.leb_le. by vm_compute.
  - exists m', hp', lost', r. done.
Defined.

(** C32. [http_DissectRequest] inverts the wire format of a request: from
    well-formed parts sent as one line and header lines, each ended by CRLF, it
    recovers the method, the URL, the protocol with its version number, every
    header line in order, and whether one is a conditional. *)
Theorem http_request_roundtrip (m : mem) (hp : http) (lost lo : Z) (htc : http_conn)
    (meth url proto : list Z) (ls : list (list Z))
    (Hlo : 0 < lo)
    (Hrx : rxbuf htc = mkTxt lo (lo + Z.of_nat (length (wire_request meth url proto ls))))
    (Hlen : Z.of_nat (length (wire_request meth url proto ls)) < 2 ^ 32 - 1)
    (Hmax : 0 <= maxhdr htc)
    (Hm : meth_ok meth = true) (Hu : url_ok url = true) (Hp : proto_ok proto = true)
    (Hls : forallb (line_ok (maxhdr htc)) ls = true)
    (Hwire : mapped m lo (wire_request meth url proto ls ++ [0])%list)
    (Hhdf : length (hdf hp) = length (hd hp))
    (Hroom : (HTTP_HDR_FIRST + length ls <= shd hp)%nat) :
  exists m' hp', http_DissectRequest m hp lost htc = Ok (m', hp', lost, 0) /\
    slot_is m' hp' HTTP_HDR_REQ meth /\ slot_is m' hp' HTTP_HDR_URL url /\
    slot_is m' hp' HTTP_HDR_PROTO proto /\ has_lines m' hp' (map plain_line ls) /\
    protover hp' = proto_version proto /\ conds hp' = (if existsb is_if ls then 1 else 0).
Proof. by apply (DissectRequest_wire htc m hp lost lo meth url proto ls). Qed.

(** A request. *)
Definition ex_lines : list (list Z) :=
  [str "Host: a"; str "Connection: X-Hop"; str "Cache-Control: x"; str "If-Match: z";
   str "cache-control:y"; str "X-Hop: 1"; str "X-End: 2"].
Definition ex_wire : list Z := wire_request (str "GET") (str "/i") (str "HTTP/1.1") ex_lines.
Definition ex_lo : Z := 4096.
Definition ex_ws : Ws.ws := Ws.mkWs 0 1024 1024 0 2048.
(** The workspace and the receive buffer. *)
Definition ex_mem : mem := mem_of 1024 (repeat 0 1024) ∪ mem_of ex_lo (ex_wire ++ [0])%list.
Definition ex_htc : http_conn := mkConn 80 (mkTxt ex_lo (ex_lo + Z.of_nat (length ex_wire))).
Definition ex_hp : http := http_Setup (HTTP_create 20).

Lemma http_request_roundtrip_witness :
  exists m' hp', http_DissectRequest ex_mem ex_hp 0 ex_htc = Ok (m', hp', 0, 0) /\
    slot_is m' hp' HTTP_HDR_URL (str "/i") /\ has_lines m' hp' (map plain_line ex_lines) /\
    protover hp' = 11 /\ conds hp' = 1.
Proof.
  destruct (http_request_roundtrip ex_mem ex_hp 0 ex_lo ex_htc (str "GET") (str "/i") (str "HTTP/1.1")
    ex_lines) as (m' & hp' & E & _ & Hu & _ & Hl & Hv & Hc).
  - by vm_compute.
  - by vm_compute.
  - by vm_compute.
  - by vm_compute.
  - by vm_compute.
  - by vm_compute.
  - by vm_compute.
  - by vm_compute.
  - apply mapped_b_ok. by vm_compute.
  - by vm_compute.
  - apply Nat.leb_le. by vm_compute.
  - exists m', hp'. split; [exact E|]. split; [exact Hu|]. split; [exact Hl|].
    split; [exact Hv|exact Hc].
Defined.

(** ** Removing and looking up *)

(** The message of the examples: what dissection of [ex_wire] leaves. *)
Definition ex_msg : mem * http :=
  match http_DissectRequest ex_mem ex_hp 0 ex_htc with
  | Ok (m, hp, _, _) => (m, hp)
  | Fail _ => (ex_mem, ex_hp)
  end.

Lemma first_named_filter hdr ls i :
  first_named hdr (filter (fun x : line => named hdr (fst x) = false) ls) i = None.
Proof.
  revert i. induction ls as [|x ls IH]; intros i; [done|].
  destruct (named hdr (fst x)) eqn:E.
  - rewrite (filter_cons_False (fun x : line => named hdr (fst x) = false)) by congruence. apply IH.
  - rewrite (filter_cons_True (fun x : line => named hdr (fst x) = false)) by done.
    cbn [first_named]. rewrite E. apply IH.
Qed.

(** [http_Unset] removes every line of a name, keeps the others in order with
    their flags and the rest of the message, and afterwards [http_GetHdr] does
    not find the name; [http_GetHdr] finds, for any name, the value of the first
    line that has it, past the blanks, and nothing when there is none. *)
Theorem http_unset_get (m : mem) (hp : http) (ls : list line) (hdr : list Z)
    (H : has_lines m hp ls) (Hn : header_name hdr) :
  exists hp', http_Unset m hp hdr = Ok hp' /\
    has_lines m hp' (filter (fun x => named hdr (fst x) = false) ls) /\ lines_only hp hp' /\
    http_GetHdr m hp' hdr = Ok None /\
    forall hdr', header_name hdr' -> exists r, http_GetHdr m hp hdr' = Ok r /\
      match first_named hdr' ls 0, r with
      | None, None => True
      | Some (_, l), Some p => mapped m p (value hdr' l ++ [0])%list
      | _, _ => False
      end.
Proof.
  destruct (Unset_ok m hp ls hdr H Hn) as (hp' & E & H' & Hlo). exists hp'.
  split; [done|]. split; [done|]. split; [done|]. split; [|by intros; apply GetHdr_ok].
  destruct (GetHdr_ok m hp' _ hdr H' Hn) as (r & Er & Hr). rewrite first_named_filter in Hr.
  destruct r; [done|exact Er].
Qed.

Lemma http_unset_get_witness :
  has_lines (ex_msg).1 (ex_msg).2 (map plain_line ex_lines) /\
  exists hp', http_Unset (ex_msg).1 (ex_msg).2 H_Cache_Control = Ok hp' /\
    http_GetHdr (ex_msg).1 hp' H_Cache_Control = Ok None /\
    nhd hp' = 10%nat.
Proof.
  assert (H : has_lines (ex_msg).1 (ex_msg).2 (map plain_line ex_lines))
    by (apply has_lines_b_ok; by vm_compute).
  split; [exact H|].
  assert (Hn : header_name H_Cache_Control) by (apply header_name_b_ok; by vm_compute).
  destruct (http_unset_get (ex_msg).1 (ex_msg).2 _ _ H Hn) as (hp' & E & H' & _ & G & _).
  exists hp'. split; [exact E|]. split; [exact G|].
  rewrite (hl_nhd _ _ _ H'). by vm_compute.
Defined.

(** ** Filtering *)

(** [http_FilterFields] copies, in order and with their flags cleared, exactly
    the lines that are not marked in the message and that [HTTPH] does not
    suppress for the operation, as many as there are slots for; each line that
    does not fit is counted in [losthdr]. *)
Theorem http_filter_exact (m : mem) (to fm : http) (how lost : Z) (ls : list line)
    (H : has_lines m fm ls) (Hhdf : length (hdf to) = length (hd to))
    (Hshd : (HTTP_HDR_FIRST <= shd to)%nat) :
  let passed := map plain (filter (fun x => keep how x = true) ls) in
  let room := (shd to - HTTP_HDR_FIRST)%nat in
  exists to', http_FilterFields m to fm how lost =
      Ok (to', lost + Z.of_nat (length (drop room passed))) /\
    has_lines m to' (take room passed) /\ status to' = status fm.
Proof. by apply FilterFields_ok. Qed.

Lemma http_filter_exact_witness :
  has_lines (ex_msg).1 (ex_msg).2 (map plain_line ex_lines) /\
  exists to', http_FilterFields (ex_msg).1 (http_Setup (HTTP_create 7)) (ex_msg).2 HTTPH_R_FETCH 0 =
      Ok (to', 1) /\
    has_lines (ex_msg).1 to' [(str "Host: a", 0); (str "X-Hop: 1", 0)].
Proof.
  assert (H : has_lines (ex_msg).1 (ex_msg).2 (map plain_line ex_lines))
    by (apply has_lines_b_ok; by vm_compute).
  split; [exact H|].
  destruct (http_filter_exact (ex_msg).1 (http_Setup (HTTP_create 7)) (ex_msg).2 HTTPH_R_FETCH 0
    (map plain_line ex_lines) H) as (to' & E & H' & _).
  - by vm_compute.
  - apply Nat.leb_le. by vm_compute.
  - exists to'. split; [rewrite E; by vm_compute|].
    replace [(str "Host: a", 0); (str "X-Hop: 1", 0)]
      with (take (shd (http_Setup (HTTP_create 7)) - HTTP_HDR_FIRST)
             (map plain (filter (fun x => keep HTTPH_R_FETCH x = true) (map plain_line ex_lines))))
      by (by vm_compute).
    exact H'.
Defined.

(** ** Collecting *)

(** [http_CollectHdr] turns the lines of a name into one, at the place of the
    first, with the later values appended after commas, when that fits what the
    workspace has left; the other lines keep their order.  Otherwise the first
    line stays and the later ones are lost.  The [hdf] flags do not move: they
    stay with the slots, not with the lines.  Nothing is written outside the free
    part of the workspace, of which only the collected line is kept. *)
Theorem http_collect_correct (m : mem) (w : Ws.ws) (hp : http) (ls : list line) (hdr : list Z)
    (H : has_lines m hp ls) (Hn : header_name hdr) (Ha : lines_apart w hp)
    (Hw : Ws.ws_ok w) (Hsm : Ws.ws_small w) (Hr : Ws.ws_r w = 0)
    (Hfree : forall a, Ws.ws_f w <= a < Ws.ws_e w -> is_Some (m !! a)) :
  exists m' w' hp', http_CollectHdr m w hp hdr = Ok (m', w', hp') /\
    has_lines m' hp' (zip (collected hdr (room w) (map fst ls)) (map snd ls)) /\
    lines_apart w' hp' /\ kept m m' w w' /\ same_but hp hp'.
Proof. by apply CollectHdr_ok. Qed.

Definition lines_apart_b (w : Ws.ws) (hp : http) : bool :=
  forallb (fun t => (e t <? Ws.ws_f w) || (Ws.ws_e w <=? b t))
    (drop HTTP_HDR_FIRST (take (nhd hp) (hd hp))).

Lemma lines_apart_b_ok w hp : lines_apart_b w hp = true -> lines_apart w hp.
Proof.
  unfold lines_apart_b. rewrite forallb_forall. intros H i t Hi Ht.
  assert (Hin : In t (drop HTTP_HDR_FIRST (take (nhd hp) (hd hp)))).
  { apply list_elem_of_In, list_elem_of_lookup. exists (i - HTTP_HDR_FIRST)%nat.
    rewrite lookup_drop, lookup_take_lt by lia. rewrite <- Ht. f_equal. lia. }
  specialize (H t Hin). cbv beta in H. rewrite orb_true_iff, Z.ltb_lt, Z.leb_le in H. exact H.
Qed.

Definition mapped_range_b (m : mem) (p : Z) (n : Z) : bool :=
  forallb (fun a => bool_decide (is_Some (m !! a))) (seqZ p n).

Lemma mapped_range_b_ok m p n : mapped_range_b m p n = true ->
  forall a, p <= a < p + n -> is_Some (m !! a).
Proof.
  unfold mapped_range_b. rewrite forallb_forall. intros H a Ha.
  specialize (H a). apply bool_decide_eq_true in H; [done|].
  apply list_elem_of_In, elem_of_seqZ. lia.
Qed.

Lemma ex_ws_ok : Ws.ws_ok ex_ws.
Proof. split; cbn [Ws.ws_s Ws.ws_f Ws.ws_r Ws.ws_e ex_ws]; try done; try lia; by left. Qed.

Lemma http_collect_correct_witness :
  has_lines (ex_msg).1 (ex_msg).2 (map plain_line ex_lines) /\
  exists m' w' hp', http_CollectHdr (ex_msg).1 ex_ws (ex_msg).2 H_Cache_Control = Ok (m', w', hp') /\
    has_lines m' hp' (map plain_line
      [str "Host: a"; str "Connection: X-Hop"; str "Cache-Control: x,y"; str "If-Match: z";
       str "X-Hop: 1"; str "X-End: 2"]).
Proof.
  assert (H : has_lines (ex_msg).1 (ex_msg).2 (map plain_line ex_lines))
    by (apply has_lines_b_ok; by vm_compute).
  split; [exact H|].
  destruct (http_collect_correct (ex_msg).1 ex_ws (ex_msg).2 (map plain_line ex_lines) H_Cache_Control H)
    as (m' & w' & hp' & E & H' & _).
  - apply header_name_b_ok. by vm_compute.
  - apply lines_apart_b_ok. by vm_compute.
  - apply ex_ws_ok.
  - by vm_compute.
  - by vm_compute.
  - apply mapped_range_b_ok with (p := 1024) (n := 1024). by vm_compute.
  - exists m', w', hp'. split; [exact E|].
    match type of H' with has_lines _ _ ?x => match goal with |- has_lines _ _ ?y =>
      replace y with x by (by vm_compute) end end.
    exact H'.
Defined.

(** ** Hop-by-hop headers *)

(** What a request goes through on its way to the backend: dissection, the marks
    for the headers that [Connection] names ([cnt_start]), the collection of
    [Cache-Control] ([cnt_recv]), the filter of the backend request.  The result
    is the texts of the backend request's lines. *)
Definition to_backend (m : mem) (w : Ws.ws) (hp to : http) (htc : http_conn) : res (list (list Z)) :=
  '(m, hp, _, _) ← http_DissectRequest m hp 0 htc;
  '(hp, _) ← http_DoConnection m hp;
  '(m, _, hp) ← http_CollectHdr m w hp H_Cache_Control;
  '(to, _) ← http_FilterFields m to hp HTTPH_R_PASS 0;
  mapM (fun t => region m (b t) (Z.to_nat (e t - b t))) (drop HTTP_HDR_FIRST (take (nhd to) (hd to))).

(** The same without the collection. *)
Definition to_backend_uncollected (m : mem) (hp to : http) (htc : http_conn) : res (list (list Z)) :=
  '(m, hp, _, _) ← http_DissectRequest m hp 0 htc;
  '(hp, _) ← http_DoConnection m hp;
  '(to, _) ← http_FilterFields m to hp HTTPH_R_PASS 0;
  mapM (fun t => region m (b t) (Z.to_nat (e t - b t))) (drop HTTP_HDR_FIRST (take (nhd to) (hd to))).

(** A header that [Connection] names is marked and filtered; but after
    [http_CollectHdr] has removed a line, the mark is on the next line: the
    header named goes to the backend, and one that was not named is dropped. *)
Theorem http_collect_moves_marks :
  to_backend_uncollected ex_mem ex_hp ex_hp ex_htc = Ok
    [str "Host: a"; str "Cache-Control: x"; str "If-Match: z"; str "cache-control:y";
     str "X-End: 2"] /\
  to_backend ex_mem ex_ws ex_hp ex_hp ex_htc = Ok
    [str "Host: a"; str "Cache-Control: x,y"; str "If-Match: z"; str "X-Hop: 1"].
Proof. by vm_compute. Qed.

End HttpThm.
