(* ===== verification/Critbit.v ===== *)
(** The critbit tree of object heads: [bin/varnishd/hash_critbit.c].

    Object heads and tree nodes ([struct hcb_y]) are at addresses; a slot of the
    tree holds an address with one of its two low bits set, which says what it
    points at, or 0.  [get] and [set] are the accesses to a slot, each one memory
    access of the source.  Left out: the mutexes (a locked region is one step),
    the statistics, the dump command and the memory barrier. *)
From S2P Require Import Prelude.

Module Critbit.

Definition DIGEST_LEN : Z := 32.

(** ** The bit table *)

(** One turn of the loop over [x]; the state is the table and [y]. *)
Definition build_row (s : list Z * Z) (x : Z) : list Z * Z :=
  (foldl (fun t y => <[Z.to_nat y := u8 (8 - x)]> t) (fst s)
     (seqZ (snd s) (Z.shiftl 1 x - snd s)), Z.max (snd s) (Z.shiftl 1 x)).

Definition hcb_bittbl : list Z :=
  fst (foldl build_row (replicate 256 0, 0) [0; 1; 2; 3; 4; 5; 6; 7]).

Definition hcb_bits (x y : Z) : res Z := rd hcb_bittbl (Z.lxor x y).

Definition hcb_build_bittbl : res unit :=
  a ← hcb_bits 0x34 0x34; vassert (a =? 8);;
  b ← hcb_bits 0xaa 0x55; vassert (b =? 0);;
  c ← hcb_bits 0x01 0x22; vassert (c =? 2);;
  d ← hcb_bits 0x10 0x0b; vassert (d =? 3).

(** ** State *)

Record objhead := mkOh {
  refcnt : Z;
  objcs : list Z;
  digest : list Z;
  waitinglist : Z;
}.

Record hcb_y := mkY {
  critbit : Z;
  ptr : Z;
  bitmask : Z;
  leaf0 : Z;
  leaf1 : Z;
}.

Record hcb := mkHcb {
  origo : Z;               (* [hcb_root.origo] *)
  ys : gmap Z hcb_y;
  ohs : gmap Z objhead;
  cool_y : list Z;
  dead_y : list Z;
  cool_h : list Z;
  dead_h : list Z;
}.

Definition set_origo (st : hcb) x :=
  mkHcb x (ys st) (ohs st) (cool_y st) (dead_y st) (cool_h st) (dead_h st).
Definition set_ys (st : hcb) x :=
  mkHcb (origo st) x (ohs st) (cool_y st) (dead_y st) (cool_h st) (dead_h st).
Definition set_ohs (st : hcb) x :=
  mkHcb (origo st) (ys st) x (cool_y st) (dead_y st) (cool_h st) (dead_h st).
Definition set_cool_y (st : hcb) x :=
  mkHcb (origo st) (ys st) (ohs st) x (dead_y st) (cool_h st) (dead_h st).
Definition set_cool_h (st : hcb) x :=
  mkHcb (origo st) (ys st) (ohs st) (cool_y st) (dead_y st) x (dead_h st).

(** ** Pointers *)

Definition HCB_BIT_NODE : Z := Z.shiftl 1 0.
Definition HCB_BIT_Y : Z := Z.shiftl 1 1.

Definition hcb_is_node (u : Z) : bool := truth (Z.land u HCB_BIT_NODE).
Definition hcb_is_y (u : Z) : bool := truth (Z.land u HCB_BIT_Y).

Definition hcb_r_node (n : Z) : res Z :=
  vassert (negb (truth (Z.land n (Z.lor HCB_BIT_NODE HCB_BIT_Y))));;
  mret (Z.lor HCB_BIT_NODE n).

Definition hcb_l_node (u : Z) : res Z :=
  vassert (truth (Z.land u HCB_BIT_NODE));;
  vassert (negb (truth (Z.land u HCB_BIT_Y)));;
  mret (Z.land u (Z.lnot HCB_BIT_NODE)).

Definition hcb_r_y (y : Z) : res Z :=
  vassert (negb (truth (Z.land y (Z.lor HCB_BIT_NODE HCB_BIT_Y))));;
  mret (Z.lor HCB_BIT_Y y).

Definition hcb_l_y (u : Z) : res Z :=
  vassert (negb (truth (Z.land u HCB_BIT_NODE)));;
  vassert (truth (Z.land u HCB_BIT_Y));;
  mret (Z.land u (Z.lnot HCB_BIT_Y)).

(** The slot [p] points at: [&root->origo] or [&y->leaf\[s\]]. *)
Inductive slot := Origo | Leaf (y : Z) (s : bool).

Definition leaf (y : hcb_y) (s : bool) : Z := if s then leaf1 y else leaf0 y.

Definition set_leaf (y : hcb_y) (s : bool) (v : Z) : hcb_y :=
  if s then mkY (critbit y) (ptr y) (bitmask y) (leaf0 y) v
  else mkY (critbit y) (ptr y) (bitmask y) v (leaf1 y).

Definition get (st : hcb) (p : slot) : res Z :=
  match p with
  | Origo => mret (origo st)
  | Leaf a s => y ← deref (ys st !! a); mret (leaf y s)
  end.

Definition set (st : hcb) (p : slot) (v : Z) : res hcb :=
  match p with
  | Origo => mret (set_origo st v)
  | Leaf a s =>
      y ← deref (ys st !! a);
      mret (set_ys st (<[a := set_leaf y s v]> (ys st)))
  end.

(** ** Operations *)

(** The first octet in which the digests differ; [n] octets are left. *)
Fixpoint first_diff (d1 d2 : list Z) (n : nat) (u : Z) : res Z :=
  match n with
  | O => mret u
  | S n =>
      a ← rd d1 u;
      b ← rd d2 u;
      if a =? b then first_diff d1 d2 n (u + 1) else mret u
  end.

(** The fields that [hcb_crit_bit] sets in [y]. *)
Definition hcb_crit_bit (d1 d2 : list Z) (y : hcb_y) : res hcb_y :=
  u ← first_diff d1 d2 (Z.to_nat DIGEST_LEN) 0;
  vassert (u <? DIGEST_LEN);;
  a ← rd d1 u;
  b ← rd d2 u;
  r ← hcb_bits a b;
  mret (mkY (u16 (u * 8 + r)) (u8 u) (u8 (Z.shiftr 0x80 r)) (leaf0 y) (leaf1 y)).

(** [s = (oh->digest\[y->ptr\] & y->bitmask) != 0] *)
Definition side (d : list Z) (y : hcb_y) : res bool :=
  vassert (ptr y <? DIGEST_LEN);;
  b ← rd d (ptr y);
  mret (truth (Z.land b (bitmask y))).

(** The first loop of [hcb_insert]: down to what is not a node of the tree. *)
Fixpoint walk (fuel : nat) (st : hcb) (d : list Z) (pp : Z) : res Z :=
  if hcb_is_y pp then
    match fuel with
    | O => Fail FFuel
    | S fuel =>
        a ← hcb_l_y pp;
        y ← deref (ys st !! a);
        s ← side d y;
        pp ← get st (Leaf a s);
        walk fuel st d pp
    end
  else mret pp.

(** The second loop: the slot where the critical bit belongs. *)
Fixpoint place (fuel : nat) (st : hcb) (d : list Z) (c : Z) (p : slot) : res slot :=
  v ← get st p;
  if hcb_is_y v then
    match fuel with
    | O => Fail FFuel
    | S fuel =>
        a ← hcb_l_y v;
        y ← deref (ys st !! a);
        vassert (negb (critbit y =? c));;
        if c <? critbit y then mret p else
        s ← side d y;
        place fuel st d c (Leaf a s)
    end
  else mret p.

(** There are 256 bits, hence at most that many nodes on a path. *)
Definition max_depth : nat := 257.

(** [priv] is [wrk->nhashpriv], 0 for none; the result is the state, [nhashpriv]
    and the object head found, 0 for none. *)
Definition hcb_insert (st : hcb) (priv oh : Z) (has_lock : bool) : res (hcb * Z * Z) :=
  let pp := origo st in
  if pp =? 0 then
    if negb has_lock then mret (st, priv, 0)
    else v ← hcb_r_node oh; mret (set_origo st v, priv, oh)
  else
    o ← deref (ohs st !! oh);
    let d := digest o in
    pp ← walk max_depth st d pp;
    if pp =? 0 then
      (* We raced hcb_delete and got a NULL pointer *)
      vassert (negb has_lock);; mret (st, priv, 0)
    else
      vassert (hcb_is_node pp);;
      oh2 ← hcb_l_node pp;
      o2 ← deref (ohs st !! oh2);
      if bool_decide (digest o2 = d) then mret (st, priv, oh2)
      else if negb has_lock then mret (st, priv, 0)
      else
        (* Insert *)
        vassert (truth priv);;
        y2 ← deref (ys st !! priv);
        y2 ← hcb_crit_bit d (digest o2) y2;
        s2 ← side d y2;
        v ← hcb_r_node oh;
        let y2 := set_leaf y2 s2 v in
        let st := set_ys st (<[priv := y2]> (ys st)) in
        vassert (truth (origo st));;
        p ← place max_depth st d (critbit y2) Origo;
        v ← get st p;
        let st := set_ys st (<[priv := set_leaf y2 (negb s2) v]> (ys st)) in
        r ← hcb_r_y priv;
        st ← set st p r;
        mret (st, 0, oh).

(** The loop of [hcb_delete] from the slot [p]. *)
Fixpoint delete_loop (fuel : nat) (st : hcb) (d : list Z) (node : Z) (p : slot) : res hcb :=
  v ← get st p;
  vassert (hcb_is_y v);;
  match fuel with
  | O => Fail FFuel
  | S fuel =>
      a ← hcb_l_y v;
      y ← deref (ys st !! a);
      s ← side d y;
      if leaf y s =? node then
        st ← set st p (leaf y (negb s));
        mret (set_cool_y st (cool_y st ++ [a]))
      else delete_loop fuel st d node (Leaf a s)
  end.

Definition hcb_delete (st : hcb) (oh : Z) : res hcb :=
  node ← hcb_r_node oh;
  if origo st =? node then mret (set_origo st 0)
  else
    vassert (hcb_is_y (origo st));;
    o ← deref (ohs st !! oh);
    delete_loop max_depth st (digest o) node Origo.

Definition set_refcnt (st : hcb) (a : Z) (o : objhead) (r : Z) : hcb :=
  set_ohs st (<[a := mkOh r (objcs o) (digest o) (waitinglist o)]> (ohs st)).

Definition hcb_deref (st : hcb) (oh : Z) : res hcb :=
  o ← deref (ohs st !! oh);
  vassert (0 <? refcnt o);;
  let st := set_refcnt st oh o (refcnt o - 1) in
  if refcnt o - 1 =? 0 then
    st ← hcb_delete st oh;
    vassert (bool_decide (objcs o = []));;
    vassert (waitinglist o =? 0);;
    mret (set_cool_h st (cool_h st ++ [oh]))
  else mret st.

(** [hcb_lookup], nobody else being at work: at most one try without the lock and
    two with it.  The result is the state, [nhashpriv] and the object head. *)
Fixpoint lookup_loop (fuel : nat) (st : hcb) (priv noh : Z) (with_lock : bool) : res (hcb * Z * Z) :=
  match fuel with
  | O => Fail FFuel
  | S fuel =>
      (if with_lock then
         vassert (truth priv);;
         n ← deref (ohs st !! noh);
         vassert (refcnt n =? 1)
       else mret tt);;
      '(st, priv, oh) ← hcb_insert st priv noh with_lock;
      if negb (oh =? 0) && (oh =? noh) then
        vassert with_lock;;
        o ← deref (ohs st !! oh);
        vassert (0 <? refcnt o);;
        mret (st, priv, oh)
      else if oh =? 0 then
        vassert (negb with_lock);;
        lookup_loop fuel st priv noh true
      else
        o ← deref (ohs st !! oh);
        if 0 <? refcnt o then mret (set_refcnt st oh o (refcnt o + 1), priv, oh)
        else lookup_loop fuel st priv noh true
  end.

Definition hcb_lookup (st : hcb) (priv noh : Z) : res (hcb * Z * Z) :=
  lookup_loop 3 st priv noh false.

(** [hcb_prep]: [fresh] is what the allocator returns. *)
Definition hcb_prep (st : hcb) (priv fresh : Z) : hcb * Z :=
  if priv =? 0 then (set_ys st (<[fresh := mkY 0 0 0 0 0]> (ys st)), fresh) else (st, priv).

(** One turn of [hcb_cleaner]: the dead are freed, the cool become the dead. *)
Definition hcb_clean (st : hcb) : hcb :=
  mkHcb (origo st) (foldr delete (ys st) (dead_y st)) (foldr delete (ohs st) (dead_h st))
    [] (cool_y st) [] (cool_h st).

Definition hcb_start : hcb := mkHcb 0 ∅ ∅ [] [] [] [].

(** ** Examples *)

Definition ex_digest (x : Z) : list Z := x :: replicate 31 0.
Definition ex_oh (x : Z) : objhead := mkOh 1 [] (ex_digest x) 0.

Example bittbl_built : hcb_build_bittbl = Ok tt.
Proof. by vm_compute. Qed.

Example ex_insert :
  let st := set_ys (set_ohs hcb_start {[8 := ex_oh 5; 16 := ex_oh 7; 24 := ex_oh 7]})
              {[32 := mkY 0 0 0 0 0]} in
  (x ← hcb_lookup st 32 8; y ← hcb_lookup (fst (fst x)) (snd (fst x)) 16;
   z ← hcb_lookup (fst (fst y)) 0 24; mret (snd x, snd y, snd z)) = Ok (8, 16, 16).
Proof. by vm_compute. Qed.

End Critbit.
