(* ===== verification/CritbitTree.v ===== *)
(** Digests as strings of bits, tagged pointers, and critbit trees as a data
    type: searching, inserting and deleting a digest. *)
From S2P Require Import Prelude Critbit.
Import Critbit.

Module CritbitTree.

(** ** Bits of a digest *)

Definition octet (d : list Z) (i : Z) : Z := default 0 (d !! Z.to_nat i).

(** Bit [c], counting from the most significant bit of the first octet. *)
Definition dbit (d : list Z) (c : Z) : bool := Z.testbit (octet d (c / 8)) (7 - c mod 8).

Record digest_ok (d : list Z) : Prop := {
  dg_len : length d = 32%nat;
  dg_byte : Forall is_byte d;
}.

Lemma octet_byte d i : digest_ok d -> is_byte (octet d i).
Proof.
  intros [_ H]. unfold octet. destruct (d !! Z.to_nat i) eqn:E; simpl.
  - by eapply Forall_lookup_1.
  - unfold is_byte. lia.
Qed.

Lemma rd_octet d i : digest_ok d -> 0 <= i < 32 -> rd d i = Ok (octet d i).
Proof.
  intros [Hl _] Hi. apply rd_Ok. split; [lia|]. unfold octet.
  destruct (lookup_lt_is_Some_2 d (Z.to_nat i)) as [x Hx]; [lia|]. by rewrite Hx.
Qed.

Lemma byte_bits x y : is_byte x -> is_byte y ->
  (forall i, 0 <= i < 8 -> Z.testbit x i = Z.testbit y i) -> x = y.
Proof.
  unfold is_byte. intros Hx Hy H. apply Z.bits_inj'. intros i Hi.
  destruct (Z.lt_ge_cases i 8); [by apply H|].
  rewrite <- (Z.mod_small x (2 ^ 8)), <- (Z.mod_small y (2 ^ 8)) by lia.
  by rewrite !Z.mod_pow2_bits_high by lia.
Qed.

Lemma dbit_octet d i j : 0 <= j < 8 -> dbit d (i * 8 + j) = Z.testbit (octet d i) (7 - j).
Proof.
  intros Hj. unfold dbit. replace ((i * 8 + j) / 8) with i by (Z.to_euclidean_division_equations; lia).
  by replace ((i * 8 + j) mod 8) with j by (Z.to_euclidean_division_equations; lia).
Qed.

(** Digests with the same bits are the same. *)
Lemma dbit_inj d1 d2 : digest_ok d1 -> digest_ok d2 ->
  (forall c, 0 <= c < 256 -> dbit d1 c = dbit d2 c) -> d1 = d2.
Proof.
  intros H1 H2 H. apply list_eq_same_length with (n := 32%nat); [apply H2|apply H1|].
  intros i x y Hi Hx Hy. assert (E : octet d1 (Z.of_nat i) = octet d2 (Z.of_nat i)).
  { apply byte_bits; [by apply octet_byte|by apply octet_byte|]. intros j Hj.
    replace j with (7 - (7 - j)) by lia. rewrite <- !dbit_octet by lia. apply H. lia. }
  unfold octet in E. rewrite Nat2Z.id, Hx, Hy in E. done.
Qed.

(** ** Nodes *)

(** [y] tests bit [c]. *)
Record y_ok (y : hcb_y) (c : Z) : Prop := {
  yo_range : 0 <= c < 256;
  yo_critbit : critbit y = c;
  yo_ptr : ptr y = c / 8;
  yo_bitmask : bitmask y = 2 ^ (7 - c mod 8);
}.

Lemma truth_land_pow2 x k : 0 <= k -> truth (Z.land x (2 ^ k)) = Z.testbit x k.
Proof.
  intros Hk. destruct (Z.testbit x k) eqn:E.
  - apply truth_true. intros H0. assert (F : Z.testbit (Z.land x (2 ^ k)) k = true).
    { by rewrite Z.land_spec, E, Z.pow2_bits_true. }
    by rewrite H0, Z.bits_0 in F.
  - apply truth_false, Z.bits_inj'. intros i Hi. rewrite Z.land_spec, Z.bits_0.
    destruct (decide (i = k)) as [->|]; [by rewrite E|].
    by rewrite Z.pow2_bits_false, andb_false_r by done.
Qed.

Lemma side_ok d y c : digest_ok d -> y_ok y c -> side d y = Ok (dbit d c).
Proof.
  intros Hd [Hr _ Hp Hb]. unfold side. rewrite Hp, Hb. unfold DIGEST_LEN.
  assert (0 <= c / 8 < 32 /\ 0 <= c mod 8 < 8) by (Z.to_euclidean_division_equations; lia).
  rewrite vassert_true, bind_Ret by lia. rewrite rd_octet, bind_Ret by (done || lia).
  unfold mret, res_ret. by rewrite truth_land_pow2 by lia.
Qed.

Lemma set_leaf_ok y c s v : y_ok y c -> y_ok (set_leaf y s v) c.
Proof. intros []. by destruct s; split. Qed.

Lemma leaf_set y s v : leaf (set_leaf y s v) s = v.
Proof. by destruct s. Qed.

Lemma leaf_set_other y s v : leaf (set_leaf y s v) (negb s) = leaf y (negb s).
Proof. by destruct s. Qed.

(** ** The critical bit *)

Lemma bittbl_log2 : forallb (fun x =>
  match rd hcb_bittbl x with Ok r => (r =? 7 - Z.log2 x) && (Z.log2 x <? 8) | Fail _ => false end)
  (seqZ 1 255) = true.
Proof. by vm_compute. Qed.

Lemma bits_ok x y : is_byte x -> is_byte y -> x <> y ->
  exists r, hcb_bits x y = Ok r /\ 0 <= r < 8 /\
    (forall j, 0 <= j < r -> Z.testbit x (7 - j) = Z.testbit y (7 - j)) /\
    Z.testbit x (7 - r) <> Z.testbit y (7 - r).
Proof.
  intros Hx Hy Hne. unfold is_byte in *. set (z := Z.lxor x y).
  assert (Hz0 : z <> 0) by (intros H; by apply Z.lxor_eq in H).
  assert (Hz : 0 <= z < 256).
  { split; [apply Z.lxor_nonneg; lia|].
    assert (z mod 2 ^ 8 = z); [|pose proof (Z.mod_pos_bound z (2 ^ 8)); lia].
    apply Z.bits_inj'. intros i Hi. destruct (Z.lt_ge_cases i 8).
    - by rewrite Z.mod_pow2_bits_low by lia.
    - rewrite Z.mod_pow2_bits_high by lia. unfold z. rewrite Z.lxor_spec.
      rewrite <- (Z.mod_small x (2 ^ 8)), <- (Z.mod_small y (2 ^ 8)) by lia.
      by rewrite !Z.mod_pow2_bits_high by lia. }
  pose proof bittbl_log2 as Hall. rewrite forallb_forall in Hall.
  specialize (Hall z ltac:(apply list_elem_of_In, elem_of_seqZ; lia)).
  destruct (rd hcb_bittbl z) as [r|] eqn:E; [|done].
  apply andb_true_iff in Hall as [Er Hlt]. apply Z.eqb_eq in Er. apply Z.ltb_lt in Hlt. subst r.
  exists (7 - Z.log2 z). split; [exact E|]. pose proof (Z.log2_nonneg z).
  split; [lia|]. split.
  - intros j Hj. assert (F : Z.testbit z (7 - j) = false) by (apply Z.bits_above_log2; lia).
    unfold z in F. rewrite Z.lxor_spec in F. by apply xorb_eq in F.
  - replace (7 - (7 - Z.log2 z)) with (Z.log2 z) by lia.
    assert (F : Z.testbit z (Z.log2 z) = true) by (apply Z.bit_log2; lia).
    unfold z at 1 in F. rewrite Z.lxor_spec in F. intros F2. by rewrite F2, xorb_nilpotent in F.
Qed.

Lemma first_diff_ok d1 d2 n : digest_ok d1 -> digest_ok d2 -> forall u, 0 <= u -> u + Z.of_nat n = 32 ->
  exists v, first_diff d1 d2 n u = Ok v /\ u <= v <= 32 /\
    (forall i, u <= i < v -> octet d1 i = octet d2 i) /\
    (v < 32 -> octet d1 v <> octet d2 v).
Proof.
  intros H1 H2. induction n as [|n IH]; intros u Hu Hn.
  - exists u. split; [done|]. split; [lia|]. split; lia.
  - cbn [first_diff]. rewrite !rd_octet, !bind_Ret by (done || lia).
    destruct (Z.eqb_spec (octet d1 u) (octet d2 u)) as [E|E].
    + destruct (IH (u + 1)) as (v & -> & Hv & Ha & Hb); [lia|lia|].
      exists v. split; [done|]. split; [lia|]. split; [|done]. intros i Hi.
      destruct (decide (i = u)) as [->|]; [done|apply Ha; lia].
    + exists u. split; [done|]. split; [lia|]. split; [lia|done].
Qed.

(** The digests agree before bit [c] and differ at it. *)
Definition crit (d1 d2 : list Z) (c : Z) : Prop :=
  0 <= c < 256 /\ (forall i, 0 <= i < c -> dbit d1 i = dbit d2 i) /\ dbit d1 c <> dbit d2 c.

Lemma shiftr_80 r : 0 <= r < 8 -> u8 (Z.shiftr 0x80 r) = 2 ^ (7 - r).
Proof.
  intros Hr. assert (H : r = 0 \/ r = 1 \/ r = 2 \/ r = 3 \/ r = 4 \/ r = 5 \/ r = 6 \/ r = 7) by lia.
  by repeat destruct H as [->|H]; [..|subst r].
Qed.

Lemma crit_bit_ok d1 d2 y : digest_ok d1 -> digest_ok d2 -> d1 <> d2 ->
  exists y' c, hcb_crit_bit d1 d2 y = Ok y' /\ y_ok y' c /\ crit d1 d2 c /\
    leaf0 y' = leaf0 y /\ leaf1 y' = leaf1 y.
Proof.
  intros H1 H2 Hne. unfold hcb_crit_bit. change (Z.to_nat DIGEST_LEN) with 32%nat.
  destruct (first_diff_ok d1 d2 32 H1 H2 0) as (u & -> & Hu & Ha & Hb); [lia|lia|].
  rewrite bind_Ret. unfold DIGEST_LEN.
  assert (Hu32 : u < 32).
  { destruct (decide (u = 32)) as [->|]; [|lia]. exfalso. apply Hne. apply dbit_inj; [done..|].
    intros c Hc. unfold dbit. rewrite Ha; [done|]. Z.to_euclidean_division_equations. lia. }
  rewrite vassert_true, bind_Ret by lia. rewrite !rd_octet, !bind_Ret by (done || lia).
  destruct (bits_ok (octet d1 u) (octet d2 u)) as (r & -> & Hr & Hlow & Hdiff);
    [by apply octet_byte|by apply octet_byte|by apply Hb|].
  rewrite bind_Ret. eexists _, (u * 8 + r). split; [reflexivity|].
  split; [|split; [split; [|split]|done]]; [|lia|..].
  - split; simpl; [lia| | |].
    + apply Z.mod_small. lia.
    + replace ((u * 8 + r) / 8) with u by (Z.to_euclidean_division_equations; lia). apply Z.mod_small. lia.
    + replace ((u * 8 + r) mod 8) with r by (Z.to_euclidean_division_equations; lia). by apply shiftr_80.
  - intros i Hi. destruct (Z.lt_ge_cases i (u * 8)) as [Hlt|Hge].
    + unfold dbit. rewrite Ha; [done|]. Z.to_euclidean_division_equations. lia.
    + replace i with (u * 8 + (i - u * 8)) by lia. rewrite !dbit_octet by lia. apply Hlow. lia.
  - by rewrite !dbit_octet by lia.
Qed.

(** ** Tagged pointers *)

Definition aligned (p : Z) : Prop := 0 < p /\ p mod 4 = 0.

Lemma aligned_bits p : aligned p -> Z.testbit p 0 = false /\ Z.testbit p 1 = false.
Proof.
  intros [_ H]. change 4 with (2 ^ 2) in H.
  rewrite <- (Z.mod_pow2_bits_low p 2 0), <- (Z.mod_pow2_bits_low p 2 1), H by lia.
  by rewrite !Z.bits_0.
Qed.

Lemma tag_node p : Z.land p (Z.lor HCB_BIT_NODE HCB_BIT_Y) = p mod 4.
Proof. exact (land_mask p 2 ltac:(lia)). Qed.

Lemma tag_bits p k i : 0 <= k -> 0 <= i -> Z.testbit (Z.lor (2 ^ k) p) i = bool_decide (i = k) || Z.testbit p i.
Proof.
  intros Hk Hi. rewrite Z.lor_spec. case_bool_decide as E.
  - subst. by rewrite Z.pow2_bits_true.
  - by rewrite Z.pow2_bits_false.
Qed.

Lemma untag p k : 0 <= k -> Z.testbit p k = false -> Z.land (Z.lor (2 ^ k) p) (Z.lnot (2 ^ k)) = p.
Proof.
  intros Hk H. apply Z.bits_inj'. intros i Hi. rewrite Z.land_spec, Z.lnot_spec, tag_bits by done.
  case_bool_decide as E.
  - subst. rewrite Z.pow2_bits_true by done. by rewrite H.
  - rewrite Z.pow2_bits_false by done. simpl. by rewrite andb_true_r.
Qed.

Lemma r_node_ok p : aligned p -> hcb_r_node p = Ok (Z.lor 1 p).
Proof.
  intros [_ H]. unfold hcb_r_node. rewrite tag_node, H. done.
Qed.

Lemma r_y_ok p : aligned p -> hcb_r_y p = Ok (Z.lor 2 p).
Proof.
  intros [_ H]. unfold hcb_r_y. rewrite tag_node, H. done.
Qed.

Lemma is_y_y p : hcb_is_y (Z.lor 2 p) = true.
Proof.
  unfold hcb_is_y, HCB_BIT_Y. change (Z.shiftl 1 1) with (2 ^ 1). change 2 with (2 ^ 1) at 1.
  rewrite truth_land_pow2, tag_bits by lia. done.
Qed.

Lemma is_y_node p : aligned p -> hcb_is_y (Z.lor 1 p) = false.
Proof.
  intros H. destruct (aligned_bits p H) as [_ H1]. unfold hcb_is_y, HCB_BIT_Y.
  change (Z.shiftl 1 1) with (2 ^ 1). change 1 with (2 ^ 0) at 1.
  by rewrite truth_land_pow2, tag_bits by lia.
Qed.

Lemma is_node_node p : hcb_is_node (Z.lor 1 p) = true.
Proof.
  unfold hcb_is_node, HCB_BIT_NODE. change (Z.shiftl 1 0) with (2 ^ 0). change 1 with (2 ^ 0) at 1.
  by rewrite truth_land_pow2, tag_bits by lia.
Qed.

Lemma is_node_y p : aligned p -> hcb_is_node (Z.lor 2 p) = false.
Proof.
  intros H. destruct (aligned_bits p H) as [H0 _]. unfold hcb_is_node, HCB_BIT_NODE.
  change (Z.shiftl 1 0) with (2 ^ 0). change 2 with (2 ^ 1) at 1.
  by rewrite truth_land_pow2, tag_bits by lia.
Qed.

Lemma l_node_ok p : aligned p -> hcb_l_node (Z.lor 1 p) = Ok p.
Proof.
  intros H. pose proof (is_node_node p) as H1. pose proof (is_y_node p H) as H2.
  unfold hcb_is_node, hcb_is_y in *. unfold hcb_l_node. rewrite H1, H2. simpl.
  f_equal. apply (untag p 0); [lia|]. by apply aligned_bits.
Qed.

Lemma l_y_ok p : aligned p -> hcb_l_y (Z.lor 2 p) = Ok p.
Proof.
  intros H. pose proof (is_node_y p H) as H1. pose proof (is_y_y p) as H2.
  unfold hcb_is_node, hcb_is_y in *. unfold hcb_l_y. rewrite H1, H2. simpl.
  f_equal. apply (untag p 1); [lia|]. by apply aligned_bits.
Qed.

Lemma tagged_pos p k : 0 < p -> 0 <= k -> 0 < Z.lor (2 ^ k) p.
Proof.
  intros Hp Hk. assert (0 <= Z.lor (2 ^ k) p) by (apply Z.lor_nonneg; lia).
  assert (Z.lor (2 ^ k) p <> 0); [|lia]. intros E. apply Z.lor_eq_0_iff in E. lia.
Qed.

Lemma node_inj p q : aligned p -> aligned q -> Z.lor 1 p = Z.lor 1 q -> p = q.
Proof. intros Hp Hq E. pose proof (l_node_ok p Hp) as H. rewrite E, l_node_ok in H by done. congruence. Qed.

End CritbitTree.
