(* ===== verification/CritbitInv.v ===== *)
(** Critbit trees as a data type, and what it means that the store holds one. *)
From S2P Require Import Prelude Critbit CritbitTree.
Import Critbit CritbitTree.

Module CritbitInv.

(** ** The data type *)

(** A leaf is an object head; a node is at an address and tests a bit. *)
Inductive tree := TLeaf (h : Z) | TNode (a c : Z) (l r : tree).

Fixpoint leaves (t : tree) : list Z :=
  match t with TLeaf h => [h] | TNode _ _ l r => leaves l ++ leaves r end.

Fixpoint nodes (t : tree) : list Z :=
  match t with TLeaf _ => [] | TNode a _ l r => a :: nodes l ++ nodes r end.

Definition child (s : bool) (l r : tree) : tree := if s then r else l.

Section Digests.
Context (dg : Z -> list Z).

Definition agree_below (c : Z) (h1 h2 : Z) : Prop :=
  forall i, 0 <= i < c -> dbit (dg h1) i = dbit (dg h2) i.

(** The bits tested rise along every path, and each node separates its leaves at
    the first bit in which they differ. *)
Fixpoint wf (lo : Z) (t : tree) : Prop :=
  match t with
  | TLeaf h => digest_ok (dg h)
  | TNode a c l r =>
      lo <= c < 256 /\ wf (c + 1) l /\ wf (c + 1) r /\
      (forall h, h ∈ leaves l -> dbit (dg h) c = false) /\
      (forall h, h ∈ leaves r -> dbit (dg h) c = true) /\
      (forall h1 h2, h1 ∈ leaves l ++ leaves r -> h2 ∈ leaves l ++ leaves r -> agree_below c h1 h2)
  end.

(** The leaf a digest leads to. *)
Fixpoint find (d : list Z) (t : tree) : Z :=
  match t with
  | TLeaf h => h
  | TNode _ c l r => if dbit d c then find d r else find d l
  end.

Lemma find_leaf d t : find d t ∈ leaves t.
Proof. induction t as [h|a c l IHl r IHr]; simpl; [set_solver|]. destruct (dbit d c); set_solver. Qed.

Lemma leaves_digest lo t h : wf lo t -> h ∈ leaves t -> digest_ok (dg h).
Proof.
  revert lo. induction t as [h'|a c l IHl r IHr]; intros lo; simpl.
  - intros H ->%list_elem_of_singleton. done.
  - intros (_ & Hl & Hr & _) [H|H]%elem_of_app; eauto.
Qed.

Lemma find_in lo t h : wf lo t -> h ∈ leaves t -> find (dg h) t = h.
Proof.
  revert lo. induction t as [h'|a c l IHl r IHr]; intros lo; simpl.
  - by intros _ ->%list_elem_of_singleton.
  - intros (_ & Hl & Hr & H0 & H1 & _) [H|H]%elem_of_app.
    + rewrite H0 by done. eauto.
    + rewrite H1 by done. eauto.
Qed.

(** The digests of the leaves are different. *)
Lemma leaves_inj lo t h1 h2 : wf lo t -> h1 ∈ leaves t -> h2 ∈ leaves t -> dg h1 = dg h2 -> h1 = h2.
Proof.
  intros Hw H1 H2 E. by rewrite <- (find_in lo t h1 Hw H1), <- (find_in lo t h2 Hw H2), E.
Qed.

Lemma leaves_NoDup lo t : wf lo t -> NoDup (leaves t).
Proof.
  revert lo. induction t as [h'|a c l IHl r IHr]; intros lo; simpl; [intros _; apply NoDup_singleton|].
  intros (_ & Hl & Hr & H0 & H1 & _). apply NoDup_app. split; [eauto|]. split; [|eauto].
  intros h Hh Hh'. specialize (H0 h Hh). specialize (H1 h Hh'). congruence.
Qed.

Lemma wf_weaken lo lo' t : wf lo t -> lo' <= lo -> wf lo' t.
Proof. destruct t; simpl; [done|]. intros (Hc & H) Hle. split; [lia|done]. Qed.

(** ** Insertion *)

Section Insert.
Context (a c h : Z).

Definition new_node (t : tree) : tree :=
  if dbit (dg h) c then TNode a c t (TLeaf h) else TNode a c (TLeaf h) t.

Fixpoint tins (t : tree) : tree :=
  match t with
  | TLeaf _ => new_node t
  | TNode a' c' l r =>
      if c <? c' then new_node t
      else if dbit (dg h) c' then TNode a' c' l (tins r) else TNode a' c' (tins l) r
  end.

Lemma new_node_leaves t : leaves (new_node t) ≡ₚ h :: leaves t.
Proof. unfold new_node. destruct (dbit (dg h) c); simpl; [by rewrite Permutation_app_comm|done]. Qed.

Lemma tins_leaves t : leaves (tins t) ≡ₚ h :: leaves t.
Proof.
  induction t as [h'|a' c' l IHl r IHr]; [apply (new_node_leaves (TLeaf h'))|]. cbn [tins].
  destruct (c <? c'); [apply (new_node_leaves (TNode a' c' l r))|].
  destruct (dbit (dg h) c'); simpl.
  - rewrite IHr. by rewrite Permutation_middle.
  - by rewrite IHl.
Qed.

Lemma tins_nodes t : nodes (tins t) ≡ₚ a :: nodes t.
Proof.
  assert (Hn : forall t, nodes (new_node t) ≡ₚ a :: nodes t).
  { intros t'. unfold new_node. destruct (dbit (dg h) c); simpl; by rewrite ?app_nil_r. }
  induction t as [h'|a' c' l IHl r IHr]; [apply Hn|]. cbn [tins].
  destruct (c <? c'); [apply Hn|]. destruct (dbit (dg h) c'); simpl.
  - rewrite IHr. rewrite <- Permutation_middle. apply perm_swap.
  - rewrite IHl. apply perm_swap.
Qed.

Lemma new_node_wf lo t :
  (forall h', h' ∈ leaves t -> agree_below c h h' /\ dbit (dg h') c = negb (dbit (dg h) c)) ->
  wf (c + 1) t -> digest_ok (dg h) -> lo <= c < 256 -> wf lo (new_node t).
Proof.
  intros Ha Ht Hd Hc. unfold new_node.
  assert (Hp : forall h1 h2, h1 ∈ h :: leaves t -> h2 ∈ h :: leaves t -> agree_below c h1 h2).
  { assert (A : forall h', h' ∈ h :: leaves t -> agree_below c h h').
    { intros h' [->|Hh]%elem_of_cons; [done|by apply Ha]. }
    intros h1 h2 H1 H2 i Hi. by rewrite <- (A h1 H1 i Hi), <- (A h2 H2 i Hi). }
  destruct (dbit (dg h) c) eqn:E; simpl.
  - split; [done|]. split; [done|]. split; [done|]. split; [|split].
    + intros h' Hh. by destruct (Ha h' Hh) as [_ ->].
    + by intros h' ->%list_elem_of_singleton.
    + intros h1 h2 H1 H2. apply Hp; set_solver.
  - split; [done|]. split; [done|]. split; [done|]. split; [|split].
    + by intros h' ->%list_elem_of_singleton.
    + intros h' Hh. by destruct (Ha h' Hh) as [_ ->].
    + intros h1 h2 H1 H2. apply Hp; set_solver.
Qed.

(** The leaf the new digest leads to decides where it goes. *)
Lemma tins_wf lo t :
  wf lo t -> lo <= c -> digest_ok (dg h) -> crit (dg h) (dg (find (dg h) t)) c -> wf lo (tins t).
Proof.
  intros Hw Hlo Hd. revert lo Hw Hlo. induction t as [h'|a' c' l IHl r IHr]; intros lo Hw Hlo Hcr.
  - simpl in *. destruct Hcr as (Hc & Ha & Hne). apply new_node_wf; [|done|done|lia].
    simpl. intros h2 ->%list_elem_of_singleton. split; [done|].
    by destruct (dbit (dg h') c), (dbit (dg h) c).
  - pose proof Hw as (Hc' & Hl & Hr & H0 & H1 & Hag). pose proof Hcr as (Hc & Ha & Hne).
    pose proof (find_leaf (dg h) (TNode a' c' l r)) as Hfl. set (h0 := find (dg h) (TNode a' c' l r)) in *.
    assert (Eh : h0 = if dbit (dg h) c' then find (dg h) r else find (dg h) l) by done. clearbody h0.
    cbn [tins]. destruct (Z.ltb_spec c c') as [Hlt|Hge].
    + apply new_node_wf; [|split; [lia|done]|done|lia]. intros h2 Hh2.
      assert (Hag2 : agree_below c' h0 h2) by (by apply Hag).
      split; [intros i Hi; rewrite Ha by done; apply Hag2; lia|].
      rewrite <- Hag2 by lia. by destruct (dbit (dg h0) c), (dbit (dg h) c).
    + destruct (dbit (dg h) c') eqn:E; rewrite <- Eh in *.
      * assert (c' <> c).
        { intros ->. apply Hne. rewrite E. symmetry. apply H1. rewrite Eh. apply find_leaf. }
        simpl. split; [lia|]. split; [done|]. split; [by apply IHr; [..|lia|]|]. split; [done|].
        assert (Hin : forall x, x ∈ leaves (tins r) -> x = h \/ x ∈ leaves r).
        { intros x Hx. rewrite tins_leaves in Hx. by apply elem_of_cons in Hx. }
        split; [intros x Hx; destruct (Hin x Hx) as [->|]; [done|by apply H1]|].
        assert (A : forall x, x ∈ leaves l ++ leaves (tins r) -> agree_below c' h0 x).
        { intros x [Hx|Hx]%elem_of_app; [apply Hag; set_solver|].
          destruct (Hin x Hx) as [->|]; [|apply Hag; set_solver].
          intros i Hi. symmetry. apply Ha. lia. }
        intros x y Hx Hy i Hi. by rewrite <- (A x Hx i Hi), <- (A y Hy i Hi).
      * assert (c' <> c).
        { intros ->. apply Hne. rewrite E. symmetry. apply H0. rewrite Eh. apply find_leaf. }
        simpl. split; [lia|]. split; [by apply IHl; [..|lia|]|]. split; [done|].
        assert (Hin : forall x, x ∈ leaves (tins l) -> x = h \/ x ∈ leaves l).
        { intros x Hx. rewrite tins_leaves in Hx. by apply elem_of_cons in Hx. }
        split; [intros x Hx; destruct (Hin x Hx) as [->|]; [done|by apply H0]|]. split; [done|].
        assert (A : forall x, x ∈ leaves (tins l) ++ leaves r -> agree_below c' h0 x).
        { intros x [Hx|Hx]%elem_of_app; [|apply Hag; set_solver].
          destruct (Hin x Hx) as [->|]; [|apply Hag; set_solver].
          intros i Hi. symmetry. apply Ha. lia. }
        intros x y Hx Hy i Hi. by rewrite <- (A x Hx i Hi), <- (A y Hy i Hi).
Qed.

End Insert.

(** ** Deletion *)

Fixpoint tdel (h : Z) (t : tree) : tree :=
  match t with
  | TLeaf _ => t
  | TNode a c l r =>
      if dbit (dg h) c then
        match r with TLeaf _ => l | _ => TNode a c l (tdel h r) end
      else
        match l with TLeaf _ => r | _ => TNode a c (tdel h l) r end
  end.

Definition is_leaf (t : tree) : bool := match t with TLeaf _ => true | _ => false end.

Lemma tdel_leaves lo t h : wf lo t -> is_leaf t = false -> h ∈ leaves t ->
  leaves t ≡ₚ h :: leaves (tdel h t).
Proof.
  revert lo. induction t as [h'|a c l IHl r IHr]; intros lo Hw Hl Hh; [done|].
  destruct Hw as (_ & Wl & Wr & H0 & H1 & _). simpl in Hh. cbn [tdel leaves].
  apply elem_of_app in Hh as [Hh|Hh].
  - rewrite H0 by done. destruct l as [h'|a' c' l1 l2].
    + simpl in Hh. apply list_elem_of_singleton in Hh as ->. done.
    + cbn [leaves]. rewrite (IHl _ Wl) by done. done.
  - rewrite H1 by done. destruct r as [h'|a' c' l1 l2].
    + simpl in Hh. apply list_elem_of_singleton in Hh as ->. simpl. by rewrite Permutation_app_comm.
    + cbn [leaves] in *. rewrite (IHr _ Wr) by done. by rewrite Permutation_middle.
Qed.

Lemma tdel_sub h t x : x ∈ leaves (tdel h t) -> x ∈ leaves t.
Proof.
  induction t as [h'|a c l IHl r IHr]; [done|]. cbn [tdel leaves].
  destruct (dbit (dg h) c).
  - destruct r as [h'|a' c' l1 l2]; [set_solver|]. cbn [leaves] in *. set_solver.
  - destruct l as [h'|a' c' l1 l2]; [set_solver|]. cbn [leaves] in *. set_solver.
Qed.

Lemma tdel_nodes_sub h t x : x ∈ nodes (tdel h t) -> x ∈ nodes t.
Proof.
  induction t as [h'|a c l IHl r IHr]; [done|]. cbn [tdel nodes].
  destruct (dbit (dg h) c).
  - destruct r as [h'|a' c' l1 l2]; [set_solver|]. cbn [nodes] in *. set_solver.
  - destruct l as [h'|a' c' l1 l2]; [set_solver|]. cbn [nodes] in *. set_solver.
Qed.

Lemma tdel_wf lo t h : wf lo t -> wf lo (tdel h t).
Proof.
  revert lo. induction t as [h'|a c l IHl r IHr]; intros lo; [done|]. cbn [tdel].
  intros (Hc & Wl & Wr & H0 & H1 & Hag). destruct (dbit (dg h) c).
  - destruct r as [h'|a' c' l1 l2]; [eapply wf_weaken; [exact Wl|lia]|].
    set (r := TNode a' c' l1 l2) in *. change (wf lo (TNode a c l (tdel h r))).
    assert (Hs : forall x, x ∈ leaves (tdel h r) -> x ∈ leaves r) by (intros; by eapply tdel_sub).
    clearbody r. split; [done|]. split; [done|]. split; [by apply IHr|]. split; [done|].
    split; [intros; auto|]. intros; apply Hag; set_solver.
  - destruct l as [h'|a' c' l1 l2]; [eapply wf_weaken; [exact Wr|lia]|].
    set (l := TNode a' c' l1 l2) in *. change (wf lo (TNode a c (tdel h l) r)).
    assert (Hs : forall x, x ∈ leaves (tdel h l) -> x ∈ leaves l) by (intros; by eapply tdel_sub).
    clearbody l. split; [done|]. split; [by apply IHl|]. split; [done|].
    split; [intros; auto|]. split; [done|]. intros; apply Hag; set_solver.
Qed.

End Digests.

End CritbitInv.
