(* ===== verification/CritbitOps.v ===== *)
(** The store holds a critbit tree, and the operations of the source do to it what
    the operations of the data type say. *)
From S2P Require Import Prelude Critbit CritbitTree CritbitInv.
Import Critbit CritbitTree CritbitInv.

Module CritbitOps.

(** The digest of an object head. *)
Definition dg (st : hcb) (h : Z) : list Z :=
  match ohs st !! h with Some o => digest o | None => [] end.

(** The value [u] of a slot stands for the tree [t]. *)
Fixpoint repr (st : hcb) (u : Z) (t : tree) : Prop :=
  match t with
  | TLeaf h => u = Z.lor 1 h /\ aligned h /\ is_Some (ohs st !! h)
  | TNode a c l r =>
      u = Z.lor 2 a /\ aligned a /\
      exists y, ys st !! a = Some y /\ y_ok y c /\ repr st (leaf0 y) l /\ repr st (leaf1 y) r
  end.

(** The slot [p] holds the tree [t]. *)
Definition holds (st : hcb) (p : slot) (t : tree) : Prop :=
  exists v, get st p = Ok v /\ repr st v t.

Lemma repr_frame st st' u t :
  (forall a, a ∈ nodes t -> ys st' !! a = ys st !! a) -> ohs st' = ohs st ->
  repr st u t -> repr st' u t.
Proof.
  intros Hy Ho. revert u. induction t as [h|a c l IHl r IHr]; intros u; simpl in *.
  - by rewrite Ho.
  - intros (Hu & Ha & y & Ey & Hok & H0 & H1). split; [done|]. split; [done|].
    exists y. rewrite Hy by set_solver. split; [done|]. split; [done|].
    split; [apply IHl; [set_solver|done]|apply IHr; [set_solver|done]].
Qed.

Lemma repr_leaf st a c l r s u y :
  repr st u (TNode a c l r) -> ys st !! a = Some y -> repr st (leaf y s) (child s l r).
Proof. intros (_ & _ & y' & Ey & _ & H0 & H1) E. assert (y' = y) as -> by congruence. by destruct s. Qed.

Lemma repr_child st a c l r s u :
  repr st u (TNode a c l r) -> holds st (Leaf a s) (child s l r).
Proof.
  intros H. pose proof H as (_ & _ & y & Ey & _). exists (leaf y s). simpl. rewrite Ey.
  split; [done|]. by eapply repr_leaf.
Qed.

(** ** Paths *)

(** From the slot [p] that holds [t] down to the slot [p'] that holds [t']; [k]
    puts another tree in the place of [t']. *)
Inductive path : slot -> tree -> slot -> tree -> (tree -> tree) -> Prop :=
  | path_here p t : path p t p t (fun x => x)
  | path_down p a c l r s p' t' k :
      path (Leaf a s) (child s l r) p' t' k ->
      path p (TNode a c l r) p' t'
        (fun x => if s then TNode a c l (k x) else TNode a c (k x) r).

Definition outside (p : slot) (t : tree) : Prop :=
  match p with Origo => True | Leaf a _ => a ∉ nodes t end.

Lemma path_slot p t p' t' k : path p t p' t' k -> p' = p \/ exists a s, p' = Leaf a s /\ a ∈ nodes t.
Proof.
  induction 1 as [p t|p a c l r s p' t' k _ IH]; [by left|]. right. simpl.
  destruct IH as [->|(a' & s' & -> & Hin)]; [exists a, s; set_solver|].
  exists a', s'. split; [done|]. destruct s; simpl in Hin; set_solver.
Qed.

Lemma path_nodes p t p' t' k a : path p t p' t' k -> a ∈ nodes t' -> a ∈ nodes t.
Proof.
  induction 1 as [|p a' c l r s p' t' k _ IH]; [done|]. intros H. specialize (IH H). simpl.
  destruct s; simpl in IH; set_solver.
Qed.

Lemma NoDup_child a c l r s : NoDup (nodes (TNode a c l r)) ->
  NoDup (nodes (child s l r)) /\ a ∉ nodes l ++ nodes r /\
  forall x, x ∈ nodes l -> x ∉ nodes r.
Proof.
  simpl. intros [Ha Hd]%NoDup_cons. apply NoDup_app in Hd as (Hl & Hlr & Hr).
  split; [by destruct s|done].
Qed.

Lemma path_outside p t p' t' k :
  path p t p' t' k -> NoDup (nodes t) -> outside p t -> outside p' t'.
Proof.
  induction 1 as [|p a c l r s p' t' k _ IH]; [done|]. intros Hd Ho.
  destruct (NoDup_child a c l r s Hd) as (Hc & Ha & _). apply IH; [done|].
  destruct s; simpl; set_solver.
Qed.

Lemma path_holds st p t p' t' k : path p t p' t' k -> holds st p t -> holds st p' t'.
Proof.
  induction 1 as [|p a c l r s p' t' k _ IH]; [done|]. intros (v & _ & Hr). apply IH.
  by eapply repr_child.
Qed.

Lemma set_ohs_same st p v st' : set st p v = Ok st' -> ohs st' = ohs st.
Proof.
  destruct p as [|a s]; simpl; [by intros [= <-]|]. intros H. apply bind_Ok in H as (y & _ & H).
  by injection H as <-.
Qed.

Lemma get_set st p v st' : set st p v = Ok st' -> get st' p = Ok v.
Proof.
  destruct p as [|a s]; simpl; [by intros [= <-]|]. intros H. apply bind_Ok in H as (y & _ & H).
  injection H as <-. simpl. rewrite lookup_insert_eq. simpl. by rewrite leaf_set.
Qed.

Lemma set_ys_ne st p v st' a : set st p v = Ok st' ->
  match p with Origo => True | Leaf b _ => a <> b end -> ys st' !! a = ys st !! a.
Proof.
  destruct p as [|b s]; simpl; [by intros [= <-]|]. intros H Hne. apply bind_Ok in H as (y & _ & H).
  injection H as <-. simpl. by rewrite lookup_insert_ne.
Qed.

Lemma get_set_ne st p v st' a s q : set st p v = Ok st' -> p = Leaf a s ->
  match q with Origo => True | Leaf b _ => b <> a end -> get st' q = get st q.
Proof.
  intros H -> Hq. destruct q as [|b s']; simpl.
  - simpl in H. apply bind_Ok in H as (y & _ & H). by injection H as <-.
  - by rewrite (set_ys_ne _ _ _ _ _ H).
Qed.

(** What a store into the node [a] leaves of it. *)
Lemma set_same_node st p v st' a y s :
  set st p v = Ok st' -> ys st !! a = Some y -> p <> Leaf a (negb s) ->
  exists y', ys st' !! a = Some y' /\ (forall c, y_ok y c -> y_ok y' c) /\
    leaf y' (negb s) = leaf y (negb s).
Proof.
  intros H Ey Hp. destruct p as [|b s']; simpl in H.
  - injection H as <-. by exists y.
  - apply bind_Ok in H as (y0 & E0 & H). apply deref_Ok in E0. injection H as <-. simpl.
    destruct (decide (b = a)) as [->|Hne].
    + rewrite lookup_insert_eq. exists (set_leaf y0 s' v). assert (y0 = y) as -> by congruence.
      split; [done|]. split; [intros; by apply set_leaf_ok|].
      destruct s, s'; simpl in *; congruence.
    + rewrite lookup_insert_ne by done. by exists y.
Qed.

(** Storing a tree at the end of a path. *)
Lemma path_update st p t p' t' k :
  path p t p' t' k -> holds st p t -> NoDup (nodes t) -> outside p t ->
  forall st1 st2 v x,
  (forall a, a ∈ nodes t -> ys st1 !! a = ys st !! a) -> get st1 p = get st p -> ohs st1 = ohs st ->
  set st1 p' v = Ok st2 -> repr st2 v x -> holds st2 p (k x).
Proof.
  induction 1 as [p t|p a c l r s p' t' k Hpath IH]; intros Hh Hd Ho st1 st2 v x Hys Hg Hos Hset Hx.
  - exists v. split; [by eapply get_set|done].
  - destruct Hh as (u & Hu & Hr). pose proof (NoDup_child a c l r s Hd) as (Hdc & Ha & Hlr).
    pose proof Hr as (Hu' & Hal & y & Ey & Hok & _).
    assert (Hgs : get st1 (Leaf a s) = get st (Leaf a s)) by (simpl; rewrite Hys by (simpl; set_solver); done).
    assert (Hoc : outside (Leaf a s) (child s l r)) by (destruct s; simpl; set_solver).
    destruct (IH (repr_child st a c l r s u Hr) Hdc Hoc st1 st2 v x) as (w & Hw & Hrw); try done.
    { intros b Hb. apply Hys. destruct s; simpl in *; set_solver. }
    destruct (path_slot _ _ _ _ _ Hpath) as [Hp'|(b & s' & Hp' & Hb)].
    + (* the store is in this node *)
      assert (Hsl : exists b s', p' = Leaf b s' /\ b = a /\ s' = s) by (subst p'; eauto).
      destruct Hsl as (b & s' & Ep & -> & ->).
      destruct (set_same_node st1 p' v st2 a y s Hset) as (y2 & Ey2 & Hok2 & Hl2).
      { by rewrite Hys by (simpl; set_solver). }
      { rewrite Ep. by destruct s. }
      exists u. split.
      * rewrite (get_set_ne st1 p' v st2 a s p Hset Ep); [by rewrite Hg|].
        destruct p as [|b s']; [done|]. simpl in Ho. set_solver.
      * simpl in Hw. rewrite Ey2 in Hw. injection Hw as Hw.
        assert (Hother : repr st2 (leaf y2 (negb s)) (child (negb s) l r)).
        { rewrite Hl2. eapply repr_frame; [| |by eapply repr_leaf].
          - intros b Hb. rewrite (set_ys_ne st1 p' v st2 b Hset).
            + apply Hys. destruct s; simpl in *; set_solver.
            + rewrite Ep. destruct s; simpl in Hb; set_solver.
          - by rewrite (set_ohs_same _ _ _ _ Hset). }
        destruct s; simpl in *; (split; [done|]; split; [done|]; exists y2; subst w; eauto).
    + (* below *)
      assert (Hba : b <> a) by (destruct s; simpl in Hb; set_solver).
      exists u. split.
      * rewrite (get_set_ne st1 p' v st2 b s' p Hset Hp'); [by rewrite Hg|].
        destruct p as [|q sq]; [done|]. simpl in Ho. destruct s; simpl in Hb; set_solver.
      * assert (Ey2 : ys st2 !! a = Some y).
        { rewrite (set_ys_ne st1 p' v st2 a Hset); [rewrite Hys by (simpl; set_solver); done|].
          by rewrite Hp'. }
        simpl in Hw. rewrite Ey2 in Hw. injection Hw as Hw.
        assert (Hother : repr st2 (leaf y (negb s)) (child (negb s) l r)).
        { eapply repr_frame; [| |by eapply repr_leaf].
          - intros q Hq. rewrite (set_ys_ne st1 p' v st2 q Hset).
            + apply Hys. destruct s; simpl in *; set_solver.
            + rewrite Hp'. intros ->. destruct s; simpl in Hb, Hq; by eapply Hlr.
          - by rewrite (set_ohs_same _ _ _ _ Hset). }
        destruct s; simpl in *; (split; [done|]; split; [done|]; exists y; subst w; eauto).
Qed.

(** ** The loops *)

Lemma repr_is_y st u t : repr st u t -> hcb_is_y u = negb (is_leaf t) /\ u <> 0.
Proof.
  destruct t as [h|a c l r]; simpl; intros (-> & Ha & _).
  - rewrite is_y_node by done. split; [done|]. pose proof (tagged_pos h 0 (proj1 Ha) ltac:(lia)) as H. change (2 ^ 0) with 1 in H. lia.
  - rewrite is_y_y. split; [done|]. pose proof (tagged_pos a 1 (proj1 Ha) ltac:(lia)) as H. change (2 ^ 1) with 2 in H. lia.
Qed.

Lemma walk_ok st d lo t : digest_ok d -> wf (dg st) lo t -> forall fuel u,
  repr st u t -> 0 <= lo -> 256 - lo < Z.of_nat fuel ->
  walk fuel st d u = Ok (Z.lor 1 (find d t)).
Proof.
  intros Hd. revert lo. induction t as [h|a c l IHl r IHr]; intros lo Hw fuel u Hr Hlo Hf.
  - pose proof Hr as (-> & Ha & _). destruct fuel; cbn [walk]; by rewrite is_y_node.
  - destruct (repr_is_y _ _ _ Hr) as [Ey _]. pose proof Hr as (Eu & Ha & y & Eya & Hok & _).
    destruct Hw as (Hc & Hl & Hr' & _).
    destruct fuel as [|fuel]; [lia|]. cbn [walk]. rewrite Ey. cbn [is_leaf negb].
    rewrite Eu, (l_y_ok a Ha), bind_Ret, Eya. cbn [deref]. rewrite bind_Ret.
    rewrite (side_ok d y c Hd Hok), bind_Ret. cbn [get]. rewrite Eya. cbn [deref].
    rewrite bind_Ret. unfold mret at 1, res_ret at 1. rewrite bind_Ret.
    pose proof (repr_leaf st a c l r (dbit d c) u y Hr Eya) as Hch. cbn [find].
    destruct (dbit d c); [eapply IHr|eapply IHl]; try done; lia.
Qed.

(** The tests of [place] go as those of [tins]. *)
Lemma place_ok st a h t : digest_ok (dg st h) -> forall lo c p fuel,
  wf (dg st) lo t -> holds st p t -> crit (dg st h) (dg st (find (dg st h) t)) c ->
  0 <= lo -> 256 - lo < Z.of_nat fuel ->
  exists p' t' k, place fuel st (dg st h) c p = Ok p' /\ path p t p' t' k /\
    tins (dg st) a c h t = k (new_node (dg st) a c h t').
Proof.
  intros Hd. induction t as [h'|a' c' l IHl r IHr]; intros lo c p fuel Hw (u & Hu & Hr) Hcr Hlo Hf.
  - exists p, (TLeaf h'), (fun x => x). split; [|split; [constructor|done]].
    destruct (repr_is_y _ _ _ Hr) as [Ey _].
    destruct fuel; cbn [place]; by rewrite Hu, bind_Ret, Ey.
  - destruct (repr_is_y _ _ _ Hr) as [Ey _]. pose proof Hr as (Eu & Ha & y & Eya & Hok & _).
    pose proof Hw as (Hc & Hl & Hr' & H0 & H1 & _).
    destruct fuel as [|fuel]; [lia|]. cbn [place]. rewrite Hu, bind_Ret, Ey. cbn [is_leaf negb].
    rewrite Eu, (l_y_ok a' Ha), bind_Ret, Eya. cbn [deref]. rewrite bind_Ret.
    rewrite (yo_critbit _ _ Hok). set (d := dg st h) in *. cbn [find tins] in *. fold d.
    assert (Hne : c' <> c).
    { intros ->. destruct Hcr as (_ & _ & Hne). apply Hne. destruct (dbit d c) eqn:E; symmetry.
      - apply H1. apply (find_leaf (dg st)).
      - apply H0. apply (find_leaf (dg st)). }
    rewrite vassert_true, bind_Ret by (apply negb_true_iff, Z.eqb_neq; done).
    destruct (Z.ltb_spec c c') as [Hlt|Hge].
    + exists p, (TNode a' c' l r), (fun x => x). split; [done|]. split; [constructor|done].
    + rewrite (side_ok d y c' Hd Hok), bind_Ret.
      pose proof (repr_child st a' c' l r (dbit d c') u Hr) as Hch.
      destruct (dbit d c') eqn:E.
      * destruct (IHr (c' + 1) c (Leaf a' true) fuel Hr' Hch Hcr) as (p' & t' & k & Ep & Hp & Ek); [lia|lia|].
        exists p', t', (fun x => TNode a' c' l (k x)). split; [exact Ep|]. split; [|by rewrite Ek].
        exact (path_down p a' c' l r true p' t' k Hp).
      * destruct (IHl (c' + 1) c (Leaf a' false) fuel Hl Hch Hcr) as (p' & t' & k & Ep & Hp & Ek); [lia|lia|].
        exists p', t', (fun x => TNode a' c' (k x) r). split; [exact Ep|]. split; [|by rewrite Ek].
        exact (path_down p a' c' l r false p' t' k Hp).
Qed.

(** The loop of [hcb_delete]: where the node above the leaf is. *)
Lemma delete_loop_ok st h t : digest_ok (dg st h) -> aligned h -> forall lo p fuel,
  wf (dg st) lo t -> holds st p t -> is_leaf t = false -> h ∈ leaves t ->
  NoDup (nodes t) -> outside p t ->
  0 <= lo -> 256 - lo < Z.of_nat fuel ->
  exists p' a c l r k st', path p t p' (TNode a c l r) k /\
    tdel (dg st) h t = k (child (negb (dbit (dg st h) c)) l r) /\
    child (dbit (dg st h) c) l r = TLeaf h /\
    (exists y, ys st !! a = Some y /\ set st p' (leaf y (negb (dbit (dg st h) c))) = Ok st') /\
    delete_loop fuel st (dg st h) (Z.lor 1 h) p = Ok (set_cool_y st' (cool_y st' ++ [a])).
Proof.
  intros Hd Hah. induction t as [h'|a c l IHl r IHr]; intros lo p fuel Hw (u & Hu & Hr) Hlf Hin Hnd Hout Hlo Hf; [done|].
  destruct (repr_is_y _ _ _ Hr) as [Ey _]. pose proof Hr as (Eu & Ha & y & Eya & Hok & _).
  pose proof Hw as (Hc & Hl & Hr' & H0 & H1 & _).
  destruct fuel as [|fuel]; [lia|]. cbn [delete_loop]. rewrite Hu, bind_Ret, Ey. cbn [is_leaf negb].
  rewrite (vassert_true true), bind_Ret by done.
  rewrite Eu, (l_y_ok a Ha), bind_Ret, Eya. cbn [deref]. rewrite bind_Ret.
  rewrite (side_ok _ y c Hd Hok), bind_Ret. set (s := dbit (dg st h) c) in *.
  pose proof (repr_leaf st a c l r s u y Hr Eya) as Hch.
  assert (Hins : h ∈ leaves (child s l r)).
  { simpl in Hin. apply elem_of_app in Hin as [Hi|Hi]; unfold s.
    - by rewrite H0.
    - by rewrite H1. }
  destruct (NoDup_child a c l r s Hnd) as (Hdc & Hac & _).
  destruct (child s l r) as [h'|a2 c2 l2 r2] eqn:Ec.
  - (* the leaf hangs here *)
    simpl in Hins. apply list_elem_of_singleton in Hins as <-.
    pose proof Hch as (El & _). rewrite El, Z.eqb_refl.
    assert (Hset : exists st', set st p (leaf y (negb s)) = Ok st').
    { destruct p as [|b s']; simpl; [by eexists|]. simpl in Hu.
      apply bind_Ok in Hu as (y0 & E0 & _). rewrite E0. by eexists. }
    destruct Hset as [st' Hset]. exists p, a, c, l, r, (fun x => x), st'.
    split; [constructor|]. split; [|split; [done|split; [by exists y|by rewrite Hset]]].
    cbn [tdel]. fold s. destruct s; simpl in Ec; subst; done.
  - assert (Hne : leaf y s =? Z.lor 1 h = false).
    { apply Z.eqb_neq. intros E. pose proof Hch as (E2 & _). pose proof (is_y_y a2) as F.
      rewrite <- E2, E, is_y_node in F by done. done. }
    rewrite Hne.
    assert (Hhc : holds st (Leaf a s) (child s l r)) by (by eapply repr_child).
    assert (Hoc : outside (Leaf a s) (child s l r)) by (destruct s; simpl; set_solver).
    assert (IH : forall lo p fuel, wf (dg st) lo (child s l r) -> holds st p (child s l r) ->
      is_leaf (child s l r) = false -> h ∈ leaves (child s l r) -> NoDup (nodes (child s l r)) ->
      outside p (child s l r) -> 0 <= lo -> 256 - lo < Z.of_nat fuel ->
      exists p' a c l' r' k st', path p (child s l r) p' (TNode a c l' r') k /\
        tdel (dg st) h (child s l r) = k (child (negb (dbit (dg st h) c)) l' r') /\
        child (dbit (dg st h) c) l' r' = TLeaf h /\
        (exists y, ys st !! a = Some y /\ set st p' (leaf y (negb (dbit (dg st h) c))) = Ok st') /\
        delete_loop fuel st (dg st h) (Z.lor 1 h) p = Ok (set_cool_y st' (cool_y st' ++ [a])))
      by (destruct s; [exact IHr|exact IHl]).
    destruct (IH (c + 1) (Leaf a s) fuel) as (p' & a' & c' & l' & r' & k & st' & Hp & Ek & Elf & Hy & Edl);
      try done.
    { destruct s; done. } { by rewrite Ec. } { by rewrite Ec. } { by rewrite Ec. } { lia. } { lia. }
    exists p', a', c', l', r', (fun x => if s then TNode a c l (k x) else TNode a c (k x) r), st'.
    split; [by apply path_down|]. split; [|split; [done|split; [done|exact Edl]]].
    rewrite <- Ek. cbn [tdel]. fold s. destruct s; simpl in Ec; subst; done.
Qed.

(** ** The operations *)

Lemma dg_ohs st st' : ohs st' = ohs st -> dg st' = dg st.
Proof. intros E. unfold dg. by rewrite E. Qed.

(** The store's tree is [ot]. *)
Definition rooted (st : hcb) (ot : option tree) : Prop :=
  match ot with
  | None => origo st = 0
  | Some t => repr st (origo st) t /\ wf (dg st) 0 t /\ NoDup (nodes t)
  end.

Definition oleaves (ot : option tree) : list Z := match ot with Some t => leaves t | None => [] end.
Definition onodes (ot : option tree) : list Z := match ot with Some t => nodes t | None => [] end.

(** An object head that can be looked up, a node that can be linked in. *)
Definition oh_ok (st : hcb) (h : Z) : Prop :=
  aligned h /\ digest_ok (dg st h) /\ is_Some (ohs st !! h).
Definition priv_ok (st : hcb) (ot : option tree) (a : Z) : Prop :=
  aligned a /\ is_Some (ys st !! a) /\ a ∉ onodes ot.

Lemma dg_lookup st h o : ohs st !! h = Some o -> digest o = dg st h.
Proof. unfold dg. by intros ->. Qed.

(** What every search does first. *)
Lemma insert_search st ot priv oh lock : rooted st ot -> oh_ok st oh ->
  hcb_insert st priv oh lock =
  match ot with
  | None => if negb lock then Ok (st, priv, 0) else Ok (set_origo st (Z.lor 1 oh), priv, oh)
  | Some t =>
      let oh2 := find (dg st oh) t in
      if bool_decide (dg st oh2 = dg st oh) then Ok (st, priv, oh2)
      else if negb lock then Ok (st, priv, 0)
      else
        vassert (truth priv);;
        y2 ← deref (ys st !! priv);
        y2 ← hcb_crit_bit (dg st oh) (dg st oh2) y2;
        s2 ← side (dg st oh) y2;
        v ← hcb_r_node oh;
        let y2 := set_leaf y2 s2 v in
        let st := set_ys st (<[priv := y2]> (ys st)) in
        vassert (truth (origo st));;
        p ← place max_depth st (dg st oh) (critbit y2) Origo;
        v ← get st p;
        let st := set_ys st (<[priv := set_leaf y2 (negb s2) v]> (ys st)) in
        r ← hcb_r_y priv;
        st ← set st p r;
        mret (st, 0, oh)
  end.
Proof.
  intros Hr (Ha & Hd & [o Ho]). unfold hcb_insert. destruct ot as [t|]; simpl in Hr.
  - destruct Hr as (Hr & Hw & _). destruct (repr_is_y _ _ _ Hr) as [_ H0].
    rewrite (proj2 (Z.eqb_neq _ _) H0), Ho. cbn [deref]. rewrite bind_Ret, (dg_lookup _ _ _ Ho).
    rewrite (walk_ok st _ 0 t Hd Hw max_depth _ Hr), bind_Ret by (unfold max_depth; lia).
    set (oh2 := find (dg st oh) t).
    assert (Hin : oh2 ∈ leaves t) by apply (find_leaf (dg st)).
    assert (H2 : forall u t, repr st u t -> forall h, h ∈ leaves t -> aligned h /\ is_Some (ohs st !! h)).
    { clear. intros u t. revert u. induction t as [h'|a c l IHl r IHr]; intros u Hr h Hh; simpl in *.
      - apply list_elem_of_singleton in Hh as ->. by destruct Hr as (_ & ? & ?).
      - destruct Hr as (_ & _ & y & _ & _ & H0 & H1). apply elem_of_app in Hh as [Hh|Hh]; eauto. }
    destruct (H2 _ _ Hr oh2 Hin) as [Ha2 [o2 Ho2]].
    pose proof (tagged_pos oh2 0 (proj1 Ha2) ltac:(lia)) as Hp. change (2 ^ 0) with 1 in Hp.
    rewrite (proj2 (Z.eqb_neq (Z.lor 1 oh2) 0)) by lia.
    rewrite is_node_node, (vassert_true true), bind_Ret by done.
    rewrite (l_node_ok oh2 Ha2), bind_Ret, Ho2. cbn [deref]. rewrite bind_Ret, (dg_lookup _ _ _ Ho2).
    done.
  - rewrite Hr. simpl. destruct lock; simpl; [|done]. by rewrite (r_node_ok oh Ha).
Qed.

(** A leaf with the digest is found, with or without the lock. *)
Lemma insert_found st ot priv oh lock h : rooted st ot -> oh_ok st oh ->
  h ∈ oleaves ot -> dg st h = dg st oh -> hcb_insert st priv oh lock = Ok (st, priv, h).
Proof.
  intros Hr Hoh Hh E. rewrite (insert_search st ot priv oh lock Hr Hoh).
  destruct ot as [t|]; [|by apply elem_of_nil in Hh]. cbv zeta.
  destruct Hr as (_ & Hw & _). rewrite <- E, (find_in (dg st) 0 t h Hw Hh).
  by rewrite bool_decide_eq_true_2.
Qed.

(** Without the lock nothing is inserted. *)
Lemma insert_nolock st ot priv oh : rooted st ot -> oh_ok st oh ->
  (forall h, h ∈ oleaves ot -> dg st h <> dg st oh) ->
  hcb_insert st priv oh false = Ok (st, priv, 0).
Proof.
  intros Hr Hoh Hn. rewrite (insert_search st ot priv oh false Hr Hoh).
  destruct ot as [t|]; [|done]. cbv zeta. rewrite bool_decide_eq_false_2; [done|].
  apply Hn. apply (find_leaf (dg st)).
Qed.

(** How an insertion under a non-empty root changes the store: the private node is
    filled in, then one slot is changed to it. *)
Record inserted (st : hcb) (priv oh : Z) (t : tree) (st' : hcb) (t2 : tree) : Prop := {
  in_p : exists p t' k y2 c st1 v,
    path Origo t p t' k /\ t2 = k (new_node (dg st) priv c oh t') /\
    crit (dg st oh) (dg st (find (dg st oh) t)) c /\ c < 256 /\
    y_ok y2 c /\ get st p = Ok v /\
    leaf y2 (dbit (dg st oh) c) = Z.lor 1 oh /\ leaf y2 (negb (dbit (dg st oh) c)) = v /\
    st1 = set_ys st (<[priv := y2]> (ys st)) /\ set st1 p (Z.lor 2 priv) = Ok st';
}.

Lemma insert_new st t priv oh : rooted st (Some t) -> oh_ok st oh -> priv_ok st (Some t) priv ->
  (forall h, h ∈ leaves t -> dg st h <> dg st oh) ->
  exists st' c, hcb_insert st priv oh true = Ok (st', 0, oh) /\
    rooted st' (Some (tins (dg st) priv c oh t)) /\ ohs st' = ohs st /\
    inserted st priv oh t st' (tins (dg st) priv c oh t).
Proof.
  intros Hrt Hoh (Hap & [y0 Hy0] & Hpn) Hn. rewrite (insert_search st _ priv oh true Hrt Hoh). cbv zeta.
  set (oh2 := find (dg st oh) t). assert (Hin : oh2 ∈ leaves t) by apply (find_leaf (dg st)).
  rewrite bool_decide_eq_false_2 by (by apply Hn). cbn [negb].
  destruct Hrt as (Hr & Hw & Hnd). destruct Hoh as (Ha & Hd & Ho).
  rewrite vassert_true, bind_Ret by (apply truth_true; destruct Hap; lia).
  rewrite Hy0. cbn [deref]. rewrite bind_Ret.
  assert (Hd2 : digest_ok (dg st oh2)) by (by eapply leaves_digest).
  destruct (crit_bit_ok (dg st oh) (dg st oh2) y0 Hd Hd2) as (y & c & -> & Hok & Hcr & _).
  { intros E. by apply (Hn oh2 Hin). }
  rewrite bind_Ret, (side_ok _ y c Hd Hok), bind_Ret, (r_node_ok oh Ha), bind_Ret. cbv zeta.
  set (s2 := dbit (dg st oh) c).
  set (sta := set_ys st (<[priv := set_leaf y s2 (Z.lor 1 oh)]> (ys st))).
  assert (Eo : ohs sta = ohs st) by done. assert (Edg : dg sta = dg st) by done.
  destruct (repr_is_y _ _ _ Hr) as [_ H0].
  rewrite vassert_true, bind_Ret by (apply truth_true; exact H0).
  assert (Ec : critbit (set_leaf y s2 (Z.lor 1 oh)) = c) by (apply yo_critbit; by apply set_leaf_ok).
  rewrite Ec.
  assert (Hys : forall a, a ∈ nodes t -> ys sta !! a = ys st !! a).
  { intros a Hain. simpl. rewrite lookup_insert_ne; [done|]. intros ->. done. }
  assert (Hra : holds sta Origo t).
  { exists (origo st). split; [done|]. by eapply repr_frame. }
  destruct (place_ok sta priv oh t Hd 0 c Origo max_depth Hw Hra Hcr) as (p & t' & k & Ep & Hpath & Ek);
    [lia|unfold max_depth; lia|].
  rewrite Ep, bind_Ret.
  destruct (path_holds _ _ _ _ _ _ Hpath Hra) as (v & Ev & Hv). rewrite Ev, bind_Ret. cbv zeta.
  set (y2 := set_leaf (set_leaf y s2 (Z.lor 1 oh)) (negb s2) v).
  set (st1 := set_ys sta (<[priv := y2]> (ys sta))).
  rewrite (r_y_ok priv Hap), bind_Ret.
  assert (Hpo : match p with Origo => True | Leaf b _ => priv <> b end).
  { destruct (path_slot _ _ _ _ _ Hpath) as [->|(b & s & -> & Hb)]; [done|].
    intros ->. done. }
  assert (Hset : exists st', set st1 p (Z.lor 2 priv) = Ok st').
  { destruct p as [|b s]; simpl; [by eexists|]. simpl in Ev. apply bind_Ok in Ev as (yb & Eb & _).
    rewrite lookup_insert_ne by done. rewrite Eb. by eexists. }
  destruct Hset as [st' Hset]. rewrite Hset, bind_Ret. exists st', c. split; [done|].
  assert (Hos : ohs st' = ohs st) by (by rewrite (set_ohs_same _ _ _ _ Hset)).
  assert (Hy2 : y_ok y2 c) by (by repeat apply set_leaf_ok).
  assert (Hls : leaf y2 s2 = Z.lor 1 oh /\ leaf y2 (negb s2) = v).
  { unfold y2. split; [|by rewrite leaf_set].
    by destruct s2. }
  assert (Hst1 : forall a, a ∈ nodes t -> ys st1 !! a = ys st !! a).
  { intros a Hain. simpl. rewrite lookup_insert_ne by (intros ->; done). by apply Hys. }
  assert (Hnew : repr st' (Z.lor 2 priv) (new_node (dg st) priv c oh t')).
  { assert (Ey2 : ys st' !! priv = Some y2).
    { rewrite (set_ys_ne st1 p _ st' priv Hset Hpo). simpl. by rewrite lookup_insert_eq. }
    assert (Hv' : repr st' v t').
    { eapply repr_frame; [| |exact Hv]; [|by rewrite Hos].
      intros a Hain. pose proof (path_nodes _ _ _ _ _ _ Hpath Hain) as Hat.
      rewrite (set_ys_ne st1 p _ st' a Hset).
      - rewrite Hst1, Hys by done. done.
      - pose proof (path_outside _ _ _ _ _ Hpath Hnd I) as Hpo'. destruct p; [done|].
        intros ->. done. }
    assert (Hl : repr st' (Z.lor 1 oh) (TLeaf oh)) by (split; [done|]; split; [done|]; by rewrite Hos).
    unfold new_node. fold s2. destruct Hls as [Hl1 Hl2].
    destruct s2; simpl in *; (split; [done|]; split; [done|]; exists y2; split; [done|]; split; [done|]);
      rewrite ?Hl1, ?Hl2; done. }
  destruct (path_update sta Origo t p t' k Hpath Hra Hnd I st1 st' (Z.lor 2 priv)
    (new_node (dg st) priv c oh t')) as (u & Hu & Hru);
    [|done|done|exact Hset|exact Hnew|].
  { intros a Hain. by rewrite Hst1, Hys. }
  simpl in Hu. injection Hu as <-. split; [|split; [done|]].
  - simpl. rewrite (dg_ohs _ _ Hos). rewrite Edg in Ek. rewrite Ek. split; [done|].
    rewrite <- Ek. split.
    + apply tins_wf; [done|destruct Hcr; lia|done|done].
    + rewrite tins_nodes. by constructor.
  - split. exists p, t', k, y2, c, st1, v. split; [done|]. split; [exact Ek|].
    split; [done|]. split; [destruct Hcr; lia|]. split; [done|]. split.
    { destruct p as [|b s]; [done|]. simpl in Ev |- *. by rewrite lookup_insert_ne in Ev. }
    split; [apply Hls|]. split; [apply Hls|]. split; [|done].
    unfold st1, sta, set_ys. simpl. by rewrite insert_insert_eq.
Qed.

Lemma path_perm p t p' t' k : path p t p' t' k ->
  exists rest, forall x, nodes (k x) ≡ₚ nodes x ++ rest.
Proof.
  induction 1 as [p t|p a c l r s p' t' k _ (rest & IH)].
  - exists []. intros x. by rewrite app_nil_r.
  - exists (a :: nodes (child (negb s) l r) ++ rest). intros x. destruct s; simpl.
    + rewrite IH, <- Permutation_middle. rewrite !app_assoc. do 2 f_equiv. apply Permutation_app_comm.
    + rewrite IH, <- Permutation_middle. rewrite <- app_assoc. do 2 f_equiv. apply Permutation_app_comm.
Qed.

Lemma path_id p t p' t' k : path p t p' t' k -> k t' = t.
Proof. induction 1 as [|p a c l r s p' t' k _ IH]; [done|]. by destruct s; rewrite IH. Qed.

(** How a deletion below the root changes the store: one slot, that of the node
    above the leaf, which becomes what the node's other side is. *)
Inductive deleted (st : hcb) (h : Z) (t : tree) (st' : hcb) (ot' : option tree) : Prop :=
  | deleted_root : t = TLeaf h -> st' = set_origo st 0 -> ot' = None -> deleted st h t st' ot'
  | deleted_node p a c l r k y st2 :
      path Origo t p (TNode a c l r) k -> ys st !! a = Some y ->
      child (dbit (dg st h) c) l r = TLeaf h ->
      set st p (leaf y (negb (dbit (dg st h) c))) = Ok st2 ->
      st' = set_cool_y st2 (cool_y st2 ++ [a]) ->
      ot' = Some (k (child (negb (dbit (dg st h) c)) l r)) -> deleted st h t st' ot'.

Lemma tree_delete_ok st t h : rooted st (Some t) -> oh_ok st h -> h ∈ leaves t ->
  exists st' ot', hcb_delete st h = Ok st' /\ rooted st' ot' /\
    leaves t ≡ₚ h :: oleaves ot' /\ ohs st' = ohs st /\ deleted st h t st' ot' /\
    exists gone, cool_y st' = cool_y st ++ gone /\ nodes t ≡ₚ gone ++ onodes ot' /\
      cool_h st' = cool_h st /\ dead_y st' = dead_y st /\ dead_h st' = dead_h st /\
      (forall a, a ∉ nodes t -> ys st' !! a = ys st !! a) /\ dom (ys st') = dom (ys st).
Proof.
  intros (Hr & Hw & Hnd) (Ha & Hd & [o Ho]) Hin. unfold hcb_delete. rewrite (r_node_ok h Ha), bind_Ret.
  destruct (repr_is_y _ _ _ Hr) as [Ey _].
  destruct t as [h'|a c l r] eqn:Et.
  - simpl in Hin. apply list_elem_of_singleton in Hin as <-. pose proof Hr as (E & _).
    rewrite E, Z.eqb_refl. exists (set_origo st 0), None. split; [done|]. split; [done|].
    split; [done|]. split; [done|]. split; [by apply deleted_root|].
    exists []. by rewrite app_nil_r.
  - rewrite <- Et in *. assert (Hlf : is_leaf t = false) by (by rewrite Et). rewrite Hlf in Ey.
    assert (Hne : origo st =? Z.lor 1 h = false).
    { apply Z.eqb_neq. intros E. by rewrite E, is_y_node in Ey. }
    rewrite Hne, Ey. cbn [negb vassert]. rewrite bind_Ret, Ho. cbn [deref].
    rewrite bind_Ret, (dg_lookup _ _ _ Ho). clear a c l r Et.
    assert (Hh : holds st Origo t) by (by exists (origo st)).
    destruct (delete_loop_ok st h t Hd Ha 0 Origo max_depth Hw Hh Hlf Hin Hnd I)
      as (p & a & c & l & r & k & st2 & Hpath & Ek & Elf & (y & Eya & Hset) & ->);
      [lia|unfold max_depth; lia|].
    set (s := dbit (dg st h) c) in *.
    destruct (path_holds _ _ _ _ _ _ Hpath Hh) as (u & Hu & Hru).
    pose proof (repr_leaf st a c l r (negb s) u y Hru Eya) as Hoth.
    pose proof (path_outside _ _ _ _ _ Hpath Hnd I) as Hpo.
    destruct (path_update st Origo t p (TNode a c l r) k Hpath Hh Hnd I st st2 (leaf y (negb s))
      (child (negb s) l r)) as (w & Hw2 & Hrw); [done|done|done|exact Hset| |].
    { eapply repr_frame; [|by rewrite (set_ohs_same _ _ _ _ Hset)|exact Hoth].
      intros b Hb. apply (set_ys_ne st p _ st2 b Hset). destruct p as [|q sq]; [done|].
      intros ->. simpl in Hpo. destruct s; simpl in Hb; set_solver. }
    simpl in Hw2. injection Hw2 as <-.
    pose proof (set_ohs_same _ _ _ _ Hset) as Hos.
    destruct (path_perm _ _ _ _ _ Hpath) as (rest & Hperm).
    assert (Enod : nodes t ≡ₚ a :: nodes (k (child (negb s) l r))).
    { rewrite <- (path_id _ _ _ _ _ Hpath) at 1. rewrite !Hperm. simpl.
      destruct s; simpl in *; rewrite Elf; simpl; by rewrite ?app_nil_r. }
    exists (set_cool_y st2 (cool_y st2 ++ [a])), (Some (k (child (negb s) l r))).
    split; [done|]. split; [split; [|split]|].
    + eapply repr_frame; [| |exact Hrw]; done.
    + change (dg (set_cool_y st2 (cool_y st2 ++ [a]))) with (dg st2).
      rewrite (dg_ohs st st2 Hos), <- Ek. by apply tdel_wf.
    + rewrite Enod in Hnd. by apply NoDup_cons in Hnd as [_ Hnd].
    + split; [simpl; rewrite <- Ek; by eapply tdel_leaves|].
      split; [done|]. split; [by eapply deleted_node|].
      exists [a].
      assert (Hsame : cool_y st2 = cool_y st /\ cool_h st2 = cool_h st /\ dead_y st2 = dead_y st /\
        dead_h st2 = dead_h st /\ dom (ys st2) = dom (ys st)).
      { destruct p as [|q sq]; simpl in Hset; [by injection Hset as <-|].
        apply bind_Ok in Hset as (yq & Eq & Hset). apply deref_Ok in Eq. injection Hset as <-. simpl.
        split_and!; try done. apply dom_insert_lookup_L. by exists yq. }
      destruct Hsame as (S1 & S2 & S3 & S4 & S5). simpl. rewrite S1.
      split; [done|]. split; [done|]. split; [done|]. split; [done|]. split; [done|]. split; [|done].
      intros b Hb. apply (set_ys_ne st p _ st2 b Hset).
      destruct (path_slot _ _ _ _ _ Hpath) as [->|(q & sq & -> & Hq)]; [done|]. by intros ->.
Qed.

End CritbitOps.
