(* ===== verification/CritbitConc.v ===== *)
(** Searching the tree without the lock, while others insert and delete.

    A reader makes one memory access at a time; between two of them a writer, which
    holds the lock, may change the tree, and anybody may change what is not in it.
    No node is freed while a reader may hold it: that is what the cool-off of
    [hcb_cleaner] is for. *)
From S2P Require Import Prelude Critbit CritbitTree CritbitInv CritbitOps.
Import Critbit CritbitTree CritbitInv CritbitOps.

Module CritbitConc.

(** ** The reader *)

Inductive reader := RStart | RWalk (pp : Z) | RDone (oh : Z).

(** One access of [hcb_insert] without the lock, and what is done with it. *)
Definition rstep (st : hcb) (d : list Z) (r : reader) : res reader :=
  match r with
  | RStart => mret (if origo st =? 0 then RDone 0 else RWalk (origo st))
  | RWalk pp =>
      if hcb_is_y pp then
        a ← hcb_l_y pp;
        y ← deref (ys st !! a);
        s ← side d y;
        pp ← get st (Leaf a s);
        mret (RWalk pp)
      else if pp =? 0 then mret (RDone 0)
      else
        vassert (hcb_is_node pp);;
        oh2 ← hcb_l_node pp;
        o2 ← deref (ohs st !! oh2);
        mret (RDone (if bool_decide (digest o2 = d) then oh2 else 0))
  | RDone oh => mret (RDone oh)
  end.

(** Undisturbed, the reader's steps are the search of [hcb_insert]. *)
Fixpoint rsteps (n : nat) (st : hcb) (d : list Z) (r : reader) : res reader :=
  match n with
  | O => mret r
  | S n => r ← rstep st d r; rsteps n st d r
  end.

Lemma rsteps_done n st d oh : rsteps n st d (RDone oh) = Ok (RDone oh).
Proof. induction n as [|n IH]; [done|]. cbn [rsteps rstep]. by rewrite bind_Ret. Qed.

Lemma rsteps_walk st d : forall fuel pp, rsteps (S fuel) st d (RWalk pp) =
  (u ← walk fuel st d pp;
   if u =? 0 then mret (RDone 0) else
   vassert (hcb_is_node u);;
   oh2 ← hcb_l_node u;
   o2 ← deref (ohs st !! oh2);
   mret (RDone (if bool_decide (digest o2 = d) then oh2 else 0))) \/
  walk fuel st d pp = Fail FFuel.
Proof.
  induction fuel as [|fuel IH]; intros pp.
  - cbn [walk]. destruct (hcb_is_y pp) eqn:E; [by right|left]. cbn [rsteps rstep]. rewrite E.
    rewrite bind_Ret. destruct (pp =? 0); [done|].
    destruct (vassert (hcb_is_node pp)); [|done]. cbn [mbind res_bind].
    destruct (hcb_l_node pp) as [oh2|]; [|done]. cbn [mbind res_bind].
    by destruct (deref (ohs st !! oh2)).
  - change (rsteps (S (S fuel)) st d (RWalk pp))
      with (rstep st d (RWalk pp) ≫= rsteps (S fuel) st d).
    cbn [walk rstep]. destruct (hcb_is_y pp) eqn:E.
    + destruct (hcb_l_y pp) as [a|]; [|by left]. cbn [mbind res_bind].
      destruct (deref (ys st !! a)) as [y|] eqn:Ey; [|by left]. cbn [mbind res_bind].
      destruct (side d y) as [s|]; [|by left]. cbn [mbind res_bind].
      destruct (get st (Leaf a s)) as [v|]; [|by left]. cbn [mbind res_bind mret res_ret].
      apply IH.
    + left. destruct (pp =? 0) eqn:E0.
      { rewrite bind_Ret, rsteps_done. rewrite bind_Ret, E0. done. }
      rewrite bind_Ret, E0. destruct (vassert (hcb_is_node pp)); [|done]. cbn [mbind res_bind].
      destruct (hcb_l_node pp) as [oh2|]; [|done]. cbn [mbind res_bind].
      destruct (deref (ohs st !! oh2)); [|done]. cbn [mbind res_bind mret res_ret].
      by rewrite rsteps_done.
Qed.

(** ** What readers may see *)

(** A value of a slot below a node that tests bit [c]: an object head, or a
    published node that tests a later bit. *)
Definition target (st : hcb) (pub : gset Z) (c u : Z) : Prop :=
  (exists h, u = Z.lor 1 h /\ aligned h /\ is_Some (ohs st !! h)) \/
  (exists a y c', u = Z.lor 2 a /\ aligned a /\ a ∈ pub /\ ys st !! a = Some y /\ y_ok y c' /\ c < c').

Definition published (st : hcb) (pub : gset Z) (a : Z) : Prop :=
  exists y c, ys st !! a = Some y /\ y_ok y c /\ forall s, target st pub c (leaf y s).

(** The nodes of the tree are published, and published nodes lead to object heads
    through later and later bits. *)
Record seen (st : hcb) (pub : gset Z) (ot : option tree) : Prop := {
  sn_rooted : rooted st ot;
  sn_nodes : forall a, a ∈ onodes ot -> a ∈ pub;
  sn_pub : forall a, a ∈ pub -> published st pub a;
}.

Lemma y_ok_inj y c c' : y_ok y c -> y_ok y c' -> c = c'.
Proof. intros [_ E _ _] [_ E' _ _]. congruence. Qed.

Lemma repr_target st pub t u c lo : repr st u t -> wf (dg st) lo t -> c < lo ->
  (forall a, a ∈ nodes t -> a ∈ pub) -> target st pub c u.
Proof.
  intros Hr Hw Hc Hp. destruct t as [h|a c' l r].
  - left. by exists h.
  - right. destruct Hr as (-> & Ha & y & Ey & Hok & _). destruct Hw as (Hlo & _).
    exists a, y, c'. split; [done|]. split; [done|]. split; [apply Hp; simpl; set_solver|].
    split; [done|]. split; [done|lia].
Qed.

(** In a tree, every node is as readers expect. *)
Lemma tree_published st pub t : forall u lo, repr st u t -> wf (dg st) lo t ->
  (forall a, a ∈ nodes t -> a ∈ pub) -> forall a, a ∈ nodes t -> published st pub a.
Proof.
  induction t as [h|a c l IHl r IHr]; intros u lo Hr Hw Hp b Hb; simpl in Hb; [by apply elem_of_nil in Hb|].
  pose proof Hr as (_ & _ & y & Ey & Hok & H0 & H1). pose proof Hw as (Hc & Hl & Hr' & _).
  apply elem_of_cons in Hb as [->|[Hb|Hb]%elem_of_app].
  - exists y, c. split; [done|]. split; [done|]. intros [|].
    + eapply (repr_target st pub r _ c (c + 1)); [done|done|lia|]. intros x Hx. apply Hp. simpl; set_solver.
    + eapply (repr_target st pub l _ c (c + 1)); [done|done|lia|]. intros x Hx. apply Hp. simpl; set_solver.
  - eapply IHl; [done|done| |done]. intros x Hx. apply Hp. simpl; set_solver.
  - eapply IHr; [done|done| |done]. intros x Hx. apply Hp. simpl; set_solver.
Qed.

(** ** Changes *)

(** From [st] to [st'] published nodes keep the bit they test, and those that are
    not in the tree of [st'] do not change at all; object heads stay. *)
Record stable (st st' : hcb) (pub : gset Z) (ot' : option tree) : Prop := {
  sb_bit : forall a y c, a ∈ pub -> ys st !! a = Some y -> y_ok y c ->
    exists y', ys st' !! a = Some y' /\ y_ok y' c;
  sb_rest : forall a, a ∈ pub -> a ∉ onodes ot' -> ys st' !! a = ys st !! a;
  sb_ohs : forall h o, ohs st !! h = Some o -> exists o', ohs st' !! h = Some o' /\ digest o' = digest o;
}.

Lemma target_stable st st' pub pub' ot' c u :
  stable st st' pub ot' -> pub ⊆ pub' -> target st pub c u -> target st' pub' c u.
Proof.
  intros Hs Hp [(h & -> & Ha & o & Ho)|(a & y & c' & -> & Ha & Hin & Ey & Hok & Hc)].
  - left. exists h. split; [done|]. split; [done|]. destruct (sb_ohs _ _ _ _ Hs h o Ho) as (o' & -> & _).
    by eexists.
  - right. destruct (sb_bit _ _ _ _ Hs a y c' Hin Ey Hok) as (y' & Ey' & Hok').
    exists a, y', c'. split; [done|]. split; [done|]. split; [set_solver|done].
Qed.

Lemma seen_stable st st' pub pub' ot ot' :
  seen st pub ot -> rooted st' ot' -> stable st st' pub ot' -> pub ⊆ pub' ->
  (forall a, a ∈ onodes ot' -> a ∈ pub') -> (forall a, a ∈ pub' -> a ∈ pub \/ a ∈ onodes ot') ->
  seen st' pub' ot'.
Proof.
  intros [_ _ Hpub] Hr Hs Hp Hn Hor. split; [done|done|]. intros a Ha.
  destruct (decide (a ∈ onodes ot')) as [Hin|Hout].
  - destruct ot' as [t|]; [|by apply elem_of_nil in Hin]. destruct Hr as (Hr & Hw & _).
    by eapply tree_published.
  - destruct (Hor a Ha) as [Hap|]; [|done]. destruct (Hpub a Hap) as (y & c & Ey & Hok & Ht).
    exists y, c. rewrite (sb_rest _ _ _ _ Hs a Hap Hout). split; [done|]. split; [done|].
    intros s. by eapply target_stable.
Qed.

(** ** Where a value leads *)

Inductive leads (st : hcb) (d : list Z) : Z -> Z -> Prop :=
  | leads_node h : aligned h -> leads st d (Z.lor 1 h) h
  | leads_y a y c h : aligned a -> ys st !! a = Some y -> y_ok y c ->
      leads st d (leaf y (dbit d c)) h -> leads st d (Z.lor 2 a) h.

Lemma repr_leads st d t : forall u, repr st u t -> leads st d u (find d t).
Proof.
  induction t as [h|a c l IHl r IHr]; intros u Hr.
  - destruct Hr as (-> & Ha & _). by constructor.
  - destruct Hr as (-> & Ha & y & Ey & Hok & H0 & H1). eapply leads_y; [done|done|done|].
    simpl. destruct (dbit d c); simpl; auto.
Qed.

Lemma leads_fun st d u h : leads st d u h -> forall h', leads st d u h' -> h = h'.
Proof.
  induction 1 as [h Ha|a y c h Ha Ey Hok Hl IH]; intros h' H'; inversion H'.
  - subst. by apply node_inj.
  - exfalso. pose proof (is_y_y a) as E. rewrite H, is_y_node in E by done. done.
  - exfalso. subst. pose proof (is_y_y a) as E. rewrite <- H, is_y_node in E by done. done.
  - assert (a0 = a) as ->.
    { pose proof (l_y_ok a Ha) as E. rewrite <- H, l_y_ok in E by done. congruence. }
    assert (y0 = y) as -> by congruence. assert (c0 = c) as -> by (by eapply y_ok_inj).
    by apply IH.
Qed.

(** ** One slot changes *)

Lemma path_subst p t p' t' k : path p t p' t' k -> forall x, path p (k x) p' x k.
Proof.
  induction 1 as [p t|p a c l r s p' t' k _ IH]; intros x; [constructor|].
  destruct s; cbn beta iota.
  - exact (path_down p a c l (k x) true p' x k (IH x)).
  - exact (path_down p a c (k x) r false p' x k (IH x)).
Qed.

Lemma path_wf dgs lo p t p' t' k : path p t p' t' k -> wf dgs lo t -> exists lo', wf dgs lo' t'.
Proof.
  intros H. revert lo. induction H as [|p a c l r s p' t' k _ IH]; intros lo Hw; [by exists lo|].
  destruct Hw as (_ & Hl & Hr & _). apply (IH (c + 1)). by destruct s.
Qed.

Lemma repr_fun st t1 : forall u t2, repr st u t1 -> repr st u t2 -> t1 = t2.
Proof.
  induction t1 as [h|a c l IHl r IHr]; intros u [h2|a2 c2 l2 r2] H1 H2.
  - destruct H1 as (E1 & A1 & _), H2 as (E2 & A2 & _). f_equal. apply node_inj; congruence.
  - destruct (repr_is_y _ _ _ H1) as [E1 _], (repr_is_y _ _ _ H2) as [E2 _]. simpl in *. congruence.
  - destruct (repr_is_y _ _ _ H1) as [E1 _], (repr_is_y _ _ _ H2) as [E2 _]. simpl in *. congruence.
  - destruct H1 as (E1 & A1 & y1 & Y1 & K1 & L1 & R1), H2 as (E2 & A2 & y2 & Y2 & K2 & L2 & R2).
    assert (a2 = a) as ->.
    { pose proof (l_y_ok a A1) as E. rewrite <- E1, E2, l_y_ok in E by done. congruence. }
    assert (y2 = y1) as -> by congruence. f_equal; [by eapply y_ok_inj|by eapply IHl|by eapply IHr].
Qed.

Lemma rooted_fun st o1 o2 : rooted st o1 -> rooted st o2 -> o1 = o2.
Proof.
  destruct o1 as [t1|], o2 as [t2|]; simpl; try done.
  - intros (H1 & _) (H2 & _). f_equal. by eapply repr_fun.
  - intros (H1 & _) H2. by destruct (repr_is_y _ _ _ H1).
  - intros H1 (H2 & _). by destruct (repr_is_y _ _ _ H2).
Qed.

Section Change.
Context (st st1 st' : hcb) (pub : gset Z) (p : slot) (v v' : Z).
Context (Hset : set st1 p v' = Ok st') (Hget : get st p = Ok v).
Context (Hys : forall a, a ∈ pub -> ys st1 !! a = ys st !! a) (Hohs : ohs st1 = ohs st).

Lemma set_stable ot' : (forall q s, p = Leaf q s -> q ∈ onodes ot') -> stable st st' pub ot'.
Proof.
  intros Hp. split.
  - intros a y c Ha Ey Hok. destruct p as [|q s]; simpl in Hset.
    + injection Hset as <-. exists y. simpl. by rewrite Hys.
    + apply bind_Ok in Hset as (yq & Eq & E). apply deref_Ok in Eq. injection E as <-. simpl.
      destruct (decide (a = q)) as [->|].
      * rewrite lookup_insert_eq. exists (set_leaf yq s v'). split; [done|]. apply set_leaf_ok.
        rewrite Hys, Ey in Eq by done. by injection Eq as <-.
      * rewrite lookup_insert_ne by done. rewrite Hys by done. by exists y.
  - intros a Ha Hn. rewrite <- Hys by done. apply (set_ys_ne _ _ _ _ _ Hset).
    destruct p as [|q s]; [done|]. intros ->. apply Hn. by eapply Hp.
  - intros h o Ho. exists o. rewrite (set_ohs_same _ _ _ _ Hset), Hohs. done.
Qed.

Lemma leads_change d h : (forall a, a ∈ pub -> published st pub a) ->
  (leads st d v h -> leads st' d v' h) ->
  forall u, leads st d u h -> forall c, target st pub c u -> leads st' d u h.
Proof.
  intros Hpub Hv u Hl. induction Hl as [h Ha|a y c h Ha Ey Hok Hl IH]; intros c0 Ht.
  - by constructor.
  - assert (Hin : a ∈ pub).
    { destruct Ht as [(h' & E & Ha' & _)|(a' & y' & c' & E & Ha' & Hin & _)].
      - pose proof (is_y_y a) as F. rewrite E, is_y_node in F by done. done.
      - pose proof (l_y_ok a Ha) as F. rewrite E, l_y_ok in F by done. congruence. }
    destruct (Hpub a Hin) as (y1 & c1 & Ey1 & Hok1 & Htg). assert (y1 = y) as -> by congruence.
    specialize (IH Hv c1 (Htg _)). set (s := dbit d c) in *.
    assert (Hc : p = Leaf a s \/ p <> Leaf a s).
    { destruct p as [|q s']; [by right|]. destruct (decide (q = a)) as [->|]; [|right; congruence].
      destruct s, s'; (by left) || (right; congruence). }
    destruct Hc as [Ep|Hp].
    + subst p. simpl in Hset, Hget. rewrite Ey in Hget. injection Hget as <-.
      apply bind_Ok in Hset as (yq & Eq & E). apply deref_Ok in Eq. injection E as <-.
      rewrite Hys, Ey in Eq by done. injection Eq as <-.
      eapply (leads_y _ _ a (set_leaf y s v') c); [done|simpl; by rewrite lookup_insert_eq|
        by apply set_leaf_ok|]. fold s. rewrite leaf_set. by apply Hv.
    + destruct (set_same_node st1 p v' st' a y (negb s) Hset) as (y' & Ey' & Hok' & Hl').
      { by rewrite Hys. }
      { by rewrite negb_involutive. }
      rewrite negb_involutive in Hl'. eapply (leads_y _ _ a y' c); [done|exact Ey'|by apply Hok'|].
      fold s. by rewrite Hl'.
Qed.

End Change.

(** ** The others *)

(** A writer inserts or deletes, or something changes that is neither in the tree
    nor was: reference counts, lists, memory that is not published. *)
Inductive env : hcb * gset Z -> hcb * gset Z -> Prop :=
  | env_insert st pub ot priv oh st' priv' :
      rooted st ot -> oh_ok st oh -> aligned priv -> is_Some (ys st !! priv) -> priv ∉ pub ->
      (forall h, h ∈ oleaves ot -> dg st h <> dg st oh) ->
      hcb_insert st priv oh true = Ok (st', priv', oh) ->
      env (st, pub) (st', if priv' =? 0 then {[priv]} ∪ pub else pub)
  | env_delete st pub t h st' :
      rooted st (Some t) -> oh_ok st h -> h ∈ leaves t -> hcb_delete st h = Ok st' ->
      env (st, pub) (st', pub)
  | env_other st pub st' :
      origo st' = origo st -> (forall a, a ∈ pub -> ys st' !! a = ys st !! a) ->
      (forall h o, ohs st !! h = Some o -> exists o', ohs st' !! h = Some o' /\ digest o' = digest o) ->
      env (st, pub) (st', pub).

(** What every such step keeps. *)
Definition follows (st : hcb) (pub : gset Z) (st' : hcb) (pub' : gset Z) : Prop :=
  exists ot', seen st' pub' ot' /\ stable st st' pub ot' /\ pub ⊆ pub' /\
    forall d h u c, dg st h = d -> h ∈ oleaves ot' -> target st pub c u ->
      leads st d u h -> leads st' d u h.

Lemma leads_same st st' pub d h : (forall a, a ∈ pub -> published st pub a) ->
  (forall a, a ∈ pub -> ys st' !! a = ys st !! a) ->
  forall u, leads st d u h -> forall c, target st pub c u -> leads st' d u h.
Proof.
  intros Hpub Hys u Hl. induction Hl as [h Ha|a y c h Ha Ey Hok Hl IH]; intros c0 Ht; [by constructor|].
  assert (Hin : a ∈ pub).
  { destruct Ht as [(h' & E & Ha' & _)|(a' & y' & c' & E & Ha' & Hin & _)].
    - pose proof (is_y_y a) as F. rewrite E, is_y_node in F by done. done.
    - pose proof (l_y_ok a Ha) as F. rewrite E, l_y_ok in F by done. congruence. }
  destruct (Hpub a Hin) as (y1 & c1 & Ey1 & Hok1 & Htg). assert (y1 = y) as -> by congruence.
  apply (leads_y _ _ a y c); [done|by rewrite Hys|done|]. by eapply IH.
Qed.

Lemma dg_stable st st' h : is_Some (ohs st !! h) ->
  (forall h o, ohs st !! h = Some o -> exists o', ohs st' !! h = Some o' /\ digest o' = digest o) ->
  dg st' h = dg st h.
Proof. intros [o Ho] H. unfold dg. destruct (H h o Ho) as (o' & -> & E). by rewrite Ho. Qed.

Lemma wf_ext dg1 dg2 t : forall lo, (forall h, h ∈ leaves t -> dg2 h = dg1 h) -> wf dg1 lo t -> wf dg2 lo t.
Proof.
  induction t as [h|a c l IHl r IHr]; intros lo E; simpl in *.
  - by rewrite E by set_solver.
  - intros (Hc & Hl & Hr & H0 & H1 & Hag). split; [done|].
    split; [apply IHl; [set_solver|done]|]. split; [apply IHr; [set_solver|done]|].
    split; [intros h Hh; rewrite E by set_solver; by apply H0|].
    split; [intros h Hh; rewrite E by set_solver; by apply H1|].
    intros h1 h2 H2 H3 i Hi. rewrite !E by done. by apply Hag.
Qed.

Lemma repr_leaves st t : forall u h, repr st u t -> h ∈ leaves t -> aligned h /\ is_Some (ohs st !! h).
Proof.
  induction t as [h'|a c l IHl r IHr]; intros u h Hr Hh; simpl in *.
  - apply list_elem_of_singleton in Hh as ->. by destruct Hr as (_ & ? & ?).
  - destruct Hr as (_ & _ & y & _ & _ & H0 & H1). apply elem_of_app in Hh as [Hh|Hh]; eauto.
Qed.

Lemma repr_frame2 st st' t : forall u,
  (forall a, a ∈ nodes t -> ys st' !! a = ys st !! a) ->
  (forall h, is_Some (ohs st !! h) -> is_Some (ohs st' !! h)) -> repr st u t -> repr st' u t.
Proof.
  induction t as [h|a c l IHl r IHr]; intros u Hy Ho; simpl in *.
  - intros (-> & ? & ?). auto.
  - intros (Hu & Ha & y & Ey & Hok & H0 & H1). split; [done|]. split; [done|].
    exists y. rewrite Hy by set_solver. split; [done|]. split; [done|].
    split; [apply IHl; [set_solver|done|done]|apply IHr; [set_solver|done|done]].
Qed.

Lemma rooted_frame st st' pub ot : seen st pub ot -> origo st' = origo st ->
  (forall a, a ∈ pub -> ys st' !! a = ys st !! a) ->
  (forall h o, ohs st !! h = Some o -> exists o', ohs st' !! h = Some o' /\ digest o' = digest o) ->
  rooted st' ot.
Proof.
  intros [Hr Hn _] Eo Hy Ho. destruct ot as [t|]; simpl in *; [|congruence].
  destruct Hr as (Hr & Hw & Hd). split; [|split; [|done]].
  - rewrite Eo. eapply repr_frame2; [| |exact Hr].
    + intros a Ha. by apply Hy, Hn.
    + intros h [o E]. destruct (Ho h o E) as (o' & -> & _). by eexists.
  - eapply wf_ext; [|exact Hw]. intros h Hh. apply dg_stable; [|done]. by eapply repr_leaves.
Qed.

Lemma follows_other st pub st' ot : seen st pub ot -> origo st' = origo st ->
  (forall a, a ∈ pub -> ys st' !! a = ys st !! a) ->
  (forall h o, ohs st !! h = Some o -> exists o', ohs st' !! h = Some o' /\ digest o' = digest o) ->
  follows st pub st' pub.
Proof.
  intros Hs Eo Hy Ho. exists ot. pose proof (rooted_frame _ _ _ _ Hs Eo Hy Ho) as Hr.
  assert (Hst : stable st st' pub ot).
  { split; [|by intros; apply Hy|done]. intros a y c Ha Ey Hok. exists y. by rewrite Hy. }
  split; [|split; [done|split; [done|]]].
  - eapply seen_stable; [done|done|done|done| |by left]. apply Hs.
  - intros d h u c _ _ Ht Hl. eapply leads_same; [apply Hs|done|exact Hl|exact Ht].
Qed.

Lemma follows_insert st pub ot priv oh st' priv' :
  seen st pub ot -> oh_ok st oh -> aligned priv -> is_Some (ys st !! priv) -> priv ∉ pub ->
  (forall h, h ∈ oleaves ot -> dg st h <> dg st oh) ->
  hcb_insert st priv oh true = Ok (st', priv', oh) ->
  follows st pub st' (if priv' =? 0 then {[priv]} ∪ pub else pub).
Proof.
  intros Hs Hoh Hap Hy Hnp Hnd E. destruct Hs as [Hrt Hno Hpub]. destruct ot as [t|].
  - assert (Hpr : priv_ok st (Some t) priv) by (split; [done|]; split; [done|]; intros Hin; by apply Hnp, Hno).
    destruct (insert_new st t priv oh Hrt Hoh Hpr Hnd) as (st2 & c & E2 & Hr2 & Hos & [Hin]).
    rewrite E in E2. injection E2 as -> ->. rewrite Z.eqb_refl.
    destruct Hin as (p & t' & k & y2 & c2 & st1 & v & Hpath & Ek & Hcr & Hc256 & Hok2 & Hg & Hl1 & Hl2 & -> & Hset).
    set (t2 := tins (dg st) priv c oh t) in *. exists (Some t2).
    assert (Hys : forall a, a ∈ pub -> ys (set_ys st (<[priv:=y2]> (ys st))) !! a = ys st !! a).
    { intros a Ha. simpl. rewrite lookup_insert_ne; [done|]. by intros ->. }
    assert (Hn2 : forall a, a ∈ nodes t2 <-> a = priv \/ a ∈ nodes t).
    { intros a. unfold t2. by rewrite tins_nodes, elem_of_cons. }
    assert (Hst : stable st st2 pub (Some t2)).
    { eapply set_stable; [exact Hset|exact Hg|exact Hys|done|]. intros q s ->. simpl. apply Hn2. right.
      destruct (path_slot _ _ _ _ _ Hpath) as [?|(b & s' & Eb & Hb)]; [done|congruence]. }
    split; [|split; [done|split; [set_solver|]]].
    + apply (seen_stable st st2 pub _ (Some t)); [by split|done|exact Hst|set_solver| |].
      * intros a Ha. simpl in Ha. apply Hn2 in Ha as [->|Ha]; [set_solver|].
        apply elem_of_union_r. by apply Hno.
      * intros a [->%elem_of_singleton|Ha]%elem_of_union; [right; simpl; apply Hn2; by left|by left].
    + intros d h u c0 Ed _ Ht Hl.
      eapply (leads_change st _ st2 pub p v (Z.lor 2 priv) Hset Hg Hys); [done| |exact Hl|exact Ht].
      intros Hlv.
      pose proof Hrt as (Hr & Hw & _). destruct Hr2 as (Hr2 & Hw2 & _). rewrite Ek in Hr2, Hw2.
      assert (Hh : holds st Origo t) by (by exists (origo st)).
      destruct (path_holds _ _ _ _ _ _ Hpath Hh) as (v0 & Ev0 & Hv0). assert (v0 = v) as -> by congruence.
      pose proof (path_subst _ _ _ _ _ Hpath (new_node (dg st) priv c2 oh t')) as Hpath2.
      destruct (path_holds st2 _ _ _ _ _ Hpath2) as (w & Ew & Hw'); [by exists (origo st2)|].
      rewrite (get_set _ _ _ _ Hset) in Ew. injection Ew as <-.
      destruct (path_wf _ _ _ _ _ _ _ Hpath2 Hw2) as (lo' & Hwn).
      pose proof (repr_leads st d t' v Hv0) as Hlf. pose proof (leads_fun _ _ _ _ Hlv _ Hlf) as Eh.
      assert (Hin : h ∈ leaves (new_node (dg st) priv c2 oh t')).
      { rewrite new_node_leaves, elem_of_cons. right. rewrite Eh. apply (find_leaf (dg st)). }
      rewrite (dg_ohs _ _ Hos) in Hwn. pose proof (find_in (dg st) lo' _ h Hwn Hin) as Ef.
      rewrite Ed in Ef. rewrite <- Ef. by apply repr_leads.
  - simpl in Hrt. rewrite (insert_search st None priv oh true Hrt Hoh) in E. simpl in E.
    injection E as <- <-. rewrite (proj2 (Z.eqb_neq priv 0)) by (destruct Hap; lia).
    exists (Some (TLeaf oh)). pose proof Hoh as (Ha & Hd & Ho).
    assert (Hst : stable st (set_origo st (Z.lor 1 oh)) pub (Some (TLeaf oh))).
    { split; [intros a y c _ Ey Hok; by exists y|done|intros h o Eo; by exists o]. }
    assert (Hrt' : rooted (set_origo st (Z.lor 1 oh)) (Some (TLeaf oh))).
    { split; [done|]. split; [done|]. constructor. }
    split; [|split; [done|split; [done|]]].
    + eapply (seen_stable st _ pub pub None); [by split|done|done|done| |by left].
      intros a Hin. by apply elem_of_nil in Hin.
    + intros d h u c0 _ _ Ht Hl. eapply leads_same; [exact Hpub|done|exact Hl|exact Ht].
Qed.

Lemma follows_delete st pub t h0 st' :
  seen st pub (Some t) -> oh_ok st h0 -> h0 ∈ leaves t -> hcb_delete st h0 = Ok st' ->
  follows st pub st' pub.
Proof.
  intros Hs Hoh Hin E. pose proof Hs as [Hrt Hno Hpub].
  destruct (tree_delete_ok st t h0 Hrt Hoh Hin) as (st2 & ot' & E2 & Hr2 & Hlv & Hos & Hdel & gone & _ & Hnod & _).
  rewrite E in E2. injection E2 as <-. exists ot'.
  assert (Hsub : forall a, a ∈ onodes ot' -> a ∈ nodes t).
  { intros a Ha. rewrite Hnod. apply elem_of_app. by right. }
  destruct Hdel as [-> -> ->|p a c l r k y st2 Hpath Ey Hch Hset -> ->].
  - assert (Hst : stable st (set_origo st 0) pub None).
    { split; [intros a y c _ Ey Hok; by exists y|done|intros h o Eo; by exists o]. }
    split; [|split; [done|split; [done|]]].
    + eapply (seen_stable st _ pub pub); [done|done|done|done| |by left]. intros a Ha. by apply elem_of_nil in Ha.
    + intros d h u c0 _ Hh. by apply elem_of_nil in Hh.
  - pose proof Hrt as (Hr & Hw & Hnd). set (s := dbit (dg st h0) c) in *.
    assert (Hh : holds st Origo t) by (by exists (origo st)).
    destruct (path_holds _ _ _ _ _ _ Hpath Hh) as (v & Ev & Hv).
    pose proof (path_subst _ _ _ _ _ Hpath (child (negb s) l r)) as Hpath2.
    assert (Hst2 : stable st (set_cool_y st2 (cool_y st2 ++ [a])) pub (Some (k (child (negb s) l r)))).
    { assert (A : stable st st2 pub (Some (k (child (negb s) l r)))).
      { eapply set_stable; [exact Hset|exact Ev|done|done|]. intros q sq ->.
        destruct (path_slot _ _ _ _ _ Hpath2) as [?|(b & s' & Eb & Hb)]; [done|].
        injection Eb as <- <-. exact Hb. }
      destruct A. by split. }
    split; [|split; [done|split; [done|]]].
    + eapply (seen_stable st _ pub pub); [done|done|exact Hst2|done| |by left].
      intros b Hb. by apply Hno, Hsub.
    + intros d h u c0 Ed Hhl Ht Hl.
      assert (Hne : h <> h0).
      { intros ->. pose proof (leaves_NoDup _ _ _ Hw) as Hnl. rewrite Hlv in Hnl.
        by apply NoDup_cons in Hnl as [? _]. }
      assert (B : leads st2 d u h); [|clear - B; induction B as [|x y0 c1 h Hx Ey0 Hok _ IH];
        [by constructor|by apply (leads_y _ _ x y0 c1)]].
      eapply (leads_change st st st2 pub p v _ Hset Ev); [done|done| |exact Hl|exact Ht].
      intros Hlv2. pose proof (repr_leads st d _ v Hv) as Hlf.
      pose proof (leads_fun _ _ _ _ Hlv2 _ Hlf) as Eh. cbn [find] in Eh.
      destruct Hr2 as (Hr2 & _ & _).
      destruct (path_holds st2 _ _ _ _ _ Hpath2) as (w & Ew & Hw').
      { exists (origo st2). split; [done|]. eapply repr_frame; [| |exact Hr2]; done. }
      rewrite (get_set _ _ _ _ Hset) in Ew. injection Ew as <-.
      assert (Ebit : dbit d c = negb s).
      { destruct (dbit d c) eqn:E1, s eqn:E2; try done; exfalso; apply Hne; rewrite Eh;
          simpl in Hch; rewrite Hch; done. }
      assert (Ef : find d (child (negb s) l r) = h).
      { rewrite Eh, Ebit. by destruct s. }
      rewrite <- Ef. by apply repr_leads.
Qed.

Lemma env_follows st pub st' pub' ot : seen st pub ot -> env (st, pub) (st', pub') -> follows st pub st' pub'.
Proof.
  intros Hs He. inversion He; subst.
  - assert (ot0 = ot) as -> by (eapply rooted_fun; [done|apply Hs]). by eapply follows_insert.
  - assert (ot = Some t) as -> by (eapply rooted_fun; [apply Hs|done]). by eapply follows_delete.
  - by eapply follows_other.
Qed.

(** ** Runs *)

(** [run P d n g r g' r']: with the digest [d] the reader goes from [r] to [r'] in
    [n] steps of its own, while the others take the store from [g] to [g'] in any
    number of steps; [P] holds of the store all along. *)
Inductive run (P : hcb -> Prop) (d : list Z) : nat -> hcb * gset Z -> reader -> hcb * gset Z -> reader -> Prop :=
  | run_start g r : P (fst g) -> run P d 0 g r g r
  | run_env n g r g1 r1 g2 : run P d n g r g1 r1 -> env g1 g2 -> P (fst g2) -> run P d n g r g2 r1
  | run_read n g r g1 r1 r2 : run P d n g r g1 r1 -> rstep (fst g1) d r1 = Ok r2 ->
      run P d (S n) g r g1 r2.

(** What is known of a reader after [n] steps. *)
Definition reader_ok (st : hcb) (pub : gset Z) (d : list Z) (n : nat) (r : reader) : Prop :=
  match r with
  | RStart => n = 0%nat
  | RWalk pp => exists c, target st pub c pp /\ Z.of_nat n <= c + 2 /\ c < 256
  | RDone x => x = 0 \/ exists o, ohs st !! x = Some o /\ digest o = d
  end.

Lemma target_tag st pub c u : target st pub c u ->
  u <> 0 /\ ((exists h, u = Z.lor 1 h /\ aligned h /\ is_Some (ohs st !! h)) /\ hcb_is_y u = false \/
             (exists a y c', u = Z.lor 2 a /\ aligned a /\ a ∈ pub /\ ys st !! a = Some y /\ y_ok y c' /\ c < c') /\
             hcb_is_y u = true).
Proof.
  intros [(h & -> & Ha & Ho)|(a & y & c' & -> & Ha & Hin)].
  - split; [pose proof (tagged_pos h 0 (proj1 Ha) ltac:(lia)) as H; change (2 ^ 0) with 1 in H; lia|].
    left. split; [by exists h|]. by apply is_y_node.
  - split; [pose proof (tagged_pos a 1 (proj1 Ha) ltac:(lia)) as H; change (2 ^ 1) with 2 in H; lia|].
    right. split; [by exists a, y, c'|]. apply is_y_y.
Qed.

(** A step of the reader does not fail, and the bit it looks at rises. *)
Lemma reader_step st pub ot d n r : seen st pub ot -> digest_ok d -> reader_ok st pub d n r ->
  exists r', rstep st d r = Ok r' /\ reader_ok st pub d (S n) r'.
Proof.
  intros [Hr Hn Hpub] Hd Hok. destruct r as [|pp|x]; cbn [rstep reader_ok] in *.
  - subst n. destruct ot as [t|]; simpl in Hr.
    + destruct Hr as (Hr & Hw & _). destruct (repr_is_y _ _ _ Hr) as [_ H0].
      rewrite (proj2 (Z.eqb_neq _ 0) H0). eexists. split; [done|]. exists (-1).
      split; [|lia]. eapply repr_target; [done|done|lia|done].
    + rewrite Hr. eexists. split; [done|]. by left.
  - destruct Hok as (c & Ht & Hc & Hc256). destruct (target_tag _ _ _ _ Ht) as [H0 [[Hh Ey]|[Hy Ey]]]; rewrite Ey.
    + destruct Hh as (h & -> & Ha & o & Ho). rewrite (proj2 (Z.eqb_neq _ 0) H0), is_node_node.
      cbn [vassert]. rewrite bind_Ret, (l_node_ok h Ha), bind_Ret, Ho. cbn [deref]. rewrite bind_Ret.
      eexists. split; [done|]. cbn [reader_ok]. case_bool_decide; [right; by exists o|by left].
    + destruct Hy as (a & y & c' & -> & Ha & Hin & Eya & Hoky & Hlt).
      rewrite (l_y_ok a Ha), bind_Ret, Eya. cbn [deref]. rewrite bind_Ret, (side_ok d y c' Hd Hoky), bind_Ret.
      cbn [get]. rewrite Eya. cbn [deref]. rewrite bind_Ret. eexists. split; [done|]. cbn [reader_ok].
      destruct (Hpub a Hin) as (y2 & c2 & E2 & Hok2 & Htg). assert (y2 = y) as -> by congruence.
      assert (c2 = c') as -> by (by eapply y_ok_inj). exists c'. split; [apply Htg|].
      pose proof (yo_range _ _ Hoky). lia.
  - eexists. split; [done|]. done.
Qed.

Lemma reader_stable st st' pub pub' ot' d n r : stable st st' pub ot' -> pub ⊆ pub' ->
  reader_ok st pub d n r -> reader_ok st' pub' d n r.
Proof.
  intros Hs Hp. destruct r as [|pp|x]; simpl; [done| |].
  - intros (c & Ht & Hc). exists c. split; [by eapply target_stable|done].
  - intros [->|(o & Ho & E)]; [by left|right]. destruct (sb_ohs _ _ _ _ Hs x o Ho) as (o' & Ho' & E').
    exists o'. split; [done|congruence].
Qed.

Lemma run_ok P d n st pub ot st' pub' r : seen st pub ot -> digest_ok d ->
  run P d n (st, pub) RStart (st', pub') r ->
  (exists ot', seen st' pub' ot') /\ reader_ok st' pub' d n r.
Proof.
  intros Hs Hd Hrun. remember (st, pub) as g eqn:Eg. remember (st', pub') as g' eqn:Eg'.
  remember RStart as r0 eqn:Er0. revert st' pub' Eg'.
  induction Hrun as [g r HP|n g r g1 r1 g2 Hrun IH He HP|n g r g1 r1 r2 Hrun IH Hstep];
    intros st' pub' Eg'; subst.
  - injection Eg' as <- <-. split; [by exists ot|done].
  - destruct g1 as [st1 pub1]. destruct (IH eq_refl eq_refl st1 pub1 eq_refl) as [(ot1 & Hs1) Hok].
    destruct (env_follows _ _ _ _ _ Hs1 He) as (ot2 & Hs2 & Hst & Hp & _).
    split; [by exists ot2|by eapply reader_stable].
  - destruct (IH eq_refl eq_refl st' pub' eq_refl) as [(ot1 & Hs1) Hok]. split; [by exists ot1|].
    destruct (reader_step st' pub' ot1 d n r1 Hs1 Hd Hok) as (r3 & E3 & Hok3).
    cbn [fst] in Hstep. rewrite Hstep in E3. by injection E3 as <-.
Qed.

(** The object head [h] is in the tree. *)
Definition in_tree (h : Z) (st : hcb) : Prop := exists t, rooted st (Some t) /\ h ∈ leaves t.

(** A reader that looks for the digest of [h] is on its way to it. *)
Definition heads_for (st : hcb) (d : list Z) (h : Z) (r : reader) : Prop :=
  match r with
  | RStart => True
  | RWalk pp => leads st d pp h
  | RDone x => x = h
  end.

Lemma heads_step st d h r r' : in_tree h st -> dg st h = d -> is_Some (ohs st !! h) ->
  heads_for st d h r -> rstep st d r = Ok r' -> digest_ok d -> heads_for st d h r'.
Proof.
  intros (t & (Hr & Hw & _) & Hin) Ed [o Ho] Hh Hst Hd. destruct r as [|pp|x]; simpl in Hh.
  - simpl in Hst. destruct (repr_is_y _ _ _ Hr) as [_ H0]. rewrite (proj2 (Z.eqb_neq _ 0) H0) in Hst.
    injection Hst as <-. simpl. pose proof (find_in (dg st) 0 t h Hw Hin) as Ef. rewrite Ed in Ef. rewrite <- Ef.
    by apply repr_leads.
  - destruct Hh as [h Ha|a y c h Ha Ey Hok Hl]; cbn [rstep] in Hst.
    + rewrite is_y_node in Hst by done.
      pose proof (tagged_pos h 0 (proj1 Ha) ltac:(lia)) as Hp. change (2 ^ 0) with 1 in Hp.
      rewrite (proj2 (Z.eqb_neq _ 0)), is_node_node in Hst by lia. cbn [vassert] in Hst.
      rewrite bind_Ret, (l_node_ok h Ha), bind_Ret, Ho in Hst. cbn [deref] in Hst. rewrite bind_Ret in Hst.
      injection Hst as <-. simpl. rewrite (dg_lookup _ _ _ Ho), Ed. by rewrite bool_decide_eq_true_2.
    + rewrite is_y_y, (l_y_ok a Ha), bind_Ret, Ey in Hst. cbn [deref] in Hst.
      rewrite bind_Ret, (side_ok d y c Hd Hok), bind_Ret in Hst. cbn [get] in Hst. rewrite Ey in Hst.
      cbn [deref] in Hst. rewrite bind_Ret in Hst. injection Hst as <-. exact Hl.
  - simpl in Hst. injection Hst as <-. exact Hh.
Qed.

Lemma run_heads d h n st pub ot st' pub' r : seen st pub ot -> digest_ok d ->
  dg st h = d -> is_Some (ohs st !! h) ->
  run (in_tree h) d n (st, pub) RStart (st', pub') r ->
  heads_for st' d h r /\ dg st' h = d /\ is_Some (ohs st' !! h) /\ in_tree h st'.
Proof.
  intros Hs Hd Ed Ho Hrun. remember (st, pub) as g eqn:Eg. remember (st', pub') as g' eqn:Eg'.
  remember RStart as r0 eqn:Er0. revert st' pub' Eg'.
  induction Hrun as [g r HP|n g r g1 r1 g2 Hrun IH He HP|n g r g1 r1 r2 Hrun IH Hstep];
    intros st' pub' Eg'; subst.
  - injection Eg' as <- <-. done.
  - destruct g1 as [st1 pub1]. destruct (IH eq_refl eq_refl st1 pub1 eq_refl) as (Hh & Ed1 & Ho1 & _).
    destruct (run_ok _ _ _ _ _ _ _ _ _ Hs Hd Hrun) as [(ot1 & Hs1) Hok].
    destruct (env_follows _ _ _ _ _ Hs1 He) as (ot2 & Hs2 & Hst & Hp & Hleads).
    split; [|split; [|split; [|exact HP]]].
    + destruct r1 as [|pp|x]; simpl in *; [done| |done]. destruct Hok as (c & Ht & _).
      destruct HP as (t & Hrt & Hin). assert (ot2 = Some t) as -> by (eapply rooted_fun; [apply Hs2|done]).
      by eapply Hleads.
    + rewrite <- Ed1. apply dg_stable; [done|apply Hst].
    + destruct Ho1 as [o Eo]. destruct (sb_ohs _ _ _ _ Hst h o Eo) as (o' & -> & _). by eexists.
  - destruct (IH eq_refl eq_refl st' pub' eq_refl) as (Hh & Ed1 & Ho1 & Hin).
    split; [|done]. by eapply heads_step.
Qed.

End CritbitConc.
