(* ===== verification/CritbitThm.v ===== *)
(** What is proved of the critbit tree: the lookups and releases of object heads,
    the cleaner, and the searches that do not take the lock. *)
From S2P Require Import Prelude Critbit CritbitTree CritbitInv CritbitOps CritbitConc.
Import Critbit CritbitTree CritbitInv CritbitOps CritbitConc.

Module CritbitThm.

(** ** The invariant *)

(** [ot] is the tree of [st]: what it holds is in use, what cools off or is dead is
    not in it. *)
Record hcb_inv (st : hcb) (ot : option tree) : Prop := {
  hi_rooted : rooted st ot;
  hi_used : forall h, h ∈ oleaves ot -> exists o, ohs st !! h = Some o /\ 0 < refcnt o;
  hi_heads : forall h, h ∈ cool_h st ++ dead_h st -> h ∉ oleaves ot;
  hi_nodes : forall a, a ∈ cool_y st ++ dead_y st -> a ∉ onodes ot;
}.

Lemma rooted_keep st st' ot : rooted st ot -> origo st' = origo st ->
  (forall a, a ∈ onodes ot -> ys st' !! a = ys st !! a) ->
  (forall h o, h ∈ oleaves ot -> ohs st !! h = Some o -> exists o', ohs st' !! h = Some o' /\ digest o' = digest o) ->
  rooted st' ot.
Proof.
  intros Hr Eo Hy Ho. destruct ot as [t|]; simpl in *; [|congruence].
  destruct Hr as (Hr & Hw & Hd). split; [|split; [|done]].
  - rewrite Eo. revert Hr. generalize (origo st). clear Hw Hd.
    induction t as [h|a c l IHl r IHr]; intros u Hr; simpl in *.
    + destruct Hr as (-> & Ha & o & E). split; [done|]. split; [done|].
      destruct (Ho h o) as (o' & -> & _); [set_solver|done|by eexists].
    + destruct Hr as (Hu & Ha & y & Ey & Hok & H0 & H1). split; [done|]. split; [done|].
      exists y. rewrite Hy by set_solver. split; [done|]. split; [done|]. split.
      * apply IHl; [set_solver|intros; apply Ho; [set_solver|done]|done].
      * apply IHr; [set_solver|intros; apply Ho; [set_solver|done]|done].
  - eapply wf_ext; [|exact Hw]. intros h Hh. destruct (repr_leaves st t _ h Hr Hh) as [_ [o E]].
    unfold dg. destruct (Ho h o Hh E) as (o' & -> & E'). by rewrite E.
Qed.

Lemma leaf_oh_ok st ot h : rooted st ot -> h ∈ oleaves ot -> oh_ok st h.
Proof.
  intros Hr Hh. destruct ot as [t|]; [|by apply elem_of_nil in Hh]. destruct Hr as (Hr & Hw & _).
  destruct (repr_leaves st t _ h Hr Hh) as [Ha Ho]. split; [done|]. split; [by eapply leaves_digest|done].
Qed.

Lemma set_refcnt_ohs st a o r h o1 : ohs st !! a = Some o -> ohs st !! h = Some o1 ->
  exists o', ohs (set_refcnt st a o r) !! h = Some o' /\ digest o' = digest o1 /\
    (refcnt o' = if bool_decide (h = a) then r else refcnt o1).
Proof.
  intros Ha Hh. simpl. destruct (decide (h = a)) as [->|Hne].
  - rewrite lookup_insert_eq. eexists. split; [done|]. rewrite Ha in Hh. injection Hh as <-.
    split; [done|]. by rewrite bool_decide_eq_true_2.
  - rewrite lookup_insert_ne by done. exists o1. by rewrite bool_decide_eq_false_2.
Qed.

Lemma set_refcnt_inv st ot a o r : hcb_inv st ot -> ohs st !! a = Some o -> 0 < r ->
  hcb_inv (set_refcnt st a o r) ot.
Proof.
  intros [Hr Hu Hh Hn] Ha Hpos. split; [| |done|done].
  - eapply rooted_keep; [done|done|done|]. intros h o1 _ E.
    destruct (set_refcnt_ohs st a o r h o1 Ha E) as (o' & ? & ? & _). eauto.
  - intros h Hin. destruct (Hu h Hin) as (o1 & E & Hp).
    destruct (set_refcnt_ohs st a o r h o1 Ha E) as (o' & E' & _ & Er). exists o'. split; [done|].
    rewrite Er. by case_bool_decide.
Qed.

(** An object head that [hcb_lookup] may insert, and a node for it. *)
Record fresh (st : hcb) (ot : option tree) (priv noh : Z) : Prop := {
  fr_oh : oh_ok st noh;
  fr_ref : exists o, ohs st !! noh = Some o /\ refcnt o = 1;
  fr_noh : noh ∉ oleaves ot ++ cool_h st ++ dead_h st;
  fr_priv : priv_ok st ot priv;
  fr_free : priv ∉ cool_y st ++ dead_y st;
}.

(** ** Sequential correctness *)

Lemma inserted_same st priv oh t st' t2 : inserted st priv oh t st' t2 ->
  cool_y st' = cool_y st /\ cool_h st' = cool_h st /\ dead_y st' = dead_y st /\ dead_h st' = dead_h st.
Proof.
  intros [(p & t' & k & y2 & c & st1 & v & _ & _ & _ & _ & _ & _ & _ & _ & -> & Hset)].
  destruct p as [|q s]; simpl in Hset; [by injection Hset as <-|].
  apply bind_Ok in Hset as (yq & _ & Hset). by injection Hset as <-.
Qed.

(** One turn of the loop of [hcb_lookup]. *)
Lemma lookup_miss n st priv noh : hcb_insert st priv noh false = Ok (st, priv, 0) ->
  lookup_loop (S n) st priv noh false = lookup_loop n st priv noh true.
Proof. intros E. cbn [lookup_loop]. by rewrite bind_Ret, E, bind_Ret. Qed.

Lemma lookup_locked n st priv noh no st' priv' : 0 < priv -> noh <> 0 ->
  ohs st !! noh = Some no -> refcnt no = 1 ->
  hcb_insert st priv noh true = Ok (st', priv', noh) -> ohs st' !! noh = Some no ->
  lookup_loop (S n) st priv noh true = Ok (st', priv', noh).
Proof.
  intros Hp Hn Eno Er E Eno'. cbn [lookup_loop].
  rewrite (vassert_true (truth priv)) by (apply truth_true; lia). rewrite bind_Ret, Eno. cbn [deref].
  rewrite bind_Ret, Er. cbn [Z.eqb Pos.eqb vassert]. rewrite bind_Ret, E, bind_Ret. cbv beta iota.
  rewrite (proj2 (Z.eqb_neq noh 0) Hn), Z.eqb_refl. cbn [negb andb vassert].
  rewrite bind_Ret, Eno'. cbn [deref]. by rewrite bind_Ret, Er.
Qed.

(** C17. [hcb_lookup]: when the tree has an object head with the digest, it is
    returned with one more reference and nothing else changes; otherwise the new
    object head is inserted and returned.  No assertion fails, and the invariant
    holds after. *)
Theorem critbit_lookup (st : hcb) (ot : option tree) (priv noh : Z)
    (Hi : hcb_inv st ot) (Hf : fresh st ot priv noh) :
  exists st' ot' priv' r, hcb_lookup st priv noh = Ok (st', priv', r) /\ hcb_inv st' ot' /\
    ((exists o, r ∈ oleaves ot /\ dg st r = dg st noh /\ ohs st !! r = Some o /\
        ot' = ot /\ priv' = priv /\ st' = set_refcnt st r o (refcnt o + 1)) \/
     ((forall h, h ∈ oleaves ot -> dg st h <> dg st noh) /\ r = noh /\
        oleaves ot' ≡ₚ noh :: oleaves ot /\ ohs st' = ohs st)).
Proof.
  destruct Hf as [Hoh (no & Eno & Eref) Hnoh Hpr Hfree]. pose proof Hi as [Hr Hu Hh Hn].
  assert (Hno0 : noh <> 0) by (destruct Hoh as ([? _] & _); lia).
  destruct (decide (Exists (fun h => dg st h = dg st noh) (oleaves ot))) as [Hex|Hnex].
  - apply Exists_exists in Hex as (h & Hin & Ed). destruct (Hu h Hin) as (o & Eo & Hpos).
    exists (set_refcnt st h o (refcnt o + 1)), ot, priv, h.
    assert (Hne : h <> noh) by (intros ->; apply Hnoh; set_solver).
    assert (Hh0 : h <> 0).
    { destruct (leaf_oh_ok st ot h Hr Hin) as ([? _] & _). lia. }
    split; [|split; [apply set_refcnt_inv; [done|done|lia]|left; exists o; done]].
    unfold hcb_lookup. cbn [lookup_loop]. rewrite bind_Ret.
    rewrite (insert_found st ot priv noh false h Hr Hoh Hin Ed), bind_Ret. cbv beta iota.
    rewrite (proj2 (Z.eqb_neq h noh) Hne), andb_false_r, (proj2 (Z.eqb_neq h 0) Hh0), Eo.
    cbn [deref]. rewrite bind_Ret. by rewrite (proj2 (Z.ltb_lt _ _) Hpos).
  - assert (Hn' : forall h, h ∈ oleaves ot -> dg st h <> dg st noh).
    { intros h Hin E. apply Hnex, Exists_exists. by exists h. }
    assert (Hins : exists st' ot' priv', hcb_insert st priv noh true = Ok (st', priv', noh) /\
      rooted st' ot' /\ ohs st' = ohs st /\ oleaves ot' ≡ₚ noh :: oleaves ot /\
      (forall a, a ∈ onodes ot' -> a = priv \/ a ∈ onodes ot) /\
      cool_y st' = cool_y st /\ cool_h st' = cool_h st /\ dead_y st' = dead_y st /\ dead_h st' = dead_h st).
    { destruct ot as [t|].
      - destruct (insert_new st t priv noh Hr Hoh Hpr Hn') as (st' & c & E & Hr' & Hos & Hin).
        exists st', (Some (tins (dg st) priv c noh t)), 0. split; [done|]. split; [done|]. split; [done|].
        split; [apply tins_leaves|]. split; [|by eapply inserted_same].
        intros a Ha. simpl in Ha. rewrite tins_nodes, elem_of_cons in Ha. done.
      - exists (set_origo st (Z.lor 1 noh)), (Some (TLeaf noh)), priv.
        rewrite (insert_search st None priv noh true Hr Hoh). destruct Hoh as (Ha & Hd & Ho).
        split; [done|]. split; [split; [done|]; split; [done|constructor]|]. split; [done|]. split; [done|].
        split; [|done]. intros a Hin. by apply elem_of_nil in Hin. }
    destruct Hins as (st' & ot' & priv' & Ei & Hr' & Hos & Hlv & Hnd & S1 & S2 & S3 & S4).
    exists st', ot', priv', noh. split; [|split; [|right; done]].
    + unfold hcb_lookup. rewrite (lookup_miss 2) by (by eapply insert_nolock).
      eapply lookup_locked; [| |exact Eno|done|exact Ei|by rewrite Hos].
      * by destruct Hpr as ([? _] & _).
      * done.
    + split; [done| | |].
      * intros h Hin. rewrite Hos. rewrite Hlv in Hin. apply elem_of_cons in Hin as [->|Hin]; [|by apply Hu].
        exists no. split; [done|lia].
      * intros h Hc. rewrite S2, S4 in Hc. rewrite Hlv. intros [->|Hin]%elem_of_cons.
        -- apply Hnoh. set_solver.
        -- by apply (Hh h).
      * intros a Hc. rewrite S1, S3 in Hc. intros Hin. destruct (Hnd a Hin) as [->|Hin'].
        -- by apply Hfree.
        -- by apply (Hn a).
Qed.

(** [hcb_deref] drops one reference; with the last one the object head leaves
    the tree, alone, and is put to cool off together with the node above it.  What
    [hcb_cleaner] frees is not in the tree, which it does not change. *)
Theorem critbit_deref (st : hcb) (ot : option tree) (h : Z) (o : objhead)
    (Hi : hcb_inv st ot) (Hin : h ∈ oleaves ot) (Ho : ohs st !! h = Some o)
    (Hlast : refcnt o = 1 -> objcs o = [] /\ waitinglist o = 0) :
  exists st' ot', hcb_deref st h = Ok st' /\ hcb_inv st' ot' /\ hcb_inv (hcb_clean st') ot' /\
    (if refcnt o =? 1
     then oleaves ot ≡ₚ h :: oleaves ot' /\ cool_h st' = cool_h st ++ [h] /\
          exists gone, cool_y st' = cool_y st ++ gone /\ onodes ot ≡ₚ gone ++ onodes ot'
     else ot' = ot /\ st' = set_refcnt st h o (refcnt o - 1)).
Proof.
  pose proof Hi as [Hr Hu Hh Hn]. destruct (Hu h Hin) as (o1 & Eo1 & Hpos).
  assert (o1 = o) as -> by congruence.
  assert (Hclean : forall st' ot', hcb_inv st' ot' -> hcb_inv (hcb_clean st') ot').
  { intros st' ot' [R U H N].
    assert (Dh : forall (l : list Z) (m : gmap Z objhead) x, x ∉ l -> foldr delete m l !! x = m !! x).
    { clear. induction l as [|y l IH]; intros m x Hx; [done|]. simpl.
      apply not_elem_of_cons in Hx as [? ?]. rewrite lookup_delete_ne by done. by apply IH. }
    assert (Dy : forall (l : list Z) (m : gmap Z hcb_y) x, x ∉ l -> foldr delete m l !! x = m !! x).
    { clear. induction l as [|y l IH]; intros m x Hx; [done|]. simpl.
      apply not_elem_of_cons in Hx as [? ?]. rewrite lookup_delete_ne by done. by apply IH. }
    assert (Kh : forall x, x ∈ oleaves ot' -> ohs (hcb_clean st') !! x = ohs st' !! x).
    { intros x Hx. apply Dh. intros Hd. apply (H x); [set_solver|done]. }
    split.
    - eapply rooted_keep; [done|done| |].
      + intros a Ha. apply Dy. intros Hd. apply (N a); [set_solver|done].
      + intros x ox Hx Ex. exists ox. by rewrite Kh.
    - intros x Hx. rewrite Kh by done. by apply U.
    - intros x Hx. apply H. simpl in Hx. set_solver.
    - intros x Hx. apply N. simpl in Hx. set_solver. }
  unfold hcb_deref. rewrite Ho. cbn [deref]. rewrite bind_Ret, (proj2 (Z.ltb_lt 0 _) Hpos).
  cbn [vassert]. rewrite bind_Ret. cbv zeta.
  destruct (Z.eqb_spec (refcnt o) 1) as [E1|E1].
  - rewrite E1. change (1 - 1) with 0. change (0 =? 0) with true. cbv iota. set (st1 := set_refcnt st h o 0).
    assert (Hr1 : rooted st1 ot).
    { eapply rooted_keep; [done|done|done|]. intros x ox _ Ex.
      destruct (set_refcnt_ohs st h o 0 x ox Ho Ex) as (o' & ? & ? & _). eauto. }
    destruct ot as [t|]; [|by apply elem_of_nil in Hin].
    destruct (tree_delete_ok st1 t h Hr1 (leaf_oh_ok _ _ _ Hr1 Hin) Hin)
      as (st2 & ot2 & -> & Hr2 & Hlv & Hos & _ & gone & G1 & G2 & G3 & G4 & G5 & _).
    destruct (Hlast E1) as [-> ->]. rewrite !bind_Ret. rewrite bool_decide_eq_true_2 by done.
    change (0 =? 0) with true. cbn [vassert]. rewrite !bind_Ret.
    assert (Hi2 : hcb_inv (set_cool_h st2 (cool_h st2 ++ [h])) ot2).
    { pose proof Hr as (_ & Hw & Hnd). pose proof (leaves_NoDup _ _ _ Hw) as Hnl.
      rewrite Hlv in Hnl. apply NoDup_cons in Hnl as [Hh2 _]. rewrite G2 in Hnd.
      apply NoDup_app in Hnd as (_ & Hgo & _). split.
      - eapply rooted_keep; [exact Hr2|done|done|]. intros x ox _ Ex. by exists ox.
      - intros x Hx. simpl. rewrite Hos.
        assert (Hx' : x ∈ leaves t) by (rewrite Hlv; set_solver).
        destruct (Hu x Hx') as (ox & Ex & Hp).
        destruct (set_refcnt_ohs st h o 0 x ox Ho Ex) as (o' & Eo' & _ & Er).
        exists o'. split; [done|]. rewrite bool_decide_eq_false_2 in Er by (intros ->; done). lia.
      - intros x Hx Hx2. simpl in Hx. rewrite G3, G5 in Hx.
        assert (Hx' : x ∈ leaves t) by (rewrite Hlv; set_solver).
        apply elem_of_app in Hx as [[Hx|Hx]%elem_of_app|Hx].
        + by apply (Hh x); [set_solver|].
        + apply list_elem_of_singleton in Hx as ->. done.
        + by apply (Hh x); [set_solver|].
      - intros x Hx Hx2. simpl in Hx. rewrite G1, G4 in Hx.
        assert (Hx' : x ∈ nodes t) by (rewrite G2; set_solver).
        apply elem_of_app in Hx as [[Hx|Hx]%elem_of_app|Hx].
        + by apply (Hn x); [set_solver|].
        + by apply (Hgo x).
        + by apply (Hn x); [set_solver|]. }
    exists (set_cool_h st2 (cool_h st2 ++ [h])), ot2. split; [done|]. split; [done|].
    split; [by apply Hclean|]. split; [done|]. simpl. split; [by rewrite G3|]. by exists gone.
  - rewrite (proj2 (Z.eqb_neq (refcnt o - 1) 0)) by lia.
    assert (Hi2 : hcb_inv (set_refcnt st h o (refcnt o - 1)) ot) by (apply set_refcnt_inv; [done|done|lia]).
    exists (set_refcnt st h o (refcnt o - 1)), ot. split; [done|]. split; [done|].
    split; [by apply Hclean|]. done.
Qed.

(** ** Searches without the lock *)

(** C18. A search that does not take the lock, interleaved in any way with
    insertions and deletions by others, never fails an assertion nor leaves the
    tree's memory, is over after at most 258 memory accesses, and what it returns
    is an object head with the digest looked for, or nothing. *)
Theorem critbit_reader_safe (d : list Z) (st st' : hcb) (pub pub' : gset Z) (ot : option tree)
    (n : nat) (r : reader)
    (Hs : seen st pub ot) (Hd : digest_ok d)
    (Hrun : run (fun _ => True) d n (st, pub) RStart (st', pub') r) :
  (exists r', rstep st' d r = Ok r') /\
  ((258 <= n)%nat -> exists x, r = RDone x) /\
  (forall x, r = RDone x -> x = 0 \/ exists o, ohs st' !! x = Some o /\ digest o = d).
Proof.
  destruct (run_ok _ _ _ _ _ _ _ _ _ Hs Hd Hrun) as [(ot' & Hs') Hok].
  split; [|split].
  - destruct (reader_step st' pub' ot' d n r Hs' Hd Hok) as (r' & E & _). by exists r'.
  - intros Hn. destruct r as [|pp|x]; simpl in Hok; [lia| |by exists x].
    destruct Hok as (c & _ & H1 & H2). lia.
  - intros x ->. exact Hok.
Qed.

(** C39. If an object head with the digest is in the tree all the while, such a
    search finds it, whatever else is inserted and deleted around it. *)
Theorem critbit_reader_finds (h : Z) (st st' : hcb) (pub pub' : gset Z) (ot : option tree)
    (n : nat) (x : Z)
    (Hs : seen st pub ot) (Hd : digest_ok (dg st h)) (Ho : is_Some (ohs st !! h))
    (Hrun : run (in_tree h) (dg st h) n (st, pub) RStart (st', pub') (RDone x)) :
  x = h.
Proof. by destruct (run_heads (dg st h) h n st pub ot st' pub' (RDone x) Hs Hd eq_refl Ho Hrun) as [H _]. Qed.

(** Undisturbed, the search ends after at most 258 accesses and is what
    [hcb_insert] does without the lock. *)
Theorem critbit_reader_refines (st : hcb) (pub : gset Z) (ot : option tree) (priv oh : Z)
    (Hs : seen st pub ot) (Hoh : oh_ok st oh) :
  exists x, rsteps 259 st (dg st oh) RStart = Ok (RDone x) /\
    hcb_insert st priv oh false = Ok (st, priv, x).
Proof.
  pose proof Hoh as (Ha & Hd & o & Ho). destruct Hs as [Hr _ _].
  change (rsteps 259 st (dg st oh) RStart) with
    (rstep st (dg st oh) RStart ≫= rsteps 258 st (dg st oh)).
  unfold hcb_insert. cbn [rstep]. unfold mret at 1, res_ret at 1. rewrite bind_Ret.
  destruct ot as [t|]; simpl in Hr.
  - destruct Hr as (Hr & Hw & _). destruct (repr_is_y _ _ _ Hr) as [_ H0].
    rewrite (proj2 (Z.eqb_neq _ 0) H0), Ho. cbn [deref]. rewrite bind_Ret, (dg_lookup _ _ _ Ho).
    pose proof (walk_ok st _ 0 t Hd Hw max_depth _ Hr ltac:(lia) ltac:(unfold max_depth; lia)) as Ewalk.
    destruct (rsteps_walk st (dg st oh) max_depth (origo st)) as [E|E]; [|by rewrite E in Ewalk].
    change 258%nat with (S max_depth). rewrite E, Ewalk, !bind_Ret. clear E Ewalk.
    set (h := find (dg st oh) t).
    destruct (repr_leaves st t _ h Hr) as [Hah [oh2 Eoh2]]; [apply (find_leaf (dg st))|].
    pose proof (tagged_pos h 0 (proj1 Hah) ltac:(lia)) as Hp. change (2 ^ 0) with 1 in Hp.
    rewrite (proj2 (Z.eqb_neq (Z.lor 1 h) 0)), is_node_node by lia. cbn [vassert].
    rewrite !bind_Ret, (l_node_ok h Hah), !bind_Ret, Eoh2. cbn [deref]. rewrite !bind_Ret.
    case_bool_decide; eexists; done.
  - rewrite Hr. change (0 =? 0) with true. cbv iota. rewrite rsteps_done. by exists 0.
Qed.

(** ** Examples *)

Definition ex_st : hcb :=
  mkHcb 34 {[32 := mkY 6 0 2 9 17; 64 := mkY 0 0 0 0 0]}
    {[8 := ex_oh 5; 16 := ex_oh 7; 24 := ex_oh 9]} [] [] [] [].
Definition ex_tree : tree := TNode 32 6 (TLeaf 8) (TLeaf 16).

Lemma ex_digest_ok x : is_byte x -> digest_ok (ex_digest x).
Proof.
  intros Hx. split; [done|]. constructor; [done|]. apply Forall_replicate. by unfold is_byte.
Qed.

Lemma ex_rooted : rooted ex_st (Some ex_tree).
Proof.
  split; [|split; [|repeat constructor; set_solver]].
  - split; [done|]. split; [done|]. exists (mkY 6 0 2 9 17). split; [done|].
    split; [by split|]. split; (split; [done|]; split; [done|by eexists]).
  - split; [lia|]. split; [by apply ex_digest_ok|]. split; [by apply ex_digest_ok|].
    split; [by intros h ->%list_elem_of_singleton|].
    split; [by intros h ->%list_elem_of_singleton|].
    assert (A : forall i, 0 <= i < 6 -> dbit (dg ex_st 8) i = dbit (dg ex_st 16) i).
    { intros i Hi. assert (H : i = 0 \/ i = 1 \/ i = 2 \/ i = 3 \/ i = 4 \/ i = 5) by lia.
      repeat destruct H as [->|H]; try by vm_compute. subst i. by vm_compute. }
    intros h1 h2 H1 H2 i Hi. simpl in H1, H2. rewrite !elem_of_cons in H1, H2.
    destruct H1 as [->|[->|H1]], H2 as [->|[->|H2]]; try (by apply elem_of_nil in H1);
      try (by apply elem_of_nil in H2); try done; [by apply A|symmetry; by apply A].
Qed.

Lemma ex_inv : hcb_inv ex_st (Some ex_tree).
Proof.
  split; [apply ex_rooted| |intros h Hh; by apply elem_of_nil in Hh|intros h Hh; by apply elem_of_nil in Hh].
  intros h Hh. simpl in Hh. rewrite !elem_of_cons in Hh.
  destruct Hh as [->|[->|Hh]]; [by eexists|by eexists|by apply elem_of_nil in Hh].
Qed.

Lemma ex_oh_ok : oh_ok ex_st 24.
Proof. split; [done|]. split; [by apply ex_digest_ok|by eexists]. Qed.

Lemma ex_fresh : fresh ex_st (Some ex_tree) 64 24.
Proof.
  split; [apply ex_oh_ok|by eexists| | |by apply not_elem_of_nil].
  - apply (bool_decide_unpack _). by vm_compute.
  - split; [done|]. split; [by eexists|]. apply (bool_decide_unpack _). by vm_compute.
Qed.

Lemma ex_seen : seen ex_st {[32]} (Some ex_tree).
Proof.
  split; [apply ex_rooted| |].
  - intros a Ha. simpl in Ha. apply list_elem_of_singleton in Ha as ->. set_solver.
  - intros a ->%elem_of_singleton. destruct ex_rooted as (Hr & Hw & _).
    eapply tree_published; [exact Hr|exact Hw| |simpl; set_solver].
    intros a Ha. simpl in Ha. apply list_elem_of_singleton in Ha as ->. set_solver.
Qed.

Lemma critbit_lookup_witness :
  hcb_inv ex_st (Some ex_tree) /\
  exists st' ot' priv', hcb_lookup ex_st 64 24 = Ok (st', priv', 24) /\ hcb_inv st' ot' /\ priv' = 0.
Proof.
  split; [exact ex_inv|].
  destruct (critbit_lookup ex_st (Some ex_tree) 64 24 ex_inv ex_fresh) as (st' & ot' & priv' & r & E & Hi & _).
  assert (E2 : (x ← hcb_lookup ex_st 64 24; mret (snd (fst x), snd x)) = Ok (0, 24)) by (by vm_compute).
  rewrite E in E2. injection E2 as -> ->. exists st', ot', 0. split; [exact E|]. split; [exact Hi|reflexivity].
Defined.

Lemma critbit_deref_witness :
  exists st' ot', hcb_deref ex_st 16 = Ok st' /\ hcb_inv st' ot' /\ hcb_inv (hcb_clean st') ot'.
Proof.
  destruct (critbit_deref ex_st (Some ex_tree) 16 (ex_oh 7) ex_inv) as (st' & ot' & E & H1 & H2 & _).
  - simpl. set_solver.
  - by vm_compute.
  - intros _. by vm_compute.
  - exists st', ot'. split; [exact E|]. split; [exact H1|exact H2].
Defined.

(** While a reader is at the root's node, somebody inserts the object head 24. *)
Definition ex_st2 : hcb :=
  match hcb_insert ex_st 64 24 true with Ok (st, _, _) => st | Fail _ => ex_st end.

Lemma ex_insert_ok : hcb_insert ex_st 64 24 true = Ok (ex_st2, 0, 24).
Proof. by vm_compute. Qed.

Lemma ex_absent h : h ∈ leaves ex_tree -> dg ex_st h <> dg ex_st 24.
Proof.
  intros Hh. simpl in Hh. rewrite !elem_of_cons in Hh.
  destruct Hh as [->|[->|Hh]]; [done|done|by apply elem_of_nil in Hh].
Qed.

Lemma ex_priv : priv_ok ex_st (Some ex_tree) 64.
Proof. apply ex_fresh. Qed.

Lemma ex_in_tree2 : in_tree 8 ex_st2.
Proof.
  destruct (insert_new ex_st ex_tree 64 24 ex_rooted ex_oh_ok ex_priv ex_absent) as (st' & c & E & Hr & _).
  rewrite ex_insert_ok in E. injection E as <-. eexists. split; [exact Hr|].
  rewrite tins_leaves. simpl. set_solver.
Qed.

Lemma ex_in_tree : in_tree 8 ex_st.
Proof. exists ex_tree. split; [apply ex_rooted|simpl; set_solver]. Qed.

Lemma ex_env : env (ex_st, {[32]}) (ex_st2, {[64]} ∪ {[32]}).
Proof.
  apply (env_insert ex_st {[32]} (Some ex_tree) 64 24 ex_st2 0).
  - apply ex_rooted.
  - apply ex_oh_ok.
  - done.
  - by eexists.
  - set_solver.
  - apply ex_absent.
  - apply ex_insert_ok.
Qed.

Lemma ex_run (P : hcb -> Prop) : P ex_st -> P ex_st2 ->
  run P (dg ex_st 8) 3 (ex_st, {[32]}) RStart (ex_st2, {[64]} ∪ {[32]}) (RDone 8).
Proof.
  intros P1 P2. eapply run_read; [eapply run_read; [eapply run_env; [eapply run_read|..]|]|].
  - by apply run_start.
  - by vm_compute.
  - apply ex_env.
  - exact P2.
  - by vm_compute.
  - by vm_compute.
Qed.

Lemma critbit_reader_safe_witness :
  digest_ok (dg ex_st 8) /\
  (8 = 0 \/ exists o, ohs ex_st2 !! 8 = Some o /\ digest o = dg ex_st 8).
Proof.
  assert (Hd : digest_ok (dg ex_st 8)) by (by apply ex_digest_ok). split; [exact Hd|].
  exact (proj2 (proj2 (critbit_reader_safe (dg ex_st 8) ex_st ex_st2 _ _ (Some ex_tree) 3 (RDone 8)
    ex_seen Hd (ex_run _ I I))) 8 eq_refl).
Defined.

Lemma critbit_reader_finds_witness :
  run (in_tree 8) (dg ex_st 8) 3 (ex_st, {[32]}) RStart (ex_st2, {[64]} ∪ {[32]}) (RDone 8) /\ 8 = 8.
Proof.
  assert (Hr := ex_run (in_tree 8) ex_in_tree ex_in_tree2). split; [exact Hr|].
  refine (critbit_reader_finds 8 ex_st ex_st2 _ _ (Some ex_tree) 3 8 ex_seen _ _ Hr).
  - by apply ex_digest_ok.
  - by eexists.
Defined.

Lemma critbit_reader_refines_witness :
  oh_ok ex_st 24 /\
  exists x, rsteps 259 ex_st (dg ex_st 24) RStart = Ok (RDone x) /\
    hcb_insert ex_st 64 24 false = Ok (ex_st, 64, x).
Proof.
  split; [exact ex_oh_ok|].
  exact (critbit_reader_refines ex_st {[32]} (Some ex_tree) 64 24 ex_seen ex_oh_ok).
Defined.

End CritbitThm.
