(* ===== verification/Ban.v ===== *)
(** Bans: [bin/varnishd/cache_ban.c], [include/ban_vars.h].

    A [struct ban] is a record in a table from addresses; a ban that is not in
    the list yet is known to its maker alone and passed around as a record.
    Tail queues are the lists of their elements, [oc->ban] a map from objcores,
    null is [None].  A time, a [double] that is positive, is its 64-bit pattern:
    positive doubles are ordered as their patterns are.  [SMP_NewBan] is for
    persistent silos and does nothing without any; [oc_updatemeta] is empty for
    the other stevedores. *)
From S2P Require Import Prelude Vend Vsb Mem Http.
Import Vend Vsb Mem Http.
Local Open Scope Z_scope.

Module Ban.

(** ** Data *)

Record ban := mkBan {
  refcount : Z;
  flags : Z;
  objcore : list positive;       (* the objects that were checked up to here *)
  b_vsb : option vsb;
  spec : option (list Z);
}.

Definition BAN_F_GONE : Z := Z.shiftl 1 0.
Definition BAN_F_REQ : Z := Z.shiftl 1 2.

Definition set_refcount (b : ban) x := mkBan x (flags b) (objcore b) (b_vsb b) (spec b).
Definition set_flags (b : ban) x := mkBan (refcount b) x (objcore b) (b_vsb b) (spec b).
Definition set_objcore (b : ban) x := mkBan (refcount b) (flags b) x (b_vsb b) (spec b).
Definition set_vsb (b : ban) x := mkBan (refcount b) (flags b) (objcore b) x (spec b).
Definition set_spec (b : ban) x := mkBan (refcount b) (flags b) (objcore b) (b_vsb b) x.

Definition is_gone (b : ban) : bool := truth (Z.land (flags b) BAN_F_GONE).
Definition is_req (b : ban) : bool := truth (Z.land (flags b) BAN_F_REQ).

Record ban_test := mkTest {
  arg1 : Z;
  arg1_spec : option Z;          (* pointers into the spec *)
  oper : Z;
  arg2 : Z;
  arg2_spec : option Z;
}.

Definition BAN_OPER_EQ : Z := 0x10.
Definition BAN_OPER_NEQ : Z := 0x11.
Definition BAN_OPER_MATCH : Z := 0x12.
Definition BAN_OPER_NMATCH : Z := 0x13.

Definition BAN_ARG_URL : Z := 0x18.
Definition BAN_ARG_REQHTTP : Z := 0x19.
Definition BAN_ARG_OBJHTTP : Z := 0x1a.

Definition PVAR_HTTP : Z := 1.
Definition PVAR_REQ : Z := 2.

Definition pvars : list (list Z * Z * Z) :=
  [ (str "req.url", PVAR_REQ, BAN_ARG_URL);
    (str "req.http.", Z.lor PVAR_REQ PVAR_HTTP, BAN_ARG_REQHTTP);
    (str "obj.http.", PVAR_HTTP, BAN_ARG_OBJHTTP) ].

Record stats := mkStats {
  n_ban : Z; n_ban_add : Z; n_ban_retire : Z; n_ban_dups : Z;
  n_ban_obj_test : Z; n_ban_re_test : Z;
}.

(** The static variables of the file, the bans, and [oc->ban]. *)
Record bans := mkBans {
  tab : gmap positive ban;
  ban_head : list positive;
  ban_start : option positive;
  ban_magic : option positive;
  oc_ban : gmap positive (option positive);
  counters : stats;
}.

Definition set_tab (st : bans) x :=
  mkBans x (ban_head st) (ban_start st) (ban_magic st) (oc_ban st) (counters st).
Definition set_head (st : bans) x :=
  mkBans (tab st) x (ban_start st) (ban_magic st) (oc_ban st) (counters st).
Definition set_start (st : bans) x :=
  mkBans (tab st) (ban_head st) x (ban_magic st) (oc_ban st) (counters st).
Definition set_magic (st : bans) x :=
  mkBans (tab st) (ban_head st) (ban_start st) x (oc_ban st) (counters st).
Definition set_oc_ban (st : bans) x :=
  mkBans (tab st) (ban_head st) (ban_start st) (ban_magic st) x (counters st).
Definition set_counters (st : bans) x :=
  mkBans (tab st) (ban_head st) (ban_start st) (ban_magic st) (oc_ban st) x.

(** The counters are 64 bits wide: added, retired, duplicates, objects, tests. *)
Definition count (st : bans) (add retire dups objs tests : Z) : bans :=
  let c := counters st in
  set_counters st (mkStats (u64 (n_ban c + add - retire)) (u64 (n_ban_add c + add))
    (u64 (n_ban_retire c + retire)) (u64 (n_ban_dups c + dups))
    (u64 (n_ban_obj_test c + objs)) (u64 (n_ban_re_test c + tests))).

Definition get_ban (st : bans) (p : positive) : res ban := deref (tab st !! p).
Definition put_ban (st : bans) (p : positive) (b : ban) : bans := set_tab st (<[p := b]> (tab st)).

(** [p->f = ...] for an allocated ban. *)
Definition upd_ban (st : bans) (p : positive) (f : ban -> ban) : res bans :=
  b ← get_ban st p; mret (put_ban st p (f b)).

Definition incref (b : ban) : ban := set_refcount b (u32 (refcount b + 1)).
Definition decref (b : ban) : ban := set_refcount b (u32 (refcount b - 1)).

(** [VTAILQ_NEXT] *)
Fixpoint next (p : positive) (l : list positive) : option positive :=
  match l with
  | [] => None
  | q :: l => if bool_decide (p = q) then head l else next p l
  end.

(** [VTAILQ_REMOVE] *)
Definition remove (p : positive) (l : list positive) : list positive := filter (fun q => q <> p) l.

(** ** Time and length of a ban spec *)

(** The eight octets of a 64-bit word, least significant first. *)
Definition double_bytes (t : Z) : list Z :=
  map (fun i => Z.shiftr t (8 * Z.of_nat i) mod 256) (seq 0 8).

Definition ban_time (banspec : list Z) : res Z :=
  lo ← vle32dec banspec; hi ← vle32dec (drop 4 banspec);
  mret (Z.lor (Z.shiftl hi 32) lo).

Definition ban_len (banspec : list Z) : res Z := vbe32dec (drop 8 banspec).

Section Malloc.

Variable malloc : Z -> option (list Z).
(** [pcre_compile] and [PCRE_INFO_SIZE]: the compiled pattern, as octets. *)
Variable pcre_compile : list Z -> option (list Z).
(** [pcre_exec] on a pattern, given by what is in memory from its address on,
    and a subject. *)
Variable pcre_exec : list Z -> list Z -> Z.

Definition BAN_New : res (option ban) :=
  r ← VSB_new malloc true true None 0 VSB_AUTOEXTEND;
  match r with
  | None => mret None
  | Some s => mret (Some (mkBan 0 0 [] (Some s) None))
  end.

(** The assertions of [BAN_Free]; the caller forgets the ban. *)
Definition BAN_Free (b : ban) : res unit :=
  vassert (refcount b =? 0);;
  vassert (bool_decide (objcore b = []));;
  match b_vsb b with
  | Some s => _ ← VSB_delete s; mret tt
  | None => mret tt
  end.

Definition BAN_Free_at (st : bans) (p : positive) : res bans :=
  b ← get_ban st p; BAN_Free b;; mret (set_tab st (delete p (tab st))).

(** The last ban of the list, out of the list, if nothing needs it. *)
Definition ban_CheckLast (st : bans) : res (bans * option positive) :=
  let b := last (ban_head st) in
  if bool_decide (b = head (ban_head st)) then mret (st, None) else
  match b with
  | None => mret (st, None)
  | Some p =>
      b ← get_ban st p;
      if refcount b =? 0 then
        mret (count (set_head st (remove p (ban_head st))) 0 1 0 0 0, Some p)
      else mret (st, None)
  end.

Definition BAN_TailRef (st : bans) : res (bans * positive) :=
  p ← match last (ban_head st) with Some p => mret p | None => Fail FAssert end;
  st ← upd_ban st p incref;
  mret (st, p).

Definition BAN_TailDeref (st : bans) (p : positive) : res bans := upd_ban st p decref.

(** ** Building a spec *)

Definition vsb_of (b : ban) : res vsb := deref (b_vsb b).

Definition ban_putc (b : ban) (c : Z) : res ban :=
  s ← vsb_of b; '(s, _) ← VSB_putc malloc s c; mret (set_vsb b (Some s)).
Definition ban_cat (b : ban) (p : list Z) : res ban :=
  s ← vsb_of b; '(s, _) ← VSB_cat malloc s (p ++ [0]); mret (set_vsb b (Some s)).
Definition ban_bcat (b : ban) (p : list Z) : res ban :=
  s ← vsb_of b; '(s, _) ← VSB_bcat malloc s p; mret (set_vsb b (Some s)).

Definition ban_add_lump (b : ban) (p : list Z) : res ban :=
  buf ← vbe32enc [0; 0; 0; 0] (u32 (Z.of_nat (length p)));
  b ← ban_bcat b buf;
  ban_bcat b p.

(** The header name as [http_GetHdr] wants it: length, name, colon, NUL. *)
Definition ban_parse_http (b : ban) (a1 : list Z) : res ban :=
  let l := Z.of_nat (length a1) + 1 in
  vassert (l <=? 127);;
  b ← ban_putc b l;
  b ← ban_cat b a1;
  b ← ban_putc b 58;
  ban_putc b 0.

(** What goes to the CLI when a test is refused. *)
Inductive ban_error := Unknown_field | Regex_error | Expected_conditional.

Definition ban_parse_regexp (b : ban) (a3 : list Z) : res (ban * option ban_error) :=
  match pcre_compile a3 with
  | None => mret (b, Some Regex_error)
  | Some re => b ← ban_add_lump b re; mret (b, None)
  end.

(** The first variable whose name the field begins with. *)
Fixpoint find_pvar (a1 : list Z) (l : list (list Z * Z * Z)) : option (list Z * Z * Z) :=
  match l with
  | [] => None
  | pv :: l =>
      let name := fst (fst pv) in
      if bool_decide (take (length name) a1 = name) then Some pv else find_pvar a1 l
  end.

(** The strings are given without their NUL. *)
Definition BAN_AddTest (b : ban) (a1 a2 a3 : list Z) : res (ban * option ban_error) :=
  match find_pvar a1 pvars with
  | None => mret (b, Some Unknown_field)
  | Some (name, flag, tag) =>
      let b := if truth (Z.land flag PVAR_REQ) then set_flags b (Z.lor (flags b) BAN_F_REQ) else b in
      b ← ban_putc b tag;
      b ← (if truth (Z.land flag PVAR_HTTP) then ban_parse_http b (drop (length name) a1) else mret b);
      b ← ban_add_lump b (a3 ++ [0]);
      if bool_decide (a2 = str "~") then
        b ← ban_putc b BAN_OPER_MATCH; ban_parse_regexp b a3
      else if bool_decide (a2 = str "!~") then
        b ← ban_putc b BAN_OPER_NMATCH; ban_parse_regexp b a3
      else if bool_decide (a2 = str "==") then
        b ← ban_putc b BAN_OPER_EQ; mret (b, None)
      else if bool_decide (a2 = str "!=") then
        b ← ban_putc b BAN_OPER_NEQ; mret (b, None)
      else mret (b, Some Expected_conditional)
  end.

(** ** Inserting a ban *)

(** [memcpy(m + i, l, length l)] *)
Fixpoint blit (m : list Z) (i : Z) (l : list Z) : res (list Z) :=
  match l with
  | [] => mret m
  | c :: l => m ← wr m i c; blit m (i + 1) l
  end.

(** The first part of [BAN_Insert]: the spec, with the time [t0]. *)
Definition ban_make_spec (b : ban) (t0 : Z) : res (ban * Z) :=
  s ← vsb_of b;
  '(s, r) ← VSB_finish s;
  vassert (r =? 0);;
  ln ← VSB_len s;
  vassert (0 <=? ln);;
  m ← match malloc (ln + 13) with Some m => mret m | None => Fail FAssert end;
  m ← blit m 0 (double_bytes t0);
  m ← wr m 12 (if is_req b then 1 else 0);
  d ← VSB_data s;
  m ← blit m 13 (take (Z.to_nat ln) d);
  let ln := ln + 13 in
  m8 ← vbe32enc (drop 8 m) (u32 ln);
  _ ← VSB_delete s;
  mret (set_vsb (set_spec b (Some (take 8 m ++ m8))) None, ln).

(** The locked part: the ban [b] is linked in at [p]; the last ban gets a
    reference if duplicates are to be looked for. *)
Definition ban_link (st : bans) (p : positive) (b : ban) (ban_dups : bool)
  : res (bans * option positive) :=
  let st := set_start (set_head (put_ban st p b) (p :: ban_head st)) (Some p) in
  let st := count st 1 0 0 0 0 in
  be ← deref (last (ban_head st));
  if ban_dups && negb (bool_decide (be = p)) then
    st ← upd_ban st be incref; mret (st, Some be)
  else mret (st, None).

(** [memcmp(a, b, n) == 0]: it stops at the first difference. *)
Fixpoint memeq (a b : list Z) (n : nat) : res bool :=
  match n with
  | O => mret true
  | S n =>
      match a, b with
      | x :: a, y :: b => if x =? y then memeq a b n else mret false
      | _, _ => Fail FMemory
      end
  end.

Definition spec_of (b : ban) : res (list Z) := deref (spec b).

(** One turn of the loop that hunts down duplicates: [bi] is the next ban. *)
Definition ban_dup (st : bans) (sp : list Z) (ln : Z) (bi : positive) (pcount : Z) : res (bans * Z) :=
  b ← get_ban st bi;
  if is_gone b then mret (st, pcount) else
  bs ← spec_of b;
  same ← memeq (drop 8 sp) (drop 8 bs) (Z.to_nat (ln - 8));
  if negb same then mret (st, pcount) else
  mret (put_ban st bi (set_flags b (Z.lor (flags b) BAN_F_GONE)), u32 (pcount + 1)).

Fixpoint ban_dups_loop (fuel : nat) (st : bans) (sp : list Z) (ln : Z) (bi be : positive) (pcount : Z)
  : res (bans * Z) :=
  if bool_decide (bi = be) then mret (st, pcount) else
  match fuel with
  | O => Fail FFuel
  | S fuel =>
      bi ← deref (next bi (ban_head st));
      '(st, pcount) ← ban_dup st sp ln bi pcount;
      ban_dups_loop fuel st sp ln bi be pcount
  end.

(** The second part of [BAN_Insert]: the finished ban [b] goes to [p]. *)
Definition ban_publish (st : bans) (p : positive) (b : ban) (ln : Z) (ban_dups : bool) : res bans :=
  sp ← spec_of b;
  '(st, be) ← ban_link st p b ban_dups;
  match be with
  | None => mret st
  | Some be =>
      '(st, pcount) ← ban_dups_loop (length (ban_head st)) st sp ln p be 0;
      st ← upd_ban st be decref;
      mret (count st 0 0 pcount 0 0)
  end.

(** [TIM_real()] is [t0]; [p] is the address of [b]. *)
Definition BAN_Insert (st : bans) (p : positive) (b : ban) (t0 : Z) (ban_dups : bool) : res bans :=
  '(b, ln) ← ban_make_spec b t0;
  ban_publish st p b ln ban_dups.

(** ** Objects *)

Definition BAN_NewObjCore (st : bans) (oc : positive) : res bans :=
  o ← deref (oc_ban st !! oc);
  vassert (bool_decide (o = None));;
  p ← deref (ban_start st);
  st ← upd_ban (set_oc_ban st (<[oc := Some p]> (oc_ban st))) p
         (fun b => set_objcore (incref b) (objcore b ++ [oc]));
  mret st.

Definition BAN_DestroyObj (st : bans) (oc : positive) : res bans :=
  o ← deref (oc_ban st !! oc);
  match o with
  | None => mret st
  | Some p =>
      b ← get_ban st p;
      vassert (0 <? refcount b);;
      let st := put_ban st p (set_objcore (decref b) (remove oc (objcore b))) in
      let st := set_oc_ban st (<[oc := None]> (oc_ban st)) in
      '(st, q) ← ban_CheckLast st;
      match q with None => mret st | Some q => BAN_Free_at st q end
  end.

(** The first ban not younger than [t0], or [tail]. *)
Fixpoint refban_loop (st : bans) (l : list positive) (t0 : Z) (tail : option positive)
  : res (positive * Z) :=
  match l with
  | [] => Fail FAssert
  | p :: l =>
      b ← get_ban st p; s ← spec_of b; t1 ← ban_time s;
      if t1 <=? t0 then mret (p, t1)
      else if bool_decide (Some p = tail) then mret (p, t1)
      else refban_loop st l t0 tail
  end.

Definition BAN_RefBan (st : bans) (oc : positive) (t0 : Z) (tail : option positive)
  : res (bans * positive) :=
  '(p, t1) ← refban_loop st (ban_head st) t0 tail;
  vassert (t1 =? t0);;
  st ← upd_ban st p (fun b => set_objcore (incref b) (objcore b ++ [oc]));
  mret (st, p).

(** ** Reloading bans from storage *)

(** The bit pattern of 9e99. *)
Definition T_9e99 : Z := 6102506697290172810.

(** The search for the place: [None] if the ban is there already, else the
    bans before the place, those from it on, and whether a newer one is equal. *)
Fixpoint reload_loop (st : bans) (ban0 : list Z) (len t0 t2 : Z) (before l : list positive) (gone : bool)
  : res (option (list positive * list positive * bool)) :=
  match l with
  | [] => mret (Some (before, [], gone))
  | p :: l' =>
      b ← get_ban st p; s ← spec_of b; t1 ← ban_time s;
      vassert (t1 <? t2);;
      if t1 =? t0 then mret None
      else if t1 <? t0 then mret (Some (before, l, gone))
      else
        same ← memeq (drop 8 s) (drop 8 ban0) (Z.to_nat (len - 8));
        reload_loop st ban0 len t0 t1 (before ++ [p]) l' (gone || same)
  end.

(** Older bans with the same condition are gone. *)
Fixpoint reload_dups (st : bans) (ban0 : list Z) (len : Z) (l : list positive) : res bans :=
  match l with
  | [] => mret st
  | p :: l =>
      b ← get_ban st p;
      if is_gone b then reload_dups st ban0 len l else
      s ← spec_of b;
      same ← memeq (drop 8 s) (drop 8 ban0) (Z.to_nat (len - 8));
      let st := if (same : bool) then put_ban st p (set_flags b (Z.lor (flags b) BAN_F_GONE)) else st in
      reload_dups st ban0 len l
  end.

(** [ban0] is the stored spec and [p] the address of the new ban. *)
Definition BAN_Reload (st : bans) (p : positive) (ban0 : list Z) (len : Z) : res bans :=
  t0 ← ban_time ban0;
  l0 ← ban_len ban0;
  vassert (len =? l0);;
  r ← reload_loop st ban0 len t0 T_9e99 [] (ban_head st) false;
  match r with
  | None => mret st
  | Some (before, after, gone) =>
      let st := count st 1 0 0 0 0 in
      n ← BAN_New;
      b2 ← match n with Some b => mret b | None => Fail FAssert end;
      m ← match malloc len with Some m => mret m | None => Fail FAssert end;
      d ← (if Z.of_nat (length ban0) <? len then Fail FMemory else mret (take (Z.to_nat len) ban0));
      m ← blit m 0 d;
      q ← rd ban0 12;
      let fl := Z.lor (if (gone : bool) then BAN_F_GONE else 0) (if truth q then BAN_F_REQ else 0) in
      let b2 := set_flags (set_spec b2 (Some m)) fl in
      let st := set_head (put_ban st p b2) (before ++ p :: after) in
      reload_dups st ban0 len after
  end.

Definition BAN_Time (st : bans) (b : option positive) : res Z :=
  match b with
  | None => mret 0
  | Some p => b ← get_ban st p; s ← spec_of b; ban_time s
  end.

Definition BAN_Compile (st : bans) : res bans :=
  p ← deref (ban_magic st); b ← get_ban st p; s ← spec_of b; _ ← ban_len s;
  mret (set_start st (head (ban_head st))).

(** The list with the one ban that matches nothing, at [p]. *)
Definition BAN_Init (st : bans) (p : positive) (t0 : Z) (ban_dups : bool) : res bans :=
  n ← BAN_New;
  b ← match n with Some b => mret b | None => Fail FAssert end;
  BAN_Insert (set_magic st (Some p)) p (set_flags b (Z.lor (flags b) BAN_F_GONE)) t0 ban_dups.

(** ** Evaluating a spec *)

Definition rd8 (m : list Z) (p : Z) : res Z := rd m p.

(** Where the lump at [bs] is, and where it ends. *)
Definition ban_get_lump (sp : list Z) (bs : Z) : res (Z * Z) :=
  ln ← vbe32dec (drop (Z.to_nat bs) sp);
  mret (bs + 4, bs + 4 + ln).

Definition ban_iter (sp : list Z) (bs : Z) : res (ban_test * Z) :=
  a1 ← rd8 sp bs;
  let bs := bs + 1 in
  '(a1s, bs) ←
    (if (a1 =? BAN_ARG_REQHTTP) || (a1 =? BAN_ARG_OBJHTTP) then
       l ← rd8 sp bs; mret (Some bs, bs + l + 2)
     else mret (None, bs));
  '(a2, bs) ← ban_get_lump sp bs;
  op ← rd8 sp bs;
  let bs := bs + 1 in
  '(a2s, bs) ←
    (if (op =? BAN_OPER_MATCH) || (op =? BAN_OPER_NMATCH) then
       '(r, bs) ← ban_get_lump sp bs; mret (Some r, bs)
     else mret (None, bs));
  mret (mkTest a1 a1s op a2 a2s, bs).

(** [http_GetHdr(hp, hdr, ...)] with the name at [p] of the spec. *)
Definition GetHdr_spec (m : mem) (hp : http) (sp : list Z) (p : Z) : res (option Z) :=
  l ← rd8 sp p;
  name ← cstring (drop (Z.to_nat (p + 1)) sp);
  vassert (l =? Z.of_nat (length name));;
  http_GetHdr m hp name.

(** [strcmp(a, b) == 0], [b] in the spec. *)
Fixpoint strcmp_eq (m : mem) (a : Z) (b : list Z) : res bool :=
  match b with
  | [] => Fail FMemory
  | y :: b =>
      x ← peek m a;
      if negb (x =? y) then mret false
      else if x =? 0 then mret true
      else strcmp_eq m (a + 1) b
  end.

Definition from_spec (sp : list Z) (p : Z) : list Z := drop (Z.to_nat p) sp.

(** [pcre_exec(bt.arg2_spec, NULL, arg1, strlen(arg1), ...)] *)
Definition ban_regex (m : mem) (sp : list Z) (a2s : option Z) (a1 : Z) : res Z :=
  p ← deref a2s;
  e ← str_end m a1;
  subject ← Mem.region m a1 (Z.to_nat (e - a1));
  mret (pcre_exec (from_spec sp p) subject).

(** One test; the tests of a ban are and'ed. *)
Definition ban_test_holds (m : mem) (objhttp reqhttp : http) (sp : list Z) (bt : ban_test) : res bool :=
  a1 ← (if arg1 bt =? BAN_ARG_URL then
          t ← get_hd reqhttp HTTP_HDR_URL;
          mret (if b t =? 0 then None else Some (b t))
        else if arg1 bt =? BAN_ARG_REQHTTP then
          p ← deref (arg1_spec bt); GetHdr_spec m reqhttp sp p
        else if arg1 bt =? BAN_ARG_OBJHTTP then
          p ← deref (arg1_spec bt); GetHdr_spec m objhttp sp p
        else Fail FAssert);
  if oper bt =? BAN_OPER_EQ then
    match a1 with None => mret false | Some a => strcmp_eq m a (from_spec sp (arg2 bt)) end
  else if oper bt =? BAN_OPER_NEQ then
    match a1 with
    | None => mret true
    | Some a => r ← strcmp_eq m a (from_spec sp (arg2 bt)); mret (negb r)
    end
  else if oper bt =? BAN_OPER_MATCH then
    match a1 with
    | None => mret false
    | Some a => r ← ban_regex m sp (arg2_spec bt) a; mret (negb (r <? 0))
    end
  else if oper bt =? BAN_OPER_NMATCH then
    match a1 with
    | None => mret true
    | Some a => r ← ban_regex m sp (arg2_spec bt) a; mret (negb (0 <=? r))
    end
  else Fail FAssert.

Fixpoint evaluate_loop (fuel : nat) (m : mem) (objhttp reqhttp : http) (sp : list Z) (bs be tests : Z)
  : res (bool * Z) :=
  if be <=? bs then mret (true, tests) else
  match fuel with
  | O => Fail FFuel
  | S fuel =>
      '(bt, bs) ← ban_iter sp bs;
      r ← ban_test_holds m objhttp reqhttp sp bt;
      if negb r then mret (false, u32 (tests + 1))
      else evaluate_loop fuel m objhttp reqhttp sp bs be (u32 (tests + 1))
  end.

(** Whether the ban applies, and the count of tests. *)
Definition ban_evaluate (m : mem) (sp : list Z) (objhttp reqhttp : http) (tests : Z) : res (bool * Z) :=
  be ← ban_len sp;
  evaluate_loop (length sp) m objhttp reqhttp sp 13 be tests.

(** ** Checking an object *)

(** The loop from [b] to the ban of the object: whether one applies, the tests
    made and the bans skipped. *)
Fixpoint check_loop (fuel : nat) (st : bans) (m : mem) (objhttp reqhttp : http) (has_req : bool)
    (b : option positive) (ocb : positive) (tests skipped : Z) : res (bool * Z * Z) :=
  if bool_decide (b = Some ocb) then mret (false, tests, skipped) else
  match fuel with
  | O => Fail FFuel
  | S fuel =>
      p ← deref b;
      bn ← get_ban st p;
      let nxt := next p (ban_head st) in
      if is_gone bn then check_loop fuel st m objhttp reqhttp has_req nxt ocb tests skipped
      else if negb has_req && is_req bn then
        check_loop fuel st m objhttp reqhttp has_req nxt ocb tests (u32 (skipped + 1))
      else
        sp ← spec_of bn;
        '(r, tests) ← ban_evaluate m sp objhttp reqhttp tests;
        if (r : bool) then mret (true, tests, skipped)
        else check_loop fuel st m objhttp reqhttp has_req nxt ocb tests skipped
  end.

(** The locked part: the object leaves its ban, for [b0] if no ban applied. *)
Definition check_move (st : bans) (oc ocb b0 : positive) (banned : bool) (tests : Z) : res bans :=
  st ← upd_ban st ocb (fun b => set_objcore (decref b) (remove oc (objcore b)));
  st ← (if banned then mret st
        else upd_ban st b0 (fun b => incref (set_objcore b (objcore b ++ [oc]))));
  let st := count st 0 0 0 1 tests in
  mret (set_oc_ban st (<[oc := if banned then None else Some b0]> (oc_ban st))).

(** True: the object is banned, and [EXP_Clr] and [EXP_Rearm] are to follow. *)
Definition ban_check_object (st : bans) (m : mem) (oc : positive) (objhttp reqhttp : http)
    (has_req : bool) : res (bans * bool) :=
  o ← deref (oc_ban st !! oc);
  ocb ← match o with Some p => mret p | None => Fail FAssert end;
  b0 ← match ban_start st with Some p => mret p | None => Fail FAssert end;
  if bool_decide (b0 = ocb) then mret (st, false) else
  '(banned, tests, skipped) ←
    check_loop (length (ban_head st)) st m objhttp reqhttp has_req (Some b0) ocb 0 0;
  if negb banned && (0 <? skipped) then mret (st, false) else
  st ← check_move st oc ocb b0 banned tests;
  mret (st, banned).

Definition BAN_CheckObject (st : bans) (m : mem) (oc : positive) (objhttp reqhttp : http)
  : res (bans * bool) :=
  ban_check_object st m oc objhttp reqhttp true.

(** The first part of [ban_lurker_work]: the last ban is retired if it can be,
    else the first object on it is what to look at. *)
Definition lurker_pick (st : bans) : res (bans * option positive) :=
  '(st, bf) ← ban_CheckLast st;
  match bf with
  | Some p => st ← BAN_Free_at st p; mret (st, None)
  | None =>
      let b := last (ban_head st) in
      if bool_decide (b = ban_start st) then mret (st, None) else
      p ← deref b; bn ← get_ban st p;
      mret (st, head (objcore bn))
  end.

(** ** The command line *)

(** What the command answers when the ban is refused. *)
Inductive cli_error := Wrong_number | Expected_and | Ban_error (e : ban_error) | Out_of_memory.

Definition arg (av : list (list Z)) (i : nat) : res (list Z) := deref (av !! i).

(** The tests from argument [i] on. *)
Fixpoint add_tests (n : nat) (av : list (list Z)) (i : nat) (b : ban) : res (ban * option ban_error) :=
  match n with
  | O => mret (b, None)
  | S n =>
      a1 ← arg av (i + 2); a2 ← arg av (i + 3); a3 ← arg av (i + 4);
      '(b, e) ← BAN_AddTest b a1 a2 a3;
      match e with Some e => mret (b, Some e) | None => add_tests n av (i + 4) b end
  end.

(** The ands between the tests. *)
Fixpoint check_ands (n : nat) (av : list (list Z)) (i : nat) : res bool :=
  match n with
  | O => mret true
  | S n =>
      a ← arg av (i + 2);
      if bool_decide (a = str "&&") then check_ands n av (i + 4) else mret false
  end.

(** [av] without its last NULL; [p] and [t0] as for [BAN_Insert]. *)
Definition ccf_ban (st : bans) (av : list (list Z)) (p : positive) (t0 : Z) (ban_dups : bool)
  : res (bans * option cli_error) :=
  let narg := (length av - 2)%nat in
  if negb (narg mod 4 =? 3)%nat then mret (st, Some Wrong_number) else
  ands ← check_ands (narg / 4) av 3;
  if negb ands then mret (st, Some Expected_and) else
  n ← BAN_New;
  match n with
  | None => mret (st, Some Out_of_memory)
  | Some b =>
      '(b, e) ← add_tests (S (narg / 4)) av 0 b;
      match e with
      | Some e => BAN_Free b;; mret (st, Some (Ban_error e))
      | None => st ← BAN_Insert st p b t0 ban_dups; mret (st, None)
      end
  end.

Definition ccf_ban_url (st : bans) (av : list (list Z)) (p : positive) (t0 : Z) (ban_dups : bool)
  : res (bans * option cli_error) :=
  a ← arg av 2;
  ccf_ban st [[]; str "ban"; str "req.url"; str "~"; a] p t0 ban_dups.

(** ** Rendering a spec *)

Definition render_http (sp : list Z) (prefix : list Z) (p : option Z) : res (list Z) :=
  p ← deref p;
  l ← rd8 sp p;
  mret (prefix ++ take (Z.to_nat (l - 1)) (from_spec sp (p + 1))).

Definition render_oper (op : Z) : res (list Z) :=
  if op =? BAN_OPER_EQ then mret (str " == ")
  else if op =? BAN_OPER_NEQ then mret (str " != ")
  else if op =? BAN_OPER_MATCH then mret (str " ~ ")
  else if op =? BAN_OPER_NMATCH then mret (str " !~ ")
  else Fail FAssert.

Fixpoint render_loop (fuel : nat) (sp : list Z) (bs be : Z) : res (list Z) :=
  if be <=? bs then mret [] else
  match fuel with
  | O => Fail FFuel
  | S fuel =>
      '(bt, bs) ← ban_iter sp bs;
      a1 ← (if arg1 bt =? BAN_ARG_URL then mret (str "req.url")
            else if arg1 bt =? BAN_ARG_REQHTTP then render_http sp (str "req.http.") (arg1_spec bt)
            else if arg1 bt =? BAN_ARG_OBJHTTP then render_http sp (str "obj.http.") (arg1_spec bt)
            else Fail FAssert);
      op ← render_oper (oper bt);
      a2 ← cstring (from_spec sp (arg2 bt));
      rest ← render_loop fuel sp bs be;
      mret (a1 ++ op ++ a2 ++ (if bs <? be then str " && " else []) ++ rest)
  end.

(** The text that goes to the CLI. *)
Definition ban_render (sp : list Z) : res (list Z) :=
  be ← ban_len sp;
  render_loop (length sp) sp 13 be.

End Malloc.

End Ban.
