(* ===== verification/BanSpec.v ===== *)
(** Ban specs as lists of tests: what [BAN_AddTest] writes, [ban_evaluate] and
    [ban_render] read. *)
From S2P Require Import Prelude Vct Vend Vsb Mem Http HttpLines Ban.
Import Vct Vend Mem Http HttpLines Ban.

Module BanSpec.

(** ** Tests *)

Inductive field := Url | ReqHdr (name : list Z) | ObjHdr (name : list Z).
Inductive cond := Eq | Neq | Match | Nmatch.
Record test := Test { t_field : field; t_cond : cond; t_arg : list Z }.

(** The messages a ban is evaluated on, in memory and as lines. *)
Record msgs := Msgs {
  g_mem : mem;
  g_obj : http;
  g_req : http;
  g_olines : list (list Z * Z);
  g_rlines : list (list Z * Z);
  g_url : list Z;
}.

Definition nul_free (l : list Z) : Prop := Forall (fun c => 0 < c < 256) l.

Record msgs_ok (g : msgs) : Prop := {
  mo_obj : has_lines (g_mem g) (g_obj g) (g_olines g);
  mo_req : has_lines (g_mem g) (g_req g) (g_rlines g);
  mo_onul : Forall (fun x => nul_free (fst x)) (g_olines g);
  mo_rnul : Forall (fun x => nul_free (fst x)) (g_rlines g);
  mo_url : exists t, hd (g_req g) !! HTTP_HDR_URL = Some t /\ holds (g_mem g) t (g_url g);
  mo_unul : nul_free (g_url g);
}.

(** The library for regular expressions: compiling gives octets, and matching
    looks at no more than those. *)
Class Pcre (compile : list Z -> option (list Z)) (exec : list Z -> list Z -> Z) : Prop := {
  pcre_octets s re : compile s = Some re -> Forall is_byte re /\ Z.of_nat (length re) < 2 ^ 32;
  pcre_own s re rest v : compile s = Some re -> exec (re ++ rest) v = exec re v;
}.

Section Tests.

Context (compile : list Z -> option (list Z)) (exec : list Z -> list Z -> Z).

(** *** What a test means *)

Definition hdr_value (name : list Z) (ls : list (list Z * Z)) : option (list Z) :=
  '(_, l) ← first_named (name ++ [58]) ls 0; Some (value (name ++ [58]) l).

Definition field_value (g : msgs) (f : field) : option (list Z) :=
  match f with
  | Url => Some (g_url g)
  | ReqHdr name => hdr_value name (g_rlines g)
  | ObjHdr name => hdr_value name (g_olines g)
  end.

Definition regex (a v : list Z) : bool :=
  match compile a with Some re => 0 <=? exec re v | None => false end.

(** A test on a header that is not there fails, its negation succeeds. *)
Definition holds_on (g : msgs) (t : test) : bool :=
  match field_value g (t_field t), t_cond t with
  | Some v, Eq => bool_decide (v = t_arg t)
  | Some v, Neq => negb (bool_decide (v = t_arg t))
  | Some v, Match => regex (t_arg t) v
  | Some v, Nmatch => negb (regex (t_arg t) v)
  | None, (Eq | Match) => false
  | None, (Neq | Nmatch) => true
  end.

(** *** How a test is written *)

Definition field_text (f : field) : list Z :=
  match f with
  | Url => str "req.url"
  | ReqHdr name => str "req.http." ++ name
  | ObjHdr name => str "obj.http." ++ name
  end.

Definition cond_text (c : cond) : list Z :=
  match c with Eq => str "==" | Neq => str "!=" | Match => str "~" | Nmatch => str "!~" end.

Definition test_text (t : test) : list Z :=
  field_text (t_field t) ++ str " " ++ cond_text (t_cond t) ++ str " " ++ t_arg t.

Fixpoint tests_text (ts : list test) : list Z :=
  match ts with
  | [] => []
  | t :: ts => test_text t ++ (if bool_decide (ts = []) then [] else str " && ") ++ tests_text ts
  end.

(** *** How it is stored *)

Definition be32 (u : Z) : list Z :=
  [Z.land (Z.shiftr u 24) 0xff; Z.land (Z.shiftr u 16) 0xff; Z.land (Z.shiftr u 8) 0xff; Z.land u 0xff].

Definition lump (l : list Z) : list Z := be32 (Z.of_nat (length l)) ++ l.

Definition name_octets (name : list Z) : list Z :=
  (Z.of_nat (length name) + 1) :: name ++ [58; 0].

Definition field_octets (f : field) : list Z :=
  match f with
  | Url => [BAN_ARG_URL]
  | ReqHdr name => BAN_ARG_REQHTTP :: name_octets name
  | ObjHdr name => BAN_ARG_OBJHTTP :: name_octets name
  end.

Definition cond_octet (c : cond) : Z :=
  match c with
  | Eq => BAN_OPER_EQ | Neq => BAN_OPER_NEQ | Match => BAN_OPER_MATCH | Nmatch => BAN_OPER_NMATCH
  end.

Definition is_regex (c : cond) : bool := match c with Match | Nmatch => true | _ => false end.

Definition regex_octets (t : test) : list Z :=
  if is_regex (t_cond t) then lump (default [] (compile (t_arg t))) else [].

Definition test_octets (t : test) : list Z :=
  field_octets (t_field t) ++ lump (t_arg t ++ [0]) ++ cond_octet (t_cond t) :: regex_octets t.

Definition tests_octets (ts : list test) : list Z := concat (map test_octets ts).

Definition is_req_test (t : test) : bool := match t_field t with ObjHdr _ => false | _ => true end.

Definition spec_octets (t0 : Z) (ts : list test) : list Z :=
  double_bytes t0 ++ be32 (13 + Z.of_nat (length (tests_octets ts))) ++
  (if existsb is_req_test ts then 1 else 0) :: tests_octets ts.

(** *** Well-formed tests *)

Definition name_ok (name : list Z) : Prop := nul_free name /\ (length name <= 126)%nat.

Record test_ok (t : test) : Prop := {
  to_name : match t_field t with Url => True | ReqHdr n | ObjHdr n => name_ok n end;
  to_arg : nul_free (t_arg t);
  to_len : Z.of_nat (length (test_octets t)) < 2 ^ 29;
  to_re : is_regex (t_cond t) = true -> is_Some (compile (t_arg t));
}.

End Tests.

(** ** Lemmas on octets *)

Lemma length_be32 u : length (be32 u) = 4%nat.
Proof. done. Qed.

Lemma be32_dec u r : 0 <= u < 2 ^ 32 -> vbe32dec (be32 u ++ r) = Ok u.
Proof. intros Hu. unfold be32. cbn [app]. rewrite vbe32dec_be by apply enc_byte. by rewrite be_value_enc32. Qed.

Lemma be32_enc u : vbe32enc [0; 0; 0; 0] u = Ok (be32 u).
Proof. apply vbe32enc_form. Qed.

Lemma be32_bytes u : Forall is_byte (be32 u).
Proof. unfold be32. repeat constructor; apply enc_byte. Qed.

Lemma nul_free_bytes l : nul_free l -> Forall is_byte l.
Proof. intros H. eapply Forall_impl; [exact H|]. unfold is_byte. cbn. lia. Qed.

Lemma map_u8_nul_free l : nul_free l -> map u8 l = l.
Proof. intros H. by apply Vsb.map_u8, nul_free_bytes. Qed.

Lemma length_lump l : length (lump l) = (4 + length l)%nat.
Proof. unfold lump. by rewrite length_app. Qed.

Lemma get_lump_ok pre l rest : Z.of_nat (length l) < 2 ^ 32 ->
  ban_get_lump (pre ++ lump l ++ rest) (Z.of_nat (length pre)) =
  Ok (Z.of_nat (length pre) + 4, Z.of_nat (length pre) + Z.of_nat (length (lump l))).
Proof.
  intros Hl. unfold ban_get_lump. rewrite drop_at by done. unfold lump. rewrite <- app_assoc.
  rewrite be32_dec by lia. rewrite bind_Ret. unfold mret, res_ret. do 2 f_equal.
  rewrite length_app, length_be32. lia.
Qed.

Lemma from_lump pre l rest :
  from_spec (pre ++ lump l ++ rest) (Z.of_nat (length pre) + 4) = l ++ rest.
Proof.
  unfold from_spec, lump. rewrite <- app_assoc, (app_assoc pre).
  apply drop_at. rewrite length_app, length_be32. lia.
Qed.

Lemma cstring_run l r : nul_free l -> Vsb.cstring (l ++ 0 :: r) = Ok l.
Proof.
  intros H. induction H as [|c l Hc H IH]; [done|]. cbn [app Vsb.cstring].
  replace (c =? 0) with false by lia. by rewrite IH.
Qed.

(** [strcmp] between memory and a spec. *)
Lemma strcmp_ok m v : forall p a r, mapped m p (v ++ [0]) -> nul_free v -> nul_free a ->
  strcmp_eq m p (a ++ 0 :: r) = Ok (bool_decide (v = a)).
Proof.
  induction v as [|x v IH]; intros p a r Hm Hv Ha; cbn [app] in Hm; apply mapped_cons in Hm as [H0 Hm].
  - destruct a as [|y a]; cbn [app strcmp_eq]; rewrite (peek_ok _ _ _ H0), bind_Ret; [done|].
    apply Forall_cons in Ha as [Hy _]. by replace (0 =? y) with false by lia.
  - apply Forall_cons in Hv as [Hx Hv].
    destruct a as [|y a]; cbn [app strcmp_eq]; rewrite (peek_ok _ _ _ H0), bind_Ret.
    { by replace (x =? 0) with false by lia. }
    apply Forall_cons in Ha as [Hy Ha]. destruct (Z.eqb_spec x y) as [->|Hne]; cbn [negb].
    + replace (y =? 0) with false by lia. rewrite (IH (p + 1)) by done. f_equal.
      apply bool_decide_ext. split; congruence.
    + rewrite bool_decide_false by congruence. done.
Qed.

Lemma subject_ok m p v : mapped m p (v ++ [0]) -> nul_free v ->
  (e ← str_end m p; Mem.region m p (Z.to_nat (e - p))) = Ok v.
Proof.
  intros Hm Hv. unfold str_end. rewrite (skip_run _ m p v 0 Hm); [|..|done].
  - rewrite bind_Ret. replace (Z.to_nat _) with (length v) by lia.
    apply region_run. by apply mapped_app in Hm as [? _].
  - eapply Forall_impl; [exact Hv|]. cbn. intros. lia.
Qed.

(** ** Taking a spec apart *)

Section Pcre.

Context (compile : list Z -> option (list Z)) (exec : list Z -> list Z -> Z) `{!Pcre compile exec}.

Notation test_octets := (test_octets compile).
Notation tests_octets := (tests_octets compile).
Notation regex_octets := (regex_octets compile).

Definition field_tag (f : field) : Z :=
  match f with Url => BAN_ARG_URL | ReqHdr _ => BAN_ARG_REQHTTP | ObjHdr _ => BAN_ARG_OBJHTTP end.

Definition field_name (f : field) : option (list Z) :=
  match f with Url => None | ReqHdr n => Some n | ObjHdr n => Some n end.

(** What [ban_iter] leaves for the test [t]. *)
Record bt_for (sp : list Z) (bt : ban_test) (t : test) : Prop := {
  bf_arg1 : arg1 bt = field_tag (t_field t);
  bf_name n : field_name (t_field t) = Some n ->
    exists p r, arg1_spec bt = Some p /\ 0 <= p /\ from_spec sp p = name_octets n ++ r;
  bf_oper : oper bt = cond_octet (t_cond t);
  bf_arg2 : exists r, from_spec sp (arg2 bt) = t_arg t ++ 0 :: r;
  bf_re : is_regex (t_cond t) = true ->
    exists p r, arg2_spec bt = Some p /\ from_spec sp p = default [] (compile (t_arg t)) ++ r;
}.

Lemma octets_le_field f : (1 <= length (field_octets f))%nat.
Proof. destruct f; cbn; lia. Qed.

Lemma octets_len t :
  length (test_octets t) =
  (length (field_octets (t_field t)) + length (lump (t_arg t ++ [0%Z])) + 1 + length (regex_octets t))%nat.
Proof. unfold BanSpec.test_octets. rewrite !length_app. cbn [length]. lia. Qed.

Lemma iter_field sp pre f rest : sp = pre ++ field_octets f ++ rest ->
  exists a1s,
  (a1 ← rd8 sp (Z.of_nat (length pre));
   let bs := Z.of_nat (length pre) + 1 in
   '(a1s, bs) ←
    (if (a1 =? BAN_ARG_REQHTTP) || (a1 =? BAN_ARG_OBJHTTP) then
       l ← rd8 sp bs; mret (Some bs, bs + l + 2)
     else mret (None, bs));
   mret (a1, a1s, bs)) =
  Ok (field_tag f, a1s, Z.of_nat (length (pre ++ field_octets f))) /\
  (forall n, field_name f = Some n ->
    exists p r, a1s = Some p /\ 0 <= p /\ from_spec sp p = name_octets n ++ r).
Proof.
  intros ->. unfold rd8.
  assert (Hname : forall tag n, field_octets f = tag :: name_octets n ->
    (tag =? BAN_ARG_REQHTTP) || (tag =? BAN_ARG_OBJHTTP) = true -> tag = field_tag f ->
    field_name f = Some n ->
    exists a1s,
    (a1 ← rd (pre ++ field_octets f ++ rest) (Z.of_nat (length pre));
     let bs := Z.of_nat (length pre) + 1 in
     '(a1s, bs) ←
      (if (a1 =? BAN_ARG_REQHTTP) || (a1 =? BAN_ARG_OBJHTTP) then
         l ← rd (pre ++ field_octets f ++ rest) bs; mret (Some bs, bs + l + 2)
       else mret (None, bs));
     mret (a1, a1s, bs)) =
    Ok (field_tag f, a1s, Z.of_nat (length (pre ++ field_octets f))) /\
    (forall n, field_name f = Some n ->
      exists p r, a1s = Some p /\ 0 <= p /\
        from_spec (pre ++ field_octets f ++ rest) p = name_octets n ++ r)).
  { intros tag n Ef Htag Etag En. rewrite Ef. cbn [app].
    rewrite (rd_at pre tag _ _ eq_refl), bind_Ret. cbv zeta. rewrite Htag.
    assert (E1 : rd (pre ++ tag :: name_octets n ++ rest) (Z.of_nat (length pre) + 1) =
      Ok (Z.of_nat (length n) + 1)).
    { change (pre ++ tag :: name_octets n ++ rest) with
        (pre ++ [tag] ++ (Z.of_nat (length n) + 1) :: (n ++ [58; 0]) ++ rest).
      rewrite app_assoc. apply rd_at. rewrite length_app. cbn. lia. }
    rewrite E1, bind_Ret. eexists. split.
    - unfold mbind, res_bind, mret, res_ret. rewrite Etag. do 2 f_equal.
      rewrite length_app. cbn [length name_octets]. rewrite length_app. cbn [length]. lia.
    - intros n' En'. assert (n' = n) as -> by congruence. exists (Z.of_nat (length pre) + 1), rest.
      split; [done|]. split; [lia|]. unfold from_spec.
      change (pre ++ tag :: name_octets n ++ rest) with (pre ++ [tag] ++ name_octets n ++ rest).
      rewrite app_assoc. apply drop_at. rewrite length_app. cbn. lia. }
  destruct f as [|n|n]; [|by apply (Hname BAN_ARG_REQHTTP n)|by apply (Hname BAN_ARG_OBJHTTP n)].
  cbn [field_octets app]. rewrite (rd_at pre _ _ _ eq_refl). eexists. split; [|done].
  cbn. rewrite length_app. cbn [length]. unfold mret, res_ret. do 2 f_equal. lia.
Qed.

Lemma ban_iter_ok sp pre t rest : sp = pre ++ test_octets t ++ rest ->
  Z.of_nat (length (t_arg t)) + 1 < 2 ^ 32 ->
  (is_regex (t_cond t) = true -> is_Some (compile (t_arg t))) ->
  exists bt, ban_iter sp (Z.of_nat (length pre)) = Ok (bt, Z.of_nat (length (pre ++ test_octets t))) /\
    bt_for sp bt t.
Proof.
  intros Esp Hlen Hre.
  assert (Ef : sp = pre ++ field_octets (t_field t) ++
      (lump (t_arg t ++ [0]) ++ (cond_octet (t_cond t) :: regex_octets t) ++ rest)).
  { rewrite Esp. unfold BanSpec.test_octets. by rewrite <- !app_assoc. }
  destruct (iter_field sp pre _ _ Ef) as (a1s & E1 & Hn).
  apply bind_Ok in E1 as (a1 & Ea1 & E1). cbv zeta in E1. apply bind_Ok in E1 as ([a1s' bs] & Ea1s & E1).
  injection E1 as -> -> ->. unfold ban_iter. rewrite Ea1, bind_Ret. cbv zeta. rewrite Ea1s, bind_Ret.
  set (pre1 := pre ++ field_octets (t_field t)) in *. rewrite app_assoc in Ef. fold pre1 in Ef.
  pose proof (get_lump_ok pre1 (t_arg t ++ [0]) ((cond_octet (t_cond t) :: regex_octets t) ++ rest)
    ltac:(rewrite length_app; cbn [length]; lia)) as G1. rewrite <- Ef in G1. rewrite G1, bind_Ret.
  set (pre2 := pre1 ++ lump (t_arg t ++ [0])).
  assert (Ef2 : sp = pre2 ++ cond_octet (t_cond t) :: regex_octets t ++ rest)
    by (rewrite Ef; unfold pre2; by rewrite <- app_assoc).
  assert (L2 : Z.of_nat (length pre1) + Z.of_nat (length (lump (t_arg t ++ [0]))) = Z.of_nat (length pre2))
    by (unfold pre2; rewrite length_app; lia).
  rewrite L2. unfold rd8.
  pose proof (rd_at pre2 (cond_octet (t_cond t)) (regex_octets t ++ rest) _ eq_refl) as G2.
  rewrite <- Ef2 in G2. rewrite G2, bind_Ret. cbv zeta.
  set (pre3 := pre2 ++ [cond_octet (t_cond t)]).
  assert (L3 : Z.of_nat (length pre2) + 1 = Z.of_nat (length pre3))
    by (unfold pre3; rewrite length_app; cbn; lia).
  assert (Ef3 : sp = pre3 ++ regex_octets t ++ rest) by (rewrite Ef2; unfold pre3; by rewrite <- app_assoc).
  rewrite L3.
  assert (exists a2s, (if (cond_octet (t_cond t) =? BAN_OPER_MATCH) || (cond_octet (t_cond t) =? BAN_OPER_NMATCH)
      then '(r, bs) ← ban_get_lump sp (Z.of_nat (length pre3)); mret (Some r, bs)
      else mret (None, Z.of_nat (length pre3))) = Ok (a2s, Z.of_nat (length (pre ++ test_octets t))) /\
    (is_regex (t_cond t) = true ->
      exists p r, a2s = Some p /\ from_spec sp p = default [] (compile (t_arg t)) ++ r)) as (a2s & E3 & Hr).
  { assert (Lend : length (pre ++ test_octets t) = length (pre3 ++ regex_octets t)).
    { unfold pre3, pre2, pre1. rewrite length_app, octets_len, !length_app. cbn [length]. lia. }
    rewrite Lend. unfold BanSpec.regex_octets in *.
    destruct (is_regex (t_cond t)) eqn:Er.
    - replace (_ || _) with true by (destruct (t_cond t); done).
      destruct (Hre eq_refl) as [re Ere]. rewrite Ere in *.
      change (default [] (Some re)) with re in *.
      pose proof (pcre_octets _ _ Ere) as [_ Hb].
      pose proof (get_lump_ok pre3 re rest Hb) as G3. rewrite <- Ef3 in G3. rewrite G3, bind_Ret.
      eexists. split.
      + unfold mret, res_ret. do 2 f_equal. rewrite length_app. lia.
      + intros _. eexists _, rest. split; [done|]. rewrite Ef3. apply from_lump.
    - replace (_ || _) with false by (destruct (t_cond t); done). eexists. split; [by rewrite app_nil_r|done]. }
  rewrite E3, bind_Ret. eexists. split; [reflexivity|]. split; cbn [arg1 arg1_spec oper arg2 arg2_spec].
  - done.
  - exact Hn.
  - done.
  - eexists. rewrite Ef, from_lump. by rewrite <- app_assoc.
  - exact Hr.
Qed.

(** ** Evaluating *)

Lemma from_rd sp p c r : 0 <= p -> from_spec sp p = c :: r ->
  rd sp p = Ok c /\ from_spec sp (p + 1) = r.
Proof.
  unfold from_spec. intros Hp E.
  assert (Hc : sp !! Z.to_nat p = Some c) by (rewrite <- (Nat.add_0_r (Z.to_nat p)), <- lookup_drop, E; done).
  split; [by apply rd_Ok|]. replace (Z.to_nat (p + 1)) with (S (Z.to_nat p)) by lia.
  apply drop_S in Hc. congruence.
Qed.

Lemma name_header name : nul_free name -> header_name (name ++ [58]).
Proof.
  intros H. split; [apply last_snoc|]. apply Forall_app. split; [|by repeat constructor].
  eapply Forall_impl; [exact H|]. cbn. lia.
Qed.

Lemma nul_free_drop_while P l : nul_free l -> nul_free (drop_while P l).
Proof.
  intros H. destruct (drop_while_split P l) as (l1 & E & _). unfold nul_free in *.
  rewrite E in H. by apply Forall_app in H as [_ ?].
Qed.

Lemma first_named_in hdr ls i j l : first_named hdr ls i = Some (j, l) -> exists f, (l, f) ∈ ls.
Proof.
  revert i. induction ls as [|[l0 f] ls IH]; intros i; cbn [first_named]; [done|].
  destruct (named hdr (fst (l0, f))).
  - intros [= _ <-]. exists f. by left.
  - intros H. destruct (IH _ H) as [f' Hf]. exists f'. by right.
Qed.

Lemma GetHdr_spec_ok m hp ls sp p name r : has_lines m hp ls ->
  Forall (fun x => nul_free (fst x)) ls -> nul_free name -> 0 <= p ->
  from_spec sp p = name_octets name ++ r ->
  exists o, GetHdr_spec m hp sp p = Ok o /\
  match hdr_value name ls, o with
  | None, None => True
  | Some v, Some a => mapped m a (v ++ [0]) /\ nul_free v
  | _, _ => False
  end.
Proof.
  intros Hl Hnul Hn Hp Hsp. unfold name_octets in Hsp. cbn [app] in Hsp.
  destruct (from_rd _ _ _ _ Hp Hsp) as [E1 E2]. unfold from_spec in E2.
  unfold GetHdr_spec, rd8. rewrite E1, bind_Ret, E2, <- app_assoc. cbn [app].
  assert (Hc : Vsb.cstring (name ++ 58 :: 0 :: r) = Ok (name ++ [58])).
  { pose proof (cstring_run (name ++ [58]) r) as H. rewrite <- app_assoc in H. apply H.
    apply Forall_app. split; [done|by repeat constructor]. }
  rewrite Hc, bind_Ret.
  assert (Hlen : (Z.of_nat (length name) + 1 =? Z.of_nat (length (name ++ [58]))) = true)
    by (apply Z.eqb_eq; rewrite length_app; simpl; lia).
  rewrite Hlen. cbn [vassert]. rewrite bind_Ret.
  destruct (GetHdr_ok m hp ls (name ++ [58]) Hl (name_header _ Hn)) as (o & E & Ho).
  exists o. split; [done|]. unfold hdr_value.
  destruct (first_named (name ++ [58]) ls 0) as [[j l]|] eqn:Ef; [|done].
  destruct o as [a|]; [|done]. cbn. split; [done|].
  destruct (first_named_in _ _ _ _ _ Ef) as [f Hin]. apply nul_free_drop_while.
  rewrite Forall_forall in Hnul. specialize (Hnul _ Hin). cbn in Hnul.
  unfold nul_free in *. rewrite <- (take_drop (length (name ++ [58])) l) in Hnul.
  by apply Forall_app in Hnul as [_ ?].
Qed.

(** The string a test looks at. *)
Lemma test_field_ok g sp bt t : msgs_ok g -> test_ok compile t -> bt_for sp bt t ->
  exists o,
  (if arg1 bt =? BAN_ARG_URL then
     t ← get_hd (g_req g) HTTP_HDR_URL;
     mret (if b t =? 0 then None else Some (b t))
   else if arg1 bt =? BAN_ARG_REQHTTP then
     p ← deref (arg1_spec bt); GetHdr_spec (g_mem g) (g_req g) sp p
   else if arg1 bt =? BAN_ARG_OBJHTTP then
     p ← deref (arg1_spec bt); GetHdr_spec (g_mem g) (g_obj g) sp p
   else Fail FAssert) = Ok o /\
  match field_value g (t_field t), o with
  | None, None => True
  | Some v, Some a => mapped (g_mem g) a (v ++ [0]) /\ nul_free v
  | _, _ => False
  end.
Proof.
  intros Hg Ht Hb. rewrite (bf_arg1 _ _ _ Hb). pose proof (bf_name _ _ _ Hb) as Hn.
  pose proof (to_name _ _ Ht) as Hok. destruct (t_field t) as [|n|n]; cbn [field_name field_tag field_value] in *.
  - destruct (mo_url g Hg) as (tx & Etx & Hb0 & _ & Hm & _). unfold get_hd.
    change (BAN_ARG_URL =? BAN_ARG_URL) with true. cbn match. rewrite Etx. cbn [deref].
    rewrite bind_Ret. replace (b tx =? 0) with false by lia. eexists. split; [done|].
    split; [done|apply Hg].
  - change (BAN_ARG_REQHTTP =? BAN_ARG_URL) with false. change (BAN_ARG_REQHTTP =? BAN_ARG_REQHTTP) with true.
    cbn match. destruct (Hn n eq_refl) as (p & r & -> & Hp & Hf). cbn [deref]. rewrite bind_Ret.
    destruct Hok. by apply (GetHdr_spec_ok _ _ _ _ _ _ r (mo_req g Hg) (mo_rnul g Hg)).
  - change (BAN_ARG_OBJHTTP =? BAN_ARG_URL) with false. change (BAN_ARG_OBJHTTP =? BAN_ARG_REQHTTP) with false.
    change (BAN_ARG_OBJHTTP =? BAN_ARG_OBJHTTP) with true.
    cbn match. destruct (Hn n eq_refl) as (p & r & -> & Hp & Hf). cbn [deref]. rewrite bind_Ret.
    destruct Hok. by apply (GetHdr_spec_ok _ _ _ _ _ _ r (mo_obj g Hg) (mo_onul g Hg)).
Qed.

Lemma ban_regex_ok m sp bt t a v : test_ok compile t -> bt_for sp bt t -> is_regex (t_cond t) = true ->
  mapped m a (v ++ [0]) -> nul_free v ->
  exists r, ban_regex exec m sp (arg2_spec bt) a = Ok r /\ regex compile exec (t_arg t) v = (0 <=? r).
Proof.
  intros Ht Hb Hre Hm Hv. destruct (bf_re _ _ _ Hb Hre) as (p & r & Ep & Ef).
  destruct (to_re _ _ Ht Hre) as [re Ere]. unfold ban_regex. rewrite Ep. cbn [deref]. rewrite bind_Ret.
  pose proof (subject_ok m a v Hm Hv) as Hs. apply bind_Ok in Hs as (e' & -> & Hs). rewrite bind_Ret, Hs, bind_Ret.
  eexists. split; [done|]. unfold regex. rewrite Ere, Ef, Ere. cbn [default].
  by rewrite (pcre_own _ _ _ _ Ere).
Qed.

Lemma ban_test_holds_ok g sp bt t : msgs_ok g -> test_ok compile t -> bt_for sp bt t ->
  ban_test_holds exec (g_mem g) (g_obj g) (g_req g) sp bt = Ok (holds_on compile exec g t).
Proof.
  intros Hg Ht Hb. destruct (test_field_ok g sp bt t Hg Ht Hb) as (o & E & Ho).
  unfold ban_test_holds. rewrite E, bind_Ret, (bf_oper _ _ _ Hb). unfold holds_on.
  destruct (bf_arg2 _ _ _ Hb) as [r Ea].
  pose proof (fun a v H1 H2 H3 => ban_regex_ok (g_mem g) sp bt t a v Ht Hb H1 H2 H3) as Hre.
  destruct (field_value g (t_field t)) as [v|], o as [a|]; try done.
  - destruct Ho as [Hm Hv]. destruct (t_cond t); cbn [cond_octet] in *.
    + change (BAN_OPER_EQ =? BAN_OPER_EQ) with true. cbn match. rewrite Ea.
      by apply strcmp_ok; [..|apply Ht].
    + change (BAN_OPER_NEQ =? BAN_OPER_EQ) with false. change (BAN_OPER_NEQ =? BAN_OPER_NEQ) with true.
      cbn match. rewrite Ea, (strcmp_ok (g_mem g) v), bind_Ret by (done || apply Ht). done.
    + change (BAN_OPER_MATCH =? BAN_OPER_EQ) with false. change (BAN_OPER_MATCH =? BAN_OPER_NEQ) with false.
      change (BAN_OPER_MATCH =? BAN_OPER_MATCH) with true.
      cbn match. destruct (Hre a v eq_refl Hm Hv) as (x & -> & ->). rewrite bind_Ret.
      unfold mret, res_ret. f_equal. lia.
    + change (BAN_OPER_NMATCH =? BAN_OPER_EQ) with false. change (BAN_OPER_NMATCH =? BAN_OPER_NEQ) with false.
      change (BAN_OPER_NMATCH =? BAN_OPER_MATCH) with false. change (BAN_OPER_NMATCH =? BAN_OPER_NMATCH) with true.
      cbn match. destruct (Hre a v eq_refl Hm Hv) as (x & -> & ->). by rewrite bind_Ret.
  - by destruct (t_cond t).
Qed.

Lemma octets_pos t : (1 <= length (test_octets t))%nat.
Proof. rewrite octets_len. pose proof (octets_le_field (t_field t)). lia. Qed.

Lemma arg_short t : test_ok compile t -> Z.of_nat (length (t_arg t)) + 1 < 2 ^ 32.
Proof. intros H. pose proof (to_len _ _ H) as Hl. rewrite octets_len, length_lump, length_app in Hl. cbn [length] in Hl. lia. Qed.

Lemma evaluate_loop_ok g ts : msgs_ok g -> Forall (test_ok compile) ts -> forall pre fuel tests,
  (length ts <= fuel)%nat ->
  exists n, evaluate_loop exec fuel (g_mem g) (g_obj g) (g_req g) (pre ++ tests_octets ts)
    (Z.of_nat (length pre)) (Z.of_nat (length (pre ++ tests_octets ts))) tests =
  Ok (forallb (holds_on compile exec g) ts, n).
Proof.
  intros Hg. induction 1 as [|t ts Ht Hts IH]; intros pre fuel tests Hf; cbn [BanSpec.tests_octets map concat].
  - exists tests. rewrite app_nil_r. destruct fuel; cbn [evaluate_loop];
      by rewrite (proj2 (Z.leb_le _ _)) by lia.
  - destruct fuel as [|fuel]; [cbn in Hf; lia|]. cbn [evaluate_loop length] in *.
    pose proof (octets_pos t). fold (tests_octets ts).
    rewrite (proj2 (Z.leb_gt _ _)) by (rewrite !length_app; lia).
    destruct (ban_iter_ok (pre ++ test_octets t ++ tests_octets ts) pre t (tests_octets ts) eq_refl
      (arg_short _ Ht) (to_re _ _ Ht)) as (bt & Ei & Hb).
    rewrite Ei, bind_Ret, (ban_test_holds_ok g _ bt t Hg Ht Hb), bind_Ret. cbn [forallb].
    destruct (holds_on compile exec g t); cbn [negb andb]; [|by eexists].
    rewrite app_assoc. apply IH. lia.
Qed.

Lemma length_double_bytes t0 : length (double_bytes t0) = 8%nat.
Proof. done. Qed.

(** The spec behind its fixed head, and the head itself. *)
Lemma spec_split t0 ts :
  exists pre, spec_octets compile t0 ts = pre ++ tests_octets ts /\ length pre = 13%nat.
Proof.
  unfold spec_octets. eexists (double_bytes t0 ++ be32 _ ++ [_]).
  rewrite <- !app_assoc. by split.
Qed.

Lemma length_spec t0 ts : length (spec_octets compile t0 ts) = (13 + length (tests_octets ts))%nat.
Proof. destruct (spec_split t0 ts) as (pre & -> & E). by rewrite length_app, E. Qed.

Lemma ban_len_ok t0 ts : 13 + Z.of_nat (length (tests_octets ts)) < 2 ^ 32 ->
  ban_len (spec_octets compile t0 ts) = Ok (Z.of_nat (length (spec_octets compile t0 ts))).
Proof.
  intros Hl. rewrite length_spec. unfold ban_len, spec_octets.
  change 8%nat with (length (double_bytes t0)) at 1. rewrite drop_app_length.
  rewrite be32_dec by lia. f_equal. lia.
Qed.

Lemma tests_octets_fuel ts : (length ts <= length (tests_octets ts))%nat.
Proof.
  induction ts as [|t ts IH]; cbn; [lia|]. rewrite length_app. pose proof (octets_pos t).
  unfold BanSpec.tests_octets in IH. lia.
Qed.

Lemma ban_evaluate_ok g t0 ts tests : msgs_ok g -> Forall (test_ok compile) ts ->
  13 + Z.of_nat (length (tests_octets ts)) < 2 ^ 32 ->
  exists n, ban_evaluate exec (g_mem g) (spec_octets compile t0 ts) (g_obj g) (g_req g) tests =
    Ok (forallb (holds_on compile exec g) ts, n).
Proof.
  intros Hg Hts Hl. unfold ban_evaluate. rewrite ban_len_ok, bind_Ret by done.
  destruct (spec_split t0 ts) as (pre & Es & Ep). rewrite Es. change 13 with (Z.of_nat 13). rewrite <- Ep.
  apply evaluate_loop_ok; [done|done|]. rewrite length_app. pose proof (tests_octets_fuel ts). lia.
Qed.

(** ** Rendering *)

Lemma render_http_ok sp bt t prefix n : bt_for sp bt t -> field_name (t_field t) = Some n ->
  render_http sp prefix (arg1_spec bt) = Ok (prefix ++ n).
Proof.
  intros Hb Hn. destruct (bf_name _ _ _ Hb n Hn) as (p & r & -> & Hp & Hf).
  unfold name_octets in Hf. cbn [app] in Hf. destruct (from_rd _ _ _ _ Hp Hf) as [E1 E2].
  unfold render_http, rd8. cbn [deref]. rewrite bind_Ret, E1, bind_Ret, E2, <- app_assoc.
  replace (Z.to_nat (Z.of_nat (length n) + 1 - 1)) with (length n) by lia.
  by rewrite take_app_length.
Qed.

Lemma render_loop_ok ts : Forall (test_ok compile) ts -> forall pre fuel, (length ts <= fuel)%nat ->
  render_loop fuel (pre ++ tests_octets ts) (Z.of_nat (length pre))
    (Z.of_nat (length (pre ++ tests_octets ts))) = Ok (tests_text ts).
Proof.
  induction 1 as [|t ts Ht Hts IH]; intros pre fuel Hf; cbn [BanSpec.tests_octets map concat tests_text].
  - rewrite app_nil_r. destruct fuel; cbn [render_loop]; by rewrite (proj2 (Z.leb_le _ _)) by lia.
  - destruct fuel as [|fuel]; [cbn in Hf; lia|]. cbn [render_loop length] in *.
    pose proof (octets_pos t). fold (tests_octets ts).
    rewrite (proj2 (Z.leb_gt _ _)) by (rewrite !length_app; lia).
    destruct (ban_iter_ok (pre ++ test_octets t ++ tests_octets ts) pre t (tests_octets ts) eq_refl
      (arg_short _ Ht) (to_re _ _ Ht)) as (bt & Ei & Hb).
    rewrite Ei, bind_Ret, (bf_arg1 _ _ _ Hb), (bf_oper _ _ _ Hb).
    assert (Ef : (if field_tag (t_field t) =? BAN_ARG_URL then mret (str "req.url")
        else if field_tag (t_field t) =? BAN_ARG_REQHTTP then
          render_http (pre ++ test_octets t ++ tests_octets ts) (str "req.http.") (arg1_spec bt)
        else if field_tag (t_field t) =? BAN_ARG_OBJHTTP then
          render_http (pre ++ test_octets t ++ tests_octets ts) (str "obj.http.") (arg1_spec bt)
        else Fail FAssert) = Ok (field_text (t_field t))).
    { pose proof (fun pf n => render_http_ok _ bt t pf n Hb) as Hr.
      destruct (t_field t) as [|n|n]; cbn [field_tag field_text field_name] in *; [done| |];
        by apply Hr. }
    rewrite Ef, bind_Ret.
    assert (Eo : render_oper (cond_octet (t_cond t)) = Ok (str " " ++ cond_text (t_cond t) ++ str " "))
      by (by destruct (t_cond t)).
    rewrite Eo, bind_Ret. destruct (bf_arg2 _ _ _ Hb) as [r ->].
    rewrite cstring_run, bind_Ret by apply Ht.
    pose proof (IH (pre ++ test_octets t) fuel ltac:(lia)) as Ei2. rewrite <- app_assoc in Ei2.
    rewrite Ei2, bind_Ret. unfold mret, res_ret, test_text. f_equal.
    rewrite <- !app_assoc. do 5 f_equal.
    destruct ts as [|t' ts]; cbn [BanSpec.tests_octets map concat].
    + by rewrite (app_nil_r (test_octets t)), Z.ltb_irrefl.
    + pose proof (octets_pos t'). rewrite (proj2 (Z.ltb_lt _ _)) by (rewrite !length_app; lia). done.
Qed.

Lemma ban_render_ok t0 ts : Forall (test_ok compile) ts ->
  13 + Z.of_nat (length (tests_octets ts)) < 2 ^ 32 ->
  ban_render (spec_octets compile t0 ts) = Ok (tests_text ts).
Proof.
  intros Hts Hl. unfold ban_render. rewrite ban_len_ok, bind_Ret by done.
  destruct (spec_split t0 ts) as (pre & Es & Ep). rewrite Es. change 13 with (Z.of_nat 13). rewrite <- Ep.
  apply render_loop_ok; [done|]. rewrite length_app. pose proof (tests_octets_fuel ts). lia.
Qed.

(** ** Building *)

Section Building.

Context (malloc : Z -> option (list Z)) (Hmalloc : Vsb.total_malloc malloc).

(** The ban under construction, with the octets written so far. *)
Definition builds (b : ban) (fl : Z) (l : list Z) : Prop :=
  exists s, b = mkBan 0 fl [] (Some s) None /\ Vsb.grows s l.

Lemma builds_new : exists b, BAN_New malloc = Ok (Some b) /\ builds b 0 [].
Proof.
  destruct (Vsb.new_auto_grows malloc Hmalloc) as (s & E & Hg).
  unfold BAN_New. rewrite E, bind_Ret. eexists. split; [done|]. by exists s.
Qed.

Lemma builds_putc b fl l c : builds b fl l -> Z.of_nat (length l) < Vsb.LIMIT -> is_byte c ->
  exists b', ban_putc malloc b c = Ok b' /\ builds b' fl (l ++ [c]).
Proof.
  intros (s & -> & Hg) Hl Hc. destruct (Vsb.putc_grows malloc Hmalloc s l c Hg Hl) as (s' & E & Hg').
  unfold ban_putc. cbn [vsb_of b_vsb deref]. rewrite bind_Ret, E, bind_Ret. eexists. split; [done|].
  rewrite Vsb.u8_byte in Hg' by done. by exists s'.
Qed.

Lemma builds_bcat b fl l d : builds b fl l -> Z.of_nat (length l + length d) <= Vsb.LIMIT -> Forall is_byte d ->
  exists b', ban_bcat malloc b d = Ok b' /\ builds b' fl (l ++ d).
Proof.
  intros (s & -> & Hg) Hl Hd. destruct (Vsb.bcat_grows malloc Hmalloc d s l Hg Hl) as (s' & E & Hg').
  unfold ban_bcat. cbn [vsb_of b_vsb deref]. rewrite bind_Ret, E, bind_Ret. eexists. split; [done|].
  rewrite Vsb.map_u8 in Hg' by done. by exists s'.
Qed.

Lemma builds_cat b fl l d : builds b fl l -> Z.of_nat (length l + length d) <= Vsb.LIMIT -> nul_free d ->
  exists b', ban_cat malloc b d = Ok b' /\ builds b' fl (l ++ d).
Proof.
  intros (s & -> & Hg) Hl Hd.
  destruct (Vsb.cat_grows malloc Hmalloc d [] s l Hg Hl) as (s' & E & Hg').
  { eapply Forall_impl; [exact Hd|]. cbn. lia. }
  unfold ban_cat. cbn [vsb_of b_vsb deref]. rewrite bind_Ret, E, bind_Ret. eexists. split; [done|].
  rewrite map_u8_nul_free in Hg' by done. by exists s'.
Qed.

Lemma builds_lump b fl l d : builds b fl l -> Z.of_nat (length l + length (lump d)) <= Vsb.LIMIT ->
  Forall is_byte d -> exists b', ban_add_lump malloc b d = Ok b' /\ builds b' fl (l ++ lump d).
Proof.
  intros Hb Hl Hd. rewrite length_lump in Hl. unfold Vsb.LIMIT in Hl.
  unfold ban_add_lump. rewrite u32_small by lia. rewrite be32_enc, bind_Ret.
  destruct (builds_bcat b fl l (be32 (Z.of_nat (length d))) Hb) as (b1 & -> & Hb1);
    [rewrite length_be32; unfold Vsb.LIMIT; lia|apply be32_bytes|]. rewrite bind_Ret.
  destruct (builds_bcat b1 fl _ d Hb1) as (b2 & -> & Hb2);
    [rewrite length_app, length_be32; unfold Vsb.LIMIT; lia|done|].
  exists b2. split; [done|]. unfold lump. by rewrite app_assoc.
Qed.

Lemma builds_name b fl l n : builds b fl l -> Z.of_nat (length l + length (name_octets n)) <= Vsb.LIMIT ->
  name_ok n -> exists b', ban_parse_http malloc b n = Ok b' /\ builds b' fl (l ++ name_octets n).
Proof.
  intros Hb Hl [Hn Hn2]. unfold name_octets in *. cbn [length] in Hl. rewrite length_app in Hl. cbn [length] in Hl.
  unfold Vsb.LIMIT in Hl. unfold ban_parse_http. cbv zeta. rewrite (vassert_true (_ <=? 127)), bind_Ret by lia.
  destruct (builds_putc b fl l (Z.of_nat (length n) + 1) Hb) as (b1 & -> & Hb1);
    [unfold Vsb.LIMIT; lia|unfold is_byte; lia|]. rewrite bind_Ret.
  destruct (builds_cat b1 fl _ n Hb1) as (b2 & -> & Hb2);
    [rewrite length_app; cbn [length]; unfold Vsb.LIMIT; lia|done|]. rewrite bind_Ret.
  destruct (builds_putc b2 fl _ 58 Hb2) as (b3 & -> & Hb3);
    [rewrite !length_app; cbn [length]; unfold Vsb.LIMIT; lia|done|]. rewrite bind_Ret.
  destruct (builds_putc b3 fl _ 0 Hb3) as (b4 & -> & Hb4);
    [rewrite !length_app; cbn [length]; unfold Vsb.LIMIT; lia|done|].
  exists b4. split; [done|]. rewrite <- !app_assoc in Hb4. exact Hb4.
Qed.

Lemma find_pvar_text f : find_pvar (field_text f) pvars =
  Some (match f with Url => str "req.url" | ReqHdr _ => str "req.http." | ObjHdr _ => str "obj.http." end,
    match f with Url => PVAR_REQ | ReqHdr _ => Z.lor PVAR_REQ PVAR_HTTP | ObjHdr _ => PVAR_HTTP end,
    field_tag f).
Proof. by destruct f; vm_compute. Qed.

Definition req_flag (t : test) : Z := if is_req_test t then BAN_F_REQ else 0.

(** The last part of [BAN_AddTest]. *)
Lemma builds_cond b fl l t : builds b fl l -> test_ok compile t ->
  Z.of_nat (length l + 1 + length (regex_octets t)) <= Vsb.LIMIT ->
  exists b',
  (if bool_decide (cond_text (t_cond t) = str "~") then
     b ← ban_putc malloc b BAN_OPER_MATCH; ban_parse_regexp malloc compile b (t_arg t)
   else if bool_decide (cond_text (t_cond t) = str "!~") then
     b ← ban_putc malloc b BAN_OPER_NMATCH; ban_parse_regexp malloc compile b (t_arg t)
   else if bool_decide (cond_text (t_cond t) = str "==") then
     b ← ban_putc malloc b BAN_OPER_EQ; mret (b, None)
   else if bool_decide (cond_text (t_cond t) = str "!=") then
     b ← ban_putc malloc b BAN_OPER_NEQ; mret (b, None)
   else mret (b, Some Expected_conditional)) = Ok (b', None) /\
  builds b' fl (l ++ cond_octet (t_cond t) :: regex_octets t).
Proof.
  intros Hb Ht Hl. unfold Vsb.LIMIT in Hl.
  assert (Hput : exists b1, ban_putc malloc b (cond_octet (t_cond t)) = Ok b1 /\
    builds b1 fl (l ++ [cond_octet (t_cond t)])).
  { apply builds_putc; [done|unfold Vsb.LIMIT; lia|by destruct (t_cond t)]. }
  destruct Hput as (b1 & E1 & Hb1).
  assert (Hre : is_regex (t_cond t) = true -> exists b2,
    ban_parse_regexp malloc compile b1 (t_arg t) = Ok (b2, None) /\
    builds b2 fl (l ++ cond_octet (t_cond t) :: regex_octets t)).
  { intros Hr. destruct (to_re _ _ Ht Hr) as [re Ere]. unfold ban_parse_regexp. rewrite Ere.
    unfold BanSpec.regex_octets in *. rewrite Hr, Ere in *. change (default [] (Some re)) with re in *.
    pose proof (pcre_octets _ _ Ere) as [Hbytes _].
    destruct (builds_lump b1 fl _ re Hb1) as (b2 & -> & Hb2);
      [rewrite length_app; cbn [length]; unfold Vsb.LIMIT; lia|done|].
    rewrite bind_Ret. exists b2. split; [done|]. by rewrite <- app_assoc in Hb2. }
  unfold BanSpec.regex_octets in *. destruct (t_cond t); cbn [cond_text cond_octet is_regex] in *.
  - exists b1. change (bool_decide (str "==" = str "~")) with false.
    change (bool_decide (str "==" = str "!~")) with false. change (bool_decide (str "==" = str "==")) with true.
    cbn match. rewrite E1, bind_Ret. by split.
  - exists b1. change (bool_decide (str "!=" = str "~")) with false.
    change (bool_decide (str "!=" = str "!~")) with false. change (bool_decide (str "!=" = str "==")) with false.
    change (bool_decide (str "!=" = str "!=")) with true. cbn match. rewrite E1, bind_Ret. by split.
  - change (bool_decide (str "~" = str "~")) with true. cbn match. rewrite E1, bind_Ret. by apply Hre.
  - change (bool_decide (str "!~" = str "~")) with false. change (bool_decide (str "!~" = str "!~")) with true.
    cbn match. rewrite E1, bind_Ret. by apply Hre.
Qed.

Lemma AddTest_ok b fl l t : builds b fl l -> test_ok compile t ->
  Z.of_nat (length l + length (test_octets t)) <= Vsb.LIMIT ->
  exists b', BAN_AddTest malloc compile b (field_text (t_field t)) (cond_text (t_cond t)) (t_arg t) =
      Ok (b', None) /\ builds b' (Z.lor fl (req_flag t)) (l ++ test_octets t).
Proof.
  intros Hb Ht Hl. rewrite octets_len in Hl. pose proof (octets_le_field (t_field t)) as Hf1.
  unfold BAN_AddTest. rewrite find_pvar_text. cbn match.
  set (flag := match t_field t with Url => PVAR_REQ | ReqHdr _ => _ | ObjHdr _ => _ end).
  set (b0 := if truth (Z.land flag PVAR_REQ) then _ else _).
  assert (Hb0 : builds b0 (Z.lor fl (req_flag t)) l).
  { destruct Hb as (s & -> & Hg). exists s. split; [|done]. unfold b0, flag, req_flag, is_req_test.
    destruct (t_field t); cbn; rewrite ?Z.lor_0_r; done. }
  assert (Hput : exists b1, ban_putc malloc b0 (field_tag (t_field t)) = Ok b1 /\
    builds b1 (Z.lor fl (req_flag t)) (l ++ [field_tag (t_field t)])).
  { apply builds_putc; [done|lia|by destruct (t_field t)]. }
  destruct Hput as (b1 & -> & Hb1). rewrite bind_Ret.
  assert (Hname : exists b2, (if truth (Z.land flag PVAR_HTTP) then ban_parse_http malloc b1
        (drop (length (match t_field t with Url => str "req.url" | ReqHdr _ => str "req.http." | ObjHdr _ => str "obj.http." end))
           (field_text (t_field t))) else mret b1) = Ok b2 /\
    builds b2 (Z.lor fl (req_flag t)) (l ++ field_octets (t_field t))).
  { pose proof (to_name _ _ Ht) as Hn. unfold flag.
    destruct (t_field t) as [|n|n]; cbn [field_tag field_octets field_text length] in *.
    - by exists b1.
    - change (truth _) with true. cbn match. rewrite drop_app_length.
      change (BAN_ARG_REQHTTP :: name_octets n) with ([BAN_ARG_REQHTTP] ++ name_octets n).
      rewrite app_assoc. apply builds_name; [done|rewrite length_app; cbn [length]; lia|done].
    - change (truth _) with true. cbn match. rewrite drop_app_length.
      change (BAN_ARG_OBJHTTP :: name_octets n) with ([BAN_ARG_OBJHTTP] ++ name_octets n).
      rewrite app_assoc. apply builds_name; [done|rewrite length_app; cbn [length]; lia|done]. }
  destruct Hname as (b2 & -> & Hb2). rewrite bind_Ret.
  destruct (builds_lump b2 _ _ (t_arg t ++ [0]) Hb2) as (b3 & -> & Hb3).
  { rewrite length_app. lia. }
  { apply Forall_app. split; [apply nul_free_bytes, Ht|by repeat constructor]. }
  rewrite bind_Ret.
  destruct (builds_cond b3 _ _ t Hb3 Ht) as (b4 & E4 & Hb4).
  { rewrite !length_app in *. lia. }
  exists b4. split; [exact E4|]. unfold BanSpec.test_octets. by rewrite <- !app_assoc in Hb4.
Qed.

(** *** The finished spec *)

Lemma blit_ok pre old post new : length old = length new ->
  blit (pre ++ old ++ post) (Z.of_nat (length pre)) new = Ok (pre ++ new ++ post).
Proof.
  revert pre old. induction new as [|c new IH]; intros pre [|o old] Hl; try done; cbn [length blit app] in *.
  rewrite wr_in by (rewrite length_app; cbn [length]; lia). rewrite bind_Ret, Nat2Z.id.
  rewrite insert_app_r_alt, Nat.sub_diag by lia. cbn [insert list_insert].
  replace (Z.of_nat (length pre) + 1) with (Z.of_nat (length (pre ++ [c]))) by (rewrite length_app; cbn; lia).
  pose proof (IH (pre ++ [c]) old ltac:(lia)) as E. rewrite <- !app_assoc in E. exact E.
Qed.

Lemma split_at {A} (m : list A) (n : nat) : (n <= length m)%nat ->
  exists a r, m = a ++ r /\ length a = n.
Proof. intros H. exists (take n m), (drop n m). rewrite take_drop, length_take. split; [done|lia]. Qed.

Lemma split_spec (m : list Z) k : Z.of_nat (length m) = k + 13 -> 0 <= k ->
  exists A B c R, m = A ++ B ++ [c] ++ R /\ length A = 8%nat /\ length B = 4%nat /\ Z.of_nat (length R) = k.
Proof.
  intros Hl Hk. destruct (split_at m 8) as (A & m1 & -> & HA); [lia|]. rewrite length_app in Hl.
  destruct (split_at m1 4) as (B & m2 & -> & HB); [lia|]. rewrite length_app in Hl.
  destruct m2 as [|c R]; cbn [length] in Hl; [lia|]. exists A, B, c, R. split_and!; done || lia.
Qed.

Lemma make_spec_ok b fl ts t0 : builds b fl (tests_octets ts) ->
  truth (Z.land fl BAN_F_REQ) = existsb is_req_test ts ->
  13 + Z.of_nat (length (tests_octets ts)) < 2 ^ 32 ->
  ban_make_spec malloc b t0 =
  Ok (mkBan 0 fl [] None (Some (spec_octets compile t0 ts)), 13 + Z.of_nat (length (tests_octets ts))).
Proof.
  intros (s & -> & Hg) Hfl Hlim. destruct (Vsb.finish_grows s _ Hg) as (s' & rest & E1 & E2 & E3).
  pose proof (length_double_bytes t0) as HD. unfold spec_octets, ban_make_spec.
  revert HD. generalize (double_bytes t0) as D. intros D HD. cbn [vsb_of b_vsb deref]. rewrite bind_Ret, E1, bind_Ret.
  change (0 =? 0) with true. cbn [vassert]. rewrite bind_Ret, E3, bind_Ret.
  rewrite (vassert_true (0 <=? _)), bind_Ret by lia.
  set (k := Z.of_nat (length (tests_octets ts))) in *.
  destruct (Hmalloc (k + 13)) as (m & Em & Hm); [lia|]. rewrite Em. cbn match. unfold mret at 1, res_ret at 1.
  rewrite bind_Ret. destruct (split_spec m k Hm ltac:(lia)) as (A & B & c & R & -> & HA & HB & HR).
  pose proof (blit_ok [] A (B ++ [c] ++ R) D ltac:(lia)) as W1. cbn [app] in W1. cbn [app].
  change (Z.of_nat (length (@nil Z))) with 0 in W1.
  rewrite W1, bind_Ret. clear W1. unfold is_req. cbn [flags]. rewrite Hfl.
  set (q := if existsb is_req_test ts then 1 else 0).
  pose proof (blit_ok (D ++ B) [c] R [q] eq_refl) as W2. cbn [blit] in W2.
  rewrite length_app, HD, HB in W2. change (Z.of_nat (8 + 4)) with 12 in W2.
  apply bind_Ok in W2 as (m2 & W2 & [= ->]). rewrite <- !app_assoc in W2. cbn [app] in W2.
  rewrite W2, bind_Ret. clear W2. rewrite E2, bind_Ret.
  replace (Z.to_nat k) with (length (tests_octets ts)) by (unfold k; lia). rewrite take_app_length.
  pose proof (blit_ok (D ++ B ++ [q]) R [] (tests_octets ts) ltac:(unfold k in HR; lia)) as W3.
  rewrite !app_nil_r in W3. rewrite !length_app, HD, HB in W3. cbn [length] in W3.
  change (Z.of_nat (8 + (4 + 1))) with 13 in W3. rewrite <- !app_assoc in W3. cbn [app] in W3.
  rewrite W3, bind_Ret. clear W3.
  rewrite !(drop_app_length' D), !(take_app_length' D) by done.
  rewrite u32_small by lia.
  assert (EB : vbe32enc (B ++ q :: tests_octets ts) (k + 13) = Ok (be32 (k + 13) ++ q :: tests_octets ts)).
  { destruct B as [|b0 [|b1 [|b2 [|b3 [|]]]]]; try done. apply vbe32enc_form. }
  rewrite EB, bind_Ret.
  assert (exists d, Vsb.VSB_delete s' = Ok d) as [d Ed].
  { unfold Vsb.VSB_delete. unfold Vsb.VSB_data in E2. apply bind_Ok in E2 as ([] & -> & _). by eexists. }
  rewrite Ed, bind_Ret. unfold mret, res_ret. do 2 f_equal; [|lia].
  unfold set_vsb, set_spec. cbn. fold k q. by rewrite (Z.add_comm 13 k).
Qed.

End Building.

End Pcre.

End BanSpec.
