(* ===== verification/BanInv.v ===== *)
(** The list of bans: what holds of it between calls, and that every call keeps
    it.  The list is related to the history of all bans that were ever set. *)
From S2P Require Import Prelude Vend Vsb Mem Http HttpLines Ban BanSpec.
Import Mem Http HttpLines Ban BanSpec.

Module BanInv.

Section Inv.

Context (compile : list Z -> option (list Z)).

Notation spec_octets := (spec_octets compile).
Notation tests_octets := (tests_octets compile).

(** What two bans are compared by: the spec without its time. *)
Definition cond_octets (ts : list test) : list Z := drop 8 (spec_octets 0 ts).

Record tests_ok (ts : list test) : Prop := {
  ts_ok : Forall (test_ok compile) ts;
  ts_len : Z.of_nat (length (tests_octets ts)) <= Vsb.LIMIT;
}.

(** ** The invariant *)

(** The ban at [p]: it counts the objects on it and the references [refs]. *)
Record ban_ok (refs : list positive) (ocs : gmap positive (option positive)) (p : positive)
    (b : ban) (ts : list test) : Prop := {
  bk_ref : refcount b = Z.of_nat (length (objcore b) + count_occ Pos.eq_dec refs p);
  bk_nodup : NoDup (objcore b);
  bk_oc oc : oc ∈ objcore b <-> ocs !! oc = Some (Some p);
  bk_vsb : b_vsb b = None;
  bk_spec : exists t0, spec b = Some (spec_octets t0 ts);
  bk_req : is_req b = existsb is_req_test ts;
}.

(** Ban number [i] of the list is not gone. *)
Definition live (st : bans) (i : nat) : Prop :=
  exists p b, ban_head st !! i = Some p /\ tab st !! p = Some b /\ is_gone b = false.

(** [log] has the tests of every ban set so far, newest first; [refs] the
    addresses [BAN_TailRef] gave out. *)
Record inv (st : bans) (log : list (list test)) (refs : list positive) : Prop := {
  i_nodup : NoDup (ban_head st);
  i_len : (1 <= length (ban_head st) <= length log)%nat;
  i_start : ban_start st = head (ban_head st);
  i_dom p : is_Some (tab st !! p) <-> p ∈ ban_head st;
  i_ban i p b : ban_head st !! i = Some p -> tab st !! p = Some b ->
    exists ts, log !! i = Some ts /\ ban_ok refs (oc_ban st) p b ts;
  i_gone i p b : ban_head st !! i = Some p -> tab st !! p = Some b -> is_gone b = true ->
    S i = length log \/
    exists j, (j < i)%nat /\ live st j /\ cond_octets <$> (log !! j) = cond_octets <$> (log !! i);
  i_oc oc p : oc_ban st !! oc = Some (Some p) -> p ∈ ban_head st;
  i_refs p : p ∈ refs -> p ∈ ban_head st;
  i_log : Forall tests_ok log;
  i_count : n_ban (counters st) = u64 (Z.of_nat (length (ban_head st)));
}.

(** The counts of references fit, and there is room for two more. *)
Definition fits (st : bans) (refs : list positive) : Prop :=
  Z.of_nat (size (oc_ban st) + length refs) < 2 ^ 32.

Definition room (st : bans) (refs : list positive) : Prop :=
  Z.of_nat (size (oc_ban st) + length refs) + 2 < 2 ^ 32.

Lemma objcore_small refs ocs p b ts : ban_ok refs ocs p b ts -> (length (objcore b) <= size ocs)%nat.
Proof.
  intros H. rewrite <- size_dom, <- (size_list_to_set (C:=gset positive) (objcore b)) by apply H.
  apply subseteq_size. intros oc Hoc. apply elem_of_list_to_set in Hoc.
  apply (bk_oc _ _ _ _ _ H) in Hoc. by eapply elem_of_dom_2.
Qed.

Lemma refs_small refs p : (count_occ Pos.eq_dec refs p <= length refs)%nat.
Proof. apply count_occ_bound. Qed.

Lemma ban_small st refs p b ts : room st refs ->
  ban_ok refs (oc_ban st) p b ts -> 0 <= refcount b < 2 ^ 32 - 2.
Proof.
  unfold room. intros Hr H. rewrite (bk_ref _ _ _ _ _ H).
  pose proof (objcore_small _ _ _ _ _ H). pose proof (refs_small refs p). lia.
Qed.

Lemma ban_fits st refs p b ts : fits st refs -> ban_ok refs (oc_ban st) p b ts -> 0 <= refcount b < 2 ^ 32.
Proof.
  unfold fits. intros Hr H. rewrite (bk_ref _ _ _ _ _ H).
  pose proof (objcore_small _ _ _ _ _ H). pose proof (refs_small refs p). lia.
Qed.

(** ** Lists *)

Lemma next_at l i p : NoDup l -> l !! i = Some p -> next p l = l !! S i.
Proof.
  revert i. induction l as [|q l IH]; intros i Hn Hi; [done|]. cbn [next].
  apply NoDup_cons in Hn as [Hq Hn]. destruct i as [|i]; cbn in Hi.
  - injection Hi as <-. rewrite bool_decide_true by done. cbn. by destruct l.
  - rewrite bool_decide_false; [by rewrite (IH i)|]. intros ->. by apply list_elem_of_lookup_2 in Hi.
Qed.

Lemma remove_not_in p l : p ∉ l -> remove p l = l.
Proof.
  unfold remove. induction l as [|q l IH]; intros Hp; [done|].
  rewrite filter_cons_True by set_solver. f_equal. apply IH. set_solver.
Qed.

Lemma elem_of_remove p q l : q ∈ remove p l <-> q <> p /\ q ∈ l.
Proof. unfold remove. by rewrite list_elem_of_filter. Qed.

Lemma NoDup_remove p l : NoDup l -> NoDup (remove p l).
Proof. apply NoDup_filter. Qed.

Lemma length_remove p l : NoDup l -> p ∈ l -> S (length (remove p l)) = length l.
Proof.
  induction l as [|q l IH]; intros Hn Hp; [by apply not_elem_of_nil in Hp|].
  apply NoDup_cons in Hn as [Hq Hn]. unfold remove. destruct (decide (q = p)) as [->|Hne].
  - rewrite filter_cons_False by tauto. pose proof (remove_not_in p l Hq) as E. unfold remove in E.
    by rewrite E.
  - rewrite filter_cons_True by done. cbn [length]. f_equal. apply IH; [done|].
    by apply elem_of_cons in Hp as [->|].
Qed.

Lemma remove_last p l : NoDup (l ++ [p]) -> remove p (l ++ [p]) = l.
Proof.
  intros (_ & Hp & _)%NoDup_app. unfold remove. rewrite filter_app, filter_cons_False by tauto.
  rewrite filter_nil, app_nil_r. apply (remove_not_in p l). set_solver.
Qed.

(** ** Calls that leave the list as it is *)

(** The same bans in the same order; references and objects may differ. *)
Record same_list (st st' : bans) : Prop := {
  sl_head : ban_head st' = ban_head st;
  sl_start : ban_start st' = ban_start st;
  sl_count : n_ban (counters st') = n_ban (counters st);
  sl_tab p : match tab st !! p, tab st' !! p with
    | Some b, Some b' => flags b' = flags b /\ spec b' = spec b /\ b_vsb b' = b_vsb b
    | None, None => True
    | _, _ => False
    end;
}.

Lemma same_list_live st st' i : same_list st st' -> live st i -> live st' i.
Proof.
  intros H (p & b & Hp & Hb & Hg). pose proof (sl_tab _ _ H p) as Ht. rewrite Hb in Ht.
  destruct (tab st' !! p) as [b'|] eqn:E; [|done]. exists p, b'. rewrite (sl_head _ _ H).
  destruct Ht as (Hf & _). unfold is_gone in *. by rewrite Hf.
Qed.

Lemma inv_same st st' log refs refs' : inv st log refs -> same_list st st' ->
  (forall p b, tab st' !! p = Some b ->
    refcount b = Z.of_nat (length (objcore b) + count_occ Pos.eq_dec refs' p) /\
    NoDup (objcore b) /\ forall oc, oc ∈ objcore b <-> oc_ban st' !! oc = Some (Some p)) ->
  (forall oc p, oc_ban st' !! oc = Some (Some p) -> p ∈ ban_head st) ->
  (forall p, p ∈ refs' -> p ∈ ban_head st) ->
  inv st' log refs'.
Proof.
  intros H Hs Hb Hoc Hr.
  assert (Hback : forall p b', tab st' !! p = Some b' -> exists b, tab st !! p = Some b /\
    flags b' = flags b /\ spec b' = spec b /\ b_vsb b' = b_vsb b).
  { intros p b' E. pose proof (sl_tab _ _ Hs p) as Ht. rewrite E in Ht.
    destruct (tab st !! p) as [b|]; [|done]. by exists b. }
  split; rewrite ?(sl_head _ _ Hs), ?(sl_start _ _ Hs), ?(sl_count _ _ Hs); try apply H; try done.
  - intros p. rewrite <- (i_dom _ _ _ H). pose proof (sl_tab _ _ Hs p) as Ht.
    destruct (tab st !! p), (tab st' !! p); done.
  - intros i p b' Hi E. destruct (Hback p b' E) as (b & Eb & Hf & Hsp & Hv).
    destruct (i_ban _ _ _ H i p b Hi Eb) as (ts & Ets & Hok). exists ts. split; [done|].
    destruct (Hb p b' E) as (? & ? & ?). destruct Hok. split; [done|done|done|congruence|by rewrite Hsp|].
    unfold is_req in *. by rewrite Hf.
  - intros i p b' Hi E Hg. destruct (Hback p b' E) as (b & Eb & Hf & _).
    destruct (i_gone _ _ _ H i p b Hi Eb) as [?|(j & Hj & Hl & ?)]; [|by left|].
    { unfold is_gone in *. by rewrite <- Hf. }
    right. exists j. split; [done|]. split; [|done]. by eapply same_list_live.
Qed.

Lemma live_ban st log refs p : inv st log refs -> p ∈ ban_head st ->
  exists b i ts, tab st !! p = Some b /\ ban_head st !! i = Some p /\ log !! i = Some ts /\
    ban_ok refs (oc_ban st) p b ts.
Proof.
  intros H Hp. pose proof Hp as [b Hb]%(i_dom _ _ _ H). apply list_elem_of_lookup_1 in Hp as [i Hi].
  destruct (i_ban _ _ _ H i p b Hi Hb) as (ts & Hts & Hok). by exists b, i, ts.
Qed.

Lemma tab_ban st log refs p b : inv st log refs -> tab st !! p = Some b ->
  p ∈ ban_head st /\ exists ts, ban_ok refs (oc_ban st) p b ts.
Proof.
  intros H Hb. assert (Hp : p ∈ ban_head st) by (apply (i_dom _ _ _ H); by eexists).
  destruct (live_ban _ _ _ _ H Hp) as (b' & i & ts & Hb' & _ & _ & Hok).
  assert (b' = b) as -> by congruence. split; [done|by exists ts].
Qed.

Lemma same_list_put st p b b' :
  tab st !! p = Some b -> flags b' = flags b -> spec b' = spec b -> b_vsb b' = b_vsb b ->
  same_list st (put_ban st p b').
Proof.
  intros Hb Hf Hs Hv. split; try done. intros q. cbn. destruct (decide (q = p)) as [->|Hne].
  - by rewrite Hb, lookup_insert_eq.
  - rewrite lookup_insert_ne by congruence. by destruct (tab st !! q).
Qed.

Lemma same_list_trans st1 st2 st3 : same_list st1 st2 -> same_list st2 st3 -> same_list st1 st3.
Proof.
  intros [A1 A2 A3 A4] [B1 B2 B3 B4]. split; try congruence. intros p. specialize (A4 p). specialize (B4 p).
  destruct (tab st1 !! p), (tab st2 !! p), (tab st3 !! p); try done. naive_solver congruence.
Qed.

Lemma same_list_oc_ban st x : same_list st (set_oc_ban st x).
Proof. split; try done. intros p. cbn. by destruct (tab st !! p). Qed.

Lemma n_ban_count st dups objs tests : n_ban (counters st) = u64 (n_ban (counters st)) ->
  n_ban (counters (count st 0 0 dups objs tests)) = n_ban (counters st).
Proof. intros H. cbn. rewrite Z.add_0_r, Z.sub_0_r. done. Qed.

Lemma u64_idem z : u64 (u64 z) = u64 z.
Proof. unfold u64. by rewrite Z.mod_mod. Qed.

Lemma inv_count_idem st log refs : inv st log refs -> n_ban (counters st) = u64 (n_ban (counters st)).
Proof. intros H. rewrite (i_count _ _ _ H). by rewrite u64_idem. Qed.

Lemma same_list_count st log refs dups objs tests : inv st log refs -> same_list st (count st 0 0 dups objs tests).
Proof.
  intros H. split; try done.
  - apply n_ban_count. by eapply inv_count_idem.
  - intros p. cbn. by destruct (tab st !! p).
Qed.

Lemma get_ban_ok st p b : tab st !! p = Some b -> get_ban st p = Ok b.
Proof. unfold get_ban. by intros ->. Qed.

Lemma upd_ban_ok st p b f : tab st !! p = Some b -> upd_ban st p f = Ok (put_ban st p (f b)).
Proof. intros H. unfold upd_ban. by rewrite (get_ban_ok st p b H). Qed.

Lemma u32_inc x : 0 <= x < 2 ^ 32 - 1 -> u32 (x + 1) = x + 1.
Proof. intros. apply u32_small. lia. Qed.

Lemma u32_dec x : 0 < x < 2 ^ 32 -> u32 (x - 1) = x - 1.
Proof. intros. apply u32_small. lia. Qed.

Lemma count_occ_cons refs p q :
  count_occ Pos.eq_dec (p :: refs) q = ((if decide (p = q) then 1 else 0) + count_occ Pos.eq_dec refs q)%nat.
Proof. cbn. destruct (Pos.eq_dec p q), (decide (p = q)); congruence || lia. Qed.

(** *** References to the tail *)

Lemma TailRef_ok st log refs : inv st log refs -> room st refs ->
  exists st' p, BAN_TailRef st = Ok (st', p) /\ inv st' log (p :: refs) /\ last (ban_head st) = Some p /\
    oc_ban st' = oc_ban st.
Proof.
  intros H Hr. unfold BAN_TailRef.
  destruct (last (ban_head st)) as [p|] eqn:Hl.
  2:{ apply last_None in Hl. pose proof (i_len _ _ _ H) as Hn. rewrite Hl in Hn. cbn in Hn. lia. }
  cbn match. unfold mret at 1, res_ret at 1. rewrite bind_Ret.
  assert (Hp : p ∈ ban_head st) by (rewrite last_lookup in Hl; by apply list_elem_of_lookup_2 in Hl).
  destruct (live_ban _ _ _ _ H Hp) as (b & i & ts & Hb & Hi & _ & Hok).
  rewrite (upd_ban_ok _ _ _ _ Hb), bind_Ret. eexists _, p. split; [done|]. split; [|done].
  pose proof (ban_small _ _ _ _ _ Hr Hok) as Hs.
  eapply inv_same; [exact H|by eapply same_list_put|..].
  - intros q bq. cbn [tab put_ban set_tab oc_ban]. destruct (decide (q = p)) as [->|Hne].
    + rewrite lookup_insert_eq. intros [= <-]. cbn [refcount objcore incref set_refcount].
      rewrite u32_inc by lia. rewrite count_occ_cons, decide_True by done.
      destruct Hok as [-> ? ? _ _ _]. split; [lia|done].
    + rewrite lookup_insert_ne by congruence. intros Hq. destruct (tab_ban _ _ _ _ _ H Hq) as (_ & ts' & Hok').
      rewrite count_occ_cons, decide_False by congruence. destruct Hok'. done.
  - apply (i_oc _ _ _ H).
  - intros q Hq. apply elem_of_cons in Hq as [->|Hq]; [done|by apply (i_refs _ _ _ H)].
Qed.

Lemma TailDeref_ok st log refs1 p refs2 : inv st log (refs1 ++ p :: refs2) -> fits st (refs1 ++ p :: refs2) ->
  exists st', BAN_TailDeref st p = Ok st' /\ inv st' log (refs1 ++ refs2) /\ oc_ban st' = oc_ban st.
Proof.
  intros H Hr. unfold BAN_TailDeref.
  assert (Hp : p ∈ ban_head st) by (apply (i_refs _ _ _ H); set_solver).
  destruct (live_ban _ _ _ _ H Hp) as (b & i & ts & Hb & Hi & _ & Hok).
  rewrite (upd_ban_ok _ _ _ _ Hb). eexists. split; [done|]. split; [|done].
  pose proof (ban_fits _ _ _ _ _ Hr Hok) as Hs.
  eapply inv_same; [exact H|by eapply same_list_put|..].
  - intros q bq. cbn [tab put_ban set_tab oc_ban]. destruct (decide (q = p)) as [->|Hne].
    + rewrite lookup_insert_eq. intros [= <-]. cbn [refcount objcore decref set_refcount].
      destruct Hok as [Hrf ? ? _ _ _]. rewrite count_occ_app, count_occ_cons, decide_True in Hrf by done.
      rewrite u32_dec by lia. rewrite count_occ_app. split; [lia|done].
    + rewrite lookup_insert_ne by congruence. intros Hq. destruct (tab_ban _ _ _ _ _ H Hq) as (_ & ts' & Hok').
      destruct Hok' as [Hrf ? ? _ _ _]. rewrite count_occ_app, count_occ_cons, decide_False in Hrf by congruence.
      rewrite count_occ_app. split; [lia|done].
  - apply (i_oc _ _ _ H).
  - intros q Hq. apply (i_refs _ _ _ H). set_solver.
Qed.

(** *** Objects *)

Definition detached (st : bans) (oc p : positive) (b : ban) : bans :=
  set_oc_ban (put_ban st p (set_objcore (decref b) (remove oc (objcore b)))) (<[oc := None]> (oc_ban st)).

Definition attached (st : bans) (oc p : positive) (b : ban) : bans :=
  set_oc_ban (put_ban st p (set_objcore (incref b) (objcore b ++ [oc]))) (<[oc := Some p]> (oc_ban st)).

Lemma same_list_objs st oc p b b' x : tab st !! p = Some b -> flags b' = flags b -> spec b' = spec b ->
  b_vsb b' = b_vsb b -> same_list st (set_oc_ban (put_ban st p b') (<[oc := x]> (oc_ban st))).
Proof. intros. eapply same_list_trans; [by eapply (same_list_put st p b b')|apply same_list_oc_ban]. Qed.

Lemma detached_ok st log refs oc p b : inv st log refs -> room st refs ->
  oc_ban st !! oc = Some (Some p) -> tab st !! p = Some b -> inv (detached st oc p b) log refs.
Proof.
  intros H Hr Hoc Hb. destruct (tab_ban _ _ _ _ _ H Hb) as (Hp & ts & Hok).
  pose proof (ban_small _ _ _ _ _ Hr Hok) as Hs. pose proof Hok as [Hrf Hnd Hin _ _ _].
  eapply inv_same; [exact H|by eapply same_list_objs|..|apply (i_refs _ _ _ H)].
  - intros q bq. cbn [tab put_ban set_tab oc_ban detached set_oc_ban]. destruct (decide (q = p)) as [->|Hne].
    + rewrite lookup_insert_eq. intros [= <-]. cbn [refcount objcore decref set_refcount set_objcore].
      assert (Hmem : oc ∈ objcore b) by by apply Hin. pose proof (length_remove oc _ Hnd Hmem).
      rewrite u32_dec by lia. split; [lia|]. split; [by apply NoDup_remove|].
      intros o. rewrite elem_of_remove, Hin. destruct (decide (o = oc)) as [->|Ho].
      * rewrite lookup_insert_eq. split; [by intros [? _]|done].
      * rewrite lookup_insert_ne by congruence. tauto.
    + rewrite lookup_insert_ne by congruence. intros Hq. destruct (tab_ban _ _ _ _ _ H Hq) as (_ & ts' & [? ? Hin' _ _ _]).
      split; [done|]. split; [done|]. intros o. rewrite Hin'. destruct (decide (o = oc)) as [->|Ho].
      * rewrite lookup_insert_eq. split; [congruence|done].
      * by rewrite lookup_insert_ne by congruence.
  - intros o q. cbn. destruct (decide (o = oc)) as [->|Ho].
    + by rewrite lookup_insert_eq.
    + rewrite lookup_insert_ne by congruence. apply (i_oc _ _ _ H).
Qed.

Lemma attached_ok st log refs oc p b : inv st log refs -> room st refs ->
  oc_ban st !! oc = Some None -> tab st !! p = Some b -> inv (attached st oc p b) log refs.
Proof.
  intros H Hr Hoc Hb. destruct (tab_ban _ _ _ _ _ H Hb) as (Hp & ts & Hok).
  pose proof (ban_small _ _ _ _ _ Hr Hok) as Hs. pose proof Hok as [Hrf Hnd Hin _ _ _].
  assert (Hout : oc ∉ objcore b) by (rewrite Hin; congruence).
  eapply inv_same; [exact H|by eapply same_list_objs|..|apply (i_refs _ _ _ H)].
  - intros q bq. cbn [tab put_ban set_tab oc_ban attached set_oc_ban]. destruct (decide (q = p)) as [->|Hne].
    + rewrite lookup_insert_eq. intros [= <-]. cbn [refcount objcore incref set_refcount set_objcore].
      rewrite u32_inc by lia. rewrite length_app. cbn [length]. split; [lia|].
      split; [apply NoDup_app; split_and!; [done|set_solver|apply NoDup_singleton]|].
      intros o. rewrite elem_of_app, list_elem_of_singleton, Hin. destruct (decide (o = oc)) as [->|Ho].
      * rewrite lookup_insert_eq. tauto.
      * rewrite lookup_insert_ne by congruence. tauto.
    + rewrite lookup_insert_ne by congruence. intros Hq. destruct (tab_ban _ _ _ _ _ H Hq) as (_ & ts' & [? ? Hin' _ _ _]).
      split; [done|]. split; [done|]. intros o. rewrite Hin'. destruct (decide (o = oc)) as [->|Ho].
      * rewrite lookup_insert_eq. split; congruence.
      * by rewrite lookup_insert_ne by congruence.
  - intros o q. cbn. destruct (decide (o = oc)) as [->|Ho].
    + rewrite lookup_insert_eq. by intros [= <-].
    + rewrite lookup_insert_ne by congruence. apply (i_oc _ _ _ H).
Qed.

(** An objcore that holds no ban comes and goes. *)
Lemma inv_oc_ban st log refs x : inv st log refs ->
  (forall oc p, x !! oc = Some (Some p) <-> oc_ban st !! oc = Some (Some p)) ->
  inv (set_oc_ban st x) log refs.
Proof.
  intros H Hx. eapply inv_same; [exact H|apply same_list_oc_ban|..|apply (i_refs _ _ _ H)].
  - intros p b Hb. cbn in Hb. destruct (tab_ban _ _ _ _ _ H Hb) as (_ & ts & [? ? Hin _ _ _]).
    split; [done|]. split; [done|]. intros oc. by rewrite Hin, Hx.
  - intros oc p. cbn. rewrite Hx. apply (i_oc _ _ _ H).
Qed.

Lemma NewObjCore_ok st log refs oc : inv st log refs -> room st refs -> oc_ban st !! oc = Some None ->
  exists st' p, BAN_NewObjCore st oc = Ok st' /\ inv st' log refs /\ ban_head st' = ban_head st /\
    head (ban_head st) = Some p /\ oc_ban st' = <[oc := Some p]> (oc_ban st).
Proof.
  intros H Hr Hoc. unfold BAN_NewObjCore. rewrite Hoc. cbn [deref]. rewrite bind_Ret.
  rewrite bool_decide_true by done. cbn [vassert]. rewrite bind_Ret, (i_start _ _ _ H).
  destruct (ban_head st) as [|p l] eqn:Eh.
  { pose proof (i_len _ _ _ H) as Hn. rewrite Eh in Hn. cbn in Hn. lia. }
  cbn [head deref]. rewrite bind_Ret. assert (Hp : p ∈ ban_head st) by (rewrite Eh; left).
  destruct (live_ban _ _ _ _ H Hp) as (b & i & ts & Hb & Hi & _ & Hok).
  rewrite (upd_ban_ok (set_oc_ban st _) p b _ Hb), bind_Ret. eexists _, p. split; [done|].
  split; [|by rewrite <- Eh]. by apply (attached_ok st log refs oc p b).
Qed.

(** *** The last ban *)

Lemma retire_ok st log refs l p b : inv st log refs -> ban_head st = l ++ [p] -> l <> [] ->
  tab st !! p = Some b -> refcount b = 0 ->
  inv (set_tab (count (set_head st l) 0 1 0 0 0) (delete p (tab st))) log refs.
Proof.
  intros H Eh Hl Hb H0. destruct (tab_ban _ _ _ _ _ H Hb) as (Hp & ts & Hok).
  pose proof Hok as [Hrf _ Hin _ _ _]. rewrite H0 in Hrf.
  assert (Hempty : objcore b = []) by (destruct (objcore b); [done|cbn [length] in Hrf; lia]).
  assert (Hnoref : p ∉ refs).
  { intros Hpr. apply list_elem_of_In in Hpr. apply (count_occ_In Pos.eq_dec) in Hpr. lia. }
  assert (Hnooc : forall oc, oc_ban st !! oc <> Some (Some p)).
  { intros oc Hoc%Hin. rewrite Hempty in Hoc. by apply not_elem_of_nil in Hoc. }
  pose proof (i_nodup _ _ _ H) as Hnd. rewrite Eh in Hnd. apply NoDup_app in Hnd as (Hnd & Hpl & _).
  assert (Hsub : forall i q, l !! i = Some q -> ban_head st !! i = Some q /\ q <> p).
  { intros i q Hi. split; [by rewrite Eh, lookup_app_l by (by eapply lookup_lt_Some)|].
    intros ->. apply (Hpl p); [by apply list_elem_of_lookup_2 in Hi|by left]. }
  pose proof (i_len _ _ _ H) as Hlen. rewrite Eh, length_app in Hlen. cbn [length] in Hlen.
  split; cbn [set_tab count set_counters set_head ban_head ban_start tab oc_ban counters n_ban].
  - done.
  - destruct l; [done|]. cbn [length] in *. lia.
  - rewrite (i_start _ _ _ H), Eh. by destruct l.
  - intros q. destruct (decide (q = p)) as [->|Hne].
    + rewrite lookup_delete_eq. split; [by intros [? [=]]|]. intros Hq. exfalso. apply (Hpl p); [done|by left].
    + rewrite lookup_delete_ne by congruence. rewrite (i_dom _ _ _ H), Eh. set_solver.
  - intros i q bq Hi. destruct (Hsub i q Hi) as [Hi' Hne]. rewrite lookup_delete_ne by congruence.
    apply (i_ban _ _ _ H i q bq Hi').
  - intros i q bq Hi. destruct (Hsub i q Hi) as [Hi' Hne]. rewrite lookup_delete_ne by congruence.
    intros Hq Hg. destruct (i_gone _ _ _ H i q bq Hi' Hq Hg) as [?|(j & Hj & Hlv & Hc)]; [by left|].
    right. exists j. split; [done|]. split; [|done].
    destruct Hlv as (pj & bj & Hpj & Hbj & Hgj). pose proof (lookup_lt_Some _ _ _ Hi).
    rewrite Eh, lookup_app_l in Hpj by lia. exists pj, bj. cbn. split; [done|].
    destruct (Hsub j pj Hpj) as [_ Hne']. by rewrite lookup_delete_ne by congruence.
  - intros oc q Hoc. pose proof (i_oc _ _ _ H oc q Hoc) as Hq. rewrite Eh in Hq.
    apply elem_of_app in Hq as [?|Hq]; [done|]. apply list_elem_of_singleton in Hq as ->. by apply Hnooc in Hoc.
  - intros q Hq. pose proof (i_refs _ _ _ H q Hq) as Hq'. rewrite Eh in Hq'.
    apply elem_of_app in Hq' as [?|Hq']; [done|]. by apply list_elem_of_singleton in Hq' as ->.
  - apply (i_log _ _ _ H).
  - rewrite (i_count _ _ _ H), Eh, length_app. cbn [length]. unfold u64. rewrite Z.add_0_r, Zminus_mod_idemp_l.
    f_equal. lia.
Qed.

Lemma CheckLast_ok st log refs : inv st log refs ->
  exists st' r, ban_CheckLast st = Ok (st', r) /\
  match r with
  | None => st' = st
  | Some q => exists st'', BAN_Free_at st' q = Ok st'' /\ inv st'' log refs /\
      oc_ban st'' = oc_ban st /\ exists l, ban_head st = ban_head st'' ++ l
  end.
Proof.
  intros H. unfold ban_CheckLast. destruct (bool_decide _) eqn:Ed; [by eexists _, None|].
  apply bool_decide_eq_false in Ed. destruct (last (ban_head st)) as [p|] eqn:El; [|by eexists _, None].
  apply last_Some in El as [l Eh]. assert (Hp : p ∈ ban_head st) by (rewrite Eh; set_solver).
  destruct (live_ban _ _ _ _ H Hp) as (b & i & ts & Hb & Hi & _ & Hok).
  rewrite (get_ban_ok _ _ _ Hb), bind_Ret. destruct (Z.eqb_spec (refcount b) 0) as [H0|H0]; [|by eexists _, None].
  eexists _, (Some p). split; [done|].
  assert (Hrem : remove p (ban_head st) = l).
  { pose proof (i_nodup _ _ _ H) as Hnd. rewrite Eh in Hnd |- *. by apply remove_last. }
  rewrite Hrem. unfold BAN_Free_at. rewrite (get_ban_ok _ p b) by done. rewrite bind_Ret.
  unfold BAN_Free. rewrite H0. change (0 =? 0) with true. cbn [vassert]. rewrite bind_Ret.
  pose proof Hok as [Hrf _ _ Hv _ _]. rewrite H0 in Hrf.
  rewrite bool_decide_true by (destruct (objcore b); [done|cbn [length] in Hrf; lia]).
  cbn [vassert]. rewrite bind_Ret, Hv. unfold mret at 1, res_ret at 1. rewrite bind_Ret.
  eexists. split; [done|]. split; [|split; [done|by exists [p]]].
  apply (retire_ok st log refs l p b); try done. intros ->. rewrite Eh in Ed. by apply Ed.
Qed.

Lemma DestroyObj_ok st log refs oc p : inv st log refs -> room st refs -> oc_ban st !! oc = Some (Some p) ->
  exists st', BAN_DestroyObj st oc = Ok st' /\ inv st' log refs /\
    oc_ban st' = <[oc := None]> (oc_ban st) /\ exists l, ban_head st = ban_head st' ++ l.
Proof.
  intros H Hr Hoc. unfold BAN_DestroyObj. rewrite Hoc. cbn [deref]. rewrite bind_Ret.
  assert (Hp : p ∈ ban_head st) by (by eapply i_oc).
  destruct (live_ban _ _ _ _ H Hp) as (b & i & ts & Hb & Hi & _ & Hok).
  rewrite (get_ban_ok _ _ _ Hb), bind_Ret.
  assert (Hin : oc ∈ objcore b) by by apply (bk_oc _ _ _ _ _ Hok).
  pose proof (bk_ref _ _ _ _ _ Hok) as Hrf.
  rewrite (vassert_true (0 <? _)), bind_Ret by (destruct (objcore b); [by apply not_elem_of_nil in Hin|cbn [length] in Hrf; lia]).
  cbv zeta. change (oc_ban (put_ban st p _)) with (oc_ban st). fold (detached st oc p b).
  pose proof (detached_ok st log refs oc p b H Hr Hoc Hb) as H1.
  destruct (CheckLast_ok _ _ _ H1) as (st2 & r & -> & Hst2). rewrite bind_Ret.
  destruct r as [q|].
  - destruct Hst2 as (st3 & -> & H3 & Hoc3 & Hh3). by exists st3.
  - subst st2. eexists. split; [done|]. split; [done|]. split; [done|]. exists []. by rewrite app_nil_r.
Qed.

Lemma lurker_pick_ok st log refs : inv st log refs ->
  exists st' r, lurker_pick st = Ok (st', r) /\ inv st' log refs /\ oc_ban st' = oc_ban st /\
    (exists l, ban_head st = ban_head st' ++ l) /\
    forall oc, r = Some oc -> st' = st /\ exists p, oc_ban st !! oc = Some (Some p) /\ last (ban_head st) = Some p /\
      ban_start st <> Some p.
Proof.
  intros H. unfold lurker_pick. destruct (CheckLast_ok _ _ _ H) as (st2 & r & -> & Hst2). rewrite bind_Ret.
  destruct r as [q|].
  - destruct Hst2 as (st3 & -> & H3 & Hoc3 & Hh3). rewrite bind_Ret. eexists _, None. done.
  - subst st2. cbv zeta.
    assert (Hself : exists l, ban_head st = ban_head st ++ l) by (exists []; by rewrite app_nil_r).
    destruct (bool_decide _) eqn:Ed; [by eexists _, None|]. apply bool_decide_eq_false in Ed.
    destruct (last (ban_head st)) as [p|] eqn:El.
    2:{ apply last_None in El. pose proof (i_len _ _ _ H) as Hn. rewrite El in Hn. cbn in Hn. lia. }
    cbn [deref]. rewrite bind_Ret. assert (Hp : p ∈ ban_head st) by (rewrite last_lookup in El; by apply list_elem_of_lookup_2 in El).
    destruct (live_ban _ _ _ _ H Hp) as (b & i & ts & Hb & Hi & _ & Hok).
    rewrite (get_ban_ok _ _ _ Hb), bind_Ret. eexists _, _. split; [done|]. split; [done|]. split; [done|].
    split; [done|]. intros oc Hoc. split; [done|]. exists p. split; [|by split].
    apply (bk_oc _ _ _ _ _ Hok). destruct (objcore b); [done|]. injection Hoc as ->. by left.
Qed.

End Inv.

End BanInv.
