(* ===== verification/BanInsert.v ===== *)
(** Setting a ban: linking it in, marking its duplicates, and the command line. *)
From S2P Require Import Prelude Vend Vsb Mem Http HttpLines Ban BanSpec BanInv.
Import Mem Http HttpLines Ban BanSpec BanInv.

Module BanInsert.

Section Insert.

Context (compile : list Z -> option (list Z)) (exec : list Z -> list Z -> Z) `{!Pcre compile exec}.

Notation spec_octets := (spec_octets compile).
Notation tests_octets := (tests_octets compile).
Notation cond_octets := (cond_octets compile).
Notation tests_ok := (tests_ok compile).
Notation inv := (inv compile).

(** ** Comparing specs *)

Lemma drop8_spec t0 ts : drop 8 (spec_octets t0 ts) = cond_octets ts.
Proof. unfold BanInv.cond_octets, BanSpec.spec_octets. by rewrite !(drop_app_length' (double_bytes _)). Qed.

Lemma cond_form ts : cond_octets ts =
  be32 (13 + Z.of_nat (length (tests_octets ts))) ++ (if existsb is_req_test ts then 1 else 0) :: tests_octets ts.
Proof. unfold BanInv.cond_octets, BanSpec.spec_octets. by rewrite (drop_app_length' (double_bytes _)). Qed.

Lemma length_cond ts : length (cond_octets ts) = (5 + length (tests_octets ts))%nat.
Proof. rewrite cond_form, length_app, length_be32. cbn [length]. lia. Qed.

Lemma tests_ok_len ts : tests_ok ts -> 13 + Z.of_nat (length (tests_octets ts)) < 2 ^ 32.
Proof. intros H. pose proof (ts_len _ _ H). unfold Vsb.LIMIT in *. lia. Qed.

(** Equal conditions are equal tests in effect. *)
Lemma cond_inj ts1 ts2 : cond_octets ts1 = cond_octets ts2 ->
  existsb is_req_test ts1 = existsb is_req_test ts2 /\ tests_octets ts1 = tests_octets ts2.
Proof.
  rewrite !cond_form. intros H. apply app_inj_1 in H as [_ H]; [|done].
  injection H as H1 H2. split; [|done]. by destruct (existsb _ ts1), (existsb _ ts2).
Qed.

Lemma memeq_same a b n : length a = n -> length b = n -> memeq a b n = Ok (bool_decide (a = b)).
Proof.
  revert a b. induction n as [|n IH]; intros [|x a] [|y b] Ha Hb; try done. cbn [memeq].
  cbn in Ha, Hb. destruct (Z.eqb_spec x y) as [->|Hne].
  - rewrite IH by lia. f_equal. apply bool_decide_ext. split; congruence.
  - rewrite bool_decide_false by congruence. done.
Qed.

Lemma memeq_differ p q b1 b2 k : length p = length q -> p <> q -> (length p <= k)%nat ->
  memeq (p ++ b1) (q ++ b2) k = Ok false.
Proof.
  revert q k. induction p as [|x p IH]; intros [|y q] k Hl Hne Hk; cbn [length] in *; try lia; try done.
  destruct k as [|k]; [lia|]. cbn [app memeq]. destruct (Z.eqb_spec x y) as [->|]; [|done].
  apply IH; try lia. congruence.
Qed.

Lemma spec_memeq t1 t2 ts1 ts2 : tests_ok ts1 -> tests_ok ts2 ->
  memeq (drop 8 (spec_octets t1 ts1)) (drop 8 (spec_octets t2 ts2))
    (Z.to_nat (13 + Z.of_nat (length (tests_octets ts1)) - 8)) =
  Ok (bool_decide (cond_octets ts1 = cond_octets ts2)).
Proof.
  intros H1%tests_ok_len H2%tests_ok_len. rewrite !drop8_spec.
  replace (Z.to_nat _) with (length (cond_octets ts1)) by (rewrite length_cond; lia).
  destruct (decide (length (tests_octets ts1) = length (tests_octets ts2))) as [E|E].
  - apply memeq_same; [done|]. rewrite !length_cond. lia.
  - assert (Hbe : be32 (13 + Z.of_nat (length (tests_octets ts1))) <>
                  be32 (13 + Z.of_nat (length (tests_octets ts2)))).
    { intros Heq. pose proof (be32_dec (13 + Z.of_nat (length (tests_octets ts1))) [] ltac:(lia)) as D1.
      rewrite Heq, be32_dec in D1 by lia. injection D1 as D1. lia. }
    rewrite bool_decide_false.
    + rewrite !cond_form. apply memeq_differ; [done|done|].
      rewrite length_app, !length_be32. lia.
    + rewrite !cond_form. intros Heq. apply Hbe. by apply app_inj_1 in Heq as [? _].
Qed.

(** ** Linking *)

Definition fresh_ban (fl t0 : Z) (ts : list test) : ban := mkBan 0 fl [] None (Some (spec_octets t0 ts)).

Definition linked (st : bans) (p : positive) (b : ban) : bans :=
  count (set_start (set_head (put_ban st p b) (p :: ban_head st)) (Some p)) 1 0 0 0 0.

Lemma linked_ok st log refs p b t0 ts : inv st log refs -> tab st !! p = None ->
  refcount b = 0 -> objcore b = [] -> b_vsb b = None -> spec b = Some (spec_octets t0 ts) ->
  is_req b = existsb is_req_test ts -> is_gone b = false -> tests_ok ts ->
  inv (linked st p b) (ts :: log) refs.
Proof.
  intros H Hp Hrf Hob Hv Hsp Hreq Hgone Hts.
  assert (Hph : p ∉ ban_head st) by (rewrite <- (i_dom _ _ _ _ H), Hp; by intros [? [=]]).
  assert (Hoc : forall oc, oc_ban st !! oc <> Some (Some p)) by (intros oc Hoc; apply Hph; by eapply i_oc).
  pose proof (i_len _ _ _ _ H).
  split; cbn [linked count set_counters set_start set_head put_ban set_tab ban_head ban_start tab oc_ban counters n_ban].
  - apply NoDup_cons. split; [done|apply H].
  - cbn [length]. lia.
  - done.
  - intros q. destruct (decide (q = p)) as [->|Hne].
    + rewrite lookup_insert_eq. split; [intros _; left|done].
    + rewrite lookup_insert_ne by congruence. rewrite (i_dom _ _ _ _ H). set_solver.
  - intros [|i] q bq Hi; cbn in Hi.
    + injection Hi as <-. rewrite lookup_insert_eq. intros [= <-]. exists ts. split; [done|].
      split; rewrite ?Hob; try done; [|constructor| |by eexists].
      * rewrite Hrf. cbn [length]. rewrite (proj1 (count_occ_not_In _ _ _)); [done|].
        intros Hin%list_elem_of_In. by apply Hph, (i_refs _ _ _ _ H).
      * intros oc. split; [by intros ?%not_elem_of_nil|by intros ?%Hoc].
    + assert (q <> p) by (intros ->; by apply list_elem_of_lookup_2 in Hi).
      rewrite lookup_insert_ne by congruence. apply (i_ban _ _ _ _ H i q bq Hi).
  - intros [|i] q bq Hi; cbn in Hi.
    + injection Hi as <-. rewrite lookup_insert_eq. intros [= <-]. congruence.
    + assert (q <> p) by (intros ->; by apply list_elem_of_lookup_2 in Hi).
      rewrite lookup_insert_ne by congruence. intros Hq Hg.
      destruct (i_gone _ _ _ _ H i q bq Hi Hq Hg) as [E|(j & Hj & (pj & bj & Hpj & Hbj & Hgj) & Hc)].
      { left. cbn [length]. lia. }
      right. exists (S j). split; [lia|]. split; [|done]. exists pj, bj. split; [done|].
      assert (pj <> p) by (intros ->; by apply list_elem_of_lookup_2 in Hpj).
      cbn. by rewrite lookup_insert_ne by congruence.
  - intros oc q Hq. right. by eapply i_oc.
  - intros q Hq. right. by apply (i_refs _ _ _ _ H).
  - apply Forall_cons. split; [done|apply (i_log _ _ _ _ H)].
  - rewrite (i_count _ _ _ _ H). cbn [length]. unfold u64. rewrite Z.sub_0_r, Zplus_mod_idemp_l. f_equal. lia.
Qed.

(** ** Duplicates *)

Lemma gone_flag f : truth (Z.land (Z.lor f BAN_F_GONE) BAN_F_GONE) = true /\
  Z.land (Z.lor f BAN_F_GONE) BAN_F_REQ = Z.land f BAN_F_REQ.
Proof.
  unfold BAN_F_GONE, BAN_F_REQ. rewrite !Z.land_lor_distr_l. change (Z.land (Z.shiftl 1 0) (Z.shiftl 1 2)) with 0.
  rewrite Z.lor_0_r. split; [|done]. apply truth_true. intros E. apply Z.lor_eq_0_iff in E as [_ E]. done.
Qed.

Definition marked (st : bans) (q : positive) (b : ban) : bans :=
  put_ban st q (set_flags b (Z.lor (flags b) BAN_F_GONE)).

(** A ban whose condition the newest has may be marked. *)
Lemma marked_ok st log refs k q b : inv st log refs -> live st 0 -> (0 < k)%nat ->
  ban_head st !! k = Some q -> tab st !! q = Some b ->
  cond_octets <$> (log !! 0%nat) = cond_octets <$> (log !! k) ->
  inv (marked st q b) log refs /\ live (marked st q b) 0.
Proof.
  intros H Hl0 Hk Hq Hb Hc. destruct (gone_flag (flags b)) as [Hg Hr].
  assert (Hlv : forall j, j <> k -> live st j -> live (marked st q b) j).
  { intros j Hj (pj & bj & Hpj & Hbj & Hgj). exists pj, bj. split; [done|].
    assert (pj <> q).
    { intros ->. apply Hj. by eapply NoDup_lookup; [apply (i_nodup _ _ _ _ H)|..]. }
    cbn. by rewrite lookup_insert_ne by congruence. }
  split; [|apply Hlv; [lia|done]].
  assert (Hdom : forall r, is_Some (tab (marked st q b) !! r) <-> is_Some (tab st !! r)).
  { intros r. cbn. destruct (decide (r = q)) as [->|]; [|by rewrite lookup_insert_ne by congruence].
    rewrite lookup_insert_eq, Hb. done. }
  split; try apply H.
  - intros r. rewrite Hdom. apply (i_dom _ _ _ _ H).
  - intros i r br Hi. cbn. destruct (decide (r = q)) as [->|Hne].
    + rewrite lookup_insert_eq. intros [= <-]. destruct (i_ban _ _ _ _ H i q b Hi Hb) as (ts & Hts & Hok).
      exists ts. split; [done|]. destruct Hok. split; try done. unfold is_req in *. cbn [flags set_flags]. by rewrite Hr.
    + rewrite lookup_insert_ne by congruence. apply (i_ban _ _ _ _ H i r br Hi).
  - intros i r br Hi. cbn. destruct (decide (r = q)) as [->|Hne].
    + rewrite lookup_insert_eq. intros _ _. right.
      assert (i = k) as -> by (by eapply NoDup_lookup; [apply (i_nodup _ _ _ _ H)|..]).
      exists 0%nat. split; [done|]. split; [apply Hlv; [lia|done]|done].
    + rewrite lookup_insert_ne by congruence. intros Hr0 Hg0.
      destruct (i_gone _ _ _ _ H i r br Hi Hr0 Hg0) as [E|(j & Hj & Hlj & Hcj)]; [by left|right].
      destruct (decide (j = k)) as [->|Hjk].
      * exists 0%nat. split; [lia|]. split; [apply Hlv; [lia|done]|]. by rewrite Hc.
      * exists j. split; [done|]. split; [by apply Hlv|done].
Qed.

Lemma ban_dup_ok st log refs t0 ts k q pc : inv st log refs -> live st 0 -> (0 < k)%nat ->
  log !! 0%nat = Some ts -> ban_head st !! k = Some q ->
  exists st' pc', ban_dup st (spec_octets t0 ts) (13 + Z.of_nat (length (tests_octets ts))) q pc = Ok (st', pc') /\
    inv st' log refs /\ live st' 0 /\ ban_head st' = ban_head st /\ oc_ban st' = oc_ban st /\
    ban_start st' = ban_start st.
Proof.
  intros H Hl Hk H0 Hq. assert (Hin : q ∈ ban_head st) by (by apply list_elem_of_lookup_2 in Hq).
  apply (i_dom _ _ _ _ H) in Hin as [b Hb]. unfold ban_dup. rewrite (get_ban_ok _ _ _ Hb), bind_Ret.
  assert (Hself : exists st' pc', Ok (st, pc) = Ok (st', pc') /\ inv st' log refs /\ live st' 0 /\
    ban_head st' = ban_head st /\ oc_ban st' = oc_ban st /\ ban_start st' = ban_start st) by (by exists st, pc).
  destruct (is_gone b); [exact Hself|]. destruct (i_ban _ _ _ _ H k q b Hq Hb) as (ts' & Hts' & Hok).
  destruct (bk_spec _ _ _ _ _ _ Hok) as [t1 Esp]. unfold spec_of. rewrite Esp. cbn [deref]. rewrite bind_Ret.
  pose proof (i_log _ _ _ _ H) as Hlog. rewrite Forall_lookup in Hlog.
  rewrite spec_memeq by (eapply Hlog; done). rewrite bind_Ret. destruct (bool_decide _) eqn:Ec; [|exact Hself].
  apply bool_decide_eq_true in Ec. cbn [negb]. fold (marked st q b).
  destruct (marked_ok st log refs k q b H Hl Hk Hq Hb) as [Hi Hl']; [rewrite H0, Hts'; exact (f_equal Some Ec)|].
  by eexists _, _.
Qed.

Lemma dups_loop_ok st log refs t0 ts n be : inv st log refs -> live st 0 -> log !! 0%nat = Some ts ->
  ban_head st !! n = Some be -> forall fuel k bi pc, ban_head st !! k = Some bi -> (k <= n)%nat -> (n - k <= fuel)%nat ->
  exists st' pc', ban_dups_loop fuel st (spec_octets t0 ts) (13 + Z.of_nat (length (tests_octets ts))) bi be pc =
      Ok (st', pc') /\ inv st' log refs /\ ban_head st' = ban_head st /\ oc_ban st' = oc_ban st /\
      ban_start st' = ban_start st.
Proof.
  intros H Hl H0 Hn fuel. revert st H Hl Hn. induction fuel as [|fuel IH]; intros st H Hl Hn k bi pc Hk Hkn Hf; cbn [ban_dups_loop].
  - assert (k = n) as -> by lia. rewrite bool_decide_true by congruence. by exists st, pc.
  - destruct (bool_decide (bi = be)) eqn:Ed; [by exists st, pc|]. apply bool_decide_eq_false in Ed.
    assert (Hkne : k <> n) by congruence. rewrite (next_at _ k) by (done || apply (i_nodup _ _ _ _ H)).
    destruct (lookup_lt_is_Some_2 (ban_head st) (S k)) as [q Hq].
    { pose proof (lookup_lt_Some _ _ _ Hn). lia. }
    rewrite Hq. cbn [deref]. rewrite bind_Ret.
    destruct (ban_dup_ok st log refs t0 ts (S k) q pc H Hl ltac:(lia) H0 Hq)
      as (st1 & pc1 & -> & H1 & Hl1 & Eh1 & Eo1 & Es1). rewrite bind_Ret. cbv beta iota.
    destruct (IH st1 H1 Hl1 ltac:(congruence) (S k) q pc1) as (st2 & pc2 & E2 & H2 & Eh2 & Eo2 & Es2);
      [congruence|lia|lia|].
    exists st2, pc2. split; [done|]. split; [done|]. split_and!; congruence.
Qed.

(** ** The whole insertion *)

Lemma publish_ok st log refs p fl t0 ts dups : inv st log refs -> room st refs -> tab st !! p = None ->
  truth (Z.land fl BAN_F_REQ) = existsb is_req_test ts -> truth (Z.land fl BAN_F_GONE) = false -> tests_ok ts ->
  exists st', ban_publish st p (fresh_ban fl t0 ts) (13 + Z.of_nat (length (tests_octets ts))) dups = Ok st' /\
    inv st' (ts :: log) refs /\ oc_ban st' = oc_ban st /\ ban_head st' = p :: ban_head st.
Proof.
  intros H Hr Hp Hreq Hg Hts. unfold ban_publish. cbn [spec_of spec fresh_ban deref]. rewrite bind_Ret.
  unfold ban_link. fold (fresh_ban fl t0 ts). fold (linked st p (fresh_ban fl t0 ts)).
  pose proof (linked_ok st log refs p (fresh_ban fl t0 ts) t0 ts H Hp eq_refl eq_refl eq_refl eq_refl Hreq Hg Hts) as H1.
  set (st1 := linked st p (fresh_ban fl t0 ts)) in *.
  assert (Hl1 : live st1 0) by (exists p, (fresh_ban fl t0 ts); cbn; by rewrite lookup_insert_eq).
  assert (exists be, last (ban_head st1) = Some be) as [be Hbe].
  { destruct (last (ban_head st1)) eqn:E; [by eexists|]. by apply last_None in E. }
  rewrite Hbe. cbn [deref]. rewrite bind_Ret.
  destruct (dups && negb (bool_decide (be = p))) eqn:Ed.
  2:{ eexists. split; [done|]. by split. }
  assert (Hbein : be ∈ ban_head st1) by (rewrite last_lookup in Hbe; by apply list_elem_of_lookup_2 in Hbe).
  destruct (TailRef_ok compile st1 (ts :: log) refs H1 Hr) as (st2 & be' & E2 & H2 & Hbe' & Ho2).
  assert (be' = be) as -> by congruence. unfold BAN_TailRef in E2. rewrite Hbe in E2.
  unfold mret at 1, res_ret at 1 in E2. rewrite bind_Ret in E2. apply bind_Ok in E2 as (st2' & E2 & [= ->]).
  rewrite E2, bind_Ret. cbv beta iota. unfold mret at 1, res_ret at 1. rewrite bind_Ret. cbv beta iota.
  assert (Hsame : ban_head st2 = ban_head st1 /\ live st2 0).
  { destruct (proj2 (i_dom _ _ _ _ H1 be) Hbein) as [bb Hbb]. rewrite (upd_ban_ok _ _ _ _ Hbb) in E2.
    injection E2 as <-. split; [done|]. eapply same_list_live; [|exact Hl1]. by eapply same_list_put. }
  destruct Hsame as [Hh2 Hl2]. rewrite last_lookup in Hbe.
  destruct (dups_loop_ok st2 (ts :: log) (be :: refs) t0 ts (pred (length (ban_head st1))) be H2 Hl2 eq_refl
      ltac:(by rewrite Hh2) (length (ban_head st2)) 0 p 0)
    as (st3 & pc & E3 & H3 & Hh3 & Ho3 & Hs3); [by rewrite Hh2|lia|rewrite Hh2; lia|].
  rewrite E3, bind_Ret.
  destruct (TailDeref_ok compile st3 (ts :: log) [] be refs H3) as (st4 & E4 & H4 & Ho4).
  { unfold room, fits in *. cbn [app length]. rewrite Ho3, Ho2. change (oc_ban st1) with (oc_ban st). lia. }
  unfold BAN_TailDeref in E4. rewrite E4, bind_Ret. eexists. split; [done|].
  assert (Hh4 : ban_head st4 = ban_head st3).
  { unfold upd_ban in E4. apply bind_Ok in E4 as (? & _ & [= <-]). done. }
  split; [|split; [by cbn; rewrite Ho4, Ho3, Ho2|by cbn; rewrite Hh4, Hh3, Hh2]].
  eapply inv_same; [exact H4|by eapply same_list_count|..].
  - intros q bq Hq. destruct (tab_ban _ _ _ _ _ _ H4 Hq) as (_ & ts' & [? ? ? _ _ _]). done.
  - apply (i_oc _ _ _ _ H4).
  - apply (i_refs _ _ _ _ H4).
Qed.

(** ** The command line *)

Definition test_args (t : test) : list (list Z) :=
  [field_text (t_field t); cond_text (t_cond t); t_arg t].

(** The tests with an and between them. *)
Fixpoint tests_args (ts : list test) : list (list Z) :=
  match ts with
  | [] => []
  | t :: ts => test_args t ++ (if bool_decide (ts = []) then [] else [str "&&"]) ++ tests_args ts
  end.

Definition ban_args (ts : list test) : list (list Z) := [] :: str "ban" :: tests_args ts.

Lemma length_tests_args t ts : length (tests_args (t :: ts)) = (3 + 4 * length ts)%nat.
Proof.
  revert t. induction ts as [|t' ts IH]; intros t; [done|].
  change (tests_args (t :: t' :: ts)) with (test_args t ++ [str "&&"] ++ tests_args (t' :: ts)).
  rewrite !length_app, IH. cbn [length test_args]. lia.
Qed.

Lemma check_ands_ok t ts pre : check_ands (length ts) (pre ++ tests_args (t :: ts)) (length pre + 1) = Ok true.
Proof.
  revert t pre. induction ts as [|t' ts IH]; intros t pre; [done|]. cbn [length check_ands].
  change (tests_args (t :: t' :: ts)) with ((test_args t ++ [str "&&"]) ++ tests_args (t' :: ts)).
  assert (E : arg (pre ++ (test_args t ++ [str "&&"]) ++ tests_args (t' :: ts)) (length pre + 1 + 2) = Ok (str "&&")).
  { unfold arg. rewrite lookup_app_r by lia. replace (_ + 1 + 2 - _)%nat with 3%nat by lia. done. }
  rewrite E, bind_Ret, bool_decide_true by done.
  rewrite app_assoc. specialize (IH t' (pre ++ test_args t ++ [str "&&"])).
  rewrite !length_app in IH. cbn [length test_args] in IH.
  replace (length pre + 1 + 4)%nat with (length pre + (3 + 1) + 1)%nat by lia. exact IH.
Qed.

Section Building.

Context (malloc : Z -> option (list Z)) (Hmalloc : Vsb.total_malloc malloc).

Lemma add_tests_step n pre t rest b b1 : (2 <= length pre)%nat ->
  BAN_AddTest malloc compile b (field_text (t_field t)) (cond_text (t_cond t)) (t_arg t) = Ok (b1, None) ->
  add_tests malloc compile (S n) (pre ++ test_args t ++ rest) (length pre - 2) b =
  add_tests malloc compile n (pre ++ test_args t ++ rest) (length pre - 2 + 4) b1.
Proof.
  intros Hpre E. set (av := pre ++ _). cbn [add_tests].
  assert (Harg : forall k i x, test_args t !! k = Some x -> i = (length pre + k)%nat -> arg av i = Ok x).
  { intros k i x Hk ->. unfold arg, av. rewrite lookup_app_r by lia.
    replace (_ + k - _)%nat with k by lia. by rewrite (lookup_app_l_Some _ _ _ _ Hk). }
  rewrite (Harg 0%nat (length pre - 2 + 2)%nat _ eq_refl ltac:(lia)), bind_Ret.
  rewrite (Harg 1%nat (length pre - 2 + 3)%nat _ eq_refl ltac:(lia)), bind_Ret.
  rewrite (Harg 2%nat (length pre - 2 + 4)%nat _ eq_refl ltac:(lia)), bind_Ret. by rewrite E.
Qed.

Lemma add_tests_ok ts : forall t pre b fl l, builds b fl l -> Forall (test_ok compile) (t :: ts) ->
  Z.of_nat (length l + length (tests_octets (t :: ts))) <= Vsb.LIMIT -> (2 <= length pre)%nat ->
  exists b', add_tests malloc compile (S (length ts)) (pre ++ tests_args (t :: ts)) (length pre - 2) b = Ok (b', None) /\
    builds b' (foldl (fun fl t => Z.lor fl (req_flag t)) fl (t :: ts)) (l ++ tests_octets (t :: ts)).
Proof.
  induction ts as [|t' ts IH]; intros t pre b fl l Hb Hts Hl Hpre; apply Forall_cons in Hts as [Ht Hts];
    change (tests_octets (t :: ?ts)) with (test_octets compile t ++ tests_octets ts) in *;
    rewrite length_app in Hl;
    destruct (AddTest_ok compile exec malloc Hmalloc b fl l t Hb Ht ltac:(lia)) as (b1 & E1 & Hb1);
    cbn [tests_args length]; rewrite (add_tests_step _ _ _ _ _ _ Hpre E1).
  - exists b1. split; [done|]. change (tests_octets []) with (@nil Z). by rewrite app_nil_r.
  - destruct (IH t' (pre ++ test_args t ++ [str "&&"]) b1 _ _ Hb1 Hts) as (b2 & E2 & Hb2).
    { rewrite length_app. lia. }
    { rewrite length_app. lia. }
    exists b2. split; [|by rewrite <- app_assoc in Hb2].
    rewrite <- !app_assoc, !length_app in E2. cbn [length test_args] in E2.
    replace (length pre - 2 + 4)%nat with (length pre + (3 + 1) - 2)%nat by lia. exact E2.
Qed.

Lemma req_flags ts fl : Z.land fl BAN_F_GONE = 0 -> Z.land fl (Z.lnot BAN_F_REQ) = 0 ->
  let fl' := foldl (fun fl t => Z.lor fl (req_flag t)) fl ts in
  truth (Z.land fl' BAN_F_REQ) = truth (Z.land fl BAN_F_REQ) || existsb is_req_test ts /\
  truth (Z.land fl' BAN_F_GONE) = false.
Proof.
  revert fl. induction ts as [|t ts IH]; intros fl Hg Hr; cbn [foldl existsb].
  { rewrite orb_false_r. split; [done|by rewrite Hg]. }
  destruct (IH (Z.lor fl (req_flag t))) as [E1 E2].
  { rewrite Z.land_lor_distr_l, Hg. unfold req_flag. by destruct (is_req_test t). }
  { rewrite Z.land_lor_distr_l, Hr. unfold req_flag. by destruct (is_req_test t). }
  split; [|done]. rewrite E1, Z.land_lor_distr_l. unfold req_flag. destruct (is_req_test t); cbn [orb].
  - rewrite orb_true_r. replace (truth (Z.lor _ _)) with true; [done|]. symmetry. apply truth_true.
    intros [_ E]%Z.lor_eq_0_iff. done.
  - rewrite Z.land_0_l, Z.lor_0_r. done.
Qed.

(** Any ban with tests can be given on the command line. *)
Lemma ccf_ban_ok st log refs ts p t0 dups : inv st log refs -> room st refs -> tab st !! p = None ->
  ts <> [] -> tests_ok ts ->
  exists st' b, ccf_ban malloc compile st (ban_args ts) p t0 dups = Ok (st', None) /\
    inv st' (ts :: log) refs /\ oc_ban st' = oc_ban st /\ ban_head st' = p :: ban_head st /\
    tab st' !! p = Some b /\ exists t1, spec b = Some (spec_octets t1 ts).
Proof.
  intros H Hr Hp Hne Hts. destruct ts as [|t ts]; [done|].
  assert (Hin : exists st', ccf_ban malloc compile st (ban_args (t :: ts)) p t0 dups = Ok (st', None) /\
    inv st' ((t :: ts) :: log) refs /\ oc_ban st' = oc_ban st /\ ban_head st' = p :: ban_head st).
  { unfold ccf_ban.
    assert (Hlen : (length (ban_args (t :: ts)) - 2 = 3 + 4 * length ts)%nat)
      by (unfold ban_args; cbn [length]; rewrite length_tests_args; lia).
    rewrite Hlen. cbv zeta.
    replace ((3 + 4 * length ts) mod 4)%nat with 3%nat
      by (rewrite Nat.mul_comm, Nat.Div0.mod_add; done).
    change (3 =? 3)%nat with true. cbn [negb].
    replace ((3 + 4 * length ts) / 4)%nat with (length ts) by (rewrite Nat.mul_comm, Nat.div_add; done).
    pose proof (check_ands_ok t ts [[]; str "ban"]) as E. cbn [length Nat.add app] in E.
    change ([] :: str "ban" :: tests_args (t :: ts)) with (ban_args (t :: ts)) in E. rewrite E, bind_Ret. clear E.
    cbn [negb]. destruct (builds_new malloc Hmalloc) as (b0 & -> & Hb0). rewrite bind_Ret. cbv beta iota.
    destruct (add_tests_ok ts t [[]; str "ban"] b0 0 [] Hb0 (ts_ok _ _ Hts)) as (b1 & E1 & Hb1);
      [exact (ts_len _ _ Hts)|cbn; lia|].
    change (length [[]; str "ban"] - 2)%nat with 0%nat in E1.
    change ([[]; str "ban"] ++ tests_args (t :: ts)) with (ban_args (t :: ts)) in E1.
    rewrite E1, bind_Ret. cbv beta iota. cbn [app] in Hb1.
    destruct (req_flags (t :: ts) 0 eq_refl eq_refl) as [Hq Hg]. cbv zeta in Hq, Hg.
    set (fl := foldl _ 0 (t :: ts)) in *. unfold BAN_Insert.
    rewrite (make_spec_ok compile malloc Hmalloc b1 fl (t :: ts) t0 Hb1 Hq (tests_ok_len _ Hts)), bind_Ret.
    cbv beta iota. fold (fresh_ban fl t0 (t :: ts)).
    destruct (publish_ok st log refs p fl t0 (t :: ts) dups H Hr Hp Hq Hg Hts) as (st' & E & H' & Ho & Hh).
    rewrite E, bind_Ret. by exists st'. }
  destruct Hin as (st' & E & H' & Ho & Hh).
  assert (Hps : p ∈ ban_head st') by (rewrite Hh; left).
  destruct (proj2 (i_dom _ _ _ _ H' p) Hps) as [b Hb].
  destruct (i_ban _ _ _ _ H' 0%nat p b) as (ts' & [= <-] & Hok); [by rewrite Hh|done|].
  exists st', b. split; [done|]. split; [done|]. split; [done|]. split; [done|]. split; [done|].
  apply (bk_spec _ _ _ _ _ _ Hok).
Qed.

End Building.

End Insert.

End BanInsert.
