(* ===== verification/BanCheck.v ===== *)
(** Checking an object against the bans set since it was last checked. *)
From S2P Require Import Prelude Vend Vsb Mem Http HttpLines Ban BanSpec BanInv BanInsert.
Import Mem Http HttpLines Ban BanSpec BanInv BanInsert.

Module BanCheck.

Section Check.

Context (compile : list Z -> option (list Z)) (exec : list Z -> list Z -> Z) `{!Pcre compile exec}.

Notation spec_octets := (spec_octets compile).
Notation tests_octets := (tests_octets compile).
Notation cond_octets := (cond_octets compile).
Notation tests_ok := (tests_ok compile).
Notation inv := (inv compile).

(** ** What a ban says *)

Definition bans_on (g : msgs) (ts : list test) : bool := forallb (holds_on compile exec g) ts.

Definition testable (has_req : bool) (ts : list test) : bool := has_req || negb (existsb is_req_test ts).

(** Equal conditions apply to the same messages. *)
Lemma cond_same g ts1 ts2 : msgs_ok g -> tests_ok ts1 -> tests_ok ts2 -> cond_octets ts1 = cond_octets ts2 ->
  bans_on g ts1 = bans_on g ts2 /\ existsb is_req_test ts1 = existsb is_req_test ts2.
Proof.
  intros Hg H1 H2 [Hr Ho]%cond_inj. split; [|done].
  destruct (evaluate_loop_ok compile exec g ts1 Hg (ts_ok _ _ H1) [] (length ts1 + length ts2) 0 ltac:(lia)) as [n1 E1].
  destruct (evaluate_loop_ok compile exec g ts2 Hg (ts_ok _ _ H2) [] (length ts1 + length ts2) 0 ltac:(lia)) as [n2 E2].
  cbn [app] in E1, E2. rewrite Ho, E2 in E1. injection E1 as E1 _. symmetry. exact E1.
Qed.

(** ** The loop *)

(** Ban number [j] of the list is not gone and satisfies [P]. *)
Definition live_with (st : bans) (log : list (list test)) (P : list test -> bool) (j : nat) : Prop :=
  live st j /\ exists ts, log !! j = Some ts /\ P ts = true.

Lemma check_loop_ok st log refs g has_req i ocb : inv st log refs -> msgs_ok g -> ban_head st !! i = Some ocb ->
  Z.of_nat (length (ban_head st)) < 2 ^ 32 ->
  forall fuel k tests skipped, (k <= i)%nat -> (i - k <= fuel)%nat -> 0 <= skipped <= Z.of_nat k ->
  exists r tests' sk,
    check_loop exec fuel st (g_mem g) (g_obj g) (g_req g) has_req (ban_head st !! k) ocb tests skipped =
      Ok (r, tests', sk) /\
    (r = true <-> exists j, (k <= j < i)%nat /\ live_with st log (fun ts => testable has_req ts && bans_on g ts) j) /\
    (r = false -> (0 < sk <-> 0 < skipped \/
       exists j, (k <= j < i)%nat /\ live_with st log (fun ts => negb (testable has_req ts)) j)).
Proof.
  intros H Hg Hi Hsmall. induction fuel as [|fuel IH]; intros k tests skipped Hk Hf Hsk; cbn [check_loop].
  { assert (k = i) as -> by lia. rewrite Hi, bool_decide_true by done. exists false, tests, skipped.
    split; [done|]. split; [split; [done|intros (j & ? & _); lia]|].
    intros _. split; [by left|intros [?|(j & ? & _)]; [done|lia]]. }
  destruct (decide (k = i)) as [->|Hne].
  { rewrite Hi, bool_decide_true by done. exists false, tests, skipped.
    split; [done|]. split; [split; [done|intros (j & ? & _); lia]|].
    intros _. split; [by left|intros [?|(j & ? & _)]; [done|lia]]. }
  destruct (lookup_lt_is_Some_2 (ban_head st) k) as [p Hp]; [pose proof (lookup_lt_Some _ _ _ Hi); lia|].
  rewrite Hp, bool_decide_false.
  2:{ intros [= ->]. apply Hne. by eapply NoDup_lookup; [apply (i_nodup _ _ _ _ H)|..]. }
  cbn [deref]. rewrite bind_Ret.
  assert (Hin : p ∈ ban_head st) by by apply list_elem_of_lookup_2 in Hp.
  apply (i_dom _ _ _ _ H) in Hin as [b Hb]. rewrite (get_ban_ok _ _ _ Hb), bind_Ret. cbv zeta.
  rewrite (next_at _ k) by (done || apply (i_nodup _ _ _ _ H)).
  destruct (i_ban _ _ _ _ H k p b Hp Hb) as (ts & Hts & Hok).
  pose proof (lookup_lt_Some _ _ _ Hp) as Hklt.
  assert (Hlive : live st k <-> is_gone b = false).
  { split; [intros (p' & b' & ? & ? & ?); congruence|intros ?; by exists p, b]. }
  (* the bans from k on, with or without k itself *)
  assert (Hrange : forall P, ~ live_with st log P k ->
    (exists j, (k <= j < i)%nat /\ live_with st log P j) <-> (exists j, (S k <= j < i)%nat /\ live_with st log P j)).
  { intros P Hnot. split; intros (j & Hj & Hl); exists j; (split; [|done]); [|lia].
    destruct (decide (j = k)) as [->|]; [done|lia]. }
  destruct (is_gone b) eqn:Hgone.
  { assert (Hnot : forall P, ~ live_with st log P k) by (intros P [Hl _]; apply Hlive in Hl; congruence).
    destruct (IH (S k) tests skipped ltac:(lia) ltac:(lia) ltac:(lia)) as (r & t' & sk & E & Hr & Hs).
    exists r, t', sk. split; [done|]. rewrite (Hrange _ (Hnot _)), (Hrange _ (Hnot _)). done. }
  rewrite (bk_req _ _ _ _ _ _ Hok).
  destruct (negb has_req && existsb is_req_test ts) eqn:Hskip.
  { assert (Ht : testable has_req ts = false) by (unfold testable; destruct has_req, (existsb _ ts); done).
    rewrite (u32_small (skipped + 1)) by lia.
    destruct (IH (S k) tests (skipped + 1) ltac:(lia) ltac:(lia) ltac:(lia)) as (r & t' & sk & E & Hr & Hs).
    exists r, t', sk. split; [done|]. rewrite Hrange.
    2:{ intros (_ & ts' & Hts' & HP). assert (ts' = ts) as -> by congruence. by rewrite Ht in HP. }
    split; [done|]. intros ->. rewrite (Hs eq_refl). split; intros _; [|left; lia]. right. exists k.
    split; [lia|]. split; [by apply Hlive|]. exists ts. by rewrite Ht. }
  assert (Ht : testable has_req ts = true) by (unfold testable; destruct has_req, (existsb _ ts); done).
  destruct (bk_spec _ _ _ _ _ _ Hok) as [t0 Esp]. unfold spec_of. rewrite Esp. cbn [deref]. rewrite bind_Ret.
  pose proof (i_log _ _ _ _ H) as Hlog. rewrite Forall_lookup in Hlog. specialize (Hlog _ _ Hts).
  destruct (ban_evaluate_ok compile exec g t0 ts tests Hg (ts_ok _ _ Hlog) (tests_ok_len _ _ Hlog)) as [n ->].
  rewrite bind_Ret. cbv beta iota. fold (bans_on g ts). destruct (bans_on g ts) eqn:Eb.
  { exists true, n, skipped. split; [done|]. split; [|done]. split; [intros _|done]. exists k.
    split; [lia|]. split; [by apply Hlive|]. exists ts. by rewrite Ht, Eb. }
  destruct (IH (S k) n skipped ltac:(lia) ltac:(lia) ltac:(lia)) as (r & t' & sk & E & Hr & Hs).
  exists r, t', sk. split; [done|].
  rewrite (Hrange (fun ts => testable has_req ts && bans_on g ts)), (Hrange (fun ts => negb (testable has_req ts))).
  - done.
  - intros (_ & ts' & Hts' & HP). assert (ts' = ts) as -> by congruence. by rewrite Ht in HP.
  - intros (_ & ts' & Hts' & HP). assert (ts' = ts) as -> by congruence. by rewrite Ht, Eb in HP.
Qed.

(** Leaving out the bans that are gone changes nothing. *)
Lemma live_enough st log refs g i (P : list test -> bool) : inv st log refs -> msgs_ok g ->
  (i < length (ban_head st))%nat ->
  (forall ts1 ts2, bans_on g ts1 = bans_on g ts2 -> existsb is_req_test ts1 = existsb is_req_test ts2 ->
     P ts1 = P ts2) ->
  (exists j, (0 <= j < i)%nat /\ live_with st log P j) <-> existsb P (take i log) = true.
Proof.
  intros H Hg Hi HP. rewrite existsb_exists. split.
  - intros (j & Hj & _ & ts & Hts & Hp). exists ts. split; [|done].
    apply list_elem_of_In, list_elem_of_lookup_2 with j. by rewrite lookup_take_lt by lia.
  - intros (ts & Hin & Hp). apply list_elem_of_In, list_elem_of_lookup_1 in Hin as [j Hj].
    apply lookup_take_Some in Hj as [Hj Hji].
    destruct (lookup_lt_is_Some_2 (ban_head st) j) as [p Hpj]; [lia|].
    destruct (proj2 (i_dom _ _ _ _ H p)) as [b Hb]; [by apply list_elem_of_lookup_2 in Hpj|].
    destruct (is_gone b) eqn:Hgone.
    2:{ exists j. split; [lia|]. split; [by exists p, b|by exists ts]. }
    destruct (i_gone _ _ _ _ H j p b Hpj Hb Hgone) as [E|(j' & Hj' & Hlv & Hc)].
    { pose proof (i_len _ _ _ _ H). lia. }
    rewrite Hj in Hc. destruct (log !! j') as [ts'|] eqn:Hts'; [|done]. apply (inj Some) in Hc.
    pose proof (i_log _ _ _ _ H) as Hlog. rewrite Forall_lookup in Hlog.
    destruct (cond_same g ts' ts Hg (Hlog _ _ Hts') (Hlog _ _ Hj) Hc) as [E1 E2].
    exists j'. split; [lia|]. split; [done|]. exists ts'. split; [done|]. by rewrite (HP ts' ts).
Qed.

(** ** The whole check *)

Lemma check_move_ok st log refs oc ocb b0 banned tests : inv st log refs -> room st refs ->
  oc_ban st !! oc = Some (Some ocb) -> b0 <> ocb -> b0 ∈ ban_head st ->
  exists st', check_move st oc ocb b0 banned tests = Ok st' /\ inv st' log refs /\ ban_head st' = ban_head st /\
    oc_ban st' = <[oc := if banned then None else Some b0]> (oc_ban st).
Proof.
  intros H Hr Hoc Hne Hb0. unfold check_move.
  assert (Hocb : ocb ∈ ban_head st) by (by eapply i_oc).
  apply (i_dom _ _ _ _ H) in Hocb as [b Hb]. apply (i_dom _ _ _ _ H) in Hb0 as [bz Hbz].
  rewrite (upd_ban_ok _ _ _ _ Hb), bind_Ret.
  pose proof (detached_ok compile st log refs oc ocb b H Hr Hoc Hb) as H1.
  destruct banned.
  - unfold mret at 1, res_ret at 1. rewrite bind_Ret. eexists. split; [done|]. split; [|done].
    eapply inv_same; [exact H1|..].
    + eapply same_list_trans; [by eapply (same_list_count compile _ _ _ 0 1 tests)|]. split; try done.
      intros q. cbn. by destruct (<[_ := _]> _ !! q).
    + intros q bq Hq. destruct (tab_ban compile (detached st oc ocb b) log refs q bq H1 Hq) as (_ & ts' & [? ? ? _ _ _]). done.
    + apply (i_oc _ _ _ _ H1).
    + apply (i_refs _ _ _ _ H1).
  - assert (Hbz' : tab (put_ban st ocb (set_objcore (decref b) (remove oc (objcore b)))) !! b0 = Some bz)
      by (cbn; by rewrite lookup_insert_ne by congruence).
    rewrite (upd_ban_ok _ _ _ _ Hbz'), bind_Ret. eexists. split; [done|]. split; [|done].
    assert (Hr1 : room (detached st oc ocb b) refs).
    { unfold room in *. cbn [oc_ban detached set_oc_ban]. rewrite map_size_insert_Some by by eexists. done. }
    pose proof (attached_ok compile (detached st oc ocb b) log refs oc b0 bz H1 Hr1
      ltac:(cbn; by rewrite lookup_insert_eq) Hbz') as H2.
    eapply inv_same; [exact H2|..].
    + eapply same_list_trans; [by eapply (same_list_count compile _ _ _ 0 1 tests)|]. split; try done.
      intros q. cbn. by destruct (<[_ := _]> _ !! q).
    + intros q bq Hq. cbn in Hq.
      destruct (tab_ban compile _ log refs q bq H2 Hq) as (_ & ts' & [? ? Hin _ _ _]).
      split; [done|]. split; [done|]. intros o. rewrite Hin. cbn. by rewrite insert_insert_eq.
    + intros o q. cbn. pose proof (i_oc _ _ _ _ H2 o q) as Ho. cbn in Ho. by rewrite insert_insert_eq in Ho.
    + apply (i_refs _ _ _ _ H2).
Qed.

(** The answer of the history: the bans set since the object was last at ban
    number [i] of the list. *)
Definition check_spec (g : msgs) (has_req : bool) (new : list (list test)) : bool * bool :=
  let banned := existsb (fun ts => testable has_req ts && bans_on g ts) new in
  (banned, negb banned && existsb (fun ts => negb (testable has_req ts)) new).

Lemma check_object_ok st log refs g has_req oc i ocb : inv st log refs -> room st refs -> msgs_ok g ->
  Z.of_nat (length (ban_head st)) < 2 ^ 32 -> oc_ban st !! oc = Some (Some ocb) -> ban_head st !! i = Some ocb ->
  let '(banned, gives_up) := check_spec g has_req (take i log) in
  exists st', ban_check_object exec st (g_mem g) oc (g_obj g) (g_req g) has_req = Ok (st', banned) /\
    inv st' log refs /\ ban_head st' = ban_head st /\
    oc_ban st' = if gives_up then oc_ban st
                 else <[oc := if banned then None else ban_head st !! 0%nat]> (oc_ban st).
Proof.
  intros H Hr Hg Hsmall Hoc Hi. unfold check_spec.
  set (banned := existsb _ (take i log)). set (req := existsb (fun ts => negb _) (take i log)). cbv zeta.
  unfold ban_check_object. rewrite Hoc. cbn [deref]. rewrite bind_Ret. cbv beta iota.
  unfold mret at 1, res_ret at 1. rewrite bind_Ret, (i_start _ _ _ _ H).
  destruct (lookup_lt_is_Some_2 (ban_head st) 0) as [b0 Hb0]; [pose proof (i_len _ _ _ _ H); lia|].
  assert (Eh : head (ban_head st) = Some b0) by (destruct (ban_head st); done). rewrite Eh.
  unfold mret at 1, res_ret at 1. rewrite bind_Ret. destruct (bool_decide (b0 = ocb)) eqn:Ed.
  { apply bool_decide_eq_true in Ed as ->.
    assert (i = 0%nat) as -> by (by eapply NoDup_lookup; [apply (i_nodup _ _ _ _ H)|..]).
    unfold banned, req. rewrite take_0. cbn. eexists. split; [done|]. split; [done|]. split; [done|].
    rewrite Hb0. by rewrite insert_id. }
  apply bool_decide_eq_false in Ed. rewrite <- Hb0.
  pose proof (lookup_lt_Some _ _ _ Hi) as Hilt.
  destruct (check_loop_ok st log refs g has_req i ocb H Hg Hi Hsmall (length (ban_head st)) 0 0 0)
    as (r & tests & sk & -> & Hrt & Hsk); [lia|lia|lia|]. rewrite bind_Ret. cbv beta iota.
  assert (Er : r = banned).
  { apply eq_true_iff_eq. rewrite Hrt. apply (live_enough st log refs g i _ H Hg Hilt).
    intros ts1 ts2 E1 E2. unfold testable. by rewrite E1, E2. }
  subst r.
  assert (Hreq : banned = false -> (0 <? sk) = req).
  { intros Eb. apply eq_true_iff_eq. rewrite Z.ltb_lt, (Hsk Eb). unfold req.
    rewrite <- (live_enough st log refs g i (fun ts => negb (testable has_req ts)) H Hg Hilt); [|by intros ts1 ts2 _ E; unfold testable; rewrite E].
    split; [intros [?|?]; [lia|done]|by right]. }
  assert (Hb0in : b0 ∈ ban_head st) by by apply list_elem_of_lookup_2 in Hb0.
  destruct (check_move_ok st log refs oc ocb b0 banned tests H Hr Hoc Ed Hb0in) as (st' & E & H' & Hh & Ho).
  rewrite Hb0. destruct banned eqn:Eb; cbn [negb andb].
  - rewrite E, bind_Ret. exists st'. by split_and!.
  - rewrite (Hreq eq_refl). destruct req; [by exists st|]. rewrite E, bind_Ret. exists st'. by split_and!.
Qed.

End Check.

End BanCheck.
