(* ===== verification/BanThm.v ===== *)
(** What holds of bans: the command line, the list under any sequence of calls,
    and the check of an object against the history of bans. *)
From S2P Require Import Prelude Vend Vsb Mem Http HttpLines Ban BanSpec BanInv BanInsert BanCheck.
Import Mem Http HttpLines Ban BanSpec BanInv BanInsert BanCheck.

Module BanThm.

(** ** Calls and the history *)

(** The history of a list of bans: the tests of every ban ever set, newest first;
    for each object how many of them it has been through, or nothing if it was
    banned; the references to the tail that were not given back. *)
Record hist := Hist {
  h_log : list (list test);
  h_pos : gmap positive (option nat);
  h_refs : list positive;
}.

Inductive op :=
  | OpBan (ts : list test) (p : positive) (t0 : Z) (ban_dups : bool)   (* the CLI command *)
  | OpNew (oc : positive)                  (* an object gets the newest ban *)
  | OpDestroy (oc : positive)              (* and is destroyed *)
  | OpCheck (oc : positive) (g : msgs)     (* checked by a request *)
  | OpLurk (oc : positive) (g : msgs)      (* checked by the lurker *)
  | OpPick                                 (* the lurker looks for something to do *)
  | OpTailRef
  | OpTailDeref (p : positive).

Section Calls.

Context (malloc : Z -> option (list Z)) (compile : list Z -> option (list Z)) (exec : list Z -> list Z -> Z).

(** The answer of a call, and the address it returns. *)
Definition run_op (st : bans) (o : op) : res (bans * option bool * option positive) :=
  match o with
  | OpBan ts p t0 ban_dups =>
      '(st, e) ← ccf_ban malloc compile st (ban_args ts) p t0 ban_dups;
      mret (st, Some (match e with None => true | Some _ => false end), None)
  | OpNew oc =>
      st ← BAN_NewObjCore (set_oc_ban st (<[oc := None]> (oc_ban st))) oc; mret (st, None, None)
  | OpDestroy oc =>
      st ← BAN_DestroyObj st oc; mret (set_oc_ban st (delete oc (oc_ban st)), None, None)
  | OpCheck oc g =>
      '(st, r) ← BAN_CheckObject exec st (g_mem g) oc (g_obj g) (g_req g); mret (st, Some r, None)
  | OpLurk oc g =>
      '(st, r) ← ban_check_object exec st (g_mem g) oc (g_obj g) (g_req g) false; mret (st, Some r, None)
  | OpPick => '(st, oc) ← lurker_pick st; mret (st, None, oc)
  | OpTailRef => '(st, p) ← BAN_TailRef st; mret (st, None, Some p)
  | OpTailDeref p => st ← BAN_TailDeref st p; mret (st, None, None)
  end.

Definition newer (h : hist) (oc : positive) : list (list test) :=
  match h_pos h !! oc with
  | Some (Some n) => take (length (h_log h) - n) (h_log h)
  | _ => []
  end.

(** What the calls answer: whether a ban set since the last check applies. *)
Definition hist_answer (h : hist) (o : op) : option bool :=
  match o with
  | OpBan _ _ _ _ => Some true
  | OpCheck oc g => Some (fst (check_spec compile exec g true (newer h oc)))
  | OpLurk oc g => Some (fst (check_spec compile exec g false (newer h oc)))
  | _ => None
  end.

Definition hist_checked (h : hist) (oc : positive) (r : bool * bool) : hist :=
  if snd r then h
  else Hist (h_log h) (<[oc := if fst r then None else Some (length (h_log h))]> (h_pos h)) (h_refs h).

(** What they do; [p] is the address they return. *)
Definition hist_next (h : hist) (o : op) (p : option positive) : hist :=
  match o with
  | OpBan ts _ _ _ => Hist (ts :: h_log h) (h_pos h) (h_refs h)
  | OpNew oc => Hist (h_log h) (<[oc := Some (length (h_log h))]> (h_pos h)) (h_refs h)
  | OpDestroy oc => Hist (h_log h) (delete oc (h_pos h)) (h_refs h)
  | OpCheck oc g => hist_checked h oc (check_spec compile exec g true (newer h oc))
  | OpLurk oc g => hist_checked h oc (check_spec compile exec g false (newer h oc))
  | OpPick => h
  | OpTailRef => Hist (h_log h) (h_pos h) (match p with Some p => p :: h_refs h | None => h_refs h end)
  | OpTailDeref p => Hist (h_log h) (h_pos h)
      (take (default 0%nat (fst <$> list_find (eq p) (h_refs h))) (h_refs h) ++
       drop (S (default 0%nat (fst <$> list_find (eq p) (h_refs h)))) (h_refs h))
  end.

(** The contracts of the calls: [calloc] gives an address that is not in use;
    only objects that hold a ban are checked; fewer than 2^32 - 4 references
    exist, and fewer than 2^32 bans were set. *)
Definition allowed (st : bans) (h : hist) (o : op) : Prop :=
  Z.of_nat (size (h_pos h) + length (h_refs h)) + 4 < 2 ^ 32 /\
  Z.of_nat (length (h_log h)) < 2 ^ 32 /\
  match o with
  | OpBan ts p _ _ => tab st !! p = None /\ ts <> [] /\ tests_ok compile ts
  | OpNew oc => h_pos h !! oc = None
  | OpDestroy oc => is_Some (h_pos h !! oc)
  | OpCheck oc g | OpLurk oc g => (exists n, h_pos h !! oc = Some (Some n)) /\ msgs_ok g
  | OpPick | OpTailRef => True
  | OpTailDeref p => p ∈ h_refs h
  end.

(** The state before [BAN_Init]. *)
Definition no_bans : bans := mkBans ∅ [] None None ∅ (mkStats 0 0 0 0 0 0).

(** The states the calls lead to, with their history: [ban_magic] has no tests. *)
Inductive reach : bans -> hist -> Prop :=
  | reach_init p t0 ban_dups st :
      BAN_Init malloc no_bans p t0 ban_dups = Ok st -> reach st (Hist [[]] ∅ [])
  | reach_op st h o st' a p : reach st h -> allowed st h o ->
      run_op st o = Ok (st', a, p) -> reach st' (hist_next h o p).

(** ** The list implements the history *)

Context `{!Pcre compile exec} (Hmalloc : Vsb.total_malloc malloc).

Record rel (st : bans) (h : hist) : Prop := {
  r_inv : inv compile st (h_log h) (h_refs h);
  r_pos oc : match oc_ban st !! oc, h_pos h !! oc with
    | None, None => True
    | Some None, Some None => True
    | Some (Some p), Some (Some n) => exists i, ban_head st !! i = Some p /\ (n + i = length (h_log h))%nat
    | _, _ => False
    end;
}.

Lemma init_ok p t0 dups : exists st, BAN_Init malloc no_bans p t0 dups = Ok st /\ rel st (Hist [[]] ∅ []).
Proof.
  unfold BAN_Init. destruct (builds_new malloc Hmalloc) as (b0 & -> & (s & -> & Hg)). rewrite bind_Ret.
  unfold mret at 1, res_ret at 1. rewrite bind_Ret. unfold BAN_Insert.
  assert (Hb : builds (set_flags (mkBan 0 0 [] (Some s) None) (Z.lor (flags (mkBan 0 0 [] (Some s) None)) BAN_F_GONE))
    BAN_F_GONE (tests_octets compile [])) by (by exists s).
  rewrite (make_spec_ok compile malloc Hmalloc _ BAN_F_GONE [] t0 Hb eq_refl ltac:(by cbn)), bind_Ret.
  cbv beta iota. unfold ban_publish. cbn [spec_of spec deref]. rewrite bind_Ret. unfold ban_link.
  cbn [ban_head set_start set_head put_ban set_tab count set_counters last deref set_magic no_bans].
  rewrite bind_Ret, bool_decide_true by done. rewrite andb_false_r. unfold mret at 1, res_ret at 1.
  rewrite bind_Ret. cbv beta iota. eexists. split; [done|].
  split; [|by intros oc; cbn; rewrite !lookup_empty].
  split; cbn [ban_head ban_start tab oc_ban counters set_start set_head put_ban set_tab count set_counters set_magic no_bans h_log h_refs].
  - apply NoDup_singleton.
  - cbn. lia.
  - done.
  - intros q. rewrite list_elem_of_singleton. destruct (decide (q = p)) as [->|Hne].
    + by rewrite lookup_insert_eq.
    + rewrite lookup_insert_ne by congruence. rewrite lookup_empty. split; [by intros [? [=]]|done].
  - intros [|i] q b; [|by destruct i]. intros [= <-]. rewrite lookup_insert_eq. intros [= <-].
    exists []. split; [done|]. split; cbn; try done; [constructor| |by eexists].
    intros oc. split; [by intros ?%not_elem_of_nil|by rewrite lookup_empty].
  - intros [|i] q b; [|by destruct i]. by left.
  - intros oc q. by rewrite lookup_empty.
  - intros q. by intros ?%not_elem_of_nil.
  - apply Forall_singleton. by split; [constructor|].
  - done.
Qed.

Lemma rel_room st h : rel st h -> Z.of_nat (size (h_pos h) + length (h_refs h)) + 4 < 2 ^ 32 ->
  room st (h_refs h) /\ Z.of_nat (size (oc_ban st) + length (h_refs h)) + 4 < 2 ^ 32.
Proof.
  intros H Hs. unfold room. enough (size (oc_ban st) = size (h_pos h)) by lia.
  rewrite <- !size_dom. f_equal. apply set_eq. intros oc. rewrite !elem_of_dom.
  pose proof (r_pos _ _ H oc) as Hp. destruct (oc_ban st !! oc) as [[|]|], (h_pos h !! oc) as [[|]|]; done.
Qed.

Lemma rel_oc st h oc n : rel st h -> h_pos h !! oc = Some (Some n) ->
  exists p i, oc_ban st !! oc = Some (Some p) /\ ban_head st !! i = Some p /\ (n + i = length (h_log h))%nat /\
    newer h oc = take i (h_log h).
Proof.
  intros H Hn. pose proof (r_pos _ _ H oc) as Hp. rewrite Hn in Hp.
  destruct (oc_ban st !! oc) as [[p|]|]; try done. destruct Hp as (i & Hi & E). exists p, i.
  split_and!; try done. unfold newer. rewrite Hn. f_equal. lia.
Qed.

(** A state with a shorter list and the same objects stands in the relation too. *)
Lemma rel_shorter st st' h refs l : rel st h -> inv compile st' (h_log h) refs ->
  ban_head st = ban_head st' ++ l -> oc_ban st' = oc_ban st -> rel st' (Hist (h_log h) (h_pos h) refs).
Proof.
  intros H H' Hh Ho. split; [done|]. intros oc. cbn [h_pos h_log]. rewrite Ho. pose proof (r_pos _ _ H oc) as Hp.
  destruct (oc_ban st !! oc) as [[p|]|] eqn:Eo, (h_pos h !! oc) as [[n|]|]; try done.
  destruct Hp as (i & Hi & E). exists i. split; [|done].
  assert (Hin : p ∈ ban_head st') by (eapply (i_oc _ _ _ _ H' oc); by rewrite Ho).
  apply list_elem_of_lookup_1 in Hin as [k Hk].
  assert (k = i) as ->; [|done]. eapply NoDup_lookup; [apply (i_nodup _ _ _ _ (r_inv _ _ H))| |exact Hi].
  rewrite Hh. by apply lookup_app_l_Some.
Qed.

Lemma rel_insert st st' h oc x n refs : rel st h -> inv compile st' (h_log h) refs -> ban_head st' = ban_head st ->
  oc_ban st' = <[oc := x]> (oc_ban st) ->
  match x, n with
  | None, None => True
  | Some p, Some n => exists i, ban_head st !! i = Some p /\ (n + i = length (h_log h))%nat
  | _, _ => False
  end -> rel st' (Hist (h_log h) (<[oc := n]> (h_pos h)) refs).
Proof.
  intros H H' Hh Ho Hx. split; [done|]. intros o. cbn [h_pos h_log]. rewrite Ho, Hh.
  destruct (decide (o = oc)) as [->|Hne].
  - by rewrite !lookup_insert_eq.
  - rewrite !lookup_insert_ne by congruence. apply (r_pos _ _ H).
Qed.

(** *** The life of an object core *)

Lemma rel_dom st h oc : rel st h -> is_Some (oc_ban st !! oc) <-> is_Some (h_pos h !! oc).
Proof.
  intros H. pose proof (r_pos _ _ H oc) as Hp.
  destruct (oc_ban st !! oc) as [[|]|], (h_pos h !! oc) as [[|]|]; try done; by split; intros [? [=]].
Qed.

Lemma rel_none st h oc : rel st h -> oc_ban st !! oc = Some None <-> h_pos h !! oc = Some None.
Proof.
  intros H. pose proof (r_pos _ _ H oc) as Hp. by destruct (oc_ban st !! oc) as [[|]|], (h_pos h !! oc) as [[|]|].
Qed.

Lemma alloc_rel st h oc : rel st h -> oc_ban st !! oc = None ->
  rel (set_oc_ban st (<[oc := None]> (oc_ban st))) (Hist (h_log h) (<[oc := None]> (h_pos h)) (h_refs h)).
Proof.
  intros H E. eapply rel_insert; [exact H| |done|done|done].
  apply inv_oc_ban; [apply (r_inv _ _ H)|]. intros o q. destruct (decide (o = oc)) as [->|].
  - rewrite lookup_insert_eq, E. done.
  - by rewrite lookup_insert_ne by congruence.
Qed.

Lemma new_rel st h oc : rel st h -> room st (h_refs h) -> oc_ban st !! oc = Some None ->
  exists st' p, BAN_NewObjCore st oc = Ok st' /\
    rel st' (Hist (h_log h) (<[oc := Some (length (h_log h))]> (h_pos h)) (h_refs h)) /\
    oc_ban st' = <[oc := Some p]> (oc_ban st).
Proof.
  intros H Hr E. destruct (NewObjCore_ok compile _ _ _ oc (r_inv _ _ H) Hr E) as (st' & p & E1 & H1 & Eh & Ep & Eo).
  exists st', p. split; [done|]. split; [|done]. eapply rel_insert; [exact H|exact H1|done|exact Eo|].
  exists 0%nat. split; [|lia]. by destruct (ban_head st); [|injection Ep as ->].
Qed.

Lemma destroy_rel st h oc : rel st h -> room st (h_refs h) -> is_Some (oc_ban st !! oc) ->
  exists st', BAN_DestroyObj st oc = Ok st' /\
    rel st' (Hist (h_log h) (<[oc := None]> (h_pos h)) (h_refs h)) /\ oc_ban st' = <[oc := None]> (oc_ban st).
Proof.
  intros H Hr [[p|] Eoc].
  - destruct (DestroyObj_ok compile st _ _ oc p (r_inv _ _ H) Hr Eoc) as (st' & E & H' & Eo & l & Eh).
    exists st'. split; [done|]. split; [|done]. split; [exact H'|]. intros o. cbn [h_pos h_log]. rewrite Eo.
    destruct (decide (o = oc)) as [->|Hne]; [by rewrite !lookup_insert_eq|]. rewrite !lookup_insert_ne by congruence.
    pose proof (r_pos _ _ H o) as Hpo. destruct (oc_ban st !! o) as [[q|]|] eqn:Eq, (h_pos h !! o) as [[m|]|]; try done.
    destruct Hpo as (i & Hq & Em). exists i. split; [|done].
    assert (Hin : q ∈ ban_head st').
    { eapply (i_oc _ _ _ _ H' o). by rewrite Eo, lookup_insert_ne by congruence. }
    apply list_elem_of_lookup_1 in Hin as [k Hk]. assert (k = i) as ->; [|done].
    eapply NoDup_lookup; [apply (i_nodup _ _ _ _ (r_inv _ _ H))| |exact Hq]. rewrite Eh. by apply lookup_app_l_Some.
  - exists st. unfold BAN_DestroyObj. rewrite Eoc. cbn [deref]. rewrite bind_Ret. split; [done|].
    rewrite !insert_id; [|done|by apply (rel_none st h oc H)]. split; [|done]. by destruct h.
Qed.

Lemma free_rel st h oc : rel st h -> oc_ban st !! oc = Some None ->
  rel (set_oc_ban st (delete oc (oc_ban st))) (Hist (h_log h) (delete oc (h_pos h)) (h_refs h)).
Proof.
  intros H E. split.
  - apply inv_oc_ban; [apply (r_inv _ _ H)|]. intros o q. destruct (decide (o = oc)) as [->|].
    + rewrite lookup_delete_eq, E. done.
    + by rewrite lookup_delete_ne by congruence.
  - intros o. cbn. destruct (decide (o = oc)) as [->|]; [by rewrite !lookup_delete_eq|].
    rewrite !lookup_delete_ne by congruence. apply (r_pos _ _ H).
Qed.

Lemma check_step st h oc g has_req : rel st h -> room st (h_refs h) -> Z.of_nat (length (h_log h)) < 2 ^ 32 ->
  (exists n, h_pos h !! oc = Some (Some n)) -> msgs_ok g ->
  let r := check_spec compile exec g has_req (newer h oc) in
  exists st', ban_check_object exec st (g_mem g) oc (g_obj g) (g_req g) has_req = Ok (st', fst r) /\
    rel st' (hist_checked h oc r).
Proof.
  intros H Hr Hl [n Hn] Hg r. destruct (rel_oc _ _ _ _ H Hn) as (p & i & Hp & Hi & E & Enew).
  pose proof (i_len _ _ _ _ (r_inv _ _ H)) as Hlen.
  pose proof (check_object_ok compile exec st (h_log h) (h_refs h) g has_req oc i p (r_inv _ _ H) Hr Hg ltac:(lia) Hp Hi) as Hc.
  rewrite <- Enew in Hc. fold r in Hc. destruct r as [banned gives_up]. cbn [fst].
  destruct Hc as (st' & E1 & H1 & Hh & Ho). exists st'. split; [done|]. unfold hist_checked. cbn [fst snd].
  destruct gives_up.
  - destruct h as [lg ps rf]. apply (rel_shorter st st' _ _ [] H H1); [by rewrite app_nil_r|done].
  - eapply rel_insert; [exact H|exact H1|done|exact Ho|]. destruct banned; [done|].
    destruct (lookup_lt_is_Some_2 (ban_head st) 0) as [b0 Hb0]; [lia|]. rewrite Hb0. exists 0%nat. split; [done|lia].
Qed.

Lemma list_find_split (p : positive) l : p ∈ l -> let i := default 0%nat (fst <$> list_find (eq p) l) in
  l = take i l ++ p :: drop (S i) l.
Proof.
  intros Hp i. destruct (list_find_elem_of (eq p) l p Hp eq_refl) as [[j q] Hj]. unfold i. rewrite Hj. cbn.
  apply list_find_Some in Hj as (Hj & <- & _). by rewrite take_drop_middle.
Qed.

(** Every call the contracts allow runs, answers as the history does, and keeps
    the list in step with it. *)
Lemma step_ok st h o : rel st h -> allowed st h o ->
  exists st' p, run_op st o = Ok (st', hist_answer h o, p) /\ rel st' (hist_next h o p).
Proof.
  intros H (Hr & Hl & Ho). apply (rel_room _ _ H) in Hr as [Hr Hr4]. pose proof (r_inv _ _ H) as Hi.
  destruct o as [ts p t0 dups|oc|oc|oc g|oc g| | |p]; cbn [run_op hist_answer hist_next].
  - destruct Ho as (Hp & Hne & Hts).
    destruct (ccf_ban_ok compile exec malloc Hmalloc st _ _ ts p t0 dups Hi Hr Hp Hne Hts) as (st' & b & E & H' & Eo & Eh & _).
    rewrite E, bind_Ret. eexists _, _. split; [done|]. split; [done|]. intros oc. cbn [h_pos h_log]. rewrite Eo, Eh.
    pose proof (r_pos _ _ H oc) as Hpos. destruct (oc_ban st !! oc) as [[q|]|], (h_pos h !! oc) as [[n|]|]; try done.
    destruct Hpos as (i & Hq & E'). exists (S i). split; [done|]. cbn [length]. lia.
  - assert (Hnone : oc_ban st !! oc = None).
    { destruct (oc_ban st !! oc) eqn:Eo; [|done]. destruct (proj1 (rel_dom st h oc H)) as [? E]; [by rewrite Eo|congruence]. }
    destruct (new_rel _ _ oc (alloc_rel st h oc H Hnone)) as (st' & p & E & H' & _).
    { unfold room in *. cbn [oc_ban set_oc_ban h_refs]. rewrite map_size_insert_None by done. lia. }
    { cbn. by rewrite lookup_insert_eq. }
    rewrite E, bind_Ret. eexists _, _. split; [done|]. cbn [h_pos h_log h_refs] in H'. by rewrite insert_insert_eq in H'.
  - apply (rel_dom st h oc H) in Ho. destruct (destroy_rel st h oc H Hr Ho) as (st' & E & H' & Eo).
    rewrite E, bind_Ret. eexists _, _. split; [done|]. apply (free_rel _ _ oc) in H'; [|by rewrite Eo, lookup_insert_eq].
    cbn [h_pos h_log h_refs] in H'. by rewrite delete_insert_eq in H'.
  - destruct Ho as [Hn Hg]. destruct (check_step st h oc g true H Hr Hl Hn Hg) as (st' & E & H').
    unfold BAN_CheckObject. rewrite E, bind_Ret. by eexists _, _.
  - destruct Ho as [Hn Hg]. destruct (check_step st h oc g false H Hr Hl Hn Hg) as (st' & E & H').
    rewrite E, bind_Ret. by eexists _, _.
  - destruct (lurker_pick_ok compile st _ _ Hi) as (st' & r & E & H' & Eo & (l & Eh) & _).
    rewrite E, bind_Ret. eexists _, _. split; [done|].
    destruct h as [lg ps rf]. exact (rel_shorter st st' _ _ l H H' Eh Eo).
  - destruct (TailRef_ok compile st _ _ Hi Hr) as (st' & p & E & H' & Ep & Eo).
    rewrite E, bind_Ret. eexists _, (Some p). split; [done|]. eapply (rel_shorter st st' h _ [] H H'); [|done].
    unfold BAN_TailRef in E. rewrite Ep in E. unfold mret at 1, res_ret at 1 in E. rewrite bind_Ret in E.
    apply bind_Ok in E as (? & E & [= ->]). unfold upd_ban in E. apply bind_Ok in E as (? & _ & [= <-]).
    cbn. by rewrite app_nil_r.
  - rewrite (list_find_split p (h_refs h) Ho) in Hi, Hr.
    destruct (TailDeref_ok compile st _ _ p _ Hi) as (st' & E & H' & Eo); [unfold fits, room in *; lia|].
    rewrite E, bind_Ret. eexists _, _. split; [done|]. eapply (rel_shorter st st' h _ [] H H'); [|done].
    unfold BAN_TailDeref, upd_ban in E. apply bind_Ok in E as (? & _ & [= <-]). cbn. by rewrite app_nil_r.
Qed.

Lemma reach_rel st h : reach st h -> rel st h.
Proof.
  induction 1 as [p t0 dups st E|st h o st' a p Hreach IH Ha E].
  - destruct (init_ok p t0 dups) as (st' & E' & H'). by assert (st' = st) as -> by congruence.
  - destruct (step_ok st h o IH Ha) as (st1 & p1 & E1 & H1). rewrite E1 in E. by injection E as -> _ ->.
Qed.

(** ** Theorems *)

(** C15. The list of bans implements its history.  From [BAN_Init], whatever bans
    are set on the command line, whatever objects are created, checked by
    requests or by the lurker and destroyed, and whatever tail references are
    taken and given back, no assertion fails and nothing freed is touched; and
    each check answers exactly whether one of the bans set since the object's
    last check applies, although duplicates are skipped and old bans freed. *)
Theorem ban_refines st h o (Hreach : reach st h) (Ho : allowed st h o) :
  exists st' p, run_op st o = Ok (st', hist_answer h o, p) /\ reach st' (hist_next h o p).
Proof.
  destruct (step_ok st h o (reach_rel _ _ Hreach) Ho) as (st' & p & E & _).
  exists st', p. split; [done|]. by eapply reach_op.
Qed.

(** The list as [cache_ban.c] means it to be. *)
Record well_kept (st : bans) (refs : list positive) : Prop := {
  wk_list : NoDup (ban_head st) /\ ban_head st <> [] /\ ban_start st = head (ban_head st);
  wk_tab p : is_Some (tab st !! p) <-> p ∈ ban_head st;
  wk_gauge : n_ban (counters st) = u64 (Z.of_nat (length (ban_head st)));
  wk_count p b : tab st !! p = Some b ->
    refcount b = Z.of_nat (length (objcore b) + count_occ Pos.eq_dec refs p) /\ NoDup (objcore b);
  wk_objs p b oc : tab st !! p = Some b -> oc ∈ objcore b <-> oc_ban st !! oc = Some (Some p);
  wk_ban oc p : oc_ban st !! oc = Some (Some p) -> p ∈ ban_head st;
  wk_gone i p b : ban_head st !! i = Some p -> tab st !! p = Some b -> is_gone b = true ->
    drop 8 <$> spec b = Some [0; 0; 0; 13; 0] \/
    exists j p' b', (j < i)%nat /\ ban_head st !! j = Some p' /\ tab st !! p' = Some b' /\
      is_gone b' = false /\ drop 8 <$> spec b' = drop 8 <$> spec b;
}.

Lemma reach_magic st h : reach st h -> last (h_log h) = Some [].
Proof.
  induction 1 as [|st h o st' a p Hreach IH Ha E]; [done|].
  destruct o; cbn [hist_next h_log]; try done.
  - by destruct (h_log h).
  - unfold hist_checked. by destruct (check_spec _ _ _ _ _) as [? []].
  - unfold hist_checked. by destruct (check_spec _ _ _ _ _) as [? []].
Qed.

(** Invariant: in every reachable state the list has no ban twice and starts
    with [ban_start]; the bans in it are the allocated ones, and [n_ban] counts
    them; each counts the objects on it and the tail references to it; each
    object is on the list of exactly the ban it points to, which is allocated;
    and a ban marked as gone matches nothing or has a newer duplicate that is
    not gone. *)
Theorem ban_list_kept st h (Hreach : reach st h) : well_kept st (h_refs h).
Proof.
  pose proof (r_inv _ _ (reach_rel _ _ Hreach)) as H. pose proof (reach_magic _ _ Hreach) as Hm.
  split; try apply H.
  - split; [apply H|]. split; [|apply H]. intros E. pose proof (i_len _ _ _ _ H) as Hl. rewrite E in Hl. cbn in Hl. lia.
  - intros p b Hb. destruct (tab_ban _ _ _ _ _ _ H Hb) as (_ & ts & [? ? _ _ _ _]). done.
  - intros p b oc Hb. destruct (tab_ban _ _ _ _ _ _ H Hb) as (_ & ts & [_ _ ? _ _ _]). done.
  - intros i p b Hi Hb Hg. destruct (i_ban _ _ _ _ H i p b Hi Hb) as (ts & Hts & Hok).
    destruct (bk_spec _ _ _ _ _ _ Hok) as [t0 ->]. cbn [fmap option_fmap option_map]. rewrite drop8_spec.
    destruct (i_gone _ _ _ _ H i p b Hi Hb Hg) as [E|(j & Hj & (pj & bj & Hpj & Hbj & Hgj) & Hc)].
    + left. rewrite last_lookup, <- E in Hm. cbn in Hm. assert (ts = []) as -> by congruence. done.
    + right. exists j, pj, bj. destruct (i_ban _ _ _ _ H j pj bj Hpj Hbj) as (tsj & Htsj & Hokj).
      destruct (bk_spec _ _ _ _ _ _ Hokj) as [tj ->]. cbn [fmap option_fmap option_map]. rewrite drop8_spec.
      rewrite Hts, Htsj in Hc. done.
Qed.

(** C31. Round trip and meaning of a ban: a ban given to the command line as
    tests is stored as a spec that [ban_render] prints as the same text and that
    [ban_evaluate] finds to hold of messages exactly if every test does. *)
Theorem ban_text_roundtrip st h ts p t0 dups (Hreach : reach st h) (Ho : allowed st h (OpBan ts p t0 dups)) :
  exists st' b sp, ccf_ban malloc compile st (ban_args ts) p t0 dups = Ok (st', None) /\
    ban_head st' = p :: ban_head st /\ tab st' !! p = Some b /\ spec b = Some sp /\
    ban_render sp = Ok (tests_text ts) /\
    forall g tests, msgs_ok g ->
      exists n, ban_evaluate exec (g_mem g) sp (g_obj g) (g_req g) tests = Ok (forallb (holds_on compile exec g) ts, n).
Proof.
  pose proof (reach_rel _ _ Hreach) as H. destruct Ho as (Hr & Hl & Hp & Hne & Hts).
  apply (rel_room _ _ H) in Hr as [Hr _].
  destruct (ccf_ban_ok compile exec malloc Hmalloc st _ _ ts p t0 dups (r_inv _ _ H) Hr Hp Hne Hts)
    as (st' & b & E & _ & _ & Eh & Eb & t1 & Es).
  pose proof (tests_ok_len _ _ Hts) as Hlen.
  exists st', b, (spec_octets compile t1 ts). split_and!; try done.
  - apply (ban_render_ok compile exec); [apply Hts|done].
  - intros g tests Hg. apply (ban_evaluate_ok compile exec); [done|apply Hts|done].
Qed.

(** Refusals: a ban the command line refuses leaves the list as it was; a
    field that merely begins with [req.url] is taken for [req.url]; and a header
    name of 127 octets or more, which nothing has checked, fails the assertion
    in [ban_parse_http] and stops the process. *)
Theorem ban_refusals (b : ban) fl l name a2 a3 (Hb : builds b fl l)
    (Hl : Z.of_nat (length l) < Vsb.LIMIT) (Hn : (127 <= length name)%nat) :
  (forall st av p t0 dups st' e, ccf_ban malloc compile st av p t0 dups = Ok (st', Some e) -> st' = st) /\
  (forall x, find_pvar (str "req.url" ++ x) pvars = Some (str "req.url", PVAR_REQ, BAN_ARG_URL)) /\
  BAN_AddTest malloc compile b (str "req.http." ++ name) a2 a3 = Fail FAssert.
Proof.
  split; [|split].
  - intros st av p t0 dups st' e. unfold ccf_ban. cbv zeta.
    destruct (negb _); [by intros [= <- _]|]. intros E. apply bind_Ok in E as (ands & _ & E).
    destruct (negb ands); [by injection E as <-|]. apply bind_Ok in E as (n & _ & E).
    destruct n as [bn|]; [|by injection E as <-]. apply bind_Ok in E as ([bn' err] & _ & E).
    destruct err; [|apply bind_Ok in E as (? & _ & [=])]. by apply bind_Ok in E as (? & _ & [= <- _]).
  - intros x. by vm_compute.
  - unfold BAN_AddTest. change (str "req.http." ++ name) with (field_text (ReqHdr name)).
    rewrite find_pvar_text. cbn match.
    change (truth (Z.land (Z.lor PVAR_REQ PVAR_HTTP) PVAR_REQ)) with true. cbn match.
    set (b1 := set_flags b _).
    assert (Hb1 : builds b1 (Z.lor fl BAN_F_REQ) l) by (destruct Hb as (s & -> & Hg); by exists s).
    destruct (builds_putc malloc Hmalloc b1 _ l (field_tag (ReqHdr name)) Hb1 Hl) as (b2 & -> & _); [done|].
    rewrite bind_Ret. change (truth _) with true. cbn match.
    change (field_text (ReqHdr name)) with (str "req.http." ++ name). rewrite drop_app_length. unfold ban_parse_http.
    cbv zeta. replace (Z.of_nat (length name) + 1 <=? 127) with false by lia. done.
Qed.

End Calls.

(** ** An example *)

(** A library for regular expressions in which a pattern matches the subjects of
    its own length. *)
Definition ex_compile (a : list Z) : option (list Z) := Some [Z.of_nat (length a) mod 256].
Definition ex_exec (re v : list Z) : Z := if nth 0 re 0 =? Z.of_nat (length v) then 0 else -1.

#[export] Instance ex_pcre : Pcre ex_compile ex_exec.
Proof.
  split.
  - intros s re [= <-]. split; [|cbn; lia]. repeat constructor; apply Z.mod_pos_bound; lia.
  - intros s re rest v [= <-]. done.
Qed.

(** A request for [/a] without header lines. *)
Definition ex_mem : mem := <[100 := 47]> (<[101 := 97]> (<[102 := 0]> ∅)).
Definition ex_http : http :=
  mkHttp 1 [no_txt; mkTxt 100 102; no_txt; no_txt; no_txt] [0; 0; 0; 0; 0] HTTP_HDR_FIRST 0 0 0.
Definition ex_msgs : msgs := Msgs ex_mem ex_http ex_http [] [] [47; 97].

Lemma ex_msgs_ok : msgs_ok ex_msgs.
Proof.
  assert (has_lines ex_mem ex_http []) by (split; [done|done|vm_compute; lia|done]).
  split; try done; [|by repeat constructor].
  exists (mkTxt 100 102). split; [done|]. split; [cbn; lia|]. split; [done|]. split; [|cbn; lia].
  intros [|[|[|i]]] c; cbn; try done; by intros [= <-].
Qed.

Definition ex_tests : list test := [Test Url Eq [47; 97]; Test (ReqHdr [104]) Nmatch [122]].

Lemma ex_tests_ok : tests_ok ex_compile ex_tests.
Proof.
  split; [|by vm_compute]. repeat constructor; try done.
Qed.

Definition ex_run (st : bans) (o : op) : bans :=
  match run_op Vsb.calloc ex_compile ex_exec st o with Ok (st, _, _) => st | Fail _ => no_bans end.

(** [ban_magic] at 1, the object 7, then the ban at 2. *)
Definition ex_init : bans :=
  match BAN_Init Vsb.calloc no_bans 1 3 true with Ok st => st | Fail _ => no_bans end.
Definition ex_object : bans := ex_run ex_init (OpNew 7%positive).
Definition ex_state : bans := ex_run ex_object (OpBan ex_tests 2 5 true).

Definition ex_hist : hist := Hist [ex_tests; []] {[7%positive := Some 1%nat]} [].

Lemma ex_reach : reach Vsb.calloc ex_compile ex_exec ex_state ex_hist.
Proof.
  assert (H0 : reach Vsb.calloc ex_compile ex_exec ex_init (Hist [[]] ∅ []))
    by (by apply (reach_init Vsb.calloc ex_compile ex_exec 1 3 true); vm_compute).
  assert (H1 : reach Vsb.calloc ex_compile ex_exec ex_object (Hist [[]] {[7%positive := Some 1%nat]} [])).
  { apply (reach_op _ _ _ _ _ (OpNew 7%positive) ex_object None None H0); by vm_compute. }
  apply (reach_op _ _ _ _ _ (OpBan ex_tests 2 5 true) ex_state (Some true) None H1); [|by vm_compute].
  split; [by vm_compute|]. split; [by vm_compute|]. split; [by vm_compute|]. split; [done|apply ex_tests_ok].
Qed.

Lemma ban_refines_witness : exists st' p,
  run_op Vsb.calloc ex_compile ex_exec ex_state (OpCheck 7 ex_msgs) = Ok (st', Some true, p).
Proof.
  destruct (ban_refines Vsb.calloc ex_compile ex_exec Vsb.calloc_total ex_state ex_hist (OpCheck 7 ex_msgs) ex_reach)
    as (st' & p & E & _).
  - split; [by vm_compute|]. split; [by vm_compute|]. split; [by exists 1%nat|apply ex_msgs_ok].
  - exists st', p. exact E.
Defined.

Lemma ban_list_kept_witness : well_kept ex_state [].
Proof. exact (ban_list_kept Vsb.calloc ex_compile ex_exec Vsb.calloc_total ex_state ex_hist ex_reach). Defined.

Lemma ban_text_roundtrip_witness : exists st' b sp,
  ccf_ban Vsb.calloc ex_compile ex_state (ban_args ex_tests) 9 8 true = Ok (st', None) /\
  tab st' !! 9%positive = Some b /\ spec b = Some sp /\ ban_render sp = Ok (str "req.url == /a && req.http.h !~ z").
Proof.
  destruct (ban_text_roundtrip Vsb.calloc ex_compile ex_exec Vsb.calloc_total ex_state ex_hist ex_tests 9 8 true ex_reach)
    as (st' & b & sp & E & _ & Eb & Es & Er & _).
  - split; [by vm_compute|]. split; [by vm_compute|]. split; [by vm_compute|]. split; [done|apply ex_tests_ok].
  - exists st', b, sp. split; [exact E|]. split; [exact Eb|]. split; [exact Es|exact Er].
Defined.

Definition ex_building : ban :=
  match BAN_New Vsb.calloc with Ok (Some b) => b | _ => mkBan 0 0 [] None None end.

Lemma ban_refusals_witness :
  BAN_AddTest Vsb.calloc ex_compile ex_building (str "req.http." ++ replicate 127 120) (str "==") [49] = Fail FAssert.
Proof.
  destruct (builds_new Vsb.calloc Vsb.calloc_total) as (b & E & Hb).
  refine (proj2 (proj2 (ban_refusals Vsb.calloc ex_compile Vsb.calloc_total ex_building 0 [] (replicate 127 120) (str "==") [49] _ _ _))).
  - unfold ex_building. by rewrite E.
  - by vm_compute.
  - by vm_compute.
Defined.

(** ** A race *)

(** The same ban again, at 3. *)
Definition ex_dup : bans := ex_run ex_state (OpBan ex_tests 3 6 true).

(** What the check of the object 7 leaves, having found nothing, and what the
    next one leaves. *)
Definition ex_raced : bans :=
  match check_move ex_dup 7 1 2 false 0 with Ok st => st | Fail _ => no_bans end.
Definition ex_settled : bans :=
  match ban_check_object ex_exec ex_raced ex_mem 7 ex_http ex_http true with Ok (st, _) => st | Fail _ => no_bans end.
Definition ex_checked : bans :=
  match ban_check_object ex_exec ex_state ex_mem 7 ex_http ex_http true with Ok (st, _) => st | Fail _ => no_bans end.

(** The check takes no lock while it walks the list.  The ban at 2 applies to
    the object 7, and a check finds so.  But if, after a check has read
    [ban_start] and before it looks at that ban, the same ban is set again, the
    first is marked as gone; the check skips it, does not see the second, and
    takes the object for not banned, although a ban for it was in force before
    the check began.  The next check finds the second ban. *)
Theorem ban_dup_race :
  ban_start ex_state = Some 2%positive /\
  (exists st, ban_check_object ex_exec ex_state ex_mem 7 ex_http ex_http true = Ok (st, true)) /\
  check_loop ex_exec 3 ex_dup ex_mem ex_http ex_http true (ban_start ex_state) 1 0 0 = Ok (false, 0, 0) /\
  exists st st', check_move ex_dup 7 1 2 false 0 = Ok st /\ oc_ban st !! 7%positive = Some (Some 2%positive) /\
    ban_check_object ex_exec st ex_mem 7 ex_http ex_http true = Ok (st', true).
Proof.
  split; [by vm_compute|]. split; [exists ex_checked; by vm_compute|]. split; [by vm_compute|].
  exists ex_raced, ex_settled. split; [by vm_compute|]. split; by vm_compute.
Qed.

End BanThm.
