(* ===== verification/Vary.v ===== *)
(** Vary processing: [bin/varnishd/cache_vary.c].

    A matching string is a list of octets; a pointer into it is the rest of the
    list from there.  The session builds its own in [vary_b] up to [vary_e], which
    is a list as long as the space; a pointer into it is an index. *)
From S2P Require Import Prelude Vct Vend Vsb Mem Http.
Import Vct Vend Vsb Mem Http.

Module Vary.

Section Vary.

Variable malloc : Z -> option (list Z).

(** [http_GetHdr(hp, hdr, ...)] where [hdr] is built at run time: the first
    [char], which is signed, is the length of the name that follows. *)
Definition GetHdr_str (m : mem) (hp : http) (hdr : list Z) : res (option Z) :=
  c ← rd hdr 0;
  name ← cstring (drop 1 hdr);
  vassert ((if c <? 128 then c else u32 (c - 256)) =? Z.of_nat (length name));;
  http_GetHdr m hp name.

(** The value of a header without the blanks after it, and where it is. *)
Definition trimmed (m : mem) (h : Z) : res (Z * list Z) :=
  e ← str_end m h;
  e ← trim_sp (size m) m h e;
  l ← Mem.region m h (Z.to_nat (e - h));
  mret (e - h, l).

(** ** Creating *)

(** The length and the octets to encode. *)
Definition create_value (m : mem) (h : option Z) : res (Z * list Z) :=
  match h with
  | Some h =>
      c ← peek m h;
      vassert (negb (vct_issp c));;
      '(l, v) ← trimmed m h;
      vassert (Z.land l (Z.lnot 0xffff) =? 0);;
      mret (l, v)
  | None => mret (0xffff, [])
  end.

(** A header name of [Vary:]. *)
Definition create_entry (m : mem) (req : http) (sb sbh : vsb) (name : list Z) : res (vsb * vsb) :=
  let n := Z.of_nat (length name) in
  sbh ← VSB_clear sbh;
  '(sbh, _) ← VSB_printf malloc sbh (u8 (1 + n) :: name ++ [58; 0]);
  '(sbh, r) ← VSB_finish sbh;
  vassert (r =? 0);;
  data ← VSB_data sbh;
  h ← GetHdr_str m req data;
  '(l, v) ← create_value m h;
  '(sb, _) ← VSB_printf malloc sb [u8 (Z.shiftr l 8); Z.land l 0xff];
  n ← VSB_len sbh;
  '(sb, _) ← VSB_bcat malloc sb (take (Z.to_nat n) data);
  '(sb, _) ← (if bool_decide (v = []) then mret (sb, 0) else VSB_bcat malloc sb v);
  mret (sb, sbh).

(** The loop over the text of [Vary:], from [p]. *)
Fixpoint create_loop (fuel : nat) (m : mem) (req : http) (sb sbh : vsb) (p : Z) : res (vsb * vsb) :=
  c ← peek m p;
  if c =? 0 then mret (sb, sbh) else
  match fuel with
  | O => Fail FFuel
  | S fuel =>
      if vct_issp c then create_loop fuel m req sb sbh (p + 1) else
      q ← skip (fun c => negb (c =? 0) && negb (vct_issp c) && negb (c =? 44)) m p;
      name ← Mem.region m p (Z.to_nat (q - p));
      '(sb, sbh) ← create_entry m req sb sbh name;
      q ← skip vct_issp m q;
      c ← peek m q;
      if c =? 0 then mret (sb, sbh) else
      vassert (c =? 44);;
      create_loop fuel m req sb sbh (q + 1)
  end.

(** [hp] is the response, [req] the request; no value is NULL. *)
Definition VRY_Create (m : mem) (req hp : http) : res (option vsb) :=
  v ← http_GetHdr m hp H_Vary;
  match v with
  | None => mret None
  | Some v =>
      sb ← VSB_new malloc true true None 0 VSB_AUTOEXTEND;
      sb ← deref sb;
      sbh ← VSB_new malloc true true None 0 VSB_AUTOEXTEND;
      sbh ← deref sbh;
      c ← peek m v;
      let v := if c =? 58 then v + 1 else v in
      '(sb, sbh) ← create_loop (size m) m req sb sbh v;
      '(sb, _) ← VSB_printf malloc sb [255; 255; 0];
      VSB_delete sbh;;
      '(sb, r) ← VSB_finish sb;
      vassert (r =? 0);;
      mret (Some sb)
  end.

(** ** Matching *)

Definition vry_len (p : list Z) : res Z :=
  l ← vbe16dec p;
  n ← rd p 2;
  mret (2 + n + 2 + (if l =? 0xffff then 0 else l)).

(** [memcmp(a, b, n) == 0]: it looks no further than the first difference. *)
Fixpoint memcmp_eq (a b : list Z) (n : nat) : res bool :=
  match n with
  | O => mret true
  | S n =>
      x ← rd a 0; y ← rd b 0;
      if x =? y then memcmp_eq (drop 1 a) (drop 1 b) n else mret false
  end.

(** [strcasecmp(s, p) == 0], [s] a constant string. *)
Fixpoint strcasecmp_eq (s p : list Z) : res bool :=
  c ← rd p 0;
  match s with
  | [] => mret (c =? 0)
  | x :: s => if tolower x =? tolower c then strcasecmp_eq s (drop 1 p) else mret false
  end.

Variable http_gzip_support : bool.

(** 0: same, or it does not matter; 1: another header; 2: another value. *)
Definition vry_cmp (v1 v2 : list Z) : res Z :=
  n ← vry_len v1;
  same ← memcmp_eq v1 v2 (Z.to_nat n);
  if (same : bool) then mret 0 else
  k ← rd v1 2;
  hdr ← memcmp_eq (drop 2 v1) (drop 2 v2) (Z.to_nat (k + 2));
  if negb hdr then mret 1 else
  ae ← (if http_gzip_support
        then strcasecmp_eq (Z.of_nat (length H_Accept_Encoding) :: H_Accept_Encoding) (drop 2 v1)
        else mret false);
  if (ae : bool) then mret 0 else mret 2.

(** [memcpy(vb + i, l, length l)] *)
Fixpoint store (vb : list Z) (i : Z) (l : list Z) : res (list Z) :=
  match l with
  | [] => mret vb
  | c :: l => vb ← wr vb i c; store vb (i + 1) l
  end.

Definition at_ (vb : list Z) (i : Z) : list Z := drop (Z.to_nat i) vb.

(** The value of a header of the request, if it has it. *)
Definition build_value (m : mem) (h : option Z) : res (option (list Z)) :=
  match h with
  | Some h => '(lh, v) ← trimmed m h; vassert (lh <? 0xffff);; mret (Some v)
  | None => mret None
  end.

(** Its length. *)
Definition lh_of (v : option (list Z)) : Z :=
  match v with Some v => Z.of_nat (length v) | None => 0xffff end.

(** The value goes after the name, and then comes the mark that no other entry
    does; [k] is [vary[2]]. *)
Definition build_tail (vb : list Z) (vsp k : Z) (v : option (list Z)) : res (list Z) :=
  match v with
  | Some v =>
      k' ← rd vb (vsp + 2);
      vb ← store vb (vsp + 2 + k' + 2) v;
      wr vb (vsp + 2 + k + 2 + Z.of_nat (length v) + 2) 0
  | None => wr vb (vsp + 2 + k + 2 + 2) 0
  end.

(** The part of [VRY_Match] that builds an entry at [vsp] for the header that
    [vary] is at: the space, where the entry is, and whether the space ran out. *)
Definition build_entry (m : mem) (req : http) (vary vb : list Z) (vsp : Z) : res (list Z * Z * bool) :=
  let vary_e := Z.of_nat (length vb) in
  h ← GetHdr_str m req (drop 2 vary);
  v ← build_value m h;
  let lh := lh_of v in
  k ← rd vary 2;
  let ln := 2 + k + 2 + (if lh =? 0xffff then 0 else lh) in
  let '(vsp, oflo) := if vary_e <=? vsp + ln then (0, true) else (vsp, false) in
  vassert (vsp + ln + 2 <? vary_e);;
  vb ← store vb vsp [Z.land (Z.shiftr (u16 lh) 8) 0xff; Z.land (u16 lh) 0xff];
  hdr ← (if Z.of_nat (length vary) <? 2 + k + 2 then Fail FMemory
         else mret (take (Z.to_nat (k + 2)) (drop 2 vary)));
  vb ← store vb (vsp + 2) hdr;
  vb ← build_tail vb vsp k v;
  mret (vb, vsp, oflo).

(** The comparison with the entry at [vsp], which is built first if it is for
    another header: the result of [vry_cmp], then as for [build_entry]. *)
Definition match_entry (m : mem) (req : http) (vary vb : list Z) (vsp : Z) : res (Z * list Z * Z * bool) :=
  i ← vry_cmp vary (at_ vb vsp);
  if i =? 1 then
    '(vb, vsp, oflo) ← build_entry m req vary vb vsp;
    i ← vry_cmp vary (at_ vb vsp);
    vassert (negb (i =? 1));;
    mret (i, vb, vsp, oflo)
  else mret (i, vb, vsp, false).

(** The result: the space, the end of what is in it, whether the space ran out,
    whether all matches so far. *)
Fixpoint match_loop (fuel : nat) (m : mem) (req : http) (vary vb : list Z) (vsp : Z) (oflo ok : bool)
  : res (list Z * Z * bool * bool) :=
  c ← rd vary 2;
  if c =? 0 then mret (vb, vsp, oflo, ok) else
  match fuel with
  | O => Fail FFuel
  | S fuel =>
      '(i, vb, vsp, o) ← match_entry m req vary vb vsp;
      n ← vry_len (at_ vb vsp);
      k ← vry_len vary;
      match_loop fuel m req (drop (Z.to_nat k) vary) vb (vsp + n) (oflo || o) (ok && (i =? 0))
  end.

(** The result: [vary_b], [vary_l] and whether [vary] matches. *)
Definition VRY_Match (m : mem) (req : http) (vb vary : list Z) : res (list Z * option Z * bool) :=
  '(vb, vsp, oflo, ok) ← match_loop (length vary) m req vary vb 0 false true;
  let oflo := oflo || (Z.of_nat (length vb) <? vsp + 3) in
  let vsp := if oflo then 0 else vsp in
  vb ← store vb vsp [255; 255; 0];
  mret (vb, if oflo then None else Some (vsp + 3), ok).

(** The assertions of [VRY_Validate]. *)
Fixpoint VRY_Validate (fuel : nat) (vary : list Z) : res unit :=
  c ← rd vary 2;
  if c =? 0 then mret tt else
  match fuel with
  | O => Fail FFuel
  | S fuel =>
      name ← cstring (drop 3 vary);
      vassert (Z.of_nat (length name) =? c);;
      n ← vry_len vary;
      VRY_Validate fuel (drop (Z.to_nat n) vary)
  end.

End Vary.

End Vary.
