(* ===== verification/VarySpec.v ===== *)
(** Vary matching strings as lists of entries: the encoding, what the request
    has for a header, and what [VRY_Create] builds. *)
From S2P Require Import Prelude Vct Vend Vsb Mem Http HttpLines BanSpec Vary.
Import Vct Vend Mem Http HttpLines Vary.

Module VarySpec.

#[local] Notation nul_free := BanSpec.nul_free.

(** ** Entries *)

(** A header name without its colon, and the value the request had, if any. *)
Definition entry : Type := list Z * option (list Z).

Definition len2 (v : option (list Z)) : list Z :=
  match v with
  | Some v => [Z.of_nat (length v) / 256; Z.of_nat (length v) mod 256]
  | None => [255; 255]
  end.

Definition name_octets (n : list Z) : list Z := (1 + Z.of_nat (length n)) :: n ++ [58; 0].

Definition enc_entry (x : entry) : list Z := len2 (snd x) ++ name_octets (fst x) ++ default [] (snd x).

Definition enc (es : list entry) : list Z := concat (map enc_entry es).

(** A matching string. *)
Definition vary_string (es : list entry) : list Z := enc es ++ [255; 255; 0].

Definition name_ok (n : list Z) : Prop := nul_free n /\ (length n <= 126)%nat.

Record entry_ok (x : entry) : Prop := {
  eo_name : name_ok (fst x);
  eo_val : forall v, snd x = Some v -> Z.of_nat (length v) < 0xffff;
}.

(** ** What a request has *)

Definition trim_sp_right (l : list Z) : list Z := reverse (drop_while vct_issp (reverse l)).

Definition sent (n : list Z) (ls : list (list Z * Z)) : option (list Z) :=
  trim_sp_right <$> BanSpec.hdr_value n ls.

(** The request is in memory, and no header is longer than a length can say. *)
Record request (m : mem) (req : http) (ls : list (list Z * Z)) : Prop := {
  rq_lines : has_lines m req ls;
  rq_nul : Forall (fun x => nul_free (fst x)) ls;
  rq_short : forall n v, sent n ls = Some v -> Z.of_nat (length v) < 0xffff;
}.

(** ** Trimming *)

Lemma trim_split l : exists bl, l = trim_sp_right l ++ bl /\ Forall (fun c => vct_issp c = true) bl /\
  match last (trim_sp_right l) with Some c => vct_issp c = false | None => True end.
Proof.
  unfold trim_sp_right. destruct (drop_while_split vct_issp (reverse l)) as (l1 & E & H1 & H2).
  exists (reverse l1). split; [|split].
  - by rewrite <- reverse_app, <- E, reverse_involutive.
  - by apply Forall_reverse.
  - destruct (drop_while vct_issp (reverse l)) as [|c d]; [done|]. by rewrite reverse_cons, last_snoc.
Qed.

Lemma trim_sp_run m p t bl fuel : mapped m p (t ++ bl) -> Forall (fun c => vct_issp c = true) bl ->
  match last t with Some c => vct_issp c = false | None => True end -> (length (t ++ bl) <= fuel)%nat ->
  trim_sp fuel m p (p + Z.of_nat (length (t ++ bl))) = Ok (p + Z.of_nat (length t)).
Proof.
  revert fuel. induction bl as [|c bl IH] using rev_ind; intros fuel Hm Hb Ht Hf.
  - rewrite app_nil_r in *. revert Hm Ht Hf. destruct t as [|x t _] using rev_ind; intros Hm Ht Hf.
    + cbn [length]. rewrite Z.add_0_r. destruct fuel; cbn [trim_sp]; by rewrite Z.leb_refl.
    + rewrite last_snoc in Ht. rewrite length_app in *. cbn [length] in *. destruct fuel as [|fuel]; [lia|]. cbn [trim_sp].
      rewrite (proj2 (Z.leb_gt _ p)) by lia. apply mapped_app in Hm as [_ [Hx _]%mapped_cons].
      replace (p + Z.of_nat (length t + 1) - 1) with (p + Z.of_nat (length t)) by lia.
      by rewrite (peek_ok _ _ _ Hx), bind_Ret, Ht.
  - apply Forall_app in Hb as [Hb [Hc _]%Forall_cons]. rewrite (app_assoc t bl [c]) in *.
    apply mapped_app in Hm as [Hm [Hx _]%mapped_cons].
    rewrite (length_app (t ++ bl) [c]) in *. cbn [length] in *. destruct fuel as [|fuel]; [lia|]. cbn [trim_sp].
    rewrite (proj2 (Z.leb_gt _ p)) by lia.
    replace (p + Z.of_nat (length (t ++ bl) + 1) - 1) with (p + Z.of_nat (length (t ++ bl))) by lia.
    rewrite (peek_ok _ _ _ Hx), bind_Ret, Hc. apply IH; [done|done|done|lia].
Qed.

Lemma trimmed_ok m h v : mapped m h (v ++ [0]) -> nul_free v ->
  trimmed m h = Ok (Z.of_nat (length (trim_sp_right v)), trim_sp_right v).
Proof.
  intros Hm Hv. unfold trimmed, str_end. rewrite (skip_run _ m h v 0 Hm); [rewrite bind_Ret| |done].
  2:{ eapply Forall_impl; [exact Hv|]. cbn. lia. }
  pose proof (mapped_size _ _ _ Hm) as Hs. rewrite length_app in Hs.
  apply mapped_app in Hm as [Hm _]. destruct (trim_split v) as (bl & E & Hb & Hl).
  rewrite E in Hm |- * at 1. rewrite E in Hs.
  rewrite (trim_sp_run m h (trim_sp_right v) bl) by (done || lia). rewrite bind_Ret.
  rewrite Z.add_simpl_l, Nat2Z.id. apply mapped_app in Hm as [Hm _].
  by rewrite (region_run _ _ _ Hm), bind_Ret.
Qed.

(** ** Looking a header up *)

Lemma GetHdr_str_ok m req ls n r : request m req ls -> name_ok n ->
  exists o, GetHdr_str m req (name_octets n ++ r) = Ok o /\
    match sent n ls, o with
    | None, None => True
    | Some v, Some h => trimmed m h = Ok (Z.of_nat (length v), v) /\ exists c, m !! h = Some c /\ vct_issp c = false
    | _, _ => False
    end.
Proof.
  intros [Hl Hnul _] [Hn Hlen]. unfold GetHdr_str, name_octets. cbn [app].
  change (rd ((1 + Z.of_nat (length n)) :: (n ++ [58; 0]) ++ r) 0) with (Ok (1 + Z.of_nat (length n))).
  rewrite bind_Ret. cbn [drop]. rewrite drop_0. replace ((n ++ [58; 0]) ++ r) with ((n ++ [58]) ++ 0 :: r) by (by rewrite <- !app_assoc).
  rewrite BanSpec.cstring_run, bind_Ret by (apply Forall_app; split; [done|by repeat constructor]).
  destruct (Z.ltb_spec (1 + Z.of_nat (length n)) 128); [|lia].
  rewrite vassert_true, bind_Ret by (apply Z.eqb_eq; rewrite length_app; cbn; lia).
  destruct (GetHdr_ok m req ls (n ++ [58]) Hl (BanSpec.name_header _ Hn)) as (o & -> & Ho). exists o. split; [done|].
  unfold sent, BanSpec.hdr_value. destruct (first_named (n ++ [58]) ls 0) as [[j l]|] eqn:Ef; [|done].
  destruct o as [h|]; [|done]. cbn [mbind option_bind fmap option_fmap option_map].
  assert (Hv : nul_free (value (n ++ [58]) l)).
  { destruct (BanSpec.first_named_in _ _ _ _ _ Ef) as [f Hin]. apply BanSpec.nul_free_drop_while.
    rewrite Forall_forall in Hnul. specialize (Hnul _ Hin). cbn in Hnul. unfold BanSpec.nul_free in *.
    rewrite <- (take_drop (length (n ++ [58])) l) in Hnul. by apply Forall_app in Hnul as [_ ?]. }
  split; [by apply trimmed_ok|].
  destruct (drop_while_split vct_issp (drop (length (n ++ [58])) l)) as (_ & _ & _ & Hd). unfold value in Ho.
  destruct (drop_while _ _) as [|c d].
  - exists 0. split; [by apply mapped_cons in Ho as [? _]|apply issp_0].
  - exists c. split; [by apply mapped_cons in Ho as [? _]|done].
Qed.

Lemma sent_nul m req ls n v : request m req ls -> sent n ls = Some v -> nul_free v.
Proof.
  intros [_ Hnul _]. unfold sent, BanSpec.hdr_value.
  destruct (first_named (n ++ [58]) ls 0) as [[j x]|] eqn:Ef; [|done]. intros [= <-].
  assert (Hw : nul_free (value (n ++ [58]) x)).
  { destruct (BanSpec.first_named_in _ _ _ _ _ Ef) as [f Hin]. apply BanSpec.nul_free_drop_while.
    rewrite Forall_forall in Hnul. specialize (Hnul _ Hin). cbn in Hnul. unfold BanSpec.nul_free in *.
    rewrite <- (take_drop (length (n ++ [58])) x) in Hnul. by apply Forall_app in Hnul as [_ ?]. }
  destruct (trim_split (value (n ++ [58]) x)) as (bl & E & _). rewrite E in Hw. by apply Forall_app in Hw as [? _].
Qed.

Lemma create_value_ok m req ls n o : request m req ls ->
  match sent n ls, o with
  | None, None => True
  | Some v, Some h => trimmed m h = Ok (Z.of_nat (length v), v) /\ exists c, m !! h = Some c /\ vct_issp c = false
  | _, _ => False
  end ->
  exists lv, create_value m o = Ok (lv, default [] (sent n ls)) /\
    [u8 (Z.shiftr lv 8); Z.land lv 0xff] = len2 (sent n ls).
Proof.
  intros Hreq Ho. destruct (sent n ls) as [v|] eqn:Ev, o as [h|]; try done; [|by exists 65535].
  destruct Ho as [Ht (c & Ec & Hc)]. exists (Z.of_nat (length v)). unfold create_value.
  pose proof (rq_short _ _ _ Hreq n v Ev) as Hs.
  rewrite (peek_ok _ _ _ Ec), bind_Ret, Hc. cbn [negb vassert]. rewrite bind_Ret, Ht, bind_Ret. cbv beta iota.
  assert (El16 : Z.land (Z.of_nat (length v)) (Z.lnot 65535) = 0).
  { change 65535 with (2 ^ 16 - 1). rewrite land_lnot_mask by lia. rewrite Z.mod_small by lia. lia. }
  rewrite El16. cbn [Z.eqb vassert]. rewrite bind_Ret. split; [done|]. cbn [len2]. rewrite Z.shiftr_div_pow2 by lia.
  change (Z.land ?a 0xff) with (Z.land a (2 ^ 8 - 1)). rewrite land_mask by lia.
  unfold u8. rewrite (Z.mod_small (_ / _)); [done|]. split; [apply Z.div_pos; lia|apply Z.div_lt_upper_bound; lia].
Qed.

(** ** The encoding *)

Lemma len2_bytes v : (forall w, v = Some w -> Z.of_nat (length w) < 0xffff) -> exists a b, len2 v = [a; b] /\
  is_byte a /\ is_byte b /\ a * 256 + b = match v with Some v => Z.of_nat (length v) | None => 0xffff end.
Proof.
  intros H. destruct v as [v|]; [|by exists 255, 255].
  specialize (H v eq_refl). exists (Z.of_nat (length v) / 256), (Z.of_nat (length v) mod 256).
  split; [done|]. unfold is_byte. pose proof (Z.div_mod (Z.of_nat (length v)) 256).
  pose proof (Z.mod_pos_bound (Z.of_nat (length v)) 256). split; [|split; [lia|lia]].
  split; [apply Z.div_pos; lia|apply Z.div_lt_upper_bound; lia].
Qed.

Lemma length_enc_entry x : Z.of_nat (length (enc_entry x)) = 5 + Z.of_nat (length (fst x)) +
  Z.of_nat (length (default [] (snd x))).
Proof.
  unfold enc_entry, name_octets. rewrite length_app. cbn [length app]. rewrite !length_app. cbn [length].
  destruct (snd x); cbn [len2 length default]; lia.
Qed.

Lemma vry_len_ok x r : entry_ok x -> vry_len (enc_entry x ++ r) = Ok (Z.of_nat (length (enc_entry x))).
Proof.
  intros [_ Hv]. rewrite length_enc_entry. unfold enc_entry. destruct (len2_bytes _ Hv) as (a & b & -> & Ha & Hb & E).
  unfold vry_len. cbn [app name_octets]. rewrite vbe16dec_be, bind_Ret by done.
  change (rd (a :: b :: ?k :: ?l) 2) with (Ok k). rewrite bind_Ret. cbn [be_value].
  replace ((0 * 256 + a) * 256 + b) with (a * 256 + b) by lia. rewrite E.
  unfold mret, res_ret. f_equal. destruct (snd x) as [v|]; cbn [default]; [|cbn; lia].
  specialize (Hv v eq_refl). rewrite (proj2 (Z.eqb_neq _ _)) by lia. unfold id. lia.
Qed.

(** ** Creating *)

Section Create.

Context (malloc : Z -> option (list Z)) (Hmalloc : Vsb.total_malloc malloc).

#[local] Notation grows := Vsb.grows.
#[local] Notation LIMIT := Vsb.LIMIT.

(** The buffer for names: it can be cleared. *)
Definition clearable (s : Vsb.vsb) : Prop := exists s', Vsb.VSB_clear s = Ok s' /\ grows s' [].

Lemma clearable_grows s l : grows s l -> clearable s.
Proof. apply Vsb.grows_clear. Qed.

Lemma u8_small z : 0 <= z < 256 -> u8 z = z.
Proof. intros. by apply Z.mod_small. Qed.

Lemma create_entry_ok m req ls sb sbh l n : request m req ls -> name_ok n -> grows sb l -> clearable sbh ->
  Z.of_nat (length l + length (enc_entry (n, sent n ls))) <= LIMIT ->
  exists sb' sbh', create_entry malloc m req sb sbh n = Ok (sb', sbh') /\
    grows sb' (l ++ enc_entry (n, sent n ls)) /\ clearable sbh'.
Proof using Hmalloc.
  intros Hreq Hn Hg (s0 & E0 & Hg0) Hlim. destruct Hn as [Hnul Hlen]. unfold create_entry. rewrite E0, bind_Ret.
  assert (Hlim2 := Hlim). unfold Vsb.LIMIT in Hlim2. 
  rewrite Nat2Z.inj_add, length_enc_entry in Hlim. cbn [fst snd] in Hlim.
  assert (Etext : u8 (1 + Z.of_nat (length n)) :: n ++ [58; 0] = name_octets n).
  { unfold name_octets. by rewrite u8_small by lia. }
  rewrite Etext. destruct (Vsb.vprintf_grows malloc Hmalloc s0 [] (name_octets n) Hg0) as (s1 & -> & Hg1).
  { unfold name_octets. cbn [length app]. rewrite length_app. cbn [length]. lia. }
  rewrite bind_Ret. cbv beta iota. cbn [app] in Hg1.
  destruct (Vsb.finish_grows s1 _ Hg1) as (s2 & r & E2 & Ed & El). rewrite E2, bind_Ret. cbv beta iota.
  change (0 =? 0) with true. cbn [vassert]. rewrite bind_Ret, Ed, bind_Ret.
  destruct (GetHdr_str_ok m req ls n (0 :: r) Hreq (conj Hnul Hlen)) as (o & -> & Ho). rewrite bind_Ret.
  assert (Hc2 : clearable s2) by (by eapply Vsb.finish_clear).
  set (v := sent n ls) in *.
  destruct (create_value_ok m req ls n o Hreq Ho) as (lv & -> & E2').
  rewrite bind_Ret. cbv beta iota. rewrite E2'. fold v.
  assert (Hl2 : length (len2 v) = 2%nat) by (by destruct v).
  destruct (Vsb.vprintf_grows malloc Hmalloc sb l (len2 v) Hg) as (b1 & -> & Hb1); [rewrite Hl2; lia|].
  rewrite bind_Ret. cbv beta iota. rewrite El, bind_Ret, Nat2Z.id, take_app_length.
  assert (Hu8 : map u8 (name_octets n) = name_octets n).
  { apply Vsb.map_u8. unfold name_octets. constructor; [split; lia|]. apply Forall_app. split; [|by repeat constructor].
    by apply BanSpec.nul_free_bytes. }
  destruct (Vsb.bcat_grows malloc Hmalloc (name_octets n) b1 _ Hb1) as (b2 & -> & Hb2).
  { rewrite length_app, Hl2. unfold name_octets. cbn [length]. rewrite length_app. cbn [length]. lia. }
  rewrite bind_Ret. cbv beta iota. rewrite Hu8 in Hb2.
  assert (Hvb : map u8 (default [] v) = default [] v).
  { destruct v as [w|] eqn:Ev; [|done]. apply BanSpec.map_u8_nul_free. by apply (sent_nul m req ls n). }
  assert (Eenc : l ++ enc_entry (n, v) = ((l ++ len2 v) ++ name_octets n) ++ default [] v).
  { unfold enc_entry. by rewrite !app_assoc. }
  destruct (bool_decide_reflect (default [] v = [])) as [E|E].
  - unfold mret at 1, res_ret at 1. rewrite bind_Ret. cbv beta iota. exists b2, s2. split; [done|]. split; [|done].
    by rewrite Eenc, E, app_nil_r.
  - destruct (Vsb.bcat_grows malloc Hmalloc (default [] v) b2 _ Hb2) as (b3 & -> & Hb3).
    { rewrite !length_app, Hl2. unfold name_octets. cbn [length]. rewrite length_app. cbn [length]. lia. }
    rewrite bind_Ret. cbv beta iota. exists b3, s2. split; [done|]. split; [|done]. by rewrite Eenc, <- Hvb at 1.
Qed.

(** A list of header names as a backend writes it: blanks, a name, blanks, with
    commas between. *)
Definition item : Type := list Z * list Z * list Z.

Definition item_text (x : item) : list Z := x.1.1 ++ x.1.2 ++ x.2.

Fixpoint vary_text (xs : list item) : list Z :=
  match xs with
  | [] => []
  | [x] => item_text x
  | x :: xs => item_text x ++ 44 :: vary_text xs
  end.

Definition token (c : Z) : bool := negb (c =? 0) && negb (vct_issp c) && negb (c =? 44).

Record item_ok (x : item) : Prop := {
  io_before : Forall (fun c => vct_issp c = true) x.1.1;
  io_name : name_ok x.1.2 /\ x.1.2 <> [] /\ Forall (fun c => token c = true) x.1.2;
  io_after : Forall (fun c => vct_issp c = true) x.2;
}.

(** What the request has for each of them. *)
Definition asked (ls : list (list Z * Z)) (xs : list item) : list entry :=
  map (fun x => (x.1.2, sent x.1.2 ls)) xs.

Lemma issp_nonzero c : vct_issp c = true -> c <> 0.
Proof. intros H ->. by rewrite issp_0 in H. Qed.

(** The blanks before a name. *)
Lemma create_blanks fuel m req sb sbh p bl l c : mapped m p (bl ++ c :: l) ->
  Forall (fun c => vct_issp c = true) bl -> (length bl <= fuel)%nat ->
  create_loop malloc fuel m req sb sbh p =
  create_loop malloc (fuel - length bl) m req sb sbh (p + Z.of_nat (length bl)).
Proof.
  revert fuel p. induction bl as [|x bl IH]; intros fuel p Hm Hb Hf.
  - cbn [length]. by rewrite Nat.sub_0_r, Z.add_0_r.
  - apply Forall_cons in Hb as [Hx Hb]. cbn [app] in Hm. apply mapped_cons in Hm as [H0 Hm]. cbn [length] in *.
    destruct fuel as [|fuel]; [lia|]. cbn [create_loop]. rewrite (peek_ok _ _ _ H0), bind_Ret.
    rewrite (proj2 (Z.eqb_neq x 0)) by (by apply issp_nonzero). rewrite Hx.
    rewrite (IH fuel (p + 1)) by (done || lia). replace (S fuel - S (length bl))%nat with (fuel - length bl)%nat by lia.
    f_equal. lia.
Qed.

Lemma vary_text_cons x xs : vary_text (x :: xs) = item_text x ++ (if xs is [] then [] else 44 :: vary_text xs).
Proof. destruct xs; [by rewrite app_nil_r|done]. Qed.

(** What comes after the name of an item ends it. *)
Lemma item_end (b2 rest : list Z) : Forall (fun c => vct_issp c = true) b2 ->
  (exists c r, rest = c :: r /\ token c = false) -> exists c r, b2 ++ rest = c :: r /\ token c = false.
Proof.
  intros Hb H. destruct b2 as [|c b2]; [done|]. apply Forall_cons in Hb as [Hc _]. exists c, (b2 ++ rest).
  split; [done|]. unfold token. rewrite Hc. by rewrite andb_false_r.
Qed.

Lemma create_loop_ok m req ls : request m req ls -> forall xs fuel p sb sbh l,
  Forall item_ok xs -> mapped m p (vary_text xs ++ [0]) -> (length (vary_text xs) <= fuel)%nat ->
  grows sb l -> clearable sbh -> Z.of_nat (length l + length (enc (asked ls xs))) <= LIMIT ->
  exists sb' sbh', create_loop malloc fuel m req sb sbh p = Ok (sb', sbh') /\
    grows sb' (l ++ enc (asked ls xs)) /\ clearable sbh'.
Proof using Hmalloc.
  intros Hreq xs. induction xs as [|x xs IH]; intros fuel p sb sbh l Hx Hm Hf Hg Hc Hlim.
  { cbn [vary_text app] in Hm. apply mapped_cons in Hm as [H0 _]. exists sb, sbh. rewrite app_nil_r.
    split; [|done]. destruct fuel; cbn [create_loop]; by rewrite (peek_ok _ _ _ H0), bind_Ret. }
  apply Forall_cons in Hx as [[Hb1 (Hn & Hne & Htok) Hb2] Hx].
  destruct x as [[b1 n] b2]. cbn [fst snd] in *. rewrite vary_text_cons in Hm, Hf.
  unfold item_text in Hm, Hf. cbn [fst snd] in Hm, Hf.
  set (rest := (if xs is [] then [] else 44 :: vary_text xs) ++ [0]) in *.
  set (tl := if xs is [] then [] else 44 :: vary_text xs) in *.
  assert (Hrest : exists c r, rest = c :: r /\ token c = false).
  { unfold rest, tl. destruct xs; [by exists 0, []|by eexists _, _]. }
  assert (Hm' : mapped m p (b1 ++ n ++ b2 ++ rest)) by (unfold rest; by rewrite !app_assoc in * ).
  rewrite !length_app in Hf. destruct n as [|c0 n0] eqn:En; [done|]. rewrite <- En in *. clear Hne.
  assert (Hcn : n = c0 :: n0) by done. cbn [length] in *.
  assert (Hln : length n = S (length n0)) by (by rewrite Hcn).
  rewrite (create_blanks fuel m req sb sbh p b1 (n0 ++ b2 ++ rest) c0); [|by rewrite Hcn in Hm'|done|lia].
  set (p1 := p + Z.of_nat (length b1)). apply mapped_app in Hm' as [_ Hm1]. fold p1 in Hm1.
  assert (Hc0 : m !! p1 = Some c0) by (rewrite Hcn in Hm1; by apply mapped_cons in Hm1 as [? _]).
  assert (Ht0 : token c0 = true) by (rewrite Hcn in Htok; by apply Forall_cons in Htok as [? _]).
  destruct (fuel - length b1)%nat as [|f1] eqn:Ef; [lia|]. cbn [create_loop].
  rewrite (peek_ok _ _ _ Hc0), bind_Ret. unfold token in Ht0.
  apply andb_prop in Ht0 as [[Hz Hs]%andb_prop Hk]. apply negb_true_iff in Hz, Hs, Hk. rewrite Hz, Hs.
  destruct (item_end b2 rest Hb2 Hrest) as (ce & re & Ee & Hte).
  assert (Hm2 : mapped m p1 (n ++ [ce])).
  { rewrite Ee in Hm1. change (ce :: re) with ([ce] ++ re) in Hm1. rewrite app_assoc in Hm1. by apply mapped_app in Hm1 as [? _]. }
  change (fun c => negb (c =? 0) && negb (vct_issp c) && negb (c =? 44)) with token.
  rewrite (skip_run _ m p1 n ce Hm2 Htok Hte), bind_Ret.
  rewrite Z.add_simpl_l, Nat2Z.id. apply mapped_app in Hm2 as [Hmn _]. rewrite (region_run _ _ _ Hmn), bind_Ret.
  change (asked ls ((b1, n, b2) :: xs)) with ((n, sent n ls) :: asked ls xs) in *.
  change (enc ((n, sent n ls) :: asked ls xs)) with (enc_entry (n, sent n ls) ++ enc (asked ls xs)) in *.
  rewrite length_app in Hlim.
  destruct (create_entry_ok m req ls sb sbh l n Hreq Hn Hg Hc ltac:(lia)) as (sb1 & sbh1 & -> & Hg1 & Hc1).
  rewrite bind_Ret. cbv beta iota.
  apply mapped_app in Hm1 as [_ Hm3]. destruct Hrest as (cr & rr & Er & Htr).
  assert (Hsp : vct_issp cr = false).
  { unfold rest, tl in Er. destruct xs; cbn [app] in Er; by injection Er as <- _. }
  assert (Hm4 : mapped m (p1 + Z.of_nat (length n)) (b2 ++ [cr])).
  { rewrite Er in Hm3. change (cr :: rr) with ([cr] ++ rr) in Hm3. rewrite app_assoc in Hm3. by apply mapped_app in Hm3 as [? _]. }
  rewrite (skip_run _ m _ b2 cr Hm4 Hb2 Hsp), bind_Ret.
  apply mapped_app in Hm3 as [_ Hm5]. set (q := p1 + Z.of_nat (length n) + Z.of_nat (length b2)) in *.
  assert (Hcq : m !! q = Some cr) by (rewrite Er in Hm5; by apply mapped_cons in Hm5 as [? _]).
  rewrite (peek_ok _ _ _ Hcq), bind_Ret. unfold rest, tl in *. destruct xs as [|y xs].
  - cbn [app] in Er. injection Er as <- _. cbn [Z.eqb]. exists sb1, sbh1. split; [done|].
    change (enc (asked ls [])) with (@nil Z). by rewrite app_nil_r.
  - cbn [app] in Er. injection Er as <- _. change (44 =? 0) with false. change (44 =? 44) with true. cbn [vassert].
    rewrite bind_Ret. cbn [app length] in *. apply mapped_cons in Hm5 as [_ Hm6].
    destruct (IH f1 (q + 1) sb1 sbh1 _ Hx Hm6 ltac:(lia) Hg1 Hc1) as (sb2 & sbh2 & E & Hg2 & Hc2).
    { rewrite length_app. lia. }
    exists sb2, sbh2. split; [done|]. split; [|done]. by rewrite app_assoc.
Qed.

(** The result of [VRY_Create]: a finished buffer with the string. *)
Lemma create_ok m req hp ls hls xs j line : request m req ls -> has_lines m hp hls ->
  first_named H_Vary hls 0 = Some (j, line) -> value H_Vary line = vary_text xs -> Forall item_ok xs ->
  match vary_text xs with c :: _ => c <> 58 | [] => True end ->
  Z.of_nat (length (enc (asked ls xs))) + 3 <= LIMIT ->
  exists sb r, VRY_Create malloc m req hp = Ok (Some sb) /\
    Vsb.VSB_data sb = Ok (vary_string (asked ls xs) ++ 0 :: r) /\
    Vsb.VSB_len sb = Ok (Z.of_nat (length (vary_string (asked ls xs)))).
Proof using Hmalloc.
  intros Hreq Hhp Ef Ev Hx Hc Hlim. unfold VRY_Create.
  destruct (GetHdr_ok m hp hls H_Vary Hhp) as (o & -> & Ho); [by split; [|repeat constructor]|]. rewrite bind_Ret, Ef in *.
  destruct o as [v|]; [|done]. rewrite Ev in Ho.
  destruct (Vsb.new_auto_grows malloc Hmalloc) as (b0 & -> & Hg0). rewrite bind_Ret.
  do 3 (cbn [deref]; rewrite bind_Ret).
  assert (Hpk : exists c, peek m v = Ok c /\ (c =? 58) = false).
  { destruct (vary_text xs) as [|c t]; cbn [app] in Ho; apply mapped_cons in Ho as [H0 _].
    - exists 0. by rewrite (peek_ok _ _ _ H0).
    - exists c. rewrite (peek_ok _ _ _ H0). split; [done|lia]. }
  cbn [deref]. rewrite ?bind_Ret. destruct Hpk as (c & -> & Hc58). rewrite bind_Ret, Hc58. cbv zeta.
  pose proof (mapped_size _ _ _ Ho) as Hs. rewrite length_app in Hs.
  destruct (create_loop_ok m req ls Hreq xs (size m) v b0 b0 [] Hx Ho ltac:(lia) Hg0 (clearable_grows _ _ Hg0))
    as (sb & sbh & -> & Hg & Hcl); [cbn [length]; lia|].
  rewrite bind_Ret. cbv beta iota. cbn [app] in Hg.
  destruct (Vsb.vprintf_grows malloc Hmalloc sb _ [255; 255; 0] Hg) as (sb1 & -> & Hg1); [cbn [length]; lia|].
  rewrite bind_Ret. cbv beta iota.
  assert (Hd : exists x, Vsb.VSB_delete sbh = Ok x).
  { destruct Hcl as (s' & E & _). unfold Vsb.VSB_clear in E. apply bind_Ok in E as (u & E & _).
    unfold Vsb.VSB_delete. rewrite E, bind_Ret. by eexists. }
  destruct Hd as [x ->]. rewrite bind_Ret.
  destruct (Vsb.finish_grows sb1 _ Hg1) as (s2 & r & E2 & Ed & El). rewrite E2, bind_Ret. cbv beta iota.
  change (0 =? 0) with true. cbn [vassert]. rewrite bind_Ret. exists s2, r. done.
Qed.

End Create.

End VarySpec.
