(* ===== verification/VaryMatch.v ===== *)
(** Matching: [VRY_Match] against what the request has for each header. *)
From S2P Require Import Prelude Vct Vend Vsb Mem Http HttpLines BanSpec Vary VarySpec.
Import Vct Vend Mem Http HttpLines Vary VarySpec.

Module VaryMatch.

#[local] Notation nul_free := BanSpec.nul_free.

(** ** Comparing entries *)

Lemma memcmp_same l1 l2 r1 r2 n : length l1 = length l2 ->
  memcmp_eq (l1 ++ r1) (l2 ++ r2) (length l1 + n) =
  if bool_decide (l1 = l2) then memcmp_eq r1 r2 n else Ok false.
Proof.
  revert l2. induction l1 as [|x l1 IH]; intros [|y l2] H; try done. injection H as H.
  cbn [app length Nat.add memcmp_eq].
  change (rd (x :: l1 ++ r1) 0) with (Ok x). change (rd (y :: l2 ++ r2) 0) with (Ok y). rewrite !bind_Ret.
  cbn [drop]. rewrite !drop_0. destruct (Z.eqb_spec x y) as [->|Hne].
  - rewrite IH by done. destruct (bool_decide_reflect (l1 = l2)) as [->|E]; [by rewrite bool_decide_true|].
    rewrite bool_decide_false; [done|congruence].
  - rewrite bool_decide_false; [done|congruence].
Qed.

Lemma memcmp_same0 l1 l2 r1 r2 : length l1 = length l2 ->
  memcmp_eq (l1 ++ r1) (l2 ++ r2) (length l1) = Ok (bool_decide (l1 = l2)).
Proof.
  intros H. pose proof (memcmp_same l1 l2 r1 r2 0 H) as E. rewrite Nat.add_0_r in E. rewrite E.
  by destruct (bool_decide_reflect (l1 = l2)).
Qed.

Lemma memcmp_more a b n k : memcmp_eq a b n = Ok false -> memcmp_eq a b (n + k) = Ok false.
Proof.
  revert a b. induction n as [|n IH]; intros a b; [done|]. cbn [Nat.add memcmp_eq]. intros H.
  apply bind_Ok in H as (x & -> & H). apply bind_Ok in H as (y & -> & H). rewrite !bind_Ret.
  destruct (x =? y); [by apply IH|done].
Qed.

Lemma len2_inj v w : (forall x, v = Some x -> Z.of_nat (length x) < 0xffff) ->
  (forall x, w = Some x -> Z.of_nat (length x) < 0xffff) -> len2 v = len2 w ->
  length (default [] v) = length (default [] w) /\ (v = None <-> w = None).
Proof.
  intros Hv Hw E. destruct (len2_bytes v Hv) as (a & b & Ev & _ & _ & Sv), (len2_bytes w Hw) as (c & d & Ew & _ & _ & Sw).
  rewrite Ev, Ew in E. injection E as <- <-.
  destruct v as [v|], w as [w|]; cbn [default]; [|specialize (Hv v eq_refl); lia|specialize (Hw w eq_refl); lia|done].
  unfold id. split; [lia|done].
Qed.

Lemma name_octets_length n : length (name_octets n) = (length n + 3)%nat.
Proof. unfold name_octets. cbn [length]. rewrite length_app. cbn [length]. lia. Qed.

Lemma memcmp_name x y r1 r2 : memcmp_eq (name_octets x ++ r1) (name_octets y ++ r2) (length (name_octets x)) =
  Ok (bool_decide (x = y)).
Proof.
  destruct (decide (length x = length y)) as [H|H].
  - rewrite memcmp_same0 by (by rewrite !name_octets_length, H). f_equal. apply bool_decide_ext.
    split; [|by intros ->]. unfold name_octets. intros [= _ E]. by apply app_inj_2 in E as [E _].
  - rewrite bool_decide_false by congruence. unfold name_octets. cbn [length app memcmp_eq].
    change (rd (?a :: _) 0) with (Ok a). rewrite !bind_Ret. by rewrite (proj2 (Z.eqb_neq _ _)) by lia.
Qed.

Lemma memcmp_enc x y r1 r2 : entry_ok x -> entry_ok y ->
  memcmp_eq (enc_entry x ++ r1) (enc_entry y ++ r2) (length (enc_entry x)) = Ok (bool_decide (x = y)).
Proof.
  intros Hx Hy. destruct x as [n v], y as [n' v']. unfold enc_entry. cbn [fst snd].
  rewrite !length_app, <- !(app_assoc (len2 _)).
  rewrite (memcmp_same (len2 v) (len2 v')) by (by destruct v, v').
  destruct (bool_decide_reflect (len2 v = len2 v')) as [E|E].
  2:{ rewrite bool_decide_false; [done|]. intros [= -> ->]. done. }
  destruct (len2_inj v v' (eo_val _ Hx) (eo_val _ Hy) E) as [El En].
  rewrite <- !app_assoc.
  destruct (decide (n = n')) as [->|Hn].
  - rewrite memcmp_same, bool_decide_true by done. rewrite memcmp_same0 by done. f_equal. apply bool_decide_ext.
    split; [|by intros [= ->]]. intros Ev. destruct v as [v|], v' as [v'|]; cbn [default] in *; unfold id in *;
      [by subst|by destruct (proj2 En eq_refl)|by destruct (proj1 En eq_refl)|done].
  - rewrite bool_decide_false by congruence.
    pose proof (memcmp_name n n' (default [] v ++ r1) (default [] v' ++ r2)) as H. rewrite bool_decide_false in H by done.
    by apply memcmp_more.
Qed.

(** The end of a string, where no entry is. *)
Lemma memcmp_mark x r a b junk : entry_ok x ->
  memcmp_eq (enc_entry x ++ r) (a :: b :: 0 :: junk) (length (enc_entry x)) = Ok false.
Proof.
  intros Hx. destruct (len2_bytes _ (eo_val _ Hx)) as (c & d & E & _). unfold enc_entry. rewrite E.
  cbn [app length name_octets memcmp_eq].
  repeat (change (rd (?u :: _) 0) with (Ok u); rewrite !bind_Ret; cbn [drop]; rewrite ?drop_0;
    match goal with |- context [if ?u =? ?w then _ else _] => destruct (Z.eqb_spec u w); [cbn [memcmp_eq]|done] end).
  by rewrite (proj2 (Z.eqb_neq _ 0)) by lia.
Qed.

(** ** [vry_cmp] *)

Section Match.

Context (http_gzip_support : bool).

Definition is_ae (n : list Z) : bool := bool_decide (map tolower n = map tolower (str "Accept-Encoding")).

(** Whether two values of a header count as the same. *)
Definition cmp_spec (x y : entry) : Z :=
  if bool_decide (x = y) then 0
  else if negb (bool_decide (fst x = fst y)) then 1
  else if http_gzip_support && is_ae (fst x) then 0 else 2.

Lemma strcasecmp_run s t r : Forall (fun c => 0 < c) s -> Forall (fun c => 0 < c) t ->
  strcasecmp_eq s (t ++ 0 :: r) = Ok (bool_decide (map tolower s = map tolower t)).
Proof.
  intros Hs. revert t. induction Hs as [|x s Hx Hs IH]; intros t Ht.
  - destruct Ht as [|y t Hy Ht]; [done|]. cbn [app strcasecmp_eq].
    change (rd (?u :: _) 0) with (Ok u). rewrite bind_Ret. by rewrite (proj2 (Z.eqb_neq y 0)) by lia.
  - destruct Ht as [|y t Hy Ht]; cbn [app strcasecmp_eq]; change (rd (?u :: _) 0) with (Ok u); rewrite bind_Ret.
    + by rewrite tolower_pos by done.
    + cbn [drop map]. rewrite drop_0. destruct (Z.eqb_spec (tolower x) (tolower y)) as [E|E].
      * rewrite IH by done. f_equal. apply bool_decide_ext. rewrite E. split; [by intros ->|by intros [= ->]].
      * rewrite bool_decide_false; [done|]. by intros [= ? _].
Qed.

Lemma is_ae_ok n r : name_ok n ->
  strcasecmp_eq (Z.of_nat (length H_Accept_Encoding) :: H_Accept_Encoding) (name_octets n ++ r) = Ok (is_ae n).
Proof.
  intros [Hn Hl]. unfold name_octets.
  replace (((1 + Z.of_nat (length n)) :: n ++ [58; 0]) ++ r) with (((1 + Z.of_nat (length n)) :: n ++ [58]) ++ 0 :: r)
    by (cbn [app]; by rewrite <- !app_assoc).
  rewrite strcasecmp_run.
  - f_equal. apply bool_decide_ext. cbn [map]. change (H_Accept_Encoding) with (str "Accept-Encoding" ++ [58]).
    rewrite !map_app. change (map tolower [58]) with [58].
    change (tolower (Z.of_nat (length (str "Accept-Encoding" ++ [58])))) with 16.
    assert (HA : length (map tolower (str "Accept-Encoding")) = 15%nat) by done. revert HA.
    generalize (map tolower (str "Accept-Encoding")) as A. intros A HA. split.
    + intros E. apply (f_equal (drop 1)) in E. cbn [drop] in E. by apply app_inj_2 in E as [<- _].
    + intros E. assert (Hle : length n = 15%nat) by (by rewrite <- (length_map tolower n), E).
      by rewrite Hle, E.
  - by repeat constructor.
  - constructor; [lia|]. apply Forall_app. split; [|by repeat constructor]. eapply Forall_impl; [exact Hn|]. cbn. lia.
Qed.

(** The parts of an entry that the code looks at. *)
Lemma enc_len x r : rd (enc_entry x ++ r) 2 = Ok (1 + Z.of_nat (length (fst x))).
Proof. unfold enc_entry. by destruct (snd x). Qed.

Lemma enc_drop2 x r : drop 2 (enc_entry x ++ r) = name_octets (fst x) ++ default [] (snd x) ++ r.
Proof. unfold enc_entry. rewrite <- !app_assoc. by destruct (snd x). Qed.

Lemma hdr_len n : Z.to_nat (1 + Z.of_nat (length n) + 2) = length (name_octets n).
Proof. rewrite name_octets_length. lia. Qed.

Lemma vry_cmp_ok x y r1 r2 : entry_ok x -> entry_ok y ->
  vry_cmp http_gzip_support (enc_entry x ++ r1) (enc_entry y ++ r2) = Ok (cmp_spec x y).
Proof.
  intros Hx Hy. unfold vry_cmp, cmp_spec. rewrite vry_len_ok, bind_Ret, Nat2Z.id by done.
  rewrite memcmp_enc, bind_Ret by done. destruct (bool_decide (x = y)); [done|].
  rewrite enc_len, bind_Ret, !enc_drop2, hdr_len, memcmp_name, bind_Ret.
  destruct (negb _); [done|]. destruct http_gzip_support; cbn [andb]; [|done].
  rewrite is_ae_ok, bind_Ret by apply Hx. by destruct (is_ae _).
Qed.

Lemma vry_cmp_mark x r a b junk : entry_ok x ->
  vry_cmp http_gzip_support (enc_entry x ++ r) (a :: b :: 0 :: junk) = Ok 1.
Proof.
  intros Hx. unfold vry_cmp. rewrite vry_len_ok, bind_Ret, Nat2Z.id by done.
  rewrite memcmp_mark, bind_Ret by done. rewrite enc_len, bind_Ret, enc_drop2, hdr_len.
  cbn [drop]. unfold name_octets. cbn [app length memcmp_eq].
  change (rd (?u :: _) 0) with (Ok u). rewrite !bind_Ret. by rewrite (proj2 (Z.eqb_neq _ _)) by lia.
Qed.

(** ** Building an entry *)

Lemma vary_store_ok l : forall vb i, 0 <= i -> i + Z.of_nat (length l) <= Z.of_nat (length vb) ->
  store vb i l = Ok (take (Z.to_nat i) vb ++ l ++ drop (Z.to_nat (i + Z.of_nat (length l))) vb).
Proof.
  induction l as [|c l IH]; intros vb i Hi Hl; cbn [store length app] in *.
  - rewrite Z.add_0_r. by rewrite take_drop.
  - rewrite wr_in, bind_Ret by lia. rewrite IH by (rewrite ?length_insert; lia). f_equal.
    rewrite drop_insert_lt by lia. replace (Z.to_nat (i + 1)) with (S (Z.to_nat i)) by lia.
    rewrite (take_S_r _ _ c) by (rewrite list_lookup_insert_eq; [done|lia]).
    rewrite take_insert_ge by lia. rewrite <- app_assoc. cbn [app].
    replace (Z.to_nat (i + 1 + Z.of_nat (length l))) with (Z.to_nat (i + Z.of_nat (S (length l)))) by lia. done.
Qed.

Lemma store_app l1 : forall l2 vb i, store vb i (l1 ++ l2) =
  (vb ← store vb i l1; store vb (i + Z.of_nat (length l1)) l2).
Proof.
  induction l1 as [|c l1 IH]; intros l2 vb i; cbn [store app length].
  - by rewrite Z.add_0_r.
  - destruct (wr vb i c) as [vb'|]; [|done]. rewrite !bind_Ret, IH.
    by replace (i + 1 + Z.of_nat (length l1)) with (i + Z.of_nat (S (length l1))) by lia.
Qed.

(** Where an entry of [ln] octets goes. *)
Definition place (size vsp ln : Z) : Z := if size <=? vsp + ln then 0 else vsp.

Lemma store_length vb i l vb' : store vb i l = Ok vb' -> length vb' = length vb.
Proof.
  revert vb i. induction l as [|c l IH]; intros vb i; cbn [store]; [by intros [= ->]|].
  intros H. apply bind_Ok in H as (vb1 & H1 & H). apply wr_Ok in H1 as [_ ->].
  rewrite (IH _ _ H). apply length_insert.
Qed.

Lemma build_value_ok m req ls n o : request m req ls ->
  match sent n ls, o with
  | None, None => True
  | Some v, Some h => trimmed m h = Ok (Z.of_nat (length v), v) /\ exists c, m !! h = Some c /\ vct_issp c = false
  | _, _ => False
  end -> build_value m o = Ok (sent n ls).
Proof.
  intros Hreq Ho. destruct (sent n ls) as [v|] eqn:Ev, o as [h|]; try done. destruct Ho as [Ht _].
  unfold build_value. rewrite Ht, bind_Ret. cbv beta iota. rewrite vassert_true, bind_Ret; [done|].
  apply Z.ltb_lt. by apply (rq_short _ _ _ Hreq n).
Qed.

(** The octets of an entry, stored one part after the other. *)
Lemma store_entry vb i x vb' : store vb i (enc_entry x) = Ok vb' ->
  exists vb1 vb2, store vb i (len2 (snd x)) = Ok vb1 /\ store vb1 (i + 2) (name_octets (fst x)) = Ok vb2 /\
    store vb2 (i + 2 + Z.of_nat (length (name_octets (fst x)))) (default [] (snd x)) = Ok vb'.
Proof.
  unfold enc_entry. rewrite store_app. intros H. apply bind_Ok in H as (vb1 & E1 & H). rewrite store_app in H.
  apply bind_Ok in H as (vb2 & E2 & H). assert (El : length (len2 (snd x)) = 2%nat) by (by destruct (snd x)).
  rewrite El in *. by exists vb1, vb2.
Qed.

(** [vb] with the entry [w] at [i] and no other after it. *)
Definition put_entry (vb : list Z) (i : Z) (w : entry) : list Z :=
  take (Z.to_nat i) vb ++ enc_entry w ++ <[2%nat := 0]> (drop (Z.to_nat (i + Z.of_nat (length (enc_entry w)))) vb).

Lemma put_entry_ok vb i w : 0 <= i -> i + Z.of_nat (length (enc_entry w)) + 2 < Z.of_nat (length vb) ->
  length (put_entry vb i w) = length vb /\
  exists a b junk, put_entry vb i w = take (Z.to_nat i) vb ++ enc_entry w ++ a :: b :: 0 :: junk.
Proof.
  intros Hi Hl. unfold put_entry. split.
  - rewrite !length_app, length_insert, length_take, length_drop. lia.
  - pose proof (length_drop vb (Z.to_nat (i + Z.of_nat (length (enc_entry w))))) as Hd.
    destruct (drop _ vb) as [|a [|b [|c junk]]]; cbn [length] in Hd; try lia. by exists a, b, junk.
Qed.

(** The value and the mark, after the length and the name. *)
Lemma build_tail_ok vb i w vb2 : entry_ok w -> 0 <= i ->
  i + Z.of_nat (length (enc_entry w)) + 2 < Z.of_nat (length vb) ->
  (vb1 ← store vb i (len2 (snd w)); store vb1 (i + 2) (name_octets (fst w))) = Ok vb2 ->
  build_tail vb2 i (1 + Z.of_nat (length (fst w))) (snd w) = Ok (put_entry vb i w).
Proof.
  intros Hw Hi Hl H. pose proof (length_enc_entry w) as Hln.
  pose proof (vary_store_ok (enc_entry w) vb i Hi ltac:(lia)) as Hall. set (full := take _ vb ++ _) in Hall.
  destruct (store_entry _ _ _ _ Hall) as (vb1 & vb2' & E1 & E2 & E3). rewrite E1, bind_Ret in H.
  assert (vb2' = vb2) as -> by congruence.
  assert (Hlf : length full = length vb) by (apply store_length in Hall; done).
  assert (Hwr : forall j, j = i + Z.of_nat (length (enc_entry w)) + 2 -> wr full j 0 = Ok (put_entry vb i w)).
  { intros j ->. rewrite wr_in by (rewrite Hlf; lia). f_equal. unfold full, put_entry.
    rewrite app_assoc, insert_app_r_alt by (rewrite length_app, length_take; lia).
    rewrite length_app, length_take, <- app_assoc. do 2 f_equal. f_equal. lia. }
  rewrite name_octets_length in E3. unfold build_tail. destruct w as [n [v|]]; cbn [fst snd default] in *; unfold id in *.
  - assert (Ek : rd vb2 (i + 2) = Ok (1 + Z.of_nat (length n))).
    { rewrite vary_store_ok in E2; [|lia|apply store_length in E1; rewrite name_octets_length; lia].
      injection E2 as <-. unfold name_octets. cbn [app]. apply rd_at. rewrite length_take. apply store_length in E1. lia. }
    rewrite Ek, bind_Ret. replace (i + 2 + (1 + Z.of_nat (length n)) + 2) with (i + 2 + Z.of_nat (length n + 3)) by lia.
    rewrite E3, bind_Ret. apply Hwr. lia.
  - injection E3 as ->. apply Hwr. cbn [length] in Hln. lia.
Qed.

Lemma u16_len2 v : (forall x, v = Some x -> Z.of_nat (length x) < 0xffff) ->
  [Z.land (Z.shiftr (u16 (lh_of v)) 8) 0xff; Z.land (u16 (lh_of v)) 0xff] = len2 v.
Proof.
  intros Hv. assert (E16 : u16 (lh_of v) = lh_of v).
  { apply Z.mod_small. destruct v as [v|]; cbn [lh_of]; [specialize (Hv v eq_refl)|]; lia. }
  rewrite E16. destruct (len2_bytes v Hv) as (a & b & -> & Ha & Hb & Es).
  assert (lh_of v = a * 256 + b) as -> by (rewrite Es; by destruct v).
  rewrite !land_ff, Z.shiftr_div_pow2 by lia. unfold is_byte in *.
  change (2 ^ 8) with 256. f_equal; [|f_equal]; Z.to_euclidean_division_equations; lia.
Qed.

Lemma lh_default v : (forall x, v = Some x -> Z.of_nat (length x) < 0xffff) ->
  (if lh_of v =? 0xffff then 0 else lh_of v) = Z.of_nat (length (default [] v)).
Proof.
  intros Hv. destruct v as [v|]; [|done]. cbn [lh_of default]. unfold id. specialize (Hv v eq_refl).
  by rewrite (proj2 (Z.eqb_neq _ _)) by lia.
Qed.

Lemma sent_entry_ok m req ls n : request m req ls -> name_ok n -> entry_ok (n, sent n ls).
Proof. intros Hreq Hn. split; [done|]. intros u Hu. by apply (rq_short _ _ _ Hreq n). Qed.

(** Whether there is room for it. *)
Lemma build_ok m req ls x r vb vsp : request m req ls -> entry_ok x -> 0 <= vsp ->
  let w : entry := (fst x, sent (fst x) ls) in
  let ln := Z.of_nat (length (enc_entry w)) in
  let vsp' := place (Z.of_nat (length vb)) vsp ln in
  build_entry m req (enc_entry x ++ r) vb vsp =
    if vsp' + ln + 2 <? Z.of_nat (length vb)
    then Ok (put_entry vb vsp' w, vsp', Z.of_nat (length vb) <=? vsp + ln) else Fail FAssert.
Proof.
  intros Hreq Hx Hvsp w ln vsp'. pose proof (sent_entry_ok m req ls _ Hreq (eo_name _ Hx)) as Hw.
  assert (Hvs : 0 <= vsp') by (unfold vsp', place; destruct (_ <=? _); lia).
  unfold build_entry. rewrite enc_drop2.
  destruct (GetHdr_str_ok m req ls (fst x) (default [] (snd x) ++ r) Hreq (eo_name _ Hx)) as (o & Eo & Ho).
  rewrite Eo, bind_Ret, (build_value_ok m req ls _ o Hreq Ho), bind_Ret, enc_len, bind_Ret. cbv zeta.
  rewrite lh_default by apply Hw.
  assert (Hln : 2 + (1 + Z.of_nat (length (fst x))) + 2 + Z.of_nat (length (default [] (sent (fst x) ls))) = ln).
  { unfold ln. rewrite length_enc_entry. cbn [fst snd w]. lia. }
  rewrite Hln.
  assert (Epl : (if Z.of_nat (length vb) <=? vsp + ln then (0, true) else (vsp, false)) =
    (vsp', Z.of_nat (length vb) <=? vsp + ln)) by (unfold vsp', place; by destruct (_ <=? _)).
  rewrite Epl. cbv beta iota. destruct (Z.ltb_spec (vsp' + ln + 2) (Z.of_nat (length vb))) as [Hroom|]; [|done].
  cbn [vassert]. rewrite bind_Ret, u16_len2 by apply Hw.
  pose proof (vary_store_ok (enc_entry w) vb vsp' Hvs ltac:(fold ln; lia)) as Hst.
  destruct (store_entry vb vsp' w _ Hst) as (vb1 & vb2 & E1 & E2 & _).
  cbn [fst snd w] in E1, E2. rewrite E1, bind_Ret.
  assert (Hlen : (Z.of_nat (length (enc_entry x ++ r)) <? 2 + (1 + Z.of_nat (length (fst x))) + 2) = false).
  { apply Z.ltb_ge. rewrite length_app, Nat2Z.inj_add, length_enc_entry. lia. }
  rewrite Hlen. unfold mret at 1, res_ret at 1. rewrite bind_Ret, hdr_len, take_app_length, E2, bind_Ret.
  assert (Et : (vb1 ← store vb vsp' (len2 (snd w)); store vb1 (vsp' + 2) (name_octets (fst w))) = Ok vb2)
    by (cbn [fst snd w]; by rewrite E1, bind_Ret).
  pose proof (build_tail_ok vb vsp' w vb2 Hw Hvs Hroom Et) as H. cbn [fst snd w] in H. by rewrite H, bind_Ret.
Qed.

End Match.

End VaryMatch.
