(* ===== verification/VaryThm.v ===== *)
(** What holds of Vary processing: the string of a response, and whether it
    matches a request. *)
From S2P Require Import Prelude Vct Vend Vsb Mem Http HttpLines HttpThm BanSpec Vary VarySpec VaryMatch.
Import Vct Vend Mem Http HttpLines Vary VarySpec VaryMatch.

Module VaryThm.

(** ** The space of a session *)

Definition consistent (ls : list (list Z * Z)) (w : entry) : Prop := name_ok (fst w) /\ snd w = sent (fst w) ls.

(** The entries [ws1] and [ws2], which are what the request has, and a mark. *)
Definition space (ls : list (list Z * Z)) (vb : list Z) (ws1 ws2 : list entry) : Prop :=
  (exists a b junk, vb = enc ws1 ++ enc ws2 ++ a :: b :: 0 :: junk) /\ Forall (consistent ls) (ws1 ++ ws2).

Definition vary_b_ok (ls : list (list Z * Z)) (vb : list Z) : Prop := exists ws, space ls vb [] ws.

(** What the request has for the header of an entry, and its size. *)
Definition own (ls : list (list Z * Z)) (x : entry) : entry := (fst x, sent (fst x) ls).
Definition own_len (ls : list (list Z * Z)) (x : entry) : Z := Z.of_nat (length (enc_entry (own ls x))).

(** Where matching entries of the sizes [ns] ends, whether the space runs out on
    the way, and whether each, and two more octets, fits where it goes. *)
Fixpoint ends (size vsp : Z) (ns : list Z) : Z :=
  match ns with [] => vsp | n :: ns => ends size (place size vsp n + n) ns end.
Fixpoint runs_out (size vsp : Z) (ns : list Z) : bool :=
  match ns with [] => false | n :: ns => (size <=? vsp + n) || runs_out size (place size vsp n + n) ns end.
Fixpoint fits (size vsp : Z) (ns : list Z) : Prop :=
  match ns with [] => True | n :: ns => place size vsp n + n + 2 < size /\ fits size (place size vsp n + n) ns end.

Lemma enc_app a b : enc (a ++ b) = enc a ++ enc b.
Proof. unfold enc. by rewrite map_app, concat_app. Qed.

Lemma enc_cons x a : enc (x :: a) = enc_entry x ++ enc a.
Proof. reflexivity. Qed.

Section Match.

Context (http_gzip_support : bool) (m : mem) (req : http) (ls : list (list Z * Z)) (Hreq : request m req ls).

Definition matches (x : entry) : bool :=
  bool_decide (snd x = sent (fst x) ls) || (http_gzip_support && is_ae (fst x)).

Lemma consistent_ok w : consistent ls w -> entry_ok w.
Proof using Hreq. destruct w as [n v]. intros [Hn E]. cbn [fst snd] in *. subst v. by apply (sent_entry_ok m req ls). Qed.

Lemma own_consistent x : entry_ok x -> consistent ls (own ls x).
Proof. intros H. split; [apply H|done]. Qed.

Lemma cmp_own x : cmp_spec http_gzip_support x (own ls x) = if matches x then 0 else 2.
Proof.
  unfold cmp_spec, matches, own. destruct x as [n v]. cbn [fst snd].
  destruct (bool_decide_reflect (v = sent n ls)) as [->|E]; [by rewrite bool_decide_true|].
  rewrite (bool_decide_false ((n, v) = _)) by congruence. rewrite (bool_decide_true (n = n)) by done. cbn [negb orb].
  done.
Qed.

(** One entry, when the space at [vsp] has the entries [ws2]. *)
Lemma match_entry_ok x r vb ws1 ws2 : entry_ok x -> space ls vb ws1 ws2 ->
  let vsp := Z.of_nat (length (enc ws1)) in
  let vsp' := place (Z.of_nat (length vb)) vsp (own_len ls x) in
  vsp' + own_len ls x + 2 < Z.of_nat (length vb) ->
  exists vb' ws1' ws2', match_entry http_gzip_support m req (enc_entry x ++ r) vb vsp =
      Ok (if matches x then 0 else 2, vb', vsp', Z.of_nat (length vb) <=? vsp + own_len ls x) /\
    space ls vb' ws1' (own ls x :: ws2') /\ vsp' = Z.of_nat (length (enc ws1')) /\ length vb' = length vb /\
    (vsp + own_len ls x < Z.of_nat (length vb) -> ws1' = ws1) /\ (ws2 = [] -> ws2' = []).
Proof using Hreq.
  intros Hx [(a & b & junk & Evb) Hws] vsp vsp' Hroom. unfold match_entry.
  apply Forall_app in Hws as [Hws1 Hws2].
  assert (Eat : at_ vb vsp = enc ws2 ++ a :: b :: 0 :: junk) by (unfold at_; rewrite Evb; by apply drop_at).
  assert (Hbuild : vry_cmp http_gzip_support (enc_entry x ++ r) (at_ vb vsp) = Ok 1 -> exists vb' ws1' ws2',
    (i ← vry_cmp http_gzip_support (enc_entry x ++ r) (at_ vb vsp);
     if i =? 1 then
       '(vb, vsp, oflo) ← build_entry m req (enc_entry x ++ r) vb vsp;
       i ← vry_cmp http_gzip_support (enc_entry x ++ r) (at_ vb vsp);
       vassert (negb (i =? 1));; mret (i, vb, vsp, oflo)
     else mret (i, vb, vsp, false)) =
      Ok (if matches x then 0 else 2, vb', vsp', Z.of_nat (length vb) <=? vsp + own_len ls x) /\
    space ls vb' ws1' (own ls x :: ws2') /\ vsp' = Z.of_nat (length (enc ws1')) /\ length vb' = length vb /\
    (vsp + own_len ls x < Z.of_nat (length vb) -> ws1' = ws1) /\ (ws2 = [] -> ws2' = [])).
  { intros ->. rewrite bind_Ret. change (1 =? 1) with true. cbv iota.
    pose proof (build_ok m req ls x r vb vsp Hreq Hx ltac:(lia)) as Hb. cbv zeta in Hb.
    change (fst x, sent (fst x) ls) with (own ls x) in Hb. fold (own_len ls x) vsp' in Hb.
    rewrite Hb, (proj2 (Z.ltb_lt _ _) Hroom), bind_Ret. cbv beta iota.
    assert (Hvs : 0 <= vsp') by (unfold vsp', place; destruct (_ <=? _); lia).
    destruct (put_entry_ok vb vsp' (own ls x) Hvs Hroom) as (Hlen & a' & b' & junk' & Ep).
    set (ws1' := if Z.of_nat (length vb) <=? vsp + own_len ls x then [] else ws1).
    assert (Etk : take (Z.to_nat vsp') vb = enc ws1' /\ vsp' = Z.of_nat (length (enc ws1'))).
    { unfold ws1', vsp', place. destruct (_ <=? _); [done|]. split; [|done]. unfold vsp. rewrite Nat2Z.id, Evb.
      apply take_app_length. }
    destruct Etk as [Etk Evs]. rewrite Etk in Ep.
    assert (Eat' : at_ (put_entry vb vsp' (own ls x)) vsp' = enc_entry (own ls x) ++ a' :: b' :: 0 :: junk').
    { unfold at_. rewrite Ep. by apply drop_at. }
    rewrite Eat', vry_cmp_ok, bind_Ret, cmp_own by (done || by apply consistent_ok, own_consistent).
    rewrite vassert_true, bind_Ret by (by destruct (matches x)).
    exists (put_entry vb vsp' (own ls x)), ws1', []. split; [done|]. split; [|split; [done|split; [done|split; [|done]]]].
    - split; [exists a', b', junk'; rewrite Ep, enc_cons; by rewrite app_nil_r|].
      apply Forall_app. split; [unfold ws1'; by destruct (_ <=? _)|]. constructor; [by apply own_consistent|done].
    - intros Hlt. unfold ws1'. by rewrite (proj2 (Z.leb_gt _ _) Hlt). }
  destruct ws2 as [|w ws2].
  - apply Hbuild. rewrite Eat. by apply vry_cmp_mark.
  - apply Forall_cons in Hws2 as [Hw Hws2]. rewrite enc_cons, <- app_assoc in Eat.
    assert (Ecmp : vry_cmp http_gzip_support (enc_entry x ++ r) (at_ vb vsp) = Ok (cmp_spec http_gzip_support x w)).
    { rewrite Eat. apply vry_cmp_ok; [done|by apply consistent_ok]. }
    destruct (decide (fst x = fst w)) as [En|En].
    + assert (Ew : w = own ls x) by (destruct w as [n v], Hw as [_ E]; cbn [fst snd] in *; subst; done).
      rewrite Ecmp, Ew, bind_Ret, cmp_own. replace ((if matches x then 0 else 2) =? 1) with false by (by destruct (matches x)).
      assert (Hlen : Z.of_nat (length vb) = vsp + own_len ls x + Z.of_nat (length (enc ws2)) + 3 + Z.of_nat (length junk)).
      { rewrite Evb, enc_cons, Ew, !length_app. cbn [length]. unfold own_len. lia. }
      assert (Elt : (Z.of_nat (length vb) <=? vsp + own_len ls x) = false) by (apply Z.leb_gt; lia).
      unfold vsp', place. rewrite Elt. exists vb, ws1, ws2. split; [done|]. split; [|done].
      split; [exists a, b, junk; by rewrite Evb, Ew|]. apply Forall_app. split; [done|]. constructor; [by rewrite <- Ew|done].
    + apply Hbuild. rewrite Ecmp. unfold cmp_spec. rewrite bool_decide_false by congruence.
      by rewrite (bool_decide_false (fst x = fst w)) by done.
Qed.

Lemma match_loop_ok es : forall fuel t vb ws1 ws2 oflo ok, rd t 2 = Ok 0 -> Forall entry_ok es -> space ls vb ws1 ws2 ->
  (length es <= fuel)%nat ->
  let size := Z.of_nat (length vb) in
  let vsp := Z.of_nat (length (enc ws1)) in
  fits size vsp (map (own_len ls) es) ->
  exists vb' ws1' ws2', match_loop http_gzip_support fuel m req (enc es ++ t) vb vsp oflo ok =
      Ok (vb', ends size vsp (map (own_len ls) es), oflo || runs_out size vsp (map (own_len ls) es),
          ok && forallb matches es) /\
    space ls vb' ws1' ws2' /\ ends size vsp (map (own_len ls) es) = Z.of_nat (length (enc ws1')) /\
    length vb' = length vb /\
    (runs_out size vsp (map (own_len ls) es) = false -> ws1' = ws1 ++ map (own ls) es).
Proof using Hreq.
  induction es as [|x es IH]; intros fuel t vb ws1 ws2 oflo ok Ht Hes Hsp Hf size vsp Hfit.
  - exists vb, ws1, ws2. cbn [map ends runs_out forallb]. rewrite orb_false_r, andb_true_r, app_nil_r.
    split; [|done]. change (enc [] ++ t) with t. destruct fuel; cbn [match_loop]; by rewrite Ht, bind_Ret.
  - apply Forall_cons in Hes as [Hx Hes]. cbn [map fits length] in *. destruct Hfit as [Hroom Hfit].
    destruct fuel as [|fuel]; [lia|]. rewrite enc_cons, <- !app_assoc.
    set (rest := enc es ++ t). cbn [match_loop]. rewrite enc_len, bind_Ret.
    rewrite (proj2 (Z.eqb_neq _ 0)) by lia.
    destruct (match_entry_ok x rest vb ws1 ws2 Hx Hsp Hroom) as (vb1 & ws1' & ws2' & E1 & Hsp1 & Ev & Hlen & Hsame & _).
    fold vsp size in E1. rewrite E1, bind_Ret. cbv beta iota. set (vsp' := place size vsp (own_len ls x)) in *. fold vsp size vsp' in Ev.
    destruct Hsp1 as [(a & b & junk & Evb) Hcons].
    assert (Eat : at_ vb1 vsp' = enc_entry (own ls x) ++ enc ws2' ++ a :: b :: 0 :: junk).
    { unfold at_. rewrite Evb, Ev, enc_cons, <- app_assoc. by apply drop_at. }
    rewrite Eat, (vry_len_ok (own ls x)), bind_Ret by (by apply consistent_ok, own_consistent).
    rewrite (vry_len_ok x), bind_Ret, Nat2Z.id, drop_app_length by done. fold (own_len ls x).
    assert (Evsp : vsp' + own_len ls x = Z.of_nat (length (enc (ws1' ++ [own ls x])))).
    { rewrite enc_app, length_app, enc_cons. change (enc []) with (@nil Z). rewrite app_nil_r. unfold own_len. lia. }
    assert (Hsp2 : space ls vb1 (ws1' ++ [own ls x]) ws2').
    { split; [exists a, b, junk; rewrite Evb, enc_app, !enc_cons; change (enc []) with (@nil Z); by rewrite app_nil_r, <- !app_assoc|].
      by rewrite <- app_assoc. }
    destruct (IH fuel t vb1 _ _ (oflo || (size <=? vsp + own_len ls x)) (ok && ((if matches x then 0 else 2) =? 0)) Ht Hes Hsp2 ltac:(lia))
      as (vb2 & ws3 & ws4 & E & Hsp3 & Ee & Hlen2 & Hsame2).
    { rewrite Hlen. fold size. by rewrite <- Evsp. }
    rewrite Hlen, <- Evsp in E, Ee, Hsame2. fold size in E, Ee, Hsame2.
    fold rest in E.
    exists vb2, ws3, ws4. rewrite E. cbn [ends runs_out forallb]. fold vsp'.
    split; [|split; [done|split; [done|split; [by rewrite Hlen2|]]]].
    + rewrite orb_assoc, <- andb_assoc. by destruct (matches x).
    + intros [H1 H2]%orb_false_elim. rewrite Hsame2 by done. apply Z.leb_gt in H1. fold vsp size in Hsame.
      rewrite Hsame by done. by rewrite <- app_assoc.
Qed.

(** Past the entries that the space has, there must be room. *)
Lemma match_loop_fails es : forall fuel t vb ws1 oflo ok, Forall entry_ok es -> space ls vb ws1 [] ->
  (length es <= fuel)%nat ->
  ~ fits (Z.of_nat (length vb)) (Z.of_nat (length (enc ws1))) (map (own_len ls) es) ->
  match_loop http_gzip_support fuel m req (enc es ++ t) vb (Z.of_nat (length (enc ws1))) oflo ok = Fail FAssert.
Proof using Hreq.
  induction es as [|x es IH]; intros fuel t vb ws1 oflo ok Hes Hsp Hf Hfit; [by destruct Hfit|].
  apply Forall_cons in Hes as [Hx Hes]. cbn [map fits length] in *. destruct fuel as [|fuel]; [lia|].
  rewrite enc_cons, <- !app_assoc. set (rest := enc es ++ t). cbn [match_loop].
  rewrite enc_len, bind_Ret, (proj2 (Z.eqb_neq _ 0)) by lia.
  set (vsp := Z.of_nat (length (enc ws1))) in *. set (size := Z.of_nat (length vb)) in *.
  set (vsp' := place size vsp (own_len ls x)) in *.
  destruct (decide (vsp' + own_len ls x + 2 < size)) as [Hroom|Hroom].
  - destruct (match_entry_ok x rest vb ws1 [] Hx Hsp Hroom) as (vb1 & ws1' & ws2' & E1 & Hsp1 & Ev & Hlen & _ & E2).
    rewrite (E2 eq_refl) in Hsp1. fold vsp size vsp' in E1, Ev. rewrite E1, bind_Ret. cbv beta iota.
    destruct Hsp1 as [(a & b & junk & Evb) Hcons].
    assert (Eat : at_ vb1 vsp' = enc_entry (own ls x) ++ a :: b :: 0 :: junk).
    { unfold at_. rewrite Evb, Ev, enc_cons, <- app_assoc. by apply drop_at. }
    rewrite Eat, (vry_len_ok (own ls x)), bind_Ret by (by apply consistent_ok, own_consistent).
    rewrite (vry_len_ok x), bind_Ret, Nat2Z.id, drop_app_length by done. fold (own_len ls x).
    assert (Evsp : vsp' + own_len ls x = Z.of_nat (length (enc (ws1' ++ [own ls x])))).
    { rewrite enc_app, length_app, enc_cons. change (enc []) with (@nil Z). rewrite app_nil_r. unfold own_len. lia. }
    rewrite Evsp. apply IH; [done| |lia|].
    + split; [|by rewrite app_nil_r]. exists a, b, junk. rewrite Evb, enc_app, !enc_cons. change (enc []) with (@nil Z).
      by rewrite app_nil_r, <- !app_assoc.
    + rewrite Hlen, <- Evsp. fold size. intros H. by apply Hfit.
  - unfold match_entry. destruct Hsp as [(a & b & junk & Evb) _].
    assert (Eat : at_ vb vsp = a :: b :: 0 :: junk) by (unfold at_; rewrite Evb; by apply drop_at).
    rewrite Eat, vry_cmp_mark, bind_Ret by done. change (1 =? 1) with true. cbv iota.
    pose proof (build_ok m req ls x rest vb vsp Hreq Hx ltac:(lia)) as Hb. cbv zeta in Hb.
    change (fst x, sent (fst x) ls) with (own ls x) in Hb. fold (own_len ls x) size vsp' in Hb.
    by rewrite Hb, (proj2 (Z.ltb_ge _ _)) by lia.
Qed.

End Match.

Lemma validate_ok es : forall fuel t, rd t 2 = Ok 0 -> Forall entry_ok es -> (length es <= fuel)%nat ->
  VRY_Validate fuel (enc es ++ t) = Ok tt.
Proof.
  induction es as [|x es IH]; intros fuel t Ht Hes Hf.
  { change (enc [] ++ t) with t. destruct fuel; cbn [VRY_Validate]; by rewrite Ht, bind_Ret. }
  apply Forall_cons in Hes as [Hx Hes]. cbn [length] in Hf. destruct fuel as [|fuel]; [lia|].
  rewrite enc_cons, <- !app_assoc. set (rest := enc es ++ t). cbn [VRY_Validate]. rewrite enc_len, bind_Ret.
  rewrite (proj2 (Z.eqb_neq _ 0)) by lia.
  pose proof (enc_drop2 x rest) as E2. apply (f_equal (drop 1)) in E2.
  rewrite drop_drop in E2. cbn [Nat.add] in E2. rewrite E2. unfold name_octets. cbn [app drop]. rewrite ?drop_0.
  replace ((fst x ++ [58; 0]) ++ default [] (snd x) ++ rest)
    with ((fst x ++ [58]) ++ 0 :: default [] (snd x) ++ rest) by (by rewrite <- !app_assoc).
  destruct (eo_name _ Hx) as [Hn Hl].
  rewrite BanSpec.cstring_run, bind_Ret by (apply Forall_app; split; [done|by repeat constructor]).
  rewrite vassert_true, bind_Ret by (apply Z.eqb_eq; rewrite length_app; cbn; lia).
  rewrite vry_len_ok, bind_Ret, Nat2Z.id, drop_app_length by done.
  apply IH; [done|done|lia].
Qed.

Lemma length_entries es : (length es <= length (enc es))%nat.
Proof.
  induction es as [|x es IH]; [cbn; lia|]. rewrite enc_cons, length_app. cbn [length].
  pose proof (length_enc_entry x). lia.
Qed.

(** ** Matching *)

Lemma match_finish ls vb ws1 ws2 : space ls vb ws1 ws2 -> exists junk,
  store vb (Z.of_nat (length (enc ws1))) [255; 255; 0] = Ok (vary_string ws1 ++ junk) /\
  length (vary_string ws1 ++ junk) = length vb.
Proof.
  intros [(a & b & junk & ->) _].
  assert (Hl : exists junk', enc ws2 ++ a :: b :: 0 :: junk = junk' /\ (3 <= length junk')%nat).
  { eexists. split; [done|]. rewrite length_app. cbn [length]. lia. }
  destruct Hl as (junk' & -> & Hl).
  exists (drop 3 junk'). unfold vary_string. split.
  - rewrite vary_store_ok by (rewrite ?length_app; cbn [length]; lia). f_equal.
    rewrite Nat2Z.id, take_app_length. cbn [length].
    replace (Z.to_nat (Z.of_nat (length (enc ws1)) + Z.of_nat 3)) with (length (enc ws1) + 3)%nat by lia.
    by rewrite drop_app_add, <- app_assoc.
  - rewrite !length_app, length_drop. cbn [length]. lia.
Qed.

Lemma vary_string_space ls ws junk : Forall (consistent ls) ws -> vary_b_ok ls (vary_string ws ++ junk).
Proof.
  intros H. exists ws. split; [|done]. exists 255, 255, junk. unfold vary_string. change (enc []) with (@nil Z).
  by rewrite <- app_assoc.
Qed.

Lemma vary_b_validate m req ls vb : request m req ls -> vary_b_ok ls vb -> VRY_Validate (length vb) vb = Ok tt.
Proof.
  intros Hreq (ws & (a & b & junk & ->) & Hws). change (enc [] ++ ?l) with l. apply validate_ok; [done| |].
  - eapply Forall_impl; [exact Hws|]. intros; by eapply consistent_ok.
  - rewrite length_app. pose proof (length_entries ws). lia.
Qed.

Lemma match_ok (http_gzip_support : bool) (m : mem) (req : http) (ls : list (list Z * Z))
    (vb : list Z) (es : list entry) (t : list Z)
    (Hreq : request m req ls) (Ht : rd t 2 = Ok 0) (Hvb : vary_b_ok ls vb) (Hes : Forall entry_ok es)
    (Hfit : fits (Z.of_nat (length vb)) 0 (map (own_len ls) es)) :
  let mine := vary_string (map (own ls) es) in
  let out := runs_out (Z.of_nat (length vb)) 0 (map (own_len ls) es) in
  exists vb', VRY_Match http_gzip_support m req vb (enc es ++ t) =
      Ok (vb', if out then None else Some (Z.of_nat (length mine)), forallb (matches http_gzip_support ls) es) /\
    vary_b_ok ls vb' /\ length vb' = length vb /\ VRY_Validate (length vb') vb' = Ok tt /\
    (out = false -> take (length mine) vb' = mine).
Proof.
  intros mine out. destruct Hvb as [ws Hsp].
  destruct (match_loop_ok http_gzip_support m req ls Hreq es (length (enc es ++ t)) t vb [] ws false true Ht Hes Hsp)
    as (vb1 & ws1 & ws2 & E & Hsp1 & Ee & Hlen & Hsame); [|exact Hfit|].
  { rewrite length_app. pose proof (length_entries es). lia. }
  change (Z.of_nat (length (enc []))) with 0 in *. unfold VRY_Match. rewrite E, bind_Ret. cbv beta iota. cbn [orb andb].
  fold out in Hsame |- *. rewrite Ee.
  assert (Hroom : (Z.of_nat (length vb1) <? Z.of_nat (length (enc ws1)) + 3) = false).
  { apply Z.ltb_ge. destruct Hsp1 as [(a & b & junk & ->) _]. rewrite !length_app. cbn [length]. lia. }
  rewrite Hroom, orb_false_r. cbv zeta.
  set (ws' := if out then [] else ws1).
  assert (Hsp' : exists ws3, space ls vb1 ws' ws3 /\ Forall (consistent ls) ws').
  { unfold ws'. destruct out.
    - destruct Hsp1 as [(a & b & junk & Eb) Hc]. exists (ws1 ++ ws2). split; [|done].
      split; [exists a, b, junk; by rewrite enc_app, <- app_assoc|done].
    - exists ws2. split; [done|]. destruct Hsp1 as [_ Hc]. by apply Forall_app in Hc as [? _]. }
  destruct Hsp' as (ws3 & Hsp' & Hc).
  assert (Evsp : (if out then 0 else Z.of_nat (length (enc ws1))) = Z.of_nat (length (enc ws'))) by (unfold ws'; by destruct out).
  rewrite Evsp. destruct (match_finish ls vb1 ws' ws3 Hsp') as (junk & -> & Hl). rewrite bind_Ret.
  exists (vary_string ws' ++ junk). split; [|split; [by apply vary_string_space|split; [by rewrite Hl|split]]].
  - unfold mret, res_ret. do 3 f_equal. destruct out; [done|]. do 2 f_equal. unfold mine, ws'. rewrite Hsame by done.
    unfold vary_string. rewrite length_app. cbn [length app]. lia.
  - eapply vary_b_validate; [exact Hreq|]. by apply vary_string_space.
  - intros Eo. unfold ws', mine. rewrite Eo, Hsame by done. cbn [app]. apply take_app_length.
Qed.

(** C19. [VRY_Match] answers whether the request has, for every header of the
    matching string, the value that the string has, or the header is
    [Accept-Encoding] and gzip is supported.  In the space of the session it
    builds the string of the request for these headers, which [VRY_Validate]
    accepts, unless the space runs out; then the space is started over, and
    [vary_l] is NULL.  [fits] says that each entry and two more octets end within
    the space. *)
Theorem vary_match_correct (http_gzip_support : bool) (m : mem) (req : http) (ls : list (list Z * Z))
    (vb : list Z) (es : list entry) (r : list Z)
    (Hreq : request m req ls) (Hvb : vary_b_ok ls vb) (Hes : Forall entry_ok es)
    (Hfit : fits (Z.of_nat (length vb)) 0 (map (own_len ls) es)) :
  let mine := vary_string (map (own ls) es) in
  let out := runs_out (Z.of_nat (length vb)) 0 (map (own_len ls) es) in
  exists vb', VRY_Match http_gzip_support m req vb (vary_string es ++ r) =
      Ok (vb', if out then None else Some (Z.of_nat (length mine)), forallb (matches http_gzip_support ls) es) /\
    vary_b_ok ls vb' /\ length vb' = length vb /\ VRY_Validate (length vb') vb' = Ok tt /\
    (out = false -> take (length mine) vb' = mine).
Proof.
  unfold vary_string at 2. rewrite <- app_assoc.
  exact (match_ok http_gzip_support m req ls vb es ([255; 255; 0] ++ r) Hreq eq_refl Hvb Hes Hfit).
Qed.

(** C30. The matching string that [VRY_Create] makes for a response matches a later
    request exactly when that request has the same value, or none as well, for
    every header that [Vary:] names; with gzip support [Accept-Encoding] does not
    count. *)
Theorem vary_create_match (malloc : Z -> option (list Z)) (http_gzip_support : bool)
    (m1 m2 : mem) (req1 req2 hp : http) (ls1 ls2 hls : list (list Z * Z)) (xs : list item) (j : nat) (line vb : list Z)
    (Hmalloc : Vsb.total_malloc malloc) (Hreq1 : request m1 req1 ls1) (Hreq2 : request m2 req2 ls2)
    (Hhp : has_lines m1 hp hls) (Hvary : first_named H_Vary hls 0 = Some (j, line))
    (Htext : value H_Vary line = vary_text xs) (Hitems : Forall item_ok xs)
    (Hcolon : match vary_text xs with c :: _ => c <> 58 | [] => True end)
    (Hlim : Z.of_nat (length (enc (asked ls1 xs))) + 3 <= Vsb.LIMIT)
    (Hvb : vary_b_ok ls2 vb) (Hfit : fits (Z.of_nat (length vb)) 0 (map (own_len ls2) (asked ls1 xs))) :
  exists sb data n vb' vl, VRY_Create malloc m1 req1 hp = Ok (Some sb) /\ Vsb.VSB_data sb = Ok data /\
    Vsb.VSB_len sb = Ok n /\
    VRY_Match http_gzip_support m2 req2 vb (take (Z.to_nat n) data) =
      Ok (vb', vl, forallb (fun x => bool_decide (sent x.1.2 ls1 = sent x.1.2 ls2) ||
                                     (http_gzip_support && is_ae x.1.2)) xs).
Proof.
  destruct (create_ok malloc Hmalloc m1 req1 hp ls1 hls xs j line Hreq1 Hhp Hvary Htext Hitems Hcolon Hlim)
    as (sb & r & E1 & E2 & E3).
  assert (Hes : Forall entry_ok (asked ls1 xs)).
  { apply Forall_map. eapply Forall_impl; [exact Hitems|]. intros x [_ (Hn & _) _]. by apply (sent_entry_ok m1 req1). }
  destruct (match_ok http_gzip_support m2 req2 ls2 vb (asked ls1 xs) [255; 255; 0] Hreq2 eq_refl Hvb Hes Hfit) as (vb' & E4 & _).
  eexists sb, _, _, vb', _. split; [exact E1|]. split; [exact E2|]. split; [exact E3|].
  rewrite Nat2Z.id, take_app_length. unfold vary_string. rewrite E4. do 2 f_equal.
  unfold asked. clear. induction xs as [|x xs IH]; [done|]. cbn [map forallb]. by rewrite IH.
Qed.

(** ** What it does not stand *)

Lemma create_entry_long malloc (Hmalloc : Vsb.total_malloc malloc) m req sb sbh n : clearable sbh ->
  BanSpec.nul_free n -> (127 <= length n)%nat -> Z.of_nat (length n) + 3 <= Vsb.LIMIT ->
  create_entry malloc m req sb sbh n = Fail FAssert.
Proof.
  intros (s0 & E0 & Hg0) Hn Hl Hlim. unfold create_entry. rewrite E0, bind_Ret. set (c := u8 (1 + Z.of_nat (length n))).
  assert (Hc : is_byte c) by (unfold c, u8, is_byte; apply Z.mod_pos_bound; lia).
  destruct (Vsb.vprintf_grows malloc Hmalloc s0 [] (c :: n ++ [58; 0]) Hg0) as (s1 & -> & Hg1).
  { cbn [length app]. rewrite length_app. cbn [length]. lia. }
  rewrite bind_Ret. cbv beta iota. cbn [app] in Hg1.
  destruct (Vsb.finish_grows s1 _ Hg1) as (s2 & r & -> & Ed & _). rewrite bind_Ret. cbv beta iota.
  change (0 =? 0) with true. cbn [vassert]. rewrite bind_Ret, Ed, bind_Ret. unfold GetHdr_str. cbn [app].
  change (rd (c :: ?l) 0) with (Ok c). rewrite bind_Ret. cbn [drop]. rewrite ?drop_0.
  replace ((n ++ [58; 0]) ++ 0 :: r) with ((n ++ [58]) ++ 0 :: 0 :: r) by (by rewrite <- !app_assoc).
  rewrite BanSpec.cstring_run, bind_Ret by (apply Forall_app; split; [done|by repeat constructor]).
  assert (Hne : ((if c <? 128 then c else u32 (c - 256)) =? Z.of_nat (length (n ++ [58]))) = false).
  { apply Z.eqb_neq. rewrite length_app. cbn [length]. unfold is_byte, Vsb.LIMIT in *.
    destruct (Z.ltb_spec c 128); [lia|]. unfold u32. intros E.
    pose proof (Z.mod_small (c - 256 + 2 ^ 32) (2 ^ 32) ltac:(lia)) as Es.
    replace (c - 256 + 2 ^ 32) with (c - 256 + 1 * 2 ^ 32) in Es by lia. rewrite Z_mod_plus_full in Es. lia. }
  by rewrite Hne.
Qed.

(** The first name, with what is before it, and what comes after it. *)
Lemma create_first malloc m req fuel sb sbh b1 n b2 c rest p : Forall (fun c => vct_issp c = true) b1 ->
  n <> [] -> Forall (fun c => token c = true) n -> Forall (fun c => vct_issp c = true) b2 -> vct_issp c = false ->
  (b2 = [] -> token c = false) -> mapped m p (b1 ++ n ++ b2 ++ c :: rest) -> (length b1 < fuel)%nat ->
  exists fuel', create_loop malloc fuel m req sb sbh p =
    ('(sb, sbh) ← create_entry malloc m req sb sbh n;
     if c =? 0 then mret (sb, sbh) else vassert (c =? 44);;
     create_loop malloc fuel' m req sb sbh (p + Z.of_nat (length (b1 ++ n ++ b2)) + 1)).
Proof.
  intros Hb1 Hne Htok Hb2 Hsp Hc Hm Hf. destruct n as [|c0 n0] eqn:En; [done|]. rewrite <- En in *.
  rewrite (create_blanks malloc fuel m req sb sbh p b1 (n0 ++ b2 ++ c :: rest) c0); [|by rewrite En in Hm|done|lia].
  set (p1 := p + Z.of_nat (length b1)). apply mapped_app in Hm as [_ Hm1]. fold p1 in Hm1.
  assert (Hc0 : m !! p1 = Some c0) by (rewrite En in Hm1; by apply mapped_cons in Hm1 as [? _]).
  assert (Ht0 : token c0 = true) by (rewrite En in Htok; by apply Forall_cons in Htok as [? _]).
  destruct (fuel - length b1)%nat as [|f1] eqn:Ef; [lia|]. exists f1. cbn [create_loop].
  rewrite (peek_ok _ _ _ Hc0), bind_Ret. unfold token in Ht0.
  apply andb_prop in Ht0 as [[Hz Hs]%andb_prop Hk]. apply negb_true_iff in Hz, Hs, Hk. rewrite Hz, Hs.
  assert (He : exists ce re, b2 ++ c :: rest = ce :: re /\ token ce = false).
  { destruct b2 as [|x b2]; [exists c, rest; split; [done|by apply Hc]|].
    apply Forall_cons in Hb2 as [Hx _]. exists x, (b2 ++ c :: rest). split; [done|].
    unfold token. by rewrite Hx, andb_false_r. }
  destruct He as (ce & re & Ee & Hte).
  assert (Hm2 : mapped m p1 (n ++ [ce])).
  { rewrite Ee in Hm1. change (ce :: re) with ([ce] ++ re) in Hm1. rewrite app_assoc in Hm1. by apply mapped_app in Hm1 as [? _]. }
  change (fun c => negb (c =? 0) && negb (vct_issp c) && negb (c =? 44)) with token.
  rewrite (skip_run _ m p1 n ce Hm2 Htok Hte), bind_Ret.
  rewrite Z.add_simpl_l, Nat2Z.id. apply mapped_app in Hm2 as [Hmn _]. rewrite (region_run _ _ _ Hmn), bind_Ret.
  destruct (create_entry _ _ _ _ _ _) as [[sb1 sbh1]|]; [|done]. rewrite !bind_Ret. cbv beta iota.
  apply mapped_app in Hm1 as [_ Hm3].
  assert (Hm4 : mapped m (p1 + Z.of_nat (length n)) (b2 ++ [c])).
  { change (c :: rest) with ([c] ++ rest) in Hm3. rewrite app_assoc in Hm3. by apply mapped_app in Hm3 as [? _]. }
  rewrite (skip_run _ m _ b2 c Hm4 Hb2 Hsp), bind_Ret. apply mapped_app in Hm3 as [_ [Hcq _]%mapped_cons].
  rewrite (peek_ok _ _ _ Hcq), bind_Ret. rewrite !length_app.
  replace (p + Z.of_nat (length b1 + (length n + length b2)) + 1) with (p1 + Z.of_nat (length n) + Z.of_nat (length b2) + 1)
    by (unfold p1; lia). done.
Qed.

(** What a backend's [Vary:] must not have: after a name and blanks anything
    but a comma or the end ("Vary: a b"), or a name of 127 octets or more, whose
    length with the colon does not fit the sign of a [char].  [VRY_Create] fails
    an assertion: the process dies. *)
Theorem vary_create_refuses (malloc : Z -> option (list Z)) (m : mem) (req hp : http) (ls hls : list (list Z * Z))
    (j : nat) (line b1 n b2 rest : list Z) (c : Z)
    (Hmalloc : Vsb.total_malloc malloc) (Hreq : request m req ls) (Hhp : has_lines m hp hls)
    (Hvary : first_named H_Vary hls 0 = Some (j, line))
    (Htext : value H_Vary line ++ [0] = b1 ++ n ++ b2 ++ c :: rest)
    (Hb1 : Forall (fun c => vct_issp c = true) b1) (Hne : n <> []) (Hnul : BanSpec.nul_free n)
    (Htok : Forall (fun c => token c = true) n)
    (Hb2 : Forall (fun c => vct_issp c = true) b2) (Hc : vct_issp c = false) (Hend : b2 = [] -> token c = false)
    (Hcolon : head (b1 ++ n) <> Some 58)
    (Hlim : Z.of_nat (length (enc_entry (n, sent n ls))) <= Vsb.LIMIT)
    (Hbad : (127 <= length n)%nat \/ (c <> 0 /\ c <> 44)) :
  VRY_Create malloc m req hp = Fail FAssert.
Proof.
  unfold VRY_Create. destruct (GetHdr_ok m hp hls H_Vary Hhp) as (o & -> & Ho); [by split; [|repeat constructor]|].
  rewrite bind_Ret, Hvary in *. destruct o as [v|]; [|done]. rewrite Htext in Ho.
  destruct (Vsb.new_auto_grows malloc Hmalloc) as (b0 & -> & Hg0). rewrite bind_Ret.
  do 3 (cbn [deref]; rewrite bind_Ret).
  assert (Hpk : exists c, peek m v = Ok c /\ (c =? 58) = false).
  { destruct (b1 ++ n) as [|x l] eqn:El; [by apply app_nil in El as [_ ->]|]. rewrite app_assoc, El in Ho.
    cbn [app] in Ho. apply mapped_cons in Ho as [H0 _]. exists x. rewrite (peek_ok _ _ _ H0). split; [done|].
    apply Z.eqb_neq. intros ->. by apply Hcolon. }
  destruct Hpk as (c1 & -> & E58). rewrite bind_Ret, E58. cbv zeta.
  pose proof (mapped_size _ _ _ Ho) as Hs. rewrite !length_app in Hs. cbn [length] in Hs.
  destruct (create_first malloc m req (size m) b0 b0 b1 n b2 c rest v Hb1 Hne Htok Hb2 Hc Hend Ho ltac:(lia)) as [f' ->].
  destruct (decide (127 <= length n)%nat) as [Hl|Hl].
  { rewrite create_entry_long; [done|done|by eapply clearable_grows|done|done|].
    rewrite length_enc_entry in Hlim. cbn [fst] in Hlim. lia. }
  destruct Hbad as [|[Hz Hk]]; [done|].
  destruct (create_entry_ok malloc Hmalloc m req ls b0 b0 [] n Hreq) as (sb & sbh & -> & _);
    [split; [done|lia]|done|by eapply clearable_grows|cbn [length]; lia|].
  rewrite !bind_Ret. cbv beta iota. rewrite (proj2 (Z.eqb_neq _ _) Hz). by rewrite (proj2 (Z.eqb_neq _ _) Hk).
Qed.

(** C40. In a fresh space [VRY_Match] runs to its end exactly when every entry has
    room where it goes, that is at the beginning if it would end past the space;
    if not, it fails its assertion. *)
Theorem vary_match_room (http_gzip_support : bool) (m : mem) (req : http) (ls : list (list Z * Z))
    (a b : Z) (junk : list Z) (es : list entry) (r : list Z)
    (Hreq : request m req ls) (Hes : Forall entry_ok es) :
  let vb := a :: b :: 0 :: junk in
  let room := fits (Z.of_nat (length vb)) 0 (map (own_len ls) es) in
  (room -> exists vb' vl ok, VRY_Match http_gzip_support m req vb (vary_string es ++ r) = Ok (vb', vl, ok)) /\
  (~ room -> VRY_Match http_gzip_support m req vb (vary_string es ++ r) = Fail FAssert).
Proof.
  intros vb room. assert (Hsp : space ls vb [] []) by (split; [by exists a, b, junk|done]). split; intros Hr.
  - unfold vary_string. rewrite <- app_assoc. destruct (match_ok http_gzip_support m req ls vb es ([255; 255; 0] ++ r) Hreq eq_refl ltac:(by exists []) Hes Hr) as (vb' & E & _).
    by eexists _, _, _.
  - unfold VRY_Match. pose proof (match_loop_fails http_gzip_support m req ls Hreq es (length (vary_string es ++ r)) ([255; 255; 0] ++ r) vb [] false true) as H.
    change (Z.of_nat (length (enc []))) with 0 in H. rewrite (app_assoc (enc es)) in H. fold (vary_string es) in H.
    rewrite H; [done|done|done| |done].
    unfold vary_string. rewrite !length_app. pose proof (length_entries es). lia.
Qed.

(** ** An example *)

(** The request has [A: x] with a blank after it, the response [Vary:  A, b]. *)
Definition ex_mem : mem := HttpThm.mem_of 100 (str "A: x " ++ [0])%list ∪ HttpThm.mem_of 200 (str "Vary:  A, b" ++ [0])%list ∪
  HttpThm.mem_of 300 (str "Vary: A b" ++ [0])%list.
Definition ex_msg (t : txt) : http :=
  mkHttp 1 (replicate 5 no_txt ++ [t; no_txt]) [0; 0; 0; 0; 0; 0; 0] (S HTTP_HDR_FIRST) 0 0 0.
Definition ex_req : http := ex_msg (mkTxt 100 105).
Definition ex_resp : http := ex_msg (mkTxt 200 211).
Definition ex_sent : list (list Z * Z) := [(str "A: x ", 0)].
Definition ex_resp_lines : list (list Z * Z) := [(str "Vary:  A, b", 0)].
Definition ex_items : list item := [([], str "A", []); ([32], str "b", [])].
Definition ex_entries : list entry := asked ex_sent ex_items.
Definition ex_space (n : nat) : list Z := replicate n 0.

Lemma ex_holds (m : mem) (p q : Z) (l : list Z) : 0 < p -> q = p + Z.of_nat (length l) -> Z.of_nat (length l) < 2 ^ 32 - 1 ->
  (forall k, (k < S (length l))%nat -> m !! (p + Z.of_nat k) = (l ++ [0%Z]) !! k) -> holds m (mkTxt p q) l.
Proof.
  intros Hp -> Hl Hm. split; [done|]. split; [done|]. split; [|done].
  intros k c E. rewrite <- E. apply Hm. apply lookup_lt_Some in E. rewrite length_app in E. cbn in E. lia.
Qed.

Lemma ex_lines_ok t x : holds ex_mem t x -> has_lines ex_mem (ex_msg t) [(x, 0)].
Proof.
  intros H. split; [done|done|cbn; unfold HTTP_HDR_FIRST; lia|].
  intros [|i] y; cbn; [|done]. intros [= <-]. exists t, 0. by split; [|split; [|split]].
Qed.

Lemma ex_req_ok : request ex_mem ex_req ex_sent.
Proof.
  assert (Hh : holds ex_mem (mkTxt 100 105) (str "A: x ")).
  { apply ex_holds; [done|done|done|]. intros k Hk. do 6 (destruct k; [by vm_compute|]). cbn in Hk; lia. }
  split; [by apply ex_lines_ok|by repeat constructor|].
  intros n v. unfold sent, BanSpec.hdr_value, ex_sent. cbn [first_named fst].
  destruct (named _ _); [|done]. intros [= <-]. destruct (trim_split (value (n ++ [58]) (str "A: x "))) as (bl & E & _).
  apply (f_equal length) in E. rewrite length_app in E. unfold value in E at 1.
  destruct (drop_while_split vct_issp (drop (length (n ++ [58])) (str "A: x "))) as (l1 & E1 & _).
  apply (f_equal length) in E1. rewrite (length_app l1), length_drop in E1.
  change (length (str "A: x ")) with 5%nat in E1. lia.
Qed.

Lemma ex_resp_ok : has_lines ex_mem ex_resp ex_resp_lines.
Proof.
  apply ex_lines_ok, ex_holds; [done|done|done|]. intros k Hk. do 12 (destruct k; [by vm_compute|]). cbn in Hk; lia.
Qed.

Lemma ex_entries_ok : Forall entry_ok ex_entries.
Proof.
  repeat constructor; try (cbn; lia); cbn [fst snd]; intros v E; vm_compute in E; by simplify_eq.
Qed.

Lemma ex_space_ok ls : vary_b_ok ls (ex_space 20).
Proof. exists []. split; [|done]. by exists 0, 0, (replicate 17 0). Qed.

Lemma vary_match_correct_witness : exists vb',
  VRY_Match true ex_mem ex_req (ex_space 20) (vary_string ex_entries ++ []) = Ok (vb', Some 16, true).
Proof.
  destruct (vary_match_correct true ex_mem ex_req ex_sent (ex_space 20) ex_entries [] ex_req_ok (ex_space_ok _) ex_entries_ok)
    as (vb' & E & _); [by repeat split|]. exists vb'. exact E.
Defined.

Lemma ex_items_ok : Forall item_ok ex_items.
Proof. repeat constructor; cbn; try lia; done. Qed.

Lemma vary_create_match_witness : exists sb data n vb' vl,
  VRY_Create Vsb.calloc ex_mem ex_req ex_resp = Ok (Some sb) /\ Vsb.VSB_data sb = Ok data /\ Vsb.VSB_len sb = Ok n /\
  VRY_Match true ex_mem ex_req (ex_space 20) (take (Z.to_nat n) data) = Ok (vb', vl, true).
Proof.
  exact (vary_create_match Vsb.calloc true ex_mem ex_mem ex_req ex_req ex_resp ex_sent ex_sent ex_resp_lines ex_items
    0%nat (str "Vary:  A, b") (ex_space 20) Vsb.calloc_total ex_req_ok ex_req_ok ex_resp_ok eq_refl eq_refl
    ex_items_ok ltac:(done) ltac:(by vm_compute) (ex_space_ok _) ltac:(by repeat split)).
Defined.

(** The same after [Vary: A b]. *)
Lemma ex_blank_ok : has_lines ex_mem (ex_msg (mkTxt 300 309)) [(str "Vary: A b", 0)].
Proof.
  apply ex_lines_ok, ex_holds; [done|done|done|]. intros k Hk. do 10 (destruct k; [by vm_compute|]). cbn in Hk; lia.
Qed.

Lemma vary_create_refuses_witness : VRY_Create Vsb.calloc ex_mem ex_req (ex_msg (mkTxt 300 309)) = Fail FAssert.
Proof.
  apply (vary_create_refuses Vsb.calloc ex_mem ex_req _ ex_sent [(str "Vary: A b", 0)] 0%nat (str "Vary: A b")
    [] (str "A") [32] [0] 98 Vsb.calloc_total ex_req_ok ex_blank_ok); try done; by repeat constructor.
Defined.

(** The string of the request is 13 octets and the mark; the second entry is 6. *)
Lemma vary_match_room_witness :
  VRY_Match true ex_mem ex_req (ex_space 14) (vary_string ex_entries ++ []) = Fail FAssert.
Proof.
  apply (vary_match_room true ex_mem ex_req ex_sent 0 0 (replicate 11 0) ex_entries [] ex_req_ok ex_entries_ok).
  by intros (_ & [=] & _).
Defined.

(** With less space it starts over, with more it goes on. *)
Lemma vary_edge : exists vb vb',
  VRY_Match true ex_mem ex_req (ex_space 13) (vary_string ex_entries) = Ok (vb, None, true) /\
  VRY_Match true ex_mem ex_req (ex_space 14) (vary_string ex_entries) = Fail FAssert /\
  VRY_Match true ex_mem ex_req (ex_space 16) (vary_string ex_entries) = Ok (vb', Some 16, true).
Proof. do 2 eexists. split; [by vm_compute|]. split; by vm_compute. Qed.

End VaryThm.
