(* ===== verification/BinHeap.v ===== *)
(** The binary heap: [lib/libvarnish/binary_heap.c].

    The tree is laid out so that a path from the root crosses as few virtual
    memory pages as possible ([VM_AWARE]); the array is cut into rows.  A row
    is a map from its columns, empty where it was not written or holds NULL.
    An element is the address of a client structure.  [cmp] is the client's
    order, and [bh_idx] what its [update] callback has been told: the index
    each structure has been given.  Memory for rows is always granted. *)
From S2P Require Import Prelude.

Module BinHeap.

Definition elt : Type := positive.

Definition ROW_SHIFT : Z := 16.
Definition ROOT_IDX : Z := 1.
Definition ROW_WIDTH : Z := Z.shiftl 1 ROW_SHIFT.
Definition BINHEAP_NOIDX : Z := 0.

Record binheap := mkBH {
  bh_array : list (option (gmap Z elt));
  bh_length : Z;
  bh_next : Z;
  bh_page_size : Z;
  bh_page_mask : Z;
  bh_page_shift : Z;
  bh_idx : gmap elt Z;
}.

Definition set_array (bh : binheap) a :=
  mkBH a (bh_length bh) (bh_next bh) (bh_page_size bh) (bh_page_mask bh)
    (bh_page_shift bh) (bh_idx bh).
Definition set_length (bh : binheap) n :=
  mkBH (bh_array bh) n (bh_next bh) (bh_page_size bh) (bh_page_mask bh)
    (bh_page_shift bh) (bh_idx bh).
Definition set_next (bh : binheap) n :=
  mkBH (bh_array bh) (bh_length bh) n (bh_page_size bh) (bh_page_mask bh)
    (bh_page_shift bh) (bh_idx bh).
Definition set_idx (bh : binheap) i :=
  mkBH (bh_array bh) (bh_length bh) (bh_next bh) (bh_page_size bh)
    (bh_page_mask bh) (bh_page_shift bh) i.

(** [rows]: the number of row pointers. *)
Definition bh_rows (bh : binheap) : Z := Z.of_nat (length (bh_array bh)).

(** The pointer [ROW(bh, n)]. *)
Definition ROW (bh : binheap) (n : Z) : res (option (gmap Z elt)) :=
  deref (bh_array bh !! Z.to_nat (Z.shiftr n ROW_SHIFT)).

Definition column (n : Z) : Z := Z.land n (ROW_WIDTH - 1).

(** Reading and writing [A(bh, n)]; [None] is NULL. *)
Definition A (bh : binheap) (n : Z) : res (option elt) :=
  row ← ROW bh n;
  row ← deref row;
  mret (row !! column n).

Definition set_A (bh : binheap) (n : Z) (p : option elt) : res binheap :=
  row ← ROW bh n;
  row ← deref row;
  let row := match p with
             | Some p => <[column n := p]> row
             | None => delete (column n) row
             end in
  mret (set_array bh (<[Z.to_nat (Z.shiftr n ROW_SHIFT) := Some row]> (bh_array bh))).

(** [assert(A(bh, u) != NULL)], with the element that is there. *)
Definition A_nonnull (bh : binheap) (u : Z) : res elt :=
  o ← A bh u;
  match o with Some p => mret p | None => Fail FAssert end.

(** ** The shape of the tree *)

Definition parent (bh : binheap) (u : Z) : res Z :=
  vassert (negb (u =? UINT_MAX));;
  let po := Z.land u (bh_page_mask bh) in
  if (u <? bh_page_size bh) || (3 <? po) then
    mret (Z.lor (Z.land u (Z.lnot (bh_page_mask bh))) (Z.shiftr po 1))
  else if po <? 2 then
    let v := Z.shiftr (u - bh_page_size bh) (bh_page_shift bh) in
    let v := v + Z.land v (Z.lnot (Z.shiftr (bh_page_mask bh) 1)) in
    mret (Z.lor v (bh_page_size bh / 2))
  else mret (u - 2).

Definition child (bh : binheap) (u : Z) : Z * Z :=
  if (bh_page_mask bh <? u) && (Z.land u (bh_page_mask bh - 1) =? 0) then
    (* First two elements are magical except on the first page *)
    (u32 (u + 2), u32 (u + 2))
  else if truth (Z.land u (Z.shiftr (bh_page_size bh) 1)) then
    (* The bottom row is even more magical *)
    let a := Z.shiftr (Z.land u (Z.lnot (bh_page_mask bh))) 1 in
    let a := Z.lor a (Z.land u (Z.shiftr (bh_page_mask bh) 1)) in
    let a := u32 (a + 1) in
    let uu := u64 (Z.shiftl a (bh_page_shift bh)) in
    let a := u32 uu in
    if a =? uu then (a, u32 (a + 1)) else (UINT_MAX, UINT_MAX)
  else
    (* The rest is as usual, only inside the page *)
    let a := u32 (u + Z.land u (bh_page_mask bh)) in
    (a, u32 (a + 1)).

(** ** Rows *)

Definition binheap_addrow (bh : binheap) : res binheap :=
  let bh :=
    if bh_rows bh <=? Z.shiftr (bh_length bh) ROW_SHIFT then
      set_array bh (bh_array bh ++ replicate (length (bh_array bh)) None)
    else bh in
  row ← ROW bh (bh_length bh);
  vassert (bool_decide (row = None));;
  let bh := set_array bh
    (<[Z.to_nat (Z.shiftr (bh_length bh) ROW_SHIFT) := Some ∅]> (bh_array bh)) in
  mret (set_length bh (u32 (bh_length bh + ROW_WIDTH))).

(** [for (u = 1; (1U << u) != bh->page_size; u++)] *)
Fixpoint page_shift_of (fuel : nat) (u page_size : Z) : res Z :=
  if Z.shiftl 1 u =? page_size then mret u else
  match fuel with
  | O => Fail FFuel
  | S fuel => page_shift_of fuel (u + 1) page_size
  end.

(** [pagesize] is [getpagesize()]; pointers have 8 octets. *)
Definition binheap_new (pagesize : Z) : res binheap :=
  let page_size := pagesize / 8 in
  let page_mask := u32 (page_size - 1) in
  vassert (Z.land page_size page_mask =? 0);;
  page_shift ← page_shift_of 31 1 page_size;
  vassert (page_size <=? 8 * ROW_WIDTH);;
  let bh := mkBH (replicate 16 None) 0 ROOT_IDX page_size page_mask page_shift ∅ in
  bh ← binheap_addrow bh;
  set_A bh ROOT_IDX None.

Section Order.

(** [cmp(priv, a, b)]: [a] belongs closer to the root than [b]. *)
Variable cmp : elt -> elt -> bool.

(** ** Moving elements *)

Definition binheap_update (bh : binheap) (u : Z) : res binheap :=
  vassert (u <? bh_next bh);;
  p ← A_nonnull bh u;
  mret (set_idx bh (<[p := u]> (bh_idx bh))).

Definition binhead_swap (bh : binheap) (u v : Z) : res binheap :=
  vassert (u <? bh_next bh);;
  p ← A_nonnull bh u;
  vassert (v <? bh_next bh);;
  q ← A_nonnull bh v;
  bh ← set_A bh u (Some q);
  bh ← set_A bh v (Some p);
  bh ← binheap_update bh u;
  binheap_update bh v.

Fixpoint trickleup_loop (fuel : nat) (bh : binheap) (u : Z) : res (binheap * Z) :=
  if u <=? ROOT_IDX then mret (bh, u) else
  match fuel with
  | O => Fail FFuel
  | S fuel =>
      vassert (u <? bh_next bh);;
      p ← A_nonnull bh u;
      v ← parent bh u;
      vassert (v <? u);;
      vassert (v <? bh_next bh);;
      q ← A_nonnull bh v;
      if negb (cmp p q) then mret (bh, u) else
      bh ← binhead_swap bh u v;
      trickleup_loop fuel bh v
  end.

Definition binheap_trickleup (bh : binheap) (u : Z) : res (binheap * Z) :=
  vassert (u <? bh_next bh);;
  A_nonnull bh u;;
  trickleup_loop (Z.to_nat u) bh u.

Fixpoint trickledown_loop (fuel : nat) (bh : binheap) (u : Z) : res (binheap * Z) :=
  match fuel with
  | O => Fail FFuel
  | S fuel =>
      vassert (u <? bh_next bh);;
      p ← A_nonnull bh u;
      let '(v1, v2) := child bh u in
      vassert (0 <? v1);;
      vassert (0 <? v2);;
      vassert (v1 <=? v2);;
      if bh_next bh <=? v1 then mret (bh, u) else
      q1 ← A_nonnull bh v1;
      v1 ← (if negb (v1 =? v2) && (v2 <? bh_next bh)
            then q2 ← A_nonnull bh v2; mret (if cmp q2 q1 then v2 else v1)
            else mret v1);
      vassert (v1 <? bh_next bh);;
      q ← A_nonnull bh v1;
      if cmp p q then mret (bh, u) else
      bh ← binhead_swap bh u v1;
      trickledown_loop fuel bh v1
  end.

Definition binheap_trickledown (bh : binheap) (u : Z) : res (binheap * Z) :=
  vassert (u <? bh_next bh);;
  A_nonnull bh u;;
  trickledown_loop (Z.to_nat (bh_next bh)) bh u.

(** ** The operations *)

Definition binheap_insert (bh : binheap) (p : elt) : res binheap :=
  vassert (bh_next bh <=? bh_length bh);;
  bh ← (if bh_length bh =? bh_next bh then binheap_addrow bh else mret bh);
  vassert (bh_next bh <? bh_length bh);;
  let u := bh_next bh in
  let bh := set_next bh (u32 (bh_next bh + 1)) in
  bh ← set_A bh u (Some p);
  bh ← binheap_update bh u;
  '(bh, _) ← binheap_trickleup bh u;
  vassert (u <? bh_next bh);;
  A_nonnull bh u;;
  mret bh.

Definition binheap_root (bh : binheap) : res (option elt) := A bh ROOT_IDX.

(** The two trickles and the assertions around them. *)
Definition settle (bh : binheap) (idx : Z) : res binheap :=
  '(bh, idx) ← binheap_trickleup bh idx;
  vassert (idx <? bh_next bh);;
  vassert (0 <? idx);;
  A_nonnull bh idx;;
  '(bh, idx) ← binheap_trickledown bh idx;
  vassert (idx <? bh_next bh);;
  vassert (0 <? idx);;
  A_nonnull bh idx;;
  mret bh.

(** The rows are given back with a hysteresis of one full row. *)
Definition shrink (bh : binheap) : res binheap :=
  if u32 (bh_next bh + 2 * ROW_WIDTH) <=? bh_length bh then
    ROW bh (bh_length bh - 1);;
    let bh := set_array bh
      (<[Z.to_nat (Z.shiftr (bh_length bh - 1) ROW_SHIFT) := None]> (bh_array bh)) in
    mret (set_length bh (bh_length bh - ROW_WIDTH))
  else mret bh.

Definition binheap_delete (bh : binheap) (idx : Z) : res binheap :=
  vassert (ROOT_IDX <? bh_next bh);;
  vassert (idx <? bh_next bh);;
  vassert (0 <? idx);;
  p ← A_nonnull bh idx;
  let bh := set_idx bh (<[p := BINHEAP_NOIDX]> (bh_idx bh)) in
  let bh := set_next bh (bh_next bh - 1) in
  if idx =? bh_next bh then set_A bh (bh_next bh) None else
  q ← A bh (bh_next bh);
  bh ← set_A bh idx q;
  bh ← set_A bh (bh_next bh) None;
  bh ← binheap_update bh idx;
  bh ← settle bh idx;
  shrink bh.

(** Moves an element after its key has changed. *)
Definition binheap_reorder (bh : binheap) (idx : Z) : res binheap :=
  vassert (ROOT_IDX <? bh_next bh);;
  vassert (idx <? bh_next bh);;
  vassert (0 <? idx);;
  A_nonnull bh idx;;
  settle bh idx.

End Order.

End BinHeap.
