(* ===== verification/BinHeapInv.v ===== *)
(** The heap as a tree, and its invariant. *)
From S2P Require Import Prelude BinHeap.

(** The binary heap, the shape of the tree: the bit arithmetic of [parent] and
    [child] in terms of pages, and that the two agree for every page size. *)
Import BinHeap.

Module HeapTree.

(** The configuration [binheap_new] computes for pages of [2 ^ s] elements. *)
Record geometry (bh : binheap) (s : Z) : Prop := {
  g_shift : bh_page_shift bh = s;
  g_size : bh_page_size bh = 2 ^ s;
  g_mask : bh_page_mask bh = 2 ^ s - 1;
  g_range : 2 <= s <= 19;
}.

(** ** Bits *)

Lemma pow2_half s : 1 <= s -> 2 ^ s = 2 * 2 ^ (s - 1).
Proof. intros. rewrite <- Z.pow_succ_r by lia. f_equal. lia. Qed.

Lemma pow2_le a b : 0 <= a <= b -> 2 ^ a <= 2 ^ b.
Proof. intros. apply Z.pow_le_mono_r; lia. Qed.

Lemma testbit_high x k : 0 <= k -> Z.testbit x k = Z.odd (x / 2 ^ k).
Proof. intros. by rewrite Z.testbit_odd, Z.shiftr_div_pow2. Qed.

Lemma land_pow2 x k :
  0 <= k -> Z.land x (2 ^ k) = if Z.testbit x k then 2 ^ k else 0.
Proof.
  intros Hk. apply Z.bits_inj'. intros i Hi. rewrite Z.land_spec, Z.pow2_bits_eqb by lia.
  destruct (Z.eqb_spec k i) as [<-|].
  - destruct (Z.testbit x k); [by rewrite Z.pow2_bits_true|by rewrite Z.bits_0].
  - rewrite andb_false_r. destruct (Z.testbit x k); [|by rewrite Z.bits_0].
    by rewrite Z.pow2_bits_false.
Qed.

(** The bit below [s] of an offset within a page. *)
Lemma testbit_offset p o s :
  1 <= s -> 0 <= o < 2 ^ s -> Z.testbit (p * 2 ^ s + o) (s - 1) = (2 ^ (s - 1) <=? o).
Proof.
  intros Hs Ho. rewrite testbit_high by lia.
  assert (Hh : 0 < 2 ^ (s - 1)) by (apply Z.pow_pos_nonneg; lia).
  assert (E : (p * 2 ^ s + o) / 2 ^ (s - 1) = 2 * p + o / 2 ^ (s - 1)).
  { rewrite (pow2_half s) by done.
    replace (p * (2 * 2 ^ (s - 1)) + o) with (o + 2 * p * 2 ^ (s - 1)) by ring.
    rewrite Z.div_add by lia. lia. }
  rewrite E, Z.add_comm, Z.odd_add_mul_2.
  rewrite (pow2_half s) in Ho by done.
  destruct (Z.leb_spec (2 ^ (s - 1)) o).
  - replace (o / 2 ^ (s - 1)) with 1; [done|].
    apply (Z.div_unique _ _ _ (o - 2 ^ (s - 1))); lia.
  - by rewrite Z.div_small by lia.
Qed.

Lemma lor_disjoint a b : Z.land a b = 0 -> Z.lor a b = a + b.
Proof. intros H. by rewrite <- Z.lxor_lor, <- Z.add_nocarry_lxor. Qed.

Lemma lor_page p b s : 0 <= s -> 0 <= b < 2 ^ s -> Z.lor (p * 2 ^ s) b = p * 2 ^ s + b.
Proof. intros Hs Hb. rewrite <- (Z.shiftl_mul_pow2 p s) by lia. by rewrite lor_shiftl_add, Z.shiftl_mul_pow2. Qed.

(** ** Pages

    An index is a page and an offset in it.  A page is a tree of its own below
    its first two elements; the two elements of a child page hang below an
    element of the bottom row. *)
Definition page (s u : Z) : Z := u / 2 ^ s.
Definition offs (s u : Z) : Z := u mod 2 ^ s.
Definition at_page (s p o : Z) : Z := p * 2 ^ s + o.

Definition parent_at (s u : Z) : Z :=
  let p := page s u in
  let o := offs s u in
  if (p =? 0) || (3 <? o) then at_page s p (o / 2)
  else if o <? 2 then
    at_page s ((p - 1) / 2 ^ (s - 1)) (2 ^ (s - 1) + (p - 1) mod 2 ^ (s - 1))
  else at_page s p (o - 2).

(** The first child; there is a second one next to it, except below the first
    two elements of a page. *)
Definition child_page (s u : Z) : Z :=
  page s u * 2 ^ (s - 1) + (offs s u - 2 ^ (s - 1)) + 1.

Definition child_at (s u : Z) : Z * Z :=
  let p := page s u in
  let o := offs s u in
  if negb (p =? 0) && (o <? 2) then (u + 2, u + 2)
  else if 2 ^ (s - 1) <=? o then
    let a := at_page s (child_page s u) 0 in
    if a <? 2 ^ 32 then (a, a + 1) else (UINT_MAX, UINT_MAX)
  else (at_page s p (2 * o), at_page s p (2 * o) + 1).

Section Geometry.

Context (bh : binheap) (s : Z) (Hg : geometry bh s).

Let Hs : 2 <= s <= 19.
Proof. apply (g_range _ _ Hg). Qed.

Lemma half_pos : 2 <= 2 ^ (s - 1).
Proof. change 2 with (2 ^ 1) at 1. apply pow2_le. lia. Qed.

Lemma full_half : 2 ^ s = 2 * 2 ^ (s - 1).
Proof. apply pow2_half. lia. Qed.

Lemma split_page u : 0 <= u -> u = at_page s (page s u) (offs s u) /\
  0 <= page s u /\ 0 <= offs s u < 2 ^ s.
Proof.
  intros Hu. pose proof half_pos. pose proof full_half. unfold at_page, page, offs.
  pose proof (Z.div_mod u (2 ^ s)). pose proof (Z.mod_pos_bound u (2 ^ s)).
  pose proof (Z.div_pos u (2 ^ s)). lia.
Qed.

Lemma page_at p o : 0 <= o < 2 ^ s -> page s (at_page s p o) = p /\ offs s (at_page s p o) = o.
Proof.
  intros Ho. unfold page, offs, at_page. rewrite Z.add_comm, Z.div_add, Z.mod_add by lia.
  rewrite Z.div_small, Z.mod_small by lia. lia.
Qed.

Lemma at_page_inj p o p' o' :
  0 <= o < 2 ^ s -> 0 <= o' < 2 ^ s -> at_page s p o = at_page s p' o' <-> p = p' /\ o = o'.
Proof.
  intros Ho Ho'. split; [|by intros [-> ->]]. intros E.
  destruct (page_at p o Ho) as [H1 H2], (page_at p' o' Ho') as [H3 H4].
  rewrite E in H1, H2. split; congruence.
Qed.

Lemma page_zero u : 0 <= u -> (page s u =? 0) = (u <? 2 ^ s).
Proof.
  intros Hu. destruct (split_page u Hu) as (E & Hp & Ho). unfold at_page in E.
  pose proof half_pos. pose proof full_half.
  destruct (Z.eqb_spec (page s u) 0), (Z.ltb_spec u (2 ^ s)); try done; nia.
Qed.

Lemma land_mask_offs u : Z.land u (2 ^ s - 1) = offs s u.
Proof. apply land_mask. lia. Qed.

Lemma land_lnot_page u : 0 <= u -> Z.land u (Z.lnot (2 ^ s - 1)) = page s u * 2 ^ s.
Proof.
  intros Hu. rewrite land_lnot_mask by lia. unfold page.
  pose proof (Z.div_mod u (2 ^ s)). pose proof half_pos. pose proof full_half. lia.
Qed.

Lemma shiftr_mask : Z.shiftr (2 ^ s - 1) 1 = 2 ^ (s - 1) - 1.
Proof.
  rewrite Z.shiftr_div_pow2 by lia. rewrite full_half.
  symmetry. apply (Z.div_unique _ _ _ 1); lia.
Qed.

Lemma parent_eq u :
  0 <= u < UINT_MAX -> parent bh u = Ok (parent_at s u).
Proof.
  intros Hu. destruct (split_page u ltac:(lia)) as (E & Hp & Ho).
  pose proof half_pos. pose proof full_half.
  unfold parent. rewrite (vassert_true (negb (u =? UINT_MAX))), bind_Ret
    by (apply negb_true_iff, Z.eqb_neq; lia).
  rewrite (g_mask _ _ Hg), (g_size _ _ Hg), (g_shift _ _ Hg), land_mask_offs,
    land_lnot_page, <- page_zero by lia.
  unfold parent_at. cbv zeta. destruct ((page s u =? 0) || (3 <? offs s u)) eqn:E1.
  - rewrite Z.shiftr_div_pow2 by lia. change (2 ^ 1) with 2. unfold at_page.
    by rewrite lor_page by (lia || (split; [apply Z.div_pos; lia|apply Z.div_lt_upper_bound; lia])).
  - apply orb_false_iff in E1 as [E1 E2]. apply Z.eqb_neq in E1. apply Z.ltb_ge in E2.
    destruct (Z.ltb_spec (offs s u) 2).
    + unfold mret, res_ret. f_equal. rewrite shiftr_mask, Z.shiftr_div_pow2 by lia.
      replace ((u - 2 ^ s) / 2 ^ s) with (page s u - 1).
      2:{ unfold page. replace (u - 2 ^ s) with (u + (-1) * 2 ^ s) by ring.
          rewrite Z.div_add by lia. lia. }
      rewrite land_lnot_mask by lia. replace (2 ^ s / 2) with (2 ^ (s - 1))
        by (rewrite full_half, Z.mul_comm, Z.div_mul; lia).
      pose proof (Z.div_mod (page s u - 1) (2 ^ (s - 1))).
      pose proof (Z.mod_pos_bound (page s u - 1) (2 ^ (s - 1))).
      set (q := (page s u - 1) / 2 ^ (s - 1)) in *.
      set (r := (page s u - 1) mod 2 ^ (s - 1)) in *.
      replace (page s u - 1 + (page s u - 1 - r)) with (q * 2 ^ s + r) by lia.
      rewrite lor_disjoint; [unfold at_page; lia|].
      rewrite land_pow2, testbit_offset by lia.
      by rewrite (proj2 (Z.leb_gt _ _)) by lia.
    + unfold mret, res_ret. f_equal. unfold at_page in *. lia.
Qed.

Lemma land_mask1 u : 0 <= u ->
  (Z.land u (2 ^ s - 1 - 1) =? 0) = (offs s u <? 2).
Proof.
  intros Hu. pose proof half_pos. pose proof full_half.
  replace (2 ^ s - 1 - 1) with (Z.land (2 ^ s - 1) (Z.lnot (2 ^ 1 - 1))).
  2:{ rewrite land_lnot_mask by lia. rewrite full_half.
      replace (2 * 2 ^ (s - 1) - 1) with (1 + (2 ^ (s - 1) - 1) * 2 ^ 1) by lia.
      rewrite Z.mod_add by lia. change (1 mod 2 ^ 1) with 1. lia. }
  rewrite Z.land_assoc, land_mask_offs, land_lnot_mask by lia.
  destruct (split_page u Hu) as (_ & _ & Ho). change (2 ^ 1) with 2.
  pose proof (Z.mod_pos_bound (offs s u) 2). pose proof (Z.mod_small (offs s u) 2).
  destruct (Z.eqb_spec (offs s u - offs s u mod 2) 0), (Z.ltb_spec (offs s u) 2); lia.
Qed.

Lemma bottom_row u : 0 <= u ->
  truth (Z.land u (Z.shiftr (2 ^ s) 1)) = (2 ^ (s - 1) <=? offs s u).
Proof.
  intros Hu. destruct (split_page u Hu) as (E & _ & Ho).
  rewrite Z.shiftr_div_pow2 by lia.
  replace (2 ^ s / 2 ^ 1) with (2 ^ (s - 1)) by (rewrite full_half, Z.mul_comm, Z.div_mul; lia).
  rewrite land_pow2 by lia. rewrite E at 1. unfold at_page. rewrite testbit_offset by lia.
  pose proof half_pos. destruct (2 ^ (s - 1) <=? offs s u); [|done].
  apply truth_true. lia.
Qed.

(** The last page of the address space is whole. *)
Lemma page_end u o : 0 <= u < 2 ^ 32 -> 0 <= o < 2 ^ s -> 0 <= at_page s (page s u) o < 2 ^ 32.
Proof.
  intros Hu Ho. destruct (split_page u ltac:(lia)) as (E & Hp & Ho').
  unfold at_page in *. pose proof half_pos. pose proof full_half.
  assert (Ew : 2 ^ 32 = 2 ^ (32 - s) * 2 ^ s) by (rewrite <- Z.pow_add_r by lia; f_equal; lia).
  assert (page s u < 2 ^ (32 - s)).
  { unfold page. apply Z.div_lt_upper_bound; lia. }
  split; [nia|]. rewrite Ew. nia.
Qed.

Lemma child_eq u : 1 <= u < 2 ^ 32 -> child bh u = child_at s u.
Proof.
  intros Hu. destruct (split_page u ltac:(lia)) as (E & Hp & Ho).
  pose proof half_pos as Hh. pose proof full_half as Hf.
  unfold child. rewrite (g_mask _ _ Hg), (g_size _ _ Hg), (g_shift _ _ Hg),
    land_mask1, bottom_row, land_mask_offs, shiftr_mask, land_mask, land_lnot_page by lia.
  replace (2 ^ s - 1 <? u) with (negb (page s u =? 0))
    by (rewrite page_zero by lia; destruct (Z.ltb_spec u (2 ^ s)), (Z.ltb_spec (2 ^ s - 1) u); lia).
  unfold child_at. cbv zeta.
  destruct (negb (page s u =? 0) && (offs s u <? 2)) eqn:E1.
  - apply andb_true_iff in E1 as [_ E1]. apply Z.ltb_lt in E1.
    pose proof (page_end u (offs s u + 2) ltac:(lia) ltac:(lia)) as He.
    unfold at_page in *. rewrite u32_small by lia. done.
  - destruct (Z.leb_spec (2 ^ (s - 1)) (offs s u)) as [Hb|Hb].
    + pose proof (page_end u (offs s u) ltac:(lia) ltac:(lia)) as He. unfold at_page in He.
      rewrite Z.shiftr_div_pow2 by lia.
      replace (page s u * 2 ^ s / 2 ^ 1) with (page s u * 2 ^ (s - 1))
        by (rewrite Hf; change (2 ^ 1) with 2;
            replace (page s u * (2 * 2 ^ (s - 1))) with (page s u * 2 ^ (s - 1) * 2) by ring;
            by rewrite Z.div_mul by lia).
      replace (u mod 2 ^ (s - 1)) with (offs s u - 2 ^ (s - 1)).
      2:{ rewrite E at 2. unfold at_page. rewrite Hf.
          replace (page s u * (2 * 2 ^ (s - 1)) + offs s u)
            with ((offs s u - 2 ^ (s - 1)) + (2 * page s u + 1) * 2 ^ (s - 1)) by ring.
          rewrite Z.mod_add, Z.mod_small by lia. done. }
      rewrite lor_page by lia. fold (child_page s u).
      assert (Hc : 0 <= child_page s u < 2 ^ 32) by (unfold child_page; nia).
      rewrite (u32_small (child_page s u)) by lia. rewrite Z.shiftl_mul_pow2 by lia.
      assert (Hw : 0 <= child_page s u * 2 ^ s < 2 ^ 64).
      { assert (2 ^ s <= 2 ^ 19) by (apply pow2_le; lia). nia. }
      unfold u64. rewrite (Z.mod_small (child_page s u * 2 ^ s)) by lia.
      unfold at_page. rewrite Z.add_0_r.
      destruct (Z.ltb_spec (child_page s u * 2 ^ s) (2 ^ 32)) as [Hlt|Hge].
      * rewrite (u32_small (_ * _)), Z.eqb_refl by lia. rewrite u32_small; [done|].
        assert (2 ^ 32 = 2 ^ (32 - s) * 2 ^ s) by (rewrite <- Z.pow_add_r by lia; f_equal; lia).
        assert (child_page s u + 1 <= 2 ^ (32 - s)) by nia. nia.
      * rewrite (proj2 (Z.eqb_neq _ _)); [done|].
        intros Hx. pose proof (Z.mod_pos_bound (child_page s u * 2 ^ s) (2 ^ 32)).
        unfold u32 in Hx. lia.
    + pose proof (page_end u (2 * offs s u + 1) ltac:(lia) ltac:(lia)) as He.
      unfold at_page in *. rewrite !u32_small by lia. f_equal; lia.
Qed.

(** [parent] goes up. *)
Lemma parent_below v : 2 <= v -> 1 <= parent_at s v < v.
Proof.
  intros Hv. destruct (split_page v ltac:(lia)) as (E & Hp & Ho).
  pose proof half_pos. pose proof full_half. unfold parent_at. cbv zeta.
  unfold at_page in *. destruct (Z.eqb_spec (page s v) 0) as [E0|E0]; simpl.
  - rewrite E0 in *. pose proof (Z.div_mod (offs s v) 2). pose proof (Z.mod_pos_bound (offs s v) 2).
    lia.
  - destruct (Z.ltb_spec 3 (offs s v)); simpl.
    { pose proof (Z.div_mod (offs s v) 2). pose proof (Z.mod_pos_bound (offs s v) 2). nia. }
    destruct (Z.ltb_spec (offs s v) 2); [|nia].
    pose proof (Z.div_mod (page s v - 1) (2 ^ (s - 1))).
    pose proof (Z.mod_pos_bound (page s v - 1) (2 ^ (s - 1))).
    pose proof (Z.div_pos (page s v - 1) (2 ^ (s - 1))). nia.
Qed.

(** [child] inverts [parent]. *)
Lemma parent_child u v :
  1 <= u -> 2 <= v < UINT_MAX ->
  parent_at s v = u <-> v = fst (child_at s u) \/ v = snd (child_at s u).
Proof.
  intros Hu Hv. destruct (split_page u ltac:(lia)) as (Eu & Hpu & Hou).
  destruct (split_page v ltac:(lia)) as (Ev & Hpv & Hov).
  pose proof half_pos as Hh. pose proof full_half as Hf.
  unfold parent_at, child_at. cbv zeta.
  set (p := page s u) in *. set (o := offs s u) in *.
  set (p' := page s v) in *. set (o' := offs s v) in *.
  assert (Hd : 2 * (o' / 2) <= o' < 2 * (o' / 2) + 2)
    by (pose proof (Z.div_mod o' 2); pose proof (Z.mod_pos_bound o' 2); lia).
  assert (Hvi : forall a b, 0 <= b < 2 ^ s -> v = at_page s a b <-> p' = a /\ o' = b)
    by (intros a b Hb; rewrite Ev; by apply at_page_inj).
  assert (Hui : forall a b, 0 <= b < 2 ^ s -> at_page s a b = u <-> a = p /\ b = o)
    by (intros a b Hb; rewrite Eu; by apply at_page_inj).
  assert (Hplus : forall a b c, at_page s a b + c = at_page s a (b + c))
    by (intros; unfold at_page; ring).
  assert (Eu2 : u + 2 = at_page s p (o + 2)) by (rewrite Eu at 1; apply Hplus).
  rewrite Eu2, !Hplus.
  assert (Hr : 0 <= (p' - 1) mod 2 ^ (s - 1) < 2 ^ (s - 1)) by (apply Z.mod_pos_bound; lia).
  assert (Hcp : 2 ^ (s - 1) <= o ->
    ((p' - 1) / 2 ^ (s - 1) = p /\ 2 ^ (s - 1) + (p' - 1) mod 2 ^ (s - 1) = o) <->
    p' = child_page s u).
  { intros Hb. unfold child_page. fold p o. split.
    - intros [Hq Ho2]. pose proof (Z.div_mod (p' - 1) (2 ^ (s - 1))). rewrite Hq in *. lia.
    - intros ->. replace (p * 2 ^ (s - 1) + (o - 2 ^ (s - 1)) + 1 - 1)
        with ((o - 2 ^ (s - 1)) + p * 2 ^ (s - 1)) by ring.
      rewrite Z.div_add, Z.mod_add, Z.div_small, Z.mod_small by lia. lia. }
  assert (Hcl : p' = child_page s u -> at_page s (child_page s u) 0 <= v)
    by (intros <-; rewrite Ev; unfold at_page; lia).
  assert (Hc1 : 2 ^ (s - 1) <= o -> 1 <= child_page s u)
    by (intros; unfold child_page; fold p o; nia).
  destruct (Z.eqb_spec p' 0) as [P'|P'];
    [|destruct (Z.ltb_spec 3 o') as [O'|O']; [|destruct (Z.ltb_spec o' 2) as [O2|O2]]];
    simpl negb; cbn [orb andb];
    (destruct (Z.eqb_spec p 0) as [P|P];
      [|destruct (Z.ltb_spec o 2) as [O|O]]; cbn [negb andb fst snd]);
    try (destruct (Z.leb_spec (2 ^ (s - 1)) o) as [B|B]; cbn [fst snd]);
    try (destruct (Z.ltb_spec (at_page s (child_page s u) 0) (2 ^ 32)) as [C|C]; cbn [fst snd]).
  all: rewrite ?Hvi, ?Hui by lia; try rewrite Hcp by lia; unfold UINT_MAX in *; lia.
Qed.

Lemma child_bounds u :
  1 <= u -> 2 <= fst (child_at s u) /\ fst (child_at s u) <= snd (child_at s u) /\
  snd (child_at s u) <= fst (child_at s u) + 1.
Proof.
  intros Hu. destruct (split_page u ltac:(lia)) as (E & Hp & Ho).
  pose proof half_pos. pose proof full_half. unfold child_at. cbv zeta.
  destruct (Z.eqb_spec (page s u) 0) as [P|P];
    [|destruct (Z.ltb_spec (offs s u) 2)]; cbn [negb andb fst snd]; try lia;
    (destruct (Z.leb_spec (2 ^ (s - 1)) (offs s u));
      [destruct (Z.ltb_spec (at_page s (child_page s u) 0) (2 ^ 32))|]);
    cbn [fst snd]; unfold UINT_MAX; try lia; unfold at_page, child_page in *; nia.
Qed.

End Geometry.

End HeapTree.

(** The binary heap, its cells: reads and writes of the rows, and the facts
    that survive every move of an element. *)
Import BinHeap HeapTree.

Module HeapInv.

(** ** Rows *)

(** The first [k] rows are there, and no others. *)
Definition rows_are (bh : binheap) (k : nat) : Prop :=
  bh_length bh = ROW_WIDTH * Z.of_nat k /\ (k <= length (bh_array bh))%nat /\
  (forall i, (i < k)%nat -> exists row, bh_array bh !! i = Some (Some row)) /\
  (forall i, (k <= i < length (bh_array bh))%nat -> bh_array bh !! i = Some None).

(** What [A(bh, u)] holds. *)
Definition get (bh : binheap) (u : Z) : option elt :=
  match A bh u with Ok o => o | Fail _ => None end.

Lemma row_width : ROW_WIDTH = 2 ^ 16.
Proof. reflexivity. Qed.

Lemma row_lt bh k u :
  rows_are bh k -> 0 <= u < bh_length bh -> (Z.to_nat (Z.shiftr u ROW_SHIFT) < k)%nat.
Proof.
  intros (Hl & _) Hu. rewrite Hl, row_width in Hu. unfold ROW_SHIFT.
  rewrite Z.shiftr_div_pow2 by lia.
  assert (u / 2 ^ 16 < Z.of_nat k) by (apply Z.div_lt_upper_bound; lia).
  assert (0 <= u / 2 ^ 16) by (apply Z.div_pos; lia). lia.
Qed.

Lemma A_get bh k u :
  rows_are bh k -> 0 <= u < bh_length bh -> A bh u = Ok (get bh u).
Proof.
  intros Hr Hu. pose proof (row_lt bh k u Hr Hu) as Hlt. destruct Hr as (_ & _ & Hs & _).
  unfold get, A, ROW. destruct (Hs _ Hlt) as [row ->]. reflexivity.
Qed.

Lemma column_inj u v :
  0 <= u -> 0 <= v -> Z.to_nat (Z.shiftr u ROW_SHIFT) = Z.to_nat (Z.shiftr v ROW_SHIFT) ->
  column u = column v -> u = v.
Proof.
  unfold column, ROW_SHIFT. rewrite row_width. intros Hu Hv E1 E2.
  rewrite !land_mask in E2 by lia. rewrite !Z.shiftr_div_pow2 in E1 by lia.
  pose proof (Z.div_mod u (2 ^ 16)). pose proof (Z.div_mod v (2 ^ 16)).
  assert (0 <= u / 2 ^ 16) by (apply Z.div_pos; lia).
  assert (0 <= v / 2 ^ 16) by (apply Z.div_pos; lia). lia.
Qed.

Lemma set_A_ok bh k u p :
  rows_are bh k -> 0 <= u < bh_length bh ->
  exists a, set_A bh u p = Ok (set_array bh a) /\ rows_are (set_array bh a) k /\
    forall v, 0 <= v -> get (set_array bh a) v = if decide (v = u) then p else get bh v.
Proof.
  intros Hr Hu. pose proof (row_lt bh k u Hr Hu) as Hlt.
  destruct Hr as (Hl & Hk & Hs & Hn). unfold set_A, ROW.
  destruct (Hs _ Hlt) as [row Hrow]. rewrite Hrow. simpl.
  set (i := Z.to_nat (Z.shiftr u ROW_SHIFT)) in *.
  set (row' := match p with Some _ => _ | None => _ end).
  eexists. split; [reflexivity|]. split.
  - split; [done|]. simpl. rewrite length_insert. split; [done|]. split.
    + intros j Hj. destruct (decide (j = i)) as [->|].
      * rewrite list_lookup_insert_eq by lia. by eexists.
      * rewrite list_lookup_insert_ne by done. by apply Hs.
    + intros j Hj. rewrite list_lookup_insert_ne by lia. by apply Hn.
  - intros v Hv. unfold get, A, ROW. simpl.
    destruct (decide (Z.to_nat (Z.shiftr v ROW_SHIFT) = i)) as [E|E].
    + rewrite E, list_lookup_insert_eq by lia. rewrite Hrow. simpl.
      destruct (decide (v = u)) as [->|Hne].
      * unfold row'. destruct p; [by rewrite lookup_insert_eq|by rewrite lookup_delete_eq].
      * assert (column u <> column v).
        { intros Ec. apply Hne. symmetry. apply column_inj; [lia|done|by symmetry|done]. }
        unfold row'. destruct p; [by rewrite lookup_insert_ne|by rewrite lookup_delete_ne].
    + rewrite list_lookup_insert_ne by done.
      rewrite decide_False; [done|]. intros ->. by apply E.
Qed.

Lemma addrow_ok bh k :
  rows_are bh k -> (1 <= k)%nat -> bh_length bh < 2 ^ 31 ->
  exists a, binheap_addrow bh = Ok (set_length (set_array bh a) (bh_length bh + ROW_WIDTH)) /\
    rows_are (set_length (set_array bh a) (bh_length bh + ROW_WIDTH)) (S k) /\
    forall v, 0 <= v < bh_length bh ->
      get (set_length (set_array bh a) (bh_length bh + ROW_WIDTH)) v = get bh v.
Proof.
  intros (Hl & Hk & Hs & Hn) Hk1 Hb.
  assert (Hi : Z.shiftr (bh_length bh) ROW_SHIFT = Z.of_nat k).
  { rewrite Hl, row_width. unfold ROW_SHIFT. rewrite Z.shiftr_div_pow2 by lia.
    rewrite Z.mul_comm, Z.div_mul; lia. }
  unfold binheap_addrow, bh_rows. rewrite Hi.
  set (a0 := if Z.of_nat (length (bh_array bh)) <=? Z.of_nat k
    then bh_array bh ++ replicate (length (bh_array bh)) None else bh_array bh).
  assert (Ha0 : (if Z.of_nat (length (bh_array bh)) <=? Z.of_nat k
    then set_array bh (bh_array bh ++ replicate (length (bh_array bh)) None) else bh)
    = set_array bh a0) by (unfold a0; destruct bh; by destruct (_ <=? _)).
  rewrite Ha0. clear Ha0.
  assert (Hsame : forall i, (i < k)%nat -> a0 !! i = bh_array bh !! i).
  { intros i Hlt. unfold a0. destruct (_ <=? _); [|done]. rewrite lookup_app_l by lia. done. }
  assert (Hnew : a0 !! k = Some None /\ (k < length a0)%nat /\
    forall i, (k <= i < length a0)%nat -> a0 !! i = Some None).
  { unfold a0. destruct (Z.leb_spec (Z.of_nat (length (bh_array bh))) (Z.of_nat k)).
    - rewrite length_app, length_replicate.
      assert (forall i, (k <= i < length (bh_array bh) + length (bh_array bh))%nat ->
        (bh_array bh ++ replicate (length (bh_array bh)) None) !! i = Some None).
      { intros i Hlt. rewrite lookup_app_r by lia. apply lookup_replicate_2. lia. }
      split_and!; [apply H0; lia|lia|done].
    - split_and!; [apply Hn; lia|lia|done]. }
  destruct Hnew as (Hnk & Hlen & Hnew).
  unfold ROW. simpl bh_length. simpl bh_array. rewrite Hi, Nat2Z.id, Hnk.
  change (deref (Some None)) with (Ok (None : option (gmap Z elt))). rewrite !bind_Ret.
  rewrite vassert_true, bind_Ret by (by apply bool_decide_eq_true_2).
  assert (Hw : u32 (bh_length bh + ROW_WIDTH) = bh_length bh + ROW_WIDTH)
    by (apply u32_small; rewrite Hl, row_width in *; lia).
  rewrite Hw. eexists. split; [reflexivity|]. split.
  - split; [simpl; rewrite Hl; lia|]. simpl. rewrite length_insert. split; [lia|]. split.
    + intros j Hj. destruct (decide (j = k)) as [->|].
      * rewrite list_lookup_insert_eq by lia. by eexists.
      * rewrite list_lookup_insert_ne by done. rewrite Hsame by lia. apply Hs. lia.
    + intros j Hj. rewrite list_lookup_insert_ne by lia. apply Hnew. lia.
  - intros v Hv. pose proof (row_lt bh k v ltac:(done) Hv) as Hlt.
    unfold get, A, ROW. simpl. rewrite list_lookup_insert_ne by lia. by rewrite Hsame.
Qed.

End HeapInv.
