(* ===== verification/BinHeapThm.v ===== *)
(** The binary heap, theorems: every operation keeps the heap property, the
    elements and the indices told to the client. *)
From S2P Require Import Prelude BinHeap BinHeapInv.
Import BinHeap HeapTree HeapInv.

Module HeapThm.

(** ** The heap without its order *)

Record shape (s : Z) (bh : binheap) : Prop := {
  sh_geo : geometry bh s;
  sh_rows : exists k, (1 <= k)%nat /\ rows_are bh k;
  sh_len : bh_length bh <= 2 ^ 31;
  sh_next : 1 <= bh_next bh <= bh_length bh;
  sh_full : forall u, 1 <= u < bh_next bh -> exists p, get bh u = Some p;
  sh_none : bh_next bh = 1 -> get bh 1 = None;
  sh_idx : forall u p, 1 <= u < bh_next bh -> get bh u = Some p ->
    bh_idx bh !! p = Some u;
}.

Definition inside (bh : binheap) (p : elt) : Prop :=
  exists u, 1 <= u < bh_next bh /\ get bh u = Some p.

(** [bh'] has the elements of [bh], at other places. *)
Record moved (bh bh' : binheap) : Prop := {
  mv_next : bh_next bh' = bh_next bh;
  mv_length : bh_length bh' = bh_length bh;
  mv_inside : forall p, inside bh' p <-> inside bh p;
  mv_idx : forall p, ~ inside bh p -> bh_idx bh' !! p = bh_idx bh !! p;
}.

Lemma moved_refl bh : moved bh bh.
Proof. by split. Qed.

Lemma moved_trans a b c : moved a b -> moved b c -> moved a c.
Proof.
  intros [A1 A2 A3 A4] [B1 B2 B3 B4]. split; try congruence.
  - intros p. by rewrite B3, A3.
  - intros p Hp. rewrite B4, A4; [done..|]. by rewrite A3.
Qed.

Section Shape.

Context (s : Z).

Lemma shape_len bh : shape s bh -> 1 < bh_length bh.
Proof.
  intros H. destruct (sh_rows _ _ H) as (k & Hk & Hl & _). rewrite Hl, row_width. lia.
Qed.

Lemma shape_A bh u : shape s bh -> 0 <= u < bh_length bh -> A bh u = Ok (get bh u).
Proof. intros H Hu. destruct (sh_rows _ _ H) as (k & _ & Hr). by eapply A_get. Qed.

Lemma shape_nonnull bh u p :
  shape s bh -> 1 <= u < bh_next bh -> get bh u = Some p -> A_nonnull bh u = Ok p.
Proof.
  intros H Hu E. unfold A_nonnull. rewrite (shape_A bh u H) by (pose proof (sh_next _ _ H); lia).
  by rewrite bind_Ret, E.
Qed.

Lemma shape_inj bh u v p :
  shape s bh -> 1 <= u < bh_next bh -> 1 <= v < bh_next bh ->
  get bh u = Some p -> get bh v = Some p -> u = v.
Proof.
  intros H Hu Hv E1 E2. pose proof (sh_idx _ _ H _ _ Hu E1).
  pose proof (sh_idx _ _ H _ _ Hv E2). congruence.
Qed.

(** The contents after an exchange. *)
Definition exchange (f : Z -> option elt) (u v w : Z) : option elt :=
  if decide (w = u) then f v else if decide (w = v) then f u else f w.

Lemma get_set_idx bh i u : get (set_idx bh i) u = get bh u.
Proof. reflexivity. Qed.

Lemma swap_ok bh u v :
  shape s bh -> 1 <= u < bh_next bh -> 1 <= v < bh_next bh -> u <> v ->
  exists bh', binhead_swap bh u v = Ok bh' /\ shape s bh' /\ moved bh bh' /\
    forall w, 1 <= w < bh_next bh -> get bh' w = exchange (get bh) u v w.
Proof.
  intros H Hu Hv Hne. assert (H' := H).
  destruct H' as [Hg (k & Hk & Hr) Hlen Hnx Hf Hno Hix].
  destruct (Hf u Hu) as [p Hp], (Hf v Hv) as [q Hq].
  unfold binhead_swap. rewrite (vassert_true (u <? _)), bind_Ret by lia.
  rewrite (shape_nonnull bh u p H Hu Hp), bind_Ret.
  rewrite (vassert_true (v <? _)), bind_Ret by lia.
  rewrite (shape_nonnull bh v q H Hv Hq), bind_Ret.
  destruct (set_A_ok bh k u (Some q) Hr ltac:(lia)) as (a1 & -> & Hr1 & G1). rewrite bind_Ret.
  destruct (set_A_ok (set_array bh a1) k v (Some p) Hr1 ltac:(simpl; lia))
    as (a2 & -> & Hr2 & G2). rewrite bind_Ret.
  set (bh2 := set_array (set_array bh a1) a2) in *.
  assert (G : forall w, 1 <= w < bh_next bh -> get bh2 w = exchange (get bh) u v w).
  { intros w Hw. rewrite G2, G1 by lia. unfold exchange.
    destruct (decide (w = v)), (decide (w = u)); congruence. }
  assert (Gu : get bh2 u = Some q) by (rewrite G by lia; unfold exchange; by rewrite decide_True).
  assert (Gv : get bh2 v = Some p).
  { rewrite G by lia. unfold exchange. rewrite decide_False by congruence. by rewrite decide_True. }
  assert (An : forall i w x, 1 <= w < bh_next bh -> get bh2 w = Some x ->
    A_nonnull (set_idx bh2 i) w = Ok x).
  { intros i w x Hw Hx. unfold A_nonnull. change (A (set_idx bh2 i) w) with (A bh2 w).
    rewrite (A_get bh2 k w Hr2) by (simpl; lia). by rewrite bind_Ret, Hx. }
  unfold binheap_update. change (bh_next bh2) with (bh_next bh).
  rewrite (vassert_true (u <? _)), bind_Ret by lia.
  change (A_nonnull bh2 u) with (A_nonnull (set_idx bh2 (bh_idx bh2)) u).
  rewrite (An _ u q Hu Gu), bind_Ret. unfold mret, res_ret. rewrite bind_Ret. cbn [bh_next set_idx].
  change (bh_next bh2) with (bh_next bh).
  rewrite (vassert_true (v <? _)), bind_Ret by lia.
  rewrite (An _ v p Hv Gv), bind_Ret.
  eexists. split; [reflexivity|].
  change (bh_idx (set_idx bh2 (<[q:=u]> (bh_idx bh2)))) with (<[q:=u]> (bh_idx bh)).
  set (ix := <[p := v]> (<[q := u]> (bh_idx bh))).
  assert (Hpq : p <> q) by (intros ->; by apply Hne, (shape_inj bh u v q H)).
  split; [|split; [|exact G]].
  - split; try done; simpl.
    + by destruct Hg.
    + by exists k.
    + intros w Hw. rewrite !get_set_idx, G by done. unfold exchange.
      destruct (decide (w = u)), (decide (w = v)); eauto.
    + intros E. lia.
    + intros w x Hw. rewrite !get_set_idx, G by done. unfold exchange, ix.
      destruct (decide (w = u)) as [->|Hwu].
      * rewrite Hq. intros [= <-]. rewrite lookup_insert_ne by done. by rewrite lookup_insert_eq.
      * destruct (decide (w = v)) as [->|Hwv].
        -- rewrite Hp. intros [= <-]. by rewrite lookup_insert_eq.
        -- intros Hx. rewrite !lookup_insert_ne; [by apply Hix|..].
           ++ intros ->. by apply Hwv, (shape_inj bh w v x H).
           ++ intros ->. by apply Hwu, (shape_inj bh w u x H).
  - split; try done.
    + intros x. unfold inside. simpl. split.
      * intros (w & Hw & Hx). rewrite !get_set_idx, G in Hx by done. unfold exchange in Hx.
        destruct (decide (w = u)), (decide (w = v)); eauto.
      * intros (w & Hw & Hx). destruct (decide (w = u)) as [->|]; [|destruct (decide (w = v)) as [->|]].
        -- exists v. rewrite !get_set_idx, Gv. split; [done|]. congruence.
        -- exists u. rewrite !get_set_idx, Gu. split; [done|]. congruence.
        -- exists w. rewrite !get_set_idx, G by done. unfold exchange.
           by rewrite !decide_False by done.
    + intros x Hx. simpl. unfold ix. rewrite !lookup_insert_ne; [done|..].
      * intros ->. apply Hx. by exists v.
      * intros ->. apply Hx. by exists u.
Qed.

End Shape.

(** ** The order

    What the heap asks of the client's [cmp]: a strict weak order. *)
Class HeapOrder (cmp : elt -> elt -> bool) : Prop := {
  cmp_asym : forall a b, cmp a b = true -> cmp b a = false;
  cmp_negtrans : forall a b c, cmp a b = false -> cmp b c = false -> cmp a c = false;
}.

Section Order.

Context (s : Z) (cmp : elt -> elt -> bool) `{!HeapOrder cmp}.

(** The element at [v] does not belong above the one at [w]. *)
Definition not_above (bh : binheap) (v w : Z) : Prop :=
  forall p q, get bh v = Some p -> get bh w = Some q -> cmp p q = false.

Definition heap (bh : binheap) : Prop :=
  forall v, 2 <= v < bh_next bh -> not_above bh v (parent_at s v).

(** The elements below [u] are in order with the one above [u]. *)
Definition bridged (bh : binheap) (u : Z) : Prop :=
  2 <= u -> forall v, 2 <= v < bh_next bh -> parent_at s v = u ->
    not_above bh v (parent_at s u).

(** A heap but for the element at [u], which may be out of order with the one
    above and, unless [b], with those below. *)
Definition hole (b : bool) (bh : binheap) (u : Z) : Prop :=
  (forall v, 2 <= v < bh_next bh -> v <> u -> b = true \/ parent_at s v <> u ->
     not_above bh v (parent_at s v)) /\ bridged bh u.

(** ... with those below only. *)
Definition sunk (b : bool) (bh : binheap) (u : Z) : Prop :=
  (forall v, 2 <= v < bh_next bh -> b = true \/ parent_at s v <> u ->
     not_above bh v (parent_at s v)) /\ bridged bh u.

Lemma not_above_trans bh u v w :
  (exists q, get bh v = Some q) -> not_above bh u v -> not_above bh v w -> not_above bh u w.
Proof.
  intros [q Hq] H1 H2 a b Ha Hb. apply (cmp_negtrans a q b); [by apply H1|by apply H2].
Qed.

(** Exchanging [u] with its parent, which it belongs above. *)
Lemma hole_up b bh bh' u p q :
  shape s bh -> shape s bh' -> bh_next bh' = bh_next bh -> 2 <= u < bh_next bh ->
  (forall w, 1 <= w < bh_next bh -> get bh' w = exchange (get bh) u (parent_at s u) w) ->
  get bh u = Some p -> get bh (parent_at s u) = Some q -> cmp p q = true ->
  hole b bh u -> hole b bh' (parent_at s u).
Proof.
  intros Hs Hs' Hn Hu G Hp Hq Hc [H1 H2].
  pose proof (parent_below bh s (sh_geo _ _ Hs) u ltac:(lia)) as Hpu.
  set (pu := parent_at s u) in *.
  assert (Gu : get bh' u = Some q) by (rewrite G by lia; unfold exchange; by rewrite decide_True).
  assert (Gp : get bh' pu = Some p).
  { rewrite G by lia. unfold exchange. rewrite decide_False by lia. by rewrite decide_True. }
  assert (Go : forall w, 1 <= w < bh_next bh -> w <> u -> w <> pu -> get bh' w = get bh w).
  { intros w Hw ? ?. rewrite G by lia. unfold exchange. by rewrite !decide_False. }
  split.
  - intros v Hv Hvp Hb. rewrite Hn in Hv.
    pose proof (parent_below bh s (sh_geo _ _ Hs) v ltac:(lia)) as Hpv.
    destruct (decide (v = u)) as [->|Hvu].
    + fold pu. intros a c Ha Hc'. rewrite Gu in Ha. rewrite Gp in Hc'.
      simplify_eq. by apply cmp_asym.
    + destruct (decide (parent_at s v = u)) as [E|E].
      * rewrite E. intros a c Ha Hc'. rewrite Go in Ha by lia. rewrite Gu in Hc'.
        assert (c = q) as -> by congruence. by apply (H2 ltac:(lia) v Hv E).
      * destruct (decide (parent_at s v = pu)) as [E'|E'].
        -- rewrite E'. intros a c Ha Hc'. rewrite Go in Ha by lia. rewrite Gp in Hc'.
           assert (c = p) as -> by congruence. apply (cmp_negtrans _ q); [|by apply cmp_asym].
           apply (H1 v Hv Hvu); [by right|done|by rewrite E'].
        -- intros a c Ha Hc'. rewrite Go in Ha by lia. rewrite Go in Hc' by lia.
           apply (H1 v Hv Hvu); [by right|done|done].
  - intros Hpu2 v Hv E. rewrite Hn in Hv.
    pose proof (parent_below bh s (sh_geo _ _ Hs) pu ltac:(lia)) as Hppu.
    assert (Hup : forall a c, get bh pu = Some a -> get bh (parent_at s pu) = Some c ->
      cmp a c = false).
    { intros a c. apply (H1 pu); [lia|lia|]. right. lia. }
    intros a c Ha Hc'. rewrite (Go (parent_at s pu)) in Hc' by lia.
    destruct (decide (v = u)) as [->|Hvu].
    + assert (a = q) as -> by congruence. by apply (Hup q c).
    + pose proof (parent_below bh s (sh_geo _ _ Hs) v ltac:(lia)) as Hpv.
      rewrite Go in Ha by lia. apply (cmp_negtrans _ q); [|by apply Hup].
      apply (H1 v Hv Hvu); [right; lia|done|by rewrite E].
Qed.

Lemma trickleup_loop_ok b fuel bh u :
  shape s bh -> 1 <= u < bh_next bh -> (Z.to_nat u <= fuel)%nat -> hole b bh u ->
  exists bh' u', trickleup_loop cmp fuel bh u = Ok (bh', u') /\ shape s bh' /\
    moved bh bh' /\ 1 <= u' < bh_next bh /\ sunk b bh' u'.
Proof.
  revert bh u. induction fuel as [|fuel IH]; intros bh u Hs Hu Hf Hh; [lia|].
  simpl trickleup_loop. destruct (Z.leb_spec u ROOT_IDX) as [Hr|Hr]; unfold ROOT_IDX in Hr.
  { exists bh, u. split; [done|]. split; [done|]. split; [apply moved_refl|]. split; [done|].
    destruct Hh as [H1 H2]. split; [|done]. intros v Hv. apply H1; [done|lia]. }
  pose proof (sh_next _ _ Hs) as Hnx. pose proof (sh_len _ _ Hs) as Hlen.
  destruct (sh_full _ _ Hs u Hu) as [p Hp].
  rewrite (vassert_true (u <? _)), bind_Ret by lia.
  rewrite (shape_nonnull s bh u p Hs Hu Hp), bind_Ret.
  rewrite (parent_eq bh s (sh_geo _ _ Hs)), bind_Ret by (unfold UINT_MAX; lia).
  pose proof (parent_below bh s (sh_geo _ _ Hs) u ltac:(lia)) as Hpu.
  rewrite (vassert_true (_ <? u)), bind_Ret by lia.
  rewrite (vassert_true (_ <? bh_next bh)), bind_Ret by lia.
  destruct (sh_full _ _ Hs (parent_at s u) ltac:(lia)) as [q Hq].
  rewrite (shape_nonnull s bh _ q Hs) , bind_Ret by (done || lia).
  destruct (cmp p q) eqn:Hc; simpl negb; cbv iota.
  - destruct (swap_ok s bh u (parent_at s u) Hs Hu ltac:(lia) ltac:(lia))
      as (bh1 & -> & Hs1 & Hm1 & G1). rewrite bind_Ret.
    assert (Hh1 : hole b bh1 (parent_at s u)) by 
      (apply (hole_up b bh bh1 u p q); try done; [apply Hm1|lia]).
    destruct (IH bh1 (parent_at s u) Hs1) as (bh2 & u2 & E & Hs2 & Hm2 & Hu2 & Hk);
      [rewrite (mv_next _ _ Hm1); lia|lia|done|].
    exists bh2, u2. split; [done|]. split; [done|]. split; [by eapply moved_trans|].
    rewrite (mv_next _ _ Hm1) in Hu2. done.
  - exists bh, u. split; [done|]. split; [done|]. split; [apply moved_refl|]. split; [done|].
    destruct Hh as [H1 H2]. split; [|done]. intros v Hv Hb.
    destruct (decide (v = u)) as [->|]; [|by apply H1].
    intros a c Ha Hc'. congruence.
Qed.

Lemma trickleup_ok b bh u :
  shape s bh -> 1 <= u < bh_next bh -> hole b bh u ->
  exists bh' u', binheap_trickleup cmp bh u = Ok (bh', u') /\ shape s bh' /\
    moved bh bh' /\ 1 <= u' < bh_next bh /\ sunk b bh' u'.
Proof.
  intros Hs Hu Hh. destruct (sh_full _ _ Hs u Hu) as [p Hp].
  unfold binheap_trickleup. rewrite (vassert_true (u <? _)), bind_Ret by lia.
  rewrite (shape_nonnull s bh u p Hs Hu Hp), bind_Ret.
  by apply trickleup_loop_ok.
Qed.

(** Exchanging [u] with the child [c], which no other child belongs above. *)
Lemma sunk_down b bh bh' u c p q :
  shape s bh -> bh_next bh' = bh_next bh -> 1 <= u ->
  2 <= c < bh_next bh -> parent_at s c = u ->
  (forall w, 1 <= w < bh_next bh -> get bh' w = exchange (get bh) u c w) ->
  get bh u = Some p -> get bh c = Some q -> cmp p q = false ->
  (forall v, 2 <= v < bh_next bh -> parent_at s v = u -> not_above bh v c) ->
  sunk b bh u -> sunk false bh' c.
Proof.
  intros Hs Hn Hu Hc Ec G Hp Hq Hpq Hmin [H1 H2].
  pose proof (parent_below bh s (sh_geo _ _ Hs) c ltac:(lia)) as Hpc. rewrite Ec in Hpc.
  assert (Gu : get bh' u = Some q) by (rewrite G by lia; unfold exchange; by rewrite decide_True).
  assert (Gc : get bh' c = Some p).
  { rewrite G by lia. unfold exchange. rewrite decide_False by lia. by rewrite decide_True. }
  assert (Go : forall w, 1 <= w < bh_next bh -> w <> u -> w <> c -> get bh' w = get bh w).
  { intros w Hw ? ?. rewrite G by lia. unfold exchange. by rewrite !decide_False. }
  split.
  - intros v Hv [Hb|Hb]; [done|]. rewrite Hn in Hv.
    pose proof (parent_below bh s (sh_geo _ _ Hs) v ltac:(lia)) as Hpv.
    destruct (decide (v = u)) as [->|Hvu].
    + intros a d Ha Hd. assert (a = q) as -> by congruence. rewrite Go in Hd by lia.
      by apply (H2 ltac:(lia) c Hc Ec).
    + destruct (decide (parent_at s v = u)) as [E|E].
      * rewrite E. intros a d Ha Hd. assert (d = q) as -> by congruence.
        destruct (decide (v = c)) as [->|Hvc]; [congruence|].
        rewrite Go in Ha by lia. by apply (Hmin v Hv E).
      * intros a d Ha Hd. assert (v <> c) by congruence.
        rewrite Go in Ha by lia. rewrite Go in Hd by lia. apply (H1 v Hv); [by right|done|done].
  - intros Hc2 v Hv E. rewrite Hn in Hv. rewrite Ec.
    pose proof (parent_below bh s (sh_geo _ _ Hs) v ltac:(lia)) as Hpv.
    intros a d Ha Hd. assert (d = q) as -> by congruence. rewrite Go in Ha by lia.
    apply (H1 v Hv); [right; lia|done|by rewrite E].
Qed.

(** An element that belongs above its smallest child is in place. *)
Lemma sunk_stop b bh u :
  shape s bh -> 1 <= u < bh_next bh -> sunk b bh u ->
  (forall v, 2 <= v < bh_next bh -> parent_at s v = u -> not_above bh v u) -> heap bh.
Proof.
  intros Hs Hu [H1 H2] Hc v Hv.
  destruct (decide (parent_at s v = u)) as [E|E]; [rewrite E; by apply Hc|].
  apply H1; [done|by right].
Qed.

(** The choice between the children: the first of them that no other belongs
    above.  [None]: there is no child. *)
Definition best_child (bh : binheap) (u c : Z) (q : elt) : Prop :=
  2 <= c < bh_next bh /\ parent_at s c = u /\ get bh c = Some q /\
  forall v, 2 <= v < bh_next bh -> parent_at s v = u -> not_above bh v c.

Lemma cmp_irrefl a : cmp a a = false.
Proof. destruct (cmp a a) eqn:E; [|done]. by rewrite (cmp_asym _ _ E) in E. Qed.

Lemma not_above_refl bh v : not_above bh v v.
Proof. intros a b Ha Hb. assert (a = b) as -> by congruence. apply cmp_irrefl. Qed.

Lemma best_child_ok bh u q1 :
  shape s bh -> 1 <= u < bh_next bh ->
  fst (child_at s u) < bh_next bh -> get bh (fst (child_at s u)) = Some q1 ->
  let v1 := fst (child_at s u) in
  let v2 := snd (child_at s u) in
  exists c q,
    (if negb (v1 =? v2) && (v2 <? bh_next bh)
     then q2 ← A_nonnull bh v2; mret (if cmp q2 q1 then v2 else v1)
     else mret v1) = Ok c /\ best_child bh u c q.
Proof.
  intros Hs Hu Hv1 Hq1 v1 v2.
  pose proof (sh_next _ _ Hs) as Hnx. pose proof (sh_len _ _ Hs) as Hlen.
  destruct (child_bounds bh s (sh_geo _ _ Hs) u ltac:(lia)) as (B1 & B2 & B3).
  fold v1 v2 in B1, B2, B3, Hv1, Hq1.
  assert (Hpc : forall v, 2 <= v < bh_next bh -> parent_at s v = u <-> v = v1 \/ v = v2).
  { intros v Hv. apply (parent_child bh s (sh_geo _ _ Hs)); unfold UINT_MAX; lia. }
  assert (P1 : parent_at s v1 = u) by (apply Hpc; [lia|by left]).
  destruct (negb (v1 =? v2) && (v2 <? bh_next bh)) eqn:E.
  - apply andb_true_iff in E as [E1 E2]. apply negb_true_iff, Z.eqb_neq in E1.
    apply Z.ltb_lt in E2.
    assert (P2 : parent_at s v2 = u) by (apply Hpc; [lia|by right]).
    destruct (sh_full _ _ Hs v2 ltac:(lia)) as [q2 Hq2].
    rewrite (shape_nonnull s bh v2 q2 Hs), bind_Ret by (done || lia).
    destruct (cmp q2 q1) eqn:Hc.
    + exists v2, q2. split; [done|]. split_and!; try lia; [done|].
      intros v Hv Hp. apply Hpc in Hp as [->| ->]; [|apply not_above_refl|done].
      intros a d Ha Hd. apply cmp_asym. congruence.
    + exists v1, q1. split; [done|]. split_and!; try lia; [done|].
      intros v Hv Hp. apply Hpc in Hp as [->| ->]; [apply not_above_refl| |done].
      intros a d Ha Hd. congruence.
  - exists v1, q1. split; [done|]. split_and!; try lia; [done|].
    intros v Hv Hp. apply Hpc in Hp as [->| ->]; [apply not_above_refl| |done].
    assert (v2 = v1) as ->; [|apply not_above_refl].
    apply andb_false_iff in E as [E|E]; [apply negb_false_iff, Z.eqb_eq in E; done|].
    apply Z.ltb_ge in E. lia.
Qed.

Lemma trickledown_loop_ok b fuel bh u :
  shape s bh -> 1 <= u < bh_next bh -> (Z.to_nat (bh_next bh - u) <= fuel)%nat ->
  sunk b bh u ->
  exists bh' u', trickledown_loop cmp fuel bh u = Ok (bh', u') /\ shape s bh' /\
    moved bh bh' /\ 1 <= u' < bh_next bh /\ heap bh'.
Proof.
  revert b bh u. induction fuel as [|fuel IH]; intros b bh u Hs Hu Hf Hh; [lia|].
  pose proof (sh_next _ _ Hs) as Hnx. pose proof (sh_len _ _ Hs) as Hlen.
  destruct (sh_full _ _ Hs u Hu) as [p Hp].
  destruct (child_bounds bh s (sh_geo _ _ Hs) u ltac:(lia)) as (B1 & B2 & B3).
  simpl trickledown_loop.
  rewrite (vassert_true (u <? _)), bind_Ret by lia.
  rewrite (shape_nonnull s bh u p Hs Hu Hp), bind_Ret.
  rewrite (child_eq bh s (sh_geo _ _ Hs)) by lia.
  destruct (child_at s u) as [v1 v2] eqn:Ec. cbn [fst snd] in B1, B2, B3.
  rewrite (vassert_true (0 <? v1)), bind_Ret by lia.
  rewrite (vassert_true (0 <? v2)), bind_Ret by lia.
  rewrite (vassert_true (v1 <=? v2)), bind_Ret by lia.
  destruct (Z.leb_spec (bh_next bh) v1) as [Hge|Hlt].
  { exists bh, u. split; [done|]. split; [done|]. split; [apply moved_refl|]. split; [done|].
    apply (sunk_stop b bh u Hs Hu Hh). intros v Hv Hpv.
    apply (parent_child bh s (sh_geo _ _ Hs)) in Hpv; [|lia|unfold UINT_MAX; lia].
    rewrite Ec in Hpv. simpl in Hpv. lia. }
  destruct (sh_full _ _ Hs v1 ltac:(lia)) as [q1 Hq1].
  rewrite (shape_nonnull s bh v1 q1 Hs), bind_Ret by (done || lia).
  destruct (best_child_ok bh u q1 Hs Hu) as (c & q & E & Hc & Pc & Gc & Hmin);
    rewrite ?Ec; [done|done|]. rewrite Ec in E. cbn [fst snd] in E. rewrite E, bind_Ret.
  pose proof (parent_below bh s (sh_geo _ _ Hs) c ltac:(lia)) as Hpc.
  rewrite (vassert_true (c <? _)), bind_Ret by lia.
  rewrite (shape_nonnull s bh c q Hs), bind_Ret by (done || lia).
  destruct (cmp p q) eqn:Hpq.
  - exists bh, u. split; [done|]. split; [done|]. split; [apply moved_refl|]. split; [done|].
    apply (sunk_stop b bh u Hs Hu Hh). intros v Hv Hpv.
    apply (not_above_trans bh v c u); [by exists q|by apply Hmin|].
    intros a d Ha Hd. apply cmp_asym. congruence.
  - destruct (swap_ok s bh u c Hs Hu ltac:(lia) ltac:(lia)) as (bh1 & -> & Hs1 & Hm1 & G1).
    rewrite bind_Ret.
    assert (Hk : sunk false bh1 c)
      by (apply (sunk_down b bh bh1 u c p q); try done; [apply Hm1|lia]).
    destruct (IH false bh1 c Hs1) as (bh2 & u2 & E2 & Hs2 & Hm2 & Hu2 & Hhp);
      [rewrite (mv_next _ _ Hm1); lia|rewrite (mv_next _ _ Hm1); lia|done|].
    exists bh2, u2. split; [done|]. split; [done|]. split; [by eapply moved_trans|].
    rewrite (mv_next _ _ Hm1) in Hu2. done.
Qed.

Lemma settle_ok b bh u :
  shape s bh -> 1 <= u < bh_next bh -> hole b bh u ->
  exists bh', settle cmp bh u = Ok bh' /\ shape s bh' /\ moved bh bh' /\ heap bh'.
Proof.
  intros Hs Hu Hh. unfold settle.
  destruct (trickleup_ok b bh u Hs Hu Hh) as (bh1 & u1 & -> & Hs1 & Hm1 & Hu1 & Hk1).
  rewrite bind_Ret. rewrite <- (mv_next _ _ Hm1) in Hu1. destruct (sh_full _ _ Hs1 u1 Hu1) as [p1 Hp1].
  rewrite (vassert_true (u1 <? _)), bind_Ret by lia.
  rewrite (vassert_true (0 <? u1)), bind_Ret by lia.
  rewrite (shape_nonnull s bh1 u1 p1 Hs1 Hu1 Hp1), bind_Ret.
  unfold binheap_trickledown.
  rewrite (vassert_true (u1 <? _)), bind_Ret by lia.
  rewrite (shape_nonnull s bh1 u1 p1 Hs1 Hu1 Hp1), bind_Ret.
  destruct (trickledown_loop_ok b (Z.to_nat (bh_next bh1)) bh1 u1 Hs1 Hu1)
    as (bh2 & u2 & -> & Hs2 & Hm2 & Hu2 & Hh2); [lia|done|].
  rewrite bind_Ret. rewrite <- (mv_next _ _ Hm2) in Hu2. destruct (sh_full _ _ Hs2 u2 Hu2) as [p2 Hp2].
  rewrite (vassert_true (u2 <? _)), bind_Ret by lia.
  rewrite (vassert_true (0 <? u2)), bind_Ret by lia.
  rewrite (shape_nonnull s bh2 u2 p2 Hs2 Hu2 Hp2), bind_Ret.
  exists bh2. split; [done|]. split; [done|]. split; [by eapply moved_trans|done].
Qed.

End Order.

End HeapThm.
