(* ===== verification/BinHeapOps.v ===== *)
(** The binary heap, operations: insertion, deletion and reordering refine a
    set of elements with its minimum. *)
From S2P Require Import Prelude BinHeap BinHeapInv BinHeapThm.
Import BinHeap HeapTree HeapInv HeapThm.

Module HeapOps.

(** [bh] is a heap of the elements of [S]. *)
Definition heap_of (s : Z) (cmp : elt -> elt -> bool) (bh : binheap) (S : gset elt) : Prop :=
  shape s bh /\ heap s cmp bh /\ forall p, p ∈ S <-> inside bh p.

(** Nothing is told to the elements outside [S], other than [p]. *)
Definition untold (bh bh' : binheap) (S : gset elt) (p : elt) : Prop :=
  forall x, x ∉ S -> x <> p -> bh_idx bh' !! x = bh_idx bh !! x.

Section Ops.

Context (s : Z).

(** Cells below [next] as before, whatever the rows. *)
Definition same_cells (bh bh' : binheap) : Prop :=
  bh_next bh' = bh_next bh /\ bh_idx bh' = bh_idx bh /\
  forall u, 0 <= u < bh_next bh -> get bh' u = get bh u.

Lemma same_inside bh bh' p : same_cells bh bh' -> inside bh' p <-> inside bh p.
Proof.
  intros (Hn & _ & G). unfold inside. rewrite Hn.
  split; intros (u & Hu & E); exists u; split; try done; [rewrite <- G|rewrite G]; done || lia.
Qed.

Lemma same_heap cmp bh bh' :
  shape s bh -> same_cells bh bh' -> heap s cmp bh -> heap s cmp bh'.
Proof.
  intros Hs (Hn & _ & G) H v Hv p q. rewrite Hn in Hv.
  pose proof (parent_below bh s (sh_geo _ _ Hs) v ltac:(lia)).
  rewrite !G by lia. by apply H.
Qed.

Lemma same_shape bh bh' k :
  shape s bh -> same_cells bh bh' -> geometry bh' s -> rows_are bh' k -> (1 <= k)%nat ->
  bh_next bh' <= bh_length bh' <= 2 ^ 31 -> (bh_next bh = 1 -> get bh' 1 = None) ->
  shape s bh'.
Proof.
  intros [_ _ _ Hnx Hf _ Hix] (Hn & Hi & G) Hg Hr Hk Hl Hno.
  split; rewrite ?Hn; try done; try lia.
  - by exists k.
  - intros u Hu. rewrite G by lia. by apply Hf.
  - intros u p Hu. rewrite G, Hi by lia. by apply Hix.
Qed.

Lemma addrow_shape bh :
  shape s bh -> bh_length bh < 2 ^ 31 ->
  exists bh', binheap_addrow bh = Ok bh' /\ shape s bh' /\ same_cells bh bh' /\
    bh_length bh' = bh_length bh + ROW_WIDTH.
Proof.
  intros Hs Hl. assert (Hs' := Hs). destruct Hs' as [Hg (k & Hk & Hr) Hlen Hnx _ Hno _].
  destruct (addrow_ok bh k Hr Hk Hl) as (a & E & Hr' & G).
  eexists. split; [exact E|]. pose proof (shape_len s bh Hs) as H1.
  assert (Hsame : same_cells bh (set_length (set_array bh a) (bh_length bh + ROW_WIDTH))).
  { split; [done|]. split; [done|]. intros u Hu. apply G. lia. }
  split; [|by split].
  apply (same_shape bh _ (S k)); try done; [by destruct Hg|lia| |].
  - simpl. split; [rewrite row_width; lia|]. destruct Hr as [Hr _]. rewrite Hr, row_width in *. lia.
  - intros E1. rewrite G by lia. by apply Hno.
Qed.

(** [bh] with [p] in a new cell at the end. *)
Definition appended (bh bh' : binheap) (p : elt) : Prop :=
  bh_next bh' = bh_next bh + 1 /\ get bh' (bh_next bh) = Some p /\
  (forall u, 1 <= u < bh_next bh -> get bh' u = get bh u) /\
  (forall x, x <> p -> bh_idx bh' !! x = bh_idx bh !! x).

Lemma append_ok bh p :
  shape s bh -> bh_next bh < bh_length bh -> ~ inside bh p ->
  exists bh2 bh', set_A (set_next bh (u32 (bh_next bh + 1))) (bh_next bh) (Some p) = Ok bh2 /\
    binheap_update bh2 (bh_next bh) = Ok bh' /\ shape s bh' /\ appended bh bh' p.
Proof.
  intros Hs Hlt Hp. assert (Hs' := Hs). destruct Hs' as [Hg (k & Hk & Hr) Hlen Hnx Hf Hno Hix].
  rewrite u32_small by lia.
  set (u := bh_next bh) in *. set (bh1 := set_next bh (u + 1)).
  destruct (set_A_ok bh1 k u (Some p) Hr ltac:(simpl; lia)) as (a & E & Hr' & G).
  eexists _, _. split; [exact E|]. unfold binheap_update.
  change (bh_next (set_array bh1 a)) with (u + 1).
  rewrite (vassert_true (_ <? _)), bind_Ret by lia.
  assert (Gu : get (set_array bh1 a) u = Some p) by (rewrite G by lia; by rewrite decide_True).
  assert (Go : forall v, 1 <= v < u -> get (set_array bh1 a) v = get bh v).
  { intros v Hv. rewrite G by lia. rewrite decide_False by lia. done. }
  unfold A_nonnull. rewrite (A_get _ k) by (done || simpl; lia). rewrite bind_Ret, Gu.
  unfold mret, res_ret. rewrite bind_Ret. split; [reflexivity|]. split.
  - split; simpl; try (done || lia); [by destruct Hg|by exists k|..].
    + intros v Hv. rewrite get_set_idx. destruct (decide (v = u)) as [->|]; [by exists p|].
      rewrite Go by lia. apply Hf. lia.
    + intros v x Hv. rewrite get_set_idx. destruct (decide (v = u)) as [->|].
      * rewrite Gu. intros [= <-]. by rewrite lookup_insert_eq.
      * rewrite Go by lia. intros Hx. rewrite lookup_insert_ne; [apply Hix; [lia|done]|].
        intros ->. apply Hp. exists v. split; [lia|done].
  - split; [done|]. split; [exact Gu|]. split; [exact Go|].
    intros x Hx. simpl. by rewrite lookup_insert_ne.
Qed.

(** ** Insertion *)

Lemma insert_ok cmp `{!HeapOrder cmp} bh S p :
  heap_of s cmp bh S -> p ∉ S -> bh_next bh < 2 ^ 31 ->
  exists bh', binheap_insert cmp bh p = Ok bh' /\ heap_of s cmp bh' ({[p]} ∪ S) /\
    bh_next bh' = bh_next bh + 1 /\ untold bh bh' S p.
Proof.
  intros (Hs & Hh & HS) Hp Hlt. pose proof (sh_next _ _ Hs) as Hnx.
  unfold binheap_insert. rewrite (vassert_true (_ <=? _)), bind_Ret by lia.
  assert (Hrow : exists bh1, (if bh_length bh =? bh_next bh then binheap_addrow bh else mret bh) = Ok bh1 /\
    shape s bh1 /\ same_cells bh bh1 /\ bh_next bh1 < bh_length bh1).
  { destruct (Z.eqb_spec (bh_length bh) (bh_next bh)) as [E|E].
    - destruct (addrow_shape bh Hs ltac:(lia)) as (bh1 & E1 & Hs1 & Hc1 & Hl1).
      exists bh1. split_and!; try done. destruct Hc1 as [-> _]. rewrite Hl1, row_width. lia.
    - exists bh. split; [done|]. split; [done|]. split; [done|lia]. }
  destruct Hrow as (bh1 & -> & Hs1 & Hc1 & Hlt1). rewrite bind_Ret.
  rewrite (vassert_true (_ <? _)), bind_Ret by lia. cbv zeta.
  assert (Hp1 : ~ inside bh1 p) by (rewrite (same_inside bh bh1 p Hc1), <- HS; done).
  destruct (append_ok bh1 p Hs1 Hlt1 Hp1) as (bh2 & bh3 & -> & E & Hs3 & Hap).
  rewrite bind_Ret, E, bind_Ret. destruct Hap as (Hn3 & Gu & Go & Gx).
  set (u := bh_next bh1) in *. assert (Hu1 : 1 <= u) by (pose proof (sh_next _ _ Hs1); lia).
  assert (Hh1 := same_heap cmp bh bh1 Hs Hc1 Hh).
  assert (Hhole : hole s cmp true bh3 u).
  { split.
    - intros v Hv Hvu _ a b. rewrite Hn3 in Hv.
      pose proof (parent_below bh s (sh_geo _ _ Hs) v ltac:(lia)).
      rewrite !Go by lia. apply Hh1. lia.
    - intros Hu2 v Hv Ev. rewrite Hn3 in Hv.
      pose proof (parent_below bh s (sh_geo _ _ Hs) v ltac:(lia)). lia. }
  destruct (trickleup_ok s cmp true bh3 u Hs3 ltac:(lia) Hhole)
    as (bh4 & u4 & -> & Hs4 & Hm4 & _ & Hk4 & _).
  rewrite bind_Ret. cbv beta iota. pose proof (mv_next _ _ Hm4) as Hn4.
  rewrite (vassert_true (_ <? _)), bind_Ret by lia.
  destruct (sh_full _ _ Hs4 u ltac:(lia)) as [q Hq].
  rewrite (shape_nonnull s bh4 u q Hs4), bind_Ret by (done || lia).
  assert (Hin : forall x, inside bh3 x <-> x = p \/ x ∈ S).
  { intros x. rewrite HS, <- (same_inside bh bh1 x Hc1). unfold inside. rewrite Hn3. split.
    - intros (v & Hv & Ex). destruct (decide (v = u)) as [->|]; [left; congruence|].
      right. exists v. rewrite Go in Ex by lia. split; [lia|done].
    - intros [->|(v & Hv & Ex)]; [exists u; split; [lia|done]|].
      exists v. rewrite Go by lia. split; [lia|done]. }
  exists bh4. split; [done|]. split; [|split; [destruct Hc1 as [Hc1 _]; lia|]].
  - split; [done|]. split; [intros v Hv; apply Hk4; [done|by left]|].
    intros x. by rewrite (mv_inside _ _ Hm4), elem_of_union, elem_of_singleton, Hin.
  - intros x HxS Hxp. rewrite (mv_idx _ _ Hm4) by (rewrite Hin; tauto). rewrite Gx by done.
    by destruct Hc1 as (_ & -> & _).
Qed.

(** ** The root *)

(** Every element is at or below the root. *)
Lemma root_minimal cmp `{!HeapOrder cmp} bh v p r :
  shape s bh -> heap s cmp bh -> 1 <= v < bh_next bh -> get bh v = Some p ->
  get bh 1 = Some r -> cmp p r = false.
Proof.
  intros Hs Hh Hv Hp Hr. revert p Hp.
  induction (Z.lt_wf 0 v) as [v _ IH]; intros p Hp.
  destruct (decide (v = 1)) as [->|Hne].
  { assert (p = r) as -> by congruence. by apply cmp_irrefl. }
  pose proof (parent_below bh s (sh_geo _ _ Hs) v ltac:(lia)) as Hpv.
  destruct (sh_full _ _ Hs (parent_at s v) ltac:(lia)) as [q Hq].
  apply (cmp_negtrans _ q); [by apply (Hh v ltac:(lia))|].
  apply (IH (parent_at s v)); [lia|lia|done].
Qed.

Lemma root_ok cmp `{!HeapOrder cmp} bh S :
  heap_of s cmp bh S ->
  exists r, binheap_root bh = Ok r /\
  match r with
  | None => S = ∅
  | Some r => r ∈ S /\ forall p, p ∈ S -> cmp p r = false
  end.
Proof.
  intros (Hs & Hh & HS). pose proof (sh_next _ _ Hs) as Hnx. pose proof (shape_len s bh Hs).
  exists (get bh 1). split; [apply (shape_A s bh 1 Hs); lia|].
  destruct (decide (bh_next bh = 1)) as [E|E].
  - rewrite (sh_none _ _ Hs E). apply set_eq. intros x. rewrite HS.
    split; [intros (u & Hu & _); lia|set_solver].
  - destruct (sh_full _ _ Hs 1 ltac:(lia)) as [r Hr]. rewrite Hr. split.
    + apply HS. exists 1. split; [lia|done].
    + intros p (u & Hu & Hp)%HS. by apply (root_minimal cmp bh u p r).
Qed.

(** ** Deletion *)

Lemma set_A_next bh u p bh' : set_A bh u p = Ok bh' -> bh_next bh' = bh_next bh.
Proof.
  unfold set_A. intros H. apply bind_Ok in H as (r & _ & H).
  apply bind_Ok in H as (r' & _ & H). by injection H as <-.
Qed.

Lemma delete_last_ok cmp bh S p :
  heap_of s cmp bh S -> 1 < bh_next bh -> get bh (bh_next bh - 1) = Some p ->
  exists bh', set_A (set_next (set_idx bh (<[p := BINHEAP_NOIDX]> (bh_idx bh)))
      (bh_next bh - 1)) (bh_next bh - 1) None = Ok bh' /\
    heap_of s cmp bh' (S ∖ {[p]}) /\ bh_idx bh' !! p = Some BINHEAP_NOIDX /\
    untold bh bh' S p.
Proof.
  intros (Hs & Hh & HS) Hlt Hp. assert (Hs' := Hs).
  destruct Hs' as [Hg (k & Hk & Hr) Hlen Hnx Hf Hno Hix].
  set (n := bh_next bh - 1) in *. set (ix := <[p := BINHEAP_NOIDX]> (bh_idx bh)).
  set (bh1 := set_next (set_idx bh ix) n).
  destruct (set_A_ok bh1 k n None Hr ltac:(simpl; lia)) as (a & E & Hr' & G).
  exists (set_array bh1 a). split; [exact E|].
  split; [|split; [by apply lookup_insert_eq|intros x _ Hx; by apply lookup_insert_ne]].
  assert (Go : forall v, 1 <= v < n -> get (set_array bh1 a) v = get bh v).
  { intros v Hv. rewrite G by lia. by rewrite decide_False by lia. }
  split; [|split].
  - split; simpl; try (done || lia); [by destruct Hg|by exists k|..].
    + intros u Hu. rewrite Go by lia. apply Hf. lia.
    + intros En. rewrite G by lia. by rewrite decide_True.
    + intros u x Hu. rewrite Go by lia. intros Hx. unfold ix. rewrite lookup_insert_ne.
      { apply Hix; [lia|done]. }
      intros ->. assert (u = n); [|lia]. apply (shape_inj s bh u n x Hs); try done; lia.
  - intros v Hv x y. simpl in Hv.
    pose proof (parent_below bh s Hg v ltac:(lia)). rewrite !Go by lia. apply Hh. lia.
  - intros x. rewrite elem_of_difference, elem_of_singleton, HS. unfold inside. simpl. split.
    + intros [(u & Hu & Hx) Hne]. exists u. assert (u <> n) by congruence.
      rewrite Go by lia. split; [lia|done].
    + intros (u & Hu & Hx). rewrite Go in Hx by lia. split; [exists u; split; [lia|done]|].
      intros ->. assert (u = n); [|lia]. apply (shape_inj s bh u n p Hs); try done; lia.
Qed.

(** The last element in the place of the one at [i]. *)
Definition replaced (bh bh' : binheap) (i : Z) (p : elt) : Prop :=
  bh_next bh' = bh_next bh - 1 /\
  (forall u, 1 <= u < bh_next bh - 1 ->
     get bh' u = if decide (u = i) then get bh (bh_next bh - 1) else get bh u) /\
  bh_idx bh' !! p = Some BINHEAP_NOIDX /\
  (forall x, x <> p -> ~ inside bh x -> bh_idx bh' !! x = bh_idx bh !! x).

Lemma replace_ok bh i p q :
  shape s bh -> 1 <= i < bh_next bh - 1 -> get bh i = Some p ->
  get bh (bh_next bh - 1) = Some q ->
  let bh1 := set_next (set_idx bh (<[p := BINHEAP_NOIDX]> (bh_idx bh))) (bh_next bh - 1) in
  exists bh2 bh3 bh4, set_A bh1 i (Some q) = Ok bh2 /\
    set_A bh2 (bh_next bh2) None = Ok bh3 /\ binheap_update bh3 i = Ok bh4 /\
    shape s bh4 /\ replaced bh bh4 i p.
Proof.
  intros Hs Hi Hp Hq bh1. assert (Hs' := Hs).
  destruct Hs' as [Hg (k & Hk & Hr) Hlen Hnx Hf Hno Hix].
  set (n := bh_next bh - 1) in *. set (ix := <[p := BINHEAP_NOIDX]> (bh_idx bh)).
  destruct (set_A_ok bh1 k i (Some q) Hr ltac:(simpl; lia)) as (a & E & Hr2 & G1).
  destruct (set_A_ok (set_array bh1 a) k n None Hr2 ltac:(simpl; lia)) as (a2 & E2 & Hr3 & G2).
  set (bh3 := set_array (set_array bh1 a) a2) in *.
  assert (Go : forall u, 1 <= u < n -> get bh3 u = if decide (u = i) then Some q else get bh u).
  { intros u Hu. rewrite G2, decide_False, G1 by lia. done. }
  assert (Gi : get bh3 i = Some q) by (rewrite Go by lia; by rewrite decide_True).
  eexists _, _, _. split; [exact E|]. split; [exact E2|].
  unfold binheap_update. change (bh_next bh3) with n.
  rewrite (vassert_true (_ <? _)), bind_Ret by lia.
  unfold A_nonnull. rewrite (A_get _ k) by (done || simpl; lia). rewrite bind_Ret, Gi.
  unfold mret, res_ret. rewrite bind_Ret. split; [reflexivity|].
  assert (Hpq : p <> q).
  { intros ->. pose proof (shape_inj s bh i n q Hs ltac:(lia) ltac:(lia) Hp Hq). lia. }
  split.
  - split; simpl; try (done || lia); [by destruct Hg|by exists k|..].
    + intros u Hu. rewrite get_set_idx, Go by lia.
      destruct (decide (u = i)); [by exists q|]. apply Hf. lia.
    + intros u x Hu. rewrite get_set_idx, Go by lia. destruct (decide (u = i)) as [->|Hui].
      * intros [= <-]. by rewrite lookup_insert_eq.
      * intros Hx. assert (q <> x).
        { intros ->. pose proof (shape_inj s bh u n x Hs ltac:(lia) ltac:(lia) Hx Hq). lia. }
        assert (p <> x).
        { intros ->. by pose proof (shape_inj s bh u i x Hs ltac:(lia) ltac:(lia) Hx Hp). }
        unfold ix. rewrite !lookup_insert_ne by done. apply Hix; [lia|done].
  - split; [done|]. split.
    + intros u Hu. rewrite get_set_idx, Go by lia. fold n. by rewrite Hq.
    + split.
      * simpl. rewrite lookup_insert_ne by done. apply lookup_insert_eq.
      * intros x Hxp Hx. simpl. unfold ix. rewrite !lookup_insert_ne; [done|done|].
        intros ->. apply Hx. exists n. split; [lia|done].
Qed.

Lemma replaced_hole cmp `{!HeapOrder cmp} bh bh' i p :
  shape s bh -> shape s bh' -> heap s cmp bh -> 1 <= i < bh_next bh - 1 ->
  replaced bh bh' i p -> hole s cmp false bh' i.
Proof.
  intros Hs Hs' Hh Hi (Hn & G & _). split.
  - intros v Hv Hvi [|Hb]; [done|]. rewrite Hn in Hv.
    pose proof (parent_below bh s (sh_geo _ _ Hs) v ltac:(lia)).
    intros a b. rewrite !G, !decide_False by (done || lia). apply Hh. lia.
  - intros Hi2 v Hv Hpv. rewrite Hn in Hv.
    pose proof (parent_below bh s (sh_geo _ _ Hs) v ltac:(lia)).
    pose proof (parent_below bh s (sh_geo _ _ Hs) i ltac:(lia)).
    intros a b. rewrite !G, !decide_False by (done || lia).
    destruct (sh_full _ _ Hs i ltac:(lia)) as [c Hc].
    apply (not_above_trans cmp bh v i); [by exists c| |].
    + rewrite <- Hpv. apply Hh. lia.
    + apply Hh. lia.
Qed.

Lemma shrink_ok bh :
  shape s bh -> exists bh', shrink bh = Ok bh' /\ shape s bh' /\ same_cells bh bh'.
Proof.
  intros Hs. assert (Hs' := Hs). destruct Hs' as [Hg (k & Hk & Hr) Hlen Hnx Hf Hno Hix].
  unfold shrink. rewrite u32_small by (rewrite row_width; lia).
  destruct (Z.leb_spec (bh_next bh + 2 * ROW_WIDTH) (bh_length bh)) as [Hle|]; [|by exists bh].
  assert (Hr' := Hr). destruct Hr' as (Hl & Hk2 & Hso & Hn).
  rewrite row_width in *.
  assert (Hi : Z.to_nat (Z.shiftr (bh_length bh - 1) ROW_SHIFT) = (k - 1)%nat).
  { unfold ROW_SHIFT. rewrite Z.shiftr_div_pow2 by lia.
    replace ((bh_length bh - 1) / 2 ^ 16) with (Z.of_nat (k - 1)); [apply Nat2Z.id|].
    apply (Z.div_unique _ _ _ (2 ^ 16 - 1)); lia. }
  unfold ROW. rewrite Hi. destruct (Hso (k - 1)%nat ltac:(lia)) as [row Hrow].
  rewrite Hrow. simpl deref. rewrite bind_Ret. eexists. split; [reflexivity|].
  set (a := <[_ := None]> _). set (bh' := set_length _ _).
  assert (Hsame : same_cells bh bh').
  { split; [done|]. split; [done|]. intros u Hu.
    unfold get, A, ROW. simpl. unfold a. rewrite list_lookup_insert_ne; [done|].
    assert (Z.shiftr u ROW_SHIFT < Z.of_nat (k - 1)); [|unfold ROW_SHIFT in *; rewrite Z.shiftr_div_pow2 in * by lia; pose proof (Z.div_pos u (2 ^ 16)); lia].
    unfold ROW_SHIFT. rewrite Z.shiftr_div_pow2 by lia. apply Z.div_lt_upper_bound; lia. }
  split; [|done]. apply (same_shape bh bh' (k - 1)); try done; [by destruct Hg| |lia|simpl; lia|].
  - split; [simpl; rewrite row_width; lia|]. simpl. unfold a. rewrite length_insert.
    split; [lia|]. split.
    + intros j Hj. rewrite list_lookup_insert_ne by lia. apply Hso. lia.
    + intros j Hj. destruct (decide (j = (k - 1)%nat)) as [->|].
      * by rewrite list_lookup_insert_eq by lia.
      * rewrite list_lookup_insert_ne by lia. apply Hn. lia.
  - intros E. destruct (decide (bh_next bh = 1)) as [_|]; [|lia].
    unfold get, A, ROW. simpl. unfold a. rewrite list_lookup_insert_ne.
    + specialize (Hno E). exact Hno.
    + change (Z.to_nat (Z.shiftr 1 ROW_SHIFT)) with 0%nat. lia.
Qed.

Lemma delete_ok cmp `{!HeapOrder cmp} bh S i p :
  heap_of s cmp bh S -> 1 <= i < bh_next bh -> get bh i = Some p ->
  exists bh', binheap_delete cmp bh i = Ok bh' /\ heap_of s cmp bh' (S ∖ {[p]}) /\
    bh_idx bh' !! p = Some BINHEAP_NOIDX /\ bh_next bh' = bh_next bh - 1 /\
    untold bh bh' S p.
Proof.
  intros H Hi Hp. assert (H' := H). destruct H' as (Hs & Hh & HS).
  unfold binheap_delete, ROOT_IDX.
  rewrite (vassert_true (1 <? _)), bind_Ret by lia.
  rewrite (vassert_true (i <? _)), bind_Ret by lia.
  rewrite (vassert_true (0 <? i)), bind_Ret by lia.
  rewrite (shape_nonnull s bh i p Hs Hi Hp), bind_Ret. cbv zeta. cbn [bh_next set_idx set_next].
  destruct (Z.eqb_spec i (bh_next bh - 1)) as [->|Hne].
  { destruct (delete_last_ok cmp bh S p H ltac:(lia) Hp) as (bh' & E & Hh' & Hx & Hu).
    exists bh'. split_and!; try done. by apply set_A_next in E. }
  destruct (sh_full _ _ Hs (bh_next bh - 1) ltac:(lia)) as [q Hq].
  set (bh1 := set_next _ _).
  assert (EA : A bh1 (bh_next bh - 1) = Ok (Some q)).
  { rewrite <- Hq. apply (shape_A s bh _ Hs). pose proof (sh_next _ _ Hs). lia. }
  change (bh_next bh1) with (bh_next bh - 1). rewrite EA, bind_Ret.
  destruct (replace_ok bh i p q Hs ltac:(lia) Hp Hq) as (bh2 & bh3 & bh4 & E2 & E3 & E4 & Hs4 & Hr4).
  fold bh1 in E2. rewrite E2, bind_Ret, E3, bind_Ret, E4, bind_Ret.
  pose proof (replaced_hole cmp bh bh4 i p Hs Hs4 Hh ltac:(lia) Hr4) as Hhole.
  destruct Hr4 as (Hn4 & G4 & X4 & U4).
  destruct (settle_ok s cmp false bh4 i Hs4 ltac:(lia) Hhole) as (bh5 & -> & Hs5 & Hm5 & Hh5).
  rewrite bind_Ret.
  destruct (shrink_ok bh5 Hs5) as (bh6 & -> & Hs6 & Hc6).
  assert (Hin : forall x, inside bh4 x <-> inside bh x /\ x <> p).
  { intros x. unfold inside. rewrite Hn4. split.
    - intros (u & Hu & Hx). rewrite G4 in Hx by lia. destruct (decide (u = i)) as [->|].
      + split; [exists (bh_next bh - 1); split; [lia|done]|]. intros ->.
        pose proof (shape_inj s bh i (bh_next bh - 1) p Hs Hi ltac:(lia) Hp Hx). lia.
      + split; [exists u; split; [lia|done]|]. intros ->.
        by pose proof (shape_inj s bh u i p Hs ltac:(lia) Hi Hx Hp).
    - intros [(u & Hu & Hx) Hxp]. destruct (decide (u = bh_next bh - 1)) as [->|].
      + exists i. rewrite G4 by lia. rewrite decide_True by done. split; [lia|done].
      + exists u. rewrite G4 by lia. rewrite decide_False by congruence. split; [lia|done]. }
  exists bh6. split; [done|]. split.
  - split; [done|]. split; [by apply (same_heap cmp bh5 bh6)|].
    intros x. rewrite (same_inside bh5 bh6 x Hc6), (mv_inside _ _ Hm5), Hin.
    by rewrite elem_of_difference, elem_of_singleton, HS.
  - destruct Hc6 as (Hn6 & E6 & _). rewrite E6, Hn6, (mv_next _ _ Hm5), Hn4. split; [|split; [done|]].
    + rewrite (mv_idx _ _ Hm5); [done|]. rewrite Hin. tauto.
    + intros x HxS Hxp. rewrite E6, (mv_idx _ _ Hm5), U4; try done; rewrite ?Hin, <- ?HS; tauto.
Qed.

(** ** Reordering *)

(** After the key of [p] has changed, [cmp'] agrees with [cmp] on the others. *)
Definition agree_but (p : elt) (cmp cmp' : elt -> elt -> bool) : Prop :=
  forall a b, a <> p -> b <> p -> cmp' a b = cmp a b.

Lemma reorder_ok cmp cmp' `{!HeapOrder cmp, !HeapOrder cmp'} bh S i p :
  heap_of s cmp bh S -> 1 <= i < bh_next bh -> get bh i = Some p ->
  agree_but p cmp cmp' ->
  exists bh', binheap_reorder cmp' bh i = Ok bh' /\ heap_of s cmp' bh' S /\
    bh_next bh' = bh_next bh /\ untold bh bh' S p.
Proof.
  intros (Hs & Hh & HS) Hi Hp Hag. unfold binheap_reorder, ROOT_IDX.
  rewrite (vassert_true (1 <? _)), bind_Ret by lia.
  rewrite (vassert_true (i <? _)), bind_Ret by lia.
  rewrite (vassert_true (0 <? i)), bind_Ret by lia.
  rewrite (shape_nonnull s bh i p Hs Hi Hp), bind_Ret.
  assert (Hother : forall u a, 1 <= u < bh_next bh -> u <> i -> get bh u = Some a -> a <> p).
  { intros u a Hu Hui Ha ->. by apply Hui, (shape_inj s bh u i p Hs). }
  assert (Hhole : hole s cmp' false bh i).
  { split.
    - intros v Hv Hvi [|Hb]; [done|].
      pose proof (parent_below bh s (sh_geo _ _ Hs) v ltac:(lia)).
      intros a b Ha Hb'. rewrite Hag; [by apply (Hh v Hv)|..].
      + apply (Hother v); [lia|done|done].
      + apply (Hother (parent_at s v)); [lia|done|done].
    - intros Hi2 v Hv Hpv.
      pose proof (parent_below bh s (sh_geo _ _ Hs) v ltac:(lia)).
      pose proof (parent_below bh s (sh_geo _ _ Hs) i ltac:(lia)).
      intros a b Ha Hb. rewrite Hag.
      + apply (cmp_negtrans _ p).
        * apply (Hh v Hv); [done|by rewrite Hpv].
        * by apply (Hh i ltac:(lia)).
      + apply (Hother v); [lia|lia|done].
      + apply (Hother (parent_at s i)); [lia|lia|done]. }
  destruct (settle_ok s cmp' false bh i Hs Hi Hhole) as (bh' & -> & Hs' & Hm & Hh').
  exists bh'. split; [done|]. split; [|split; [by apply Hm|]].
  - split; [done|]. split; [done|]. intros x. by rewrite (mv_inside _ _ Hm), HS.
  - intros x Hx _. apply (mv_idx _ _ Hm). by rewrite <- HS.
Qed.

End Ops.

End HeapOps.
