(* ===== verification/BinHeapProps.v ===== *)
(** The binary heap, theorems: the tree of pages, the refinement of a set with
    its minimum, and reordering. *)
From S2P Require Import Prelude BinHeap BinHeapInv BinHeapThm BinHeapOps.
Import BinHeap HeapTree HeapInv HeapThm HeapOps.

Module HeapProps.

(** ** A new heap *)

Lemma page_shift_of_ok fuel u s :
  1 <= u <= s -> (Z.to_nat (s - u) <= fuel)%nat -> page_shift_of fuel u (2 ^ s) = Ok s.
Proof.
  revert u. induction fuel as [|fuel IH]; intros u Hu Hf; simpl;
    rewrite Z.shiftl_mul_pow2, Z.mul_1_l by lia.
  - assert (u = s) as -> by lia. by rewrite Z.eqb_refl.
  - destruct (Z.eqb_spec (2 ^ u) (2 ^ s)) as [E|E].
    + apply Z.pow_inj_r in E; [by subst|lia..].
    + apply IH; [|lia]. assert (u <> s) by congruence. lia.
Qed.

Lemma new_ok s cmp :
  2 <= s <= 19 ->
  exists bh, binheap_new (8 * 2 ^ s) = Ok bh /\ heap_of s cmp bh ∅ /\ bh_next bh = 1 /\ bh_idx bh = ∅.
Proof.
  intros Hs. assert (Hp : 2 ^ 2 <= 2 ^ s <= 2 ^ 19) by (split; apply pow2_le; lia).
  unfold binheap_new. replace (8 * 2 ^ s / 8) with (2 ^ s)
    by (rewrite Z.mul_comm, Z.div_mul; lia). cbv zeta.
  rewrite (u32_small (2 ^ s - 1)) by lia.
  rewrite (vassert_true (Z.land _ _ =? 0)), bind_Ret.
  2:{ apply Z.eqb_eq. rewrite land_mask by lia. by rewrite Z.mod_same by lia. }
  rewrite page_shift_of_ok, bind_Ret by lia.
  rewrite (vassert_true (_ <=? _)), bind_Ret by (rewrite row_width; lia).
  set (bh0 := mkBH _ _ _ _ _ _ _).
  assert (E : binheap_addrow bh0 = Ok (set_length (set_array bh0
    (Some ∅ :: replicate 15 None)) ROW_WIDTH)) by reflexivity.
  rewrite E, bind_Ret. set (bh1 := set_length _ _).
  assert (Hr : rows_are bh1 1).
  { split; [done|]. split; [simpl; lia|]. split.
    - intros i Hi. assert (i = 0)%nat as -> by lia. by eexists.
    - intros [|i] Hi; [lia|].
      change (replicate 15 (None : option (gmap Z elt)) !! i = Some None).
      apply lookup_replicate_2. change (length (bh_array bh1)) with 16%nat in Hi. lia. }
  destruct (set_A_ok bh1 1 ROOT_IDX None Hr) as (a & E2 & Hr2 & G); [by vm_compute|].
  exists (set_array bh1 a). split; [exact E2|]. split; [|by split]. split; [|split].
  - split; try done.
    + by exists 1%nat.
    + intros u Hu. change (1 <= u < 1) in Hu. lia.
    + intros _. rewrite G by done. by rewrite decide_True.
    + intros u p Hu. change (1 <= u < 1) in Hu. lia.
  - intros v Hv. change (2 <= v < 1) in Hv. lia.
  - intros p. split; [set_solver|]. intros (u & Hu & _). change (1 <= u < 1) in Hu. lia.
Qed.

(** ** Sequences of operations *)

Inductive op : Type :=
  | Insert (p : elt)
  | Delete (p : elt)   (* by the index the client was told *)
  | DeleteRoot.

Definition run_op (cmp : elt -> elt -> bool) (bh : binheap) (o : op) : res binheap :=
  match o with
  | Insert p => binheap_insert cmp bh p
  | Delete p => i ← deref (bh_idx bh !! p); binheap_delete cmp bh i
  | DeleteRoot => binheap_delete cmp bh ROOT_IDX
  end.

Fixpoint run_ops (cmp : elt -> elt -> bool) (bh : binheap) (os : list op) : res binheap :=
  match os with
  | [] => mret bh
  | o :: os => bh ← run_op cmp bh o; run_ops cmp bh os
  end.

(** The sets: [DeleteRoot] removes a minimal element. *)
Inductive spec_op (cmp : elt -> elt -> bool) : gset elt -> op -> gset elt -> Prop :=
  | spec_insert S p : p ∉ S -> spec_op cmp S (Insert p) ({[p]} ∪ S)
  | spec_delete S p : p ∈ S -> spec_op cmp S (Delete p) (S ∖ {[p]})
  | spec_root S r : r ∈ S -> (forall p, p ∈ S -> cmp p r = false) ->
      spec_op cmp S DeleteRoot (S ∖ {[r]}).

Inductive spec_ops (cmp : elt -> elt -> bool) : gset elt -> list op -> gset elt -> Prop :=
  | spec_nil S : spec_ops cmp S [] S
  | spec_cons S o S1 os S2 :
      spec_op cmp S o S1 -> spec_ops cmp S1 os S2 -> spec_ops cmp S (o :: os) S2.

(** What a client must keep to: insert what is not there, delete what is. *)
Definition allowed (S : gset elt) (o : op) : Prop :=
  match o with
  | Insert p => p ∉ S
  | Delete p => p ∈ S
  | DeleteRoot => S <> ∅
  end.

Fixpoint all_allowed (cmp : elt -> elt -> bool) (S : gset elt) (os : list op) : Prop :=
  match os with
  | [] => True
  | o :: os => allowed S o /\ forall S', spec_op cmp S o S' -> all_allowed cmp S' os
  end.

(** The client knows where each element is. *)
Definition told (bh : binheap) (S : gset elt) : Prop :=
  forall p, p ∈ S -> exists i, bh_idx bh !! p = Some i /\ 1 <= i < bh_next bh /\
    get bh i = Some p.

Section Refine.

Context (s : Z) (cmp : elt -> elt -> bool) `{!HeapOrder cmp}.

Lemma heap_told bh S : heap_of s cmp bh S -> told bh S.
Proof.
  intros (Hs & _ & HS) p Hp. apply HS in Hp as (u & Hu & E).
  exists u. split; [by apply (sh_idx _ _ Hs)|done].
Qed.

Lemma run_op_ok bh S o :
  heap_of s cmp bh S -> allowed S o -> bh_next bh < 2 ^ 31 ->
  exists bh' S', run_op cmp bh o = Ok bh' /\ spec_op cmp S o S' /\ heap_of s cmp bh' S' /\
    bh_next bh' <= bh_next bh + 1.
Proof.
  intros H Ha Hlt. destruct o as [p|p|]; simpl in *.
  - destruct (insert_ok s cmp bh S p H Ha Hlt) as (bh' & E & H' & Hn & _).
    exists bh', ({[p]} ∪ S). split_and!; [done|by constructor|done|lia].
  - destruct (heap_told bh S H p Ha) as (i & Ei & Hi & G). rewrite Ei.
    change (deref (Some i)) with (Ok i). rewrite bind_Ret.
    destruct (delete_ok s cmp bh S i p H Hi G) as (bh' & E & H' & _ & Hn & _).
    exists bh', (S ∖ {[p]}). split_and!; [done|by constructor|done|lia].
  - destruct (root_ok s cmp bh S H) as ([r|] & E & Hr); [|done].
    destruct Hr as [Hr Hmin].
    assert (H' := H). destruct H' as (Hs & _ & HS).
    destruct (proj1 (HS r) Hr) as (u & Hu & _).
    destruct (sh_full _ _ Hs 1 ltac:(lia)) as [r' Hr'].
    assert (r' = r) as ->.
    { unfold binheap_root in E. rewrite (shape_A s bh ROOT_IDX Hs) in E
        by (unfold ROOT_IDX; pose proof (shape_len s bh Hs); lia).
      unfold ROOT_IDX in E. congruence. }
    destruct (delete_ok s cmp bh S 1 r H ltac:(lia) Hr') as (bh' & E' & H' & _ & Hn & _).
    exists bh', (S ∖ {[r]}). split_and!; [done|by constructor|done|lia].
Qed.

Lemma run_ops_ok os : forall bh S,
  heap_of s cmp bh S -> all_allowed cmp S os ->
  bh_next bh + Z.of_nat (length os) <= 2 ^ 31 ->
  exists bh' S', run_ops cmp bh os = Ok bh' /\ spec_ops cmp S os S' /\ heap_of s cmp bh' S'.
Proof.
  induction os as [|o os IH]; intros bh S H Ha Hl; simpl in *.
  - exists bh, S. split_and!; [done|constructor|done].
  - destruct Ha as [Ho Ha].
    destruct (run_op_ok bh S o H Ho ltac:(lia)) as (bh1 & S1 & -> & Hsp & H1 & Hn).
    rewrite bind_Ret.
    destruct (IH bh1 S1 H1 (Ha S1 Hsp) ltac:(lia)) as (bh2 & S2 & E & Hsp2 & H2).
    exists bh2, S2. split_and!; [done|by econstructor|done].
Qed.

End Refine.

(** ** A heap of numbers *)

#[export] Instance ltb_order : HeapOrder Pos.ltb.
Proof.
  split.
  - intros a b H. apply Pos.ltb_lt in H. apply Pos.ltb_ge. lia.
  - intros a b c H1 H2. apply Pos.ltb_ge in H1, H2. apply Pos.ltb_ge. lia.
Qed.

(** The order of a client that keeps the key of each structure. *)
Definition by_key (key : elt -> Z) (a b : elt) : bool := key a <? key b.

#[export] Instance by_key_order key : HeapOrder (by_key key).
Proof. split; unfold by_key; intros; lia. Qed.

Definition inserts : list op := [Insert 5; Insert 3; Insert 9; Insert 2; Delete 3; Insert 7]%positive.

Definition some_heap : binheap :=
  match binheap_new 4096 with
  | Ok bh => match run_ops Pos.ltb bh inserts with Ok bh => bh | Fail _ => bh end
  | Fail _ => mkBH [] 0 0 0 0 0 ∅
  end.

(** ** Theorems *)

(** For pages of any power of two of elements, [parent] and [child] are
    inverse: the elements whose parent is [u] are exactly the one or two that
    [child] gives, and [parent] always goes to a smaller index, so that every
    path ends at the root. *)
Theorem binheap_tree bh s (Hg : geometry bh s) u v
    (Hu : 1 <= u < UINT_MAX) (Hv : 2 <= v < UINT_MAX) :
  (parent bh v = Ok u <-> v = fst (child bh u) \/ v = snd (child bh u)) /\
  exists p, parent bh v = Ok p /\ 1 <= p < v.
Proof.
  rewrite (parent_eq bh s Hg v), (child_eq bh s Hg u) by (unfold UINT_MAX in *; lia). split.
  - rewrite <- (parent_child bh s Hg u v) by lia. split; [by intros [= ->]|by intros ->].
  - eexists. split; [done|]. by apply (parent_below bh s Hg); lia.
Qed.

Lemma binheap_tree_witness :
  (parent some_heap 1025 = Ok 257 <->
    1025 = fst (child some_heap 257) \/ 1025 = snd (child some_heap 257)) /\
  parent some_heap 1025 = Ok 257.
Proof.
  split; [|by vm_compute].
  destruct (binheap_tree some_heap 9 ltac:(by split; vm_compute) 257 1025) as [H _];
    [by vm_compute|by vm_compute|exact H].
Defined.

(** C34: A heap refines a set with its minimum.  From [binheap_new], whatever
    sequence of insertions and deletions a client makes, no assertion fails, the
    heap holds the elements of the set, [binheap_root] is one that none belongs
    above, deleting the root deletes such an element, and the index the client
    was last told for each element is where it is. *)
Theorem binheap_refines (s : Z) (Hs : 2 <= s <= 19) cmp (Hc : HeapOrder cmp) (os : list op)
    (Ha : all_allowed cmp ∅ os) (Hl : Z.of_nat (length os) < 2 ^ 31) :
  exists bh bh' S r,
    binheap_new (8 * 2 ^ s) = Ok bh /\ run_ops cmp bh os = Ok bh' /\
    spec_ops cmp ∅ os S /\ told bh' S /\ (forall p, p ∈ S <-> inside bh' p) /\
    binheap_root bh' = Ok r /\
    match r with None => S = ∅ | Some r => r ∈ S /\ forall p, p ∈ S -> cmp p r = false end.
Proof.
  destruct (new_ok s cmp Hs) as (bh & E & H & Hn & _).
  destruct (run_ops_ok s cmp os bh ∅ H Ha ltac:(lia)) as (bh' & S & E' & Hsp & H').
  destruct (root_ok s cmp bh' S H') as (r & Er & Hr).
  exists bh, bh', S, r. split_and!; try done; [by eapply heap_told|apply H'].
Qed.

Lemma binheap_refines_witness :
  exists bh bh' r, binheap_new (8 * 2 ^ 9) = Ok bh /\ run_ops Pos.ltb bh inserts = Ok bh' /\
    binheap_root bh' = Ok (Some r) /\ r = 2%positive.
Proof.
  destruct (binheap_refines 9 ltac:(lia) Pos.ltb ltb_order inserts)
    as (bh & bh' & S & r & E1 & E2 & _ & _ & _ & E3 & _).
  - repeat (split; [set_solver|intros ? Hs; inversion Hs; subst; clear Hs]). done.
  - by vm_compute.
  - exists bh, bh', 2%positive. split; [exact E1|]. split; [exact E2|]. split; [|reflexivity].
    rewrite E3. vm_compute in E1. injection E1 as <-. vm_compute in E2. injection E2 as <-.
    vm_compute in E3. by injection E3 as <-.
Defined.

(** [binheap_delete] of an element tells the client [BINHEAP_NOIDX] for
    it, keeps all the others and leaves a heap, wherever the element was. *)
Theorem binheap_delete_correct s cmp (Hc : HeapOrder cmp) bh S p i
    (H : heap_of s cmp bh S) (Hp : p ∈ S) (Hi : bh_idx bh !! p = Some i) :
  exists bh', binheap_delete cmp bh i = Ok bh' /\ heap_of s cmp bh' (S ∖ {[p]}) /\
    bh_idx bh' !! p = Some BINHEAP_NOIDX /\ bh_next bh' = bh_next bh - 1.
Proof.
  destruct (heap_told s cmp bh S H p Hp) as (j & Ej & Hj & G).
  assert (j = i) as -> by congruence.
  destruct (delete_ok s cmp bh S i p H Hj G) as (bh' & E & H' & X & Hn & _). by exists bh'.
Qed.

Lemma some_heap_of : exists S, heap_of 9 Pos.ltb some_heap S /\ 9%positive ∈ S /\
  bh_idx some_heap !! 9%positive = Some 3.
Proof.
  destruct (new_ok 9 Pos.ltb ltac:(lia)) as (bh & E & H & Hn & _).
  destruct (run_ops_ok 9 Pos.ltb inserts bh ∅ H) as (bh' & S & E' & Hsp & H').
  - repeat (split; [set_solver|intros ? Hs; inversion Hs; subst; clear Hs]). done.
  - rewrite Hn. by vm_compute.
  - assert (bh' = some_heap) as ->.
    { vm_compute in E. injection E as <-. vm_compute in E'. injection E' as <-. by vm_compute. }
    exists S. split; [done|]. split; [|by vm_compute].
    destruct H' as (_ & _ & HS). apply HS. exists 3. by vm_compute.
Qed.

Lemma binheap_delete_correct_witness :
  exists bh', binheap_delete Pos.ltb some_heap 3 = Ok bh' /\
    bh_idx bh' !! 9%positive = Some BINHEAP_NOIDX.
Proof.
  destruct some_heap_of as (S & H & Hp & Hi).
  destruct (binheap_delete_correct 9 Pos.ltb ltb_order some_heap S 9%positive 3 H Hp Hi)
    as (bh' & E & _ & X & _).
  exists bh'. split; [exact E|exact X].
Defined.

(** After the key of one element has changed, in whatever way,
    [binheap_reorder] at its index restores the heap for the new order, with the
    same elements. *)
Theorem binheap_reorder_correct s key key' bh S p i
    (H : heap_of s (by_key key) bh S) (Hp : p ∈ S) (Hi : bh_idx bh !! p = Some i)
    (Hk : forall q, q <> p -> key' q = key q) :
  exists bh', binheap_reorder (by_key key') bh i = Ok bh' /\
    heap_of s (by_key key') bh' S /\ told bh' S.
Proof.
  destruct (heap_told s _ bh S H p Hp) as (j & Ej & Hj & G).
  assert (j = i) as -> by congruence.
  destruct (reorder_ok s (by_key key) (by_key key') bh S i p H Hj G) as (bh' & E & H' & _).
  - intros a b Ha Hb. unfold by_key. by rewrite !Hk.
  - exists bh'. split_and!; [done|done|by eapply heap_told].
Qed.

(** The keys are the numbers themselves; then 9 becomes the smallest. *)
Definition key0 (p : elt) : Z := Zpos p.
Definition key1 (p : elt) : Z := if decide (p = 9%positive) then 0 else Zpos p.

Lemma binheap_reorder_correct_witness :
  exists bh', binheap_reorder (by_key key1) some_heap 3 = Ok bh' /\
    binheap_root bh' = Ok (Some 9%positive).
Proof.
  destruct some_heap_of as (S & H & Hp & Hi).
  destruct (binheap_reorder_correct 9 key0 key1 some_heap S 9%positive 3) as (bh' & E & _).
  - exact H.
  - exact Hp.
  - exact Hi.
  - intros q Hq. unfold key1. by rewrite decide_False.
  - exists bh'. split; [exact E|]. vm_compute in E. injection E as <-. by vm_compute.
Defined.

End HeapProps.
