(* ===== verification/Double.v ===== *)
(** The C type [double]: binary64 as the Standard Library specifies it, without
    the payload of a NaN.  Its order, for timers, and when a sum is a number. *)
From S2P Require Import Prelude.
From Stdlib Require Import SpecFloat.

Module Double.

Definition double : Type := spec_float.

Definition dadd : double -> double -> double := SFadd 53 1024.
Definition dsub : double -> double -> double := SFsub 53 1024.
(** [<], [<=] and [==]: false when an operand is a NaN. *)
Definition dlt : double -> double -> bool := SFltb.
Definition dle : double -> double -> bool := SFleb.
Definition deq : double -> double -> bool := SFeqb.
(** [(double)z] for an integer. *)
Definition of_Z (z : Z) : double := binary_normalize 53 1024 z 0 false.

Definition d0 : double := S754_zero false.
Definition dm1 : double := of_Z (-1).

Definition isnan (d : double) : bool := match d with S754_nan => true | _ => false end.
Definition finite (d : double) : bool :=
  match d with S754_zero _ | S754_finite _ _ _ => true | _ => false end.

#[export] Instance double_eq_dec : EqDecision double.
Proof. solve_decision. Defined.

(** ** The order *)

(** Numbers as triples that compare lexicographically: the kind and sign, the
    exponent, the mantissa. *)
Definition rank (d : double) : Z * Z * Z :=
  match d with
  | S754_infinity true => (-2, 0, 0)
  | S754_finite true m e => (-1, - e, Zneg m)
  | S754_zero _ | S754_nan => (0, 0, 0)
  | S754_finite false m e => (1, e, Zpos m)
  | S754_infinity false => (2, 0, 0)
  end.

Definition below (a b : Z * Z * Z) : Prop :=
  a.1.1 < b.1.1 \/ (a.1.1 = b.1.1 /\ (a.1.2 < b.1.2 \/ (a.1.2 = b.1.2 /\ a.2 < b.2))).

Lemma dlt_rank a b : isnan a = false -> isnan b = false -> dlt a b = true <-> below (rank a) (rank b).
Proof.
  unfold dlt, SFltb, below. intros Ha Hb.
  destruct a as [[]|[]| |[] m e], b as [[]|[]| |[] m' e']; try done; cbn;
    try (split; [try done; lia|try done; lia]).
  - change (Pos.compare_cont Eq m m') with (m ?= m')%positive.
    destruct (Z.compare_spec e e'), (Pos.compare_spec m m'); cbn; split; try done; lia.
  - change (Pos.compare_cont Eq m m') with (m ?= m')%positive.
    destruct (Z.compare_spec e e'), (Pos.compare_spec m m'); cbn; split; try done; lia.
Qed.

Lemma dlt_asym a b : dlt a b = true -> dlt b a = false.
Proof.
  intros H. destruct (isnan a) eqn:Ha; [by destruct a|]. destruct (isnan b) eqn:Hb; [by destruct a, b|].
  apply dlt_rank in H; [|done..]. apply not_true_is_false. rewrite dlt_rank by done.
  unfold below in *. lia.
Qed.

Lemma dlt_negtrans a b c : isnan b = false ->
  dlt a b = false -> dlt b c = false -> dlt a c = false.
Proof.
  intros Hb. destruct (isnan a) eqn:Ha; [by destruct a|].
  destruct (isnan c) eqn:Hc; [by destruct a, c|].
  rewrite <- !not_true_iff_false, !dlt_rank by done. unfold below. lia.
Qed.

Lemma dle_not_lt a b : isnan a = false -> isnan b = false -> dle a b = negb (dlt b a).
Proof.
  intros Ha Hb. unfold dle, dlt, SFleb, SFltb.
  destruct a as [[]|[]| |[] m e], b as [[]|[]| |[] m' e']; try done; cbn;
    rewrite (Z.compare_antisym e e'); change (Pos.compare_cont Eq ?x ?y) with (x ?= y)%positive;
    rewrite (Pos.compare_antisym m m'); destruct (e ?= e'), (m ?= m')%positive; done.
Qed.

Lemma dlt_le a b : dlt a b = true -> dle a b = true.
Proof. unfold dlt, dle, SFltb, SFleb. by destruct (SFcompare a b) as [[]|]. Qed.

Lemma dlt_irrefl a : dlt a a = false.
Proof. destruct (dlt a a) eqn:E; [|done]. pose proof (dlt_asym _ _ E). congruence. Qed.

Lemma dle_refl a : isnan a = false -> dle a a = true.
Proof. intros H. by rewrite dle_not_lt, dlt_irrefl. Qed.

Lemma dlt_not_nan a b : dlt a b = true -> isnan a = false /\ isnan b = false.
Proof. by destruct a, b. Qed.

(** ** Sums *)

Lemma shr_1_nonneg r : 0 <= shr_m r -> 0 <= shr_m (shr_1 r).
Proof. destruct r as [[|[]|[]] r' s']; cbn; lia. Qed.

Lemma iter_shr_nonneg p : forall r, 0 <= shr_m r -> 0 <= shr_m (iter_pos shr_1 p r).
Proof.
  induction p as [p IH|p IH|]; intros r Hr; cbn [iter_pos].
  - apply IH, IH, shr_1_nonneg, Hr.
  - apply IH, IH, Hr.
  - by apply shr_1_nonneg.
Qed.

Lemma shr_fexp_nonneg m e l : 0 <= m -> 0 <= shr_m (fst (shr_fexp 53 1024 m e l)).
Proof.
  intros Hm. unfold shr_fexp, shr.
  assert (H : 0 <= shr_m (shr_record_of_loc m l)) by (by destruct l as [|[]]).
  destruct (_ - e); cbn [fst]; [done| |done]. by apply iter_shr_nonneg.
Qed.

Lemma round_not_nan sx m e l : 0 <= m -> isnan (binary_round_aux 53 1024 sx m e l) = false.
Proof.
  intros Hm. unfold binary_round_aux.
  pose proof (shr_fexp_nonneg m e l Hm) as H1.
  destruct (shr_fexp 53 1024 m e l) as [r e1]. cbn [fst] in H1.
  assert (H2 : 0 <= round_nearest_even (shr_m r) (loc_of_shr_record r)).
  { unfold round_nearest_even. destruct (loc_of_shr_record r) as [|[]]; try lia.
    destruct (Z.even _); lia. }
  pose proof (shr_fexp_nonneg _ e1 loc_Exact H2) as H3.
  destruct (shr_fexp 53 1024 (round_nearest_even _ _) e1 loc_Exact) as [r2 e2]. cbn [fst] in H3.
  destruct (shr_m r2); [done|by destruct (_ <=? _)|lia].
Qed.

Lemma normalize_not_nan m e : isnan (binary_normalize 53 1024 m e false) = false.
Proof.
  destruct m as [|p|p]; cbn [binary_normalize]; [done|..]; unfold binary_round;
    destruct (shl_align _ _ _) as [mz ez]; by apply round_not_nan.
Qed.

Lemma dadd_not_nan a b : isnan a = false -> finite b = true -> isnan (dadd a b) = false.
Proof.
  unfold dadd. destruct a as [[]|[]| |[] m e], b as [[]|[]| |[] m' e']; try done;
    intros _ _; apply normalize_not_nan.
Qed.

Lemma finite_not_nan a : finite a = true -> isnan a = false.
Proof. by destruct a. Qed.

Lemma of_Z_not_nan z : isnan (of_Z z) = false.
Proof. apply normalize_not_nan. Qed.

(** Integers of 32 bits convert without overflow. *)
Lemma digits_size p : digits2_pos p = Pos.size p.
Proof. induction p; simpl; congruence. Qed.

Lemma digits_iter p d : Zpos (digits2_pos (Pos.iter xO p d)) = Zpos (digits2_pos p) + Zpos d.
Proof.
  revert p. induction d as [|d IH] using Pos.peano_ind; intros p; [cbn; lia|].
  rewrite Pos.iter_succ. cbn [digits2_pos]. rewrite !Pos2Z.inj_succ, IH. lia.
Qed.

Lemma digits_small z p : z = Zpos p -> z < 2 ^ 32 -> 1 <= Zpos (digits2_pos p) <= 32.
Proof.
  intros -> Hz. rewrite digits_size. split; [lia|]. pose proof (Pos.size_le p) as H.
  assert (Hp : 2 ^ Zpos (Pos.size p) <= 2 * Zpos p) by (rewrite <- Pos2Z.inj_pow; lia).
  destruct (Z.le_gt_cases (Zpos (Pos.size p)) 32) as [|Hgt]; [done|].
  assert (2 ^ 33 <= 2 ^ Zpos (Pos.size p)) by (apply Z.pow_le_mono_r; lia). lia.
Qed.

Lemma of_Z_finite z : 0 <= z < 2 ^ 32 -> finite (of_Z z) = true.
Proof.
  intros Hz. destruct z as [|p|p]; [done| |lia]. unfold of_Z. cbn [binary_normalize].
  pose proof (digits_small _ p eq_refl (proj2 Hz)) as Hd. unfold binary_round.
  rewrite Z.add_0_r. set (n := Zpos (digits2_pos p)) in *.
  assert (Hf : fexp 53 1024 n = n - 53) by (unfold fexp, emin; lia). rewrite Hf.
  unfold shl_align. rewrite Z.sub_0_r. destruct (n - 53) as [|q|q] eqn:Eq; [lia|lia|].
  unfold binary_round_aux, shr_fexp. cbn [Zdigits2]. rewrite digits_iter. fold n.
  assert (E0 : fexp 53 1024 (n + Zpos q + Zneg q) - Zneg q = 0) by (unfold fexp, emin; lia).
  rewrite E0. cbn [shr shr_record_of_loc shr_m loc_of_shr_record round_nearest_even].
  cbn [Zdigits2]. rewrite digits_iter. fold n. rewrite E0. cbn [shr shr_record_of_loc shr_m].
  by destruct (Z.leb_spec (Zneg q) (1024 - 53)); [|lia].
Qed.

End Double.
