(* ===== verification/Obj.v ===== *)
(** Objects and object cores: [bin/varnishd/cache.h], the methods of an object
    core without persistent storage ([stevedore.c]), and the state that the
    expiry and the lookup code share.

    Structures are found by their addresses.  [oc->timer_idx] is what the heap
    has told the object core, so it is kept with the heap.  [oc->ban] is with the
    bans, and the fields of an object head are with the code that uses them. *)
From S2P Require Import Prelude Double BinHeap Http.
Import Double BinHeap.

Module Obj.

Record exp := mkExp { ttl : double; grace : double; keep : double; age : double; entered : double }.

Definition set_ttl (e : exp) v := mkExp v (grace e) (keep e) (age e) (entered e).
Definition set_grace (e : exp) v := mkExp (ttl e) v (keep e) (age e) (entered e).
Definition set_keep (e : exp) v := mkExp (ttl e) (grace e) v (age e) (entered e).

(** [busyobj->vary] points into the workspace of the session that fetches,
    which does not write there until it is done: its octets are here. *)
Record busyobj := mkBusyobj { bo_vary : option (list Z) }.

(** [methods]: whether they are set, to the default ones.  [priv] is the object. *)
Record objcore := mkOc {
  refcnt : Z;
  methods : bool;
  priv : option positive;
  objhead : option positive;
  oc_busyobj : option busyobj;
  timer_when : double;
  oc_flags : Z;
}.

Definition OC_F_BUSY : Z := Z.shiftl 1 1.
Definition OC_F_PASS : Z := Z.shiftl 1 2.
Definition OC_F_LRUDONTMOVE : Z := Z.shiftl 1 4.

Definition set_refcnt (oc : objcore) v :=
  mkOc v (methods oc) (priv oc) (objhead oc) (oc_busyobj oc) (timer_when oc) (oc_flags oc).
Definition set_priv (oc : objcore) m p :=
  mkOc (refcnt oc) m p (objhead oc) (oc_busyobj oc) (timer_when oc) (oc_flags oc).
Definition set_objhead (oc : objcore) v :=
  mkOc (refcnt oc) (methods oc) (priv oc) v (oc_busyobj oc) (timer_when oc) (oc_flags oc).
Definition set_busyobj (oc : objcore) v :=
  mkOc (refcnt oc) (methods oc) (priv oc) (objhead oc) v (timer_when oc) (oc_flags oc).
Definition set_timer_when (oc : objcore) v :=
  mkOc (refcnt oc) (methods oc) (priv oc) (objhead oc) (oc_busyobj oc) v (oc_flags oc).
Definition set_oc_flags (oc : objcore) v :=
  mkOc (refcnt oc) (methods oc) (priv oc) (objhead oc) (oc_busyobj oc) (timer_when oc) v.

Definition oc_busy (oc : objcore) : bool := truth (Z.land (oc_flags oc) OC_F_BUSY).

(** [o_lru] is [o->objstore->stevedore->lru]. *)
Record object := mkObj {
  xid : Z;
  o_objcore : option positive;
  o_lru : positive;
  o_vary : option (list Z);
  hits : Z;
  o_exp : exp;
  last_lru : double;
  o_http : Http.http;
}.

Definition set_o_exp (o : object) v :=
  mkObj (xid o) (o_objcore o) (o_lru o) (o_vary o) (hits o) v (last_lru o) (o_http o).
Definition set_last_lru (o : object) v :=
  mkObj (xid o) (o_objcore o) (o_lru o) (o_vary o) (hits o) (o_exp o) v (o_http o).
Definition set_hits (o : object) v :=
  mkObj (xid o) (o_objcore o) (o_lru o) (o_vary o) v (o_exp o) (last_lru o) (o_http o).

(** The objects, their cores, the LRU lists and the heap of timers. *)
Record cache := mkCache {
  objs : gmap positive object;
  ocs : gmap positive objcore;
  lrus : gmap positive (list positive);
  exp_heap : binheap;
  n_expired : Z; n_lru_nuked : Z; n_lru_moved : Z;
}.

Definition set_objs (st : cache) v :=
  mkCache v (ocs st) (lrus st) (exp_heap st) (n_expired st) (n_lru_nuked st) (n_lru_moved st).
Definition set_ocs (st : cache) v :=
  mkCache (objs st) v (lrus st) (exp_heap st) (n_expired st) (n_lru_nuked st) (n_lru_moved st).
Definition set_lrus (st : cache) v :=
  mkCache (objs st) (ocs st) v (exp_heap st) (n_expired st) (n_lru_nuked st) (n_lru_moved st).
Definition set_exp_heap (st : cache) v :=
  mkCache (objs st) (ocs st) (lrus st) v (n_expired st) (n_lru_nuked st) (n_lru_moved st).
(** The counters are 64 bits wide. *)
Definition counted (st : cache) (expired nuked moved : Z) :=
  mkCache (objs st) (ocs st) (lrus st) (exp_heap st) (u64 (n_expired st + expired))
    (u64 (n_lru_nuked st + nuked)) (u64 (n_lru_moved st + moved)).

Definition get_oc (st : cache) (p : positive) : res objcore := deref (ocs st !! p).
Definition get_obj (st : cache) (a : positive) : res object := deref (objs st !! a).
Definition put_oc (st : cache) (p : positive) (oc : objcore) : cache := set_ocs st (<[p := oc]> (ocs st)).
Definition put_obj (st : cache) (a : positive) (o : object) : cache := set_objs st (<[a := o]> (objs st)).

(** [CHECK_OBJ_NOTNULL] of a pointer that may be NULL. *)
Definition notnull {A} (o : option A) : res A :=
  match o with Some a => Ok a | None => Fail FAssert end.

Lemma notnull_Some {A} (a : A) : notnull (Some a) = Ok a.
Proof. reflexivity. Qed.

#[export] Hint Rewrite @notnull_Some : run.

(** [oc->timer_idx]: [ALLOC_OBJ] clears it. *)
Definition timer_idx (st : cache) (p : positive) : Z := default BINHEAP_NOIDX (bh_idx (exp_heap st) !! p).

Definition oc_getobj (st : cache) (p : positive) : res (option positive) :=
  oc ← get_oc st p;
  vassert (negb (oc_busy oc));;
  vassert (methods oc);;
  mret (priv oc).

(** The default methods have no [updatemeta]. *)
Definition oc_updatemeta (st : cache) (p : positive) : res unit :=
  oc ← get_oc st p; vassert (methods oc).

Definition oc_getlru (st : cache) (p : positive) : res positive :=
  oc ← get_oc st p;
  vassert (methods oc);;
  a ← notnull (priv oc);
  o ← get_obj st a;
  mret (o_lru o).

(** [VTAILQ_REMOVE] and [VTAILQ_INSERT_TAIL] on the list of an LRU. *)
Definition lru_remove (st : cache) (lru p : positive) : res cache :=
  l ← deref (lrus st !! lru);
  mret (set_lrus st (<[lru := filter (fun q => q <> p) l]> (lrus st))).

Definition lru_insert_tail (st : cache) (lru p : positive) : res cache :=
  l ← deref (lrus st !! lru);
  mret (set_lrus st (<[lru := l ++ [p]]> (lrus st))).

(** [LRU_Alloc]: [l] is what the allocator returns. *)
Definition LRU_Alloc (st : cache) (l : positive) : cache := set_lrus st (<[l := []]> (lrus st)).

Definition AssertObjBusy (st : cache) (a : positive) : res unit :=
  o ← get_obj st a; p ← notnull (o_objcore o); oc ← get_oc st p; vassert (oc_busy oc).

End Obj.
