(* ===== verification/Expire.v ===== *)
(** Expiry: [bin/varnishd/cache_expire.c].  Every object core with a timer is on
    the heap and on the LRU list of its storage.  A function that holds
    [exp_mtx] or the mutex of an LRU is one step here; where it drops them
    before it lets an object go, it is cut in two. *)
From S2P Require Import Prelude Double BinHeap Obj.
Import Double BinHeap Obj.

Module Expire.

(** ** The fields of [struct exp] *)

(** The old fields do not matter. *)
Definition EXP_Clr (e : exp) : exp := mkExp dm1 dm1 dm1 d0 d0.

Definition EXP_Get_ttl (e : exp) : double := if dlt d0 (ttl e) then ttl e else dm1.
Definition EXP_Get_grace (e : exp) : double := if dlt d0 (grace e) then grace e else d0.
Definition EXP_Get_keep (e : exp) : double := if dlt d0 (keep e) then keep e else d0.

Definition EXP_Set_ttl (e : exp) (v : double) : exp :=
  if dlt d0 v then set_ttl e v else set_grace (set_keep (set_ttl e dm1) dm1) dm1.
Definition EXP_Set_grace (e : exp) (v : double) : exp :=
  if dlt d0 v then set_grace e v else set_grace e dm1.
Definition EXP_Set_keep (e : exp) (v : double) : exp :=
  if dlt d0 v then set_keep e v else set_keep e dm1.

Section Params.

(** [params->default_keep] and [params->default_grace], unsigned. *)
Variables default_keep default_grace : Z.

(** A session's own limit, when it has one and it is smaller. *)
Definition limited (v : option double) (r : double) : double :=
  match v with Some v => if dlt d0 v && dlt v r then v else r | None => r end.

(** [sp] is [sp->exp], or nothing for NULL. *)
Definition EXP_Ttl (sp : option exp) (o : object) : double :=
  dadd (entered (o_exp o)) (limited (ttl <$> sp) (ttl (o_exp o))).

Definition EXP_Keep (sp : option exp) (o : object) : double :=
  let r := if dlt d0 (keep (o_exp o)) then keep (o_exp o) else of_Z default_keep in
  dadd (EXP_Ttl sp o) (limited (keep <$> sp) r).

Definition EXP_Grace (sp : option exp) (o : object) : double :=
  let r := if dle d0 (grace (o_exp o)) then grace (o_exp o) else of_Z default_grace in
  dadd (EXP_Ttl sp o) (limited (grace <$> sp) r).

(** ** The heap *)

Definition when_of (m : gmap positive objcore) (p : positive) : double :=
  match m !! p with Some oc => timer_when oc | None => d0 end.

Definition object_cmp (m : gmap positive objcore) (a b : positive) : bool :=
  dlt (when_of m a) (when_of m b).

(** When the timer of an object fires. *)
Definition object_when (o : object) : double :=
  let w := EXP_Keep None o in
  let w2 := EXP_Grace None o in
  if dlt w w2 then w2 else w.

Definition update_object_when (st : cache) (a : positive) : res (cache * bool) :=
  o ← get_obj st a;
  p ← notnull (o_objcore o);
  oc ← get_oc st p;
  let w := object_when o in
  vassert (negb (isnan w));;
  if deq w (timer_when oc) then mret (st, false)
  else mret (put_oc st p (set_timer_when oc w), true).

Definition exp_insert (st : cache) (p lru : positive) : res cache :=
  vassert (timer_idx st p =? BINHEAP_NOIDX);;
  bh ← binheap_insert (object_cmp (ocs st)) (exp_heap st) p;
  let st := set_exp_heap st bh in
  vassert (negb (timer_idx st p =? BINHEAP_NOIDX));;
  lru_insert_tail st lru p.

Definition EXP_Inject (st : cache) (p lru : positive) (w : double) : res cache :=
  oc ← get_oc st p;
  exp_insert (put_oc st p (set_timer_when oc w)) p lru.

(** [HSH_Ref] of [cache_hash.c]. *)
Definition HSH_Ref (st : cache) (p : positive) : res cache :=
  oc ← get_oc st p;
  notnull (objhead oc);;
  vassert (0 <? refcnt oc);;
  mret (put_oc st p (set_refcnt oc (u32 (refcnt oc + 1)))).

Definition EXP_Insert (st : cache) (a : positive) : res cache :=
  o ← get_obj st a;
  p ← notnull (o_objcore o);
  get_oc st p;;
  AssertObjBusy st a;;
  st ← HSH_Ref st p;
  vassert (negb (deq (entered (o_exp o)) d0) && negb (isnan (entered (o_exp o))));;
  let st := put_obj st a (set_last_lru o (entered (o_exp o))) in
  lru ← oc_getlru st p;
  '(st, _) ← update_object_when st a;
  st ← exp_insert st p lru;
  oc_updatemeta st p;;
  mret st.

(** [busy]: another thread holds the mutex of the LRU.  The result says whether
    the object was looked at. *)
Definition EXP_Touch (st : cache) (p : positive) (busy : bool) : res (cache * bool) :=
  oc ← get_oc st p;
  if truth (Z.land (oc_flags oc) OC_F_LRUDONTMOVE) then mret (st, false) else
  lru ← oc_getlru st p;
  if busy then mret (st, false) else
  if negb (timer_idx st p =? BINHEAP_NOIDX) then
    st ← lru_remove st lru p;
    st ← lru_insert_tail st lru p;
    mret (counted st 0 0 1, true)
  else mret (st, true).

Definition EXP_Rearm (st : cache) (a : positive) : res cache :=
  o ← get_obj st a;
  match o_objcore o with
  | None => mret st
  | Some p =>
      get_oc st p;;
      oc_getlru st p;;
      st ← (if negb (timer_idx st p =? BINHEAP_NOIDX) then
              '(st, changed) ← update_object_when st a;
              if (changed : bool) then
                vassert (negb (timer_idx st p =? BINHEAP_NOIDX));;
                bh ← binheap_reorder (object_cmp (ocs st)) (exp_heap st) (timer_idx st p);
                let st := set_exp_heap st bh in
                vassert (negb (timer_idx st p =? BINHEAP_NOIDX));;
                mret st
              else mret st
            else mret st);
      oc_updatemeta st p;;
      mret st
  end.

(** ** The two ways to kill an object *)

(** One turn of [exp_timer], up to the unlocking: [t] is its notion of the time,
    [now] what [TIM_real()] returns, [busy] as in [EXP_Touch].  The result has
    the object core to let go of, if any, and the new [t]. *)
Definition exp_timer_pick (st : cache) (t now : double) (busy : bool)
  : res (cache * option positive * double) :=
  root ← binheap_root (exp_heap st);
  match root with
  | None => mret (st, None, t)
  | Some p =>
      oc ← get_oc st p;
      let t := if dlt t (timer_when oc) then now else t in
      if dlt t (timer_when oc) then mret (st, None, t) else
      oc_getlru st p;;
      if busy then mret (st, None, t) else
      vassert (negb (timer_idx st p =? BINHEAP_NOIDX));;
      bh ← binheap_delete (object_cmp (ocs st)) (exp_heap st) (timer_idx st p);
      let st := set_exp_heap st bh in
      vassert (timer_idx st p =? BINHEAP_NOIDX);;
      lru ← oc_getlru st p;
      st ← lru_remove st lru p;
      mret (counted st 1 0 0, Some p, t)
  end.

(** What [exp_timer] does with it before [HSH_Deref]: the log entry. *)
Definition exp_timer_log (st : cache) (p : positive) (t : double) : res double :=
  oc ← get_oc st p;
  notnull (objhead oc);;
  a ← oc_getobj st p;
  o ← (match a with Some a => get_obj st a | None => Fail FMemory end);
  mret (dsub (EXP_Ttl None o) t).

(** One turn of [exp_timer], up to [HSH_Deref].  Nothing that may come between the two
    parts makes an object core busy. *)
Definition exp_timer_turn (st : cache) (t now : double) (busy : bool) : res (cache * option positive * double) :=
  '(st, r, t) ← exp_timer_pick st t now busy;
  match r with Some p => exp_timer_log st p t;; mret tt | None => mret tt end;;
  mret (st, r, t).

(** The search of [EXP_NukeOne]. *)
Fixpoint nuke_search (st : cache) (l : list positive) : res (option positive) :=
  match l with
  | [] => mret None
  | p :: l =>
      oc ← get_oc st p;
      vassert (negb (timer_idx st p =? BINHEAP_NOIDX));;
      if refcnt oc =? 1 then mret (Some p) else nuke_search st l
  end.

(** [EXP_NukeOne], up to the unlocking. *)
Definition EXP_NukeOne_pick (st : cache) (lru : positive) : res (cache * option positive) :=
  l ← deref (lrus st !! lru);
  r ← nuke_search st l;
  match r with
  | None => mret (st, None)
  | Some p =>
      st ← lru_remove st lru p;
      bh ← binheap_delete (object_cmp (ocs st)) (exp_heap st) (timer_idx st p);
      let st := set_exp_heap st bh in
      vassert (timer_idx st p =? BINHEAP_NOIDX);;
      mret (counted st 0 1 0, Some p)
  end.

(** The same, up to [HSH_Deref]. *)
Definition EXP_NukeOne (st : cache) (lru : positive) : res (cache * option positive) :=
  '(st, r) ← EXP_NukeOne_pick st lru;
  match r with
  | Some p =>
      a ← oc_getobj st p;
      match a with Some a => get_obj st a;; mret tt | None => Fail FMemory end
  | None => mret tt
  end;;
  mret (st, r).

End Params.

(** [EXP_Init]: the page size of the heap is [getpagesize()]. *)
Definition EXP_Init (st : cache) (pagesize : Z) : res cache :=
  bh ← binheap_new pagesize; mret (set_exp_heap st bh).

End Expire.
