(* ===== verification/ExpireInv.v ===== *)
(** Expiry, the invariant: the heap and the LRU lists hold the same object cores.
    Every operation keeps it and runs into no assertion. *)
From S2P Require Import Prelude Double BinHeap BinHeapInv BinHeapThm BinHeapOps BinHeapProps Obj Expire.
Import Double BinHeap HeapInv HeapThm HeapOps HeapProps Obj Expire.

Module ExpireInv.

(** The object core at [p] has an object, which is stored at the LRU [l]. *)
Definition has_lru (st : cache) (p l : positive) : Prop :=
  exists oc a o, ocs st !! p = Some oc /\ methods oc = true /\ priv oc = Some a /\
    objs st !! a = Some o /\ o_lru o = l /\ o_objcore o = Some p.

(** Every timer is a number. *)
Definition numbers (m : gmap positive objcore) : Prop :=
  forall p oc, m !! p = Some oc -> isnan (timer_when oc) = false.

(** [S]: the object cores with a timer.  [s] is for the page size of the heap. *)
Record exp_inv (s : Z) (st : cache) (S : gset positive) : Prop := {
  ei_heap : heap_of s (object_cmp (ocs st)) (exp_heap st) S;
  ei_size : bh_next (exp_heap st) = Z.of_nat (size S) + 1;
  ei_when : numbers (ocs st);
  ei_idx : forall p, p ∉ S -> timer_idx st p = BINHEAP_NOIDX;
  ei_core : forall p, p ∈ S -> exists l, has_lru st p l;
  ei_list : forall l q, lrus st !! l = Some q ->
    NoDup q /\ forall p, p ∈ q <-> p ∈ S /\ has_lru st p l;
  ei_lrus : forall p l, p ∈ S -> has_lru st p l -> is_Some (lrus st !! l);
}.

Lemma has_lru_fun st p l l' : has_lru st p l -> has_lru st p l' -> l = l'.
Proof. intros (? & ? & ? & ? & ? & ? & ? & ? & _) (? & ? & ? & ? & ? & ? & ? & ? & _). by simplify_eq. Qed.

(** ** The order *)

Lemma when_number m p : numbers m -> isnan (when_of m p) = false.
Proof. intros H. unfold when_of. destruct (m !! p) eqn:E; [by eapply H|done]. Qed.

Lemma cmp_order m : numbers m -> HeapOrder (object_cmp m).
Proof.
  intros H. split; unfold object_cmp.
  - intros a b. apply dlt_asym.
  - intros a b c. apply dlt_negtrans. by apply when_number.
Qed.

Lemma when_insert m p oc q : when_of (<[p := oc]> m) q = if decide (q = p) then timer_when oc else when_of m q.
Proof.
  unfold when_of. destruct (decide (q = p)) as [->|]; [by rewrite lookup_insert_eq|by rewrite lookup_insert_ne].
Qed.

Lemma heap_of_ext s cmp cmp' bh S :
  (forall a b, a ∈ S -> b ∈ S -> cmp' a b = cmp a b) -> heap_of s cmp bh S -> heap_of s cmp' bh S.
Proof.
  intros Hc (Hs & Hh & HS). split; [done|]. split; [|done].
  intros v Hv a b Ha Hb. pose proof (sh_next _ _ Hs).
  pose proof (HeapTree.parent_below bh s (sh_geo _ _ Hs) v) as Hp.
  unfold inside in HS. rewrite Hc; [by apply (Hh v Hv)|..]; apply HS.
  - exists v. split; [lia|done].
  - exists (HeapTree.parent_at s v). split; [lia|done].
Qed.

Section Inv.

Context (s : Z).

Lemma inv_order st S : exp_inv s st S -> HeapOrder (object_cmp (ocs st)).
Proof. intros H. apply cmp_order, H. Qed.

(** Changes that the heap and the lists do not see. *)
Lemma inv_frame st st' S :
  exp_inv s st S -> exp_heap st' = exp_heap st -> lrus st' = lrus st -> numbers (ocs st') ->
  (forall p, p ∈ S -> when_of (ocs st') p = when_of (ocs st) p) ->
  (forall p l, p ∈ S -> has_lru st p l -> has_lru st' p l) ->
  exp_inv s st' S.
Proof.
  intros [H1 H2 H3 H4 H5 H6 H7] Eh El Hn Hw Hl.
  assert (Hl' : forall p l, p ∈ S -> has_lru st' p l -> has_lru st p l).
  { intros p l Hp H. destruct (H5 p Hp) as [l' H']. by rewrite (has_lru_fun st' p l l' H (Hl p l' Hp H')). }
  split; try done.
  - rewrite Eh. eapply heap_of_ext, H1. intros a b Ha Hb. unfold object_cmp. by rewrite !Hw.
  - by rewrite Eh.
  - intros p Hp. unfold timer_idx. rewrite Eh. by apply H4.
  - intros p Hp. destruct (H5 p Hp) as [l Hpl]. exists l. by apply Hl.
  - intros l q E. rewrite El in E. destruct (H6 l q E) as [Hnd Hq]. split; [done|].
    intros p. rewrite Hq. split; intros [Hp Hpl]; split; try done; [by apply Hl|by apply Hl'].
  - intros p l Hp Hpl. rewrite El. by apply (H7 p l Hp), Hl'.
Qed.

Lemma idx_told st p i : bh_idx (exp_heap st) !! (p : elt) = Some i -> timer_idx st p = i.
Proof. intros E. exact (f_equal (default BINHEAP_NOIDX) E). Qed.

Lemma idx_untold st bh S x p :
  untold (exp_heap st) bh S x -> p ∉ S -> p <> x -> timer_idx (set_exp_heap st bh) p = timer_idx st p.
Proof. intros Hu Hp Hx. exact (f_equal (default BINHEAP_NOIDX) (Hu p Hp Hx)). Qed.

(** What the heap told an object core that is in it. *)
Lemma idx_inside st S p :
  exp_inv s st S -> p ∈ S -> exists i, timer_idx st p = i /\ bh_idx (exp_heap st) !! p = Some i /\
    1 <= i < bh_next (exp_heap st) /\ get (exp_heap st) i = Some p.
Proof.
  intros H Hp. destruct (heap_told s _ _ S (ei_heap _ _ _ H) p Hp) as (i & Ei & Hi & G).
  exists i. split; [by apply idx_told|done].
Qed.

Lemma idx_iff st S p : exp_inv s st S -> (timer_idx st p =? BINHEAP_NOIDX) = false <-> p ∈ S.
Proof.
  intros H. unfold BINHEAP_NOIDX. destruct (decide (p ∈ S)) as [Hp|Hp].
  - destruct (idx_inside st S p H Hp) as (i & -> & _ & Hi & _). split; [done|]. intros _. by apply Z.eqb_neq; lia.
  - rewrite (ei_idx _ _ _ H p Hp). split; [done|]. tauto.
Qed.

Lemma has_lru_getlru st p l : has_lru st p l -> oc_getlru st p = Ok l.
Proof.
  intros (oc & a & o & E & Em & Ea & Eo & El & _). unfold oc_getlru, get_oc, get_obj.
  rewrite E. cbn [deref]. rewrite bind_Ret, Em, Ea. cbn [vassert notnull]. rewrite !bind_Ret, Eo.
  cbn [deref]. by rewrite bind_Ret, El.
Qed.

Lemma has_lru_updatemeta st p l : has_lru st p l -> oc_updatemeta st p = Ok tt.
Proof.
  intros (oc & a & o & E & Em & _). unfold oc_updatemeta, get_oc. rewrite E. cbn [deref].
  by rewrite bind_Ret, Em.
Qed.

(** ** Linking and unlinking *)

Definition linked (st : cache) (bh : binheap) (l : positive) (q : list positive) : cache :=
  set_lrus (set_exp_heap st bh) (<[l := q]> (lrus st)).

Lemma has_lru_linked st bh l q p l' : has_lru (linked st bh l q) p l' <-> has_lru st p l'.
Proof. reflexivity. Qed.

Lemma exp_insert_ok st S p l q :
  exp_inv s st S -> p ∉ S -> has_lru st p l -> lrus st !! l = Some q -> Z.of_nat (size S) + 1 < 2 ^ 31 ->
  exists bh, exp_insert st p l = Ok (linked st bh l (q ++ [p])) /\
    exp_inv s (linked st bh l (q ++ [p])) ({[p]} ∪ S).
Proof.
  intros H Hp Hl Eq Hsz. pose proof (inv_order st S H) as Ho.
  destruct (insert_ok s _ (exp_heap st) S p (ei_heap _ _ _ H) Hp) as (bh & E & Hh & Hn & Hu).
  { rewrite (ei_size _ _ _ H). lia. }
  assert (Hi : timer_idx (set_exp_heap st bh) p <> BINHEAP_NOIDX).
  { destruct (heap_told s _ _ _ Hh p ltac:(set_solver)) as (i & Ei & Hi & _).
    rewrite (idx_told (set_exp_heap st bh) p i Ei). unfold BINHEAP_NOIDX. lia. }
  exists bh. split.
  - unfold exp_insert. rewrite (ei_idx _ _ _ H p Hp), vassert_true, bind_Ret, E, bind_Ret by done.
    rewrite (vassert_true (negb _)), bind_Ret by (by rewrite (proj2 (Z.eqb_neq _ _) Hi)).
    unfold lru_insert_tail. cbn [lrus set_exp_heap]. by rewrite Eq.
  - split; cbn [lrus exp_heap ocs linked set_lrus set_exp_heap]; try done.
    + rewrite size_union by set_solver. rewrite size_singleton, Hn, (ei_size _ _ _ H). lia.
    + apply H.
    + intros x Hx. change (timer_idx (set_exp_heap st bh) x = BINHEAP_NOIDX).
      rewrite (idx_untold st bh S p x Hu) by set_solver. apply (ei_idx _ _ _ H). set_solver.
    + intros x [->%elem_of_singleton|Hx]%elem_of_union; [by exists l|]. by apply (ei_core _ _ _ H).
    + intros l' q' E'. setoid_rewrite has_lru_linked. destruct (decide (l' = l)) as [->|Hne].
      * rewrite lookup_insert_eq in E'. injection E' as <-. destruct (ei_list _ _ _ H l q Eq) as [Hnd Hq]. split.
        -- apply NoDup_app. split; [done|]. split; [|apply NoDup_singleton].
           intros x Hx ->%list_elem_of_singleton. by apply Hq in Hx as [? _].
        -- intros x. rewrite elem_of_app, list_elem_of_singleton, Hq, elem_of_union, elem_of_singleton.
           split; [intros [[? ?]| ->]; auto|]. intros [[->|?] ?]; auto.
      * rewrite lookup_insert_ne in E' by done. destruct (ei_list _ _ _ H l' q' E') as [Hnd Hq]. split; [done|].
        intros x. rewrite Hq, elem_of_union, elem_of_singleton. split; [tauto|].
        intros [[->|?] Hx]; [|done]. by destruct Hne; eapply has_lru_fun.
    + intros x l' Hx Hxl. destruct (decide (l' = l)) as [->|Hne]; [by rewrite lookup_insert_eq|].
      rewrite lookup_insert_ne by done. apply elem_of_union in Hx as [->%elem_of_singleton|Hx].
      * by destruct Hne; eapply has_lru_fun.
      * by apply (ei_lrus _ _ _ H x l').
Qed.

Lemma unlink_ok st S p l q :
  exp_inv s st S -> p ∈ S -> has_lru st p l -> lrus st !! l = Some q ->
  exists bh, binheap_delete (object_cmp (ocs st)) (exp_heap st) (timer_idx st p) = Ok bh /\
    timer_idx (set_exp_heap st bh) p = BINHEAP_NOIDX /\
    exp_inv s (linked st bh l (filter (fun x => x <> p) q)) (S ∖ {[p]}).
Proof.
  intros H Hp Hl Eq. pose proof (inv_order st S H) as Ho.
  destruct (idx_inside st S p H Hp) as (i & -> & Ei & Hi & G).
  destruct (delete_ok s _ (exp_heap st) S i p (ei_heap _ _ _ H) Hi G) as (bh & E & Hh & Hx & Hn & Hu).
  exists bh. split; [done|]. split; [by apply (idx_told (set_exp_heap st bh))|].
  split; cbn [lrus exp_heap ocs linked set_lrus set_exp_heap]; try done.
  - rewrite size_difference, size_singleton, Hn, (ei_size _ _ _ H) by set_solver.
    assert (size S <> 0%nat); [|lia]. intros E0%size_empty_inv. set_solver.
  - apply H.
  - intros x Hxs. change (timer_idx (set_exp_heap st bh) x = BINHEAP_NOIDX).
    destruct (decide (x = p)) as [->|Hne]; [by apply idx_told|].
    rewrite (idx_untold st bh S p x Hu) by set_solver. apply (ei_idx _ _ _ H). set_solver.
  - intros x Hxs. apply (ei_core _ _ _ H). set_solver.
  - intros l' q' E'. setoid_rewrite has_lru_linked. destruct (decide (l' = l)) as [->|Hne].
    + rewrite lookup_insert_eq in E'. injection E' as <-. destruct (ei_list _ _ _ H l q Eq) as [Hnd Hq]. split.
      * by apply NoDup_filter.
      * intros x. rewrite list_elem_of_filter, Hq, elem_of_difference, elem_of_singleton. tauto.
    + rewrite lookup_insert_ne in E' by done. destruct (ei_list _ _ _ H l' q' E') as [Hnd Hq]. split; [done|].
      intros x. rewrite Hq, elem_of_difference, elem_of_singleton. split; [|tauto].
      intros [Hxs Hxl]. split; [|done]. split; [done|]. intros ->. by destruct Hne; eapply has_lru_fun.
  - intros x l' Hxs Hxl. destruct (decide (l' = l)) as [->|Hne]; [by rewrite lookup_insert_eq|].
    rewrite lookup_insert_ne by done. apply (ei_lrus _ _ _ H x l'); [set_solver|done].
Qed.

End Inv.

End ExpireInv.
