(* ===== verification/ExpireOps.v ===== *)
(** Expiry, the operations: each keeps the invariant, fails no assertion, and
    does to the heap and the lists what its specification says. *)
From S2P Require Import Prelude Double BinHeap BinHeapInv BinHeapThm BinHeapOps BinHeapProps Obj Expire ExpireInv.
Import Double BinHeap HeapInv HeapThm HeapOps HeapProps Obj Expire ExpireInv.

Module ExpireOps.

(** ** Timers *)

Definition exp_ok (e : exp) : bool :=
  finite (ttl e) && finite (grace e) && finite (keep e) && finite (entered e).

Section Ops.

Context (default_keep default_grace : Z)
  (Hkeep : 0 <= default_keep < 2 ^ 32) (Hgrace : 0 <= default_grace < 2 ^ 32) (s : Z).

#[local] Notation object_when := (object_when default_keep default_grace).
#[local] Notation update_object_when := (update_object_when default_keep default_grace).
#[local] Notation EXP_Rearm := (EXP_Rearm default_keep default_grace).
#[local] Notation EXP_Insert := (EXP_Insert default_keep default_grace).

Lemma object_when_number o : exp_ok (o_exp o) = true -> isnan (object_when o) = false.
Proof using Hkeep Hgrace.
  unfold exp_ok. intros [[[Ht Hg]%andb_prop Hk]%andb_prop He]%andb_prop.
  assert (Httl : isnan (EXP_Ttl None o) = false) by (apply dadd_not_nan; [by apply finite_not_nan|done]).
  unfold Expire.object_when.
  assert (H1 : isnan (EXP_Keep default_keep None o) = false).
  { apply dadd_not_nan; [done|]. cbn. destruct (dlt _ _); [done|by apply of_Z_finite]. }
  assert (H2 : isnan (EXP_Grace default_grace None o) = false).
  { apply dadd_not_nan; [done|]. cbn. destruct (dle _ _); [done|by apply of_Z_finite]. }
  by destruct (dlt _ _).
Qed.

(** The timer fires when the keep time and the grace time are over. *)
Lemma object_when_max o : exp_ok (o_exp o) = true ->
  dle (EXP_Keep default_keep None o) (object_when o) = true /\
  dle (EXP_Grace default_grace None o) (object_when o) = true.
Proof using Hkeep Hgrace.
  intros H. pose proof (object_when_number o H) as Hn. unfold Expire.object_when in *.
  destruct (dlt _ _) eqn:E.
  - split; [by apply dlt_le|by apply dle_refl].
  - assert (H2 : isnan (EXP_Grace default_grace None o) = false).
    { unfold exp_ok in H. apply andb_prop in H as [[[Ht Hg]%andb_prop Hk]%andb_prop He].
      apply dadd_not_nan.
      - apply dadd_not_nan; [by apply finite_not_nan|done].
      - cbn. destruct (dle d0 _); [done|by apply of_Z_finite]. }
    split; [by apply dle_refl|]. rewrite dle_not_lt by done. by rewrite E.
Qed.

(** [timer_when] after it was recomputed. *)
Definition rearmed (o : object) (oc : objcore) : objcore :=
  if deq (object_when o) (timer_when oc) then oc else set_timer_when oc (object_when o).

Lemma update_object_when_ok st a o p oc :
  objs st !! a = Some o -> o_objcore o = Some p -> ocs st !! p = Some oc -> exp_ok (o_exp o) = true ->
  update_object_when st a =
    Ok (if deq (object_when o) (timer_when oc) then (st, false)
        else (put_oc st p (rearmed o oc), true)).
Proof using Hkeep Hgrace.
  intros Eo Ep Ec He. unfold Expire.update_object_when, get_obj, get_oc.
  rewrite Eo. cbn [deref]. rewrite bind_Ret, Ep. cbn [notnull]. rewrite bind_Ret, Ec. cbn [deref].
  rewrite bind_Ret. cbv zeta. rewrite (object_when_number o He), vassert_true, bind_Ret by done.
  unfold rearmed. by destruct (deq _ _).
Qed.

Lemma rearmed_when o oc : exp_ok (o_exp o) = true -> isnan (timer_when oc) = false ->
  isnan (timer_when (rearmed o oc)) = false.
Proof using Hkeep Hgrace. intros He Hn. unfold rearmed. destruct (deq _ _); [done|by apply object_when_number]. Qed.

Lemma rearmed_methods o oc : methods (rearmed o oc) = methods oc.
Proof. unfold rearmed. by destruct (deq _ _). Qed.

Lemma rearmed_priv o oc : priv (rearmed o oc) = priv oc.
Proof. unfold rearmed. by destruct (deq _ _). Qed.

(** Changes of one core or one object that keep the heap and the lists. *)
Lemma has_lru_put_oc st p oc oc' x l :
  ocs st !! p = Some oc -> methods oc' = methods oc -> priv oc' = priv oc ->
  has_lru st x l -> has_lru (put_oc st p oc') x l.
Proof.
  intros Ec Em Ea (oc1 & a & o & E & R). destruct (decide (x = p)) as [->|Hne].
  - assert (oc1 = oc) as -> by congruence. exists oc', a, o.
    split; [by apply lookup_insert_eq|]. by rewrite Em, Ea.
  - exists oc1, a, o. split; [by rewrite <- E; apply lookup_insert_ne|done].
Qed.

Lemma has_lru_put_obj st a o o' x l :
  objs st !! a = Some o -> o_lru o' = o_lru o -> o_objcore o' = o_objcore o ->
  has_lru st x l -> has_lru (put_obj st a o') x l.
Proof.
  intros Eo El Ep (oc & b & o1 & E & Em & Ea & Eb & Hl & Hp). exists oc, b.
  destruct (decide (b = a)) as [->|Hne].
  - assert (o1 = o) as -> by congruence. exists o'.
    split_and!; try done; [by apply lookup_insert_eq|congruence..].
  - exists o1. split_and!; try done. by rewrite <- Eb; apply lookup_insert_ne.
Qed.

Lemma numbers_put m p oc : numbers m -> isnan (timer_when oc) = false -> numbers (<[p := oc]> m).
Proof.
  intros H Hn q oc' E. destruct (decide (q = p)) as [->|Hne].
  - rewrite lookup_insert_eq in E. by injection E as <-.
  - rewrite lookup_insert_ne in E by done. by eapply H.
Qed.

Lemma inv_put_oc st S p oc oc' :
  exp_inv s st S -> ocs st !! p = Some oc -> methods oc' = methods oc -> priv oc' = priv oc ->
  isnan (timer_when oc') = false -> (p ∈ S -> timer_when oc' = timer_when oc) ->
  exp_inv s (put_oc st p oc') S.
Proof.
  intros H Ec Em Ea Hn Hw. apply (inv_frame s st); try done.
  - apply numbers_put; [exact (ei_when _ _ _ H)|done].
  - intros q Hq. cbn [ocs put_oc set_ocs]. rewrite when_insert. destruct (decide (q = p)) as [->|]; [|done].
    rewrite Hw by done. unfold when_of. by rewrite Ec.
  - intros q l _. by eapply has_lru_put_oc.
Qed.

Lemma inv_put_obj st S a o o' :
  exp_inv s st S -> objs st !! a = Some o -> o_lru o' = o_lru o -> o_objcore o' = o_objcore o ->
  exp_inv s (put_obj st a o') S.
Proof.
  intros H Eo El Ep. apply (inv_frame s st); try done; [apply H|]. intros q l _. by eapply has_lru_put_obj.
Qed.

Lemma inv_counted st S x y z : exp_inv s st S -> exp_inv s (counted st x y z) S.
Proof. intros H. apply (inv_frame s st); try done. apply H. Qed.

(** The heap after the timer of [p] has changed. *)
Lemma reorder_inv st S p oc oc' l :
  exp_inv s st S -> p ∈ S -> ocs st !! p = Some oc -> has_lru st p l ->
  methods oc' = methods oc -> priv oc' = priv oc -> isnan (timer_when oc') = false ->
  exists bh, binheap_reorder (object_cmp (ocs (put_oc st p oc'))) (exp_heap st) (timer_idx st p) = Ok bh /\
    exp_inv s (set_exp_heap (put_oc st p oc') bh) S /\
    timer_idx (set_exp_heap (put_oc st p oc') bh) p <> BINHEAP_NOIDX.
Proof.
  intros H Hp Ec Hl Em Ea Hn.
  assert (Hns : numbers (<[p := oc']> (ocs st))) by (apply numbers_put; [exact (ei_when _ _ _ H)|done]).
  pose proof (inv_order s st S H) as Ho. pose proof (cmp_order _ Hns) as Ho'.
  destruct (idx_inside s st S p H Hp) as (i & -> & _ & Hi & G).
  destruct (reorder_ok s _ (object_cmp (<[p := oc']> (ocs st))) (exp_heap st) S i p (ei_heap _ _ _ H) Hi G)
    as (bh & E & Hh & Hn' & Hu).
  { intros a b Ha Hb. unfold object_cmp. rewrite !when_insert. by rewrite !decide_False. }
  exists bh. split; [exact E|]. split.
  - destruct H as [H1 H2 H3 H4 H5 H6 H7].
    assert (Hlru : forall x l, has_lru (put_oc st p oc') x l <-> has_lru st x l).
    { intros x l0. split; [|by eapply has_lru_put_oc].
      intros (oc1 & a & o & E1 & R). destruct (decide (x = p)) as [->|Hne].
      - cbn [ocs put_oc set_ocs] in E1. rewrite lookup_insert_eq in E1. injection E1 as <-.
        exists oc, a, o. split; [done|]. by rewrite <- Em, <- Ea.
      - exists oc1, a, o. split; [|done]. rewrite <- E1. symmetry. by apply lookup_insert_ne. }
    split; cbn [ocs exp_heap lrus put_oc set_ocs set_exp_heap]; try done.
    + by rewrite Hn'.
    + intros x Hx. change (timer_idx (set_exp_heap st bh) x = BINHEAP_NOIDX).
      rewrite (idx_untold st bh S p x Hu Hx) by set_solver. by apply H4.
    + intros x Hx. destruct (H5 x Hx) as [l0 Hl0]. exists l0. by apply Hlru.
    + intros l0 q E0. destruct (H6 l0 q E0) as [Hnd Hq]. split; [done|]. intros x. rewrite Hq.
      change (has_lru (set_exp_heap (put_oc st p oc') bh) x l0) with (has_lru (put_oc st p oc') x l0). by rewrite Hlru.
    + intros x l0 Hx Hx0. apply (H7 x l0 Hx). by apply Hlru.
  - destruct (heap_told s _ _ S Hh p Hp) as (j & Ej & Hj & _).
    rewrite (idx_told (set_exp_heap (put_oc st p oc') bh) p j Ej). unfold BINHEAP_NOIDX. lia.
Qed.

Lemma EXP_Rearm_ok st S a o p oc :
  exp_inv s st S -> objs st !! a = Some o -> o_objcore o = Some p -> ocs st !! p = Some oc ->
  methods oc = true -> priv oc = Some a -> exp_ok (o_exp o) = true ->
  exists st', EXP_Rearm st a = Ok st' /\ exp_inv s st' S /\ objs st' = objs st /\ lrus st' = lrus st /\
    ocs st' = <[p := if decide (p ∈ S) then rearmed o oc else oc]> (ocs st).
Proof using Hkeep Hgrace.
  intros H Eo Ep Ec Em Ea He.
  assert (Hl : has_lru st p (o_lru o)) by (exists oc, a, o; done).
  unfold Expire.EXP_Rearm, get_obj, get_oc. rewrite Eo. cbn [deref]. rewrite bind_Ret, Ep, Ec. cbn [deref].
  rewrite bind_Ret, (has_lru_getlru st p _ Hl), bind_Ret.
  destruct (decide (p ∈ S)) as [Hp|Hp].
  - rewrite (proj2 (idx_iff s st S p H) Hp). cbn [negb].
    rewrite (update_object_when_ok st a o p oc Eo Ep Ec He), bind_Ret. unfold rearmed.
    destruct (deq _ _) eqn:Eq.
    + cbv beta iota. unfold mret at 1, res_ret at 1. rewrite bind_Ret, (has_lru_updatemeta st p _ Hl), bind_Ret.
      exists st. split; [done|]. split; [done|]. split; [done|]. split; [done|]. by rewrite insert_id.
    + cbv beta iota.
      destruct (reorder_inv st S p oc (set_timer_when oc (object_when o)) _ H Hp Ec Hl) as (bh & E & Hi & Hx);
        [done|done|by apply object_when_number|].
      change (timer_idx (put_oc st p ?x) p) with (timer_idx st p).
      change (exp_heap (put_oc st p ?x)) with (exp_heap st).
      rewrite (vassert_true (negb (timer_idx st p =? _))), bind_Ret by (by rewrite (proj2 (idx_iff s st S p H) Hp)).
      rewrite E, bind_Ret. cbv zeta. rewrite vassert_true, bind_Ret by (by rewrite (proj2 (Z.eqb_neq _ _) Hx)).
      unfold mret at 1, res_ret at 1. rewrite bind_Ret, (has_lru_updatemeta _ p (o_lru o)), bind_Ret.
      * eexists. split; [done|]. split; [done|]. done.
      * by eapply has_lru_put_oc.
  - rewrite (ei_idx _ _ _ H p Hp). cbn [Z.eqb BINHEAP_NOIDX negb].
    unfold mret at 1, res_ret at 1. rewrite bind_Ret, (has_lru_updatemeta st p _ Hl), bind_Ret.
    exists st. split; [done|]. split; [done|]. split; [done|]. split; [done|]. by rewrite insert_id.
Qed.

(** ** Insertion *)

Definition busy_core (oc : objcore) : Prop := oc_busy oc = true.

Lemma EXP_Insert_ok st S a o p oc q :
  exp_inv s st S -> objs st !! a = Some o -> o_objcore o = Some p -> ocs st !! p = Some oc ->
  methods oc = true -> priv oc = Some a -> exp_ok (o_exp o) = true ->
  p ∉ S -> oc_busy oc = true -> is_Some (objhead oc) -> 0 < refcnt oc -> refcnt oc + 1 < 2 ^ 32 ->
  deq (entered (o_exp o)) d0 = false -> lrus st !! o_lru o = Some q -> Z.of_nat (size S) + 1 < 2 ^ 31 ->
  exists st', EXP_Insert st a = Ok st' /\ exp_inv s st' ({[p]} ∪ S) /\
    objs st' = <[a := set_last_lru o (entered (o_exp o))]> (objs st) /\
    ocs st' = <[p := rearmed o (set_refcnt oc (refcnt oc + 1))]> (ocs st) /\
    lrus st' = <[o_lru o := q ++ [p]]> (lrus st).
Proof using Hkeep Hgrace.
  intros H Eo Ep Ec Em Ea He Hp Hb [h Eh] Hr Hr2 He0 Eq Hsz.
  assert (Hl : has_lru st p (o_lru o)) by (exists oc, a, o; done).
  set (oc1 := set_refcnt oc (refcnt oc + 1)). set (o1 := set_last_lru o (entered (o_exp o))).
  set (st1 := put_obj (put_oc st p oc1) a o1).
  assert (Ec1 : ocs st1 !! p = Some oc1) by apply lookup_insert_eq.
  assert (Eo1 : objs st1 !! a = Some o1) by apply lookup_insert_eq.
  assert (H1 : exp_inv s st1 S).
  { apply (inv_put_obj _ S a o o1); [|done..]. apply (inv_put_oc st S p oc oc1); try done. exact (ei_when _ _ _ H p oc Ec). }
  assert (Hl1 : has_lru st1 p (o_lru o)) by (exists oc1, a, o1; done).
  unfold Expire.EXP_Insert, get_obj, get_oc. rewrite Eo. cbn [deref]. rewrite bind_Ret, Ep. cbn [notnull].
  rewrite bind_Ret, Ec. cbn [deref]. rewrite bind_Ret.
  unfold AssertObjBusy, get_obj, get_oc. rewrite Eo. cbn [deref]. rewrite bind_Ret, Ep. cbn [notnull].
  rewrite bind_Ret, Ec. cbn [deref]. rewrite bind_Ret, Hb. cbn [vassert]. rewrite bind_Ret.
  unfold HSH_Ref, get_oc. rewrite Ec. cbn [deref]. rewrite bind_Ret, Eh. cbn [notnull]. rewrite bind_Ret.
  rewrite (vassert_true (0 <? _)), bind_Ret by lia. rewrite u32_small by lia. fold oc1.
  unfold mret at 1, res_ret at 1. rewrite bind_Ret.
  assert (Hen : isnan (entered (o_exp o)) = false).
  { unfold exp_ok in He. apply finite_not_nan. by apply andb_prop in He as [_ ?]. }
  rewrite He0, Hen. cbn [negb andb vassert]. rewrite bind_Ret. cbv zeta. fold o1 st1.
  rewrite (has_lru_getlru st1 p _ Hl1), bind_Ret.
  rewrite (update_object_when_ok st1 a o1 p oc1 Eo1 Ep Ec1 He), bind_Ret.
  set (st2 := put_oc st1 p (rearmed o oc1)).
  assert (Est : (if deq (object_when o1) (timer_when oc1) then (st1, false) else (put_oc st1 p (rearmed o1 oc1), true)).1 = st2).
  { change (rearmed o1 oc1) with (rearmed o oc1). unfold st2, rearmed. change (object_when o1) with (object_when o).
    destruct (deq (object_when o) (timer_when oc1)); [|reflexivity]. cbn [fst]. unfold st1, put_oc, put_obj, set_ocs, set_objs. cbn [objs ocs lrus exp_heap n_expired n_lru_nuked n_lru_moved].
    by rewrite insert_insert_eq. }
  destruct (if deq (object_when o1) (timer_when oc1) then _ else _) as [st2' b]. cbn [fst] in Est. subst st2'.
  assert (Hn2 : isnan (timer_when (rearmed o oc1)) = false).
  { apply rearmed_when; [done|]. exact (ei_when _ _ _ H p oc Ec). }
  assert (H2 : exp_inv s st2 S).
  { apply (inv_put_oc st1 S p oc1); [done|done|apply rearmed_methods|apply rearmed_priv|done|]. by intros Hin. }
  assert (Hl2 : has_lru st2 p (o_lru o)).
  { eapply has_lru_put_oc; [exact Ec1|apply rearmed_methods|apply rearmed_priv|exact Hl1]. }
  destruct (exp_insert_ok s st2 S p (o_lru o) q H2 Hp Hl2 Eq Hsz) as (bh & -> & H3).
  rewrite bind_Ret, (has_lru_updatemeta _ p (o_lru o)), bind_Ret by (exact Hl2).
  eexists. split; [done|]. split; [done|]. split; [done|]. split; [|done].
  cbn [ocs linked set_lrus set_exp_heap st2 put_oc set_ocs st1 put_obj set_objs]. by rewrite insert_insert_eq.
Qed.

End Ops.

(** ** Moves and removals *)

Section Moves.

Context (s : Z).

Lemma lru_of_in st S p : exp_inv s st S -> p ∈ S -> exists l q, has_lru st p l /\ lrus st !! l = Some q.
Proof.
  intros H Hp. destruct (ei_core _ _ _ H p Hp) as [l Hl].
  destruct (ei_lrus _ _ _ H p l Hp Hl) as [q Eq]. by exists l, q.
Qed.

Lemma EXP_Touch_ok st S p busy l oc :
  exp_inv s st S -> ocs st !! p = Some oc -> has_lru st p l ->
  exists st' r, EXP_Touch st p busy = Ok (st', r) /\ exp_inv s st' S /\ objs st' = objs st /\ ocs st' = ocs st /\
    exp_heap st' = exp_heap st /\
    (lrus st' = lrus st \/
     p ∈ S /\ exists q, lrus st !! l = Some q /\
       lrus st' = <[l := filter (fun x => x <> p) q ++ [p]]> (lrus st)).
Proof.
  intros H Ec Hl. unfold EXP_Touch, get_oc. rewrite Ec. cbn [deref]. rewrite bind_Ret.
  destruct (truth _); [exists st, false; split_and!; try done; by left|].
  rewrite (has_lru_getlru st p l Hl), bind_Ret.
  destruct busy; [exists st, false; split_and!; try done; by left|].
  destruct (timer_idx st p =? BINHEAP_NOIDX) eqn:Ei; cbn [negb]; [exists st, true; split_and!; try done; by left|].
  assert (Hp : p ∈ S) by (by apply (idx_iff s st S p H)).
  destruct (ei_lrus _ _ _ H p l Hp Hl) as [q Eq]. unfold lru_remove. rewrite Eq. cbn [deref]. rewrite bind_Ret.
  unfold mret at 1, res_ret at 1. rewrite bind_Ret. unfold lru_insert_tail. cbn [lrus set_lrus].
  rewrite lookup_insert_eq. cbn [deref]. rewrite bind_Ret. unfold mret at 1, res_ret at 1. rewrite bind_Ret.
  rewrite insert_insert_eq. eexists _, true. split; [done|]. split; [|split_and!; try done; right; split; [done|by exists q]].
  apply inv_counted. destruct H as [H1 H2 H3 H4 H5 H6 H7].
  split; cbn [lrus ocs exp_heap set_lrus]; try done.
  - intros l' q' E'. destruct (decide (l' = l)) as [->|Hne].
    + rewrite lookup_insert_eq in E'. injection E' as <-. destruct (H6 l q Eq) as [Hnd Hq]. split.
      * apply NoDup_app. split; [by apply NoDup_filter|]. split; [|apply NoDup_singleton].
        intros x [Hx _]%list_elem_of_filter ->%list_elem_of_singleton. done.
      * intros x. rewrite elem_of_app, list_elem_of_filter, list_elem_of_singleton, Hq.
        change (has_lru (set_lrus (set_lrus st _) _) x l) with (has_lru st x l).
        destruct (decide (x = p)) as [->|]; tauto.
    + rewrite lookup_insert_ne in E' by done. by apply (H6 l' q').
  - intros x l' Hx Hxl. destruct (decide (l' = l)) as [->|Hne]; [by rewrite lookup_insert_eq|].
    rewrite lookup_insert_ne by done. by apply (H7 x l').
Qed.

(** [p] has left the heap and its list. *)
Definition unlinked (st st' : cache) (S : gset positive) (p : positive) : Prop :=
  exp_inv s st' (S ∖ {[p]}) /\ objs st' = objs st /\ ocs st' = ocs st /\
  exists l q, has_lru st p l /\ lrus st !! l = Some q /\
    lrus st' = <[l := filter (fun x => x <> p) q]> (lrus st).

Lemma exp_timer_pick_ok st S t now busy :
  exp_inv s st S ->
  exists st' r t', exp_timer_pick st t now busy = Ok (st', r, t') /\ (t' = t \/ t' = now) /\
    match r with
    | None => st' = st /\ (busy = true \/ forall p, p ∈ S -> dlt t' (when_of (ocs st) p) = true)
    | Some p => p ∈ S /\ dlt t' (when_of (ocs st) p) = false /\
        (forall q, q ∈ S -> dlt (when_of (ocs st) q) (when_of (ocs st) p) = false) /\ unlinked st st' S p
    end.
Proof.
  intros H. pose proof (inv_order s st S H) as Ho. unfold exp_timer_pick.
  destruct (root_ok s _ (exp_heap st) S (ei_heap _ _ _ H)) as (r & -> & Hr). rewrite bind_Ret.
  destruct r as [p|]; [|exists st, None, t; split; [done|]; split; [by left|]; split; [done|]; right; subst S; set_solver].
  destruct Hr as [Hp Hmin]. destruct (lru_of_in st S p H Hp) as (l & q & Hl & Eq).
  assert (Hl' := Hl). destruct Hl' as (oc & a & o & Ec & _). unfold get_oc. rewrite Ec. cbn [deref]. rewrite bind_Ret.
  assert (Ew : when_of (ocs st) p = timer_when oc) by (unfold when_of; by rewrite Ec).
  set (t' := if dlt t (timer_when oc) then now else t). cbv zeta.
  assert (Ht : t' = t \/ t' = now) by (unfold t'; destruct (dlt _ _); auto).
  destruct (dlt t' (timer_when oc)) eqn:Et.
  { exists st, None, t'. split; [done|]. split; [done|]. split; [done|]. right. intros x Hx.
    destruct (dlt t' (when_of (ocs st) x)) eqn:Ex; [done|]. specialize (Hmin x Hx). unfold object_cmp in Hmin.
    pose proof (dlt_negtrans t' _ _ (when_number (ocs st) x (ei_when _ _ _ H)) Ex Hmin). congruence. }
  rewrite (has_lru_getlru st p l Hl), bind_Ret.
  destruct busy; [exists st, None, t'; split_and!; try done; by left|].
  rewrite (vassert_true (negb _)), bind_Ret by (by rewrite (proj2 (idx_iff s st S p H) Hp)).
  destruct (unlink_ok s st S p l q H Hp Hl Eq) as (bh & -> & Ex & Hi). rewrite bind_Ret. cbv zeta.
  rewrite (vassert_true (_ =? _)), bind_Ret by (by rewrite Ex).
  rewrite (has_lru_getlru (set_exp_heap st bh) p l Hl), bind_Ret. unfold lru_remove. cbn [lrus set_exp_heap].
  rewrite Eq. cbn [deref]. rewrite bind_Ret. unfold mret at 1, res_ret at 1. rewrite bind_Ret.
  eexists _, (Some p), t'. split; [done|]. split; [done|]. rewrite Ew. split; [done|]. split; [done|]. split.
  { intros x Hx. specialize (Hmin x Hx). unfold object_cmp in Hmin. by rewrite <- Ew. }
  split; [by apply inv_counted|]. split; [done|]. split; [done|]. by exists l, q.
Qed.

Lemma nuke_search_ok st S l : exp_inv s st S -> (forall p, p ∈ l -> p ∈ S) ->
  exists r, nuke_search st l = Ok r /\
    match r with
    | None => forall p oc, p ∈ l -> ocs st !! p = Some oc -> refcnt oc <> 1
    | Some p => exists l1 l2 oc, l = l1 ++ p :: l2 /\ ocs st !! p = Some oc /\ refcnt oc = 1 /\
        forall x oc, x ∈ l1 -> ocs st !! x = Some oc -> refcnt oc <> 1
    end.
Proof.
  intros H. induction l as [|x l IH]; intros Hl; cbn [nuke_search].
  { exists None. split; [done|]. intros p oc Hp. set_solver. }
  assert (Hx : x ∈ S) by (apply Hl; by left).
  destruct (ei_core _ _ _ H x Hx) as (? & oc & _ & _ & Ec & _). unfold get_oc at 1. rewrite Ec. cbn [deref].
  rewrite bind_Ret. rewrite vassert_true, bind_Ret by (by rewrite (proj2 (idx_iff s st S x H) Hx)).
  destruct (Z.eqb_spec (refcnt oc) 1) as [E1|E1].
  { exists (Some x). split; [done|]. exists [], l, oc. split; [done|]. split; [done|]. split; [done|]. set_solver. }
  destruct IH as ([p|] & -> & Hr); [intros p Hp; apply Hl; by right|exists (Some p)|exists None]; (split; [done|]).
  - destruct Hr as (l1 & l2 & oc' & -> & Ep & Er & Hn). exists (x :: l1), l2, oc'. split; [done|]. split; [done|].
    split; [done|]. intros y oc'' [->|Hy]%elem_of_cons Ey; [congruence|]. by eapply Hn.
  - intros y oc' [->|Hy]%elem_of_cons Ey; [congruence|]. by eapply Hr.
Qed.

Lemma EXP_NukeOne_pick_ok st S l q :
  exp_inv s st S -> lrus st !! l = Some q ->
  exists st' r, EXP_NukeOne_pick st l = Ok (st', r) /\
    match r with
    | None => st' = st /\ forall p oc, p ∈ q -> ocs st !! p = Some oc -> refcnt oc <> 1
    | Some p => exists l1 l2 oc, q = l1 ++ p :: l2 /\ ocs st !! p = Some oc /\ refcnt oc = 1 /\
        (forall x oc, x ∈ l1 -> ocs st !! x = Some oc -> refcnt oc <> 1) /\ unlinked st st' S p
    end.
Proof.
  intros H Eq. destruct (ei_list _ _ _ H l q Eq) as [Hnd Hq]. unfold EXP_NukeOne_pick. rewrite Eq. cbn [deref].
  rewrite bind_Ret. destruct (nuke_search_ok st S q H) as (r & -> & Hr); [intros p Hp; by apply Hq|].
  rewrite bind_Ret. destruct r as [p|]; [|by exists st, None].
  destruct Hr as (l1 & l2 & oc & El & Ec & Er & Hn).
  assert (Hp : p ∈ S /\ has_lru st p l) by (apply Hq; rewrite El; set_solver). destruct Hp as [Hp Hl].
  unfold lru_remove. rewrite Eq. cbn [deref]. rewrite bind_Ret. unfold mret at 1, res_ret at 1. rewrite bind_Ret.
  destruct (unlink_ok s st S p l q H Hp Hl Eq) as (bh & E & Ex & Hi).
  change (timer_idx (set_lrus st ?v) p) with (timer_idx st p). cbn [ocs exp_heap set_lrus].
  rewrite E, bind_Ret. cbv zeta.
  change (timer_idx (set_exp_heap (set_lrus st ?v) bh) p) with (timer_idx (set_exp_heap st bh) p).
  rewrite vassert_true, bind_Ret by (by rewrite Ex).
  eexists _, (Some p). split; [done|]. exists l1, l2, oc. split; [done|]. split; [done|]. split; [done|]. split; [done|].
  split; [by apply inv_counted|]. split; [done|]. split; [done|]. by exists l, q.
Qed.

End Moves.

(** What the timer may take when it looks, and what there is to nuke, is not busy. *)
Definition none_due (st : cache) (t now : double) : Prop := forall p oc, timer_idx st p <> BINHEAP_NOIDX -> ocs st !! p = Some oc ->
  oc_busy oc = true -> dlt t (timer_when oc) = true /\ dlt now (timer_when oc) = true.
Definition none_idle (st : cache) : Prop := forall p oc, timer_idx st p <> BINHEAP_NOIDX -> ocs st !! p = Some oc ->
  oc_busy oc = true -> refcnt oc <> 1.

(** The object of a timer. *)
Lemma taken_object s st st' S p : exp_inv s st S -> p ∈ S -> objs st' = objs st -> ocs st' = ocs st ->
  (forall oc, ocs st !! p = Some oc -> oc_busy oc = false) ->
  exists oc a o, ocs st !! p = Some oc /\ get_oc st' p = Ok oc /\ oc_getobj st' p = Ok (Some a) /\ get_obj st' a = Ok o.
Proof.
  intros H Hp Eo Ec Hb. destruct (ei_core _ _ _ H p Hp) as (l & oc & a & o & Eoc & Em & Ea & Eobj & _). exists oc, a, o.
  unfold oc_getobj, get_oc, get_obj. rewrite Ec, Eo, Eoc, Eobj. cbn [deref]. rewrite bind_Ret.
  rewrite (vassert_true (negb _)) by (by rewrite (Hb oc Eoc)). rewrite bind_Ret, vassert_true by done. by rewrite bind_Ret, Ea.
Qed.

Lemma exp_timer_turn_ok s st S t now busy :
  exp_inv s st S -> none_due st t now -> (forall p oc, p ∈ S -> ocs st !! p = Some oc -> is_Some (objhead oc)) ->
  exp_timer_turn st t now busy = exp_timer_pick st t now busy.
Proof.
  intros H Hn Hh. unfold exp_timer_turn. destruct (exp_timer_pick_ok s st S t now busy H) as (st' & r & t' & -> & Ht & Hr).
  rewrite bind_Ret. cbv beta iota. destruct r as [p|]; [|done]. destruct Hr as (Hp & Hd & _ & _ & Eo & Ec & _).
  assert (Hidx : timer_idx st p <> BINHEAP_NOIDX) by (by rewrite <- Z.eqb_neq, (idx_iff s st S p H)).
  destruct (taken_object s st st' S p H Hp Eo Ec) as (oc & a & o & Eoc & E1 & E2 & E3).
  { intros oc Eoc. destruct (oc_busy oc) eqn:Eb; [|done]. destruct (Hn p oc Hidx Eoc Eb) as [H1 H2].
    unfold when_of in Hd. rewrite Eoc in Hd. destruct Ht as [-> | ->]; congruence. }
  destruct (Hh p oc Hp Eoc) as [h Eh]. unfold exp_timer_log. rewrite E1, bind_Ret, Eh. cbn [notnull]. by rewrite bind_Ret, E2, bind_Ret, E3.
Qed.

Lemma EXP_NukeOne_ok s st S l q : exp_inv s st S -> lrus st !! l = Some q -> none_idle st ->
  EXP_NukeOne st l = EXP_NukeOne_pick st l.
Proof.
  intros H Eq Hn. unfold EXP_NukeOne. destruct (EXP_NukeOne_pick_ok s st S l q H Eq) as (st' & r & -> & Hr).
  rewrite bind_Ret. cbv beta iota. destruct r as [p|]; [|done]. destruct Hr as (l1 & l2 & oc & El & Ec & Er & _ & _ & Eo' & Ec' & _).
  assert (Hp : p ∈ S) by (apply (ei_list _ _ _ H l q Eq); rewrite El; set_solver).
  assert (Hidx : timer_idx st p <> BINHEAP_NOIDX) by (by rewrite <- Z.eqb_neq, (idx_iff s st S p H)).
  destruct (taken_object s st st' S p H Hp Eo' Ec') as (oc' & a & o & _ & _ & E2 & E3).
  { intros oc' E. destruct (oc_busy oc') eqn:Eb; [|done]. destruct (Hn p oc' Hidx E Eb). congruence. }
  by rewrite E2, bind_Ret, E3.
Qed.

(** A page of 2^s pointers. *)
Lemma EXP_Init_ok s st : 2 <= s <= 19 -> numbers (ocs st) -> lrus st = ∅ ->
  exists st', EXP_Init st (8 * 2 ^ s) = Ok st' /\ exp_inv s st' ∅.
Proof.
  intros Hs Hn El. destruct (new_ok s (object_cmp (ocs st)) Hs) as (bh & E & Hh & Hx & Ei).
  unfold EXP_Init. rewrite E, bind_Ret. eexists. split; [done|].
  split; cbn [exp_heap set_exp_heap ocs lrus]; try done.
  - intros p _. unfold timer_idx. cbn [exp_heap set_exp_heap].
    by rewrite Ei.
  - by rewrite El.
Qed.

End ExpireOps.
