(* ===== verification/ExpireThm.v ===== *)
(** What holds of expiry: the heap and the LRU lists agree in every state that the
    operations, each under its locks, and the code around them can reach; what
    the timer and the nuking take. *)
From S2P Require Import Prelude Double BinHeap BinHeapInv BinHeapThm Http Obj Expire ExpireInv ExpireOps.
Import Double BinHeap HeapInv Obj Expire ExpireInv ExpireOps.

Module ExpireThm.

(** ** Steps *)

Inductive op :=
  | OpInsert (a : positive)
  | OpInject (p lru : positive) (w : double)
  | OpTouch (p : positive) (busy : bool)
  | OpRearm (a : positive)
  | OpTimer (t now : double) (busy : bool)
  | OpNuke (lru : positive).

(** The object core that leaves, if one does. *)
Definition run_op (default_keep default_grace : Z) (st : cache) (o : op) : res (cache * option positive) :=
  match o with
  | OpInsert a => st ← EXP_Insert default_keep default_grace st a; mret (st, None)
  | OpInject p lru w => st ← EXP_Inject st p lru w; mret (st, None)
  | OpTouch p busy => '(st, _) ← EXP_Touch st p busy; mret (st, None)
  | OpRearm a => st ← EXP_Rearm default_keep default_grace st a; mret (st, None)
  | OpTimer t now busy => '(st, r, _) ← exp_timer_turn st t now busy; mret (st, r)
  | OpNuke lru => EXP_NukeOne st lru
  end.

(** It has a timer. *)
Definition timed (st : cache) (p : positive) : Prop := timer_idx st p <> BINHEAP_NOIDX.

(** An object and its object core. *)
Definition pair (st : cache) (a : positive) (o : object) (p : positive) (oc : objcore) : Prop :=
  objs st !! a = Some o /\ o_objcore o = Some p /\ ocs st !! p = Some oc /\ methods oc = true /\ priv oc = Some a.

(** There is room for one timer more. *)
Definition room (st : cache) : Prop := bh_next (exp_heap st) < 2 ^ 31.

(** What the callers see to.  Every timer is of an object core with a head; and nothing that
    is busy is due when the timer looks, or without other references when space is made
    (see [exp_busy_race]). *)
Definition op_pre (st : cache) (o : op) : Prop :=
  match o with
  | OpInsert a => exists o p oc, pair st a o p oc /\ exp_ok (o_exp o) = true /\ ~ timed st p /\ oc_busy oc = true /\
      is_Some (objhead oc) /\ 0 < refcnt oc /\ refcnt oc + 1 < 2 ^ 32 /\ deq (entered (o_exp o)) d0 = false /\
      is_Some (lrus st !! o_lru o) /\ room st
  | OpInject p lru w => has_lru st p lru /\ isnan w = false /\ ~ timed st p /\ is_Some (lrus st !! lru) /\ room st
  | OpTouch p _ => exists l, has_lru st p l
  | OpRearm a => exists o, objs st !! a = Some o /\
      (o_objcore o = None \/ exists p oc, pair st a o p oc /\ exp_ok (o_exp o) = true)
  | OpTimer t now _ => none_due st t now /\ forall p oc, timed st p -> ocs st !! p = Some oc -> is_Some (objhead oc)
  | OpNuke lru => is_Some (lrus st !! lru) /\ none_idle st
  end.

(** What other code may do between two operations: anything to object cores
    without a timer and to the objects, as long as those with a timer keep it and
    their objects, and [LRU_Alloc]. *)
Inductive other : cache -> cache -> Prop :=
  | other_objects st st' :
      exp_heap st' = exp_heap st -> lrus st' = lrus st -> numbers (ocs st') ->
      (forall p, timed st p -> when_of (ocs st') p = when_of (ocs st) p) ->
      (forall p l, timed st p -> has_lru st p l -> has_lru st' p l) ->
      other st st'
  | other_lru st l :
      lrus st !! l = None -> other st (LRU_Alloc st l).

(** [8 * 2 ^ s] is the size of a page. *)
Inductive reach (default_keep default_grace s : Z) : cache -> Prop :=
  | reach_init st st' :
      numbers (ocs st) -> lrus st = ∅ -> EXP_Init st (8 * 2 ^ s) = Ok st' -> reach default_keep default_grace s st'
  | reach_other st st' :
      reach default_keep default_grace s st -> other st st' -> reach default_keep default_grace s st'
  | reach_op st o st' r :
      reach default_keep default_grace s st -> op_pre st o ->
      run_op default_keep default_grace st o = Ok (st', r) -> reach default_keep default_grace s st'.

Lemma filter_out (p : positive) l1 l2 : NoDup (l1 ++ p :: l2) -> filter (fun x => x <> p) (l1 ++ p :: l2) = l1 ++ l2.
Proof.
  intros (H1 & H2 & H3)%NoDup_app. apply NoDup_cons in H3 as [H3 _]. rewrite filter_app, filter_cons_False by tauto.
  assert (Hid : forall l : list positive, p ∉ l -> filter (fun x => x <> p) l = l).
  { clear. induction l as [|x l IH]; [done|]. intros [Hx Hl]%not_elem_of_cons.
    rewrite filter_cons_True by congruence. by rewrite IH. }
  rewrite !Hid; [done|done|]. intros Hp. apply (H2 p Hp). by left.
Qed.

Lemma dle_lt_false a b : dle a b = true -> dlt b a = false.
Proof.
  intros H. assert (Hn : isnan a = false /\ isnan b = false) by (by destruct a, b).
  rewrite dle_not_lt in H by apply Hn. by apply negb_true_iff in H.
Qed.

(** The timers after an operation. *)
Definition after (st : cache) (o : op) (r : option positive) (S : gset positive) : gset positive :=
  match o with
  | OpInsert a => match objs st !! a with Some o => match o_objcore o with Some p => {[p]} ∪ S | None => S end | None => S end
  | OpInject p _ _ => {[p]} ∪ S
  | _ => match r with Some p => S ∖ {[p]} | None => S end
  end.

(** An operation adds the timer of [x]. *)
Definition adds (st : cache) (o : op) (x : positive) : Prop :=
  match o with
  | OpInsert a => exists ob, objs st !! a = Some ob /\ o_objcore ob = Some x
  | OpInject p _ _ => x = p
  | _ => False
  end.

Lemma after_iff st o r S x : op_pre st o -> (forall p, adds st o p -> r = None) ->
  x ∈ after st o r S <-> (x ∈ S /\ r <> Some x) \/ adds st o x.
Proof.
  intros Ho Hr. destruct o as [a|p l w|p busy|a|t now busy|l]; cbn [op_pre adds after] in *.
  - destruct Ho as (o & p & oc & (Eo & Ep & _) & _). rewrite Eo, Ep, elem_of_union, elem_of_singleton.
    rewrite (Hr p) by (by exists o). split.
    + intros [->|Hx]; [right; by exists o|by left].
    + intros [[Hx _]|(ob & E & E')]; [by right|]. left. congruence.
  - rewrite (Hr p) by done. rewrite elem_of_union, elem_of_singleton. naive_solver.
  - destruct r as [q|]; [rewrite elem_of_difference, elem_of_singleton|]; naive_solver.
  - destruct r as [q|]; [rewrite elem_of_difference, elem_of_singleton|]; naive_solver.
  - destruct r as [q|]; [rewrite elem_of_difference, elem_of_singleton|]; naive_solver.
  - destruct r as [q|]; [rewrite elem_of_difference, elem_of_singleton|]; naive_solver.
Qed.

Lemma timed_in s st S p : exp_inv s st S -> timed st p <-> p ∈ S.
Proof. intros H. rewrite <- (idx_iff s st S p H). unfold timed. by rewrite Z.eqb_neq. Qed.

Lemma room_size s st S : exp_inv s st S -> room st <-> Z.of_nat (size S) + 1 < 2 ^ 31.
Proof. intros H. unfold room. by rewrite (ei_size _ _ _ H). Qed.

Section Thm.

Context (default_keep default_grace s : Z)
  (Hkeep : 0 <= default_keep < 2 ^ 32) (Hgrace : 0 <= default_grace < 2 ^ 32) (Hs : 2 <= s <= 19).

#[local] Notation run_op := (run_op default_keep default_grace).
#[local] Notation reach := (reach default_keep default_grace s).

Lemma inject_ok st S p l w : exp_inv s st S -> has_lru st p l -> isnan w = false -> p ∉ S ->
  is_Some (lrus st !! l) -> Z.of_nat (size S) + 1 < 2 ^ 31 ->
  exists st', EXP_Inject st p l w = Ok st' /\ exp_inv s st' ({[p]} ∪ S).
Proof using.
  intros H Hl Hw Hp [q Eq] Hsz. assert (Hl' := Hl). destruct Hl' as (oc & a & o & Ec & Em & Ea & _).
  unfold EXP_Inject, get_oc. rewrite Ec. cbn [deref]. rewrite bind_Ret.
  destruct (exp_insert_ok s (put_oc st p (set_timer_when oc w)) S p l q) as (bh & -> & Hi); try done.
  - by apply (inv_put_oc s st S p oc).
  - by eapply has_lru_put_oc.
  - by eexists.
Qed.

Lemma op_ok st S o : exp_inv s st S -> op_pre st o ->
  exists st' r, run_op st o = Ok (st', r) /\ exp_inv s st' (after st o r S).
Proof using Hkeep Hgrace.
  intros H. destruct o as [a|p l w|p busy|a|t now busy|l]; cbn [op_pre ExpireThm.run_op after].
  - intros (o & p & oc & (Eo & Ep & Ec & Em & Ea) & He & Ht & Hb & Hh & Hr & Hr2 & Hen & [q Eq] & Hrm).
    rewrite (timed_in s _ _ _ H) in Ht. rewrite (room_size s _ _ H) in Hrm.
    destruct (EXP_Insert_ok default_keep default_grace Hkeep Hgrace s st S a o p oc q H) as (st' & -> & Hi & _); try done.
    exists st', None. split; [done|]. by rewrite Eo, Ep.
  - intros (Hl & Hw & Ht & Hq & Hrm). rewrite (timed_in s _ _ _ H) in Ht. rewrite (room_size s _ _ H) in Hrm.
    destruct (inject_ok st S p l w H Hl Hw Ht Hq Hrm) as (st' & -> & Hi). by exists st', None.
  - intros [l Hl]. assert (Hl' := Hl). destruct Hl' as (oc & a & o & Ec & _).
    destruct (EXP_Touch_ok s st S p busy l oc H Ec Hl) as (st' & r & -> & Hi & _). by exists st', None.
  - intros (o & Eo & [En|(p & oc & (_ & Ep & Ec & Em & Ea) & He)]).
    + exists st, None. split; [|done]. unfold EXP_Rearm, get_obj. rewrite Eo. cbn [deref]. by rewrite bind_Ret, En.
    + destruct (EXP_Rearm_ok default_keep default_grace Hkeep Hgrace s st S a o p oc H) as (st' & -> & Hi & _); try done.
      by exists st', None.
  - intros [Hn Hh]. rewrite (exp_timer_turn_ok s st S t now busy H Hn) by (intros p oc Hp; by apply Hh, (timed_in s st S p H)).
    destruct (exp_timer_pick_ok s st S t now busy H) as (st' & r & t' & -> & _ & Hr).
    exists st', r. split; [done|]. destruct r as [p|]; [|by destruct Hr as [-> _]]. by destruct Hr as (_ & _ & _ & Hi & _).
  - intros [[q Eq] Hn]. rewrite (EXP_NukeOne_ok s st S l q H Eq Hn). destruct (EXP_NukeOne_pick_ok s st S l q H Eq) as (st' & r & -> & Hr).
    exists st', r. split; [done|]. destruct r as [p|]; [|by destruct Hr as [-> _]]. by destruct Hr as (? & ? & ? & _ & _ & _ & _ & Hi & _).
Qed.

Lemma other_ok st st' S : exp_inv s st S -> other st st' -> exp_inv s st' S.
Proof using.
  intros H Ho. destruct Ho as [st st' Eh El Hn Hw Hl|st l El].
  - apply (inv_frame s st); try done.
    + intros p Hp. apply Hw. by apply (timed_in s _ _ _ H).
    + intros p l Hp. apply Hl. by apply (timed_in s _ _ _ H).
  - destruct H as [H1 H2 H3 H4 H5 H6 H7]. split; cbn [LRU_Alloc set_lrus ocs exp_heap lrus]; try done.
    + intros l' q E. destruct (decide (l' = l)) as [->|Hne].
      * rewrite lookup_insert_eq in E. injection E as <-. split; [constructor|]. intros p. split; [by intros ?%not_elem_of_nil|].
        intros [Hp Hpl]. destruct (H7 p l Hp Hpl) as [? E']. congruence.
      * rewrite lookup_insert_ne in E by done. by apply (H6 l' q).
    + intros p l' Hp Hpl. destruct (decide (l' = l)) as [->|Hne]; [by rewrite lookup_insert_eq|].
      rewrite lookup_insert_ne by done. by apply (H7 p l').
Qed.

Lemma reach_inv st : reach st -> exists S, exp_inv s st S.
Proof using Hkeep Hgrace Hs.
  induction 1 as [st st' Hn El E|st st' _ [S H] Ho|st o st' r _ [S H] Ho E].
  - exists ∅. destruct (EXP_Init_ok s st Hs Hn El) as (st1 & E1 & H1). congruence.
  - exists S. by eapply other_ok.
  - destruct (op_ok st S o H Ho) as (st1 & r1 & E1 & H1). rewrite E in E1. injection E1 as <- <-. by eexists.
Qed.

Lemma adds_none st o p st' r : run_op st o = Ok (st', r) -> adds st o p -> r = None.
Proof using.
  destruct o as [a|q l w|q busy|a|t now busy|l]; cbn [ExpireThm.run_op adds]; try done.
  - intros (? & _ & E)%bind_Ok _. by injection E.
  - intros (? & _ & E)%bind_Ok _. by injection E.
Qed.

End Thm.

(** ** An example *)

(** Entered at 1 and to live for 1, with no grace. *)
Definition ex_obj : object :=
  mkObj 1001 (Some 1%positive) 1 None 0 (mkExp (of_Z 1) d0 dm1 d0 (of_Z 1)) d0
    (Http.mkHttp 0 [] [] 0 0 0 0).
Definition ex_oc : objcore := mkOc 1 true (Some 1%positive) (Some 1%positive) (Some (mkBusyobj None)) d0 OC_F_BUSY.
Definition ex_start : cache := mkCache {[1%positive := ex_obj]} {[1%positive := ex_oc]} ∅ (mkBH [] 0 0 0 0 0 ∅) 0 0 0.
Definition ex_state : cache := match EXP_Init ex_start 4096 with Ok st => LRU_Alloc st 1 | Fail _ => ex_start end.
Definition ex_inserted : cache := match EXP_Insert 0 10 ex_state 1 with Ok st => st | Fail _ => ex_state end.
Definition ex_taken : cache :=
  match exp_timer_pick ex_inserted (of_Z 5) (of_Z 5) false with Ok (st, _, _) => st | Fail _ => ex_inserted end.
Definition ex_idle : cache :=
  match ocs ex_inserted !! 1%positive with Some oc => put_oc ex_inserted 1 (set_refcnt oc 1) | None => ex_inserted end.

Lemma ex_numbers st : ocs st = {[1%positive := ex_oc]} -> numbers (ocs st).
Proof.
  intros -> p oc E. destruct (decide (p = 1%positive)) as [->|Hne].
  - rewrite lookup_singleton_eq in E. by injection E as <-.
  - by rewrite lookup_singleton_ne in E.
Qed.

Lemma ex_state_reach : reach 0 10 9 ex_state.
Proof.
  assert (E : exists st, EXP_Init ex_start 4096 = Ok st /\ lrus st !! 1%positive = None /\ ex_state = LRU_Alloc st 1).
  { unfold ex_state. destruct (EXP_Init_ok 9 ex_start ltac:(lia)) as (st & E & _); [by apply ex_numbers|done|].
    change (8 * 2 ^ 9) with 4096 in E. rewrite E. exists st. split; [done|]. split; [|done].
    unfold EXP_Init in E. apply bind_Ok in E as (bh & _ & [= <-]). done. }
  destruct E as (st & E & El & ->). eapply reach_other; [|by apply other_lru].
  eapply (reach_init 0 10 9 ex_start); [by apply ex_numbers|done|exact E].
Qed.

Lemma ex_pre : op_pre ex_state (OpInsert 1).
Proof.
  exists ex_obj, 1%positive, ex_oc. split; [by repeat split; vm_compute|]. split; [by vm_compute|].
  split; [intros H; by apply H; vm_compute|]. split; [by vm_compute|]. split; [by eexists|]. split; [by vm_compute|].
  split; [by vm_compute|]. split; [by vm_compute|]. split; [exists []; by vm_compute|by vm_compute].
Qed.

Lemma ex_inserted_reach : reach 0 10 9 ex_inserted.
Proof.
  apply (reach_op 0 10 9 ex_state (OpInsert 1) ex_inserted None ex_state_reach ex_pre). by vm_compute.
Qed.

Lemma ex_idle_reach : reach 0 10 9 ex_idle.
Proof.
  unfold ex_idle. destruct (ocs ex_inserted !! 1%positive) as [oc|] eqn:Ec; [|exact ex_inserted_reach].
  eapply reach_other; [exact ex_inserted_reach|].
  assert (Hw : isnan (timer_when oc) = false) by (vm_compute in Ec; by injection Ec as <-).
  apply other_objects; [done|done| | |].
  - destruct (reach_inv 0 10 9 ltac:(lia) ltac:(lia) ltac:(lia) ex_inserted ex_inserted_reach) as [S Hi].
    apply numbers_put; [apply Hi|done].
  - intros p _. cbn [ocs put_oc set_ocs]. rewrite when_insert. destruct (decide (p = 1%positive)) as [->|]; [|done].
    unfold when_of. by rewrite Ec.
  - intros p l _. by eapply has_lru_put_oc.
Qed.

Lemma timer_pick_oc st t now st' p t' oc : exp_timer_pick st t now false = Ok (st', Some p, t') ->
  ocs st !! p = Some oc -> ocs st' !! p = Some oc.
Proof.
  unfold exp_timer_pick. intros ([q|] & _ & E)%bind_Ok Ec; [|done].
  apply bind_Ok in E as (oc' & _ & E). cbv zeta in E. set (u := if dlt t _ then now else t) in E.
  destruct (dlt u _); [done|].
  apply bind_Ok in E as (l & _ & E). apply bind_Ok in E as (? & _ & E). apply bind_Ok in E as (bh & _ & E).
  apply bind_Ok in E as (? & _ & E). apply bind_Ok in E as (l' & _ & E). apply bind_Ok in E as (st1 & E1 & [= <- <- _]).
  unfold lru_remove in E1. by apply bind_Ok in E1 as (? & _ & [= <-]).
Qed.

(** ** What holds *)

(** In every state that can be reached, an object core has a timer exactly when
    it is on the LRU list of the storage of its object, which it is on once, and
    no other list has it; the index it was told is where the heap has it. *)
Theorem exp_lists_agree (default_keep default_grace s : Z) (st : cache)
    (Hkeep : 0 <= default_keep < 2 ^ 32) (Hgrace : 0 <= default_grace < 2 ^ 32) (Hs : 2 <= s <= 19)
    (H : reach default_keep default_grace s st) :
  (forall p, timed st p -> get (exp_heap st) (timer_idx st p) = Some p /\
     exists l q, has_lru st p l /\ lrus st !! l = Some q /\ p ∈ q) /\
  (forall l q, lrus st !! l = Some q -> NoDup q /\ forall p, p ∈ q -> timed st p /\ has_lru st p l).
Proof.
  destruct (reach_inv default_keep default_grace s Hkeep Hgrace Hs st H) as [S Hi]. split.
  - intros p Hp. apply (timed_in s st S p Hi) in Hp.
    destruct (idx_inside s st S p Hi Hp) as (i & -> & _ & _ & G). split; [done|].
    destruct (lru_of_in s st S p Hi Hp) as (l & q & Hl & Eq). exists l, q. split; [done|]. split; [done|].
    by apply (ei_list _ _ _ Hi l q Eq).
  - intros l q Eq. destruct (ei_list _ _ _ Hi l q Eq) as [Hnd Hq]. split; [done|].
    intros p Hp. rewrite (timed_in s st S p Hi). by apply Hq.
Qed.

(** C16. No operation that keeps to its contract fails an assertion in a state that can be
    reached: that of the timer and of making space is that they find no busy object core to take,
    which the code does not see to ([exp_busy_race]).  And the timers are a set: [EXP_Insert] and [EXP_Inject] add one, what [exp_timer] and
    [EXP_NukeOne] take is removed, and nothing else changes it. *)
Theorem exp_refines (default_keep default_grace s : Z) (st : cache) (o : op)
    (Hkeep : 0 <= default_keep < 2 ^ 32) (Hgrace : 0 <= default_grace < 2 ^ 32) (Hs : 2 <= s <= 19)
    (H : reach default_keep default_grace s st) (Ho : op_pre st o) :
  exists st' r, run_op default_keep default_grace st o = Ok (st', r) /\ reach default_keep default_grace s st' /\
    forall x, timed st' x <-> (timed st x /\ r <> Some x) \/ adds st o x.
Proof.
  destruct (reach_inv default_keep default_grace s Hkeep Hgrace Hs st H) as [S Hi].
  destruct (op_ok default_keep default_grace s Hkeep Hgrace st S o Hi Ho) as (st' & r & E & Hi').
  exists st', r. split; [done|]. split; [by eapply reach_op|]. intros x.
  rewrite (timed_in s st' _ x Hi'), (timed_in s st S x Hi).
  apply after_iff; [done|]. intros p. by eapply adds_none.
Qed.

(** [exp_timer] takes only an object whose timer is not after its notion of the
    time, and none with an earlier timer; if the timer is that of its object, then
    the grace and the keep time of the object are over.  When it takes none, the
    LRU is locked or nothing is due. *)
Theorem exp_timer_due (default_keep default_grace s : Z) (st : cache) (t now : double) (busy : bool)
    (Hkeep : 0 <= default_keep < 2 ^ 32) (Hgrace : 0 <= default_grace < 2 ^ 32) (Hs : 2 <= s <= 19)
    (H : reach default_keep default_grace s st) :
  exists st' r t', exp_timer_pick st t now busy = Ok (st', r, t') /\ (t' = t \/ t' = now) /\
    match r with
    | None => st' = st /\ (busy = true \/ forall p, timed st p -> dlt t' (when_of (ocs st) p) = true)
    | Some p => timed st p /\ dlt t' (when_of (ocs st) p) = false /\
        (forall q, timed st q -> dlt (when_of (ocs st) q) (when_of (ocs st) p) = false) /\
        (forall a o oc, pair st a o p oc -> exp_ok (o_exp o) = true ->
           timer_when oc = object_when default_keep default_grace o ->
           dlt t' (EXP_Keep default_keep None o) = false /\ dlt t' (EXP_Grace default_grace None o) = false)
    end.
Proof.
  destruct (reach_inv default_keep default_grace s Hkeep Hgrace Hs st H) as [S Hi].
  destruct (exp_timer_pick_ok s st S t now busy Hi) as (st' & r & t' & E & Ht & Hr).
  exists st', r, t'. split; [done|]. split; [done|]. destruct r as [p|].
  - destruct Hr as (Hp & Hd & Hmin & _). split; [by apply (timed_in s st S p Hi)|]. split; [done|].
    split; [intros q Hq; by apply Hmin, (timed_in s st S q Hi)|]. intros a o oc (_ & _ & Ec & _) He Ew.
    unfold when_of in Hd. rewrite Ec, Ew in Hd.
    pose proof (object_when_number default_keep default_grace Hkeep Hgrace o He) as Hn.
    destruct (object_when_max default_keep default_grace Hkeep Hgrace o He) as [H1 H2].
    split; (eapply dlt_negtrans; [exact Hn|exact Hd|by apply dle_lt_false]).
  - destruct Hr as [-> [->|Hr]]; split; try done; [by left|right]. intros p Hp. by apply Hr, (timed_in s st S p Hi).
Qed.

(** [EXP_NukeOne] takes the first object of the LRU list that nothing but its
    timer refers to, and there is none exactly when it says so. *)
Theorem exp_nuke_first (default_keep default_grace s : Z) (st : cache) (l : positive) (q : list positive)
    (Hkeep : 0 <= default_keep < 2 ^ 32) (Hgrace : 0 <= default_grace < 2 ^ 32) (Hs : 2 <= s <= 19)
    (H : reach default_keep default_grace s st) (Eq : lrus st !! l = Some q) :
  exists st' r, EXP_NukeOne_pick st l = Ok (st', r) /\
    let alone p := exists oc, ocs st !! p = Some oc /\ refcnt oc = 1 in
    match r with
    | None => st' = st /\ forall p, p ∈ q -> ~ alone p
    | Some p => exists q1 q2, q = q1 ++ p :: q2 /\ alone p /\ (forall x, x ∈ q1 -> ~ alone x) /\
        lrus st' = <[l := q1 ++ q2]> (lrus st) /\ ~ timed st' p
    end.
Proof.
  destruct (reach_inv default_keep default_grace s Hkeep Hgrace Hs st H) as [S Hi].
  destruct (EXP_NukeOne_pick_ok s st S l q Hi Eq) as (st' & r & E & Hr). exists st', r. split; [done|].
  destruct r as [p|]; cbn beta iota zeta.
  - destruct Hr as (l1 & l2 & oc & El & Ec & Er & Hn & Hi' & _ & _ & l' & q' & Hl & Eq' & Elr).
    exists l1, l2. split; [done|]. split; [by exists oc|]. split; [intros x Hx (oc' & ? & ?); by eapply Hn|].
    destruct (ei_list _ _ _ Hi l q Eq) as [Hnd Hq]. split.
    + assert (l' = l) as ->.
      { apply (has_lru_fun st p); [done|]. apply (Hq p). rewrite El. set_solver. }
      replace q' with q in Elr by congruence. rewrite Elr. f_equal. rewrite El in Hnd |- *. by apply filter_out.
    + rewrite (timed_in s st' _ p Hi'). set_solver.
  - destruct Hr as [-> Hr]. split; [done|]. intros p Hp (oc & Ec & E1). by eapply Hr.
Qed.

(** [EXP_Insert] puts the object on the heap while it is busy, and
    [HSH_Unbusy] comes later; nothing keeps [exp_timer] from it in between.  If
    the object is due by then, because fetching its body took longer than it may
    live, [exp_timer] takes it, and [oc_getobj] fails its assertion that it is
    not busy.  Such a state can be reached. *)
Theorem exp_busy_race (default_keep default_grace s : Z) :
  (forall st t now st' p t' oc, exp_timer_pick st t now false = Ok (st', Some p, t') ->
     ocs st !! p = Some oc -> oc_busy oc = true -> is_Some (objhead oc) -> exp_timer_log st' p t' = Fail FAssert) /\
  exists st st1 st2 r, reach 0 10 9 st /\ op_pre st (OpInsert 1) /\
    EXP_Insert 0 10 st 1 = Ok st1 /\ reach 0 10 9 st1 /\
    exp_timer_pick st1 (of_Z 5) (of_Z 5) false = Ok (st2, Some r, of_Z 5) /\
    exp_timer_log st2 r (of_Z 5) = Fail FAssert.
Proof.
  assert (Hrace : forall st t now st' p t' oc, exp_timer_pick st t now false = Ok (st', Some p, t') ->
     ocs st !! p = Some oc -> oc_busy oc = true -> is_Some (objhead oc) -> exp_timer_log st' p t' = Fail FAssert).
  { intros st t now st' p t' oc E Ec Hb [h Eh]. assert (Ec' : ocs st' !! p = Some oc) by (by eapply timer_pick_oc).
    unfold exp_timer_log, oc_getobj, get_oc. rewrite Ec'. cbn [deref]. rewrite bind_Ret, Eh. cbn [notnull].
    by rewrite !bind_Ret, Hb. }
  split; [exact Hrace|]. exists ex_state, ex_inserted, ex_taken, 1%positive.
  split; [exact ex_state_reach|]. split; [exact ex_pre|]. split; [by vm_compute|]. split; [exact ex_inserted_reach|].
  split; by vm_compute.
Qed.

Lemma exp_lists_agree_witness : timed ex_inserted 1 /\ lrus ex_inserted !! 1%positive = Some [1%positive].
Proof.
  destruct (exp_lists_agree 0 10 9 ex_inserted ltac:(lia) ltac:(lia) ltac:(lia) ex_inserted_reach) as [_ H].
  split; [|by vm_compute]. destruct (H 1%positive [1%positive]) as [_ H1]; [by vm_compute|].
  apply H1. by left.
Defined.

Lemma exp_refines_witness : exists st' r,
  run_op 0 10 ex_state (OpInsert 1) = Ok (st', r) /\ timed st' 1.
Proof.
  destruct (exp_refines 0 10 9 ex_state (OpInsert 1) ltac:(lia) ltac:(lia) ltac:(lia) ex_state_reach ex_pre)
    as (st' & r & E & _ & H).
  exists st', r. split; [exact E|]. apply H. right. exists ex_obj. by split; vm_compute.
Defined.

Lemma exp_timer_due_witness : exists st' t',
  exp_timer_pick ex_inserted (of_Z 1) (of_Z 5) false = Ok (st', Some 1%positive, t') /\ (t' = of_Z 1 \/ t' = of_Z 5).
Proof.
  destruct (exp_timer_due 0 10 9 ex_inserted (of_Z 1) (of_Z 5) false ltac:(lia) ltac:(lia) ltac:(lia) ex_inserted_reach)
    as (st' & r & t' & E & Ht & _).
  exists st', t'. split; [|exact Ht]. rewrite E. do 2 f_equal. vm_compute in E. by injection E as _ <- _.
Defined.

(** The session has let go of it. *)
Lemma exp_nuke_first_witness : exists st', EXP_NukeOne_pick ex_idle 1 = Ok (st', Some 1%positive) /\ ~ timed st' 1.
Proof.
  destruct (exp_nuke_first 0 10 9 ex_idle 1 [1%positive] ltac:(lia) ltac:(lia) ltac:(lia) ex_idle_reach)
    as (st' & r & E & Hr); [by vm_compute|].
  assert (r = Some 1%positive) as -> by (vm_compute in E; by injection E as _ <-).
  exists st'. split; [exact E|]. by destruct Hr as (? & ? & _ & _ & _ & _ & Hr).
Defined.

End ExpireThm.
