(* ===== verification/Slinger.v ===== *)
(** Hash slingers: what [bin/varnishd/hash_slinger.h] asks of them, as a class, and
    two of them, [hash_simple_list.c] and [hash_classic.c].

    The fields [refcnt], [digest] and [hoh_head] of an object head are only changed
    by the slinger and by its maker, so they are part of the slinger's state. *)
From S2P Require Import Prelude.

Module Slinger.

Definition DIGEST_LEN : nat := 32.

Record head := mkHead { refcnt : Z; digest : list Z }.

Notation heads := (gmap positive head).

(** [ALLOC_OBJ] and [oh->refcnt = 1] of [HSH_Prealloc]. *)
Definition new_head (m : heads) (p : positive) : heads := <[p := mkHead 1 (replicate DIGEST_LEN 0)]> m.
Definition put_digest (m : heads) (p : positive) (d : list Z) : res heads :=
  h ← deref (m !! p); mret (<[p := mkHead (refcnt h) d]> m).
Definition put_refcnt (m : heads) (p : positive) (r : Z) : res heads :=
  h ← deref (m !! p); mret (<[p := mkHead r (digest h)]> m).

(** [memcmp] of two digests. *)
Fixpoint memcmp (a b : list Z) : comparison :=
  match a, b with
  | x :: a, y :: b => match x ?= y with Eq => memcmp a b | c => c end
  | [], [] => Eq
  | [], _ :: _ => Lt
  | _ :: _, [] => Gt
  end.

(** The loop over a list of heads in [hsl_lookup] and [hcl_lookup]: whether the
    digest was found, and where it stopped. *)
Fixpoint scan (m : heads) (l : list positive) (d : list Z) : res (bool * nat) :=
  match l with
  | [] => mret (false, 0%nat)
  | p :: l =>
      h ← deref (m !! p);
      match memcmp (digest h) d with
      | Lt => '(found, i) ← scan m l d; mret (found, S i)
      | Gt => mret (false, 0%nat)
      | Eq => mret (true, 0%nat)
      end
  end.

Definition insert_at (l : list positive) (i : nat) (p : positive) : list positive := take i l ++ p :: drop i l.
Definition remove (p : positive) (l : list positive) : list positive := filter (fun q => q <> p) l.

(** ** The interface *)

(** [sl_lookup] answers the head with the digest of the one it is given, which it
    inserts if there is none; [sl_deref] whether references are left. *)
Class Slinger (S : Type) := {
  sl_new : S -> positive -> S;
  sl_digest : S -> positive -> list Z -> res S;
  sl_refcnt : S -> positive -> res Z;
  sl_lookup : S -> positive -> res (S * positive);
  sl_deref : S -> positive -> res (S * bool);
  sl_free : S -> positive -> S;
}.

(** What a slinger keeps: for each head its reference count, its digest and
    whether it can be found. *)
Record entry := mkEntry { e_ref : Z; e_dig : list Z; e_in : bool }.
Notation table := (gmap positive entry).

Definition set_ref (e : entry) (r : Z) : entry := mkEntry r (e_dig e) (e_in e).

(** What a client may rely on. *)
Class SlingerLaws (S : Type) `{Slinger S} := {
  sl_rel : S -> table -> Prop;
  sl_unique st T p q e f : sl_rel st T -> T !! p = Some e -> T !! q = Some f ->
    e_in e = true -> e_in f = true -> e_dig e = e_dig f -> p = q;
  sl_new_ok st T p : sl_rel st T -> T !! p = None ->
    sl_rel (sl_new st p) (<[p := mkEntry 1 (replicate DIGEST_LEN 0) false]> T);
  sl_digest_ok st T p e d : sl_rel st T -> T !! p = Some e -> e_in e = false -> length d = DIGEST_LEN ->
    exists st', sl_digest st p d = Ok st' /\ sl_rel st' (<[p := mkEntry (e_ref e) d false]> T);
  sl_refcnt_ok st T p e : sl_rel st T -> T !! p = Some e -> sl_refcnt st p = Ok (e_ref e);
  sl_lookup_ok st T p e : sl_rel st T -> T !! p = Some e -> e_in e = false ->
    exists st' r, sl_lookup st p = Ok (st', r) /\
      ((exists f, T !! r = Some f /\ e_in f = true /\ e_dig f = e_dig e /\
         sl_rel st' (<[r := set_ref f (e_ref f + 1)]> T)) \/
       ((forall q f, T !! q = Some f -> e_in f = true -> e_dig f <> e_dig e) /\ r = p /\
         sl_rel st' (<[p := mkEntry (e_ref e) (e_dig e) true]> T)));
  sl_deref_ok st T p e : sl_rel st T -> T !! p = Some e -> e_in e = true -> 0 < e_ref e ->
    exists st', sl_deref st p = Ok (st', negb (e_ref e =? 1)) /\
      sl_rel st' (<[p := mkEntry (e_ref e - 1) (e_dig e) (negb (e_ref e =? 1))]> T);
  sl_free_ok st T p e : sl_rel st T -> T !! p = Some e -> e_in e = false -> sl_rel (sl_free st p) (delete p T);
}.

(** ** [hash_simple_list.c] *)

Record hsl := mkHsl { hsl_heads : heads; hsl_head : list positive }.

Definition hsl_start : hsl := mkHsl ∅ [].

Definition hsl_lookup (st : hsl) (noh : positive) : res (hsl * positive) :=
  n ← deref (hsl_heads st !! noh);
  '(found, i) ← scan (hsl_heads st) (hsl_head st) (digest n);
  if (found : bool) then
    oh ← deref (hsl_head st !! i);
    h ← deref (hsl_heads st !! oh);
    m ← put_refcnt (hsl_heads st) oh (refcnt h + 1);
    mret (mkHsl m (hsl_head st), oh)
  else mret (mkHsl (hsl_heads st) (insert_at (hsl_head st) i noh), noh).

Definition hsl_deref (st : hsl) (oh : positive) : res (hsl * bool) :=
  h ← deref (hsl_heads st !! oh);
  m ← put_refcnt (hsl_heads st) oh (refcnt h - 1);
  if refcnt h - 1 =? 0 then mret (mkHsl m (remove oh (hsl_head st)), false)
  else mret (mkHsl m (hsl_head st), true).

#[export] Instance hsl_slinger : Slinger hsl := {
  sl_new st p := mkHsl (new_head (hsl_heads st) p) (hsl_head st);
  sl_digest st p d := m ← put_digest (hsl_heads st) p d; mret (mkHsl m (hsl_head st));
  sl_refcnt st p := h ← deref (hsl_heads st !! p); mret (refcnt h);
  sl_lookup := hsl_lookup;
  sl_deref := hsl_deref;
  sl_free st p := mkHsl (delete p (hsl_heads st)) (hsl_head st);
}.

(** ** [hash_classic.c] *)

(** [hcl_hd]: the buckets, and the one that each head is in. *)
Record hcl := mkHcl { hcl_heads : heads; hcl_head : gmap Z (list positive); hoh_head : gmap positive Z }.

(** The number of buckets for the argument that [sscanf] read. *)
Definition hcl_init (hcl_nhash : Z) (u : Z) : Z :=
  if u =? 0 then hcl_nhash
  else if (2 <? u) && negb (truth (Z.land u (u32 (u - 1)))) then u - 1 else u.

Definition hcl_start (hcl_nhash : Z) : hcl :=
  mkHcl ∅ (list_to_map ((fun u => (u, [])) <$> seqZ 0 hcl_nhash)) ∅.

Section Classic.

(** [hcl_nhash], and the [unsigned] that the first octets of a digest make in
    memory, whose order is the machine's. *)
Variables (hcl_nhash : Z) (word : list Z -> Z).

Definition bucket (d : list Z) : Z := word (take 4 d) mod hcl_nhash.

Definition hcl_lookup (st : hcl) (noh : positive) : res (hcl * positive) :=
  n ← deref (hcl_heads st !! noh);
  let hp := bucket (digest n) in
  l ← deref (hcl_head st !! hp);
  '(found, i) ← scan (hcl_heads st) l (digest n);
  if (found : bool) then
    oh ← deref (l !! i);
    h ← deref (hcl_heads st !! oh);
    m ← put_refcnt (hcl_heads st) oh (refcnt h + 1);
    mret (mkHcl m (hcl_head st) (hoh_head st), oh)
  else mret (mkHcl (hcl_heads st) (<[hp := insert_at l i noh]> (hcl_head st)) (<[noh := hp]> (hoh_head st)), noh).

Definition hcl_deref (st : hcl) (oh : positive) : res (hcl * bool) :=
  h ← deref (hcl_heads st !! oh);
  hp ← match hoh_head st !! oh with Some hp => Ok hp | None => Fail FAssert end;
  l ← deref (hcl_head st !! hp);
  vassert (0 <? refcnt h);;
  m ← put_refcnt (hcl_heads st) oh (refcnt h - 1);
  if refcnt h - 1 =? 0 then mret (mkHcl m (<[hp := remove oh l]> (hcl_head st)) (hoh_head st), false)
  else mret (mkHcl m (hcl_head st) (hoh_head st), true).

#[export] Instance hcl_slinger : Slinger hcl := {
  sl_new st p := mkHcl (new_head (hcl_heads st) p) (hcl_head st) (hoh_head st);
  sl_digest st p d := m ← put_digest (hcl_heads st) p d; mret (mkHcl m (hcl_head st) (hoh_head st));
  sl_refcnt st p := h ← deref (hcl_heads st !! p); mret (refcnt h);
  sl_lookup := hcl_lookup;
  sl_deref := hcl_deref;
  sl_free st p := mkHcl (delete p (hcl_heads st)) (hcl_head st) (delete p (hoh_head st));
}.

End Classic.

End Slinger.
