(* ===== verification/SlingerThm.v ===== *)
(** The slingers keep what the class promises: the simple list is sorted by digest,
    and so is each bucket of the classic hash. *)
From S2P Require Import Prelude Vend Slinger.
From Stdlib Require Import Sorting.Sorted.
Import Vend Slinger.

Module SlingerThm.

(** ** Digests *)

Lemma memcmp_eq a b : memcmp a b = Eq <-> a = b.
Proof.
  revert b. induction a as [|x a IH]; intros [|y b]; cbn [memcmp]; try done.
  destruct (Z.compare_spec x y) as [->|H|H]; [rewrite IH|..]; (split; [intros E|intros [= E]]); try done; try congruence; lia.
Qed.

Lemma memcmp_opp a b : memcmp b a = CompOpp (memcmp a b).
Proof.
  revert b. induction a as [|x a IH]; intros [|y b]; cbn [memcmp]; try done.
  rewrite (Z.compare_antisym x y). destruct (x ?= y); cbn; [apply IH|done..].
Qed.

Lemma memcmp_trans a b c : memcmp a b = Lt -> memcmp b c = Lt -> memcmp a c = Lt.
Proof.
  revert b c. induction a as [|x a IH]; intros [|y b] [|z c]; cbn [memcmp]; try done.
  destruct (Z.compare_spec x y) as [->|H|H]; [|..|done].
  - destruct (Z.compare_spec y z); try done. apply IH.
  - intros _. destruct (Z.compare_spec y z) as [E|H1|H1]; try done; intros _; (destruct (Z.compare_spec x z); [lia|done|lia]).
Qed.

(** ** Sorted lists of heads *)

Definition dig (T : table) (p : positive) : list Z := match T !! p with Some e => e_dig e | None => [] end.
Definition before (T : table) (p q : positive) : Prop := memcmp (dig T p) (dig T q) = Lt.

(** The fields of the heads. *)
Definition fields (m : heads) (T : table) : Prop :=
  forall p, m !! p = (fun e => mkHead (e_ref e) (e_dig e)) <$> T !! p.

Lemma fields_head m T p e : fields m T -> T !! p = Some e -> m !! p = Some (mkHead (e_ref e) (e_dig e)).
Proof. intros H E. by rewrite H, E. Qed.

Lemma dig_entry T p e : T !! p = Some e -> dig T p = e_dig e.
Proof. unfold dig. by intros ->. Qed.

Lemma sorted_ext T T' l : (forall p, p ∈ l -> dig T' p = dig T p) ->
  StronglySorted (before T) l -> StronglySorted (before T') l.
Proof.
  induction 2 as [|p l Hl IH Hp]; [constructor|].
  constructor; [apply IH; intros q Hq; apply H; by right|].
  rewrite Forall_forall in *. intros q Hq. unfold before. rewrite !H by (by left || by right). by apply Hp.
Qed.

Lemma sorted_remove T p l : StronglySorted (before T) l -> StronglySorted (before T) (remove p l).
Proof.
  induction 1 as [|q l Hl IH Hq]; [constructor|]. unfold remove. rewrite filter_cons.
  destruct (decide (q <> p)); [|exact IH]. constructor; [exact IH|].
  rewrite Forall_forall in *. intros x [_ Hx]%list_elem_of_filter. by apply Hq.
Qed.

Lemma sorted_inj T l p q : StronglySorted (before T) l -> p ∈ l -> q ∈ l -> dig T p = dig T q -> p = q.
Proof.
  intros Hs. induction Hs as [|x l Hl IH Hx]; [by intros ?%not_elem_of_nil|].
  rewrite Forall_forall in Hx. unfold before in Hx.
  intros [->|Hp]%elem_of_cons [->|Hq]%elem_of_cons E; [done|..|by apply IH].
  - specialize (Hx q Hq). rewrite E in Hx. by rewrite (proj2 (memcmp_eq _ _) eq_refl) in Hx.
  - specialize (Hx p Hp). rewrite E in Hx. by rewrite (proj2 (memcmp_eq _ _) eq_refl) in Hx.
Qed.

Lemma elem_insert_at l i p q : q ∈ insert_at l i p <-> q = p \/ q ∈ l.
Proof.
  unfold insert_at. rewrite elem_of_app, elem_of_cons. rewrite <- (take_drop i l) at 3. rewrite elem_of_app. naive_solver.
Qed.

Lemma elem_remove l p q : q ∈ remove p l <-> q <> p /\ q ∈ l.
Proof. unfold remove. by rewrite list_elem_of_filter. Qed.

(** The loop finds the digest, or the place where it belongs. *)
Lemma scan_ok m T l d : fields m T -> (forall p, p ∈ l -> is_Some (T !! p)) -> StronglySorted (before T) l ->
  exists found i, scan m l d = Ok (found, i) /\
    if (found : bool) then exists p, l !! i = Some p /\ dig T p = d
    else (forall p, p ∈ l -> dig T p <> d) /\
      forall T' n, (forall p, p ∈ l -> dig T' p = dig T p) -> dig T' n = d -> StronglySorted (before T') (insert_at l i n).
Proof.
  intros Hm Hl Hs. induction Hs as [|p l Hs IH Hp].
  { exists false, 0%nat. split; [done|]. split; [by intros p ?%not_elem_of_nil|]. intros T' n _ _. repeat constructor. }
  destruct (Hl p) as [e Ee]; [by left|]. cbn [scan]. rewrite (fields_head m T p e Hm Ee). cbn [deref digest].
  rewrite bind_Ret. cbn [digest]. rewrite <- (dig_entry T p e Ee). rewrite Forall_forall in Hp.
  destruct (memcmp (dig T p) d) eqn:Ec.
  - apply memcmp_eq in Ec. exists true, 0%nat. split; [done|]. by exists p.
  - destruct IH as (found & i & -> & Hi); [intros q Hq; apply Hl; by right|]. rewrite bind_Ret. cbv beta iota.
    exists found, (S i). split; [done|]. destruct found; [exact Hi|]. destruct Hi as [Hne Hins]. split.
    + intros q [->|Hq]%elem_of_cons; [|by apply Hne]. intros Ed. rewrite Ed, (proj2 (memcmp_eq d d) eq_refl) in Ec. done.
    + intros T' n Hext Hn. change (insert_at (p :: l) (S i) n) with (p :: insert_at l i n). constructor.
      * apply Hins; [|done]. intros q Hq. apply Hext. by right.
      * apply Forall_forall. intros q Hq%elem_insert_at. unfold before. rewrite (Hext p) by (by left).
        destruct Hq as [->|Hq]; [by rewrite Hn|]. rewrite Hext by (by right). by apply Hp.
  - exists false, 0%nat. split; [done|].
    assert (Hlt : memcmp d (dig T p) = Lt) by (by rewrite memcmp_opp, Ec). split.
    + intros q [->|Hq]%elem_of_cons Ed.
      * rewrite Ed, (proj2 (memcmp_eq d d) eq_refl) in Ec. done.
      * specialize (Hp q Hq). unfold before in Hp. rewrite Ed, Ec in Hp. done.
    + intros T' n Hext Hn. unfold insert_at. cbn [take drop app].
      assert (Hlt' : forall q, q ∈ p :: l -> before T' n q).
      { intros q Hq. unfold before. rewrite Hn, (Hext q Hq). apply elem_of_cons in Hq as [->|Hq]; [done|].
        eapply memcmp_trans; [exact Hlt|by apply Hp]. }
      constructor; [|by apply Forall_forall].
      apply (sorted_ext T); [done|]. constructor; [done|by apply Forall_forall].
Qed.

(** ** Changes of the fields *)

Lemma fields_put m T p r d b : fields m T -> fields (<[p := mkHead r d]> m) (<[p := mkEntry r d b]> T).
Proof.
  intros H q. destruct (decide (q = p)) as [->|Hne]; [by rewrite !lookup_insert_eq|]. by rewrite !lookup_insert_ne by done.
Qed.

Lemma fields_del m T p : fields m T -> fields (delete p m) (delete p T).
Proof.
  intros H q. destruct (decide (q = p)) as [->|Hne]; [by rewrite !lookup_delete_eq|]. by rewrite !lookup_delete_ne by done.
Qed.

Lemma put_refcnt_ok m T p e r : fields m T -> T !! p = Some e ->
  put_refcnt m p r = Ok (<[p := mkHead r (e_dig e)]> m).
Proof. intros H E. unfold put_refcnt. by rewrite (fields_head m T p e H E). Qed.

Lemma put_digest_ok m T p e d : fields m T -> T !! p = Some e ->
  put_digest m p d = Ok (<[p := mkHead (e_ref e) d]> m).
Proof. intros H E. unfold put_digest. by rewrite (fields_head m T p e H E). Qed.

Lemma dig_insert T p e q : dig (<[p := e]> T) q = if decide (q = p) then e_dig e else dig T q.
Proof. unfold dig. destruct (decide (q = p)) as [->|]; [by rewrite lookup_insert_eq|by rewrite lookup_insert_ne]. Qed.

Lemma dig_same T p e e' q : T !! p = Some e -> e_dig e' = e_dig e -> dig (<[p := e']> T) q = dig T q.
Proof. intros E Ed. rewrite dig_insert. destruct (decide (q = p)) as [->|]; [by rewrite Ed, (dig_entry T p e)|done]. Qed.

(** ** Lists of the heads whose digest is [P] *)

Record listed (T : table) (P : list Z -> Prop) (l : list positive) : Prop := {
  li_sorted : StronglySorted (before T) l;
  li_in p : p ∈ l <-> exists e, T !! p = Some e /\ e_in e = true /\ P (e_dig e);
}.

Section Listed.

Context (T : table) (P : list Z -> Prop) (l : list positive) (H : listed T P l).

Lemma listed_has p : p ∈ l -> is_Some (T !! p).
Proof using H. intros (e & E & _)%(li_in _ _ _ H). by exists e. Qed.

Lemma listed_unique p q e f : T !! p = Some e -> T !! q = Some f -> e_in e = true -> e_in f = true ->
  P (e_dig e) -> e_dig e = e_dig f -> p = q.
Proof using H.
  intros Ep Eq Hp Hq HP E. apply (sorted_inj T l); [apply H|apply (li_in _ _ _ H)..|].
  - by exists e.
  - exists f. by rewrite <- E.
  - by rewrite (dig_entry T p e), (dig_entry T q f).
Qed.

(** A head that is not on the list may change, as long as it does not belong there. *)
Lemma listed_other p e : p ∉ l -> (e_in e = true -> ~ P (e_dig e)) -> listed (<[p := e]> T) P l.
Proof using H.
  intros Hp He. assert (Hne : forall q, q ∈ l -> q <> p) by (by intros q Hq ->). split.
  - apply (sorted_ext T); [|apply H]. intros q Hq. rewrite dig_insert. by rewrite decide_False by (by apply Hne).
  - intros q. rewrite (li_in _ _ _ H q). destruct (decide (q = p)) as [->|Hq].
    + rewrite lookup_insert_eq. split; [intros Hin; by destruct (Hp (proj2 (li_in _ _ _ H p) Hin))|].
      intros (f & [= <-] & Hf & HP). by destruct (He Hf).
    + by rewrite lookup_insert_ne.
Qed.

Lemma listed_free p : p ∉ l -> listed (delete p T) P l.
Proof using H.
  intros Hp. assert (Hne : forall q, q ∈ l -> q <> p) by (by intros q Hq ->). split.
  - apply (sorted_ext T); [|apply H]. intros q Hq. unfold dig. by rewrite lookup_delete_ne by (apply not_eq_sym; by apply Hne).
  - intros q. rewrite (li_in _ _ _ H q). destruct (decide (q = p)) as [->|Hq].
    + rewrite lookup_delete_eq. split; [intros Hin; by destruct (Hp (proj2 (li_in _ _ _ H p) Hin))|by intros (f & [=] & _)].
    + by rewrite lookup_delete_ne.
Qed.

Lemma listed_same p e e' : T !! p = Some e -> e_dig e' = e_dig e -> e_in e' = e_in e -> listed (<[p := e']> T) P l.
Proof using H.
  intros E Ed Ei. split.
  - apply (sorted_ext T); [|apply H]. intros q _. by eapply dig_same.
  - intros q. rewrite (li_in _ _ _ H q). destruct (decide (q = p)) as [->|Hq]; [|by rewrite lookup_insert_ne].
    rewrite lookup_insert_eq. split; [intros (f & Ef & Hf & HP)|intros (f & [= <-] & Hf & HP)].
    + exists e'. split; [done|]. rewrite Ed, Ei. by simplify_eq.
    + exists e. rewrite <- Ed, <- Ei. done.
Qed.

Lemma listed_put p e i : T !! p = Some e -> e_in e = false -> P (e_dig e) ->
  (forall T' n, (forall q, q ∈ l -> dig T' q = dig T q) -> dig T' n = e_dig e -> StronglySorted (before T') (insert_at l i n)) ->
  listed (<[p := mkEntry (e_ref e) (e_dig e) true]> T) P (insert_at l i p).
Proof using H.
  intros E Ei HP Hs. split.
  - apply Hs; [intros q _; by eapply dig_same|]. by rewrite dig_insert, decide_True.
  - intros q. rewrite elem_insert_at, (li_in _ _ _ H q). destruct (decide (q = p)) as [->|Hq].
    + rewrite lookup_insert_eq. split; [by intros _; eexists|by left].
    + rewrite lookup_insert_ne by done. naive_solver.
Qed.

Lemma listed_drop p e r : T !! p = Some e -> listed (<[p := mkEntry r (e_dig e) false]> T) P (remove p l).
Proof using H.
  intros E. split.
  - apply (sorted_ext T); [intros q _; by eapply dig_same|]. apply sorted_remove, H.
  - intros q. rewrite elem_remove, (li_in _ _ _ H q). destruct (decide (q = p)) as [->|Hq].
    + rewrite lookup_insert_eq. split; [by intros []|by intros (f & [= <-] & [=] & _)].
    + rewrite lookup_insert_ne by done. naive_solver.
Qed.

Lemma listed_out p : (forall e, T !! p = Some e -> e_in e = false) -> p ∉ l.
Proof using H. intros Hp (e & E & Hi & _)%(li_in _ _ _ H). by rewrite (Hp e E) in Hi. Qed.

(** Looking a digest up that is [P]. *)
Lemma listed_scan m d : fields m T -> P d ->
  exists found i, scan m l d = Ok (found, i) /\
    if (found : bool) then exists p e, l !! i = Some p /\ T !! p = Some e /\ e_in e = true /\ e_dig e = d
    else (forall q f, T !! q = Some f -> e_in f = true -> e_dig f <> d) /\
      forall T' n, (forall q, q ∈ l -> dig T' q = dig T q) -> dig T' n = d -> StronglySorted (before T') (insert_at l i n).
Proof using H.
  intros Hm HP. destruct (scan_ok m T l d Hm listed_has (li_sorted _ _ _ H)) as (found & i & E & Hr).
  exists found, i. split; [done|]. destruct found.
  - destruct Hr as (p & Ei & Ed). destruct (proj1 (li_in _ _ _ H p)) as (e & Ee & He & _); [by eapply list_elem_of_lookup_2|].
    exists p, e. split; [done|]. split; [done|]. split; [done|]. by rewrite <- (dig_entry T p e).
  - destruct Hr as [Hne Hs]. split; [|done]. intros q f Eq Hf Ed.
    apply (Hne q); [apply (li_in _ _ _ H); exists f; by rewrite Ed|]. by rewrite (dig_entry T q f).
Qed.

End Listed.

(** ** The simple list *)

Record hsl_rel (st : hsl) (T : table) : Prop := {
  hr_fields : fields (hsl_heads st) T;
  hr_list : listed T (fun _ => True) (hsl_head st);
}.

Lemma hsl_start_ok : hsl_rel hsl_start ∅.
Proof. split; [done|]. split; [constructor|]. intros p. split; [by intros ?%not_elem_of_nil|by intros (e & [=] & _)]. Qed.

#[export] Program Instance hsl_laws : SlingerLaws hsl := {| sl_rel := hsl_rel |}.
Next Obligation.
  intros st T p q e f [_ Hl] Ep Eq Hp Hq E. by eapply listed_unique.
Qed.
Next Obligation.
  intros st T p [Hf Hl] E. split; [by apply fields_put|]. apply listed_other; [done| |done].
  eapply listed_out; [exact Hl|]. intros e Ee. congruence.
Qed.
Next Obligation.
  intros st T p e d [Hf Hl] E Hi _. cbn [sl_digest hsl_slinger]. rewrite (put_digest_ok _ T p e) by done. rewrite bind_Ret.
  eexists. split; [done|]. split; [by apply fields_put|]. apply listed_other; [done| |done].
  eapply listed_out; [exact Hl|]. intros e' Ee. congruence.
Qed.
Next Obligation.
  intros st T p e [Hf Hl] E. cbn [sl_refcnt hsl_slinger]. by rewrite (fields_head _ T p e).
Qed.
Next Obligation.
  intros st T p e [Hf Hl] E Hi. cbn [sl_lookup hsl_slinger]. unfold hsl_lookup.
  rewrite (fields_head _ T p e Hf E). cbn [deref]. rewrite bind_Ret. cbn [digest].
  destruct (listed_scan T _ _ Hl (hsl_heads st) (e_dig e) Hf I) as (found & i & -> & Hr). rewrite bind_Ret. cbv beta iota.
  destruct found.
  - destruct Hr as (r & f & Er & Ef & Hin & Ed). rewrite Er. cbn [deref]. rewrite bind_Ret, (fields_head _ T r f Hf Ef).
    cbn [deref]. rewrite bind_Ret. cbn [refcnt]. rewrite (put_refcnt_ok _ T r f), bind_Ret by done.
    eexists _, r. split; [done|]. left. exists f. split; [done|]. split; [done|]. split; [done|].
    split; [by apply fields_put|]. by eapply listed_same.
  - destruct Hr as [Hne Hs]. eexists _, p. split; [done|]. right. split; [done|]. split; [done|].
    split; [|by apply listed_put]. intros q. cbn [hsl_heads]. rewrite (Hf q).
    destruct (decide (q = p)) as [->|Hq]; [by rewrite lookup_insert_eq, E|by rewrite lookup_insert_ne].
Qed.
Next Obligation.
  intros st T p e [Hf Hl] E Hi Hr. cbn [sl_deref hsl_slinger]. unfold hsl_deref.
  rewrite (fields_head _ T p e Hf E). cbn [deref]. rewrite bind_Ret. cbn [refcnt]. rewrite (put_refcnt_ok _ T p e), bind_Ret by done.
  replace (e_ref e - 1 =? 0) with (e_ref e =? 1) by (destruct (Z.eqb_spec (e_ref e) 1); symmetry; [apply Z.eqb_eq|apply Z.eqb_neq]; lia).
  destruct (e_ref e =? 1); (eexists; split; [done|]; split; [by apply fields_put|]).
  - by apply listed_drop.
  - by eapply listed_same.
Qed.
Next Obligation.
  intros st T p e [Hf Hl] E Hi. split; [by apply fields_del|]. apply listed_free; [done|].
  eapply listed_out; [exact Hl|]. intros e' Ee. congruence.
Qed.

(** ** The classic hash *)

Lemma hcl_init_pos n u : 0 < n -> 0 <= u < 2 ^ 32 -> 0 < hcl_init n u.
Proof.
  intros Hn Hu. unfold hcl_init. destruct (Z.eqb_spec u 0); [done|].
  destruct (Z.ltb_spec 2 u); cbn [andb]; [|lia]. destruct (negb _); lia.
Qed.

Section Classic.

Context (hcl_nhash : Z) (word : list Z -> Z) (Hn : 0 < hcl_nhash).

#[local] Notation bucket := (bucket hcl_nhash word).

Record hcl_rel (st : hcl) (T : table) : Prop := {
  hc_fields : fields (hcl_heads st) T;
  hc_list u : 0 <= u < hcl_nhash -> exists l, hcl_head st !! u = Some l /\ listed T (fun d => bucket d = u) l;
  hc_hoh p e : T !! p = Some e -> e_in e = true -> hoh_head st !! p = Some (bucket (e_dig e));
}.

Lemma bucket_range d : 0 <= bucket d < hcl_nhash.
Proof using Hn. by apply Z.mod_pos_bound. Qed.

Lemma hcl_bucket st T d : hcl_rel st T ->
  exists l, hcl_head st !! bucket d = Some l /\ listed T (fun d' => bucket d' = bucket d) l.
Proof using Hn. intros H. apply (hc_list _ _ H), bucket_range. Qed.

Lemma hcl_start_ok : hcl_rel (hcl_start hcl_nhash) ∅.
Proof using.
  split; [done| |by intros p e; rewrite lookup_empty].
  intros u Hu. exists []. cbn [hcl_start hcl_head]. split.
  - apply elem_of_list_to_map_1.
    + rewrite <- list_fmap_compose. apply (NoDup_fmap_2 _). apply NoDup_seqZ.
    + apply list_elem_of_fmap. exists u. split; [done|]. apply elem_of_seqZ. lia.
  - split; [constructor|]. intros p. split; [by intros ?%not_elem_of_nil|by intros (e & [=] & _)].
Qed.

Lemma scan_in_bucket st T p e l : hcl_rel st T -> T !! p = Some e -> listed T (fun d => bucket d = bucket (e_dig e)) l ->
  exists found i, scan (hcl_heads st) l (e_dig e) = Ok (found, i) /\
    if (found : bool) then exists q f, l !! i = Some q /\ T !! q = Some f /\ e_in f = true /\ e_dig f = e_dig e
    else (forall q f, T !! q = Some f -> e_in f = true -> e_dig f <> e_dig e) /\
      forall T' n, (forall q, q ∈ l -> dig T' q = dig T q) -> dig T' n = e_dig e ->
        StronglySorted (before T') (insert_at l i n).
Proof using.
  intros H E Hl. exact (listed_scan T _ l Hl (hcl_heads st) (e_dig e) (hc_fields _ _ H) eq_refl).
Qed.

(** A change of a head that cannot be found, or of a reference count, is none to
    the buckets. *)
Lemma hcl_keep st T T' m h : hcl_rel st T -> fields m T' ->
  (forall P l, listed T P l -> listed T' P l) ->
  (forall p e, T' !! p = Some e -> e_in e = true -> exists e', T !! p = Some e' /\ e_in e' = true /\ e_dig e' = e_dig e) ->
  (forall p e, T' !! p = Some e -> e_in e = true -> h !! p = hoh_head st !! p) ->
  hcl_rel (mkHcl m (hcl_head st) h) T'.
Proof using.
  intros H Hf Hl Hi Hh. split; cbn [hcl_heads hcl_head hoh_head]; [done|..].
  - intros u Hu. destruct (hc_list _ _ H u Hu) as (l & E & Hlist). exists l. split; [done|]. by apply Hl.
  - intros p e Ep Hin. rewrite (Hh p e Ep Hin). destruct (Hi p e Ep Hin) as (e' & E' & Hin' & <-). by apply (hc_hoh _ _ H).
Qed.

#[export] Program Instance hcl_laws : @SlingerLaws hcl (hcl_slinger hcl_nhash word) := {| sl_rel := hcl_rel |}.
Next Obligation.
  intros st T p q e f H Ep Eq Hp Hq E. destruct (hcl_bucket st T (e_dig e) H) as (l & _ & Hl).
  eapply (listed_unique T _ l Hl p q e f); try done.
Qed.
Next Obligation.
  intros st T p H E. assert (Hout : forall P l, listed T P l -> p ∉ l).
  { intros P l Hl. eapply listed_out; [exact Hl|]. intros e Ee. congruence. }
  apply (hcl_keep st T); [done|apply fields_put, H| | |done].
  - intros P l Hl. apply listed_other; [done|by eapply Hout|done].
  - intros q e Eq Hin. destruct (decide (q = p)) as [->|Hne].
    + rewrite lookup_insert_eq in Eq. by injection Eq as <-.
    + rewrite lookup_insert_ne in Eq by done. by exists e.
Qed.
Next Obligation.
  intros st T p e d H E Hi _. assert (Hout : forall P l, listed T P l -> p ∉ l).
  { intros P l Hl. eapply listed_out; [exact Hl|]. intros e' Ee. congruence. }
  cbn [sl_digest hcl_slinger]. rewrite (put_digest_ok _ T p e) by (done || apply H). rewrite bind_Ret.
  eexists. split; [done|]. apply (hcl_keep st T); [done|apply fields_put, H| | |done].
  - intros P l Hl. apply listed_other; [done|by eapply Hout|done].
  - intros q f Eq Hin. destruct (decide (q = p)) as [->|Hne].
    + rewrite lookup_insert_eq in Eq. by injection Eq as <-.
    + rewrite lookup_insert_ne in Eq by done. by exists f.
Qed.
Next Obligation.
  intros st T p e H E. cbn [sl_refcnt hcl_slinger]. by rewrite (fields_head _ T p e) by (done || apply H).
Qed.
Next Obligation.
  intros st T p e H E Hi. cbn [sl_lookup hcl_slinger]. unfold hcl_lookup. assert (Hf := hc_fields _ _ H).
  rewrite (fields_head _ T p e Hf E). cbn [deref]. rewrite bind_Ret. cbn [digest]. cbv zeta.
  destruct (hcl_bucket st T (e_dig e) H) as (l & El & Hl). rewrite El. cbn [deref]. rewrite bind_Ret.
  destruct (scan_in_bucket st T p e l H E Hl) as (found & i & -> & Hr). rewrite bind_Ret. cbv beta iota.
  destruct found.
  - destruct Hr as (r & f & Er & Ef & Hin & Ed). rewrite Er. cbn [deref]. rewrite bind_Ret, (fields_head _ T r f Hf Ef).
    cbn [deref]. rewrite bind_Ret. cbn [refcnt]. rewrite (put_refcnt_ok _ T r f), bind_Ret by done.
    eexists _, r. split; [done|]. left. exists f. split; [done|]. split; [done|]. split; [done|].
    apply (hcl_keep st T); [done|by apply fields_put| | |done].
    + intros P l' Hl'. by eapply listed_same.
    + intros q g Eq Hg. destruct (decide (q = r)) as [->|Hne].
      * rewrite lookup_insert_eq in Eq. injection Eq as <-. by exists f.
      * rewrite lookup_insert_ne in Eq by done. by exists g.
  - destruct Hr as [Hne Hs]. eexists _, p. split; [done|]. right. split; [done|]. split; [done|].
    split; cbn [hcl_heads hcl_head hoh_head].
    + intros q. rewrite (Hf q). destruct (decide (q = p)) as [->|Hq]; [by rewrite lookup_insert_eq, E|by rewrite lookup_insert_ne].
    + intros u Hu. destruct (decide (u = bucket (e_dig e))) as [->|Hub].
      * rewrite lookup_insert_eq. eexists. split; [done|]. by apply listed_put.
      * rewrite lookup_insert_ne by done. destruct (hc_list _ _ H u Hu) as (l' & El' & Hl'). exists l'. split; [done|].
        apply listed_other; [done| |by intros _ E'; apply Hub].
        eapply listed_out; [exact Hl'|]. intros e' Ee. congruence.
    + intros q f Eq Hf'. destruct (decide (q = p)) as [->|Hq].
      * rewrite lookup_insert_eq in Eq. injection Eq as <-. by rewrite lookup_insert_eq.
      * rewrite lookup_insert_ne in Eq by done. rewrite lookup_insert_ne by done. by apply (hc_hoh _ _ H).
Qed.
Next Obligation.
  intros st T p e H E Hi Hr. cbn [sl_deref hcl_slinger]. unfold hcl_deref. assert (Hf := hc_fields _ _ H).
  rewrite (fields_head _ T p e Hf E). cbn [deref]. rewrite bind_Ret, (hc_hoh _ _ H p e E Hi), bind_Ret.
  destruct (hcl_bucket st T (e_dig e) H) as (l & El & Hl). rewrite El. cbn [deref]. rewrite bind_Ret. cbn [refcnt].
  rewrite vassert_true, bind_Ret by lia. rewrite (put_refcnt_ok _ T p e), bind_Ret by done.
  replace (e_ref e - 1 =? 0) with (e_ref e =? 1) by (destruct (Z.eqb_spec (e_ref e) 1); symmetry; [apply Z.eqb_eq|apply Z.eqb_neq]; lia).
  destruct (e_ref e =? 1); (eexists; split; [done|]).
  - split; cbn [hcl_heads hcl_head hoh_head]; [by apply fields_put| |].
    + intros u Hu. destruct (decide (u = bucket (e_dig e))) as [->|Hub].
      * rewrite lookup_insert_eq. eexists. split; [done|]. by apply listed_drop.
      * rewrite lookup_insert_ne by done. destruct (hc_list _ _ H u Hu) as (l' & El' & Hl'). exists l'. split; [done|].
        apply listed_other; [done| |done]. intros (e' & Ee & _ & Hb)%(li_in _ _ _ Hl'). apply Hub. congruence.
    + intros q f Eq Hf'. destruct (decide (q = p)) as [->|Hq].
      * rewrite lookup_insert_eq in Eq. by injection Eq as <-.
      * rewrite lookup_insert_ne in Eq by done. by apply (hc_hoh _ _ H).
  - apply (hcl_keep st T); [done|by apply fields_put| | |done].
    + intros P l' Hl'. by eapply listed_same.
    + intros q g Eq Hg. destruct (decide (q = p)) as [->|Hne].
      * rewrite lookup_insert_eq in Eq. injection Eq as <-. by exists e.
      * rewrite lookup_insert_ne in Eq by done. by exists g.
Qed.
Next Obligation.
  intros st T p e H E Hi. apply (hcl_keep st T); [done|apply fields_del, H| | |].
  - intros P l Hl. apply listed_free; [done|]. eapply listed_out; [exact Hl|]. intros e' Ee. congruence.
  - intros q f Eq Hf. apply lookup_delete_Some in Eq as [_ Eq]. by exists f.
  - intros q f Eq Hf. apply lookup_delete_Some in Eq as [Hne Eq]. by rewrite lookup_delete_ne.
Qed.

End Classic.

(** ** The table as an abstract slinger *)

Inductive op :=
  | OpNew (p : positive)
  | OpDigest (p : positive) (d : list Z)
  | OpRefcnt (p : positive)
  | OpLookup (p : positive)
  | OpDeref (p : positive)
  | OpFree (p : positive).

Inductive answer := Done | Refs (r : Z) | Head (p : positive) | Left (b : bool).

Definition run_op `{Slinger A} (st : A) (o : op) : res (A * answer) :=
  match o with
  | OpNew p => mret (sl_new st p, Done)
  | OpDigest p d => st ← sl_digest st p d; mret (st, Done)
  | OpRefcnt p => r ← sl_refcnt st p; mret (st, Refs r)
  | OpLookup p => '(st, r) ← sl_lookup st p; mret (st, Head r)
  | OpDeref p => '(st, b) ← sl_deref st p; mret (st, Left b)
  | OpFree p => mret (sl_free st p, Done)
  end.

Fixpoint run_ops `{Slinger A} (st : A) (os : list op) : res (A * list answer) :=
  match os with
  | [] => mret (st, [])
  | o :: os => '(st, a) ← run_op st o; '(st, l) ← run_ops st os; mret (st, a :: l)
  end.

(** The head that can be found with a digest. *)
Definition holds_digest (d : list Z) (x : positive * entry) : Prop := e_in (snd x) = true /\ e_dig (snd x) = d.

Definition holder (T : table) (d : list Z) : option positive :=
  (fun x => fst (snd x)) <$> list_find (holds_digest d) (map_to_list T).

(** What the operations do to the table and answer; nothing where the caller breaks
    the contract. *)
Definition tstep (T : table) (o : op) : option (table * answer) :=
  match o with
  | OpNew p =>
      match T !! p with
      | None => Some (<[p := mkEntry 1 (replicate DIGEST_LEN 0) false]> T, Done)
      | Some _ => None
      end
  | OpDigest p d =>
      e ← T !! p;
      if negb (e_in e) && (length d =? DIGEST_LEN)%nat then Some (<[p := mkEntry (e_ref e) d false]> T, Done) else None
  | OpRefcnt p => e ← T !! p; Some (T, Refs (e_ref e))
  | OpLookup p =>
      e ← T !! p;
      if e_in e then None else
      match holder T (e_dig e) with
      | Some r => f ← T !! r; Some (<[r := set_ref f (e_ref f + 1)]> T, Head r)
      | None => Some (<[p := mkEntry (e_ref e) (e_dig e) true]> T, Head p)
      end
  | OpDeref p =>
      e ← T !! p;
      if e_in e && (0 <? e_ref e)
      then Some (<[p := mkEntry (e_ref e - 1) (e_dig e) (negb (e_ref e =? 1))]> T, Left (negb (e_ref e =? 1)))
      else None
  | OpFree p => e ← T !! p; if e_in e then None else Some (delete p T, Done)
  end.

Fixpoint tsteps (T : table) (os : list op) : option (table * list answer) :=
  match os with
  | [] => Some (T, [])
  | o :: os => '(T, a) ← tstep T o; '(T, l) ← tsteps T os; Some (T, a :: l)
  end.

Lemma holder_some T d r : holder T d = Some r -> exists f, T !! r = Some f /\ e_in f = true /\ e_dig f = d.
Proof.
  unfold holder. destruct (list_find _ _) as [[i [q f]]|] eqn:E; [|done]. intros [= <-].
  apply list_find_Some in E as (E & [Hf Hd] & _). exists f. split; [|done].
  by apply elem_of_map_to_list, list_elem_of_lookup_2 with i.
Qed.

Lemma holder_none T d q f : holder T d = None -> T !! q = Some f -> e_in f = true -> e_dig f <> d.
Proof.
  unfold holder. destruct (list_find _ _) eqn:E; [done|]. intros _ Eq Hf Hd.
  apply list_find_None in E. rewrite Forall_forall in E. apply (E (q, f)); [by apply elem_of_map_to_list|done].
Qed.

Section Refines.

Context `{SlingerLaws A}.

Lemma step_table st T o T' a : sl_rel st T -> tstep T o = Some (T', a) ->
  exists st', run_op st o = Ok (st', a) /\ sl_rel st' T'.
Proof.
  intros Hr. destruct o as [p|p d|p|p|p|p]; cbn [tstep run_op].
  - destruct (T !! p) eqn:E; [done|]. intros [= <- <-]. eexists. split; [done|]. by apply sl_new_ok.
  - intros (e & E & Eb)%bind_Some. destruct (e_in e) eqn:Ei; [done|]. cbn [negb andb] in Eb.
    destruct (Nat.eqb_spec (length d) DIGEST_LEN); [|done]. injection Eb as <- <-.
    destruct (sl_digest_ok st T p e d Hr E Ei) as (st' & -> & Hr'); [done|]. by exists st'.
  - intros (e & E & [= <- <-])%bind_Some. by rewrite (sl_refcnt_ok st T p e Hr E), bind_Ret; exists st.
  - intros (e & E & Eb)%bind_Some. destruct (e_in e) eqn:Ei; [done|].
    destruct (sl_lookup_ok st T p e Hr E Ei) as (st' & r & -> & Hcase). rewrite bind_Ret. exists st'.
    destruct (holder T (e_dig e)) as [q|] eqn:Eh.
    + apply bind_Some in Eb as (g & Eg & [= <- <-]). destruct (holder_some _ _ _ Eh) as (g' & Eg' & Hg & Dg). simplify_eq.
      destruct Hcase as [(f & Ef & Hf & Df & Hr')|(Hno & _)]; [|by destruct (Hno q g Eg Hg)].
      assert (r = q) as -> by (eapply (sl_unique st T r q f g); congruence). by simplify_eq.
    + injection Eb as <- <-. destruct Hcase as [(f & Ef & Hf & Df & _)|(_ & -> & Hr')]; [|done].
      by destruct (holder_none _ _ _ _ Eh Ef Hf).
  - intros (e & E & Eb)%bind_Some. destruct (e_in e) eqn:Ei; [|done]. cbn [andb] in Eb.
    destruct (Z.ltb_spec 0 (e_ref e)) as [Hp|]; [|done]. injection Eb as <- <-.
    destruct (sl_deref_ok st T p e Hr E Ei Hp) as (st' & -> & Hr'). by exists st'.
  - intros (e & E & Eb)%bind_Some. destruct (e_in e) eqn:Ei; [done|]. injection Eb as <- <-.
    eexists. split; [done|]. by eapply sl_free_ok.
Qed.

Lemma steps_table os : forall st T T' l, sl_rel st T -> tsteps T os = Some (T', l) ->
  exists st', run_ops st os = Ok (st', l) /\ sl_rel st' T'.
Proof.
  induction os as [|o os IH]; intros st T T' l Hr; cbn [tsteps run_ops].
  - intros [= <- <-]. by exists st.
  - intros ([T1 a] & E1 & ([T2 l2] & E2 & [= <- <-])%bind_Some)%bind_Some.
    destruct (step_table st T o T1 a Hr E1) as (st1 & -> & Hr1). rewrite bind_Ret. cbv beta iota.
    destruct (IH st1 T1 T2 l2 Hr1 E2) as (st2 & -> & Hr2). rewrite bind_Ret. by exists st2.
Qed.

End Refines.

(** C36. The simple list and the classic hash, with whatever number of buckets and
    order of octets, answer every run of calls that keeps the contract as the table
    does, so alike; neither fails an assertion nor touches a head that is freed. *)
Theorem slingers_refine_table (hcl_nhash : Z) (word : list Z -> Z) (os : list op) (T : table) (l : list answer)
    (Hn : 0 < hcl_nhash) (Hrun : tsteps ∅ os = Some (T, l)) :
  (exists st, run_ops hsl_start os = Ok (st, l)) /\
  (exists st, @run_ops _ (hcl_slinger hcl_nhash word) (hcl_start hcl_nhash) os = Ok (st, l)).
Proof.
  split.
  - destruct (steps_table (H0 := hsl_laws) os hsl_start ∅ T l hsl_start_ok Hrun) as (st & E & _). by exists st.
  - destruct (steps_table (H0 := hcl_laws hcl_nhash word Hn) os (hcl_start hcl_nhash) ∅ T l
      (hcl_start_ok hcl_nhash word) Hrun) as (st & E & _). by exists st.
Qed.

Definition ex_digest (x : Z) : list Z := x :: replicate 31 0.
Definition ex_ops : list op :=
  [OpNew 1; OpDigest 1 (ex_digest 7); OpLookup 1; OpNew 2; OpDigest 2 (ex_digest 3); OpLookup 2;
   OpNew 3; OpDigest 3 (ex_digest 7); OpLookup 3; OpRefcnt 1; OpDeref 1; OpDeref 1; OpFree 1; OpLookup 3; OpDeref 2].

Lemma slingers_refine_table_witness : exists st l, run_ops hsl_start ex_ops = Ok (st, l) /\
  l = [Done; Done; Head 1; Done; Done; Head 2; Done; Done; Head 1; Refs 2; Left true; Left false; Done; Head 3; Left false].
Proof.
  destruct (slingers_refine_table 16383 (fun d => match vle32dec d with Ok w => w | Fail _ => 0 end) ex_ops
    (match tsteps ∅ ex_ops with Some (T, _) => T | None => ∅ end)
    (match tsteps ∅ ex_ops with Some (_, l) => l | None => [] end)) as [(st & E) _].
  - done.
  - by vm_compute.
  - exists st. eexists. split; [exact E|]. by vm_compute.
Defined.

End SlingerThm.
