(* ===== verification/Hash.v ===== *)
(** The cache proper: [bin/varnishd/cache_hash.c], with the making and the freeing
    of an object for it ([stevedore.c]).

    It joins the slinger, the bans, the expiry and the Vary processing.  A call is one
    step, with what it calls, also where it drops the mutex of an object head half way:
    [HSH_Deref] destroys an object core that nobody refers to any more after that, and
    [HSH_Lookup], [HSH_Drop] and [HSH_Purge] go on to other calls.  An address
    that [ALLOC_OBJ] returns is an argument.  Left out: the statistics, the log, and
    what [diag_bitmap] adds. *)
From Stdlib Require SpecFloat.
From S2P Require Import Prelude Double Vsb Mem Http Ban Vary Slinger Obj Expire.
Import Double Mem Http Ban Vary Slinger Obj Expire.

Module Hash.

(** ** State *)

(** The fields of an object head that are not the slinger's.  A session that waits
    is known by its address. *)
Record objhead := mkOh { objcs : list positive; waitinglist : option (list positive) }.

Definition set_objcs (oh : objhead) v := mkOh v (waitinglist oh).
Definition set_waitinglist (oh : objhead) v := mkOh (objcs oh) v.

Record hash (SL : Type) := mkHash {
  h_cache : cache;
  h_bans : bans;
  h_sl : SL;
  h_ohs : gmap positive objhead;
}.
Arguments mkHash {SL}.
Arguments h_cache {SL}.
Arguments h_bans {SL}.
Arguments h_sl {SL}.
Arguments h_ohs {SL}.

(** What a worker has in store. *)
Record worker := mkWorker {
  nobjcore : option positive;
  nobjhead : option positive;
  nwaitinglist : bool;
  nbusyobj : option busyobj;
}.

(** What a lookup uses of a session; [sp_healthy] is what [VDI_Healthy] says. *)
Record sess := mkSess {
  sp_digest : list Z;
  hash_objhead : option positive;
  hash_ignore_busy : bool;
  hash_always_miss : bool;
  esi_level : Z;
  t_req : double;
  sp_exp : exp;
  sp_http : http;
  sp_healthy : bool;
  vary_b : list Z;
  vary_l : option Z;
}.

Definition set_hash_objhead (sp : sess) v :=
  mkSess (sp_digest sp) v (hash_ignore_busy sp) (hash_always_miss sp) (esi_level sp) (t_req sp) (sp_exp sp)
    (sp_http sp) (sp_healthy sp) (vary_b sp) (vary_l sp).
Definition set_vary (sp : sess) b l :=
  mkSess (sp_digest sp) (hash_objhead sp) (hash_ignore_busy sp) (hash_always_miss sp) (esi_level sp) (t_req sp)
    (sp_exp sp) (sp_http sp) (sp_healthy sp) b l.

Section Hash.

Context {SL : Type} `{!Slinger SL}.

(** The regular expressions, [params->default_keep], [->default_grace],
    [->http_gzip_support] and [->rush_exponent]. *)
Variables (exec : list Z -> list Z -> Z) (default_keep default_grace : Z) (http_gzip_support : bool) (rush_exponent : nat).

#[local] Notation hash := (hash SL).

Definition set_cache (st : hash) v : hash := mkHash v (h_bans st) (h_sl st) (h_ohs st).
Definition set_bans (st : hash) v : hash := mkHash (h_cache st) v (h_sl st) (h_ohs st).
Definition set_sl (st : hash) v : hash := mkHash (h_cache st) (h_bans st) v (h_ohs st).
Definition set_ohs (st : hash) v : hash := mkHash (h_cache st) (h_bans st) (h_sl st) v.

Definition get_oh (st : hash) (p : positive) : res objhead := deref (h_ohs st !! p).
Definition put_oh (st : hash) (p : positive) (oh : objhead) : hash := set_ohs st (<[p := oh]> (h_ohs st)).
Definition set_oc (st : hash) (p : positive) (oc : objcore) : hash := set_cache st (put_oc (h_cache st) p oc).

(** ** Stores of a worker *)

(** [ALLOC_OBJ] of an object core. *)
Definition alloc_oc (st : hash) (p : positive) : hash :=
  let oc := mkOc 0 false None None None d0 (Z.lor 0 OC_F_BUSY) in
  set_bans (set_oc st p oc) (set_oc_ban (h_bans st) (<[p := None]> (oc_ban (h_bans st)))).

(** [FREE_OBJ] of one. *)
Definition free_oc (st : hash) (p : positive) : hash :=
  set_bans (set_cache st (set_ocs (h_cache st) (delete p (ocs (h_cache st)))))
    (set_oc_ban (h_bans st) (delete p (oc_ban (h_bans st)))).

Definition HSH_Prealloc (st : hash) (w : worker) (oc oh : positive) : hash * worker :=
  let '(st, noc) := match nobjcore w with Some p => (st, p) | None => (alloc_oc st oc, oc) end in
  let '(st, noh) := match nobjhead w with
    | Some p => (st, p)
    | None => (put_oh (set_sl st (sl_new (h_sl st) oh)) oh (mkOh [] None), oh)
    end in
  let bo := match nbusyobj w with Some b => b | None => mkBusyobj None end in
  (st, mkWorker (Some noc) (Some noh) true (Some bo)).

Definition HSH_Cleanup (st : hash) (w : worker) : hash * worker :=
  let st := match nobjcore w with Some p => free_oc st p | None => st end in
  let st := match nobjhead w with
    | Some p => set_ohs (set_sl st (sl_free (h_sl st) p)) (delete p (h_ohs st))
    | None => st
    end in
  (st, mkWorker None None false None).

Definition HSH_DeleteObjHead (st : hash) (p : positive) : res hash :=
  r ← sl_refcnt (h_sl st) p;
  vassert (r =? 0);;
  oh ← get_oh st p;
  vassert (bool_decide (objcs oh = []));;
  mret (set_ohs (set_sl st (sl_free (h_sl st) p)) (delete p (h_ohs st))).

(** ** Waiting sessions *)

(** [queue sp]: [WRK_QueueSession] can schedule the session.  What is left of the
    list, the sessions that were scheduled, and the one that could not be. *)
Fixpoint rush_loop (n : nat) (queue : positive -> bool) (l : list positive)
  : list positive * list positive * option positive :=
  match n, l with
  | S n, sp :: l =>
      if queue sp then let '(rest, woken, lost) := rush_loop n queue l in (rest, sp :: woken, lost)
      else (l, [], Some sp)
  | _, _ => (l, [], None)
  end.

Definition hsh_rush (st : hash) (p : positive) (queue : positive -> bool)
  : res (hash * list positive * option positive) :=
  oh ← get_oh st p;
  l ← notnull (waitinglist oh);
  let '(rest, woken, lost) := rush_loop rush_exponent queue l in
  mret (put_oh st p (set_waitinglist oh (match rest with [] => None | _ => Some rest end)), woken, lost).

(** [if (oh->waitinglist != NULL) hsh_rush(oh);] *)
Definition rush_if (st : hash) (p : positive) (queue : positive -> bool)
  : res (hash * list positive * option positive) :=
  oh ← get_oh st p;
  match waitinglist oh with Some _ => hsh_rush st p queue | None => mret (st, [], None) end.

(** ** Looking up *)

(** [BAN_CheckObject] with what follows when a ban applies. *)
Definition check_object (st : hash) (m : mem) (p a : positive) (o : object) (sp : sess) : res (hash * bool) :=
  '(b, banned) ← BAN_CheckObject exec (h_bans st) m p (o_http o) (sp_http sp);
  let st := set_bans st b in
  if (banned : bool) then
    oc_updatemeta (h_cache st) p;;
    c ← EXP_Rearm default_keep default_grace (put_obj (h_cache st) a (set_o_exp o (EXP_Clr (o_exp o)))) a;
    mret (set_cache st c, true)
  else mret (st, false).

(** [vary == NULL || VRY_Match(sp, vary)] *)
Definition vary_matches (m : mem) (sp : sess) (vary : option (list Z)) : res (sess * bool) :=
  match vary with
  | None => mret (sp, true)
  | Some v =>
      '(b, l, ok) ← VRY_Match http_gzip_support m (sp_http sp) (vary_b sp) v;
      mret (set_vary sp b l, ok)
  end.

(** What the loop has found so far, apart from a live object. *)
Record seen := mkSeen { busy_oc : option positive; grace_oc : option positive; grace_ttl : double }.

Definition see_grace (s : seen) (p : positive) (o : object) (sp : sess) : seen :=
  let t := dadd (entered (o_exp o)) (ttl (o_exp o)) in
  if dle (t_req sp) (EXP_Grace default_grace (Some (sp_exp sp)) o) &&
     (bool_decide (grace_oc s = None) || dlt (grace_ttl s) t)
  then mkSeen (busy_oc s) (Some p) t else s.

(** A busy object core. *)
Definition see_busy (s : seen) (m : mem) (p : positive) (oc : objcore) (sp : sess) : res (sess * seen) :=
  bo ← notnull (oc_busyobj oc);
  if hash_ignore_busy sp then mret (sp, s) else
  '(sp, ok) ← vary_matches m sp (bo_vary bo);
  mret (sp, if (ok : bool) then mkSeen (Some p) (grace_oc s) (grace_ttl s) else s).

(** One that is not: whether it can be used. *)
Definition see_object (st : hash) (s : seen) (m : mem) (p : positive) (sp : sess) : res (hash * sess * seen * bool) :=
  a ← oc_getobj (h_cache st) p;
  a ← notnull a;
  o ← get_obj (h_cache st) a;
  if dle (ttl (o_exp o)) d0 then mret (st, sp, s, false) else
  '(st, banned) ← check_object st m p a o sp;
  if (banned : bool) then mret (st, sp, s, false) else
  '(sp, ok) ← vary_matches m sp (o_vary o);
  if negb ok then mret (st, sp, s, false) else
  if dle (t_req sp) (EXP_Ttl (Some (sp_exp sp)) o) then mret (st, sp, s, true)
  else mret (st, sp, see_grace s p o sp, false).

Fixpoint lookup_loop (st : hash) (m : mem) (oh : positive) (l : list positive) (sp : sess) (s : seen)
  : res (hash * sess * seen * option positive) :=
  match l with
  | [] => mret (st, sp, s, None)
  | p :: l =>
      r ← sl_refcnt (h_sl st) oh;
      vassert (1 <? r);;
      oc ← get_oc (h_cache st) p;
      vassert (bool_decide (Obj.objhead oc = Some oh));;
      if oc_busy oc then
        '(sp, s) ← see_busy s m p oc sp;
        lookup_loop st m oh l sp s
      else
        '(st, sp, s, live) ← see_object st s m p sp;
        if (live : bool) then mret (st, sp, s, Some p) else lookup_loop st m oh l sp s
  end.

(** The candidate after the loop. *)
Definition candidate (st : hash) (sp : sess) (s : seen) (oc : option positive) : res (option positive) :=
  match oc, grace_oc s with
  | None, Some g =>
      if negb (bool_decide (busy_oc s = None)) || negb (sp_healthy sp) then
        a ← oc_getobj (h_cache st) g; notnull a;; mret (Some g)
      else mret None
  | _, _ => mret oc
  end.

Definition INT_MAX : Z := 2 ^ 31 - 1.

(** An object we like. *)
Definition lookup_hit (st : hash) (oh p : positive) : res hash :=
  a ← oc_getobj (h_cache st) p;
  a ← notnull a;
  o ← get_obj (h_cache st) a;
  oc ← get_oc (h_cache st) p;
  vassert (bool_decide (Obj.objhead oc = Some oh));;
  let c := put_oc (h_cache st) p (set_refcnt oc (u32 (Obj.refcnt oc + 1))) in
  let c := if hits o <? INT_MAX then put_obj c a (set_hits o (hits o + 1)) else c in
  r ← sl_refcnt (h_sl st) oh;
  vassert (1 <? r);;
  '(sl, more) ← sl_deref (h_sl st) oh;
  vassert more;;
  mret (set_sl (set_cache st c) sl).

(** The session, at [self], goes on the waiting list. *)
Definition lookup_wait (st : hash) (w : worker) (sp : sess) (self oh : positive) : res (hash * worker * sess) :=
  '(st, w) ← (if esi_level sp =? 0 then
      vassert (nwaitinglist w);;
      h ← get_oh st oh;
      let '(l, w) := match waitinglist h with
        | Some l => (l, w)
        | None => ([], mkWorker (nobjcore w) (nobjhead w) false (nbusyobj w))
        end in
      mret (put_oh st oh (set_waitinglist h (Some (l ++ [self]))), w)
    else mret (st, w));
  mret (st, w, set_hash_objhead sp (Some oh)).

(** The length of the space is its own bound for [VRY_Validate]. *)
Definition lookup_miss (st : hash) (w : worker) (sp : sess) (oh : positive) : res (hash * worker * positive) :=
  p ← deref (nobjcore w);
  oc ← get_oc (h_cache st) p;
  vassert (oc_busy oc);;
  VRY_Validate (length (vary_b sp)) (vary_b sp);;
  deref (nbusyobj w);;
  let bo := mkBusyobj (match vary_l sp with Some _ => Some (vary_b sp) | None => None end) in
  h ← get_oh st oh;
  let oc := set_objhead (set_busyobj (set_refcnt oc 1) (Some bo)) (Some oh) in
  mret (set_oc (put_oh st oh (set_objcs h (objcs h ++ [p]))) p oc,
        mkWorker None (nobjhead w) (nwaitinglist w) None, p).

(** The object head to look at. *)
Definition lookup_head (st : hash) (w : worker) (sp : sess) : res (hash * worker * sess * positive) :=
  match hash_objhead sp with
  | Some oh => mret (st, w, set_hash_objhead sp None, oh)
  | None =>
      n ← notnull (nobjhead w);
      '(sl, oh) ← sl_lookup (h_sl st) n;
      let w := if bool_decide (oh = n) then mkWorker (nobjcore w) None (nwaitinglist w) (nbusyobj w) else w in
      mret (set_sl st sl, w, sp, oh)
  end.

(** The object core and its head, or nothing if the session waits.  [aoc] and [aoh]
    are what the allocator would return. *)
Definition HSH_Lookup (st : hash) (m : mem) (w : worker) (sp : sess) (self aoc aoh : positive)
  : res (hash * worker * sess * option (positive * positive)) :=
  let '(st, w) := HSH_Prealloc st w aoc aoh in
  n ← deref (nobjhead w);
  sl ← sl_digest (h_sl st) n (sp_digest sp);
  '(st, w, sp, oh) ← lookup_head (set_sl st sl) w sp;
  r ← sl_refcnt (h_sl st) oh;
  vassert (0 <? r);;
  h ← get_oh st oh;
  '(st, sp, s, live) ← lookup_loop st m oh (objcs h) sp (mkSeen None None SpecFloat.S754_nan);
  oc ← candidate st sp s live;
  match (if hash_always_miss sp then None else oc), busy_oc s with
  | Some p, _ => st ← lookup_hit st oh p; mret (st, w, sp, Some (p, oh))
  | None, Some _ => '(st, w, sp) ← lookup_wait st w sp self oh; mret (st, w, sp, None)
  | None, None => '(st, w, p) ← lookup_miss st w sp oh; mret (st, w, sp, Some (p, oh))
  end.

(** An object that comes from storage; [HSH_Prealloc] made its object core, and the
    caller cleared the busy flag. *)
Definition HSH_Insert (st : hash) (w : worker) (aoc aoh : positive) : res (hash * worker * positive) :=
  let '(st, w) := HSH_Prealloc st w aoc aoh in
  n ← notnull (nobjhead w);
  '(sl, oh) ← sl_lookup (h_sl st) n;
  let st := set_sl st sl in
  let w := if bool_decide (oh = n) then mkWorker (nobjcore w) None (nwaitinglist w) (nbusyobj w) else w in
  r ← sl_refcnt (h_sl st) oh;
  vassert (0 <? r);;
  h ← get_oh st oh;
  p ← notnull (nobjcore w);
  oc ← get_oc (h_cache st) p;
  vassert (negb (oc_busy oc));;
  mret (set_oc (put_oh st oh (set_objcs h (p :: objcs h))) p (set_objhead (set_refcnt oc 1) (Some oh)),
        mkWorker None (nobjhead w) (nwaitinglist w) (nbusyobj w), p).

(** ** An object for an object core *)

(** [STV_MkObject] as for the object core that a lookup has made: [a] is its space,
    [lru] that of the stevedore, [e] and [nhttp] as the fetch has them. *)
Definition STV_MkObject (st : hash) (a lru : positive) (objcore : option positive) (e : exp) (nhttp : nat) : res hash :=
  let o := mkObj 0 objcore lru None 0 e d0 (http_Setup (HTTP_create nhttp)) in
  let st := set_cache st (put_obj (h_cache st) a o) in
  match objcore with
  | None => mret st
  | Some p =>
      b ← BAN_NewObjCore (h_bans st) p;
      oc ← get_oc (h_cache st) p;
      mret (set_oc (set_bans st b) p (set_priv oc true (Some a)))
  end.

(** [oc_freeobj] with [default_oc_freeobj]. *)
Definition oc_freeobj (st : hash) (p : positive) : res hash :=
  oc ← get_oc (h_cache st) p;
  vassert (methods oc);;
  a ← notnull (priv oc);
  get_obj (h_cache st) a;;
  let c := put_oc (h_cache st) p (set_priv oc false None) in
  mret (set_cache st (set_objs c (delete a (objs c)))).

(** ** Letting go *)

(** [BAN_DestroyObj(oc)] up to [FREE_OBJ(oc)], for the last reference. *)
Definition destroy_oc (st : hash) (w : worker) (p : positive) : res (hash * worker) :=
  b ← BAN_DestroyObj (h_bans st) p;
  o ← deref (oc_ban b !! p);
  vassert (bool_decide (o = None));;
  let st := set_bans st b in
  oc ← get_oc (h_cache st) p;
  '(oc, w) ← (if oc_busy oc then
      bo ← notnull (oc_busyobj oc);
      mret (set_busyobj oc None,
            match nbusyobj w with
            | None => mkWorker (nobjcore w) (nobjhead w) (nwaitinglist w) (Some bo)
            | Some _ => w
            end)
    else mret (oc, w));
  vassert (bool_decide (oc_busyobj oc = None));;
  st ← (if methods oc then oc_freeobj (set_oc st p oc) p else mret (set_oc st p oc));
  mret (free_oc st p, w).

(** [HSH_Deref(w, oc, NULL)]: the result is the number of references left, and who
    came off the waiting list as for [hsh_rush]. *)
Definition deref_oc (st : hash) (w : worker) (p : positive) (queue : positive -> bool)
  : res (hash * worker * Z * list positive * option positive) :=
  oc ← get_oc (h_cache st) p;
  oh ← notnull (Obj.objhead oc);
  n ← sl_refcnt (h_sl st) oh;
  vassert (0 <? n);;
  vassert (0 <? Obj.refcnt oc);;
  let r := Obj.refcnt oc - 1 in
  let st := set_oc st p (set_refcnt oc r) in
  st ← (if r =? 0 then h ← get_oh st oh; mret (put_oh st oh (set_objcs h (remove p (objcs h))))
        else vassert (methods oc);; mret st);
  '(st, woken, lost) ← rush_if st oh queue;
  if negb (r =? 0) then mret (st, w, r, woken, lost) else
  '(st, w) ← destroy_oc st w p;
  n ← sl_refcnt (h_sl st) oh;
  vassert (0 <? n);;
  '(sl, more) ← sl_deref (h_sl st) oh;
  let st := set_sl st sl in
  if (more : bool) then mret (st, w, 0, woken, lost) else
  st ← HSH_DeleteObjHead st oh;
  mret (st, w, 0, woken, lost).

(** [HSH_Deref(w, NULL, &o)]; an object without an object core is for one session
    only. *)
Definition deref_obj (st : hash) (w : worker) (a : positive) (queue : positive -> bool)
  : res (hash * worker * Z * list positive * option positive) :=
  o ← get_obj (h_cache st) a;
  match o_objcore o with
  | None => mret (set_cache st (set_objs (h_cache st) (delete a (objs (h_cache st)))), w, 0, [], None)
  | Some p => deref_oc st w p queue
  end.

(** ** The end of a fetch *)

(** [HSH_Unbusy] for the object at [a]. *)
Definition HSH_Unbusy (st : hash) (w : worker) (a : positive) (queue : positive -> bool)
  : res (hash * worker * list positive * option positive) :=
  o ← get_obj (h_cache st) a;
  p ← notnull (o_objcore o);
  oc ← get_oc (h_cache st) p;
  oh ← notnull (Obj.objhead oc);
  AssertObjBusy (h_cache st) a;;
  b ← deref (oc_ban (h_bans st) !! p);
  vassert (negb (bool_decide (b = None)));;
  vassert (0 <? Obj.refcnt oc);;
  n ← sl_refcnt (h_sl st) oh;
  vassert (0 <? n);;
  h ← get_oh st oh;
  let st := put_oh st oh (set_objcs h (p :: remove p (objcs h))) in
  let oc' := set_oc_flags oc (Z.land (oc_flags oc) (Z.lnot OC_F_BUSY)) in
  vassert (bool_decide (nbusyobj w = None));;
  let w := mkWorker (nobjcore w) (nobjhead w) (nwaitinglist w) (oc_busyobj oc) in
  let st := set_oc st p (set_busyobj oc' None) in
  '(st, woken, lost) ← rush_if st oh queue;
  a' ← oc_getobj (h_cache st) p;
  vassert (bool_decide (a' = Some a));;
  mret (st, w, woken, lost).

(** [AssertObjCorePassOrBusy] *)
Definition assert_pass_or_busy (st : hash) (p : option positive) : res unit :=
  match p with None => mret tt | Some p => oc ← get_oc (h_cache st) p; vassert (oc_busy oc) end.

(** [HSH_Drop] for the object at [a]. *)
Definition HSH_Drop (st : hash) (w : worker) (a : positive) (queue : positive -> bool)
  : res (hash * worker * Z * list positive * list positive) :=
  o ← get_obj (h_cache st) a;
  assert_pass_or_busy st (o_objcore o);;
  let st := set_cache st (put_obj (h_cache st) a (set_o_exp o (set_ttl (o_exp o) dm1))) in
  '(st, w, woken, lost) ← (match o_objcore o with
    | Some _ => HSH_Unbusy st w a queue
    | None => mret (st, w, [], None)
    end);
  '(st, w, r, woken', lost') ← deref_obj st w a queue;
  mret (st, w, r, woken ++ woken', option_list lost ++ option_list lost').

(** ** Purging *)

(** The object cores that are not busy, each with another reference; [spc] is the
    space there is to note them. *)
Fixpoint purge_refs (st : hash) (oh : positive) (l : list positive) (spc : Z) : res (hash * list positive) :=
  match l with
  | [] => mret (st, [])
  | p :: l =>
      oc ← get_oc (h_cache st) p;
      vassert (bool_decide (Obj.objhead oc = Some oh));;
      if oc_busy oc then purge_refs st oh l spc else
      oc_getobj (h_cache st) p;;
      vassert (8 <=? spc);;
      '(st, ps) ← purge_refs (set_oc st p (set_refcnt oc (u32 (Obj.refcnt oc + 1)))) oh l (spc - 8);
      mret (st, p :: ps)
  end.

Fixpoint purge_loop (st : hash) (w : worker) (ps : list positive) (t g : double) (queue : positive -> bool)
  : res (hash * worker * list positive * list positive) :=
  match ps with
  | [] => mret (st, w, [], [])
  | p :: ps =>
      a ← oc_getobj (h_cache st) p;
      match a with
      | None => purge_loop st w ps t g queue
      | Some a =>
          o ← get_obj (h_cache st) a;
          let c := put_obj (h_cache st) a (set_o_exp o (set_grace (set_ttl (o_exp o) t) g)) in
          c ← EXP_Rearm default_keep default_grace c a;
          '(st, w, _, woken, lost) ← deref_obj (set_cache st c) w a queue;
          '(st, w, woken', lost') ← purge_loop st w ps t g queue;
          mret (st, w, woken ++ woken', option_list lost ++ lost')
      end
  end.

Definition HSH_Purge (st : hash) (w : worker) (oh : positive) (spc : Z) (t g : double) (queue : positive -> bool)
  : res (hash * worker * list positive * list positive) :=
  h ← get_oh st oh;
  n ← sl_refcnt (h_sl st) oh;
  vassert (0 <? n);;
  '(st, ps) ← purge_refs st oh (objcs h) spc;
  purge_loop st w ps (if dlt d0 t then t else dm1) (if dlt d0 g then g else dm1) queue.

End Hash.

End Hash.
