(* ===== verification/HashInv.v ===== *)
(** The cache proper, the invariant: how the object heads, the object cores, the
    objects, the bans, the timers and the references to them fit together. *)
From S2P Require Import Prelude Double BinHeap BanThm Ban Slinger SlingerThm Obj Expire ExpireInv ExpireOps Hash.
Import Double BinHeap Ban Slinger Obj Expire ExpireInv Hash.

Module HashInv.

(** ** References *)

Definition count (l : list positive) (p : positive) : Z := Z.of_nat (count_occ Pos.eq_dec l p).

Lemma count_nil p : count [] p = 0.
Proof. reflexivity. Qed.

Lemma count_cons l p q : count (q :: l) p = (if decide (q = p) then 1 else 0) + count l p.
Proof.
  unfold count. cbn [count_occ]. destruct (Pos.eq_dec q p) as [->|Hne].
  - rewrite decide_True by done. lia.
  - by rewrite decide_False.
Qed.

Lemma count_app l l' p : count (l ++ l') p = count l p + count l' p.
Proof. unfold count. rewrite count_occ_app. lia. Qed.

Lemma count_nonneg l p : 0 <= count l p.
Proof. unfold count. lia. Qed.

Lemma count_in l p : 0 < count l p <-> p ∈ l.
Proof.
  unfold count. rewrite list_elem_of_In. rewrite (count_occ_In Pos.eq_dec l p). lia.
Qed.

Lemma count_here l p : count (p :: l) p = 1 + count l p.
Proof. by rewrite count_cons, decide_True. Qed.

Lemma count_there l p q : q <> p -> count (p :: l) q = count l q.
Proof. intros Hne. by rewrite count_cons, decide_False by congruence. Qed.

(** One reference less. *)
Fixpoint take_one (p : positive) (l : list positive) : list positive :=
  match l with [] => [] | q :: l => if decide (q = p) then l else q :: take_one p l end.

Lemma count_take_one l p q : p ∈ l -> count (take_one p l) q = count l q - (if decide (p = q) then 1 else 0).
Proof.
  induction l as [|x l IH]; [by intros ?%not_elem_of_nil|]. cbn [take_one].
  intros Hp. destruct (decide (x = p)) as [->|Hne].
  - rewrite count_cons. lia.
  - apply elem_of_cons in Hp as [->|Hp]; [done|]. rewrite !count_cons, IH by done. lia.
Qed.

Lemma count_taken l p : p ∈ l -> count (take_one p l) p = count l p - 1.
Proof. intros H. by rewrite count_take_one, decide_True. Qed.

Lemma count_untaken l p q : p ∈ l -> q <> p -> count (take_one p l) q = count l q.
Proof. intros H Hne. rewrite count_take_one, decide_False by (done || congruence). lia. Qed.

Lemma elem_take_one l p q : q ∈ take_one p l -> q ∈ l.
Proof.
  induction l as [|x l IH]; [done|]. cbn [take_one]. destruct (decide (x = p)); [by right|].
  intros [->|H]%elem_of_cons; [by left|right; by apply IH].
Qed.

Definition waiting (oh : objhead) : Z := Z.of_nat (length (default [] (waitinglist oh))).

(** ** The invariant *)

(** What is known besides the state: the table of the slinger, the timers, the
    history of bans, the references to object cores that are no timers, and the
    references to object heads that are neither of an object core nor of a session
    on the waiting list. *)
Record ghost := Ghost {
  g_tab : gmap positive entry;
  g_timers : gset positive;
  g_hist : BanThm.hist;
  g_refs : list positive;
  g_held : list positive;
}.

(** The object of an object core. *)
Definition object_of (os : gmap positive object) (p : positive) (oc : objcore) (a : positive) (o : object) : Prop :=
  priv oc = Some a /\ os !! a = Some o /\ o_objcore o = Some p.

(** An object core that hangs from the object head [q]. *)
Record core_ok (os : gmap positive object) (g : ghost) (p : positive) (oc : objcore) (q : positive) : Prop := {
  co_head : exists e, g_tab g !! q = Some e /\ e_in e = true;
  co_ref : Obj.refcnt oc = count (g_refs g) p + (if decide (p ∈ g_timers g) then 1 else 0);
  co_pos : 0 < Obj.refcnt oc;
  co_busy : oc_busy oc = true <-> is_Some (oc_busyobj oc);
  co_bare : methods oc = false -> oc_busy oc = true /\ Obj.refcnt oc = 1 /\ BanThm.h_pos (g_hist g) !! p = Some None;
  co_obj : methods oc = true -> exists a o, object_of os p oc a o /\ ExpireOps.exp_ok (o_exp o) = true /\
    (oc_busy oc = true \/ dle (ttl (o_exp o)) d0 = false -> exists n, BanThm.h_pos (g_hist g) !! p = Some (Some n));
}.

(** One that no lookup has used yet. *)
Record core_fresh (g : ghost) (p : positive) (oc : objcore) : Prop := {
  cf_busy : oc_busy oc = true;
  cf_busyobj : oc_busyobj oc = None;
  cf_methods : methods oc = false;
  cf_refs : count (g_refs g) p = 0;
  cf_ban : BanThm.h_pos (g_hist g) !! p = Some None;
}.

(** The references to an object head that can be found. *)
Definition accounted (oh : objhead) (q : positive) (held : list positive) (r : Z) : Prop :=
  r = Z.of_nat (length (objcs oh)) + waiting oh + count held q /\ 0 < r.

(** And one that is in the store of a worker. *)
Definition in_store (oh : objhead) (q : positive) (held : list positive) (r : Z) : Prop :=
  r = 1 /\ objcs oh = [] /\ waitinglist oh = None /\ count held q = 0.

Section Inv.

Context {SL : Type} `{SlingerLaws SL} (compile : list Z -> option (list Z)) (s : Z).

#[local] Notation hash := (hash SL).

Record inv (st : hash) (g : ghost) : Prop := {
  iv_sl : sl_rel (h_sl st) (g_tab g);
  iv_exp : exp_inv s (h_cache st) (g_timers g);
  iv_ban : BanThm.rel compile (h_bans st) (g_hist g);
  iv_dom p : is_Some (ocs (h_cache st) !! p) <-> is_Some (oc_ban (h_bans st) !! p);
  iv_heads q : is_Some (g_tab g !! q) <-> is_Some (h_ohs st !! q);
  iv_head q e oh : g_tab g !! q = Some e -> h_ohs st !! q = Some oh ->
    if e_in e then accounted oh q (g_held g) (e_ref e) else in_store oh q (g_held g) (e_ref e);
  iv_list q oh : h_ohs st !! q = Some oh ->
    NoDup (objcs oh) /\ forall p, p ∈ objcs oh <-> exists oc, ocs (h_cache st) !! p = Some oc /\ Obj.objhead oc = Some q;
  iv_core p oc q : ocs (h_cache st) !! p = Some oc -> Obj.objhead oc = Some q ->
    core_ok (objs (h_cache st)) g p oc q;
  iv_fresh p oc : ocs (h_cache st) !! p = Some oc -> Obj.objhead oc = None -> core_fresh g p oc;
  iv_refs p : p ∈ g_refs g -> is_Some (ocs (h_cache st) !! p);
  iv_held q : q ∈ g_held g -> exists e, g_tab g !! q = Some e /\ e_in e = true;
}.

(** ** Reading it *)

Section Read.

Context (st : hash) (g : ghost) (Hi : inv st g).

(** A reference to an object core is to one that hangs somewhere. *)
Lemma ref_core p : p ∈ g_refs g -> exists oc q, ocs (h_cache st) !! p = Some oc /\ Obj.objhead oc = Some q.
Proof using Hi.
  intros Hp. destruct (iv_refs _ _ Hi p Hp) as [oc E]. exists oc.
  destruct (Obj.objhead oc) as [q|] eqn:Eq; [by exists q|].
  pose proof (cf_refs _ _ _ (iv_fresh _ _ Hi p oc E Eq)) as Hc. apply count_in in Hp. lia.
Qed.

Lemma core_head p oc q : ocs (h_cache st) !! p = Some oc -> Obj.objhead oc = Some q ->
  exists e oh, g_tab g !! q = Some e /\ e_in e = true /\ h_ohs st !! q = Some oh /\
    accounted oh q (g_held g) (e_ref e) /\ p ∈ objcs oh.
Proof using Hi.
  intros E Eq. destruct (co_head _ _ _ _ _ (iv_core _ _ Hi p oc q E Eq)) as (e & Ee & He).
  destruct (proj1 (iv_heads _ _ Hi q)) as [oh Eoh]; [by exists e|]. exists e, oh.
  pose proof (iv_head _ _ Hi q e oh Ee Eoh) as Ha. rewrite He in Ha. split_and!; try done.
  apply (iv_list _ _ Hi q oh Eoh). by exists oc.
Qed.

Lemma listed_core q oh p : h_ohs st !! q = Some oh -> p ∈ objcs oh ->
  exists oc, ocs (h_cache st) !! p = Some oc /\ Obj.objhead oc = Some q /\ core_ok (objs (h_cache st)) g p oc q.
Proof using Hi.
  intros Eoh Hp. destruct (proj1 (proj2 (iv_list _ _ Hi q oh Eoh) p) Hp) as (oc & E & Eq).
  exists oc. split; [done|]. split; [done|]. by apply (iv_core _ _ Hi).
Qed.

Lemma timer_core p : p ∈ g_timers g -> exists oc q, ocs (h_cache st) !! p = Some oc /\ Obj.objhead oc = Some q /\ methods oc = true.
Proof using Hi.
  intros Hp. destruct (ei_core _ _ _ (iv_exp _ _ Hi) p Hp) as (l & oc & a & o & E & Em & _).
  destruct (Obj.objhead oc) as [q|] eqn:Eq; [by exists oc, q|].
  pose proof (cf_methods _ _ _ (iv_fresh _ _ Hi p oc E Eq)). congruence.
Qed.

End Read.

(** ** Changing one object core *)

(** Everything about [x] is the same in the two. *)
Definition same_at (g g' : ghost) (x : positive) : Prop :=
  count (g_refs g') x = count (g_refs g) x /\ (x ∈ g_timers g' <-> x ∈ g_timers g) /\
  BanThm.h_pos (g_hist g') !! x = BanThm.h_pos (g_hist g) !! x.

Lemma core_ok_same os os' g g' x oc q : g_tab g' = g_tab g -> same_at g g' x ->
  (forall a o, os !! a = Some o -> o_objcore o = Some x -> os' !! a = Some o) ->
  core_ok os g x oc q -> core_ok os' g' x oc q.
Proof.
  intros Et (Ec & Es & Eh) Ho [H1 H2 H3 H4 H5 H6]. split; rewrite ?Et, ?Ec, ?Eh; try done.
  - rewrite H2. f_equal. destruct (decide (x ∈ g_timers g)), (decide (x ∈ g_timers g')); tauto.
  - intros Em. destruct (H6 Em) as (a & o & (Ea & Eo & Ep) & Hn). exists a, o. split; [|done].
    split; [done|]. split; [by apply Ho|done].
Qed.

Lemma core_fresh_same g g' x oc : same_at g g' x -> core_fresh g x oc -> core_fresh g' x oc.
Proof. intros (Ec & _ & Eh) [H1 H2 H3 H4 H5]. by split; rewrite ?Ec, ?Eh. Qed.

Lemma inv_core_change st g c b S h refs p oc oc' :
  inv st g -> ocs (h_cache st) !! p = Some oc -> Obj.objhead oc' = Obj.objhead oc ->
  exp_inv s c S -> BanThm.rel compile b h ->
  ocs c = <[p := oc']> (ocs (h_cache st)) ->
  (forall a o, objs (h_cache st) !! a = Some o -> o_objcore o <> Some p -> o_objcore o <> None -> objs c !! a = Some o) ->
  (forall x, is_Some (oc_ban b !! x) <-> is_Some (oc_ban (h_bans st) !! x)) ->
  let g' := Ghost (g_tab g) S h refs (g_held g) in
  (forall x, x <> p -> same_at g g' x) ->
  (forall x, x ∈ refs -> x = p \/ x ∈ g_refs g) ->
  match Obj.objhead oc with Some q => core_ok (objs c) g' p oc' q | None => core_fresh g' p oc' end ->
  inv (mkHash c b (h_sl st) (h_ohs st)) g'.
Proof.
  intros Hi E Eh Hc Hb Eo Hobj Hdom g' Hsame Hrefs Hp.
  split; cbn [h_cache h_bans h_sl h_ohs g_tab g_timers g_hist g_refs g_held g']; try done.
  - apply Hi.
  - intros x. rewrite Eo, Hdom, <- (iv_dom _ _ Hi x). destruct (decide (x = p)) as [->|Hne].
    + rewrite lookup_insert_eq, E. by split; eexists.
    + by rewrite lookup_insert_ne.
  - apply (iv_heads _ _ Hi).
  - apply (iv_head _ _ Hi).
  - intros q oh Eq. destruct (iv_list _ _ Hi q oh Eq) as [Hn Hl]. split; [done|]. intros x. rewrite Hl, Eo.
    destruct (decide (x = p)) as [->|Hne].
    + rewrite lookup_insert_eq. split; intros (y & Ey & Eyh); eexists; (split; [done|]); congruence.
    + by rewrite lookup_insert_ne.
  - intros x ocx q Ex Exh. rewrite Eo in Ex. destruct (decide (x = p)) as [->|Hne].
    + rewrite lookup_insert_eq in Ex. injection Ex as <-. rewrite <- Eh, Exh in Hp. exact Hp.
    + rewrite lookup_insert_ne in Ex by done. apply (core_ok_same (objs (h_cache st)) _ g); [done|by apply Hsame| |].
      * intros a o Ea Eoc. apply Hobj; [done|congruence..].
      * by apply (iv_core _ _ Hi).
  - intros x ocx Ex Exh. rewrite Eo in Ex. destruct (decide (x = p)) as [->|Hne].
    + rewrite lookup_insert_eq in Ex. injection Ex as <-. rewrite <- Eh, Exh in Hp. exact Hp.
    + rewrite lookup_insert_ne in Ex by done. apply (core_fresh_same g); [by apply Hsame|]. by apply (iv_fresh _ _ Hi).
  - intros x Hx. rewrite Eo. destruct (decide (x = p)) as [->|Hne]; [by rewrite lookup_insert_eq|].
    rewrite lookup_insert_ne by done. destruct (Hrefs x Hx) as [|Hx']; [done|]. by apply (iv_refs _ _ Hi).
  - apply (iv_held _ _ Hi).
Qed.

(** ** Changing the object heads *)

(** The slinger, the fields of the object heads and the references to them change;
    what hangs from each stays. *)
Lemma inv_heads_change st g sl ohs T held :
  inv st g -> sl_rel sl T ->
  (forall q, is_Some (T !! q) <-> is_Some (ohs !! q)) ->
  (forall q e oh, T !! q = Some e -> ohs !! q = Some oh ->
     if e_in e then accounted oh q held (e_ref e) else in_store oh q held (e_ref e)) ->
  (forall q oh, ohs !! q = Some oh -> (exists oh0, h_ohs st !! q = Some oh0 /\ objcs oh ≡ₚ objcs oh0) \/
     h_ohs st !! q = None /\ objcs oh = []) ->
  (forall q e, g_tab g !! q = Some e -> e_in e = true -> (exists oh, h_ohs st !! q = Some oh /\ objcs oh <> []) ->
     exists e', T !! q = Some e' /\ e_in e' = true) ->
  (forall q, q ∈ held -> exists e, T !! q = Some e /\ e_in e = true) ->
  inv (mkHash (h_cache st) (h_bans st) sl ohs) (Ghost T (g_timers g) (g_hist g) (g_refs g) held).
Proof.
  intros Hi Hsl Hdom Hacc Hobjcs Hin Hheld.
  split; cbn [h_cache h_bans h_sl h_ohs g_tab g_timers g_hist g_refs g_held]; try done; try apply Hi.
  - intros q oh Eq. destruct (Hobjcs q oh Eq) as [(oh0 & E0 & Hp)|[E0 ->]].
    + destruct (iv_list _ _ Hi q oh0 E0) as [Hn Hl]. split; [by rewrite Hp|]. intros p. by rewrite Hp, Hl.
    + split; [constructor|]. intros p. split; [by intros ?%not_elem_of_nil|]. intros (oc & Eo & Eh). exfalso.
      destruct (core_head st g Hi p oc q Eo Eh) as (e & oh1 & _ & _ & E1 & _). congruence.
  - intros p oc q Eo Eh. destruct (iv_core _ _ Hi p oc q Eo Eh) as [(e & Ee & He) H2 H3 H4 H5 H6].
    split; try done. apply (Hin q e Ee He). destruct (core_head st g Hi p oc q Eo Eh) as (_ & oh & _ & _ & Eoh & _ & Hp).
    exists oh. split; [done|]. intros E. rewrite E in Hp. by apply not_elem_of_nil in Hp.
  - intros p oc Eo Eh. destruct (iv_fresh _ _ Hi p oc Eo Eh) as [H1 H2 H3 H4 H5]. by split.
Qed.

(** ** Bans *)

Lemma inv_bans_change st g b h :
  inv st g -> BanThm.rel compile b h -> BanThm.h_pos h = BanThm.h_pos (g_hist g) ->
  inv (mkHash (h_cache st) b (h_sl st) (h_ohs st)) (Ghost (g_tab g) (g_timers g) h (g_refs g) (g_held g)).
Proof.
  intros Hi Hb Ep.
  split; cbn [h_cache h_bans h_sl h_ohs g_tab g_timers g_hist g_refs g_held]; try done; try apply Hi.
  - intros p. rewrite (BanThm.rel_dom compile _ _ _ Hb), Ep, <- (BanThm.rel_dom compile _ _ _ (iv_ban _ _ Hi)). apply Hi.
  - intros p oc q Eo Eh. apply (core_ok_same (objs (h_cache st)) _ g); [done| |done|by apply Hi].
    split; [done|]. split; [done|]. cbn. by rewrite Ep.
  - intros p oc Eo Eh. apply (core_fresh_same g); [|by apply Hi]. split; [done|]. split; [done|]. cbn. by rewrite Ep.
Qed.

(** ** Objects without an object core *)

Lemma inv_objs_change st g os :
  inv st g ->
  (forall a o, objs (h_cache st) !! a = Some o -> o_objcore o <> None -> os !! a = Some o) ->
  inv (mkHash (set_objs (h_cache st) os) (h_bans st) (h_sl st) (h_ohs st)) g.
Proof.
  intros Hi Ho. destruct g as [T S h refs held].
  split; cbn [h_cache h_bans h_sl h_ohs ocs set_objs objs]; try done; try apply Hi.
  - apply (inv_frame s (h_cache st)); try done; [apply Hi|apply (iv_exp _ _ Hi)|].
    intros p l _ (oc & a & o & Ec & Em & Ea & Eo & El & Ep). exists oc, a, o. split_and!; try done. apply Ho; [done|congruence].
  - intros p oc q Eo Eh. apply (core_ok_same (objs (h_cache st)) _ (Ghost T S h refs held)); [done|done| |by apply Hi].
    intros a o Ea Ep. apply Ho; [done|congruence].
Qed.

End Inv.

End HashInv.
