(* ===== verification/HashOps.v ===== *)
(** The cache proper, the operations on object cores and heads: each keeps the
    invariant and fails no assertion. *)
From S2P Require Import Prelude Double BinHeap BinHeapInv BanThm BanInv Ban Vary Slinger SlingerThm Obj Expire ExpireInv ExpireOps Hash HashInv.
Import Double BinHeap Ban Slinger Obj Expire ExpireInv ExpireOps Hash HashInv.

Module HashOps.

(** The store of a worker. *)
Record worker_ok {SL} (st : hash SL) (g : ghost) (w : worker) : Prop := {
  wo_core p : nobjcore w = Some p -> exists oc, ocs (h_cache st) !! p = Some oc /\ Obj.objhead oc = None;
  wo_head q : nobjhead w = Some q -> exists e, g_tab g !! q = Some e /\ e_in e = false;
}.

Definition full (w : worker) : Prop :=
  is_Some (nobjcore w) /\ is_Some (nobjhead w) /\ nwaitinglist w = true /\ is_Some (nbusyobj w).

Section Ops.

Context {SL : Type} `{SlingerLaws SL} (compile : list Z -> option (list Z)) (s : Z).

#[local] Notation hash := (hash SL).
#[local] Notation inv := (inv compile s).

(** ** Stores *)

Definition hist_pos (h : BanThm.hist) (p : positive) (x : option nat) : BanThm.hist :=
  BanThm.Hist (BanThm.h_log h) (<[p := x]> (BanThm.h_pos h)) (BanThm.h_refs h).

Lemma alloc_oc_ok st g p : inv st g -> ocs (h_cache st) !! p = None ->
  inv (alloc_oc st p) (Ghost (g_tab g) (g_timers g) (hist_pos (g_hist g) p None) (g_refs g) (g_held g)).
Proof.
  intros Hi E. assert (Eb : oc_ban (h_bans st) !! p = None).
  { destruct (oc_ban (h_bans st) !! p) eqn:Eb; [|done]. destruct (proj2 (iv_dom _ _ _ _ Hi p)) as [? ?]; [by eexists|congruence]. }
  assert (Hne : forall x oc, ocs (h_cache st) !! x = Some oc -> x <> p) by congruence.
  assert (Hsame : forall x, x <> p -> same_at g (Ghost (g_tab g) (g_timers g) (hist_pos (g_hist g) p None) (g_refs g) (g_held g)) x).
  { intros x Hx. split; [done|]. split; [done|]. cbn. by rewrite lookup_insert_ne. }
  split; cbn [alloc_oc set_oc set_cache set_bans h_cache h_bans h_sl h_ohs g_tab g_timers g_hist g_refs g_held put_oc set_ocs ocs objs];
    try apply Hi.
  - apply (inv_frame s (h_cache st)); try done; [apply Hi| | |].
    + apply numbers_put; [apply (ei_when _ _ _ (iv_exp _ _ _ _ Hi))|done].
    + intros x Hx. cbn [put_oc set_ocs ocs]. rewrite when_insert. rewrite decide_False; [done|].
      destruct (timer_core compile s st g Hi x Hx) as (oc & q & Ex & _). by eapply Hne.
    + intros x l _ (oc & a & o & Ec & R). exists oc, a, o. cbn [put_oc set_ocs ocs objs].
      rewrite lookup_insert_ne by (apply not_eq_sym; by eapply Hne). done.
  - by apply BanThm.alloc_rel; [apply Hi|].
  - intros x. cbn [oc_ban set_oc_ban]. destruct (decide (x = p)) as [->|Hx].
    + rewrite !lookup_insert_eq. by split; eexists.
    + rewrite !lookup_insert_ne by done. apply Hi.
  - intros q oh Eq. destruct (iv_list _ _ _ _ Hi q oh Eq) as [Hn Hl]. split; [done|]. intros x. rewrite Hl.
    destruct (decide (x = p)) as [->|Hx]; [|by rewrite lookup_insert_ne].
    rewrite lookup_insert_eq, E. by split; intros (? & [= <-] & ?).
  - intros x oc q Ex Exh. destruct (decide (x = p)) as [->|Hx].
    + rewrite lookup_insert_eq in Ex. by injection Ex as <-.
    + rewrite lookup_insert_ne in Ex by done. by apply (core_ok_same (objs (h_cache st)) _ g); [|apply Hsame| |apply Hi].
  - intros x oc Ex Exh. destruct (decide (x = p)) as [->|Hx].
    + rewrite lookup_insert_eq in Ex. injection Ex as <-. split; try done; [|by cbn; rewrite lookup_insert_eq].
      cbn [g_refs]. destruct (Z.eq_dec (count (g_refs g) p) 0) as [|Hc]; [done|].
      pose proof (count_nonneg (g_refs g) p). destruct (iv_refs _ _ _ _ Hi p) as [? ?]; [apply count_in; lia|congruence].
    + rewrite lookup_insert_ne in Ex by done. by apply (core_fresh_same g); [apply Hsame|apply Hi].
  - intros x Hx. destruct (decide (x = p)) as [->|Hne']; [by rewrite lookup_insert_eq; eexists|].
    rewrite lookup_insert_ne by done. exact (iv_refs _ _ _ _ Hi x Hx).
Qed.

(** A new object head in the store of a worker. *)
Lemma alloc_oh_ok st g p : inv st g -> h_ohs st !! p = None ->
  inv (put_oh (set_sl st (sl_new (h_sl st) p)) p (mkOh [] None))
    (Ghost (<[p := mkEntry 1 (replicate DIGEST_LEN 0) false]> (g_tab g)) (g_timers g) (g_hist g) (g_refs g) (g_held g)).
Proof.
  intros Hi E. assert (Et : g_tab g !! p = None).
  { destruct (g_tab g !! p) eqn:Et; [|done]. destruct (proj1 (iv_heads _ _ _ _ Hi p)) as [? ?]; [by eexists|congruence]. }
  assert (Hc : count (g_held g) p = 0).
  { destruct (Z.eq_dec (count (g_held g) p) 0) as [|Hc]; [done|].
    pose proof (count_nonneg (g_held g) p). destruct (iv_held _ _ _ _ Hi p) as (? & ? & _); [apply count_in; lia|congruence]. }
  apply (inv_heads_change compile s st g); try done.
  - apply sl_new_ok; [apply Hi|done].
  - intros q. cbn [h_ohs put_oh set_sl set_ohs]. destruct (decide (q = p)) as [->|Hq].
    + rewrite !lookup_insert_eq. by split; eexists.
    + rewrite !lookup_insert_ne by done. apply Hi.
  - intros q e oh Eq Eoh. cbn [h_ohs put_oh set_sl set_ohs] in Eoh. destruct (decide (q = p)) as [->|Hq].
    + rewrite lookup_insert_eq in Eq. rewrite lookup_insert_eq in Eoh. injection Eq as <-. injection Eoh as <-. done.
    + rewrite lookup_insert_ne in Eq by done. rewrite lookup_insert_ne in Eoh by done. by apply (iv_head _ _ _ _ Hi q).
  - intros q oh Eq. cbn [h_ohs put_oh set_sl set_ohs] in Eq. destruct (decide (q = p)) as [->|Hq].
    + rewrite lookup_insert_eq in Eq. injection Eq as <-. by right.
    + rewrite lookup_insert_ne in Eq by done. left. by exists oh.
  - intros q e Eq He. exists e. rewrite lookup_insert_ne; [done|]. congruence.
  - intros q Hq. destruct (iv_held _ _ _ _ Hi q Hq) as (e & Ee & He). exists e. rewrite lookup_insert_ne; [done|]. congruence.
Qed.

(** What a worker gets from [HSH_Prealloc]; what there was is as it was. *)
Record prealloc_frame (st st' : hash) (g g' : ghost) : Prop := {
  pf_ocs p oc : ocs (h_cache st) !! p = Some oc -> ocs (h_cache st') !! p = Some oc;
  pf_objs : objs (h_cache st') = objs (h_cache st);
  pf_heap : exp_heap (h_cache st') = exp_heap (h_cache st);
  pf_ohs q oh : h_ohs st !! q = Some oh -> h_ohs st' !! q = Some oh;
  pf_tab q e : g_tab g !! q = Some e -> g_tab g' !! q = Some e;
  pf_timers : g_timers g' = g_timers g;
  pf_refs : g_refs g' = g_refs g;
  pf_held : g_held g' = g_held g;
  pf_log : BanThm.h_log (g_hist g') = BanThm.h_log (g_hist g);
  pf_new q oh : h_ohs st' !! q = Some oh -> h_ohs st !! q = Some oh \/ h_ohs st !! q = None /\ objcs oh = [];
  pf_brefs : BanThm.h_refs (g_hist g') = BanThm.h_refs (g_hist g);
  pf_size : (size (BanThm.h_pos (g_hist g')) <= S (size (BanThm.h_pos (g_hist g))))%nat;
  pf_pos p n : BanThm.h_pos (g_hist g) !! p = Some n -> BanThm.h_pos (g_hist g') !! p = Some n;
}.

Lemma HSH_Prealloc_ok st g w aoc aoh : inv st g -> worker_ok st g w ->
  (nobjcore w = None -> ocs (h_cache st) !! aoc = None) -> (nobjhead w = None -> h_ohs st !! aoh = None) ->
  exists st' w' g', HSH_Prealloc st w aoc aoh = (st', w') /\ inv st' g' /\ worker_ok st' g' w' /\ full w' /\
    prealloc_frame st st' g g' /\
    nobjcore w' = Some (default aoc (nobjcore w)) /\ nobjhead w' = Some (default aoh (nobjhead w)).
Proof.
  intros Hi [Hwc Hwh] Hoc Hoh. unfold HSH_Prealloc.
  assert (H1 : exists st1 g1, (match nobjcore w with Some p => (st, p) | None => (alloc_oc st aoc, aoc) end) =
      (st1, default aoc (nobjcore w)) /\
    inv st1 g1 /\ prealloc_frame st st1 g g1 /\ g_tab g1 = g_tab g /\ h_ohs st1 = h_ohs st /\
    exists oc, ocs (h_cache st1) !! default aoc (nobjcore w) = Some oc /\ Obj.objhead oc = None).
  { destruct (nobjcore w) as [p|].
    - exists st, g. split; [done|]. split; [done|]. split; [split; by auto|]. split; [done|]. split; [done|]. by apply Hwc.
    - specialize (Hoc eq_refl). eexists _, _. split; [done|]. split; [by apply alloc_oc_ok|]. split.
      + split; try done; try (intros p; cbn); try by left.
        * intros oc E. rewrite lookup_insert_ne by congruence. done.
        * cbn. rewrite map_size_insert. unfold id. destruct (BanThm.h_pos _ !! aoc); lia.
        * intros n E. rewrite lookup_insert_ne; [done|]. intros <-.
          assert (is_Some (oc_ban (h_bans st) !! aoc)) as [? ?]%(iv_dom _ _ _ _ Hi);
            [|congruence]. apply (BanThm.rel_dom compile _ _ _ (iv_ban _ _ _ _ Hi)). by rewrite E.
      + split; [done|]. split; [done|]. eexists. cbn. by rewrite lookup_insert_eq. }
  destruct H1 as (st1 & g1 & -> & Hi1 & Hf1 & Et & Eohs & Hnoc). cbv beta iota.
  destruct (nobjhead w) as [q|].
  - eexists st1, _, g1. split; [done|]. split; [done|]. split; [|split; [split_and!; by eexists|done]].
    split; cbn; [by intros p [= <-]|]. intros q' [= <-]. rewrite Et. by apply Hwh.
  - specialize (Hoh eq_refl). eexists _, _, _. split; [done|]. split; [by apply alloc_oh_ok; [|rewrite Eohs]|].
    split; [|split; [split_and!; by eexists|split; [|done]]].
    + split; cbn; [by intros p [= <-]|]. intros q [= <-]. rewrite lookup_insert_eq. by eexists.
    + destruct Hf1. split; try done; intros q y E; cbn in *.
      * rewrite lookup_insert_ne by congruence. by apply pf_ohs0.
      * rewrite lookup_insert_ne; [by apply pf_tab0|]. intros <-.
        destruct (proj1 (iv_heads _ _ _ _ Hi aoh)) as [? ?]; [by eexists|congruence].
      * destruct (decide (q = aoh)) as [->|Hne].
        -- rewrite lookup_insert_eq in E. injection E as <-. by right.
        -- rewrite lookup_insert_ne in E by done. by apply pf_new0.
Qed.

(** A store that is full stays as it is. *)
Lemma prealloc_full st w aoc aoh : full w -> HSH_Prealloc st w aoc aoh = (st, w).
Proof.
  intros ([p Ep] & [q Eq] & Ew & [b Eb]). unfold HSH_Prealloc. rewrite Ep, Eq, Eb. by destruct w; cbn in *; subst.
Qed.

(** ** The object head of a lookup *)

(** The slinger changes an entry, and what is held of it. *)
Lemma inv_entry st g sl q e e' oh held :
  inv st g -> g_tab g !! q = Some e -> h_ohs st !! q = Some oh -> sl_rel sl (<[q := e']> (g_tab g)) ->
  (if e_in e' then accounted oh q held (e_ref e') else in_store oh q held (e_ref e')) ->
  (e_in e = true -> e_in e' = true) ->
  (forall x, x <> q -> count held x = count (g_held g) x) ->
  inv (set_sl st sl) (Ghost (<[q := e']> (g_tab g)) (g_timers g) (g_hist g) (g_refs g) held).
Proof.
  intros Hi E Eoh Hsl Hacc Hin Hcount.
  assert (Hnin : e_in e' = false -> count held q = 0) by (intros He; rewrite He in Hacc; apply Hacc).
  apply (inv_heads_change compile s st g); try done.
  - intros x. destruct (decide (x = q)) as [->|Hne].
    + rewrite lookup_insert_eq, Eoh. by split; eexists.
    + rewrite lookup_insert_ne by done. apply Hi.
  - intros x f ox Ex Eox. destruct (decide (x = q)) as [->|Hne].
    + rewrite lookup_insert_eq in Ex. injection Ex as <-. cbn in Eox. by assert (ox = oh) as -> by congruence.
    + rewrite lookup_insert_ne in Ex by done. pose proof (iv_head _ _ _ _ Hi x f ox Ex Eox) as Ha.
      unfold accounted, in_store in *. by rewrite Hcount by done.
  - intros x ox Ex. left. by exists ox.
  - intros x f Ex Hf. destruct (decide (x = q)) as [->|Hne].
    + rewrite lookup_insert_eq. exists e'. split; [done|]. apply Hin. congruence.
    + rewrite lookup_insert_ne by done. by exists f.
  - intros x Hx. destruct (decide (x = q)) as [->|Hne].
    + rewrite lookup_insert_eq. exists e'. split; [done|]. destruct (e_in e') eqn:Ei; [done|].
      apply count_in in Hx. rewrite Hnin in Hx by done. lia.
    + rewrite lookup_insert_ne by done. apply (iv_held _ _ _ _ Hi x). apply count_in. rewrite <- Hcount by done. by apply count_in.
Qed.

(** What a lookup starts from. *)
Lemma lookup_head_ok st g w sp n sl :
  inv st g -> worker_ok st g w -> nobjhead w = Some n -> length (sp_digest sp) = DIGEST_LEN ->
  (forall q, hash_objhead sp = Some q -> q ∈ g_held g) ->
  sl_digest (h_sl st) n (sp_digest sp) = Ok sl ->
  exists sl' w' oh T held e, lookup_head (set_sl st sl) w sp = Ok (set_sl st sl', w', set_hash_objhead sp None, oh) /\
    inv (set_sl st sl') (Ghost T (g_timers g) (g_hist g) (g_refs g) held) /\
    worker_ok (set_sl st sl') (Ghost T (g_timers g) (g_hist g) (g_refs g) held) w' /\
    nobjcore w' = nobjcore w /\ nwaitinglist w' = nwaitinglist w /\ nbusyobj w' = nbusyobj w /\
    oh ∈ held /\ T !! oh = Some e /\ e_in e = true /\
    match hash_objhead sp with
    | Some q => oh = q /\ held = g_held g
    | None => e_dig e = sp_digest sp /\ held = oh :: g_held g
    end /\
    (forall x f, x <> n -> g_tab g !! x = Some f -> e_in f = false -> T !! x = Some f) /\
    (nobjhead w' = None \/ nobjhead w' = nobjhead w).
Proof.
  intros Hi [Hwc Hwh] En Hlen Hheld Ed. destruct (Hwh n En) as (e & Ee & Hin).
  destruct (sl_digest_ok (h_sl st) (g_tab g) n e (sp_digest sp) (iv_sl _ _ _ _ Hi) Ee Hin Hlen) as (sl1 & Ed1 & Hr1).
  assert (sl1 = sl) as -> by congruence.
  destruct (proj1 (iv_heads _ _ _ _ Hi n)) as [ohn Eohn]; [by eexists|].
  pose proof (iv_head _ _ _ _ Hi n e ohn Ee Eohn) as Hst. rewrite Hin in Hst.
  set (T1 := <[n := mkEntry (e_ref e) (sp_digest sp) false]> (g_tab g)) in *.
  assert (Hi1 : inv (set_sl st sl) (Ghost T1 (g_timers g) (g_hist g) (g_refs g) (g_held g))).
  { apply (inv_entry st g sl n e _ ohn); try done. congruence. }
  unfold lookup_head. destruct (hash_objhead sp) as [q|] eqn:Eq.
  - destruct (iv_held _ _ _ _ Hi1 q (Hheld q eq_refl)) as (f & Ef & Hf). cbn [g_tab] in Ef.
    exists sl, w, q, T1, (g_held g), f. split; [done|]. split; [done|].
    split; [|split_and!; try done; [by apply Hheld|intros x y Hx Ex _; unfold T1; by rewrite lookup_insert_ne|by right]].
    split; [done|]. cbn [g_tab]. intros x Ex. destruct (decide (x = n)) as [->|Hne]; [unfold T1; rewrite lookup_insert_eq; by eexists|].
    unfold T1. rewrite lookup_insert_ne by done. by apply Hwh.
  - rewrite En. cbn [notnull]. rewrite bind_Ret.
    assert (E1 : T1 !! n = Some (mkEntry (e_ref e) (sp_digest sp) false)) by apply lookup_insert_eq.
    assert (Esp : sp = set_hash_objhead sp None) by (destruct sp; cbn in *; by subst).
    destruct (sl_lookup_ok sl T1 n _ Hr1 E1 eq_refl) as (sl2 & r & E2 & Hcase). cbn [h_sl set_sl]. rewrite E2, bind_Ret.
    cbv beta iota. destruct Hcase as [(f & Ef & Hf & Dg & Hr2)|(Hno & -> & Hr2)].
    + assert (Hrn : r <> n) by (intros ->; rewrite E1 in Ef; by injection Ef as <-). rewrite bool_decide_false by done.
      destruct (proj1 (iv_heads _ _ _ _ Hi1 r)) as [ohr Eohr]; [by eexists|].
      pose proof (iv_head _ _ _ _ Hi1 r f ohr Ef Eohr) as Ha. rewrite Hf in Ha. cbn [g_held h_ohs] in Ha, Eohr.
      exists sl2, w, r, (<[r := set_ref f (e_ref f + 1)]> T1), (r :: g_held g), (set_ref f (e_ref f + 1)).
      rewrite Esp at 1. split; [done|].
      split; [|split; [|split_and!; try done; [by left|apply lookup_insert_eq| |by right]]].
      * apply (inv_entry _ _ sl2 r f _ ohr (r :: g_held g) Hi1 Ef Eohr Hr2).
        -- cbn [set_ref e_in e_ref]. rewrite Hf. destruct Ha as [-> Hpos]. unfold accounted.
           rewrite count_here. lia.
        -- done.
        -- intros x Hx. by apply count_there.
      * split; [done|]. cbn [g_tab]. intros x Ex. assert (x = n) as -> by congruence.
        rewrite lookup_insert_ne by done. rewrite E1. by eexists.
      * intros x y Hx Ex Hy. destruct (decide (x = r)) as [->|Hne]; [|by rewrite lookup_insert_ne; unfold T1; rewrite ?lookup_insert_ne].
        unfold T1 in Ef. rewrite lookup_insert_ne in Ef by done. congruence.
    + rewrite bool_decide_true by done. 
      set (e1 := mkEntry _ _ true) in *.
      exists sl2, (mkWorker (nobjcore w) None (nwaitinglist w) (nbusyobj w)), n, (<[n := e1]> T1), (n :: g_held g), e1.
      rewrite Esp at 1. split; [done|].
      split; [|split; [|split_and!; try done; [by left|apply lookup_insert_eq| |by left]]].
      * apply (inv_entry _ _ sl2 n _ _ ohn (n :: g_held g) Hi1 E1 Eohn Hr2); [|done|].
        -- unfold e1. cbn [e_in e_ref]. destruct Hst as (-> & Eo & Ew & Hc). unfold accounted, waiting. rewrite Eo, Ew.
           rewrite count_here, Hc. cbn. lia.
        -- intros x Hx. by apply count_there.
      * split; [done|]. cbn [nobjhead]. done.
      * intros x y Hx Ex _. rewrite lookup_insert_ne by done. unfold T1. by rewrite lookup_insert_ne.
Qed.

(** ** References and objects *)

Definition with_refs (g : ghost) (refs : list positive) : ghost :=
  Ghost (g_tab g) (g_timers g) (g_hist g) refs (g_held g).

(** The object of an object core that is not bare. *)
Lemma core_object st g p oc q : inv st g -> ocs (h_cache st) !! p = Some oc -> Obj.objhead oc = Some q ->
  methods oc = true -> exists a o, object_of (objs (h_cache st)) p oc a o /\
    oc_getobj (h_cache st) p = (if oc_busy oc then Fail FAssert else Ok (Some a)) /\
    has_lru (h_cache st) p (o_lru o) /\ exp_ok (o_exp o) = true.
Proof.
  intros Hi E Eq Em. destruct (co_obj _ _ _ _ _ (iv_core _ _ _ _ Hi p oc q E Eq) Em) as (a & o & (Ea & Eo & Ep) & Hexp & _).
  exists a, o. split; [done|]. split; [|split; [|done]].
  - unfold oc_getobj, get_oc. rewrite E. cbn [deref]. rewrite bind_Ret. destruct (oc_busy oc); [done|].
    cbn [negb vassert]. rewrite bind_Ret, Em. cbn [vassert]. by rewrite bind_Ret, Ea.
  - exists oc, a, o. done.
Qed.

Lemma unbusy_methods st g p oc q : inv st g -> ocs (h_cache st) !! p = Some oc -> Obj.objhead oc = Some q ->
  oc_busy oc = false -> methods oc = true.
Proof.
  intros Hi E Eq Hb. destruct (methods oc) eqn:Em; [done|].
  destruct (co_bare _ _ _ _ _ (iv_core _ _ _ _ Hi p oc q E Eq) Em) as (Hb' & _). congruence.
Qed.

(** The references to [p], with its count, change. *)
Lemma refs_change st g p oc q refs n : inv st g -> ocs (h_cache st) !! p = Some oc -> Obj.objhead oc = Some q ->
  methods oc = true -> 0 < n ->
  n = count refs p + (if decide (p ∈ g_timers g) then 1 else 0) ->
  (forall x, x <> p -> count refs x = count (g_refs g) x) ->
  inv (set_oc st p (set_refcnt oc n)) (with_refs g refs).
Proof.
  intros Hi E Eq Em Hpos Hn Hcount.
  assert (Hc := iv_core _ _ _ _ Hi p oc q E Eq). assert (He := iv_exp _ _ _ _ Hi).
  apply (inv_core_change compile s st g (put_oc (h_cache st) p (set_refcnt oc n)) (h_bans st) (g_timers g) (g_hist g)
    refs p oc (set_refcnt oc n)); try done.
  - apply (inv_put_oc s _ _ p oc); try done. by apply (ei_when _ _ _ He p oc).
  - apply Hi.
  - intros x Hx. split; [by apply Hcount|done].
  - intros x Hx. destruct (decide (x = p)) as [|Hne]; [by left|right]. apply count_in. rewrite <- Hcount by done. by apply count_in.
  - rewrite Eq. destruct Hc as [H1 H2 H3 H4 H5 H6]. split; cbn [set_refcnt Obj.refcnt methods priv g_refs g_timers g_hist g_tab]; try done.
    congruence.
Qed.

(** The object changes, its storage and object core apart. *)
Lemma object_change st g p oc q a o o' : inv st g -> ocs (h_cache st) !! p = Some oc -> Obj.objhead oc = Some q ->
  object_of (objs (h_cache st)) p oc a o -> o_lru o' = o_lru o -> o_objcore o' = o_objcore o ->
  exp_ok (o_exp o') = true -> (oc_busy oc = false -> dle (ttl (o_exp o')) d0 = false -> dle (ttl (o_exp o)) d0 = false) ->
  inv (set_cache st (put_obj (h_cache st) a o')) g.
Proof.
  intros Hi E Eq (Ea & Eo & Ep) El Eoc Hexp Hl. assert (Hc := iv_core _ _ _ _ Hi p oc q E Eq).
  assert (He := iv_exp _ _ _ _ Hi). destruct g as [T S h refs held]. cbn [g_timers] in *.
  apply (inv_core_change compile s st (Ghost T S h refs held) (put_obj (h_cache st) a o') (h_bans st) S h refs p oc oc); try done.
  - by apply (inv_put_obj s _ _ a o).
  - apply Hi.
  - cbn. by rewrite insert_id.
  - intros b x Eb Hb _. cbn [objs put_obj set_objs]. rewrite lookup_insert_ne; [done|]. congruence.
  - by right.
  - rewrite Eq. destruct Hc as [H1 H2 H3 H4 H5 H6]. split; try done. intros Em.
    destruct (H6 Em) as (a1 & o1 & (Ea1 & Eo1 & Ep1) & _ & Hn). assert (a1 = a) as -> by congruence. assert (o1 = o) as -> by congruence.
    exists a, o'. split; [split; [done|]; split; [apply lookup_insert_eq|congruence]|]. split; [done|].
    intros Hc. apply Hn. destruct (oc_busy oc); [by left|right]. destruct Hc as [|Hc]; [done|]. by apply Hl.
Qed.

(** [hash->deref] of a reference that is not the last. *)
(** Heads keep their digests and can be found as before. *)
Definition tab_kept (T T' : gmap positive entry) : Prop :=
  forall q e, T !! q = Some e -> exists e', T' !! q = Some e' /\ e_dig e' = e_dig e /\ e_in e' = e_in e.

Lemma tab_kept_refl T : tab_kept T T.
Proof. intros q e E. by exists e. Qed.

Lemma sl_deref_held st g q oh : inv st g -> q ∈ g_held g -> h_ohs st !! q = Some oh -> objcs oh <> [] ->
  exists sl T, sl_deref (h_sl st) q = Ok (sl, true) /\
    inv (set_sl st sl) (Ghost T (g_timers g) (g_hist g) (g_refs g) (take_one q (g_held g))) /\
    tab_kept (g_tab g) T.
Proof.
  intros Hi Hq Eoh Hne. destruct (iv_held _ _ _ _ Hi q Hq) as (e & Ee & He).
  pose proof (iv_head _ _ _ _ Hi q e oh Ee Eoh) as Ha. rewrite He in Ha. destruct Ha as [Hr Hpos].
  destruct (sl_deref_ok (h_sl st) (g_tab g) q e (iv_sl _ _ _ _ Hi) Ee He Hpos) as (sl & E & Hr').
  assert (Hlen : (0 < length (objcs oh))%nat) by (destruct (objcs oh); [done|cbn; lia]).
  assert (Hc : 0 < count (g_held g) q) by (by apply count_in).
  assert (E1 : (e_ref e =? 1) = false) by (apply Z.eqb_neq; unfold waiting in Hr; lia). rewrite E1 in *. cbn [negb] in *.
  exists sl, (<[q := mkEntry (e_ref e - 1) (e_dig e) true]> (g_tab g)). split; [done|].
  split; [|intros x f Ex; destruct (decide (x = q)) as [->|Hx]; [rewrite lookup_insert_eq|rewrite lookup_insert_ne by done];
    eexists; (split; [done|]); [assert (f = e) as -> by congruence; done|done]].
  apply (inv_entry st g sl q e (mkEntry (e_ref e - 1) (e_dig e) true) oh); try done.
  - cbn [e_in e_ref]. unfold accounted. rewrite count_taken by done. unfold waiting in *. lia.
  - intros x Hx. by apply count_untaken.
Qed.

Lemma sl_refcnt_head st g q e : inv st g -> g_tab g !! q = Some e -> sl_refcnt (h_sl st) q = Ok (e_ref e).
Proof. intros Hi. apply sl_refcnt_ok, Hi. Qed.

(** ** An object we like *)

Definition hit_object (o : object) : object := if hits o <? INT_MAX then set_hits o (hits o + 1) else o.

Lemma lookup_hit_ok st g oh ohd p oc : inv st g -> h_ohs st !! oh = Some ohd -> p ∈ objcs ohd -> oh ∈ g_held g ->
  ocs (h_cache st) !! p = Some oc -> oc_busy oc = false -> Obj.refcnt oc + 1 < 2 ^ 32 ->
  exists st' T, lookup_hit st oh p = Ok st' /\
    inv st' (Ghost T (g_timers g) (g_hist g) (p :: g_refs g) (take_one oh (g_held g))) /\ h_ohs st' = h_ohs st /\
    ocs (h_cache st') = <[p := set_refcnt oc (Obj.refcnt oc + 1)]> (ocs (h_cache st)) /\
    (exists a o, object_of (objs (h_cache st)) p oc a o /\ objs (h_cache st') = <[a := hit_object o]> (objs (h_cache st))) /\
    tab_kept (g_tab g) T.
Proof.
  intros Hi Eoh Hp Hheld E Hb Hlim. destruct (listed_core compile s st g Hi oh ohd p Eoh Hp) as (oc0 & E0 & Eh & Hc).
  assert (oc0 = oc) as -> by congruence. clear E0.
  assert (Em := unbusy_methods st g p oc oh Hi E Eh Hb).
  destruct (core_object st g p oc oh Hi E Eh Em) as (a & o & Hobj & Eg & _ & Hexp). rewrite Hb in Eg.
  assert (Hobj' := Hobj). destruct Hobj' as (Ea & Eo & Ep).
  unfold lookup_hit. rewrite Eg, bind_Ret. cbn [notnull]. rewrite bind_Ret. unfold get_obj, get_oc. rewrite Eo. cbn [deref].
  rewrite bind_Ret, E. cbn [deref]. rewrite bind_Ret, Eh, bool_decide_true by done. cbn [vassert]. rewrite bind_Ret. cbv zeta.
  pose proof (co_pos _ _ _ _ _ Hc) as Hpos. rewrite u32_small by lia.
  set (oc' := set_refcnt oc (Obj.refcnt oc + 1)).
  assert (H1 : inv (set_oc st p oc') (with_refs g (p :: g_refs g))).
  { apply (refs_change st g p oc oh); try done; [lia| |].
    - rewrite (co_ref _ _ _ _ _ Hc), count_here. lia.
    - intros x Hx. by apply count_there. }
  assert (E' : ocs (h_cache (set_oc st p oc')) !! p = Some oc') by apply lookup_insert_eq.
  assert (H2 : inv (set_cache st (put_obj (put_oc (h_cache st) p oc') a (hit_object o))) (with_refs g (p :: g_refs g))).
  { apply (object_change (set_oc st p oc') _ p oc' oh a o); try done; unfold hit_object; by destruct (_ <? _). }
  assert (Ec : (if hits o <? INT_MAX then put_obj (put_oc (h_cache st) p oc') a (set_hits o (hits o + 1)) else put_oc (h_cache st) p oc') =
    put_obj (put_oc (h_cache st) p oc') a (hit_object o)).
  { unfold hit_object. destruct (_ <? _); [done|]. unfold put_obj, set_objs, put_oc, set_ocs. cbn [objs ocs lrus exp_heap n_expired n_lru_nuked n_lru_moved].
    by rewrite (insert_id (objs (h_cache st)) a o). }
  rewrite Ec. destruct (core_head compile s st g Hi p oc oh E Eh) as (e & oh1 & Ee & He & Eoh1 & [Hr _] & _).
  assert (oh1 = ohd) as -> by congruence. rewrite (sl_refcnt_head st g oh e Hi Ee), bind_Ret.
  assert (Hlen : (0 < length (objcs ohd))%nat) by (destruct (objcs ohd); [by apply not_elem_of_nil in Hp|cbn; lia]).
  apply count_in in Hheld as Hcnt. rewrite vassert_true, bind_Ret by (unfold waiting in Hr; lia).
  destruct (sl_deref_held _ _ oh ohd H2 Hheld Eoh) as (sl & T & Ed & H3 & HT).
  { intros E0. rewrite E0 in Hp. by apply not_elem_of_nil in Hp. }
  cbn [h_sl set_cache] in Ed. rewrite Ed, bind_Ret. cbn [vassert]. rewrite bind_Ret. eexists _, T. split; [done|]. split; [exact H3|]. split; [done|]. split; [done|]. split; [by exists a, o|done].
Qed.

(** ** Changing one object head *)

Definition with_held (g : ghost) (held : list positive) : ghost :=
  Ghost (g_tab g) (g_timers g) (g_hist g) (g_refs g) held.

Lemma head_change st g q oh oh' held : inv st g -> h_ohs st !! q = Some oh -> objcs oh' ≡ₚ objcs oh ->
  (forall e, g_tab g !! q = Some e -> e_in e = true) ->
  waiting oh' + count held q = waiting oh + count (g_held g) q ->
  (forall x, x <> q -> count held x = count (g_held g) x) ->
  inv (put_oh st q oh') (with_held g held).
Proof.
  intros Hi Eoh Hp Hin Hw Hc. apply (inv_heads_change compile s st g); try done.
  - apply Hi.
  - intros x. cbn [h_ohs put_oh set_ohs]. destruct (decide (x = q)) as [->|Hne].
    + rewrite lookup_insert_eq. rewrite (iv_heads _ _ _ _ Hi q), Eoh. by split; eexists.
    + rewrite lookup_insert_ne by done. apply Hi.
  - intros x e ox Ex Eox. cbn [h_ohs put_oh set_ohs] in Eox. destruct (decide (x = q)) as [->|Hne].
    + rewrite lookup_insert_eq in Eox. injection Eox as <-. pose proof (iv_head _ _ _ _ Hi q e oh Ex Eoh) as Ha.
      rewrite (Hin e Ex) in *. unfold accounted in *. rewrite Hp. lia.
    + rewrite lookup_insert_ne in Eox by done. pose proof (iv_head _ _ _ _ Hi x e ox Ex Eox) as Ha.
      unfold accounted, in_store in *. by rewrite Hc.
  - intros x ox Ex. left. cbn [h_ohs put_oh set_ohs] in Ex. destruct (decide (x = q)) as [->|Hne].
    + rewrite lookup_insert_eq in Ex. injection Ex as <-. by exists oh.
    + rewrite lookup_insert_ne in Ex by done. by exists ox.
  - intros x e Ex He. by exists e.
  - intros x Hx. destruct (decide (x = q)) as [->|Hne].
    + destruct (proj2 (iv_heads _ _ _ _ Hi q)) as [e Ee]; [by eexists|]. exists e. split; [done|]. by apply Hin.
    + apply (iv_held _ _ _ _ Hi x). apply count_in. rewrite <- Hc by done. by apply count_in.
Qed.

Lemma held_in st g q : inv st g -> q ∈ g_held g -> forall e, g_tab g !! q = Some e -> e_in e = true.
Proof. intros Hi Hq e Ee. destruct (iv_held _ _ _ _ Hi q Hq) as (e' & Ee' & ?). congruence. Qed.

(** ** A session that waits *)

Lemma lookup_wait_ok st g w sp self oh ohd : inv st g -> worker_ok st g w -> nwaitinglist w = true ->
  h_ohs st !! oh = Some ohd -> oh ∈ g_held g ->
  exists st' w', lookup_wait st w sp self oh = Ok (st', w', set_hash_objhead sp (Some oh)) /\
    inv st' (with_held g (if esi_level sp =? 0 then take_one oh (g_held g) else g_held g)) /\
    worker_ok st' g w' /\ (nobjcore w' = nobjcore w /\ nobjhead w' = nobjhead w) /\ h_cache st' = h_cache st /\
    h_ohs st' = if esi_level sp =? 0
                then <[oh := set_waitinglist ohd (Some (default [] (waitinglist ohd) ++ [self]))]> (h_ohs st)
                else h_ohs st.
Proof.
  intros Hi Hw Enw Eoh Hheld. unfold lookup_wait. destruct (esi_level sp =? 0).
  - rewrite Enw. cbn [vassert]. rewrite bind_Ret. unfold get_oh. rewrite Eoh. cbn [deref]. rewrite bind_Ret.
    assert (Hput : inv (put_oh st oh (set_waitinglist ohd (Some (default [] (waitinglist ohd) ++ [self]))))
      (with_held g (take_one oh (g_held g)))).
    { apply (head_change st g oh ohd); try done.
      - by apply (held_in st g oh Hi).
      - rewrite count_taken by done. unfold waiting. cbn [waitinglist set_waitinglist default]. unfold id.
        rewrite length_app. cbn [length]. lia.
      - intros x Hx. by apply count_untaken. }
    destruct Hw as [Hwc Hwh].
    destruct (waitinglist ohd) as [l|]; (eexists _, _; split; [done|]; split; [exact Hput|]; split; [by split|done]).
  - exists st, w. split; [done|]. split; [by destruct g|]. done.
Qed.

(** ** A new busy object core *)

Lemma lookup_miss_ok st g w sp p oh ohd : inv st g -> worker_ok st g w -> nobjcore w = Some p -> is_Some (nbusyobj w) ->
  Vary.VRY_Validate (length (vary_b sp)) (vary_b sp) = Ok tt -> h_ohs st !! oh = Some ohd -> oh ∈ g_held g ->
  exists st' w' oc, lookup_miss st w sp oh = Ok (st', w', p) /\
    inv st' (Ghost (g_tab g) (g_timers g) (g_hist g) (p :: g_refs g) (take_one oh (g_held g))) /\
    worker_ok st' g w' /\ nobjcore w' = None /\ nobjhead w' = nobjhead w /\ nbusyobj w' = None /\
    h_ohs st' = <[oh := set_objcs ohd (objcs ohd ++ [p])]> (h_ohs st) /\
    ocs (h_cache st') = <[p := oc]> (ocs (h_cache st)) /\ Obj.objhead oc = Some oh /\ Obj.refcnt oc = 1 /\
    oc_busy oc = true /\
    oc_busyobj oc = Some (mkBusyobj (match vary_l sp with Some _ => Some (vary_b sp) | None => None end)).
Proof.
  intros Hi Hw En [bo Eb] Hvary Eoh Hheld. destruct (wo_core _ _ _ Hw p En) as (oc & E & Eh).
  pose proof (iv_fresh _ _ _ _ Hi p oc E Eh) as [F1 F2 F3 F4 F5].
  destruct (iv_held _ _ _ _ Hi oh Hheld) as (e & Ee & He).
  unfold lookup_miss. rewrite En. cbn [deref]. rewrite bind_Ret. unfold get_oc. rewrite E. cbn [deref]. rewrite bind_Ret, F1.
  cbn [vassert]. rewrite bind_Ret, Hvary, bind_Ret, Eb. cbn [deref]. rewrite bind_Ret. cbv zeta.
  unfold get_oh. rewrite Eoh. cbn [deref]. rewrite bind_Ret. set (v := match vary_l sp with Some _ => _ | None => _ end).
  set (oc' := set_objhead _ (Some oh)). eexists _, _, oc'. split; [done|].
  assert (Hnt : p ∉ g_timers g).
  { intros Hp. destruct (timer_core compile s st g Hi p Hp) as (oc1 & q & E1 & Eq1 & _). congruence. }
  assert (He' := iv_exp _ _ _ _ Hi).
  assert (Hsame : forall x, x <> p -> same_at g
    (Ghost (g_tab g) (g_timers g) (g_hist g) (p :: g_refs g) (take_one oh (g_held g))) x).
  { intros x Hx. split; [by apply count_there|done]. }
  assert (Hnin : forall q ox, h_ohs st !! q = Some ox -> p ∉ objcs ox).
  { intros q ox Eq Hp. destruct (listed_core compile s st g Hi q ox p Eq Hp) as (oc1 & E1 & Eq1 & _). congruence. }
  split; [|split; [by split; [|apply Hw]|split_and!; try done]].
  split; cbn [set_oc set_cache put_oh set_ohs h_cache h_bans h_sl h_ohs put_oc set_ocs ocs objs g_tab g_timers g_hist g_refs g_held];
    try apply Hi.
  - apply (inv_put_oc s (h_cache st) _ p oc); try done. exact (ei_when _ _ _ He' p oc E).
  - intros x. destruct (decide (x = p)) as [->|Hx].
    + rewrite lookup_insert_eq, <- (iv_dom _ _ _ _ Hi p), E. by split; eexists.
    + rewrite lookup_insert_ne by done. apply Hi.
  - intros x. rewrite (iv_heads _ _ _ _ Hi x). destruct (decide (x = oh)) as [->|Hx].
    + rewrite lookup_insert_eq, Eoh. by split; eexists.
    + by rewrite lookup_insert_ne.
  - intros x f ox Ex Eox. destruct (decide (x = oh)) as [->|Hx].
    + rewrite lookup_insert_eq in Eox. injection Eox as <-. pose proof (iv_head _ _ _ _ Hi oh f ohd Ex Eoh) as Ha.
      assert (f = e) as -> by congruence. rewrite He in *. unfold accounted, waiting in *. cbn [objcs set_objcs waitinglist].
      rewrite length_app, count_taken by done. cbn [length]. lia.
    + rewrite lookup_insert_ne in Eox by done. pose proof (iv_head _ _ _ _ Hi x f ox Ex Eox) as Ha.
      unfold accounted, in_store in *. by rewrite count_untaken.
  - intros x ox Eox. destruct (decide (x = oh)) as [->|Hx].
    + rewrite lookup_insert_eq in Eox. injection Eox as <-. destruct (iv_list _ _ _ _ Hi oh ohd Eoh) as [Hn Hl].
      cbn [objcs set_objcs]. split.
      * apply NoDup_app. split; [done|]. split; [|apply NoDup_singleton]. intros y Hy ->%list_elem_of_singleton. by apply (Hnin oh ohd).
      * intros y. rewrite elem_of_app, list_elem_of_singleton, Hl. destruct (decide (y = p)) as [->|Hy].
        -- rewrite lookup_insert_eq. split; [|by right]. intros _. by exists oc'.
        -- rewrite lookup_insert_ne by done. tauto.
    + rewrite lookup_insert_ne in Eox by done. destruct (iv_list _ _ _ _ Hi x ox Eox) as [Hn Hl]. split; [done|].
      intros y. rewrite Hl. destruct (decide (y = p)) as [->|Hy]; [|by rewrite lookup_insert_ne].
      rewrite lookup_insert_eq. split; [intros (y & Ey & Eyh); congruence|]. intros (y & [= <-] & Eyh). cbn in Eyh. congruence.
  - intros x ocx q Ex Eq. destruct (decide (x = p)) as [->|Hx].
    + rewrite lookup_insert_eq in Ex. injection Ex as <-. cbn in Eq. injection Eq as <-.
      split; cbn [oc' set_objhead set_busyobj set_refcnt Obj.refcnt methods priv oc_busyobj g_tab g_refs g_timers g_hist]; try done.
      * by exists e.
      * rewrite count_here, F4, decide_False by done. lia.
      * by rewrite F3.
    + rewrite lookup_insert_ne in Ex by done. by apply (core_ok_same (objs (h_cache st)) _ g); [|apply Hsame| |apply Hi].
  - intros x ocx Ex Eq. destruct (decide (x = p)) as [->|Hx].
    + rewrite lookup_insert_eq in Ex. by injection Ex as <-.
    + rewrite lookup_insert_ne in Ex by done. by apply (core_fresh_same g); [apply Hsame|apply Hi].
  - intros x Hx. destruct (decide (x = p)) as [->|Hne]; [by rewrite lookup_insert_eq; eexists|].
    rewrite lookup_insert_ne by done. apply elem_of_cons in Hx as [->|Hx]; [done|]. exact (iv_refs _ _ _ _ Hi x Hx).
  - intros x Hx. apply (iv_held _ _ _ _ Hi x). by eapply elem_take_one.
Qed.

End Ops.

End HashOps.
