(* ===== verification/HashLoop.v ===== *)
(** The loop of [HSH_Lookup] over what hangs from an object head: a verdict on each
    object core, and what the loop makes of them. *)
From S2P Require Import Prelude Double BinHeap BanThm BanInv BanSpec BanCheck Mem Http HttpLines Ban Vary VarySpec VaryMatch VaryThm Slinger SlingerThm Obj Expire ExpireInv ExpireOps Hash HashInv HashOps.
Import Double BinHeap BanSpec BanCheck Mem Http HttpLines Ban VarySpec VaryThm Slinger Obj Expire ExpireInv ExpireOps Hash HashInv HashOps.

Module HashLoop.

(** ** Verdicts *)

Inductive verdict := VSkip | VBusy | VLive | VGrace (t : double).

Definition live (d : verdict) : bool := match d with VLive => true | _ => false end.

(** What the loop remembers of a verdict. *)
Definition note (p : positive) (d : verdict) (s : seen) : seen :=
  match d with
  | VBusy => mkSeen (Some p) (grace_oc s) (grace_ttl s)
  | VGrace t => if bool_decide (grace_oc s = None) || dlt (grace_ttl s) t then mkSeen (busy_oc s) (Some p) t else s
  | _ => s
  end.

(** The loop, given them: the last busy object core and the best one in grace before
    the first live one. *)
Fixpoint choose (v : positive -> verdict) (l : list positive) (s : seen) : seen * option positive :=
  match l with
  | [] => (s, None)
  | p :: l => if live (v p) then (s, Some p) else choose v l (note p (v p) s)
  end.

Lemma choose_ext v v' l s : (forall p, p ∈ l -> v' p = v p) -> choose v' l s = choose v l s.
Proof.
  revert s. induction l as [|p l IH]; intros s Hv; [done|]. cbn [choose]. rewrite Hv by (by left).
  destruct (live (v p)); [done|]. apply IH. intros q Hq. apply Hv. by right.
Qed.

Lemma choose_live v l s s' p : choose v l s = (s', Some p) -> p ∈ l /\ v p = VLive.
Proof.
  revert s. induction l as [|q l IH]; intros s; cbn [choose]; [done|]. destruct (v q) eqn:Eq; cbn [live].
  3:{ intros [= _ <-]. split; [by left|done]. }
  all: intros E; destruct (IH _ E); split; [by right|done].
Qed.

(** Where the object cores it remembers come from. *)
Lemma choose_grace v l s p : grace_oc (fst (choose v l s)) = Some p ->
  grace_oc s = Some p \/ p ∈ l /\ exists t, v p = VGrace t.
Proof.
  revert s. induction l as [|q l IH]; intros s; cbn [choose]; [by left|]. destruct (live (v q)); [by left|].
  intros Hg. destruct (IH _ Hg) as [Hs|[Hl Ht]]; [|right; split; [by right|done]].
  destruct (v q) as [| | |t] eqn:Eq; cbn [note grace_oc] in Hs; try by left.
  destruct (_ || _); [|by left]. injection Hs as ->. right. split; [by left|by exists t].
Qed.

(** What a lookup knows: the header lines and the URL of the request, and for each
    object core the header lines of its object and the entries of its Vary string,
    if it has one. *)
Record view := View {
  v_mem : mem;
  v_lines : list (list Z * Z);
  v_url : list Z;
  v_olines : positive -> list (list Z * Z);
  v_vary : positive -> option (list VarySpec.entry);
}.

Definition msgs_of (v : view) (sp : sess) (p : positive) (o : object) : msgs :=
  Msgs (v_mem v) (o_http o) (sp_http sp) (v_olines v p) (v_lines v) (v_url v).

Definition vary_ready (size : Z) (ls : list (list Z * Z)) (vary : option (list Z)) (es : option (list VarySpec.entry)) : Prop :=
  match vary, es with
  | None, None => True
  | Some x, Some es => exists t, x = enc es ++ t /\ rd t 2 = Ok 0 /\ Forall entry_ok es /\ fits size 0 (map (own_len ls) es)
  | _, _ => False
  end.

Section Loop.

Context {SL : Type} `{SlingerLaws SL} (compile : list Z -> option (list Z)) (exec : list Z -> list Z -> Z) `{!Pcre compile exec}.
Context (default_keep default_grace : Z) (http_gzip_support : bool) (s : Z)
  (Hkeep : 0 <= default_keep < 2 ^ 32) (Hgrace : 0 <= default_grace < 2 ^ 32).

#[local] Notation hash := (hash SL).
#[local] Notation inv := (inv compile s).

Definition agrees (v : view) (p : positive) : bool :=
  match v_vary v p with None => true | Some es => forallb (matches http_gzip_support (v_lines v)) es end.

(** A ban set since the last check applies. *)
Definition banned (v : view) (h : BanThm.hist) (sp : sess) (p : positive) (o : object) : bool :=
  fst (check_spec compile exec (msgs_of v sp p o) true (BanThm.newer h p)).

Definition object_verdict (v : view) (h : BanThm.hist) (sp : sess) (p : positive) (o : object) : verdict :=
  if dle (ttl (o_exp o)) d0 || banned v h sp p o || negb (agrees v p) then VSkip
  else if dle (t_req sp) (EXP_Ttl (Some (sp_exp sp)) o) then VLive
  else if dle (t_req sp) (EXP_Grace default_grace (Some (sp_exp sp)) o) then VGrace (dadd (entered (o_exp o)) (ttl (o_exp o)))
  else VSkip.

Definition verdict_of (v : view) (c : cache) (h : BanThm.hist) (sp : sess) (p : positive) : verdict :=
  match ocs c !! p with
  | None => VSkip
  | Some oc =>
      if oc_busy oc then (if hash_ignore_busy sp || negb (agrees v p) then VSkip else VBusy)
      else match (a ← priv oc; objs c !! a) with
           | None => VSkip
           | Some o => object_verdict v h sp p o
           end
  end.

(** What it may rely on: the request is well formed, the Vary strings can be
    compared in the space of the session, and so is each object that has not
    expired. *)
Record ready (v : view) (c : cache) (sp : sess) (p : positive) : Prop := {
  rd_busy oc bo : ocs c !! p = Some oc -> oc_busy oc = true -> oc_busyobj oc = Some bo ->
    vary_ready (Z.of_nat (length (vary_b sp))) (v_lines v) (bo_vary bo) (v_vary v p);
  rd_object oc a o : ocs c !! p = Some oc -> oc_busy oc = false -> object_of (objs c) p oc a o ->
    dle (ttl (o_exp o)) d0 = false -> msgs_ok (msgs_of v sp p o) /\
    vary_ready (Z.of_nat (length (vary_b sp))) (v_lines v) (o_vary o) (v_vary v p);
}.

Definition asks (v : view) (sp : sess) : Prop :=
  request (v_mem v) (sp_http sp) (v_lines v) /\ vary_b_ok (v_lines v) (vary_b sp).

(** ** Vary *)

Lemma vary_matches_ok v sp p vary : asks v sp ->
  vary_ready (Z.of_nat (length (vary_b sp))) (v_lines v) vary (v_vary v p) ->
  exists b l, vary_matches http_gzip_support (v_mem v) sp vary = Ok (set_vary sp b l, agrees v p) /\
    asks v (set_vary sp b l) /\ length b = length (vary_b sp).
Proof using.
  intros [Hreq Hvb] Hr. unfold vary_matches, agrees. destruct vary as [x|], (v_vary v p) as [es|]; try done.
  - destruct Hr as (t & -> & Ht & Hes & Hfit).
    destruct (match_ok http_gzip_support (v_mem v) (sp_http sp) (v_lines v) (vary_b sp) es t Hreq Ht Hvb Hes Hfit)
      as (vb' & -> & Hvb' & Hlen & _). rewrite bind_Ret. by eexists _, _.
  - exists (vary_b sp), (vary_l sp). split; [by destruct sp|]. by split.
Qed.

(** ** Bans *)

Definition with_hist (g : ghost) (h : BanThm.hist) : ghost := Ghost (g_tab g) (g_timers g) h (g_refs g) (g_held g).

Definition ban_room (h : BanThm.hist) : Prop :=
  Z.of_nat (size (BanThm.h_pos h) + length (BanThm.h_refs h)) + 4 < 2 ^ 32 /\ Z.of_nat (length (BanThm.h_log h)) < 2 ^ 32.

Lemma checked_pos h p r x : x <> p -> BanThm.h_pos (BanThm.hist_checked h p r) !! x = BanThm.h_pos h !! x.
Proof. intros Hx. unfold BanThm.hist_checked. destruct (snd r); [done|]. cbn. by rewrite lookup_insert_ne. Qed.

(** What a check does not change of the history. *)
Definition past (h : BanThm.hist) : list (list test) * list positive := (BanThm.h_log h, BanThm.h_refs h).

Lemma past_log h h' : past h' = past h -> BanThm.h_log h' = BanThm.h_log h.
Proof. by intros [= ? _]. Qed.

Lemma checked_log h p r : past (BanThm.hist_checked h p r) = past h.
Proof. unfold BanThm.hist_checked. by destruct (snd r). Qed.

Lemma checked_room h p n r : BanThm.h_pos h !! p = Some n -> ban_room h -> ban_room (BanThm.hist_checked h p r).
Proof.
  intros E [Hr Hl]. unfold ban_room, BanThm.hist_checked. destruct (snd r); [done|]. cbn. by rewrite map_size_insert_Some by by eexists.
Qed.

Lemma checked_dom h p n r x : BanThm.h_pos h !! p = Some n ->
  is_Some (BanThm.h_pos (BanThm.hist_checked h p r) !! x) <-> is_Some (BanThm.h_pos h !! x).
Proof.
  intros E. unfold BanThm.hist_checked. destruct (snd r); [done|]. cbn [BanThm.h_pos]. destruct (decide (x = p)) as [->|Hx].
  - rewrite lookup_insert_eq, E. by split; eexists.
  - by rewrite lookup_insert_ne.
Qed.

(** A request takes every ban into account. *)
Lemma check_all g new : snd (check_spec compile exec g true new) = false.
Proof.
  unfold check_spec. cbn [snd]. apply andb_false_intro2. induction new as [|ts new IH]; [done|]. cbn [existsb testable orb negb]. exact IH.
Qed.

(** ** What the loop leaves as it was *)

(** At most the object cores in [l] are checked, and those in [D] found banned. *)
Record carried (st st' : hash) (g g' : ghost) (D : positive -> Prop) (l : list positive) : Prop := {
  ca_sl : h_sl st' = h_sl st;
  ca_ohs : h_ohs st' = h_ohs st;
  ca_ghost : g' = with_hist g (g_hist g');
  ca_log : past (g_hist g') = past (g_hist g);
  ca_room : ban_room (g_hist g) -> ban_room (g_hist g');
  ca_pos x : x ∉ l -> BanThm.h_pos (g_hist g') !! x = BanThm.h_pos (g_hist g) !! x;
  ca_core x oc : ocs (h_cache st) !! x = Some oc -> exists w, ocs (h_cache st') !! x = Some (set_timer_when oc w);
  ca_same x oc : ~ D x -> ocs (h_cache st) !! x = Some oc -> ocs (h_cache st') !! x = Some oc;
  ca_obj a o x : ~ D x -> o_objcore o = Some x -> objs (h_cache st) !! a = Some o -> objs (h_cache st') !! a = Some o;
}.

Lemma carried_refl st g D l : carried st st g g D l.
Proof.
  split; try done; [by destruct g|]. intros x oc E. exists (timer_when oc). by destruct oc.
Qed.

Lemma carried_trans st1 st2 st3 g1 g2 g3 D1 D2 l1 l2 :
  carried st1 st2 g1 g2 D1 l1 -> carried st2 st3 g2 g3 D2 l2 ->
  carried st1 st3 g1 g3 (fun x => D1 x \/ D2 x) (l1 ++ l2).
Proof.
  intros [A1 A2 A3 A4 A5 A6 A7 A8 A9] [B1 B2 B3 B4 B5 B6 B7 B8 B9]. split.
  - congruence.
  - congruence.
  - rewrite B3, A3. done.
  - congruence.
  - tauto.
  - intros x [H1 H2]%not_elem_of_app. by rewrite B6, A6.
  - intros x oc E. destruct (A7 x oc E) as [w E']. destruct (B7 x _ E') as [w' E'']. by exists w'.
  - intros x oc Hx E. apply B8; [tauto|]. apply A8; [tauto|done].
  - intros a o x Hx Ex E. apply (B9 a o x); [tauto|done|]. apply (A9 a o x); [tauto|done|done].
Qed.

Lemma carried_weaken st st' g g' (D D' : positive -> Prop) l l' : carried st st' g g' D l ->
  (forall x, D x -> D' x) -> (forall x, x ∈ l -> x ∈ l') -> carried st st' g g' D' l'.
Proof.
  intros [A1 A2 A3 A4 A5 A6 A7 A8 A9] HD Hl. split; try done.
  - intros x Hx. apply A6. auto.
  - intros x oc Hx. apply A8. auto.
  - intros a o x Hx. apply A9. auto.
Qed.

(** ** One object *)

Lemma check_banned_ok st g v sp p oc q a o : inv st g -> ocs (h_cache st) !! p = Some oc -> Obj.objhead oc = Some q ->
  oc_busy oc = false -> object_of (objs (h_cache st)) p oc a o -> dle (ttl (o_exp o)) d0 = false ->
  msgs_ok (msgs_of v sp p o) -> ban_room (g_hist g) ->
  exists st' h', check_object exec default_keep default_grace st (v_mem v) p a o sp = Ok (st', banned v (g_hist g) sp p o) /\
    inv st' (with_hist g h') /\
    carried st st' g (with_hist g h') (fun x => x = p /\ banned v (g_hist g) sp p o = true) [p].
Proof using H H0 Hkeep Hgrace Pcre0.
  intros Hi E Eq Hb Hobj Httl Hmsg Hroom. assert (Hobj' := Hobj). destruct Hobj' as (Ea & Eo & Ep).
  assert (Hc := iv_core _ _ _ _ Hi p oc q E Eq). assert (Em := unbusy_methods compile s st g p oc q Hi E Eq Hb).
  destruct (co_obj _ _ _ _ _ Hc Em) as (a1 & o1 & (Ea1 & Eo1 & Ep1) & Hexp & Hn).
  assert (a1 = a) as -> by congruence. assert (o1 = o) as -> by congruence. specialize (Hn (or_intror Httl)).
  destruct Hroom as [Hr Hl]. destruct (BanThm.rel_room _ _ _ (iv_ban _ _ _ _ Hi) Hr) as [Hr1 _].
  destruct (BanThm.check_step compile exec (h_bans st) (g_hist g) p (msgs_of v sp p o) true (iv_ban _ _ _ _ Hi) Hr1 Hl Hn Hmsg)
    as (b & Eb & Hb').
  set (r := check_spec compile exec (msgs_of v sp p o) true (BanThm.newer (g_hist g) p)) in *.
  change (banned v (g_hist g) sp p o) with (fst r).
  set (h' := BanThm.hist_checked (g_hist g) p r) in *.
  unfold check_object, BAN_CheckObject. cbn [msgs_of g_mem g_obj g_req] in Eb. rewrite Eb, bind_Ret. cbv beta iota zeta.
  destruct Hn as [n En].
  assert (Hdom : forall x, is_Some (oc_ban b !! x) <-> is_Some (oc_ban (h_bans st) !! x)).
  { intros x. rewrite (BanThm.rel_dom compile _ _ _ Hb'), (BanThm.rel_dom compile _ _ _ (iv_ban _ _ _ _ Hi)). by eapply checked_dom. }
  assert (Hsame : forall x, x <> p -> same_at g (with_hist g h') x).
  { intros x Hx. split; [done|]. split; [done|]. by apply checked_pos. }
  assert (Hpos : fst r = false -> BanThm.h_pos h' !! p = Some (Some (length (BanThm.h_log (g_hist g))))).
  { intros Er. unfold h', BanThm.hist_checked, r. rewrite check_all. fold r. rewrite Er. apply lookup_insert_eq. }
  assert (He := iv_exp _ _ _ _ Hi).
  destruct (fst r) eqn:Er.
  - set (o' := set_o_exp o (EXP_Clr (o_exp o))) in *.
    assert (Hlru : has_lru (h_cache st) p (o_lru o)) by (exists oc, a, o; done).
    cbn [h_cache set_bans]. rewrite (has_lru_updatemeta _ p _ Hlru), bind_Ret.
    destruct (EXP_Rearm_ok default_keep default_grace Hkeep Hgrace s (put_obj (h_cache st) a o') (g_timers g) a o' p oc)
      as (c & -> & He' & Eobjs & _ & Eocs); try done; [by apply (inv_put_obj s _ _ a o)|apply lookup_insert_eq|].
    rewrite bind_Ret. cbn [objs ocs put_obj set_objs] in Eobjs, Eocs.
    set (oc' := if decide _ then _ else oc) in *.
    assert (Hoc' : exists w, oc' = set_timer_when oc w).
    { exists (timer_when oc'). unfold oc', rearmed. destruct (decide _); [|by destruct oc]. destruct (deq _ _); by destruct oc. }
    destruct Hoc' as [w Ew]. eexists _, h'. split; [done|]. split.
    + apply (inv_core_change compile s st g c b (g_timers g) h' (g_refs g) p oc oc'); try done.
      * by rewrite Ew.
      * intros a2 o2 E2 Hne _. rewrite Eobjs, lookup_insert_ne; [done|]. congruence.
      * by right.
      * rewrite Eq. destruct Hc as [H1 H2 H3 H4 H5 H6]. rewrite Ew. split; try done.
        -- cbn [methods set_timer_when]. congruence.
        -- intros _. exists a, o'. split; [by rewrite Eobjs; split_and!; [|apply lookup_insert_eq|]|]. split; [done|].
           intros [Hbusy|Hd]; [unfold oc_busy in *; cbn in Hbusy; congruence|done].
    + split; try done.
      * apply checked_log.
      * by eapply checked_room.
      * intros x Hx. apply checked_pos. by intros ->; apply Hx; left.
      * intros x ocx Ex. cbn [h_cache set_cache]. rewrite Eocs. destruct (decide (x = p)) as [->|Hx].
        -- rewrite lookup_insert_eq. assert (ocx = oc) as -> by congruence. exists w. by rewrite Ew.
        -- rewrite lookup_insert_ne by done. exists (timer_when ocx). rewrite Ex. by destruct ocx.
      * intros x ocx Hx Ex. cbn [h_cache set_cache]. rewrite Eocs, lookup_insert_ne; [done|]. intros ->. by apply Hx.
      * intros a2 o2 x Hx Ex E2. cbn [h_cache set_cache]. rewrite Eobjs, lookup_insert_ne; [done|]. intros ->.
        apply Hx. split; [congruence|done].
  - eexists _, h'. split; [done|]. split.
    + apply (inv_core_change compile s st g (h_cache st) b (g_timers g) h' (g_refs g) p oc oc); try done.
      * by rewrite insert_id.
      * by right.
      * rewrite Eq. destruct Hc as [H1 H2 H3 H4 H5 H6]. split; try done; [congruence|].
        intros _. exists a, o. split; [done|]. split; [done|]. intros _. eexists. by apply Hpos.
    + split; try done.
      * apply checked_log.
      * by eapply checked_room.
      * intros x Hx. apply checked_pos. by intros ->; apply Hx; left.
      * intros x ocx Ex. exists (timer_when ocx). cbn [h_cache set_bans]. rewrite Ex. by destruct ocx.
Qed.

(** ** The steps of the loop *)

Lemma see_busy_ok v c h sp p oc bo sn : asks v sp -> ready v c sp p -> ocs c !! p = Some oc -> oc_busy oc = true ->
  oc_busyobj oc = Some bo ->
  exists b l, see_busy http_gzip_support sn (v_mem v) p oc sp = Ok (set_vary sp b l, note p (verdict_of v c h sp p) sn) /\
    live (verdict_of v c h sp p) = false /\ asks v (set_vary sp b l) /\ length b = length (vary_b sp).
Proof using.
  intros Hask Hr E Hb Ebo. unfold see_busy, verdict_of. rewrite Ebo. cbn [notnull]. rewrite bind_Ret, E, Hb.
  destruct (hash_ignore_busy sp).
  - exists (vary_b sp), (vary_l sp). split; [by destruct sp|]. by split; [|destruct sp].
  - destruct (vary_matches_ok v sp p (bo_vary bo) Hask (rd_busy _ _ _ _ Hr oc bo E Hb Ebo)) as (b & l & -> & Hask' & Hlen).
    rewrite bind_Ret. exists b, l. by destruct (agrees v p).
Qed.

Lemma see_object_ok st g v sp p oc q sn : inv st g -> asks v sp -> ready v (h_cache st) sp p -> ban_room (g_hist g) ->
  ocs (h_cache st) !! p = Some oc -> Obj.objhead oc = Some q -> oc_busy oc = false ->
  let d := verdict_of v (h_cache st) (g_hist g) sp p in
  exists st' h' b l, see_object exec default_keep default_grace http_gzip_support st sn (v_mem v) p sp =
      Ok (st', set_vary sp b l, note p d sn, live d) /\
    inv st' (with_hist g h') /\ carried st st' g (with_hist g h') (fun x => x = p /\ d = VSkip) [p] /\
    asks v (set_vary sp b l) /\ length b = length (vary_b sp).
Proof using H H0 Hkeep Hgrace Pcre0.
  intros Hi Hask Hr Hroom E Eq Hb d. assert (Em := unbusy_methods compile s st g p oc q Hi E Eq Hb).
  destruct (core_object compile s st g p oc q Hi E Eq Em) as (a & o & Hobj & Eg & _). rewrite Hb in Eg.
  assert (Hobj' := Hobj). destruct Hobj' as (Ea & Eo & Ep).
  assert (Ed : d = object_verdict v (g_hist g) sp p o).
  { unfold d, verdict_of. rewrite E, Hb, Ea. cbn [mbind option_bind]. by rewrite Eo. }
  unfold see_object. rewrite Eg, bind_Ret. cbn [notnull]. rewrite bind_Ret. unfold get_obj. rewrite Eo. cbn [deref].
  rewrite bind_Ret, Ed. unfold object_verdict. clear d Ed.
  assert (Hset : set_vary sp (vary_b sp) (vary_l sp) = sp) by (by destruct sp).
  assert (Hback : with_hist g (g_hist g) = g) by (by destruct g).
  destruct (dle (ttl (o_exp o)) d0) eqn:Httl; cbn [orb].
  - exists st, (g_hist g), (vary_b sp), (vary_l sp). rewrite Hset, Hback. split_and!; try done; apply carried_refl.
  - destruct (rd_object _ _ _ _ Hr oc a o E Hb Hobj Httl) as [Hmsg Hvary].
    destruct (check_banned_ok st g v sp p oc q a o Hi E Eq Hb Hobj Httl Hmsg Hroom) as (st' & h' & -> & Hi' & Hca).
    rewrite bind_Ret. cbv beta iota. destruct (banned v (g_hist g) sp p o); cbn [orb].
    + exists st', h', (vary_b sp), (vary_l sp). rewrite Hset. split; [done|]. split; [done|]. split; [|by split].
      by eapply carried_weaken; [exact Hca|cbn; tauto|].
    + destruct (vary_matches_ok v sp p (o_vary o) Hask Hvary) as (b & l & -> & Hask' & Hlen). rewrite bind_Ret.
      exists st', h', b, l.
      assert (Hca' : forall d, carried st st' g (with_hist g h') (fun x => x = p /\ d = VSkip) [p]).
      { intros d. eapply carried_weaken; [exact Hca|cbn; by intros x []|done]. }
      destruct (agrees v p); cbn [negb]; [|by split_and!].
      change (t_req (set_vary sp b l)) with (t_req sp). change (sp_exp (set_vary sp b l)) with (sp_exp sp).
      destruct (dle (t_req sp) (EXP_Ttl (Some (sp_exp sp)) o)); [by split_and!|].
      unfold see_grace. change (t_req (set_vary sp b l)) with (t_req sp). change (sp_exp (set_vary sp b l)) with (sp_exp sp).
      destruct (dle (t_req sp) (EXP_Grace default_grace (Some (sp_exp sp)) o)); by split_and!.
Qed.

(** ** The loop *)

(** Verdicts do not change when other objects are checked. *)
Lemma verdict_carried st st' g g' D l v sp x : carried st st' g g' D l -> inv st g -> x ∉ l -> ~ D x ->
  is_Some (ocs (h_cache st) !! x) ->
  verdict_of v (h_cache st') (g_hist g') sp x = verdict_of v (h_cache st) (g_hist g) sp x.
Proof using.
  intros Hca Hi Hx HD [oc E]. unfold verdict_of. rewrite (ca_same _ _ _ _ _ _ Hca x oc HD E), E.
  destruct (oc_busy oc) eqn:Hb; [done|].
  destruct (priv oc) as [a|] eqn:Ea; [|done]. cbn [mbind option_bind].
  destruct (Obj.objhead oc) as [q|] eqn:Eq.
  2:{ pose proof (cf_busy _ _ _ (iv_fresh _ _ _ _ Hi x oc E Eq)). congruence. }
  destruct (co_obj _ _ _ _ _ (iv_core _ _ _ _ Hi x oc q E Eq) (unbusy_methods compile s st g x oc q Hi E Eq Hb))
    as (a1 & o & (Ea1 & Eo & Ep) & _). assert (a1 = a) as -> by congruence.
  rewrite Eo, (ca_obj _ _ _ _ _ _ Hca a o x HD Ep Eo). unfold object_verdict, banned, BanThm.newer.
  by rewrite (ca_pos _ _ _ _ _ _ Hca x Hx), (past_log _ _ (ca_log _ _ _ _ _ _ Hca)).
Qed.

Lemma ready_carried st st' g g' D l v sp b vl x : carried st st' g g' D l -> inv st g -> ~ D x ->
  length b = length (vary_b sp) -> is_Some (ocs (h_cache st) !! x) ->
  ready v (h_cache st) sp x -> ready v (h_cache st') (set_vary sp b vl) x.
Proof using.
  intros Hca Hi HD Hlen [oc E] [Hr1 Hr2]. assert (E' := ca_same _ _ _ _ _ _ Hca x oc HD E).
  split; cbn [vary_b set_vary]; rewrite Hlen.
  - intros oc1 bo E1 Hb Ebo. apply (Hr1 oc1 bo); [congruence|done..].
  - intros oc1 a o E1 Hb (Ea & Eo & Ep) Httl. assert (oc1 = oc) as -> by congruence.
    destruct (Obj.objhead oc) as [q|] eqn:Eq.
    2:{ pose proof (cf_busy _ _ _ (iv_fresh _ _ _ _ Hi x oc E Eq)). congruence. }
    destruct (co_obj _ _ _ _ _ (iv_core _ _ _ _ Hi x oc q E Eq) (unbusy_methods compile s st g x oc q Hi E Eq Hb))
      as (a1 & o1 & (Ea1 & Eo1 & Ep1) & _). assert (a1 = a) as -> by congruence.
    rewrite (ca_obj _ _ _ _ _ _ Hca a o1 x HD Ep1 Eo1) in Eo. assert (o1 = o) as -> by congruence.
    by apply (Hr2 oc a o).
Qed.

(** The loop gives the verdicts' choice, keeps the invariant, and changes none but
    what it finds banned. *)
Lemma lookup_loop_ok v oh l : forall st g sp sn, inv st g -> asks v sp -> ban_room (g_hist g) -> NoDup l ->
  (exists e, g_tab g !! oh = Some e /\ (l <> [] -> 1 < e_ref e)) ->
  (forall p, p ∈ l -> exists oc, ocs (h_cache st) !! p = Some oc /\ Obj.objhead oc = Some oh) ->
  (forall p, p ∈ l -> ready v (h_cache st) sp p) ->
  let d := verdict_of v (h_cache st) (g_hist g) sp in
  exists st' h' b vl, lookup_loop exec default_keep default_grace http_gzip_support st (v_mem v) oh l sp sn =
      Ok (st', set_vary sp b vl, fst (choose d l sn), snd (choose d l sn)) /\
    inv st' (with_hist g h') /\ carried st st' g (with_hist g h') (fun x => x ∈ l /\ d x = VSkip) l /\
    asks v (set_vary sp b vl) /\ length b = length (vary_b sp).
Proof using H H0 Hkeep Hgrace Pcre0.
  induction l as [|p l IH]; intros st g sp sn Hi Hask Hroom Hnd (e & Ee & He) Hl Hr d.
  - cbn [lookup_loop choose fst snd]. exists st, (g_hist g), (vary_b sp), (vary_l sp).
    replace (with_hist g (g_hist g)) with g by (by destruct g). replace (set_vary sp _ _) with sp by (by destruct sp).
    split_and!; try done. apply carried_refl.
  - apply NoDup_cons in Hnd as [Hp Hnd]. destruct (Hl p) as (oc & E & Eq); [by left|].
    cbn [lookup_loop choose]. rewrite (sl_refcnt_head compile s st g oh e Hi Ee), bind_Ret.
    assert (He' := He ltac:(done)). rewrite vassert_true, bind_Ret by lia. unfold get_oc. rewrite E. cbn [deref]. rewrite bind_Ret, Eq, bool_decide_true by done.
    cbn [vassert]. rewrite bind_Ret. assert (Hrp := Hr p ltac:(by left)).
    (* the rest of the list, after a step that found no live object *)
    assert (Hrest : forall st1 h1 b vl, inv st1 (with_hist g h1) -> carried st st1 g (with_hist g h1) (fun x => x = p /\ d p = VSkip) [p] ->
      asks v (set_vary sp b vl) -> length b = length (vary_b sp) -> live (d p) = false ->
      exists st' h' b' vl', lookup_loop exec default_keep default_grace http_gzip_support st1 (v_mem v) oh l (set_vary sp b vl) (note p (d p) sn) =
        Ok (st', set_vary sp b' vl', fst (choose d l (note p (d p) sn)), snd (choose d l (note p (d p) sn))) /\
      inv st' (with_hist g h') /\ carried st st' g (with_hist g h') (fun x => x ∈ p :: l /\ d x = VSkip) (p :: l) /\
      asks v (set_vary sp b' vl') /\ length b' = length (vary_b sp)).
    { intros st1 h1 b vl Hi1 Hca Hask1 Hlen Hlive.
      assert (Hne : forall x, x ∈ l -> x <> p) by (by intros x Hx ->).
      assert (Hin : forall x, x ∈ l -> is_Some (ocs (h_cache st) !! x)).
      { intros x Hx. destruct (Hl x) as (ocx & Ex & _); [by right|]. by exists ocx. }
      assert (Hd : forall x, x ∈ l -> verdict_of v (h_cache st1) h1 (set_vary sp b vl) x = d x).
      { intros x Hx. apply (verdict_carried _ _ _ _ _ _ v sp x Hca Hi); [|by intros [-> _]; apply (Hne p)|by apply Hin].
        intros ->%list_elem_of_singleton. by apply (Hne p). }
      destruct (IH st1 (with_hist g h1) (set_vary sp b vl) (note p (d p) sn)) as (st' & h' & b' & vl' & -> & Hi' & Hca' & Hask' & Hlen'); try done.
      - by apply (ca_room _ _ _ _ _ _ Hca).
      - by exists e.
      - intros x Hx. destruct (Hl x) as (ocx & Ex & Eqx); [by right|].
        exists ocx. split; [|done]. apply (ca_same _ _ _ _ _ _ Hca); [|done]. by intros [-> _]; apply (Hne p).
      - intros x Hx. apply (ready_carried _ _ _ _ _ _ v sp b vl x Hca Hi); [by intros [-> _]; apply (Hne p)|done|by apply Hin|].
        apply Hr. by right.
      - exists st', h', b', vl'. cbn [with_hist g_hist]. rewrite (choose_ext d) by (intros x Hx; by rewrite <- Hd).
        split; [done|]. split; [done|]. split; [|split; [done|cbn in Hlen'; congruence]].
        eapply carried_weaken; [exact (carried_trans _ _ _ _ _ _ _ _ _ _ Hca Hca')| |done].
        intros x [[-> Hx]|[Hx Hs]]; [split; [by left|done]|split; [by right|]]. cbn [with_hist g_hist] in Hs. by rewrite Hd in Hs. }
    destruct (oc_busy oc) eqn:Hb.
    + destruct (proj1 (co_busy _ _ _ _ _ (iv_core _ _ _ _ Hi p oc oh E Eq)) Hb) as [bo Ebo].
      destruct (see_busy_ok v (h_cache st) (g_hist g) sp p oc bo sn Hask Hrp E Hb Ebo) as (b & vl & -> & Hlive & Hask1 & Hlen).
      rewrite bind_Ret. cbv beta iota. fold d in Hlive |- *. rewrite Hlive.
      apply (Hrest st (g_hist g)); try done; replace (with_hist g (g_hist g)) with g by (by destruct g); [done|apply carried_refl].
    + destruct (see_object_ok st g v sp p oc oh sn Hi Hask Hrp Hroom E Eq Hb) as (st1 & h1 & b & vl & -> & Hi1 & Hca & Hask1 & Hlen).
      fold d in Hca |- *. rewrite bind_Ret. cbv beta iota. destruct (live (d p)) eqn:Hlive; [|by apply (Hrest st1 h1)].
      exists st1, h1, b, vl. assert (Hn : note p (d p) sn = sn) by (by destruct (d p)). rewrite Hn.
      split; [done|]. split; [done|]. split; [|by split].
      eapply carried_weaken; [exact Hca| |].
      * intros x [-> Hx]. split; [by left|done].
      * intros x ->%list_elem_of_singleton. by left.
Qed.

End Loop.

End HashLoop.
