(* ===== verification/HashLookup.v ===== *)
(** The cache proper: what [HSH_Lookup] answers and what it leaves. *)
From Stdlib Require SpecFloat.
From S2P Require Import Prelude Double BinHeap BanThm BanInv BanSpec BanCheck Mem Http HttpLines Ban Vary VarySpec VaryMatch VaryThm Slinger SlingerThm Obj Expire ExpireInv ExpireOps Hash HashInv HashOps HashLoop.
Import Double BinHeap BanSpec BanCheck Mem Http HttpLines Ban VarySpec VaryThm Slinger Obj Expire ExpireInv ExpireOps
  Hash HashInv HashOps HashLoop.

Module HashLookup.

(** ** The outcome *)

Definition seen0 : seen := mkSeen None None SpecFloat.S754_nan.

Inductive outcome := Hit (p : positive) | Wait | Miss.

(** An object in grace will do when another fetch is under way or the backend is
    sick. *)
Definition decided (healthy : bool) (c : seen * option positive) : option positive :=
  match snd c, grace_oc (fst c) with
  | None, Some g => if negb (bool_decide (busy_oc (fst c) = None)) || negb healthy then Some g else None
  | o, _ => o
  end.

Definition outcome_of (sp : sess) (c : seen * option positive) : outcome :=
  match (if hash_always_miss sp then None else decided (sp_healthy sp) c), busy_oc (fst c) with
  | Some p, _ => Hit p
  | None, Some _ => Wait
  | None, None => Miss
  end.

(** What hangs from an object head. *)
Definition hung {SL} (st : hash SL) (q : positive) : list positive :=
  match h_ohs st !! q with Some h => objcs h | None => [] end.

(** The object head that a session looks at. *)
Definition looks (sp : sess) (q : positive) (e : entry) : Prop :=
  match hash_objhead sp with Some q' => q = q' | None => e_dig e = sp_digest sp end.

Section Lookup.

Context {SL : Type} `{SlingerLaws SL} (compile : list Z -> option (list Z)) (exec : list Z -> list Z -> Z) `{!Pcre compile exec}.
Context (default_keep default_grace : Z) (http_gzip_support : bool) (s : Z)
  (Hkeep : 0 <= default_keep < 2 ^ 32) (Hgrace : 0 <= default_grace < 2 ^ 32).

#[local] Notation hash := (hash SL).
#[local] Notation inv := (inv compile s).
#[local] Notation verdict_of := (verdict_of compile exec default_grace http_gzip_support).

(** ** The candidate *)

Lemma verdict_grace v c h sp p t : verdict_of v c h sp p = VGrace t ->
  exists oc, ocs c !! p = Some oc /\ oc_busy oc = false.
Proof.
  unfold HashLoop.verdict_of. destruct (ocs c !! p) as [oc|]; [|done].
  destruct (oc_busy oc) eqn:Hb; [by destruct (_ || _)|]. intros _. by exists oc.
Qed.

Lemma verdict_live v c h sp p : verdict_of v c h sp p = VLive ->
  exists oc, ocs c !! p = Some oc /\ oc_busy oc = false.
Proof.
  unfold HashLoop.verdict_of. destruct (ocs c !! p) as [oc|]; [|done].
  destruct (oc_busy oc) eqn:Hb; [by destruct (_ || _)|]. intros _. by exists oc.
Qed.

Lemma candidate_ok st g sp c : inv st g ->
  (forall p, grace_oc (fst c) = Some p -> exists oc q, ocs (h_cache st) !! p = Some oc /\ Obj.objhead oc = Some q /\ oc_busy oc = false) ->
  candidate st sp (fst c) (snd c) = Ok (decided (sp_healthy sp) c).
Proof.
  intros Hi Hg. unfold candidate, decided. destruct (snd c); [done|]. destruct (grace_oc (fst c)) as [p|]; [|done].
  destruct (_ || _); [|done]. destruct (Hg p eq_refl) as (oc & q & E & Eq & Hb).
  destruct (core_object compile s st g p oc q Hi E Eq) as (a & o & _ & Eg & _); [by eapply unbusy_methods|].
  rewrite Hb in Eg. by rewrite Eg, bind_Ret.
Qed.

(** What comes out is one of the object cores, and not a busy one. *)
Lemma decided_in v c h sp l p : decided (sp_healthy sp) (choose (verdict_of v c h sp) l seen0) = Some p ->
  p ∈ l /\ verdict_of v c h sp p <> VSkip /\ exists oc, ocs c !! p = Some oc /\ oc_busy oc = false.
Proof.
  unfold decided. destruct (choose _ l seen0) as [sn lv] eqn:Ec. cbn [fst snd]. destruct lv as [x|].
  - intros [= ->]. destruct (choose_live _ _ _ _ _ Ec) as [Hl Hv]. split; [done|]. split; [congruence|]. by eapply verdict_live.
  - destruct (grace_oc sn) as [x|] eqn:Eg; [|done]. destruct (_ || _); [|done]. intros [= ->].
    destruct (choose_grace (verdict_of v c h sp) l seen0 p) as [|[Hl [t Hv]]]; [by rewrite Ec|done|].
    split; [done|]. split; [congruence|]. by eapply verdict_grace.
Qed.

(** ** Up to the loop *)

Definition lookup_rest (st : hash) (m : mem) (w : worker) (sp : sess) (self oh : positive)
  : res (hash * worker * sess * option (positive * positive)) :=
  r ← sl_refcnt (h_sl st) oh;
  vassert (0 <? r);;
  h ← get_oh st oh;
  '(st, sp, s, live) ← lookup_loop exec default_keep default_grace http_gzip_support st m oh (objcs h) sp (mkSeen None None SpecFloat.S754_nan);
  oc ← candidate st sp s live;
  match (if hash_always_miss sp then None else oc), busy_oc s with
  | Some p, _ => st ← lookup_hit st oh p; mret (st, w, sp, Some (p, oh))
  | None, Some _ => '(st, w, sp) ← lookup_wait st w sp self oh; mret (st, w, sp, None)
  | None, None => '(st, w, p) ← lookup_miss st w sp oh; mret (st, w, sp, Some (p, oh))
  end.

(** The stores of other workers are spared. *)
Definition spares (w : worker) (st : hash) (g : ghost) (st' : hash) (g' : ghost) : Prop :=
  (forall p oc, nobjcore w <> Some p -> ocs (h_cache st) !! p = Some oc -> Obj.objhead oc = None ->
    exists oc', ocs (h_cache st') !! p = Some oc' /\ Obj.objhead oc' = None) /\
  (forall q e, nobjhead w <> Some q -> g_tab g !! q = Some e -> e_in e = false ->
    exists e', g_tab g' !! q = Some e' /\ e_in e' = false).

(** The references to object heads once a session looks at one. *)
Definition looking (sp : sess) (g : ghost) (oh : positive) : list positive :=
  match hash_objhead sp with Some _ => g_held g | None => oh :: g_held g end.

Record started (st : hash) (g : ghost) (w : worker) (sp : sess) (aoc aoh oh : positive)
    (st1 : hash) (g1 : ghost) (w1 : worker) : Prop := {
  sd_inv : inv st1 g1;
  sd_worker : worker_ok st1 g1 w1;
  sd_core : nobjcore w1 = Some (default aoc (nobjcore w));
  sd_head : nobjhead w1 = None \/ nobjhead w1 = Some (default aoh (nobjhead w));
  sd_wait : nwaitinglist w1 = true;
  sd_busyobj : is_Some (nbusyobj w1);
  sd_held : oh ∈ g_held g1;
  sd_looking : g_held g1 = looking sp g oh;
  sd_looks : exists e, g_tab g1 !! oh = Some e /\ e_in e = true /\ looks sp oh e;
  sd_timers : g_timers g1 = g_timers g;
  sd_refs : g_refs g1 = g_refs g;
  sd_log : past (g_hist g1) = past (g_hist g);
  sd_room : ban_room (g_hist g1);
  sd_pos p n : BanThm.h_pos (g_hist g) !! p = Some n -> BanThm.h_pos (g_hist g1) !! p = Some n;
  sd_ocs p oc : ocs (h_cache st) !! p = Some oc -> ocs (h_cache st1) !! p = Some oc;
  sd_objs : objs (h_cache st1) = objs (h_cache st);
  sd_hung : exists h, h_ohs st1 !! oh = Some h /\ objcs h = hung st oh;
  sd_spares : spares w st g st1 g1;
}.

Lemma lookup_start_ok st g m w sp self aoc aoh : inv st g -> worker_ok st g w ->
  (nobjcore w = None -> ocs (h_cache st) !! aoc = None) -> (nobjhead w = None -> h_ohs st !! aoh = None) ->
  length (sp_digest sp) = DIGEST_LEN -> (forall q, hash_objhead sp = Some q -> q ∈ g_held g) ->
  Z.of_nat (size (BanThm.h_pos (g_hist g)) + length (BanThm.h_refs (g_hist g))) + 5 < 2 ^ 32 ->
  Z.of_nat (length (BanThm.h_log (g_hist g))) < 2 ^ 32 ->
  exists st1 g1 w1 oh, started st g w sp aoc aoh oh st1 g1 w1 /\
    HSH_Lookup exec default_keep default_grace http_gzip_support st m w sp self aoc aoh =
    lookup_rest st1 m w1 (set_hash_objhead sp None) self oh.
Proof.
  intros Hi Hw Hoc Hoh Hlen Hheld Hroom Hlog.
  destruct (HSH_Prealloc_ok compile s st g w aoc aoh Hi Hw Hoc Hoh) as (st0 & w0 & g0 & Ep & Hi0 & Hw0 & Hfull & Hf & Ec & En).
  destruct (wo_head _ _ _ Hw0 _ En) as (e0 & Ee0 & Hin0).
  destruct (sl_digest_ok (h_sl st0) (g_tab g0) _ e0 (sp_digest sp) (iv_sl _ _ _ _ Hi0) Ee0 Hin0 Hlen) as (sl0 & Ed & _).
  destruct (lookup_head_ok compile s st0 g0 w0 sp _ sl0 Hi0 Hw0 En Hlen) as
    (sl1 & w1 & oh & T & held & e & Eh & Hi1 & Hw1 & Ec1 & Ew1 & Eb1 & Hhe & Ee & He & Hlook & HT & Hnh); [|done|].
  { rewrite (pf_held _ _ _ _ Hf). done. }
  destruct Hf as [F1 F2 F3 F4 F5 F6 F7 F8 F9 F10 F11 F12 F13].
  destruct Hfull as (_ & _ & Hwl & Hbo).
  eexists (set_sl st0 sl1), _, w1, oh. split.
  - split; try done.
    + congruence.
    + rewrite En in Hnh. done.
    + congruence.
    + by rewrite Eb1.
    + cbn [g_held]. unfold looking. rewrite <- F8. destruct (hash_objhead sp); apply Hlook.
    + exists e. split; [done|]. split; [done|]. unfold looks. destruct (hash_objhead sp); apply Hlook.
    + cbn [g_hist]. unfold past. by rewrite F9, F11.
    + cbn [g_hist]. unfold ban_room. rewrite F9, F11. lia.
    + destruct (proj1 (iv_heads _ _ _ _ Hi1 oh)) as [h Eoh]; [by eexists|]. exists h. split; [done|]. cbn [set_sl h_ohs] in Eoh.
      unfold hung. destruct (F10 oh h Eoh) as [->|[-> ->]]; done.
    + split.
      * intros p oc _ E Eo. exists oc. split; [by apply F1|done].
      * intros q f Hq Eq Hf. exists f. split; [|done]. cbn [g_tab]. apply HT; [|by apply F5|done].
        intros ->. destruct (nobjhead w) as [x|] eqn:Ex; [by apply Hq|]. cbn [default] in *.
        destruct (proj1 (iv_heads _ _ _ _ Hi aoh)) as [? ?]; [by eexists|]. rewrite Hoh in *; done.
  - unfold HSH_Lookup. rewrite Ep. cbv beta iota. rewrite En. cbn [deref]. rewrite bind_Ret, Ed, bind_Ret, Eh, bind_Ret. done.
Qed.

(** ** From the loop on *)

Section Finish.

Context (st : hash) (g : ghost) (w : worker) (sp : sess) (aoc aoh oh : positive) (st1 : hash) (g1 : ghost) (w1 : worker) (v : view).
Context (Hi : inv st g) (Hs : started st g w sp aoc aoh oh st1 g1 w1) (Hask : asks v sp)
  (Hready : forall p, p ∈ hung st oh -> ready v (h_cache st) sp p).

#[local] Notation d := (verdict_of v (h_cache st) (g_hist g) sp).

Lemma hung_core p : p ∈ hung st oh -> exists oc, ocs (h_cache st) !! p = Some oc /\ Obj.objhead oc = Some oh.
Proof using Hi.
  unfold hung. destruct (h_ohs st !! oh) as [h|] eqn:E; [|by intros ?%not_elem_of_nil].
  intros Hp. by apply (iv_list _ _ _ _ Hi oh h E).
Qed.

Lemma verdict_started p : p ∈ hung st oh -> verdict_of v (h_cache st1) (g_hist g1) (set_hash_objhead sp None) p = d p.
Proof using Hi Hs.
  intros Hp. destruct (hung_core p Hp) as (oc & E & Eq). unfold HashLoop.verdict_of.
  rewrite E, (sd_ocs _ _ _ _ _ _ _ _ _ _ Hs p oc E), (sd_objs _ _ _ _ _ _ _ _ _ _ Hs).
  destruct (oc_busy oc); [done|]. destruct (_ ≫= _); [|done]. unfold object_verdict, banned, BanThm.newer.
  rewrite (past_log _ _ (sd_log _ _ _ _ _ _ _ _ _ _ Hs)).
  assert (is_Some (BanThm.h_pos (g_hist g) !! p)) as [n En].
  { apply (BanThm.rel_dom compile _ _ _ (iv_ban _ _ _ _ Hi)), (iv_dom _ _ _ _ Hi). by eexists. }
  by rewrite En, (sd_pos _ _ _ _ _ _ _ _ _ _ Hs p n En).
Qed.

Lemma ready_started p : p ∈ hung st oh -> ready v (h_cache st1) (set_hash_objhead sp None) p.
Proof using Hi Hs Hready.
  intros Hp. destruct (hung_core p Hp) as (oc & E & Eq). destruct (Hready p Hp) as [Hr1 Hr2].
  pose proof (sd_ocs _ _ _ _ _ _ _ _ _ _ Hs p oc E) as E1. pose proof (sd_objs _ _ _ _ _ _ _ _ _ _ Hs) as Eo.
  split.
  - intros oc1 bo E2. apply Hr1. congruence.
  - intros oc1 a o E2. rewrite Eo. apply Hr2. congruence.
Qed.

(** What is left by the loop. *)
Record looped (st2 : hash) (h : BanThm.hist) (b : list Z) (vl : option Z) : Prop := {
  lp_inv : inv st2 (with_hist g1 h);
  lp_worker : worker_ok st2 (with_hist g1 h) w1;
  lp_ask : asks v (set_vary sp b vl);
  lp_len : length b = length (vary_b sp);
  lp_log : past h = past (g_hist g);
  lp_carried : carried st1 st2 g1 (with_hist g1 h) (fun x => x ∈ hung st oh /\ d x = VSkip) (hung st oh);
  lp_spares : spares w st g st2 (with_hist g1 h);
}.

Lemma loop_started_ok : exists st2 h b vl, looped st2 h b vl /\ exists hd,
  h_ohs st2 !! oh = Some hd /\ objcs hd = hung st oh /\ h_ohs st1 !! oh = Some hd /\
  lookup_loop exec default_keep default_grace http_gzip_support st1 (v_mem v) oh (objcs hd) (set_hash_objhead sp None) seen0 =
    Ok (st2, set_hash_objhead (set_vary sp b vl) None, fst (choose d (hung st oh) seen0), snd (choose d (hung st oh) seen0)).
Proof using H H0 Hkeep Hgrace Pcre0 Hi Hs Hask Hready.
  destruct (sd_hung _ _ _ _ _ _ _ _ _ _ Hs) as (hd & Ehd & El). destruct (sd_looks _ _ _ _ _ _ _ _ _ _ Hs) as (e & Ee & He & _).
  assert (Hi1 := sd_inv _ _ _ _ _ _ _ _ _ _ Hs). destruct (iv_list _ _ _ _ Hi1 oh hd Ehd) as [Hnd Hl].
  destruct (lookup_loop_ok compile exec default_keep default_grace http_gzip_support s Hkeep Hgrace v oh (objcs hd) st1 g1
    (set_hash_objhead sp None) seen0 Hi1 Hask (sd_room _ _ _ _ _ _ _ _ _ _ Hs) Hnd) as (st2 & h & b & vl & E & Hi2 & Hca & Hask2 & Hlen).
  - exists e. split; [done|]. intros Hne. pose proof (iv_head _ _ _ _ Hi1 oh e hd Ee Ehd) as Ha. rewrite He in Ha. destruct Ha as [Hr _].
    assert (Hh := sd_held _ _ _ _ _ _ _ _ _ _ Hs). apply count_in in Hh. destruct (objcs hd); [done|]. cbn [length] in Hr. unfold waiting in Hr. lia.
  - intros p. by rewrite Hl.
  - rewrite El. apply ready_started.
  - rewrite El in *. rewrite (choose_ext d) in E by apply verdict_started.
    assert (Hca' : carried st1 st2 g1 (with_hist g1 h) (fun x => x ∈ hung st oh /\ d x = VSkip) (hung st oh)).
    { eapply carried_weaken; [exact Hca| |done]. intros x [Hx Hv]. split; [done|]. by rewrite <- verdict_started. }
    assert (Hfresh : forall x ocx, ocs (h_cache st1) !! x = Some ocx -> Obj.objhead ocx = None ->
      exists oc', ocs (h_cache st2) !! x = Some oc' /\ Obj.objhead oc' = None).
    { intros x ocx Ex Eqx. destruct (ca_core _ _ _ _ _ _ Hca' x ocx Ex) as [t Ex']. by exists (set_timer_when ocx t). }
    exists st2, h, b, vl. split.
    + split; try done.
      * destruct (sd_worker _ _ _ _ _ _ _ _ _ _ Hs) as [Hwc Hwh]. split; [|done].
        intros p Ep. destruct (Hwc p Ep) as (ocx & Ex & Eqx). by eapply Hfresh.
      * rewrite <- (sd_log _ _ _ _ _ _ _ _ _ _ Hs). apply (ca_log _ _ _ _ _ _ Hca').
      * destruct (sd_spares _ _ _ _ _ _ _ _ _ _ Hs) as [Hs1 Hs2]. split; [|exact Hs2].
        intros p oc Hp Eo Eq. destruct (Hs1 p oc Hp Eo Eq) as (oc' & E1 & Eq1). by eapply Hfresh.
    + exists hd. rewrite (ca_ohs _ _ _ _ _ _ Hca'). split; [done|]. split; [done|]. split; [done|]. by rewrite El.
Qed.

(** What the three outcomes leave. *)
Definition left_by (out : outcome) (self : positive) (b : list Z) (vl : option Z) (st' : hash) (g' : ghost) : Prop :=
  let p := default aoc (nobjcore w) in
  match out with
  | Hit p => g_refs g' = p :: g_refs g /\ g_held g' = take_one oh (looking sp g oh) /\
      exists oc a o, ocs (h_cache st) !! p = Some oc /\ oc_busy oc = false /\ object_of (objs (h_cache st)) p oc a o /\
        ocs (h_cache st') !! p = Some (set_refcnt oc (Obj.refcnt oc + 1)) /\ objs (h_cache st') !! a = Some (hit_object o)
  | Wait => g_refs g' = g_refs g /\
      g_held g' = (if esi_level sp =? 0 then take_one oh (looking sp g oh) else looking sp g oh) /\
      exists h h', h_ohs st1 !! oh = Some h /\ h_ohs st' !! oh = Some h' /\
        h' = (if esi_level sp =? 0 then set_waitinglist h (Some (default [] (waitinglist h) ++ [self])) else h)
  | Miss => g_refs g' = p :: g_refs g /\ g_held g' = take_one oh (looking sp g oh) /\ hung st' oh = hung st oh ++ [p] /\
      exists oc, ocs (h_cache st') !! p = Some oc /\ Obj.objhead oc = Some oh /\ Obj.refcnt oc = 1 /\ oc_busy oc = true /\
        oc_busyobj oc = Some (mkBusyobj (match vl with Some _ => Some b | None => None end))
  end.

Section Outcome.

Context (st2 : hash) (h : BanThm.hist) (b : list Z) (vl : option Z) (hd : objhead).
Context (Hlp : looped st2 h b vl) (Ehd : h_ohs st2 !! oh = Some hd) (El : objcs hd = hung st oh) (Ehd1 : h_ohs st1 !! oh = Some hd).

(** What every outcome leaves. *)
Definition settled (w' : worker) (st' : hash) (g' : ghost) : Prop :=
  inv st' g' /\ worker_ok st' g' w' /\ g_timers g' = g_timers g /\ past (g_hist g') = past (g_hist g) /\
  spares w st g st' g' /\ tab_kept (g_tab g1) (g_tab g') /\ (nobjcore w' = None \/ nobjcore w' = nobjcore w1) /\ nobjhead w' = nobjhead w1.

(** From what the loop left on, object cores in store stay there but for [p0], and
    so do object heads. *)
Lemma settle st' T refs held w' (p0 : option positive) :
  let g' := Ghost T (g_timers g1) h refs held in
  inv st' g' ->
  (forall x oc, p0 <> Some x -> ocs (h_cache st2) !! x = Some oc -> Obj.objhead oc = None ->
    exists oc', ocs (h_cache st') !! x = Some oc' /\ Obj.objhead oc' = None) ->
  tab_kept (g_tab g1) T ->
  match p0 with Some p => nobjcore w = Some p \/ nobjcore w = None /\ ocs (h_cache st) !! p = None | None => True end ->
  nobjcore w' = match p0 with Some _ => None | None => nobjcore w1 end -> nobjhead w' = nobjhead w1 ->
  settled w' st' g'.
Proof using Hs Hlp.
  intros g' Hi' Hcore HT Hp0 Ec Eh. destruct Hlp as [_ [Hwc Hwh] _ _ Hlog _ [Hs1 Hs2]].
  assert (Hex : forall x oc, nobjcore w <> Some x -> ocs (h_cache st) !! x = Some oc -> p0 <> Some x).
  { intros x oc Hx Ex ->. destruct Hp0 as [|[_ ?]]; [done|congruence]. }
  split; [done|]. split; [|split; [apply (sd_timers _ _ _ _ _ _ _ _ _ _ Hs)|split; [done|split;
    [|split; [exact HT|split; [|done]]]]]].
  - split.
    + intros x Ex. rewrite Ec in Ex. destruct p0; [done|]. destruct (Hwc x Ex) as (oc & E & Eq). by eapply Hcore.
    + intros q Eq. rewrite Eh in Eq. destruct (Hwh q Eq) as (f & Ef & Hf). destruct (HT q f Ef) as (f' & Ef' & _ & Hf'). exists f'. split; [done|congruence].
  - split.
    + intros x oc Hx Ex Eq. destruct (Hs1 x oc Hx Ex Eq) as (oc' & E' & Eq'). by eapply Hcore; [by eapply Hex| |].
    + intros q f Hq Ef Hf. destruct (Hs2 q f Hq Ef Hf) as (f1 & Ef1 & Hf1). destruct (HT q f1 Ef1) as (f' & Ef' & _ & Hf'). exists f'. split; [done|congruence].
  - rewrite Ec. destruct p0; [by left|by right].
Qed.

Lemma finish_hit p self : (forall oc, ocs (h_cache st) !! p = Some oc -> Obj.refcnt oc + 1 < 2 ^ 32) ->
  decided (sp_healthy sp) (choose d (hung st oh) seen0) = Some p ->
  exists st' g', lookup_hit st2 oh p = Ok st' /\ settled w1 st' g' /\ left_by (Hit p) self b vl st' g'.
Proof using Hi Hs Hlp Ehd El H H0.
  intros Hlim Hd. destruct (decided_in v (h_cache st) (g_hist g) sp _ p Hd) as (Hp & Hv & oc & E & Hb).
  assert (Hlp' := Hlp). destruct Hlp' as [Hi2 Hw2 _ _ Hlog Hca _].
  assert (E2 : ocs (h_cache st2) !! p = Some oc).
  { apply (ca_same _ _ _ _ _ _ Hca); [by intros [_ ?]|]. by apply (sd_ocs _ _ _ _ _ _ _ _ _ _ Hs). }
  destruct (lookup_hit_ok compile s st2 _ oh hd p oc Hi2 Ehd ltac:(by rewrite El) (sd_held _ _ _ _ _ _ _ _ _ _ Hs) E2 Hb (Hlim oc E))
    as (st' & T & Eh & Hi' & Eohs & Eocs & (a & o & (Ea & Eo & Ep) & Eobjs) & HT).
  eexists st', _. split; [done|]. split.
  - apply (settle st' T _ _ w1 None Hi'); try done; try apply tab_kept_refl. intros x ocx _ Ex Eqx. exists ocx. rewrite Eocs, lookup_insert_ne; [done|].
    intros <-. destruct (hung_core p Hp) as (oc' & E' & Eq'). congruence.
  - split; [by rewrite <- (sd_refs _ _ _ _ _ _ _ _ _ _ Hs)|]. split; [by rewrite <- (sd_looking _ _ _ _ _ _ _ _ _ _ Hs)|].
    exists oc, a, o. split; [done|]. split; [done|]. split; [|by rewrite Eocs, Eobjs, !lookup_insert_eq].
    destruct (hung_core p Hp) as (oc' & E' & Eq'). assert (oc' = oc) as -> by congruence.
    destruct (core_object compile s st g p oc oh Hi E Eq') as (a1 & o1 & (Ea1 & Eo1 & Ep1) & _);
      [exact (unbusy_methods compile s st g p oc oh Hi E Eq' Hb)|].
    assert (a1 = a) as -> by congruence. split; [done|]. split; [|done].
    assert (Eo2 : objs (h_cache st2) !! a = Some o1).
    { apply (ca_obj _ _ _ _ _ _ Hca a o1 p); [by intros [_ ?]|done|]. by rewrite (sd_objs _ _ _ _ _ _ _ _ _ _ Hs). }
    congruence.
Qed.

Lemma finish_wait self :
  exists st' w' g', lookup_wait st2 w1 (set_hash_objhead (set_vary sp b vl) None) self oh =
      Ok (st', w', set_hash_objhead (set_vary sp b vl) (Some oh)) /\
    settled w' st' g' /\ left_by Wait self b vl st' g'.
Proof using Hi Hs Hlp Ehd Ehd1 H H0.
  assert (Hlp' := Hlp). destruct Hlp' as [Hi2 Hw2 _ _ Hlog Hca _].
  destruct (lookup_wait_ok compile s st2 _ w1 (set_hash_objhead (set_vary sp b vl) None) self oh hd Hi2 Hw2 (sd_wait _ _ _ _ _ _ _ _ _ _ Hs)
    Ehd (sd_held _ _ _ _ _ _ _ _ _ _ Hs)) as (st' & w' & E & Hi' & _ & [Ec Eh] & Ecache & Eohs).
  eexists st', w', (Ghost _ _ _ _ _). split; [exact E|]. split.
  - apply (settle st' _ _ _ w' None Hi'); try done; try apply tab_kept_refl. intros x oc _ Ex Eqx. exists oc. by rewrite Ecache.
  - split; [apply (sd_refs _ _ _ _ _ _ _ _ _ _ Hs)|]. cbn [g_held esi_level set_hash_objhead set_vary with_hist].
    rewrite <- (sd_looking _ _ _ _ _ _ _ _ _ _ Hs). split; [done|]. exists hd.
    eexists. split; [done|]. split; [|done]. rewrite Eohs. cbn [esi_level set_hash_objhead set_vary].
    destruct (esi_level sp =? 0); [by rewrite lookup_insert_eq|done].
Qed.

Lemma finish_miss self :  (nobjcore w = None -> ocs (h_cache st) !! aoc = None) ->
  exists st' w' g', lookup_miss st2 w1 (set_hash_objhead (set_vary sp b vl) None) oh = Ok (st', w', default aoc (nobjcore w)) /\
    settled w' st' g' /\ left_by Miss self b vl st' g'.
Proof using Hi Hs Hlp Ehd El H H0.
  intros Haoc.
  assert (Hlp' := Hlp). destruct Hlp' as [Hi2 Hw2 [Hreq Hvb] _ Hlog Hca _].
  destruct (lookup_miss_ok compile s st2 _ w1 (set_hash_objhead (set_vary sp b vl) None) _ oh hd Hi2 Hw2 (sd_core _ _ _ _ _ _ _ _ _ _ Hs)
    (sd_busyobj _ _ _ _ _ _ _ _ _ _ Hs) (vary_b_validate _ _ _ _ Hreq Hvb) Ehd (sd_held _ _ _ _ _ _ _ _ _ _ Hs))
    as (st' & w' & oc & E & Hi' & _ & Ec & Eh & _ & Eohs & Eocs & Eq & Er & Hb & Ebo).
  eexists st', w', (Ghost _ _ _ _ _). split; [exact E|]. split.
  - apply (settle st' _ _ _ w' (Some (default aoc (nobjcore w))) Hi'); try done; try apply tab_kept_refl.
    + intros x ocx Hx Ex Eqx. exists ocx. rewrite Eocs, lookup_insert_ne; [done|congruence].
    + destruct (nobjcore w); [by left|right]. split; [done|]. by apply Haoc.
  - split; [by cbn; rewrite (sd_refs _ _ _ _ _ _ _ _ _ _ Hs)|]. split; [by cbn; rewrite (sd_looking _ _ _ _ _ _ _ _ _ _ Hs)|].
    split; [unfold hung at 1; rewrite Eohs, lookup_insert_eq; cbn; by rewrite El|].
    exists oc. rewrite Eocs, lookup_insert_eq. done.
Qed.

End Outcome.

Lemma lookup_finish_ok self : (nobjcore w = None -> ocs (h_cache st) !! aoc = None) ->
  (forall p oc, p ∈ hung st oh -> ocs (h_cache st) !! p = Some oc -> Obj.refcnt oc + 1 < 2 ^ 32) ->
  let out := outcome_of sp (choose d (hung st oh) seen0) in
  exists st' w' b vl g', lookup_rest st1 (v_mem v) w1 (set_hash_objhead sp None) self oh =
      Ok (st', w', set_hash_objhead (set_vary sp b vl) (match out with Wait => Some oh | _ => None end),
        match out with Hit p => Some (p, oh) | Wait => None | Miss => Some (default aoc (nobjcore w), oh) end) /\
    inv st' g' /\ worker_ok st' g' w' /\ asks v (set_vary sp b vl) /\ length b = length (vary_b sp) /\
    g_timers g' = g_timers g /\ past (g_hist g') = past (g_hist g) /\
    spares w st g st' g' /\ tab_kept (g_tab g1) (g_tab g') /\ left_by out self b vl st' g' /\
    (nobjcore w' = None \/ nobjcore w' = Some (default aoc (nobjcore w))) /\
    (nobjhead w' = None \/ nobjhead w' = Some (default aoh (nobjhead w))).
Proof using H H0 Hkeep Hgrace Pcre0 Hi Hs Hask Hready.
  intros Haoc Hlim out.
  assert (Hw1c := sd_core _ _ _ _ _ _ _ _ _ _ Hs). assert (Hw1h := sd_head _ _ _ _ _ _ _ _ _ _ Hs). destruct loop_started_ok as (st2 & h & b & vl & Hlp & hd & Ehd & El & Ehd1 & Eloop).
  assert (Hlp' := Hlp). destruct Hlp' as [Hi2 Hw2 Hask2 Hlen Hlog Hca _].
  destruct (sd_looks _ _ _ _ _ _ _ _ _ _ Hs) as (e & Ee & He & _). assert (Hheld := sd_held _ _ _ _ _ _ _ _ _ _ Hs).
  pose proof (iv_head _ _ _ _ Hi2 oh e hd Ee Ehd) as Ha. rewrite He in Ha.
  unfold lookup_rest. rewrite (sl_refcnt_head compile s st1 g1 oh e (sd_inv _ _ _ _ _ _ _ _ _ _ Hs) Ee), bind_Ret.
  destruct Ha as [_ Hpos]. rewrite vassert_true, bind_Ret by lia. unfold get_oh. rewrite Ehd1. cbn [deref]. rewrite bind_Ret.
  change (mkSeen None None SpecFloat.S754_nan) with seen0. rewrite Eloop, bind_Ret. cbv beta iota.
  set (c := choose d (hung st oh) seen0) in *.
  assert (Hin : forall p, p ∈ hung st oh -> exists oc t, ocs (h_cache st) !! p = Some oc /\ Obj.objhead oc = Some oh /\
    ocs (h_cache st2) !! p = Some (set_timer_when oc t)).
  { intros p Hp. destruct (hung_core p Hp) as (oc & E & Eq). exists oc.
    destruct (ca_core _ _ _ _ _ _ Hca p oc (sd_ocs _ _ _ _ _ _ _ _ _ _ Hs p oc E)) as [t Et]. by exists t. }
  rewrite (candidate_ok st2 (with_hist g1 h) _ c Hi2), bind_Ret.
  2:{ intros p Hg. destruct (choose_grace d (hung st oh) seen0 p Hg) as [|[Hp [t Hv]]]; [done|].
      destruct (Hin p Hp) as (oc & w0 & E & Eq & E2). destruct (verdict_grace _ _ _ _ _ _ Hv) as (oc' & E' & Hb).
      assert (oc' = oc) as -> by congruence. by exists (set_timer_when oc w0), oh. }
  cbn [hash_always_miss set_hash_objhead set_vary sp_healthy]. unfold outcome_of in out. fold c in out.
  destruct (if hash_always_miss sp then None else decided (sp_healthy sp) c) as [p|] eqn:Ed.
  - assert (Hd : decided (sp_healthy sp) c = Some p) by (by destruct (hash_always_miss sp)).
    destruct (decided_in _ _ _ _ _ _ Hd) as [Hp _]. destruct (finish_hit st2 h b vl hd Hlp Ehd El p self) as (st' & g' & -> & (Hi' & Hw' & Ht & Hl & Hsp & Htab & Hnc & Hnh) & Hleft).
    { intros oc. by apply Hlim. }
    { exact Hd. }
    rewrite bind_Ret. subst out. exists st', w1, b, vl, g'. rewrite <- Hw1c. split_and!; try done; by rewrite Hnh.
  - destruct (busy_oc (fst c)) as [y|]; subst out.
    + destruct (finish_wait st2 h b vl hd Hlp Ehd Ehd1 self) as (st' & w' & g' & -> & (Hi' & Hw' & Ht & Hl & Hsp & Htab & Hnc & Hnh) & Hleft).
      rewrite bind_Ret. exists st', w', b, vl, g'. rewrite <- Hw1c. split_and!; try done; by rewrite Hnh.
    + destruct (finish_miss st2 h b vl hd Hlp Ehd El self Haoc) as (st' & w' & g' & -> & (Hi' & Hw' & Ht & Hl & Hsp & Htab & Hnc & Hnh) & Hleft).
      rewrite bind_Ret. exists st', w', b, vl, g'. rewrite <- Hw1c. split_and!; try done; by rewrite Hnh.
Qed.

End Finish.

End Lookup.

End HashLookup.
