(* ===== verification/HashRefs.v ===== *)
(** References of the cache that are given back, and the end of a fetch. *)
From S2P Require Import Prelude Double BinHeap BinHeapInv BanThm BanInv Mem Http Ban Vary Slinger SlingerThm Obj Expire ExpireInv ExpireOps Hash HashInv HashOps HashLoop.

(** The cache proper, references: objects for object cores, the end of a fetch, and
    letting go. *)
Import Double BinHeap Http Ban Slinger Obj Expire ExpireInv ExpireOps Hash HashInv HashOps HashLoop.

Module HashRefs.

(** ** Lists *)

Lemma remove_perm p l : NoDup l -> p ∈ l -> p :: remove p l ≡ₚ l.
Proof.
  intros Hn Hp. apply NoDup_Permutation; [|done|].
  - constructor; [|by apply NoDup_filter]. by intros [? _]%list_elem_of_filter.
  - intros x. unfold remove. rewrite elem_of_cons, list_elem_of_filter. destruct (decide (x = p)) as [->|]; tauto.
Qed.

Lemma take_one_perm p l : p ∈ l -> l ≡ₚ p :: take_one p l.
Proof.
  induction l as [|x l IH]; [by intros ?%not_elem_of_nil|]. cbn [take_one]. destruct (decide (x = p)) as [->|Hne]; [done|].
  intros [->|Hp]%elem_of_cons; [done|]. rewrite (IH Hp) at 1. apply Permutation_swap.
Qed.

Lemma take_one_back n p l : replicate n p ++ l ≡ₚ take_one p (replicate n p ++ p :: l).
Proof.
  apply (Permutation_cons_inv (a := p)). rewrite <- take_one_perm by (apply elem_of_app; right; by left).
  apply Permutation_middle.
Qed.

Lemma count_perm l l' p : l ≡ₚ l' -> count l p = count l' p.
Proof. unfold count. intros Hp. by rewrite (Permutation_count_occ Pos.eq_dec) in Hp; rewrite Hp. Qed.

Lemma count_replicate n p q : count (replicate n q) p = if decide (q = p) then Z.of_nat n else 0.
Proof.
  induction n as [|n IH]; [by destruct (decide _)|]. cbn [replicate]. rewrite count_cons, IH.
  destruct (decide (q = p)); lia.
Qed.

Lemma rush_loop_split n queue l : let '(rest, woken, lost) := rush_loop n queue l in l = woken ++ option_list lost ++ rest.
Proof.
  revert l. induction n as [|n IH]; intros l; [by destruct l|]. destruct l as [|sp l]; [done|]. cbn [rush_loop].
  specialize (IH l). destruct (queue sp); [|done]. destruct (rush_loop n queue l) as [[rest woken] lost]. cbn. by f_equal.
Qed.

(** Sessions that can be scheduled are, up to the limit. *)
Lemma rush_loop_spec n queue l rest woken lost : rush_loop n queue l = (rest, woken, lost) ->
  l = woken ++ option_list lost ++ rest /\ Forall (fun sp => queue sp = true) woken /\
  match lost with Some sp => queue sp = false | None => length woken = Nat.min n (length l) end.
Proof.
  revert l rest woken lost. induction n as [|n IH]; intros l rest woken lost; [cbn; destruct l; by intros [= <- <- <-]|].
  destruct l as [|sp l]; cbn [rush_loop]; [by intros [= <- <- <-]|].
  destruct (queue sp) eqn:Eq; [|by intros [= <- <- <-]].
  destruct (rush_loop n queue l) as [[r wk] ls] eqn:E. intros [= <- <- <-]. destruct (IH l r wk ls E) as (-> & Hw & Hl).
  split; [done|]. split; [by constructor|]. destruct ls; [done|]. cbn [length]. by rewrite Hl.
Qed.

Section Refs.

Context {SL : Type} `{SlingerLaws SL} (compile : list Z -> option (list Z)) (s : Z) (rush_exponent : nat).

#[local] Notation hash := (hash SL).
#[local] Notation inv := (inv compile s).
#[local] Notation rush_if := (rush_if rush_exponent).

(** ** References in any order *)

Lemma inv_perm st g refs held : inv st g -> refs ≡ₚ g_refs g -> held ≡ₚ g_held g ->
  inv st (Ghost (g_tab g) (g_timers g) (g_hist g) refs held).
Proof.
  intros Hi Hr Hh.
  assert (Hsame : forall x, same_at g (Ghost (g_tab g) (g_timers g) (g_hist g) refs held) x).
  { intros x. split; [by apply count_perm|done]. }
  split; cbn [g_tab g_timers g_hist g_refs g_held]; try apply Hi.
  - intros q e oh Eq Eoh. pose proof (iv_head _ _ _ _ Hi q e oh Eq Eoh) as Ha. unfold accounted, in_store in *.
    by rewrite (count_perm held (g_held g) q Hh).
  - intros p oc q E Eq. by apply (core_ok_same (objs (h_cache st)) _ g); [|apply Hsame| |apply Hi].
  - intros p oc E Eq. by apply (core_fresh_same g); [apply Hsame|apply Hi].
  - intros p. rewrite Hr. apply (iv_refs _ _ _ _ Hi).
  - intros q. rewrite Hh. apply (iv_held _ _ _ _ Hi).
Qed.

(** ** Waiting sessions *)

(** The sessions that leave the waiting list take their references along, the one
    that cannot be scheduled as well. *)
Lemma rush_if_ok st g q oh queue : inv st g -> h_ohs st !! q = Some oh ->
  (forall e, g_tab g !! q = Some e -> e_in e = true) ->
  exists st' woken lost oh', rush_if st q queue = Ok (st', woken, lost) /\
    inv st' (with_held g (replicate (length (woken ++ option_list lost)) q ++ g_held g)) /\
    h_cache st' = h_cache st /\ h_bans st' = h_bans st /\ h_sl st' = h_sl st /\
    h_ohs st' = <[q := oh']> (h_ohs st) /\ objcs oh' = objcs oh /\
    rush_loop rush_exponent queue (default [] (waitinglist oh)) = (default [] (waitinglist oh'), woken, lost).
Proof.
  intros Hi Eoh Hin. unfold rush_if, hsh_rush, get_oh. rewrite Eoh. run. destruct (waitinglist oh) as [l|] eqn:Ew.
  - run. pose proof (rush_loop_split rush_exponent queue l) as Hsplit.
    destruct (rush_loop rush_exponent queue l) as [[rest woken] lost] eqn:Er0.
    set (oh' := set_waitinglist oh (match rest with [] => None | _ => Some rest end)).
    assert (Er : default [] (waitinglist oh') = rest) by (by destruct rest).
    exists (put_oh st q oh'), woken, lost, oh'. split; [done|]. split; [|split_and!; try done; by rewrite Er].
    apply (head_change compile s st g q oh oh'); try done.
    + rewrite count_app, count_replicate, decide_True by done. unfold waiting. rewrite Er, Ew, Hsplit. cbn [default].
      unfold id. rewrite !length_app. lia.
    + intros x Hx. rewrite count_app, count_replicate, decide_False by congruence. lia.
  - exists st, [], None, oh. split; [done|]. split; [by destruct g|]. rewrite insert_id by done. rewrite Ew. by destruct rush_exponent.
Qed.

(** ** An object head that is let go *)

(** One reference less to an object head, which goes with the last. *)
Lemma head_drop_ok st g q : inv st g -> q ∈ g_held g ->
  exists sl more, sl_deref (h_sl st) q = Ok (sl, more) /\
    exists st' T, (if (more : bool) then Ok (set_sl st sl) else HSH_DeleteObjHead (set_sl st sl) q) = Ok st' /\
      inv st' (Ghost T (g_timers g) (g_hist g) (g_refs g) (take_one q (g_held g))) /\
      h_cache st' = h_cache st /\ h_bans st' = h_bans st /\
      (forall x f, g_tab g !! x = Some f -> e_in f = false -> T !! x = Some f) /\
      (more = true <-> h_ohs st' !! q <> None) /\ (forall x, x <> q -> h_ohs st' !! x = h_ohs st !! x) /\
      (more = true -> h_ohs st' !! q = h_ohs st !! q).
Proof.
  intros Hi Hq. destruct (iv_held _ _ _ _ Hi q Hq) as (e & Ee & He).
  destruct (proj1 (iv_heads _ _ _ _ Hi q)) as [oh Eoh]; [by eexists|].
  pose proof (iv_head _ _ _ _ Hi q e oh Ee Eoh) as Ha. rewrite He in Ha. destruct Ha as [Hr Hpos].
  destruct (sl_deref_ok (h_sl st) (g_tab g) q e (iv_sl _ _ _ _ Hi) Ee He Hpos) as (sl & E & Hr').
  assert (Hc : 0 < count (g_held g) q) by (by apply count_in).
  exists sl, (negb (e_ref e =? 1)). split; [done|]. destruct (Z.eqb_spec (e_ref e) 1) as [E1|E1]; cbn [negb] in *.
  - assert (Eobj : objcs oh = []) by (apply length_zero_iff_nil; unfold waiting in Hr; lia).
    unfold HSH_DeleteObjHead. cbn [h_sl set_sl].
    rewrite (sl_refcnt_ok _ _ q _ Hr' (lookup_insert_eq _ _ _)). run. cbn [e_ref]. rewrite E1. run.
    unfold get_oh. cbn [h_ohs set_sl]. rewrite Eoh. run. rewrite Eobj, bool_decide_true by done. run.
    eexists _, (delete q (g_tab g)). split; [done|]. split; [|split_and!; try done].
    + apply (inv_heads_change compile s st g); cbn [h_ohs set_ohs set_sl]; try done.
      * pose proof (sl_free_ok sl _ q _ Hr' (lookup_insert_eq _ _ _) eq_refl) as Hf. by rewrite delete_insert_eq in Hf.
      * intros x. destruct (decide (x = q)) as [->|Hx]; [rewrite !lookup_delete_eq; by split; intros [? ?]|].
        rewrite !lookup_delete_ne by done. apply Hi.
      * intros x f ox Ex Eox. destruct (decide (x = q)) as [->|Hx]; [by rewrite lookup_delete_eq in Ex|].
        rewrite lookup_delete_ne in Ex by done. rewrite lookup_delete_ne in Eox by done.
        pose proof (iv_head _ _ _ _ Hi x f ox Ex Eox) as Ha. unfold accounted, in_store in *. by rewrite count_untaken.
      * intros x ox Eox. destruct (decide (x = q)) as [->|Hx]; [by rewrite lookup_delete_eq in Eox|].
        rewrite lookup_delete_ne in Eox by done. left. by exists ox.
      * intros x f Ex Hf (ox & Eox & Hne). exists f. split; [|done]. rewrite lookup_delete_ne; [done|]. intros <-. congruence.
      * intros x Hx. destruct (iv_held _ _ _ _ Hi x (elem_take_one _ _ _ Hx)) as (f & Ef & Hf). exists f. split; [|done].
        rewrite lookup_delete_ne; [done|]. intros <-. apply count_in in Hx. rewrite count_taken in Hx by done.
        unfold waiting in Hr. lia.
    + intros x f Ex Hf. rewrite lookup_delete_ne; [done|congruence].
    + cbn. rewrite lookup_delete_eq. done.
    + intros x Hx. cbn. by rewrite lookup_delete_ne.
  - eexists _, (<[q := mkEntry (e_ref e - 1) (e_dig e) true]> (g_tab g)). split; [done|]. split; [|split_and!; try done].
    + apply (inv_entry compile s st g sl q e (mkEntry (e_ref e - 1) (e_dig e) true) oh); try done.
      * cbn [e_in e_ref]. unfold accounted. rewrite count_taken by done. unfold waiting in *. lia.
      * intros x Hx. by apply count_untaken.
    + intros x f Ex Hf. rewrite lookup_insert_ne; [done|congruence].
    + cbn. by rewrite Eoh.
Qed.

(** ** An object core that is let go *)

(** Its references are gone; the reference to the object head is still held. *)
Lemma delete_core_ok st g p oc q oh c b h :
  inv st g -> ocs (h_cache st) !! p = Some oc -> Obj.objhead oc = Some q -> h_ohs st !! q = Some oh ->
  p ∈ g_refs g -> Obj.refcnt oc = 1 ->
  exp_inv s c (g_timers g) -> BanThm.rel compile b h ->
  ocs c = delete p (ocs (h_cache st)) ->
  (forall a o, objs (h_cache st) !! a = Some o -> o_objcore o <> Some p -> objs c !! a = Some o) ->
  oc_ban b = delete p (oc_ban (h_bans st)) -> BanThm.h_pos h = delete p (BanThm.h_pos (g_hist g)) ->
  inv (mkHash c b (h_sl st) (<[q := set_objcs oh (remove p (objcs oh))]> (h_ohs st)))
    (Ghost (g_tab g) (g_timers g) h (take_one p (g_refs g)) (q :: g_held g)).
Proof.
  intros Hi E Eq Eoh Hp Hr1 Hc Hb Eocs Eobjs Eban Epos.
  destruct (core_head compile s st g Hi p oc q E Eq) as (e & oh1 & Ee & He & Eoh1 & [Hr Hpos] & Hpin).
  assert (oh1 = oh) as -> by congruence. destruct (iv_list _ _ _ _ Hi q oh Eoh) as [Hnd Hl].
  pose proof (remove_perm p (objcs oh) Hnd Hpin) as Hperm.
  assert (Hlen : length (objcs oh) = S (length (remove p (objcs oh)))) by (exact (eq_sym (Permutation_length Hperm))).
  assert (Hsame : forall x, x <> p ->
    same_at g (Ghost (g_tab g) (g_timers g) h (take_one p (g_refs g)) (q :: g_held g)) x).
  { intros x Hx. split; [by apply count_untaken|]. split; [done|]. cbn [g_hist]. by rewrite Epos, lookup_delete_ne. }
  assert (Hcnt : count (g_refs g) p = 1).
  { pose proof (co_ref _ _ _ _ _ (iv_core _ _ _ _ Hi p oc q E Eq)) as Hcr. apply count_in in Hp. destruct (decide _); lia. }
  split; cbn [h_cache h_bans h_sl h_ohs g_tab g_timers g_hist g_refs g_held]; try apply Hi; try done.
  - intros x. rewrite Eocs, Eban. destruct (decide (x = p)) as [->|Hx].
    + rewrite !lookup_delete_eq. by split; intros [? ?].
    + rewrite !lookup_delete_ne by done. apply Hi.
  - intros x. rewrite (iv_heads _ _ _ _ Hi x). destruct (decide (x = q)) as [->|Hx].
    + rewrite lookup_insert_eq, Eoh. by split; eexists.
    + by rewrite lookup_insert_ne.
  - intros x f ox Ex Eox. destruct (decide (x = q)) as [->|Hx].
    + rewrite lookup_insert_eq in Eox. injection Eox as <-. assert (f = e) as -> by congruence. rewrite He.
      unfold accounted. cbn [objcs set_objcs waitinglist]. rewrite count_here. unfold waiting in *. cbn. lia.
    + rewrite lookup_insert_ne in Eox by done. pose proof (iv_head _ _ _ _ Hi x f ox Ex Eox) as Ha.
      unfold accounted, in_store in *. by rewrite count_there.
  - intros x ox Eox. destruct (decide (x = q)) as [->|Hx].
    + rewrite lookup_insert_eq in Eox. injection Eox as <-. cbn [objcs set_objcs]. split; [by apply NoDup_filter|].
      intros y. unfold remove. rewrite list_elem_of_filter, Hl, Eocs. destruct (decide (y = p)) as [->|Hy].
      * rewrite lookup_delete_eq. split; [by intros [? _]|by intros (? & ? & _)].
      * rewrite lookup_delete_ne by done. tauto.
    + rewrite lookup_insert_ne in Eox by done. destruct (iv_list _ _ _ _ Hi x ox Eox) as [Hnx Hlx]. split; [done|].
      intros y. rewrite Hlx, Eocs. destruct (decide (y = p)) as [->|Hy]; [|by rewrite lookup_delete_ne].
      rewrite lookup_delete_eq. split; intros (ocy & Ey & Eyq); [congruence|done].
  - intros x ocx qx Ex Exq. rewrite Eocs in Ex. destruct (decide (x = p)) as [->|Hx]; [by rewrite lookup_delete_eq in Ex|].
    rewrite lookup_delete_ne in Ex by done. apply (core_ok_same (objs (h_cache st)) _ g); [done|by apply Hsame| |by apply Hi].
    intros a o Ea Eo. apply Eobjs; [done|congruence].
  - intros x ocx Ex Exq. rewrite Eocs in Ex. destruct (decide (x = p)) as [->|Hx]; [by rewrite lookup_delete_eq in Ex|].
    rewrite lookup_delete_ne in Ex by done. by apply (core_fresh_same g); [apply Hsame|apply Hi].
  - intros x Hx. rewrite Eocs. destruct (decide (x = p)) as [->|Hne].
    + apply count_in in Hx. rewrite count_taken in Hx by done. lia.
    + rewrite lookup_delete_ne by done. apply (iv_refs _ _ _ _ Hi). by eapply elem_take_one.
  - intros x [->|Hx]%elem_of_cons; [by exists e|]. exact (iv_held _ _ _ _ Hi x Hx).
Qed.

(** What [BAN_DestroyObj] to [FREE_OBJ] do to the cache and the bans. *)
Record core_gone (st st' : hash) (p : positive) (h h' : BanThm.hist) (S : gset positive) : Prop := {
  cg_exp : exp_inv s (h_cache st') S;
  cg_rel : BanThm.rel compile (h_bans st') h';
  cg_ocs : ocs (h_cache st') = delete p (ocs (h_cache st));
  cg_objs a o : objs (h_cache st) !! a = Some o -> o_objcore o <> Some p -> objs (h_cache st') !! a = Some o;
  cg_ban : oc_ban (h_bans st') = delete p (oc_ban (h_bans st));
  cg_hist : h' = BanThm.Hist (BanThm.h_log h) (delete p (BanThm.h_pos h)) (BanThm.h_refs h);
  cg_sl : h_sl st' = h_sl st;
  cg_ohs : h_ohs st' = h_ohs st;
}.

Lemma delete_frame c S p os : exp_inv s c S -> p ∉ S ->
  (forall a o x, objs c !! a = Some o -> o_objcore o = Some x -> x ∈ S -> os !! a = Some o) ->
  exp_inv s (set_ocs (set_objs c os) (delete p (ocs c))) S.
Proof.
  intros Hc Hp Hos. apply (inv_frame s c); try done.
  - intros x ocx. cbn. destruct (decide (x = p)) as [->|Hx]; [by rewrite lookup_delete_eq|].
    rewrite lookup_delete_ne by done. apply (ei_when _ _ _ Hc x).
  - intros x Hx. unfold when_of. cbn. by rewrite lookup_delete_ne by (intros ->; done).
  - intros x l Hx (ocx & a & o & E1 & E2 & E3 & E4 & E5 & E6). exists ocx, a, o. cbn.
    rewrite lookup_delete_ne by (intros ->; done). split_and!; try done. by apply (Hos a o x).
Qed.

(** A fetch that is over gives its busy object to the worker. *)
Definition with_busyobj (w : worker) (oc : objcore) : worker :=
  match nbusyobj w, oc_busyobj oc with
  | None, Some bo => mkWorker (nobjcore w) (nobjhead w) (nwaitinglist w) (Some bo)
  | _, _ => w
  end.

Lemma gone_ok st g p os b : inv st g -> p ∉ g_timers g ->
  BanThm.rel compile (set_oc_ban b (delete p (oc_ban b)))
    (BanThm.Hist (BanThm.h_log (g_hist g)) (delete p (BanThm.h_pos (g_hist g))) (BanThm.h_refs (g_hist g))) ->
  oc_ban b = <[p := None]> (oc_ban (h_bans st)) ->
  (forall a o, objs (h_cache st) !! a = Some o -> o_objcore o <> Some p -> os !! a = Some o) ->
  core_gone st (mkHash (set_ocs (set_objs (h_cache st) os) (delete p (ocs (h_cache st))))
    (set_oc_ban b (delete p (oc_ban b))) (h_sl st) (h_ohs st)) p (g_hist g)
    (BanThm.Hist (BanThm.h_log (g_hist g)) (delete p (BanThm.h_pos (g_hist g))) (BanThm.h_refs (g_hist g))) (g_timers g).
Proof.
  intros Hi Hp Hb Eob Hos. split; try done.
  - apply (delete_frame (h_cache st) _ p os (iv_exp _ _ _ _ Hi) Hp). intros a o x Ea Eo Hx. apply (Hos a o); [done|].
    intros ?. by assert (x = p) as -> by congruence.
  - cbn. by rewrite Eob, delete_insert_eq.
Qed.

(** The part that deals with the busy object. *)
Lemma busyobj_ok oc w : (oc_busy oc = true <-> is_Some (oc_busyobj oc)) ->
  (if oc_busy oc then bo ← notnull (oc_busyobj oc);
      mret (set_busyobj oc None, match nbusyobj w with
        | None => mkWorker (nobjcore w) (nobjhead w) (nwaitinglist w) (Some bo) | Some _ => w end)
    else mret (oc, w)) = Ok (set_busyobj oc None, with_busyobj w oc).
Proof.
  intros Hc. destruct (oc_busyobj oc) as [bo|] eqn:Ebo; destruct (oc_busy oc) eqn:Hbusy; unfold with_busyobj; rewrite Ebo.
  - run. by destruct (nbusyobj w).
  - discriminate (proj2 Hc (mk_is_Some _ _ eq_refl)).
  - destruct (proj1 Hc eq_refl) as [? [=]].
  - destruct (nbusyobj w); unfold mret, res_ret; repeat f_equal; destruct oc; cbn in *; by subst.
Qed.

Lemma destroy_oc_ok st g w p oc q r : inv st g -> ocs (h_cache st) !! p = Some oc -> Obj.objhead oc = Some q ->
  p ∉ g_timers g -> ban_room (g_hist g) ->
  exists st' h', (forall ohs, destroy_oc (set_ohs (set_oc st p (set_refcnt oc r)) ohs) w p =
      Ok (set_ohs st' ohs, with_busyobj w oc)) /\
    core_gone st st' p (g_hist g) h' (g_timers g) /\
    forall a, methods oc = true -> priv oc = Some a -> objs (h_cache st') !! a = None.
Proof.
  intros Hi E Eq Hp [Hroom _]. pose proof (iv_core _ _ _ _ Hi p oc q E Eq) as Hc.
  destruct (BanThm.rel_room _ _ _ (iv_ban _ _ _ _ Hi) Hroom) as [Hr1 _].
  destruct (BanThm.destroy_rel compile (h_bans st) (g_hist g) p (iv_ban _ _ _ _ Hi) Hr1) as (b & Eb & Hb & Eob).
  { apply (iv_dom _ _ _ _ Hi). by eexists. }
  apply (BanThm.free_rel compile b _ p) in Hb; [|by rewrite Eob, lookup_insert_eq].
  cbn [BanThm.h_log BanThm.h_pos BanThm.h_refs] in Hb. rewrite delete_insert_eq in Hb.
  set (os := if methods oc then match priv oc with Some a => delete a (objs (h_cache st)) | None => ∅ end else objs (h_cache st)).
  eexists _, _. split.
  2:{ split.
      - apply (gone_ok st g p os b Hi Hp Hb Eob). intros a o Ea Eo. unfold os. destruct (methods oc) eqn:Em; [|done].
        destruct (co_obj _ _ _ _ _ Hc Em) as (a1 & o1 & (-> & Eo1 & Ep1) & _). rewrite lookup_delete_ne; [done|]. congruence.
      - intros a Em Ea. cbn [h_cache objs set_ocs set_objs]. unfold os. rewrite Em, Ea. apply lookup_delete_eq. }
  intros ohs. unfold destroy_oc. cbn [h_bans set_ohs set_oc set_cache]. run Eb. rewrite Eob, lookup_insert_eq. run.
  rewrite bool_decide_true by done. run.
  unfold get_oc. cbn [h_cache set_ohs set_oc set_cache set_bans ocs put_oc set_ocs]. rewrite lookup_insert_eq. run.
  run (busyobj_ok (set_refcnt oc r) w (co_busy _ _ _ _ _ Hc)). rewrite bool_decide_true by done. run.
  cbn [methods set_busyobj set_refcnt]. unfold os. destruct (methods oc) eqn:Em.
  - destruct (co_obj _ _ _ _ _ Hc Em) as (a & o & (Ea & Eo & Ep) & _).
    unfold oc_freeobj, get_oc, get_obj. cbn [h_cache set_ohs set_oc set_cache set_bans ocs put_oc set_ocs objs].
    rewrite lookup_insert_eq. run. cbn [methods priv set_busyobj set_refcnt]. rewrite Em, Ea. run. rewrite Eo. run.
    unfold free_oc, set_ohs, set_oc, set_cache, set_bans, put_oc, set_ocs, set_objs.
    cbn [h_cache h_bans h_sl h_ohs ocs objs lrus exp_heap n_expired n_lru_nuked n_lru_moved].
    by rewrite !delete_insert_eq, Eob, delete_insert_eq.
  - run. unfold free_oc, set_ohs, set_oc, set_cache, set_bans, put_oc, set_ocs, set_objs.
    cbn [h_cache h_bans h_sl h_ohs ocs objs lrus exp_heap n_expired n_lru_nuked n_lru_moved].
    by rewrite !delete_insert_eq, Eob, delete_insert_eq.
Qed.

(** ** [HSH_Deref] *)

Lemma rush_if_same (st st' st2 : hash) q queue woken lost : h_ohs st2 = h_ohs st ->
  rush_if st q queue = Ok (st', woken, lost) -> rush_if st2 q queue = Ok (set_ohs st2 (h_ohs st'), woken, lost).
Proof.
  intros Eo. unfold Hash.rush_if, hsh_rush, get_oh. rewrite Eo. destruct (h_ohs st !! q) as [oh|]; [|done]. run.
  destruct (waitinglist oh) as [l|]; run.
  - destruct (rush_loop _ _ _) as [[rest wk] ls]. intros [= <- <- <-]. cbn [h_ohs put_oh set_ohs]. by rewrite <- Eo.
  - intros [= <- <- <-]. rewrite <- Eo. by destruct st2.
Qed.

Lemma hash_eq (st st' : hash) : h_cache st = h_cache st' -> h_bans st = h_bans st' -> h_sl st = h_sl st' ->
  h_ohs st = h_ohs st' -> st = st'.
Proof. destruct st, st'. cbn. by intros -> -> -> ->. Qed.

(** What a call leaves of the object cores in the stores of the workers. *)
Lemma fresh_kept st g p oc q (m : gmap positive objcore) : inv st g -> ocs (h_cache st) !! p = Some oc -> Obj.objhead oc = Some q ->
  (forall x, x <> p -> m !! x = ocs (h_cache st) !! x) ->
  forall x ocx, ocs (h_cache st) !! x = Some ocx -> Obj.objhead ocx = None ->
  exists oc', m !! x = Some oc' /\ Obj.objhead oc' = None.
Proof. intros Hi E Eq Hm x ocx Ex Eqx. exists ocx. split; [|done]. rewrite Hm; [done|]. congruence. Qed.

(** The worker whose step it is, and the others. *)
Definition stores_kept (w w' : worker) (st : hash) (g : ghost) (st' : hash) (g' : ghost) : Prop :=
  nobjcore w' = nobjcore w /\ nobjhead w' = nobjhead w /\
  (forall x ocx, ocs (h_cache st) !! x = Some ocx -> Obj.objhead ocx = None ->
    exists oc', ocs (h_cache st') !! x = Some oc' /\ Obj.objhead oc' = None) /\
  (forall x f, g_tab g !! x = Some f -> e_in f = false -> g_tab g' !! x = Some f).

Lemma stores_worker_ok w w' w2 st g st' g' : stores_kept w w' st g st' g' -> worker_ok st g w2 -> worker_ok st' g' w2.
Proof.
  intros (_ & _ & Hc & Ht) [H1 H2]. split.
  - intros p Ep. destruct (H1 p Ep) as (oc & E & Eq). by apply (Hc p oc).
  - intros q Eq. destruct (H2 q Eq) as (e & Ee & He). exists e. split; [by apply Ht|done].
Qed.

(** A reference that is not the last. *)
Lemma deref_more st g p oc q : inv st g -> ocs (h_cache st) !! p = Some oc -> Obj.objhead oc = Some q -> p ∈ g_refs g ->
  Obj.refcnt oc <> 1 ->
  methods oc = true /\ inv (set_oc st p (set_refcnt oc (Obj.refcnt oc - 1))) (with_refs g (take_one p (g_refs g))).
Proof.
  intros Hi E Eq Hp Hr. pose proof (iv_core _ _ _ _ Hi p oc q E Eq) as Hc. pose proof (co_pos _ _ _ _ _ Hc) as Hpos.
  assert (Em : methods oc = true).
  { destruct (methods oc) eqn:Em; [done|]. by destruct (co_bare _ _ _ _ _ Hc Em) as (_ & ? & _). }
  split; [done|]. apply (refs_change compile s st g p oc q); try done; [lia| |].
  - rewrite (co_ref _ _ _ _ _ Hc), count_taken by done. lia.
  - intros x Hx. by apply count_untaken.
Qed.

Lemma deref_oc_ok st g w p oc q queue : inv st g -> p ∈ g_refs g -> ban_room (g_hist g) ->
  ocs (h_cache st) !! p = Some oc -> Obj.objhead oc = Some q ->
  exists st' w' woken lost T h', deref_oc rush_exponent st w p queue = Ok (st', w', Obj.refcnt oc - 1, woken, lost) /\
    let g' := Ghost T (g_timers g) h' (take_one p (g_refs g)) (replicate (length (woken ++ option_list lost)) q ++ g_held g) in
    inv st' g' /\ stores_kept w w' st g st' g' /\
    if Obj.refcnt oc =? 1
    then ocs (h_cache st') = delete p (ocs (h_cache st)) /\
      (forall a o, objs (h_cache st) !! a = Some o -> o_objcore o <> Some p -> objs (h_cache st') !! a = Some o) /\
      h' = BanThm.Hist (BanThm.h_log (g_hist g)) (delete p (BanThm.h_pos (g_hist g))) (BanThm.h_refs (g_hist g)) /\
      (forall a, methods oc = true -> priv oc = Some a -> objs (h_cache st') !! a = None)
    else h_cache st' = put_oc (h_cache st) p (set_refcnt oc (Obj.refcnt oc - 1)) /\ h' = g_hist g.
Proof.
  intros Hi Hp Hroom E Eq. pose proof (iv_core _ _ _ _ Hi p oc q E Eq) as Hc.
  destruct (core_head compile s st g Hi p oc q E Eq) as (e & oh & Ee & He & Eoh & [Hr Hpos] & Hpin).
  pose proof (co_pos _ _ _ _ _ Hc) as Hrpos.
  unfold deref_oc, get_oc. rewrite E. run. rewrite Eq. run. run (sl_refcnt_head compile s st g q e Hi Ee).
  assertion by lia. assertion by lia.
  destruct (Z.eqb_spec (Obj.refcnt oc) 1) as [E1|E1].
  - rewrite E1. change (1 - 1) with 0. cbn [Z.eqb negb]. cbv iota.
    assert (Hnt : p ∉ g_timers g).
    { intros Hin. apply count_in in Hp. pose proof (co_ref _ _ _ _ _ Hc) as Hcr. rewrite decide_True in Hcr by done. lia. }
    unfold get_oh. cbn [h_ohs set_oc set_cache]. rewrite Eoh. run.
    set (ohs2 := <[q := set_objcs oh (remove p (objcs oh))]> (h_ohs st)).
    destruct (destroy_oc_ok st g w p oc q 0 Hi E Eq Hnt Hroom) as (st4 & h' & Hrun & [G1 G2 G3 G4 G5 G6 G7 G8] & G9).
    assert (Hid := delete_core_ok st g p oc q oh (h_cache st4) (h_bans st4) h' Hi E Eq Eoh Hp E1 G1 G2 G3 G4 G5 ltac:(by rewrite G6)).
    fold ohs2 in Hid.
    destruct (rush_if_ok _ _ q _ queue Hid (lookup_insert_eq _ _ _)) as (st5 & woken & lost & oh' & Erush & Hi5 & C1 & C2 & C3 & C4 & C5 & _).
    { intros f Ef. cbn in Ef. congruence. }
    rewrite (rush_if_same (mkHash (h_cache st4) (h_bans st4) (h_sl st) ohs2) st5 (put_oh (set_oc st p (set_refcnt oc 0)) q
      (set_objcs oh (remove p (objcs oh)))) q queue woken lost eq_refl Erush).
    run. change (set_ohs (put_oh ?x ?y ?z) ?u) with (set_ohs x u). rewrite Hrun. run.
    cbn [h_cache h_bans h_sl h_ohs] in C1, C2, C3, C4.
    assert (Est : set_ohs st4 (h_ohs st5) = st5) by (apply hash_eq; cbn; congruence). rewrite Est. clear Hrun Est Erush.
    assert (Hin5 : q ∈ replicate (length (woken ++ option_list lost)) q ++ q :: g_held g) by (apply elem_of_app; right; by left).
    rewrite (sl_refcnt_head compile s _ _ q e Hi5 Ee). run. assertion by lia.
    destruct (head_drop_ok _ _ q Hi5 Hin5) as (sl & more & -> & st6 & T & E6 & Hi6 & D1 & D2 & HT & _). run.
    exists st6, (with_busyobj w oc), woken, lost, T, h'.
    split; [destruct more; [by injection E6 as ->|by run E6]|].
    apply (inv_perm _ _ (take_one p (g_refs g)) (replicate (length (woken ++ option_list lost)) q ++ g_held g)) in Hi6;
      [|done|apply take_one_back].
    split; [exact Hi6|]. split; [|rewrite D1, C1; by split_and!].
    unfold stores_kept. split; [unfold with_busyobj; by destruct (nbusyobj w), (oc_busyobj oc)|].
    split; [unfold with_busyobj; by destruct (nbusyobj w), (oc_busyobj oc)|]. split; [|exact HT].
    rewrite D1, C1, G3. apply (fresh_kept st g p oc q _ Hi E Eq).
    intros x Hx. by rewrite lookup_delete_ne.
  - destruct (deref_more st g p oc q Hi E Eq Hp E1) as [Em Hi1].
    rewrite (proj2 (Z.eqb_neq _ _)) by lia. rewrite Em. run.
    destruct (rush_if_ok _ _ q oh queue Hi1 Eoh) as (st' & woken & lost & oh' & -> & Hi' & Ec & Eb & Es & Eo & _).
    { intros f Ef. cbn in Ef. congruence. }
    run. exists st', w, woken, lost, (g_tab g), (g_hist g). split; [done|]. split; [exact Hi'|]. split; [|by rewrite Ec].
    split; [done|]. split; [done|]. split; [|done]. rewrite Ec. apply (fresh_kept st g p oc q _ Hi E Eq).
    intros x Hx. cbn. by rewrite lookup_insert_ne.
Qed.

End Refs.

End HashRefs.

(** The cache proper, a fetch and the expiry: an object for a busy object core, its
    timer, the end of the fetch, and what the timer and the nuking take. *)
Import Double BinHeap Http Ban Slinger Obj Expire ExpireInv ExpireOps Hash HashInv HashOps HashLoop HashRefs.

Module HashFetch.

Lemma rearmed_shape k gr o oc : exists t, rearmed k gr o oc = set_timer_when oc t.
Proof. unfold rearmed. destruct (deq _ _); [exists (timer_when oc); by destruct oc|by eexists]. Qed.

Lemma not_busy_flag f : truth (Z.land (Z.land f (Z.lnot OC_F_BUSY)) OC_F_BUSY) = false.
Proof. apply truth_false. by rewrite <- Z.land_assoc, (Z.land_comm (Z.lnot _)), Z.land_lnot_diag, Z.land_0_r. Qed.

Section Fetch.

Context {SL : Type} `{SlingerLaws SL} (compile : list Z -> option (list Z)) (default_keep default_grace : Z) (s : Z)
  (rush_exponent : nat) (Hkeep : 0 <= default_keep < 2 ^ 32) (Hgrace : 0 <= default_grace < 2 ^ 32).

#[local] Notation hash := (hash SL).
#[local] Notation inv := (inv compile s).

(** ** An object *)

Lemma bare_timer st g p oc q : inv st g -> ocs (h_cache st) !! p = Some oc -> Obj.objhead oc = Some q ->
  methods oc = false -> p ∉ g_timers g.
Proof.
  intros Hi E Eq Em Hp. destruct (timer_core compile s st g Hi p Hp) as (oc' & q' & E' & _ & Em'). congruence.
Qed.

Lemma STV_MkObject_ok st g a lru p oc q e nhttp : inv st g -> ocs (h_cache st) !! p = Some oc -> Obj.objhead oc = Some q ->
  methods oc = false -> objs (h_cache st) !! a = None -> exp_ok e = true -> ban_room (g_hist g) ->
  exists st', STV_MkObject st a lru (Some p) e nhttp = Ok st' /\
    inv st' (with_hist g (hist_pos (g_hist g) p (Some (length (BanThm.h_log (g_hist g)))))) /\
    ocs (h_cache st') = <[p := set_priv oc true (Some a)]> (ocs (h_cache st)) /\
    objs (h_cache st') = <[a := mkObj 0 (Some p) lru None 0 e d0 (http_Setup (HTTP_create nhttp))]> (objs (h_cache st)) /\
    lrus (h_cache st') = lrus (h_cache st) /\ h_sl st' = h_sl st /\ h_ohs st' = h_ohs st.
Proof.
  intros Hi E Eq Em Ea Hexp [Hroom _]. assert (Hc := iv_core _ _ _ _ Hi p oc q E Eq). assert (He := iv_exp _ _ _ _ Hi).
  destruct (co_bare _ _ _ _ _ Hc Em) as (Hb & Hr & Epos). pose proof (bare_timer st g p oc q Hi E Eq Em) as Hp.
  destruct (BanThm.rel_room _ _ _ (iv_ban _ _ _ _ Hi) Hroom) as [Hr1 _].
  destruct (BanThm.new_rel compile (h_bans st) (g_hist g) p (iv_ban _ _ _ _ Hi) Hr1) as (b & pb & Eb & Hb' & Eob).
  { by apply (BanThm.rel_none compile _ _ _ (iv_ban _ _ _ _ Hi)). }
  unfold STV_MkObject. cbn [h_bans set_cache]. run Eb. unfold get_oc. cbn [h_cache set_cache set_bans ocs put_obj set_objs].
  rewrite E. run. set (o := mkObj 0 (Some p) lru None 0 e d0 _). set (oc' := set_priv oc true (Some a)).
  eexists. split; [done|]. split; [|done].
  apply (inv_core_change compile s st g (put_oc (put_obj (h_cache st) a o) p oc') b (g_timers g)
    (hist_pos (g_hist g) p (Some (length (BanThm.h_log (g_hist g))))) (g_refs g) p oc oc'); try done.
  - apply (inv_frame s (h_cache st)); try done.
    + apply numbers_put; [apply He|exact (ei_when _ _ _ He p oc E)].
    + intros x Hx. cbn. rewrite when_insert, decide_False; [done|]. by intros ->.
    + intros x l Hx (ocx & a' & o' & E1 & E2 & E3 & E4 & E5 & E6). exists ocx, a', o'. cbn.
      rewrite lookup_insert_ne by (by intros <-). rewrite lookup_insert_ne by congruence. done.
  - intros a' o' E' _ _. cbn. rewrite lookup_insert_ne by congruence. done.
  - intros x. rewrite Eob. destruct (decide (x = p)) as [->|Hx]; [|by rewrite lookup_insert_ne].
    rewrite lookup_insert_eq, <- (iv_dom _ _ _ _ Hi p), E. by split; eexists.
  - intros x Hx. split; [done|]. split; [done|]. cbn. by rewrite lookup_insert_ne.
  - by right.
  - rewrite Eq. destruct Hc as [H1 H2 H3 H4 H5 H6]. split; try done.
    intros _. exists a, o. split; [split; [done|]; split; [apply lookup_insert_eq|done]|]. split; [done|].
    intros _. eexists. cbn. apply lookup_insert_eq.
Qed.

(** ** Its timer *)

Lemma EXP_Insert_h_ok st g a o p oc q l : inv st g -> object_of (objs (h_cache st)) p oc a o ->
  ocs (h_cache st) !! p = Some oc -> Obj.objhead oc = Some q -> methods oc = true -> oc_busy oc = true ->
  p ∉ g_timers g -> deq (entered (o_exp o)) d0 = false -> Obj.refcnt oc + 1 < 2 ^ 32 ->
  lrus (h_cache st) !! o_lru o = Some l -> Z.of_nat (size (g_timers g)) + 1 < 2 ^ 31 ->
  exists c, EXP_Insert default_keep default_grace (h_cache st) a = Ok c /\
    inv (set_cache st c) (Ghost (g_tab g) ({[p]} ∪ g_timers g) (g_hist g) (g_refs g) (g_held g)) /\
    (exists t, ocs c = <[p := set_timer_when (set_refcnt oc (Obj.refcnt oc + 1)) t]> (ocs (h_cache st))) /\
    objs c = <[a := set_last_lru o (entered (o_exp o))]> (objs (h_cache st)).
Proof using H H0 Hkeep Hgrace.
  intros Hi (Ea & Eo & Ep) E Eq Em Hb Hp Hen Hlim El Hsz. assert (Hc := iv_core _ _ _ _ Hi p oc q E Eq).
  destruct (co_obj _ _ _ _ _ Hc Em) as (a1 & o1 & (Ea1 & Eo1 & Ep1) & He & Hn).
  assert (a1 = a) as -> by congruence. assert (o1 = o) as -> by congruence.
  pose proof (co_pos _ _ _ _ _ Hc) as Hpos.
  destruct (EXP_Insert_ok default_keep default_grace Hkeep Hgrace s (h_cache st) (g_timers g) a o p oc l (iv_exp _ _ _ _ Hi)
    Eo Ep E Em Ea He Hp Hb (mk_is_Some _ _ Eq) Hpos Hlim Hen El Hsz) as (c & Ec & Hc' & Eobjs & Eocs & _).
  exists c. split; [done|]. destruct (rearmed_shape default_keep default_grace o (set_refcnt oc (Obj.refcnt oc + 1))) as [t Et].
  rewrite Et in Eocs. split; [|split; [by exists t|done]].
  apply (inv_core_change compile s st g c (h_bans st) ({[p]} ∪ g_timers g) (g_hist g) (g_refs g) p oc
    (set_timer_when (set_refcnt oc (Obj.refcnt oc + 1)) t)); try done.
  - apply Hi.
  - intros b x Eb Hx _. rewrite Eobjs, lookup_insert_ne; [done|congruence].
  - intros x Hx. split; [done|]. split; [|done]. cbn. set_solver.
  - by right.
  - rewrite Eq. destruct Hc as [H1 H2 H3 H4 H5 H6].
    split; cbn [Obj.refcnt set_timer_when set_refcnt methods g_refs g_timers g_hist g_tab]; try done; [|lia| |].
    + rewrite H2. rewrite decide_False by done. rewrite decide_True by set_solver. lia.
    + congruence.
    + intros _. exists a, (set_last_lru o (entered (o_exp o))).
      split; [split; [done|]; split; [by rewrite Eobjs, lookup_insert_eq|done]|]. split; [exact He|exact Hn].
Qed.

(** ** The end of the fetch *)

Lemma HSH_Unbusy_ok st g w a o p oc q queue : inv st g -> object_of (objs (h_cache st)) p oc a o ->
  ocs (h_cache st) !! p = Some oc -> Obj.objhead oc = Some q -> methods oc = true -> oc_busy oc = true ->
  nbusyobj w = None ->
  exists st' woken lost, HSH_Unbusy rush_exponent st w a queue =
      Ok (st', mkWorker (nobjcore w) (nobjhead w) (nwaitinglist w) (oc_busyobj oc), woken, lost) /\
    inv st' (with_held g (replicate (length (woken ++ option_list lost)) q ++ g_held g)) /\
    h_cache st' = put_oc (h_cache st) p (set_busyobj (set_oc_flags oc (Z.land (oc_flags oc) (Z.lnot OC_F_BUSY))) None) /\
    exists oh oh', h_ohs st !! q = Some oh /\ h_ohs st' !! q = Some oh' /\ objcs oh' = p :: remove p (objcs oh) /\
      rush_loop rush_exponent queue (default [] (waitinglist oh)) = (default [] (waitinglist oh'), woken, lost).
Proof.
  intros Hi (Ea & Eo & Ep) E Eq Em Hb Ew. assert (Hc := iv_core _ _ _ _ Hi p oc q E Eq).
  destruct (core_head compile s st g Hi p oc q E Eq) as (e & oh & Ee & He & Eoh & [Hr Hpos] & Hpin).
  destruct (iv_list _ _ _ _ Hi q oh Eoh) as [Hnd _]. pose proof (co_pos _ _ _ _ _ Hc) as Hrpos.
  destruct (co_obj _ _ _ _ _ Hc Em) as (a1 & o1 & (Ea1 & Eo1 & Ep1) & Hexp & Hn). assert (a1 = a) as -> by congruence.
  destruct (Hn (or_introl Hb)) as [n En]. pose proof (BanThm.r_pos _ _ _ (iv_ban _ _ _ _ Hi) p) as Hrel. rewrite En in Hrel.
  unfold HSH_Unbusy, get_obj, get_oc. rewrite Eo. run. rewrite Ep. run. rewrite E. run. rewrite Eq. run.
  unfold AssertObjBusy, get_obj, get_oc. rewrite Eo. run. rewrite Ep. run. rewrite E. run. rewrite Hb. run.
  destruct (oc_ban (h_bans st) !! p) as [[pb|]|]; [|done..]. run.
  rewrite (bool_decide_false (Some pb = None)) by done. cbn [negb]. run.
  assertion by lia. run (sl_refcnt_head compile s st g q e Hi Ee). assertion by lia.
  unfold get_oh. rewrite Eoh. run. rewrite Ew, bool_decide_true by done. run.
  set (oh1 := set_objcs oh (p :: remove p (objcs oh))). set (oc1 := set_busyobj _ None).
  assert (H1 : inv (put_oh st q oh1) g).
  { replace g with (with_held g (g_held g)) by (by destruct g). apply (head_change compile s st g q oh oh1); try done.
    - by apply remove_perm.
    - intros f Ef. congruence. }
  assert (H2 : inv (set_oc (put_oh st q oh1) p oc1) g).
  { destruct g as [T S h refs held]. apply (inv_core_change compile s (put_oh st q oh1) (Ghost T S h refs held)
      (put_oc (h_cache st) p oc1) (h_bans st) S h refs p oc oc1); try done.
    - apply (inv_put_oc s _ _ p oc); try done; [apply Hi|]. by apply (ei_when _ _ _ (iv_exp _ _ _ _ Hi) p oc).
    - apply Hi.
    - by right.
    - rewrite Eq. destruct Hc as [C1 C2 C3 C4 C5 C6]. split; try done.
      + unfold oc_busy. cbn [oc_flags oc1 set_busyobj set_oc_flags]. rewrite not_busy_flag. split; [done|by intros [? [=]]].
      + cbn. congruence.
      + intros _. exists a, o1. split; [done|]. split; [done|]. intros _. by exists n. }
  destruct (rush_if_ok compile s rush_exponent _ _ q oh1 queue H2 (lookup_insert_eq _ _ _))
    as (st' & woken & lost & oh' & -> & Hi' & Ec & Ebn & Esl & Eohs & Eobj & Ewl).
  { intros f Ef. congruence. }
  run. unfold oc_getobj, get_oc. rewrite Ec. cbn [h_cache set_oc set_cache put_oh set_ohs put_oc set_ocs ocs].
  rewrite lookup_insert_eq. run.
  assert (Hnb : oc_busy oc1 = false) by apply not_busy_flag. rewrite Hnb. cbn [negb]. run.
  cbn [methods oc1 set_busyobj set_oc_flags priv]. rewrite Em, Ea. run. rewrite bool_decide_true by done. run.
  exists st', woken, lost. split; [done|]. split; [exact Hi'|]. split; [done|]. exists oh, oh'. split; [done|].
  rewrite Eohs. cbn [h_ohs set_oc set_cache put_oh set_ohs]. rewrite lookup_insert_eq. done.
Qed.

End Fetch.

End HashFetch.
