(* ===== verification/HashPurge.v ===== *)
(** Purging, and what is dropped. *)
From S2P Require Import Prelude Double BinHeap BinHeapInv BanThm BanInv Mem Http Ban Vary Slinger SlingerThm Obj Expire ExpireInv ExpireOps Hash HashInv HashOps HashLoop HashRefs.

(** The cache proper, what changes objects from outside: expiry, bans, dropping and
    purging. *)
Import Double BinHeap Http Ban Slinger Obj Expire ExpireInv ExpireOps Hash HashInv HashOps HashLoop HashRefs HashFetch.

Module HashPurge.

Lemma filter_same (P Q : positive -> Prop) `{!forall x, Decision (P x), !forall x, Decision (Q x)} (l : list positive) :
  (forall x, x ∈ l -> P x <-> Q x) -> filter P l = filter Q l.
Proof.
  induction l as [|x l IH]; intros Hl; [done|]. rewrite !filter_cons. rewrite IH by (intros y Hy; apply Hl; by right).
  destruct (Hl x) as [H1 H2]; [by left|]. destruct (decide (P x)), (decide (Q x)); tauto.
Qed.

Section Purge.

Context {SL : Type} `{SlingerLaws SL} (compile : list Z -> option (list Z)) (default_keep default_grace : Z) (s : Z)
  (rush_exponent : nat) (Hkeep : 0 <= default_keep < 2 ^ 32) (Hgrace : 0 <= default_grace < 2 ^ 32).

#[local] Notation hash := (hash SL).
#[local] Notation inv := (inv compile s).

(** ** Timers and LRU lists *)

(** The heap and the lists change, and [p] passes from the timers to a reference, or
    nothing does. *)
Lemma lists_change st g c : inv st g -> exp_inv s c (g_timers g) -> objs c = objs (h_cache st) -> ocs c = ocs (h_cache st) ->
  inv (set_cache st c) g.
Proof.
  intros Hi Hc Eo Ec.
  split; cbn [h_cache h_bans h_sl h_ohs set_cache]; try apply Hi; try done; rewrite ?Ec, ?Eo; apply Hi.
Qed.

Lemma unlinked_ok st g c p : inv st g -> p ∈ g_timers g -> unlinked s (h_cache st) c (g_timers g) p ->
  inv (set_cache st c) (Ghost (g_tab g) (g_timers g ∖ {[p]}) (g_hist g) (p :: g_refs g) (g_held g)).
Proof using H H0.
  clear Hkeep Hgrace. intros Hi Hp (Hc & Eo & Ec & _). destruct (timer_core compile s st g Hi p Hp) as (oc & q & E & Eq & Em).
  apply (inv_core_change compile s st g c (h_bans st) (g_timers g ∖ {[p]}) (g_hist g) (p :: g_refs g) p oc oc); try done.
  - apply Hi.
  - rewrite Ec. by rewrite insert_id.
  - intros a o Ea _ _. by rewrite Eo.
  - intros x Hx. split; [by apply count_there|]. split; [|done]. cbn. set_solver.
  - intros x [->|Hx]%elem_of_cons; [by left|by right].
  - rewrite Eq, Eo. destruct (iv_core _ _ _ _ Hi p oc q E Eq) as [C1 C2 C3 C4 C5 C6].
    split; cbn [g_tab g_timers g_hist g_refs]; try done.
    rewrite C2, count_here. rewrite decide_True by done. rewrite decide_False by set_solver. lia.
Qed.

Lemma timer_pick_ok st g t now busy : inv st g ->
  exists c r t', exp_timer_pick (h_cache st) t now busy = Ok (c, r, t') /\
    match r with
    | None => c = h_cache st
    | Some p => p ∈ g_timers g /\
        inv (set_cache st c) (Ghost (g_tab g) (g_timers g ∖ {[p]}) (g_hist g) (p :: g_refs g) (g_held g)) /\
        objs c = objs (h_cache st) /\ ocs c = ocs (h_cache st)
    end.
Proof using H H0.
  intros Hi. destruct (exp_timer_pick_ok s (h_cache st) (g_timers g) t now busy (iv_exp _ _ _ _ Hi)) as (c & r & t' & E & _ & Hr).
  exists c, r, t'. split; [done|]. destruct r as [p|]; [|by destruct Hr]. destruct Hr as (Hp & _ & _ & Hu).
  split; [done|]. split; [by apply unlinked_ok|]. by destruct Hu as (_ & ? & ? & _).
Qed.

Lemma nuke_pick_ok st g l q : inv st g -> lrus (h_cache st) !! l = Some q ->
  exists c r, EXP_NukeOne_pick (h_cache st) l = Ok (c, r) /\
    match r with
    | None => c = h_cache st
    | Some p => p ∈ g_timers g /\
        inv (set_cache st c) (Ghost (g_tab g) (g_timers g ∖ {[p]}) (g_hist g) (p :: g_refs g) (g_held g)) /\
        objs c = objs (h_cache st) /\ ocs c = ocs (h_cache st)
    end.
Proof using H H0.
  intros Hi El. destruct (EXP_NukeOne_pick_ok s (h_cache st) (g_timers g) l q (iv_exp _ _ _ _ Hi) El) as (c & r & E & Hr).
  exists c, r. split; [done|]. destruct r as [p|]; [|by destruct Hr]. destruct Hr as (l1 & l2 & oc & Eq & _ & _ & _ & Hu).
  assert (Hp : p ∈ g_timers g).
  { apply (ei_list _ _ _ (iv_exp _ _ _ _ Hi) l q El). rewrite Eq. apply elem_of_app. right. by left. }
  split; [done|]. split; [by apply unlinked_ok|]. by destruct Hu as (_ & ? & ? & _).
Qed.

Lemma EXP_Touch_h_ok st g p oc q busy : inv st g -> ocs (h_cache st) !! p = Some oc -> Obj.objhead oc = Some q -> methods oc = true ->
  exists c r, EXP_Touch (h_cache st) p busy = Ok (c, r) /\ inv (set_cache st c) g /\
    objs c = objs (h_cache st) /\ ocs c = ocs (h_cache st).
Proof.
  intros Hi E Eq Em. destruct (core_object compile s st g p oc q Hi E Eq Em) as (a & o & _ & _ & Hl & _).
  destruct (EXP_Touch_ok s (h_cache st) (g_timers g) p busy _ oc (iv_exp _ _ _ _ Hi) E Hl) as (c & r & Er & Hc & Eo & Ec & _).
  exists c, r. split; [done|]. split; [|done]. by apply lists_change.
Qed.

(** An object gets other limits: its timer moves.  A banned one may not be revived. *)
Lemma limits_ok st g p oc q a o e : inv st g -> ocs (h_cache st) !! p = Some oc -> Obj.objhead oc = Some q ->
  methods oc = true -> object_of (objs (h_cache st)) p oc a o -> exp_ok e = true ->
  (oc_busy oc = false -> dle (ttl e) d0 = false -> dle (ttl (o_exp o)) d0 = false) ->
  exists c, EXP_Rearm default_keep default_grace (put_obj (h_cache st) a (set_o_exp o e)) a = Ok c /\
    inv (set_cache st c) g /\ objs c = <[a := set_o_exp o e]> (objs (h_cache st)) /\ lrus c = lrus (h_cache st) /\
    exists t, ocs c = <[p := set_timer_when oc t]> (ocs (h_cache st)).
Proof using H H0 Hkeep Hgrace.
  intros Hi E Eq Em Hobj He Hl. assert (Hobj' := Hobj). destruct Hobj' as (Ea & Eo & Ep).
  assert (H1 := object_change compile s st g p oc q a o (set_o_exp o e) Hi E Eq Hobj eq_refl eq_refl He Hl).
  destruct (EXP_Rearm_ok default_keep default_grace Hkeep Hgrace s (put_obj (h_cache st) a (set_o_exp o e)) (g_timers g)
    a (set_o_exp o e) p oc (iv_exp _ _ _ _ H1) (lookup_insert_eq _ _ _) Ep E Em Ea He) as (c & Er & Hc & Eobjs & Elrus & Eocs).
  exists c. split; [done|].
  assert (Ht : exists t, ocs c = <[p := set_timer_when oc t]> (ocs (h_cache st))).
  { destruct (decide (p ∈ g_timers g)); rewrite Eocs.
    - destruct (rearmed_shape default_keep default_grace (set_o_exp o e) oc) as [t ->]. by exists t.
    - exists (timer_when oc). by destruct oc. }
  split; [|by split_and!]. destruct Ht as [t Et]. destruct g as [T S h refs held]. cbn [g_timers] in *.
  apply (inv_core_change compile s (set_cache st (put_obj (h_cache st) a (set_o_exp o e))) (Ghost T S h refs held) c (h_bans st)
    S h refs p oc (set_timer_when oc t)); try done.
  - apply H1.
  - intros b x Eb _ _. by rewrite Eobjs.
  - by right.
  - rewrite Eq, Eobjs. pose proof (iv_core _ _ _ _ H1 p oc q E Eq) as [C1 C2 C3 C4 C5 C6]. by split.
Qed.

(** ** Bans *)

Lemma ban_change_ok st g b ts : inv st g ->
  BanThm.rel compile b (BanThm.Hist (ts :: BanThm.h_log (g_hist g)) (BanThm.h_pos (g_hist g)) (BanThm.h_refs (g_hist g))) ->
  inv (set_bans st b) (with_hist g (BanThm.Hist (ts :: BanThm.h_log (g_hist g)) (BanThm.h_pos (g_hist g)) (BanThm.h_refs (g_hist g)))).
Proof. intros Hi Hb. by apply (inv_bans_change compile s st g b). Qed.

(** ** [HSH_Purge] *)

Definition idle (c : cache) (p : positive) : bool :=
  match ocs c !! p with Some oc => negb (oc_busy oc) | None => false end.

Lemma purge_refs_ok q l : forall st g spc, inv st g -> NoDup l ->
  (forall p, p ∈ l -> exists oc, ocs (h_cache st) !! p = Some oc /\ Obj.objhead oc = Some q /\ Obj.refcnt oc + 1 < 2 ^ 32) ->
  8 * Z.of_nat (length l) <= spc ->
  let ps := filter (fun p => idle (h_cache st) p = true) l in
  exists st', purge_refs st q l spc = Ok (st', ps) /\ inv st' (with_refs g (ps ++ g_refs g)) /\
    h_bans st' = h_bans st /\ h_sl st' = h_sl st /\ h_ohs st' = h_ohs st /\ objs (h_cache st') = objs (h_cache st) /\
    (forall x, x ∉ ps -> ocs (h_cache st') !! x = ocs (h_cache st) !! x) /\
    (forall x oc, x ∈ ps -> ocs (h_cache st) !! x = Some oc -> exists r, ocs (h_cache st') !! x = Some (set_refcnt oc r)).
Proof.
  induction l as [|p l IH]; intros st g spc Hi Hnd Hl Hspc ps.
  - exists st. split; [done|]. split; [by destruct g|]. split_and!; try done. by intros x oc ?%not_elem_of_nil.
  - apply NoDup_cons in Hnd as [Hp Hnd]. destruct (Hl p) as (oc & E & Eq & Hlim); [by left|].
    cbn [purge_refs]. unfold get_oc at 1. rewrite E. run. rewrite Eq, bool_decide_true by done. run.
    cbn [length] in Hspc.
    assert (Eps : ps = if oc_busy oc then filter (fun x => idle (h_cache st) x = true) l
      else p :: filter (fun x => idle (h_cache st) x = true) l).
    { assert (Hid : idle (h_cache st) p = negb (oc_busy oc)) by (unfold idle; by rewrite E).
      unfold ps. rewrite filter_cons. destruct (oc_busy oc); [by rewrite decide_False by (by rewrite Hid)|].
      by rewrite decide_True by (by rewrite Hid). }
    rewrite Eps. clear ps Eps. destruct (oc_busy oc) eqn:Hb.
    + destruct (IH st g spc Hi Hnd) as (st' & -> & Hi' & Hbn & Hsl & Hoh & Hos & Hout & Hin);
        [intros x Hx; apply Hl; by right|lia|].
      exists st'. by split_and!.
    + assert (Em := unbusy_methods compile s st g p oc q Hi E Eq Hb).
      destruct (core_object compile s st g p oc q Hi E Eq Em) as (a & o & Hobj & Eg & _). rewrite Hb in Eg. run Eg.
      assertion by lia. pose proof (iv_core _ _ _ _ Hi p oc q E Eq) as Hc. pose proof (co_pos _ _ _ _ _ Hc) as Hpos.
      rewrite u32_small by lia. set (oc' := set_refcnt oc (Obj.refcnt oc + 1)).
      assert (H1 : inv (set_oc st p oc') (with_refs g (p :: g_refs g))).
      { apply (refs_change compile s st g p oc q); try done; [lia| |].
        - rewrite (co_ref _ _ _ _ _ Hc), count_here. lia.
        - intros x Hx. by apply count_there. }
      assert (Hsame : forall x, x ∈ l -> ocs (h_cache (set_oc st p oc')) !! x = ocs (h_cache st) !! x).
      { intros x Hx. cbn. rewrite lookup_insert_ne; [done|]. by intros <-. }
      destruct (IH (set_oc st p oc') _ (spc - 8) H1 Hnd) as (st' & -> & Hi' & Hbn & Hsl & Hoh & Hos & Hout & Hin).
      { intros x Hx. rewrite Hsame by done. apply Hl. by right. }
      { lia. }
      run. assert (Hf : filter (fun x => idle (h_cache (set_oc st p oc')) x = true) l = filter (fun x => idle (h_cache st) x = true) l).
      { apply filter_same. intros x Hx. unfold idle. by rewrite Hsame. }
      rewrite Hf in *. exists st'. split; [done|]. split; [|split_and!; try done].
      * apply (inv_perm compile s st' _ (p :: filter (fun x => idle (h_cache st) x = true) l ++ g_refs g) (g_held g)) in Hi';
          [exact Hi'| |done]. cbn [with_refs g_refs]. apply Permutation_middle.
      * intros x [Hx1 Hx2]%not_elem_of_cons. rewrite Hout by done. cbn. by rewrite lookup_insert_ne.
      * intros x ocx [->|Hx]%elem_of_cons Ex.
        -- exists (Obj.refcnt oc + 1). rewrite Hout by (by intros [_ ?]%list_elem_of_filter). cbn. rewrite lookup_insert_eq. by assert (ocx = oc) as -> by congruence.
        -- apply Hin; [done|]. rewrite Hsame; [done|]. by apply list_elem_of_filter in Hx as [_ ?].
Qed.

Lemma stores_kept_trans w1 w2 w3 (st1 : hash) g1 (st2 : hash) g2 (st3 : hash) g3 :
  stores_kept w1 w2 st1 g1 st2 g2 -> stores_kept w2 w3 st2 g2 st3 g3 -> stores_kept w1 w3 st1 g1 st3 g3.
Proof.
  intros (A1 & A2 & A3 & A4) (B1 & B2 & B3 & B4). split; [congruence|]. split; [congruence|]. split.
  - intros x oc E Eq. destruct (A3 x oc E Eq) as (oc' & E' & Eq'). by apply (B3 x oc').
  - intros x f E Hf. apply B4; [|done]. by apply A4.
Qed.

(** The object core is gone, or its object has the limit [t]. *)
Definition purged (st : hash) (t : double) (p : positive) : Prop :=
  ocs (h_cache st) !! p = None \/
  exists oc a o, ocs (h_cache st) !! p = Some oc /\ oc_busy oc = false /\ object_of (objs (h_cache st)) p oc a o /\
    ttl (o_exp o) = t.

(** Nothing happens to [x]. *)
Definition untouched (st st' : hash) (x : positive) : Prop :=
  ocs (h_cache st') !! x = ocs (h_cache st) !! x /\
  forall a o, o_objcore o = Some x -> objs (h_cache st) !! a = Some o -> objs (h_cache st') !! a = Some o.

(** One turn of the second loop. *)
Lemma purge_one_ok st g w p oc q a o t gr queue : inv st g -> p ∈ g_refs g -> ban_room (g_hist g) ->
  ocs (h_cache st) !! p = Some oc -> Obj.objhead oc = Some q -> oc_busy oc = false ->
  object_of (objs (h_cache st)) p oc a o -> finite t = true -> finite gr = true -> dle t d0 = true ->
  exists c st' w' r woken lost g',
    EXP_Rearm default_keep default_grace (put_obj (h_cache st) a (set_o_exp o (set_grace (set_ttl (o_exp o) t) gr))) a = Ok c /\
    deref_obj rush_exponent (set_cache st c) w a queue = Ok (st', w', r, woken, lost) /\
    inv st' g' /\ g_refs g' = take_one p (g_refs g) /\ g_timers g' = g_timers g /\
    g_held g' = replicate (length (woken ++ option_list lost)) q ++ g_held g /\
    past (g_hist g') = past (g_hist g) /\ ban_room (g_hist g') /\
    stores_kept w w' st g st' g' /\ purged st' t p /\ forall x, x <> p -> untouched st st' x.
Proof using H H0 Hkeep Hgrace.
  intros Hi Hp Hroom E Eq Hb Hobj Ht Hgr Hle. assert (Em := unbusy_methods compile s st g p oc q Hi E Eq Hb).
  destruct (core_object compile s st g p oc q Hi E Eq Em) as (a1 & o1 & (Ea1 & Eo1 & _) & _ & _ & Hexp).
  assert (Hobj' := Hobj). destruct Hobj' as (Ea & Eo & Ep).
  assert (a1 = a) as -> by congruence. assert (o1 = o) as -> by congruence.
  set (e := set_grace (set_ttl (o_exp o) t) gr).
  assert (He : exp_ok e = true).
  { unfold exp_ok in *. apply andb_prop in Hexp as [[[_ _]%andb_prop Hk]%andb_prop Hen]. cbn. by rewrite Ht, Hgr, Hk, Hen. }
  destruct (limits_ok st g p oc q a o e Hi E Eq Em Hobj He) as (c & Ec & Hi1 & Eobjs & _ & [tm Eocs]).
  { intros _ Hd. cbn in Hd. congruence. }
  set (oc1 := set_timer_when oc tm) in *.
  assert (E1 : ocs (h_cache (set_cache st c)) !! p = Some oc1) by (cbn; by rewrite Eocs, lookup_insert_eq).
  destruct (deref_oc_ok compile s rush_exponent (set_cache st c) g w p oc1 q queue Hi1 Hp Hroom E1 Eq)
    as (st' & w' & woken & lost & T & h' & Ed & Hi' & Hst & Hleft).
  exists c, st', w', (Obj.refcnt oc1 - 1), woken, lost. eexists. split; [done|]. split.
  { unfold deref_obj, get_obj. cbn [h_cache set_cache]. rewrite Eobjs, lookup_insert_eq. run. cbn [o_objcore set_o_exp]. rewrite Ep. exact Ed. }
  split; [exact Hi'|]. cbn [g_refs g_timers g_held g_hist]. split; [done|]. split; [done|]. split; [done|].
  assert (Hkept : stores_kept w w' st g st' (Ghost T (g_timers g) h' (take_one p (g_refs g))
    (replicate (length (woken ++ option_list lost)) q ++ g_held g))).
  { destruct Hst as (S1 & S2 & S3 & S4). split; [done|]. split; [done|]. split; [|done]. intros x ocx Ex Eqx.
    apply (S3 x ocx); [|done]. cbn. rewrite Eocs, lookup_insert_ne; [done|]. intros <-. congruence. }
  destruct (Obj.refcnt oc1 =? 1) eqn:E2.
  - destruct Hleft as (L1 & L2 & -> & _). split; [done|]. split.
    { destruct Hroom as [R1 R2]. split; [|done]. cbn. rewrite map_size_delete. unfold id. destruct (BanThm.h_pos _ !! p); lia. }
    split; [exact Hkept|]. split; [left; by rewrite L1, lookup_delete_eq|].
    intros x Hx. split.
    + rewrite L1, lookup_delete_ne by done. cbn. by rewrite Eocs, lookup_insert_ne.
    + intros b y Ey Eb. apply L2; [|congruence]. cbn. rewrite Eobjs, lookup_insert_ne; [done|]. congruence.
  - destruct Hleft as [L1 ->]. split; [done|]. split; [done|]. split; [exact Hkept|]. split.
    + right. exists (set_refcnt oc1 (Obj.refcnt oc1 - 1)), a, (set_o_exp o e). rewrite L1. cbn. rewrite lookup_insert_eq.
      split; [done|]. split; [done|]. split; [|done]. split; [done|]. rewrite Eobjs. split; [apply lookup_insert_eq|done].
    + intros x Hx. split.
      * rewrite L1. cbn. rewrite lookup_insert_ne by done. by rewrite Eocs, lookup_insert_ne.
      * intros b y Ey Eb. rewrite L1. cbn. rewrite Eobjs, lookup_insert_ne; [done|]. congruence.
Qed.

Lemma purge_loop_ok q t gr queue (Ht : finite t = true) (Hgr : finite gr = true) (Hle : dle t d0 = true) ps :
  forall st g w refs0, inv st g -> g_refs g ≡ₚ ps ++ refs0 -> NoDup ps -> ban_room (g_hist g) ->
  (forall p, p ∈ ps -> exists oc, ocs (h_cache st) !! p = Some oc /\ Obj.objhead oc = Some q /\ oc_busy oc = false) ->
  exists st' w' woken lost g',
    purge_loop default_keep default_grace rush_exponent st w ps t gr queue = Ok (st', w', woken, lost) /\
    inv st' g' /\ g_refs g' ≡ₚ refs0 /\ g_timers g' = g_timers g /\
    g_held g' ≡ₚ replicate (length (woken ++ lost)) q ++ g_held g /\
    past (g_hist g') = past (g_hist g) /\ stores_kept w w' st g st' g' /\
    (forall p, p ∈ ps -> purged st' t p) /\ (forall x, x ∉ ps -> untouched st st' x).
Proof using H H0 Hkeep Hgrace.
  induction ps as [|p ps IH]; intros st g w refs0 Hi Hperm Hnd Hroom Hps.
  - exists st, w, [], [], g. split_and!; try done; [|by intros p ?%not_elem_of_nil].
    split; [done|]. split; [done|]. split; [|done]. intros x oc E Eq. by exists oc.
  - apply NoDup_cons in Hnd as [Hp Hnd]. destruct (Hps p) as (oc & E & Eq & Hb); [by left|].
    assert (Em := unbusy_methods compile s st g p oc q Hi E Eq Hb).
    destruct (core_object compile s st g p oc q Hi E Eq Em) as (a & o & Hobj & Eg & _). rewrite Hb in Eg.
    assert (Hin : p ∈ g_refs g) by (rewrite Hperm; by left).
    destruct (purge_one_ok st g w p oc q a o t gr queue Hi Hin Hroom E Eq Hb Hobj Ht Hgr Hle)
      as (c & st1 & w1 & r & wk1 & lost1 & g1 & Ec & Ed & Hi1 & Er1 & Et1 & Eh1 & El1 & Hroom1 & Hk1 & Hp1 & Hout1).
    destruct (IH st1 g1 w1 refs0) as (st2 & w2 & wk2 & lost2 & g2 & E2 & Hi2 & Er2 & Et2 & Eh2 & El2 & Hk2 & Hp2 & Hout2); try done.
    { apply (Permutation_cons_inv (a := p)). rewrite Er1, <- take_one_perm by done. exact Hperm. }
    { intros x Hx. destruct (Hps x) as (ocx & Ex & Eqx & Hbx); [by right|]. exists ocx. split; [|done].
      rewrite (proj1 (Hout1 x ltac:(by intros ->))). done. }
    destruct Hobj as (_ & Eo & _). cbn [purge_loop]. run Eg. unfold get_obj at 1. rewrite Eo. run. run Ec. run Ed. run E2.
    exists st2, w2, (wk1 ++ wk2), (option_list lost1 ++ lost2), g2. split; [done|]. split; [done|]. split; [done|].
    split; [congruence|]. split; [|split; [congruence|split; [by eapply stores_kept_trans|split]]].
    + rewrite Eh2, Eh1, app_assoc, <- replicate_add. rewrite !length_app. f_equiv. f_equiv. lia.
    + intros x [->|Hx]%elem_of_cons; [|by apply Hp2]. destruct (Hout2 p Hp) as [U1 U2]. destruct Hp1 as [Hn|(oc1 & a1 & o1 & Y1 & Yb & (Y2 & Y3 & Y4) & Y5)].
      * left. by rewrite U1.
      * right. exists oc1, a1, o1. rewrite U1. split; [done|]. split; [done|]. split; [|done]. split; [done|]. split; [by apply U2|done].
    + intros x [Hx1 Hx2]%not_elem_of_cons. destruct (Hout1 x Hx1) as [U1 U2], (Hout2 x Hx2) as [V1 V2].
      split; [congruence|]. intros b y Ey Eb. apply V2; [done|]. by apply U2.
Qed.

Lemma HSH_Purge_ok st g w q oh spc t gr queue : inv st g -> h_ohs st !! q = Some oh ->
  (exists e, g_tab g !! q = Some e /\ e_in e = true) -> ban_room (g_hist g) ->
  (forall p oc, p ∈ objcs oh -> ocs (h_cache st) !! p = Some oc -> Obj.refcnt oc + 1 < 2 ^ 32) ->
  8 * Z.of_nat (length (objcs oh)) <= spc -> dlt d0 t = false -> finite gr = true ->
  exists st' w' woken lost g',
    HSH_Purge default_keep default_grace rush_exponent st w q spc t gr queue = Ok (st', w', woken, lost) /\
    inv st' g' /\ g_refs g' ≡ₚ g_refs g /\ g_timers g' = g_timers g /\
    g_held g' ≡ₚ replicate (length (woken ++ lost)) q ++ g_held g /\
    past (g_hist g') = past (g_hist g) /\ stores_kept w w' st g st' g' /\
    (forall p, p ∈ objcs oh -> idle (h_cache st) p = true -> purged st' dm1 p) /\
    (forall x, x ∉ objcs oh \/ idle (h_cache st) x = false -> untouched st st' x).
Proof using H H0 Hkeep Hgrace.
  intros Hi Eoh (e & Ee & He) Hroom Hlim Hspc Ht Hgr. destruct (iv_list _ _ _ _ Hi q oh Eoh) as [Hnd Hl].
  pose proof (iv_head _ _ _ _ Hi q e oh Ee Eoh) as Ha. rewrite He in Ha. destruct Ha as [_ Hpos].
  unfold HSH_Purge, get_oh. rewrite Eoh. run. run (sl_refcnt_head compile s st g q e Hi Ee). assertion by lia. rewrite Ht.
  destruct (purge_refs_ok q (objcs oh) st g spc Hi Hnd) as (st1 & -> & Hi1 & Hbn & Hsl & Hoh & Hos & Hout & Hin); [|lia|].
  { intros p Hp. destruct (proj1 (Hl p) Hp) as (oc & E & Eq). exists oc. split; [done|]. split; [done|]. by apply (Hlim p). }
  run. set (ps := filter (fun p => idle (h_cache st) p = true) (objcs oh)) in *.
  assert (Hps : forall p, p ∈ ps <-> idle (h_cache st) p = true /\ p ∈ objcs oh) by (intros p; unfold ps; by rewrite list_elem_of_filter).
  destruct (purge_loop_ok q dm1 (if dlt d0 gr then gr else dm1) queue eq_refl ltac:(by destruct (dlt d0 gr)) eq_refl ps st1 _ w (g_refs g) Hi1)
    as (st' & w' & woken & lost & g' & E' & Hi' & Er & Et & Eh & El & Hk & Hp & Hu); try done.
  { by apply NoDup_filter. }
  { intros p [Hid Hpl]%Hps. destruct (proj1 (Hl p) Hpl) as (oc & E & Eq). destruct (Hin p oc ltac:(by apply Hps) E) as [r Er].
    exists (set_refcnt oc r). split; [done|]. split; [done|]. unfold idle in Hid. rewrite E in Hid.
    change (oc_busy (set_refcnt oc r)) with (oc_busy oc). by destruct (oc_busy oc). }
  exists st', w', woken, lost, g'. split; [done|]. split; [done|]. split; [done|]. split; [done|]. split; [done|]. split; [done|].
  assert (Hk1 : stores_kept w w st g st1 (with_refs g (ps ++ g_refs g))).
  { split; [done|]. split; [done|]. split; [|done]. intros x oc E Eq. exists oc. split; [|done]. rewrite Hout; [done|].
    intros [_ Hx]%Hps. destruct (proj1 (Hl x) Hx) as (oc' & E'' & Eq'). congruence. }
  split; [by eapply stores_kept_trans|]. split.
  - intros p Hpl Hid. apply Hp. by apply Hps.
  - intros x Hx. assert (Hnx : x ∉ ps) by (intros [? ?]%Hps; destruct Hx; congruence).
    destruct (Hu x Hnx) as [U1 U2]. split; [by rewrite U1, Hout|]. intros a o Eo Ea. apply U2; [done|]. by rewrite Hos.
Qed.

End Purge.

End HashPurge.

(** The cache proper: [HSH_Drop], and [HSH_Deref] of an object. *)
Import Double BinHeap Http Ban Slinger Obj Expire ExpireInv ExpireOps Hash HashInv HashOps HashLoop HashRefs HashFetch HashPurge.

Module HashDrop.

Section Drop.

Context {SL : Type} `{SlingerLaws SL} (compile : list Z -> option (list Z)) (s : Z) (rush_exponent : nat).

#[local] Notation hash := (hash SL).
#[local] Notation inv := (inv compile s).

(** The references after one was given back, [n] sessions having come off the waiting
    list of the object head. *)
Definition given_back (g : ghost) (T : gmap positive entry) (h : BanThm.hist) (p q : positive) (n : nat) : ghost :=
  Ghost T (g_timers g) h (take_one p (g_refs g)) (replicate n q ++ g_held g).

Lemma deref_obj_ok st g w p oc q a o queue : inv st g -> p ∈ g_refs g -> ban_room (g_hist g) ->
  ocs (h_cache st) !! p = Some oc -> Obj.objhead oc = Some q -> objs (h_cache st) !! a = Some o -> o_objcore o = Some p ->
  exists st' w' woken lost T h',
    deref_obj rush_exponent st w a queue = Ok (st', w', Obj.refcnt oc - 1, woken, lost) /\
    let g' := given_back g T h' p q (length (woken ++ option_list lost)) in
    inv st' g' /\ past h' = past (g_hist g) /\ stores_kept w w' st g st' g'.
Proof.
  intros Hi Hp Hroom E Eq Eo Ep. unfold deref_obj, get_obj. rewrite Eo. run. rewrite Ep.
  destruct (deref_oc_ok compile s rush_exponent st g w p oc q queue Hi Hp Hroom E Eq)
    as (st' & w' & woken & lost & T & h' & -> & Hi' & Hk & Hl).
  exists st', w', woken, lost, T, h'. split; [done|]. split; [exact Hi'|]. split; [|exact Hk].
  destruct (_ =? 1); [by destruct Hl as (_ & _ & -> & _)|by destruct Hl as [_ ->]].
Qed.

(** An object that is nobody else's. *)
Lemma deref_pass_ok st g w a o queue : inv st g -> objs (h_cache st) !! a = Some o -> o_objcore o = None ->
  exists st', deref_obj rush_exponent st w a queue = Ok (st', w, 0, [], None) /\ inv st' g /\
    ocs (h_cache st') = ocs (h_cache st).
Proof.
  intros Hi Eo Ep. unfold deref_obj, get_obj. rewrite Eo. run. rewrite Ep. eexists. split; [done|]. split; [|done].
  apply (inv_objs_change compile s st g); [done|]. intros b x Eb Hb. rewrite lookup_delete_ne; [done|]. intros ->. congruence.
Qed.

Lemma pass_change st g a o' : inv st g -> (forall o, objs (h_cache st) !! a = Some o -> o_objcore o = None) ->
  inv (set_cache st (put_obj (h_cache st) a o')) g.
Proof.
  intros Hi Ho. apply (inv_objs_change compile s st g); [done|]. intros b x Eb Hb. rewrite lookup_insert_ne; [done|].
  intros ->. by rewrite (Ho x Eb) in Hb.
Qed.

Lemma HSH_Drop_ok st g w p oc q a o queue : inv st g -> object_of (objs (h_cache st)) p oc a o ->
  ocs (h_cache st) !! p = Some oc -> Obj.objhead oc = Some q -> methods oc = true -> oc_busy oc = true ->
  nbusyobj w = None -> p ∈ g_refs g -> ban_room (g_hist g) ->
  exists st' w' woken lost T h', HSH_Drop rush_exponent st w a queue = Ok (st', w', Obj.refcnt oc - 1, woken, lost) /\
    let g' := given_back g T h' p q (length (woken ++ lost)) in
    inv st' g' /\ past h' = past (g_hist g) /\ stores_kept w w' st g st' g'.
Proof.
  intros Hi Hobj E Eq Em Hb Ew Hp Hroom. assert (Hobj' := Hobj). destruct Hobj' as (Ea & Eo & Ep).
  destruct (core_object compile s st g p oc q Hi E Eq Em) as (a1 & o1 & (Ea1 & Eo1 & _) & _ & _ & Hexp).
  assert (a1 = a) as -> by congruence. assert (o1 = o) as -> by congruence.
  set (o' := set_o_exp o (set_ttl (o_exp o) dm1)).
  assert (H1 : inv (set_cache st (put_obj (h_cache st) a o')) g).
  { apply (object_change compile s st g p oc q a o o'); try done.
    unfold exp_ok in *. apply andb_prop in Hexp as [[[_ Hg]%andb_prop Hk]%andb_prop Hen]. cbn. by rewrite Hg, Hk, Hen. }
  destruct (HSH_Unbusy_ok compile s rush_exponent _ g w a o' p oc q queue H1) as (st2 & wk & lost & E2 & H2 & Ec2 & _); try done.
  { split; [done|]. split; [apply lookup_insert_eq|done]. }
  set (oc2 := set_busyobj (set_oc_flags oc (Z.land (oc_flags oc) (Z.lnot OC_F_BUSY))) None) in *.
  assert (Eoc2 : ocs (h_cache st2) !! p = Some oc2) by (rewrite Ec2; apply lookup_insert_eq).
  assert (Eo2 : objs (h_cache st2) !! a = Some o') by (rewrite Ec2; apply lookup_insert_eq).
  destruct (deref_obj_ok st2 _ (mkWorker (nobjcore w) (nobjhead w) (nwaitinglist w) (oc_busyobj oc)) p oc2 q a o' queue H2)
    as (st' & w' & wk' & lost' & T & h' & E3 & H3 & Hpast & K1 & K2 & K3 & K4); try done.
  exists st', w', (wk ++ wk'), (option_list lost ++ option_list lost'), T, h'. split; [|split; [|split; [exact Hpast|]]].
  - unfold HSH_Drop, get_obj. rewrite Eo. run. rewrite Ep. unfold assert_pass_or_busy, get_oc. rewrite E. run. rewrite Hb. run.
    fold o'. run E2. by run E3.
  - unfold given_back in *. cbn [with_held g_timers g_refs g_held] in H3.
    apply (inv_perm compile s st' _ (take_one p (g_refs g))
      (replicate (length ((wk ++ wk') ++ option_list lost ++ option_list lost')) q ++ g_held g)) in H3; [exact H3|done|].
    cbn [g_held]. rewrite (app_assoc (replicate _ q) (replicate _ q)), <- replicate_add, !length_app. f_equiv. f_equiv. lia.
  - split; [done|]. split; [done|]. split; [|exact K4]. intros x ocx Ex Eqx. apply (K3 x ocx); [|done].
    rewrite Ec2. cbn. rewrite lookup_insert_ne; [done|]. congruence.
Qed.

(** ** [HSH_Cleanup] *)

Lemma free_oc_ok st g p oc : inv st g -> ocs (h_cache st) !! p = Some oc -> Obj.objhead oc = None ->
  inv (free_oc st p) (with_hist g (BanThm.Hist (BanThm.h_log (g_hist g)) (delete p (BanThm.h_pos (g_hist g))) (BanThm.h_refs (g_hist g)))).
Proof.
  intros Hi E Eq. pose proof (iv_fresh _ _ _ _ Hi p oc E Eq) as [_ _ _ Hc Epos].
  assert (Hnt : p ∉ g_timers g).
  { intros Hp. destruct (timer_core compile s st g Hi p Hp) as (oc' & q' & E' & Eq' & _). congruence. }
  assert (Hsame : forall x, x <> p -> same_at g (with_hist g (BanThm.Hist (BanThm.h_log (g_hist g)) (delete p (BanThm.h_pos (g_hist g)))
    (BanThm.h_refs (g_hist g)))) x).
  { intros x Hx. split; [done|]. split; [done|]. cbn. by rewrite lookup_delete_ne. }
  split; cbn [free_oc set_bans set_cache h_cache h_bans h_sl h_ohs with_hist g_tab g_timers g_hist g_refs g_held set_ocs ocs objs];
    try apply Hi.
  - apply (delete_frame s (h_cache st) (g_timers g) p (objs (h_cache st))); [apply Hi|done|done].
  - apply BanThm.free_rel; [apply Hi|]. by apply (BanThm.rel_none compile _ _ _ (iv_ban _ _ _ _ Hi)).
  - intros x. cbn [oc_ban set_oc_ban]. destruct (decide (x = p)) as [->|Hx].
    + rewrite !lookup_delete_eq. by split; intros [? ?].
    + rewrite !lookup_delete_ne by done. apply Hi.
  - intros q oh Eoh. destruct (iv_list _ _ _ _ Hi q oh Eoh) as [Hn Hl]. split; [done|]. intros x. rewrite Hl.
    destruct (decide (x = p)) as [->|Hx]; [|by rewrite lookup_delete_ne].
    rewrite lookup_delete_eq, E. split; intros (y & Ey & Eyq); congruence.
  - intros x ocx q Ex Eqx. destruct (decide (x = p)) as [->|Hx]; [by rewrite lookup_delete_eq in Ex|].
    rewrite lookup_delete_ne in Ex by done. by apply (core_ok_same (objs (h_cache st)) _ g); [|apply Hsame| |apply Hi].
  - intros x ocx Ex Eqx. destruct (decide (x = p)) as [->|Hx]; [by rewrite lookup_delete_eq in Ex|].
    rewrite lookup_delete_ne in Ex by done. by apply (core_fresh_same g); [apply Hsame|apply Hi].
  - intros x Hx. rewrite lookup_delete_ne; [exact (iv_refs _ _ _ _ Hi x Hx)|]. intros <-. apply count_in in Hx. lia.
Qed.

Lemma free_oh_ok st g q e : inv st g -> g_tab g !! q = Some e -> e_in e = false ->
  inv (set_ohs (set_sl st (sl_free (h_sl st) q)) (delete q (h_ohs st)))
    (Ghost (delete q (g_tab g)) (g_timers g) (g_hist g) (g_refs g) (g_held g)).
Proof.
  intros Hi Ee He. apply (inv_heads_change compile s st g); try done.
  - by apply (sl_free_ok _ _ q e); [apply Hi|..].
  - intros x. destruct (decide (x = q)) as [->|Hx]; [rewrite !lookup_delete_eq; by split; intros [? ?]|].
    rewrite !lookup_delete_ne by done. apply Hi.
  - intros x f ox Ex Eox. destruct (decide (x = q)) as [->|Hx]; [by rewrite lookup_delete_eq in Ex|].
    rewrite lookup_delete_ne in Ex by done. rewrite lookup_delete_ne in Eox by done. exact (iv_head _ _ _ _ Hi x f ox Ex Eox).
  - intros x ox Eox. destruct (decide (x = q)) as [->|Hx]; [by rewrite lookup_delete_eq in Eox|].
    rewrite lookup_delete_ne in Eox by done. left. by exists ox.
  - intros x f Ex Hf _. exists f. rewrite lookup_delete_ne; [done|congruence].
  - intros x Hx. destruct (iv_held _ _ _ _ Hi x Hx) as (f & Ef & Hf). exists f. rewrite lookup_delete_ne; [done|congruence].
Qed.

(** What the worker had in store is gone, and nothing else. *)
Lemma HSH_Cleanup_ok st g w : inv st g -> worker_ok st g w ->
  exists st' w' T h, HSH_Cleanup st w = (st', w') /\ nobjcore w' = None /\ nobjhead w' = None /\
    inv st' (Ghost T (g_timers g) h (g_refs g) (g_held g)) /\ past h = past (g_hist g) /\
    (forall x ocx, nobjcore w <> Some x -> ocs (h_cache st) !! x = Some ocx -> ocs (h_cache st') !! x = Some ocx) /\
    (forall x f, nobjhead w <> Some x -> g_tab g !! x = Some f -> T !! x = Some f).
Proof.
  intros Hi [Hwc Hwh]. unfold HSH_Cleanup.
  set (st1 := match nobjcore w with Some p => free_oc st p | None => st end).
  assert (H1 : exists h, inv st1 (with_hist g h) /\ past h = past (g_hist g) /\
    forall x ocx, nobjcore w <> Some x -> ocs (h_cache st) !! x = Some ocx -> ocs (h_cache st1) !! x = Some ocx).
  { unfold st1. destruct (nobjcore w) as [p|].
    - destruct (Hwc p eq_refl) as (oc & E & Eq). eexists. split; [by eapply free_oc_ok|]. split; [done|].
      intros x ocx Hx Ex. cbn. rewrite lookup_delete_ne; [done|congruence].
    - exists (g_hist g). split; [by destruct g|done]. }
  destruct H1 as (h & H1 & Hp & Hk). destruct (nobjhead w) as [q|].
  - destruct (Hwh q eq_refl) as (e & Ee & He). pose proof (free_oh_ok st1 _ q e H1 Ee He) as H2.
    eexists _, _, (delete q (g_tab g)), h. split; [done|]. split; [done|]. split; [done|]. split; [exact H2|].
    split; [done|]. split; [done|]. intros x f Hx Ex. rewrite lookup_delete_ne; [done|congruence].
  - eexists _, _, (g_tab g), h. split; [done|]. split; [done|]. split; [done|]. split; [exact H1|done].
Qed.

End Drop.

End HashDrop.
