(* ===== verification/HashSys.v ===== *)
(** The cache as a system: the calls that workers, sessions, the expiry and the
    command line make, in any order, as long as each keeps to its contract. *)
From S2P Require Import Prelude Double BinHeap BinHeapInv Vsb BanThm BanInv BanInsert BanSpec Mem Http HttpLines Ban Vary VarySpec VaryThm Slinger SlingerThm Obj Expire ExpireInv ExpireOps Hash HashInv HashOps HashLoop HashLookup HashRefs HashPurge.
Import Double BinHeap BanSpec BanInv BanInsert Mem Http HttpLines Ban VarySpec VaryThm Slinger Obj Expire ExpireInv ExpireOps
  Hash HashInv HashOps HashLoop HashLookup HashRefs HashFetch HashPurge HashDrop.

Module HashSys.

(** ** States and calls *)

(** The workers by their addresses; the references to object cores that sessions,
    the timer and the nuking hold, those to object heads that sessions hold; the tests
    of every ban that was ever set, newest first. *)
Record sys (SL : Type) := Sys {
  y_st : hash SL;
  y_ws : gmap positive worker;
  y_refs : list positive;
  y_held : list positive;
  y_log : list (list test);
}.
Arguments Sys {SL}.
Arguments y_st {SL}.
Arguments y_ws {SL}.
Arguments y_refs {SL}.
Arguments y_held {SL}.
Arguments y_log {SL}.

Inductive op :=
  | OpLookup (i : positive) (v : view) (sp : sess) (self aoc aoh : positive)   (* [HSH_Lookup] *)
  | OpCleanup (i : positive)                                               (* [HSH_Cleanup] *)
  | OpMake (p : option positive) (a lru : positive) (e : exp) (nhttp : nat)  (* [STV_MkObject] *)
  | OpFill (a : positive) (h : http) (vary : option (list Z))               (* the fetch fills it *)
  | OpInsert (a : positive)                                                (* [EXP_Insert] *)
  | OpUnbusy (i a : positive) (queue : positive -> bool)                      (* [HSH_Unbusy] *)
  | OpDrop (i a : positive) (queue : positive -> bool)                        (* [HSH_Drop] *)
  | OpRef (p : positive)                                                    (* [HSH_Ref] *)
  | OpDeref (i p : positive) (queue : positive -> bool)                       (* [HSH_Deref] of an object core *)
  | OpDerefObj (i a : positive) (queue : positive -> bool)                    (* [HSH_Deref] of an object *)
  | OpPurge (i q : positive) (spc : Z) (t gr : double) (queue : positive -> bool) (* [HSH_Purge] *)
  | OpTimer (t now : double) (busy : bool)                                 (* the timer, up to [HSH_Deref] *)
  | OpNuke (lru : positive)                                                (* [EXP_NukeOne], up to [HSH_Deref] *)
  | OpTouch (p : positive) (busy : bool)                                    (* [EXP_Touch] *)
  | OpLimits (a : positive) (e : exp)                                       (* VCL sets limits, [EXP_Rearm] *)
  | OpBan (ts : list test) (p : positive) (t0 : Z) (ban_dups : bool).         (* the CLI command *)

(** What a call answers: an object core with its head, or the object core taken. *)
Inductive answer := Done | Found (r : option (positive * positive)) | Taken (r : option positive).

(** The object head of an object core. *)
Definition head_of {SL} (st : hash SL) (p : positive) : option positive := oc ← ocs (h_cache st) !! p; Obj.objhead oc.

(** The object core of an object. *)
Definition core_of {SL} (st : hash SL) (a : positive) : option positive := o ← objs (h_cache st) !! a; o_objcore o.

Definition without (p : option positive) (l : list positive) : list positive :=
  match p with Some p => take_one p l | None => l end.

Definition filled (o : object) (h : http) (vary : option (list Z)) : object :=
  mkObj (xid o) (o_objcore o) (o_lru o) vary (hits o) (o_exp o) (last_lru o) h.

(** The references that [n] sessions take along. *)
Definition along (q : option positive) (n : nat) : list positive := match q with Some q => replicate n q | None => [] end.

(** Those of a session that looks up. *)
Definition held_after (sp sp' : sess) (r : option (positive * positive)) (held : list positive) : list positive :=
  match r, hash_objhead sp with
  | None, None => if esi_level sp =? 0 then held else option_list (hash_objhead sp') ++ held
  | None, Some q => if esi_level sp =? 0 then take_one q held else held
  | Some _, None => held
  | Some _, Some q => take_one q held
  end.

Section Sys.

Context {SL : Type} `{SlingerLaws SL}.
Context (malloc : Z -> option (list Z)) (compile : list Z -> option (list Z)) (exec : list Z -> list Z -> Z).
Context (default_keep default_grace : Z) (http_gzip_support : bool) (rush_exponent : nat).

#[local] Notation sys := (sys SL).

Definition run_op (y : sys) (o : op) : res (sys * answer) :=
  let st := y_st y in
  match o with
  | OpLookup i v sp self aoc aoh =>
      w ← deref (y_ws y !! i);
      '(st, w, sp', r) ← HSH_Lookup exec default_keep default_grace http_gzip_support st (v_mem v) w sp self aoc aoh;
      mret (Sys st (<[i := w]> (y_ws y)) (option_list (fst <$> r) ++ y_refs y) (held_after sp sp' r (y_held y)) (y_log y), Found r)
  | OpCleanup i =>
      w ← deref (y_ws y !! i);
      let '(st, w) := HSH_Cleanup st w in
      mret (Sys st (<[i := w]> (y_ws y)) (y_refs y) (y_held y) (y_log y), Done)
  | OpMake p a lru e nhttp =>
      st ← STV_MkObject st a lru p e nhttp;
      mret (Sys st (y_ws y) (y_refs y) (y_held y) (y_log y), Done)
  | OpFill a h vary =>
      o ← get_obj (h_cache st) a;
      mret (Sys (set_cache st (put_obj (h_cache st) a (filled o h vary))) (y_ws y) (y_refs y) (y_held y) (y_log y), Done)
  | OpInsert a =>
      c ← EXP_Insert default_keep default_grace (h_cache st) a;
      mret (Sys (set_cache st c) (y_ws y) (y_refs y) (y_held y) (y_log y), Done)
  | OpUnbusy i a queue =>
      w ← deref (y_ws y !! i);
      let q := core_of st a ≫= head_of st in
      '(st, w, woken, lost) ← HSH_Unbusy rush_exponent st w a queue;
      mret (Sys st (<[i := w]> (y_ws y)) (y_refs y) (along q (length (woken ++ option_list lost)) ++ y_held y) (y_log y), Done)
  | OpDrop i a queue =>
      w ← deref (y_ws y !! i);
      let p := core_of st a in
      '(st, w, _, woken, lost) ← HSH_Drop rush_exponent st w a queue;
      mret (Sys st (<[i := w]> (y_ws y)) (without p (y_refs y))
        (along (p ≫= head_of (y_st y)) (length (woken ++ lost)) ++ y_held y) (y_log y), Done)
  | OpRef p =>
      c ← HSH_Ref (h_cache st) p;
      mret (Sys (set_cache st c) (y_ws y) (p :: y_refs y) (y_held y) (y_log y), Done)
  | OpDeref i p queue =>
      w ← deref (y_ws y !! i);
      let q := head_of st p in
      '(st, w, _, woken, lost) ← deref_oc rush_exponent st w p queue;
      mret (Sys st (<[i := w]> (y_ws y)) (take_one p (y_refs y)) (along q (length (woken ++ option_list lost)) ++ y_held y) (y_log y), Done)
  | OpDerefObj i a queue =>
      w ← deref (y_ws y !! i);
      let p := core_of st a in
      '(st, w, _, woken, lost) ← deref_obj rush_exponent st w a queue;
      mret (Sys st (<[i := w]> (y_ws y)) (without p (y_refs y))
        (along (p ≫= head_of (y_st y)) (length (woken ++ option_list lost)) ++ y_held y) (y_log y), Done)
  | OpPurge i q spc t gr queue =>
      w ← deref (y_ws y !! i);
      '(st, w, woken, lost) ← HSH_Purge default_keep default_grace rush_exponent st w q spc t gr queue;
      mret (Sys st (<[i := w]> (y_ws y)) (y_refs y) (replicate (length (woken ++ lost)) q ++ y_held y) (y_log y), Done)
  | OpTimer t now busy =>
      '(c, r, _) ← exp_timer_turn (h_cache st) t now busy;
      mret (Sys (set_cache st c) (y_ws y) (option_list r ++ y_refs y) (y_held y) (y_log y), Taken r)
  | OpNuke lru =>
      '(c, r) ← EXP_NukeOne (h_cache st) lru;
      mret (Sys (set_cache st c) (y_ws y) (option_list r ++ y_refs y) (y_held y) (y_log y), Taken r)
  | OpTouch p busy =>
      '(c, _) ← EXP_Touch (h_cache st) p busy;
      mret (Sys (set_cache st c) (y_ws y) (y_refs y) (y_held y) (y_log y), Done)
  | OpLimits a e =>
      o ← get_obj (h_cache st) a;
      c ← EXP_Rearm default_keep default_grace (put_obj (h_cache st) a (set_o_exp o e)) a;
      mret (Sys (set_cache st c) (y_ws y) (y_refs y) (y_held y) (y_log y), Done)
  | OpBan ts p t0 ban_dups =>
      '(b, _) ← ccf_ban malloc compile (h_bans st) (ban_args ts) p t0 ban_dups;
      mret (Sys (set_bans st b) (y_ws y) (y_refs y) (y_held y) (ts :: y_log y), Done)
  end.

(** ** Contracts *)

(** The object of an object core to which a session has a reference. *)
Definition used (y : sys) (p : positive) (oc : objcore) (a : positive) (o : object) : Prop :=
  p ∈ y_refs y /\ ocs (h_cache (y_st y)) !! p = Some oc /\ methods oc = true /\ object_of (objs (h_cache (y_st y))) p oc a o.

(** Counters do not wrap. *)
Definition roomy (y : sys) : Prop :=
  Z.of_nat (size (ocs (h_cache (y_st y)))) + 5 < 2 ^ 32 /\ Z.of_nat (length (y_log y)) < 2 ^ 32 /\
  (forall p oc, ocs (h_cache (y_st y)) !! p = Some oc -> Obj.refcnt oc + 1 < 2 ^ 32) /\
  bh_next (exp_heap (h_cache (y_st y))) < 2 ^ 31.

(** What the callers see to.  New structures are where none is; only the holder of a
    reference uses it; a banned object gets no time to live again.  The timer and the
    nuking find no object core to take that is still busy: a session keeps its reference to one,
    and one that is due while it is busy fails an assertion ([ExpireThm.exp_busy_race]). *)
Definition allowed (y : sys) (o : op) : Prop :=
  roomy y /\
  match o with
  | OpLookup i v sp self aoc aoh =>
      is_Some (y_ws y !! i) /\ ocs (h_cache (y_st y)) !! aoc = None /\ h_ohs (y_st y) !! aoh = None /\
      length (sp_digest sp) = DIGEST_LEN /\ (forall q, hash_objhead sp = Some q -> q ∈ y_held y) /\
      asks v sp /\ forall p, ready v (h_cache (y_st y)) sp p
  | OpCleanup i => is_Some (y_ws y !! i)
  | OpMake p a lru e nhttp => objs (h_cache (y_st y)) !! a = None /\ exp_ok e = true /\
      match p with
      | None => True
      | Some p => p ∈ y_refs y /\ exists oc, ocs (h_cache (y_st y)) !! p = Some oc /\ methods oc = false
      end
  | OpFill a h vary => core_of (y_st y) a = None /\ is_Some (objs (h_cache (y_st y)) !! a) \/
      exists p oc o, used y p oc a o /\ oc_busy oc = true
  | OpInsert a => exists p oc o, used y p oc a o /\ oc_busy oc = true /\ timer_idx (h_cache (y_st y)) p = BINHEAP_NOIDX /\
      deq (entered (o_exp o)) d0 = false /\ is_Some (lrus (h_cache (y_st y)) !! o_lru o)
  | OpUnbusy i a _ => exists w p oc o, y_ws y !! i = Some w /\ nbusyobj w = None /\ used y p oc a o /\ oc_busy oc = true
  | OpDrop i a _ => exists w o, y_ws y !! i = Some w /\ objs (h_cache (y_st y)) !! a = Some o /\
      match core_of (y_st y) a with
      | Some p => nbusyobj w = None /\ exists oc, used y p oc a o /\ oc_busy oc = true
      | None => True
      end
  | OpRef p => exists oc a o, used y p oc a o
  | OpDeref i p _ => is_Some (y_ws y !! i) /\ p ∈ y_refs y
  | OpDerefObj i a _ => is_Some (y_ws y !! i) /\ is_Some (objs (h_cache (y_st y)) !! a) /\
      match core_of (y_st y) a with Some p => exists oc o, used y p oc a o | None => True end
  | OpPurge i q spc t gr _ => is_Some (y_ws y !! i) /\ (exists p, p ∈ y_refs y /\ head_of (y_st y) p = Some q) /\
      8 * Z.of_nat (length (hung (y_st y) q)) <= spc /\ dlt d0 t = false /\ finite gr = true
  | OpTimer t now _ => none_due (h_cache (y_st y)) t now
  | OpNuke lru => is_Some (lrus (h_cache (y_st y)) !! lru) /\ none_idle (h_cache (y_st y))
  | OpTouch p _ => exists oc a o, used y p oc a o
  | OpLimits a e => exists p oc o, used y p oc a o /\ exp_ok e = true /\
      (oc_busy oc = false -> dle (ttl e) d0 = false -> dle (ttl (o_exp o)) d0 = false)
  | OpBan ts p _ _ => tab (h_bans (y_st y)) !! p = None /\ ts <> [] /\ tests_ok compile ts
  end.

(** [s] is for the page size of the heap.  The storages are there from the start. *)
Inductive reach (s : Z) : sys -> Prop :=
  | reach_init c b sl ls ws p t0 ban_dups :
      EXP_Init (mkCache ∅ ∅ ∅ (mkBH [] 0 0 0 0 0 ∅) 0 0 0) (8 * 2 ^ s) = Ok c ->
      BAN_Init malloc BanThm.no_bans p t0 ban_dups = Ok b -> sl_rel sl ∅ -> NoDup ls ->
      (forall i w, ws !! i = Some w -> w = mkWorker None None false None) ->
      reach s (Sys (mkHash (fold_right (fun l c => LRU_Alloc c l) c ls) b sl ∅) ws [] [] [[]])
  | reach_op y o y' r : reach s y -> allowed y o -> run_op y o = Ok (y', r) -> reach s y'.

End Sys.

End HashSys.
