(* ===== verification/HashStep.v ===== *)
(** The cache as a system: every call that keeps to its contract succeeds and keeps
    the invariant. *)
From S2P Require Import Prelude Double BinHeap BinHeapInv Vsb BanThm BanInv BanInsert BanSpec Mem Http HttpLines Ban Vary VarySpec VaryThm Slinger SlingerThm Obj Expire ExpireInv ExpireOps ExpireThm Hash HashInv HashOps HashLoop HashLookup HashRefs HashPurge HashSys.
Import Double BinHeap BanSpec Mem Http HttpLines Ban VarySpec VaryThm Slinger Obj Expire ExpireInv ExpireOps
  Hash HashInv HashOps HashLoop HashLookup HashRefs HashFetch HashPurge HashDrop HashSys.

Module HashStep.

(** No two workers have the same in store. *)
Definition apart (ws : gmap positive worker) : Prop :=
  forall i j w w', i <> j -> ws !! i = Some w -> ws !! j = Some w' ->
    (forall p, nobjcore w = Some p -> nobjcore w' <> Some p) /\ (forall q, nobjhead w = Some q -> nobjhead w' <> Some q).

Section Step.

Context {SL : Type} `{SlingerLaws SL} (malloc : Z -> option (list Z)) (compile : list Z -> option (list Z))
  (exec : list Z -> list Z -> Z) `{!Pcre compile exec} (Hmalloc : Vsb.total_malloc malloc).
Context (default_keep default_grace : Z) (http_gzip_support : bool) (rush_exponent : nat) (s : Z)
  (Hkeep : 0 <= default_keep < 2 ^ 32) (Hgrace : 0 <= default_grace < 2 ^ 32).

#[local] Notation inv := (inv compile s).
#[local] Notation run_op := (run_op malloc compile exec default_keep default_grace http_gzip_support rush_exponent).
#[local] Notation allowed := (allowed compile).

Record wf (y : sys SL) (g : ghost) : Prop := {
  wf_inv : inv (y_st y) g;
  wf_refs : g_refs g = y_refs y;
  wf_held : g_held g = y_held y;
  wf_past : past (g_hist g) = (y_log y, []);
  wf_workers i w : y_ws y !! i = Some w -> worker_ok (y_st y) g w;
  wf_apart : apart (y_ws y);
}.

(** What a worker's step leaves in the stores of all. *)
Definition same_stores (ws ws' : gmap positive worker) : Prop :=
  forall i w', ws' !! i = Some w' -> exists w, ws !! i = Some w /\ nobjcore w' = nobjcore w /\ nobjhead w' = nobjhead w.

Definition fresh_stay (st : hash SL) (g : ghost) (st' : hash SL) (g' : ghost) : Prop :=
  (forall x oc, ocs (h_cache st) !! x = Some oc -> Obj.objhead oc = None ->
    exists oc', ocs (h_cache st') !! x = Some oc' /\ Obj.objhead oc' = None) /\
  (forall x f, g_tab g !! x = Some f -> e_in f = false -> g_tab g' !! x = Some f).

Lemma fresh_same st g st' g' : ocs (h_cache st') = ocs (h_cache st) -> g_tab g' = g_tab g -> fresh_stay st g st' g'.
Proof. intros Eo Et. split; [|by rewrite Et]. intros x oc E Eq. exists oc. by rewrite Eo. Qed.

Lemma fresh_insert st g st' g' p oc' : ocs (h_cache st') = <[p := oc']> (ocs (h_cache st)) -> g_tab g' = g_tab g ->
  (forall oc, ocs (h_cache st) !! p = Some oc -> Obj.objhead oc <> None) -> fresh_stay st g st' g'.
Proof.
  intros Eo Et Hp. split; [|by rewrite Et]. intros x oc E Eq. exists oc. rewrite Eo, lookup_insert_ne; [done|].
  intros <-. by apply (Hp oc).
Qed.

Lemma same_stores_refl ws : same_stores ws ws.
Proof. intros i w E. by exists w. Qed.

Lemma same_stores_insert ws i w w' : ws !! i = Some w -> nobjcore w' = nobjcore w -> nobjhead w' = nobjhead w ->
  same_stores ws (<[i := w']> ws).
Proof.
  intros E Ec Eh j x. destruct (decide (j = i)) as [->|Hj].
  - rewrite lookup_insert_eq. intros [= <-]. by exists w.
  - rewrite lookup_insert_ne by done. intros Ej. by exists x.
Qed.

(** *** The next state *)

Lemma wf_next st g ws refs held log : inv st g -> refs ≡ₚ g_refs g -> held ≡ₚ g_held g ->
  past (g_hist g) = (log, []) -> (forall i w, ws !! i = Some w -> worker_ok st g w) -> apart ws ->
  exists g', wf (Sys st ws refs held log) g'.
Proof using.
  intros Hi Hr Hh Hp Hw Ha. exists (Ghost (g_tab g) (g_timers g) (g_hist g) refs held). split; try done.
  - by apply (inv_perm compile s st g).
  - intros i w E. destruct (Hw i w E) as [H1 H2]. by split.
Qed.

Lemma wf_kept y g st' g' ws' refs held log : wf y g -> inv st' g' -> refs ≡ₚ g_refs g' -> held ≡ₚ g_held g' ->
  past (g_hist g') = (log, []) -> same_stores (y_ws y) ws' -> fresh_stay (y_st y) g st' g' ->
  exists g'', wf (Sys st' ws' refs held log) g''.
Proof using.
  intros Hwf Hi Hr Hh Hp Hs [Hc Ht]. apply (wf_next st' g'); try done.
  - intros i w' E. destruct (Hs i w' E) as (w & Ew & Ec & Eh). destruct (wf_workers _ _ Hwf i w Ew) as [H1 H2]. split.
    + intros p. rewrite Ec. intros Ep. destruct (H1 p Ep) as (oc & Eoc & Eq). by apply (Hc p oc).
    + intros q. rewrite Eh. intros Eq. destruct (H2 q Eq) as (e & Ee & He). exists e. split; [by apply Ht|done].
  - intros i j x x' Hij Ei Ej. destruct (Hs i x Ei) as (w & Ew & -> & ->), (Hs j x' Ej) as (w2 & Ew2 & -> & ->).
    by apply (wf_apart _ _ Hwf i j).
Qed.

(** *** Room *)

Lemma wf_dom y g : wf y g -> size (BanThm.h_pos (g_hist g)) = size (ocs (h_cache (y_st y))) /\
  BanThm.h_log (g_hist g) = y_log y /\ BanThm.h_refs (g_hist g) = [].
Proof using.
  intros Hwf. pose proof (wf_past _ _ Hwf) as Hp. unfold past in Hp. injection Hp as Hl Hr. split; [|done].
  rewrite <- !size_dom. f_equal. apply set_eq. intros x. rewrite !elem_of_dom.
  rewrite <- (BanThm.rel_dom compile _ _ _ (iv_ban _ _ _ _ (wf_inv _ _ Hwf))). symmetry. apply (iv_dom _ _ _ _ (wf_inv _ _ Hwf)).
Qed.

Lemma wf_room y g : wf y g -> roomy y -> ban_room (g_hist g).
Proof using.
  intros Hwf (Hsz & Hlog & _). destruct (wf_dom y g Hwf) as (E1 & E2 & E3). unfold ban_room. rewrite E1, E2, E3. cbn [length]. lia.
Qed.

Lemma wf_size y g : wf y g -> roomy y -> Z.of_nat (size (g_timers g)) + 1 < 2 ^ 31.
Proof using.
  intros Hwf (_ & _ & _ & Hn). by rewrite (ei_size _ _ _ (iv_exp _ _ _ _ (wf_inv _ _ Hwf))) in Hn.
Qed.

(** *** Uses of references *)

Lemma used_head y g p oc a o : wf y g -> used y p oc a o -> p ∈ g_refs g /\ exists q, Obj.objhead oc = Some q /\
  head_of (y_st y) p = Some q /\ core_of (y_st y) a = Some p.
Proof using.
  intros Hwf (Hp & E & _ & _ & Eo & Ep). rewrite <- (wf_refs _ _ Hwf) in Hp. split; [done|].
  destruct (ref_core compile s _ _ (wf_inv _ _ Hwf) p Hp) as (oc' & q & E' & Eq). assert (oc' = oc) as -> by congruence.
  exists q. split; [done|]. unfold head_of, core_of. rewrite E, Eo. done.
Qed.

Lemma not_fresh (y : sys SL) p oc q : Obj.objhead oc = Some q -> ocs (h_cache (y_st y)) !! p = Some oc ->
  forall oc', ocs (h_cache (y_st y)) !! p = Some oc' -> Obj.objhead oc' <> None.
Proof using. intros Eq E oc' E'. congruence. Qed.

(** *** Steps *)

Definition steps (y : sys SL) (o : op) : Prop := exists y' r g', run_op y o = Ok (y', r) /\ wf y' g'.

Lemma step_intro y g o st' g' ws' refs held log r : wf y g -> run_op y o = Ok (Sys st' ws' refs held log, r) -> inv st' g' ->
  refs ≡ₚ g_refs g' -> held ≡ₚ g_held g' -> past (g_hist g') = (log, []) -> same_stores (y_ws y) ws' ->
  fresh_stay (y_st y) g st' g' -> steps y o.
Proof using.
  intros Hwf E Hi Hr Hh Hp Hs Hf. destruct (wf_kept y g st' g' ws' refs held log Hwf Hi Hr Hh Hp Hs Hf) as [g'' Hg].
  by eexists _, r, g''.
Qed.

(** A call that only changes the cache and the bans. *)
Lemma quiet y g o st' g' r : wf y g ->
  run_op y o = Ok (Sys st' (y_ws y) (y_refs y) (y_held y) (y_log y), r) -> inv st' g' ->
  g_refs g' = g_refs g -> g_held g' = g_held g -> past (g_hist g') = past (g_hist g) ->
  fresh_stay (y_st y) g st' g' -> steps y o.
Proof using.
  intros Hwf E Hi Hr Hh Hp Hf. apply (step_intro y g o st' g' (y_ws y) (y_refs y) (y_held y) (y_log y) r); try done.
  - by rewrite Hr, (wf_refs _ _ Hwf).
  - by rewrite Hh, (wf_held _ _ Hwf).
  - by rewrite Hp, (wf_past _ _ Hwf).
  - apply same_stores_refl.
Qed.

(** *** Calls without a worker *)

Lemma make_ok y g p a lru e nhttp : wf y g -> allowed y (OpMake p a lru e nhttp) -> steps y (OpMake p a lru e nhttp).
Proof using.
  intros Hwf (Hroom & Ea & He & Hp). assert (Hi := wf_inv _ _ Hwf). destruct p as [p|].
  - destruct Hp as (Hp & oc & E & Em). rewrite <- (wf_refs _ _ Hwf) in Hp.
    destruct (ref_core compile s _ _ Hi p Hp) as (oc' & q & E' & Eq). assert (oc' = oc) as -> by congruence.
    destruct (STV_MkObject_ok compile s (y_st y) g a lru p oc q e nhttp Hi E Eq Em Ea He (wf_room y g Hwf Hroom))
      as (st' & Er & Hi' & Eocs & _).
    eapply (quiet y g _ st'); [done|by unfold HashSys.run_op; run Er|exact Hi'|done..|].
    by eapply fresh_insert; [exact Eocs| |apply (not_fresh y p oc q)].
  - assert (Hi' := pass_change compile s (y_st y) g a (mkObj 0 None lru None 0 e d0 (http_Setup (HTTP_create nhttp))) Hi ltac:(congruence)).
    eapply (quiet y g); [done|by unfold HashSys.run_op, STV_MkObject; run|exact Hi'|done..|by apply fresh_same].
Qed.

Lemma fill_ok y g a h vary : wf y g -> allowed y (OpFill a h vary) -> steps y (OpFill a h vary).
Proof using.
  intros Hwf (Hroom & Hf). assert (Hi := wf_inv _ _ Hwf).
  assert (Ho : exists o, objs (h_cache (y_st y)) !! a = Some o /\
    inv (set_cache (y_st y) (put_obj (h_cache (y_st y)) a (filled o h vary))) g).
  { destruct Hf as [[Hn [o Eo]]|(p & oc & o & Hu & Hb)].
    - exists o. split; [done|]. apply (pass_change compile s); [done|]. intros o' E'. unfold core_of in Hn. by rewrite E' in Hn.
    - destruct (used_head y g p oc a o Hwf Hu) as (_ & q & Eq & _). destruct Hu as (_ & E & Em & Hobj).
      exists o. split; [apply Hobj|].
      destruct (core_object compile s _ g p oc q Hi E Eq Em) as (a1 & o1 & (Ea1 & Eo1 & _) & _ & _ & Hexp).
      destruct Hobj as (Ea & Eo & Ep). assert (a1 = a) as -> by congruence. assert (o1 = o) as -> by congruence.
      apply (object_change compile s _ g p oc q a o); try done. }
  destruct Ho as (o & Eo & Hi').
  eapply (quiet y g); [done|unfold HashSys.run_op, get_obj; rewrite Eo; by run|exact Hi'|done..|by apply fresh_same].
Qed.

Lemma insert_step y g a : wf y g -> allowed y (OpInsert a) -> steps y (OpInsert a).
Proof using Hkeep Hgrace.
  intros Hwf (Hroom & p & oc & o & Hu & Hb & Ht & Hen & [l El]). assert (Hi := wf_inv _ _ Hwf).
  destruct (used_head y g p oc a o Hwf Hu) as (_ & q & Eq & _). destruct Hu as (_ & E & Em & Hobj).
  assert (Hp : p ∉ g_timers g).
  { rewrite <- (idx_iff s _ _ p (iv_exp _ _ _ _ Hi)), Ht. done. }
  assert (Hlim : Obj.refcnt oc + 1 < 2 ^ 32) by (by apply (proj1 (proj2 (proj2 Hroom)) p)).
  destruct (EXP_Insert_h_ok compile default_keep default_grace s Hkeep Hgrace (y_st y) g a o p oc q l Hi Hobj E Eq Em Hb Hp Hen
    Hlim El (wf_size y g Hwf Hroom)) as (c & Ec & Hi' & [t Et] & _).
  eapply (quiet y g); [done|by unfold HashSys.run_op; run Ec|exact Hi'|done..|].
  by eapply fresh_insert; [exact Et| |apply (not_fresh y p oc q)].
Qed.

Lemma timer_ok y g t now busy : wf y g -> none_due (h_cache (y_st y)) t now -> steps y (OpTimer t now busy).
Proof using.
  intros Hwf Hn. assert (Hi := wf_inv _ _ Hwf). destruct (timer_pick_ok compile s (y_st y) g t now busy Hi) as (c & r & t' & Ec & Hr).
  rewrite <- (exp_timer_turn_ok s _ _ t now busy (iv_exp _ _ _ _ Hi) Hn) in Ec
    by (intros p oc Hp Eoc; destruct (timer_core compile s _ g Hi p Hp) as (oc' & q & E' & Eq & _); simplify_eq; by exists q).
  destruct r as [p|].
  - destruct Hr as (_ & Hi' & _ & Eo). eapply (step_intro y g); [done|by unfold HashSys.run_op; run Ec|exact Hi'| | |apply Hwf|apply same_stores_refl|by apply fresh_same].
    + by rewrite <- (wf_refs _ _ Hwf).
    + by rewrite <- (wf_held _ _ Hwf).
  - subst c. eapply (quiet y g); [done|by unfold HashSys.run_op; run Ec|by destruct (y_st y)|done..|by apply fresh_same].
Qed.

Lemma nuke_ok y g lru : wf y g -> is_Some (lrus (h_cache (y_st y)) !! lru) -> none_idle (h_cache (y_st y)) -> steps y (OpNuke lru).
Proof using.
  intros Hwf [l El] Hn. assert (Hi := wf_inv _ _ Hwf). destruct (nuke_pick_ok compile s (y_st y) g lru l Hi El) as (c & r & Ec & Hr).
  rewrite <- (EXP_NukeOne_ok s _ _ lru l (iv_exp _ _ _ _ Hi) El Hn) in Ec.
  destruct r as [p|].
  - destruct Hr as (_ & Hi' & _ & Eo). eapply (step_intro y g); [done|by unfold HashSys.run_op; run Ec|exact Hi'| | |apply Hwf|apply same_stores_refl|by apply fresh_same].
    + by rewrite <- (wf_refs _ _ Hwf).
    + by rewrite <- (wf_held _ _ Hwf).
  - subst c. eapply (quiet y g); [done|by unfold HashSys.run_op; run Ec|by destruct (y_st y)|done..|by apply fresh_same].
Qed.

Lemma touch_ok y g p busy oc a o : wf y g -> used y p oc a o -> steps y (OpTouch p busy).
Proof using.
  intros Hwf Hu. assert (Hi := wf_inv _ _ Hwf).
  destruct (used_head y g p oc a o Hwf Hu) as (_ & q & Eq & _). destruct Hu as (_ & E & Em & _).
  destruct (EXP_Touch_h_ok compile s (y_st y) g p oc q busy Hi E Eq Em) as (c & r & Ec & Hi' & _ & Eo).
  eapply (quiet y g); [done|by unfold HashSys.run_op; run Ec|exact Hi'|done..|by apply fresh_same].
Qed.

Lemma ref_ok y g p oc a o : wf y g -> roomy y -> used y p oc a o -> steps y (OpRef p).
Proof using.
  intros Hwf Hroom Hu. assert (Hi := wf_inv _ _ Hwf).
  destruct (used_head y g p oc a o Hwf Hu) as (Hp & q & Eq & _). destruct Hu as (_ & E & Em & _).
  assert (Hc := iv_core _ _ _ _ Hi p oc q E Eq). pose proof (co_pos _ _ _ _ _ Hc) as Hpos.
  assert (Hlim : Obj.refcnt oc + 1 < 2 ^ 32) by (by apply (proj1 (proj2 (proj2 Hroom)) p)).
  assert (Er : HSH_Ref (h_cache (y_st y)) p = Ok (put_oc (h_cache (y_st y)) p (set_refcnt oc (Obj.refcnt oc + 1)))).
  { unfold HSH_Ref, get_oc. rewrite E. run. rewrite Eq. run. assertion by lia. by rewrite u32_small by lia. }
  eapply (step_intro y g _ _ (with_refs g (p :: g_refs g))); [done|by unfold HashSys.run_op; run Er| | | |apply Hwf|apply same_stores_refl|].
  - apply (refs_change compile s (y_st y) g p oc q (p :: g_refs g)); try done; [lia| |].
    + rewrite (co_ref _ _ _ _ _ Hc), count_here. lia.
    + intros x Hx. by apply count_there.
  - cbn [with_refs g_refs]. by rewrite (wf_refs _ _ Hwf).
  - cbn [with_refs g_held]. by rewrite (wf_held _ _ Hwf).
  - by eapply fresh_insert; [done| |apply (not_fresh y p oc q)].
Qed.

Lemma limits_step_ok y g a e : wf y g -> allowed y (OpLimits a e) -> steps y (OpLimits a e).
Proof using Hkeep Hgrace.
  intros Hwf (_ & p & oc & o & Hu & He & Hl). assert (Hi := wf_inv _ _ Hwf).
  destruct (used_head y g p oc a o Hwf Hu) as (_ & q & Eq & _). destruct Hu as (_ & E & Em & Hobj).
  destruct (limits_ok compile default_keep default_grace s Hkeep Hgrace (y_st y) g p oc q a o e Hi E Eq Em Hobj He Hl)
    as (c & Ec & Hi' & _ & _ & t & Et).
  destruct Hobj as (_ & Eo & _).
  eapply (quiet y g); [done|unfold HashSys.run_op, get_obj; rewrite Eo; run; by run Ec|exact Hi'|done..|].
  by eapply fresh_insert; [exact Et| |apply (not_fresh y p oc q)].
Qed.

Lemma ban_ok y g ts p t0 dups : wf y g -> allowed y (OpBan ts p t0 dups) -> steps y (OpBan ts p t0 dups).
Proof using Hmalloc Pcre0.
  intros Hwf (Hroom & Hp & Hne & Hts). assert (Hi := wf_inv _ _ Hwf). destruct (wf_room y g Hwf Hroom) as [Hr Hl].
  destruct (BanThm.step_ok malloc compile exec Hmalloc (h_bans (y_st y)) (g_hist g) (BanThm.OpBan ts p t0 dups) (iv_ban _ _ _ _ Hi))
    as (b & r & Eb & Hb); [done|].
  cbn [BanThm.run_op BanThm.hist_next BanThm.hist_answer] in *.
  apply bind_Ok in Eb as ([b' e] & Eb & Er). assert (b' = b) as -> by (by injection Er as ->).
  assert (Hi' := ban_change_ok compile s (y_st y) g b ts Hi Hb). destruct (wf_dom y g Hwf) as (_ & E2 & E3).
  eapply (step_intro y g); [done|by unfold HashSys.run_op; run Eb|exact Hi'| | | |apply same_stores_refl|by apply fresh_same].
  - by rewrite <- (wf_refs _ _ Hwf).
  - by rewrite <- (wf_held _ _ Hwf).
  - unfold past. cbn [with_hist g_hist BanThm.h_log BanThm.h_refs]. by rewrite E2, E3.
Qed.

(** *** Calls of a worker *)

Lemma held_along (o : option positive) q n : o = Some q -> along o n = replicate n q.
Proof using. by intros ->. Qed.

Lemma cleanup_ok y g i : wf y g -> is_Some (y_ws y !! i) -> steps y (OpCleanup i).
Proof using.
  intros Hwf [w Ew]. assert (Hi := wf_inv _ _ Hwf).
  destruct (HSH_Cleanup_ok compile s (y_st y) g w Hi (wf_workers _ _ Hwf i w Ew)) as
    (st' & w' & T & h & E & Ec & Eh & Hi' & Hp & Hk & Ht).
  destruct (wf_next st' _ (<[i := w']> (y_ws y)) (y_refs y) (y_held y) (y_log y) Hi') as [g' Hg'].
  - by rewrite <- (wf_refs _ _ Hwf).
  - by rewrite <- (wf_held _ _ Hwf).
  - cbn [g_hist]. rewrite Hp. apply Hwf.
  - intros j x. destruct (decide (j = i)) as [->|Hj].
    + rewrite lookup_insert_eq. intros [= <-]. split; congruence.
    + rewrite lookup_insert_ne by done. intros Ej. destruct (wf_workers _ _ Hwf j x Ej) as [H1 H2].
      destruct (wf_apart _ _ Hwf j i x w Hj Ej Ew) as [A1 A2]. split.
      * intros p Ep. destruct (H1 p Ep) as (oc & E1 & Eq). exists oc. split; [|done]. by apply Hk; [apply A1|].
      * intros q Eq. destruct (H2 q Eq) as (f & Ef & Hf). exists f. split; [|done]. by apply Ht; [apply A2|].
  - intros j k x x' Hjk. destruct (decide (j = i)) as [->|Hj].
    + rewrite lookup_insert_eq. intros [= <-] _. by rewrite Ec, Eh.
    + rewrite lookup_insert_ne by done. destruct (decide (k = i)) as [->|Hk'].
      * rewrite lookup_insert_eq. intros _ [= <-]. by rewrite Ec, Eh.
      * rewrite lookup_insert_ne by done. by apply (wf_apart _ _ Hwf j k).
  - eexists _, _, g'. split; [|exact Hg']. unfold HashSys.run_op. rewrite Ew. run. by rewrite E.
Qed.

(** A worker's step that gives references back. *)
Lemma worker_step y g o i w w' st' g' refs held r : wf y g -> y_ws y !! i = Some w ->
  run_op y o = Ok (Sys st' (<[i := w']> (y_ws y)) refs held (y_log y), r) -> inv st' g' ->
  refs ≡ₚ g_refs g' -> held ≡ₚ g_held g' -> past (g_hist g') = past (g_hist g) ->
  stores_kept w w' (y_st y) g st' g' -> steps y o.
Proof using.
  intros Hwf Ew E Hi Hr Hh Hp (K1 & K2 & K3 & K4). eapply (step_intro y g); try done.
  - by rewrite Hp, (wf_past _ _ Hwf).
  - by apply (same_stores_insert _ i w).
Qed.

Lemma unbusy_ok y g i a queue : wf y g -> allowed y (OpUnbusy i a queue) -> steps y (OpUnbusy i a queue).
Proof using.
  intros Hwf (_ & w & p & oc & o & Ew & Enb & Hu & Hb). assert (Hi := wf_inv _ _ Hwf).
  destruct (used_head y g p oc a o Hwf Hu) as (_ & q & Eq & Eh & Ecore). destruct Hu as (_ & E & Em & Hobj).
  destruct (HSH_Unbusy_ok compile s rush_exponent (y_st y) g w a o p oc q queue Hi Hobj E Eq Em Hb Enb)
    as (st' & wk & lost & Er & Hi' & Ec & _).
  eapply (worker_step y g _ i w); [done|done|unfold HashSys.run_op; rewrite Ew; run; by run Er|exact Hi'| | |done|].
  - by rewrite <- (wf_refs _ _ Hwf).
  - rewrite Ecore. cbn [mbind option_bind]. rewrite (held_along _ q _ Eh). by rewrite <- (wf_held _ _ Hwf).
  - split; [done|]. split; [done|]. split; [|done]. intros x ocx Ex Eqx. exists ocx. split; [|done].
    rewrite Ec. cbn. rewrite lookup_insert_ne; [done|]. congruence.
Qed.

Lemma drop_ok y g i a queue : wf y g -> allowed y (OpDrop i a queue) -> steps y (OpDrop i a queue).
Proof using.
  intros Hwf (Hroom & w & o & Ew & Eo & Hd). assert (Hi := wf_inv _ _ Hwf).
  destruct (core_of (y_st y) a) as [p|] eqn:Ecore.
  - destruct Hd as (Enb & oc & Hu & Hb).
    destruct (used_head y g p oc a o Hwf Hu) as (Hp & q & Eq & Eh & _). destruct Hu as (_ & E & Em & Hobj).
    destruct (HSH_Drop_ok compile s rush_exponent (y_st y) g w p oc q a o queue Hi Hobj E Eq Em Hb Enb Hp (wf_room y g Hwf Hroom))
      as (st' & w' & wk & lost & T & h' & Er & Hi' & Hpast & Hk).
    eapply (worker_step y g _ i w); [done|done|unfold HashSys.run_op; rewrite Ew, Ecore; run; by run Er|exact Hi'| | |exact Hpast|exact Hk].
    + cbn [without given_back g_refs]. by rewrite <- (wf_refs _ _ Hwf).
    + cbn [mbind option_bind]. rewrite (held_along _ q _ Eh). by rewrite <- (wf_held _ _ Hwf).
  - assert (Ep : o_objcore o = None) by (unfold core_of in Ecore; by rewrite Eo in Ecore).
    set (o' := set_o_exp o (set_ttl (o_exp o) dm1)).
    assert (H1 := pass_change compile s (y_st y) g a o' Hi ltac:(congruence)).
    destruct (deref_pass_ok compile s rush_exponent _ g w a o' queue H1) as (st' & Er & Hi' & Eocs); [apply lookup_insert_eq|done|].
    eapply (worker_step y g _ i w); [done|done| |exact Hi'| | |done|].
    + unfold HashSys.run_op. rewrite Ew, Ecore. run. unfold HSH_Drop, get_obj. rewrite Eo. run. rewrite Ep. cbn [assert_pass_or_busy]. run.
      fold o'. by run Er.
    + by rewrite <- (wf_refs _ _ Hwf).
    + by rewrite <- (wf_held _ _ Hwf).
    + split; [done|]. split; [done|]. split; [|done]. rewrite Eocs. intros x oc E Eq. by exists oc.
Qed.

Lemma deref_ok y g i p queue : wf y g -> allowed y (OpDeref i p queue) -> steps y (OpDeref i p queue).
Proof using.
  intros Hwf (Hroom & [w Ew] & Hp). assert (Hi := wf_inv _ _ Hwf). rewrite <- (wf_refs _ _ Hwf) in Hp.
  destruct (ref_core compile s _ _ Hi p Hp) as (oc & q & E & Eq).
  destruct (deref_oc_ok compile s rush_exponent (y_st y) g w p oc q queue Hi Hp (wf_room y g Hwf Hroom) E Eq)
    as (st' & w' & wk & lost & T & h' & Er & Hi' & Hk & Hl).
  eapply (worker_step y g _ i w); [done|done|unfold HashSys.run_op; rewrite Ew; run; by run Er|exact Hi'| | | |exact Hk].
  - cbn [g_refs]. by rewrite <- (wf_refs _ _ Hwf).
  - cbn [g_held]. rewrite (held_along _ q) by (unfold head_of; by rewrite E). by rewrite <- (wf_held _ _ Hwf).
  - cbn [g_hist]. destruct (_ =? 1); [by destruct Hl as (_ & _ & -> & _)|by destruct Hl as [_ ->]].
Qed.

Lemma deref_obj_step_ok y g i a queue : wf y g -> allowed y (OpDerefObj i a queue) -> steps y (OpDerefObj i a queue).
Proof using.
  intros Hwf (Hroom & [w Ew] & [o Eo] & Hd). assert (Hi := wf_inv _ _ Hwf).
  destruct (core_of (y_st y) a) as [p|] eqn:Ecore.
  - destruct Hd as (oc & o1 & Hu). destruct (used_head y g p oc a o1 Hwf Hu) as (Hp & q & Eq & Eh & _).
    destruct Hu as (_ & E & Em & _ & Eo1 & Ep). assert (o1 = o) as -> by congruence.
    destruct (deref_obj_ok compile s rush_exponent (y_st y) g w p oc q a o queue Hi Hp (wf_room y g Hwf Hroom) E Eq Eo Ep)
      as (st' & w' & wk & lost & T & h' & Er & Hi' & Hpast & Hk).
    eapply (worker_step y g _ i w); [done|done|unfold HashSys.run_op; rewrite Ew, Ecore; run; by run Er|exact Hi'| | |exact Hpast|exact Hk].
    + cbn [without given_back g_refs]. by rewrite <- (wf_refs _ _ Hwf).
    + cbn [mbind option_bind]. rewrite (held_along _ q _ Eh). by rewrite <- (wf_held _ _ Hwf).
  - assert (Ep : o_objcore o = None) by (unfold core_of in Ecore; by rewrite Eo in Ecore).
    destruct (deref_pass_ok compile s rush_exponent _ g w a o queue Hi Eo Ep) as (st' & Er & Hi' & Eocs).
    eapply (worker_step y g _ i w); [done|done|unfold HashSys.run_op; rewrite Ew, Ecore; run; by run Er|exact Hi'| | |done|].
    + by rewrite <- (wf_refs _ _ Hwf).
    + by rewrite <- (wf_held _ _ Hwf).
    + split; [done|]. split; [done|]. split; [|done]. rewrite Eocs. intros x oc E Eq. by exists oc.
Qed.

Lemma purge_ok y g i q spc t gr queue : wf y g -> allowed y (OpPurge i q spc t gr queue) -> steps y (OpPurge i q spc t gr queue).
Proof using Hkeep Hgrace.
  intros Hwf (Hroom & [w Ew] & (p & Hp & Eh) & Hspc & Ht & Hgr). assert (Hi := wf_inv _ _ Hwf). rewrite <- (wf_refs _ _ Hwf) in Hp.
  destruct (ref_core compile s _ _ Hi p Hp) as (oc & q' & E & Eq).
  assert (q' = q) as -> by (unfold head_of in Eh; rewrite E in Eh; cbn in Eh; congruence).
  destruct (core_head compile s _ _ Hi p oc q E Eq) as (e & oh & Ee & He & Eoh & _). unfold hung in Hspc. rewrite Eoh in Hspc.
  destruct (HSH_Purge_ok compile default_keep default_grace s rush_exponent Hkeep Hgrace (y_st y) g w q oh spc t gr queue Hi Eoh
    (ex_intro _ e (conj Ee He)) (wf_room y g Hwf Hroom)) as (st' & w' & wk & lost & g' & Er & Hi' & Hr & _ & Hh & Hpast & Hk & _); try done.
  { intros x ocx _ Ex. by apply (proj1 (proj2 (proj2 Hroom)) x). }
  eapply (worker_step y g _ i w); [done|done|unfold HashSys.run_op; rewrite Ew; run; by run Er|exact Hi'| | |exact Hpast|exact Hk].
  - by rewrite Hr, (wf_refs _ _ Hwf).
  - by rewrite Hh, (wf_held _ _ Hwf).
Qed.

(** *** Looking up *)

Lemma take_one_here q l : take_one q (q :: l) = l.
Proof using. cbn. by rewrite decide_True. Qed.

(** The answer of a lookup. *)
Definition found (out : outcome) (noc oh : positive) : option (positive * positive) :=
  match out with Hit p => Some (p, oh) | Wait => None | Miss => Some (noc, oh) end.

Lemma held_after_ok (st : hash SL) g w sp aoc oh st1 out self b vl st' g' noc e :
  looks sp oh e -> left_by st g w sp aoc oh st1 out self b vl st' g' ->
  g_held g' = held_after sp (set_hash_objhead (set_vary sp b vl) (match out with Wait => Some oh | _ => None end))
    (found out noc oh) (g_held g).
Proof using.
  unfold held_after, looks, looking. intros Hl Hleft. destruct out; cbn [found left_by] in *; destruct Hleft as (_ & -> & _);
    unfold looking; destruct (hash_objhead sp) as [q|]; cbn [hash_objhead set_hash_objhead option_list app]; subst;
    rewrite ?take_one_here; try done; by destruct (esi_level sp =? 0).
Qed.

Lemma refs_after_ok (st : hash SL) g w sp aoc oh st1 out self b vl st' g' :
  left_by st g w sp aoc oh st1 out self b vl st' g' ->
  g_refs g' = option_list (fst <$> found out (default aoc (nobjcore w)) oh) ++ g_refs g.
Proof using. by destruct out; intros (-> & _). Qed.

#[local] Notation verdict_of := (verdict_of compile exec default_grace http_gzip_support).

Lemma lookup_ok y g i w v sp self aoc aoh : wf y g -> allowed y (OpLookup i v sp self aoc aoh) -> y_ws y !! i = Some w ->
  exists st1 g1 w1 oh e st' w' b vl g',
    started compile s (y_st y) g w sp aoc aoh oh st1 g1 w1 /\ looks sp oh e /\ g_tab g1 !! oh = Some e /\
    let out := outcome_of sp (choose (verdict_of v (h_cache (y_st y)) (g_hist g) sp) (hung (y_st y) oh) seen0) in
    HSH_Lookup exec default_keep default_grace http_gzip_support (y_st y) (v_mem v) w sp self aoc aoh =
      Ok (st', w', set_hash_objhead (set_vary sp b vl) (match out with Wait => Some oh | _ => None end),
          found out (default aoc (nobjcore w)) oh) /\
    inv st' g' /\ worker_ok st' g' w' /\ past (g_hist g') = past (g_hist g) /\ spares w (y_st y) g st' g' /\ tab_kept (g_tab g1) (g_tab g') /\
    left_by (y_st y) g w sp aoc oh st1 out self b vl st' g' /\
    (nobjcore w' = None \/ nobjcore w' = Some (default aoc (nobjcore w))) /\
    (nobjhead w' = None \/ nobjhead w' = Some (default aoh (nobjhead w))).
Proof using Hkeep Hgrace Pcre0.
  intros Hwf (Hroom & _ & Hoc & Hoh & Hlen & Hheld & Hask & Hready) Ew. assert (Hi := wf_inv _ _ Hwf).
  destruct (wf_dom y g Hwf) as (E1 & E2 & E3). destruct (wf_room y g Hwf Hroom) as [_ Hlog].
  destruct (lookup_start_ok compile exec default_keep default_grace http_gzip_support s (y_st y) g (v_mem v) w sp self aoc aoh Hi
    (wf_workers _ _ Hwf i w Ew)) as (st1 & g1 & w1 & oh & Hs & Er); try done.
  { intros q Eq. rewrite (wf_held _ _ Hwf). by apply Hheld. }
  { rewrite E1, E3. cbn [length]. destruct Hroom as [Hroom _]. lia. }
  destruct (sd_looks _ _ _ _ _ _ _ _ _ _ _ _ Hs) as (e & Ee & _ & Hl).
  destruct (lookup_finish_ok compile exec default_keep default_grace http_gzip_support s Hkeep Hgrace (y_st y) g w sp aoc aoh oh
    st1 g1 w1 v Hi Hs Hask ltac:(auto) self) as (st' & w' & b & vl & g' & El & Hi' & Hw' & _ & _ & _ & Hp & Hsp & Htab & Hleft & Hc & Hh); [done| |].
  { intros p oc _ E. by apply (proj1 (proj2 (proj2 Hroom)) p). }
  exists st1, g1, w1, oh, e, st', w', b, vl, g'. split; [done|]. split; [done|]. split; [done|]. intros out.
  split; [|by split_and!]. rewrite Er, El. subst out. by destruct (outcome_of _ _).
Qed.

Lemma lookup_step y g i v sp self aoc aoh : wf y g -> allowed y (OpLookup i v sp self aoc aoh) -> steps y (OpLookup i v sp self aoc aoh).
Proof using Hkeep Hgrace Pcre0.
  intros Hwf Ha. assert (Ha' := Ha). destruct Ha' as (_ & [w Ew] & Hoc & Hoh & _).
  destruct (lookup_ok y g i w v sp self aoc aoh Hwf Ha Ew)
    as (st1 & g1 & w1 & oh & e & st' & w' & b & vl & g' & _ & Hl & _ & Er & Hi' & Hw' & Hp & [S1 S2] & _ & Hleft & Hc & Hh).
  destruct (wf_next st' g' (<[i := w']> (y_ws y)) _ _ (y_log y) Hi' (reflexivity _) (reflexivity _)) as [g'' Hg''].
  - rewrite Hp. apply Hwf.
  - intros j x. destruct (decide (j = i)) as [->|Hj]; [rewrite lookup_insert_eq; by intros [= <-]|].
    rewrite lookup_insert_ne by done. intros Ej. destruct (wf_workers _ _ Hwf j x Ej) as [H1 H2].
    destruct (wf_apart _ _ Hwf j i x w Hj Ej Ew) as [A1 A2]. split.
    + intros p Ep. destruct (H1 p Ep) as (oc & E1 & Eq). apply (S1 p oc); [by apply A1|done..].
    + intros q Eq. destruct (H2 q Eq) as (f & Ef & Hf). apply (S2 q f); [by apply A2|done..].
  - assert (Hother : forall j x, j <> i -> y_ws y !! j = Some x ->
      (forall p, nobjcore x = Some p -> nobjcore w' <> Some p) /\ (forall q, nobjhead x = Some q -> nobjhead w' <> Some q)).
    { intros j x Hj Ej. destruct (wf_workers _ _ Hwf j x Ej) as [H1 H2]. destruct (wf_apart _ _ Hwf j i x w Hj Ej Ew) as [A1 A2]. split.
      - intros p Ep Ep'. destruct (H1 p Ep) as (oc & E1 & Eq). destruct Hc as [Hc|Hc]; [congruence|].
        destruct (nobjcore w) as [z|] eqn:Ez; cbn [default] in Hc; unfold id in Hc; [apply (A1 p Ep)|]; congruence.
      - intros q Eq Eq'. destruct (H2 q Eq) as (f & Ef & Hf). destruct Hh as [Hh|Hh]; [congruence|].
        destruct (nobjhead w) as [z|] eqn:Ez; cbn [default] in Hh; unfold id in Hh; [apply (A2 q Eq); congruence|].
        destruct (proj1 (iv_heads _ _ _ _ (wf_inv _ _ Hwf) q)) as [? ?]; [by eexists|]. congruence. }
    intros j k x x' Hjk. destruct (decide (j = i)) as [->|Hj].
    + rewrite lookup_insert_eq, lookup_insert_ne by done. intros [= <-] Ek. destruct (Hother k x' (not_eq_sym Hjk) Ek) as [O1 O2].
      split; [intros p E1 E2; by apply (O1 p)|intros q E1 E2; by apply (O2 q)].
    + rewrite lookup_insert_ne by done. destruct (decide (k = i)) as [->|Hk].
      * rewrite lookup_insert_eq. intros Ej [= <-]. by apply (Hother j x).
      * rewrite lookup_insert_ne by done. by apply (wf_apart _ _ Hwf j k).
  - eexists _, _, g''. split; [unfold HashSys.run_op; rewrite Ew; run; by run Er|].
    rewrite <- (wf_refs _ _ Hwf), <- (wf_held _ _ Hwf), <- (refs_after_ok _ _ _ _ _ _ _ _ _ _ _ _ _ Hleft).
    by rewrite <- (held_after_ok _ _ _ _ _ _ _ _ _ _ _ _ _ _ _ Hl Hleft).
Qed.

(** *** Every call *)

Lemma call_ok y g o : wf y g -> allowed y o -> steps y o.
Proof using Hkeep Hgrace Hmalloc Pcre0.
  intros Hwf Ha. destruct o.
  - by apply (lookup_step y g).
  - by apply (cleanup_ok y g); [|apply Ha].
  - by apply (make_ok y g).
  - by apply (fill_ok y g).
  - by apply (insert_step y g).
  - by apply (unbusy_ok y g).
  - by apply (drop_ok y g).
  - destruct Ha as (Hroom & oc & a & o & Hu). by apply (ref_ok y g p oc a o).
  - by apply (deref_ok y g).
  - by apply (deref_obj_step_ok y g).
  - by apply (purge_ok y g).
  - apply (timer_ok y g); [done|by apply Ha].
  - apply (nuke_ok y g); [done|apply Ha..].
  - destruct Ha as (_ & oc & a & o & Hu). by apply (touch_ok y g p busy oc a o).
  - by apply (limits_step_ok y g).
  - by apply (ban_ok y g).
Qed.

(** *** The start *)

Lemma storages_ok c ls : exp_inv s c ∅ -> lrus c = ∅ -> ocs c = ∅ -> NoDup ls ->
  let c' := fold_right (fun l c => LRU_Alloc c l) c ls in
  exp_inv s c' ∅ /\ ocs c' = ∅ /\ forall l, is_Some (lrus c' !! l) -> l ∈ ls.
Proof using.
  intros Hc El Eo. induction 1 as [|l ls Hl Hls IH]; cbn [fold_right].
  - split; [done|]. split; [done|]. rewrite El. intros l [? E]. by rewrite lookup_empty in E.
  - destruct IH as (Hi & Eoc & Hin). split; [|split; [done|]].
    + apply (ExpireThm.other_ok s _ _ _ Hi). apply ExpireThm.other_lru.
      destruct (lrus _ !! l) eqn:E; [|done]. destruct Hl. apply Hin. by eexists.
    + intros l'. cbn. destruct (decide (l' = l)) as [->|Hne]; [by left|]. rewrite lookup_insert_ne by done. right. by apply Hin.
Qed.

Lemma start_wf c b sl ls ws p t0 ban_dups : 2 <= s <= 19 ->
  EXP_Init (mkCache ∅ ∅ ∅ (mkBH [] 0 0 0 0 0 ∅) 0 0 0) (8 * 2 ^ s) = Ok c ->
  BAN_Init malloc BanThm.no_bans p t0 ban_dups = Ok b -> sl_rel sl ∅ -> NoDup ls ->
  (forall i w, ws !! i = Some w -> w = mkWorker None None false None) ->
  wf (Sys (mkHash (fold_right (fun l c => LRU_Alloc c l) c ls) b sl ∅) ws [] [] [[]])
    (Ghost ∅ ∅ (BanThm.Hist [[]] ∅ []) [] []).
Proof using Hmalloc.
  intros Hs Ec Eb Hsl Hls Hws.
  destruct (EXP_Init_ok s (mkCache ∅ ∅ ∅ (mkBH [] 0 0 0 0 0 ∅) 0 0 0) Hs) as (c' & Ec' & Hc); [intros x oc; cbn [ocs]; by rewrite lookup_empty|done|].
  assert (c' = c) as -> by congruence. clear Ec'.
  assert (Eo : ocs c = ∅ /\ lrus c = ∅).
  { unfold EXP_Init in Ec. by apply bind_Ok in Ec as (bh & _ & [= <-]). }
  destruct (storages_ok c ls Hc (proj2 Eo) (proj1 Eo) Hls) as (Hi & Eocs & _).
  destruct (BanThm.init_ok malloc compile Hmalloc p t0 ban_dups) as (b' & Eb' & Hb). assert (b' = b) as -> by congruence.
  split; try done.
  - split; cbn [y_st h_cache h_bans h_sl h_ohs g_tab g_timers g_hist g_refs g_held]; try done.
    + intros x. rewrite Eocs, lookup_empty, (BanThm.rel_dom compile _ _ _ Hb). cbn. by rewrite lookup_empty.
    + intros x. by rewrite !lookup_empty.
    + intros x oc q. by rewrite Eocs, lookup_empty.
    + intros x oc. by rewrite Eocs, lookup_empty.
    + intros x. by intros ?%not_elem_of_nil.
    + intros x. by intros ?%not_elem_of_nil.
  - intros i w Ew. rewrite (Hws i w Ew). by split.
  - intros i j w w' _ Ei Ej. by rewrite (Hws i w Ei).
Qed.

Lemma reach_wf y : 2 <= s <= 19 ->
  reach malloc compile exec default_keep default_grace http_gzip_support rush_exponent s y -> exists g, wf y g.
Proof using Hkeep Hgrace Hmalloc Pcre0.
  intros Hs. induction 1 as [c b sl ls ws p t0 dups Ec Eb Hsl Hls Hws|y o y' r _ [g Hwf] Ha E].
  - eexists. by apply (start_wf c b sl ls ws p t0 dups).
  - destruct (call_ok y g o Hwf Ha) as (y1 & r1 & g1 & E1 & Hwf1). rewrite E in E1. injection E1 as <- <-. by exists g1.
Qed.

End Step.

End HashStep.
