(* ===== verification/HashThm.v ===== *)
(** What holds of the cache as a system. *)
From Stdlib Require SpecFloat.
From S2P Require Import Prelude Double BinHeap BinHeapInv Vsb BanThm BanInv BanInsert BanSpec Mem Http HttpLines Ban Vary VarySpec VaryThm Slinger SlingerThm Obj Expire ExpireInv ExpireOps ExpireThm Hash HashInv HashOps HashLoop HashLookup HashRefs HashPurge HashSys HashStep.
Import Double BinHeap BanSpec Mem Http HttpLines Ban VarySpec VaryThm Slinger SlingerThm Obj Expire ExpireInv ExpireOps
  Hash HashInv HashOps HashLoop HashLookup HashRefs HashFetch HashPurge HashDrop HashSys HashStep.

Module HashThm.

(** ** Consistency *)

(** It has a timer. *)
Definition timed (c : cache) (p : positive) : bool := negb (timer_idx c p =? BINHEAP_NOIDX).

(** ** What the loop of a lookup passes over *)

Lemma choose_busy v l s p : busy_oc (fst (choose v l s)) = Some p -> busy_oc s = Some p \/ p ∈ l /\ v p = VBusy.
Proof.
  revert s. induction l as [|q l IH]; intros s; cbn [choose]; [by left|]. destruct (live (v q)); [by left|].
  intros Hb. destruct (IH _ Hb) as [Hs|[Hl Hv]]; [|right; split; [by right|done]].
  destruct (v q) as [| | |t] eqn:Eq; cbn [note busy_oc] in Hs; try by left.
  - injection Hs as ->. right. split; [by left|done].
  - left. by destruct (_ || _).
Qed.

Lemma note_busy q d s : busy_oc s <> None -> busy_oc (note q d s) <> None.
Proof. destruct d; cbn [note busy_oc]; try done. by destruct (_ || _). Qed.

Lemma choose_none v l s p : busy_oc (fst (choose v l s)) = None -> snd (choose v l s) = None -> p ∈ l ->
  v p <> VLive /\ v p <> VBusy.
Proof.
  assert (Hkeep : forall l s, busy_oc s <> None -> busy_oc (fst (choose v l s)) <> None).
  { clear. induction l as [|q l IH]; intros s Hs; cbn [choose]; [done|]. destruct (live (v q)); [done|]. by apply IH, note_busy. }
  revert s. induction l as [|q l IH]; intros s; cbn [choose]; [by intros _ _ ?%not_elem_of_nil|].
  destruct (live (v q)) eqn:El; [done|]. intros Hb Hn [->|Hp]%elem_of_cons; [|by eapply IH].
  split; intros E; rewrite E in *; [done|]. by apply (Hkeep l (note q VBusy s)).
Qed.

(** A session that fetches has found nothing to use and nobody to wait for, unless
    it must fetch. *)
Lemma miss_none d sp l p : outcome_of sp (choose d l seen0) = Miss -> hash_always_miss sp = false -> p ∈ l ->
  d p <> VLive /\ d p <> VBusy.
Proof.
  unfold outcome_of, decided. intros Ho Ea. rewrite Ea in Ho. destruct (busy_oc (fst (choose d l seen0))) as [x|] eqn:Eb.
  { by destruct (match snd _ with Some _ => _ | None => _ end). }
  destruct (snd (choose d l seen0)) eqn:Es; [done|]. by apply (choose_none d l seen0).
Qed.

Section Thm.

Context {SL : Type} `{SlingerLaws SL} (malloc : Z -> option (list Z)) (compile : list Z -> option (list Z))
  (exec : list Z -> list Z -> Z) `{!Pcre compile exec}.
Context (default_keep default_grace : Z) (http_gzip_support : bool) (rush_exponent : nat) (s : Z).
Context (Hmalloc : Vsb.total_malloc malloc) (Hkeep : 0 <= default_keep < 2 ^ 32) (Hgrace : 0 <= default_grace < 2 ^ 32)
  (Hs : 2 <= s <= 19).

#[local] Notation run_op := (run_op malloc compile exec default_keep default_grace http_gzip_support rush_exponent).
#[local] Notation reach := (reach malloc compile exec default_keep default_grace http_gzip_support rush_exponent s).
#[local] Notation allowed := (allowed compile).
#[local] Notation verdict_of := (verdict_of compile exec default_grace http_gzip_support).

(** What the structures say of each other.  An object head is in the store of a
    worker, or its references are the object cores that hang from it, the sessions
    on its waiting list and those that hold it otherwise. *)
Record consistent (y : sys SL) : Prop := {
  cs_head q oh : h_ohs (y_st y) !! q = Some oh -> exists r, sl_refcnt (h_sl (y_st y)) q = Ok r /\ 0 < r /\
    let n := Z.of_nat (length (objcs oh)) + waiting oh + count (y_held y) q in r = n \/ r = 1 /\ n = 0;
  cs_list q oh : h_ohs (y_st y) !! q = Some oh -> NoDup (objcs oh) /\ forall p, p ∈ objcs oh <-> head_of (y_st y) p = Some q;
  cs_ref p oc q : ocs (h_cache (y_st y)) !! p = Some oc -> Obj.objhead oc = Some q -> is_Some (h_ohs (y_st y) !! q) /\
    Obj.refcnt oc = count (y_refs y) p + (if timed (h_cache (y_st y)) p then 1 else 0) /\ 0 < Obj.refcnt oc;
  cs_busy p oc q : ocs (h_cache (y_st y)) !! p = Some oc -> Obj.objhead oc = Some q ->
    oc_busy oc = true <-> is_Some (oc_busyobj oc);
  cs_object p oc q : ocs (h_cache (y_st y)) !! p = Some oc -> Obj.objhead oc = Some q ->
    if methods oc
    then exists a o, object_of (objs (h_cache (y_st y))) p oc a o /\
      (oc_busy oc = true \/ dle (ttl (o_exp o)) d0 = false -> exists b, oc_ban (h_bans (y_st y)) !! p = Some (Some b))
    else oc_busy oc = true /\ Obj.refcnt oc = 1;
  cs_unused p oc : ocs (h_cache (y_st y)) !! p = Some oc -> Obj.objhead oc = None ->
    p ∉ y_refs y /\ timed (h_cache (y_st y)) p = false /\ methods oc = false;
  cs_refs p : p ∈ y_refs y -> is_Some (head_of (y_st y) p);
  cs_held q : q ∈ y_held y -> is_Some (h_ohs (y_st y) !! q);
}.

Lemma timed_iff c S p : exp_inv s c S -> timed c p = true <-> p ∈ S.
Proof using. intros Hi. rewrite <- (idx_iff s c S p Hi). unfold timed. by destruct (_ =? _). Qed.

Lemma timed_if c S p : exp_inv s c S -> (if timed c p then 1 else 0) = if decide (p ∈ S) then 1 else 0.
Proof using.
  intros Hi. pose proof (timed_iff c S p Hi) as Ht. destruct (timed c p), (decide (p ∈ S)) as [Hp|Hp]; try done.
  - destruct Hp. by apply Ht.
  - by apply Ht in Hp.
Qed.

Lemma head_of_iff (st : hash SL) p q : head_of st p = Some q <-> exists oc, ocs (h_cache st) !! p = Some oc /\ Obj.objhead oc = Some q.
Proof using.
  unfold head_of. destruct (ocs (h_cache st) !! p) as [oc|]; cbn; [|by split; [|intros (? & ? & _)]].
  split; [by exists oc|]. by intros (? & [= <-] & ?).
Qed.

Lemma wf_consistent y g : wf compile s y g -> consistent y.
Proof using H H0.
  intros Hwf. assert (Hi := wf_inv _ _ _ _ Hwf). assert (Er := wf_refs _ _ _ _ Hwf). assert (Eh := wf_held _ _ _ _ Hwf).
  split.
  - intros q oh Eoh. destruct (proj2 (iv_heads _ _ _ _ Hi q)) as [e Ee]; [by eexists|].
    exists (e_ref e). split; [by apply (sl_refcnt_head compile s _ g)|].
    pose proof (iv_head _ _ _ _ Hi q e oh Ee Eoh) as Ha. destruct (e_in e).
    + destruct Ha as [Ha Hpos]. rewrite <- Eh. split; [done|]. by left.
    + destruct Ha as (E1 & E2 & E3 & E4). rewrite E1, E2, <- Eh, E4. unfold waiting. rewrite E3. split; [done|]. by right.
  - intros q oh Eoh. destruct (iv_list _ _ _ _ Hi q oh Eoh) as [Hn Hl]. split; [done|]. intros p. by rewrite Hl, head_of_iff.
  - intros p oc q E Eq. destruct (core_head compile s _ g Hi p oc q E Eq) as (_ & oh & _ & _ & Eoh & _).
    split; [by eexists|]. destruct (iv_core _ _ _ _ Hi p oc q E Eq) as [_ C2 C3 _ _ _].
    rewrite (timed_if _ _ p (iv_exp _ _ _ _ Hi)), <- Er. done.
  - intros p oc q E Eq. apply (iv_core _ _ _ _ Hi p oc q E Eq).
  - intros p oc q E Eq. destruct (iv_core _ _ _ _ Hi p oc q E Eq) as [_ _ _ _ C5 C6]. destruct (methods oc).
    + destruct (C6 eq_refl) as (a & o & Ho & _ & Hn). exists a, o. split; [done|]. intros Hl. destruct (Hn Hl) as [n En].
      pose proof (BanThm.r_pos _ _ _ (iv_ban _ _ _ _ Hi) p) as Hp. rewrite En in Hp.
      destruct (oc_ban _ !! p) as [[b|]|]; [by exists b|done..].
    + destruct (C5 eq_refl) as (? & ? & _). done.
  - intros p oc E Eq. destruct (iv_fresh _ _ _ _ Hi p oc E Eq) as [F1 F2 F3 F4 F5]. rewrite <- Er. split; [|split; [|done]].
    + intros Hp%count_in. lia.
    + destruct (timed _ p) eqn:Et; [|done]. apply (timed_iff _ _ p (iv_exp _ _ _ _ Hi)) in Et.
      destruct (timer_core compile s _ g Hi p Et) as (oc' & q & E' & Eq' & _). congruence.
  - intros p Hp. rewrite <- Er in Hp. destruct (ref_core compile s _ g Hi p Hp) as (oc & q & E & Eq).
    exists q. apply head_of_iff. by exists oc.
  - intros q Hq. rewrite <- Eh in Hq. destruct (iv_held _ _ _ _ Hi q Hq) as (e & Ee & _). apply (iv_heads _ _ _ _ Hi). by eexists.
Qed.

(** ** Theorems *)

(** C5. From the start, whatever calls workers, sessions, the timer, VCL and the
    command line make, in whatever order, as long as each keeps to its contract
    ([allowed]), every one succeeds: no assertion fails and nothing that was freed is used.
    Of the timer and of making space the contract asks that no busy object core is
    there for them to take, which the code does not see to ([ExpireThm.exp_busy_race]). *)
Theorem hash_calls_ok y o (Hreach : reach y) (Ha : allowed y o) :
  exists y' r, run_op y o = Ok (y', r) /\ reach y'.
Proof.
  destruct (reach_wf malloc compile exec Hmalloc default_keep default_grace http_gzip_support rush_exponent s Hkeep Hgrace y Hs Hreach)
    as [g Hwf].
  destruct (call_ok malloc compile exec Hmalloc default_keep default_grace http_gzip_support rush_exponent s Hkeep Hgrace y g o Hwf Ha)
    as (y' & r & g' & E & _).
  exists y', r. split; [done|]. by eapply reach_op.
Qed.

(** C6. Invariant: in every state that can be reached, the reference count of each
    object core that hangs from a head is the number of sessions that refer to it
    and its timer, and that of each head the number of object cores, waiting
    sessions and others that refer to it; lists and pointers agree; an object core
    is busy as long as it has a busy object; and what is busy or alive has a ban. *)
Theorem hash_kept y (Hreach : reach y) : consistent y.
Proof.
  destruct (reach_wf malloc compile exec Hmalloc default_keep default_grace http_gzip_support rush_exponent s Hkeep Hgrace y Hs Hreach)
    as [g Hwf]. by eapply wf_consistent.
Qed.

(** C4. What a lookup answers.  Each object core under the head of the session gets a
    verdict: whether it is live, in grace, or one that the session could wait for,
    given the bans set since it was last checked, what it varies on and its times.
    The answer is what the verdicts make of the list: an object gets a reference
    and a hit, a waiting session goes last on the waiting list, and one that
    fetches gets a busy object core at the end of the list. *)
Theorem hash_lookup_answer y i w v sp self aoc aoh (Hreach : reach y) (Ha : allowed y (OpLookup i v sp self aoc aoh))
    (Ew : y_ws y !! i = Some w) :
  exists h q e T y' r, BanThm.rel compile (h_bans (y_st y)) h /\ BanThm.h_log h = y_log y /\
    run_op y (OpLookup i v sp self aoc aoh) = Ok (y', Found r) /\
    sl_rel (h_sl (y_st y')) T /\ T !! q = Some e /\ looks sp q e /\
    let d := verdict_of v (h_cache (y_st y)) h sp in
    let noc := default aoc (nobjcore w) in
    match outcome_of sp (choose d (hung (y_st y) q) seen0) with
    | Hit p => r = Some (p, q) /\ p ∈ hung (y_st y) q /\ (d p = VLive \/ exists t, d p = VGrace t) /\
        exists oc a o, ocs (h_cache (y_st y)) !! p = Some oc /\ object_of (objs (h_cache (y_st y))) p oc a o /\
          ocs (h_cache (y_st y')) !! p = Some (set_refcnt oc (Obj.refcnt oc + 1)) /\
          objs (h_cache (y_st y')) !! a = Some (hit_object o)
    | Wait => r = None /\ (exists p, p ∈ hung (y_st y) q /\ d p = VBusy) /\ hung (y_st y') q = hung (y_st y) q /\
        (esi_level sp = 0 -> exists oh, h_ohs (y_st y') !! q = Some oh /\ exists l, waitinglist oh = Some (l ++ [self]))
    | Miss => r = Some (noc, q) /\ hung (y_st y') q = hung (y_st y) q ++ [noc] /\
        (hash_always_miss sp = false -> forall p, p ∈ hung (y_st y) q -> d p <> VLive /\ d p <> VBusy) /\
        exists oc, ocs (h_cache (y_st y')) !! noc = Some oc /\ oc_busy oc = true /\ Obj.refcnt oc = 1
    end.
Proof.
  destruct (reach_wf malloc compile exec Hmalloc default_keep default_grace http_gzip_support rush_exponent s Hkeep Hgrace y Hs Hreach)
    as [g Hwf]. assert (Hi := wf_inv _ _ _ _ Hwf).
  destruct (lookup_ok compile exec default_keep default_grace http_gzip_support s Hkeep Hgrace y g i w v sp self aoc aoh Hwf Ha Ew)
    as (st1 & g1 & w1 & oh & e & st' & w' & b & vl & g' & Hst & Hl & Ee & Er & Hi' & _ & _ & _ & Htab & Hleft & _).
  destruct (Htab oh e Ee) as (e' & Ee' & Ed' & _). destruct (wf_dom _ _ _ _ Hwf) as (_ & Elog & _).
  exists (g_hist g), oh, e', (g_tab g'). eexists _, _. split; [apply Hi|]. split; [done|].
  split; [unfold HashSys.run_op; rewrite Ew; run; by run Er|]. split; [apply Hi'|]. split; [done|].
  split; [unfold looks in *; destruct (hash_objhead sp); congruence|]. intros d noc.
  fold d in Hleft, Er. fold noc in Er. cbn [y_st]. fold d. fold noc. set (l := hung (y_st y) oh) in *.
  destruct (outcome_of sp (choose d l seen0)) as [p| |] eqn:Eout; cbn [left_by found] in *.
  - destruct Hleft as (_ & _ & oc & a & o & E & Hb & Hobj & Eoc & Eo). split; [done|].
    assert (Hd : decided (sp_healthy sp) (choose d l seen0) = Some p).
    { unfold outcome_of in Eout. destruct (hash_always_miss sp); [by destruct (busy_oc _)|].
      destruct (decided _ _); [congruence|by destruct (busy_oc _)]. }
    destruct (decided_in compile exec default_grace http_gzip_support _ _ _ _ _ _ Hd) as (Hp & Hv & _). split; [done|].
    split; [|by exists oc, a, o]. destruct (d p) eqn:Edp; [done| |by left|right; by eexists]. exfalso.
    unfold d, HashLoop.verdict_of, object_verdict in Edp. rewrite E, Hb in Edp. destruct (_ ≫= _); [|done].
    repeat case_match; done.
  - destruct Hleft as (_ & _ & h & h' & Eh & Eh' & ->). split; [done|].
    destruct (sd_hung _ _ _ _ _ _ _ _ _ _ _ _ Hst) as (h1 & Eh1 & Eobjs). assert (h1 = h) as -> by congruence.
    split; [|split].
    + unfold outcome_of in Eout. destruct (if hash_always_miss sp then _ else _); [done|].
      destruct (busy_oc _) as [x|] eqn:Eb; [|done]. destruct (choose_busy d l seen0 x Eb) as [|[Hx Hv]]; [done|by exists x].
    + unfold hung at 1. rewrite Eh'. by destruct (esi_level sp =? 0).
    + intros E0. rewrite E0 in *. eexists. split; [exact Eh'|]. by eexists.
  - destruct Hleft as (_ & _ & Eh & oc & E & _ & Er1 & Hb & _). split; [done|]. split; [done|].
    split; [intros Hm p Hp; by apply (miss_none d sp l p)|by exists oc].
Qed.

(** C29. [HSH_Unbusy] ends the fetch: the object core is no longer busy and is the first
    of its head, and sessions are scheduled in the order they came to wait, as many
    as [rush_exponent] allows unless one cannot be; that one is dropped from the list,
    though it was not scheduled. *)
Theorem hash_unbusy_wakes y i a queue (Hreach : reach y) (Ha : allowed y (OpUnbusy i a queue)) :
  exists p q w st' w' woken lost oh oh', core_of (y_st y) a = Some p /\ head_of (y_st y) p = Some q /\ y_ws y !! i = Some w /\
    HSH_Unbusy rush_exponent (y_st y) w a queue = Ok (st', w', woken, lost) /\
    h_ohs (y_st y) !! q = Some oh /\ h_ohs st' !! q = Some oh' /\ objcs oh' = p :: remove p (objcs oh) /\
    (exists oc, ocs (h_cache st') !! p = Some oc /\ oc_busy oc = false /\ oc_busyobj oc = None) /\
    default [] (waitinglist oh) = woken ++ option_list lost ++ default [] (waitinglist oh') /\
    Forall (fun sp => queue sp = true) woken /\
    match lost with
    | Some sp => queue sp = false
    | None => length woken = Nat.min rush_exponent (length (default [] (waitinglist oh)))
    end.
Proof.
  destruct (reach_wf malloc compile exec Hmalloc default_keep default_grace http_gzip_support rush_exponent s Hkeep Hgrace y Hs Hreach)
    as [g Hwf]. assert (Hi := wf_inv _ _ _ _ Hwf). destruct Ha as (_ & w & p & oc & o & Ew & Enb & Hu & Hb).
  destruct (used_head compile s y g p oc a o Hwf Hu) as (_ & q & Eq & Eh & Ecore). destruct Hu as (_ & E & Em & Hobj).
  destruct (HSH_Unbusy_ok compile s rush_exponent (y_st y) g w a o p oc q queue Hi Hobj E Eq Em Hb Enb)
    as (st' & wk & lost & Er & _ & Ec & oh & oh' & Eoh & Eoh' & Eobjs & Erush).
  eexists p, q, w, st', _, wk, lost, oh, oh'. destruct (rush_loop_spec _ _ _ _ _ _ Erush) as (R1 & R2 & R3).
  do 7 (split; [done|]). split; [|done]. rewrite Ec. eexists. split; [apply lookup_insert_eq|]. split; [apply not_busy_flag|done].
Qed.

(** C27. [HSH_Purge] with a TTL that is not above 0, which is what the [purge] of VCL calls
    it with: whatever hung from the head and was not busy is found by no lookup any
    more, by whatever session, with whatever bans and whatever grace.  Every other object
    core, and the objects that belong to one, are as they were; sessions that wait at the
    head may be woken and timers move. *)
Theorem hash_purge_hides y i q spc t gr queue (Hreach : reach y) (Ha : allowed y (OpPurge i q spc t gr queue)) :
  exists y', run_op y (OpPurge i q spc t gr queue) = Ok (y', Done) /\
    (forall p, p ∈ hung (y_st y) q -> idle (h_cache (y_st y)) p = true ->
       forall v h sp, verdict_of v (h_cache (y_st y')) h sp p = VSkip) /\
    (forall p, p ∉ hung (y_st y) q \/ idle (h_cache (y_st y)) p = false -> untouched (y_st y) (y_st y') p).
Proof.
  destruct (reach_wf malloc compile exec Hmalloc default_keep default_grace http_gzip_support rush_exponent s Hkeep Hgrace y Hs Hreach)
    as [g Hwf]. assert (Hi := wf_inv _ _ _ _ Hwf).
  destruct Ha as (Hroom & [w Ew] & (p & Hp & Eh) & Hspc & Ht & Hgr). rewrite <- (wf_refs _ _ _ _ Hwf) in Hp.
  destruct (ref_core compile s _ _ Hi p Hp) as (oc & q' & E & Eq).
  assert (q' = q) as -> by (unfold head_of in Eh; rewrite E in Eh; cbn in Eh; congruence).
  destruct (core_head compile s _ _ Hi p oc q E Eq) as (e & oh & Ee & He & Eoh & _). unfold hung in *. rewrite Eoh in *.
  destruct (HSH_Purge_ok compile default_keep default_grace s rush_exponent Hkeep Hgrace (y_st y) g w q oh spc t gr queue Hi Eoh
    (ex_intro _ e (conj Ee He)) (wf_room compile s y g Hwf Hroom)) as (st' & w' & wk & lost & g' & Er & _ & _ & _ & _ & _ & _ & Hpu & Hun); try done.
  { intros x ocx _ Ex. by apply (proj1 (proj2 (proj2 Hroom)) x). }
  eexists. split; [unfold HashSys.run_op; rewrite Ew; run; by run Er|]. split; [|exact Hun]. cbn [y_st].
  intros x Hx Hid v h sp. unfold HashLoop.verdict_of. destruct (Hpu x Hx Hid) as [->|(ocx & a & o & -> & Hb & (Ea & Eo & _) & Et)]; [done|].
  rewrite Hb, Ea. cbn [mbind option_bind]. rewrite Eo. unfold object_verdict. by rewrite Et.
Qed.

(** C28. [HSH_Deref]: with the last reference the object core goes, with its object, its
    ban and its place in the list of its head, and no other object core or object is
    touched; otherwise one reference less is all that changes of object cores, objects,
    timers and LRU lists.  In either case the waiting list of the head is rushed, which
    wakes sessions. *)
Theorem hash_deref_frees y i p queue (Hreach : reach y) (Ha : allowed y (OpDeref i p queue)) :
  exists oc y', ocs (h_cache (y_st y)) !! p = Some oc /\ run_op y (OpDeref i p queue) = Ok (y', Done) /\
    if Obj.refcnt oc =? 1
    then ocs (h_cache (y_st y')) = delete p (ocs (h_cache (y_st y))) /\ oc_ban (h_bans (y_st y')) !! p = None /\
      (forall q, p ∉ hung (y_st y') q) /\
      (forall a, methods oc = true -> priv oc = Some a -> objs (h_cache (y_st y')) !! a = None) /\
      (forall a o, objs (h_cache (y_st y)) !! a = Some o -> o_objcore o <> Some p -> objs (h_cache (y_st y')) !! a = Some o)
    else h_cache (y_st y') = put_oc (h_cache (y_st y)) p (set_refcnt oc (Obj.refcnt oc - 1)).
Proof.
  destruct (reach_wf malloc compile exec Hmalloc default_keep default_grace http_gzip_support rush_exponent s Hkeep Hgrace y Hs Hreach)
    as [g Hwf]. assert (Hi := wf_inv _ _ _ _ Hwf). destruct Ha as (Hroom & [w Ew] & Hp). rewrite <- (wf_refs _ _ _ _ Hwf) in Hp.
  destruct (ref_core compile s _ _ Hi p Hp) as (oc & q & E & Eq).
  destruct (deref_oc_ok compile s rush_exponent (y_st y) g w p oc q queue Hi Hp (wf_room compile s y g Hwf Hroom) E Eq)
    as (st' & w' & wk & lost & T & h' & Er & Hi' & _ & Hl).
  exists oc. eexists. split; [done|]. split; [unfold HashSys.run_op; rewrite Ew; run; by run Er|]. cbn [y_st].
  destruct (_ =? 1).
  - destruct Hl as (L1 & L2 & _ & L4). assert (En : ocs (h_cache st') !! p = None) by (by rewrite L1, lookup_delete_eq).
    split; [done|]. split; [|split; [|split; [exact L4|exact L2]]].
    + destruct (oc_ban _ !! p) eqn:Eb; [|done]. destruct (proj2 (iv_dom _ _ _ _ Hi' p)) as [? E']; [by eexists|congruence].
    + intros x. unfold hung. destruct (h_ohs st' !! x) as [h|] eqn:Ex; [|by apply not_elem_of_nil].
      intros Hin. apply (iv_list _ _ _ _ Hi' x h Ex) in Hin as (oc' & E' & _). congruence.
  - by destruct Hl as [-> _].
Qed.

End Thm.

(** ** An example *)

#[local] Existing Instance BanThm.ex_pcre.

(** Requests for [/a], without header lines, in which nothing varies. *)
Definition ex_view : view := View BanThm.ex_mem [] [47; 97] (fun _ => []) (fun _ => None).
Definition ex_sess (held : option positive) : sess :=
  mkSess (replicate 32 7) held false false 0 (of_Z 5) (mkExp dm1 dm1 dm1 d0 d0) BanThm.ex_http true (ex_space 20) None.

(** Two workers and one storage. *)
Definition ex_nothing : cache := mkCache ∅ ∅ ∅ (mkBH [] 0 0 0 0 0 ∅) 0 0 0.
Definition ex_cache : cache := match EXP_Init ex_nothing (8 * 2 ^ 9) with Ok c => c | Fail _ => ex_nothing end.
Definition ex_worker : worker := mkWorker None None false None.
Definition ex_start : sys hsl :=
  Sys (mkHash (fold_right (fun l c => LRU_Alloc c l) ex_cache [50%positive]) BanThm.ex_init hsl_start ∅)
    (<[1%positive := ex_worker]> {[2%positive := ex_worker]}) [] [] [[]].

#[local] Notation ex_reach := (reach Vsb.calloc BanThm.ex_compile BanThm.ex_exec 0 10 false 3 9).
#[local] Notation ex_op := (run_op Vsb.calloc BanThm.ex_compile BanThm.ex_exec 0 10 false 3).

Definition ex_run (y : sys hsl) (o : op) : sys hsl := match ex_op y o with Ok (y, _) => y | Fail _ => y end.

(** A session fetches, another waits; the object is made and the other has it. *)
Definition ex_exp : exp := mkExp (of_Z 100) dm1 dm1 d0 (of_Z 1).
Definition ex_miss : op := OpLookup 1 ex_view (ex_sess None) 100 10 20.
Definition ex_wait : op := OpLookup 2 ex_view (ex_sess None) 101 11 21.
Definition ex_make : op := OpMake (Some 10%positive) 30 50 ex_exp 5.
Definition ex_fill : op := OpFill 30 BanThm.ex_http None.
Definition ex_unbusy : op := OpUnbusy 1 30 (fun _ => true).
Definition ex_hit : op := OpLookup 2 ex_view (ex_sess (Some 20%positive)) 101 12 22.
Definition ex_purge : op := OpPurge 2 20 1000 d0 d0 (fun _ => true).
Definition ex_deref : op := OpDeref 2 10 (fun _ => true).

Definition ex_missed : sys hsl := ex_run ex_start ex_miss.
Definition ex_waiting : sys hsl := ex_run ex_missed ex_wait.
Definition ex_made : sys hsl := ex_run ex_waiting ex_make.
Definition ex_filled : sys hsl := ex_run ex_made ex_fill.
Definition ex_timed : sys hsl := ex_run ex_filled (OpInsert 30).
Definition ex_done : sys hsl := ex_run ex_timed ex_unbusy.
Definition ex_found : sys hsl := ex_run ex_done ex_hit.

#[local] Instance txt_eq_dec : EqDecision txt.
Proof. solve_decision. Defined.
#[local] Instance http_eq_dec : EqDecision http.
Proof. solve_decision. Defined.

Definition roomyb (y : sys hsl) : bool :=
  (Z.of_nat (size (ocs (h_cache (y_st y)))) + 5 <? 2 ^ 32) && (Z.of_nat (length (y_log y)) <? 2 ^ 32) &&
  forallb (fun x => Obj.refcnt (snd x) + 1 <? 2 ^ 32) (map_to_list (ocs (h_cache (y_st y)))) &&
  (bh_next (exp_heap (h_cache (y_st y))) <? 2 ^ 31).

Lemma ex_roomy y : roomyb y = true -> roomy y.
Proof.
  intros [[[H1%Z.ltb_lt H2%Z.ltb_lt]%andb_prop H3]%andb_prop H4%Z.ltb_lt]%andb_prop. split; [done|]. split; [done|]. split; [|done].
  intros p oc E. rewrite forallb_forall in H3. apply Z.ltb_lt. apply (H3 (p, oc)), list_elem_of_In. by apply elem_of_map_to_list.
Qed.

(** Nothing varies, and every object is as [ex_fill] leaves it. *)
Definition plain (c : cache) : bool :=
  forallb (fun x => match oc_busyobj (snd x) with Some bo => bool_decide (bo_vary bo = None) | None => true end) (map_to_list (ocs c)) &&
  forallb (fun x => bool_decide (o_vary (snd x) = None) && bool_decide (o_http (snd x) = BanThm.ex_http)) (map_to_list (objs c)).

Lemma ex_ready c held p : plain c = true -> ready ex_view c (ex_sess held) p.
Proof.
  intros [H1 H2]%andb_prop. rewrite forallb_forall in H1, H2. split.
  - intros oc bo E _ Eb. specialize (H1 (p, oc) ltac:(by apply list_elem_of_In, elem_of_map_to_list)). cbn [snd] in H1.
    rewrite Eb in H1. by rewrite (bool_decide_eq_true_1 _ H1).
  - intros oc a o _ _ (_ & E & _) _. specialize (H2 (a, o) ltac:(by apply list_elem_of_In, elem_of_map_to_list)). cbn [snd] in H2.
    apply andb_prop in H2 as [H2 H3]. rewrite (bool_decide_eq_true_1 _ H2). split; [|done].
    unfold msgs_of. rewrite (bool_decide_eq_true_1 _ H3). exact BanThm.ex_msgs_ok.
Qed.

Lemma ex_asks held : asks ex_view (ex_sess held).
Proof.
  split; [|apply ex_space_ok]. destruct BanThm.ex_msgs_ok as [_ H2 _ _ _ _]. split; [exact H2|constructor|].
  intros n v. by vm_compute.
Qed.

Lemma ex_lookup y i held self aoc aoh : roomyb y = true -> is_Some (y_ws y !! i) -> ocs (h_cache (y_st y)) !! aoc = None ->
  h_ohs (y_st y) !! aoh = None -> (forall q, held = Some q -> q ∈ y_held y) -> plain (h_cache (y_st y)) = true ->
  allowed BanThm.ex_compile y (OpLookup i ex_view (ex_sess held) self aoc aoh).
Proof.
  intros Hr Hw Hc Hh Hheld Hp. split; [by apply ex_roomy|]. do 4 (split; [done|]). split; [done|].
  split; [apply ex_asks|]. intros p. by apply ex_ready.
Qed.

Lemma ex_step y o : ex_reach y -> allowed BanThm.ex_compile y o -> match ex_op y o with Ok _ => true | Fail _ => false end = true ->
  ex_reach (ex_run y o).
Proof.
  intros Hy Ha E. unfold ex_run. destruct (ex_op y o) as [[y' r]|] eqn:Er; [|done]. by apply (reach_op _ _ _ _ _ _ _ _ y o y' r).
Qed.

Lemma ex_in (p : positive) (l : list positive) : bool_decide (p ∈ l) = true -> p ∈ l.
Proof. apply bool_decide_eq_true_1. Qed.

Lemma ex_start_reach : ex_reach ex_start.
Proof.
  apply (reach_init Vsb.calloc BanThm.ex_compile BanThm.ex_exec 0 10 false 3 9 ex_cache BanThm.ex_init hsl_start [50%positive] _ 1%positive 3 true).
  - unfold ex_cache. destruct (EXP_Init_ok 9 ex_nothing ltac:(lia)) as (c & E & _); [|done|].
    + intros p oc. cbn [ocs ex_nothing]. by rewrite lookup_empty.
    + change (mkCache ∅ ∅ ∅ (mkBH [] 0 0 0 0 0 ∅) 0 0 0) with ex_nothing. by rewrite E.
  - by vm_compute.
  - apply hsl_start_ok.
  - apply NoDup_singleton.
  - intros i w E. destruct (decide (i = 1%positive)) as [->|H1]; [rewrite lookup_insert_eq in E; by injection E as <-|].
    rewrite lookup_insert_ne in E by done.
    destruct (decide (i = 2%positive)) as [->|H2]; [rewrite lookup_singleton_eq in E; by injection E as <-|].
    by rewrite lookup_singleton_ne in E by done.
Qed.

Lemma ex_missed_reach : ex_reach ex_missed.
Proof.
  apply ex_step; [exact ex_start_reach| |by vm_compute].
  apply ex_lookup; [by vm_compute|by eexists; vm_compute|by vm_compute|by vm_compute|done|by vm_compute].
Qed.

Lemma ex_waiting_reach : ex_reach ex_waiting.
Proof.
  apply ex_step; [exact ex_missed_reach| |by vm_compute].
  apply ex_lookup; [by vm_compute|by eexists; vm_compute|by vm_compute|by vm_compute|done|by vm_compute].
Qed.

Lemma ex_made_reach : ex_reach ex_made.
Proof.
  apply ex_step; [exact ex_waiting_reach| |by vm_compute]. split; [by apply ex_roomy; vm_compute|].
  split; [by vm_compute|]. split; [by vm_compute|]. split; [by apply ex_in; vm_compute|]. eexists. split; by vm_compute.
Qed.

(** What a session knows that uses the object at 30. *)
Lemma ex_used (y : sys hsl) oc o : 10%positive ∈ y_refs y -> ocs (h_cache (y_st y)) !! 10%positive = Some oc -> methods oc = true ->
  priv oc = Some 30%positive -> objs (h_cache (y_st y)) !! 30%positive = Some o -> o_objcore o = Some 10%positive ->
  used y 10 oc 30 o.
Proof. done. Qed.

Lemma ex_filled_reach : ex_reach ex_filled.
Proof.
  apply ex_step; [exact ex_made_reach| |by vm_compute]. split; [by apply ex_roomy; vm_compute|]. right.
  eexists 10%positive, _, _. split; [apply ex_used; [by apply ex_in; vm_compute|by vm_compute..]|by vm_compute].
Qed.

Lemma ex_timed_reach : ex_reach ex_timed.
Proof.
  apply ex_step; [exact ex_filled_reach| |by vm_compute]. split; [by apply ex_roomy; vm_compute|].
  eexists 10%positive, _, _. split; [apply ex_used; [by apply ex_in; vm_compute|by vm_compute..]|].
  do 3 (split; [by vm_compute|]). by eexists; vm_compute.
Qed.

Lemma ex_unbusy_allowed : allowed BanThm.ex_compile ex_timed ex_unbusy.
Proof.
  split; [by apply ex_roomy; vm_compute|]. eexists _, 10%positive, _, _. split; [by vm_compute|]. split; [by vm_compute|].
  split; [apply ex_used; [by apply ex_in; vm_compute|by vm_compute..]|by vm_compute].
Qed.

Lemma ex_done_reach : ex_reach ex_done.
Proof. apply ex_step; [exact ex_timed_reach|exact ex_unbusy_allowed|by vm_compute]. Qed.

Lemma ex_hit_allowed : allowed BanThm.ex_compile ex_done ex_hit.
Proof.
  apply ex_lookup; [by vm_compute|by eexists; vm_compute|by vm_compute|by vm_compute| |by vm_compute].
  intros q [= <-]. apply ex_in. by vm_compute.
Qed.

Lemma ex_found_reach : ex_reach ex_found.
Proof. apply ex_step; [exact ex_done_reach|exact ex_hit_allowed|by vm_compute]. Qed.

Lemma hash_calls_ok_witness : exists y, ex_op ex_done ex_hit = Ok (y, Found (Some (10, 20)%positive)) /\ ex_reach y.
Proof.
  destruct (hash_calls_ok Vsb.calloc BanThm.ex_compile BanThm.ex_exec 0 10 false 3 9 Vsb.calloc_total ltac:(lia) ltac:(lia) ltac:(lia)
    ex_done ex_hit ex_done_reach ex_hit_allowed) as (y & r & E & Hr).
  exists y. split; [|exact Hr]. rewrite E. do 2 f_equal. vm_compute in E. by injection E as _ <-.
Defined.

Lemma hash_kept_witness : consistent ex_found /\ sl_refcnt (h_sl (y_st ex_found)) 20 = Ok 1 /\ y_refs ex_found = [10; 10]%positive.
Proof.
  split; [|by vm_compute]. exact (hash_kept Vsb.calloc BanThm.ex_compile BanThm.ex_exec 0 10 false 3 9 Vsb.calloc_total
    ltac:(lia) ltac:(lia) ltac:(lia) ex_found ex_found_reach).
Defined.

(** The session that waited takes the object that it waited for. *)
Lemma hash_lookup_answer_witness : exists y' oc a o, ex_op ex_done ex_hit = Ok (y', Found (Some (10, 20)%positive)) /\
  ocs (h_cache (y_st ex_done)) !! 10%positive = Some oc /\ object_of (objs (h_cache (y_st ex_done))) 10 oc a o /\
  objs (h_cache (y_st y')) !! a = Some (hit_object o).
Proof.
  destruct (hash_lookup_answer Vsb.calloc BanThm.ex_compile BanThm.ex_exec 0 10 false 3 9 Vsb.calloc_total ltac:(lia) ltac:(lia) ltac:(lia)
    ex_done 2 (mkWorker (Some 11%positive) (Some 21%positive) false (Some (mkBusyobj None))) ex_view (ex_sess (Some 20%positive)) 101 12 22
    ex_done_reach ex_hit_allowed ltac:(by vm_compute)) as (h & q & e & T & y' & r & _ & _ & E & _ & _ & _ & Hr).
  assert (Er : r = Some (10, 20)%positive) by (vm_compute in E; by injection E as _ <-).
  revert Hr. cbv zeta. destruct (outcome_of _ _) as [p| |].
  - intros (Er' & _ & _ & oc & a & o & E1 & E2 & _ & E3).
    assert (Ep : p = 10%positive) by (rewrite Er in Er'; by injection Er' as <- _). rewrite Ep in E1, E2.
    exists y', oc, a, o. split; [by rewrite <- Er|]. split; [exact E1|]. split; [exact E2|exact E3].
  - intros [Er' _]. by rewrite Er in Er'.
  - intros [Er' _]. by rewrite Er in Er'.
Defined.

Lemma hash_unbusy_wakes_witness : exists st' w w', HSH_Unbusy 3 (y_st ex_timed) w 30 (fun _ => true) = Ok (st', w', [101%positive], None) /\
  hung st' 20 = [10%positive].
Proof.
  destruct (hash_unbusy_wakes Vsb.calloc BanThm.ex_compile BanThm.ex_exec 0 10 false 3 9 Vsb.calloc_total ltac:(lia) ltac:(lia) ltac:(lia)
    ex_timed 1 30 (fun _ => true) ex_timed_reach ex_unbusy_allowed)
    as (p & q & w & st' & w' & woken & lost & oh & oh' & Ep & Eq & Ew & E & Eoh & Eoh' & Eobjs & _).
  vm_compute in Ep. injection Ep as <-. vm_compute in Eq. injection Eq as <-. vm_compute in Eoh. injection Eoh as <-.
  vm_compute in Ew. injection Ew as <-. exists st', (mkWorker None None true None), w'. split.
  - rewrite E. vm_compute in E. by injection E as _ _ <- <-.
  - unfold hung. by rewrite Eoh', Eobjs.
Defined.

Lemma hash_purge_hides_witness : exists y, ex_op ex_found ex_purge = Ok (y, Done) /\
  forall v h sp, verdict_of BanThm.ex_compile BanThm.ex_exec 10 false v (h_cache (y_st y)) h sp 10 = VSkip.
Proof.
  destruct (hash_purge_hides Vsb.calloc BanThm.ex_compile BanThm.ex_exec 0 10 false 3 9 Vsb.calloc_total ltac:(lia) ltac:(lia) ltac:(lia)
    ex_found 2 20 1000 d0 d0 (fun _ => true) ex_found_reach) as (y & E & Hp & _).
  - split; [by apply ex_roomy; vm_compute|]. split; [by eexists; vm_compute|].
    split; [exists 10%positive; split; [by apply ex_in; vm_compute|by vm_compute]|]. split; [by vm_compute|]. split; by vm_compute.
  - exists y. split; [exact E|]. apply Hp; [by apply ex_in; vm_compute|by vm_compute].
Defined.

(** There are three references, of which the timer has one. *)
Lemma hash_deref_frees_witness : exists oc y, ex_op ex_found ex_deref = Ok (y, Done) /\ Obj.refcnt oc = 3 /\
  ocs (h_cache (y_st y)) !! 10%positive = Some (set_refcnt oc 2).
Proof.
  destruct (hash_deref_frees Vsb.calloc BanThm.ex_compile BanThm.ex_exec 0 10 false 3 9 Vsb.calloc_total ltac:(lia) ltac:(lia) ltac:(lia)
    ex_found 2 10 (fun _ => true) ex_found_reach) as (oc & y & Eoc & E & Hd).
  - split; [by apply ex_roomy; vm_compute|]. split; [by eexists; vm_compute|by apply ex_in; vm_compute].
  - exists oc, y. split; [exact E|]. assert (Er : Obj.refcnt oc = 3) by (vm_compute in Eoc; by injection Eoc as <-).
    split; [exact Er|]. rewrite Er in Hd. change (h_cache (y_st y) = put_oc (h_cache (y_st ex_found)) 10 (set_refcnt oc 2)) in Hd.
    rewrite Hd. apply lookup_insert_eq.
Defined.

(** ** A banned object that is revived *)

(** A ban of [/a] is set; a lookup finds the object banned, and takes its ban away and
    its time to live; but a session that uses it already, and sets [obj.ttl], gives it
    time to live again.  The next lookup of the same head fails the assertion that the
    object has a ban. *)
Definition ex_ban : op := OpBan [Test Url Eq [47; 97]] 2 7 true.
Definition ex_banned : sys hsl := ex_run ex_found ex_ban.
Definition ex_refetch : op := OpLookup 1 ex_view (ex_sess None) 100 13 23.
Definition ex_checked : sys hsl := ex_run ex_banned ex_refetch.
Definition ex_revived : sys hsl := ex_run ex_checked (OpLimits 30 ex_exp).
Definition ex_again : op := OpLookup 2 ex_view (ex_sess None) 101 14 24.

Lemma ex_banned_reach : ex_reach ex_banned.
Proof.
  apply ex_step; [exact ex_found_reach| |by vm_compute]. split; [by apply ex_roomy; vm_compute|].
  split; [by vm_compute|]. split; [done|]. split; [|by vm_compute]. repeat constructor; done.
Qed.

Lemma ex_checked_reach : ex_reach ex_checked.
Proof.
  apply ex_step; [exact ex_banned_reach| |by vm_compute].
  apply ex_lookup; [by vm_compute|by eexists; vm_compute|by vm_compute|by vm_compute|done|by vm_compute].
Qed.

(** In a state that can be reached, a session has an object that a lookup has since
    found banned.  The session may set [obj.ttl], which succeeds; then the next
    lookup of the same head, whose contract holds, fails an assertion. *)
Theorem hash_ban_revived :
  exists y y' oc o, ex_reach y /\ used y 10 oc 30 o /\ oc_busy oc = false /\
    oc_ban (h_bans (y_st y)) !! 10%positive = Some None /\
    ex_op y (OpLimits 30 ex_exp) = Ok (y', Done) /\ allowed BanThm.ex_compile y' ex_again /\
    ex_op y' ex_again = Fail FAssert.
Proof.
  eexists ex_checked, ex_revived, _, _. split; [exact ex_checked_reach|].
  split; [apply ex_used; [by apply ex_in; vm_compute|by vm_compute..]|]. do 3 (split; [by vm_compute|]).
  split; [|by vm_compute].
  apply ex_lookup; [by vm_compute|by eexists; vm_compute|by vm_compute|by vm_compute|done|by vm_compute].
Qed.

End HashThm.
