(* ===== verification/Vsm.v ===== *)
(** Shared memory: [bin/varnishd/vsm.c], with the iteration of [include/vsm.h].

    The segment is a sequence of chunks, each with a header at an address, and ends at
    [vsm_end].  A chunk is where its magic number is.  The barriers are left out. *)
From S2P Require Import Prelude Mem.
Import Mem.

Module Vsm.

(** Strings are without their NUL. *)
Record VSM_chunk := mkChunk { len : Z; state : Z; class : list Z; type : list Z; ident : list Z }.

Definition set_len (c : VSM_chunk) v := mkChunk v (state c) (class c) (type c) (ident c).
Definition set_state (c : VSM_chunk) v := mkChunk (len c) v (class c) (type c) (ident c).
Definition set_names (c : VSM_chunk) cl ty id := mkChunk (len c) (state c) cl ty id.

Record vsm := mkVsm { chunks : gmap Z VSM_chunk; vsm_end : Z; alloc_seq : Z }.

Definition set_chunks (st : vsm) v := mkVsm v (vsm_end st) (alloc_seq st).
Definition set_seq (st : vsm) v := mkVsm (chunks st) (vsm_end st) v.
Definition put (st : vsm) (p : Z) (c : VSM_chunk) : vsm := set_chunks st (<[p := c]> (chunks st)).
(** [memset] of a header to zero. *)
Definition wipe (st : vsm) (p : Z) : vsm := set_chunks st (delete p (chunks st)).

Definition VSM_CLASS_FREE : list Z := str "Free".
Definition VSM_CLASS_COOL : list Z := str "Cool".
Definition VSM_CLASS_MARK : list Z := str "MgrCld".
Definition VSM_COOL_TIME : Z := 5.

(** The sizes of [struct VSM_chunk], and of what is before [head] in
    [struct VSM_head], with 64 bits for [time_t]. *)
Definition CHUNK : Z := 92.
Definition HEAD : Z := 65568.

(** [CHECK_OBJ_NOTNULL(sha, VSM_CHUNK_MAGIC)] *)
Definition chunk_at (st : vsm) (p : Z) : res VSM_chunk :=
  match chunks st !! p with Some c => Ok c | None => Fail FAssert end.

Definition vsm_iter_0 (st : vsm) : res (option Z) := chunk_at st HEAD;; mret (Some HEAD).

Definition vsm_iter_n (st : vsm) (p : Z) : res (option Z) :=
  c ← chunk_at st p;
  if vsm_end st <=? p + len c then mret None else chunk_at st (p + len c);; mret (Some (p + len c)).

Definition VSM_PTR (p : Z) : Z := p + CHUNK.

(** [bprintf(buf, "%s", s)] for a buffer of [size] octets. *)
Definition bprintf (size : Z) (s : list Z) : res (list Z) :=
  vassert (Z.of_nat (length s) <? size);; mret s.

(** A string without its NUL is equal to a constant. *)
Definition is_class (c : VSM_chunk) (s : list Z) : bool := bool_decide (class c = s).

(** ** Marks *)

Definition vsm_mark (st : vsm) : vsm * Z := (set_seq st 0, alloc_seq st).

Definition vsm_release (st : vsm) (seq : Z) : vsm :=
  if seq =? 0 then st else set_seq st (if u32 (seq + 1) =? 0 then 1 else u32 (seq + 1)).

(** ** Cleaning up *)

(** The first loop: a chunk has cooled. *)
Fixpoint cooled (n : nat) (st : vsm) (now : Z) (p : option Z) : res bool :=
  match n, p with
  | _, None => mret false
  | O, Some _ => Fail FFuel
  | S n, Some p =>
      c ← chunk_at st p;
      if is_class c VSM_CLASS_COOL && (u32 (state c + VSM_COOL_TIME) <? now) then mret true else
      p ← vsm_iter_n st p; cooled n st now p
  end.

(** Freed, and joined with what follows if that is free. *)
Fixpoint first_pass (n : nat) (st : vsm) (now : Z) (p : option Z) : res vsm :=
  match n, p with
  | _, None => mret st
  | O, Some _ => Fail FFuel
  | S n, Some p =>
      c ← chunk_at st p;
      if negb (is_class c VSM_CLASS_COOL) || (now <=? u32 (state c + VSM_COOL_TIME)) then
        p ← vsm_iter_n st p; first_pass n st now p
      else
        cl ← bprintf 8 VSM_CLASS_FREE; ty ← bprintf 8 []; id ← bprintf 64 [];
        let c := set_names c cl ty id in
        let st := put st p c in
        let p2 := p + len c in
        vassert (p2 <=? vsm_end st);;
        if p2 =? vsm_end st then mret st else
        c2 ← chunk_at st p2;
        let '(c, st) := if is_class c2 VSM_CLASS_FREE then (set_len c (u32 (len c + len c2)), wipe st p2) else (c, st) in
        let st := put st p (set_state c 0) in
        p ← vsm_iter_n st p; first_pass n st now p
  end.

(** Each free chunk joined with what follows if that is free. *)
Fixpoint second_pass (n : nat) (st : vsm) (p : option Z) : res vsm :=
  match n, p with
  | _, None => mret st
  | O, Some _ => Fail FFuel
  | S n, Some p =>
      c ← chunk_at st p;
      if negb (is_class c VSM_CLASS_FREE) then p ← vsm_iter_n st p; second_pass n st p else
      let p2 := p + len c in
      vassert (p2 <=? vsm_end st);;
      if p2 =? vsm_end st then mret st else
      c2 ← chunk_at st p2;
      let st := if is_class c2 VSM_CLASS_FREE then wipe (put st p (set_len c (u32 (len c + len c2)))) p2 else st in
      p ← vsm_iter_n st p; second_pass n st p
  end.

(** The loops need no more turns than there are chunks. *)
Definition turns (st : vsm) : nat := size (chunks st).

Definition vsm_cleanup (st : vsm) (now : Z) : res vsm :=
  p ← vsm_iter_0 st;
  found ← cooled (turns st) st now p;
  if negb found then mret st else
  let '(st, seq) := vsm_mark st in
  p ← vsm_iter_0 st;
  st ← first_pass (turns st) st now p;
  p ← vsm_iter_0 st;
  st ← second_pass (turns st) st p;
  mret (vsm_release st seq).

(** ** Calls *)

Definition RUP2 (x y : Z) : Z := Z.land (u64 (x + (y - 1))) (Z.lnot (y - 1)).

Fixpoint alloc_loop (n : nat) (st : vsm) (size : Z) (cl ty id : list Z) (p : option Z) : res (vsm * option Z) :=
  match n, p with
  | _, None => mret (st, None)
  | O, Some _ => Fail FFuel
  | S n, Some p =>
      c ← chunk_at st p;
      if negb (is_class c VSM_CLASS_FREE) || (len c <? size) then
        p ← vsm_iter_n st p; alloc_loop n st size cl ty id p
      else
        let '(st, seq) := vsm_mark st in
        '(c, st) ← (if size + CHUNK <? len c then
            free ← bprintf 8 VSM_CLASS_FREE;
            mret (set_len c size, put st (p + size) (mkChunk (len c - size) 0 free [] []))
          else mret (c, st));
        cl ← bprintf 8 cl; ty ← bprintf 8 ty; id ← bprintf 64 id;
        mret (vsm_release (put st p (set_names c cl ty id)) seq, Some (VSM_PTR p))
  end.

Definition VSM__Alloc (st : vsm) (size : Z) (cl ty id : list Z) (now : Z) : res (vsm * option Z) :=
  st ← vsm_cleanup st now;
  let size := u32 (RUP2 size 8) in
  let size := u32 (size + CHUNK) in
  p ← vsm_iter_0 st;
  alloc_loop (turns st) st size cl ty id p.

Fixpoint find_ptr (n : nat) (st : vsm) (ptr : Z) (p : option Z) : res (option Z) :=
  match n, p with
  | _, None => mret None
  | O, Some _ => Fail FFuel
  | S n, Some p => if VSM_PTR p =? ptr then mret (Some p) else p ← vsm_iter_n st p; find_ptr n st ptr p
  end.

Definition VSM__Free (st : vsm) (ptr : Z) (now : Z) : res vsm :=
  p ← vsm_iter_0 st;
  p ← find_ptr (turns st) st ptr p;
  p ← match p with Some p => Ok p | None => Fail FAssert end;
  let '(st, seq) := vsm_mark st in
  c ← chunk_at st p;
  cool ← bprintf 8 VSM_CLASS_COOL;
  mret (vsm_release (put st p (set_state (set_names c cool (type c) (ident c)) now)) seq).

Fixpoint clean_loop (n : nat) (st : vsm) (now : Z) (f : bool) (p : option Z) : res vsm :=
  match n, p with
  | _, None => mret st
  | O, Some _ => Fail FFuel
  | S n, Some p =>
      c ← chunk_at st p;
      '(st, f) ← (if negb f then mret (st, is_class c VSM_CLASS_MARK)
        else if negb (is_class c VSM_CLASS_FREE) && negb (is_class c VSM_CLASS_COOL) then
          st ← VSM__Free st (VSM_PTR p) now; mret (st, true)
        else mret (st, true));
      p ← vsm_iter_n st p; clean_loop n st now f p
  end.

Definition VSM__Clean (st : vsm) (now : Z) : res vsm :=
  let '(st, seq) := vsm_mark st in
  p ← vsm_iter_0 st;
  st ← clean_loop (turns st) st now false p;
  mret (vsm_release st seq).

(** The segment as [mgt_SHM_Init] makes it; [size] is that of the file. *)
Definition vsm_init (size : Z) : vsm :=
  mkVsm {[HEAD := mkChunk (u32 (size - HEAD)) 0 VSM_CLASS_FREE [] []]} size 0.

End Vsm.
