(* ===== verification/VsmOps.v ===== *)
(** The chunks of the segment: what holds of them, and what each call does. *)
From S2P Require Import Prelude Mem Vsm.

(** Shared memory, the sequence of chunks: every loop over it is a function of a
    list. *)
Import Mem Vsm.

Module VsmInv.

(** ** Chunks in a row *)

Definition total (l : list VSM_chunk) : Z := foldr (fun c n => len c + n) 0 l.

(** A chunk is not smaller than its header. *)
Definition sized (l : list VSM_chunk) : Prop := Forall (fun c => CHUNK <= len c) l.

Fixpoint layout (p : Z) (l : list VSM_chunk) : gmap Z VSM_chunk :=
  match l with [] => ∅ | c :: l => <[p := c]> (layout (p + len c) l) end.

(** The segment is exactly those chunks. *)
Record holds_row (st : vsm) (l : list VSM_chunk) : Prop := {
  hr_chunks : chunks st = layout HEAD l;
  hr_sized : sized l;
  hr_end : HEAD + total l = vsm_end st;
  hr_some : l <> [];
  hr_fits : vsm_end st < 2 ^ 32;
}.

Lemma total_app l1 l2 : total (l1 ++ l2) = total l1 + total l2.
Proof. induction l1 as [|c l1 IH]; [done|]. unfold total in *. cbn. lia. Qed.

Lemma total_nonneg l : sized l -> 0 <= total l.
Proof. induction 1; unfold total in *; cbn; unfold CHUNK in *; lia. Qed.

Lemma total_cons c l : total (c :: l) = len c + total l.
Proof. done. Qed.

Lemma total_snoc l c : total (l ++ [c]) = total l + len c.
Proof. rewrite total_app. unfold total at 2. cbn. lia. Qed.

Lemma layout_low p l q : sized l -> q < p -> layout p l !! q = None.
Proof.
  intros Hl. revert p. induction Hl as [|c l Hc Hl IH]; intros p Hq; cbn [layout]; [done|].
  rewrite lookup_insert_ne by lia. apply IH. unfold CHUNK in *. lia.
Qed.

Lemma layout_at p l1 c l2 : sized l1 -> layout p (l1 ++ c :: l2) !! (p + total l1) = Some c.
Proof.
  intros Hl. revert p. induction Hl as [|a l Ha Hl IH]; intros p; cbn [layout app].
  - unfold total. cbn. by rewrite Z.add_0_r, lookup_insert_eq.
  - pose proof (total_nonneg l Hl). rewrite total_cons, lookup_insert_ne by (unfold CHUNK in *; lia).
    rewrite Z.add_assoc. apply IH.
Qed.

(** Changing a chunk, joining it with the next, splitting it. *)
Lemma layout_put p l1 c c' l2 : sized l1 -> len c' = len c ->
  <[p + total l1 := c']> (layout p (l1 ++ c :: l2)) = layout p (l1 ++ c' :: l2).
Proof.
  intros Hl E. revert p. induction Hl as [|a l Ha Hl IH]; intros p; cbn [layout app].
  - unfold total. cbn. by rewrite Z.add_0_r, insert_insert_eq, E.
  - pose proof (total_nonneg l Hl). rewrite total_cons, insert_insert_ne by (unfold CHUNK in *; lia).
    by rewrite Z.add_assoc, IH.
Qed.

Lemma layout_join p l1 c c2 c' l2 : sized (l1 ++ c :: c2 :: l2) -> len c' = len c + len c2 ->
  <[p + total l1 := c']> (delete (p + total l1 + len c) (layout p (l1 ++ c :: c2 :: l2))) = layout p (l1 ++ c' :: l2).
Proof.
  intros [Hl [Hc [Hc2 Hl2]%Forall_cons]%Forall_cons]%Forall_app E. revert p. induction Hl as [|a l Ha Hl IH]; intros p; cbn [layout app].
  - unfold total. cbn. rewrite Z.add_0_r. rewrite delete_insert_ne by (unfold CHUNK in *; lia).
    rewrite delete_insert_id by (apply layout_low; [done|unfold CHUNK in *; lia]). by rewrite insert_insert_eq, E, Z.add_assoc.
  - pose proof (total_nonneg l Hl). rewrite total_cons, delete_insert_ne by (unfold CHUNK in *; lia).
    rewrite insert_insert_ne by (unfold CHUNK in *; lia). by rewrite !Z.add_assoc, IH.
Qed.

Lemma layout_split p l1 c c1 c2 l2 : sized (l1 ++ c :: l2) -> CHUNK <= len c1 -> CHUNK <= len c2 -> len c = len c1 + len c2 ->
  <[p + total l1 := c1]> (<[p + total l1 + len c1 := c2]> (layout p (l1 ++ c :: l2))) = layout p (l1 ++ c1 :: c2 :: l2).
Proof.
  intros [Hl [Hc Hl2]%Forall_cons]%Forall_app H1 H2 E. revert p. induction Hl as [|a l Ha Hl IH]; intros p; cbn [layout app].
  - unfold total. cbn. rewrite Z.add_0_r. rewrite (insert_insert_ne _ (p + len c1)) by (unfold CHUNK in *; lia).
    rewrite insert_insert_eq. by rewrite E, Z.add_assoc.
  - pose proof (total_nonneg l Hl). rewrite total_cons. rewrite (insert_insert_ne _ (p + (len a + total l) + len c1)) by (unfold CHUNK in *; lia).
    rewrite (insert_insert_ne _ (p + (len a + total l))) by (unfold CHUNK in *; lia). by rewrite !Z.add_assoc, IH.
Qed.

Lemma layout_size p l : sized l -> size (layout p l) = length l.
Proof.
  intros Hl. revert p. induction Hl as [|c l Hc Hl IH]; intros p; cbn [layout length]; [done|].
  rewrite map_size_insert_None by (apply layout_low; [done|unfold CHUNK in *; lia]). by rewrite IH.
Qed.

(** ** Going on *)

(** Where a row goes on, if it does. *)
Definition on (p : Z) (l : list VSM_chunk) : option Z := match l with [] => None | _ => Some p end.

Section Row.

Context (st : vsm) (l1 : list VSM_chunk) (c : VSM_chunk) (l2 : list VSM_chunk) (H : holds_row st (l1 ++ c :: l2)).

Lemma row_sized : sized l1 /\ CHUNK <= len c /\ sized l2.
Proof using H. pose proof (hr_sized _ _ H) as [Hl [Hc Hl2]%Forall_cons]%Forall_app. done. Qed.

Lemma row_chunk : chunk_at st (HEAD + total l1) = Ok c.
Proof using H. unfold chunk_at. by rewrite (hr_chunks _ _ H), layout_at by apply row_sized. Qed.

Lemma row_end : HEAD + total l1 + len c + total l2 = vsm_end st.
Proof using H. rewrite <- (hr_end _ _ H), total_app, total_cons. lia. Qed.

Lemma row_next : vsm_iter_n st (HEAD + total l1) = Ok (on (HEAD + total (l1 ++ [c])) l2).
Proof using H.
  unfold vsm_iter_n. rewrite row_chunk. run. destruct row_sized as (Hl & Hc & Hl2). pose proof row_end as He.
  rewrite total_snoc, Z.add_assoc. destruct l2 as [|c2 l]; cbn [on].
  - unfold total at 2 in He. cbn in He. by rewrite (proj2 (Z.leb_le _ _)) by lia.
  - apply Forall_cons in Hl2 as [Hc2 Hl2]. pose proof (total_nonneg l Hl2). rewrite total_cons in He.
    rewrite (proj2 (Z.leb_gt _ _)) by (unfold CHUNK in *; lia).
    unfold chunk_at. rewrite (hr_chunks _ _ H). rewrite <- Z.add_assoc, <- total_snoc.
    change (l1 ++ c :: c2 :: l) with (l1 ++ [c] ++ c2 :: l). rewrite app_assoc, layout_at; [by run|].
    apply Forall_app. split; [done|by repeat constructor].
Qed.

Lemma row_put c' : len c' = len c -> holds_row (put st (HEAD + total l1) c') (l1 ++ c' :: l2).
Proof using H.
  intros E. destruct row_sized as (Hl & Hc & Hl2). split; cbn [put set_chunks chunks vsm_end].
  - by rewrite (hr_chunks _ _ H), (layout_put _ _ c).
  - apply Forall_app. split; [done|]. constructor; [by rewrite E|done].
  - rewrite <- (hr_end _ _ H), !total_app, !total_cons. lia.
  - by destruct l1.
  - apply H.
Qed.

End Row.

Lemma row_join st l1 c c2 c' l2 : holds_row st (l1 ++ c :: c2 :: l2) -> len c' = len c + len c2 ->
  holds_row (put (wipe st (HEAD + total l1 + len c)) (HEAD + total l1) c') (l1 ++ c' :: l2).
Proof.
  intros H E. destruct (row_sized _ _ _ _ H) as (Hl & Hc & [Hc2 Hl2]%Forall_cons). split; cbn [put wipe set_chunks chunks vsm_end].
  - by rewrite (hr_chunks _ _ H), (layout_join _ _ c c2) by (apply H || done).
  - apply Forall_app. split; [done|]. constructor; [unfold CHUNK in *; lia|done].
  - rewrite <- (hr_end _ _ H), !total_app, !total_cons. lia.
  - by destruct l1.
  - apply H.
Qed.

Lemma row_split st l1 c c1 c2 l2 : holds_row st (l1 ++ c :: l2) -> CHUNK <= len c1 -> CHUNK <= len c2 -> len c = len c1 + len c2 ->
  holds_row (put (put st (HEAD + total l1 + len c1) c2) (HEAD + total l1) c1) (l1 ++ c1 :: c2 :: l2).
Proof.
  intros H H1 H2 E. destruct (row_sized _ _ _ _ H) as (Hl & Hc & Hl2). split; cbn [put set_chunks chunks vsm_end].
  - by rewrite (hr_chunks _ _ H), (layout_split _ _ c) by (apply H || done).
  - apply Forall_app. split; [done|]. by repeat constructor.
  - rewrite <- (hr_end _ _ H), !total_app, !total_cons. lia.
  - by destruct l1.
  - apply H.
Qed.

Lemma row_seq st l n : holds_row st l -> holds_row (set_seq st n) l.
Proof. intros [H1 H2 H3 H4 H5]. by split. Qed.

Lemma row_start st l : holds_row st l -> vsm_iter_0 st = Ok (on (HEAD + total []) l) /\ turns st = length l.
Proof.
  intros H. split; [|unfold turns; rewrite (hr_chunks _ _ H); by apply layout_size, H].
  unfold vsm_iter_0. destruct l as [|c l]; [by pose proof (hr_some _ _ H)|].
  assert (H' : holds_row st ([] ++ c :: l)) by done. pose proof (row_chunk _ _ _ _ H') as E. unfold total in E. cbn [foldr] in E.
  rewrite Z.add_0_r in E. rewrite E. by run.
Qed.

Lemma row_lens st l1 c l2 : holds_row st (l1 ++ c :: l2) -> 0 <= len c < 2 ^ 32.
Proof.
  intros H. pose proof (row_end _ _ _ _ H) as E. pose proof (hr_fits _ _ H). destruct (row_sized _ _ _ _ H) as (Hl & Hc & Hl2).
  pose proof (total_nonneg _ Hl). pose proof (total_nonneg _ Hl2). unfold CHUNK, HEAD in *. lia.
Qed.

End VsmInv.

(** Shared memory, the calls: each is a function of the sequence of chunks. *)
Import Mem Vsm VsmInv.

Module VsmOps.

(** ** The calls on sequences *)

Definition free (c : VSM_chunk) : bool := is_class c VSM_CLASS_FREE.
Definition cool (c : VSM_chunk) : bool := is_class c VSM_CLASS_COOL.
Definition used (c : VSM_chunk) : bool := negb (free c) && negb (cool c).

Definition expired (now : Z) (c : VSM_chunk) : bool := cool c && (u32 (state c + VSM_COOL_TIME) <? now).

Definition freed (c : VSM_chunk) : VSM_chunk := set_names c VSM_CLASS_FREE [] [].
Definition joined (c c2 : VSM_chunk) : VSM_chunk := set_len c (len c + len c2).
Definition cooling (now : Z) (c : VSM_chunk) : VSM_chunk :=
  set_state (set_names c VSM_CLASS_COOL (type c) (ident c)) now.

Fixpoint firsts (now : Z) (l : list VSM_chunk) : list VSM_chunk :=
  match l with
  | [] => []
  | c :: l =>
      if expired now c then
        match l with
        | [] => [freed c]
        | c2 :: l2 => if free c2 then set_state (joined (freed c) c2) 0 :: firsts now l2 else set_state (freed c) 0 :: firsts now l
        end
      else c :: firsts now l
  end.

Fixpoint seconds (l : list VSM_chunk) : list VSM_chunk :=
  match l with
  | [] => []
  | c :: l =>
      if free c then
        match l with
        | [] => [c]
        | c2 :: l2 => if free c2 then joined c c2 :: seconds l2 else c :: seconds l
        end
      else c :: seconds l
  end.

Definition cleaned_up (now : Z) (l : list VSM_chunk) : list VSM_chunk :=
  if existsb (expired now) l then seconds (firsts now l) else l.

(** The first free chunk of that size; where it is. *)
Fixpoint alloc_in (size : Z) (cl ty id : list Z) (p : Z) (l : list VSM_chunk) : list VSM_chunk * option Z :=
  match l with
  | [] => ([], None)
  | c :: l =>
      if free c && (size <=? len c) then
        ((if size + CHUNK <? len c
          then set_names (set_len c size) cl ty id :: mkChunk (len c - size) 0 VSM_CLASS_FREE [] [] :: l
          else set_names c cl ty id :: l), Some p)
      else let '(l, r) := alloc_in size cl ty id (p + len c) l in (c :: l, r)
  end.

Fixpoint free_in (ptr now p : Z) (l : list VSM_chunk) : list VSM_chunk :=
  match l with
  | [] => []
  | c :: l => if VSM_PTR p =? ptr then cooling now c :: l else c :: free_in ptr now (p + len c) l
  end.

Fixpoint clean_in (now : Z) (f : bool) (l : list VSM_chunk) : list VSM_chunk :=
  match l with
  | [] => []
  | c :: l =>
      if negb f then c :: clean_in now (is_class c VSM_CLASS_MARK) l
      else (if used c then cooling now c else c) :: clean_in now true l
  end.

(** ** Loops *)

Lemma app_here {A} (l1 : list A) c l2 : l1 ++ c :: l2 = (l1 ++ [c]) ++ l2.
Proof. by rewrite <- app_assoc. Qed.

Lemma row_here st l1 c l2 : holds_row st (l1 ++ c :: l2) -> holds_row st ((l1 ++ [c]) ++ l2).
Proof. by rewrite <- app_here. Qed.

Lemma cooled_ok now n : forall l2 l1 st, holds_row st (l1 ++ l2) -> (length l2 <= n)%nat ->
  cooled n st now (on (HEAD + total l1) l2) = Ok (existsb (expired now) l2).
Proof.
  induction n as [|n IH]; intros [|c l2] l1 st H Hn; cbn [length] in Hn; [done|lia|done|].
  cbn [on cooled existsb]. run (row_chunk _ _ _ _ H). unfold expired at 1, cool. destruct (_ && _); [done|]. cbn [orb].
  run (row_next _ _ _ _ H). apply row_here in H. apply IH; [done|lia].
Qed.

Lemma first_pass_ok now n : forall l2 l1 st, holds_row st (l1 ++ l2) -> (length l2 <= n)%nat ->
  exists st', first_pass n st now (on (HEAD + total l1) l2) = Ok st' /\ holds_row st' (l1 ++ firsts now l2) /\
    alloc_seq st' = alloc_seq st.
Proof.
  induction n as [|n IH]; intros [|c l2] l1 st H Hn; cbn [length] in Hn; [by exists st|lia|by exists st|].
  cbn [on first_pass firsts]. run (row_chunk _ _ _ _ H).
  assert (Eb : negb (is_class c VSM_CLASS_COOL) || (now <=? u32 (state c + VSM_COOL_TIME)) = negb (expired now c)).
  { unfold expired, cool. rewrite negb_andb, Z.leb_antisym. done. }
  rewrite Eb. destruct (expired now c); cbn [negb].
  - change (bprintf 8 VSM_CLASS_FREE) with (@Ok (list Z) VSM_CLASS_FREE). change (bprintf 8 []) with (@Ok (list Z) []).
    change (bprintf 64 []) with (@Ok (list Z) []). run. fold (freed c).
    pose proof (row_put _ _ _ _ H (freed c) eq_refl) as H1. pose proof (row_end _ _ _ _ H1) as He. cbn [len set_names freed] in *.
    destruct (row_sized _ _ _ _ H) as (Hl1 & Hc & Hl2). pose proof (total_nonneg _ Hl2) as Ht.
    assertion by (cbn [put set_chunks vsm_end] in *; lia).
    destruct l2 as [|c2 l2].
    + rewrite (proj2 (Z.eqb_eq _ _)) by (unfold total at 2 in He; cbn in *; lia). eexists. done.
    + apply Forall_cons in Hl2 as [Hc2 Hl2]. pose proof (total_nonneg _ Hl2). rewrite total_cons in He.
      rewrite (proj2 (Z.eqb_neq _ _)) by (cbn [put set_chunks vsm_end] in *; unfold CHUNK in *; lia).
      assert (H1' := H1). apply row_here in H1'.
      rewrite <- Z.add_assoc. change (len c) with (len (freed c)). rewrite <- total_snoc. run (row_chunk _ _ _ _ H1').
      cbn [length] in Hn. destruct (free c2) eqn:Ef; unfold free in Ef; rewrite Ef.
      * assert (Hlen : u32 (len (freed c) + len c2) = len (freed c) + len c2).
        { apply u32_small. pose proof (hr_fits _ _ H). pose proof (total_nonneg _ Hl1). cbn in *. unfold HEAD, CHUNK in *. lia. }
        rewrite Hlen. fold (joined (freed c) c2).
        pose proof (row_join _ l1 _ c2 (set_state (joined (freed c) c2) 0) l2 H1 eq_refl) as H2.
        rewrite <- Z.add_assoc in H2. rewrite <- total_snoc in H2. run (row_next _ _ _ _ H2).
        apply row_here in H2. destruct (IH l2 _ _ H2) as (st' & -> & H3 & Es); [lia|].
        exists st'. split; [done|]. split; [by rewrite <- app_assoc in H3|done].
      * pose proof (row_put _ _ _ _ H1 (set_state (freed c) 0) eq_refl) as H2. run (row_next _ _ _ _ H2).
        apply row_here in H2. destruct (IH (c2 :: l2) _ _ H2) as (st' & -> & H3 & Es); [cbn; lia|].
        exists st'. split; [done|]. split; [by rewrite <- app_assoc in H3|done].
  - run (row_next _ _ _ _ H). apply row_here in H. destruct (IH l2 _ _ H) as (st' & -> & H3 & Es); [lia|].
    exists st'. split; [done|]. split; [by rewrite <- app_assoc in H3|done].
Qed.

Lemma second_pass_ok n : forall l2 l1 st, holds_row st (l1 ++ l2) -> (length l2 <= n)%nat ->
  exists st', second_pass n st (on (HEAD + total l1) l2) = Ok st' /\ holds_row st' (l1 ++ seconds l2) /\
    alloc_seq st' = alloc_seq st.
Proof.
  induction n as [|n IH]; intros [|c l2] l1 st H Hn; cbn [length] in Hn; [by exists st|lia|by exists st|].
  cbn [on second_pass seconds]. run (row_chunk _ _ _ _ H). fold (free c). destruct (free c); cbn [negb].
  - pose proof (row_end _ _ _ _ H) as He. destruct (row_sized _ _ _ _ H) as (Hl1 & Hc & Hl2). pose proof (total_nonneg _ Hl2) as Ht.
    assertion by lia. destruct l2 as [|c2 l2].
    + rewrite (proj2 (Z.eqb_eq _ _)) by (unfold total at 2 in He; cbn in *; lia). by exists st.
    + apply Forall_cons in Hl2 as [Hc2 Hl2]. pose proof (total_nonneg _ Hl2). rewrite total_cons in He.
      rewrite (proj2 (Z.eqb_neq _ _)) by (unfold CHUNK in *; lia).
      assert (H1' := H). apply row_here in H1'.
      rewrite <- Z.add_assoc, <- total_snoc. run (row_chunk _ _ _ _ H1'). cbn [length] in Hn. fold (free c2). destruct (free c2).
      * assert (Hlen : u32 (len c + len c2) = len c + len c2).
        { apply u32_small. pose proof (hr_fits _ _ H). pose proof (total_nonneg _ Hl1). unfold HEAD, CHUNK in *. lia. }
        rewrite Hlen. fold (joined c c2). pose proof (row_join _ l1 _ c2 (joined c c2) l2 H eq_refl) as H2.
        assert (Esw : put (wipe st (HEAD + total l1 + len c)) (HEAD + total l1) (joined c c2) =
          wipe (put st (HEAD + total l1) (joined c c2)) (HEAD + total (l1 ++ [c]))).
        { rewrite total_snoc, Z.add_assoc. unfold put, wipe, set_chunks. cbn [chunks vsm_end alloc_seq].
          by rewrite delete_insert_ne by (unfold CHUNK in *; lia). }
        rewrite Esw in H2. run (row_next _ _ _ _ H2).
        apply row_here in H2. destruct (IH l2 _ _ H2) as (st' & -> & H3 & Es); [lia|].
        exists st'. split; [done|]. split; [by rewrite <- app_assoc in H3|done].
      * run (row_next _ _ _ _ H). destruct (IH (c2 :: l2) _ _ H1') as (st' & -> & H3 & Es); [cbn; lia|].
        exists st'. split; [done|]. split; [by rewrite <- app_assoc in H3|done].
  - run (row_next _ _ _ _ H). apply row_here in H. destruct (IH l2 _ _ H) as (st' & -> & H3 & Es); [lia|].
    exists st'. split; [done|]. split; [by rewrite <- app_assoc in H3|done].
Qed.

(** ** Calls *)

(** The mark that readers see afterwards. *)
Definition bump (seq : Z) : Z := if seq =? 0 then 0 else if u32 (seq + 1) =? 0 then 1 else u32 (seq + 1).

Lemma release_ok st l seq : holds_row st l -> alloc_seq st = 0 -> holds_row (vsm_release st seq) l /\ alloc_seq (vsm_release st seq) = bump seq.
Proof. intros H E. unfold vsm_release, bump. destruct (seq =? 0); [done|]. split; [by apply row_seq|done]. Qed.

Lemma vsm_cleanup_ok st l now : holds_row st l ->
  exists st', vsm_cleanup st now = Ok st' /\ holds_row st' (cleaned_up now l) /\
    alloc_seq st' = if existsb (expired now) l then bump (alloc_seq st) else alloc_seq st.
Proof.
  intros H. unfold vsm_cleanup, cleaned_up. destruct (row_start _ _ H) as [E1 E2]. run E1. rewrite E2.
  run (cooled_ok now (length l) l [] st H (le_n _)). destruct (existsb _ l) eqn:Eb; cbn [negb]; [|by exists st].
  cbn [vsm_mark]. assert (H1 := row_seq _ _ 0 H). destruct (row_start _ _ H1) as [E3 E4]. run E3. rewrite E4.
  destruct (first_pass_ok now (length l) l [] _ H1 (le_n _)) as (st2 & -> & H2 & Es2). run. cbn [app] in H2.
  destruct (row_start _ _ H2) as [E5 E6]. run E5. rewrite E6.
  destruct (second_pass_ok _ (firsts now l) [] _ H2 (le_n _)) as (st3 & -> & H3 & Es3). run. cbn [app] in H3.
  destruct (release_ok st3 _ (alloc_seq st) H3) as [H4 E7]; [by rewrite Es3, Es2|]. eexists. split; [done|]. by split.
Qed.

Lemma alloc_loop_ok size cl ty id n : CHUNK <= size -> Z.of_nat (length cl) < 8 -> Z.of_nat (length ty) < 8 -> Z.of_nat (length id) < 64 ->
  forall l2 l1 st, holds_row st (l1 ++ l2) -> (length l2 <= n)%nat ->
  let '(l', r) := alloc_in size cl ty id (HEAD + total l1) l2 in
  exists st', alloc_loop n st size cl ty id (on (HEAD + total l1) l2) = Ok (st', VSM_PTR <$> r) /\ holds_row st' (l1 ++ l') /\
    alloc_seq st' = if r then bump (alloc_seq st) else alloc_seq st.
Proof.
  intros Hsize Hcl Hty Hid. induction n as [|n IH]; intros [|c l2] l1 st H Hn; cbn [length] in Hn; [by exists st|lia|by exists st|].
  cbn [on alloc_loop alloc_in]. rewrite (row_chunk _ _ _ _ H). run. fold (free c).
  rewrite Z.leb_antisym. destruct (free c && negb (len c <? size)) eqn:Eb.
  - assert (Eb' : negb (free c) || (len c <? size) = false) by (by destruct (free c), (len c <? size)). rewrite Eb'.
    cbn [vsm_mark]. assert (H1 := row_seq _ _ 0 H).
    assert (Hf : len c <? size = false) by (by destruct (free c), (len c <? size)). apply Z.ltb_ge in Hf.
    assert (Ebp : forall s x, Z.of_nat (length x) < s -> bprintf s x = Ok x).
    { intros s x Hx. unfold bprintf. by assertion by lia. }
    destruct (Z.ltb_spec (size + CHUNK) (len c)) as [Hs|Hs].
    + change (bprintf 8 VSM_CLASS_FREE) with (@Ok (list Z) VSM_CLASS_FREE). run. rewrite !Ebp by done. run.
      pose proof (row_split _ l1 c (set_names (set_len c size) cl ty id) (mkChunk (len c - size) 0 VSM_CLASS_FREE [] []) l2 H1
        Hsize ltac:(cbn; lia) ltac:(cbn; lia)) as H2.
      destruct (release_ok _ _ (alloc_seq st) H2 eq_refl) as [H3 E3]. eexists. split; [done|]. by split.
    + run. rewrite !Ebp by done. run. pose proof (row_put _ _ _ _ H1 (set_names c cl ty id) eq_refl) as H2.
      destruct (release_ok _ _ (alloc_seq st) H2 eq_refl) as [H3 E3]. eexists. split; [done|]. by split.
  - assert (Eb' : negb (free c) || (len c <? size) = true) by (by destruct (free c), (len c <? size)). rewrite Eb'.
    run (row_next _ _ _ _ H). apply row_here in H. specialize (IH l2 _ _ H ltac:(lia)).
    rewrite total_snoc, Z.add_assoc in IH. rewrite total_snoc, Z.add_assoc.
    destruct (alloc_in _ _ _ _ _ l2) as [l' r]. destruct IH as (st' & -> & H3 & Es). exists st'. split; [done|].
    split; [by rewrite <- app_assoc in H3|done].
Qed.

Lemma find_ptr_ok st c l2 n : forall m2 m1, holds_row st (m1 ++ m2 ++ c :: l2) -> (length m2 < n)%nat ->
  find_ptr n st (VSM_PTR (HEAD + total (m1 ++ m2))) (on (HEAD + total m1) (m2 ++ c :: l2)) = Ok (Some (HEAD + total (m1 ++ m2))).
Proof.
  induction n as [|n IH]; intros m2 m1 H Hn; [lia|]. destruct m2 as [|a m2]; cbn [app on find_ptr].
  - rewrite app_nil_r. by rewrite Z.eqb_refl.
  - destruct (row_sized _ _ _ _ H) as (Hm & Ha & Hr). apply Forall_app in Hr as [Hr _]. pose proof (total_nonneg _ Hr).
    rewrite (proj2 (Z.eqb_neq _ _)).
    2:{ unfold VSM_PTR. rewrite total_app, total_cons. unfold CHUNK in *. lia. }
    run (row_next _ _ _ _ H). cbn [app] in H. apply row_here in H. cbn [length] in Hn.
    rewrite (app_here m1 a m2). apply IH; [done|lia].
Qed.

Lemma free_ok st l1 c l2 now : holds_row st (l1 ++ c :: l2) ->
  exists st', VSM__Free st (VSM_PTR (HEAD + total l1)) now = Ok st' /\ holds_row st' (l1 ++ cooling now c :: l2) /\
    alloc_seq st' = bump (alloc_seq st).
Proof.
  intros H. unfold VSM__Free. destruct (row_start _ _ H) as [E1 E2]. run E1. rewrite E2.
  rewrite (find_ptr_ok st c l2 _ l1 [] H) by (rewrite length_app; cbn; lia). run. cbn [vsm_mark app].
  assert (H1 := row_seq _ _ 0 H). run (row_chunk _ _ _ _ H1). change (bprintf 8 VSM_CLASS_COOL) with (@Ok (list Z) VSM_CLASS_COOL). run.
  fold (cooling now c). pose proof (row_put _ _ _ _ H1 (cooling now c) eq_refl) as H2.
  destruct (release_ok _ _ (alloc_seq st) H2 eq_refl) as [H3 E3]. eexists. split; [done|]. by split.
Qed.

Lemma free_in_ok p l1 c l2 now : sized l1 -> free_in (VSM_PTR (p + total l1)) now p (l1 ++ c :: l2) = l1 ++ cooling now c :: l2.
Proof.
  intros Hl. revert p. induction Hl as [|a l1 Ha Hl IH]; intros p; cbn [app free_in].
  - unfold total. cbn. by rewrite Z.add_0_r, Z.eqb_refl.
  - pose proof (total_nonneg _ Hl). rewrite total_cons, (proj2 (Z.eqb_neq _ _)) by (unfold VSM_PTR, CHUNK in *; lia).
    by rewrite Z.add_assoc, IH.
Qed.

Lemma clean_loop_ok now n : forall l2 l1 f st, holds_row st (l1 ++ l2) -> (length l2 <= n)%nat -> alloc_seq st = 0 ->
  exists st', clean_loop n st now f (on (HEAD + total l1) l2) = Ok st' /\ holds_row st' (l1 ++ clean_in now f l2) /\ alloc_seq st' = 0.
Proof.
  induction n as [|n IH]; intros [|c l2] l1 f st H Hn Hz; cbn [length] in Hn; [by exists st|lia|by exists st|].
  cbn [on clean_loop clean_in]. run (row_chunk _ _ _ _ H). destruct f; cbn [negb].
  - fold (free c) (cool c) (used c). destruct (used c).
    + destruct (free_ok st l1 c l2 now H) as (st1 & -> & H1 & E1). run. rewrite Hz in E1. run (row_next _ _ _ _ H1).
      apply row_here in H1. destruct (IH l2 _ true _ H1) as (st' & -> & H3 & Es); [lia|done|].
      exists st'. split; [done|]. split; [by rewrite <- app_assoc in H3|done].
    + run. run (row_next _ _ _ _ H). apply row_here in H. destruct (IH l2 _ true _ H) as (st' & -> & H3 & Es); [lia|done|].
      exists st'. split; [done|]. split; [by rewrite <- app_assoc in H3|done].
  - run. run (row_next _ _ _ _ H). apply row_here in H. destruct (IH l2 _ (is_class c VSM_CLASS_MARK) _ H) as (st' & -> & H3 & Es); [lia|done|].
    exists st'. split; [done|]. split; [by rewrite <- app_assoc in H3|done].
Qed.

Lemma clean_ok st l now : holds_row st l ->
  exists st', VSM__Clean st now = Ok st' /\ holds_row st' (clean_in now false l) /\ alloc_seq st' = bump (alloc_seq st).
Proof.
  intros H. unfold VSM__Clean. cbn [vsm_mark]. assert (H1 := row_seq _ _ 0 H). destruct (row_start _ _ H1) as [E1 E2]. run E1. rewrite E2.
  destruct (clean_loop_ok now _ l [] false _ H1 (le_n _) eq_refl) as (st' & -> & H2 & E3). run. cbn [app] in H2.
  destruct (release_ok _ _ (alloc_seq st) H2 E3) as [H3 E4]. eexists. split; [done|]. by split.
Qed.

(** The size that is asked for, with the header. *)
Definition need (size : Z) : Z := (size + 7) / 8 * 8 + CHUNK.

Lemma RUP2_8 x : 0 <= x < 2 ^ 32 -> RUP2 x 8 = (x + 7) / 8 * 8.
Proof.
  intros Hx. unfold RUP2. change (8 - 1) with 7. change (Z.lnot 7) with (Z.lnot (2 ^ 3 - 1)).
  rewrite land_lnot_mask by lia. unfold u64. rewrite Z.mod_small by lia. change (2 ^ 3) with 8. pose proof (Z.div_mod (x + 7) 8). lia.
Qed.

Lemma alloc_ok st l size cl ty id now : holds_row st l -> 0 <= size < 2 ^ 32 - 100 ->
  Z.of_nat (length cl) < 8 -> Z.of_nat (length ty) < 8 -> Z.of_nat (length id) < 64 ->
  let '(l', r) := alloc_in (need size) cl ty id HEAD (cleaned_up now l) in
  exists st', VSM__Alloc st size cl ty id now = Ok (st', VSM_PTR <$> r) /\ holds_row st' l' /\
    let seq := if existsb (expired now) l then bump (alloc_seq st) else alloc_seq st in
    alloc_seq st' = if r then bump seq else seq.
Proof.
  intros H Hs Hcl Hty Hid. unfold VSM__Alloc. destruct (vsm_cleanup_ok st l now H) as (st1 & -> & H1 & E1). run.
  rewrite RUP2_8 by lia. assert (Hn : (size + 7) / 8 * 8 <= size + 7 /\ 0 <= (size + 7) / 8 * 8).
  { pose proof (Z.div_mod (size + 7) 8). pose proof (Z.mod_pos_bound (size + 7) 8). lia. }
  rewrite (u32_small ((size + 7) / 8 * 8)) by lia. rewrite u32_small by (unfold CHUNK; lia). fold (need size).
  destruct (row_start _ _ H1) as [E2 E3]. run E2. rewrite E3.
  assert (Hneed : CHUNK <= need size) by (unfold need; lia).
  pose proof (alloc_loop_ok (need size) cl ty id _ Hneed Hcl Hty Hid (cleaned_up now l) [] st1 H1 (le_n _)) as Ha.
  change (HEAD + total []) with HEAD in *. destruct (alloc_in _ _ _ _ _ _) as [l' r].
  destruct Ha as (st' & Ea & H2 & E4). exists st'. split; [exact Ea|]. split; [exact H2|]. cbv zeta. by rewrite E4, E1.
Qed.

End VsmOps.
