(* ===== verification/VsmThm.v ===== *)
(** Shared memory, the properties. *)
From S2P Require Import Prelude Mem Vsm VsmOps.
Import Mem Vsm VsmInv VsmOps.

Module VsmThm.

(** ** The chunks of a row *)

Lemma row_inv p l q c : layout p l !! q = Some c -> exists l1 l2, l = l1 ++ c :: l2 /\ q = p + total l1.
Proof.
  revert p. induction l as [|a l IH]; intros p; cbn [layout]; [done|].
  intros [[-> ->]|[_ (l1 & l2 & -> & ->)%IH]]%lookup_insert_Some.
  - exists [], l. split; [done|]. unfold total. cbn. lia.
  - exists (a :: l1), l2. split; [done|]. rewrite total_cons. lia.
Qed.

Lemma row_at st l p c : holds_row st l -> chunks st !! p = Some c -> exists l1 l2, l = l1 ++ c :: l2 /\ p = HEAD + total l1.
Proof. intros H. rewrite (hr_chunks _ _ H). apply row_inv. Qed.

Lemma at_row st l1 c l2 : holds_row st (l1 ++ c :: l2) -> chunks st !! (HEAD + total l1) = Some c.
Proof. intros H. rewrite (hr_chunks _ _ H). apply layout_at. apply (row_sized _ _ _ _ H). Qed.

(** Chunks do not overlap. *)
Lemma apart p l a b c d : sized l -> layout p l !! a = Some c -> layout p l !! b = Some d -> a < b -> a + len c <= b.
Proof.
  intros Hl. revert p. induction Hl as [|x l Hx Hl IH]; intros p; cbn [layout]; [done|].
  intros [[<- <-]|[Na Ha]]%lookup_insert_Some [[<- <-]|[Nb Hb]]%lookup_insert_Some Hab; [lia| | |by eauto].
  - destruct (Z.le_gt_cases (p + len x) b) as [|Hlow]; [done|]. by rewrite layout_low in Hb.
  - rewrite layout_low in Ha; [done|done|]. unfold CHUNK in *. lia.
Qed.

(** ** What cleaning up keeps *)

(** Neither free nor cooled. *)
Definition kept (now : Z) (c : VSM_chunk) : bool := negb (free c) && negb (expired now c).

Lemma free_freed c : free (freed c) = true.
Proof. done. Qed.

Lemma free_expired now c : free c = true -> expired now c = false.
Proof. unfold free, expired, cool, is_class. intros ->%bool_decide_eq_true_1. done. Qed.

(** A property of single chunks by induction on a cleaning pass. *)
Lemma firsts_kept now c l2 n : forall l1, (length l1 <= n)%nat -> kept now c = true ->
  exists l1' l2', firsts now (l1 ++ c :: l2) = l1' ++ c :: l2' /\ total l1' = total l1.
Proof.
  induction n as [|n IH]; intros [|a l1] Hn Hk; cbn [length] in Hn; try lia.
  1,2: unfold kept in Hk; apply andb_prop in Hk as [_ He%negb_true_iff]; cbn [app firsts]; rewrite He; exists [], (firsts now l2); done.
  cbn [app firsts]. destruct (expired now a).
  - destruct l1 as [|b l1].
    + cbn [app]. pose proof Hk as [Hf%negb_true_iff He%negb_true_iff]%andb_prop. rewrite Hf. cbn [firsts]. rewrite He.
      eexists [_], _. done.
    + destruct (IH (b :: l1) ltac:(lia) Hk) as (l1' & l2' & E & Et). cbn [app length] in *. destruct (free b).
      * destruct (IH l1 ltac:(lia) Hk) as (m1 & m2 & -> & Em). eexists (_ :: m1), m2. split; [done|].
        rewrite !total_cons, Em. cbn. lia.
      * rewrite E. eexists (_ :: l1'), l2'. split; [done|]. by rewrite !total_cons, Et, total_cons.
  - destruct (IH l1 ltac:(lia) Hk) as (m1 & m2 & -> & Em). exists (a :: m1), m2. split; [done|]. by rewrite !total_cons, Em.
Qed.

Lemma seconds_kept c l2 n : forall l1, (length l1 <= n)%nat -> free c = false ->
  exists l1' l2', seconds (l1 ++ c :: l2) = l1' ++ c :: l2' /\ total l1' = total l1.
Proof.
  induction n as [|n IH]; intros [|a l1] Hn Hk; cbn [length] in Hn; try lia.
  1,2: cbn [app seconds]; rewrite Hk; exists [], (seconds l2); done.
  cbn [app seconds]. destruct (free a).
  - destruct l1 as [|b l1].
    + cbn [app]. rewrite Hk. cbn [seconds]. rewrite Hk. eexists [_], _. done.
    + destruct (IH (b :: l1) ltac:(lia) Hk) as (l1' & l2' & E & Et). cbn [app length] in *. destruct (free b).
      * destruct (IH l1 ltac:(lia) Hk) as (m1 & m2 & -> & Em). eexists (_ :: m1), m2. split; [done|].
        rewrite !total_cons, Em. cbn. lia.
      * rewrite E. eexists (_ :: l1'), l2'. split; [done|]. by rewrite !total_cons, Et, total_cons.
  - destruct (IH l1 ltac:(lia) Hk) as (m1 & m2 & -> & Em). exists (a :: m1), m2. split; [done|]. by rewrite !total_cons, Em.
Qed.

Lemma cleaned_kept now l1 c l2 : kept now c = true ->
  exists l1' l2', cleaned_up now (l1 ++ c :: l2) = l1' ++ c :: l2' /\ total l1' = total l1.
Proof.
  intros Hk. unfold cleaned_up. destruct (existsb _ _); [|by exists l1, l2].
  destruct (firsts_kept now c l2 _ l1 (le_n _) Hk) as (m1 & m2 & -> & Em).
  apply andb_prop in Hk as [Hf%negb_true_iff _]. destruct (seconds_kept c m2 _ m1 (le_n _) Hf) as (k1 & k2 & -> & Ek).
  exists k1, k2. split; [done|lia].
Qed.

Lemma firsts_expired now n : forall l, (length l <= n)%nat -> Forall (fun c => expired now c = false) (firsts now l).
Proof.
  induction n as [|n IH]; intros [|a l] Hn; cbn [length] in Hn; try constructor; try lia.
  cbn [firsts]. destruct (expired now a) eqn:Ea; [|constructor; [done|apply IH; lia]].
  destruct l as [|b l]; [by repeat constructor|]. cbn [length] in Hn. destruct (free b).
  - constructor; [done|apply IH; lia].
  - constructor; [done|apply IH; cbn; lia].
Qed.

Lemma seconds_expired now n : forall l, (length l <= n)%nat -> Forall (fun c => expired now c = false) l ->
  Forall (fun c => expired now c = false) (seconds l).
Proof.
  induction n as [|n IH]; intros [|a l] Hn Hl; cbn [length] in Hn; try (by constructor); try lia.
  apply Forall_cons in Hl as [Ha Hl]. cbn [seconds]. destruct (free a); [|constructor; [done|apply IH; [lia|done]]].
  destruct l as [|b l]; [by repeat constructor|]. cbn [length] in Hn. destruct (free b).
  - apply Forall_cons in Hl as [_ Hl]. constructor; [done|apply IH; [lia|done]].
  - constructor; [done|apply IH; [cbn; lia|done]].
Qed.

Lemma cleaned_expired now l : Forall (fun c => expired now c = false) (cleaned_up now l).
Proof.
  unfold cleaned_up. destruct (existsb _ l) eqn:E.
  - eapply seconds_expired; [done|]. by eapply firsts_expired.
  - apply Forall_forall. intros c Hc. destruct (expired now c) eqn:Ee; [|done].
    rewrite <- E. symmetry. apply existsb_exists. exists c. split; [by apply list_elem_of_In|done].
Qed.

(** ** First fit *)

Definition fits (size : Z) (c : VSM_chunk) : bool := free c && (size <=? len c).

(** A chunk is taken, and split if there is space for another header. *)
Definition taken (size : Z) (cl ty id : list Z) (c : VSM_chunk) : list VSM_chunk :=
  if size + CHUNK <? len c then [set_names (set_len c size) cl ty id; mkChunk (len c - size) 0 VSM_CLASS_FREE [] []]
  else [set_names c cl ty id].

Lemma alloc_in_inv size cl ty id l : forall p l' r, alloc_in size cl ty id p l = (l', r) ->
  match r with
  | Some q => exists l1 c l2, l = l1 ++ c :: l2 /\ q = p + total l1 /\ fits size c = true /\
      Forall (fun c => fits size c = false) l1 /\ l' = l1 ++ taken size cl ty id c ++ l2
  | None => l' = l /\ Forall (fun c => fits size c = false) l
  end.
Proof.
  induction l as [|c l IH]; intros p l' r; cbn [alloc_in]; [by intros [= <- <-]|].
  destruct (free c && (size <=? len c)) eqn:Ef.
  - intros [= <- <-]. exists [], c, l. split; [done|]. split; [unfold total; cbn; lia|]. split; [exact Ef|]. split; [done|].
    unfold taken. by destruct (_ <? _).
  - destruct (alloc_in _ _ _ _ _ l) as [l0 r0] eqn:E. intros [= <- <-]. specialize (IH _ _ _ E). destruct r0 as [q|].
    + destruct IH as (l1 & c0 & l2 & -> & -> & Hf & Hl & ->). exists (c :: l1), c0, l2. split; [done|].
      split; [rewrite total_cons; lia|]. split; [done|]. split; [by constructor|done].
    + destruct IH as [-> Hl]. split; [done|by constructor].
Qed.

(** ** Runs *)

Inductive op :=
  | OpAlloc (size : Z) (cl ty id : list Z) (now : Z)
  | OpFree (ptr now : Z)
  | OpClean (now : Z).

Definition run_op (st : vsm) (o : op) : res (vsm * option Z) :=
  match o with
  | OpAlloc size cl ty id now => VSM__Alloc st size cl ty id now
  | OpFree ptr now => st ← VSM__Free st ptr now; mret (st, None)
  | OpClean now => st ← VSM__Clean st now; mret (st, None)
  end.

(** The names fit; what is freed is what a chunk holds. *)
Definition allowed (st : vsm) (o : op) : Prop :=
  match o with
  | OpAlloc size cl ty id now => 0 <= size < 2 ^ 32 - 100 /\
      Z.of_nat (length cl) < 8 /\ Z.of_nat (length ty) < 8 /\ Z.of_nat (length id) < 64
  | OpFree ptr now => is_Some (chunks st !! (ptr - CHUNK))
  | OpClean now => True
  end.

(** [mgt_SHM_Init] of a file of [size] octets: it allocates while the mark is still 0, *)
Inductive booting (size : Z) : vsm -> Prop :=
  | boot_init : HEAD + CHUNK <= size < 2 ^ 32 -> booting size (vsm_init size)
  | boot_alloc st n cl ty id now st' r : booting size st -> allowed st (OpAlloc n cl ty id now) ->
      run_op st (OpAlloc n cl ty id now) = Ok (st', r) -> booting size st'.

(** and then sets it to a random one; after that there are any calls. *)
Inductive reach (size : Z) : vsm -> Prop :=
  | reach_init st seq : booting size st -> 0 < seq < 2 ^ 32 -> reach size (set_seq st seq)
  | reach_op st o st' r : reach size st -> allowed st o -> run_op st o = Ok (st', r) -> reach size st'.

(** What a call does to the row, and if it changes the mark. *)
Definition row_of (o : op) (l : list VSM_chunk) : list VSM_chunk * option Z :=
  match o with
  | OpAlloc size cl ty id now => alloc_in (need size) cl ty id HEAD (cleaned_up now l)
  | OpFree ptr now => (free_in ptr now HEAD l, None)
  | OpClean now => (clean_in now false l, None)
  end.

Definition mark_of (o : op) (l : list VSM_chunk) (seq : Z) : Z :=
  match o with
  | OpAlloc size cl ty id now =>
      let seq := if existsb (expired now) l then bump seq else seq in if (row_of o l).2 then bump seq else seq
  | _ => bump seq
  end.

Lemma vsm_run_ok st l o : holds_row st l -> allowed st o ->
  exists st', run_op st o = Ok (st', VSM_PTR <$> (row_of o l).2) /\ holds_row st' (row_of o l).1 /\ alloc_seq st' = mark_of o l (alloc_seq st).
Proof.
  intros H Ha. destruct o as [size cl ty id now|ptr now|now]; cbn [run_op row_of mark_of fst snd].
  - destruct Ha as (Hs & Hc & Ht & Hi). pose proof (alloc_ok st l size cl ty id now H Hs Hc Ht Hi) as E.
    destruct (alloc_in _ _ _ _ _ _) as [l' r]. exact E.
  - destruct Ha as [c Hc]. destruct (row_at _ _ _ _ H Hc) as (l1 & l2 & -> & Ep).
    assert (Eptr : ptr = VSM_PTR (HEAD + total l1)) by (unfold VSM_PTR; lia). rewrite Eptr.
    destruct (free_ok st l1 c l2 now H) as (st' & -> & H1 & Es). run. exists st'. split; [done|].
    rewrite free_in_ok by apply (row_sized _ _ _ _ H). done.
  - destruct (clean_ok st l now H) as (st' & -> & H1 & Es). run. by exists st'.
Qed.

Lemma init_row size : HEAD + CHUNK <= size < 2 ^ 32 ->
  holds_row (vsm_init size) [mkChunk (size - HEAD) 0 VSM_CLASS_FREE [] []].
Proof.
  intros Hs. unfold vsm_init. rewrite u32_small by (unfold HEAD, CHUNK in *; lia).
  split; cbn [chunks vsm_end layout len]; [done| | |done|lia].
  - constructor; [cbn; lia|done].
  - unfold total. cbn. lia.
Qed.

Lemma row_set_seq st l seq : holds_row st l -> holds_row (set_seq st seq) l.
Proof. by intros []. Qed.

Lemma booting_row size st : booting size st -> exists l, holds_row st l.
Proof.
  induction 1 as [Hs|st n cl ty id now st' r _ [l H] Ha E]; [eexists; by apply init_row|].
  destruct (vsm_run_ok st l _ H Ha) as (st1 & E1 & H1 & _). rewrite E1 in E. injection E as <- _. by eexists.
Qed.

Lemma reach_row size st : reach size st -> exists l, holds_row st l.
Proof.
  induction 1 as [st seq Hb _|st o st' r _ [l H] Ha E].
  - destruct (booting_row _ _ Hb) as [l H]. exists l. by apply row_set_seq.
  - destruct (vsm_run_ok st l o H Ha) as (st1 & E1 & H1 & _). rewrite E1 in E. injection E as <- _. by eexists.
Qed.

(** ** Marks *)

Lemma bump_next seq : 0 < seq < 2 ^ 32 - 1 -> bump seq = seq + 1.
Proof.
  intros Hs. unfold bump, u32. rewrite (proj2 (Z.eqb_neq seq 0)) by lia. rewrite Z.mod_small by lia.
  by rewrite (proj2 (Z.eqb_neq (seq + 1) 0)) by lia.
Qed.

Lemma bump_pos seq : 0 < seq < 2 ^ 32 -> 0 < bump seq < 2 ^ 32 /\ bump seq <> seq /\ bump (bump seq) <> seq.
Proof.
  intros Hs. destruct (Z.eq_dec seq (2 ^ 32 - 1)) as [->|H1]; [done|].
  destruct (Z.eq_dec seq (2 ^ 32 - 2)) as [->|H2]; [done|]. rewrite !(bump_next seq) by lia.
  rewrite (bump_next (seq + 1)) by lia. lia.
Qed.

Lemma mark_of_pos o l seq : 0 < seq < 2 ^ 32 -> 0 < mark_of o l seq < 2 ^ 32.
Proof.
  intros Hs. destruct (bump_pos seq Hs) as [H1 _]. destruct o as [size cl ty id now| |]; cbn [mark_of]; [|done|done].
  destruct (existsb _ _), (row_of _ _).2; try done. by apply bump_pos.
Qed.

(** A mark that is kept: nothing was done. *)
Lemma mark_of_same o l seq : 0 < seq < 2 ^ 32 -> mark_of o l seq = seq -> (row_of o l).1 = l.
Proof.
  intros Hs. destruct (bump_pos seq Hs) as (_ & H1 & H2). destruct o as [size cl ty id now| |]; cbn [mark_of]; [|done|done].
  destruct (existsb _ _) eqn:Ex; destruct (row_of _ _).2 eqn:Er; [done|done|done|]. intros _.
  cbn [row_of] in *. destruct (alloc_in _ _ _ _ _ _) as [l' r] eqn:E. apply alloc_in_inv in E. cbn [snd] in Er. subst r.
  cbn [fst]. destruct E as [-> _]. unfold cleaned_up. by rewrite Ex.
Qed.

Lemma reach_mark size st : reach size st -> 0 < alloc_seq st < 2 ^ 32.
Proof.
  induction 1 as [st seq _ Hs|st o st' r Hr IH Ha E]; [done|]. destruct (reach_row _ _ Hr) as [l H].
  destruct (vsm_run_ok st l o H Ha) as (st1 & E1 & _ & Es). rewrite E1 in E. injection E as <- _. rewrite Es. by apply mark_of_pos.
Qed.

(** ** The size of the segment *)

Lemma total_firsts now n : forall l, (length l <= n)%nat -> total (firsts now l) = total l.
Proof.
  induction n as [|n IH]; intros [|a l] Hn; cbn [length] in Hn; try done; try lia. cbn [firsts].
  destruct (expired now a); [|by rewrite !total_cons, IH by lia]. destruct l as [|b l]; [done|]. cbn [length] in Hn.
  destruct (free b); [rewrite !total_cons, IH by lia; cbn; lia|]. by rewrite !(total_cons _ (_ :: _)), !total_cons, IH by (cbn; lia).
Qed.

Lemma total_seconds n : forall l, (length l <= n)%nat -> total (seconds l) = total l.
Proof.
  induction n as [|n IH]; intros [|a l] Hn; cbn [length] in Hn; try done; try lia. cbn [seconds].
  destruct (free a); [|by rewrite !total_cons, IH by lia]. destruct l as [|b l]; [done|]. cbn [length] in Hn.
  destruct (free b); [rewrite !total_cons, IH by lia; cbn; lia|]. rewrite !total_cons, IH by (cbn; lia). by rewrite !total_cons.
Qed.

Lemma total_cleaned now l : total (cleaned_up now l) = total l.
Proof. unfold cleaned_up. destruct (existsb _ _); [|done]. by erewrite total_seconds, total_firsts by done. Qed.

Lemma total_free_in ptr now l : forall p, total (free_in ptr now p l) = total l.
Proof.
  induction l as [|c l IH]; intros p; cbn [free_in]; [done|].
  destruct (_ =? _); rewrite !total_cons; [done|by rewrite IH].
Qed.

Lemma total_clean_in now l : forall f, total (clean_in now f l) = total l.
Proof.
  induction l as [|c l IH]; intros f; cbn [clean_in]; [done|].
  destruct (negb f); [by rewrite !total_cons, IH|]. rewrite !total_cons, IH. by destruct (used c).
Qed.

Lemma total_taken size cl ty id c : total (taken size cl ty id c) = len c.
Proof. unfold taken. destruct (_ <? _); unfold total; cbn; lia. Qed.

Lemma total_row o l : total (row_of o l).1 = total l.
Proof.
  destruct o as [size cl ty id now| |]; cbn [row_of fst]; [|apply total_free_in|apply total_clean_in].
  rewrite <- (total_cleaned now l). destruct (alloc_in _ _ _ _ _ _) as [l' r] eqn:E. apply alloc_in_inv in E. cbn [fst].
  destruct r as [q|]; [|by destruct E as [-> _]]. destruct E as (l1 & c & l2 & -> & _ & _ & _ & ->).
  by rewrite !total_app, total_taken, total_cons.
Qed.

Lemma end_kept st l o st' r : holds_row st l -> allowed st o -> run_op st o = Ok (st', r) -> vsm_end st' = vsm_end st.
Proof.
  intros H Ha E. destruct (vsm_run_ok st l o H Ha) as (st1 & E1 & H1 & _). rewrite E1 in E. injection E as <- _.
  by rewrite <- (hr_end _ _ H1), total_row, (hr_end _ _ H).
Qed.

Lemma booting_end size st : booting size st -> vsm_end st = size.
Proof.
  induction 1 as [|st n cl ty id now st' r Hb IH Ha E]; [done|]. destruct (booting_row _ _ Hb) as [l H].
  by rewrite (end_kept _ _ _ _ _ H Ha E).
Qed.

Lemma reach_end size st : reach size st -> vsm_end st = size.
Proof.
  induction 1 as [st seq Hb _|st o st' r Hr IH Ha E]; [exact (booting_end _ _ Hb)|]. destruct (reach_row _ _ Hr) as [l H].
  by rewrite (end_kept _ _ _ _ _ H Ha E).
Qed.

(** Every octet is in a chunk. *)
Lemma row_covers l : sized l -> forall p a, p <= a < p + total l -> exists q c, layout p l !! q = Some c /\ q <= a < q + len c.
Proof.
  induction 1 as [|c l Hc Hl IH]; intros p a; [unfold total; cbn; lia|]. rewrite total_cons. intros Ha.
  destruct (Z.lt_ge_cases a (p + len c)) as [Hlt|Hge].
  - exists p, c. cbn [layout]. rewrite lookup_insert_eq. split; [done|lia].
  - destruct (IH (p + len c) a ltac:(lia)) as (q & d & Hq & Hqa). exists q, d. split; [|done]. cbn [layout].
    rewrite lookup_insert_ne; [done|]. intros <-. rewrite layout_low in Hq; [done|done|]. unfold CHUNK in *. lia.
Qed.

Lemma row_apart st l a b c d : holds_row st l -> chunks st !! a = Some c -> chunks st !! b = Some d -> a <> b -> a + len c <= b \/ b + len d <= a.
Proof.
  intros H. rewrite (hr_chunks _ _ H). intros Ha Hb Hab. pose proof (hr_sized _ _ H).
  destruct (Z.lt_ge_cases a b); [left|right]; (eapply apart; [| | |]; try done; lia).
Qed.

(** What is kept by an allocation. *)
Lemma alloc_kept st l size cl ty id now st' r : holds_row st l -> allowed st (OpAlloc size cl ty id now) ->
  VSM__Alloc st size cl ty id now = Ok (st', r) ->
  forall p c, chunks st !! p = Some c -> kept now c = true ->
    chunks st' !! p = Some c /\ r <> Some (VSM_PTR p).
Proof.
  intros H Ha E p c Hp Hk. destruct (vsm_run_ok st l _ H Ha) as (st1 & E1 & H1 & _).
  change (VSM__Alloc st size cl ty id now = Ok (st1, VSM_PTR <$> (row_of (OpAlloc size cl ty id now) l).2)) in E1.
  rewrite E1 in E. injection E as <- <-. destruct (row_at _ _ _ _ H Hp) as (l1 & l2 & -> & ->).
  cbn [row_of fst snd] in *. destruct (cleaned_kept now l1 c l2 Hk) as (m1 & m2 & Em & Et). rewrite Em in H1 |- *. clear E1. rewrite <- Et.
  destruct (alloc_in _ _ _ _ _ _) as [l' q] eqn:El. apply alloc_in_inv in El. cbn [fst snd fmap option_fmap option_map] in *. destruct q as [q|].
  2:{ destruct El as [-> _]. split; [by apply (at_row _ _ _ _ H1)|done]. }
  destruct El as (k1 & d & k2 & Ek & -> & Hf & _ & ->). destruct (row_sized _ _ _ _ H) as (_ & Hlc & _).
  assert (Hz : sized (m1 ++ c :: m2)).
  { rewrite <- Em. destruct (vsm_cleanup_ok st _ now H) as (st2 & _ & H2 & _). apply H2. }
  assert (Hne : HEAD + total k1 <> HEAD + total m1 -> Some (VSM_PTR (HEAD + total k1)) <> Some (VSM_PTR (HEAD + total m1))).
  { unfold VSM_PTR. intros Hne [=]. lia. }
  assert (Hn : c <> d). { intros ->. unfold kept, fits in *. by destruct (free d). }
  destruct (decide (length m1 < length k1)%nat) as [Hlt|Hge].
  - assert (Eq : k1 = m1 ++ c :: drop (S (length m1)) k1).
    { assert (Hc : k1 !! length m1 = Some c) by (rewrite <- (lookup_app_l k1 (d :: k2)), <- Ek by done; by apply list_lookup_middle).
      rewrite <- (take_drop_middle k1 (length m1) c Hc) at 1. f_equal.
      rewrite <- (take_app_le k1 (d :: k2)), <- Ek by lia. by rewrite take_app_length. }
    rewrite Ek in Hz. apply Forall_app in Hz as [Hz _]. rewrite Eq in Hz. apply Forall_app in Hz as [_ [_ Hz]%Forall_cons].
    pose proof (total_nonneg _ Hz) as Hz'. split.
    + rewrite Eq, <- app_assoc in H1. by apply (at_row _ _ _ _ H1).
    + apply Hne. rewrite Eq at 1. rewrite total_app, total_cons. unfold CHUNK in *. lia.
  - destruct (decide (length m1 = length k1)) as [Hq|Hq].
    + exfalso. apply app_inj_1 in Ek as [_ Ek]; [|done]. by injection Ek.
    + assert (Hl : exists r, m1 = k1 ++ d :: r).
      { exists (drop (S (length k1)) m1).
        assert (Hd : m1 !! length k1 = Some d) by (rewrite <- (lookup_app_l m1 (c :: m2)), Ek by lia; by apply list_lookup_middle).
        rewrite <- (take_drop_middle m1 (length k1) d Hd) at 1. f_equal.
        rewrite <- (take_app_le m1 (c :: m2)), Ek by lia. by rewrite take_app_length. }
      destruct Hl as [t ->]. rewrite <- app_assoc in Ek. apply app_inv_head in Ek. injection Ek as <-.
      apply Forall_app in Hz as [Hz _]. apply Forall_app in Hz as [_ [Hd Hz]%Forall_cons]. pose proof (total_nonneg _ Hz) as Hz'.
      split; [|apply Hne; rewrite total_app, total_cons; unfold CHUNK in *; lia].
      assert (H2 : holds_row st1 ((k1 ++ taken (need size) cl ty id d ++ t) ++ c :: m2)) by (by rewrite <- !app_assoc).
      apply at_row in H2. revert H2. by rewrite !total_app, total_taken, total_cons.
Qed.

(** ** The properties *)

(** C24. In every reachable segment the chunks cover every octet after the head exactly
    once, each with space for its header. *)
Theorem vsm_rows size st : reach size st ->
  (forall p c, chunks st !! p = Some c -> HEAD <= p /\ p + len c <= size /\ CHUNK <= len c) /\
  (forall a, HEAD <= a < size -> exists p c, chunks st !! p = Some c /\ p <= a < p + len c /\
     forall p' c', chunks st !! p' = Some c' -> p' <= a < p' + len c' -> p' = p).
Proof.
  intros Hr. destruct (reach_row _ _ Hr) as [l H]. pose proof (reach_end _ _ Hr) as He. split.
  - intros p c Hp. destruct (row_at _ _ _ _ H Hp) as (l1 & l2 & -> & ->). pose proof (row_end _ _ _ _ H).
    destruct (row_sized _ _ _ _ H) as (H1 & Hc & H2). pose proof (total_nonneg _ H1). pose proof (total_nonneg _ H2). lia.
  - intros a Ha. pose proof (hr_end _ _ H) as E. destruct (row_covers l (hr_sized _ _ H) HEAD a ltac:(lia)) as (p & c & Hp & Hpa).
    rewrite <- (hr_chunks _ _ H) in Hp. exists p, c. split; [done|]. split; [done|]. intros p' c' Hp' Hpa'.
    destruct (decide (p' = p)) as [|Hne]; [done|]. destruct (row_apart _ _ _ _ _ _ H Hp' Hp Hne); lia.
Qed.

(** Every call returns, with no assertion violated. *)
Theorem vsm_calls_safe size st o : reach size st -> allowed st o -> exists st' r, run_op st o = Ok (st', r) /\ reach size st'.
Proof.
  intros Hr Ha. destruct (reach_row _ _ Hr) as [l H]. destruct (vsm_run_ok st l o H Ha) as (st' & E & _).
  exists st', (VSM_PTR <$> (row_of o l).2). split; [done|]. by apply (reach_op _ st o st' (VSM_PTR <$> (row_of o l).2)).
Qed.

(** C25. An allocation keeps the chunks in use and those that still cool; what it gives is
    apart from them, has the names and the space; NULL: no free chunk has the space. *)
Theorem vsm_alloc_correct size st n cl ty id now st' r : reach size st -> allowed st (OpAlloc n cl ty id now) ->
  VSM__Alloc st n cl ty id now = Ok (st', r) ->
  (forall p c, chunks st !! p = Some c -> kept now c = true -> chunks st' !! p = Some c) /\
  match r with
  | Some q => exists c, chunks st' !! (q - CHUNK) = Some c /\ class c = cl /\ type c = ty /\ ident c = id /\
      q + n <= q - CHUNK + len c /\
      forall p d, chunks st !! p = Some d -> kept now d = true -> p + len d <= q - CHUNK \/ q - CHUNK + len c <= p
  | None => forall p c, chunks st' !! p = Some c -> free c = true -> len c < n + 7 + CHUNK
  end.
Proof.
  intros Hr Ha E. destruct (reach_row _ _ Hr) as [l H]. pose proof (alloc_kept _ _ _ _ _ _ _ _ _ H Ha E) as Hk.
  split; [intros p c Hp Hkc; by apply (Hk p c)|].
  destruct (vsm_run_ok st l _ H Ha) as (st1 & E1 & H1 & _).
  change (VSM__Alloc st n cl ty id now = Ok (st1, VSM_PTR <$> (row_of (OpAlloc n cl ty id now) l).2)) in E1.
  rewrite E1 in E. injection E as <- <-. cbn [row_of] in *. destruct (alloc_in _ _ _ _ _ _) as [l' q] eqn:El.
  apply alloc_in_inv in El. cbn [fst snd] in *. assert (Hn : n <= need n - CHUNK /\ need n <= n + 7 + CHUNK).
  { unfold need. pose proof (Z.div_mod (n + 7) 8). pose proof (Z.mod_pos_bound (n + 7) 8). lia. }
  destruct q as [q|]; cbn [fmap option_fmap option_map] in *.
  - destruct El as (l1 & c & l2 & Ec & -> & Hf & _ & ->). apply andb_prop in Hf as [Hfree Hf%Z.leb_le].
    replace (VSM_PTR (HEAD + total l1) - CHUNK) with (HEAD + total l1) by (unfold VSM_PTR; lia).
    assert (exists d, hd_error (taken (need n) cl ty id c) = Some d /\ class d = cl /\ type d = ty /\ ident d = id /\ need n <= len d)
      as (d & Hd & Hcl & Hty & Hid & Hlen).
    { unfold taken. destruct (_ <? _); eexists; (split; [done|]); repeat split; cbn; lia. }
    assert (Hat : chunks st1 !! (HEAD + total l1) = Some d).
    { destruct (taken _ _ _ _ _) as [|d' t]; [done|]. injection Hd as ->. by apply (at_row _ _ d (t ++ l2)). }
    exists d. repeat (split; [done|]). split; [unfold VSM_PTR; lia|]. intros p e Hp Hke. destruct (Hk _ _ Hp Hke) as [Hp1 Hq].
    assert (p <> HEAD + total l1).
    { by intros ->. }
    destruct (row_apart _ _ _ _ _ _ H1 Hp1 Hat); [done|by left|by right].
  - destruct El as [-> Hl]. intros p c Hp Hfree. destruct (row_at _ _ _ _ H1 Hp) as (l1 & l2 & Ec & _).
    rewrite Ec in Hl. apply Forall_app in Hl as [_ [Hc _]%Forall_cons]. unfold fits in Hc. rewrite Hfree in Hc. cbn in Hc.
    apply Z.leb_gt in Hc. lia.
Qed.

(** C23. A reader that finds the mark not zero and the same as before a call finds the
    same chunks; the mark is never zero between calls. *)
Theorem vsm_readers_see size st o st' r : reach size st -> allowed st o -> run_op st o = Ok (st', r) ->
  alloc_seq st' <> 0 /\ (alloc_seq st' = alloc_seq st -> chunks st' = chunks st).
Proof.
  intros Hr Ha E. destruct (reach_row _ _ Hr) as [l H]. pose proof (reach_mark _ _ Hr) as Hs.
  destruct (vsm_run_ok st l o H Ha) as (st1 & E1 & H1 & Es). rewrite E1 in E. injection E as <- _. rewrite Es.
  pose proof (mark_of_pos o l _ Hs). split; [lia|]. intros Em. apply (mark_of_same _ l _ Hs) in Em. rewrite Em in H1.
  by rewrite (hr_chunks _ _ H1), (hr_chunks _ _ H).
Qed.

Lemma clean_in_after now l : clean_in now true l = map (fun c => if used c then cooling now c else c) l.
Proof. induction l as [|c l IH]; [done|]. cbn [clean_in negb map]. by rewrite IH. Qed.

Lemma clean_in_mark now l1 m l2 : Forall (fun c => is_class c VSM_CLASS_MARK = false) l1 -> is_class m VSM_CLASS_MARK = true ->
  clean_in now false (l1 ++ m :: l2) = l1 ++ m :: clean_in now true l2.
Proof.
  intros Hl Hm. induction Hl as [|c l1 Hc Hl IH]; cbn [app clean_in negb]; [by rewrite Hm|]. by rewrite Hc, IH.
Qed.

Lemma clean_in_none now l : Forall (fun c => is_class c VSM_CLASS_MARK = false) l -> clean_in now false l = l.
Proof. induction 1 as [|c l Hc Hl IH]; [done|]. cbn [clean_in negb]. by rewrite Hc, IH. Qed.

Lemma layout_cut p l1 l2 q : sized l1 -> sized l2 ->
  layout p (l1 ++ l2) !! q = if decide (q < p + total l1) then layout p l1 !! q else layout (p + total l1) l2 !! q.
Proof.
  intros Hl Hl2. revert p. induction Hl as [|c l Hc Hl IH]; intros p; cbn [app layout].
  - change (total []) with 0. rewrite Z.add_0_r. destruct (decide _); [by apply layout_low|done].
  - pose proof (total_nonneg _ Hl). destruct (decide (q = p)) as [->|Hne].
    + rewrite !lookup_insert_eq, decide_True; [done|]. rewrite total_cons. unfold CHUNK in *. lia.
    + rewrite !lookup_insert_ne by done. by rewrite IH, total_cons, !Z.add_assoc.
Qed.

Lemma layout_map f p l q : (forall c, len (f c) = len c) -> layout p (map f l) !! q = f <$> layout p l !! q.
Proof.
  intros Hf. revert p. induction l as [|c l IH]; intros p; cbn [map layout]; [done|]. rewrite Hf.
  destruct (decide (q = p)) as [->|Hne]; [by rewrite !lookup_insert_eq|]. by rewrite !lookup_insert_ne.
Qed.

Lemma layout_in p l q c : layout p l !! q = Some c -> c ∈ l.
Proof. intros (l1 & l2 & -> & _)%row_inv. apply elem_of_app. right. by left. Qed.

Lemma first_mark l : Forall (fun c => is_class c VSM_CLASS_MARK = false) l \/
  exists l1 m l2, l = l1 ++ m :: l2 /\ is_class m VSM_CLASS_MARK = true /\ Forall (fun c => is_class c VSM_CLASS_MARK = false) l1.
Proof.
  induction l as [|c l [IH|(l1 & m & l2 & -> & Hm & IH)]]; [by left| |].
  - destruct (is_class c VSM_CLASS_MARK) eqn:E; [right; by exists [], c, l|left; by constructor].
  - right. destruct (is_class c VSM_CLASS_MARK) eqn:E; [by exists [], c, (l1 ++ m :: l2)|exists (c :: l1), m, l2].
    split; [done|]. split; [done|by constructor].
Qed.

(** [VSM__Clean] when the child is gone: what is up to the first mark is as before,
    and after it all that was in use cools. *)
Theorem vsm_clean_correct size st now st' : reach size st -> VSM__Clean st now = Ok st' ->
  (forall p, (forall q m, chunks st !! q = Some m -> is_class m VSM_CLASS_MARK = true -> p <= q) -> chunks st' !! p = chunks st !! p) /\
  (forall q m p c, chunks st !! q = Some m -> is_class m VSM_CLASS_MARK = true -> q < p -> chunks st !! p = Some c ->
     chunks st' !! p = Some (if used c then cooling now c else c)).
Proof.
  intros Hr E. destruct (reach_row _ _ Hr) as [l H]. destruct (clean_ok st l now H) as (st1 & E1 & H1 & _).
  rewrite E1 in E. injection E as <-. pose proof (hr_sized _ _ H) as Hl. rewrite (hr_chunks _ _ H), (hr_chunks _ _ H1).
  destruct (first_mark l) as [Hn|(l1 & m & l2 & -> & Hm & Hn)].
  { rewrite (clean_in_none now l Hn). split; [done|]. intros q m p c Hq%layout_in Hm. rewrite Forall_forall in Hn.
    by rewrite (Hn m Hq) in Hm. }
  rewrite (clean_in_mark now l1 m l2 Hn Hm), clean_in_after. apply Forall_app in Hl as [Hl1 Hl].
  assert (Hl' : sized (m :: map (fun c => if used c then cooling now c else c) l2)).
  { apply Forall_cons in Hl as [Hm' Hl]. constructor; [done|]. apply Forall_map. eapply Forall_impl; [exact Hl|]. intros d. by destruct (used d). }
  split.
  - intros p Hp. specialize (Hp _ _ (layout_at HEAD l1 m l2 Hl1) Hm). rewrite !layout_cut by done.
    destruct (decide _) as [|Hge]; [done|]. replace p with (HEAD + total l1) by lia. cbn [layout]. by rewrite !lookup_insert_eq.
  - intros q m2 p c Hq Hm2 Hqp. assert (Hlow : HEAD + total l1 <= q).
    { apply Z.le_ngt. intros Hlt. rewrite layout_cut, decide_True in Hq by done. apply layout_in in Hq.
      rewrite Forall_forall in Hn. by rewrite (Hn m2 Hq) in Hm2. }
    rewrite !layout_cut, !decide_False by (done || lia). cbn [layout]. rewrite !lookup_insert_ne by lia.
    rewrite layout_map by (intros d; by destruct (used d)). by intros ->.
Qed.


(** Three chunks that fill the segment, and are freed. *)
Definition full (now : Z) : list op :=
  [OpAlloc 8 (str "A") [] [] now; OpAlloc 8 (str "B") [] [] now; OpAlloc 8 (str "C") [] [] now;
   OpFree (VSM_PTR HEAD) now; OpFree (VSM_PTR (HEAD + 100)) now; OpFree (VSM_PTR (HEAD + 200)) now].

Definition run_vsm (st : vsm) (o : op) : vsm := match run_op st o with Ok (st, _) => st | _ => st end.

Definition freed_all : vsm := foldl run_vsm (set_seq (vsm_init (HEAD + 300)) 7) (full 0).

Lemma row_eq st st' l : holds_row st l -> holds_row st' l -> alloc_seq st' = alloc_seq st -> st' = st.
Proof.
  destruct st as [m e n], st' as [m' e' n']. intros [H1 _ H2 _ _] [H3 _ H4 _ _] E. cbn in *. congruence.
Qed.

Lemma freed_all_row : holds_row freed_all
  [cooling 0 (mkChunk 100 0 (str "A") [] []); cooling 0 (mkChunk 100 0 (str "B") [] []); cooling 0 (mkChunk 100 0 (str "C") [] [])].
Proof. split; [by vm_compute|by repeat constructor|by vm_compute|done|by vm_compute]. Qed.

(** Three chunks that fill the segment and are freed: the first two are joined, and
    the third never is.  No allocation that needs more succeeds again, with the
    segment all free. *)
Theorem vsm_fragments now : 5 < now ->
  (exists st p, VSM__Alloc (set_seq (vsm_init (HEAD + 300)) 7) 192 (str "D") [] [] now = Ok (st, Some p)) /\
  exists st, VSM__Alloc freed_all 192 (str "D") [] [] now = Ok (st, None) /\
    map_Forall (fun _ c => free c = true) (chunks st) /\
    forall later, VSM__Alloc st 192 (str "D") [] [] later = Ok (st, None).
Proof.
  intros Hn%Z.ltb_lt. split.
  - pose proof (alloc_ok _ _ 192 (str "D") [] [] now (row_set_seq _ _ 7 (init_row (HEAD + 300) ltac:(done))) ltac:(lia) eq_refl eq_refl eq_refl) as E.
    cbv zeta in E. destruct E as (st & E & _). by eexists _, _.
  - pose proof (alloc_ok _ _ 192 (str "D") [] [] now freed_all_row ltac:(lia) eq_refl eq_refl eq_refl) as E.
    assert (Ec : cleaned_up now [cooling 0 (mkChunk 100 0 (str "A") [] []); cooling 0 (mkChunk 100 0 (str "B") [] []); cooling 0 (mkChunk 100 0 (str "C") [] [])] =
      [mkChunk 200 0 VSM_CLASS_FREE [] []; mkChunk 100 0 VSM_CLASS_FREE [] []]).
    { unfold cleaned_up. cbn [existsb]. unfold expired at 1. change (u32 _) with 5. cbn [cool cooling state set_state]. rewrite Hn.
      change (cool _) with true. cbn [andb orb firsts]. unfold expired. change (u32 _) with 5. rewrite Hn. by vm_compute. }
    rewrite Ec in E. destruct E as (st & E & H & _). exists st. split; [exact E|]. split.
    + rewrite (hr_chunks _ _ H). intros p c Hp%layout_in. rewrite !elem_of_cons, elem_of_nil in Hp. by destruct Hp as [->|[->|[]]].
    + intros later. destruct (alloc_ok _ _ 192 (str "D") [] [] later H ltac:(lia) eq_refl eq_refl eq_refl) as (st2 & E2 & H2 & Es).
      rewrite E2. f_equal. f_equal. by eapply row_eq.
Qed.

(** The chunks are after the head. *)
Lemma row_low size st : reach size st -> forall p c, chunks st !! p = Some c -> HEAD <= p /\ CHUNK <= len c.
Proof.
  intros Hr p c Hp. destruct (reach_row _ _ Hr) as [l H]. destruct (row_at _ _ _ _ H Hp) as (l1 & l2 & -> & ->).
  destruct (row_sized _ _ _ _ H) as (H1 & Hc & H2). pose proof (total_nonneg _ H1). lia.
Qed.

(** ** Witnesses *)

Definition ex_st : vsm := foldl run_vsm (set_seq (vsm_init (HEAD + 1000)) 7)
  [OpAlloc 0 VSM_CLASS_MARK [] [] 1; OpAlloc 8 (str "Stat") (str "t") (str "i") 2].
Definition ex_op : op := OpAlloc 20 (str "Arg") [] [] 3.

Lemma ex_row : reach (HEAD + 1000) ex_st.
Proof.
  eapply (reach_op _ _ (OpAlloc 8 (str "Stat") (str "t") (str "i") 2)).
  { eapply (reach_op _ _ (OpAlloc 0 VSM_CLASS_MARK [] [] 1)); [exact (reach_init _ _ 7 (boot_init (HEAD + 1000) ltac:(done)) ltac:(done))|done|by vm_compute]. }
  - done.
  - by vm_compute.
Qed.

Lemma vsm_rows_witness : exists p c, chunks ex_st !! p = Some c /\ p <= HEAD + 200 < p + len c.
Proof. destruct (proj2 (vsm_rows _ _ ex_row) (HEAD + 200) ltac:(done)) as (p & c & Hp & Hpa & _). exact (ex_intro _ p (ex_intro _ c (conj Hp Hpa))). Defined.

Lemma vsm_calls_safe_witness : exists st' r, run_op ex_st ex_op = Ok (st', r) /\ reach (HEAD + 1000) st'.
Proof. apply (vsm_calls_safe _ _ _ ex_row). done. Defined.

Definition ex_alloc : vsm := run_vsm ex_st ex_op.

Lemma ex_alloc_run : VSM__Alloc ex_st 20 (str "Arg") [] [] 3 = Ok (ex_alloc, Some (VSM_PTR (HEAD + 192))).
Proof. by vm_compute. Qed.

Lemma vsm_alloc_correct_witness : exists c, chunks ex_alloc !! (VSM_PTR (HEAD + 192) - CHUNK) = Some c /\ class c = str "Arg".
Proof.
  pose proof (vsm_alloc_correct _ ex_st 20 (str "Arg") [] [] 3 _ _ ex_row ltac:(done) ex_alloc_run) as [_ (c & Hc & Hcl & _)].
  exists c. exact (conj Hc Hcl).
Defined.

Lemma vsm_readers_see_witness : alloc_seq ex_alloc <> 0.
Proof. exact (proj1 (vsm_readers_see _ ex_st ex_op _ _ ex_row ltac:(done) ex_alloc_run)). Defined.

Definition ex_clean : vsm := match VSM__Clean ex_st 4 with Ok st => st | Fail _ => ex_st end.

Lemma ex_clean_run : VSM__Clean ex_st 4 = Ok ex_clean.
Proof. by vm_compute. Qed.

Lemma vsm_clean_correct_witness : chunks ex_clean !! HEAD = chunks ex_st !! HEAD.
Proof.
  apply (proj1 (vsm_clean_correct _ ex_st 4 ex_clean ex_row ex_clean_run)). intros q m Hq _.
  exact (proj1 (row_low _ _ ex_row q m Hq)).
Defined.

Lemma vsm_fragments_witness : exists st, VSM__Alloc freed_all 192 (str "D") [] [] 6 = Ok (st, None).
Proof. destruct (vsm_fragments 6) as [_ (st & E & _)]; [done|by exists st]. Defined.

End VsmThm.
