(* ===== verification/CenterState.v ===== *)
(** The session state machine, its state: what a session and its worker hold.

    Pointers of which only matters whether they are NULL are [bool]s, and so are
    workspaces that only matter as reserved or not. *)
From S2P Require Import Prelude.

Module CenterState.

(** [enum step], [include/../steps.h] *)
Inductive step_t :=
  | STP_WAIT | STP_FIRST | STP_RECV | STP_START | STP_PIPE | STP_PASS | STP_LOOKUP | STP_MISS | STP_HIT
  | STP_FETCH | STP_FETCHBODY | STP_STREAMBODY | STP_PREPRESP | STP_DELIVER | STP_ERROR | STP_DONE.

Inductive vcl_ret :=
  | RET_DELIVER | RET_ERROR | RET_FETCH | RET_HASH | RET_HIT_FOR_PASS | RET_LOOKUP | RET_PASS | RET_PIPE | RET_RESTART.

Inductive vfp := vfp_esi | vfp_gunzip | vfp_gzip | vfp_testgzip | vfp_nop.

Inductive bstatus := BS_NONE | BS_ZERO | BS_LENGTH | BS_CHUNKED | BS_EOF | BS_ERROR.

#[global] Instance step_eq_dec : EqDecision step_t.
Proof. solve_decision. Defined.
#[global] Instance vcl_ret_eq_dec : EqDecision vcl_ret.
Proof. solve_decision. Defined.
#[global] Instance vfp_eq_dec : EqDecision vfp.
Proof. solve_decision. Defined.

(** An object core the session refers to: [OC_F_BUSY], [OC_F_PASS]. *)
Record core := mkCore { c_busy : bool; c_pass : bool; c_ban : bool }.

(** An object: its core, and whether it is compressed, has ESI data, is empty. *)
Record object := mkObject { o_core : option core; o_gziped : bool; o_esidata : bool; o_empty : bool; o_response : Z }.

(** Where the session is: with its worker, on a waiting list, with the acceptor,
    deleted; or with nobody. *)
Inductive place_t := WithWorker | OnWaitingList | WithAcceptor | Deleted | Nowhere.

(** What of [struct worker] the session uses; [acct_tmp]: it has counted something,
    [wfd]: the write queue is reserved, [w_ws]: the workspace is, [vgz_rx]: there is a compressor. *)
Record worker := mkWorker {
  w_vcl : bool; do_esi : bool; do_gzip : bool; do_gunzip : bool; is_gzip : bool; is_gunzip : bool;
  do_stream : bool; wvfp : option vfp; h_content_length : bool; do_close : bool; storage_hint : bool;
  bereq : bool; beresp : bool; resp : bool; res_mode : Z; body_status : bstatus; sctx : bool;
  wfd : bool; w_ws : bool; nbusyobj : bool; acct_tmp : bool; vgz_rx : bool;
}.

(** [vbc]: the connection, if it was used before; [ws]: the workspace is reserved; [xid]
    and [restarts] are numbers. *)
Record sess := mkSess {
  step : step_t; fd : bool; restarts : Z; esi_level : Z; xid : Z; vcl : bool; director : bool;
  vbc : option bool; obj : option object; objcore : option core; handling : vcl_ret; err_code : Z;
  doclose : bool; wantbody : bool; sendbody : bool; disable_esi : bool; hash_always_miss : bool;
  hash_ignore_busy : bool; hash_objhead : bool; vary_b : bool; vary_l : bool; ws : bool; wrk : bool;
  place : place_t; wk : worker;
}.

Definition on_wk (sp : sess) (f : worker -> worker) := mkSess (step sp) (fd sp) (restarts sp) (esi_level sp) (xid sp)
  (vcl sp) (director sp) (vbc sp) (obj sp) (objcore sp) (handling sp) (err_code sp) (doclose sp) (wantbody sp)
  (sendbody sp) (disable_esi sp) (hash_always_miss sp) (hash_ignore_busy sp) (hash_objhead sp) (vary_b sp) (vary_l sp)
  (ws sp) (wrk sp) (place sp) (f (wk sp)).
Definition set_w_vcl (sp : sess) (v : bool) := on_wk sp (fun w => mkWorker v (do_esi w) (do_gzip w) (do_gunzip w)
  (is_gzip w) (is_gunzip w) (do_stream w) (wvfp w) (h_content_length w) (do_close w) (storage_hint w) (bereq w)
  (beresp w) (resp w) (res_mode w) (body_status w) (sctx w) (wfd w) (w_ws w) (nbusyobj w) (acct_tmp w) (vgz_rx w)).
Definition set_do_esi (sp : sess) (v : bool) := on_wk sp (fun w => mkWorker (w_vcl w) v (do_gzip w) (do_gunzip w)
  (is_gzip w) (is_gunzip w) (do_stream w) (wvfp w) (h_content_length w) (do_close w) (storage_hint w) (bereq w)
  (beresp w) (resp w) (res_mode w) (body_status w) (sctx w) (wfd w) (w_ws w) (nbusyobj w) (acct_tmp w) (vgz_rx w)).
Definition set_do_gzip (sp : sess) (v : bool) := on_wk sp (fun w => mkWorker (w_vcl w) (do_esi w) v (do_gunzip w)
  (is_gzip w) (is_gunzip w) (do_stream w) (wvfp w) (h_content_length w) (do_close w) (storage_hint w) (bereq w)
  (beresp w) (resp w) (res_mode w) (body_status w) (sctx w) (wfd w) (w_ws w) (nbusyobj w) (acct_tmp w) (vgz_rx w)).
Definition set_do_gunzip (sp : sess) (v : bool) := on_wk sp (fun w => mkWorker (w_vcl w) (do_esi w) (do_gzip w) v
  (is_gzip w) (is_gunzip w) (do_stream w) (wvfp w) (h_content_length w) (do_close w) (storage_hint w) (bereq w)
  (beresp w) (resp w) (res_mode w) (body_status w) (sctx w) (wfd w) (w_ws w) (nbusyobj w) (acct_tmp w) (vgz_rx w)).
Definition set_is_gzip (sp : sess) (v : bool) := on_wk sp (fun w => mkWorker (w_vcl w) (do_esi w) (do_gzip w)
  (do_gunzip w) v (is_gunzip w) (do_stream w) (wvfp w) (h_content_length w) (do_close w) (storage_hint w) (bereq w)
  (beresp w) (resp w) (res_mode w) (body_status w) (sctx w) (wfd w) (w_ws w) (nbusyobj w) (acct_tmp w) (vgz_rx w)).
Definition set_is_gunzip (sp : sess) (v : bool) := on_wk sp (fun w => mkWorker (w_vcl w) (do_esi w) (do_gzip w)
  (do_gunzip w) (is_gzip w) v (do_stream w) (wvfp w) (h_content_length w) (do_close w) (storage_hint w) (bereq w)
  (beresp w) (resp w) (res_mode w) (body_status w) (sctx w) (wfd w) (w_ws w) (nbusyobj w) (acct_tmp w) (vgz_rx w)).
Definition set_do_stream (sp : sess) (v : bool) := on_wk sp (fun w => mkWorker (w_vcl w) (do_esi w) (do_gzip w)
  (do_gunzip w) (is_gzip w) (is_gunzip w) v (wvfp w) (h_content_length w) (do_close w) (storage_hint w) (bereq w)
  (beresp w) (resp w) (res_mode w) (body_status w) (sctx w) (wfd w) (w_ws w) (nbusyobj w) (acct_tmp w) (vgz_rx w)).
Definition set_wvfp (sp : sess) (v : option vfp) := on_wk sp (fun w => mkWorker (w_vcl w) (do_esi w) (do_gzip w)
  (do_gunzip w) (is_gzip w) (is_gunzip w) (do_stream w) v (h_content_length w) (do_close w) (storage_hint w) (bereq w)
  (beresp w) (resp w) (res_mode w) (body_status w) (sctx w) (wfd w) (w_ws w) (nbusyobj w) (acct_tmp w) (vgz_rx w)).
Definition set_h_content_length (sp : sess) (v : bool) := on_wk sp (fun w => mkWorker (w_vcl w) (do_esi w) (do_gzip w)
  (do_gunzip w) (is_gzip w) (is_gunzip w) (do_stream w) (wvfp w) v (do_close w) (storage_hint w) (bereq w) (beresp w)
  (resp w) (res_mode w) (body_status w) (sctx w) (wfd w) (w_ws w) (nbusyobj w) (acct_tmp w) (vgz_rx w)).
Definition set_do_close (sp : sess) (v : bool) := on_wk sp (fun w => mkWorker (w_vcl w) (do_esi w) (do_gzip w)
  (do_gunzip w) (is_gzip w) (is_gunzip w) (do_stream w) (wvfp w) (h_content_length w) v (storage_hint w) (bereq w)
  (beresp w) (resp w) (res_mode w) (body_status w) (sctx w) (wfd w) (w_ws w) (nbusyobj w) (acct_tmp w) (vgz_rx w)).
Definition set_storage_hint (sp : sess) (v : bool) := on_wk sp (fun w => mkWorker (w_vcl w) (do_esi w) (do_gzip w)
  (do_gunzip w) (is_gzip w) (is_gunzip w) (do_stream w) (wvfp w) (h_content_length w) (do_close w) v (bereq w) (beresp
  w) (resp w) (res_mode w) (body_status w) (sctx w) (wfd w) (w_ws w) (nbusyobj w) (acct_tmp w) (vgz_rx w)).
Definition set_bereq (sp : sess) (v : bool) := on_wk sp (fun w => mkWorker (w_vcl w) (do_esi w) (do_gzip w) (do_gunzip
  w) (is_gzip w) (is_gunzip w) (do_stream w) (wvfp w) (h_content_length w) (do_close w) (storage_hint w) v (beresp w)
  (resp w) (res_mode w) (body_status w) (sctx w) (wfd w) (w_ws w) (nbusyobj w) (acct_tmp w) (vgz_rx w)).
Definition set_beresp (sp : sess) (v : bool) := on_wk sp (fun w => mkWorker (w_vcl w) (do_esi w) (do_gzip w)
  (do_gunzip w) (is_gzip w) (is_gunzip w) (do_stream w) (wvfp w) (h_content_length w) (do_close w) (storage_hint w)
  (bereq w) v (resp w) (res_mode w) (body_status w) (sctx w) (wfd w) (w_ws w) (nbusyobj w) (acct_tmp w) (vgz_rx w)).
Definition set_resp (sp : sess) (v : bool) := on_wk sp (fun w => mkWorker (w_vcl w) (do_esi w) (do_gzip w) (do_gunzip
  w) (is_gzip w) (is_gunzip w) (do_stream w) (wvfp w) (h_content_length w) (do_close w) (storage_hint w) (bereq w)
  (beresp w) v (res_mode w) (body_status w) (sctx w) (wfd w) (w_ws w) (nbusyobj w) (acct_tmp w) (vgz_rx w)).
Definition set_res_mode (sp : sess) (v : Z) := on_wk sp (fun w => mkWorker (w_vcl w) (do_esi w) (do_gzip w) (do_gunzip
  w) (is_gzip w) (is_gunzip w) (do_stream w) (wvfp w) (h_content_length w) (do_close w) (storage_hint w) (bereq w)
  (beresp w) (resp w) v (body_status w) (sctx w) (wfd w) (w_ws w) (nbusyobj w) (acct_tmp w) (vgz_rx w)).
Definition set_body_status (sp : sess) (v : bstatus) := on_wk sp (fun w => mkWorker (w_vcl w) (do_esi w) (do_gzip w)
  (do_gunzip w) (is_gzip w) (is_gunzip w) (do_stream w) (wvfp w) (h_content_length w) (do_close w) (storage_hint w)
  (bereq w) (beresp w) (resp w) (res_mode w) v (sctx w) (wfd w) (w_ws w) (nbusyobj w) (acct_tmp w) (vgz_rx w)).
Definition set_sctx (sp : sess) (v : bool) := on_wk sp (fun w => mkWorker (w_vcl w) (do_esi w) (do_gzip w) (do_gunzip
  w) (is_gzip w) (is_gunzip w) (do_stream w) (wvfp w) (h_content_length w) (do_close w) (storage_hint w) (bereq w)
  (beresp w) (resp w) (res_mode w) (body_status w) v (wfd w) (w_ws w) (nbusyobj w) (acct_tmp w) (vgz_rx w)).
Definition set_wfd (sp : sess) (v : bool) := on_wk sp (fun w => mkWorker (w_vcl w) (do_esi w) (do_gzip w) (do_gunzip
  w) (is_gzip w) (is_gunzip w) (do_stream w) (wvfp w) (h_content_length w) (do_close w) (storage_hint w) (bereq w)
  (beresp w) (resp w) (res_mode w) (body_status w) (sctx w) v (w_ws w) (nbusyobj w) (acct_tmp w) (vgz_rx w)).
Definition set_w_ws (sp : sess) (v : bool) := on_wk sp (fun w => mkWorker (w_vcl w) (do_esi w) (do_gzip w) (do_gunzip
  w) (is_gzip w) (is_gunzip w) (do_stream w) (wvfp w) (h_content_length w) (do_close w) (storage_hint w) (bereq w)
  (beresp w) (resp w) (res_mode w) (body_status w) (sctx w) (wfd w) v (nbusyobj w) (acct_tmp w) (vgz_rx w)).
Definition set_nbusyobj (sp : sess) (v : bool) := on_wk sp (fun w => mkWorker (w_vcl w) (do_esi w) (do_gzip w)
  (do_gunzip w) (is_gzip w) (is_gunzip w) (do_stream w) (wvfp w) (h_content_length w) (do_close w) (storage_hint w)
  (bereq w) (beresp w) (resp w) (res_mode w) (body_status w) (sctx w) (wfd w) (w_ws w) v (acct_tmp w) (vgz_rx w)).
Definition set_acct_tmp (sp : sess) (v : bool) := on_wk sp (fun w => mkWorker (w_vcl w) (do_esi w) (do_gzip w)
  (do_gunzip w) (is_gzip w) (is_gunzip w) (do_stream w) (wvfp w) (h_content_length w) (do_close w) (storage_hint w)
  (bereq w) (beresp w) (resp w) (res_mode w) (body_status w) (sctx w) (wfd w) (w_ws w) (nbusyobj w) v (vgz_rx w)).
Definition set_vgz_rx (sp : sess) (v : bool) := on_wk sp (fun w => mkWorker (w_vcl w) (do_esi w) (do_gzip w)
  (do_gunzip w) (is_gzip w) (is_gunzip w) (do_stream w) (wvfp w) (h_content_length w) (do_close w) (storage_hint w)
  (bereq w) (beresp w) (resp w) (res_mode w) (body_status w) (sctx w) (wfd w) (w_ws w) (nbusyobj w) (acct_tmp w) v).
Definition set_step (sp : sess) (v : step_t) := mkSess v (fd sp) (restarts sp) (esi_level sp) (xid sp) (vcl sp)
  (director sp) (vbc sp) (obj sp) (objcore sp) (handling sp) (err_code sp) (doclose sp) (wantbody sp) (sendbody sp)
  (disable_esi sp) (hash_always_miss sp) (hash_ignore_busy sp) (hash_objhead sp) (vary_b sp) (vary_l sp) (ws sp) (wrk
  sp) (place sp) (wk sp).
Definition set_fd (sp : sess) (v : bool) := mkSess (step sp) v (restarts sp) (esi_level sp) (xid sp) (vcl sp)
  (director sp) (vbc sp) (obj sp) (objcore sp) (handling sp) (err_code sp) (doclose sp) (wantbody sp) (sendbody sp)
  (disable_esi sp) (hash_always_miss sp) (hash_ignore_busy sp) (hash_objhead sp) (vary_b sp) (vary_l sp) (ws sp) (wrk
  sp) (place sp) (wk sp).
Definition set_restarts (sp : sess) (v : Z) := mkSess (step sp) (fd sp) v (esi_level sp) (xid sp) (vcl sp) (director
  sp) (vbc sp) (obj sp) (objcore sp) (handling sp) (err_code sp) (doclose sp) (wantbody sp) (sendbody sp) (disable_esi
  sp) (hash_always_miss sp) (hash_ignore_busy sp) (hash_objhead sp) (vary_b sp) (vary_l sp) (ws sp) (wrk sp) (place
  sp) (wk sp).
Definition set_esi_level (sp : sess) (v : Z) := mkSess (step sp) (fd sp) (restarts sp) v (xid sp) (vcl sp) (director
  sp) (vbc sp) (obj sp) (objcore sp) (handling sp) (err_code sp) (doclose sp) (wantbody sp) (sendbody sp) (disable_esi
  sp) (hash_always_miss sp) (hash_ignore_busy sp) (hash_objhead sp) (vary_b sp) (vary_l sp) (ws sp) (wrk sp) (place
  sp) (wk sp).
Definition set_xid (sp : sess) (v : Z) := mkSess (step sp) (fd sp) (restarts sp) (esi_level sp) v (vcl sp) (director
  sp) (vbc sp) (obj sp) (objcore sp) (handling sp) (err_code sp) (doclose sp) (wantbody sp) (sendbody sp) (disable_esi
  sp) (hash_always_miss sp) (hash_ignore_busy sp) (hash_objhead sp) (vary_b sp) (vary_l sp) (ws sp) (wrk sp) (place
  sp) (wk sp).
Definition set_vcl (sp : sess) (v : bool) := mkSess (step sp) (fd sp) (restarts sp) (esi_level sp) (xid sp) v
  (director sp) (vbc sp) (obj sp) (objcore sp) (handling sp) (err_code sp) (doclose sp) (wantbody sp) (sendbody sp)
  (disable_esi sp) (hash_always_miss sp) (hash_ignore_busy sp) (hash_objhead sp) (vary_b sp) (vary_l sp) (ws sp) (wrk
  sp) (place sp) (wk sp).
Definition set_director (sp : sess) (v : bool) := mkSess (step sp) (fd sp) (restarts sp) (esi_level sp) (xid sp) (vcl
  sp) v (vbc sp) (obj sp) (objcore sp) (handling sp) (err_code sp) (doclose sp) (wantbody sp) (sendbody sp)
  (disable_esi sp) (hash_always_miss sp) (hash_ignore_busy sp) (hash_objhead sp) (vary_b sp) (vary_l sp) (ws sp) (wrk
  sp) (place sp) (wk sp).
Definition set_vbc (sp : sess) (v : option bool) := mkSess (step sp) (fd sp) (restarts sp) (esi_level sp) (xid sp)
  (vcl sp) (director sp) v (obj sp) (objcore sp) (handling sp) (err_code sp) (doclose sp) (wantbody sp) (sendbody sp)
  (disable_esi sp) (hash_always_miss sp) (hash_ignore_busy sp) (hash_objhead sp) (vary_b sp) (vary_l sp) (ws sp) (wrk
  sp) (place sp) (wk sp).
Definition set_obj (sp : sess) (v : option object) := mkSess (step sp) (fd sp) (restarts sp) (esi_level sp) (xid sp)
  (vcl sp) (director sp) (vbc sp) v (objcore sp) (handling sp) (err_code sp) (doclose sp) (wantbody sp) (sendbody sp)
  (disable_esi sp) (hash_always_miss sp) (hash_ignore_busy sp) (hash_objhead sp) (vary_b sp) (vary_l sp) (ws sp) (wrk
  sp) (place sp) (wk sp).
Definition set_objcore (sp : sess) (v : option core) := mkSess (step sp) (fd sp) (restarts sp) (esi_level sp) (xid sp)
  (vcl sp) (director sp) (vbc sp) (obj sp) v (handling sp) (err_code sp) (doclose sp) (wantbody sp) (sendbody sp)
  (disable_esi sp) (hash_always_miss sp) (hash_ignore_busy sp) (hash_objhead sp) (vary_b sp) (vary_l sp) (ws sp) (wrk
  sp) (place sp) (wk sp).
Definition set_handling (sp : sess) (v : vcl_ret) := mkSess (step sp) (fd sp) (restarts sp) (esi_level sp) (xid sp)
  (vcl sp) (director sp) (vbc sp) (obj sp) (objcore sp) v (err_code sp) (doclose sp) (wantbody sp) (sendbody sp)
  (disable_esi sp) (hash_always_miss sp) (hash_ignore_busy sp) (hash_objhead sp) (vary_b sp) (vary_l sp) (ws sp) (wrk
  sp) (place sp) (wk sp).
Definition set_err_code (sp : sess) (v : Z) := mkSess (step sp) (fd sp) (restarts sp) (esi_level sp) (xid sp) (vcl sp)
  (director sp) (vbc sp) (obj sp) (objcore sp) (handling sp) v (doclose sp) (wantbody sp) (sendbody sp) (disable_esi
  sp) (hash_always_miss sp) (hash_ignore_busy sp) (hash_objhead sp) (vary_b sp) (vary_l sp) (ws sp) (wrk sp) (place
  sp) (wk sp).
Definition set_doclose (sp : sess) (v : bool) := mkSess (step sp) (fd sp) (restarts sp) (esi_level sp) (xid sp) (vcl
  sp) (director sp) (vbc sp) (obj sp) (objcore sp) (handling sp) (err_code sp) v (wantbody sp) (sendbody sp)
  (disable_esi sp) (hash_always_miss sp) (hash_ignore_busy sp) (hash_objhead sp) (vary_b sp) (vary_l sp) (ws sp) (wrk
  sp) (place sp) (wk sp).
Definition set_wantbody (sp : sess) (v : bool) := mkSess (step sp) (fd sp) (restarts sp) (esi_level sp) (xid sp) (vcl
  sp) (director sp) (vbc sp) (obj sp) (objcore sp) (handling sp) (err_code sp) (doclose sp) v (sendbody sp)
  (disable_esi sp) (hash_always_miss sp) (hash_ignore_busy sp) (hash_objhead sp) (vary_b sp) (vary_l sp) (ws sp) (wrk
  sp) (place sp) (wk sp).
Definition set_sendbody (sp : sess) (v : bool) := mkSess (step sp) (fd sp) (restarts sp) (esi_level sp) (xid sp) (vcl
  sp) (director sp) (vbc sp) (obj sp) (objcore sp) (handling sp) (err_code sp) (doclose sp) (wantbody sp) v
  (disable_esi sp) (hash_always_miss sp) (hash_ignore_busy sp) (hash_objhead sp) (vary_b sp) (vary_l sp) (ws sp) (wrk
  sp) (place sp) (wk sp).
Definition set_disable_esi (sp : sess) (v : bool) := mkSess (step sp) (fd sp) (restarts sp) (esi_level sp) (xid sp)
  (vcl sp) (director sp) (vbc sp) (obj sp) (objcore sp) (handling sp) (err_code sp) (doclose sp) (wantbody sp)
  (sendbody sp) v (hash_always_miss sp) (hash_ignore_busy sp) (hash_objhead sp) (vary_b sp) (vary_l sp) (ws sp) (wrk
  sp) (place sp) (wk sp).
Definition set_hash_always_miss (sp : sess) (v : bool) := mkSess (step sp) (fd sp) (restarts sp) (esi_level sp) (xid
  sp) (vcl sp) (director sp) (vbc sp) (obj sp) (objcore sp) (handling sp) (err_code sp) (doclose sp) (wantbody sp)
  (sendbody sp) (disable_esi sp) v (hash_ignore_busy sp) (hash_objhead sp) (vary_b sp) (vary_l sp) (ws sp) (wrk sp)
  (place sp) (wk sp).
Definition set_hash_ignore_busy (sp : sess) (v : bool) := mkSess (step sp) (fd sp) (restarts sp) (esi_level sp) (xid
  sp) (vcl sp) (director sp) (vbc sp) (obj sp) (objcore sp) (handling sp) (err_code sp) (doclose sp) (wantbody sp)
  (sendbody sp) (disable_esi sp) (hash_always_miss sp) v (hash_objhead sp) (vary_b sp) (vary_l sp) (ws sp) (wrk sp)
  (place sp) (wk sp).
Definition set_hash_objhead (sp : sess) (v : bool) := mkSess (step sp) (fd sp) (restarts sp) (esi_level sp) (xid sp)
  (vcl sp) (director sp) (vbc sp) (obj sp) (objcore sp) (handling sp) (err_code sp) (doclose sp) (wantbody sp)
  (sendbody sp) (disable_esi sp) (hash_always_miss sp) (hash_ignore_busy sp) v (vary_b sp) (vary_l sp) (ws sp) (wrk
  sp) (place sp) (wk sp).
Definition set_vary_b (sp : sess) (v : bool) := mkSess (step sp) (fd sp) (restarts sp) (esi_level sp) (xid sp) (vcl
  sp) (director sp) (vbc sp) (obj sp) (objcore sp) (handling sp) (err_code sp) (doclose sp) (wantbody sp) (sendbody
  sp) (disable_esi sp) (hash_always_miss sp) (hash_ignore_busy sp) (hash_objhead sp) v (vary_l sp) (ws sp) (wrk sp)
  (place sp) (wk sp).
Definition set_vary_l (sp : sess) (v : bool) := mkSess (step sp) (fd sp) (restarts sp) (esi_level sp) (xid sp) (vcl
  sp) (director sp) (vbc sp) (obj sp) (objcore sp) (handling sp) (err_code sp) (doclose sp) (wantbody sp) (sendbody
  sp) (disable_esi sp) (hash_always_miss sp) (hash_ignore_busy sp) (hash_objhead sp) (vary_b sp) v (ws sp) (wrk sp)
  (place sp) (wk sp).
Definition set_ws (sp : sess) (v : bool) := mkSess (step sp) (fd sp) (restarts sp) (esi_level sp) (xid sp) (vcl sp)
  (director sp) (vbc sp) (obj sp) (objcore sp) (handling sp) (err_code sp) (doclose sp) (wantbody sp) (sendbody sp)
  (disable_esi sp) (hash_always_miss sp) (hash_ignore_busy sp) (hash_objhead sp) (vary_b sp) (vary_l sp) v (wrk sp)
  (place sp) (wk sp).
Definition set_wrk (sp : sess) (v : bool) := mkSess (step sp) (fd sp) (restarts sp) (esi_level sp) (xid sp) (vcl sp)
  (director sp) (vbc sp) (obj sp) (objcore sp) (handling sp) (err_code sp) (doclose sp) (wantbody sp) (sendbody sp)
  (disable_esi sp) (hash_always_miss sp) (hash_ignore_busy sp) (hash_objhead sp) (vary_b sp) (vary_l sp) (ws sp) v
  (place sp) (wk sp).
Definition set_place (sp : sess) (v : place_t) := mkSess (step sp) (fd sp) (restarts sp) (esi_level sp) (xid sp) (vcl
  sp) (director sp) (vbc sp) (obj sp) (objcore sp) (handling sp) (err_code sp) (doclose sp) (wantbody sp) (sendbody
  sp) (disable_esi sp) (hash_always_miss sp) (hash_ignore_busy sp) (hash_objhead sp) (vary_b sp) (vary_l sp) (ws sp)
  (wrk sp) v (wk sp).

(** They compute to states. *)
#[global] Arguments on_wk _ _ /.
#[global] Arguments set_w_vcl _ _ /.
#[global] Arguments set_do_esi _ _ /.
#[global] Arguments set_do_gzip _ _ /.
#[global] Arguments set_do_gunzip _ _ /.
#[global] Arguments set_is_gzip _ _ /.
#[global] Arguments set_is_gunzip _ _ /.
#[global] Arguments set_do_stream _ _ /.
#[global] Arguments set_wvfp _ _ /.
#[global] Arguments set_h_content_length _ _ /.
#[global] Arguments set_do_close _ _ /.
#[global] Arguments set_storage_hint _ _ /.
#[global] Arguments set_bereq _ _ /.
#[global] Arguments set_beresp _ _ /.
#[global] Arguments set_resp _ _ /.
#[global] Arguments set_res_mode _ _ /.
#[global] Arguments set_body_status _ _ /.
#[global] Arguments set_sctx _ _ /.
#[global] Arguments set_wfd _ _ /.
#[global] Arguments set_w_ws _ _ /.
#[global] Arguments set_nbusyobj _ _ /.
#[global] Arguments set_acct_tmp _ _ /.
#[global] Arguments set_vgz_rx _ _ /.
#[global] Arguments set_step _ _ /.
#[global] Arguments set_fd _ _ /.
#[global] Arguments set_restarts _ _ /.
#[global] Arguments set_esi_level _ _ /.
#[global] Arguments set_xid _ _ /.
#[global] Arguments set_vcl _ _ /.
#[global] Arguments set_director _ _ /.
#[global] Arguments set_vbc _ _ /.
#[global] Arguments set_obj _ _ /.
#[global] Arguments set_objcore _ _ /.
#[global] Arguments set_handling _ _ /.
#[global] Arguments set_err_code _ _ /.
#[global] Arguments set_doclose _ _ /.
#[global] Arguments set_wantbody _ _ /.
#[global] Arguments set_sendbody _ _ /.
#[global] Arguments set_disable_esi _ _ /.
#[global] Arguments set_hash_always_miss _ _ /.
#[global] Arguments set_hash_ignore_busy _ _ /.
#[global] Arguments set_hash_objhead _ _ /.
#[global] Arguments set_vary_b _ _ /.
#[global] Arguments set_vary_l _ _ /.
#[global] Arguments set_ws _ _ /.
#[global] Arguments set_wrk _ _ /.
#[global] Arguments set_place _ _ /.

End CenterState.
