(* ===== verification/Center.v ===== *)
(** The session state machine: [bin/varnishd/cache_center.c], with what it calls in
    [cache_fetch.c], [cache_response.c], [cache_pipe.c], [cache_esi_deliver.c],
    [cache_dir.c], [cache_hash.c], [stevedore.c], [cache_acceptor.c] and [cache_pool.c].

    A function is a program that asks what it cannot know: what the client and the
    backends send, what VCL decides, whether there is storage, what a lookup finds. *)
From S2P Require Import Prelude CenterState.
Import CenterState.

Module Center.

(** ** Questions *)

Inductive vcl_method := M_recv | M_pipe | M_pass | M_hash | M_miss | M_hit | M_fetch | M_deliver | M_error.

#[global] Instance vcl_method_eq_dec : EqDecision vcl_method.
Proof. solve_decision. Defined.

(** What a VCL method decides, and what it sets. *)
Record vcl_answer := mkVcl {
  v_ret : vcl_ret; v_err_code : option Z; v_backend : bool; v_disable_esi : bool;
  v_always_miss : bool; v_ignore_busy : bool;
  v_do_esi : bool; v_do_stream : bool; v_do_gzip : bool; v_do_gunzip : bool; v_storage : bool;
}.

Inductive found := LWait | LMiss (vary : bool) | LHit (o : object).

Inductive coding := CE_gzip | CE_none | CE_other.

Inductive question :=
  | Q_complete                    (* is there a whole request *)
  | Q_poll                        (* is there input in time *)
  | Q_rx (sp : sess)               (* [HTC_Rx]: -2, -1, 0, 1 *)
  | Q_rx_more                     (* [HTC_Rx] again until it is not 0 *)
  | Q_rxbuf                       (* is something in the buffer *)
  | Q_nonblocking                 (* [VTCP_nonblocking] fails *)
  | Q_xid                         (* the next one *)
  | Q_dissect                     (* [http_DissectRequest] *)
  | Q_connection                  (* [http_DoConnection] says to close *)
  | Q_expect                      (* Expect: header; is it 100-continue *)
  | Q_gzip                        (* [RFC2616_Req_Gzip] *)
  | Q_head                        (* the method is HEAD *)
  | Q_protover                    (* HTTP/1.1 *)
  | Q_cond                        (* conditional, and [RFC2616_Do_Cond] *)
  | Q_vcl (m : vcl_method) (sp : sess)
  | Q_lookup (sp : sess)           (* what [HSH_Lookup] finds *)
  | Q_deref (c : core)             (* the references left by [HSH_Deref] *)
  | Q_alloc (sp : sess) (last : bool)  (* a stevedore has space *)
  | Q_getfd                       (* a connection, used before or not *)
  | Q_reqbody                     (* the body of the request: 0, 1, 2, and whether there are octets of it *)
  | Q_flush                       (* writing failed *)
  | Q_dissect_response            (* is it malformed *)
  | Q_status                      (* the status of the response *)
  | Q_body                        (* do_close and body_status of [RFC2616_Body] *)
  | Q_encoding                    (* Content-Encoding: of the response *)
  | Q_vary                        (* [VRY_Create]: no instructions, some, or (false) a failed assertion *)
  | Q_shortlived                  (* ttl < shortlived *)
  | Q_receive (b : bstatus) (v : vfp)  (* the body: 0 or -1; ESI data, empty; nothing if [vfp->bytes] fails an assertion *)
  | Q_vfp_end (v : vfp)            (* [vfp->end]: 0 or -1 *)
  | Q_includes                    (* how many includes [ESI_Deliver] meets *)
  | Q_turns.                      (* how often an include is tried while it waits *)

Definition answer (q : question) : Type :=
  match q with
  | Q_rx _ | Q_rx_more | Q_xid | Q_dissect | Q_deref _ | Q_status | Q_vfp_end _ => Z
  | Q_expect | Q_getfd | Q_vary => option bool
  | Q_reqbody => Z * bool
  | Q_vcl _ _ => vcl_answer
  | Q_lookup _ => found
  | Q_body => bool * bstatus
  | Q_encoding => coding
  | Q_receive _ _ => option (Z * bool * bool)
  | Q_includes | Q_turns => nat
  | _ => bool
  end.

(** A program: it ends, fails, goes on for longer than is followed, or asks. *)
Inductive prog (R : Type) : Type :=
  | Ret (r : R)
  | Stop (f : fault)
  | Forever
  | Ask (q : question) (k : answer q -> prog R).
Arguments Ret {R} _.
Arguments Stop {R} _.
Arguments Forever {R}.
Arguments Ask {R} _ _.

#[global] Instance prog_ret : MRet prog := fun A a => Ret a.
#[global] Instance prog_bind : MBind prog := fun A B f =>
  fix bind (p : prog A) : prog B := match p with
    | Ret a => f a
    | Stop e => Stop e
    | Forever => Forever
    | Ask q k => Ask q (fun a => bind (k a))
    end.

Notation "x ←? q ; k" := (Ask q (fun x => k)) (at level 20, q at level 100, k at level 200, only parsing).
Definition passert (b : bool) : prog unit := if b then Ret tt else Stop FAssert.
Definition some_of {A} (o : option A) : prog A := match o with Some a => Ret a | None => Stop FMemory end.
Definition WRONG {A} : prog A := Stop FAssert.
Definition INCOMPL {A} : prog A := Stop FAssert.

Definition none {A} (o : option A) : bool := match o with None => true | Some _ => false end.
Definition some {A} (o : option A) : bool := negb (none o).

(** ** Parts of the state *)

Definition o_set_core (o : object) c := mkObject c (o_gziped o) (o_esidata o) (o_empty o) (o_response o).
Definition o_set_gziped (o : object) v := mkObject (o_core o) v (o_esidata o) (o_empty o) (o_response o).
Definition o_set_response (o : object) v := mkObject (o_core o) (o_gziped o) (o_esidata o) (o_empty o) v.
Definition o_set_body (o : object) e z := mkObject (o_core o) (o_gziped o) e z (o_response o).

Definition RES_LEN : Z := 2.
Definition RES_EOF : Z := 4.
Definition RES_CHUNKED : Z := 8.
Definition RES_ESI : Z := 16.
Definition RES_ESI_CHILD : Z := 32.
Definition RES_GUNZIP : Z := 64.

Definition has (m f : Z) : bool := truth (Z.land m f).
Definition with_ (m f : Z) : Z := Z.lor m f.
Definition without_ (m f : Z) : Z := Z.land m (Z.lnot f).

Definition no_flags (sp : sess) : sess :=
  set_do_stream (set_do_gunzip (set_do_gzip (set_is_gunzip (set_is_gzip (set_do_esi sp false) false) false) false) false) false.

(** [AssertObjCorePassOrBusy] *)
Definition pass_or_busy (c : option core) : prog unit :=
  match c with Some c => passert (c_busy c) | None => Ret tt end.

(** ** Sessions, connections, writing *)

Definition SES_Charge (sp : sess) : sess := set_acct_tmp sp false.

Definition vca_close_session (sp : sess) : sess := set_fd sp false.

Definition vca_return_session (sp : sess) : prog sess :=
  passert (none (obj sp));; passert (negb (vcl sp));; passert (fd sp);;
  failed ←? Q_nonblocking;
  if failed then mret (set_place (vca_close_session sp) Nowhere) else mret (set_place sp WithAcceptor).

Definition SES_Delete (sp : sess) : prog sess :=
  passert (none (obj sp));; passert (negb (vcl sp));; mret (set_place sp Deleted).

Definition WRW_Reserve (sp : sess) : prog sess := passert (negb (wfd (wk sp)));; mret (set_wfd sp true).
Definition WRW_FlushRelease (sp : sess) : prog (sess * bool) :=
  passert (wfd (wk sp));; e ←? Q_flush; mret (set_wfd sp false, e).

(** [WS_Reserve], [WS_Release] and [WS_Reset] of the two workspaces. *)
Definition ws_reserve (sp : sess) : prog sess := passert (negb (ws sp));; mret (set_ws sp true).
Definition ws_release (sp : sess) : prog sess := passert (ws sp);; mret (set_ws sp false).
Definition ws_reset (sp : sess) : prog sess := passert (negb (ws sp));; mret sp.
Definition w_ws_reset (sp : sess) : prog sess := passert (negb (w_ws (wk sp)));; mret sp.

Definition HTC_Init (sp : sess) : prog sess := ws_reserve sp.
Definition HTC_Complete (sp : sess) : prog (sess * Z) :=
  i ←? Q_complete; if i then sp ← ws_release sp; mret (sp, 1) else mret (sp, 0).
Definition HTC_Rx (sp : sess) : prog (sess * Z) :=
  passert (ws sp);; i ←? (Q_rx sp);
  if i =? 0 then mret (sp, 0) else sp ← ws_release sp; mret (sp, i).
Definition HTC_Reinit (sp : sess) : prog (sess * Z) := sp ← ws_reserve sp; HTC_Complete sp.

Definition VDI_GetFd (sp : sess) : prog sess := passert (director sp);; v ←? Q_getfd; mret (set_vbc sp v).
Definition VDI_CloseFd (sp : sess) : prog sess :=
  passert (some (vbc sp));; mret (set_do_close (set_vbc sp None) false).
Definition VDI_RecycleFd (sp : sess) : prog sess :=
  passert (some (vbc sp));; passert (negb (do_close (wk sp)));; mret (set_vbc sp None).

(** ** The cache *)

Definition HSH_Prealloc (sp : sess) : sess := set_nbusyobj sp true.

Definition HSH_Lookup (sp : sess) : prog (sess * option core) :=
  passert (director sp);;
  let sp := set_hash_objhead (HSH_Prealloc sp) false in
  passert (none (objcore sp));;
  r ←? (Q_lookup sp);
  match r with
  | LHit o => mret (set_obj sp (Some o), o_core o)
  | LWait =>
      let sp := if esi_level sp =? 0 then set_place sp OnWaitingList else sp in
      mret (set_wrk (set_hash_objhead (SES_Charge sp) true) false, None)
  | LMiss v => mret (set_vary_l (set_nbusyobj sp false) v, Some (mkCore true false false))
  end.

(** [HSH_Deref(w, oc, NULL)] of an object core without object. *)
Definition HSH_Deref_oc (sp : sess) (c : core) : prog (sess * Z) :=
  r ←? (Q_deref c);
  mret (if (r =? 0) && c_busy c then set_nbusyobj sp true else sp, r).

(** [HSH_Deref(w, NULL, &sp->obj)] *)
Definition HSH_Deref_obj (sp : sess) : prog sess :=
  o ← some_of (obj sp);
  let sp := match o_core o with Some c => if c_busy c then set_nbusyobj sp true else sp | None => sp end in
  mret (set_obj sp None).

Definition HSH_Unbusy (sp : sess) : prog sess :=
  o ← some_of (obj sp); c ← some_of (o_core o);
  passert (c_busy c);; passert (c_ban c);;
  passert (negb (nbusyobj (wk sp)));;
  mret (set_obj (set_nbusyobj sp true) (Some (o_set_core o (Some (mkCore false (c_pass c) (c_ban c)))))).

Definition HSH_Drop (sp : sess) : prog sess :=
  o ← some_of (obj sp);
  pass_or_busy (o_core o);;
  sp ← (if some (o_core o) then HSH_Unbusy sp else mret sp);
  HSH_Deref_obj sp.

Definition EXP_Insert (o : object) : prog unit := c ← some_of (o_core o); passert (c_busy c).

(** With [STV_MkObject]; [last]: there is nothing else to try. *)
Definition STV_NewObject (sp : sess) (last : bool) : prog sess :=
  a ←? (Q_alloc sp last);
  if negb a then mret sp else
  let c := match objcore sp with Some c => Some (mkCore (c_busy c) (c_pass c) true) | None => None end in
  mret (set_obj (set_objcore sp None) (Some (mkObject c false false true 0))).

(** ** VCL *)

(** [vcl_returns.h], from [generate.py] *)
Definition vcl_returns (m : vcl_method) : list vcl_ret :=
  match m with
  | M_recv => [RET_ERROR; RET_PASS; RET_PIPE; RET_LOOKUP]
  | M_pipe => [RET_ERROR; RET_PIPE]
  | M_pass => [RET_ERROR; RET_RESTART; RET_PASS]
  | M_hash => [RET_HASH]
  | M_miss => [RET_ERROR; RET_RESTART; RET_PASS; RET_FETCH]
  | M_hit => [RET_ERROR; RET_RESTART; RET_PASS; RET_DELIVER]
  | M_fetch => [RET_ERROR; RET_RESTART; RET_HIT_FOR_PASS; RET_DELIVER]
  | M_deliver => [RET_RESTART; RET_DELIVER]
  | M_error => [RET_RESTART; RET_DELIVER]
  end.

(** What a method may set. *)
Definition vcl_sets (m : vcl_method) (a : vcl_answer) (sp : sess) : sess :=
  let sp := set_handling sp (v_ret a) in
  let sp := set_err_code sp (match v_err_code a with Some e => u16 e | None => err_code sp end) in
  let sp := set_director sp (director sp || v_backend a) in
  let sp := set_disable_esi sp (match m with M_recv | M_fetch | M_deliver | M_error => v_disable_esi a | _ => disable_esi sp end) in
  match m with
  | M_recv => set_hash_always_miss (set_hash_ignore_busy sp (v_ignore_busy a)) (v_always_miss a)
  | M_fetch =>
      let sp := set_do_stream (set_do_esi sp (v_do_esi a)) (v_do_stream a) in
      let sp := set_do_gunzip (set_do_gzip sp (v_do_gzip a)) (v_do_gunzip a) in
      set_storage_hint sp (storage_hint (wk sp) || v_storage a)
  | _ => sp
  end.

Definition VCL_method (m : vcl_method) (sp : sess) : prog sess :=
  a ←? (Q_vcl m sp);
  passert (bool_decide (v_ret a ∈ vcl_returns m));;
  mret (vcl_sets m a sp).

(** ** Fetching *)

Definition FetchReqBody (sp : sess) : prog Z :=
  r ←? Q_reqbody;
  passert (negb (r.2 && sendbody sp) || wfd (wk sp));;
  mret r.1.

Definition FetchHdr (sp : sess) : prog (sess * Z) :=
  passert (director sp);; passert (none (obj sp));;
  pass_or_busy (objcore sp);;
  sp ← VDI_GetFd sp;
  match vbc sp with
  | None => mret (sp, -1)
  | Some recycled =>
      let retry := if recycled then 1 else -1 in
      sp ← WRW_Reserve sp;
      i ← FetchReqBody sp;
      '(sp, e) ← WRW_FlushRelease sp;
      if e || (0 <? i) then sp ← VDI_CloseFd sp; mret (sp, retry) else
      passert (negb (w_ws (wk sp)));;
      i ←? Q_rx sp;
      if i <? 0 then sp ← VDI_CloseFd sp; mret (sp, if i =? -1 then retry else -1) else
      failed ← (if i =? 0 then j ←? Q_rx_more; mret (j <? 0) else mret false);
      if (failed : bool) then sp ← VDI_CloseFd sp; mret (sp, -1) else
      bad ←? Q_dissect_response;
      if bad then sp ← VDI_CloseFd sp; mret (sp, -1) else mret (sp, 0)
  end.

(** [vfp->begin] and [vfp->end]: the compressor they make and unmake. *)
Definition vfp_begin (sp : sess) (v : vfp) : prog sess :=
  match v with
  | vfp_nop => mret sp
  | vfp_testgzip => mret (set_vgz_rx sp true)
  | vfp_gunzip | vfp_gzip => passert (negb (vgz_rx (wk sp)));; mret (set_vgz_rx sp true)
  | vfp_esi => passert (negb (vgz_rx (wk sp)));; mret (set_vgz_rx sp (is_gzip (wk sp)))
  end.
Definition vfp_end (sp : sess) (v : vfp) : prog (sess * Z) :=
  match v with vfp_nop | vfp_esi => mret tt | _ => passert (vgz_rx (wk sp)) end;;
  i ←? Q_vfp_end v;
  mret (match v with vfp_nop => sp | _ => set_vgz_rx sp false end, i).

(** One of [fetch_straight], [fetch_chunked], [fetch_eof]: the body into the object. *)
Definition receive (sp : sess) (v : vfp) : prog (sess * Z) :=
  o ← some_of (obj sp);
  sp ← vfp_begin sp v;
  r ←? Q_receive (body_status (wk sp)) v;
  match r with
  | None => Stop FAssert
  | Some (cls, esi, empty) =>
      '(sp, i) ← vfp_end sp v;
      passert (i =? 0);;
      mret (set_obj sp (Some (o_set_body o esi empty)), cls)
  end.

Definition FetchBody (sp : sess) : prog (sess * bool) :=
  o ← some_of (obj sp);
  let v := default vfp_nop (wvfp (wk sp)) in
  let sp := set_wvfp sp (Some v) in
  passert (director sp);;
  pass_or_busy (o_core o);;
  passert (negb (vgz_rx (wk sp)));; passert (o_empty o);;
  '(sp, cls) ← match body_status (wk sp) with
    | BS_NONE | BS_ZERO => mret (sp, 0)
    | BS_LENGTH | BS_CHUNKED | BS_EOF => receive sp v
    | BS_ERROR => mret (sp, 1)
    end;
  passert (negb (vgz_rx (wk sp)));;
  some_of (vbc sp);;
  match body_status (wk sp) with
  | BS_ERROR => sp ← VDI_CloseFd sp; mret (sp, true)
  | _ =>
      if cls <? 0 then sp ← VDI_CloseFd sp; mret (sp, true) else
      sp ← (if negb (cls =? 0) || do_close (wk sp) then VDI_CloseFd sp else VDI_RecycleFd sp);
      mret (sp, false)
  end.

(** ** Delivering *)

(** Whether the body is wanted, [not_modified]: for a conditional request. *)
Definition set_wanted (sp : sess) (o : object) (not_modified : bool) : sess :=
  let sp := if (o_response o =? 200) && not_modified then set_wantbody sp false else sp in
  let sp := if has (res_mode (wk sp)) RES_ESI_CHILD then sp else set_acct_tmp sp true in
  if wantbody sp then sp else set_res_mode sp (without_ (res_mode (wk sp)) RES_CHUNKED).

Definition RES_WriteObj (esi : sess -> prog sess) (sp : sess) : prog sess :=
  o ← some_of (obj sp);
  sp ← WRW_Reserve sp;
  c ←? Q_cond;
  let sp := set_wanted sp o c in
  sp ← (if negb (wantbody sp) || o_empty o then mret sp
        else if has (res_mode (wk sp)) RES_ESI then esi sp
        else mret (set_acct_tmp sp true));
  '(sp, e) ← WRW_FlushRelease sp;
  mret (if (e : bool) then vca_close_session sp else sp).

Definition RES_StreamStart (sp : sess) : prog sess :=
  passert (sctx (wk sp));;
  passert (negb (has (res_mode (wk sp)) RES_ESI_CHILD));;
  passert (wantbody sp);;
  sp ← WRW_Reserve sp; mret (set_acct_tmp sp true).

Definition RES_StreamEnd (sp : sess) : prog sess :=
  passert (sctx (wk sp));;
  '(sp, e) ← WRW_FlushRelease sp;
  mret (if (e : bool) then vca_close_session sp else sp).

Definition PipeSession (sp : sess) : prog sess :=
  sp ← VDI_GetFd sp;
  match vbc sp with
  | None => mret sp
  | Some _ =>
      sp ← WRW_Reserve sp;
      '(sp, _) ← WRW_FlushRelease sp;
      VDI_CloseFd (vca_close_session sp)
  end.

(** ** Steps *)

Section Steps.

Context (session_linger : bool) (max_restarts : Z) (http_gzip_support : bool) (max_esi_depth : Z).

Definition cnt_wait (sp : sess) : prog (sess * bool) :=
  passert (negb (vcl sp));; passert (none (obj sp));; passert (xid sp =? 0);;
  '(sp, i) ← HTC_Complete sp;
  '(sp, i) ← (if (i =? 0) && session_linger then
      p ←? Q_poll;
      if p then HTC_Rx sp else mret (sp, 0)
    else mret (sp, i));
  if i =? 0 then
    sp ← vca_return_session (set_wrk (SES_Charge sp) false); mret (sp, true)
  else if i =? 1 then mret (set_step sp STP_START, false)
  else if i =? -2 then mret (vca_close_session sp, false)
  else mret (set_step (vca_close_session sp) STP_DONE, false).

(** [res_mode], and whether the end of the connection is that of the body.  [cl]:
    Content-Length: is known, [gunzip]: the client takes no gzip. *)
Definition mode_of (cl stream gz gu esi child gunzip empty want http11 : bool) : Z * bool :=
  let m := if (cl || negb stream) && negb gz && negb gu then RES_LEN else 0 in
  let m := if esi then with_ (without_ m RES_LEN) RES_ESI else m in
  let m := if child then with_ (without_ m RES_LEN) RES_ESI_CHILD else m in
  let m := if gunzip then with_ (without_ m RES_LEN) RES_GUNZIP else m in
  if has m (Z.lor RES_LEN (Z.lor RES_CHUNKED RES_EOF)) then (m, false)
  else if empty && negb stream then (with_ m RES_LEN, false)
  else if negb want then (m, false)
  else if http11 then (with_ m RES_CHUNKED, false)
  else (with_ m RES_EOF, true).

Definition set_mode (sp : sess) (o : object) (client_gzip http11 : bool) : sess :=
  let r := mode_of (h_content_length (wk sp)) (do_stream (wk sp)) (do_gzip (wk sp)) (do_gunzip (wk sp))
    (negb (disable_esi sp) && o_esidata o) (0 <? esi_level sp) (http_gzip_support && o_gziped o && negb client_gzip)
    (o_empty o) (wantbody sp) http11 in
  set_doclose (set_res_mode sp r.1) (doclose sp || r.2).

Definition cnt_prepresp (sp : sess) : prog (sess * bool) :=
  o ← some_of (obj sp); passert (vcl sp);;
  (if do_stream (wk sp) then pass_or_busy (o_core o) else mret tt);;
  g ←? Q_gzip;
  v ←? Q_protover;
  let sp := set_resp (set_mode sp o g v) true in
  sp ← VCL_method M_deliver sp;
  let deliver := (if do_stream (wk sp) then
      pass_or_busy (o_core o);; mret (set_step sp STP_STREAMBODY, false)
    else mret (set_step sp STP_DELIVER, false)) in
  match handling sp with
  | RET_DELIVER => deliver
  | RET_RESTART =>
      if max_restarts <=? restarts sp then deliver else
      sp ← (if do_stream (wk sp) then sp ← VDI_CloseFd sp; HSH_Drop sp else HSH_Deref_obj sp);
      passert (none (obj sp));;
      let sp := set_director (set_restarts sp (restarts sp + 1)) false in
      let sp := set_resp (set_beresp (set_bereq (set_h_content_length sp false) false) false) false in
      mret (set_step sp STP_RECV, false)
  | _ => WRONG
  end.

Definition cnt_deliver (esi : sess -> prog sess) (sp : sess) : prog (sess * bool) :=
  let sp := set_restarts (set_director sp false) 0 in
  sp ← RES_WriteObj esi sp;
  passert (negb (wfd (wk sp)));;
  sp ← HSH_Deref_obj sp;
  mret (set_step (set_resp sp false) STP_DONE, false).

Definition cnt_done (sp : sess) : prog (sess * bool) :=
  passert (none (obj sp));; passert (none (vbc sp));;
  let sp := no_flags (set_restarts (set_director sp false) 0) in
  let sp := if vcl sp && (esi_level sp =? 0) then set_vcl (set_w_vcl sp true) false else sp in
  let sp := set_xid (SES_Charge sp) 0 in
  if 0 <? esi_level sp then mret (sp, true) else
  let sp := set_hash_ignore_busy (set_hash_always_miss sp false) false in
  let sp := if fd sp && doclose sp then vca_close_session sp else sp in
  if negb (fd sp) then sp ← SES_Delete (set_wrk sp false); mret (sp, true) else
  sp ← ws_reset sp;
  sp ← w_ws_reset sp;
  '(sp, i) ← HTC_Reinit sp;
  if i =? 1 then mret (set_step sp STP_START, false) else
  more ←? Q_rxbuf;
  if more || session_linger then mret (set_step sp STP_WAIT, false) else
  sp ← vca_return_session (set_wrk sp false); mret (sp, true).

Definition cnt_error (sp : sess) : prog (sess * bool) :=
  let sp := no_flags sp in
  sp ← (if none (obj sp) then
      let sp := HSH_Prealloc sp in
      sp ← STV_NewObject sp false;
      if none (obj sp) then STV_NewObject sp false else mret sp
    else mret sp);
  if none (obj sp) then
    let sp := set_h_content_length (set_director (set_doclose sp true) false) false in
    mret (set_step (set_bereq (set_beresp sp false) false) STP_DONE, false)
  else
  let sp := if (err_code sp <? 100) || (999 <? err_code sp) then set_err_code sp 501 else sp in
  sp ← VCL_method M_error sp;
  if bool_decide (handling sp = RET_RESTART) && (restarts sp <? max_restarts) then
    sp ← HSH_Drop sp;
    mret (set_step (set_restarts (set_director sp false) (restarts sp + 1)) STP_RECV, false)
  else
  let sp := if bool_decide (handling sp = RET_RESTART) then set_handling sp RET_DELIVER else sp in
  let sp := set_wantbody (set_doclose sp true) true in
  passert (bool_decide (handling sp = RET_DELIVER));;
  mret (set_step (set_bereq (set_err_code sp 0) false) STP_PREPRESP, false).

(** What [RFC2616_Body] finds out. *)
Definition set_body (sp : sess) (b : bool * bstatus) : sess :=
  set_h_content_length (set_body_status (set_do_close sp b.1) b.2) (match b.2 with BS_LENGTH => true | _ => false end).

(** The end of [cnt_fetch] without a body. *)
Definition fetch_over (sp : sess) : prog (sess * bool) :=
  passert (none (vbc sp));;
  sp ← match objcore sp with
    | Some c => '(sp, r) ← HSH_Deref_oc sp c; passert (r =? 0);; mret (set_objcore sp None)
    | None => mret sp
    end;
  let sp := set_h_content_length (set_beresp (set_bereq sp false) false) false in
  let sp := set_storage_hint (set_director sp false) false in
  match handling sp with
  | RET_RESTART => mret (set_step (set_restarts sp (restarts sp + 1)) STP_RECV, false)
  | RET_ERROR => mret (set_step sp STP_ERROR, false)
  | _ => WRONG
  end.

Definition cnt_fetch (sp : sess) : prog (sess * bool) :=
  passert (vcl sp);; passert (director sp);; passert (none (vbc sp));;
  passert (negb (h_content_length (wk sp)));; passert (negb (do_close (wk sp)));;
  passert (negb (storage_hint (wk sp)));;
  let sp := set_beresp sp true in
  '(sp, i) ← FetchHdr sp;
  '(sp, i) ← (if i =? 1 then FetchHdr sp else mret (sp, i));
  if negb (i =? 0) then fetch_over (set_err_code (set_handling sp RET_ERROR) 503) else
  b ←? Q_body;
  let sp := set_body sp b in
  st ←? Q_status;
  let sp := set_err_code sp st in
  passert (negb (do_esi (wk sp)));;
  sp ← VCL_method M_fetch sp;
  match handling sp with
  | RET_HIT_FOR_PASS =>
      let sp := match objcore sp with Some c => set_objcore sp (Some (mkCore (c_busy c) true (c_ban c))) | None => sp end in
      mret (set_step sp STP_FETCHBODY, false)
  | RET_DELIVER => pass_or_busy (objcore sp);; mret (set_step sp STP_FETCHBODY, false)
  | _ => sp ← VDI_CloseFd sp; fetch_over sp
  end.

(** How the body is processed: it is uncompressed only if it comes compressed, and
    compressed only if it does not come encoded; ESI does both itself. *)
Definition set_vfp (sp : sess) (ce : coding) : sess :=
  let ig := match ce with CE_gzip => true | _ => false end in
  let iu := match ce with CE_none => true | _ => false end in
  let gu := http_gzip_support && do_gunzip (wk sp) && ig in
  let gz := http_gzip_support && do_gzip (wk sp) && iu in
  let v := if do_esi (wk sp) then Some vfp_esi
    else if gu then Some vfp_gunzip
    else if gz then Some vfp_gzip
    else if ig then Some vfp_testgzip
    else wvfp (wk sp) in
  let st := do_stream (wk sp) && negb (do_esi (wk sp) || (0 <? esi_level sp)) && wantbody sp in
  set_wvfp (set_do_stream (set_is_gunzip (set_is_gzip (set_do_gunzip (set_do_gzip sp gz) gu) ig) iu) st) v.

(** What is not kept goes to transient storage; a response without body is not streamed. *)
Definition set_transient (sp : sess) (short : bool) : sess :=
  if short || none (objcore sp) then set_storage_hint sp true else sp.
Definition set_streamed (sp : sess) (o : object) (not_modified : bool) : sess :=
  if (o_response o =? 200) && not_modified then set_do_stream sp false else sp.

(** The workspace of the object is made large enough for the [Vary:] instructions, which
    come first. *)
Definition cnt_fetchbody (sp : sess) : prog (sess * bool) :=
  passert (bool_decide (handling sp = RET_HIT_FOR_PASS \/ handling sp = RET_DELIVER));;
  passert (none (wvfp (wk sp)));;
  ce ←? Q_encoding;
  let sp := set_vfp sp ce in
  passert (negb (is_gzip (wk sp) && is_gunzip (wk sp)));;
  passert (negb (do_gzip (wk sp) && do_gunzip (wk sp)));;
  (if some (objcore sp) then v ←? Q_vary; passert (match v with Some false => false | _ => true end) else mret tt);;
  short ←? Q_shortlived;
  let sp := set_transient sp short in
  sp ← STV_NewObject sp false;
  sp ← (if none (obj sp) then STV_NewObject sp true else mret sp);
  match obj sp with
  | None => sp ← VDI_CloseFd (set_step (set_err_code sp 503) STP_ERROR); mret (sp, false)
  | Some o =>
      let sp := set_storage_hint sp false in
      let o := o_set_gziped o (o_gziped o || do_gzip (wk sp) || (is_gzip (wk sp) && negb (do_gunzip (wk sp)))) in
      let o := o_set_response o (err_code sp) in
      let sp := set_obj sp (Some o) in
      passert (negb (wfd (wk sp)));;
      c ←? Q_cond;
      let sp := set_streamed sp o c in
      pass_or_busy (o_core o);;
      if do_stream (wk sp) then mret (set_step sp STP_PREPRESP, false) else
      '(sp, failed) ← FetchBody sp;
      let sp := set_wvfp (set_beresp (set_bereq (set_h_content_length sp false) false) false) None in
      passert (negb (wfd (wk sp)));; passert (none (vbc sp));; passert (director sp);;
      if (failed : bool) then
        sp ← HSH_Drop sp;
        passert (none (obj sp));;
        mret (set_step (set_err_code sp 503) STP_ERROR, false)
      else
      o ← some_of (obj sp);
      sp ← match o_core o with
        | Some c => EXP_Insert o;; passert (c_ban c);; HSH_Unbusy sp
        | None => mret sp
        end;
      mret (set_step (set_acct_tmp sp true) STP_PREPRESP, false)
  end.

Definition cnt_streambody (sp : sess) : prog (sess * bool) :=
  passert (negb (sctx (wk sp)));;
  let sp := set_sctx sp true in
  sp ← RES_StreamStart sp;
  o ← some_of (obj sp);
  pass_or_busy (o_core o);;
  '(sp, failed) ← FetchBody sp;
  let sp := set_wvfp (set_beresp (set_bereq (set_h_content_length sp false) false) false) None in
  passert (none (vbc sp));; passert (director sp);;
  o ← some_of (obj sp);
  sp ← match failed, o_core o with
    | false, Some c => EXP_Insert o;; passert (c_ban c);; HSH_Unbusy sp
    | _, _ => mret (set_doclose sp true)
    end;
  let sp := set_restarts (set_director (set_acct_tmp sp true) false) 0 in
  sp ← RES_StreamEnd sp;
  let sp := set_sctx sp false in
  passert (negb (wfd (wk sp)));;
  sp ← HSH_Deref_obj sp;
  mret (set_step (set_resp sp false) STP_DONE, false).

Definition cnt_first (sp : sess) : prog (sess * bool) :=
  passert (xid sp =? 0);; passert (restarts sp =? 0);;
  sp ← HTC_Init sp;
  mret (set_step (set_acct_tmp sp true) STP_WAIT, false).

Definition cnt_hit (sp : sess) : prog (sess * bool) :=
  o ← some_of (obj sp); passert (vcl sp);;
  c ← some_of (o_core o);
  passert (negb (c_pass c));;
  passert (negb (do_stream (wk sp)));;
  sp ← VCL_method M_hit sp;
  match handling sp with
  | RET_DELIVER =>
      FetchReqBody sp;;
      passert (negb (bereq (wk sp)));; passert (negb (beresp (wk sp)));;
      mret (set_step sp STP_PREPRESP, false)
  | r =>
      sp ← HSH_Deref_obj sp;
      let sp := set_objcore sp None in
      match r with
      | RET_PASS => mret (set_step sp STP_PASS, false)
      | RET_ERROR => mret (set_step sp STP_ERROR, false)
      | RET_RESTART => mret (set_step (set_restarts (set_director sp false) (restarts sp + 1)) STP_RECV, false)
      | _ => WRONG
      end
  end.

Definition cnt_lookup (sp : sess) : prog (sess * bool) :=
  passert (vcl sp);;
  sp ← (if negb (hash_objhead sp) then
      passert (negb (vary_b sp));; passert (negb (vary_l sp));; ws_reserve sp
    else passert (ws sp);; mret sp);
  let sp := set_vary_b sp true in
  '(sp, oc) ← HSH_Lookup sp;
  match oc with
  | None => mret (sp, true)
  | Some c =>
      sp ← ws_release sp;
      let sp := set_vary_l (set_vary_b sp false) false in
      if c_busy c then mret (set_step (set_objcore sp (Some c)) STP_MISS, false) else
      if c_pass c then
        sp ← HSH_Deref_obj sp;
        mret (set_step (set_objcore sp None) STP_PASS, false)
      else mret (set_step sp STP_HIT, false)
  end.

(** [AZ(HSH_Deref(sp->wrk, sp->objcore, NULL)); sp->objcore = NULL;] *)
Definition give_up_core (sp : sess) : prog sess :=
  c ← some_of (objcore sp);
  '(sp, r) ← HSH_Deref_oc sp c;
  passert (r =? 0);;
  mret (set_objcore sp None).

Definition cnt_miss (sp : sess) : prog (sess * bool) :=
  passert (vcl sp);; passert (none (obj sp));; passert (some (objcore sp));;
  sp ← w_ws_reset sp;
  sp ← VCL_method M_miss (set_bereq sp true);
  match handling sp with
  | RET_ERROR => sp ← give_up_core sp; mret (set_step (set_bereq sp false) STP_ERROR, false)
  | RET_PASS => sp ← give_up_core sp; mret (set_step sp STP_PASS, false)
  | RET_FETCH => mret (set_step sp STP_FETCH, false)
  | RET_RESTART => give_up_core sp;; INCOMPL
  | _ => WRONG
  end.

Definition cnt_pass (sp : sess) : prog (sess * bool) :=
  passert (vcl sp);; passert (none (obj sp));;
  sp ← w_ws_reset sp;
  sp ← VCL_method M_pass (set_bereq sp true);
  if bool_decide (handling sp = RET_ERROR) then mret (set_step (set_bereq sp false) STP_ERROR, false) else
  passert (bool_decide (handling sp = RET_PASS));;
  mret (set_step (set_sendbody (set_acct_tmp sp true) true) STP_FETCH, false).

Definition cnt_pipe (sp : sess) : prog (sess * bool) :=
  passert (vcl sp);;
  sp ← w_ws_reset (set_acct_tmp sp true);
  sp ← VCL_method M_pipe (set_bereq sp true);
  if bool_decide (handling sp = RET_ERROR) then INCOMPL else
  passert (bool_decide (handling sp = RET_PIPE));;
  sp ← PipeSession sp;
  passert (negb (wfd (wk sp)));;
  mret (set_step (set_bereq sp false) STP_DONE, false).

Definition cnt_recv (sp : sess) : prog (sess * bool) :=
  passert (vcl sp);; passert (none (obj sp));;
  passert (negb (wfd (wk sp)));;
  passert (negb (director sp));;
  let sp := set_hash_ignore_busy (set_hash_always_miss (set_disable_esi (set_director sp true) false) false) false in
  sp ← VCL_method M_recv sp;
  let recv_handling := handling sp in
  if max_restarts <=? restarts sp then
    mret (set_step (if err_code sp =? 0 then set_err_code sp 503 else sp) STP_ERROR, false)
  else
  let sp := no_flags sp in
  sp ← VCL_method M_hash sp;
  passert (bool_decide (handling sp = RET_HASH));;
  head ←? Q_head;
  let sp := set_sendbody (set_wantbody sp (negb head)) false in
  match recv_handling with
  | RET_LOOKUP => mret (set_step sp STP_LOOKUP, false)
  | RET_PIPE => if 0 <? esi_level sp then INCOMPL else mret (set_step sp STP_PIPE, false)
  | RET_PASS => mret (set_step sp STP_PASS, false)
  | RET_ERROR => mret (set_step sp STP_ERROR, false)
  | _ => WRONG
  end.

Definition cnt_start (sp : sess) : prog (sess * bool) :=
  passert (restarts sp =? 0);; passert (none (obj sp));; passert (negb (vcl sp));;
  let sp := set_acct_tmp sp true in
  n ←? Q_xid;
  let sp := set_xid sp n in
  let sp := set_w_vcl (set_vcl sp true) false in
  done ←? Q_dissect;
  if done =? 400 then mret (vca_close_session (set_step sp STP_DONE), false) else
  if negb (done =? 0) then mret (set_step (set_err_code sp (u16 done)) STP_ERROR, false) else
  close ←? Q_connection;
  let sp := set_doclose sp close in
  e ←? Q_expect;
  match e with
  | Some false => mret (set_step (set_err_code sp 417) STP_ERROR, false)
  | _ => mret (set_step sp STP_RECV, false)
  end.

(** ** The engine *)

(** One turn of [CNT_Session]. *)
Definition cnt (esi : sess -> prog sess) (sp : sess) : prog (sess * bool) :=
  passert (wrk sp);;
  match step sp with
  | STP_WAIT => cnt_wait sp
  | STP_FIRST => cnt_first sp
  | STP_RECV => cnt_recv sp
  | STP_START => cnt_start sp
  | STP_PIPE => cnt_pipe sp
  | STP_PASS => cnt_pass sp
  | STP_LOOKUP => cnt_lookup sp
  | STP_MISS => cnt_miss sp
  | STP_HIT => cnt_hit sp
  | STP_FETCH => cnt_fetch sp
  | STP_FETCHBODY => cnt_fetchbody sp
  | STP_STREAMBODY => cnt_streambody sp
  | STP_PREPRESP => cnt_prepresp sp
  | STP_DELIVER => cnt_deliver esi sp
  | STP_ERROR => cnt_error sp
  | STP_DONE => cnt_done sp
  end.

(** The loop, for so many turns; [out] is what then. *)
Fixpoint turns (out : prog sess) (esi : sess -> prog sess) (n : nat) (sp : sess) : prog sess :=
  match n with
  | O => out
  | S n => '(sp, done) ← cnt esi sp; if (done : bool) then mret sp else turns out esi n sp
  end.

Definition unflagged (sp : sess) : bool :=
  negb (do_stream (wk sp)) && negb (is_gzip (wk sp)) && negb (do_gzip (wk sp)) &&
  negb (is_gunzip (wk sp)) && negb (do_gunzip (wk sp)) && negb (do_esi (wk sp)).

Definition entrance (s : step_t) : bool :=
  match s with STP_FIRST | STP_START | STP_LOOKUP | STP_RECV => true | _ => false end.

Definition CNT_Session (out : prog sess) (esi : sess -> prog sess) (n : nat) (sp : sess) : prog sess :=
  passert (wrk sp);;
  passert (entrance (step sp));;
  passert (unflagged sp);;
  sp ← turns out esi n sp;
  passert (unflagged sp);;
  passert (negb (acct_tmp (wk sp)));;
  passert (negb (wfd (wk sp)));;
  mret sp.

(** ** ESI *)

(** More turns than a request has from [STP_RECV]. *)
Definition enough : nat := Z.to_nat (20 * max_restarts + 20).

(** The loop that waits for an include; [n] times at most are followed. *)
Fixpoint include_loop (esi : sess -> prog sess) (n : nat) (sp : sess) : prog sess :=
  match n with
  | O => Forever
  | S n =>
      sp ← CNT_Session (Stop FFuel) esi enough (set_wrk sp true);
      if bool_decide (step sp = STP_DONE) then mret sp else
      passert (negb (wrk sp));; include_loop esi n sp
  end.

Definition ved_include (esi : sess -> prog sess) (sp : sess) : prog sess :=
  if max_esi_depth <=? esi_level sp then mret sp else
  let sp := set_esi_level sp (esi_level sp + 1) in
  '(sp, _) ← WRW_FlushRelease sp;
  let o := obj sp in
  let m := res_mode (wk sp) in
  let sp := set_step (set_director (set_obj sp None) false) STP_RECV in
  let sp := no_flags sp in
  let sxid := xid sp in
  n ←? Q_turns;
  sp ← include_loop esi n sp;
  passert (wrk sp);; passert (bool_decide (step sp = STP_DONE));;
  let sp := set_obj (set_esi_level (set_xid sp sxid) (esi_level sp - 1)) o in
  WRW_Reserve (set_res_mode sp m).

Fixpoint includes (esi : sess -> prog sess) (n : nat) (sp : sess) : prog sess :=
  match n with
  | O => mret sp
  | S n =>
      failed ←? Q_flush;
      if failed then mret (vca_close_session sp) else
      sp ← ved_include esi sp; includes esi n sp
  end.

(** [ESI_Deliver]: includes to the depth that is allowed. *)
Fixpoint ESI_Deliver (d : nat) (sp : sess) : prog sess :=
  match d with
  | O => Stop FFuel
  | S d => n ←? Q_includes; includes (ESI_Deliver d) n (set_acct_tmp sp true)
  end.

Definition depth : nat := S (Z.to_nat max_esi_depth).

(** ** Workers *)

(** [wrk_do_cnt_sess], and what [wrk_thread_real] checks after it. *)
Definition wrk_do_cnt_sess (n : nat) (sp : sess) : prog sess :=
  let sp := set_storage_hint sp false in
  passert (negb (wrk sp));;
  sp ← CNT_Session Forever (ESI_Deliver depth) n (set_place (set_wrk sp true) WithWorker);
  passert (negb (bereq (wk sp)));; passert (negb (beresp (wk sp)));; passert (negb (resp (wk sp)));;
  passert (negb (wfd (wk sp)));;
  passert (negb (storage_hint (wk sp)));;
  mret sp.

End Steps.

End Center.
