(* ===== verification/CenterInv.v ===== *)
(** The session state machine, what holds at each step, and how it is shown. *)
From S2P Require Import Prelude CenterState Center.
Import CenterState Center.

Module CenterInv.

(** ** Runs *)

Section Runs.

Context (ok : forall q, answer q -> Prop).

(** What can come of a program when the answers are [ok]. *)
Inductive outcome {R} : prog R -> res R -> Prop :=
  | out_ret r : outcome (Ret r) (Ok r)
  | out_stop f : outcome (Stop f) (Fail f)
  | out_ask q k a o : ok q a -> outcome (k a) o -> outcome (Ask q k) o.

(** The same, with the questions and their answers in order. *)
Inductive run {R} : prog R -> list {q & answer q} -> res R -> Prop :=
  | run_ret r : run (Ret r) [] (Ok r)
  | run_stop f : run (Stop f) [] (Fail f)
  | run_ask q k a tr o : ok q a -> run (k a) tr o -> run (Ask q k) (existT q a :: tr) o.

Lemma run_answers {R} (p : prog R) tr o : run p tr o -> Forall (fun x => ok (projT1 x) (projT2 x)) tr.
Proof. by induction 1; constructor. Qed.

(** Whatever comes of it, it is a result with [Q]. *)
Fixpoint wp {R} (p : prog R) (Q : R -> Prop) : Prop :=
  match p with
  | Ret r => Q r
  | Stop _ => False
  | Forever => True
  | Ask q k => forall a, ok q a -> wp (k a) Q
  end.

Lemma wp_outcome {R} (p : prog R) (Q : R -> Prop) : wp p Q <-> forall o, outcome p o -> exists r, o = Ok r /\ Q r.
Proof.
  split.
  - intros Hw o Ho. induction Ho as [r|f|q k a o Ha _ IH]; [by exists r|done|]. by apply IH, Hw.
  - induction p as [r|f| |q k IH]; cbn [wp]; intros Ho.
    + destruct (Ho _ (out_ret r)) as (r' & [= <-] & HQ). done.
    + by destruct (Ho _ (out_stop f)) as (r' & ? & _).
    + done.
    + intros a Ha. apply IH. intros o Hk. by apply Ho, (out_ask q k a).
Qed.

Lemma wp_bind {A B} (p : prog A) (f : A -> prog B) Q : wp (p ≫= f) Q <-> wp p (fun a => wp (f a) Q).
Proof.
  induction p as [r|e| |q k IH]; cbn; [done..|]. split; intros H a Ha; by apply IH, H.
Qed.

Lemma wp_mono {R} (p : prog R) (Q Q' : R -> Prop) : wp p Q -> (forall r, Q r -> Q' r) -> wp p Q'.
Proof. induction p as [r|e| |q k IH]; cbn; [eauto|done..|]. intros H HQ a Ha. by eapply IH; [apply H|]. Qed.

Lemma wp_bind_mono {A B} (p : prog A) (f : A -> prog B) P Q : wp p P -> (forall a, P a -> wp (f a) Q) -> wp (p ≫= f) Q.
Proof. intros Hp Hf. apply wp_bind. by apply (wp_mono p P). Qed.

Lemma wp_passert b Q : b = true -> Q tt -> wp (passert b) Q.
Proof. by intros ->. Qed.

End Runs.

(** A run all of whose answers are better. *)
Lemma run_outcome {R} ok (good : forall q, answer q -> Prop) (p : prog R) tr o : run ok p tr o ->
  Forall (fun x => good (projT1 x) (projT2 x)) tr -> outcome (fun q a => ok q a /\ good q a) p o.
Proof.
  induction 1 as [r|f|q k a tr o Ha _ IH]; intros Hg; [constructor..|]. apply Forall_cons in Hg as [Hg Hr].
  by apply (out_ask _ q k a); [|apply IH].
Qed.

(** ** Answers *)

(** What the parts that are asked promise: the ranges of their results, a
    VCL method returns as compiled, a lookup finds an object that is not busy, nobody
    else refers to a busy object core; octets of the body of a request were there if
    writing them failed, only a processor that uncompresses can choke on what it gets,
    and the end of uncompressing succeeds. *)
Definition honest (q : question) : answer q -> Prop :=
  match q with
  | Q_rx _ => fun a => -2 <= a <= 1
  | Q_reqbody => fun a => 0 <= a.1 <= 2 /\ (a.1 = 2 -> a.2 = true)
  | Q_vcl m _ => fun a => v_ret a ∈ vcl_returns m
  | Q_lookup _ => fun a => match a with LHit o => exists c, o_core o = Some c /\ c_busy c = false | _ => True end
  | Q_deref c => fun a => c_busy c = true -> a = 0
  | Q_receive _ v => fun a => match a with Some r => -1 <= r.1.1 <= 0 | None => v = vfp_esi \/ v = vfp_gunzip end
  | Q_vfp_end v => fun a => match v with vfp_esi | vfp_gzip => -1 <= a <= 0 | _ => a = 0 end
  | _ => fun _ => True
  end.

(** What may be answered all the same, and the state machine is not made for: more input
    than the workspace takes while it waits for a request; no storage for an object, twice;
    a [Vary:] header that [VRY_Create] fails an assertion for; a body that does not
    uncompress; a processor whose end fails; and returns of VCL methods: restart from
    [vcl_miss] and [vcl_pass], error from [vcl_pipe], pipe in an include, restart from
    [vcl_deliver] of a response that is to be streamed through a processor. *)
Inductive mishap :=
  | Overflow | No_storage | Bad_vary | Bad_body | Bad_end
  | Miss_restart | Pass_restart | Pipe_error | Include_pipe | Stream_restart.

Definition mishap_of (q : question) : answer q -> option mishap :=
  match q with
  | Q_rx sp => fun a => if bool_decide (step sp = STP_WAIT) && (a =? -2) then Some Overflow else None
  | Q_alloc _ last => fun a => if last && negb a then Some No_storage else None
  | Q_vary => fun a => match a with Some false => Some Bad_vary | _ => None end
  | Q_receive _ _ => fun a => match a with None => Some Bad_body | _ => None end
  | Q_vfp_end _ => fun a => if a =? 0 then None else Some Bad_end
  | Q_vcl m sp => fun a => match m, v_ret a with
      | M_miss, RET_RESTART => Some Miss_restart
      | M_pass, RET_RESTART => Some Pass_restart
      | M_pipe, RET_ERROR => Some Pipe_error
      | M_recv, RET_PIPE => if 0 <? esi_level sp then Some Include_pipe else None
      | M_deliver, RET_RESTART => if do_stream (wk sp) && some (wvfp (wk sp)) then Some Stream_restart else None
      | _, _ => None
      end
  | _ => fun _ => None
  end.

(** Something of that has happened. *)
Definition mishaps (tr : list {q & answer q}) : list mishap := omap (fun x => mishap_of (projT1 x) (projT2 x)) tr.

Definition lucky (q : question) (a : answer q) : Prop := mishap_of q a = None.

Lemma no_mishaps tr : mishaps tr = [] -> Forall (fun x => lucky (projT1 x) (projT2 x)) tr.
Proof.
  induction tr as [|[q a] tr IH]; [done|]. unfold mishaps. cbn. destruct (mishap_of q a) eqn:E; [done|].
  intros H. constructor; [done|by apply IH].
Qed.

Definition fine (q : question) (a : answer q) : Prop := honest q a /\ lucky q a.

(** ** Steps *)

Section Inv.

Context (max_restarts : Z).

Definition quiet (sp : sess) : Prop :=
  wrk sp = true /\ place sp = WithWorker /\ sctx (wk sp) = false /\ wfd (wk sp) = false /\ w_ws (wk sp) = false /\ vgz_rx (wk sp) = false /\ 0 <= esi_level sp /\
  match step sp with STP_DELIVER | STP_STREAMBODY => True | _ => resp (wk sp) = false \/ 0 < esi_level sp end.

(** Nothing is left of a fetch. *)
Definition no_fetch (sp : sess) : Prop :=
  wvfp (wk sp) = None /\ h_content_length (wk sp) = false /\ do_close (wk sp) = false /\ storage_hint (wk sp) = false.

Definition https (sp : sess) (q s : bool) : Prop := bereq (wk sp) = q /\ beresp (wk sp) = s.

(** Not in the middle of a lookup. *)
Definition no_lookup (sp : sess) : Prop := hash_objhead sp = false /\ vary_b sp = false /\ vary_l sp = false.

Definition bare (sp : sess) : Prop := obj sp = None /\ objcore sp = None /\ vbc sp = None.

Definition tries (sp : sess) : Prop := 0 <= restarts sp < max_restarts.

(** The object core of a fetch is busy, and took the worker's [nbusyobj]. *)
Definition fetching (sp : sess) (c : option core) : Prop :=
  match c with Some c => c_busy c = true /\ nbusyobj (wk sp) = false | None => True end.

(** An object that is being fetched, one that is not. *)
Definition filling (sp : sess) (o : object) : Prop := o_empty o = true /\
  match o_core o with Some c => c_busy c = true /\ c_ban c = true /\ nbusyobj (wk sp) = false | None => True end.
Definition settled (o : object) : Prop := match o_core o with Some c => c_busy c = false | None => True end.

(** Between requests. *)
Definition resting (sp : sess) : Prop :=
  bare sp /\ no_fetch sp /\ https sp false false /\ no_lookup sp /\ unflagged sp = true /\
  esi_level sp = 0 /\ vcl sp = false /\ restarts sp = 0 /\ director sp = false.

Definition at_step (sp : sess) : Prop :=
  match step sp with
  | STP_FIRST => resting sp /\ xid sp = 0 /\ fd sp = true /\ ws sp = false
  | STP_WAIT => resting sp /\ xid sp = 0 /\ fd sp = true /\ ws sp = true
  | STP_START => resting sp /\ fd sp = true /\ ws sp = false
  | STP_RECV => bare sp /\ no_fetch sp /\ https sp false false /\ no_lookup sp /\ ws sp = false /\ vcl sp = true /\
      director sp = false /\ 0 <= restarts sp <= max_restarts
  | STP_LOOKUP => bare sp /\ no_fetch sp /\ https sp false false /\ vcl sp = true /\ director sp = true /\
      tries sp /\ unflagged sp = true /\ sendbody sp = false /\
      ws sp = hash_objhead sp /\ (hash_objhead sp = false -> vary_b sp = false /\ vary_l sp = false)
  | STP_HIT => (exists o c, obj sp = Some o /\ o_core o = Some c /\ c_busy c = false /\ c_pass c = false) /\
      objcore sp = None /\ vbc sp = None /\ no_fetch sp /\ https sp false false /\ no_lookup sp /\ ws sp = false /\
      vcl sp = true /\ tries sp /\ unflagged sp = true /\ sendbody sp = false /\ director sp = true
  | STP_MISS => (exists c, objcore sp = Some c /\ c_busy c = true /\ nbusyobj (wk sp) = false) /\
      obj sp = None /\ vbc sp = None /\ no_fetch sp /\ https sp false false /\ no_lookup sp /\ ws sp = false /\
      vcl sp = true /\ director sp = true /\ tries sp /\ unflagged sp = true
  | STP_PASS => bare sp /\ no_fetch sp /\ (exists b, https sp b false) /\ no_lookup sp /\ ws sp = false /\
      vcl sp = true /\ director sp = true /\ tries sp /\ unflagged sp = true
  | STP_PIPE => bare sp /\ no_fetch sp /\ https sp false false /\ no_lookup sp /\ ws sp = false /\
      vcl sp = true /\ director sp = true /\ tries sp /\ esi_level sp = 0 /\ unflagged sp = true
  | STP_FETCH => obj sp = None /\ fetching sp (objcore sp) /\ vbc sp = None /\ no_fetch sp /\ https sp true false /\
      no_lookup sp /\ ws sp = false /\ vcl sp = true /\ director sp = true /\ tries sp /\ unflagged sp = true
  | STP_FETCHBODY => obj sp = None /\ fetching sp (objcore sp) /\ some (vbc sp) = true /\ wvfp (wk sp) = None /\
      https sp true true /\ no_lookup sp /\ ws sp = false /\ vcl sp = true /\ director sp = true /\ tries sp /\
      (handling sp = RET_HIT_FOR_PASS \/ handling sp = RET_DELIVER)
  | STP_PREPRESP =>
      objcore sp = None /\ no_lookup sp /\ ws sp = false /\ vcl sp = true /\ 0 <= restarts sp <= max_restarts /\
      storage_hint (wk sp) = false /\
      exists o, obj sp = Some o /\
      if do_stream (wk sp)
      then filling sp o /\ some (vbc sp) = true /\ https sp true true /\ wantbody sp = true /\ esi_level sp = 0 /\
        director sp = true
      else settled o /\ vbc sp = None /\ https sp false false /\ no_fetch sp
  | STP_STREAMBODY =>
      objcore sp = None /\ no_lookup sp /\ ws sp = false /\ vcl sp = true /\ storage_hint (wk sp) = false /\
      exists o, obj sp = Some o /\ filling sp o /\ some (vbc sp) = true /\ https sp true true /\
      wantbody sp = true /\ esi_level sp = 0 /\ director sp = true /\ has (res_mode (wk sp)) RES_ESI_CHILD = false
  | STP_DELIVER =>
      objcore sp = None /\ no_lookup sp /\ ws sp = false /\ vcl sp = true /\
      vbc sp = None /\ https sp false false /\ no_fetch sp /\
      exists o, obj sp = Some o /\ settled o
  | STP_ERROR => bare sp /\ no_fetch sp /\ https sp false false /\ no_lookup sp /\ ws sp = false /\ vcl sp = true /\
      0 <= restarts sp <= max_restarts
  | STP_DONE => bare sp /\ no_fetch sp /\ https sp false false /\ no_lookup sp /\ ws sp = false /\
      (if 0 <? esi_level sp then vcl sp = true else True)
  end.

Definition inv (sp : sess) : Prop := quiet sp /\ at_step sp.

(** What is left when the worker is done with the session. *)
Definition left (sp : sess) : Prop :=
  bare sp /\ no_fetch sp /\ https sp false false /\ unflagged sp = true /\ acct_tmp (wk sp) = false /\
  sctx (wk sp) = false /\ wfd (wk sp) = false /\ w_ws (wk sp) = false /\ vgz_rx (wk sp) = false /\ 0 <= esi_level sp /\
  (resp (wk sp) = false \/ 0 < esi_level sp) /\
  match step sp with
  | STP_LOOKUP => wrk sp = false /\ hash_objhead sp = true /\ ws sp = true /\ vcl sp = true /\ director sp = true /\
      tries sp /\ sendbody sp = false /\ (if esi_level sp =? 0 then place sp = OnWaitingList else place sp = WithWorker)
  | STP_DONE | STP_WAIT => no_lookup sp /\ restarts sp = 0 /\ director sp = false /\
      if 0 <? esi_level sp then wrk sp = true /\ place sp = WithWorker /\ step sp = STP_DONE /\ ws sp = false /\ vcl sp = true
      else wrk sp = false /\ vcl sp = false /\
        match place sp with
        | WithAcceptor => fd sp = true /\ ws sp = true /\ xid sp = 0
        | Deleted => fd sp = false
        | Nowhere => fd sp = false
        | _ => False
        end
  | _ => False
  end.

(** In the middle of delivering an object; what ESI leaves of that. *)
Definition delivering (sp : sess) : Prop :=
  wrk sp = true /\ place sp = WithWorker /\ sctx (wk sp) = false /\ wfd (wk sp) = true /\ w_ws (wk sp) = false /\
  vgz_rx (wk sp) = false /\ 0 <= esi_level sp /\ objcore sp = None /\ vbc sp = None /\ no_lookup sp /\ ws sp = false /\ vcl sp = true /\
  https sp false false /\ no_fetch sp /\ restarts sp = 0 /\ director sp = false.

Definition delivered (sp sp' : sess) : Prop := delivering sp' /\ obj sp' = obj sp /\ esi_level sp' = esi_level sp.

(** ** Turns *)

Definition rank (s : step_t) : Z :=
  match s with
  | STP_FIRST => 16 | STP_WAIT => 15 | STP_START => 14 | STP_RECV => 13 | STP_LOOKUP => 12 | STP_HIT | STP_MISS => 11
  | STP_PASS => 10 | STP_PIPE | STP_FETCH => 9 | STP_FETCHBODY => 8 | STP_ERROR => 7 | STP_PREPRESP => 6
  | STP_DELIVER | STP_STREAMBODY => 5 | STP_DONE => 4
  end.

(** Every turn makes it less until the request is done. *)
Definition measure (sp : sess) : Z :=
  match step sp with
  | STP_DELIVER | STP_STREAMBODY | STP_DONE => rank (step sp)
  | _ => 20 * (max_restarts - restarts sp) + rank (step sp)
  end.

Definition progress (sp sp' : sess) : Prop := measure sp' < measure sp \/ step sp = STP_DONE /\ esi_level sp = 0.

(** The graph in the comments of [cache_center.c], with the methods of VCL taken
    together with the step that calls them. *)
Definition drawn (s s' : step_t) : bool :=
  match s, s' with
  | STP_START, STP_RECV
  | STP_RECV, (STP_PIPE | STP_PASS | STP_ERROR | STP_LOOKUP)
  | STP_LOOKUP, (STP_HIT | STP_PASS | STP_MISS)
  | STP_HIT, (STP_ERROR | STP_RECV | STP_PASS | STP_PREPRESP)
  | STP_MISS, (STP_RECV | STP_ERROR | STP_FETCH | STP_PASS)
  | STP_PASS, (STP_FETCH | STP_RECV | STP_ERROR)
  | STP_PIPE, (STP_DONE | STP_ERROR)
  | STP_FETCH, (STP_FETCHBODY | STP_RECV | STP_ERROR)
  | STP_FETCHBODY, STP_PREPRESP
  | STP_PREPRESP, (STP_DELIVER | STP_STREAMBODY | STP_RECV | STP_ERROR)
  | STP_DELIVER, STP_DONE | STP_STREAMBODY, STP_DONE
  | STP_ERROR, (STP_PREPRESP | STP_RECV) => true
  | _, _ => false
  end.

(** What it draws and is not done, what is done and it does not draw: failures, and what
    is between requests. *)
Definition never (s s' : step_t) : bool :=
  match s, s' with
  | STP_MISS, STP_RECV | STP_PASS, STP_RECV | STP_PIPE, STP_ERROR | STP_PREPRESP, STP_ERROR => true
  | _, _ => false
  end.
Definition undrawn (s s' : step_t) : bool :=
  match s, s' with
  | STP_FIRST, STP_WAIT | STP_WAIT, (STP_START | STP_DONE) | STP_DONE, (STP_START | STP_WAIT)
  | STP_START, (STP_ERROR | STP_DONE) | STP_FETCHBODY, STP_ERROR | STP_ERROR, STP_DONE => true
  | _, _ => false
  end.
Definition follows (s s' : step_t) : bool := drawn s s' && negb (never s s') || undrawn s s'.

Definition turn_ok (sp : sess) (r : sess * bool) : Prop :=
  esi_level r.1 = esi_level sp /\ if r.2 then left r.1 else inv r.1 /\ follows (step sp) (step r.1) = true /\ progress sp r.1.

End Inv.

End CenterInv.
