(* ===== verification/CenterSteps.v ===== *)
(** The session state machine, the steps: each keeps what holds at its step. *)
From S2P Require Import Prelude CenterState Center CenterInv.
Import CenterState Center CenterInv.

Module CenterSteps.

#[local] Arguments no_flags _ /.
#[local] Arguments SES_Charge _ /.
#[local] Arguments vca_close_session _ /.
#[local] Arguments HSH_Prealloc _ /.

#[local] Arguments vcl_sets _ _ _ /.
#[local] Arguments VCL_method : simpl never.

(** Takes a session apart, with what holds of it. *)
Ltac split_all := repeat match goal with
  | H : _ /\ _ |- _ => destruct H
  | H : exists _, _ |- _ => destruct H
  end.

Ltac open_inv := unfold inv, left, at_step, quiet, resting, bare, no_fetch, https, no_lookup, tries, unflagged, fetching, filling, settled in *.

Ltac reduce := cbn -[Z.add Z.sub Z.mul Z.leb Z.ltb Z.eqb Z.lor Z.land has with_ without_ u16 RES_ESI_CHILD RES_ESI RES_CHUNKED bool_decide set_mode set_vfp set_wanted set_transient set_streamed] in *.

Ltac take_apart sp := destruct sp as [step fd restarts esi_level xid vcl director vbc obj objcore handling err_code doclose wantbody
    sendbody disable_esi hash_always_miss hash_ignore_busy hash_objhead vary_b vary_l ws wrk place wk];
  destruct wk as [w_vcl do_esi do_gzip do_gunzip is_gzip is_gunzip do_stream wvfp h_content_length do_close storage_hint
    bereq beresp resp res_mode body_status sctx wfd w_ws nbusyobj acct_tmp vgz_rx].

(** The returns that have a case. *)
Definition handled (m : vcl_method) (sp : sess) (r : vcl_ret) : bool :=
  match m, r with
  | M_miss, RET_RESTART | M_pass, RET_RESTART | M_pipe, RET_ERROR => false
  | M_recv, RET_PIPE => negb (0 <? esi_level sp)
  | M_deliver, RET_RESTART => negb (do_stream (wk sp)) || none (wvfp (wk sp))
  | _, _ => true
  end.

(** What it is not to meet a mishap. *)
Definition luck (q : question) : answer q -> Prop :=
  match q with
  | Q_rx sp => fun a => step sp = STP_WAIT -> a <> -2
  | Q_vcl m sp => fun a => handled m sp (v_ret a) = true
  | Q_alloc _ last => fun a => last = true -> a = true
  | Q_vary => fun a => a <> Some false
  | Q_receive _ _ => fun a => a <> None
  | Q_vfp_end _ => fun a => a = 0
  | _ => fun _ => True
  end.

Lemma lucky_luck q a : lucky q a -> luck q a.
Proof.
  unfold lucky. destruct q as [| |sp| | | | | | | | | | | |m sp| | |sp l| | | | | | | | | |b v|v| |]; cbn; try done.
  - intros H E. rewrite E in H. by intros ->.
  - destruct m, (v_ret a); cbn; try done; try (by destruct (_ <? _)). by destruct (do_stream _), (wvfp _).
  - by destruct l, a.
  - by destruct a as [[|]|].
  - by destruct a.
  - by destruct (Z.eqb_spec a 0).
Qed.

Lemma wp_vcl m sp Q : (forall a, v_ret a ∈ vcl_returns m -> handled m sp (v_ret a) = true -> Q (vcl_sets m a sp)) ->
  wp fine (VCL_method m sp) Q.
Proof.
  intros HQ a [Hh Hl%lucky_luck]. cbn [honest luck] in *. rewrite bool_decide_eq_true_2 by done. by apply HQ.
Qed.

Ltac vcl_cases := let a := fresh "a" in let r := fresh "r" in let Hin := fresh "Hin" in let Hh := fresh "Hh" in
  intros a Hin Hh; destruct a as [r ? ? ? ? ? ? ? ? ? ?]; cbn [v_ret vcl_returns] in Hin; cbn in Hh;
  repeat (apply elem_of_cons in Hin as [->|Hin]); try (by apply elem_of_nil in Hin); try discriminate Hh.

(** The next thing a program does. *)
Ltac decided := repeat match goal with
  | |- context [bool_decide (?a = ?b)] =>
      let v := eval vm_compute in (bool_decide (a = b)) in
      lazymatch v with true => idtac | false => idtac end; change (bool_decide (a = b)) with v
  end.

(** For calls that have a lemma of their own. *)
Ltac wp_hook := fail.

Ltac wp_step := first [ wp_hook |
  lazymatch goal with
  | |- wp _ (mret ?x) _ => change (mret x) with (Ret x); cbn [wp]
  | |- wp _ (Ret _) _ => cbn [wp]
  | |- wp _ (Ask _ _) _ => cbn [wp]
  | |- forall a, fine _ a -> _ => let a := fresh "a" in let Hh := fresh "Hh" in let Hl := fresh "Hl" in intros a [Hh Hl]; apply lucky_luck in Hl; reduce
  | |- wp _ (mbind _ _) _ => apply wp_bind
  | |- wp _ (VCL_method _ _) _ => apply wp_vcl; vcl_cases
  | |- wp _ (passert _) _ => apply wp_passert; [first [reflexivity|by apply negb_true_iff|by apply bool_decide_eq_true_2|idtac]|]
  | |- wp _ (match ?x with _ => _ end) _ => destruct x eqn:?
  end
  | match goal with
    | |- context [if ?b then ?x else _] => lazymatch type of x with sess => destruct b eqn:? | prog _ => destruct b eqn:? end
    end].

Ltac somes := repeat match goal with
  | H : Some _ = Some _ |- _ => injection H as <-
  | H : None = Some _ |- _ => discriminate H
  | H : Some _ = None |- _ => discriminate H
  end.

Ltac wp_go := reduce; decided; cbv beta iota; repeat (wp_step; reduce; somes; decided; cbv beta iota).

(** What holds at the end of a step. *)
Ltac bools := repeat match goal with
  | H : _ && _ = true |- _ => apply andb_prop in H as [? ?]
  | H : (_ =? _) = true |- _ => apply Z.eqb_eq in H
  | H : (_ =? _) = false |- _ => apply Z.eqb_neq in H
  | H : (_ <? _) = true |- _ => apply Z.ltb_lt in H
  | H : (_ <? _) = false |- _ => apply Z.ltb_ge in H
  | H : (_ <=? _) = true |- _ => apply Z.leb_le in H
  | H : (_ <=? _) = false |- _ => apply Z.leb_gt in H
  | H : (?x =? ?y) && _ = false |- _ => destruct (Z.eqb_spec x y); cbn in H
  | H : negb _ = true |- _ => apply negb_true_iff in H
  | H : ?x = ?x -> _ |- _ => specialize (H eq_refl)
  | H : negb _ = false |- _ => apply negb_false_iff in H
  end.

Ltac reduce_goal := cbn -[Z.add Z.sub Z.mul Z.leb Z.ltb Z.eqb Z.lor Z.land has with_ without_ u16 RES_ESI_CHILD RES_ESI RES_CHUNKED bool_decide set_mode set_vfp set_wanted set_transient set_streamed].

Ltac finish_one := reduce; bools; subst; repeat (reduce_goal; match goal with
  | |- _ /\ _ => split
  | |- _ -> _ => intros ?
  | H : ?b && _ = false |- _ => is_var b; destruct b; cbn in H
  | |- negb ?b = true => is_var b; destruct b
  | |- context [if ?b then _ else _] => destruct b eqn:?; bools; subst
  end); try done; try lia; try (left; lia); try (right; done); try (right; split; [done|lia]); try (by eauto); try (by eexists; split; [reflexivity|]; repeat split; auto); try (by repeat eexists).

Ltac finish := lazymatch goal with
  | |- wp _ _ _ => idtac
  | _ => unfold turn_ok, progress, measure, follows; open_inv; finish_one
  end.

(** Parts of the state that a fetch goes through. *)
Lemma wp_FetchHdr sp Q : director sp = true -> obj sp = None -> (if objcore sp is Some c then c_busy c = true else True) ->
  wfd (wk sp) = false -> w_ws (wk sp) = false -> do_close (wk sp) = false ->
  (forall i, i <> 0 -> Q (set_vbc sp None, i)) -> (forall v, Q (set_vbc sp (Some v), 0)) -> wp fine (FetchHdr sp) Q.
Proof.
  take_apart sp. reduce. intros -> -> Hc -> -> -> Hf Hs. unfold FetchHdr, FetchReqBody. destruct objcore as [[cb cp cn]|]; reduce; subst. all: wp_go; split_all; try done; try (by rewrite orb_true_r); try (apply Hf; repeat case_match; lia).
Qed.

Lemma wp_FetchBody sp o Q : director sp = true -> obj sp = Some o -> (if o_core o is Some c then c_busy c = true else True) ->
  some (vbc sp) = true -> vgz_rx (wk sp) = false -> o_empty o = true ->
  (forall v e z f, Q (set_obj (set_do_close (set_vbc (set_wvfp sp (Some v)) None) false) (Some (o_set_body o e z)), f)) ->
  wp fine (FetchBody sp) Q.
Proof.
  take_apart sp. destruct o as [c g e z r]. reduce. intros -> [= ->] Hc Hv -> -> HQ. destruct vbc as [v|]; [|done]. unfold FetchBody, receive, vfp_begin, vfp_end.
  destruct do_close, c as [[cb cp cn]|]; reduce; subst. all: wp_go; split_all; subst; try done; try (by apply (HQ _ e true)); try (by eapply HQ);
    try match goal with H : _ || true = false |- _ => by rewrite orb_true_r in H end.
Qed.

#[local] Arguments FetchHdr : simpl never.
#[local] Arguments FetchBody : simpl never.

Lemma set_vfp_ok hs sp ce : exists gz gu ig iu st v,
  set_vfp hs sp ce = set_wvfp (set_do_stream (set_is_gunzip (set_is_gzip (set_do_gunzip (set_do_gzip sp gz) gu) ig) iu) st) v /\
  ig && iu = false /\ gz && gu = false /\ (st = true -> do_esi (wk sp) = false /\ esi_level sp <= 0 /\ wantbody sp = true).
Proof.
  do 6 eexists. split; [reflexivity|]. split; [by destruct ce|]. split; [by destruct ce; rewrite ?andb_false_r|].
  intros [[_ Hn]%andb_prop Hw]%andb_prop. apply negb_true_iff, orb_false_iff in Hn as [He Hl]. apply Z.ltb_ge in Hl. done.
Qed.

Lemma set_mode_ok hs sp o g v : exists m d, set_mode hs sp o g v = set_doclose (set_res_mode sp m) d /\
  (esi_level sp = 0 -> has m RES_ESI_CHILD = false).
Proof.
  do 2 eexists. split; [reflexivity|]. intros ->. change (0 <? 0) with false.
  assert (Hm : forall a b c d e g h i j, has (mode_of a b c d e false g h i j).1 RES_ESI_CHILD = false)
    by (by intros [] [] [] [] [] [] [] [] []).
  apply Hm.
Qed.

Lemma set_wanted_ok sp o c : exists w m a, set_wanted sp o c = set_wantbody (set_res_mode (set_acct_tmp sp a) m) w.
Proof.
  unfold set_wanted. take_apart sp. destruct (_ && _); reduce; destruct (has _ _), wantbody; by do 3 eexists.
Qed.

Lemma set_transient_ok sp b : exists h, set_transient sp b = set_storage_hint sp h.
Proof. unfold set_transient. take_apart sp. destruct (_ || _); by eexists. Qed.

Lemma set_streamed_ok sp o c : exists st, set_streamed sp o c = set_do_stream sp st /\ (st = true -> do_stream (wk sp) = true).
Proof. unfold set_streamed. take_apart sp. destruct (_ && _); by eexists. Qed.

Ltac wp_hook ::= lazymatch goal with
  | |- context [set_transient ?sp ?b] => destruct (set_transient_ok sp b) as (? & ->)
  | |- context [set_streamed ?sp ?o ?c] => destruct (set_streamed_ok sp o c) as (? & -> & ?)
  | |- context [set_wanted ?sp ?o ?c] => destruct (set_wanted_ok sp o c) as (? & ? & ? & ->)
  | |- context [set_mode ?hs ?sp ?o ?g ?v] => destruct (set_mode_ok hs sp o g v) as (? & ? & -> & ?)
  | |- context [set_vfp ?hs ?sp ?ce] => destruct (set_vfp_ok hs sp ce) as (? & ? & ? & ? & ? & ? & -> & ? & ? & ?)
  | |- wp _ (FetchHdr _) _ => apply wp_FetchHdr; [try done..|intros ? ?|intros ?]
  | |- wp _ (FetchBody _) _ => eapply wp_FetchBody; [try done..|intros ? ? ? ?]
  end.

Section Steps.

Context (session_linger : bool) (max_restarts : Z) (http_gzip_support : bool) (max_esi_depth : Z) (Hmax : 0 <= max_restarts).

#[local] Notation inv := (inv max_restarts).
#[local] Notation left := (left max_restarts).
#[local] Notation turn_ok := (turn_ok max_restarts).

Ltac objects := repeat (match goal with
  | o : object |- _ => destruct o
  | c : core |- _ => destruct c
  | H : match ?x with Some _ => _ | None => _ end |- _ => destruct x
  end; reduce; split_all; subst).

(** Opens a step. *)
Ltac start := let H := fresh "H" in let E := fresh "E" in
  match goal with |- inv ?sp -> _ => take_apart sp end; open_inv; reduce; intros H E; subst; reduce; split_all; subst; objects.

Lemma cnt_done_ok sp : inv sp -> step sp = STP_DONE -> wp fine (cnt_done session_linger sp) (turn_ok sp).
Proof. start. unfold cnt_done. wp_go; finish. Qed.

Lemma cnt_wait_ok sp : inv sp -> step sp = STP_WAIT -> wp fine (cnt_wait session_linger sp) (turn_ok sp).
Proof. start. unfold cnt_wait. wp_go; finish. Qed.

Lemma cnt_first_ok sp : inv sp -> step sp = STP_FIRST -> wp fine (cnt_first sp) (turn_ok sp).
Proof. start. unfold cnt_first. wp_go; finish. Qed.

Lemma cnt_start_ok sp : inv sp -> step sp = STP_START -> wp fine (cnt_start sp) (turn_ok sp).
Proof. start. unfold cnt_start. wp_go; finish. Qed.

Lemma cnt_recv_ok sp : inv sp -> step sp = STP_RECV -> wp fine (cnt_recv max_restarts sp) (turn_ok sp).
Proof. start. unfold cnt_recv. wp_go; finish. Qed.

Lemma cnt_pass_ok sp : inv sp -> step sp = STP_PASS -> wp fine (cnt_pass sp) (turn_ok sp).
Proof. start. unfold cnt_pass. wp_go; finish. Qed.

Lemma cnt_miss_ok sp : inv sp -> step sp = STP_MISS -> wp fine (cnt_miss sp) (turn_ok sp).
Proof. start. unfold cnt_miss, give_up_core. wp_go; finish. Qed.

Lemma cnt_pipe_ok sp : inv sp -> step sp = STP_PIPE -> wp fine (cnt_pipe sp) (turn_ok sp).
Proof. start. unfold cnt_pipe, PipeSession. wp_go; finish. Qed.

Lemma cnt_hit_ok sp : inv sp -> step sp = STP_HIT -> wp fine (cnt_hit sp) (turn_ok sp).
Proof. start. unfold cnt_hit. wp_go; finish. Qed.

Lemma cnt_lookup_ok sp : inv sp -> step sp = STP_LOOKUP -> wp fine (cnt_lookup sp) (turn_ok sp).
Proof.
  start. unfold cnt_lookup, HSH_Lookup, ws_reserve, ws_release.
  destruct hash_objhead; [|match goal with H : _ = _ -> _ |- _ => destruct (H eq_refl) as [-> ->]; clear H end].
  all: wp_go; split_all; objects; try discriminate; wp_go; finish.
Qed.

Lemma cnt_error_ok sp : inv sp -> step sp = STP_ERROR -> wp fine (cnt_error max_restarts sp) (turn_ok sp).
Proof. start. unfold cnt_error. wp_go; finish. Qed.

Lemma cnt_fetch_ok sp : inv sp -> step sp = STP_FETCH -> wp fine (cnt_fetch sp) (turn_ok sp).
Proof. start. all: unfold cnt_fetch, fetch_over. all: wp_go; finish. Qed.

Lemma cnt_prepresp_ok sp : inv sp -> step sp = STP_PREPRESP -> wp fine (cnt_prepresp max_restarts http_gzip_support sp) (turn_ok sp).
Proof.
  start. all: unfold cnt_prepresp.
  destruct do_stream; reduce; split_all; objects.
  all: try (match goal with H : some ?v = true |- _ => destruct v; [|discriminate H] end).
  all: wp_go; finish.
  all: by destruct wvfp.
Qed.

Lemma cnt_stream_ok sp : inv sp -> step sp = STP_STREAMBODY -> wp fine (cnt_streambody sp) (turn_ok sp).
Proof. start. all: unfold cnt_streambody. all: wp_go; finish. Qed.

Lemma cnt_deliver_ok esi sp : inv sp -> step sp = STP_DELIVER ->
  (forall sp', delivering sp' -> esi_level sp' = esi_level sp -> wp fine (esi sp') (delivered sp')) ->
  wp fine (cnt_deliver esi sp) (turn_ok sp).
Proof.
  start. all: intros Hesi. all: unfold cnt_deliver, RES_WriteObj. all: wp_go.
  all: try (lazymatch goal with |- wp fine (?e ?s) _ => is_var e; eapply wp_mono; [apply (Hesi s); [unfold delivering; open_inv; finish_one|done]|] end).
  all: lazymatch goal with |- forall r, delivered _ r -> _ => intros ? (? & ? & ?) | _ => idtac end.
  all: clear Hesi; try (match goal with s : sess |- _ => destruct s as [? ? ? ? ? ? ? ? ? ? ? ? ? ? ? ? ? ? ? ? ? ? ? ? []] end).
  all: unfold delivering in *; open_inv; reduce; split_all; subst; wp_go.
  all: finish.
Qed.

Lemma cnt_fetchbody_ok sp : inv sp -> step sp = STP_FETCHBODY -> wp fine (cnt_fetchbody http_gzip_support sp) (turn_ok sp).
Proof.
  start. all: match goal with H : some ?v = true |- _ => destruct v; [|discriminate H] end.
  all: unfold cnt_fetchbody. all: wp_go. all: try (by match goal with a : option bool |- _ => destruct a as [[|]|] end). all: finish.
  all: bools; split_all; subst; bools; split_all; subst; eexists; split; [reflexivity|]; reduce_goal; repeat split; done || lia.
Qed.

End Steps.

End CenterSteps.
