(* ===== verification/CenterThm.v ===== *)
(** The session state machine, from request to request: what a worker does with a
    session, with the requests that ESI makes of one. *)
From S2P Require Import Prelude CenterState Center CenterInv CenterSteps.
Import CenterState Center CenterInv CenterSteps.

Module CenterThm.

Section Engine.

Context (session_linger : bool) (max_restarts : Z) (http_gzip_support : bool) (max_esi_depth : Z) (Hmax : 0 <= max_restarts).

#[local] Notation inv := (inv max_restarts).
#[local] Notation left := (left max_restarts).
#[local] Notation turn_ok := (turn_ok max_restarts).
#[local] Notation cnt := (cnt session_linger max_restarts http_gzip_support).
#[local] Notation turns := (turns session_linger max_restarts http_gzip_support).
#[local] Notation CNT_Session := (CNT_Session session_linger max_restarts http_gzip_support).
#[local] Notation include_loop := (include_loop session_linger max_restarts http_gzip_support).
#[local] Notation ved_include := (ved_include session_linger max_restarts http_gzip_support max_esi_depth).
#[local] Notation includes := (includes session_linger max_restarts http_gzip_support max_esi_depth).
#[local] Notation ESI_Deliver := (ESI_Deliver session_linger max_restarts http_gzip_support max_esi_depth).

(** What the delivery of ESI objects promises at a level. *)
Definition delivers (esi : sess -> prog sess) (level : Z) : Prop :=
  forall sp, delivering sp -> esi_level sp = level -> wp fine (esi sp) (delivered sp).

Lemma cnt_turn esi sp : inv sp -> delivers esi (esi_level sp) -> wp fine (cnt esi sp) (turn_ok sp).
Proof.
  intros Hi He. unfold Center.cnt. apply wp_bind_mono with (P := fun _ => True); [by rewrite (proj1 (proj1 Hi))|].
  intros _ _. destruct (step sp) eqn:E.
  - by apply cnt_wait_ok.
  - by apply cnt_first_ok.
  - by apply cnt_recv_ok.
  - by apply cnt_start_ok.
  - by apply cnt_pipe_ok.
  - by apply cnt_pass_ok.
  - by apply cnt_lookup_ok.
  - by apply cnt_miss_ok.
  - by apply cnt_hit_ok.
  - by apply cnt_fetch_ok.
  - by apply cnt_fetchbody_ok.
  - by apply cnt_stream_ok.
  - by apply cnt_prepresp_ok.
  - by apply cnt_deliver_ok.
  - by apply cnt_error_ok.
  - by apply cnt_done_ok.
Qed.

Lemma measure_nonneg sp : inv sp -> 0 <= measure max_restarts sp.
Proof.
  intros [_ H]. unfold at_step, resting, tries in H. unfold measure, rank. destruct (step sp); try lia; destruct_and?; lia.
Qed.

(** The loop: for ever, or as long as it takes if the request is an include. *)
Lemma turns_ok (out : prog sess) esi (n : nat) sp : inv sp -> delivers esi (esi_level sp) ->
  out = Forever \/ 0 < esi_level sp /\ measure max_restarts sp < Z.of_nat n ->
  wp fine (turns out esi n sp) (fun sp' => left sp' /\ esi_level sp' = esi_level sp).
Proof.
  revert sp. induction n as [|n IH]; intros sp Hi He Hn; cbn [Center.turns].
  { destruct Hn as [->|[_ Hn]]; [done|]. pose proof (measure_nonneg _ Hi). lia. }
  apply (wp_bind_mono _ _ _ (turn_ok sp)); [by apply cnt_turn|]. intros [sp' [|]] [Hl Ht]; cbn in Hl, Ht; cbn [wp]; [done|].
  destruct Ht as (Hi' & _ & Hp). eapply wp_mono; [apply IH; [done|by rewrite Hl|]|].
  - destruct Hn as [->|[Hlev Hn]]; [by left|]. right. rewrite Hl. split; [done|]. destruct Hp as [Hp|[_ Hp]]; lia.
  - intros r [Hr ->]. done.
Qed.

Lemma session_ok (out : prog sess) esi (n : nat) sp : inv sp -> entrance (step sp) = true -> unflagged sp = true -> delivers esi (esi_level sp) ->
  out = Forever \/ 0 < esi_level sp /\ measure max_restarts sp < Z.of_nat n ->
  wp fine (CNT_Session out esi n sp) (fun sp' => left sp' /\ esi_level sp' = esi_level sp).
Proof.
  intros Hi Hs Hu He Hn. unfold Center.CNT_Session. rewrite (proj1 (proj1 Hi)), Hs, Hu. cbn [passert mbind prog_bind].
  eapply wp_bind_mono; [by apply turns_ok|]. intros sp' [Hl Hlev].
  assert (Hl' := Hl). unfold CenterInv.left in Hl'. destruct Hl' as (_ & _ & _ & Hu' & Ha & _ & Hw & _).
  by rewrite Hu', Ha, Hw.
Qed.

(** What an include starts from, and comes back to while it waits. *)
Lemma include_loop_ok esi n sp : delivers esi (esi_level sp) -> 0 < esi_level sp -> inv (set_wrk sp true) -> unflagged sp = true ->
  step sp = STP_RECV \/ step sp = STP_LOOKUP ->
  wp fine (include_loop esi n sp) (fun sp' => left sp' /\ esi_level sp' = esi_level sp /\ step sp' = STP_DONE).
Proof.
  revert sp. induction n as [|n IH]; intros sp He Hlev Hi Hu Hs; cbn [Center.include_loop]; [done|].
  eapply wp_bind_mono.
  { apply session_ok; [done|by destruct Hs as [Hs|Hs]; cbn; rewrite Hs|done|done|]. right. split; [done|].
    unfold enough. pose proof (measure_nonneg _ Hi). assert (measure max_restarts (set_wrk sp true) < 20 * max_restarts + 20); [|lia].
    destruct Hi as [_ Hi]. unfold at_step in Hi. unfold measure. cbn [step restarts set_wrk] in *.
    destruct Hs as [Hs|Hs]; rewrite Hs in *; unfold tries in Hi; cbn in *; destruct_and?; lia. }
  intros sp' [Hl Hlev']. cbn [esi_level set_wrk] in Hlev'. destruct (bool_decide_reflect (step sp' = STP_DONE)) as [E|E]; [done|].
  assert (Hw := Hl). unfold CenterInv.left in Hw. destruct Hw as (Hb & Hf & Hh & Hun & _ & Hsc & Hwf & Hws & Hvr & Hge & Hre & Hst).
  destruct (step sp') eqn:Es; try done.
  { destruct Hst as (_ & _ & _ & Hst). rewrite Hlev' in Hst. apply Z.ltb_lt in Hlev. rewrite Hlev in Hst. naive_solver. }
  destruct Hst as (Hwk & Hho & Hsw & Hv & Hd & Ht & Hsb & Hp). rewrite Hlev' in Hp. rewrite (proj2 (Z.eqb_neq _ 0)) in Hp by lia.
  rewrite Hwk. cbn [negb passert mbind prog_bind]. eapply wp_mono.
  - apply IH; [by rewrite Hlev'|lia| |done|by right]. split; unfold quiet, at_step; cbn; rewrite Es.
    + by repeat split.
    + repeat split; try done; try (by apply Hb || by apply Hf || by apply Hh || by apply Ht); congruence.
  - cbn. rewrite Hlev'. done.
Qed.

Lemma ved_include_ok esi sp : delivering sp -> (esi_level sp < max_esi_depth -> delivers esi (esi_level sp + 1)) ->
  wp fine (ved_include esi sp) (delivered sp).
Proof.
  intros Hd He. unfold Center.ved_include. destruct (Z.leb_spec max_esi_depth (esi_level sp)) as [|Hlt]; [done|].
  specialize (He Hlt). unfold WRW_FlushRelease. unfold delivering in Hd.
  destruct Hd as (Hw & Hp & Hs & Hf & Hws & Hvr & Hge & Hoc & Hv & Hnl & Hr & Hvc & Hh & Hnf & Hre & Hdi).
  cbn [wk set_esi_level]. rewrite Hf. cbn [passert mbind prog_bind wp]. intros e _. cbn [mret prog_ret wp]. intros n _.
  apply wp_bind. eapply wp_mono.
  { apply include_loop_ok; cbn; [done|lia| |done|by left]. split; unfold quiet, at_step; cbn.
    - repeat split; (done || lia).
    - repeat split; try done; try (by apply Hnf || by apply Hh || by apply Hnl); lia. }
  cbn. intros sp' (Hl & Hlev & Hst). unfold CenterInv.left in Hl. rewrite Hst in Hl.
  destruct Hl as (Hb & Hf' & Hh' & Hun & _ & Hsc & Hwf & Hws' & Hvr' & Hge' & _ & Hnl' & Hre' & Hdi' & Hl).
  rewrite (proj2 (Z.ltb_lt _ _)) in Hl by lia. destruct Hl as (Hw' & Hp' & _ & Hr' & Hvc').
  rewrite Hw', Hst, Hwf. cbn. unfold delivered, delivering. cbn.
  repeat split; try done; try (by apply Hb || by apply Hf' || by apply Hh' || by apply Hnl'); cbn; lia.
Qed.

Lemma delivered_trans s1 s2 s3 : delivered s1 s2 -> delivered s2 s3 -> delivered s1 s3.
Proof. intros (_ & E1 & E2) (H & E3 & E4). split; [done|]. by rewrite E3, E4. Qed.

Lemma includes_ok esi n sp : delivering sp -> (esi_level sp < max_esi_depth -> delivers esi (esi_level sp + 1)) ->
  wp fine (includes esi n sp) (delivered sp).
Proof.
  revert sp. induction n as [|n IH]; intros sp Hd He; cbn [Center.includes]; [done|].
  cbn [wp]. intros [|] _; [exact (conj Hd (conj eq_refl eq_refl))|].
  eapply wp_bind_mono; [by apply ved_include_ok|]. intros sp' Hd'. eapply wp_mono; [apply IH|].
  - apply Hd'.
  - by rewrite (proj2 (proj2 Hd')).
  - intros r. by apply delivered_trans.
Qed.

Lemma ESI_Deliver_ok d level : max_esi_depth - level + 1 <= Z.of_nat d -> (1 <= d)%nat -> delivers (ESI_Deliver d) level.
Proof.
  revert level. induction d as [|d IH]; intros level Hd H1 sp Hdel <-; [lia|]. cbn [Center.ESI_Deliver wp]. intros n _.
  eapply wp_mono.
  - apply includes_ok; [done|]. cbn. intros Hlt. apply IH; lia.
  - intros r Hr. exact Hr.
Qed.

Lemma ESI_Deliver_depth level : 0 <= level -> delivers (ESI_Deliver (depth max_esi_depth)) level.
Proof. intros Hl. apply ESI_Deliver_ok; unfold depth; lia. Qed.

(** ** Sessions and workers *)

#[local] Notation wrk_do_cnt_sess := (wrk_do_cnt_sess session_linger max_restarts http_gzip_support max_esi_depth).

(** A worker that nothing is left on. *)
Definition clean (w : worker) : Prop :=
  wvfp w = None /\ h_content_length w = false /\ do_close w = false /\ storage_hint w = false /\
  bereq w = false /\ beresp w = false /\ resp w = false /\ sctx w = false /\ wfd w = false /\ w_ws w = false /\
  acct_tmp w = false /\ do_esi w = false /\ do_gzip w = false /\ do_gunzip w = false /\ is_gzip w = false /\
  is_gunzip w = false /\ do_stream w = false /\ vgz_rx w = false.

Definition with_worker (sp : sess) (w : worker) : sess := on_wk sp (fun _ => w).

(** A session as [SES_New] makes it. *)
Definition new_session (w : worker) : sess :=
  mkSess STP_FIRST true 0 0 0 false false None None None RET_ERROR 0 false false false false false false false
    false false false false Nowhere w.

(** The sessions that are given to workers: new ones; those whose lookup waited, when
    they are rescheduled; and those the acceptor has got another request for. *)
Inductive scheduled : sess -> Prop :=
  | sched_new w : clean w -> scheduled (new_session w)
  | sched_waited n sp sp' w : scheduled sp -> outcome fine (wrk_do_cnt_sess n sp) (Ok sp') ->
      place sp' = OnWaitingList -> clean w -> scheduled (with_worker sp' w)
  | sched_request n sp sp' w : scheduled sp -> outcome fine (wrk_do_cnt_sess n sp) (Ok sp') ->
      place sp' = WithAcceptor -> clean w -> scheduled (set_step (set_ws (with_worker sp' w) false) STP_START).

Definition at_work (sp : sess) : sess := set_place (set_wrk (set_storage_hint sp false) true) WithWorker.

Lemma left_clean sp : left sp -> esi_level sp = 0 -> clean (wk sp).
Proof.
  intros (_ & (? & ? & ? & ?) & (? & ?) & Hu & ? & ? & ? & ? & ? & _ & Hr & _) E. rewrite E in Hr. destruct Hr as [?|Hr]; [|lia].
  unfold unflagged in Hu. repeat apply andb_prop in Hu as [Hu ?]. apply negb_true_iff in Hu.
  repeat match goal with H : negb _ = true |- _ => apply negb_true_iff in H end. by repeat split.
Qed.

Lemma clean_unflagged sp : clean (wk sp) -> unflagged sp = true.
Proof. intros H. unfold clean in H. destruct_and?. unfold unflagged. by repeat match goal with H : _ = false |- _ => rewrite H; clear H end. Qed.

(** A worker runs a session whose worker is clean and that can enter. *)
Lemma work_ok n sp : wrk sp = false -> esi_level sp = 0 -> entrance (step sp) = true -> clean (wk sp) -> inv (at_work sp) ->
  wp fine (wrk_do_cnt_sess n sp) (fun sp' => left sp' /\ esi_level sp' = 0).
Proof.
  intros Hw Hl He Hc Hi. unfold Center.wrk_do_cnt_sess. cbn [wrk set_storage_hint on_wk]. rewrite Hw. cbn [negb passert mbind prog_bind].
  eapply wp_bind_mono.
  { apply (session_ok Forever (ESI_Deliver (depth max_esi_depth)) n (at_work sp)); [done|done| | |by left].
    - apply (clean_unflagged sp Hc).
    - apply ESI_Deliver_depth. cbn. lia. }
  intros sp' [Hleft Hlev]. cbn in Hlev. rewrite Hl in Hlev. pose proof (left_clean _ Hleft Hlev) as Hcl. unfold clean in Hcl.
  destruct Hcl as (_ & _ & _ & -> & -> & -> & -> & _ & -> & _). by cbn.
Qed.

Lemma scheduled_ok sp : scheduled sp ->
  wrk sp = false /\ esi_level sp = 0 /\ entrance (step sp) = true /\ clean (wk sp) /\ inv (at_work sp).
Proof.
  assert (Hn : forall n sp sp', wrk sp = false /\ esi_level sp = 0 /\ entrance (step sp) = true /\ clean (wk sp) /\ inv (at_work sp) ->
    outcome fine (wrk_do_cnt_sess n sp) (Ok sp') -> left sp' /\ esi_level sp' = 0).
  { intros n s s' (Hw & Hl & He & Hc & Hi) Ho.
    destruct (proj1 (wp_outcome _ _ _) (work_ok n s Hw Hl He Hc Hi) _ Ho) as (r & [= ->] & Hr). done. }
  induction 1 as [w Hc|n sp sp' w Hs IH Ho Hp Hc|n sp sp' w Hs IH Ho Hp Hc].
  - split_and!; try done. split; unfold quiet, at_step, resting, bare, no_fetch, https, no_lookup; cbn.
    + unfold clean in Hc. destruct_and?. split_and!; (done || by left).
    + pose proof (clean_unflagged (new_session w) Hc). unfold clean in Hc. destruct_and?. by split_and!.
  - destruct (Hn n sp sp' IH Ho) as [Hl Hlev]. unfold CenterInv.left in Hl. destruct Hl as (Hb & _ & _ & _ & _ & _ & _ & _ & _ & _ & _ & Hst).
    destruct (step sp') eqn:E; try done.
    1, 3: rewrite Hlev, Hp in Hst; by destruct Hst as (_ & _ & _ & _ & _ & []).
    destruct Hst as (Hw & Hh & Hws & Hv & Hd & Ht & Hsb & _).
    pose proof (clean_unflagged (with_worker sp' w) Hc) as Hu. unfold clean in Hc. destruct_and?.
    split_and!; try done. { cbn. by rewrite E. }
    split; unfold quiet, at_step, no_fetch, https; cbn; rewrite ?E.
    + split_and!; try done; try lia. by left.
    + split_and!; try done; try (by apply Hb || by apply Ht); congruence.
  - destruct (Hn n sp sp' IH Ho) as [Hl Hlev]. unfold CenterInv.left in Hl. destruct Hl as (Hb & _ & _ & _ & _ & _ & _ & _ & _ & _ & _ & Hst).
    rewrite Hlev in Hst. destruct (step sp') eqn:E; try done.
    2: { rewrite Hp in Hst. by destruct Hst as (_ & _ & _ & _ & _ & _ & _ & ?). }
    all: rewrite Hp in Hst; destruct Hst as (Hnl & Hr & Hd & Hw & Hv & Hfd & Hws & Hx).
    all: pose proof (clean_unflagged (with_worker sp' w) Hc) as Hu; unfold clean in Hc; destruct_and?.
    all: split_and!; try done.
    all: split; unfold quiet, at_step, resting, no_fetch, https; cbn; split_and!; try done; try lia; try (by left).
    all: by apply Hb || by apply Hnl.
Qed.

End Engine.

End CenterThm.
