(* ===== verification/CenterProp.v ===== *)
(** The session state machine: what its workers do with sessions, and what stops them. *)
From S2P Require Import Prelude CenterState Center CenterInv CenterSteps CenterThm.
Import CenterState Center CenterInv CenterSteps CenterThm.

Module CenterProp.

(** ** Runs with given answers *)

Fixpoint play {R} (f : forall q, answer q) (p : prog R) : option (list {q & answer q} * res R) :=
  match p with
  | Ret r => Some ([], Ok r)
  | Stop e => Some ([], Fail e)
  | Forever => None
  | Ask q k => '(tr, o) ← play f (k (f q)); Some (existT q (f q) :: tr, o)
  end.

Lemma play_run {R} (ok : forall q, answer q -> Prop) f (p : prog R) tr o : (forall q, ok q (f q)) -> play f p = Some (tr, o) -> run ok p tr o.
Proof.
  intros Hf. revert tr. induction p as [r|e| |q k IH]; cbn; intros tr E; simplify_eq.
  - apply run_ret.
  - apply run_stop.
  - destruct (play f (k (f q))) as [[tr' o']|] eqn:Ek; [|done]. cbn in E. simplify_eq. apply run_ask; [apply Hf|by apply (IH (f q))].
Qed.

Definition played {R} (d : R) (r : option (list {q & answer q} * res R)) : list {q & answer q} * R :=
  match r with Some (tr, Ok r) => (tr, r) | _ => ([], d) end.

(** One GET request whose response is not in the cache, on a connection that is closed
    after it, all well. *)
Definition usual (m : vcl_method) : vcl_ret :=
  match m with
  | M_recv => RET_LOOKUP | M_pipe => RET_PIPE | M_pass => RET_PASS | M_hash => RET_HASH | M_miss => RET_FETCH
  | M_hit | M_fetch | M_deliver | M_error => RET_DELIVER
  end.
Definition says (r : vcl_ret) : vcl_answer := mkVcl r None true false false false false false false false false.

Definition all_well (q : question) : answer q :=
  match q with
  | Q_complete => true | Q_poll => true | Q_rx _ => 1 | Q_rx_more => 1 | Q_rxbuf => false | Q_nonblocking => false
  | Q_xid => 1001 | Q_dissect => 0 | Q_connection => true | Q_expect => None | Q_gzip => false | Q_head => false
  | Q_protover => true | Q_cond => false | Q_vcl m _ => says (usual m) | Q_lookup _ => LMiss false | Q_deref _ => 0
  | Q_alloc _ _ => true | Q_getfd => Some false | Q_reqbody => (0, false) | Q_flush => false | Q_dissect_response => false
  | Q_status => 200 | Q_body => (true, BS_LENGTH) | Q_encoding => CE_none | Q_vary => None | Q_shortlived => false
  | Q_receive _ _ => Some (0, false, false) | Q_vfp_end _ => 0 | Q_includes => 0%nat | Q_turns => 0%nat
  end.

Lemma all_well_fine q : fine q (all_well q).
Proof.
  destruct q as [| |sp| | | | | | | | | | | |m sp|sp| |sp l| | | | | | | | | |b v|v| |]; try done; try (split; cbn; done || lia).
  - split; [cbn; lia|]. unfold lucky. cbn. by rewrite andb_false_r.
  - split; [|by destruct m]. cbn. destruct m; cbn; set_solver.
  - split; [done|]. unfold lucky. cbn. by destruct l.
  - split; cbn; [by destruct v|done].
Qed.

(** No question is without a good answer. *)
Lemma fine_answers q : exists a, fine q a.
Proof. exists (all_well q). apply all_well_fine. Qed.

Section Properties.

Context (session_linger : bool) (max_restarts : Z) (http_gzip_support : bool) (max_esi_depth : Z) (Hmax : 0 <= max_restarts).

#[local] Notation inv := (inv max_restarts).
#[local] Notation left := (left max_restarts).
#[local] Notation scheduled := (scheduled session_linger max_restarts http_gzip_support max_esi_depth).
#[local] Notation wrk_do_cnt_sess := (wrk_do_cnt_sess session_linger max_restarts http_gzip_support max_esi_depth).
#[local] Notation cnt := (cnt session_linger max_restarts http_gzip_support).
#[local] Notation ESI_Deliver := (ESI_Deliver session_linger max_restarts http_gzip_support max_esi_depth).

Lemma run_fine {R} (p : prog R) tr o : run honest p tr o -> mishaps tr = [] -> outcome fine p o.
Proof. intros Hr Hm. by apply (run_outcome _ _ _ _ _ Hr), no_mishaps. Qed.


(** The turns until the request is done, [n] at most. *)
Fixpoint request (esi : sess -> prog sess) (n : nat) (sp : sess) : prog sess :=
  if bool_decide (step sp = STP_DONE) then mret sp else
  match n with
  | O => Stop FFuel
  | S n => '(sp, done) ← cnt esi sp; if (done : bool) then mret sp else request esi n sp
  end.

Lemma request_ok esi n sp : inv sp -> delivers esi (esi_level sp) -> measure max_restarts sp <= Z.of_nat n ->
  wp fine (request esi n sp) (fun sp' => step sp' = STP_DONE \/ left sp').
Proof.
  revert sp. induction n as [|n IH]; intros sp Hi He Hn; cbn [request]; destruct (bool_decide_reflect (step sp = STP_DONE)) as [E|E];
    try (by left).
  { exfalso. destruct Hi as [_ Hi]. unfold at_step, resting, tries in Hi. unfold measure, rank in Hn. destruct (step sp); try lia; destruct_and?; lia. }
  eapply wp_bind_mono; [by apply cnt_turn|]. intros [sp' [|]] [Hl Ht]; cbn in Hl, Ht; [by right|].
  destruct Ht as (Hi' & _ & [Hp|[Hp _]]); [|done]. apply IH; [done|by rewrite Hl|lia].
Qed.

(** C2. Unless one of the mishaps is among the answers, a request is done, or its lookup
    waits, or the session waits for input or is given up, after at most 20 turns for each
    restart that is allowed and 16 more, those of its includes not counted. *)
Theorem request_ends n sp tr o : scheduled sp -> 20 * max_restarts + 16 <= Z.of_nat n ->
  run honest (request (ESI_Deliver (depth max_esi_depth)) n (at_work sp)) tr o -> mishaps tr = [] ->
  exists sp', o = Ok sp' /\ (step sp' = STP_DONE \/ left sp').
Proof.
  intros Hs Hn Hr Hm. destruct (scheduled_ok _ _ _ _ Hmax _ Hs) as (Hw & Hl & He & Hc & Hi).
  refine (proj1 (wp_outcome _ _ _) _ _ (run_fine _ _ _ Hr Hm)). apply request_ok; [done|apply ESI_Deliver_depth; cbn; lia|].
  destruct Hi as [_ Hi]. unfold at_step, tries, resting in Hi. unfold measure, rank.
  cbn [step restarts at_work set_place set_wrk set_storage_hint on_wk] in *. destruct (step sp); try done; destruct_and?; cbn in *; lia.
Qed.


End Properties.

(** ** Framing *)

Definition framed (m : Z) : nat :=
  length (filter (fun f => has m f = true) [RES_LEN; RES_CHUNKED; RES_EOF]).

(** C14. A response to a client has exactly one of a length, chunks and the end of the
    connection for its body, and the last with the connection to be closed: the others
    keep it.  Without a body that is wanted, chunks and the end of the connection are
    never chosen. *)
Theorem mode_frames cl stream gz gu esi gunzip empty want http11 :
  let r := mode_of cl stream gz gu esi false gunzip empty want http11 in
  (want = true -> framed r.1 = 1%nat) /\
  (r.2 = has r.1 RES_EOF) /\
  (want = false -> has r.1 RES_EOF = false /\ has r.1 RES_CHUNKED = false) /\
  (has r.1 RES_LEN = true -> (cl = true \/ stream = false) /\ gz = false /\ gu = false /\ esi = false /\ gunzip = false \/
    empty = true /\ stream = false) /\
  (has r.1 RES_CHUNKED = true -> http11 = true) /\
  (has r.1 RES_ESI = esi) /\ (has r.1 RES_GUNZIP = gunzip).
Proof. destruct cl, stream, gz, gu, esi, gunzip, empty, want, http11; vm_compute; split_and!; try done; intros; try discriminate; tauto. Qed.

(** ** Mishaps *)

#[global] Instance mishap_eq_dec : EqDecision mishap.
Proof. solve_decision. Defined.

Definition recv_says (r : vcl_ret) (q : question) : answer q :=
  match q with Q_vcl M_recv _ => says r | q => all_well q end.
Definition fetch_says (esi stream gzip gunzip : bool) : vcl_answer := mkVcl RET_DELIVER None true false false false esi stream gzip gunzip false.

(** All well but for the mishap: no storage for the object of a fetch (nothing else is
    refused any), more input than the workspace takes, a compressor whose end fails, a
    method that returns what it may, [return (pipe)] in an include, a restart in
    [vcl_deliver] of a response that is compressed and streamed, and what a backend can send:
    a [Vary:] header that is too long, and a body that is said to be compressed and is not. *)
Definition with_mishap (m : mishap) (q : question) : answer q :=
  match m with
  | No_storage => match q with Q_alloc sp _ => negb (bool_decide (step sp = STP_FETCHBODY)) | q => all_well q end
  | Overflow => match q with Q_complete => false | Q_rx sp => if bool_decide (step sp = STP_WAIT) then -2 else 1 | q => all_well q end
  | Bad_vary => match q with Q_vary => Some false | q => all_well q end
  | Bad_body => match q with
      | Q_vcl M_fetch _ => fetch_says false false false true
      | Q_encoding => CE_gzip
      | Q_receive _ v => match v with vfp_gunzip => None | _ => Some (0, false, false) end
      | q => all_well q end
  | Bad_end => match q with
      | Q_vcl M_fetch _ => fetch_says false false true false
      | Q_vfp_end v => match v with vfp_gzip => -1 | _ => 0 end
      | q => all_well q end
  | Miss_restart => match q with Q_vcl M_miss _ => says RET_RESTART | q => all_well q end
  | Pass_restart => match q with Q_vcl M_pass _ => says RET_RESTART | q => recv_says RET_PASS q end
  | Pipe_error => match q with Q_vcl M_pipe _ => says RET_ERROR | q => recv_says RET_PIPE q end
  | Include_pipe => match q with
      | Q_vcl M_recv sp => says (if 0 <? esi_level sp then RET_PIPE else RET_LOOKUP)
      | Q_receive _ _ => Some (0, true, false) | Q_includes => 1%nat | Q_turns => 1%nat
      | q => all_well q end
  | Stream_restart => match q with
      | Q_vcl M_fetch _ => fetch_says false true true false
      | Q_vcl M_deliver sp => says (if restarts sp =? 0 then RET_RESTART else RET_DELIVER)
      | q => all_well q end
  end.

Definition new_worker : worker :=
  mkWorker false false false false false false false None false false false false false false 0 BS_NONE false false false false false false.

(** A session for a new worker, with the default parameters but for [session_linger]. *)
Definition first_work (linger : bool) (n : nat) : prog sess := wrk_do_cnt_sess linger 4 true 5 n (new_session new_worker).

Lemma mishap_honest m q : honest q (with_mishap m q).
Proof.
  destruct q as [| |sp| | | | | | | | | | | |vm sp|sp| |sp l| | | | | | | | | |b v|v| |]; try done; destruct m; cbn; try done; try lia;
    try (by case_bool_decide); try (destruct v; cbn; done || lia || by right); try (destruct vm; cbn; try (case_match; cbn); set_solver).
Qed.

(** Each of the mishaps stops the child: there is a run in which nothing else goes wrong
    that ends in a failed assertion. *)
Lemma mishaps_stop m : exists tr, run honest (first_work (bool_decide (m = Overflow)) 40) tr (Fail FAssert) /\ Forall (m =.) (mishaps tr) /\ mishaps tr <> [].
Proof.
  assert (H : exists tr, play (with_mishap m) (first_work (bool_decide (m = Overflow)) 40) = Some (tr, Fail FAssert) /\
    forallb (fun x => bool_decide (m = x)) (mishaps tr) = true /\ mishaps tr <> []).
  { by destruct m; vm_compute; eexists; split_and!. }
  destruct H as (tr & Hp & Hf & Hn). exists tr. split_and!; [|apply Forall_forall; intros x Hx|done].
  - apply (play_run honest (with_mishap m)); [apply mishap_honest|done].
  - rewrite forallb_forall in Hf. apply list_elem_of_In in Hx. by specialize (Hf x Hx); apply bool_decide_eq_true in Hf.
Qed.

(** When there is no storage at all the session is closed and deleted, and with it
    the reference to the busy object core of the lookup is lost: who waits for the object
    waits for ever. *)
Lemma no_storage_leaks : exists tr sp' c,
  run honest (first_work false 40) tr (Ok sp') /\ place sp' = Deleted /\ objcore sp' = Some c /\ c_busy c = true.
Proof.
  assert (H : exists tr sp' c, play (fun q => match q with Q_alloc _ _ => false | q => all_well q end) (first_work false 40) = Some (tr, Ok sp') /\
    place sp' = Deleted /\ objcore sp' = Some c /\ c_busy c = true) by (vm_compute; eauto 10).
  destruct H as (tr & sp' & c & Hp & Hq). exists tr, sp', c. split; [|exact Hq]. refine (play_run honest _ _ _ _ _ Hp).
  intros q. pose proof (proj1 (all_well_fine q)) as H. by destruct q.
Qed.

(** ** Witnesses *)

Lemma Ok_inj {A} (a b : A) : Ok a = Ok b -> a = b.
Proof. by intros [= ->]. Qed.

Lemma H4 : 0 <= 4.
Proof. done. Qed.

Lemma ex_sched : scheduled false 4 true 5 (new_session new_worker).
Proof. apply sched_new. by repeat split. Qed.

Lemma all_well_honest q : honest q (all_well q).
Proof. apply all_well_fine. Qed.




Definition ex_request : list {q & answer q} * sess := Eval vm_compute in
  played (new_session new_worker) (play all_well (request false 4 true (ESI_Deliver false 4 true 5 (depth 5)) 96 (at_work (new_session new_worker)))).

Lemma ex_request_run :
  run honest (request false 4 true (ESI_Deliver false 4 true 5 (depth 5)) 96 (at_work (new_session new_worker))) ex_request.1 (Ok ex_request.2).
Proof. apply (play_run honest all_well); [apply all_well_honest|by vm_compute]. Qed.

Lemma request_ends_witness : step ex_request.2 = STP_DONE \/ CenterInv.left 4 ex_request.2.
Proof.
  destruct (request_ends false 4 true 5 H4 96 (new_session new_worker) ex_request.1 (Ok ex_request.2) ex_sched ltac:(done) ex_request_run
    ltac:(by vm_compute)) as (sp' & E & H).
  rewrite (Ok_inj _ _ E). exact H.
Defined.





End CenterProp.
