(* ===== verification/HttpConn.v ===== *)
(** Connections that speak HTTP: [bin/varnishd/cache_httpconn.c].

    [struct http_conn] is [http_conn].  What is between [rxbuf.b] and [rxbuf.e] is a list
    of octets beside the address of its begin, the NUL after it is checked to be inside
    the reservation of the workspace, and the pipelined input is a list, empty for NULL.
    What the peer sends is a list of what each [read] can find, and how it ends. *)
From S2P Require Import Prelude Ws.
Import Ws.

Module HttpConn.

Record http_conn := mkHtc {
  hws : ws; maxbytes : Z; rx_b : Z; rx : list Z; pipeline : list Z;
  segs : list (list Z); broken : bool;
}.

Definition set_hws (h : http_conn) w := mkHtc w (maxbytes h) (rx_b h) (rx h) (pipeline h) (segs h) (broken h).
Definition set_rx (h : http_conn) r := mkHtc (hws h) (maxbytes h) (rx_b h) r (pipeline h) (segs h) (broken h).
Definition set_pipeline (h : http_conn) p := mkHtc (hws h) (maxbytes h) (rx_b h) (rx h) p (segs h) (broken h).
Definition set_segs (h : http_conn) s := mkHtc (hws h) (maxbytes h) (rx_b h) (rx h) (pipeline h) s (broken h).

Definition rx_e (h : http_conn) : Z := rx_b h + Z.of_nat (length (rx h)).

(** [*rxbuf.e = '\0';] *)
Definition put_nul (h : http_conn) : res http_conn :=
  if rx_e h <? ws_r (hws h) then mret h else Fail FMemory.

(** [read(fd, p, len)], for [len > 0]: the octets and the result. *)
Definition sys_read (h : http_conn) (len : Z) : http_conn * list Z * Z :=
  match segs h with
  | [] => (h, [], if broken h then -1 else 0)
  | s :: ss =>
      let n := Z.to_nat len in
      let rest := drop n s in
      (set_segs h (match rest with [] => ss | _ => rest :: ss end), take n s, Z.of_nat (length (take n s)))
  end.

Definition isspace (c : Z) : bool := (c =? 32) || (9 <=? c) && (c <=? 13).

(** Pointers into a string are what is from there on, with the NUL. *)
Fixpoint skip_space (p : list Z) : res (list Z) :=
  match p with
  | [] => Fail FMemory
  | c :: q => if isspace c then skip_space q else mret p
  end.

Fixpoint strchr (p : list Z) (x : Z) : res (option (list Z)) :=
  match p with
  | [] => Fail FMemory
  | c :: q => if c =? x then mret (Some p) else if c =? 0 then mret None else strchr q x
  end.

Definition ptr_hd (p : list Z) : res Z := match p with [] => Fail FMemory | c :: _ => mret c end.

(** The loop for the end of an empty line. *)
Fixpoint line_loop (fuel : nat) (p : list Z) : res (option (list Z)) :=
  match fuel with
  | O => Fail FFuel
  | S fuel =>
      q ← strchr p 10;
      match q with
      | None => mret None
      | Some p =>
          let p := tail p in
          c ← ptr_hd p;
          let p := if c =? 13 then tail p else p in
          c ← ptr_hd p;
          if c =? 10 then mret (Some p) else line_loop fuel p
      end
  end.

(** What is left of the text, and the result. *)
Definition htc_header_complete (t : list Z) : res (list Z * Z) :=
  let b := t ++ [0] in
  p ← skip_space b;
  c ← ptr_hd p;
  if c =? 0 then mret ([], 0) else
  q ← line_loop (length b) p;
  match q with
  | None => mret (t, 0)
  | Some p => mret (t, Z.of_nat (length b) - Z.of_nat (length (tail p)))
  end.

Definition HTC_Complete (h : http_conn) : res (http_conn * Z) :=
  '(t, i) ← htc_header_complete (rx h);
  let h := set_rx h t in
  vassert (0 <=? i);;
  if i =? 0 then h ← put_nul h; mret (h, 0) else
  w ← WS_ReleaseP (hws h) (rx_e h);
  let h := set_hws h w in
  let h := if i <? Z.of_nat (length t) then set_rx (set_pipeline h (drop (Z.to_nat i) t)) (take (Z.to_nat i) t) else h in
  mret (h, 1).

Definition HTC_Init (w : ws) (maxbytes : Z) (input : list (list Z)) (broken : bool) : res http_conn :=
  '(w, _) ← WS_Reserve w maxbytes;
  put_nul (mkHtc w maxbytes (ws_f w) [] [] input broken).

Definition HTC_Reinit (h : http_conn) : res (http_conn * Z) :=
  '(w, _) ← WS_Reserve (hws h) (maxbytes h);
  let h := mkHtc w (maxbytes h) (ws_f w) (pipeline h) [] (segs h) (broken h) in
  h ← put_nul h;
  HTC_Complete h.

Definition HTC_Rx (h : http_conn) : res (http_conn * Z) :=
  vassert (truth (ws_r (hws h)));;
  let i := ws_r (hws h) - rx_e h - 1 in
  if i <=? 0 then w ← WS_ReleaseP (hws h) (rx_b h); mret (set_hws h w, -2) else
  let '(h, d, n) := sys_read h i in
  if n <=? 0 then w ← WS_ReleaseP (hws h) (rx_b h); mret (set_hws h w, -1) else
  h ← put_nul (set_rx h (rx h ++ d));
  HTC_Complete h.

(** The octets read, and the result. *)
Definition HTC_Read (h : http_conn) (len : Z) : http_conn * list Z * Z :=
  let d := take (Z.to_nat len) (pipeline h) in
  let l := Z.of_nat (length d) in
  let h := set_pipeline h (drop (Z.to_nat len) (pipeline h)) in
  if len - l =? 0 then (h, d, l) else
  let '(h, e, i) := sys_read h (len - l) in
  if i <? 0 then (h, d, i) else (h, d ++ e, i + l).

(** ** Receiving a message *)

(** [while (i == 0) i = HTC_Rx(htc);] *)
Fixpoint rx_loop (fuel : nat) (h : http_conn) (i : Z) : res (http_conn * Z) :=
  if negb (i =? 0) then mret (h, i) else
  match fuel with
  | O => Fail FFuel
  | S fuel => '(h, i) ← HTC_Rx h; rx_loop fuel h i
  end.

(** The middle of [FetchHdr]: the head of a response.  0, or -1 or [retry] for a failure. *)
Definition receive_response (fuel : nat) (w : ws) (http_resp_size : Z) (input : list (list Z)) (broken : bool) (retry : Z) : res (http_conn * Z) :=
  h ← HTC_Init w http_resp_size input broken;
  '(h, i) ← HTC_Rx h;
  if i <? 0 then mret (h, if i =? -1 then retry else -1) else
  '(h, i) ← rx_loop fuel h i;
  mret (h, if i <? 0 then -1 else 0).

(** The next request of a session, from what is pipelined and then from the peer. *)
Definition next_request (fuel : nat) (h : http_conn) : res (http_conn * Z) :=
  '(h, i) ← HTC_Reinit h;
  rx_loop fuel h i.

End HttpConn.
