(* ===== verification/Wrw.v ===== *)
(** Gathered writes with chunked encoding: [bin/varnishd/cache_wrw.c].

    [struct wrw] is [wrw].  An entry of the I/O vector is the octets it points to: who
    writes keeps them as they are until the next flush.  [wr_out] is what the connection
    has got, [wr_net] what the next calls of [writev] say: how many octets they take, or
    -1; after these they take all. *)
From S2P Require Import Prelude Mem.
Import Mem.

Module Wrw.

Record wrw := mkWrw {
  wfd : option bool;     (* NULL, or whether the descriptor is open *)
  werr : Z; iov : list (list Z); siov : nat; niov : nat; liov : Z; cliov : Z; ciov : nat;
  wr_out : list Z; wr_net : list Z;
}.

Definition set_wfd (w : wrw) v := mkWrw v (werr w) (iov w) (siov w) (niov w) (liov w) (cliov w) (ciov w) (wr_out w) (wr_net w).
Definition set_werr (w : wrw) v := mkWrw (wfd w) v (iov w) (siov w) (niov w) (liov w) (cliov w) (ciov w) (wr_out w) (wr_net w).
Definition set_niov (w : wrw) v := mkWrw (wfd w) (werr w) (iov w) (siov w) v (liov w) (cliov w) (ciov w) (wr_out w) (wr_net w).
Definition set_liov (w : wrw) v := mkWrw (wfd w) (werr w) (iov w) (siov w) (niov w) v (cliov w) (ciov w) (wr_out w) (wr_net w).
Definition set_cliov (w : wrw) v := mkWrw (wfd w) (werr w) (iov w) (siov w) (niov w) (liov w) v (ciov w) (wr_out w) (wr_net w).
Definition set_ciov (w : wrw) v := mkWrw (wfd w) (werr w) (iov w) (siov w) (niov w) (liov w) (cliov w) v (wr_out w) (wr_net w).

(** [wrw->iov[i] = d] *)
Definition put_iov (w : wrw) (i : nat) (d : list Z) : res wrw :=
  if (i <? siov w)%nat
  then mret (mkWrw (wfd w) (werr w) (<[i := d]> (iov w)) (siov w) (niov w) (liov w) (cliov w) (ciov w) (wr_out w) (wr_net w))
  else Fail FMemory.

Definition chunking (w : wrw) : bool := (ciov w <? siov w)%nat.

Definition fd_of (w : wrw) : res bool := match wfd w with Some o => mret o | None => Fail FAssert end.

(** [writev(fd, iov, niov)] *)
Definition writev (w : wrw) : wrw * Z :=
  let d := concat (take (niov w) (iov w)) in
  let '(i, net) := match wr_net w with [] => (Z.of_nat (length d), []) | i :: net => (i, net) end in
  (mkWrw (wfd w) (werr w) (iov w) (siov w) (niov w) (liov w) (cliov w) (ciov w) (wr_out w ++ take (Z.to_nat i) d) net, i).

Definition hex_digit (d : Z) : Z := if d <? 10 then 48 + d else 87 + d.

(** [%jx] of a positive number, least digit first. *)
Fixpoint hex_rev (fuel : nat) (n : Z) : list Z :=
  match fuel with
  | O => []
  | S fuel => if n <=? 0 then [] else hex_digit (n mod 16) :: hex_rev fuel (n / 16)
  end.
Definition hex (n : Z) : list Z := rev (hex_rev 16 n).

Definition crlf : list Z := [13; 10].
Definition chunk_head (n : Z) : list Z := [48; 48] ++ hex n ++ crlf.

(** The empty session of the writer. *)
Definition idle (w : wrw) : wrw := set_ciov (set_niov (set_liov (set_werr w 0) 0) 0%nat) (siov w).

Definition WRW_Reserve (w : wrw) (fd : bool) : res wrw :=
  match wfd w with
  | Some _ => Fail FAssert
  | None => mret (set_wfd (idle w) (Some fd))
  end.

Definition WRW_Release (w : wrw) : res wrw := fd_of w;; mret (set_wfd (idle w) None).

(** What is to be sent: with a chunk head in its slot and the end of the chunk. *)
Definition flush_out (w : wrw) : res wrw :=
  w ← (if chunking w && (0 <? cliov w) then
      let cbuf := chunk_head (cliov w) in
      w ← put_iov w (ciov w) cbuf;
      let w := set_liov w (liov w + Z.of_nat (length cbuf)) in
      w ← put_iov w (niov w) crlf;
      mret (set_liov (set_niov w (S (niov w))) (liov w + 2))
    else if chunking w then put_iov w (ciov w) []
    else mret w);
  let '(w, i) := writev w in
  mret (if i =? liov w then w else set_werr w (werr w + 1)).

Definition flush_reset (w : wrw) : wrw :=
  let w := set_niov (set_cliov (set_liov w 0) 0) 0%nat in
  if chunking w then set_ciov (set_niov w (S (niov w))) (niov w) else w.

Definition WRW_Flush (w : wrw) : res (wrw * bool) :=
  fd ← fd_of w;
  vassert (negb (chunking w) || (niov w <? siov w)%nat);;
  w ← (if fd && (0 <? liov w) && (werr w =? 0) then flush_out w else mret w);
  let w := flush_reset w in
  mret (w, truth (werr w)).

Definition WRW_FlushRelease (w : wrw) : res (wrw * bool) :=
  fd_of w;;
  '(w, u) ← WRW_Flush w;
  w ← WRW_Release w;
  mret (w, u).

(** [WRW_Write(w, ptr, len)]: [len] is an [int], and what is pointed to has that length
    or is a string for -1. *)
Definition WRW_Write (w : wrw) (d : list Z) : res (wrw * Z) :=
  let len := Z.of_nat (length d) in
  if 2 ^ 31 <=? len then Fail FMemory else
  fd ← fd_of w;
  if (len =? 0) || negb fd then mret (w, 0) else
  w ← (if (siov w - (if chunking w then 1 else 0) <=? niov w)%nat then '(w, _) ← WRW_Flush w; mret w else mret w);
  w ← put_iov w (niov w) d;
  let w := set_niov (set_liov w (liov w + len)) (S (niov w)) in
  if chunking w then vassert (niov w <? siov w)%nat;; mret (set_cliov w (cliov w + len), len)
  else mret (w, len).

Definition WRW_Chunked (w : wrw) : res wrw :=
  vassert (ciov w =? siov w)%nat;;
  w ← (if (siov w <=? niov w + 3)%nat then '(w, _) ← WRW_Flush w; mret w else mret w);
  let w := set_cliov (set_ciov (set_niov w (S (niov w))) (niov w)) 0 in
  vassert (chunking w);;
  vassert (niov w <? siov w)%nat;;
  mret w.

Definition WRW_EndChunk (w : wrw) : res wrw :=
  vassert (chunking w);;
  '(w, _) ← WRW_Flush w;
  let w := set_cliov (set_niov (set_ciov w (siov w)) 0%nat) 0 in
  '(w, _) ← WRW_Write w (str "0" ++ crlf ++ crlf);
  mret w.

(** [WRW_WriteH] *)
Definition WRW_WriteH (w : wrw) (h suf : list Z) : res (wrw * Z) :=
  '(w, u) ← WRW_Write w h;
  '(w, v) ← WRW_Write w suf;
  mret (w, u + v).

End Wrw.
