(* ===== verification/WrwThm.v ===== *)
(** Gathered writes: what has been given to the writer is what the connection gets. *)
From S2P Require Import Prelude Mem Wrw.
Import Mem Wrw.

Module WrwThm.

#[local] Arguments chunk_head : simpl never.
#[local] Arguments crlf : simpl never.

(** A chunk as it is sent; none is sent for nothing. *)
Definition chunk (d : list Z) : list Z :=
  match d with [] => [] | _ => chunk_head (Z.of_nat (length d)) ++ d ++ crlf end.

Definition last_chunk : list Z := str "0" ++ crlf ++ crlf.

(** The writer has [ds] to send. *)
Record plain (w : wrw) (ds : list (list Z)) : Prop := {
  pl_fd : wfd w = Some true;
  pl_iov : length (iov w) = siov w;
  pl_siov : (4 <= siov w)%nat;
  pl_ciov : ciov w = siov w;
  pl_take : take (niov w) (iov w) = ds;
  pl_niov : (niov w <= siov w)%nat;
  pl_liov : liov w = Z.of_nat (length (concat ds));
  pl_werr : 0 <= werr w;
}.

(** The writer has [hs] and a chunk of [ds] to send. *)
Record chunked (w : wrw) (hs ds : list (list Z)) : Prop := {
  ch_fd : wfd w = Some true;
  ch_iov : length (iov w) = siov w;
  ch_siov : (4 <= siov w)%nat;
  ch_ciov : ciov w = length hs;
  ch_take : exists x, take (niov w) (iov w) = hs ++ x :: ds;
  ch_niov : (niov w < siov w)%nat;
  ch_liov : liov w = Z.of_nat (length (concat hs)) + Z.of_nat (length (concat ds));
  ch_cliov : cliov w = Z.of_nat (length (concat ds));
  ch_werr : 0 <= werr w;
}.

(** What the connection got, as long as nothing went wrong. *)
Definition sent (w : wrw) (out : list Z) : Prop := werr w = 0 -> wr_out w = out.

Lemma take_put {A} (l : list A) i x : (i < length l)%nat -> take (S i) (<[i := x]> l) = take i l ++ [x].
Proof.
  intros Hi. assert (E : <[i := x]> l !! i = Some x) by by apply list_lookup_insert_eq.
  rewrite (take_S_r _ _ _ E). by rewrite take_insert_ge by lia.
Qed.

Lemma take_put_mid {A} (hs ds : list A) x y n l : take n l = hs ++ x :: ds -> (n <= length l)%nat ->
  take n (<[length hs := y]> l) = hs ++ y :: ds.
Proof.
  intros E Hn. assert (Hlen : length (hs ++ x :: ds) = n) by (rewrite <- E, length_take; lia).
  rewrite length_app in Hlen. cbn in Hlen. rewrite take_insert_lt, E by lia.
  by rewrite insert_app_r_alt, Nat.sub_diag by lia.
Qed.

Lemma put_iov_ok w i d : (i < siov w)%nat -> put_iov w i d =
  Ok (mkWrw (wfd w) (werr w) (<[i := d]> (iov w)) (siov w) (niov w) (liov w) (cliov w) (ciov w) (wr_out w) (wr_net w)).
Proof. intros Hi. unfold put_iov. by rewrite (proj2 (Nat.ltb_lt _ _) Hi). Qed.

(** [writev] either takes all or is taken for an error. *)
Lemma writev_cases w d : concat (take (niov w) (iov w)) = d -> liov w = Z.of_nat (length d) ->
  exists out net i, writev w = (mkWrw (wfd w) (werr w) (iov w) (siov w) (niov w) (liov w) (cliov w) (ciov w) out net, i) /\
    (i = liov w -> out = wr_out w ++ d).
Proof.
  intros Hd Hl. unfold writev. rewrite Hd. destruct (wr_net w) as [|i net]; do 3 eexists; (split; [reflexivity|]).
  - intros _. by rewrite Nat2Z.id, firstn_all.
  - intros ->. by rewrite Hl, Nat2Z.id, firstn_all.
Qed.

Lemma plain_chunking w ds : plain w ds -> chunking w = false.
Proof. intros H. unfold chunking. rewrite (pl_ciov _ _ H). apply Nat.ltb_irrefl. Qed.

Lemma chunked_niov w hs ds : chunked w hs ds -> niov w = (length hs + 1 + length ds)%nat.
Proof.
  intros H. destruct (ch_take _ _ _ H) as [x E]. pose proof (ch_niov _ _ _ H). pose proof (ch_iov _ _ _ H).
  apply (f_equal length) in E. rewrite length_take, length_app in E. cbn in E. lia.
Qed.

Lemma chunked_chunking w hs ds : chunked w hs ds -> chunking w = true.
Proof.
  intros H. unfold chunking. rewrite (ch_ciov _ _ _ H). apply Nat.ltb_lt.
  pose proof (ch_niov _ _ _ H). pose proof (chunked_niov _ _ _ H). lia.
Qed.

Lemma flush_reset_plain w ds : plain w ds -> plain (flush_reset w) [] /\ siov (flush_reset w) = siov w /\
  werr (flush_reset w) = werr w /\ wr_out (flush_reset w) = wr_out w.
Proof.
  intros H. pose proof (plain_chunking _ _ H) as Hc. unfold flush_reset, chunking in *. cbn [ciov siov set_niov set_cliov set_liov].
  rewrite Hc. destruct H. split; [|done]. constructor; cbn; try done; lia.
Qed.

(** A flush, given what it writes. *)
Lemma flush_plain w ds out : plain w ds -> sent w out -> exists w', WRW_Flush w = Ok (w', truth (werr w')) /\ plain w' [] /\
  sent w' (out ++ concat ds) /\ siov w' = siov w.
Proof.
  intros H Hout. pose proof (plain_chunking _ _ H) as Hc. unfold WRW_Flush, fd_of. rewrite (pl_fd _ _ H), Hc.
  cbn [orb negb vassert mbind res_bind mret res_ret andb].
  assert (Hr : forall w2, plain w2 ds -> siov w2 = siov w -> sent w2 (out ++ concat ds) ->
    exists w', Ok (flush_reset w2, truth (werr (flush_reset w2))) = Ok (w', truth (werr w')) /\ plain w' [] /\
      sent w' (out ++ concat ds) /\ siov w' = siov w).
  { intros w2 H2 Es Ho. destruct (flush_reset_plain _ _ H2) as (H3 & Es3 & Ee & Eo). eexists. split; [reflexivity|].
    split_and!; [done| |by rewrite Es3]. unfold sent. by rewrite Ee, Eo. }
  destruct (Z.ltb_spec 0 (liov w)) as [Hlt|Hle]; cbn [andb].
  2: { apply Hr; try done. intros E. rewrite (Hout E). pose proof (pl_liov _ _ H).
    destruct (concat ds); [by rewrite app_nil_r|cbn in *; lia]. }
  destruct (Z.eqb_spec (werr w) 0) as [E0|E0]; [|apply Hr; [done|done|by intros E]].
  unfold flush_out. rewrite Hc. cbn [andb mbind res_bind mret res_ret].
  destruct (writev_cases w (concat ds)) as (o & net & i & -> & Hi); [by rewrite (pl_take _ _ H)|apply H|].
  cbn [liov]. destruct (Z.eqb_spec i (liov w)) as [Ei|Ei]; destruct H; apply Hr; try done.
  - intros _. cbn. rewrite (Hi Ei). by rewrite (Hout E0).
  - constructor; cbn; try done; lia.
  - intros E. cbn in E. lia.
Qed.

(** What a flush needs of a chunked writer, and leaves as it is. *)
Record chunk_writer (w : wrw) : Prop := {
  cw_fd : wfd w = Some true;
  cw_iov : length (iov w) = siov w;
  cw_siov : (4 <= siov w)%nat;
  cw_ciov : (ciov w < siov w)%nat;
  cw_werr : 0 <= werr w;
}.

Lemma chunked_writer w hs ds : chunked w hs ds -> chunk_writer w.
Proof.
  intros H. pose proof (chunked_niov _ _ _ H). pose proof (ch_niov _ _ _ H). destruct H. constructor; try done; lia.
Qed.

Lemma flush_reset_chunked w : chunk_writer w -> chunked (flush_reset w) [] [] /\ siov (flush_reset w) = siov w /\
  werr (flush_reset w) = werr w /\ wr_out (flush_reset w) = wr_out w.
Proof.
  intros [Hf Hi Hs Hc He]. unfold flush_reset, chunking. cbn [ciov siov set_niov set_cliov set_liov].
  rewrite (proj2 (Nat.ltb_lt _ _) Hc). split; [|done]. constructor; cbn; try done; try lia.
  destruct (iov w) as [|x l]; [cbn in *; lia|]. by exists x.
Qed.

Lemma chunk_length d : d <> [] -> Z.of_nat (length (chunk_head (Z.of_nat (length d)))) + Z.of_nat (length d) + 2 = Z.of_nat (length (chunk d)).
Proof. intros Hd. unfold chunk. destruct d; [done|]. rewrite !length_app. change (length crlf) with 2%nat. lia. Qed.

Lemma flush_chunked w hs ds out : chunked w hs ds -> sent w out -> exists w', WRW_Flush w = Ok (w', truth (werr w')) /\ chunked w' [] [] /\
  sent w' (out ++ concat hs ++ chunk (concat ds)) /\ siov w' = siov w.
Proof.
  intros H Hout. pose proof (chunked_chunking _ _ _ H) as Hc. pose proof (chunked_niov _ _ _ H) as Hnl.
  unfold WRW_Flush, fd_of. rewrite (ch_fd _ _ _ H), Hc.
  rewrite (proj2 (Nat.ltb_lt _ _) (ch_niov _ _ _ H)). cbn [orb negb vassert mbind res_bind mret res_ret andb].
  assert (Hr : forall w2, chunk_writer w2 -> siov w2 = siov w -> sent w2 (out ++ concat hs ++ chunk (concat ds)) ->
    exists w', Ok (flush_reset w2, truth (werr (flush_reset w2))) = Ok (w', truth (werr w')) /\ chunked w' [] [] /\
      sent w' (out ++ concat hs ++ chunk (concat ds)) /\ siov w' = siov w).
  { intros w2 H2 Es Ho. destruct (flush_reset_chunked _ H2) as (H3 & Es3 & Ee & Eo). eexists. split; [reflexivity|].
    split_and!; [done| |by rewrite Es3]. unfold sent. by rewrite Ee, Eo. }
  pose proof (chunked_writer _ _ _ H) as Hw. pose proof (ch_liov _ _ _ H) as Hl. pose proof (ch_cliov _ _ _ H) as Hcl.
  destruct (ch_take _ _ _ H) as [x Ht]. pose proof (ch_niov _ _ _ H) as Hn. pose proof (ch_ciov _ _ _ H) as Hci.
  destruct (Z.ltb_spec 0 (liov w)) as [Hlt|Hle]; cbn [andb].
  2: { apply Hr; try done. intros E. rewrite (Hout E). destruct (concat ds); [|cbn in *; lia]. destruct (concat hs); [|cbn in *; lia].
    by rewrite !app_nil_r. }
  destruct (Z.eqb_spec (werr w) 0) as [E0|E0]; [|apply Hr; [done|done|by intros E]].
  destruct Hw as [Hf Hi Hs Hcs He]. unfold flush_out. rewrite Hc. cbn [andb].
  destruct (Z.ltb_spec 0 (cliov w)) as [Hclt|Hcle]; cbv zeta.
  - rewrite put_iov_ok by done. cbn [mbind res_bind mret res_ret niov set_liov]. rewrite put_iov_ok by done.
    cbn [mbind res_bind mret res_ret niov set_niov set_liov liov cliov ciov siov iov werr wfd wr_out wr_net].
    assert (Hds : concat ds <> []) by (intros E; rewrite E in Hcl; cbn in Hcl; lia).
    pose proof (chunk_length _ Hds) as Hlen.
    match goal with |- context [writev ?w2] => destruct (writev_cases w2 (concat hs ++ chunk (concat ds))) as (o & net & i & -> & Hi2) end.
    { cbn. rewrite take_put by (rewrite length_insert; lia). rewrite Hci, (take_put_mid _ _ x _ _ _ Ht) by lia.
      rewrite !concat_app. cbn. rewrite ?app_nil_r. unfold chunk. destruct (concat ds) eqn:Ed; [done|]. by rewrite Hcl, <- !app_assoc. }
    { cbn. rewrite length_app, Hl, Hcl. lia. }
    cbn in Hi2. cbn [set_liov set_niov wfd werr iov siov niov liov cliov ciov wr_out wr_net].
    match goal with |- context [i =? ?y] => destruct (Z.eqb_spec i y) as [Ei|Ei] end; apply Hr; try (constructor; cbn; rewrite ?length_insert; done || lia); try done.
    + intros _. cbn. rewrite (Hi2 Ei). by rewrite (Hout E0).
    + intros E. cbn in E. lia.
  - rewrite put_iov_ok by done. cbn [mbind res_bind mret res_ret].
    assert (Hds : concat ds = []) by (destruct (concat ds); [done|cbn in Hcl; lia]).
    match goal with |- context [writev ?w2] => destruct (writev_cases w2 (concat hs)) as (o & net & i & -> & Hi2) end.
    { cbn. rewrite Hci, (take_put_mid _ _ x _ _ _ Ht) by lia. rewrite concat_app. cbn. by rewrite Hds, app_nil_r. }
    { cbn. rewrite Hl, Hds. cbn. lia. }
    cbn in Hi2. cbn [set_liov set_niov wfd werr iov siov niov liov cliov ciov wr_out wr_net].
    match goal with |- context [i =? ?y] => destruct (Z.eqb_spec i y) as [Ei|Ei] end; apply Hr; try (constructor; cbn; rewrite ?length_insert; done || lia); try done.
    + intros _. cbn. rewrite (Hi2 Ei), Hds. cbn. by rewrite app_nil_r, (Hout E0).
    + intros E. cbn in E. lia.
Qed.

(** ** Streams *)

Definition writing (w : wrw) (b : list Z) : Prop := exists out ds, plain w ds /\ sent w out /\ out ++ concat ds = b.

Definition streaming (w : wrw) (b data : list Z) : Prop := exists out hs ds cs,
  chunked w hs ds /\ sent w out /\ out ++ concat hs = b ++ concat (map chunk cs) /\ Forall (fun c => c <> []) cs /\
  concat cs ++ concat ds = data.

Definition ready (w : wrw) : Prop := wfd w = None /\ length (iov w) = siov w /\ (4 <= siov w)%nat.

Lemma reserve_ok w : ready w -> exists w', WRW_Reserve w true = Ok w' /\ writing w' (wr_out w) /\ siov w' = siov w.
Proof.
  intros (Hf & Hi & Hs). unfold WRW_Reserve. rewrite Hf. eexists. split; [reflexivity|]. split; [|done].
  exists (wr_out w), []. split_and!; [|done|by rewrite app_nil_r]. constructor; cbn; done || lia.
Qed.

Lemma flush_w w b : writing w b -> exists w', WRW_Flush w = Ok (w', truth (werr w')) /\ writing w' b /\ siov w' = siov w.
Proof.
  intros (out & ds & H & Hs & <-). destruct (flush_plain _ _ _ H Hs) as (w' & -> & H' & Hs' & Es). eexists. split; [reflexivity|].
  split; [|done]. exists (out ++ concat ds), []. split_and!; [done..|by rewrite app_nil_r].
Qed.

Lemma flush_s w b data : streaming w b data -> exists w', WRW_Flush w = Ok (w', truth (werr w')) /\ streaming w' b data /\ siov w' = siov w.
Proof.
  intros (out & hs & ds & cs & H & Hs & E & Hcs & <-). destruct (flush_chunked _ _ _ _ H Hs) as (w' & -> & H' & Hs' & Es).
  eexists. split; [reflexivity|]. split; [|done].
  exists (out ++ concat hs ++ chunk (concat ds)), [], [], (cs ++ match concat ds with [] => [] | _ => [concat ds] end).
  split_and!; [done..| | |].
  - rewrite app_assoc, E, map_app, concat_app, <- !app_assoc. cbn. rewrite app_nil_r. do 2 f_equal.
    destruct (concat ds); [done|]. cbn. by rewrite app_nil_r.
  - apply Forall_app. split; [done|]. destruct (concat ds); by repeat constructor.
  - rewrite concat_app. cbn. rewrite app_nil_r. f_equal. destruct (concat ds); cbn; by rewrite ?app_nil_r.
Qed.

(** An entry more. *)
Lemma plain_put w ds d : plain w ds -> (niov w < siov w)%nat ->
  exists w2, put_iov w (niov w) d = Ok w2 /\ plain (set_niov (set_liov w2 (liov w2 + Z.of_nat (length d))) (S (niov w2))) (ds ++ [d]) /\
    wr_out w2 = wr_out w /\ werr w2 = werr w /\ siov w2 = siov w /\ chunking w2 = chunking w.
Proof.
  intros [] Hn. rewrite put_iov_ok by done. eexists. split; [reflexivity|]. split; [|done].
  constructor; cbn; rewrite ?length_insert; try done; try lia.
  - rewrite take_put by lia. by rewrite pl_take0.
  - rewrite concat_app, length_app. cbn. rewrite app_nil_r. lia.
Qed.

Lemma write_w w b d : writing w b -> Z.of_nat (length d) < 2 ^ 31 ->
  exists w', WRW_Write w d = Ok (w', Z.of_nat (length d)) /\ writing w' (b ++ d) /\ siov w' = siov w.
Proof.
  intros Hw Hd. unfold WRW_Write. rewrite (proj2 (Z.leb_gt _ _) Hd). destruct Hw as (out & ds & H & Hs & <-).
  unfold fd_of. rewrite (pl_fd _ _ H). cbn [negb mbind res_bind mret res_ret]. rewrite orb_false_r.
  destruct (Z.eqb_spec (Z.of_nat (length d)) 0) as [E|E].
  { destruct d; [|done]. eexists. split; [reflexivity|]. split; [|done]. exists out, ds. by rewrite app_nil_r. }
  assert (Hpre : exists w1 out1 ds1, (if (siov w - (if chunking w then 1 else 0) <=? niov w)%nat then '(w, _) ← WRW_Flush w; mret w else mret w) = Ok w1 /\
    plain w1 ds1 /\ sent w1 out1 /\ out1 ++ concat ds1 = out ++ concat ds /\ siov w1 = siov w /\ (niov w1 < siov w1)%nat).
  { rewrite (plain_chunking _ _ H), Nat.sub_0_r. destruct (Nat.leb_spec (siov w) (niov w)).
    - destruct (flush_plain _ _ _ H Hs) as (w1 & -> & H1 & Hs1 & Es). exists w1, (out ++ concat ds), []. split_and!; try done.
      + by rewrite app_nil_r.
      + pose proof (pl_take _ _ H1) as Ht. apply (f_equal length) in Ht. rewrite length_take in Ht. cbn in Ht.
        pose proof (pl_iov _ _ H1). pose proof (pl_siov _ _ H1). lia.
    - by exists w, out, ds. }
  destruct Hpre as (w1 & out1 & ds1 & -> & H1 & Hs1 & E1 & Es1 & Hn1). cbn [mbind res_bind].
  destruct (plain_put _ _ d H1 Hn1) as (w2 & -> & H2 & Eo & Ee & Es & Ec). cbn [mbind res_bind].
  rewrite (plain_chunking _ _ H1) in Ec. unfold chunking in *. cbn [set_niov set_liov ciov siov]. rewrite Ec.
  eexists. split; [reflexivity|]. cbn [siov set_niov set_liov]. split; [|congruence]. exists out1, (ds1 ++ [d]). split_and!.
  - done.
  - unfold sent. cbn. by rewrite Eo, Ee.
  - rewrite concat_app, app_assoc, E1. cbn. by rewrite app_nil_r.
Qed.

Lemma write_s w b data d : streaming w b data -> Z.of_nat (length d) < 2 ^ 31 ->
  exists w', WRW_Write w d = Ok (w', Z.of_nat (length d)) /\ streaming w' b (data ++ d) /\ siov w' = siov w.
Proof.
  intros Hw Hd. unfold WRW_Write. rewrite (proj2 (Z.leb_gt _ _) Hd).
  assert (Hfd : wfd w = Some true /\ chunking w = true).
  { destruct Hw as (? & ? & ? & ? & H & _). split; [apply H|by eapply chunked_chunking]. }
  destruct Hfd as [Hfd Hc]. unfold fd_of. rewrite Hfd. cbn [negb mbind res_bind mret res_ret]. rewrite orb_false_r.
  destruct (Z.eqb_spec (Z.of_nat (length d)) 0) as [E|E].
  { destruct d; [|done]. eexists. split; [reflexivity|]. split; [|done]. by rewrite app_nil_r. }
  assert (Hpre : exists w1, (if (siov w - (if chunking w then 1 else 0) <=? niov w)%nat then '(w, _) ← WRW_Flush w; mret w else mret w) = Ok w1 /\
    streaming w1 b data /\ siov w1 = siov w /\ (S (niov w1) < siov w1)%nat).
  { rewrite Hc. destruct (Nat.leb_spec (siov w - 1) (niov w)) as [Hle|Hlt].
    - destruct Hw as (out & hs & ds & cs & H & Hs & Hb & Hcs & Hdt). destruct (flush_chunked _ _ _ _ H Hs) as (w1 & E1 & H1 & _).
      destruct (flush_s w b data) as (w1' & E1' & Hst & Es); [by exists out, hs, ds, cs|]. rewrite E1' in E1. injection E1 as ->.
      rewrite E1'. eexists. split; [reflexivity|]. split_and!; [done..|].
      rewrite (chunked_niov _ _ _ H1). pose proof (ch_siov _ _ _ H1). cbn. lia.
    - eexists. split; [reflexivity|]. split_and!; [done..|]. lia. }
  destruct Hpre as (w1 & -> & (out & hs & ds & cs & H & Hs & Hb & Hcs & Hdt) & Es & Hn). cbn [mbind res_bind].
  rewrite put_iov_ok by lia. cbn [mbind res_bind].
  pose proof (chunked_chunking _ _ _ H) as Hc1. unfold chunking in Hc1 |- *.
  cbn [set_niov set_liov set_cliov wfd werr iov siov niov liov cliov ciov wr_out wr_net]. rewrite Hc1.
  rewrite (proj2 (Nat.ltb_lt _ _) Hn). cbn [vassert mbind res_bind]. eexists. split; [reflexivity|]. split; [|done].
  destruct (ch_take _ _ _ H) as [x Ht]. exists out, hs, (ds ++ [d]), cs. split_and!; try done.
  - destruct H. constructor; cbn; rewrite ?length_insert; try done; try lia.
    + exists x. rewrite take_put by lia. rewrite Ht. by rewrite <- app_assoc.
    + rewrite concat_app, length_app. cbn. rewrite app_nil_r. lia.
    + rewrite concat_app, length_app. cbn. rewrite app_nil_r. lia.
  - rewrite concat_app, app_assoc, Hdt. cbn. by rewrite app_nil_r.
Qed.

Lemma chunked_w w b : writing w b -> exists w', WRW_Chunked w = Ok w' /\ streaming w' b [] /\ siov w' = siov w.
Proof.
  intros Hw. unfold WRW_Chunked.
  assert (Hci : ciov w = siov w) by (destruct Hw as (? & ? & H & _); apply H). rewrite Hci, Nat.eqb_refl. cbn [vassert mbind res_bind].
  assert (Hpre : exists w1 out1 ds1, (if (siov w <=? niov w + 3)%nat then '(w, _) ← WRW_Flush w; mret w else mret w) = Ok w1 /\
    plain w1 ds1 /\ sent w1 out1 /\ out1 ++ concat ds1 = b /\ siov w1 = siov w /\ (niov w1 + 3 < siov w1 \/ niov w1 = 0)%nat).
  { destruct Hw as (out & ds & H & Hs & <-). destruct (Nat.leb_spec (siov w) (niov w + 3)).
    - destruct (flush_plain _ _ _ H Hs) as (w1 & -> & H1 & Hs1 & Es). exists w1, (out ++ concat ds), []. split_and!; try done.
      + by rewrite app_nil_r.
      + right. pose proof (pl_take _ _ H1) as Ht. apply (f_equal length) in Ht. rewrite length_take in Ht. cbn in Ht.
        pose proof (pl_iov _ _ H1). pose proof (pl_siov _ _ H1). lia.
    - exists w, out, ds. split_and!; try done. by left. }
  destruct Hpre as (w1 & out & ds & -> & H & Hs & Hb & Es & Hn). cbn [mbind res_bind].
  pose proof (pl_siov _ _ H). unfold chunking. cbn [set_cliov set_ciov set_niov niov ciov siov].
  rewrite (proj2 (Nat.ltb_lt (niov w1) (siov w1))) by lia. rewrite (proj2 (Nat.ltb_lt (S (niov w1)) (siov w1))) by lia.
  cbn [vassert mbind res_bind]. eexists. split; [reflexivity|]. split; [|done]. exists out, ds, [], [].
  pose proof (pl_iov _ _ H) as Hi. pose proof (pl_take _ _ H) as Ht.
  destruct (lookup_lt_is_Some_2 (iov w1) (niov w1)) as [x Hx]; [lia|].
  split_and!; try done; [|by cbn; rewrite app_nil_r].
  destruct H. constructor; cbn; try done; try lia.
  - apply (f_equal length) in Ht. rewrite length_take in Ht. lia.
  - exists x. rewrite (take_S_r _ _ _ Hx). by rewrite Ht.
Qed.

Lemma end_s w b data : streaming w b data -> exists w' cs, WRW_EndChunk w = Ok w' /\ Forall (fun c => c <> []) cs /\ concat cs = data /\
  writing w' (b ++ concat (map chunk cs) ++ last_chunk) /\ siov w' = siov w.
Proof.
  intros Hw. unfold WRW_EndChunk.
  assert (Hc : chunking w = true) by (destruct Hw as (? & ? & ? & ? & H & _); by eapply chunked_chunking).
  rewrite Hc. cbn [vassert mbind res_bind].
  destruct Hw as (out & hs & ds & cs & H & Hs & Hb & Hcs & Hdt). destruct (flush_chunked _ _ _ _ H Hs) as (w1 & E1 & H1 & Hs1 & Es1).
  destruct (flush_s w b data) as (w1' & E1' & (out2 & hs2 & ds2 & cs2 & H2 & Hs2 & Hb2 & Hcs2 & Hd2) & Es); [by exists out, hs, ds, cs|].
  rewrite E1' in E1. injection E1 as ->. rewrite E1'. cbn [mbind res_bind].
  assert (Hnil : hs2 = [] /\ ds2 = []).
  { pose proof (chunked_niov _ _ _ H1) as N1. pose proof (chunked_niov _ _ _ H2) as N2. pose proof (ch_ciov _ _ _ H1) as C1.
    pose proof (ch_ciov _ _ _ H2) as C2. rewrite C2 in C1. cbn in C1, N1. destruct hs2; [|done]. destruct ds2; [done|]. cbn in N2. lia. }
  destruct Hnil as [-> ->]. cbn in Hb2, Hd2. rewrite app_nil_r in Hb2, Hd2.
  assert (Hpl : plain (set_cliov (set_niov (set_ciov w1 (siov w1)) 0) 0) []).
  { destruct H1. constructor; cbn; try done; try lia. }
  destruct (write_w (set_cliov (set_niov (set_ciov w1 (siov w1)) 0) 0) out2 (str "0" ++ crlf ++ crlf)) as (w3 & -> & Hw3 & Es3).
  { exists out2, []. split_and!; [done|exact Hs2|by rewrite app_nil_r]. }
  { done. }
  cbn [mbind res_bind]. exists w3, cs2. split_and!; try done; [|by rewrite Es3].
  rewrite app_assoc, <- Hb2. exact Hw3.
Qed.

Lemma flush_release_ok w b : writing w b -> exists w' u, WRW_FlushRelease w = Ok (w', u) /\ ready w' /\ siov w' = siov w /\ (u = false -> wr_out w' = b).
Proof.
  intros Hw. unfold WRW_FlushRelease, fd_of.
  assert (Hfd : wfd w = Some true) by (destruct Hw as (? & ? & H & _); apply H). rewrite Hfd. cbn [mbind res_bind mret res_ret].
  destruct Hw as (out & ds & H & Hs & <-). destruct (flush_plain _ _ _ H Hs) as (w1 & -> & H1 & Hs1 & Es). cbn [mbind res_bind].
  unfold WRW_Release, fd_of. rewrite (pl_fd _ _ H1). cbn [mbind res_bind mret res_ret]. do 2 eexists. split; [reflexivity|].
  split_and!; [|done|].
  - split_and!; [done|apply H1|]. cbn. rewrite Es. apply H.
  - intros E%negb_false_iff%Z.eqb_eq. cbn. by apply Hs1.
Qed.

(** ** Responses *)

Inductive op := OWrite (d : list Z) | OFlush.

Definition run_op (w : wrw) (o : op) : res wrw :=
  match o with
  | OWrite d => '(w, _) ← WRW_Write w d; mret w
  | OFlush => '(w, _) ← WRW_Flush w; mret w
  end.

Fixpoint run_ops (w : wrw) (os : list op) : res wrw :=
  match os with [] => mret w | o :: os => w ← run_op w o; run_ops w os end.

Definition written (o : op) : list Z := match o with OWrite d => d | OFlush => [] end.
Definition op_ok (o : op) : Prop := Z.of_nat (length (written o)) < 2 ^ 31.

Lemma run_ops_w os w b : Forall op_ok os -> writing w b ->
  exists w', run_ops w os = Ok w' /\ writing w' (b ++ concat (map written os)) /\ siov w' = siov w.
Proof.
  revert w b. induction os as [|o os IH]; intros w b Ho Hw; cbn [run_ops map concat].
  { eexists. split; [reflexivity|]. by rewrite app_nil_r. }
  apply Forall_cons in Ho as [Ho Hos]. destruct o as [d|]; cbn [run_op written].
  - destruct (write_w _ _ d Hw Ho) as (w1 & -> & Hw1 & Es). cbn [mbind res_bind mret res_ret].
    destruct (IH _ _ Hos Hw1) as (w2 & -> & Hw2 & Es2). exists w2. rewrite app_assoc. by rewrite Es2.
  - destruct (flush_w _ _ Hw) as (w1 & -> & Hw1 & Es). cbn [mbind res_bind mret res_ret].
    destruct (IH _ _ Hos Hw1) as (w2 & -> & Hw2 & Es2). exists w2. by rewrite Es2.
Qed.

Lemma run_ops_s os w b data : Forall op_ok os -> streaming w b data ->
  exists w', run_ops w os = Ok w' /\ streaming w' b (data ++ concat (map written os)) /\ siov w' = siov w.
Proof.
  revert w data. induction os as [|o os IH]; intros w data Ho Hw; cbn [run_ops map concat].
  { eexists. split; [reflexivity|]. by rewrite app_nil_r. }
  apply Forall_cons in Ho as [Ho Hos]. destruct o as [d|]; cbn [run_op written].
  - destruct (write_s _ _ _ d Hw Ho) as (w1 & -> & Hw1 & Es). cbn [mbind res_bind mret res_ret].
    destruct (IH _ _ Hos Hw1) as (w2 & -> & Hw2 & Es2). exists w2. rewrite app_assoc. by rewrite Es2.
  - destruct (flush_s _ _ _ Hw) as (w1 & -> & Hw1 & Es). cbn [mbind res_bind mret res_ret].
    destruct (IH _ _ Hos Hw1) as (w2 & -> & Hw2 & Es2). exists w2. by rewrite Es2.
Qed.

(** A response whose header is written by [hd] and whose body by [body], with chunks. *)
Definition send_chunked (w : wrw) (hd body : list op) : res (wrw * bool) :=
  w ← WRW_Reserve w true;
  w ← run_ops w hd;
  w ← WRW_Chunked w;
  w ← run_ops w body;
  w ← WRW_EndChunk w;
  WRW_FlushRelease w.

Lemma send_chunked_ok w hd body : ready w -> Forall op_ok hd -> Forall op_ok body ->
  exists w' u, send_chunked w hd body = Ok (w', u) /\ ready w' /\ siov w' = siov w /\
    (u = false -> exists cs, Forall (fun c => c <> []) cs /\ concat cs = concat (map written body) /\
      wr_out w' = wr_out w ++ concat (map written hd) ++ concat (map chunk cs) ++ last_chunk).
Proof.
  intros Hr Hh Hb. unfold send_chunked. destruct (reserve_ok _ Hr) as (w1 & -> & H1 & E1). cbn [mbind res_bind].
  destruct (run_ops_w _ _ _ Hh H1) as (w2 & -> & H2 & E2). cbn [mbind res_bind].
  destruct (chunked_w _ _ H2) as (w3 & -> & H3 & E3). cbn [mbind res_bind].
  destruct (run_ops_s _ _ _ _ Hb H3) as (w4 & -> & H4 & E4). cbn [mbind res_bind].
  destruct (end_s _ _ _ H4) as (w5 & cs & -> & Hcs & Hd & H5 & E5). cbn [mbind res_bind].
  destruct (flush_release_ok _ _ H5) as (w6 & u & -> & H6 & E6 & Hu). exists w6, u. split_and!; try done; [congruence|].
  intros Hf. exists cs. split_and!; [done..|]. by rewrite (Hu Hf), <- !app_assoc.
Qed.

End WrwThm.
