(* ===== verification/Fetch.v ===== *)
(** Bodies from a connection into storage, and on to the client: the bodies of
    [bin/varnishd/cache_fetch.c] with its "do nothing" processor, [stv_alloc] of
    [stevedore.c], and [RES_StreamPoll] of [cache_response.c].

    The storage of an object is the list of its segments, each with its space and the
    octets in it.  What a stevedore gives and whether an object can be nuked are
    functions of how often they were asked. *)
From S2P Require Import Prelude Vct Mem Ws HttpConn Wrw.
Import Vct HttpConn Wrw.

Module Fetch.

Record storage := mkSt { space : Z; octs : list Z }.
Definition slen (s : storage) : Z := Z.of_nat (length (octs s)).

(** [sctx]: of a response that is streamed, [stream_next] and [stream_front]. *)
Record fetch := mkFetch {
  conn : http_conn; store : list storage; olen : Z; nalloc : nat; nnuke : nat;
  sctx : option (Z * Z); fpass : bool; out : wrw;
}.

Definition set_conn (f : fetch) c := mkFetch c (store f) (olen f) (nalloc f) (nnuke f) (sctx f) (fpass f) (out f).
Definition set_store (f : fetch) s := mkFetch (conn f) s (olen f) (nalloc f) (nnuke f) (sctx f) (fpass f) (out f).
Definition set_olen (f : fetch) l := mkFetch (conn f) (store f) l (nalloc f) (nnuke f) (sctx f) (fpass f) (out f).
Definition asked (f : fetch) := mkFetch (conn f) (store f) (olen f) (S (nalloc f)) (nnuke f) (sctx f) (fpass f) (out f).
Definition nuked (f : fetch) := mkFetch (conn f) (store f) (olen f) (nalloc f) (S (nnuke f)) (sctx f) (fpass f) (out f).
Definition set_sctx (f : fetch) c := mkFetch (conn f) (store f) (olen f) (nalloc f) (nnuke f) (Some c) (fpass f) (out f).
Definition set_out (f : fetch) w := mkFetch (conn f) (store f) (olen f) (nalloc f) (nnuke f) (sctx f) (fpass f) w.

(** ** Numbers *)

Definition s64 (z : Z) : Z := let v := z mod 2 ^ 64 in if v <? 2 ^ 63 then v else v - 2 ^ 64.

(** The value of a digit. *)
Definition digit_val (c : Z) : option Z :=
  if (48 <=? c) && (c <=? 57) then Some (c - 48)
  else if (97 <=? c) && (c <=? 122) then Some (c - 87)
  else if (65 <=? c) && (c <=? 90) then Some (c - 55)
  else None.

Fixpoint digits (radix acc : Z) (s : list Z) : Z * list Z :=
  match s with
  | [] => (acc, [])
  | c :: q =>
      match digit_val c with
      | Some d => if d <? radix then digits radix (acc * radix + d) q else (acc, s)
      | None => (acc, s)
      end
  end.

Definition is_digit (radix : Z) (s : list Z) : bool :=
  match s with
  | c :: _ => match digit_val c with Some d => d <? radix | None => false end
  | [] => false
  end.

Fixpoint spaces (s : list Z) : list Z :=
  match s with c :: q => if isspace c then spaces q else s | [] => [] end.

(** [strtoumax(s, &q, radix)] of the C library, on a string without its NUL: the number,
    and what is left from [q] on. *)
Definition strtoumax (s : list Z) (radix : Z) : Z * list Z :=
  let p := spaces s in
  let '(neg, p) := match p with 45 :: p => (true, p) | 43 :: p => (false, p) | _ => (false, p) end in
  let p := if radix =? 16 then
      match p with 48 :: x :: q => if ((x =? 120) || (x =? 88)) && is_digit 16 q then q else p | _ => p end
    else p in
  if negb (is_digit radix p) then (0, s) else
  let '(v, q) := digits radix 0 p in
  (if 2 ^ 64 <=? v then 2 ^ 64 - 1 else if neg then (- v) mod 2 ^ 64 else v, q).

Definition fetch_number (nbr : list Z) (radix : Z) : Z :=
  match nbr with
  | [] => -1
  | c :: _ =>
      if c =? 0 then -1 else
      let '(cll, q) := strtoumax nbr radix in
      match q with
      | [] => let cl := s64 cll in if u64 cl =? cll then cl else -1
      | _ => -1
      end
  end.

(** ** The lines of a chunked body

    They only read, an octet at a time: with any way to do so. *)

Section Reader.

Context {S : Type} (rd1 : S -> S * option Z).

Fixpoint skip_lws (fuel : nat) (f : S) : res (S * option Z) :=
  match fuel with
  | O => Fail FFuel
  | Datatypes.S fuel =>
      let '(f, o) := rd1 f in
      match o with
      | None => mret (f, None)
      | Some c => if vct_islws c then skip_lws fuel f else mret (f, Some c)
      end
  end.

(** The next octet of the number, [buf] being what there is of it. *)
Fixpoint next_digit (fuel : nat) (f : S) (buf : list Z) : res (S * option Z) :=
  match fuel with
  | O => Fail FFuel
  | Datatypes.S fuel =>
      let '(f, o) := rd1 f in
      match o with
      | None => mret (f, None)
      | Some c => if bool_decide (buf = [48]) && (c =? 48) then next_digit fuel f buf else mret (f, Some c)
      end
  end.

(** Hex digits, of [n] at most, and the octet after them: none if there were too many. *)
Fixpoint collect_hex (fuel n : nat) (f : S) (buf : list Z) : res (S * option (list Z * option Z)) :=
  match n with
  | O => mret (f, Some (buf, None))
  | Datatypes.S n =>
      '(f, o) ← next_digit fuel f buf;
      match o with
      | None => mret (f, None)
      | Some c => if vct_ishex c then collect_hex fuel n f (buf ++ [c]) else mret (f, Some (buf, Some c))
      end
  end.

Fixpoint skip_trail (fuel : nat) (f : S) (c : Z) : res (S * option Z) :=
  if vct_islws c && negb (c =? 10) then
    match fuel with
    | O => Fail FFuel
    | Datatypes.S fuel =>
        let '(f, o) := rd1 f in
        match o with None => mret (f, None) | Some c => skip_trail fuel f c end
    end
  else mret (f, Some c).

(** The size of a chunk, negative for an error.  [char buf[20]] has place for the first
    octet, 18 digits and what ends them. *)
Definition chunk_size (fuel : nat) (f : S) : res (S * Z) :=
  '(f, o) ← skip_lws fuel f;
  match o with None => mret (f, -1) | Some c =>
  '(f, o) ← collect_hex fuel 19 f [c];
  match o with None => mret (f, -1) | Some (_, None) => mret (f, -1) | Some (buf, Some c) =>
  '(f, o) ← skip_trail fuel f c;
  match o with None => mret (f, -1) | Some c =>
  if negb (c =? 10) then mret (f, -1) else mret (f, fetch_number buf 16)
  end end end.

(** The end of a line after the octets of a chunk. *)
Definition chunk_tail (f : S) : S * bool :=
  let '(f, o) := rd1 f in
  match o with None => (f, false) | Some c =>
  if negb (c =? 13) then (f, c =? 10) else
  let '(f, o) := rd1 f in
  (f, match o with None => false | Some c => c =? 10 end)
  end.

End Reader.

Section Fetch.

(** [alloc k size]: what the [k]-th request of so many octets gives; [nuke k]: whether the
    [k]-th call of [EXP_NukeOne] frees an object. *)
Context (alloc : nat -> Z -> option Z) (nuke : nat -> bool).
Context (fetchfrag fetch_chunksize fetch_maxchunksize nuke_limit : Z).

(** ** Storage *)

Fixpoint stv_loop (fuel : nat) (f : fetch) (size fail : Z) : res (fetch * option storage) :=
  match fuel with
  | O => Fail FFuel
  | S fuel =>
      match alloc (nalloc f) size with
      | Some sp => mret (asked f, Some (mkSt sp []))
      | None =>
          let f := asked f in
          if fetch_chunksize * 1024 <? size then stv_loop fuel f (Z.shiftr size 1) fail else
          if negb (nuke (nnuke f)) then mret (f, None) else
          let f := nuked f in
          if nuke_limit <=? fail + 1 then mret (f, None) else stv_loop fuel f size (fail + 1)
      end
  end.

Definition stv_alloc (f : fetch) (size : Z) : res (fetch * option storage) :=
  let max := Z.shiftl fetch_maxchunksize 10 in
  let size := if max <? size then max else size in
  stv_loop (65 + Z.to_nat nuke_limit) f size 0.

(** [STV_alloc], and the segment at the end of the storage. *)
Definition new_storage (f : fetch) (l : Z) : res (fetch * bool) :=
  '(f, o) ← stv_alloc f l;
  match o with None => mret (f, false) | Some s => mret (set_store f (store f ++ [s]), true) end.

Definition has_room (o : option storage) : bool := match o with Some st => slen st <? space st | None => false end.

(** Whether there is a segment to go on with at the end of the storage. *)
Definition FetchStorage (f : fetch) (sz : Z) : res (fetch * bool) :=
  if has_room (last (store f)) then mret (f, true) else
  let l := if fetchfrag =? 0 then sz else fetchfrag in
  let l := if l =? 0 then fetch_chunksize * 1024 else l in
  new_storage f l.

(** ** Streaming *)

(** The segments from [l] on, of which [next] octets have been written. *)
Fixpoint poll_loop (sts : list storage) (l next : Z) (w : wrw) : res (wrw * Z) :=
  match sts with
  | [] => mret (w, next)
  | st :: sts =>
      if slen st + l <=? next then poll_loop sts (l + slen st) next w else
      let l2 := slen st + l - next in
      if next <? l then Fail FMemory else
      '(w, _) ← WRW_Write w (drop (Z.to_nat (next - l)) (octs st));
      poll_loop sts (l + slen st) (next + l2) w
  end.

(** The segments that have been written are freed. *)
Fixpoint free_front (sts : list storage) (front next : Z) : list storage * Z :=
  match sts with
  | [] => ([], front)
  | st :: sts' => if next <? front + slen st then (sts, front) else free_front sts' (front + slen st) next
  end.

(** For a response that is not uncompressed for the client. *)
Definition RES_StreamPoll (f : fetch) : res fetch :=
  match sctx f with
  | None => mret f
  | Some (next, front) =>
      if olen f =? next then mret f else
      vassert (next <? olen f);;
      '(w, next) ← poll_loop (store f) front next (out f);
      '(w, _) ← WRW_Flush w;
      let f := set_out f w in
      if fpass f then
        let '(sts, front) := free_front (store f) front next in
        mret (set_sctx (set_store f sts) (next, front))
      else mret (set_sctx f (next, front))
  end.

(** ** The processor that does nothing *)

Definition vfp_nop_begin (f : fetch) (estimate : Z) : res fetch :=
  let estimate := if 0 <? fetchfrag then fetchfrag else estimate in
  if 0 <? estimate then '(f, _) ← FetchStorage f estimate; mret f else mret f.

(** [st->len += w], the octets being there. *)
Definition grow (sts : list storage) (d : list Z) : list storage :=
  match last sts with
  | Some st => removelast sts ++ [mkSt (space st) (octs st ++ d)]
  | None => sts
  end.

(** What the connection has still to give. *)
Definition avail (h : http_conn) : nat := length (pipeline h) + length (concat (segs h)).

Fixpoint bytes_loop (fuel : nat) (f : fetch) (bytes : Z) : res (fetch * Z) :=
  if bytes <=? 0 then mret (f, 1) else
  match fuel with
  | O => Fail FFuel
  | S fuel =>
      '(f, ok) ← FetchStorage f 0;
      if negb ok then mret (f, -1) else
      st ← deref (last (store f));
      let l := space st - slen st in
      let l := if bytes <? l then bytes else l in
      let '(h, d, w) := HTC_Read (conn f) l in
      let f := set_conn f h in
      if w <=? 0 then mret (f, w) else
      let f := set_olen (set_store f (grow (store f) d)) (olen f + w) in
      f ← RES_StreamPoll f;
      bytes_loop fuel f (bytes - w)
  end.

Definition vfp_nop_bytes (f : fetch) (bytes : Z) : res (fetch * Z) := bytes_loop (S (avail (conn f))) f bytes.

Definition vfp_nop_end (f : fetch) : fetch :=
  match last (store f) with
  | None => f
  | Some st =>
      if slen st =? 0 then set_store f (removelast (store f)) else
      if slen st <? space st then set_store f (removelast (store f) ++ [mkSt (slen st) (octs st)]) else f
  end.

(** ** Framings *)

(** [i = HTC_Read(htc, buf, 1); CERR();]: the octet, or nothing. *)
Definition read1 (f : fetch) : fetch * option Z :=
  let '(h, d, i) := HTC_Read (conn f) 1 in
  (set_conn f h, if i =? 1 then match d with c :: _ => Some c | [] => None end else None).

Definition fetch_straight (f : fetch) (b : list Z) : res (fetch * Z) :=
  let cl := fetch_number b 10 in
  f ← vfp_nop_begin f (if 0 <? cl then cl else 0);
  if cl <? 0 then mret (f, -1) else
  if cl =? 0 then mret (f, 0) else
  '(f, i) ← vfp_nop_bytes f cl;
  mret (f, if i <=? 0 then -1 else 0).

Definition SSIZE_MAX : Z := 2 ^ 63 - 1.

Definition fetch_eof (f : fetch) : res (fetch * Z) :=
  f ← vfp_nop_begin f 0;
  '(f, i) ← vfp_nop_bytes f SSIZE_MAX;
  mret (f, if i <? 0 then -1 else 0).

Fixpoint chunk_loop (fuel : nat) (f : fetch) : res (fetch * Z) :=
  match fuel with
  | O => Fail FFuel
  | S fuel =>
      '(f, cl) ← chunk_size read1 (S (avail (conn f))) f;
      if cl <? 0 then mret (f, -1) else
      '(f, i) ← (if 0 <? cl then vfp_nop_bytes f cl else mret (f, 1));
      if negb (i =? 1) then mret (f, -1) else
      let '(f, ok) := chunk_tail read1 f in
      if negb ok then mret (f, -1) else
      if 0 <? cl then chunk_loop fuel f else mret (f, 0)
  end.

Definition fetch_chunked (f : fetch) : res (fetch * Z) :=
  f ← vfp_nop_begin f 0;
  chunk_loop (S (avail (conn f))) f.

(** ** The body of a response *)

Inductive body_status := BS_NONE | BS_ZERO | BS_LENGTH | BS_CHUNKED | BS_EOF | BS_ERROR.

#[global] Instance body_status_eq : EqDecision body_status.
Proof. solve_decision. Defined.

(** What becomes of the connection to the backend. *)
Inductive vdi := CloseFd | RecycleFd.

(** The end, after a body of which [cls] was the outcome. *)
Definition FetchBody_end (f : fetch) (body_status : body_status) (do_close : bool) (cls : Z) (mklen : bool)
  : res (fetch * bool * option Z * vdi) :=
  let f := vfp_nop_end f in
  if bool_decide (body_status = BS_ERROR) then mret (f, true, None, CloseFd) else
  if cls <? 0 then mret (set_olen (set_store f []) 0, true, None, CloseFd) else
  let cls := if (cls =? 0) && do_close then 1 else cls in
  let uu := foldr Z.add 0 (map slen (store f)) in
  vassert (if fpass f then uu <=? olen f else uu =? olen f);;
  mret (f, false, if mklen then Some (olen f) else None, if truth cls then CloseFd else RecycleFd).

(** The object, whether it failed, the [Content-Length] the object gets, and the
    connection; [b] is [h_content_length]. *)
Definition FetchBody (f : fetch) (body_status : body_status) (b : list Z) (do_close : bool) : res (fetch * bool * option Z * vdi) :=
  vassert (bool_decide (length (store f) = 0%nat));;
  '(f, cls, mklen) ← match body_status with
    | BS_NONE => mret (f, 0, false)
    | BS_ZERO => mret (f, 0, true)
    | BS_LENGTH => '(f, cls) ← fetch_straight f b; mret (vfp_nop_end f, cls, true)
    | BS_CHUNKED => '(f, cls) ← fetch_chunked f; mret (vfp_nop_end f, cls, true)
    | BS_EOF => '(f, cls) ← fetch_eof f; mret (vfp_nop_end f, cls, true)
    | BS_ERROR => mret (f, 1, false)
    end;
  FetchBody_end f body_status do_close cls mklen.

End Fetch.

(** ** The body of a request *)

Fixpoint req_loop (fuel : nat) (h : http_conn) (w : wrw) (content_length : Z) (sendbody : bool) : res (http_conn * wrw * Z) :=
  if content_length =? 0 then mret (h, w, 0) else
  match fuel with
  | O => Fail FFuel
  | S fuel =>
      let rdcnt := if 8192 <? content_length then 8192 else content_length in
      let '(h, buf, rdcnt) := HTC_Read h rdcnt in
      if rdcnt <=? 0 then mret (h, w, 1) else
      let content_length := content_length - rdcnt in
      if negb sendbody then req_loop fuel h w content_length sendbody else
      '(w, _) ← WRW_Write w buf;
      '(w, u) ← WRW_Flush w;
      if u : bool then mret (h, w, 2) else req_loop fuel h w content_length sendbody
  end.

(** [cl], [te]: the headers [Content-Length] and [Transfer-Encoding], if any. *)
Definition FetchReqBody (h : http_conn) (w : wrw) (cl : option (list Z)) (te sendbody : bool) : res (http_conn * wrw * Z) :=
  '(h, w, i) ← match cl with
    | Some ptr => req_loop (S (avail h)) h w (fst (strtoumax ptr 10)) sendbody
    | None => mret (h, w, 0)
    end;
  if truth i then mret (h, w, i) else
  if te then mret (h, w, 1) else mret (h, w, 0).

End Fetch.
