(* ===== verification/FetchInv.v ===== *)
(** What the functions of [Fetch] keep, and what the lines of a chunked body say. *)
From S2P Require Import Prelude Ws HttpConn Wrw WrwThm Fetch Vct Mem.

(** Bodies from a connection: reading, storage and streaming. *)
Import HttpConn Wrw WrwThm Fetch.

Module FetchInv.

(** ** Reading *)

(** What the peer has sent and nobody has read. *)
Definition input (h : http_conn) : list Z := pipeline h ++ concat (segs h).

(** A [read] that finds nothing is the end. *)
Definition segs_ok (h : http_conn) : Prop := Forall (fun s => s <> []) (segs h).

Lemma avail_input h : avail h = length (input h).
Proof. unfold avail, input. by rewrite length_app. Qed.

Lemma sys_read_ok h len h' d i : segs_ok h -> 0 < len -> sys_read h len = (h', d, i) ->
  segs_ok h' /\ pipeline h' = pipeline h /\ broken h' = broken h /\ hws h' = hws h /\
  (segs h = [] /\ h' = h /\ d = [] /\ i = (if broken h then -1 else 0) \/
   0 < i <= len /\ i = Z.of_nat (length d) /\ concat (segs h) = d ++ concat (segs h')).
Proof.
  intros Hs Hl. unfold sys_read, segs_ok in *. destruct (segs h) as [|s ss] eqn:E.
  { intros [= <- <- <-]. rewrite E. split_and!; try done. by left. }
  apply Forall_cons in Hs as [Hne Hss].
  intros [= <- <- <-]. cbn. split_and!; try done.
  - destruct (drop (Z.to_nat len) s); [done|]. by constructor.
  - right. rewrite length_take. destruct s as [|c s]; [done|]. split_and!; [cbn; lia|cbn; lia|done|].
    rewrite <- (take_drop (Z.to_nat len) (c :: s)) at 1. destruct (drop (Z.to_nat len) (c :: s)) eqn:Ed; cbn; by rewrite ?app_nil_r, <- ?app_assoc.
Qed.

Lemma HTC_Read_ok h len h' d i : segs_ok h -> 0 < len -> HTC_Read h len = (h', d, i) ->
  segs_ok h' /\ broken h' = broken h /\ hws h' = hws h /\
  (0 < i <= len /\ i = Z.of_nat (length d) /\ input h = d ++ input h' \/
   i = 0 /\ input h = [] /\ broken h = false /\ input h' = [] \/
   i = -1 /\ segs h = [] /\ broken h = true /\ Z.of_nat (length (input h)) < len).
Proof.
  intros Hs Hl. unfold HTC_Read. set (p := take (Z.to_nat len) (pipeline h)).
  assert (Hp : Z.of_nat (length p) <= len) by (unfold p; rewrite length_take; lia).
  destruct (Z.eqb_spec (len - Z.of_nat (length p)) 0) as [E|E].
  { intros [= <- <- <-]. split_and!; try done. left. split_and!; [lia|lia|done|].
    unfold input. cbn. rewrite app_assoc. unfold p. by rewrite take_drop. }
  assert (Hd : drop (Z.to_nat len) (pipeline h) = [] /\ p = pipeline h).
  { unfold p in *. rewrite length_take in E. split; [apply drop_ge|apply firstn_all2]; lia. }
  destruct Hd as [Hd Ep]. rewrite Hd. destruct (sys_read _ _) as [[h2 e] j] eqn:Er.
  destruct (sys_read_ok (set_pipeline h []) (len - Z.of_nat (length p)) h2 e j Hs ltac:(lia) Er) as (Hs2 & Hp2 & Hb2 & Hw2 & Hc). cbn in *.
  destruct Hc as [(Hn & -> & -> & ->)|(Hj & -> & Hi)].
  - unfold input. cbn. rewrite Hn. destruct (broken h) eqn:Eb; cbn.
    + intros [= <- <- <-]. cbn. split_and!; try done. right. right. split_and!; try done. rewrite Ep in *. cbn. rewrite app_nil_r. lia.
    + intros [= <- <- <-]. cbn. rewrite Hn. split_and!; try done. rewrite !app_nil_r. cbn. rewrite Ep in *. destruct (pipeline h) as [|c l]; [by right; left|].
      left. cbn in *. split_and!; [lia|lia|done|done].
  - destruct (Z.ltb_spec (Z.of_nat (length e)) 0); [lia|]. intros [= <- <- <-]. split_and!; try done. left.
    rewrite length_app. split_and!; [lia|lia|lia|]. unfold input. rewrite Hp2, Hi, Ep. cbn. by rewrite <- app_assoc.
Qed.

(** One octet: only what was sent matters. *)
Lemma read1_cons f c s : segs_ok (conn f) -> input (conn f) = c :: s ->
  exists h, read1 f = (set_conn f h, Some c) /\ input h = s /\ segs_ok h /\ broken h = broken (conn f).
Proof.
  intros Hs Hi. unfold read1. destruct (HTC_Read (conn f) 1) as [[h d] i] eqn:E.
  destruct (HTC_Read_ok _ _ _ _ _ Hs (eq_refl : 0 < 1) E) as (Hs' & Hb & _ & Hc).
  destruct Hc as [(Hi1 & -> & Hd)|[(-> & Hn & _)|(-> & _ & _ & Hl)]].
  - destruct d as [|c' [|? ?]]; cbn in Hi1; try lia. rewrite Hi in Hd. injection Hd as <- ->. by exists h.
  - by rewrite Hi in Hn.
  - rewrite Hi in Hl. cbn in Hl. lia.
Qed.

Lemma read1_nil f : segs_ok (conn f) -> input (conn f) = [] ->
  exists h, read1 f = (set_conn f h, None) /\ input h = [] /\ segs_ok h /\ broken h = broken (conn f).
Proof.
  intros Hs Hi. unfold read1. destruct (HTC_Read (conn f) 1) as [[h d] i] eqn:E.
  destruct (HTC_Read_ok _ _ _ _ _ Hs (eq_refl : 0 < 1) E) as (Hs' & Hb & _ & Hc). exists h.
  destruct Hc as [(Hi1 & -> & Hd)|[(-> & Hn & _ & Hi')|(-> & Hsg & Hbr & Hl)]].
  - rewrite Hi in Hd. destruct d; [cbn in Hi1; lia|done].
  - by split_and!.
  - split_and!; try done. unfold HTC_Read in E. unfold input in Hi. apply app_nil in Hi as [Hp Hsg0]. rewrite Hp in E.
    cbn in E. unfold sys_read in E. cbn in E. rewrite Hsg, Hbr in E. cbn in E. injection E as <- _. unfold input. cbn. by rewrite Hsg.
Qed.

(** ** Sinks *)

(** Where streamed octets go: [P w d] says that the writer has been given [d]. *)
Class Sink (P : wrw -> list Z -> Prop) := {
  sink_write : forall w d e, P w d -> Z.of_nat (length e) < 2 ^ 31 ->
    exists w', WRW_Write w e = Ok (w', Z.of_nat (length e)) /\ P w' (d ++ e);
  sink_flush : forall w d, P w d -> exists w', WRW_Flush w = Ok (w', truth (werr w')) /\ P w' d;
}.

#[global] Instance sink_plain b : Sink (fun w d => writing w (b ++ d)).
Proof.
  split.
  - intros w d e Hw He. destruct (write_w _ _ _ Hw He) as (w' & -> & Hw' & _). exists w'. by rewrite app_assoc.
  - intros w d Hw. destruct (flush_w _ _ Hw) as (w' & -> & Hw' & _). by exists w'.
Qed.

#[global] Instance sink_chunked b : Sink (fun w d => streaming w b d).
Proof.
  split.
  - intros w d e Hw He. destruct (write_s _ _ _ _ Hw He) as (w' & -> & Hw' & _). by exists w'.
  - intros w d Hw. destruct (flush_s _ _ _ Hw) as (w' & -> & Hw' & _). by exists w'.
Qed.

(** ** Storage *)

Section Storage.

Context (P : wrw -> list Z -> Prop) `{!Sink P}.
Context (alloc : nat -> Z -> option Z) (nuke : nat -> bool).
Context (fetchfrag fetch_chunksize fetch_maxchunksize nuke_limit : Z).

(** What a stevedore promises, and the parameters. *)
Definition gives_space : Prop := forall k n sp, alloc k n = Some sp -> 0 < sp < 2 ^ 31.
Definition params_ok : Prop := 0 <= fetchfrag /\ 0 <= fetch_chunksize /\ 0 <= fetch_maxchunksize < 2 ^ 53 /\ 0 <= nuke_limit.
Context (Halloc : gives_space) (Hpar : params_ok).

#[local] Notation stv_alloc := (stv_alloc alloc nuke fetch_chunksize fetch_maxchunksize nuke_limit).
#[local] Notation FetchStorage := (FetchStorage alloc nuke fetchfrag fetch_chunksize fetch_maxchunksize nuke_limit).
#[local] Notation bytes_loop := (bytes_loop alloc nuke fetchfrag fetch_chunksize fetch_maxchunksize nuke_limit).

Definition st_ok (s : storage) : Prop := slen s <= space s < 2 ^ 31.

Definition body_of (sts : list storage) : list Z := concat (map octs sts).
#[local] Arguments body_of : simpl never.

(** The object has [body]; a client who is streamed to has been given it. *)
Record holds (f : fetch) (body : list Z) : Prop := {
  ho_segs : segs_ok (conn f);
  ho_len : olen f = Z.of_nat (length body);
  ho_store : Forall st_ok (store f);
  ho_body : match sctx f with
    | None => body_of (store f) = body
    | Some (next, front) => next = Z.of_nat (length body) /\ P (out f) body /\
        exists freed, front = Z.of_nat (length freed) /\ freed ++ body_of (store f) = body /\ (fpass f = false -> freed = [])
    end;
}.

(** Nothing but counters differ. *)
Definition same (f f' : fetch) : Prop :=
  conn f' = conn f /\ olen f' = olen f /\ sctx f' = sctx f /\ fpass f' = fpass f /\ out f' = out f.

Lemma same_refl f : same f f.
Proof. by repeat split. Qed.

Lemma stv_loop_ok fuel f size fail : 0 <= size -> 0 <= fail ->
  (exists k : nat, size < 2 ^ Z.of_nat k /\ (k + Z.to_nat (nuke_limit - fail) < fuel)%nat) ->
  exists f' o, stv_loop alloc nuke fetch_chunksize nuke_limit fuel f size fail = Ok (f', o) /\ same f f' /\ store f' = store f /\
    (forall s, o = Some s -> octs s = [] /\ 0 < space s < 2 ^ 31) /\ ((forall k n, is_Some (alloc k n)) -> is_Some o).
Proof.
  revert f size fail. induction fuel as [|fuel IH]; intros f size fail Hsz Hf (k & Hk & Hfu); [lia|]. cbn [stv_loop].
  destruct (alloc (nalloc f) size) as [sp|] eqn:Ea.
  { do 2 eexists. split; [reflexivity|]. split; [done|]. split; [done|]. split; [|by eauto].
    intros s [= <-]. split; [done|]. apply (Halloc _ _ _ Ea). }
  destruct Hpar as (_ & Hcs & _ & Hnl).
  assert (Hno : (forall k n, is_Some (alloc k n)) -> forall T : Prop, T) by (intros Hall; destruct (Hall (nalloc f) size) as [? ?]; congruence).
  destruct (Z.ltb_spec (fetch_chunksize * 1024) size) as [Hlt|Hge].
  { destruct (IH (asked f) (Z.shiftr size 1) fail) as (f' & o & -> & Hs & Hst & Ho & Hi); [by apply Z.shiftr_nonneg|done| |].
    - destruct k as [|k]; [cbn in Hk; lia|]. exists k. split; [|lia]. rewrite Z.shiftr_div_pow2 by done.
      rewrite Nat2Z.inj_succ, Z.pow_succ_r in Hk by lia. apply Z.div_lt_upper_bound; lia.
    - exists f', o. by split_and!. }
  destruct (nuke _); cbn [negb].
  2: { do 2 eexists. split; [reflexivity|]. split_and!; try done. intros Hall. by apply Hno. }
  destruct (Z.leb_spec nuke_limit (fail + 1)).
  { do 2 eexists. split; [reflexivity|]. split_and!; try done. intros Hall. by apply Hno. }
  destruct (IH (nuked (asked f)) size (fail + 1)) as (f' & o & -> & Hs & Hst & Ho & Hi); [done|lia| |].
  - exists k. split; [done|]. lia.
  - exists f', o. by split_and!.
Qed.

Lemma stv_alloc_ok f size : 0 <= size ->
  exists f' o, stv_alloc f size = Ok (f', o) /\ same f f' /\ store f' = store f /\
    (forall s, o = Some s -> octs s = [] /\ 0 < space s < 2 ^ 31) /\ ((forall k n, is_Some (alloc k n)) -> is_Some o).
Proof.
  intros Hs. destruct Hpar as (_ & _ & Hm & Hnl). unfold Fetch.stv_alloc. set (max := Z.shiftl _ _).
  assert (Hmax : 0 <= max < 2 ^ 63) by (unfold max; rewrite Z.shiftl_mul_pow2 by done; lia).
  apply stv_loop_ok; [by destruct (Z.ltb_spec max size); lia|done|]. exists 64%nat. split; [|lia].
  destruct (Z.ltb_spec max size); lia.
Qed.

(** There is room at the end of the storage after this. *)
Lemma FetchStorage_ok f sz : 0 <= sz -> Forall st_ok (store f) ->
  exists f' ok, FetchStorage f sz = Ok (f', ok) /\ same f f' /\ Forall st_ok (store f') /\ body_of (store f') = body_of (store f) /\
    (ok = true -> exists st, last (store f') = Some st /\ slen st < space st /\ st_ok st) /\
    ((forall k n, is_Some (alloc k n)) -> ok = true).
Proof.
  intros Hsz Hst. unfold Fetch.FetchStorage. destruct Hpar as (Hfr & Hcs & _).
  set (l1 := if fetchfrag =? 0 then sz else fetchfrag). set (l2 := if l1 =? 0 then fetch_chunksize * 1024 else l1).
  assert (Hl2 : 0 <= l2) by (unfold l2, l1; repeat case_match; lia).
  destruct (has_room (last (store f))) eqn:Er.
  { exists f, true. split_and!; try done. intros _. destruct (last (store f)) as [st|] eqn:El; [|done]. cbn in Er. apply Z.ltb_lt in Er.
    exists st. split_and!; try done. rewrite Forall_forall in Hst. apply Hst. by apply last_Some_elem_of. }
  unfold new_storage.
  destruct (stv_alloc_ok f l2 Hl2) as (f' & o & -> & Hsa & Hs' & Ho & Hall). cbn [mbind res_bind].
  destruct o as [s|]; cbn; do 2 eexists; (split; [reflexivity|]).
  - destruct (Ho s eq_refl) as [Hoc Hsp]. cbn. rewrite Hs'.
    assert (Hok : st_ok s) by (unfold st_ok, slen; rewrite Hoc; cbn; lia).
    split_and!; try done.
    + apply Forall_app. split; [done|]. by apply Forall_singleton.
    + unfold body_of. rewrite map_app, concat_app. cbn. by rewrite Hoc, !app_nil_r.
    + intros _. exists s. rewrite last_snoc. split_and!; try done. unfold slen. rewrite Hoc. cbn. lia.
  - rewrite Hs'. split_and!; try done. intros H. by destruct (Hall H).
Qed.

(** ** Streaming *)

Lemma body_cons st sts : body_of (st :: sts) = octs st ++ body_of sts.
Proof. done. Qed.

(** What has not been written is. *)
Lemma poll_loop_ok sts l next w d : P w d -> Forall st_ok sts -> l <= next <= l + Z.of_nat (length (body_of sts)) ->
  exists w', poll_loop sts l next w = Ok (w', l + Z.of_nat (length (body_of sts))) /\
    P w' (d ++ drop (Z.to_nat (next - l)) (body_of sts)).
Proof.
  revert l next w d. induction sts as [|st sts IH]; intros l next w d Hp Hst Hn; cbn [poll_loop].
  { exists w. change (body_of []) with (@nil Z) in *. cbn in Hn |- *. rewrite drop_nil, app_nil_r. split; [|done]. do 2 f_equal. lia. }
  apply Forall_cons in Hst as [Hs Hst]. rewrite body_cons in Hn |- *. rewrite length_app in Hn |- *. unfold st_ok, slen in *.
  destruct (Z.leb_spec (Z.of_nat (length (octs st)) + l) next) as [Hle|Hgt].
  - destruct (IH (l + Z.of_nat (length (octs st))) next w d Hp Hst) as (w' & -> & Hw'); [lia|].
    exists w'. split; [do 2 f_equal; lia|]. rewrite drop_app_ge by lia. replace (Z.to_nat (next - l) - length (octs st))%nat with
      (Z.to_nat (next - (l + Z.of_nat (length (octs st))))) by lia. done.
  - rewrite (proj2 (Z.ltb_ge next l)) by lia.
    destruct (sink_write w d (drop (Z.to_nat (next - l)) (octs st)) Hp) as (w1 & -> & Hp1); [rewrite length_drop; lia|]. cbn [mbind res_bind].
    destruct (IH (l + Z.of_nat (length (octs st))) (next + (Z.of_nat (length (octs st)) + l - next)) w1 _ Hp1 Hst) as (w' & -> & Hw'); [lia|].
    exists w'. split; [do 2 f_equal; lia|]. rewrite drop_app_le by lia. rewrite <- app_assoc in Hw'.
    replace (next + (Z.of_nat (length (octs st)) + l - next) - (l + Z.of_nat (length (octs st)))) with 0 in Hw' by lia. done.
Qed.

Lemma free_front_ok sts front next : exists freed,
  free_front sts front next = (drop (length freed) sts, front + Z.of_nat (length (body_of freed))) /\ sts = freed ++ drop (length freed) sts.
Proof.
  revert front. induction sts as [|st sts IH]; intros front; cbn [free_front].
  { exists []. change (body_of []) with (@nil Z). cbn. by rewrite Z.add_0_r. }
  destruct (next <? front + slen st).
  - exists []. change (body_of []) with (@nil Z). cbn. by rewrite Z.add_0_r.
  - destruct (IH (front + slen st)) as (fr & -> & E). exists (st :: fr). cbn. split; [|by f_equal].
    rewrite body_cons, length_app. unfold slen. f_equal. lia.
Qed.

(** [got]: the object has [body], of which the client has been given [d]. *)
Lemma RES_StreamPoll_ok f body d : holds f d -> forall sts, Forall st_ok sts ->
  body_of sts = body_of (store f) ++ drop (length d) body -> take (length d) body = d ->
  exists f', RES_StreamPoll (set_olen (set_store f sts) (Z.of_nat (length body))) = Ok f' /\ holds f' body /\ conn f' = conn f /\
    (sctx f = None <-> sctx f' = None) /\ fpass f' = fpass f /\ (sctx f = None -> out f' = out f).
Proof.
  intros [Hsg Hlen Hst Hb] sts Hsts Ebody Ed. unfold RES_StreamPoll. cbn [sctx set_olen set_store].
  destruct (sctx f) as [[next front]|] eqn:Es.
  2: { eexists. split; [reflexivity|]. split_and!; try done. constructor; cbn; try done. rewrite Es.
    rewrite Ebody, Hb. rewrite <- Ed at 1. apply take_drop. }
  destruct Hb as (-> & Hp & freed & -> & Hfb & Hfp).
  change (olen (set_olen (set_store f sts) (Z.of_nat (length body)))) with (Z.of_nat (length body)).
  assert (Hbody : freed ++ body_of sts = body) by (rewrite Ebody, app_assoc, Hfb; rewrite <- Ed at 1; apply take_drop).
  assert (Hle : (length d <= length body)%nat) by (rewrite <- Ed, length_take; lia).
  destruct (Z.eqb_spec (Z.of_nat (length body)) (Z.of_nat (length d))) as [E|E].
  { assert (body = d) as -> by (rewrite <- Ed; symmetry; apply firstn_all2; lia).
    eexists. split; [reflexivity|]. split_and!; try done; try (cbn; by rewrite Es).
    constructor; cbn; try done. rewrite Es. split_and!; try done. by exists freed. }
  rewrite (proj2 (Z.ltb_lt _ _)) by lia. cbn [vassert mbind res_bind].
  change (store (set_olen (set_store f sts) (Z.of_nat (length body)))) with sts.
  change (out (set_olen (set_store f sts) (Z.of_nat (length body)))) with (out f).
  destruct (poll_loop_ok sts (Z.of_nat (length freed)) (Z.of_nat (length d)) (out f) d Hp Hsts) as (w1 & -> & Hp1).
  { rewrite <- Hbody, length_app in Hle. rewrite <- Hfb, length_app in Hle |- *. lia. }
  cbn [mbind res_bind].
  assert (Hfl : (length freed <= length d)%nat) by (rewrite <- Hfb, length_app; lia).
  assert (Hd1 : d ++ drop (Z.to_nat (Z.of_nat (length d) - Z.of_nat (length freed))) (body_of sts) = body).
  { transitivity (take (length d) body ++ drop (length d) body); [|apply take_drop]. rewrite Ed. f_equal.
    rewrite <- Hbody, drop_app_ge by lia. f_equal. lia. }
  rewrite Hd1 in Hp1. destruct (sink_flush _ _ Hp1) as (w2 & -> & Hp2). cbn [mbind res_bind fpass set_out set_olen set_store store].
  assert (Hnext : Z.of_nat (length freed) + Z.of_nat (length (body_of sts)) = Z.of_nat (length body)) by (rewrite <- Hbody, length_app; lia).
  rewrite Hnext.
  destruct (fpass f) eqn:Ef.
  - destruct (free_front_ok sts (Z.of_nat (length freed)) (Z.of_nat (length body))) as (fr & -> & Efr).
    eexists. split; [reflexivity|]. split_and!; try done.
    constructor; cbn; try done.
    + rewrite Efr in Hsts. apply Forall_app in Hsts as [_ Hsts]. done.
    + split_and!; try done. exists (freed ++ body_of fr). rewrite length_app. split_and!; [lia| |congruence].
      rewrite <- app_assoc. rewrite <- Hbody. rewrite Efr at 2. unfold body_of. by rewrite map_app, concat_app.
  - eexists. split; [reflexivity|]. split_and!; try done.
    constructor; cbn; try done. split_and!; try done. exists freed. split_and!; try done. intros _. by apply Hfp.
Qed.

(** ** The loop *)

Lemma last_split {A} (l : list A) x : last l = Some x -> l = removelast l ++ [x].
Proof.
  intros H. apply last_Some in H as [l' ->]. by rewrite removelast_last.
Qed.

Lemma grow_ok sts st d : last sts = Some st -> Forall st_ok sts -> slen st + Z.of_nat (length d) <= space st ->
  Forall st_ok (grow sts d) /\ body_of (grow sts d) = body_of sts ++ d.
Proof.
  intros El Hst Hsp. unfold grow. rewrite El. pose proof (last_split _ _ El) as E. rewrite E in Hst. apply Forall_app in Hst as [H1 H2].
  apply Forall_cons in H2 as [H2 _]. split.
  - apply Forall_app. split; [done|]. apply Forall_singleton. unfold st_ok, slen in *. cbn. rewrite length_app. lia.
  - rewrite E at 2. unfold body_of. rewrite !map_app, !concat_app. cbn. by rewrite !app_nil_r, <- app_assoc.
Qed.

(** What the loop leaves as it is. *)
Definition kept (f f' : fetch) : Prop :=
  broken (conn f') = broken (conn f) /\ (sctx f = None <-> sctx f' = None) /\ fpass f' = fpass f /\ (sctx f = None -> out f' = out f).

Lemma kept_trans f1 f2 f3 : kept f1 f2 -> kept f2 f3 -> kept f1 f3.
Proof. intros (A1 & B1 & C1 & D1) (A2 & B2 & C2 & D2). split_and!; [congruence|tauto|congruence|]. intros H. rewrite D2, D1; tauto. Qed.

Lemma bytes_loop_ok fuel f bytes body : holds f body -> (length (input (conn f)) < fuel)%nat ->
  exists f' i d, bytes_loop fuel f bytes = Ok (f', i) /\ holds f' (body ++ d) /\ kept f f' /\
    (i = 1 /\ Z.of_nat (length d) = Z.max 0 bytes /\ input (conn f) = d ++ input (conn f') \/
     i = 0 /\ d = input (conn f) /\ input (conn f') = [] /\ broken (conn f) = false /\ Z.of_nat (length d) < bytes \/
     i = -1 /\ (exists e, input (conn f) = d ++ e /\ Z.of_nat (length d) < bytes) /\
       ((forall k n, is_Some (alloc k n)) -> broken (conn f) = true /\ Z.of_nat (length (input (conn f))) < bytes)).
Proof.
  revert f bytes body. induction fuel as [|fuel IH]; intros f bytes body Hf Hfu; [lia|]. cbn [Fetch.bytes_loop].
  destruct (Z.leb_spec bytes 0) as [Hle|Hlt].
  { exists f, 1, []. rewrite app_nil_r. split_and!; try done. left. split_and!; [done|cbn; lia|done]. }
  destruct (FetchStorage_ok f 0 (Z.le_refl 0) (ho_store _ _ Hf)) as (f1 & ok & -> & (Ec & El & Es & Ep & Eo) & Hst1 & Hb1 & Hok & Hall).
  cbn [mbind res_bind].
  assert (Hf1 : holds f1 body).
  { destruct Hf. constructor; rewrite ?Ec, ?El, ?Es, ?Ep, ?Eo, ?Hb1; done. }
  assert (Hk1 : kept f f1) by (by split_and!; rewrite ?Ec, ?Es).
  destruct ok; cbn [negb].
  2: { exists f1, (-1), []. rewrite app_nil_r. split_and!; try done. right. right. split_and!; [done| |].
    - by exists (input (conn f)).
    - intros Ha. by specialize (Hall Ha). }
  destruct (Hok eq_refl) as (st & Hlast & Hroom & Hsok). rewrite Hlast. cbn [deref mbind res_bind].
  set (l := if bytes <? space st - slen st then bytes else space st - slen st).
  assert (Hl : 0 < l <= bytes /\ l <= space st - slen st) by (unfold l; destruct (Z.ltb_spec bytes (space st - slen st)); lia).
  destruct (HTC_Read (conn f1) l) as [[h d] w] eqn:Er.
  destruct (HTC_Read_ok _ _ _ _ _ (ho_segs _ _ Hf1) (proj1 (proj1 Hl)) Er) as (Hsg & Hbr & _ & Hc).
  rewrite Ec in Hbr, Hc.
  destruct Hc as [(Hw & Ew & Hi)|[(-> & Hi & Hb & Hi')|(-> & Hsgn & Hb & Hlen)]].
  - destruct (Z.leb_spec w 0); [lia|].
    destruct (grow_ok _ _ d Hlast Hst1) as [Hg1 Hg2]; [lia|].
    destruct (RES_StreamPoll_ok (set_conn f1 h) (body ++ d) body) with (sts := grow (store f1) d) as (f2 & Ef2 & Hf2 & Ecf & Hs2 & Hp2 & Ho2).
    { destruct Hf1. constructor; cbn; done. }
    { done. }
    { by rewrite Hg2, drop_app_length. }
    { by rewrite take_app_length. }
    replace (olen (set_conn f1 h) + w) with (Z.of_nat (length (body ++ d))).
    2: { cbn. rewrite (ho_len _ _ Hf1), length_app. lia. }
    change (store (set_conn f1 h)) with (store f1). rewrite Ef2. cbn [mbind res_bind].
    destruct (IH f2 (bytes - w) (body ++ d) Hf2) as (f3 & i & d3 & -> & Hf3 & Hk3 & Hcase).
    { rewrite Ecf. cbn. rewrite Hi, length_app in Hfu. lia. }
    rewrite Ecf in Hcase. cbn [conn set_conn] in Hcase.
    assert (Hkk : kept f f3).
    { apply (kept_trans _ _ _ Hk1), (kept_trans _ f2); [|done]. split_and!; [by rewrite Ecf; cbn; rewrite Hbr, Ec|done..]. }
    exists f3, i, (d ++ d3). rewrite app_assoc. split_and!; try done.
    destruct Hcase as [(-> & Hd3 & Hi3)|[(-> & -> & Hi3 & Hb3 & Hl3)|(-> & (e & He & Hde) & Ha3)]].
    + left. split_and!; [done|rewrite length_app; lia|]. by rewrite Hi, Hi3, app_assoc.
    + right. left. split_and!; try done; [by rewrite <- Hbr|rewrite length_app; lia].
    + right. right. split_and!; [done| |].
      * exists e. rewrite Hi, He, app_assoc, length_app. split; [done|lia].
      * intros Ha. destruct (Ha3 Ha) as [Hbb Hlb]. rewrite Hi, length_app. split; [congruence|lia].
  - rewrite (proj2 (Z.leb_le 0 0)) by done. exists (set_conn f1 h), 0, []. rewrite app_nil_r. split_and!; try done.
    + destruct Hf1. constructor; cbn; done.
    + apply (kept_trans _ _ _ Hk1). split_and!; [cbn; congruence|done..].
    + right. left. by split_and!.
  - rewrite (proj2 (Z.leb_le (-1) 0)) by done. exists (set_conn f1 h), (-1), []. rewrite app_nil_r. split_and!; try done.
    + destruct Hf1. constructor; cbn; done.
    + apply (kept_trans _ _ _ Hk1). split_and!; [cbn; congruence|done..].
    + right. right. split_and!; [done| |].
      * exists (input (conn f)). split; [done|cbn; lia].
      * intros _. split; [done|lia].
Qed.

End Storage.

End FetchInv.

(** Bodies from a connection: the lines of a chunked body, and numbers. *)
Import Vct Mem HttpConn Wrw WrwThm Fetch FetchInv.

Module FetchLine.

(** ** Reading from a list instead *)

Definition uncons (s : list Z) : list Z * option Z := match s with [] => ([], None) | c :: s => (s, Some c) end.

(** [f] is [f0] but for the connection, where [s] is still to be read. *)
Definition reads (f0 f : fetch) (s : list Z) : Prop :=
  exists h, f = set_conn f0 h /\ input h = s /\ segs_ok h /\ broken h = broken (conn f0).

(** Results that differ in the reader only. *)
Definition res_rel {A} (R : fetch -> list Z -> Prop) (x : res (fetch * A)) (y : res (list Z * A)) : Prop :=
  match x, y with
  | Ok (f, a), Ok (s, b) => R f s /\ a = b
  | Fail e, Fail e' => e = e'
  | _, _ => False
  end.

Section Sim.

Context (f0 : fetch).
#[local] Notation R := (reads f0).

Lemma read1_sim f s : R f s -> exists f' s' o, read1 f = (f', o) /\ uncons s = (s', o) /\ R f' s'.
Proof.
  intros (h & -> & Hi & Hs & Hb). destruct s as [|c s].
  - destruct (read1_nil (set_conn f0 h) Hs Hi) as (h' & -> & Hi' & Hs' & Hb'). do 3 eexists. split_and!; [done..|].
    exists h'. cbn in *. split_and!; try done. congruence.
  - destruct (read1_cons (set_conn f0 h) c s Hs Hi) as (h' & -> & Hi' & Hs' & Hb'). do 3 eexists. split_and!; [done..|].
    exists h'. cbn in *. split_and!; try done. congruence.
Qed.

Ltac step := match goal with H : R ?f ?s |- context [read1 ?f] =>
  let f' := fresh "f" in let s' := fresh "s" in let o := fresh "o" in let H' := fresh "H" in
  destruct (read1_sim f s H) as (f' & s' & o & -> & -> & H'); clear H end.

Lemma bind_rel {A B} (x : res (fetch * A)) (y : res (list Z * A)) (k : fetch * A -> res (fetch * B)) (k' : list Z * A -> res (list Z * B)) :
  res_rel R x y -> (forall f s a, R f s -> res_rel R (k (f, a)) (k' (s, a))) -> res_rel R (x ≫= k) (y ≫= k').
Proof. destruct x as [[f a]|e], y as [[s b]|e']; cbn; try done. intros [H ->] Hk. by apply Hk. Qed.

Lemma skip_lws_sim fuel f s : R f s -> res_rel R (skip_lws read1 fuel f) (skip_lws uncons fuel s).
Proof.
  revert f s. induction fuel as [|fuel IH]; intros f s H; cbn [skip_lws]; [done|]. step.
  destruct o as [c|]; [|done]. destruct (vct_islws c); [by apply IH|done].
Qed.

Lemma next_digit_sim fuel f s buf : R f s -> res_rel R (next_digit read1 fuel f buf) (next_digit uncons fuel s buf).
Proof.
  revert f s. induction fuel as [|fuel IH]; intros f s H; cbn [next_digit]; [done|]. step.
  destruct o as [c|]; [|done]. destruct (_ && _); [by apply IH|done].
Qed.

Lemma collect_hex_sim fuel n f s buf : R f s -> res_rel R (collect_hex read1 fuel n f buf) (collect_hex uncons fuel n s buf).
Proof.
  revert f s buf. induction n as [|n IH]; intros f s buf H; cbn [collect_hex]; [done|].
  apply bind_rel; [by apply next_digit_sim|]. intros f1 s1 [c|] H1; [|done]. destruct (vct_ishex c); [by apply IH|done].
Qed.

Lemma skip_trail_sim fuel f s c : R f s -> res_rel R (skip_trail read1 fuel f c) (skip_trail uncons fuel s c).
Proof.
  revert f s c. induction fuel as [|fuel IH]; intros f s c H; cbn [skip_trail]; destruct (_ && _); try done.
  step. destruct o as [d|]; [by apply IH|done].
Qed.

Lemma chunk_size_sim fuel f s : R f s -> res_rel R (chunk_size read1 fuel f) (chunk_size uncons fuel s).
Proof.
  intros H. unfold chunk_size. apply bind_rel; [by apply skip_lws_sim|]. intros f1 s1 [c|] H1; [|done].
  apply bind_rel; [by apply collect_hex_sim|]. intros f2 s2 [[buf [d|]]|] H2; [|done..].
  apply bind_rel; [by apply skip_trail_sim|]. intros f3 s3 [e|] H3; [|done]. by destruct (e =? 10).
Qed.

Lemma chunk_tail_sim f s : R f s -> exists f' s' b, chunk_tail read1 f = (f', b) /\ chunk_tail uncons s = (s', b) /\ R f' s'.
Proof.
  intros H. unfold chunk_tail. step. destruct o as [c|]; [|by do 3 eexists]. destruct (c =? 13); cbn [negb]; [|by do 3 eexists].
  step. by do 3 eexists.
Qed.

End Sim.

(** ** Enough fuel *)

Lemma uncons_shorter s s' o : uncons s = (s', o) -> (length s' <= length s)%nat /\ (is_Some o -> (length s' < length s)%nat).
Proof. destruct s; intros [= <- <-]; cbn; split; try lia. by intros [? ?]. Qed.

(** The reader gets on. *)
Definition shorter {A} (s : list Z) (x : res (list Z * A)) : Prop := exists s' a, x = Ok (s', a) /\ (length s' <= length s)%nat.

Lemma skip_lws_total fuel s : (length s < fuel)%nat -> shorter s (skip_lws uncons fuel s).
Proof.
  revert s. induction fuel as [|fuel IH]; intros s Hf; [lia|]. cbn [skip_lws]. destruct s as [|c s]; cbn [uncons].
  { by exists [], None. }
  destruct (vct_islws c); [|exists s, (Some c); split; [done|cbn; lia]].
  destruct (IH s) as (s' & a & -> & Hl); [cbn in Hf; lia|]. exists s', a. split; [done|cbn; lia].
Qed.

Lemma next_digit_total fuel s buf : (length s < fuel)%nat -> shorter s (next_digit uncons fuel s buf).
Proof.
  revert s. induction fuel as [|fuel IH]; intros s Hf; [lia|]. cbn [next_digit]. destruct s as [|c s]; cbn [uncons].
  { by exists [], None. }
  destruct (_ && _); [|exists s, (Some c); split; [done|cbn; lia]].
  destruct (IH s) as (s' & a & -> & Hl); [cbn in Hf; lia|]. exists s', a. split; [done|cbn; lia].
Qed.

Lemma collect_hex_total fuel n s buf : (length s < fuel)%nat -> shorter s (collect_hex uncons fuel n s buf).
Proof.
  revert s buf. induction n as [|n IH]; intros s buf Hf; cbn [collect_hex]; [by exists s, (Some (buf, None))|].
  destruct (next_digit_total fuel s buf Hf) as (s1 & o & -> & Hl). cbn [mbind res_bind]. destruct o as [c|]; [|by exists s1, None].
  destruct (vct_ishex c); [|by exists s1, (Some (buf, Some c))].
  destruct (IH s1 (buf ++ [c])) as (s2 & a & -> & Hl2); [lia|]. exists s2, a. split; [done|lia].
Qed.

Lemma skip_trail_total fuel s c : (length s < fuel)%nat -> shorter s (skip_trail uncons fuel s c).
Proof.
  revert s c. induction fuel as [|fuel IH]; intros s c Hf; [lia|]. cbn [skip_trail].
  destruct (_ && _); [|by exists s, (Some c)]. destruct s as [|d s]; cbn [uncons]; [by exists [], None|].
  destruct (IH s d) as (s' & a & -> & Hl); [cbn in Hf; lia|]. exists s', a. split; [done|cbn; lia].
Qed.

Lemma chunk_size_total fuel s : (length s < fuel)%nat -> shorter s (chunk_size uncons fuel s).
Proof.
  intros Hf. unfold chunk_size. destruct (skip_lws_total fuel s Hf) as (s1 & [c|] & -> & H1); cbn [mbind res_bind]; [|by exists s1, (-1)].
  destruct (collect_hex_total fuel 19 s1 [c]) as (s2 & o & -> & H2); [lia|]. cbn [mbind res_bind].
  destruct o as [[buf [d|]]|]; [|exists s2, (-1); split; [done|lia]..].
  destruct (skip_trail_total fuel s2 d) as (s3 & o & -> & H3); [lia|]. cbn [mbind res_bind].
  destruct o as [e|]; [|exists s3, (-1); split; [done|lia]]. destruct (e =? 10); cbn [negb]; eexists s3, _; (split; [done|lia]).
Qed.

Lemma chunk_tail_shorter s s' b : chunk_tail uncons s = (s', b) -> (length s' <= length s)%nat /\ (b = true -> (length s' < length s)%nat).
Proof.
  unfold chunk_tail. destruct s as [|c s]; cbn [uncons]; [by intros [= <- <-]|].
  destruct (c =? 13); cbn [negb]; [|intros [= <- <-]; cbn; lia].
  destruct s as [|d s]; cbn [uncons]; intros [= <- <-]; cbn; lia.
Qed.

(** ** Numbers *)

Definition dval (c : Z) : Z := default 0 (digit_val c).
Definition is_dig (radix c : Z) : Prop := exists d, digit_val c = Some d /\ 0 <= d < radix.

(** What digits stand for. *)
Definition value (radix acc : Z) (s : list Z) : Z := fold_left (fun a c => a * radix + dval c) s acc.

Lemma digits_all radix s acc : Forall (is_dig radix) s -> digits radix acc s = (value radix acc s, []).
Proof.
  revert acc. induction s as [|c s IH]; intros acc Hs; [done|]. apply Forall_cons in Hs as [(d & Hd & Hr) Hs].
  cbn [digits]. rewrite Hd, (proj2 (Z.ltb_lt _ _)) by lia. rewrite IH by done. unfold value. cbn. unfold dval. by rewrite Hd.
Qed.

Lemma value_nonneg radix s acc : 0 <= radix -> 0 <= acc -> Forall (is_dig radix) s -> 0 <= value radix acc s.
Proof.
  intros Hr. revert acc. induction s as [|c s IH]; intros acc Ha Hs; [done|]. apply Forall_cons in Hs as [(d & Hd & Hb) Hs].
  apply IH; [|done]. unfold dval. rewrite Hd. cbn. nia.
Qed.

Lemma dig_char radix c : is_dig radix c -> isspace c = false /\ c <> 45 /\ c <> 43 /\ c <> 0.
Proof.
  intros (d & Hd & _). unfold digit_val in Hd. unfold isspace.
  repeat match type of Hd with context [if ?b then _ else _] => destruct b eqn:?; [injection Hd as <-|] end; try done;
    repeat match goal with H : _ && _ = true |- _ => apply andb_prop in H as [?%Z.leb_le ?%Z.leb_le] end;
    (split; [|lia]); apply orb_false_iff; (split; [apply Z.eqb_neq; lia|apply andb_false_iff; right; apply Z.leb_gt; lia]).
Qed.

(** A string of digits is read as what it stands for. *)
Lemma strtoumax_digits radix s : radix = 10 \/ radix = 16 /\ (forall x t, s = 48 :: x :: t -> x <> 120 /\ x <> 88) ->
  s <> [] -> Forall (is_dig radix) s ->
  strtoumax s radix = (if 2 ^ 64 <=? value radix 0 s then 2 ^ 64 - 1 else value radix 0 s, []).
Proof.
  intros Hr Hne Hs. destruct s as [|c s]; [done|].
  pose proof Hs as Hs2. apply Forall_cons in Hs2 as [Hc _]. destruct (dig_char _ _ Hc) as (Hsp & H45 & H43 & H0).
  unfold strtoumax. cbn [spaces]. rewrite Hsp.
  assert (Esign : match c :: s with 45 :: p => (true, p) | 43 :: p => (false, p) | _ => (false, c :: s) end = (false, c :: s)).
  { clear - H45 H43. repeat (destruct c as [|c|c]; try done). }
  rewrite Esign. clear Esign.
  assert (Epre : (if radix =? 16 then match c :: s with 48 :: x :: q => if ((x =? 120) || (x =? 88)) && is_digit 16 q then q else c :: s | _ => c :: s end else c :: s) = c :: s).
  { destruct Hr as [->|[-> Hx]]; [done|]. cbn [Z.eqb Pos.eqb]. destruct (Z.eqb_spec c 48) as [->|Hc48].
    - destruct s as [|x s]; [done|]. destruct (Hx x s eq_refl) as [H1 H2]. by rewrite (proj2 (Z.eqb_neq _ _) H1), (proj2 (Z.eqb_neq _ _) H2).
    - clear - Hc48. repeat (destruct c as [|c|c]; try done). }
  rewrite Epre. clear Epre.
  assert (Edig : is_digit radix (c :: s) = true). { destruct Hc as (d & Hd & Hb). cbn. rewrite Hd. apply Z.ltb_lt. lia. }
  rewrite Edig. cbn [negb]. by rewrite (digits_all radix (c :: s) 0 Hs).
Qed.

(** Up to [2 ^ 63]; above it is refused. *)
Lemma fetch_number_digits radix s : radix = 10 \/ radix = 16 /\ (forall x t, s = 48 :: x :: t -> x <> 120 /\ x <> 88) ->
  s <> [] -> Forall (is_dig radix) s ->
  if value radix 0 s <? 2 ^ 63 then fetch_number s radix = value radix 0 s else fetch_number s radix < 0.
Proof.
  intros Hr Hne Hs. assert (Hr0 : 0 <= radix) by (destruct Hr as [->|[-> _]]; done).
  pose proof (value_nonneg radix s 0 Hr0 (Z.le_refl 0) Hs) as Hv. pose proof (strtoumax_digits radix s Hr Hne Hs) as E.
  destruct s as [|c s]; [done|]. pose proof Hs as Hs2. apply Forall_cons in Hs2 as [Hc _]. destruct (dig_char _ _ Hc) as (_ & _ & _ & H0).
  unfold fetch_number. rewrite (proj2 (Z.eqb_neq _ _) H0), E.
  set (v := value radix 0 (c :: s)) in *. cbv zeta. unfold s64, u64.
  destruct (Z.leb_spec (2 ^ 64) v) as [Hbig|Hsmall].
  - rewrite (proj2 (Z.ltb_ge _ _)) by lia. by vm_compute.
  - rewrite (Z.mod_small v) by lia. destruct (Z.ltb_spec v (2 ^ 63)).
    + rewrite (Z.mod_small v), Z.eqb_refl by lia. done.
    + destruct (_ =? _); lia.
Qed.

(** ** Chunk heads *)

Lemma hex_digit_ok d : 0 <= d < 16 ->
  digit_val (hex_digit d) = Some d /\ vct_ishex (hex_digit d) = true /\ vct_islws (hex_digit d) = false /\
  (hex_digit d = 48 <-> d = 0) /\ hex_digit d <> 120 /\ hex_digit d <> 88.
Proof.
  intros Hd.
  assert (H : forallb (fun d => bool_decide (digit_val (hex_digit d) = Some d) && vct_ishex (hex_digit d) && negb (vct_islws (hex_digit d)) &&
    Bool.eqb (hex_digit d =? 48) (d =? 0) && negb (hex_digit d =? 120) && negb (hex_digit d =? 88)) (seqZ 0 16) = true) by by vm_compute.
  rewrite forallb_forall in H. specialize (H d). rewrite <- list_elem_of_In, elem_of_seqZ in H. specialize (H ltac:(lia)).
  repeat match goal with H : _ && _ = true |- _ => apply andb_prop in H as [H ?] end.
  repeat match goal with H : negb _ = true |- _ => apply negb_true_iff in H end.
  apply bool_decide_eq_true_1 in H. split_and!; try done; try (by apply Z.eqb_neq).
  match goal with H : Bool.eqb _ _ = true |- _ => apply eqb_prop in H; rewrite <- (Z.eqb_eq (hex_digit d)), H; apply Z.eqb_eq end.
Qed.

Lemma hex_rev_ok fuel n : 0 <= n < 16 ^ Z.of_nat fuel ->
  Forall (fun c => exists d, 0 <= d < 16 /\ c = hex_digit d) (hex_rev fuel n) /\
  (forall acc, value 16 acc (rev (hex_rev fuel n)) = acc * 16 ^ Z.of_nat (length (hex_rev fuel n)) + n) /\
  (length (hex_rev fuel n) <= fuel)%nat /\
  (0 < n -> exists l d, hex_rev fuel n = l ++ [hex_digit d] /\ 0 < d < 16).
Proof.
  revert n. induction fuel as [|fuel IH]; intros n Hn; cbn [hex_rev].
  { change (16 ^ Z.of_nat 0) with 1 in Hn. assert (n = 0) as -> by lia. split_and!; [done|intros; cbn; lia|done|lia]. }
  destruct (Z.leb_spec n 0). { assert (n = 0) as -> by lia. split_and!; [done|intros; cbn; lia|cbn; lia|lia]. }
  rewrite Nat2Z.inj_succ, Z.pow_succ_r in Hn by lia. pose proof (Z.div_mod n 16 ltac:(lia)) as Hdm. pose proof (Z.mod_pos_bound n 16 ltac:(lia)) as Hm.
  destruct (IH (n / 16)) as (Hf & Hv & Hl & Hlast); [split; [by apply Z.div_pos; lia|apply Z.div_lt_upper_bound; lia]|].
  split_and!.
  - constructor; [|done]. by exists (n mod 16).
  - intros acc. cbn [rev length]. unfold value. rewrite fold_left_app. cbn. fold (value 16 acc (rev (hex_rev fuel (n / 16)))).
    rewrite Hv. unfold dval. destruct (hex_digit_ok (n mod 16) Hm) as (-> & _). cbn [default].
    rewrite Nat2Z.inj_succ, Z.pow_succ_r by lia. unfold id. lia.
  - cbn. lia.
  - intros _. destruct (Z.eq_dec (n / 16) 0) as [E|E].
    + rewrite E. exists [], (n mod 16). split; [by destruct fuel|]. lia.
    + destruct Hlast as (l & d & -> & Hd); [assert (0 <= n / 16) by (apply Z.div_pos; lia); lia|]. by exists (hex_digit (n mod 16) :: l), d.
Qed.

Definition is_hex (c : Z) : Prop := is_dig 16 c /\ vct_ishex c = true /\ vct_islws c = false.

Lemma hex_forall n : 0 <= n < 2 ^ 64 -> Forall is_hex (hex n) /\ value 16 0 (hex n) = n /\ (length (hex n) <= 16)%nat /\
  (0 < n -> exists c l, hex n = c :: l /\ c <> 48) /\ Forall (fun c => c <> 120 /\ c <> 88) (hex n).
Proof.
  intros Hn. unfold hex. destruct (hex_rev_ok 16 n) as (Hf & Hv & Hl & Hh); [exact Hn|]. split_and!.
  - apply Forall_rev. eapply Forall_impl; [exact Hf|]. intros c (d & Hd & ->). destruct (hex_digit_ok d Hd) as (H1 & H2 & H3 & _).
    split_and!; [|done..]. by exists d.
  - rewrite Hv. lia.
  - by rewrite length_rev.
  - intros Hp. destruct (Hh Hp) as (l & d & -> & Hd). rewrite rev_unit. exists (hex_digit d), (rev l). split; [done|].
    destruct (hex_digit_ok d) as (_ & _ & _ & [H0 _] & _); [lia|]. intros E. specialize (H0 E). lia.
  - apply Forall_rev. eapply Forall_impl; [exact Hf|]. intros c (d & Hd & ->). destruct (hex_digit_ok d Hd) as (_ & _ & _ & _ & H5 & H6). done.
Qed.

Lemma collect_hex_all fuel n ds buf c s : Forall is_hex ds -> (length ds < n)%nat -> vct_ishex c = false ->
  (buf = [48] -> match ds with [] => True | d :: _ => d <> 48 end) -> buf <> [] ->
  collect_hex uncons (S fuel) n (ds ++ c :: s) buf = Ok (s, Some (buf ++ ds, Some c)).
Proof.
  revert ds buf. induction n as [|n IH]; intros ds buf Hds Hn Hc Hz Hb; [lia|]. cbn [collect_hex next_digit].
  destruct ds as [|d ds]; cbn [app uncons].
  - replace (bool_decide (buf = [48]) && (c =? 48)) with false. { cbn [mbind res_bind mret res_ret]. by rewrite Hc, app_nil_r. }
    symmetry. apply andb_false_iff. right. apply Z.eqb_neq. intros ->. by vm_compute in Hc.
  - apply Forall_cons in Hds as [(_ & Hd & _) Hds].
    replace (bool_decide (buf = [48]) && (d =? 48)) with false.
    { cbn [mbind res_bind mret res_ret]. rewrite Hd, IH; try done; [by rewrite <- app_assoc|cbn in Hn; lia|..].
      - intros E. destruct buf as [|? [|? ?]]; done.
      - by destruct buf. }
    symmetry. destruct (bool_decide_reflect (buf = [48])) as [E|]; [|done]. apply Z.eqb_neq. by apply Hz.
Qed.

(** A line, given the digits of it. *)
Lemma chunk_size_line fuel c t buf s : vct_islws c = false -> collect_hex uncons (S fuel) 19 t [c] = Ok (10 :: s, Some (buf, Some 13)) ->
  chunk_size uncons (S fuel) (c :: t) = Ok (s, fetch_number buf 16).
Proof.
  intros Hc Ht. unfold chunk_size. cbn [skip_lws uncons]. rewrite Hc. cbn [mbind res_bind mret res_ret]. rewrite Ht.
  cbn [mbind res_bind mret res_ret skip_trail]. change (vct_islws 13) with true. cbn [andb Z.eqb Pos.eqb negb uncons].
  destruct fuel; cbn [skip_trail]; change (vct_islws 10) with true; by cbn.
Qed.

(** A chunk head says how long the chunk is. *)
Lemma chunk_size_head fuel n s : 0 < n < 2 ^ 63 -> chunk_size uncons (S (S fuel)) (chunk_head n ++ s) = Ok (s, n).
Proof.
  intros Hn. destruct (hex_forall n) as (Hf & Hv & Hl & Hh & Hx); [lia|]. destruct (Hh (proj1 Hn)) as (c & l & E & Hc).
  unfold chunk_head. rewrite <- !app_assoc. cbn [app].
  rewrite (chunk_size_line _ 48 _ (48 :: hex n) s); [|done|].
  - f_equal. f_equal. pose proof (fetch_number_digits 16 (48 :: hex n)) as Hd.
    change (value 16 0 (48 :: hex n)) with (value 16 0 (hex n)) in Hd. rewrite Hv, (proj2 (Z.ltb_lt _ _) (proj2 Hn)) in Hd.
    apply Hd; [|done|].
    + right. split; [done|]. intros x t [= Ex]. rewrite Ex in Hx. by apply Forall_cons in Hx as [? _].
    + constructor; [by exists 0|]. eapply Forall_impl; [exact Hf|]. by intros ? [? _].
  - assert (Hco : collect_hex uncons (S (S fuel)) 19 (hex n ++ crlf ++ s) [48] = Ok (10 :: s, Some ([48] ++ hex n, Some 13))).
    { apply (collect_hex_all _ _ (hex n) [48] 13 (10 :: s)); try done; [lia|]. rewrite E. by intros _. }
    rewrite E in Hco |- *. cbn [app] in Hco |- *. rewrite <- Hco. cbn [collect_hex next_digit uncons].
    change (bool_decide ([48] = [48]) && (48 =? 48)) with true. cbv iota.
    by rewrite (proj2 (Z.eqb_neq c 48) Hc), andb_false_r.
Qed.

Lemma chunk_size_last fuel s : chunk_size uncons (S fuel) (str "0" ++ crlf ++ s) = Ok (s, 0).
Proof.
  change (str "0" ++ crlf ++ s) with (48 :: ([] ++ 13 :: 10 :: s)). rewrite (chunk_size_line _ _ _ [48] s); [done..|].
  apply (collect_hex_all _ _ [] [48] 13 (10 :: s)); [by constructor|cbn; lia|done..].
Qed.

Lemma chunk_tail_crlf s : chunk_tail uncons (crlf ++ s) = (s, true).
Proof. done. Qed.

End FetchLine.
