(* ===== verification/Coding.v ===== *)
(** Bodies as they are written on a connection: what a number, a chunk and a body with
    chunks are, as grammars, and that the readers of [Fetch] recognise just these. *)
From S2P Require Import Prelude Vct Mem HttpConn Wrw WrwThm Fetch FetchInv.
Import Vct Mem HttpConn Wrw WrwThm Fetch FetchInv FetchLine.

Module Coding.

#[local] Arguments vct_islws : simpl never.
#[local] Arguments vct_ishex : simpl never.
#[local] Arguments chunk_head : simpl never.
#[local] Arguments crlf : simpl never.
#[local] Arguments chunk_size : simpl never.
#[local] Arguments chunk_tail : simpl never.

(** ** Grammars *)

(** A digit and what it is worth. *)
Definition digit (radix c v : Z) : Prop := 0 <= v < radix /\
  (48 <= c <= 57 /\ v = c - 48 \/ 97 <= c <= 122 /\ v = c - 87 \/ 65 <= c <= 90 /\ v = c - 55).

(** Digits, by their place. *)
Inductive numeral (radix : Z) : list Z -> Z -> Prop :=
  | num_one c v : digit radix c v -> numeral radix [c] v
  | num_more s n c v : numeral radix s n -> digit radix c v -> numeral radix (s ++ [c]) (n * radix + v).

(** White space of the C library, and of HTTP; octets are unsigned. *)
Definition space_c (c : Z) : Prop := 9 <= c <= 13 \/ c = 32.
Definition blank (c : Z) : Prop := (c mod 256) ∈ [32; 9; 13; 10].

(** A length that is accepted: after white space and a sign, a numeral.  It is below
    [2 ^ 63]; one with a minus is what it wraps to. *)
Definition number_text (radix : Z) (t : list Z) (n : Z) : Prop := exists sp sg ds v,
  t = sp ++ sg ++ ds /\ Forall space_c sp /\ numeral radix ds v /\ 0 <= n < 2 ^ 63 /\
  ((sg = [] \/ sg = [43]) /\ n = v \/ sg = [45] /\ v < 2 ^ 64 /\ n = (- v) mod 2 ^ 64).

(** The line before a chunk of [n] octets, and what is after it: white space; the number,
    of an octet and at most 18 more, not counting the zeros after a first zero;
    white space; the end of the line.  There are no extensions. *)
Definition size_line (s : list Z) (n : Z) (r : list Z) : Prop := exists lead c (zeros : nat) h trail,
  s = lead ++ c :: repeat 48 zeros ++ h ++ trail ++ 10 :: r /\
  Forall blank lead /\ ~ blank c /\ (zeros <> 0%nat -> c = 48) /\ (c = 48 -> hd_error h <> Some 48) /\
  (length h <= 18)%nat /\ Forall (fun c => exists v, digit 16 c v) h /\ Forall (fun c => blank c /\ c <> 10) trail /\
  number_text 16 (c :: h) n.

Definition line_end (e : list Z) : Prop := e = [10] \/ e = [13; 10].

(** A text that begins with a body in chunks, the body, and what is after it.  There are
    no trailers: the line end follows the line of the last chunk. *)
Inductive chunked : list Z -> list Z -> list Z -> Prop :=
  | ch_last s e r : size_line s 0 (e ++ r) -> line_end e -> chunked s [] r
  | ch_more s d e t b r : size_line s (Z.of_nat (length d)) (d ++ e ++ t) -> d <> [] -> line_end e ->
      chunked t b r -> chunked s (d ++ b) r.

(** Octets of bodies that the chunks at the begin of a text hold, as far as they are there. *)
Inductive chunks_begin : list Z -> list Z -> Prop :=
  | cb_none s : chunks_begin s []
  | cb_part s n d r : size_line s n (d ++ r) -> Z.of_nat (length d) <= n -> chunks_begin s d
  | cb_more s d e t b : size_line s (Z.of_nat (length d)) (d ++ e ++ t) -> line_end e ->
      chunks_begin t b -> chunks_begin s (d ++ b).

(** The body of a response, by its framing: [b] is its length as it is written, [cut]
    says that the connection did not end in order, [s] is what was sent, and [r] what is
    after the body. *)
Definition frames (bs : body_status) (b : list Z) (cut : bool) (s d r : list Z) : Prop :=
  match bs with
  | BS_NONE | BS_ZERO => d = [] /\ r = s
  | BS_LENGTH => number_text 10 b (Z.of_nat (length d)) /\ s = d ++ r
  | BS_CHUNKED => chunked s d r
  | BS_EOF => cut = false /\ d = s /\ r = []
  | BS_ERROR => False
  end.

(** The begin of a body, whether or not it comes to its end. *)
Definition begins (bs : body_status) (b : list Z) (s d : list Z) : Prop :=
  match bs with
  | BS_NONE | BS_ZERO | BS_ERROR => d = []
  | BS_LENGTH => d = [] \/ exists n, number_text 10 b n /\ d `prefix_of` s /\ Z.of_nat (length d) <= n
  | BS_CHUNKED => chunks_begin s d
  | BS_EOF => d `prefix_of` s
  end.

(** ** Octets *)

Lemma digit_val_iff radix c v : radix <= 36 -> digit radix c v <-> digit_val c = Some v /\ 0 <= v < radix.
Proof.
  intros Hr. unfold digit, digit_val. split.
  - intros (Hb & H). split; [|done]. repeat match goal with |- context [?a <=? ?b] => destruct (Z.leb_spec a b) end; cbn; try lia; f_equal; lia.
  - intros (E & Hb). split; [done|]. revert E.
    repeat match goal with |- context [?a <=? ?b] => destruct (Z.leb_spec a b) end; cbn; intros E; try done; injection E as <-; lia.
Qed.

Lemma is_dig_iff radix c : radix <= 36 -> is_dig radix c <-> exists v, digit radix c v.
Proof.
  intros Hr. split.
  - intros (v & Hv & Hb). exists v. by apply digit_val_iff.
  - intros [v Hv]. apply digit_val_iff in Hv as [Hv Hb]; [|done]. by exists v.
Qed.

Lemma isspace_iff c : isspace c = true <-> space_c c.
Proof. unfold isspace, space_c. rewrite orb_true_iff, andb_true_iff, Z.eqb_eq, !Z.leb_le. lia. Qed.

Lemma blank_iff c : vct_islws c = true <-> blank c.
Proof.
  assert (E : vct_islws c = vct_islws (c mod 256)) by (unfold vct_islws, vct_is, u8; by rewrite Zmod_mod).
  assert (Hb : is_byte (c mod 256)) by (unfold is_byte; pose proof (Z.mod_pos_bound c 256); lia).
  destruct (vct_classes _ Hb) as (_ & _ & _ & H1 & H2 & H3 & _). rewrite E, H3, H1, H2. unfold blank.
  rewrite !orb_true_iff, !Z.eqb_eq, !elem_of_cons, elem_of_nil. tauto.
Qed.

Lemma blank_false c : vct_islws c = false <-> ~ blank c.
Proof. rewrite <- blank_iff. by destruct (vct_islws c). Qed.

Lemma digit_ishex c v : digit 16 c v -> vct_ishex c = true /\ c <> 120 /\ c <> 88 /\ ~ space_c c /\ c <> 43 /\ c <> 45.
Proof.
  intros [Hv H]. unfold space_c. split; [|lia]. assert (Hb : is_byte c) by (unfold is_byte; lia).
  destruct (vct_classes c Hb) as (_ & _ & -> & _). unfold between.
  destruct (Z.leb_spec 48 c), (Z.leb_spec c 57), (Z.leb_spec 65 c), (Z.leb_spec c 70), (Z.leb_spec 97 c), (Z.leb_spec c 102); cbn; done || lia.
Qed.

Lemma not_hex c : blank c \/ c = 10 \/ space_c c \/ c = 43 \/ c = 45 -> vct_ishex c = false.
Proof.
  assert (E : vct_ishex c = vct_ishex (c mod 256)) by (unfold vct_ishex, vct_is, u8; by rewrite Zmod_mod).
  assert (Hm : forall x, (x =? 32) || (9 <=? x) && (x <=? 13) || (x =? 43) || (x =? 45) = true -> is_byte x -> vct_ishex x = false).
  { intros x Hx Hb. destruct (vct_classes x Hb) as (_ & _ & -> & _). unfold between.
    destruct (Z.eqb_spec x 32), (Z.leb_spec 9 x), (Z.leb_spec x 13), (Z.eqb_spec x 43), (Z.eqb_spec x 45); cbn in Hx; try done;
    destruct (Z.leb_spec 48 x), (Z.leb_spec x 57), (Z.leb_spec 65 x), (Z.leb_spec x 70), (Z.leb_spec 97 x), (Z.leb_spec x 102); cbn; done || lia. }
  intros H. rewrite E. assert (Hb : is_byte (c mod 256)) by (unfold is_byte; pose proof (Z.mod_pos_bound c 256); lia).
  apply Hm; [|done]. unfold blank, space_c in H. rewrite !elem_of_cons, elem_of_nil in H.
  destruct H as [H|H]; [|rewrite Z.mod_small by lia]; rewrite !orb_true_iff, !andb_true_iff, !Z.eqb_eq, !Z.leb_le; lia.
Qed.

(** ** Numbers *)

Lemma value_app radix acc s c : value radix acc (s ++ [c]) = value radix acc s * radix + dval c.
Proof. unfold value. by rewrite fold_left_app. Qed.

Lemma numeral_iff radix s n : radix <= 36 -> numeral radix s n <-> s <> [] /\ Forall (is_dig radix) s /\ n = value radix 0 s.
Proof.
  intros Hr. split.
  - induction 1 as [c v Hd|s n c v _ (Hne & Hs & ->) Hd]; apply digit_val_iff in Hd as [Hd Hb]; try done.
    + split_and!; [done|apply Forall_singleton; by exists v|]. unfold value. cbn. unfold dval. by rewrite Hd.
    + split_and!; [by destruct s|apply Forall_app; split; [done|]; apply Forall_singleton; by exists v|].
      rewrite value_app. unfold dval. by rewrite Hd.
  - intros (Hne & Hs & ->). induction s as [|c s IH] using rev_ind; [done|]. apply Forall_app in Hs as [Hs Hc].
    apply Forall_singleton in Hc as (v & Hv & Hb). assert (Hd : digit radix c v) by (by apply digit_val_iff).
    rewrite value_app. unfold dval. rewrite Hv. destruct s as [|x s].
    + cbn. by apply num_one.
    + apply num_more; [|done]. by apply IH.
Qed.

Lemma spaces_split s : exists sp, s = sp ++ spaces s /\ Forall space_c sp /\ match spaces s with c :: _ => ~ space_c c | [] => True end.
Proof.
  induction s as [|c s (sp & E & Hsp & Hh)]; [by exists []|]. cbn [spaces]. destruct (isspace c) eqn:Ec.
  - exists (c :: sp). split; [by rewrite E at 1|]. split; [|done]. constructor; [by apply isspace_iff|done].
  - exists []. split_and!; [done..|]. rewrite <- isspace_iff. congruence.
Qed.

Lemma spaces_app sp p : Forall space_c sp -> match p with c :: _ => ~ space_c c | [] => True end -> spaces (sp ++ p) = p.
Proof.
  intros Hsp Hp. induction Hsp as [|c sp Hc _ IH]; cbn [app spaces].
  - destruct p as [|c p]; [done|]. cbn [spaces]. rewrite <- isspace_iff in Hp. by destruct (isspace c).
  - by rewrite (proj2 (isspace_iff c) Hc).
Qed.

Lemma digits_split radix s acc v : digits radix acc s = (v, []) -> radix <= 36 -> Forall (fun c => forall d, digit_val c = Some d -> 0 <= d) s ->
  Forall (is_dig radix) s /\ v = value radix acc s.
Proof.
  intros E Hr. revert acc E. induction s as [|c s IH]; intros acc; cbn [digits].
  { intros [= <-] _. by split. }
  destruct (digit_val c) as [d|] eqn:Ed; [|done]. destruct (Z.ltb_spec d radix); [|done]. intros E Hf.
  apply Forall_cons in Hf as [Hc Hf]. destruct (IH _ E Hf) as [Hs ->]. split; [constructor; [|done]; exists d; split; [done|]|].
  - specialize (Hc d Ed). lia.
  - unfold value. cbn. unfold dval. by rewrite Ed.
Qed.

Lemma digit_val_nonneg c d : digit_val c = Some d -> 0 <= d.
Proof.
  unfold digit_val. repeat case_match; intros [= <-]; repeat match goal with H : _ && _ = true |- _ => apply andb_prop in H as [?%Z.leb_le ?%Z.leb_le] end; lia.
Qed.

(** The sign, and what is after it. *)
Lemma sign_match (p : list Z) :
  match p with 45 :: p => (true, p) | 43 :: p => (false, p) | _ => (false, p) end =
  match p with c :: q => if c =? 45 then (true, q) else if c =? 43 then (false, q) else (false, p) | [] => (false, p) end.
Proof. destruct p as [|c p]; [done|]. repeat (destruct c as [|c|c]; try done). Qed.

Lemma prefix_match radix (p : list Z) : radix = 10 \/ radix = 16 /\ Forall (fun c => c <> 120 /\ c <> 88) p ->
  (if radix =? 16 then match p with 48 :: x :: q => if ((x =? 120) || (x =? 88)) && is_digit 16 q then q else p | _ => p end else p) = p.
Proof.
  intros [->|[-> Hp]]; [done|]. cbn [Z.eqb Pos.eqb]. destruct p as [|c [|x p]]; try (repeat (destruct c as [|c|c]; try done); done).
  apply Forall_cons in Hp as [_ Hp]. apply Forall_cons in Hp as [[H1 H2] _].
  rewrite (proj2 (Z.eqb_neq _ _) H1), (proj2 (Z.eqb_neq _ _) H2). repeat (destruct c as [|c|c]; try done).
Qed.

Lemma strtoumax_eq radix s : radix = 10 \/ radix = 16 /\ Forall (fun c => c <> 120 /\ c <> 88) s ->
  exists sp sg p, s = sp ++ sg ++ p /\ Forall space_c sp /\ (sg = [] \/ sg = [43] \/ sg = [45]) /\
    strtoumax s radix = if negb (is_digit radix p) then (0, s) else
      let '(v, q) := digits radix 0 p in
      (if 2 ^ 64 <=? v then 2 ^ 64 - 1 else if bool_decide (sg = [45]) then (- v) mod 2 ^ 64 else v, q).
Proof.
  intros Hr. destruct (spaces_split s) as (sp & E & Hsp & _). set (p0 := spaces s) in *.
  assert (Hx : forall p, p `suffix_of` s -> radix = 10 \/ radix = 16 /\ Forall (fun c => c <> 120 /\ c <> 88) p).
  { intros p [k Ek]. destruct Hr as [->|[-> Hr]]; [by left|right]. split; [done|]. rewrite Ek in Hr. by apply Forall_app in Hr as [_ Hr]. }
  unfold strtoumax. fold p0. rewrite sign_match. destruct p0 as [|c q].
  { exists sp, [], []. rewrite (prefix_match radix []) by (apply Hx; by exists s; rewrite app_nil_r). split_and!; [done|done|by left|done]. }
  destruct (Z.eqb_spec c 45) as [->|]; [|destruct (Z.eqb_spec c 43) as [->|]].
  - exists sp, [45], q. rewrite prefix_match by (apply Hx; exists (sp ++ [45]); by rewrite <- app_assoc). split_and!; [done|done|by right; right|done].
  - exists sp, [43], q. rewrite prefix_match by (apply Hx; exists (sp ++ [43]); by rewrite <- app_assoc). split_and!; [done|done|by right; left|done].
  - exists sp, [], (c :: q). assert (Ep := prefix_match radix (c :: q) (Hx (c :: q) (ex_intro _ sp E))). cbv beta iota in Ep |- *. rewrite Ep. split_and!; [done|done|by left|done].
Qed.

Lemma s64_u64_small c : 0 <= c < 2 ^ 63 -> s64 c = c /\ u64 (s64 c) = c.
Proof. intros H. unfold s64, u64. rewrite (Z.mod_small c) by lia. rewrite (proj2 (Z.ltb_lt _ _)) by lia. split; [done|]. apply Z.mod_small. lia. Qed.

Lemma s64_big c : 2 ^ 63 <= c < 2 ^ 64 -> s64 c < 0.
Proof. intros H. unfold s64. rewrite (Z.mod_small c) by lia. rewrite (proj2 (Z.ltb_ge _ _)) by lia. lia. Qed.

(** [fetch_number] reads these texts, and no others. *)
Lemma fetch_number_iff radix s n : radix = 10 \/ radix = 16 /\ Forall (fun c => c <> 120 /\ c <> 88) s ->
  fetch_number s radix = n /\ 0 <= n <-> number_text radix s n.
Proof.
  intros Hr. assert (H36 : 0 <= radix <= 36) by (destruct Hr as [->|[-> _]]; lia). split.
  - intros [E Hn]. destruct s as [|c0 s0]; [cbn in E; lia|]. unfold fetch_number in E. destruct (c0 =? 0); [lia|].
    destruct (strtoumax_eq radix (c0 :: s0) Hr) as (sp & sg & p & Es & Hsp & Hsg & Em). rewrite Em in E.
    destruct (is_digit radix p) eqn:Ed; cbn [negb] in E; [|lia]. destruct (digits radix 0 p) as [v q] eqn:Eg. destruct q as [|x q]; [|lia].
    destruct (digits_split radix p 0 v Eg) as [Hp Hv]; [lia|apply Forall_true; intros x; apply digit_val_nonneg|].
    pose proof (value_nonneg radix p 0 (proj1 H36) (Z.le_refl 0) Hp) as Hv0. rewrite <- Hv in Hv0. cbv zeta in E.
    exists sp, sg, p, v. split; [done|]. split; [done|]. split.
    { apply numeral_iff; [lia|]. split_and!; [by intros ->|done..]. }
    set (cl := if 2 ^ 64 <=? v then _ else _) in E.
    assert (Hcl : 0 <= cl < 2 ^ 64).
    { unfold cl. destruct (Z.leb_spec (2 ^ 64) v); [lia|]. case_bool_decide; [apply Z.mod_pos_bound; lia|lia]. }
    assert (Hsm : cl < 2 ^ 63). { destruct (Z.lt_ge_cases cl (2 ^ 63)); [done|]. pose proof (s64_big cl). destruct (u64 (s64 cl) =? cl); lia. }
    destruct (s64_u64_small cl) as [E1 E2]; [lia|]. rewrite E2, Z.eqb_refl, E1 in E. subst n. split; [lia|].
    unfold cl in *. destruct (Z.leb_spec (2 ^ 64) v); [lia|].
    destruct Hsg as [-> | [-> | ->]]; [rewrite bool_decide_eq_false_2 by done; tauto..|rewrite bool_decide_eq_true_2 by done; tauto].
  - intros (sp & sg & ds & v & -> & Hsp & Hnum & Hn & Hsg). apply numeral_iff in Hnum as (Hne & Hds & Hv); [|lia].
    split; [|lia]. destruct ds as [|d ds]; [done|]. pose proof Hds as Hd. apply Forall_cons in Hd as [Hd _].
    destruct (dig_char _ _ Hd) as (Hdsp & Hd45 & Hd43 & Hd0).
    assert (Hsgs : sg = [] \/ sg = [43] \/ sg = [45]) by tauto.
    assert (Est : strtoumax (sp ++ sg ++ d :: ds) radix = (n, [])).
    { unfold strtoumax. rewrite spaces_app; [|done|].
      2: { destruct Hsgs as [-> | [-> | ->]]; cbn; [rewrite <- isspace_iff; congruence|unfold space_c; lia..]. }
      rewrite sign_match.
      assert (Ep : (match (sg ++ d :: ds)%list with c :: q => if c =? 45 then (true, q) else if c =? 43 then (false, q) else (false, (sg ++ d :: ds)%list) | [] => (false, (sg ++ d :: ds)%list) end)
        = (bool_decide (sg = [45]), d :: ds)).
      { destruct Hsgs as [-> | [-> | ->]]; cbn; [|done..]. by rewrite (proj2 (Z.eqb_neq _ _) Hd45), (proj2 (Z.eqb_neq _ _) Hd43). }
      assert (Hx : radix = 10 \/ radix = 16 /\ Forall (fun c => c <> 120 /\ c <> 88) (d :: ds)).
      { destruct Hr as [->|[-> Hr]]; [by left|right]. split; [done|]. rewrite app_assoc in Hr. by apply Forall_app in Hr as [_ Hr]. }
      assert (Epre := prefix_match radix (d :: ds) Hx). rewrite Ep. cbv beta iota in Epre |- *. rewrite Epre.
      assert (Edg : is_digit radix (d :: ds) = true) by (destruct Hd as (x & Hdx & Hb); cbn; rewrite Hdx; apply Z.ltb_lt; lia).
      rewrite Edg. cbn [negb]. rewrite (digits_all radix (d :: ds) 0 Hds), <- Hv.
      pose proof (value_nonneg radix (d :: ds) 0 (proj1 H36) (Z.le_refl 0) Hds) as Hv0. rewrite <- Hv in Hv0.
      destruct Hsg as [[[-> | ->] ->]|(-> & Hv64 & ->)]; (rewrite (proj2 (Z.leb_gt _ _)) by lia); done. }
    assert (Hhd : exists c0 s0, sp ++ sg ++ d :: ds = c0 :: s0 /\ c0 <> 0).
    { destruct Hsp as [|c sp Hc Hsp]; [|exists c; eexists; split; [done|]; unfold space_c in Hc; lia].
      destruct Hsgs as [-> | [-> | ->]]; cbn; do 2 eexists; (split; [done|]); [done|lia..]. }
    destruct Hhd as (c0 & s0 & E0 & Hc0). rewrite E0 in Est |- *. unfold fetch_number. rewrite (proj2 (Z.eqb_neq _ _) Hc0), Est.
    destruct (s64_u64_small n Hn) as [E1 E2]. cbv zeta. by rewrite E2, Z.eqb_refl, E1.
Qed.

(** ** The line of a chunk *)

Lemma skip_lws_inv fuel s t c : skip_lws uncons fuel s = Ok (t, Some c) ->
  exists lead, s = lead ++ c :: t /\ Forall blank lead /\ ~ blank c.
Proof.
  revert s. induction fuel as [|fuel IH]; intros s; [done|]. cbn [skip_lws]. destruct s as [|x s]; cbn [uncons]; [done|].
  destruct (vct_islws x) eqn:Ex.
  - intros E. destruct (IH s E) as (lead & -> & Hl & Hc). exists (x :: lead). split_and!; [done| |done]. constructor; [by apply blank_iff|done].
  - intros [= <- <-]. exists []. split_and!; [done..|by apply blank_false].
Qed.

Lemma skip_lws_fwd fuel lead t c : Forall blank lead -> ~ blank c -> (length lead < fuel)%nat ->
  skip_lws uncons fuel (lead ++ c :: t) = Ok (t, Some c).
Proof.
  intros Hl Hc. revert lead Hl. induction fuel as [|fuel IH]; intros lead Hl Hf; [lia|]. cbn [skip_lws].
  destruct Hl as [|x lead Hx Hl]; cbn [app uncons]; [by rewrite (proj2 (blank_false c) Hc)|].
  rewrite (proj2 (blank_iff x) Hx). apply IH; [done|cbn in Hf; lia].
Qed.

Lemma next_digit_inv fuel s buf t c : next_digit uncons fuel s buf = Ok (t, Some c) ->
  exists k, s = repeat 48 k ++ c :: t /\ (k <> 0%nat -> buf = [48]) /\ (buf = [48] -> c <> 48).
Proof.
  revert s. induction fuel as [|fuel IH]; intros s; [done|]. cbn [next_digit]. destruct s as [|x s]; cbn [uncons]; [done|].
  destruct (bool_decide_reflect (buf = [48])) as [Eb|Eb]; cbn [andb].
  - destruct (Z.eqb_spec x 48) as [->|Hx].
    + intros E. destruct (IH s E) as (k & -> & _ & Hc). by exists (S k).
    + intros [= <- <-]. by exists 0%nat.
  - intros [= <- <-]. exists 0%nat. by split_and!.
Qed.

Lemma next_digit_fwd fuel k buf t c : (k <> 0%nat -> buf = [48]) -> (buf = [48] -> c <> 48) -> (k < fuel)%nat ->
  next_digit uncons fuel (repeat 48 k ++ c :: t) buf = Ok (t, Some c).
Proof.
  revert k. induction fuel as [|fuel IH]; intros k Hk Hc Hf; [lia|]. cbn [next_digit]. destruct k as [|k]; cbn [repeat app uncons].
  - destruct (bool_decide_reflect (buf = [48])) as [Eb|Eb]; cbn [andb]; [|done]. by rewrite (proj2 (Z.eqb_neq c 48) (Hc Eb)).
  - rewrite (bool_decide_eq_true_2 (buf = [48])) by (by apply Hk). cbn [andb Z.eqb Pos.eqb]. apply IH; [by intros _; apply Hk|done|lia].
Qed.

Lemma collect_hex_inv fuel n s buf t buf' e : buf <> [] -> collect_hex uncons fuel n s buf = Ok (t, Some (buf', Some e)) ->
  exists k h, s = repeat 48 k ++ h ++ e :: t /\ buf' = buf ++ h /\ (k <> 0%nat -> buf = [48]) /\ (buf = [48] -> hd_error (h ++ [e]) <> Some 48) /\
    Forall (fun c => vct_ishex c = true) h /\ vct_ishex e = false /\ (length h < n)%nat.
Proof.
  revert s buf. induction n as [|n IH]; intros s buf Hne; cbn [collect_hex]; [done|]. intros E. apply bind_Ok in E as ([s1 o] & E1 & E).
  destruct o as [c|]; [|done]. destruct (next_digit_inv _ _ _ _ _ E1) as (k & -> & Hk & Hc). destruct (vct_ishex c) eqn:Ec.
  - destruct (IH s1 (buf ++ [c])) as (k' & h & -> & -> & Hk' & _ & Hh & He & Hl); [by destruct buf|done|].
    assert (k' = 0%nat) as ->.
    { destruct k'; [done|]. specialize (Hk' ltac:(done)). destruct buf as [|? [|? ?]]; done. }
    exists k, (c :: h). rewrite <- app_assoc. split_and!; try done; [intros Eb; cbn; intros [= Ex]; by apply (Hc Eb)|by constructor|cbn; lia].
  - injection E as <- <- <-. exists k, []. rewrite app_nil_r. split_and!; try done; [intros Eb; cbn; intros [= Ex]; by apply (Hc Eb)|cbn; lia].
Qed.

Lemma collect_hex_fwd fuel n k h buf t e : buf <> [] -> (k <> 0%nat -> buf = [48]) -> (buf = [48] -> hd_error (h ++ [e]) <> Some 48) ->
  Forall (fun c => vct_ishex c = true) h -> vct_ishex e = false -> (length h < n)%nat -> (k < fuel)%nat ->
  collect_hex uncons fuel n (repeat 48 k ++ h ++ e :: t) buf = Ok (t, Some (buf ++ h, Some e)).
Proof.
  intros Hne Hk Hh Hhex He Hn Hf. revert k n buf Hne Hk Hh Hn Hf. induction Hhex as [|c h Hc Hhex IH]; intros k n buf Hne Hk Hh Hn Hf;
    (destruct n as [|n]; [cbn in Hn; lia|]); cbn [collect_hex app].
  - rewrite next_digit_fwd; [|done|intros Eb Ee; by apply (Hh Eb); cbn; rewrite Ee|done]. cbn [mbind res_bind mret res_ret]. by rewrite He, app_nil_r.
  - rewrite next_digit_fwd; [|done|intros Eb Ee; by apply (Hh Eb); cbn; rewrite Ee|done]. cbn [mbind res_bind mret res_ret]. rewrite Hc.
    replace (buf ++ c :: h) with ((buf ++ [c]) ++ h) by (by rewrite <- app_assoc).
    apply (IH 0%nat n (buf ++ [c])); [by destruct buf|done| |cbn in Hn; lia|lia]. intros Eb. destruct buf as [|? [|? ?]]; done.
Qed.

Lemma skip_trail_inv fuel s c t e : skip_trail uncons fuel s c = Ok (t, Some e) ->
  exists trail, c :: s = trail ++ e :: t /\ Forall (fun c => blank c /\ c <> 10) trail.
Proof.
  revert s c. induction fuel as [|fuel IH]; intros s c; cbn [skip_trail]; destruct (vct_islws c && negb (c =? 10)) eqn:Ec; try done.
  - intros [= <- <-]. by exists [].
  - destruct s as [|x s]; cbn [uncons]; [done|]. intros E. destruct (IH s x E) as (trail & Et & Ht). exists (c :: trail). rewrite Et.
    split; [done|]. apply andb_prop in Ec as [H1 H2]. constructor; [|done]. split; [by apply blank_iff|]. apply Z.eqb_neq. by apply negb_true_iff.
  - intros [= <- <-]. by exists [].
Qed.

Lemma skip_trail_fwd fuel trail t : Forall (fun c => blank c /\ c <> 10) trail -> (length trail <= fuel)%nat ->
  match (trail ++ 10 :: t)%list with c :: s => skip_trail uncons fuel s c = Ok (t, Some 10) | [] => True end.
Proof.
  intros Ht. revert fuel. induction Ht as [|c trail [Hc Hc10] Ht IH]; intros fuel Hf; cbn [app].
  - destruct fuel; cbn [skip_trail]; by rewrite andb_false_r.
  - destruct fuel as [|fuel]; [cbn in Hf; lia|]. cbn [skip_trail]. rewrite (proj2 (blank_iff c) Hc), (proj2 (Z.eqb_neq c 10) Hc10). cbn [andb negb].
    specialize (IH fuel ltac:(cbn in Hf; lia)). destruct trail; exact IH.
Qed.

(** The digits of a number that is accepted are digits. *)
Lemma number_digits c h n : number_text 16 (c :: h) n -> Forall (fun c => vct_ishex c = true) h -> Forall (fun c => exists v, digit 16 c v) h.
Proof.
  intros (sp & sg & ds & v & E & Hsp & Hnum & _ & Hsg) Hh. apply numeral_iff in Hnum as (_ & Hds & _); [|done].
  apply Forall_forall. intros x Hx. rewrite Forall_forall in Hh. specialize (Hh x Hx).
  assert (Hin : x ∈ sp ++ sg ++ ds) by (rewrite <- E; by right). rewrite !elem_of_app in Hin. destruct Hin as [Hin|[Hin|Hin]].
  - rewrite Forall_forall in Hsp. specialize (Hsp x Hin). rewrite not_hex in Hh by tauto. done.
  - assert (x = 43 \/ x = 45). { destruct Hsg as [[[-> | ->] _]|[-> _]]; [by apply not_elem_of_nil in Hin|apply list_elem_of_singleton in Hin; tauto..]. }
    rewrite not_hex in Hh by tauto. done.
  - rewrite Forall_forall in Hds. apply is_dig_iff; [done|]. by apply Hds.
Qed.

Lemma number_16 c h n : Forall (fun c => vct_ishex c = true) h -> ~ (c = 120 \/ c = 88) -> fetch_number (c :: h) 16 = n /\ 0 <= n <-> number_text 16 (c :: h) n.
Proof.
  intros Hh Hc. apply fetch_number_iff. right. split; [done|]. constructor; [lia|]. eapply Forall_impl; [exact Hh|].
  intros x Hx. split; intros ->; by vm_compute in Hx.
Qed.

(** No number begins with an [x]. *)
Lemma number_x c h : c = 120 \/ c = 88 -> fetch_number (c :: h) 16 < 0.
Proof. by intros [-> | ->]. Qed.

Lemma number_x_text c h n : c = 120 \/ c = 88 -> ~ number_text 16 (c :: h) n.
Proof.
  intros Hc (sp & sg & ds & v & E & Hsp & Hnum & _ & Hsg). apply numeral_iff in Hnum as (Hne & Hds & _); [|done].
  destruct Hsp as [|x sp Hx Hsp]; [|injection E as -> _; unfold space_c in Hx; lia].
  destruct ds as [|d ds]; [done|]. apply Forall_cons in Hds as [Hd _]. apply is_dig_iff in Hd as [w Hd]; [|done].
  destruct (digit_ishex _ _ Hd) as (_ & H1 & H2 & _). destruct Hsg as [[[-> | ->] _]|[-> _]]; cbn in E; injection E as -> _; lia.
Qed.

Lemma chunk_size_line_iff fuel s n r : (length s < fuel)%nat -> chunk_size uncons fuel s = Ok (r, n) /\ 0 <= n <-> size_line s n r.
Proof.
  intros Hf. split.
  - intros [E Hn]. unfold chunk_size in E. apply bind_Ok in E as ([s1 o] & E1 & E). destruct o as [c|]; [|injection E as _ <-; lia].
    destruct (skip_lws_inv _ _ _ _ E1) as (lead & -> & Hlead & Hc). apply bind_Ok in E as ([s2 o] & E2 & E).
    destruct o as [[buf [e|]]|]; [|injection E as _ <-; lia..].
    destruct (collect_hex_inv fuel 19 s1 [c] s2 buf e ltac:(done) E2) as (k & h & -> & -> & Hk & Hh & Hhex & He & Hl).
    apply bind_Ok in E as ([s3 o] & E3 & E). destruct o as [d|]; [|injection E as _ <-; lia].
    destruct (skip_trail_inv _ _ _ _ _ E3) as (trail & Et & Ht). destruct (Z.eqb_spec d 10) as [->|]; cbn [negb] in E; [|injection E as _ <-; lia].
    assert (Er : s3 = r /\ fetch_number (c :: h) 16 = n) by (by injection E). clear E. destruct Er as [<- En].
    assert (Hcx : ~ (c = 120 \/ c = 88)). { intros Hx. pose proof (number_x c h Hx). lia. }
    assert (Hnum : number_text 16 (c :: h) n) by (by apply number_16).
    exists lead, c, k, h, trail. rewrite Et. split_and!; try done.
    + intros Hk0. specialize (Hk Hk0). by injection Hk.
    + intros ->. specialize (Hh eq_refl). by destruct h.
    + lia.
    + by eapply number_digits.
  - intros (lead & c & k & h & trail & -> & Hlead & Hc & Hk & Hh & Hl & Hdig & Ht & Hnum).
    assert (Hhex : Forall (fun c => vct_ishex c = true) h).
    { eapply Forall_impl; [exact Hdig|]. intros x [v Hv]. apply (digit_ishex _ _ Hv). }
    assert (Hcx : ~ (c = 120 \/ c = 88)) by (intros Hx; by apply (number_x_text c h n Hx)).
    destruct (proj2 (number_16 c h n Hhex Hcx) Hnum) as [En Hn]. split; [|done].
    rewrite length_app in Hf. cbn [length] in Hf. rewrite !length_app, repeat_length in Hf. cbn [length] in Hf.
    unfold chunk_size. rewrite skip_lws_fwd by (done || lia). cbn [mbind res_bind].
    assert (Hte : exists e t, (trail ++ 10 :: r)%list = e :: t /\ vct_ishex e = false).
    { destruct Ht as [|e trail [He _] _]; cbn; do 2 eexists; (split; [reflexivity|]); apply not_hex; tauto. }
    destruct Hte as (e & t & Ete & He). pose proof (skip_trail_fwd fuel trail r Ht) as Hst. rewrite Ete in Hst |- *.
    rewrite (collect_hex_fwd fuel 19 k h [c] t e); [|done|by intros Hk0; rewrite (Hk Hk0)| |done..|lia|lia].
    2: { intros [= ->]. specialize (Hh eq_refl). destruct h as [|x h]; [|done]. cbn. intros [= ->]. by vm_compute in He. }
    cbn [mbind res_bind mret res_ret]. rewrite Hst by lia. cbn [mbind res_bind Z.eqb Pos.eqb negb]. change ([c] ++ h) with (c :: h).
    by rewrite En.
Qed.

Lemma chunk_tail_iff s t : chunk_tail uncons s = (t, true) <-> exists e, s = e ++ t /\ line_end e.
Proof.
  unfold chunk_tail, line_end. split.
  - destruct s as [|c s]; cbn [uncons]; [done|]. destruct (Z.eqb_spec c 13) as [->|]; cbn [negb].
    + destruct s as [|d s]; cbn [uncons]; [done|]. intros [= <- ->%Z.eqb_eq]. exists [13; 10]. split; [done|by right].
    + intros [= <- ->%Z.eqb_eq]. exists [10]. split; [done|by left].
  - by intros (e & -> & [-> | ->]).
Qed.

(** ** A decoder *)

(** The body that a text encodes with chunks, and what is after it. *)
Fixpoint dechunk_loop (fuel : nat) (s : list Z) : option (list Z * list Z) :=
  match fuel with
  | O => None
  | S fuel =>
      match chunk_size uncons (S (length s)) s with
      | Ok (s, n) =>
          if (n <? 0) || (Z.of_nat (length s) <? n) then None else
          let '(t, ok) := chunk_tail uncons (drop (Z.to_nat n) s) in
          if negb ok then None else
          if 0 <? n then '(d, r) ← dechunk_loop fuel t; Some (take (Z.to_nat n) s ++ d, r) else Some ([], t)
      | Fail _ => None
      end
  end.

Definition dechunk (s : list Z) : option (list Z * list Z) := dechunk_loop (S (length s)) s.

#[local] Arguments Z.of_nat : simpl never.

Lemma dechunk_loop_sound fuel s d r : dechunk_loop fuel s = Some (d, r) -> chunked s d r.
Proof.
  revert s d r. induction fuel as [|fuel IH]; intros s d r; [done|]. cbn [dechunk_loop].
  destruct (chunk_size uncons (S (length s)) s) as [[s1 n]|] eqn:E; [|done]. destruct (Z.ltb_spec n 0) as [|Hn]; [done|]. cbn [orb].
  destruct (Z.ltb_spec (Z.of_nat (length s1)) n) as [|Hl]; [done|].
  assert (Hline : size_line s n s1) by (apply (chunk_size_line_iff (S (length s))); [lia|done]).
  destruct (chunk_tail uncons _) as [t ok] eqn:Et. destruct ok; [|done]. cbn [negb].
  apply chunk_tail_iff in Et as (e & Ee & He). destruct (Z.ltb_spec 0 n).
  - destruct (dechunk_loop fuel t) as [[d' r']|] eqn:Ed; [|done]. cbn. intros [= <- <-].
    assert (Ht : Z.of_nat (length (take (Z.to_nat n) s1)) = n) by (rewrite length_take; lia).
    apply (ch_more _ _ e t); [|by intros Ez; rewrite Ez in Ht; cbn in Ht; lia|done|by apply IH].
    by rewrite Ht, <- Ee, take_drop.
  - intros [= <- <-]. assert (n = 0) as -> by lia. apply (ch_last _ e); [|done]. by rewrite <- Ee.
Qed.

Lemma size_line_shorter s n r : size_line s n r -> (length r < length s)%nat.
Proof.
  intros (lead & c & k & h & trail & -> & _). rewrite length_app. cbn [length]. rewrite !length_app. cbn [length]. lia.
Qed.

Lemma size_line_size s n r : size_line s n r -> chunk_size uncons (S (length s)) s = Ok (r, n) /\ 0 <= n.
Proof. intros H. apply (chunk_size_line_iff (S (length s))); [lia|done]. Qed.

Lemma line_end_tail e t : line_end e -> chunk_tail uncons (e ++ t) = (t, true).
Proof. intros He. apply chunk_tail_iff. by exists e. Qed.

Lemma dechunk_loop_complete s d r : chunked s d r -> forall fuel, (length s < fuel)%nat -> dechunk_loop fuel s = Some (d, r).
Proof.
  induction 1 as [s e r Hs He|s d e t b r Hs Hd He _ IH]; intros [|fuel] Hf; try lia; cbn [dechunk_loop];
    destruct (size_line_size _ _ _ Hs) as [-> Hn]; rewrite (proj2 (Z.ltb_ge _ _) Hn); cbn [orb].
  - rewrite (proj2 (Z.ltb_ge _ _)) by lia. change (drop (Z.to_nat 0) (e ++ r)) with (e ++ r). by rewrite (line_end_tail e r He).
  - rewrite (proj2 (Z.ltb_ge _ _)) by (rewrite length_app; lia). rewrite Nat2Z.id, drop_app_length, take_app_length, (line_end_tail e t He). cbn [negb].
    rewrite (proj2 (Z.ltb_lt 0 _)) by (destruct d; [done|cbn; lia]). pose proof (size_line_shorter _ _ _ Hs) as Hsh. rewrite !length_app in Hsh.
    rewrite IH by lia. done.
Qed.

(** The decoder finds the body of a text that the grammar has, and of no other. *)
Lemma dechunk_iff s d r : dechunk s = Some (d, r) <-> chunked s d r.
Proof. split; [apply dechunk_loop_sound|]. intros H. by apply dechunk_loop_complete; [|lia]. Qed.

(** What a writer makes of pieces is decoded. *)
Lemma dechunk_loop_chunks cs fuel s : Forall (fun c => c <> [] /\ Z.of_nat (length c) < 2 ^ 63) cs -> (length cs < fuel)%nat ->
  dechunk_loop fuel (concat (map chunk cs) ++ last_chunk ++ s) = Some (concat cs, s).
Proof.
  revert fuel. induction cs as [|c cs IH]; intros fuel Hcs Hf; (destruct fuel as [|fuel]; [lia|]); cbn [dechunk_loop map concat app].
  { unfold last_chunk. rewrite <- !app_assoc. rewrite chunk_size_last. cbn [Z.ltb Z.compare Z.to_nat drop].
    rewrite (proj2 (Z.ltb_ge _ _)) by lia. cbn [orb]. change (drop (Z.to_nat 0) (crlf ++ s)) with (crlf ++ s). by rewrite chunk_tail_crlf. }
  apply Forall_cons in Hcs as [[Hne Hc] Hcs].
  assert (Ec : chunk c = chunk_head (Z.of_nat (length c)) ++ c ++ crlf) by (by destruct c).
  assert (Hl : 0 < Z.of_nat (length c)) by (destruct c; [done|cbn; lia]).
  rewrite Ec, <- !app_assoc. set (t := concat (map chunk cs) ++ last_chunk ++ s).
  assert (Em : exists m, length (chunk_head (Z.of_nat (length c)) ++ c ++ crlf ++ t) = S m).
  { eexists. unfold chunk_head. reflexivity. }
  destruct Em as [m ->].
  rewrite chunk_size_head by lia. rewrite (proj2 (Z.ltb_ge _ 0)) by lia. rewrite (proj2 (Z.ltb_ge _ _)) by (rewrite length_app; lia).
  cbn [orb]. rewrite Nat2Z.id, drop_app_length, take_app_length, chunk_tail_crlf. cbn [negb].
  rewrite (proj2 (Z.ltb_lt _ _) Hl), IH; [done..|cbn in Hf; lia].
Qed.

Lemma chunks_count cs : Forall (fun c => c <> []) cs -> (length cs <= length (concat (map chunk cs)))%nat.
Proof.
  induction 1 as [|c cs Hc _ IH]; [done|]. cbn [map concat length]. rewrite length_app.
  destruct c as [|x c]; [done|]. cbn [chunk]. rewrite !length_app. cbn [length]. lia.
Qed.

Lemma dechunk_chunks cs s : Forall (fun c => c <> []) cs -> Z.of_nat (length (concat cs)) < 2 ^ 63 ->
  dechunk (concat (map chunk cs) ++ last_chunk ++ s) = Some (concat cs, s).
Proof.
  intros Hcs Hl. unfold dechunk. apply dechunk_loop_chunks.
  - induction Hcs as [|c cs Hc _ IH]; [done|]. cbn in Hl. rewrite length_app in Hl. constructor; [split; [done|lia]|apply IH; lia].
  - pose proof (chunks_count cs Hcs). rewrite !length_app. lia.
Qed.

Lemma chunked_chunks cs s : Forall (fun c => c <> []) cs -> Z.of_nat (length (concat cs)) < 2 ^ 63 ->
  chunked (concat (map chunk cs) ++ last_chunk ++ s) (concat cs) s.
Proof. intros H1 H2. by apply dechunk_iff, dechunk_chunks. Qed.

End Coding.
