(* ===== verification/FetchThm.v ===== *)
(** Bodies from a connection: what the framings get, and what clients are given. *)
From S2P Require Import Prelude Vct Mem HttpConn Wrw WrwThm Fetch FetchInv Coding.
Import Vct Mem HttpConn Wrw WrwThm Fetch FetchInv FetchLine Coding.

Module FetchThm.

#[local] Arguments chunk_head : simpl never.
#[local] Arguments crlf : simpl never.
#[local] Arguments chunk_size : simpl never.
#[local] Arguments chunk_tail : simpl never.
#[local] Arguments body_of : simpl never.

(** ** Framings *)

Section Framing.

Context (P : wrw -> list Z -> Prop) `{!Sink P}.
Context (alloc : nat -> Z -> option Z) (nuke : nat -> bool).
Context (fetchfrag fetch_chunksize fetch_maxchunksize nuke_limit : Z).
Context (Halloc : gives_space alloc) (Hpar : params_ok fetchfrag fetch_chunksize fetch_maxchunksize nuke_limit).

#[local] Notation holds := (holds P).
#[local] Notation begin := (vfp_nop_begin alloc nuke fetchfrag fetch_chunksize fetch_maxchunksize nuke_limit).
#[local] Notation bytes := (vfp_nop_bytes alloc nuke fetchfrag fetch_chunksize fetch_maxchunksize nuke_limit).
#[local] Notation chunk_loop := (chunk_loop alloc nuke fetchfrag fetch_chunksize fetch_maxchunksize nuke_limit).
#[local] Notation fetch_chunked := (fetch_chunked alloc nuke fetchfrag fetch_chunksize fetch_maxchunksize nuke_limit).
#[local] Notation fetch_straight := (fetch_straight alloc nuke fetchfrag fetch_chunksize fetch_maxchunksize nuke_limit).
#[local] Notation fetch_eof := (fetch_eof alloc nuke fetchfrag fetch_chunksize fetch_maxchunksize nuke_limit).

(** Storage is never short. *)
#[local] Notation plenty := (forall k n, is_Some (alloc k n)).

Lemma begin_ok f e body : 0 <= e -> holds f body -> exists f', begin f e = Ok f' /\ holds f' body /\ kept f f' /\ conn f' = conn f.
Proof.
  intros He Hf. unfold vfp_nop_begin. set (e' := if 0 <? fetchfrag then fetchfrag else e).
  assert (He' : 0 <= e') by (unfold e'; destruct (Z.ltb_spec 0 fetchfrag); lia).
  destruct (0 <? e'); [|by exists f].
  destruct (FetchStorage_ok alloc nuke fetchfrag fetch_chunksize fetch_maxchunksize nuke_limit Halloc Hpar f e' He' (ho_store _ _ _ Hf))
    as (f1 & ok & -> & (Ec & El & Es & Ep & Eo) & Hst1 & Hb1 & _).
  exists f1. split; [done|]. split; [destruct Hf; constructor; rewrite ?Ec, ?El, ?Es, ?Ep, ?Eo, ?Hb1; done|].
  split; [by split_and!; rewrite ?Ec, ?Es|done].
Qed.

Lemma bytes_ok f n body : holds f body ->
  exists f' i d, bytes f n = Ok (f', i) /\ holds f' (body ++ d) /\ kept f f' /\
    (i = 1 /\ Z.of_nat (length d) = Z.max 0 n /\ input (conn f) = d ++ input (conn f') \/
     i = 0 /\ d = input (conn f) /\ input (conn f') = [] /\ broken (conn f) = false /\ Z.of_nat (length d) < n \/
     i = -1 /\ (exists e, input (conn f) = d ++ e /\ Z.of_nat (length d) < n) /\
       (plenty -> broken (conn f) = true /\ Z.of_nat (length (input (conn f))) < n)).
Proof. intros Hf. apply (bytes_loop_ok P); try done. rewrite avail_input. lia. Qed.

(** The readers of lines leave all but the connection. *)
Lemma reads_holds f f1 s body : holds f body -> reads f f1 s -> holds f1 body /\ kept f f1 /\ input (conn f1) = s.
Proof.
  intros Hf (h & -> & Hi & Hs & Hb). split_and!; [destruct Hf; constructor; done|by split_and!|done].
Qed.

Lemma reads_self f body : holds f body -> reads f f (input (conn f)).
Proof. intros Hf. exists (conn f). split_and!; try done; [by destruct f|by apply (ho_segs _ _ _ Hf)]. Qed.

Lemma chunk_loop_ok fuel f body : holds f body -> (length (input (conn f)) < fuel)%nat ->
  exists f' i d, chunk_loop fuel f = Ok (f', i) /\ holds f' (body ++ d) /\ kept f f' /\ (length d <= length (input (conn f)))%nat /\
    (i = 0 /\ dechunk_loop fuel (input (conn f)) = Some (d, input (conn f')) \/
     i = -1 /\ chunks_begin (input (conn f)) d /\ (plenty -> dechunk_loop fuel (input (conn f)) = None) /\
       (forall b r, dechunk_loop fuel (input (conn f)) = Some (b, r) -> d `prefix_of` b)).
Proof.
  revert f body. induction fuel as [|fuel IH]; intros f body Hf Hfu; [lia|]. cbn [Fetch.chunk_loop dechunk_loop].
  rewrite avail_input. pose proof (reads_self f body Hf) as Hr.
  pose proof (chunk_size_sim f (S (length (input (conn f)))) f _ Hr) as Hsim.
  destruct (chunk_size_total (S (length (input (conn f)))) (input (conn f))) as (s1 & n & Es & Hl1); [lia|]. rewrite Es in Hsim |- *.
  destruct (chunk_size read1 _ f) as [[f1 n']|]; [|done]. destruct Hsim as [Hr1 ->]. cbn [mbind res_bind].
  destruct (reads_holds _ _ _ _ Hf Hr1) as (Hf1 & Hk1 & Hi1).
  destruct (Z.ltb_spec n 0) as [Hn|Hn]; cbn [orb].
  { exists f1, (-1), []. rewrite app_nil_r. split_and!; try done; [cbn; lia|]. right. split_and!; [done|apply cb_none|done..]. }
  assert (Hline : size_line (input (conn f)) n s1) by (apply (chunk_size_line_iff (S (length (input (conn f))))); [lia|done]).
  assert (Hget : exists f2 i d, (if 0 <? n then bytes f1 n else mret (f1, 1)) = Ok (f2, i) /\ holds f2 (body ++ d) /\ kept f1 f2 /\
    (i = 1 /\ Z.of_nat (length d) = n /\ s1 = d ++ input (conn f2) \/
     i <> 1 /\ (exists e, s1 = d ++ e /\ Z.of_nat (length d) < n) /\ (plenty -> Z.of_nat (length s1) < n))).
  { destruct (Z.ltb_spec 0 n).
    - destruct (bytes_ok f1 n body Hf1) as (f2 & i & d & -> & Hf2 & Hk2 & Hc). exists f2, i, d. split_and!; try done. rewrite Hi1 in Hc.
      destruct Hc as [(-> & Hd & Hi)|[(-> & -> & _ & _ & Hd)|(-> & He & Hp)]].
      + left. split_and!; [done|lia|done].
      + right. split_and!; [done| |done]. exists []. by rewrite app_nil_r.
      + right. split_and!; [done..|]. intros Ha. by apply Hp.
    - exists f1, 1, []. rewrite app_nil_r. split_and!; try done. left. split_and!; [done|cbn; lia|done]. }
  destruct Hget as (f2 & i & d & -> & Hf2 & Hk2 & Hc). cbn [mbind res_bind].
  destruct Hc as [(-> & Hd & Hi)|(Hne & (e & He & Hde) & Hp)].
  2: { rewrite (proj2 (Z.eqb_neq i 1) Hne). cbn [negb]. exists f2, (-1), d. split_and!; try done; [by apply (kept_trans _ f1)|rewrite He, length_app in Hl1; lia|]. right. split_and!; [done|..].
    - apply (cb_part _ n d e); [by rewrite <- He|lia].
    - intros Ha. by rewrite (proj2 (Z.ltb_lt _ _) (Hp Ha)).
    - intros b r. destruct (Z.ltb_spec (Z.of_nat (length s1)) n) as [|Hge]; [done|].
      destruct (chunk_tail _ _) as [t ok]. destruct ok; cbn [negb]; [|done]. rewrite (proj2 (Z.ltb_lt 0 n)) by lia.
      destruct (dechunk_loop fuel t) as [[b' r']|]; cbn; [|done]. intros [= <- _]. exists (take (Z.to_nat n - length d) e ++ b').
      rewrite He, take_app_ge by lia. by rewrite <- app_assoc. }
  cbn [Z.eqb Pos.eqb negb].
  assert (Hge : Z.of_nat (length s1) <? n = false) by (apply Z.ltb_ge; rewrite Hi, length_app; lia). rewrite Hge.
  assert (Edr : drop (Z.to_nat n) s1 = input (conn f2) /\ take (Z.to_nat n) s1 = d).
  { rewrite Hi. replace (Z.to_nat n) with (length d) by lia. by rewrite drop_app_length, take_app_length. }
  destruct Edr as [-> ->].
  destruct (chunk_tail_sim f2 f2 _ (reads_self _ _ Hf2)) as (f3 & s3 & ok & -> & Et & Hr3). rewrite Et.
  destruct (reads_holds _ _ _ _ Hf2 Hr3) as (Hf3 & Hk3 & Hi3).
  assert (Hk13 : kept f f3) by (by apply (kept_trans _ f2); [apply (kept_trans _ f1)|]).
  destruct ok; cbn [negb].
  2: { exists f3, (-1), d. split_and!; try done; [rewrite Hi, length_app in Hl1; lia|]. right.
    split_and!; [done|apply (cb_part _ n d (input (conn f2))); [by rewrite <- Hi|lia]|done..]. }
  apply chunk_tail_iff in Et as Hend. destruct Hend as (eol & Eeol & Heol).
  destruct (Z.ltb_spec 0 n).
  - destruct (chunk_tail_shorter _ _ _ Et) as [_ Hsh]. specialize (Hsh eq_refl).
    destruct (IH f3 (body ++ d) Hf3) as (f4 & i & d4 & -> & Hf4 & Hk4 & Hl4 & Hc4).
    { rewrite Hi3. rewrite Hi, length_app in Hl1. lia. }
    rewrite Hi3 in Hc4, Hl4. exists f4, i, (d ++ d4). rewrite app_assoc. split_and!; try done; [by apply (kept_trans _ f3)|rewrite Hi, !length_app in *; lia|].
    destruct Hc4 as [(-> & ->)|(-> & Hb4 & Hp & Hq)]; [by left|]. right. split_and!; [done|..].
    + apply (cb_more _ d eol s3); [by rewrite Hd, <- Eeol, <- Hi|done..].
    + intros Ha. by rewrite (Hp Ha).
    + intros b r. destruct (dechunk_loop fuel s3) as [[b' r']|]; cbn; [|done]. intros [= <- _]. apply prefix_app. by apply (Hq b' r').
  - exists f3, 0, []. assert (d = []) as -> by (apply length_zero_iff_nil; lia). rewrite app_nil_r in Hf3 |- *.
    split_and!; try done; [cbn; lia|]. left. by rewrite Hi3.
Qed.

Lemma chunked_ok f body : holds f body ->
  exists f' i d, fetch_chunked f = Ok (f', i) /\ holds f' (body ++ d) /\ kept f f' /\ (length d <= length (input (conn f)))%nat /\
    (i = 0 /\ chunked (input (conn f)) d (input (conn f')) \/
     i = -1 /\ chunks_begin (input (conn f)) d /\ (plenty -> forall b r, ~ chunked (input (conn f)) b r) /\
       (forall b r, chunked (input (conn f)) b r -> d `prefix_of` b)).
Proof.
  intros Hf. unfold Fetch.fetch_chunked. destruct (begin_ok f 0 body) as (f1 & -> & Hf1 & Hk1 & Ec); [done..|]. cbn [mbind res_bind].
  rewrite avail_input. destruct (chunk_loop_ok (S (length (input (conn f1)))) f1 body Hf1) as (f2 & i & d & -> & Hf2 & Hk2 & Hl2 & Hc); [lia|].
  rewrite Ec in Hc, Hl2. exists f2, i, d. split_and!; try done; [by apply (kept_trans _ f1)|].
  fold (dechunk (input (conn f))) in Hc. destruct Hc as [[-> Hd]|(-> & Hb & Hp & Hq)]; [left; split; [done|by apply dechunk_iff]|right].
  split_and!; [done|done|intros Ha b r; rewrite <- dechunk_iff; by rewrite (Hp Ha)|intros b r; rewrite <- dechunk_iff; apply Hq].
Qed.

Lemma straight_ok f b n body : fetch_number b 10 = n -> holds f body ->
  exists f' i d, fetch_straight f b = Ok (f', i) /\ holds f' (body ++ d) /\ kept f f' /\
    (i = 0 /\ 0 <= n /\ Z.of_nat (length d) = n /\ input (conn f) = d ++ input (conn f') \/
     i = -1 /\ (exists e, input (conn f) = d ++ e /\ Z.of_nat (length d) <= Z.max 0 n) /\ (plenty -> n < 0 \/ Z.of_nat (length (input (conn f))) < n)).
Proof.
  intros <- Hf. unfold Fetch.fetch_straight. set (n := fetch_number b 10).
  destruct (begin_ok f (if 0 <? n then n else 0) body) as (f1 & -> & Hf1 & Hk1 & Ec); [by destruct (Z.ltb_spec 0 n); lia|done|]. cbn [mbind res_bind].
  destruct (Z.ltb_spec n 0) as [Hn|Hn].
  { exists f1, (-1), []. rewrite app_nil_r. split_and!; try done. right. split_and!; [done| |by left].
    exists (input (conn f)). split; [done|cbn; lia]. }
  destruct (Z.eqb_spec n 0) as [Ez|Ez].
  { exists f1, 0, []. rewrite app_nil_r. split_and!; try done. left. rewrite Ec. by split_and!. }
  destruct (bytes_ok f1 n body Hf1) as (f2 & i & d & -> & Hf2 & Hk2 & Hc). rewrite Ec in Hc. cbn [mbind res_bind].
  exists f2, (if i <=? 0 then -1 else 0), d. split_and!; try done; [by apply (kept_trans _ f1)|].
  destruct Hc as [(-> & Hd & Hi)|[(-> & -> & _ & _ & Hd)|(-> & (e & He & Hde) & Hp)]].
  - left. split_and!; [done|done|lia|done].
  - right. split_and!; [done| |by right]. exists []. rewrite app_nil_r. split; [done|lia].
  - right. split_and!; [done| |]; [exists e; split; [done|lia]|]. intros Ha. right. by apply Hp.
Qed.

Lemma eof_ok f body : holds f body -> Z.of_nat (length (input (conn f))) < SSIZE_MAX ->
  exists f' i d, fetch_eof f = Ok (f', i) /\ holds f' (body ++ d) /\ kept f f' /\
    (i = 0 /\ d = input (conn f) /\ broken (conn f) = false /\ input (conn f') = [] \/
     i = -1 /\ d `prefix_of` input (conn f) /\ (plenty -> broken (conn f) = true)).
Proof.
  intros Hf Hl. unfold Fetch.fetch_eof. destruct (begin_ok f 0 body) as (f1 & -> & Hf1 & Hk1 & Ec); [done..|]. cbn [mbind res_bind].
  destruct (bytes_ok f1 SSIZE_MAX body Hf1) as (f2 & i & d & -> & Hf2 & Hk2 & Hc). rewrite Ec in Hc. cbn [mbind res_bind].
  exists f2, (if i <? 0 then -1 else 0), d. split_and!; try done; [by apply (kept_trans _ f1)|].
  destruct Hc as [(-> & Hd & Hi)|[(-> & -> & Hi & Hb & Hd)|(-> & (e & He & Hde) & Hp)]].
  - exfalso. rewrite Hi, length_app in Hl. unfold SSIZE_MAX in *. lia.
  - left. by split_and!.
  - right. split_and!; [done|by exists e|]. intros Ha. by apply Hp.
Qed.

(** ** The body of a response *)

Lemma nop_end_ok f body : holds f body -> holds (vfp_nop_end f) body /\ kept f (vfp_nop_end f) /\ conn (vfp_nop_end f) = conn f.
Proof.
  intros Hf. unfold vfp_nop_end. destruct (last (store f)) as [st|] eqn:El; [|by split; [|split_and!]].
  pose proof (last_split _ _ El) as Es. pose proof (ho_store _ _ _ Hf) as Hst. rewrite Es in Hst. apply Forall_app in Hst as [Hst1 Hst2].
  apply Forall_cons in Hst2 as [Hs _]. unfold st_ok in Hs.
  assert (Hset : forall sts, body_of sts = body_of (store f) -> Forall st_ok sts -> holds (set_store f sts) body).
  { intros sts Eb Hsts. destruct Hf. constructor; cbn; rewrite ?Eb; done. }
  assert (Eb : body_of (store f) = body_of (removelast (store f)) ++ octs st).
  { rewrite Es at 1. unfold body_of. rewrite map_app, concat_app. cbn. by rewrite app_nil_r. }
  destruct (Z.eqb_spec (slen st) 0) as [E0|E0].
  { split; [|by split_and!]. apply Hset; [|done]. rewrite Eb. unfold slen in E0. destruct (octs st); [by rewrite app_nil_r|cbn in E0; lia]. }
  destruct (Z.ltb_spec (slen st) (space st)); [|by split; [|split_and!]].
  split; [|by split_and!]. apply Hset.
  - rewrite Eb. unfold body_of. rewrite map_app, concat_app. cbn. by rewrite app_nil_r.
  - apply Forall_app. split; [done|]. apply Forall_singleton. unfold st_ok, slen in *. cbn. lia.
Qed.

Lemma sum_slen sts : foldr Z.add 0 (map slen sts) = Z.of_nat (length (body_of sts)).
Proof.
  induction sts as [|st sts IH]; [done|]. cbn [map foldr]. rewrite IH, body_cons, length_app. unfold slen. lia.
Qed.

(** What fetching a body makes, by whatever framing. *)
Definition gets (f : fetch) (bs : body_status) (b : list Z) (f' : fetch) (i : Z) (d : list Z) : Prop :=
  holds f' d /\ kept f f' /\ (length d <= length (input (conn f)))%nat /\
  (i = 0 /\ frames bs b (broken (conn f)) (input (conn f)) d (input (conn f')) \/
   i = -1 /\ begins bs b (input (conn f)) d /\ (plenty -> forall d' r, ~ frames bs b (broken (conn f)) (input (conn f)) d' r) /\
     (forall d' r, frames bs b (broken (conn f)) (input (conn f)) d' r -> d `prefix_of` d')).

Lemma straight_gets f b : holds f [] -> exists f' i d, fetch_straight f b = Ok (f', i) /\ gets f BS_LENGTH b f' i d.
Proof.
  intros Hf. destruct (straight_ok f b _ [] eq_refl Hf) as (f' & i & d & E & Hf' & Hk & Hc). exists f', i, d. split; [done|].
  split_and!; [done..| |].
  { destruct Hc as [(_ & _ & _ & ->)|(_ & (e & -> & _) & _)]; rewrite length_app; lia. }
  cbn [frames begins]. assert (Hn := fun n => fetch_number_iff 10 b n (or_introl eq_refl)). set (n := fetch_number b 10) in *.
  destruct Hc as [(-> & Hn0 & Hd & Hi)|(-> & (e & He & Hd) & Hp)].
  - left. split; [done|]. split; [|done]. apply Hn. by rewrite Hd.
  - right. assert (Hfr : forall d' r, number_text 10 b (Z.of_nat (length d')) /\ input (conn f) = d' ++ r -> n = Z.of_nat (length d') /\
      (length d' <= length (input (conn f)))%nat).
    { intros d' r [H1 H2]. apply Hn in H1 as [H1 _]. split; [done|]. rewrite H2, length_app. lia. }
    split_and!; [done|..].
    + destruct (Z.lt_ge_cases n 0); [left; apply length_zero_iff_nil; lia|]. right. exists n. split_and!; [by apply Hn|by exists e|lia].
    + intros Ha d' r H. destruct (Hfr d' r H). destruct (Hp Ha); lia.
    + intros d' r H. destruct (Hfr d' r H) as [En Hl]. destruct H as [_ H2]. rewrite He in H2. apply app_eq_inv in H2 as [(k & -> & _)|(k & -> & _)]; [|by exists k].
      rewrite length_app in *. assert (length k = 0)%nat as Hk0 by lia. apply length_zero_iff_nil in Hk0 as ->. by rewrite app_nil_r.
Qed.

Lemma chunked_gets f b : holds f [] -> exists f' i d, fetch_chunked f = Ok (f', i) /\ gets f BS_CHUNKED b f' i d.
Proof.
  intros Hf. destruct (chunked_ok f [] Hf) as (f' & i & d & E & Hf' & Hk & Hl & Hc). exists f', i, d. by split_and!.
Qed.

Lemma eof_gets f b : holds f [] -> Z.of_nat (length (input (conn f))) < SSIZE_MAX ->
  exists f' i d, fetch_eof f = Ok (f', i) /\ gets f BS_EOF b f' i d.
Proof.
  intros Hf Hl. destruct (eof_ok f [] Hf Hl) as (f' & i & d & E & Hf' & Hk & Hc). exists f', i, d. split; [done|].
  split_and!; [done..| |].
  { destruct Hc as [(_ & -> & _)|(_ & [e ->] & _)]; [lia|rewrite length_app; lia]. }
  cbn [frames begins]. destruct Hc as [(-> & -> & -> & ->)|(-> & Hd & Hp)]; [by left|].
  right. split_and!; [done|done|intros Ha d' r (Hb & _); by rewrite (Hp Ha) in Hb|]. by intros d' r (_ & -> & _).
Qed.

(** What [FetchBody] gives: the whole body, or a part of it to a client that streams. *)
Definition fetched (f : fetch) (bs : body_status) (b : list Z) (do_close : bool) (x : res (fetch * bool * option Z * vdi)) : Prop :=
  exists f' failed cl v d, x = Ok (f', failed, cl, v) /\ kept f f' /\ (is_Some (sctx f) -> P (out f') d) /\ (length d <= length (input (conn f)))%nat /\
    (failed = false /\ holds f' d /\ frames bs b (broken (conn f)) (input (conn f)) d (input (conn f')) /\
       cl = (if decide (bs = BS_NONE) then None else Some (Z.of_nat (length d))) /\ v = (if do_close then CloseFd else RecycleFd) \/
     failed = true /\ cl = None /\ v = CloseFd /\ store f' = [] /\ olen f' = 0 /\ begins bs b (input (conn f)) d /\
       (plenty -> forall d' r, ~ frames bs b (broken (conn f)) (input (conn f)) d' r) /\
       (forall d' r, frames bs b (broken (conn f)) (input (conn f)) d' r -> d `prefix_of` d')).

Lemma given f f' d : holds f' d -> kept f f' -> is_Some (sctx f) -> P (out f') d.
Proof.
  intros Hf' (_ & Hs & _) [x Hx]. pose proof (ho_body _ _ _ Hf') as Hb. destruct (sctx f') as [[? ?]|]; [by destruct Hb as (_ & ? & _)|].
  destruct Hs as [_ Hs]. specialize (Hs eq_refl). congruence.
Qed.

(** The accounting is right. *)
Lemma sane f d : holds f d -> (if fpass f then foldr Z.add 0 (map slen (store f)) <=? olen f
  else foldr Z.add 0 (map slen (store f)) =? olen f) = true.
Proof.
  intros Hf. rewrite sum_slen, (ho_len _ _ _ Hf). pose proof (ho_body _ _ _ Hf) as Hb. destruct (sctx _) as [[? ?]|].
  - destruct Hb as (_ & _ & fr & _ & <- & Hfr0). rewrite length_app. destruct (fpass f); [apply Z.leb_le; lia|]. rewrite Hfr0 by done. by apply Z.eqb_eq.
  - rewrite Hb. destruct (fpass f); [by apply Z.leb_le|by apply Z.eqb_eq].
Qed.

Lemma end_fetched f f1 bs b do_close cls d : gets f bs b f1 cls d -> bs <> BS_ERROR ->
  fetched f bs b do_close (FetchBody_end f1 bs do_close cls (negb (bool_decide (bs = BS_NONE)))).
Proof.
  intros (Hf1 & Hk1 & Hdl & Hc) Hbs. destruct (nop_end_ok f1 d Hf1) as (Hf2 & Hk2 & Ec2).
  assert (Hk : kept f (vfp_nop_end f1)) by (by apply (kept_trans _ f1)).
  unfold FetchBody_end. rewrite (bool_decide_eq_false_2 (bs = BS_ERROR)) by done. cbv zeta. destruct Hc as [[-> Hfr]|(-> & Hb & Hp & Hq)].
  - cbn [Z.ltb Z.compare]. rewrite (sane _ d Hf2). cbn [vassert mbind res_bind mret res_ret].
    do 4 eexists. exists d. split; [reflexivity|]. split_and!; [done|by apply given|done|]. left. split_and!; [done|done|by rewrite Ec2| |].
    + rewrite (ho_len _ _ _ Hf2). by destruct bs.
    + by destruct do_close.
  - cbn [Z.ltb Z.compare mret res_ret]. do 4 eexists. exists d. split; [reflexivity|]. split_and!; [done| |done|by right].
    intros Hs. by apply (given f (vfp_nop_end f1) d).
Qed.

Lemma nop_end_gets f bs b f1 i d : gets f bs b f1 i d -> gets f bs b (vfp_nop_end f1) i d.
Proof.
  intros (Hf1 & Hk1 & Hdl & Hc). destruct (nop_end_ok f1 d Hf1) as (Hf2 & Hk2 & Ec2).
  split_and!; [done|by apply (kept_trans _ f1)|done|by rewrite Ec2].
Qed.

Lemma FetchBody_ok f bs b do_close : holds f [] -> store f = [] -> Z.of_nat (length (input (conn f))) < SSIZE_MAX ->
  fetched f bs b do_close (FetchBody alloc nuke fetchfrag fetch_chunksize fetch_maxchunksize nuke_limit f bs b do_close).
Proof.
  intros Hf Est Hlen. unfold FetchBody. rewrite bool_decide_eq_true_2 by (by rewrite Est). cbn [vassert mbind res_bind].
  assert (Hself : kept f f) by (by split_and!).
  destruct bs.
  - apply (end_fetched f f BS_NONE b do_close 0 []); [|done]. split_and!; [done..|cbn; lia|by left].
  - apply (end_fetched f f BS_ZERO b do_close 0 []); [|done]. split_and!; [done..|cbn; lia|by left].
  - destruct (straight_gets f b Hf) as (f1 & i & d & -> & Hg). cbn [mbind res_bind mret res_ret].
    apply (end_fetched f _ BS_LENGTH b do_close i d); [by apply nop_end_gets|done].
  - destruct (chunked_gets f b Hf) as (f1 & i & d & -> & Hg). cbn [mbind res_bind mret res_ret].
    apply (end_fetched f _ BS_CHUNKED b do_close i d); [by apply nop_end_gets|done].
  - destruct (eof_gets f b Hf Hlen) as (f1 & i & d & -> & Hg). cbn [mbind res_bind mret res_ret].
    apply (end_fetched f _ BS_EOF b do_close i d); [by apply nop_end_gets|done].
  - cbn [mbind res_bind mret res_ret]. unfold FetchBody_end. rewrite bool_decide_eq_true_2 by done.
    destruct (nop_end_ok f [] Hf) as (Hf2 & Hk2 & Ec2). do 4 eexists. exists []. split; [reflexivity|].
    split_and!; [done|by apply given|cbn; lia|]. right. split_and!; try done.
    + unfold vfp_nop_end. by rewrite Est.
    + by rewrite (ho_len _ _ _ Hf2).
    + by intros _ d' r [].
Qed.

(** ** The body of a request *)

Lemma req_loop_ok fuel h w b n sendbody : segs_ok h -> P w b -> 0 <= n -> (length (input h) < fuel)%nat ->
  exists h' w' i d e, req_loop fuel h w n sendbody = Ok (h', w', i) /\ segs_ok h' /\ input h = d ++ e /\
    P w' (b ++ (if sendbody then d else [])) /\
    (i = 0 /\ Z.of_nat (length d) = n /\ e = input h' \/
     i = 1 /\ Z.of_nat (length (input h)) < n \/
     i = 2 /\ werr w' <> 0 /\ sendbody = true).
Proof.
  revert h w b n. induction fuel as [|fuel IH]; intros h w b n Hs Hp Hn Hfu; [lia|]. cbn [req_loop].
  destruct (Z.eqb_spec n 0) as [->|Hn0].
  { exists h, w, 0, [], (input h). split_and!; try done; [destruct sendbody; by rewrite app_nil_r|by left]. }
  set (c := if 8192 <? n then 8192 else n). assert (Hc : 0 < c <= n /\ c <= 8192) by (unfold c; destruct (Z.ltb_spec 8192 n); lia).
  destruct (HTC_Read h c) as [[h1 d] i] eqn:Er. destruct (HTC_Read_ok _ _ _ _ _ Hs (proj1 (proj1 Hc)) Er) as (Hs1 & Hb1 & _ & Hcase).
  destruct Hcase as [(Hi & Ei & Hin)|Hcase].
  2: { assert (Hi : i <= 0) by (destruct Hcase as [(-> & _)|(-> & _)]; lia). rewrite (proj2 (Z.leb_le _ _) Hi).
    exists h1, w, 1, [], (input h). split_and!; try done; [destruct sendbody; by rewrite app_nil_r|]. right. left. split; [done|].
    destruct Hcase as [(_ & -> & _)|(_ & _ & _ & ?)]; cbn; lia. }
  destruct (Z.leb_spec i 0); [lia|].
  assert (Hfu1 : (length (input h1) < fuel)%nat) by (rewrite Hin, length_app in Hfu; lia).
  assert (Hw : exists w2, (sendbody = false -> w2 = w) /\ (sendbody = true -> ('(w, _) ← WRW_Write w d; WRW_Flush w) = Ok (w2, truth (werr w2))) /\
    P w2 (b ++ (if sendbody then d else []))).
  { destruct sendbody; [|exists w; by rewrite app_nil_r]. destruct (sink_write w b d Hp) as (w1 & -> & Hp1); [lia|]. cbn [mbind res_bind].
    destruct (sink_flush _ _ Hp1) as (w2 & -> & Hp2). by exists w2. }
  destruct Hw as (w2 & Hw1 & Hw2 & Hp2).
  destruct (IH h1 w2 _ (n - i) Hs1 Hp2) as (h3 & w3 & j & d2 & e2 & E3 & Hs3 & Hi3 & Hp3 & Hc3); [lia|done|].
  assert (Hgo : exists h' w' i0 d0 e, Ok (h3, w3, j) = Ok (h', w', i0) /\ segs_ok h' /\ input h = d0 ++ e /\ P w' (b ++ (if sendbody then d0 else [])) /\
    (i0 = 0 /\ Z.of_nat (length d0) = n /\ e = input h' \/ i0 = 1 /\ Z.of_nat (length (input h)) < n \/ i0 = 2 /\ werr w' <> 0 /\ sendbody = true)).
  { exists h3, w3, j, (d ++ d2), e2. rewrite Hin, Hi3, <- !app_assoc in *. split_and!; try done; [by destruct sendbody|].
    rewrite !length_app in *. destruct Hc3 as [(? & ? & ?)|[[? ?]|?]]; [left|right; left|by right; right]; split_and!; done || lia. }
  destruct sendbody; cbn [negb]; [|rewrite Hw1 in E3 by done; by rewrite E3].
  specialize (Hw2 eq_refl). destruct (WRW_Write w d) as [[w1 k]|]; [|done]. cbn [mbind res_bind] in Hw2 |- *. rewrite Hw2. cbn [mbind res_bind].
  destruct (truth (werr w2)) eqn:Ew; [|by rewrite E3].
  exists h1, w2, 2, d, (input h1). split_and!; try done. right. right. split_and!; [done|by apply truth_true|done].
Qed.

End Framing.

End FetchThm.
