(* ===== verification/HttpConnThm.v ===== *)
(** Connections that speak HTTP: messages are received one after the other, however the
    octets come. *)
From S2P Require Import Prelude Mem Ws HttpConn Wrw Fetch FetchInv.
Import Ws HttpConn Fetch FetchInv.

Module HttpConnThm.

(** ** The end of a head *)

(** What is after the first empty line. *)
Fixpoint hdr_end (t : list Z) : option (list Z) :=
  match t with
  | [] => None
  | c :: q =>
      if c =? 10 then
        match q with
        | 10 :: r => Some r
        | 13 :: 10 :: r => Some r
        | _ => hdr_end q
        end
      else hdr_end q
  end.

Definition string_like (t : list Z) : Prop := Forall (fun c => c <> 0) t.

(** Where an end is found, it is found in what is before. *)
Lemma hdr_end_more c h : hdr_end h = Some [] -> (c = 10 -> forall d e q, h = d :: e :: q -> d <> 10 /\ (d = 13 -> e <> 10)) -> hdr_end (c :: h) = Some [].
Proof.
  intros Hh Hc. cbn [hdr_end]. destruct (Z.eqb_spec c 10) as [->|]; [|done]. destruct h as [|d [|e q]]; [done| |].
  - exfalso. revert Hh. cbn [hdr_end]. by destruct (d =? 10).
  - destruct (Hc eq_refl d e q eq_refl) as [Hd He]. revert Hh. destruct (decide (d = 13)) as [->|].
    + specialize (He eq_refl). destruct e as [|e|e]; try done; repeat (destruct e as [e|e|]; try done).
    + destruct d as [|d|d]; try done; repeat (destruct d as [d|d|]; try done).
Qed.

Lemma hdr_end_split t r : hdr_end t = Some r -> exists h, t = h ++ r /\ hdr_end h = Some [].
Proof.
  induction t as [|c q IH]; [done|]. cbn [hdr_end].
  assert (Hgo : (c = 10 -> forall d e p, q = d :: e :: p -> d <> 10 /\ (d = 13 -> e <> 10)) -> hdr_end q = Some r -> exists h, c :: q = h ++ r /\ hdr_end h = Some []).
  { intros Hq E. destruct (IH E) as (h & -> & Hh). exists (c :: h). split; [done|]. apply hdr_end_more; [done|].
    intros Hc d e p ->. by apply (Hq Hc d e (p ++ r)). }
  destruct (Z.eqb_spec c 10) as [->|Hc]; [|by apply Hgo]. destruct q as [|d q]; [done|].
  destruct (decide (d = 10)) as [->|H10]. { intros [= <-]. by exists [10; 10]. }
  destruct (decide (d = 13)) as [->|H13].
  { destruct q as [|e q]; [done|]. destruct (decide (e = 10)) as [->|H]. { intros [= <-]. by exists [10; 13; 10]. }
    intros E. apply Hgo; [by intros _ ? ? ? [= <- <- _]|]. revert E. destruct e as [|e|e]; try done. repeat (destruct e as [e|e|]; try done). }
  intros E. apply Hgo; [by intros _ ? ? ? [= <- _]|]. revert E. destruct d as [|d|d]; try done. repeat (destruct d as [d|d|]; try done).
Qed.

(** More text after the end does not matter. *)
Lemma hdr_end_app t r x : hdr_end t = Some r -> hdr_end (t ++ x) = Some (r ++ x).
Proof.
  induction t as [|c q IH]; [done|]. cbn [app hdr_end].
  assert (Hgo : hdr_end q = Some r -> hdr_end (q ++ x) = Some (r ++ x)) by apply IH.
  destruct (c =? 10); [|done]. destruct q as [|d q]; [done|]. cbn [app].
  destruct (decide (d = 10)) as [->|H10]; [by intros [= <-]|].
  destruct (decide (d = 13)) as [->|H13].
  { destruct q as [|e q]; [done|]. cbn [app]. destruct (decide (e = 10)) as [->|H]; [by intros [= <-]|].
    intros E. assert (E2 : hdr_end (13 :: e :: q) = Some r) by (revert E; destruct e as [|e|e]; try done; repeat (destruct e as [e|e|]; try done)).
    specialize (Hgo E2). revert Hgo. cbn [app]. destruct e as [|e|e]; try done; repeat (destruct e as [e|e|]; try done). }
  intros E. assert (E2 : hdr_end (d :: q) = Some r) by (revert E; destruct d as [|d|d]; try done; repeat (destruct d as [d|d|]; try done)).
  specialize (Hgo E2). revert Hgo. cbn [app]. destruct d as [|d|d]; try done; repeat (destruct d as [d|d|]; try done).
Qed.

(** What is after the first line feed. *)
Fixpoint after_nl (p : list Z) : option (list Z) :=
  match p with [] => None | c :: q => if c =? 10 then Some q else after_nl q end.

Definition at_end (q : list Z) : option (list Z) :=
  match q with
  | 10 :: r => Some r
  | 13 :: 10 :: r => Some r
  | _ => hdr_end q
  end.

Lemma hdr_end_nl p : hdr_end p = match after_nl p with None => None | Some q => at_end q end.
Proof. induction p as [|c q IH]; [done|]. cbn [hdr_end after_nl]. by destruct (c =? 10). Qed.

Lemma strchr_ok p : string_like p -> strchr (p ++ [0]) 10 = Ok (q ← after_nl p; Some (10 :: q ++ [0])).
Proof.
  induction p as [|c q IH]; intros Hp; [done|]. apply Forall_cons in Hp as [Hc Hq]. cbn [app strchr after_nl].
  destruct (Z.eqb_spec c 10) as [->|]; [done|]. rewrite (proj2 (Z.eqb_neq c 0) Hc). by apply IH.
Qed.

Lemma after_nl_suffix p q : after_nl p = Some q -> exists a, p = a ++ q /\ (length q < length p)%nat.
Proof.
  revert q. induction p as [|c p IH]; intros q; [done|]. cbn [after_nl]. destruct (c =? 10).
  - intros [= ->]. exists [c]. split; [done|cbn; lia].
  - intros E. destruct (IH q E) as (a & -> & Hl). exists (c :: a). split; [done|cbn; lia].
Qed.

Lemma line_loop_ok fuel p : string_like p -> (length p < fuel)%nat ->
  line_loop fuel (p ++ [0]) = Ok (r ← hdr_end p; Some (10 :: r ++ [0])).
Proof.
  revert p. induction fuel as [|fuel IH]; intros p Hp Hf; [lia|]. cbn [line_loop]. rewrite strchr_ok by done. cbn [mbind res_bind].
  rewrite hdr_end_nl. destruct (after_nl p) as [q|] eqn:Eq; cbn [mbind option_bind]; [|done].
  destruct (after_nl_suffix p q Eq) as (a & -> & Hl). apply Forall_app in Hp as [_ Hq]. cbn [tail].
  destruct q as [|d q]; cbn [app ptr_hd mbind res_bind mret res_ret].
  { cbn [Z.eqb mbind res_bind mret res_ret]. apply (IH []); [done|cbn in *; lia]. }
  apply Forall_cons in Hq as [Hd Hq].
  destruct (Z.eqb_spec d 13) as [->|Hd13].
  - cbn [tail]. destruct q as [|e q]; cbn [app ptr_hd mbind res_bind mret res_ret].
    { cbn [Z.eqb]. apply (IH []); [done|cbn in *; lia]. }
    destruct (Z.eqb_spec e 10) as [->|He]; [done|].
    assert (Ea : at_end (13 :: e :: q) = hdr_end (e :: q)).
    { cbn [at_end]. assert (E0 : hdr_end (13 :: e :: q) = hdr_end (e :: q)) by done. rewrite <- E0.
      destruct e as [|e|e]; try done. repeat (destruct e as [e|e|]; try done). }
    rewrite Ea. apply (IH (e :: q)); [done|cbn in *; lia].
  - cbn [app ptr_hd mbind res_bind mret res_ret]. destruct (Z.eqb_spec d 10) as [->|Hd10]; [done|].
    assert (Ea : at_end (d :: q) = hdr_end (d :: q)).
    { destruct d as [|d|d]; try done. repeat (destruct d as [d|d|]; try done). }
    rewrite Ea. apply (IH (d :: q)); [by constructor|cbn in *; lia].
Qed.

Lemma strchr_found p q x : string_like p -> after_nl p = Some q -> strchr (p ++ x) 10 = Ok (Some (10 :: q ++ x)).
Proof.
  induction p as [|c p IH]; intros Hp; [done|]. apply Forall_cons in Hp as [Hc Hp]. cbn [app strchr after_nl].
  destruct (Z.eqb_spec c 10) as [->|]; [by intros [= ->]|]. rewrite (proj2 (Z.eqb_neq c 0) Hc). by apply IH.
Qed.

(** What is after the end is not looked at. *)
Lemma line_loop_found fuel p x : string_like p -> hdr_end p = Some [] -> (length p < fuel)%nat ->
  line_loop fuel (p ++ x) = Ok (Some (10 :: x)).
Proof.
  revert p. induction fuel as [|fuel IH]; intros p Hp He Hf; [lia|]. cbn [line_loop]. rewrite hdr_end_nl in He.
  destruct (after_nl p) as [q|] eqn:Eq; [|done]. rewrite (strchr_found _ q) by done. cbn [mbind res_bind tail].
  destruct (after_nl_suffix p q Eq) as (a & -> & Hl). apply Forall_app in Hp as [_ Hq].
  destruct q as [|d q]; [done|]. cbn [app ptr_hd mbind res_bind mret res_ret]. apply Forall_cons in Hq as [Hd Hq].
  destruct (Z.eqb_spec d 13) as [->|Hd13].
  - destruct q as [|e q]; [done|]. cbn [tail app ptr_hd mbind res_bind mret res_ret].
    destruct (Z.eqb_spec e 10) as [->|Hne]; [cbn in He; by injection He as ->|].
    assert (Ea : at_end (13 :: e :: q) = hdr_end (e :: q)).
    { cbn [at_end]. assert (E0 : hdr_end (13 :: e :: q) = hdr_end (e :: q)) by done. rewrite <- E0.
      destruct e as [|e|e]; try done. repeat (destruct e as [e|e|]; try done). }
    rewrite Ea in He. apply (IH (e :: q)); [done|done|cbn in *; lia].
  - cbn [app ptr_hd mbind res_bind mret res_ret]. destruct (Z.eqb_spec d 10) as [->|Hd10]; [cbn in He; by injection He as ->|].
    assert (Ea : at_end (d :: q) = hdr_end (d :: q)).
    { destruct d as [|d|d]; try done. repeat (destruct d as [d|d|]; try done). }
    rewrite Ea in He. apply (IH (d :: q)); [by constructor|done|cbn in *; lia].
Qed.

Lemma skip_space_ok t : skip_space (t ++ [0]) = Ok (spaces t ++ [0]).
Proof. induction t as [|c t IH]; [done|]. cbn [app skip_space spaces]. by destruct (isspace c). Qed.

Lemma spaces_suffix t : exists a, t = a ++ spaces t /\ Forall (fun c => isspace c = true) a.
Proof.
  induction t as [|c t (a & E & Ha)]; [by exists []|]. cbn [spaces]. destruct (isspace c) eqn:Ec.
  - exists (c :: a). split; [cbn; by f_equal|by constructor].
  - by exists [].
Qed.

Lemma spaces_concat a b : spaces (a ++ b) = match spaces a with [] => spaces b | p => p ++ b end.
Proof. induction a as [|c a IH]; [done|]. cbn [app spaces]. destruct (isspace c); [apply IH|done]. Qed.

(** The head that a text begins with, the blanks before it and the empty line included;
    the whole text, when no empty line is there. *)
Definition head_of (s : list Z) : list Z :=
  match hdr_end (spaces s) with Some r => take (length s - length r) s | None => s end.

(** How many octets must have come to know it. *)
Definition need (s : list Z) : Z :=
  match hdr_end (spaces s) with Some r => Z.of_nat (length s) - Z.of_nat (length r) | None => Z.of_nat (length s) + 1 end.

(** A head has blanks, then a text up to the end. *)
Lemma head_split t r : hdr_end (spaces t) = Some r -> exists a h, t = (a ++ h) ++ r /\ spaces t = h ++ r /\ hdr_end h = Some [] /\
  head_of t = a ++ h /\ need t = Z.of_nat (length (a ++ h)) /\ 0 < Z.of_nat (length h).
Proof.
  intros E. destruct (hdr_end_split _ _ E) as (h & Eh & Hh). destruct (spaces_suffix t) as (a & Ea & _). exists a, h. rewrite Eh in Ea.
  assert (Et : t = (a ++ h) ++ r) by by rewrite <- app_assoc. unfold head_of, need. rewrite E. split_and!; [done|done|done| | |destruct h; [done|cbn; lia]].
  - assert (El : (length t - length r)%nat = length (a ++ h)) by (rewrite Et at 1; rewrite !length_app; lia). rewrite El. rewrite Et at 1. by rewrite take_app_length.
  - rewrite Et at 1. rewrite !length_app. lia.
Qed.

Lemma spaces_more t x c p : spaces t = c :: p -> spaces (t ++ x) = (c :: p) ++ x.
Proof. intros E. by rewrite spaces_concat, E. Qed.

Lemma hdr_end_spaces_app t r x : hdr_end (spaces t) = Some r -> hdr_end (spaces (t ++ x)) = Some (r ++ x).
Proof.
  intros E. destruct (spaces t) as [|c p] eqn:Es; [done|]. rewrite (spaces_more _ _ _ _ Es). by apply hdr_end_app.
Qed.

(** A head that is there is not changed by what comes after it. *)
Lemma head_app t r x : hdr_end (spaces t) = Some r -> head_of (t ++ x) = head_of t.
Proof.
  intros E. unfold head_of. rewrite E, (hdr_end_spaces_app _ _ x E). rewrite !length_app.
  replace (length t + length x - (length r + length x))%nat with (length t - length r)%nat by lia. apply take_app_le. lia.
Qed.

(** A text whose head is not there yet is the begin of it. *)
Lemma head_begin t x : hdr_end (spaces t) = None -> (exists y, head_of (t ++ x) = t ++ y) /\ Z.of_nat (length t) < need (t ++ x).
Proof.
  intros E. destruct (hdr_end (spaces (t ++ x))) as [r|] eqn:Ex.
  2: { unfold head_of, need. rewrite Ex, length_app. split; [by exists x|lia]. }
  destruct (head_split _ _ Ex) as (a & h & Et & Es & Hh & -> & -> & _).
  destruct (decide (length (a ++ h) <= length t)%nat) as [Hle|Hgt].
  - exfalso. apply (f_equal (take (length t))) in Et as Ep. rewrite take_app_length, take_app_ge in Ep by done.
    destruct (spaces t) as [|c p] eqn:Esp.
    + destruct (spaces_suffix t) as (b & Eb & Hb). rewrite Esp, app_nil_r in Eb. subst b.
      assert (Hlen : (length (spaces (t ++ x)) <= length x)%nat).
      { rewrite spaces_concat, Esp. destruct (spaces_suffix x) as (b & Eb & _). rewrite Eb at 2. rewrite length_app. lia. }
      rewrite Es in Hlen. apply (f_equal length) in Et. rewrite !length_app in *. destruct h; [done|]. cbn [length] in *. lia.
    + rewrite (spaces_more _ _ _ _ Esp) in Es. destruct (spaces_suffix t) as (b & Eb & _). rewrite Esp in Eb.
      assert (Hab : length a = length b).
      { apply (f_equal length) in Et. apply (f_equal length) in Es. apply (f_equal length) in Eb. rewrite !length_app in *. lia. }
      rewrite Eb in Ep. rewrite <- app_assoc in Ep. apply app_inj_1 in Ep as [_ Ep]; [|done]. rewrite Ep in E. by rewrite (hdr_end_app _ _ _ Hh) in E.
  - split; [|lia]. exists (drop (length t) (a ++ h)). apply (f_equal (take (length t))) in Et. rewrite take_app_length, take_app_le in Et by lia.
    by rewrite <- (take_drop (length t) (a ++ h)) at 1; rewrite <- Et.
Qed.

Lemma head_blank t x : spaces t = [] -> hdr_end (spaces (t ++ x)) = hdr_end (spaces x) /\ need (t ++ x) = Z.of_nat (length t) + need x /\ head_of (t ++ x) = t ++ head_of x.
Proof.
  intros E. assert (Es : spaces (t ++ x) = spaces x) by by rewrite spaces_concat, E. unfold need, head_of. rewrite Es, length_app. split_and!; [done|destruct (hdr_end _); lia|].
  destruct (hdr_end (spaces x)) as [r|] eqn:Er; [|done]. destruct (head_split _ _ Er) as (a & h & Ex & _).
  assert (Hl : (length r <= length x)%nat) by (rewrite Ex, length_app; lia).
  rewrite take_app_ge by lia. f_equal. f_equal. lia.
Qed.

(** The scan of what has come, [t], of a text whose head is without NUL. *)
Lemma header_complete_ok t x : string_like (head_of (t ++ x)) -> htc_header_complete t = Ok (
  match spaces t with
  | [] => ([], 0)
  | p => (t, match hdr_end p with Some r => Z.of_nat (length t) - Z.of_nat (length r) | None => 0 end)
  end).
Proof.
  intros Ht. unfold htc_header_complete. rewrite skip_space_ok. cbn [mbind res_bind].
  destruct (spaces t) as [|c p] eqn:Es; [done|]. cbn [app ptr_hd mbind res_bind mret res_ret].
  destruct (spaces_suffix t) as (b & Eb & _). rewrite Es in Eb.
  assert (Hl : (length (c :: p) <= length t)%nat) by (rewrite Eb, length_app; lia).
  change (c :: p ++ [0]) with ((c :: p) ++ [0]).
  destruct (hdr_end (c :: p)) as [r|] eqn:Er.
  - assert (Er2 : hdr_end (spaces t) = Some r) by by rewrite Es. rewrite (head_app _ _ x Er2) in Ht.
    destruct (head_split _ _ Er2) as (a & h & Et & Eh & Hh & Ehd & _ & _). rewrite Ehd in Ht. apply Forall_app in Ht as [_ Hs].
    rewrite Es in Eh. destruct h as [|c' h]; [done|]. injection Eh as <- ->. apply Forall_cons in Hs as Hs2. destruct Hs2 as [Hc _].
    rewrite (proj2 (Z.eqb_neq c 0) Hc). replace ((c :: h ++ r) ++ [0]) with ((c :: h) ++ (r ++ [0])) by (cbn; by rewrite <- app_assoc).
    rewrite line_loop_found; [|done|done|rewrite Et, !length_app; cbn [length]; lia].
    cbn [mbind res_bind tail]. unfold mret, res_ret. do 2 f_equal. rewrite !length_app. cbn [length]. lia.
  - assert (Er2 : hdr_end (spaces t) = None) by by rewrite Es. destruct (head_begin t x Er2) as [(y & Ey) _]. rewrite Ey in Ht.
    apply Forall_app in Ht as [Ht _]. rewrite Eb in Ht. apply Forall_app in Ht as [_ Hs]. apply Forall_cons in Hs as Hs2. destruct Hs2 as [Hc _].
    rewrite (proj2 (Z.eqb_neq c 0) Hc). rewrite line_loop_ok; [|done|rewrite length_app; cbn in *; lia]. cbn [mbind res_bind].
    rewrite Er. done.
Qed.

(** ** Receiving *)

(** Waiting for octets, with place for them. *)
Record waiting (h : http_conn) : Prop := {
  wa_ws : ws_ok (hws h);
  wa_r : ws_r (hws h) <> 0;
  wa_b : rx_b h = ws_f (hws h);
  wa_e : rx_e h < ws_r (hws h);
  wa_segs : segs_ok h;
  wa_pipe : pipeline h = [];
  wa_text : string_like (head_of (rx h ++ concat (segs h)));
}.

(** How long a text may be. *)
Definition place (h : http_conn) : Z := ws_r (hws h) - rx_b h - 1.

(** A head has been received: [s] is what there was to read. *)
Definition received (h : http_conn) (s : list Z) : Prop :=
  hdr_end (spaces s) = Some (input h) /\ spaces (rx h) ++ input h = spaces s /\ segs_ok h /\ ws_r (hws h) = 0.

(** What there is to read. *)
Definition pending (h : http_conn) : list Z := rx h ++ concat (segs h).

Lemma put_nul_ok h : waiting h -> put_nul h = Ok h.
Proof. intros H. unfold put_nul. by rewrite (proj2 (Z.ltb_lt _ _) (wa_e _ H)). Qed.

Lemma release_ok_e h : ws_ok (hws h) -> ws_r (hws h) <> 0 -> rx_b h = ws_f (hws h) -> forall p, rx_b h <= p <= ws_r (hws h) ->
  exists w, WS_ReleaseP (hws h) p = Ok w /\ ws_r w = 0.
Proof. intros H1 H2 H3 p Hp. destruct (WS_ReleaseP_ok (hws h) p H1 H2) as [E _]; [lia|]. rewrite E. eexists. split; [reflexivity|done]. Qed.

Lemma Complete_ok h : waiting h -> exists h' i, HTC_Complete h = Ok (h', i) /\
  (i = 1 /\ received h' (pending h) \/
   i = 0 /\ waiting h' /\ spaces (pending h') = spaces (pending h) /\ segs h' = segs h /\ place h' = place h /\ broken h' = broken h /\
     hdr_end (spaces (rx h')) = None /\ need (pending h') <= need (pending h)).
Proof.
  intros H. pose proof (wa_text _ H) as Ht.
  unfold HTC_Complete, pending. rewrite (header_complete_ok _ (concat (segs h))) by done. cbn [mbind res_bind].
  destruct (spaces (rx h)) as [|c p] eqn:Esp.
  { cbn [vassert Z.leb Z.compare mbind res_bind Z.eqb].
    assert (Hw : waiting (set_rx h [])).
    { destruct H. constructor; cbn [hws rx_b set_rx pipeline]; try done.
      - unfold rx_e in *. cbn [rx rx_b set_rx length]. lia.
      - cbn [rx segs set_rx app]. rewrite (proj2 (proj2 (head_blank _ _ Esp))) in wa_text0. by apply Forall_app in wa_text0 as [_ ?]. }
    rewrite put_nul_ok by done. cbn [mbind res_bind mret res_ret]. do 2 eexists. split; [reflexivity|]. right.
    split_and!; try done; cbn [rx segs set_rx app]; [by rewrite spaces_concat, Esp|]. rewrite (proj1 (proj2 (head_blank _ _ Esp))). lia. }
  destruct (hdr_end (c :: p)) as [r|] eqn:Ee.
  2: { cbn [vassert Z.leb Z.compare mbind res_bind Z.eqb]. assert (E : set_rx h (rx h) = h) by by destruct h. rewrite E, put_nul_ok by done.
    cbn [mbind res_bind mret res_ret]. exists h, 0. split; [done|]. right. rewrite Esp. by split_and!. }
  destruct (hdr_end_split _ _ Ee) as (hd & Ehd & Hhd). assert (Hne : hd <> []) by by intros ->. destruct (spaces_suffix (rx h)) as (a & Ea & _). rewrite Esp in Ea.
  assert (Erx : rx h = (a ++ hd) ++ r) by (by rewrite Ea, Ehd, app_assoc).
  assert (Hi : Z.of_nat (length (rx h)) - Z.of_nat (length r) = Z.of_nat (length (a ++ hd))) by (rewrite Erx, !length_app; lia).
  assert (Hpos : 0 < Z.of_nat (length (a ++ hd))) by (rewrite length_app; destruct hd; [done|cbn [length]; lia]).
  rewrite Hi, (proj2 (Z.leb_le 0 _)) by lia. cbn [vassert mbind res_bind]. rewrite (proj2 (Z.eqb_neq _ 0)) by lia.
  destruct (release_ok_e h (wa_ws _ H) (wa_r _ H) (wa_b _ H) (rx_e h)) as (w & E & Hr); [pose proof (wa_e _ H); unfold rx_e in *; lia|].
  change (hws (set_rx h (rx h))) with (hws h). change (rx_e (set_rx h (rx h))) with (rx_e h). rewrite E. cbn [mbind res_bind mret res_ret].
  eexists _, 1. split; [reflexivity|]. left. split; [done|]. unfold received, input.
  assert (Hsp : spaces (rx h ++ concat (segs h)) = (c :: p) ++ concat (segs h)) by (by rewrite spaces_concat, Esp).
  rewrite Hsp. rewrite (hdr_end_app _ _ (concat (segs h)) Ee).
  destruct (Z.ltb_spec (Z.of_nat (length (a ++ hd))) (Z.of_nat (length (rx h)))) as [Hlt|Hge].
  - cbn [pipeline segs rx set_rx set_pipeline set_hws hws]. rewrite Nat2Z.id, Erx, drop_app_length, take_app_length. split_and!; [done| |apply H|done].
    assert (Esa : spaces (a ++ hd) = hd).
    { assert (E2 : spaces ((a ++ hd) ++ r) = hd ++ r) by (by rewrite <- Erx, Esp, Ehd). rewrite spaces_concat in E2. destruct (spaces (a ++ hd)) eqn:E3.
      - exfalso. apply (f_equal length) in E2. destruct (spaces_suffix r) as (x & Ex & _). rewrite Ex in E2 at 2. rewrite !length_app in E2. destruct hd; [done|cbn in E2; lia].
      - by apply app_inv_tail in E2. }
    rewrite Esa, Ehd. by rewrite app_assoc.
  - assert (Er : r = []) by (rewrite Erx, length_app in Hge; destruct r; [done|cbn in Hge; lia]). subst r.
    cbn [pipeline segs rx set_rx set_hws hws]. rewrite (wa_pipe _ H). cbn [app]. split_and!; [done| |apply H|done].
    by rewrite Esp.
Qed.

(** What a call of [HTC_Rx] makes of a connection whose head is not there yet. *)
Lemma Rx_ok h : waiting h -> hdr_end (spaces (rx h)) = None -> exists h' i, HTC_Rx h = Ok (h', i) /\
  (i = 1 /\ received h' (pending h) \/
   i = 0 /\ waiting h' /\ spaces (pending h') = spaces (pending h) /\ place h' = place h /\ hdr_end (spaces (rx h')) = None /\
     (length (concat (segs h')) < length (concat (segs h)))%nat /\ need (pending h') <= need (pending h) \/
   i = -1 /\ segs h = [] /\ hdr_end (spaces (pending h)) = None \/
   i = -2 /\ place h < need (pending h)).
Proof.
  intros H Hn. unfold HTC_Rx. rewrite vassert_true by (apply truth_true; apply H). cbn [mbind res_bind].
  assert (Hrel : exists w, WS_ReleaseP (hws h) (rx_b h) = Ok w /\ ws_r w = 0).
  { apply (release_ok_e h (wa_ws _ H) (wa_r _ H) (wa_b _ H)). pose proof (wa_e _ H). unfold rx_e in *. lia. }
  destruct Hrel as (w & Ew & Hr). unfold pending, place.
  destruct (Z.leb_spec (ws_r (hws h) - rx_e h - 1) 0) as [Hle|Hgt].
  { rewrite Ew. cbn [mbind res_bind mret res_ret]. do 2 eexists. split; [reflexivity|]. right. right. right. split; [done|].
    pose proof (proj2 (head_begin (rx h) (concat (segs h)) Hn)). unfold rx_e in Hle. lia. }
  destruct (sys_read h (ws_r (hws h) - rx_e h - 1)) as [[h1 d] n] eqn:Er.
  destruct (sys_read_ok _ _ _ _ _ (wa_segs _ H) Hgt Er) as (Hs1 & Hp1 & Hb1 & Hw1 & Hc).
  assert (Efields : rx_b h1 = rx_b h /\ rx h1 = rx h).
  { unfold sys_read in Er. destruct (segs h); injection Er as <- _ _; done. }
  destruct Efields as [Eb Erx].
  destruct Hc as [(Hsg & -> & -> & ->)|(Hn1 & -> & Hcat)].
  { assert (Hneg : (if broken h then -1 else 0) <=? 0 = true) by (by destruct (broken h)). rewrite Hneg, Ew. cbn [mbind res_bind mret res_ret].
    do 2 eexists. split; [reflexivity|]. right. right. left. split_and!; try done. rewrite Hsg. cbn [concat]. by rewrite app_nil_r. }
  rewrite (proj2 (Z.leb_gt _ 0)) by lia.
  assert (Hwait : waiting (set_rx h1 (rx h1 ++ d))).
  { destruct H. constructor; cbn [hws rx_b set_rx pipeline]; rewrite ?Hw1, ?Eb; try done.
    - unfold rx_e in *. cbn [rx rx_b set_rx]. rewrite Eb, Erx, length_app. lia.
    - by rewrite Hp1.
    - cbn [rx segs set_rx]. rewrite Erx, <- app_assoc, <- Hcat. done. }
  rewrite put_nul_ok by done. cbn [mbind res_bind].
  destruct (Complete_ok _ Hwait) as (h' & i & -> & Hc).
  assert (Epend : pending (set_rx h1 (rx h1 ++ d)) = rx h ++ concat (segs h)).
  { unfold pending. cbn [rx segs set_rx]. by rewrite Erx, Hcat, app_assoc. }
  rewrite Epend in Hc. exists h', i. split; [done|].
  destruct Hc as [(-> & Hrec)|(-> & Hw' & Hsp & Hsg & Hpl & _ & Hne & Hlen)]; [by left|]. right. left.
  assert (Epl : place (set_rx h1 (rx h1 ++ d)) = ws_r (hws h) - rx_b h - 1) by (unfold place; cbn [hws rx_b set_rx]; by rewrite Hw1, Eb).
  split_and!; try done.
  - by rewrite <- Epl.
  - rewrite Hsg. cbn [segs set_rx]. rewrite Hcat, length_app. lia.
Qed.

Lemma received_spaces h s s' : spaces s = spaces s' -> received h s -> received h s'.
Proof. unfold received. by intros ->. Qed.

(** The end of receiving: a head, or none before the end of input or of the place. *)
Definition outcome (h : http_conn) (i : Z) (s : list Z) (room : Z) : Prop :=
  i = 1 /\ received h s \/
  i = -1 /\ hdr_end (spaces s) = None \/
  i = -2 /\ room < need s.

Lemma rx_loop_ok fuel h : waiting h -> hdr_end (spaces (rx h)) = None -> (length (concat (segs h)) < fuel)%nat ->
  exists h' i, rx_loop fuel h 0 = Ok (h', i) /\ outcome h' i (pending h) (place h).
Proof.
  revert h. induction fuel as [|fuel IH]; intros h H Hn Hf; [lia|]. cbn [rx_loop Z.eqb negb].
  destruct (Rx_ok h H Hn) as (h1 & i & -> & Hc). cbn [mbind res_bind]. unfold outcome.
  destruct Hc as [(-> & Hr)|[(-> & Hw & Hsp & Hpl & Hn1 & Hl & Hlp)|[(-> & _ & He)|(-> & Hp)]]].
  - exists h1, 1. split; [by destruct fuel|by left].
  - destruct (IH h1 Hw Hn1) as (h2 & j & E & Ho); [lia|]. exists h2, j. split; [exact E|]. destruct Ho as [(-> & Hr)|[(-> & He)|(-> & Hp)]].
    + left. split; [done|by apply (received_spaces _ (pending h1))].
    + right. left. by rewrite <- Hsp.
    + right. right. split; [done|]. rewrite Hpl in Hp. lia.
  - exists h1, (-1). split; [by destruct fuel|by right; left].
  - exists h1, (-2). split; [by destruct fuel|by right; right].
Qed.

(** A workspace to receive in. *)
Record room_ok (w : ws) (maxbytes : Z) : Prop := {
  ro_ws : ws_ok w;
  ro_small : ws_small w;
  ro_r : ws_r w = 0;
  ro_max : 8 <= maxbytes <= UINT_MAX;
  ro_free : ws_f w + 8 <= ws_e w;
}.

Lemma reserve_waiting w maxbytes : room_ok w maxbytes -> WS_Reserve w maxbytes = Ok (set_r w (ws_f w + reserve_room w maxbytes), reserve_room w maxbytes) /\
  8 <= reserve_room w maxbytes /\ ws_ok (set_r w (ws_f w + reserve_room w maxbytes)).
Proof.
  intros [Hw Hs Hr Hm Hf]. split; [apply WS_Reserve_ok; try done; lia|].
  assert (H8 : 8 <= reserve_room w maxbytes /\ ws_f w + reserve_room w maxbytes <= ws_e w /\ reserve_room w maxbytes mod 8 = 0).
  { unfold reserve_room. rewrite (proj2 (Z.eqb_neq _ 0)) by lia. destruct Hw.
    destruct (Z.min_spec (maxbytes - maxbytes mod 8) (ws_e w - ws_f w)) as [[? ->]|[? ->]]; Z.to_euclidean_division_equations; lia. }
  destruct H8 as (H8 & He & Hmod). split; [done|]. apply ws_ok_set_r; [done|]. right. split; [destruct Hw; lia|]. apply add_mod8; [apply Hw|done].
Qed.

Lemma response_ok w maxbytes segs broken retry : room_ok w maxbytes -> Forall (fun s => s <> []) segs -> string_like (head_of (concat segs)) ->
  exists h code, receive_response (S (length (concat segs))) w maxbytes segs broken retry = Ok (h, code) /\
    (code = 0 /\ received h (concat segs) \/
     (code = -1 \/ code = retry /\ segs = []) /\
       (hdr_end (spaces (concat segs)) = None \/ reserve_room w maxbytes - 1 < need (concat segs))).
Proof.
  intros Hroom Hsegs Htext. destruct (reserve_waiting w maxbytes Hroom) as (E & H8 & Hok). unfold receive_response, HTC_Init. rewrite E. cbn [mbind res_bind].
  set (h0 := mkHtc (set_r w (ws_f w + reserve_room w maxbytes)) maxbytes _ [] [] segs broken).
  assert (Hw : waiting h0).
  { constructor; cbn; try done; try lia. - destruct (ro_ws _ _ Hroom). lia. - unfold rx_e. cbn. lia. }
  rewrite put_nul_ok by done. cbn [mbind res_bind].
  assert (Hp0 : place h0 = reserve_room w maxbytes - 1) by (unfold place; cbn; lia).
  destruct (Rx_ok h0 Hw eq_refl) as (h1 & i & -> & Hc). cbn [mbind res_bind]. change (pending h0) with (concat segs) in Hc. rewrite Hp0 in Hc.
  destruct Hc as [(-> & Hr)|[(-> & Hw1 & Hsp & Hpl & Hn1 & Hl & Hlp)|[(-> & Hs & He)|(-> & Hp)]]].
  - cbn. do 2 eexists. split; [reflexivity|]. by left.
  - cbn [Z.ltb Z.compare]. change (HttpConn.segs h0) with segs in Hl. destruct (rx_loop_ok (S (length (concat segs))) h1 Hw1 Hn1) as (h2 & j & -> & Ho); [lia|]. cbn [mbind res_bind mret res_ret].
    rewrite Hpl in Ho. do 2 eexists. split; [reflexivity|]. destruct Ho as [(-> & Hr)|[(-> & He)|(-> & Hp)]].
    + left. split; [done|by apply (received_spaces _ (pending h1))].
    + right. split; [by left|]. left. by rewrite <- Hsp.
    + right. split; [by left|]. right. lia.
  - cbn. do 2 eexists. split; [reflexivity|]. right. split; [by right|]. left. exact He.
  - cbn. do 2 eexists. split; [reflexivity|]. right. split; [by left|]. by right.
Qed.


Lemma need_head room s : room < need s -> hdr_end (spaces s) = None \/ room < Z.of_nat (length (head_of s)).
Proof.
  intros H. destruct (hdr_end (spaces s)) as [r|] eqn:E; [right|by left].
  destruct (head_split _ _ E) as (a & h & _ & _ & _ & -> & Hn & _). by rewrite Hn in H.
Qed.

(** ** Properties *)

(** C20. The head of a response is received however the octets of it come, and whatever
    comes after it, binary or longer than any workspace: when what the backend sends has a
    head, which ends with the first empty line and has no NUL, and the head with the blanks
    before it fits in the place that [WS_Reserve] gives, then it is received, and what is
    after it stays to be read, octet for octet.  Failing is for a backend that closes before
    an empty line and for a head that does not fit; and it is to be tried again, if at all,
    only when nothing came. *)
Theorem response_received (w : ws) (maxbytes : Z) (segs : list (list Z)) (broken : bool) (retry : Z)
    (Hroom : room_ok w maxbytes) (Hsegs : Forall (fun s => s <> []) segs) (Hhead : string_like (head_of (concat segs))) :
  exists h code, receive_response (S (length (concat segs))) w maxbytes segs broken retry = Ok (h, code) /\
    (hdr_end (spaces (concat segs)) <> None -> Z.of_nat (length (head_of (concat segs))) <= reserve_room w maxbytes - 1 -> code = 0) /\
    (code = 0 /\ hdr_end (spaces (concat segs)) = Some (input h) /\ spaces (rx h) ++ input h = spaces (concat segs) /\ ws_r (hws h) = 0 \/
     (code = -1 \/ code = retry /\ segs = []) /\
       (hdr_end (spaces (concat segs)) = None \/ reserve_room w maxbytes - 1 < Z.of_nat (length (head_of (concat segs))))).
Proof.
  destruct (response_ok w maxbytes segs broken retry Hroom Hsegs Hhead) as (h & code & E & Hc). exists h, code. split; [done|].
  destruct Hc as [(-> & H1 & H2 & _ & H3)|[Hcode Hc]]; [split; [done|by left]|].
  assert (Hor : hdr_end (spaces (concat segs)) = None \/ reserve_room w maxbytes - 1 < Z.of_nat (length (head_of (concat segs)))).
  { destruct Hc as [Hc|Hc]; [by left|by apply need_head]. }
  split; [|by right]. intros Hn Hf. exfalso. destruct Hor as [?|?]; [done|lia].
Qed.


(** A workspace of 64 octets. *)
Definition ex_room : ws := mkWs 0 1024 1024 0 1088.

Lemma ex_room_ok : room_ok ex_room 64.
Proof. constructor; [|by vm_compute|done|by split|by vm_compute]. split; cbn; try done; try lia. Qed.

Definition octets (s : string) : list Z := Mem.str s.
Definition eol : list Z := [13; 10].

(** A head in three pieces, with the begin of a body that is binary and too long for the
    workspace. *)
Definition ex_body : list Z := [0; 255; 10; 10] ++ repeat 0 100.
Definition ex_pieces : list (list Z) := [eol ++ octets "HTTP/1.1 200 OK" ++ [13]; [10] ++ octets "A: b" ++ eol; eol ++ take 9 ex_body; drop 9 ex_body].

Lemma response_received_witness :
  exists h, receive_response 132 ex_room 64 ex_pieces false 1 = Ok (h, 0) /\
    spaces (rx h) = octets "HTTP/1.1 200 OK" ++ eol ++ octets "A: b" ++ eol ++ eol /\ input h = ex_body.
Proof.
  assert (Hfr : hdr_end (spaces (concat ex_pieces)) = Some ex_body) by by vm_compute.
  destruct (response_received ex_room 64 ex_pieces false 1 ex_room_ok) as (h & code & E & Hok & Hc); [by repeat constructor|by vm_compute; repeat constructor|].
  exists h. assert (Hcode : code = 0) by (apply Hok; [by rewrite Hfr|by vm_compute]). subst code. split; [exact E|].
  destruct Hc as [(_ & H1 & H2 & _)|[_ [H|H]]].
  - rewrite Hfr in H1. injection H1 as H1. rewrite <- H1 in H2. split; [|done].
    apply (app_inv_tail ex_body). rewrite H2. by vm_compute.
  - rewrite Hfr in H. discriminate H.
  - exfalso. by vm_compute in H.
Defined.



End HttpConnThm.
