(* ===== verification/HttpWrite.v ===== *)
(** Messages to connections: [http_Write] of [bin/varnishd/cache_http.c], and what the
    calls that build a message make of its lines. *)
From S2P Require Import Prelude Vct Ws Mem Http HttpLines HttpCollect HttpWire Wrw WrwThm.
Import Vct Mem Http HttpLines HttpCollect HttpWire Wrw WrwThm.

Module HttpWrite.

(** ** Numbers *)

(** [%d] of a number of 64 bits, least digit first. *)
Fixpoint dec_rev (fuel : nat) (n : Z) : list Z :=
  match fuel with
  | O => []
  | S fuel => if n <? 10 then [48 + n] else (48 + n mod 10) :: dec_rev fuel (n / 10)
  end.
Definition decimal (n : Z) : list Z := if n <? 0 then 45 :: rev (dec_rev 20 (- n)) else rev (dec_rev 20 n).

(** [%3d] *)
Definition decimal3 (n : Z) : list Z := repeat 32 (3 - length (decimal n)) ++ decimal n.

(** ** Writing *)

(** [WRW_WriteH(w, t, suf)] *)
Definition write_txt (m : mem) (w : wrw) (t : txt) (suf : list Z) : res (wrw * Z) :=
  vassert (truth (b t));;
  vassert (truth (e t));;
  if e t <? b t then Fail FMemory else
  d ← region m (b t) (Z.to_nat (e t - b t));
  WRW_WriteH w d suf.

Definition write_slot (m : mem) (hp : http) (wl : wrw * Z) (u : nat) (suf : list Z) : res (wrw * Z) :=
  let '(w, l) := wl in
  t ← get_hd hp u;
  '(w, n) ← write_txt m w t suf;
  WSLH hp;;
  mret (w, u32 (l + n)).

Fixpoint write_lines (m : mem) (hp : http) (wl : wrw * Z) (us : list nat) : res (wrw * Z) :=
  match us with
  | [] => mret wl
  | u :: us =>
      t ← get_hd hp u;
      if b t =? 0 then write_lines m hp wl us else
      wl ← write_slot m hp wl u CRLF;
      write_lines m hp wl us
  end.

(** The workspace is the worker's, for the text of the status. *)
Definition http_Write (m : mem) (ws : Ws.ws) (hp : http) (w : wrw) (resp : bool) : res (mem * Ws.ws * http * wrw * Z) :=
  '(m, ws, hp, wl) ← (if resp then
      wl ← write_slot m hp (w, 0) HTTP_HDR_PROTO (str " ");
      '(ws, p) ← Ws.WS_Alloc ws 4;
      vassert (truth p);;
      m ← poke_all m p (decimal3 (status hp) ++ [0]);
      hp ← set_hd hp HTTP_HDR_STATUS (mkTxt p (p + 3));
      wl ← write_slot m hp wl HTTP_HDR_STATUS (str " ");
      wl ← write_slot m hp wl HTTP_HDR_RESPONSE CRLF;
      mret (m, ws, hp, wl)
    else
      t ← get_hd hp HTTP_HDR_URL;
      vassert (truth (b t));;
      wl ← write_slot m hp (w, 0) HTTP_HDR_REQ (str " ");
      wl ← write_slot m hp wl HTTP_HDR_URL (str " ");
      wl ← write_slot m hp wl HTTP_HDR_PROTO CRLF;
      mret (m, ws, hp, wl));
  wl ← write_lines m hp wl (seq HTTP_HDR_FIRST (nhd hp - HTTP_HDR_FIRST));
  let '(w, l) := wl in
  '(w, n) ← WRW_Write w CRLF;
  mret (m, ws, hp, w, u32 (l + n)).

(** ** Messages that are built *)

(** A message with [ls] in a workspace, ready for more. *)
Record built (m : mem) (w : Ws.ws) (hp : http) (ls : list line) : Prop := {
  bu_lines : has_lines m hp ls;
  bu_apart : lines_apart w hp;
  bu_ok : Ws.ws_ok w;
  bu_small : Ws.ws_small w;
  bu_r : Ws.ws_r w = 0;
  bu_free : forall a, Ws.ws_f w <= a < Ws.ws_e w -> is_Some (m !! a);
  bu_tag : WSLH hp = Ok tt;
}.

(** A text outside the free area of the workspace, in a slot of the first line. *)
Definition fixed (m : mem) (w : Ws.ws) (hp : http) (u : nat) (l : list Z) : Prop :=
  exists t, hd hp !! u = Some t /\ holds m t l /\ apart w t.

Lemma fixed_kept m m' w w' hp hp' u l : fixed m w hp u l -> kept m m' w w' -> hd hp' !! u = hd hp !! u -> fixed m' w' hp' u l.
Proof.
  intros (t & Ht & Hh & Ha) Hk E. exists t. rewrite E. split_and!; [done| |].
  - eapply holds_outside; [done..|]. apply Hk.
  - unfold apart in *. rewrite (kp_e _ _ _ _ Hk). pose proof (kp_f _ _ _ _ Hk). lia.
Qed.

Lemma mem_kept_trans m1 m2 m3 w1 w2 w3 : kept m1 m2 w1 w2 -> kept m2 m3 w2 w3 -> kept m1 m3 w1 w3.
Proof.
  intros [] []. constructor; try done; try lia; try congruence. intros a Ha. rewrite kp_mem1, kp_mem0 by lia. done.
Qed.

Lemma lines_apart_mono w w' hp : lines_apart w hp -> Ws.ws_f w <= Ws.ws_f w' -> Ws.ws_e w' = Ws.ws_e w -> lines_apart w' hp.
Proof. intros H Hf He i t Hi Ht. specialize (H i t Hi Ht). unfold apart in *. lia. Qed.

Lemma has_lines_kept m m' w hp ls : has_lines m hp ls -> lines_apart w hp ->
  (forall a, a < Ws.ws_f w \/ Ws.ws_e w <= a -> m' !! a = m !! a) -> has_lines m' hp ls.
Proof.
  intros [H1 H2 H3 H4] Ha Hm. split; [done..|]. intros i x Hi. destruct (H4 i x Hi) as (t & f & Ht & Hf & Hh & Ef).
  exists t, f. split_and!; [done..|]. split; [|done]. eapply holds_outside; [done| |done].
  apply (Ha (HTTP_HDR_FIRST + i)%nat); [|done]. apply lookup_lt_Some in Hi. lia.
Qed.

(** A line more, in slot [nhd]. *)
Lemma add_line m w hp ls t l : has_lines m hp ls -> lines_apart w hp -> (nhd hp < shd hp)%nat -> holds m t l -> apart w t ->
  exists hp', (to ← set_hd hp (nhd hp) t; set_hdf to (nhd to) 0) = Ok hp' /\ nhd hp' = nhd hp /\ lines_only hp hp' /\
    has_lines m (set_nhd hp' (S (nhd hp'))) (ls ++ [(l, 0)]) /\ lines_apart w (set_nhd hp' (S (nhd hp'))).
Proof.
  intros H Ha Hn Ht Hat. pose proof (hl_nhd _ _ _ H) as En.
  destruct (set_slot hp (nhd hp) t 0) as (hp' & E & Hlo & En' & Eh & Ef); [split; [rewrite En; lia|done]|apply H|].
  exists hp'. split_and!; [|done..| |].
  - rewrite <- E. unfold set_hd. by destruct (_ <? _)%nat.
  - split; cbn [hdf hd set_nhd nhd].
    + rewrite (lo_hdf _ _ Hlo), (lo_hd _ _ Hlo). apply H.
    + rewrite En', En, length_app. cbn. lia.
    + unfold shd. cbn [hd set_nhd]. rewrite (lo_hd _ _ Hlo), En'. unfold shd in Hn. lia.
    + refine (slots_insert m hp hp' (nhd hp) t 0 (l, 0) ls HTTP_HDR_FIRST Eh Ef Hn (hl_hdf _ _ _ H) _ _ _); [by split|by rewrite En|by apply has_lines_slots].
  - intros i t' Hi. cbn [hd set_nhd nhd] in *. rewrite En' in Hi. rewrite Eh. destruct (decide (i = nhd hp)) as [->|Hne].
    + rewrite list_lookup_insert_eq by (unfold shd in Hn; lia). by intros [= <-].
    + rewrite list_lookup_insert_ne by done. apply Ha. lia.
Qed.

Lemma WSLH_lines hp hp' : lines_only hp hp' -> WSLH hp = Ok tt -> WSLH hp' = Ok tt.
Proof. intros [_ _ E _ _ _ _] H. unfold WSLH in *. by rewrite E. Qed.

(** Taking the front of the free area for a text. *)
Lemma poke_free m w hp ls l p' :
  built m w hp ls -> p' = Ws.ws_f w + Ws.round_up (Z.of_nat (length l)) -> p' <= Ws.ws_e w ->
  exists m', poke_all m (Ws.ws_f w) l = Ok m' /\ mapped m' (Ws.ws_f w) l /\ kept m m' w (Ws.set_f w p') /\
    built m' (Ws.set_f w p') hp ls.
Proof.
  intros H -> He. pose proof (Ws.round_up_bounds (Z.of_nat (length l))) as Hru. pose proof (bu_ok _ _ _ _ H) as Hw.
  destruct (poke_all_ok (Ws.ws_f w) (Ws.ws_e w) l m (Ws.ws_f w)) as (m' & E & Hm & Ho & Hd); [lia|lia|apply H|].
  assert (Hw' : Ws.ws_ok (Ws.set_f w (Ws.ws_f w + Ws.round_up (Z.of_nat (length l))))).
  { apply Ws.ws_ok_set_f; [done|pose proof (Ws.ok_f _ Hw); lia|]. apply Ws.add_mod8; [by apply Hw|apply Ws.round_up_mod]. }
  assert (Ho' : forall a, a < Ws.ws_f w \/ Ws.ws_e w <= a -> m' !! a = m !! a).
  { intros a Ha. apply Ho. lia. }
  exists m'. split_and!; [done|done| |].
  - constructor; cbn; try done; try lia. apply H.
  - destruct H. constructor; cbn; try done.
    + by eapply has_lines_kept.
    + eapply lines_apart_mono; [done|cbn; lia|done].
    + intros a Ha. apply Hd. lia.
Qed.

(** [http_PrintfHeader] adds a line, when there is room. *)
Lemma PrintfHeader_ok m w hp lost ls text : built m w hp ls -> (nhd hp < shd hp)%nat ->
  Ws.ws_f w + Z.of_nat (length text) + 1 < Ws.ws_e w ->
  exists m' w' hp', http_PrintfHeader m w hp lost text = Ok (m', w', hp', lost) /\ built m' w' hp' (ls ++ [(text, 0)]) /\
    kept m m' w w' /\ lines_only hp hp' /\ Ws.ws_f w' = Ws.ws_f w + Ws.round_up (Z.of_nat (length text) + 1).
Proof.
  intros H Hn Hroom. pose proof H as [Hl Hap Hw Hsm Hr Hfree Htag].
  pose proof Hw as [h1 h2 h3 h4 h5 h6 h7 _]. unfold Ws.ws_small in Hsm.
  assert (Hru : Ws.ws_f w + Ws.round_up (Z.of_nat (length text) + 1) <= Ws.ws_e w).
  { unfold Ws.round_up. Z.to_euclidean_division_equations. lia. }
  pose proof (Ws.round_up_bounds (Z.of_nat (length text) + 1)) as Hrb.
  unfold http_PrintfHeader. rewrite Ws.WS_Reserve_ok by (try done; unfold UINT_MAX; lia).
  cbn [mbind res_bind]. change (Ws.reserve_room w 0) with (Ws.ws_e w - Ws.ws_f w).
  rewrite (proj2 (Z.eqb_neq (Ws.ws_e w - Ws.ws_f w) 0)) by lia. cbn [Ws.ws_f Ws.set_r].
  replace (take (Z.to_nat (Ws.ws_e w - Ws.ws_f w - 1)) text) with text by (symmetry; apply take_ge; lia).
  assert (Hlt : Z.of_nat (length (text ++ [0])) = Z.of_nat (length text) + 1) by (rewrite length_app; cbn; lia).
  destruct (poke_free m w hp ls (text ++ [0]) _ H eq_refl) as (m' & -> & Hm & Hk & Hb); [by rewrite Hlt|].
  rewrite Hlt in Hk, Hb. set (w' := Ws.set_f w _) in *. cbn [mbind res_bind].
  rewrite (proj2 (Z.leb_gt _ _)) by lia. rewrite (proj2 (Nat.leb_gt _ _)) by done. cbn [orb].
  set (t := mkTxt (Ws.ws_f w) (Ws.ws_f w + Z.of_nat (length text))).
  destruct (add_line m' w' hp ls t text) as (hp' & E & En & Hlo & Hhl & Hla).
  - apply Hb. - apply Hb. - done.
  - split; [cbn; lia|]. split_and!; [done|exact Hm|lia].
  - left. cbn. lia.
  - assert (Hassoc : forall {A B C} (x : res A) (f : A -> res B) (g : B -> res C), (x ≫= fun a => f a ≫= g) = (x ≫= f) ≫= g) by (by intros ? ? ? []).
    rewrite Hassoc, E. cbn [mbind res_bind].
    rewrite (Ws.WS_Release_ok (Ws.set_r w (Ws.ws_f w + (Ws.ws_e w - Ws.ws_f w))) (Z.of_nat (length text) + 1)).
    + cbn [mbind res_bind mret res_ret]. exists m', w', (set_nhd hp' (S (nhd hp'))).
      split_and!; [|destruct Hb; constructor; try done|done|by destruct Hlo; split|done].
      * cbn [Ws.set_r Ws.set_f Ws.ws_f]. subst w'. unfold Ws.set_f. by rewrite Hr.
      * apply (WSLH_lines hp); [by destruct Hlo; split|done].
    + apply Ws.ws_ok_set_r; [done|]. right. replace (Ws.ws_f w + (Ws.ws_e w - Ws.ws_f w)) with (Ws.ws_e w) by lia. split; [lia|done].
    + cbn. lia.
    + unfold UINT_MAX. clear - Hsm h4 h6 h7 Hroom. Z.to_euclidean_division_equations. lia.
    + cbn. lia.
Qed.

(** [http_Unset] moves slots only. *)
Lemma unset_loop_apart m w hdr N us : forall hp v hp' v', unset_loop m hp hdr v us = Ok (hp', v') ->
  (forall i, In i us -> (HTTP_HDR_FIRST <= i < N)%nat) ->
  (forall i t, (HTTP_HDR_FIRST <= i < N)%nat -> hd hp !! i = Some t -> apart w t) ->
  (forall i t, (HTTP_HDR_FIRST <= i < N)%nat -> hd hp' !! i = Some t -> apart w t) /\ (v' <= v + length us)%nat.
Proof.
  induction us as [|u us IH]; intros hp v hp' v' E Hus Hap; cbn [unset_loop] in E.
  { injection E as <- <-. split; [done|cbn; lia]. }
  unfold get_hd in E at 1. destruct (hd hp !! u) as [t|] eqn:Et; [|done]. cbn [deref mbind res_bind] in E.
  assert (Hus' : forall i, In i us -> (HTTP_HDR_FIRST <= i < N)%nat) by (intros i Hi; apply Hus; by right).
  pose proof (Hap u t (Hus u (or_introl eq_refl)) Et) as Ht.
  destruct (b t =? 0); [destruct (IH _ _ _ _ E Hus' Hap); split; [done|cbn; lia]|].
  destruct (http_IsHdr m t hdr) as [hit|]; [|done]. cbn [mbind res_bind] in E.
  destruct hit; [destruct (IH _ _ _ _ E Hus' Hap); split; [done|cbn; lia]|].
  destruct (bool_decide (v = u)); [destruct (IH _ _ _ _ E Hus' Hap); split; [done|cbn; lia]|].
  unfold set_hd in E at 1. destruct (_ <? _)%nat; [|done]. cbn [mbind res_bind mret res_ret] in E.
  destruct (get_hdf _ u) as [fl|]; [|done]. cbn [mbind res_bind] in E. unfold set_hdf in E at 1. destruct (_ <? _)%nat; [|done].
  cbn [mbind res_bind mret res_ret] in E. destruct (IH _ _ _ _ E Hus') as [H1 H2]; [|split; [done|cbn; lia]].
  cbn [hd]. intros i t' Hi Et'. destruct (decide (i = v)) as [->|Hne].
  - apply list_lookup_insert_Some in Et' as [(_ & <- & _)|[? _]]; [exact Ht|done].
  - rewrite list_lookup_insert_ne in Et' by done. by apply (Hap i).
Qed.

Lemma built_unset m w hp ls hdr : built m w hp ls -> header_name hdr ->
  exists hp', http_Unset m hp hdr = Ok hp' /\ lines_only hp hp' /\
    built m w hp' (filter (fun x => named hdr (fst x) = false) ls).
Proof.
  intros H Hn. destruct (Unset_ok m hp ls hdr (bu_lines _ _ _ _ H) Hn) as (hp' & E & Hl & Hlo). exists hp'. split_and!; [done..|].
  destruct H as [H1 H2 H3 H4 H5 H6 H7]. constructor; try done; [|by apply (WSLH_lines hp)].
  unfold http_Unset in E. pose proof (hl_nhd _ _ _ H1) as En. destruct (unset_loop _ _ _ _ _) as [[hp1 v]|] eqn:Eu; [|done]. injection E as <-.
  destruct (unset_loop_apart m w hdr (nhd hp) _ _ _ _ _ Eu) as [G1 G2].
  - intros i Hi. apply in_seq in Hi. lia.
  - exact H2.
  - intros i t Hi Ht. cbn in Hi, Ht. rewrite length_seq in G2. apply (G1 i); [lia|done].
Qed.

(** ** What is written *)

Definition short (l : list Z) : Prop := Z.of_nat (length l) < 2 ^ 31.

Lemma WriteH_ok w b d suf : writing w b -> short d -> short suf ->
  exists w' n, WRW_WriteH w d suf = Ok (w', n) /\ writing w' (b ++ d ++ suf) /\ siov w' = siov w.
Proof.
  intros Hw Hd Hs. unfold WRW_WriteH. destruct (write_w _ _ _ Hw Hd) as (w1 & -> & H1 & E1). cbn [mbind res_bind].
  destruct (write_w _ _ _ H1 Hs) as (w2 & -> & H2 & E2). cbn [mbind res_bind]. do 2 eexists. split; [reflexivity|].
  rewrite app_assoc. by rewrite E2.
Qed.

Lemma write_txt_ok m w b t l suf : writing w b -> holds m t l -> short l -> short suf ->
  exists w' n, write_txt m w t suf = Ok (w', n) /\ writing w' (b ++ l ++ suf) /\ siov w' = siov w.
Proof.
  intros Hw (Hb & He & Hm & _) Hl Hs. unfold write_txt.
  rewrite (vassert_true (truth (Http.b t))) by (apply truth_true; lia). rewrite (vassert_true (truth (Http.e t))) by (apply truth_true; lia).
  cbn [mbind res_bind]. rewrite (proj2 (Z.ltb_ge _ _)) by lia. replace (Z.to_nat (e t - Http.b t)) with (length l) by lia.
  apply mapped_app in Hm as [Hm _]. rewrite (region_run _ _ _ Hm). cbn [mbind res_bind]. by apply WriteH_ok.
Qed.

Lemma write_slot_ok m hp w n b u t l suf : writing w b -> WSLH hp = Ok tt -> hd hp !! u = Some t -> holds m t l -> short l -> short suf ->
  exists w' n', write_slot m hp (w, n) u suf = Ok (w', n') /\ writing w' (b ++ l ++ suf) /\ siov w' = siov w.
Proof.
  intros Hw Htag Ht Hh Hl Hs. unfold write_slot, get_hd. rewrite Ht. cbn [deref mbind res_bind].
  destruct (write_txt_ok _ _ _ _ _ _ Hw Hh Hl Hs) as (w1 & k & -> & H1 & E1). cbn [mbind res_bind]. rewrite Htag. cbn [mbind res_bind].
  by do 2 eexists.
Qed.

Lemma write_lines_ok m hp ls w n b i : writing w b -> WSLH hp = Ok tt -> slots m hp i ls -> Forall (fun x => short (fst x)) ls ->
  exists w' n', write_lines m hp (w, n) (seq i (length ls)) = Ok (w', n') /\ writing w' (b ++ wire_lines (map fst ls)) /\ siov w' = siov w.
Proof.
  revert w n b i. induction ls as [|x ls IH]; intros w n b i Hw Htag Hs Hsh; cbn [length seq write_lines].
  { do 2 eexists. split; [reflexivity|]. cbn. by rewrite app_nil_r. }
  apply slots_cons in Hs as [(t & f & Ht & _ & Hh & _) Hs]. apply Forall_cons in Hsh as [Hx Hsh].
  unfold get_hd at 1. rewrite Ht. cbn [deref mbind res_bind]. rewrite (proj2 (Z.eqb_neq _ _)) by (destruct Hh; lia).
  destruct (write_slot_ok m hp w n b i t (fst x) CRLF Hw Htag Ht Hh Hx eq_refl) as (w1 & n1 & -> & H1 & E1). cbn [mbind res_bind].
  destruct (IH w1 n1 _ (S i) H1 Htag Hs Hsh) as (w2 & n2 & -> & H2 & E2). do 2 eexists. split; [reflexivity|].
  split; [|by rewrite E2]. cbn [map]. unfold wire_lines in *. cbn [map concat]. by rewrite <- !app_assoc in *.
Qed.

Lemma lines_written m hp ls w n b : writing w b -> WSLH hp = Ok tt -> has_lines m hp ls -> Forall (fun x => short (fst x)) ls ->
  exists w' n', write_lines m hp (w, n) (seq HTTP_HDR_FIRST (nhd hp - HTTP_HDR_FIRST)) = Ok (w', n') /\
    writing w' (b ++ wire_lines (map fst ls)) /\ siov w' = siov w.
Proof.
  intros Hw Htag Hl Hs. rewrite (hl_nhd _ _ _ Hl). replace (HTTP_HDR_FIRST + length ls - HTTP_HDR_FIRST)%nat with (length ls) by lia.
  apply write_lines_ok; [done..|by apply has_lines_slots|done].
Qed.

(** A request goes out as it is on the wire. *)
Lemma Write_request m ws hp w b meth url proto ls : writing w b -> WSLH hp = Ok tt -> has_lines m hp ls -> Forall (fun x => short (fst x)) ls ->
  slot_is m hp HTTP_HDR_REQ meth -> slot_is m hp HTTP_HDR_URL url -> slot_is m hp HTTP_HDR_PROTO proto ->
  short meth -> short url -> short proto ->
  exists w' n, http_Write m ws hp w false = Ok (m, ws, hp, w', n) /\
    writing w' (b ++ wire_request meth url proto (map fst ls)) /\ siov w' = siov w.
Proof.
  intros Hw Htag Hl Hs (t1 & Ht1 & Hh1) (t2 & Ht2 & Hh2) (t3 & Ht3 & Hh3) S1 S2 S3. unfold http_Write.
  unfold get_hd at 1. rewrite Ht2. cbn [deref mbind res_bind]. rewrite (vassert_true (truth _)) by (apply truth_true; destruct Hh2; lia). cbn [mbind res_bind].
  destruct (write_slot_ok m hp w 0 _ _ _ _ (str " ") Hw Htag Ht1 Hh1 S1 eq_refl) as (w1 & n1 & -> & H1 & E1). cbn [mbind res_bind].
  destruct (write_slot_ok m hp w1 n1 _ _ _ _ (str " ") H1 Htag Ht2 Hh2 S2 eq_refl) as (w2 & n2 & -> & H2 & E2). cbn [mbind res_bind].
  destruct (write_slot_ok m hp w2 n2 _ _ _ _ CRLF H2 Htag Ht3 Hh3 S3 eq_refl) as (w3 & n3 & -> & H3 & E3). cbn [mbind res_bind mret res_ret].
  destruct (lines_written m hp ls w3 n3 _ H3 Htag Hl Hs) as (w4 & n4 & -> & H4 & E4). cbn [mbind res_bind].
  destruct (write_w _ _ CRLF H4 eq_refl) as (w5 & -> & H5 & E5). cbn [mbind res_bind mret res_ret]. do 2 eexists. split; [reflexivity|].
  split; [|congruence]. unfold wire_request. by rewrite <- !app_assoc in H5.
Qed.

(** The first line of a response. *)
Definition status_line (proto : list Z) (st : Z) (response : list Z) : list Z :=
  proto ++ str " " ++ decimal3 st ++ str " " ++ response ++ CRLF.

Definition wire_response (proto : list Z) (st : Z) (response : list Z) (ls : list (list Z)) : list Z :=
  status_line proto st response ++ wire_lines ls ++ CRLF.

Lemma dec_rev_length fuel n k : 0 <= n < 10 ^ Z.of_nat (S k) -> (length (dec_rev fuel n) <= S k)%nat.
Proof.
  revert n k. induction fuel as [|fuel IH]; intros n k Hn; cbn [dec_rev length]; [lia|].
  destruct (Z.ltb_spec n 10); cbn [length]; [lia|]. destruct k as [|k]; [change (10 ^ Z.of_nat 1) with 10 in Hn; lia|].
  rewrite Nat2Z.inj_succ, Z.pow_succ_r in Hn by lia.
  assert (length (dec_rev fuel (n / 10)) <= S k)%nat by (apply IH; split; [by apply Z.div_pos; lia|by apply Z.div_lt_upper_bound; lia]). lia.
Qed.

Lemma decimal3_length st : 0 <= st < 1000 -> length (decimal3 st) = 3%nat.
Proof.
  intros Hs. unfold decimal3. rewrite length_app, repeat_length. unfold decimal. rewrite (proj2 (Z.ltb_ge _ _)) by lia.
  pose proof (dec_rev_length 20 st 2 Hs). rewrite length_rev. lia.
Qed.

(** A response, when the workspace has place for the status. *)
Lemma Write_response m ws hp w b proto response ls : writing w b -> built m ws hp ls -> Forall (fun x => short (fst x)) ls ->
  fixed m ws hp HTTP_HDR_PROTO proto -> fixed m ws hp HTTP_HDR_RESPONSE response -> short proto -> short response ->
  0 <= status hp < 1000 -> Ws.ws_f ws + 8 <= Ws.ws_e ws ->
  exists m' ws' hp' w' n, http_Write m ws hp w true = Ok (m', ws', hp', w', n) /\
    writing w' (b ++ wire_response proto (status hp) response (map fst ls)) /\ siov w' = siov w /\ kept m m' ws ws'.
Proof.
  intros Hw Hb Hs Hp1 Hp2 S1 S2 Hst Hroom. pose proof Hb as [Hl Hap Hok Hsm Hr Hfree Htag]. unfold http_Write.
  destruct Hp1 as (t1 & Ht1 & Hh1 & Ha1), Hp2 as (t2 & Ht2 & Hh2 & Ha2).
  destruct (write_slot_ok m hp w 0 _ _ _ _ (str " ") Hw Htag Ht1 Hh1 S1 eq_refl) as (w1 & n1 & -> & H1 & E1). cbn [mbind res_bind].
  rewrite Ws.WS_Alloc_ok by (try done; unfold UINT_MAX; lia). change (Ws.round_up 4) with 8. rewrite (proj2 (Z.leb_le _ _)) by lia. cbn [mbind res_bind].
  rewrite vassert_true by (apply truth_true; destruct Hok; lia). cbn [mbind res_bind].
  pose proof (decimal3_length _ Hst) as Hd.
  destruct (poke_free m ws hp ls (decimal3 (status hp) ++ [0]) (Ws.ws_f ws + 8) Hb) as (m' & -> & Hm & Hk & Hb'); [by rewrite length_app, Hd|done|].
  cbn [mbind res_bind]. set (ws' := Ws.set_f ws (Ws.ws_f ws + 8)) in *.
  pose proof (hl_shd _ _ _ Hl) as Hsh. rewrite (hl_nhd _ _ _ Hl) in Hsh. unfold HTTP_HDR_FIRST, shd in Hsh.
  unfold set_hd. rewrite (proj2 (Nat.ltb_lt _ _)) by (unfold HTTP_HDR_STATUS; lia). cbn [mbind res_bind mret res_ret].
  set (ts := mkTxt (Ws.ws_f ws) (Ws.ws_f ws + 3)). set (hp2 := mkHttp _ (<[HTTP_HDR_STATUS:=ts]> (hd hp)) _ _ _ _ _).
  assert (Htag2 : WSLH hp2 = Ok tt) by exact Htag.
  assert (Hh : holds m' ts (decimal3 (status hp))).
  { split; [destruct Hok; cbn; lia|]. split_and!; [cbn; rewrite Hd; lia|exact Hm|rewrite Hd; lia]. }
  destruct (write_slot_ok m' hp2 w1 n1 _ HTTP_HDR_STATUS ts (decimal3 (status hp)) (str " ") H1 Htag2) as (w2 & n2 & -> & H2 & E2); try done.
  { cbn. apply list_lookup_insert_eq. unfold HTTP_HDR_STATUS. lia. }
  { unfold short. rewrite Hd. lia. }
  cbn [mbind res_bind].
  destruct (write_slot_ok m' hp2 w2 n2 _ HTTP_HDR_RESPONSE t2 response CRLF H2 Htag2) as (w3 & n3 & -> & H3 & E3); try done.
  { cbn. by rewrite list_lookup_insert_ne. }
  { eapply holds_outside; [done..|]. apply Hk. }
  cbn [mbind res_bind mret res_ret].
  assert (Hl2 : has_lines m' hp2 ls).
  { destruct (bu_lines _ _ _ _ Hb') as [G1 G2 G3 G4]. split; cbn.
    - by rewrite length_insert. - done. - unfold shd in *. cbn. by rewrite length_insert.
    - intros i x Hi. rewrite list_lookup_insert_ne by (unfold HTTP_HDR_STATUS, HTTP_HDR_FIRST; lia). by apply G4. }
  destruct (lines_written m' hp2 ls w3 n3 _ H3 Htag2 Hl2 Hs) as (w4 & n4 & -> & H4 & E4). cbn [mbind res_bind].
  destruct (write_w _ _ CRLF H4 eq_refl) as (w5 & -> & H5 & E5). cbn [mbind res_bind mret res_ret]. do 5 eexists. split; [reflexivity|].
  split_and!; [|congruence|done]. unfold wire_response, status_line. by rewrite <- !app_assoc in *.
Qed.

End HttpWrite.
