(* ===== verification/Response.v ===== *)
(** Responses: [bin/varnishd/cache_response.c], for a body that is delivered as it is
    stored.

    What a delivery changes is a record of the memory, the workspace of the worker, the
    response, the count of lost header lines and the gathered writer.  What is printed
    of dates and ages, the delivery of ESI objects and of objects that are uncompressed,
    and the outcome of the conditions of a request are parameters. *)
From S2P Require Import Prelude Vct Ws Mem Http HttpWire HttpConn Wrw Fetch HttpWrite.
Import Vct Mem Http HttpWire HttpConn Wrw Fetch HttpWrite.

Module Response.

Definition RES_LEN : Z := Z.shiftl 1 1.
Definition RES_EOF : Z := Z.shiftl 1 2.
Definition RES_CHUNKED : Z := Z.shiftl 1 3.
Definition RES_ESI : Z := Z.shiftl 1 4.
Definition RES_ESI_CHILD : Z := Z.shiftl 1 5.
Definition RES_GUNZIP : Z := Z.shiftl 1 6.

Definition H_Content_Encoding : list Z := str "Content-Encoding:".
Definition H_Range : list Z := str "Range:".

(** [mode & flags] *)
Definition has (mode flags : Z) : bool := truth (Z.land mode flags).

Record resp := mkResp { r_mem : mem; r_ws : Ws.ws; r_http : http; r_lost : Z; r_wrw : wrw }.

Definition set_http (s : resp) h := mkResp (r_mem s) (r_ws s) h (r_lost s) (r_wrw s).
Definition set_wrw (s : resp) w := mkResp (r_mem s) (r_ws s) (r_http s) (r_lost s) w.

(** Calls on the message. *)
Definition unset (s : resp) (hdr : list Z) : res resp := h ← http_Unset (r_mem s) (r_http s) hdr; mret (set_http s h).
Definition printf (s : resp) (text : list Z) : res resp :=
  '(m, w, h, lost) ← http_PrintfHeader (r_mem s) (r_ws s) (r_http s) (r_lost s) text; mret (mkResp m w h lost (r_wrw s)).
Definition set_resp (s : resp) (proto st response : Z) : res resp :=
  h ← http_SetResp (r_mem s) (r_http s) proto st response; mret (set_http s h).
Definition set_header (s : resp) (hdr : Z) : res resp :=
  '(h, lost) ← http_SetHeader (r_mem s) (r_http s) (r_lost s) hdr; mret (mkResp (r_mem s) (r_ws s) h lost (r_wrw s)).
Definition write_head (s : resp) : res resp :=
  '(m, w, h, o, _) ← http_Write (r_mem s) (r_ws s) (r_http s) (r_wrw s) true; mret (mkResp m w h (r_lost s) o).

(** ** Ranges *)

(** Digits into a [ssize_t], which wraps, and what is after them. *)
Fixpoint range_digits (acc : Z) (r : list Z) : Z * list Z :=
  match r with
  | c :: q => if vct_isdigit c then range_digits (s64 (s64 (acc * 10) + (c - 48))) q else (acc, r)
  | [] => (acc, [])
  end.

Definition at_digit (r : list Z) : bool := match r with c :: _ => vct_isdigit c | [] => false end.

(** The ends of the range, if there is one: the string is without its NUL. *)
Definition parse_range (r : list Z) (len : Z) : option (Z * Z) :=
  if negb (bool_decide (take 6 r = str "bytes=")) then None else
  let r := drop 6 r in
  (* The low end of range *)
  if negb (at_digit r) && negb (bool_decide (head r = Some 45)) then None else
  let has_low := at_digit r in
  let '(low, r) := range_digits 0 r in
  if len <=? low then None else
  match r with
  | 45 :: r =>
      (* The high end of range *)
      let '(low, high, r) :=
        if at_digit r then
          let '(high, r) := range_digits 0 r in
          if negb has_low then (s64 (len - high), len - 1, r) else (low, high, r)
        else (low, len - 1, r) in
      if negb (bool_decide (r = [])) then None else
      let high := if len <=? high then len - 1 else high in
      if high <? low then None else Some (low, high)
  | _ => None
  end.

(** The string at [p]. *)
Definition string_at (m : mem) (p : Z) : res (list Z) := q ← str_end m p; region m p (Z.to_nat (q - p)).

Definition content_range (low high len : Z) : list Z :=
  str "Content-Range: bytes " ++ decimal low ++ str "-" ++ decimal high ++ str "/" ++ decimal len.

Definition content_length (n : Z) : list Z := str "Content-Length: " ++ decimal n.

(** ** The body *)

Fixpoint dir_loop (sts : list storage) (ptr u low high : Z) (w : wrw) : res (wrw * Z) :=
  match sts with
  | [] => mret (w, u)
  | st :: sts =>
      let u := u + slen st in
      let len := slen st in
      if u64 (ptr + len) <=? u64 low then dir_loop sts (u64 (ptr + len)) u low high w else
      let chop := if ptr <? u64 low then u64 (low - ptr) else 0 in
      let off := chop in
      let len := u64 (len - chop) in
      let ptr := u64 (ptr + chop) in
      let len := if u64 high <? u64 (ptr + len) then u64 (1 + high - ptr) else len in
      if slen st <? off + len then Fail FMemory else
      '(w, _) ← WRW_Write w (take (Z.to_nat len) (drop (Z.to_nat off) (octs st)));
      dir_loop sts (u64 (ptr + len)) u low high w
  end.

Definition res_WriteDirObj (w : wrw) (store : list storage) (olen low high : Z) : res wrw :=
  '(w, u) ← dir_loop store 0 0 low high w;
  vassert (u =? olen);;
  mret w.

Section Response.

(** Where a string literal is. *)
Context (literal : list Z -> Z).

Definition res_dorange (s : resp) (response : Z) (res_mode : Z) (olen : Z) (r : list Z) (low high : Z) : res (resp * Z * Z) :=
  vassert (response =? 200);;
  match parse_range r olen with
  | None => mret (s, low, high)
  | Some (low, high) =>
      s ← printf s (content_range low high olen);
      s ← unset s H_Content_Length;
      vassert (has res_mode RES_LEN);;
      s ← printf s (content_length (s64 (1 + high - low)));
      s ← set_resp s (literal (str "HTTP/1.1")) 206 (literal (str "Partial Content"));
      mret (s, low, high)
  end.

(** ** Building the response *)

(** [obj]: the message of the object; [date] and [age]: what is printed for them. *)
Definition RES_BuildHttp (s : resp) (obj : http) (res_mode : Z) (http_range_support : bool) (date age : list Z)
    (xid obj_xid : Z) (doclose : bool) : res resp :=
  let to := set_logtag (http_ClrHeader (r_http s)) HTTP_Tx in
  to ← http_CopyResp literal (r_mem s) to obj;
  '(to, lost) ← http_FilterFields (r_mem s) to obj HTTPH_A_DELIVER (r_lost s);
  let s := mkResp (r_mem s) (r_ws s) to lost (r_wrw s) in
  s ← (if negb (has res_mode RES_LEN) then unset s H_Content_Length
       else if http_range_support then set_header s (literal (str "Accept-Ranges: bytes")) else mret s);
  s ← (if has res_mode RES_CHUNKED then printf s (str "Transfer-Encoding: chunked") else mret s);
  s ← printf s (str "Date: " ++ date);
  s ← printf s (str "X-Varnish: " ++ decimal xid ++ (if xid =? obj_xid then [] else str " " ++ decimal obj_xid));
  s ← printf s (str "Age: " ++ age);
  s ← set_header s (literal (str "Via: 1.1 varnish"));
  printf s (str "Connection: " ++ (if doclose then str "close" else str "keep-alive")).

(** ** Delivery *)

(** What delivers other bodies. *)
Context (ESI_Deliver ESI_DeliverChild res_WriteGunzipObj : wrw -> res wrw).

(** An object: its status, length and storage. *)
Record object := mkObject { o_response : Z; o_len : Z; o_store : list storage }.

(** The conditions and the range of the request [req]; [do_cond] is what
    [RFC2616_Do_Cond] says.  The ends of the range, and whether a body is wanted. *)
Definition WriteObj_head (s : resp) (obj : object) (req : http) (do_cond : bool) (wantbody : bool) (res_mode : Z)
    (http_range_support : bool) : res (resp * Z * Z * bool) :=
  '(s, wantbody) ← (if (o_response obj =? 200) && truth (conds req) && do_cond then
      s ← set_resp s (literal (str "HTTP/1.1")) 304 (literal (str "Not Modified"));
      s ← unset s H_Content_Length;
      s ← unset s H_Transfer_Encoding;
      mret (s, false)
    else mret (s, wantbody));
  let low := 0 in
  let high := o_len obj - 1 in
  '(s, low, high) ← (if wantbody && has res_mode RES_LEN && negb (has res_mode (Z.lor (Z.lor RES_ESI RES_ESI_CHILD) RES_GUNZIP)) &&
      http_range_support && (o_response obj =? 200) then
      p ← http_GetHdr (r_mem s) req H_Range;
      match p with
      | Some p => r ← string_at (r_mem s) p; res_dorange s (o_response obj) res_mode (o_len obj) r low high
      | None => mret (s, low, high)
      end
    else mret (s, low, high));
  mret (s, low, high, wantbody).

(** The result says whether the client has gone. *)
Definition RES_WriteObj (s : resp) (obj : object) (req : http) (do_cond : bool) (wantbody : bool) (res_mode : Z)
    (http_range_support gzip_resp : bool) : res (resp * bool) :=
  w ← WRW_Reserve (r_wrw s) true;
  let s := set_wrw s w in
  '(s, low, high, wantbody) ← WriteObj_head s obj req do_cond wantbody res_mode http_range_support;
  s ← (if has res_mode RES_GUNZIP then unset s H_Content_Encoding else mret s);
  s ← (if negb (has res_mode RES_ESI_CHILD) then write_head s else mret s);
  let res_mode := if (wantbody : bool) then res_mode else Z.land res_mode (Z.lnot RES_CHUNKED) in
  let w := r_wrw s in
  w ← (if has res_mode RES_CHUNKED then WRW_Chunked w else mret w);
  w ← (if negb wantbody then mret w
       else if o_len obj =? 0 then mret w
       else if has res_mode RES_ESI then ESI_Deliver w
       else if has res_mode RES_ESI_CHILD && gzip_resp then ESI_DeliverChild w
       else if has res_mode RES_GUNZIP then res_WriteGunzipObj w
       else res_WriteDirObj w (o_store obj) (o_len obj) low high);
  w ← (if has res_mode RES_CHUNKED && negb (has res_mode RES_ESI_CHILD) then WRW_EndChunk w else mret w);
  '(w, gone) ← WRW_FlushRelease w;
  mret (set_wrw s w, gone).

End Response.

(** ** Requests to a backend *)

(** The first half of [FetchHdr]: the request is sent, with its body from [h]. *)
Definition send_request (m : mem) (ws : Ws.ws) (bereq : http) (w : wrw) (h : http_conn) (cl : option (list Z)) (te sendbody : bool)
  : res (wrw * http_conn * bool) :=
  w ← WRW_Reserve w true;
  '(m, ws, bereq, w, _) ← http_Write m ws bereq w false;
  '(h, w, i) ← FetchReqBody h w cl te sendbody;
  '(w, u) ← WRW_FlushRelease w;
  mret (w, h, u || (0 <? i)).

(** ** Streaming *)

Definition RES_StreamStart (s : resp) (wantbody : bool) (res_mode : Z) (h_content_length : option (list Z)) : res resp :=
  vassert (negb (has res_mode RES_ESI_CHILD));;
  vassert wantbody;;
  w ← WRW_Reserve (r_wrw s) true;
  let s := set_wrw s w in
  s ← (if has res_mode RES_GUNZIP then unset s H_Content_Encoding else mret s);
  s ← match h_content_length with
      | Some b => if negb (has res_mode RES_CHUNKED) then printf s (str "Content-Length: " ++ b) else mret s
      | None => mret s
      end;
  s ← write_head s;
  w ← (if has res_mode RES_CHUNKED then WRW_Chunked (r_wrw s) else mret (r_wrw s));
  mret (set_wrw s w).

(** Without what is left of an uncompressed body. *)
Definition RES_StreamEnd (w : wrw) (res_mode : Z) : res (wrw * bool) :=
  w ← (if has res_mode RES_CHUNKED && negb (has res_mode RES_ESI_CHILD) then WRW_EndChunk w else mret w);
  WRW_FlushRelease w.

Section Streaming.

Context (alloc : nat -> Z -> option Z) (nuke : nat -> bool).
Context (fetchfrag fetch_chunksize fetch_maxchunksize nuke_limit : Z).

(** The body of [cnt_streambody]: the response, the object and whether fetching failed,
    what the object and the connection get, and whether the client has gone. *)
Definition stream_body (s : resp) (h : http_conn) (fpass : bool) (res_mode : Z) (body_status : body_status)
    (h_content_length : option (list Z)) (do_close : bool) : res (resp * fetch * bool * bool) :=
  s ← RES_StreamStart s true res_mode h_content_length;
  let f := mkFetch h [] 0 0 0 (Some (0, 0)) fpass (r_wrw s) in
  '(f, failed, _, _) ← FetchBody alloc nuke fetchfrag fetch_chunksize fetch_maxchunksize nuke_limit
    f body_status (default [] h_content_length) do_close;
  '(w, gone) ← RES_StreamEnd (out f) res_mode;
  mret (set_wrw s w, f, failed, gone).

End Streaming.

End Response.
