(* ===== verification/RespThm.v ===== *)
(** Responses: ranges, what goes to the client, streaming, and the response that is built from an object. *)
From S2P Require Import Prelude Vct Mem HttpConn Wrw WrwThm Fetch FetchInv HttpWrite Response Ws Http HttpLines HttpCollect HttpWire Coding FetchThm.

(** Ranges of a body. *)
Import Vct Mem HttpConn Wrw WrwThm Fetch FetchInv FetchLine HttpWrite Response Coding.

Module RangeThm.

#[local] Arguments body_of : simpl never.

(** The octets from [low] to [high] of a body. *)
Definition slice (low high : Z) (d : list Z) : list Z := drop (Z.to_nat low) (take (Z.to_nat (high + 1)) d).

Lemma slice_all d : slice 0 (Z.of_nat (length d) - 1) d = d.
Proof. unfold slice. replace (Z.of_nat (length d) - 1 + 1) with (Z.of_nat (length d)) by lia. by rewrite Nat2Z.id, firstn_all. Qed.

Lemma slice_length low high d : 0 <= low -> low <= high -> high < Z.of_nat (length d) -> Z.of_nat (length (slice low high d)) = 1 + high - low.
Proof. intros ???. unfold slice. rewrite length_drop, length_take. lia. Qed.

Lemma u64_small z : 0 <= z < 2 ^ 64 -> u64 z = z.
Proof. apply Z.mod_small. Qed.

(** ** Writing a range of the segments *)

Section Dir.

Context (P : wrw -> list Z -> Prop) `{!Sink P}.

(** [p] is where the first of the segments begins. *)
Lemma dir_loop_ok sts p u low high w b : P w b -> Forall st_ok sts -> 0 <= p -> 0 <= low <= high -> high < 2 ^ 63 ->
  p + Z.of_nat (length (body_of sts)) < 2 ^ 63 ->
  exists w', dir_loop sts (Z.min p (high + 1)) u low high w = Ok (w', u + Z.of_nat (length (body_of sts))) /\
    P w' (b ++ drop (Z.to_nat (low - p)) (take (Z.to_nat (high + 1 - p)) (body_of sts))).
Proof.
  revert p u w b. induction sts as [|st sts IH]; intros p u w b Hp Hst Hp0 Hlh Hh Hlen; cbn [dir_loop].
  { exists w. change (body_of []) with (@nil Z). rewrite take_nil, drop_nil, app_nil_r. split; [|done]. do 2 f_equal. cbn. lia. }
  apply Forall_cons in Hst as [Hs Hst]. rewrite body_cons in Hlen |- *. rewrite length_app in Hlen |- *. unfold st_ok, slen in *.
  set (n := length (octs st)) in *. set (q := Z.min p (high + 1)). assert (Hq : q = p \/ p > high /\ q = high + 1) by lia.
  rewrite (u64_small low), (u64_small (q + _)) by lia.
  destruct (Z.leb_spec (q + Z.of_nat n) low) as [Hle|Hgt].
  { assert (q = p) as -> by lia. replace (p + Z.of_nat n) with (Z.min (p + Z.of_nat n) (high + 1)) by lia.
    destruct (IH (p + Z.of_nat n) (u + Z.of_nat n) w b Hp Hst) as (w' & -> & Hw'); [lia..|]. exists w'. split; [do 2 f_equal; lia|].
    rewrite take_app_ge, drop_app_ge by (fold n; lia). fold n.
    replace (Z.to_nat (low - p) - n)%nat with (Z.to_nat (low - (p + Z.of_nat n))) by lia.
    replace (Z.to_nat (high + 1 - p) - n)%nat with (Z.to_nat (high + 1 - (p + Z.of_nat n))) by lia. done. }
  set (chop := if q <? low then u64 (low - q) else 0).
  assert (Hchop : chop = Z.max 0 (low - q)) by (unfold chop; destruct (Z.ltb_spec q low); [rewrite u64_small|]; lia).
  rewrite (u64_small (q + chop)), (u64_small (Z.of_nat n - chop)), (u64_small high), (u64_small (q + chop + (Z.of_nat n - chop))) by lia.
  set (len := if high <? q + chop + (Z.of_nat n - chop) then u64 (1 + high - (q + chop)) else Z.of_nat n - chop).
  assert (Hlen2 : len = Z.min (Z.of_nat n - chop) (1 + high - (q + chop))).
  { unfold len. destruct (Z.ltb_spec high (q + chop + (Z.of_nat n - chop))); [rewrite u64_small|]; lia. }
  rewrite (proj2 (Z.ltb_ge _ _)) by lia. rewrite (u64_small (q + chop + len)) by lia.
  destruct (sink_write w b (take (Z.to_nat len) (drop (Z.to_nat chop) (octs st))) Hp) as (w1 & -> & Hp1).
  { rewrite length_take, length_drop. fold n. lia. }
  cbn [mbind res_bind]. replace (q + chop + len) with (Z.min (p + Z.of_nat n) (high + 1)) by lia.
  destruct (IH (p + Z.of_nat n) (u + Z.of_nat n) w1 _ Hp1 Hst) as (w' & -> & Hw'); [lia..|]. exists w'. split; [do 2 f_equal; lia|].
  rewrite <- app_assoc in Hw'. rewrite firstn_app, skipn_app. rewrite length_take. fold n. 
  replace (take (Z.to_nat len) (drop (Z.to_nat chop) (octs st))) with (drop (Z.to_nat (low - p)) (take (Z.to_nat (high + 1 - p)) (octs st))) in Hw'.
  2: { rewrite skipn_firstn_comm. destruct Hq as [Eq|[Hph Eq]].
    - replace (Z.to_nat chop) with (Z.to_nat (low - p)) by lia. destruct (Z.le_gt_cases (Z.of_nat n) (high + 1 - p)).
      + rewrite !take_ge by (rewrite length_drop; fold n; lia). done.
      + f_equal. lia.
    - replace (Z.to_nat len) with O by lia. by replace (Z.to_nat (high + 1 - p) - Z.to_nat (low - p))%nat with O by lia. }
  replace (Z.to_nat (low - p) - Z.to_nat (high + 1 - p) `min` n)%nat with (Z.to_nat (low - (p + Z.of_nat n))) by lia.
  replace (Z.to_nat (high + 1 - p) - n)%nat with (Z.to_nat (high + 1 - (p + Z.of_nat n))) by lia. done.
Qed.

Lemma WriteDirObj_ok sts low high w b : P w b -> Forall st_ok sts -> 0 <= low <= high -> high < 2 ^ 63 ->
  Z.of_nat (length (body_of sts)) < 2 ^ 63 ->
  exists w', res_WriteDirObj w sts (Z.of_nat (length (body_of sts))) low high = Ok w' /\ P w' (b ++ slice low high (body_of sts)).
Proof.
  intros Hp Hst Hl Hh Hlen. unfold res_WriteDirObj. destruct (dir_loop_ok sts 0 0 low high w b) as (w' & E & Hw'); [done..|].
  replace (Z.min 0 (high + 1)) with 0 in E by lia. rewrite E. cbn [mbind res_bind]. rewrite Z.add_0_l, Z.eqb_refl. cbn [vassert mbind res_bind].
  exists w'. split; [done|]. unfold slice. by rewrite !Z.sub_0_r in Hw'.
Qed.

(** With a negative begin, every segment is taken to be before the range. *)
Lemma dir_loop_negative sts ptr u low high w : - 2 ^ 63 <= low < 0 -> 0 <= ptr -> ptr + Z.of_nat (length (body_of sts)) < 2 ^ 63 ->
  dir_loop sts ptr u low high w = Ok (w, u + Z.of_nat (length (body_of sts))).
Proof.
  revert ptr u. induction sts as [|st sts IH]; intros ptr u Hl Hp Hlen; cbn [dir_loop].
  { change (body_of []) with (@nil Z). cbn. by rewrite Z.add_0_r. }
  rewrite body_cons in Hlen |- *. rewrite length_app in Hlen |- *. unfold slen.
  assert (El : u64 low = low + 2 ^ 64). { unfold u64. rewrite <- (Z.mod_add low 1) by lia. rewrite Z.mod_small; lia. }
  rewrite El, u64_small by lia. rewrite (proj2 (Z.leb_le _ _)) by lia. rewrite IH by lia. do 2 f_equal. lia.
Qed.

End Dir.

(** ** The text of a range *)

Definition dec_char (c : Z) : Prop := 48 <= c <= 57.

Lemma dec_char_ok c : dec_char c -> vct_isdigit c = true /\ is_dig 10 c /\ dval c = c - 48.
Proof.
  intros Hc. unfold dec_char in *.
  assert (H : forallb (fun c => vct_isdigit c && bool_decide (digit_val c = Some (c - 48))) (seqZ 48 10) = true) by by vm_compute.
  rewrite forallb_forall in H. specialize (H c). rewrite <- list_elem_of_In, elem_of_seqZ in H. specialize (H ltac:(lia)).
  apply andb_prop in H as [H1 H2%bool_decide_eq_true]. split_and!; [done|exists (c - 48); split; [done|lia]|]. unfold dval. by rewrite H2.
Qed.

Lemma dec_rev_ok fuel n : 0 <= n < 10 ^ Z.of_nat fuel -> (0 < fuel)%nat ->
  Forall dec_char (dec_rev fuel n) /\ (forall acc, exists k, 0 <= k /\ value 10 acc (rev (dec_rev fuel n)) = acc * 10 ^ k + n) /\ dec_rev fuel n <> [].
Proof.
  revert n. induction fuel as [|fuel IH]; intros n Hn Hf; [lia|]. cbn [dec_rev].
  destruct (Z.ltb_spec n 10).
  { assert (Hc : dec_char (48 + n)) by (unfold dec_char; lia). split_and!; [by apply Forall_singleton| |done].
    intros acc. exists 1. split; [done|]. unfold value. cbn [rev app fold_left]. destruct (dec_char_ok _ Hc) as (_ & _ & ->). lia. }
  rewrite Nat2Z.inj_succ, Z.pow_succ_r in Hn by lia. pose proof (Z.div_mod n 10 ltac:(lia)) as Hdm. pose proof (Z.mod_pos_bound n 10 ltac:(lia)) as Hm.
  assert (Hc : dec_char (48 + n mod 10)) by (unfold dec_char; lia).
  destruct (IH (n / 10)) as (H1 & H2 & H3).
  { split; [by apply Z.div_pos; lia|by apply Z.div_lt_upper_bound; lia]. }
  { destruct fuel; [change (10 ^ Z.of_nat 0) with 1 in Hn; lia|lia]. }
  split_and!; [by constructor| |done]. intros acc. destruct (H2 acc) as (k & Hk & Hv). exists (Z.succ k). split; [lia|].
  cbn [rev]. unfold value in *. rewrite fold_left_app, Hv. cbn [fold_left]. destruct (dec_char_ok _ Hc) as (_ & _ & ->).
  rewrite Z.pow_succ_r by lia. lia.
Qed.

Lemma decimal_ok n : 0 <= n < 10 ^ 20 -> Forall dec_char (decimal n) /\ value 10 0 (decimal n) = n /\ decimal n <> [].
Proof.
  intros Hn. unfold decimal. rewrite (proj2 (Z.ltb_ge _ _)) by lia. destruct (dec_rev_ok 20 n Hn) as (H1 & H2 & H3); [lia|].
  split_and!; [by apply Forall_rev| |].
  - destruct (H2 0) as (k & _ & ->). lia.
  - intros E. apply (f_equal (@rev Z)) in E. by rewrite rev_involutive in E.
Qed.

(** The length that is announced is the length that is read. *)
Lemma decimal_number n : 0 <= n < 2 ^ 63 -> fetch_number (decimal n) 10 = n.
Proof.
  intros Hn. destruct (decimal_ok n) as (H1 & H2 & H3); [lia|]. pose proof (fetch_number_digits 10 (decimal n) (or_introl eq_refl) H3) as H.
  rewrite H2, (proj2 (Z.ltb_lt _ _)) in H by lia. apply H. eapply Forall_impl; [exact H1|]. intros c Hc. by apply dec_char_ok.
Qed.

Lemma strtoumax_decimal n : 0 <= n < 2 ^ 63 -> strtoumax (decimal n) 10 = (n, []).
Proof.
  intros Hn. destruct (decimal_ok n) as (H1 & H2 & H3); [lia|].
  rewrite (strtoumax_digits 10 (decimal n) (or_introl eq_refl) H3), H2.
  - by rewrite (proj2 (Z.leb_gt _ _)) by lia.
  - eapply Forall_impl; [exact H1|]. intros c Hc. by apply dec_char_ok.
Qed.

Lemma s64_small z : - 2 ^ 63 <= z < 2 ^ 63 -> s64 z = z.
Proof.
  intros Hz. unfold s64. cbv zeta. destruct (Z.lt_ge_cases z 0).
  - rewrite <- (Z.mod_add z 1), Z.mod_small by lia. rewrite (proj2 (Z.ltb_ge _ _)) by lia. lia.
  - rewrite Z.mod_small by lia. by rewrite (proj2 (Z.ltb_lt _ _)) by lia.
Qed.

Lemma value_mono s acc : Forall dec_char s -> 0 <= acc -> acc <= value 10 acc s.
Proof.
  revert acc. induction s as [|c s IH]; intros acc Hs Ha; [done|]. apply Forall_cons in Hs as [Hc Hs].
  unfold value. cbn [fold_left]. fold (value 10 (acc * 10 + dval c) s). destruct (dec_char_ok _ Hc) as (_ & _ & ->).
  unfold dec_char in Hc. specialize (IH (acc * 10 + (c - 48)) Hs). lia.
Qed.

Lemma range_digits_ok s acc rest : Forall dec_char s -> 0 <= acc -> value 10 acc s < 2 ^ 63 -> at_digit rest = false ->
  range_digits acc (s ++ rest) = (value 10 acc s, rest).
Proof.
  revert acc. induction s as [|c s IH]; intros acc Hs Ha Hv Hr; cbn [app range_digits].
  { destruct rest as [|c r]; [done|]. cbn in Hr. unfold value. cbn. by rewrite Hr. }
  apply Forall_cons in Hs as [Hc Hs]. destruct (dec_char_ok _ Hc) as (Hd & _ & Hdv). rewrite Hd.
  unfold value in Hv. cbn [fold_left] in Hv. fold (value 10 (acc * 10 + dval c) s) in Hv. rewrite Hdv in Hv.
  pose proof (value_mono s (acc * 10 + (c - 48)) Hs) as Hm. unfold dec_char in Hc.
  rewrite (s64_small (acc * 10)), s64_small by lia. rewrite IH; try done; [|lia]. unfold value. cbn [fold_left]. by rewrite Hdv.
Qed.

Lemma at_digit_iff c r : dec_char c -> at_digit (c :: r) = true.
Proof. intros Hc. cbn. by apply dec_char_ok. Qed.

(** Digits, by their place. *)
Lemma numeral_chars s n : numeral 10 s n -> Forall dec_char s /\ FetchLine.value 10 0 s = n /\ s <> [] /\ 0 <= n.
Proof.
  intros H. apply numeral_iff in H as (Hne & Hs & ->); [|done]. split_and!; [|done|done|by apply value_nonneg].
  eapply Forall_impl; [exact Hs|]. intros c Hc. apply is_dig_iff in Hc as [v [Hv Hc]]; [|done]. unfold dec_char. lia.
Qed.

Lemma numeral_digits s n rest : numeral 10 s n -> n < 2 ^ 63 -> at_digit rest = false ->
  range_digits 0 (s ++ rest) = (n, rest) /\ at_digit (s ++ rest) = true.
Proof.
  intros Hs Hn Hr. destruct (numeral_chars s n Hs) as (H1 & <- & H3 & _). split; [by apply range_digits_ok|].
  destruct s as [|c s]; [done|]. apply Forall_cons in H1 as [Hc _]. by apply at_digit_iff.
Qed.

(** A range of octets as RFC 2616 14.35.1 writes it, the only one of a set; numbers are
    below [2 ^ 63]. *)
Inductive range := From (a : Z) | FromTo (a b : Z) | Suffix (n : Z).

Inductive range_text : list Z -> range -> Prop :=
  | rt_from s a : numeral 10 s a -> a < 2 ^ 63 -> range_text (str "bytes=" ++ s ++ str "-") (From a)
  | rt_both s a t b : numeral 10 s a -> a < 2 ^ 63 -> numeral 10 t b -> b < 2 ^ 63 ->
      range_text (str "bytes=" ++ s ++ str "-" ++ t) (FromTo a b)
  | rt_suffix t n : numeral 10 t n -> n < 2 ^ 63 -> range_text (str "bytes=" ++ str "-" ++ t) (Suffix n).

(** What it asks for of a body of [len] octets: the first and the last; nothing if the
    range is not there or is no range, when it may be ignored.  A suffix that is longer
    than the body is all of it. *)
Definition range_ends (r : range) (len : Z) : option (Z * Z) :=
  match r with
  | From a => if a <? len then Some (a, len - 1) else None
  | FromTo a b => if (a <? len) && (a <=? b) then Some (a, Z.min b (len - 1)) else None
  | Suffix n => if 0 <? n then Some (Z.max 0 (len - n), len - 1) else None
  end.

(** No suffix longer than the body. *)
Definition range_fits (r : range) (len : Z) : Prop := match r with Suffix n => n <= len | _ => True end.

Lemma parse_range_ok t r len : range_text t r -> range_fits r len -> 0 <= len < 2 ^ 63 -> parse_range t len = range_ends r len.
Proof.
  intros Hr Hfit Hl. unfold parse_range. destruct Hr as [s a Ha Ha2|s a t b Ha Ha2 Hb Hb2|t n Hn Hn2]; change (take 6 (str "bytes=" ++ ?x)) with (str "bytes=");
  rewrite bool_decide_eq_true_2 by done; cbn [negb range_ends range_fits] in *.
  - change (drop 6 (str "bytes=" ++ s ++ str "-")) with (s ++ str "-"). destruct (numeral_chars _ _ Ha) as (_ & _ & _ & Ha0).
    destruct (numeral_digits s a (str "-") Ha Ha2 eq_refl) as [-> ->]. cbn [negb andb].
    destruct (Z.leb_spec len a), (Z.ltb_spec a len); try lia; [done|]. cbn. rewrite (proj2 (Z.leb_gt _ _)), (proj2 (Z.ltb_ge _ _)) by lia. done.
  - change (drop 6 (str "bytes=" ++ s ++ str "-" ++ t)) with (s ++ str "-" ++ t). destruct (numeral_chars _ _ Ha) as (_ & _ & _ & Ha0).
    destruct (numeral_digits s a (str "-" ++ t) Ha Ha2 eq_refl) as [-> ->]. cbn [negb andb].
    destruct (Z.leb_spec len a), (Z.ltb_spec a len); try lia; [done|]. change (str "-" ++ t) with (45 :: t).
    destruct (numeral_digits t b [] Hb Hb2 eq_refl) as [Eb Ed]. rewrite app_nil_r in Eb, Ed. rewrite Ed, Eb. cbn.
    destruct (Z.leb_spec a b); [|by destruct (Z.leb_spec len b); [lia|rewrite (proj2 (Z.ltb_lt _ _)) by lia]].
    destruct (Z.leb_spec len b); rewrite (proj2 (Z.ltb_ge _ _)) by lia; do 2 f_equal; lia.
  - change (drop 6 (str "bytes=" ++ str "-" ++ t)) with (45 :: t). destruct (numeral_chars _ _ Hn) as (_ & _ & _ & Hn0).
    cbn [at_digit range_digits]. change (vct_isdigit 45) with false. cbn [negb andb head].
    rewrite bool_decide_eq_true_2 by done. cbn [negb]. destruct (Z.eq_dec len 0) as [->|].
    { rewrite (proj2 (Z.ltb_ge _ _)) by lia. done. }
    rewrite (proj2 (Z.leb_gt _ _)) by lia.
    destruct (numeral_digits t n [] Hn Hn2 eq_refl) as [En Ed]. rewrite app_nil_r in En, Ed. rewrite Ed, En.
    rewrite bool_decide_eq_true_2 by done. cbn [negb]. rewrite s64_small by lia. rewrite (proj2 (Z.leb_gt _ _)) by lia.
    rewrite Z.max_r by lia. destruct (Z.ltb_spec 0 n), (Z.ltb_spec (len - 1) (len - n)); try lia; done.
Qed.

Lemma range_ends_bounds r len low high : (match r with From a | FromTo a _ => 0 <= a | Suffix _ => True end) -> 0 < len ->
  range_ends r len = Some (low, high) -> 0 <= low <= high /\ high < len.
Proof.
  intros H0 Hl. destruct r as [a|a b|n]; cbn.
  - destruct (Z.ltb_spec a len); intros [= <- <-]; lia.
  - destruct (Z.ltb_spec a len), (Z.leb_spec a b); cbn; intros [= <- <-]; lia.
  - destruct (Z.ltb_spec 0 n); intros [= <- <-]; lia.
Qed.

Lemma range_text_nonneg t r : range_text t r -> match r with From a | FromTo a _ => 0 <= a | Suffix _ => True end.
Proof. intros Hr. destruct Hr as [s a H _|s a t' b H _ _ _|]; [..|done]; by destruct (numeral_chars _ _ H) as (_ & _ & _ & ?). Qed.

(** Whatever the text is. *)
Lemma parse_range_bounds r len low high : parse_range r len = Some (low, high) -> low <= high < len.
Proof.
  unfold parse_range. destruct (negb _); [done|]. destruct (_ && _); [done|]. destruct (range_digits 0 (drop 6 r)) as [l q].
  destruct (Z.leb_spec len l); [done|]. destruct q as [|c q]; [done|]. 
  set (x := if at_digit q then _ else _). destruct x as [[lo hi] q'].
  assert (H2 : forall o, o = Some (low, high) -> o = (if negb (bool_decide (q' = [])) then None else
    if (if len <=? hi then len - 1 else hi) <? lo then None else Some (lo, if len <=? hi then len - 1 else hi)) -> low <= high < len).
  { intros o -> E. destruct (negb _); [done|]. destruct (Z.ltb_spec (if len <=? hi then len - 1 else hi) lo); [done|]. injection E as -> ->.
    destruct (Z.leb_spec len hi); lia. }
  intros E. apply (H2 _ E). destruct c as [|c|c]; try done. repeat (destruct c as [c|c|]; try done).
Qed.

End RangeThm.

(** Responses: what goes to the client. *)
Import Vct Mem Http HttpLines HttpCollect HttpWire Wrw WrwThm Fetch Coding FetchThm HttpWrite Response RangeThm.

Module RespThm.

#[local] Arguments FetchInv.body_of : simpl never.
#[local] Arguments parse_range : simpl never.
#[local] Notation body_of := FetchInv.body_of.

(** ** Messages *)

(** A response with its lines, ready to be changed and written. *)
Record message (s : resp) (proto : list Z) (st : Z) (reason : list Z) (ls : list line) : Prop := {
  me_built : built (r_mem s) (r_ws s) (r_http s) ls;
  me_short : Forall (fun x => short (fst x)) ls;
  me_proto : fixed (r_mem s) (r_ws s) (r_http s) HTTP_HDR_PROTO proto;
  me_reason : fixed (r_mem s) (r_ws s) (r_http s) HTTP_HDR_RESPONSE reason;
  me_shorts : short proto /\ short reason;
  me_status : status (r_http s) = st /\ 0 <= st < 1000;
}.

(** Room for [n] lines and for [k] octets, each line rounded up. *)
Definition roomy (s : resp) (n : nat) (k : Z) : Prop :=
  (nhd (r_http s) + n <= shd (r_http s))%nat /\ Ws.ws_f (r_ws s) + k <= Ws.ws_e (r_ws s).

Lemma first_slots hp hp' u : lines_only hp hp' -> (u <? HTTP_HDR_FIRST)%nat = true -> hd hp' !! u = hd hp !! u.
Proof. intros Hlo Hu%Nat.ltb_lt. by apply (lo_first _ _ Hlo). Qed.

(** What the calls leave. *)
Definition goes (s s' : resp) : Prop :=
  kept (r_mem s) (r_mem s') (r_ws s) (r_ws s') /\ r_wrw s' = r_wrw s.

Lemma goes_trans a b c : goes a b -> goes b c -> goes a c.
Proof. intros [H1 E1] [H2 E2]. split; [by eapply mem_kept_trans|congruence]. Qed.

Lemma message_goes s : forall proto st reason ls, message s proto st reason ls -> goes s s.
Proof. intros proto st reason ls H. split; [|done]. apply kept_refl; apply H. Qed.

Lemma printf_ok s proto st reason ls text n k : message s proto st reason ls -> short text -> roomy s (S n) (Z.of_nat (length text) + 9 + k) -> 0 <= k ->
  exists s', printf s text = Ok s' /\ message s' proto st reason (ls ++ [(text, 0)]) /\ roomy s' n k /\ goes s s'.
Proof.
  intros [Hb Hs Hp Hr [S1 S2] [Es Hst]] Ht [Hn Hk] H0. unfold printf.
  pose proof (Ws.round_up_bounds (Z.of_nat (length text) + 1)) as Hru.
  destruct (PrintfHeader_ok _ _ _ (r_lost s) ls text Hb) as (m & w & h & -> & Hb' & Hkp & Hlo & Ef); [lia|lia|]. cbn [mbind res_bind mret res_ret].
  eexists. split; [reflexivity|]. split_and!; [|split; cbn [r_http r_ws]|].
  - constructor; cbn [r_mem r_ws r_http].
    + done.
    + apply Forall_app. split; [done|]. by apply Forall_singleton.
    + eapply fixed_kept; [done|done|by apply first_slots].
    + eapply fixed_kept; [done|done|by apply first_slots].
    + done.
    + by rewrite (lo_status _ _ Hlo).
  - pose proof (hl_nhd _ _ _ (bu_lines _ _ _ _ Hb')) as E1. pose proof (hl_nhd _ _ _ (bu_lines _ _ _ _ Hb)) as E2.
    rewrite length_app in E1. cbn [length] in E1. unfold shd in *. rewrite (lo_hd _ _ Hlo). lia.
  - rewrite (kp_e _ _ _ _ Hkp). lia.
  - by split.
Qed.

Definition without (hdr : list Z) (ls : list line) : list line := filter (fun x => named hdr (fst x) = false) ls.

Lemma unset_ok s proto st reason ls hdr n k : message s proto st reason ls -> header_name hdr -> roomy s n k ->
  exists s', unset s hdr = Ok s' /\ message s' proto st reason (without hdr ls) /\ roomy s' n k /\ goes s s'.
Proof.
  intros [Hb Hs Hp Hr Hss [Es Hst]] Hn [Hn1 Hk]. unfold unset.
  destruct (built_unset _ _ _ _ hdr Hb Hn) as (h & -> & Hlo & Hb'). cbn [mbind res_bind mret res_ret].
  assert (Hfix : forall u l, (u < HTTP_HDR_FIRST)%nat -> fixed (r_mem s) (r_ws s) (r_http s) u l -> fixed (r_mem s) (r_ws s) h u l).
  { intros u l Hu (t & Et & Ht). exists t. destruct (lo_first _ _ Hlo u Hu) as [-> _]. done. }
  eexists. split; [reflexivity|]. split_and!; [|split; cbn [r_http r_ws set_http]; [|done]|split; [|done]].
  - constructor; cbn [r_mem r_ws r_http set_http]; try done.
    + rewrite Forall_forall in *. intros x [_ Hx]%list_elem_of_filter. by apply Hs.
    + apply Hfix; [unfold HTTP_HDR_FIRST, HTTP_HDR_PROTO; lia|done].
    + apply Hfix; [unfold HTTP_HDR_FIRST, HTTP_HDR_RESPONSE; lia|done].
    + by rewrite (lo_status _ _ Hlo).
  - pose proof (hl_nhd _ _ _ (bu_lines _ _ _ _ Hb')) as E1. pose proof (hl_nhd _ _ _ (bu_lines _ _ _ _ Hb)) as E2.
    pose proof (length_filter (fun x : line => named hdr (fst x) = false) ls) as Hf. unfold shd in *. rewrite (lo_hd _ _ Hlo). lia.
  - apply kept_refl; apply Hb.
Qed.

(** A string literal. *)
Record literal_at (m : mem) (w : Ws.ws) (p : Z) (l : list Z) : Prop := {
  la_holds : holds m (mkTxt p (p + Z.of_nat (length l))) l;
  la_apart : apart w (mkTxt p (p + Z.of_nat (length l)));
  la_string : Forall (fun c => negb (c =? 0) = true) l;
}.

Lemma literal_kept m m' w w' p l : literal_at m w p l -> kept m m' w w' -> literal_at m' w' p l.
Proof.
  intros [H1 H2 H3] Hk. split; [|unfold apart in *; rewrite (kp_e _ _ _ _ Hk); pose proof (kp_f _ _ _ _ Hk); lia|done].
  eapply holds_outside; [done..|]. apply Hk.
Qed.

Lemma SetH_ok m w h u p l ls : built m w h ls -> literal_at m w p l -> (u < HTTP_HDR_FIRST)%nat ->
  exists h', http_SetH m h u p = Ok h' /\ built m w h' ls /\ fixed m w h' u l /\ nhd h' = nhd h /\ shd h' = shd h /\ status h' = status h /\
    (forall v, v <> u -> hd h' !! v = hd h !! v).
Proof.
  intros Hb [Hh Hap Hs] Hu. unfold http_SetH. pose proof (bu_lines _ _ _ _ Hb) as [L1 L2 L3 L4].
  assert (Hu2 : (u < shd h)%nat) by (unfold shd in *; rewrite L2 in L3; lia).
  rewrite (vassert_true (_ <? _)%nat) by (by apply Nat.ltb_lt). cbn [mbind res_bind]. pose proof Hh as (Hp0 & _ & Hm & _). cbn [b] in Hp0, Hm.
  rewrite (vassert_true (truth p)) by (apply truth_true; lia). cbn [mbind res_bind]. unfold str_end.
  rewrite (skip_run _ m p l 0 Hm Hs) by done. cbn [mbind res_bind]. unfold set_hd. unfold shd in Hu2. rewrite (proj2 (Nat.ltb_lt _ _) Hu2). cbn [mbind res_bind mret res_ret].
  unfold set_hdf. cbn [hdf hd logtag nhd status protover conds]. rewrite L1, (proj2 (Nat.ltb_lt _ _) Hu2). eexists. split; [reflexivity|].
  split_and!; [|eexists; split; [by cbn; apply list_lookup_insert_eq|by split]|done|unfold shd; cbn; by rewrite length_insert|done|].
  - destruct Hb as [_ B2 B3 B4 B5 B6 B7]. constructor; try done.
    + split; unfold shd in *; cbn; rewrite ?length_insert; try done. intros i x Hi.
      rewrite !list_lookup_insert_ne by (unfold HTTP_HDR_FIRST in *; lia). by apply L4.
    + intros i t Hi. cbn in Hi |- *. rewrite list_lookup_insert_ne by lia. by apply B2.
  - intros v Hv. cbn. by rewrite list_lookup_insert_ne.
Qed.

Lemma set_resp_ok s proto st reason ls p1 l1 st2 p2 l2 n k : message s proto st reason ls -> roomy s n k -> 100 <= st2 <= 999 ->
  literal_at (r_mem s) (r_ws s) p1 l1 -> literal_at (r_mem s) (r_ws s) p2 l2 -> short l1 -> short l2 ->
  exists s', set_resp s p1 st2 p2 = Ok s' /\ message s' l1 st2 l2 ls /\ roomy s' n k /\ goes s s'.
Proof.
  intros Hm [Hn Hk] Hst H1 H2 S1 S2. pose proof Hm as [Hb Hs Hp Hr _ _]. unfold set_resp, http_SetResp.
  destruct (SetH_ok _ _ _ HTTP_HDR_PROTO p1 l1 ls Hb H1) as (h1 & -> & Hb1 & Hf1 & N1 & D1 & E1 & O1); [unfold HTTP_HDR_FIRST, HTTP_HDR_PROTO; lia|].
  cbn [mbind res_bind]. rewrite vassert_true by lia. cbn [mbind res_bind].
  assert (Hb2 : built (r_mem s) (r_ws s) (set_status h1 st2) ls) by (destruct Hb1 as [[] ? ? ? ? ? ?]; constructor; try done; by constructor).
  destruct (SetH_ok _ _ _ HTTP_HDR_RESPONSE p2 l2 ls Hb2 H2) as (h2 & -> & Hb3 & Hf2 & N2 & D2 & E2 & O2); [unfold HTTP_HDR_FIRST, HTTP_HDR_RESPONSE; lia|].
  cbn [mbind res_bind mret res_ret]. eexists. split; [reflexivity|]. split_and!; [|split; cbn [r_http r_ws set_http]|split; [|done]].
  - constructor; cbn [r_mem r_ws r_http set_http]; try done.
    + destruct Hf1 as (t & Et & Ht). exists t. rewrite O2 by done. done.
    + rewrite E2. cbn. lia.
  - rewrite N2, D2. change (nhd (set_status h1 st2)) with (nhd h1). change (shd (set_status h1 st2)) with (shd h1). by rewrite N1, D1.
  - done.
  - by apply (message_goes s proto st reason ls).
Qed.

Lemma write_head_ok s proto st reason ls b n : message s proto st reason ls -> roomy s n 8 -> writing (r_wrw s) b ->
  exists s', write_head s = Ok s' /\ writing (r_wrw s') (b ++ wire_response proto st reason (map fst ls)) /\ siov (r_wrw s') = siov (r_wrw s).
Proof.
  intros [Hb Hs Hp Hr [S1 S2] [<- Hst]] [_ Hk] Hw. unfold write_head.
  destruct (Write_response _ _ _ _ _ _ _ _ Hw Hb Hs Hp Hr S1 S2 Hst Hk) as (m & w & h & o & l & -> & Ho & Es & _). cbn [mbind res_bind mret res_ret].
  by eexists.
Qed.

(** ** What is to be sent *)

Record reply := mkReply { rp_proto : list Z; rp_status : Z; rp_reason : list Z; rp_lines : list line; rp_body : list Z }.

Definition wire_reply (r : reply) : list Z := wire_response (rp_proto r) (rp_status r) (rp_reason r) (map fst (rp_lines r)).

(** The reply with a range of its body. *)
Definition partial (r : reply) (low high : Z) : reply :=
  let len := Z.of_nat (length (rp_body r)) in
  mkReply (str "HTTP/1.1") 206 (str "Partial Content")
    (without H_Content_Length (rp_lines r ++ [(content_range low high len, 0)]) ++ [(content_length (s64 (1 + high - low)), 0)])
    (slice low high (rp_body r)).

Definition not_modified (r : reply) : reply :=
  mkReply (str "HTTP/1.1") 304 (str "Not Modified")
    (without H_Transfer_Encoding (without H_Content_Length (rp_lines r))) [].

Definition only_head (r : reply) : reply := mkReply (rp_proto r) (rp_status r) (rp_reason r) (rp_lines r) [].

(** [range] is what the request says of a range. *)
Definition answer (r : reply) (unchanged wantbody : bool) (range : option (Z * Z)) : reply :=
  if unchanged then not_modified r else
  if negb wantbody then only_head r else
  match range with Some (low, high) => partial r low high | None => r end.

(** What is sent of its body: nothing, when the range is taken to begin before the body. *)
Definition sent (range : option (Z * Z)) (d : list Z) : list Z :=
  match range with Some (low, _) => if low <? 0 then [] else d | None => d end.

(** How a body goes, with chunks or without. *)
Definition carries (chunks : bool) (e d : list Z) : Prop := if chunks then chunked e d [] else e = d.

(** The range that is taken from a request. *)
Definition wanted (rls : list line) (len : Z) : option (Z * Z) :=
  match first_named H_Range rls 0 with
  | Some (_, l) => parse_range (value H_Range l) len
  | None => None
  end.

(** The range that a request asks for: it has one, or none. *)
Definition range_asked (rls : list line) (rq : option range) : Prop :=
  match first_named H_Range rls 0 with
  | Some (_, l) => exists r, rq = Some r /\ range_text (value H_Range l) r
  | None => rq = None
  end.

Lemma wanted_asked rls rq len : range_asked rls rq -> (forall r, rq = Some r -> range_fits r len) -> 0 <= len < 2 ^ 63 ->
  wanted rls len = rq ≫= (fun r => range_ends r len) /\ forall low high, wanted rls len = Some (low, high) -> 0 <= low.
Proof.
  unfold wanted, range_asked. destruct (first_named H_Range rls 0) as [[? l]|]; [|by intros ->].
  intros (r & -> & Hr) Hf Hl. rewrite (parse_range_ok _ r len Hr (Hf r eq_refl) Hl). split; [done|]. intros low high E.
  pose proof (range_text_nonneg _ _ Hr) as H0. destruct r as [a|a b|k]; cbn in E.
  - destruct (a <? len); [by injection E as <- _|done].
  - destruct (_ && _); [by injection E as <- _|done].
  - destruct (0 <? k); [|done]. injection E as <- _. lia.
Qed.

Lemma parse_range_low r len low high : - 2 ^ 63 <= len < 2 ^ 63 -> parse_range r len = Some (low, high) -> - 2 ^ 63 <= low.
Proof.
  intros Hl. assert (Hs : forall z, - 2 ^ 63 <= s64 z).
  { intros z. unfold s64. cbv zeta. pose proof (Z.mod_pos_bound z (2 ^ 64) ltac:(lia)). destruct (Z.ltb_spec (z mod 2 ^ 64) (2 ^ 63)); lia. }
  assert (Hd : forall q acc, - 2 ^ 63 <= acc -> - 2 ^ 63 <= fst (range_digits acc q)).
  { induction q as [|c q IH]; intros acc Ha; cbn [range_digits]; [done|]. destruct (vct_isdigit c); [by apply IH|done]. }
  unfold parse_range. destruct (negb _); [done|]. destruct (_ && _); [done|]. pose proof (Hd (drop 6 r) 0 ltac:(lia)) as Hr.
  destruct (range_digits 0 (drop 6 r)) as [l q]. cbn in Hr. destruct (len <=? l); [done|]. destruct q as [|c q]; [done|].
  set (x := if at_digit q then _ else _). assert (Hx : - 2 ^ 63 <= fst (fst x)).
  { unfold x. destruct (at_digit q); [|done]. destruct (range_digits 0 q) as [h q2]. destruct (negb _); [apply Hs|done]. }
  destruct x as [[lo hi] q']. cbn in Hx.
  assert (H2 : (if negb (bool_decide (q' = [])) then None else
    if (if len <=? hi then len - 1 else hi) <? lo then None else Some (lo, if len <=? hi then len - 1 else hi)) = Some (low, high) -> - 2 ^ 63 <= low).
  { destruct (negb _); [done|]. destruct (_ <? lo); [done|]. by intros [= <- _]. }
  destruct c as [|c|c]; try done. repeat (destruct c as [c|c|]; try done).
Qed.

Lemma header_names : header_name H_Content_Length /\ header_name H_Transfer_Encoding /\ header_name H_Range.
Proof. split_and!; apply header_name_b_ok; by vm_compute. Qed.

Lemma decimal_short z : - 2 ^ 63 <= z < 2 ^ 64 -> Z.of_nat (length (decimal z)) <= 20.
Proof.
  intros Hz. unfold decimal. destruct (Z.ltb_spec z 0); cbn [length]; rewrite length_rev.
  - pose proof (dec_rev_length 20 (- z) 18). change (10 ^ Z.of_nat 19) with (10 ^ 19) in *. lia.
  - pose proof (dec_rev_length 20 z 19). change (10 ^ Z.of_nat 20) with (10 ^ 20) in *. lia.
Qed.

Lemma content_range_short low high len : - 2 ^ 63 <= low < 2 ^ 63 -> - 2 ^ 63 <= high < 2 ^ 63 -> 0 <= len < 2 ^ 63 ->
  Z.of_nat (length (content_range low high len)) <= 83.
Proof.
  intros H1 H2 H3. unfold content_range. rewrite !length_app. change (length (str "Content-Range: bytes ")) with 21%nat.
  change (length (str "-")) with 1%nat. change (length (str "/")) with 1%nat.
  pose proof (decimal_short low). pose proof (decimal_short high). pose proof (decimal_short len). lia.
Qed.

Lemma content_length_short n : - 2 ^ 63 <= n < 2 ^ 63 -> Z.of_nat (length (content_length n)) <= 36.
Proof.
  intros Hn. unfold content_length. rewrite !length_app. change (length (str "Content-Length: ")) with 16%nat.
  pose proof (decimal_short n). lia.
Qed.

Lemma s64_range z : - 2 ^ 63 <= s64 z < 2 ^ 63.
Proof. unfold s64. cbv zeta. pose proof (Z.mod_pos_bound z (2 ^ 64) ltac:(lia)). destruct (Z.ltb_spec (z mod 2 ^ 64) (2 ^ 63)); lia. Qed.

Section Answer.

Context (literal : list Z -> Z).

(** The literals of a response are in memory. *)
Definition literals (s : resp) : Prop :=
  Forall (fun l => literal_at (r_mem s) (r_ws s) (literal l) l)
    [str "HTTP/1.1"; str "Partial Content"; str "Not Modified"].

Lemma literals_goes s s' : literals s -> goes s s' -> literals s'.
Proof. intros H [Hk _]. eapply Forall_impl; [exact H|]. intros l Hl. exact (literal_kept _ _ _ _ _ _ Hl Hk). Qed.

(** A message that has become a reply. *)
Definition replies (s : resp) (r : reply) : Prop := message s (rp_proto r) (rp_status r) (rp_reason r) (rp_lines r).

Lemma dorange_ok s r mode text : replies s r -> literals s -> roomy s 2 200 -> has mode RES_LEN = true -> 
  Z.of_nat (length (rp_body r)) < 2 ^ 63 ->
  let len := Z.of_nat (length (rp_body r)) in
  exists s' low high, res_dorange literal s 200 mode len text 0 (len - 1) = Ok (s', low, high) /\ goes s s' /\ roomy s' 0 8 /\
    match parse_range text len with
    | Some (lo, hi) => low = lo /\ high = hi /\ replies s' (partial r lo hi)
    | None => low = 0 /\ high = len - 1 /\ replies s' r
    end.
Proof.
  intros Hm Hlit Hroom Hmode Hlen len. unfold res_dorange. cbn [vassert Z.eqb Pos.eqb mbind res_bind].
  destruct (parse_range text len) as [[lo hi]|] eqn:Ep.
  2: { exists s, 0, (len - 1). split_and!; try done; [by eapply message_goes|]. destruct Hroom. split; lia. }
  pose proof (parse_range_bounds _ _ _ _ Ep) as Hb. pose proof (parse_range_low text len lo hi ltac:(lia) Ep) as Hlo.
  destruct header_names as (N1 & N2 & _).
  assert (Hs1 : Z.of_nat (length (content_range lo hi len)) <= 83) by (apply content_range_short; lia).
  pose proof (content_length_short (s64 (1 + hi - lo)) (s64_range _)) as Hs2.
  destruct (printf_ok s _ _ _ _ (content_range lo hi len) 1 60 Hm) as (s1 & -> & H1 & R1 & G1); [unfold short; lia|destruct Hroom; split; lia|done|].
  cbn [mbind res_bind]. destruct (unset_ok s1 _ _ _ _ H_Content_Length 1 60 H1 N1 R1) as (s2 & -> & H2 & R2 & G2). cbn [mbind res_bind].
  rewrite Hmode. cbn [vassert mbind res_bind].
  destruct (printf_ok s2 _ _ _ _ (content_length (s64 (1 + hi - lo))) 0 8 H2) as (s3 & -> & H3 & R3 & G3); [unfold short; lia|destruct R2; split; lia|done|].
  cbn [mbind res_bind]. assert (G13 : goes s s3) by (by eapply goes_trans; [|eapply goes_trans]).
  pose proof (literals_goes _ _ Hlit G13) as Hl3. unfold literals in Hl3. rewrite !Forall_cons in Hl3. destruct Hl3 as (L1 & L2 & _).
  destruct (set_resp_ok s3 _ _ _ _ _ _ 206 _ _ 0 8 H3 R3 ltac:(lia) L1 L2 eq_refl eq_refl) as (s4 & -> & H4 & R4 & G4). cbn [mbind res_bind mret res_ret].
  exists s4, lo, hi. split_and!; try done. by eapply goes_trans.
Qed.

Lemma notmod_ok s r : replies s r -> literals s -> roomy s 0 8 ->
  exists s', (s ← set_resp s (literal (str "HTTP/1.1")) 304 (literal (str "Not Modified"));
      s ← unset s H_Content_Length; s ← unset s H_Transfer_Encoding; mret (s, false)) = Ok (s', false) /\
    replies s' (not_modified r) /\ roomy s' 0 8 /\ goes s s'.
Proof.
  intros Hm Hlit Hroom. unfold literals in Hlit. rewrite !Forall_cons in Hlit. destruct Hlit as (L1 & _ & L2 & _). destruct header_names as (N1 & N2 & _).
  destruct (set_resp_ok s _ _ _ _ _ _ 304 _ _ 0 8 Hm Hroom ltac:(lia) L1 L2 eq_refl eq_refl) as (s1 & -> & H1 & R1 & G1). cbn [mbind res_bind].
  destruct (unset_ok s1 _ _ _ _ H_Content_Length 0 8 H1 N1 R1) as (s2 & -> & H2 & R2 & G2). cbn [mbind res_bind].
  destruct (unset_ok s2 _ _ _ _ H_Transfer_Encoding 0 8 H2 N2 R2) as (s3 & -> & H3 & R3 & G3). cbn [mbind res_bind mret res_ret].
  exists s3. split_and!; try done. by eapply goes_trans; [|eapply goes_trans].
Qed.

End Answer.

(** ** The body and the end *)

(** A writer after the head: with chunks or without. *)
Definition body_writer (chunks : bool) (w : wrw) (b d : list Z) : Prop := if chunks then streaming w b d else writing w (b ++ d).

#[global] Instance body_sink chunks b : FetchInv.Sink (fun w d => body_writer chunks w b d).
Proof. destruct chunks; [apply FetchInv.sink_chunked|apply FetchInv.sink_plain]. Qed.

Lemma start_body (chunks : bool) w b : writing w b -> exists w', (if chunks then WRW_Chunked w else mret w) = Ok w' /\ body_writer chunks w' b [] /\ siov w' = siov w.
Proof.
  intros Hw. destruct chunks; [by apply chunked_w|]. exists w. unfold body_writer. by rewrite app_nil_r.
Qed.

Lemma end_body (chunks : bool) w b d : body_writer chunks w b d -> Z.of_nat (length d) < 2 ^ 63 ->
  exists w' u, (w ← (if chunks then WRW_EndChunk w else mret w); WRW_FlushRelease w) = Ok (w', u) /\ ready w' /\
    (u = false -> exists e, wr_out w' = b ++ e /\ carries chunks e d).
Proof.
  intros Hw Hd. destruct chunks; cbn [body_writer carries] in *.
  - destruct (end_s _ _ _ Hw) as (w1 & cs & -> & Hcs & Hdt & H1 & E1). cbn [mbind res_bind].
    destruct (flush_release_ok _ _ H1) as (w2 & u & -> & H2 & E2 & Hu). exists w2, u. split_and!; try done. intros Hf. rewrite (Hu Hf).
    exists (concat (map chunk cs) ++ last_chunk ++ []). rewrite app_nil_r. split; [done|].
    rewrite <- (app_nil_r last_chunk), <- Hdt. apply chunked_chunks; by rewrite ?Hdt.
  - destruct (flush_release_ok _ _ Hw) as (w2 & u & E & H2 & E2 & Hu). cbn [mbind res_bind mret res_ret]. exists w2, u. split_and!; try done.
    intros Hf. exists d. by rewrite (Hu Hf).
Qed.

Lemma message_wrw s w proto st reason ls : message s proto st reason ls -> message (set_wrw s w) proto st reason ls.
Proof. by intros [? ? ? ? ? ?]. Qed.

Lemma has_lor m a b : has m (Z.lor a b) = false -> has m a = false /\ has m b = false.
Proof.
  unfold has, truth. rewrite !negb_false_iff, !Z.eqb_eq, Z.land_lor_distr_r. by intros [? ?]%Z.lor_eq_0_iff.
Qed.

Lemma has_cleared m a : has (Z.land m (Z.lnot a)) a = false.
Proof. unfold has. by rewrite <- Z.land_assoc, (Z.land_comm (Z.lnot a)), Z.land_lnot_diag, Z.land_0_r. Qed.

(** The string a request has for a header. *)
Lemma string_at_ok m p l : mapped m p (l ++ [0]) -> Forall (fun c => negb (c =? 0) = true) l -> string_at m p = Ok l.
Proof.
  intros Hm Hl. unfold string_at, str_end. rewrite (skip_run _ m p l 0 Hm Hl eq_refl). cbn [mbind res_bind].
  replace (Z.to_nat (p + Z.of_nat (length l) - p)) with (length l) by lia. apply mapped_app in Hm as [Hm _]. by apply region_run.
Qed.

Section Deliver.

Context (literal : list Z -> Z) (ESI_Deliver ESI_DeliverChild res_WriteGunzipObj : wrw -> res wrw).

(** A stored body. *)
Record stored (obj : object) (d : list Z) : Prop := {
  sd_body : body_of (o_store obj) = d;
  sd_segs : Forall FetchInv.st_ok (o_store obj);
  sd_len : o_len obj = Z.of_nat (length d);
  sd_size : Z.of_nat (length d) < 2 ^ 63;
}.

Lemma body_written (P : wrw -> list Z -> Prop) `{!FetchInv.Sink P} obj r w b range low high :
  stored obj (rp_body r) -> P w b ->
  match range with
  | Some (lo, hi) => low = lo /\ high = hi /\ - 2 ^ 63 <= lo /\ lo <= hi < o_len obj
  | None => low = 0 /\ high = o_len obj - 1
  end ->
  exists w', (if o_len obj =? 0 then mret w else res_WriteDirObj w (o_store obj) (o_len obj) low high) = Ok w' /\
    P w' (b ++ sent range (rp_body (match range with Some (lo, hi) => partial r lo hi | None => r end))).
Proof.
  intros [Hb Hst Hl Hsz] Hw Hr. rewrite Hl in Hr |- *. destruct (Z.eqb_spec (Z.of_nat (length (rp_body r))) 0) as [E|E].
  - exists w. split; [done|]. assert (E0 : rp_body r = []) by (destruct (rp_body r); [done|cbn in E; lia]).
    destruct range as [[lo hi]|]; cbn [partial rp_body sent]; [|by rewrite E0, app_nil_r].
    destruct Hr as (_ & _ & _ & Hr). rewrite E0 in *. cbn in Hr. rewrite (proj2 (Z.ltb_lt lo 0)) by lia. by rewrite app_nil_r.
  - rewrite <- Hb in Hr, Hsz, E |- *. destruct range as [[lo hi]|].
    + destruct Hr as (-> & -> & Hlo & Hr). cbn [partial rp_body sent]. destruct (Z.ltb_spec lo 0).
      * unfold res_WriteDirObj. rewrite dir_loop_negative by lia. cbn [mbind res_bind]. rewrite Z.add_0_l, Z.eqb_refl. exists w. by rewrite app_nil_r.
      * destruct (WriteDirObj_ok P (o_store obj) lo hi w b Hw Hst) as (w' & E1 & Hw'); [lia..|]. exists w'. by rewrite <- Hb.
    + destruct Hr as [-> ->]. destruct (WriteDirObj_ok P (o_store obj) 0 (Z.of_nat (length (body_of (o_store obj))) - 1) w b Hw Hst) as (w' & E1 & Hw'); [lia..|].
      exists w'. by rewrite slice_all, Hb in Hw'.
Qed.

(** The range of a delivery. *)
Definition range_of (obj : object) (rls : list line) (mode : Z) (support : bool) : option (Z * Z) :=
  if has mode RES_LEN && support && (o_response obj =? 200) then wanted rls (o_len obj) else None.

(** The choice of a range, from the headers of the request. *)
Lemma choose_ok s r obj req rls (wantbody : bool) mode support : replies s r -> literals literal s -> roomy s 2 200 -> stored obj (rp_body r) ->
  has_lines (r_mem s) req rls -> Forall (fun x => Forall (fun c => negb (c =? 0) = true) (fst x)) rls ->
  has mode (Z.lor (Z.lor RES_ESI RES_ESI_CHILD) RES_GUNZIP) = false ->
  exists s' low high, (if wantbody && has mode RES_LEN && negb (has mode (Z.lor (Z.lor RES_ESI RES_ESI_CHILD) RES_GUNZIP)) && support && (o_response obj =? 200) then
      p ← http_GetHdr (r_mem s) req H_Range;
      match p with
      | Some p => t ← string_at (r_mem s) p; res_dorange literal s (o_response obj) mode (o_len obj) t 0 (o_len obj - 1)
      | None => mret (s, 0, o_len obj - 1)
      end
    else mret (s, 0, o_len obj - 1)) = Ok (s', low, high) /\ goes s s' /\ roomy s' 0 8 /\
    match (if wantbody then range_of obj rls mode support else None) with
    | Some (lo, hi) => low = lo /\ high = hi /\ - 2 ^ 63 <= lo /\ lo <= hi < o_len obj /\ replies s' (partial r lo hi)
    | None => low = 0 /\ high = o_len obj - 1 /\ replies s' r
    end.
Proof.
  intros Hm Hlit Hroom [Hb Hst Hl Hsz] Hreq Hnul Hmode. rewrite Hmode. cbn [negb]. rewrite andb_true_r.
  assert (Hnone : exists s' low high, Ok (s, 0, o_len obj - 1) = Ok (s', low, high) /\ goes s s' /\ roomy s' 0 8 /\ low = 0 /\ high = o_len obj - 1 /\ replies s' r).
  { exists s, 0, (o_len obj - 1). split_and!; try done; [by eapply message_goes|]. destruct Hroom. split; lia. }
  unfold range_of. destruct wantbody; cbn [andb]; [|exact Hnone].
  destruct (has mode RES_LEN) eqn:Elen; cbn [andb]; [|exact Hnone]. destruct support; cbn [andb]; [|exact Hnone].
  destruct (Z.eqb_spec (o_response obj) 200) as [->|]; [|exact Hnone]. unfold wanted.
  destruct header_names as (_ & _ & N3). destruct (GetHdr_ok (r_mem s) req rls H_Range Hreq N3) as (p & -> & Hp). cbn [mbind res_bind].
  destruct (first_named H_Range rls 0) as [[j l]|] eqn:Ef, p as [p|]; try done.
  assert (Hv : Forall (fun c => negb (c =? 0) = true) (value H_Range l)).
  { pose proof (first_named_lookup H_Range [] rls) as Hidx. cbn [app length] in Hidx. rewrite Ef in Hidx. destruct Hidx as (f & Hj & _).
    rewrite Forall_lookup in Hnul. specialize (Hnul _ _ Hj). cbn in Hnul. unfold value.
    destruct (drop_while_split vct_issp (drop (length H_Range) l)) as (l1 & E & _). apply (Forall_drop _ (length H_Range)) in Hnul.
    rewrite E in Hnul. by apply Forall_app in Hnul as [_ Hnul]. }
  rewrite (string_at_ok _ _ _ Hp Hv). cbn [mbind res_bind]. rewrite Hl.
  destruct (dorange_ok literal s r mode (value H_Range l) Hm Hlit Hroom Elen Hsz) as (s' & low & high & E & Hg & Hr' & Hc).
  exists s', low, high. split_and!; [exact E|done..|].
  destruct (parse_range (value H_Range l) (Z.of_nat (length (rp_body r)))) as [[lo hi]|] eqn:Ep; [|done].
  destruct Hc as (-> & -> & Hc). split_and!; try done; [by eapply parse_range_low; [|exact Ep]; lia|by eapply parse_range_bounds..].
Qed.

(** The request and what is answered. *)
Definition asks (s : resp) (req : http) (rls : list line) : Prop :=
  has_lines (r_mem s) req rls /\ Forall (fun x => Forall (fun c => negb (c =? 0) = true) (fst x)) rls.

Lemma head_ok s r obj req rls do_cond wantbody mode support : replies s r -> literals literal s -> roomy s 2 200 ->
  stored obj (rp_body r) -> asks s req rls -> has mode (Z.lor (Z.lor RES_ESI RES_ESI_CHILD) RES_GUNZIP) = false ->
  let unchanged := (o_response obj =? 200) && truth (conds req) && do_cond in
  exists s' low high wb, WriteObj_head literal s obj req do_cond wantbody mode support = Ok (s', low, high, wb) /\
    r_wrw s' = r_wrw s /\ roomy s' 0 8 /\ replies s' (answer r unchanged wantbody (range_of obj rls mode support)) /\
    wb = wantbody && negb unchanged /\
    (wb = true -> match range_of obj rls mode support with
      | Some (lo, hi) => low = lo /\ high = hi /\ - 2 ^ 63 <= lo /\ lo <= hi < o_len obj
      | None => low = 0 /\ high = o_len obj - 1
      end).
Proof.
  intros Hm Hlit Hroom Hst [Hreq Hnul] Hmode unchanged. unfold WriteObj_head, answer. fold unchanged. destruct unchanged; cbn [negb].
  - destruct (notmod_ok literal s r Hm Hlit) as (s2 & E & H2 & R2 & [_ G2]); [destruct Hroom; split; lia|]. rewrite E. cbn [mbind res_bind andb mret res_ret].
    exists s2, 0, (o_len obj - 1), false. rewrite andb_false_r. by split_and!.
  - cbn [mbind res_bind mret res_ret].
    destruct (choose_ok s r obj req rls wantbody mode support Hm Hlit Hroom Hst Hreq Hnul Hmode) as (s2 & low & high & E & [_ G2] & R2 & Hc).
    rewrite E. cbn [mbind res_bind mret res_ret]. exists s2, low, high, wantbody. rewrite andb_true_r. split_and!; try done.
    + destruct wantbody; cbn [negb]; [|by destruct Hc as (_ & _ & ?)].
      destruct (range_of obj rls mode support) as [[lo hi]|]; [by destruct Hc as (_ & _ & _ & _ & ?)|by destruct Hc as (_ & _ & ?)].
    + intros ->. destruct (range_of obj rls mode support) as [[lo hi]|]; [by destruct Hc as (? & ? & ? & ? & _)|by destruct Hc as (? & ? & _)].
Qed.

Lemma WriteObj_ok s r obj req rls do_cond wantbody mode support gzip : replies s r -> literals literal s -> roomy s 2 200 -> ready (r_wrw s) ->
  stored obj (rp_body r) -> asks s req rls -> has mode (Z.lor (Z.lor RES_ESI RES_ESI_CHILD) RES_GUNZIP) = false ->
  let unchanged := (o_response obj =? 200) && truth (conds req) && do_cond in
  let a := answer r unchanged wantbody (range_of obj rls mode support) in
  let chunks := has mode RES_CHUNKED && wantbody && negb unchanged in
  exists s' gone, RES_WriteObj literal ESI_Deliver ESI_DeliverChild res_WriteGunzipObj s obj req do_cond wantbody mode support gzip = Ok (s', gone) /\
    ready (r_wrw s') /\
    (gone = false -> exists e, wr_out (r_wrw s') = wr_out (r_wrw s) ++ wire_reply a ++ e /\
      carries chunks e (sent (range_of obj rls mode support) (rp_body a))).
Proof.
  intros Hm Hlit Hroom Hrdy Hst Hreq Hmode unchanged a chunks. set (x := sent _ (rp_body a)). unfold RES_WriteObj.
  destruct (reserve_ok _ Hrdy) as (w0 & -> & Hw0 & Es0). cbn [mbind res_bind].
  destruct (head_ok (set_wrw s w0) r obj req rls do_cond wantbody mode support) as (s2 & low & high & wb & -> & Ew & R2 & H2 & Ewb & Hwb); try done.
  { by apply message_wrw. }
  fold unchanged in H2, Ewb. fold a in H2. cbn [mbind res_bind].
  apply has_lor in Hmode as [[M1 M2]%has_lor M3]. rewrite M2, M3. cbn [negb andb mbind res_bind mret res_ret].
  destruct (write_head_ok s2 _ _ _ _ (wr_out (r_wrw s)) 0 H2 R2) as (s3 & -> & Hw3 & Es3); [by rewrite Ew|]. cbn [mbind res_bind].
  assert (Hch : has (if wb then mode else Z.land mode (Z.lnot RES_CHUNKED)) RES_CHUNKED = chunks).
  { unfold chunks. rewrite <- andb_assoc, <- Ewb. destruct wb; [by rewrite andb_true_r|by rewrite has_cleared, andb_false_r]. }
  assert (Hno : forall fl, has mode fl = false -> has (if wb then mode else Z.land mode (Z.lnot RES_CHUNKED)) fl = false).
  { intros fl Hfl. destruct wb; [done|]. unfold has, truth in *. apply negb_false_iff, Z.eqb_eq in Hfl. apply negb_false_iff, Z.eqb_eq.
    by rewrite <- Z.land_assoc, (Z.land_comm (Z.lnot _)), Z.land_assoc, Hfl. }
  rewrite Hch, !Hno by done. cbn [negb andb]. rewrite andb_true_r.
  destruct (start_body chunks _ _ Hw3) as (w4 & -> & Hw4 & Es4). cbn [mbind res_bind].
  assert (Hbody : exists w5, (if negb wb then mret w4 else if o_len obj =? 0 then mret w4 else res_WriteDirObj w4 (o_store obj) (o_len obj) low high) = Ok w5 /\
    body_writer chunks w5 (wr_out (r_wrw s) ++ wire_reply a) x /\ Z.of_nat (length x) < 2 ^ 63).
  { destruct Hst as [Hb Hsg Hl Hsz]. destruct wb; cbn [negb].
    - symmetry in Ewb. apply andb_prop in Ewb as [-> Hu%negb_true_iff].
      destruct (body_written (fun w d => body_writer chunks w (wr_out (r_wrw s) ++ wire_reply a) d) obj r w4 [] (range_of obj rls mode support) low high) as (w5 & -> & Hw5).
      { by constructor. } { done. } { by apply Hwb. }
      exists w5. unfold x, a, answer in *. rewrite Hu in *. cbn [negb] in *. split_and!; [done..|].
      destruct (range_of obj rls mode support) as [[lo hi]|]; [|done]. cbn [partial rp_body sent]. destruct (lo <? 0); [cbn; lia|].
      unfold slice. rewrite length_drop, length_take. lia.
    - exists w4. assert (Ea : rp_body a = []). { unfold a, answer. destruct unchanged; [done|]. cbn [negb] in *. rewrite andb_true_r in Ewb. by rewrite <- Ewb. }
      assert (Ex : x = []) by (unfold x, sent; rewrite Ea; by destruct (range_of obj rls mode support) as [[lo hi]|]; [destruct (lo <? 0)|]).
      rewrite Ex. split_and!; [done..|cbn; lia]. }
  destruct Hbody as (w5 & E5 & Hw5 & Hl5).
  assert (E5' : (if negb wb then mret w4 else if o_len obj =? 0 then mret w4 else res_WriteDirObj w4 (o_store obj) (o_len obj) low high) = Ok w5) by exact E5.
  rewrite E5'. cbn [mbind res_bind]. destruct (end_body chunks w5 _ _ Hw5 Hl5) as (w6 & u & E6 & Hr6 & Hu6).
  destruct (if chunks then WRW_EndChunk w5 else mret w5) as [w7|]; [|done]. cbn [mbind res_bind] in E6 |- *. rewrite E6. cbn [mbind res_bind mret res_ret].
  exists (set_wrw s3 w6), u. split_and!; try done. intros Hf. destruct (Hu6 Hf) as (e & E & Hc). exists e. cbn [r_wrw set_wrw]. by rewrite E, <- app_assoc.
Qed.

End Deliver.

End RespThm.

(** Responses that are streamed: the client is given the body as it is fetched. *)
Import Vct Mem Http HttpLines HttpCollect HttpWire HttpConn Wrw WrwThm Fetch FetchInv Coding FetchThm HttpWrite Response RangeThm RespThm.

Module RelayThm.

#[local] Arguments FetchInv.body_of : simpl never.

(** The head that a client is given. *)
Definition stream_head (r : reply) (mode : Z) (h_content_length : option (list Z)) : reply :=
  match h_content_length with
  | Some b => if has mode RES_CHUNKED then r
      else mkReply (rp_proto r) (rp_status r) (rp_reason r) (rp_lines r ++ [(str "Content-Length: " ++ b, 0)]) (rp_body r)
  | None => r
  end.

Lemma StreamStart_ok s r mode hcl : replies s r -> ready (r_wrw s) -> roomy s 1 (64 + Z.of_nat (length (default [] hcl))) ->
  short (str "Content-Length: " ++ default [] hcl) -> has mode (Z.lor RES_ESI_CHILD RES_GUNZIP) = false ->
  exists s', RES_StreamStart s true mode hcl = Ok s' /\
    body_writer (has mode RES_CHUNKED) (r_wrw s') (wr_out (r_wrw s) ++ wire_reply (stream_head r mode hcl)) [].
Proof.
  intros Hm Hrdy Hroom Hsh [M1 M2]%has_lor. unfold RES_StreamStart. rewrite M1, M2. cbn [negb vassert mbind res_bind].
  destruct (reserve_ok _ Hrdy) as (w0 & -> & Hw0 & Es0). cbn [mbind res_bind].
  assert (Hp : exists s1, match hcl with
      | Some b => if negb (has mode RES_CHUNKED) then printf (set_wrw s w0) (str "Content-Length: " ++ b) else mret (set_wrw s w0)
      | None => mret (set_wrw s w0)
      end = Ok s1 /\ replies s1 (stream_head r mode hcl) /\ roomy s1 0 8 /\ r_wrw s1 = w0).
  { assert (Hm0 : replies (set_wrw s w0) r) by (by apply message_wrw).
    assert (Hsame : exists s1, Ok (set_wrw s w0) = Ok s1 /\ replies s1 r /\ roomy s1 0 8 /\ r_wrw s1 = w0).
    { exists (set_wrw s w0). split_and!; try done. destruct Hroom. split; cbn [r_http r_ws set_wrw]; lia. }
    destruct hcl as [b|]; [|done]. unfold stream_head. destruct (has mode RES_CHUNKED); cbn [negb]; [done|]. change (default [] (Some b)) with b in *.
    destruct (printf_ok (set_wrw s w0) _ _ _ _ (str "Content-Length: " ++ b) 0 8 Hm0 Hsh) as (s1 & -> & H1 & R1 & [_ G1]); [|done|].
    - destruct Hroom as [Hn Hk]. split; [exact Hn|]. rewrite length_app. change (length (str "Content-Length: ")) with 16%nat. cbn [r_ws set_wrw]. lia.
    - by exists s1. }
  cbn [mbind res_bind mret res_ret]. destruct Hp as (s1 & -> & H1 & R1 & Ew1). cbn [mbind res_bind].
  destruct (write_head_ok s1 _ _ _ _ (wr_out (r_wrw s)) 0 H1 R1) as (s2 & -> & Hw2 & _); [by rewrite Ew1|]. cbn [mbind res_bind].
  destruct (start_body (has mode RES_CHUNKED) _ _ Hw2) as (w3 & -> & Hw3 & _). cbn [mbind res_bind mret res_ret].
  exists (set_wrw s2 w3). by split.
Qed.

Section Stream.

Context (alloc : nat -> Z -> option Z) (nuke : nat -> bool).
Context (fetchfrag fetch_chunksize fetch_maxchunksize nuke_limit : Z).
Context (Halloc : gives_space alloc) (Hpar : params_ok fetchfrag fetch_chunksize fetch_maxchunksize nuke_limit).

#[local] Notation plenty := (forall k n, is_Some (alloc k n)).

Lemma stream_body_ok s r h fpass mode bs hcl do_close : replies s r -> ready (r_wrw s) ->
  roomy s 1 (64 + Z.of_nat (length (default [] hcl))) -> short (str "Content-Length: " ++ default [] hcl) ->
  has mode (Z.lor RES_ESI_CHILD RES_GUNZIP) = false -> segs_ok h -> Z.of_nat (length (input h)) < SSIZE_MAX ->
  exists s' f failed gone d, stream_body alloc nuke fetchfrag fetch_chunksize fetch_maxchunksize nuke_limit s h fpass mode bs hcl do_close
      = Ok (s', f, failed, gone) /\ ready (r_wrw s') /\
    (gone = false -> exists e, wr_out (r_wrw s') = wr_out (r_wrw s) ++ wire_reply (stream_head r mode hcl) ++ e /\ carries (has mode RES_CHUNKED) e d) /\
    (failed = false /\ frames bs (default [] hcl) (broken h) (input h) d (input (conn f)) /\ olen f = Z.of_nat (length d) /\
       (fpass = false -> body_of (store f) = d) \/
     failed = true /\ store f = [] /\ begins bs (default [] hcl) (input h) d /\
       (plenty -> forall d' t, ~ frames bs (default [] hcl) (broken h) (input h) d' t) /\
       (forall d' t, frames bs (default [] hcl) (broken h) (input h) d' t -> d `prefix_of` d')).
Proof.
  intros Hm Hrdy Hroom Hsh Hmode Hs Hlen. unfold stream_body.
  destruct (StreamStart_ok s r mode hcl Hm Hrdy Hroom Hsh Hmode) as (s1 & -> & Hw1). cbn [mbind res_bind].
  set (f0 := mkFetch h [] 0 0 0 (Some (0, 0)) fpass (r_wrw s1)). set (b := wr_out (r_wrw s) ++ _) in Hw1.
  assert (Hf0 : holds (fun w d => body_writer (has mode RES_CHUNKED) w b d) f0 []).
  { constructor; cbn; try done. split_and!; try done. by exists []. }
  destruct (FetchBody_ok _ alloc nuke fetchfrag fetch_chunksize fetch_maxchunksize nuke_limit Halloc Hpar f0 bs (default [] hcl) do_close Hf0 eq_refl Hlen)
    as (f & failed & cl & v & d & -> & (_ & Hsc & Hfp & _) & Hgiven & Hdl & Hc). cbn [mbind res_bind].
  assert (Hw2 : body_writer (has mode RES_CHUNKED) (out f) b d) by (by apply Hgiven).
  apply has_lor in Hmode as [M1 M2]. unfold RES_StreamEnd. rewrite M1. cbn [negb]. rewrite andb_true_r.
  destruct (end_body _ _ _ _ Hw2) as (w3 & u & E & Hr3 & Hu); [unfold SSIZE_MAX in Hlen; change (input (conn f0)) with (input h) in Hdl; lia|].
  rewrite E. cbn [mbind res_bind mret res_ret]. exists (set_wrw s1 w3), f, failed, u, d. split_and!; try done.
  - intros Hf. destruct (Hu Hf) as (e & Ee & Hcar). exists e. split; [|done]. cbn [r_wrw set_wrw]. rewrite Ee. unfold b. by rewrite <- app_assoc.
  - change (broken (conn f0)) with (broken h) in Hc. change (input (conn f0)) with (input h) in Hc.
    destruct Hc as [(-> & Hf & Hfr & _)|(-> & _ & _ & Hst & _ & Hbg & Hp & Hq)]; [left|right; by split_and!].
    split_and!; [done|done|by apply (ho_len _ _ _ Hf)|]. intros Hff. pose proof (ho_body _ _ _ Hf) as Hb.
    destruct (sctx f) as [[? ?]|]; [|done]. destruct Hb as (_ & _ & fr & _ & Hb & Hfr0). rewrite Hfr0 in Hb by (rewrite Hfp; exact Hff). done.
Qed.

End Stream.

End RelayThm.

(** The response that is built from an object. *)
Import Vct Mem Http HttpLines HttpCollect HttpWire Wrw WrwThm Fetch HttpWrite Response RespThm.

Module BuildThm.

(** ** Lines from the object *)

(** Copying the fields that pass takes slots as they are. *)
Lemma filter_loop_apart m w fm how us : forall to lost to' lost', filter_loop m to fm how lost us = Ok (to', lost') ->
  (forall i t, In i us -> hd fm !! i = Some t -> apart w t) ->
  (forall i t, (HTTP_HDR_FIRST <= i < nhd to)%nat -> hd to !! i = Some t -> apart w t) ->
  (forall i t, (HTTP_HDR_FIRST <= i < nhd to')%nat -> hd to' !! i = Some t -> apart w t).
Proof.
  induction us as [|u us IH]; intros to lost to' lost' E Hfm Hto; cbn [filter_loop] in E; [by injection E as <- _|].
  assert (Hfm' : forall i t, In i us -> hd fm !! i = Some t -> apart w t) by (intros i t Hi; apply Hfm; by right).
  destruct (passes m fm how u) as [ok|]; [|done]. cbn [mbind res_bind] in E. destruct ok; [|by apply (IH _ _ _ _ E)].
  destruct (http_copyheader to fm lost u) as [[to1 lost1]|] eqn:Ec; [|done]. cbn [mbind res_bind] in E. apply (IH _ _ _ _ E Hfm').
  unfold http_copyheader in Ec. destruct (u <? shd fm)%nat; [|done]. cbn [vassert mbind res_bind] in Ec. unfold get_hd in Ec.
  destruct (hd fm !! u) as [t|] eqn:Et; [|done]. cbn [deref mbind res_bind] in Ec. destruct (Tcheck t); [|done]. cbn [mbind res_bind] in Ec.
  destruct (nhd to <? shd to)%nat; [|by injection Ec as <- _]. unfold set_hd in Ec. destruct (_ <? _)%nat; [|done]. cbn [mbind res_bind mret res_ret] in Ec.
  unfold set_hdf in Ec. destruct (_ <? _)%nat; [|done]. cbn [mbind res_bind mret res_ret] in Ec. injection Ec as <- _.
  intros i t' Hi Et'. cbn [hd nhd set_nhd] in Hi, Et'. destruct (decide (i = nhd to)) as [->|Hne].
  - apply list_lookup_insert_Some in Et' as [(_ & <- & _)|[? _]]; [|done]. by apply (Hfm u); [left|].
  - rewrite list_lookup_insert_ne in Et' by done. apply (Hto i); [lia|done].
Qed.

(** The lines of an object that go into a response. *)
Definition object_lines (ols : list line) : list line := map HttpLines.plain (filter (fun x => HttpLines.keep HTTPH_A_DELIVER x = true) ols).

(** ** Calls *)

Lemma set_header_ok s proto st reason ls p l n k : message s proto st reason ls -> short l -> literal_at (r_mem s) (r_ws s) p l -> roomy s (S n) k ->
  exists s', set_header s p = Ok s' /\ message s' proto st reason (ls ++ [(l, 0)]) /\ roomy s' n k /\ goes s s'.
Proof.
  intros [Hb Hs Hp Hr Hss [Es Hst]] Hl [Hh Hap Hstr] [Hn Hk]. unfold set_header, http_SetHeader.
  pose proof (bu_lines _ _ _ _ Hb) as Hls. rewrite (proj2 (Nat.leb_gt _ _)) by lia.
  set (h0 := r_http s) in *. set (t := mkTxt p (p + Z.of_nat (length l))) in *.
  assert (Hn2 : (nhd h0 < shd h0)%nat) by lia.
  destruct (add_line (r_mem s) (r_ws s) h0 ls t l Hls (bu_apart _ _ _ _ Hb) Hn2 Hh Hap) as (h' & E & En & Hlo & Hhl & Hla).
  assert (ESet : http_SetH (r_mem s) (set_nhd h0 (S (nhd h0))) (nhd h0) p = Ok (set_nhd h' (S (nhd h')))).
  { unfold http_SetH. rewrite (vassert_true (_ <? _)%nat) by (apply Nat.ltb_lt; exact Hn2). cbn [mbind res_bind]. pose proof Hh as (Hp0 & _ & Hm & _). unfold t in Hp0, Hm. cbn [b] in Hp0, Hm.
    rewrite (vassert_true (truth p)) by (apply truth_true; lia). cbn [mbind res_bind]. unfold str_end.
    rewrite (skip_run _ _ p l 0 Hm Hstr) by done. cbn [mbind res_bind].
    unfold set_hd, set_hdf in E |- *. cbn [hd set_nhd]. unfold shd in Hn2. rewrite (proj2 (Nat.ltb_lt _ _) Hn2) in E |- *. cbn [mbind res_bind mret res_ret] in E |- *.
    cbn [hdf set_nhd nhd logtag hd status protover conds] in E |- *. destruct (_ <? _)%nat; [|done]. cbn [mret res_ret] in E |- *. injection E as <-. done. }
  rewrite ESet. cbn [mbind res_bind mret res_ret]. eexists. split; [reflexivity|]. split_and!; [|split; cbn [r_http r_ws]; [|done]|split; [|done]].
  - constructor; cbn [r_mem r_ws r_http]; try done.
    + destruct Hb. constructor; try done. apply (WSLH_lines h0); [by destruct Hlo; split|done].
    + apply Forall_app. split; [done|]. by apply Forall_singleton.
    + destruct Hp as (t0 & Et0 & Ht0). exists t0. split; [|done]. cbn [hd set_nhd]. by rewrite (first_slots h0 h' _ Hlo).
    + destruct Hr as (t0 & Et0 & Ht0). exists t0. split; [|done]. cbn [hd set_nhd]. by rewrite (first_slots h0 h' _ Hlo).
    + cbn [status set_nhd]. by rewrite (lo_status _ _ Hlo).
  - cbn [nhd set_nhd]. unfold shd in *. cbn [hd set_nhd]. rewrite En, (lo_hd _ _ Hlo). lia.
  - apply kept_refl; apply Hb.
Qed.

(** ** From an object to a response *)

(** A response with nothing in it, the message [obj] of an object with [ols], and room
    for what is added. *)
Record prepared (literal : list Z -> Z) (s : resp) (obj : http) (st : Z) (reason : list Z) (ols : list line) : Prop := {
  pr_lines : has_lines (r_mem s) obj ols;
  pr_apart : lines_apart (r_ws s) obj;
  pr_reason : fixed (r_mem s) (r_ws s) obj HTTP_HDR_RESPONSE reason;
  pr_short : Forall (fun x => short (fst x)) ols /\ short reason;
  pr_status : status obj = st /\ 0 <= st < 1000;
  pr_slots : length (hdf (r_http s)) = shd (r_http s) /\ (HTTP_HDR_FIRST + length ols + 10 <= shd (r_http s))%nat;
  pr_ws : Ws.ws_ok (r_ws s) /\ Ws.ws_small (r_ws s) /\ Ws.ws_r (r_ws s) = 0 /\ Ws.ws_f (r_ws s) + 700 <= Ws.ws_e (r_ws s);
  pr_free : forall a, Ws.ws_f (r_ws s) <= a < Ws.ws_e (r_ws s) -> is_Some (r_mem s !! a);
  pr_literals : Forall (fun l => literal_at (r_mem s) (r_ws s) (literal l) l)
    [str "HTTP/1.1"; str "Partial Content"; str "Not Modified"; str "Accept-Ranges: bytes"; str "Via: 1.1 varnish"];
}.

(** [http_SetH] and [http_copyh] put a text in a slot, and no more. *)
Definition put_slot (u : nat) (t : txt) (f : Z) (h : http) : http :=
  mkHttp (logtag h) (<[u := t]> (hd h)) (<[u := f]> (hdf h)) (nhd h) (status h) (protover h) (conds h).

Lemma SetH_slot m h u p l w : literal_at m w p l -> (u < shd h)%nat -> length (hdf h) = shd h ->
  http_SetH m h u p = Ok (put_slot u (mkTxt p (p + Z.of_nat (length l))) 0 h).
Proof.
  intros [Hh Hap Hs] Hu Hl. unfold http_SetH. rewrite (vassert_true (_ <? _)%nat) by (by apply Nat.ltb_lt). cbn [mbind res_bind].
  pose proof Hh as (Hp0 & _ & Hm & _). cbn [b] in Hp0, Hm.
  rewrite (vassert_true (truth p)) by (apply truth_true; lia). cbn [mbind res_bind]. unfold str_end.
  rewrite (skip_run _ m p l 0 Hm Hs) by done. cbn [mbind res_bind]. unfold set_hd, set_hdf. unfold shd in *.
  rewrite (proj2 (Nat.ltb_lt _ _) Hu). cbn [mbind res_bind mret res_ret hdf hd]. by rewrite Hl, (proj2 (Nat.ltb_lt _ _) Hu).
Qed.

Lemma copyh_slot m h fm u t f l : hd fm !! u = Some t -> hdf fm !! u = Some f -> holds m t l -> (u < HTTP_HDR_FIRST)%nat -> (u < shd h)%nat ->
  length (hdf h) = shd h -> http_copyh h fm u = Ok (put_slot u t f h).
Proof.
  intros Ht Hf Hh Hu Hu2 Hl. unfold http_copyh. rewrite (vassert_true (_ <? _)%nat) by (by apply Nat.ltb_lt). cbn [mbind res_bind].
  unfold get_hd, get_hdf. rewrite Ht. cbn [deref mbind res_bind]. rewrite (holds_Tcheck m t l Hh). cbn [mbind res_bind].
  unfold set_hd, set_hdf. unfold shd in *. rewrite (proj2 (Nat.ltb_lt _ _) Hu2). cbn [mbind res_bind mret res_ret].
  rewrite Hf. cbn [deref mbind res_bind hdf hd]. by rewrite Hl, (proj2 (Nat.ltb_lt _ _) Hu2).
Qed.

(** The message of the object, without what does not go on. *)
Lemma object_message_ok literal s obj st reason ols : prepared literal s obj st reason ols ->
  exists h lost, (to ← http_CopyResp literal (r_mem s) (set_logtag (http_ClrHeader (r_http s)) HTTP_Tx) obj;
      http_FilterFields (r_mem s) to obj HTTPH_A_DELIVER (r_lost s)) = Ok (h, lost) /\
    message (mkResp (r_mem s) (r_ws s) h lost (r_wrw s)) (str "HTTP/1.1") st reason (object_lines ols) /\
    (nhd h + 10 <= shd h)%nat.
Proof.
  intros [Hl Ha (tr & Etr & Hhr & Har) [Hs1 Hs2] [Es Hst] [Hn1 Hn2] (W1 & W2 & W3 & W4) Hfree Hlit].
  rewrite !Forall_cons in Hlit. destruct Hlit as (L1 & _). unfold http_CopyResp. set (h0 := set_logtag _ _).
  assert (Hsh : shd h0 = shd (r_http s)) by (unfold h0, shd, http_ClrHeader; cbn; by rewrite length_replicate).
  assert (Hdf0 : length (hdf h0) = shd h0) by (rewrite Hsh; exact Hn1).
  rewrite (SetH_slot _ h0 HTTP_HDR_PROTO _ _ _ L1) by (rewrite ?Hsh; unfold HTTP_HDR_PROTO, HTTP_HDR_FIRST in *; lia). cbn [mbind res_bind].
  set (h1 := set_status _ _). assert (Hsh1 : shd h1 = shd h0) by (unfold shd; cbn; by rewrite length_insert).
  assert (Hdf1 : length (hdf h1) = shd h1) by (rewrite Hsh1; cbn; rewrite length_insert; exact Hdf0).
  assert (Hur : (HTTP_HDR_RESPONSE < shd h0)%nat) by (rewrite Hsh; unfold HTTP_HDR_RESPONSE, HTTP_HDR_FIRST in *; lia).
  assert (exists f, hdf obj !! HTTP_HDR_RESPONSE = Some f) as [f Ef].
  { apply lookup_lt_is_Some_2. rewrite (hl_hdf _ _ _ Hl). by eapply lookup_lt_Some. }
  rewrite (copyh_slot _ h1 obj HTTP_HDR_RESPONSE tr f reason Etr Ef Hhr) by (rewrite ?Hsh1; [unfold HTTP_HDR_RESPONSE, HTTP_HDR_FIRST; lia|done..]).
  cbn [mbind res_bind]. set (h2 := put_slot _ _ _ h1). assert (Hsh2 : shd h2 = shd h1) by (unfold shd; cbn; by rewrite length_insert).
  assert (Hdf2 : length (hdf h2) = shd h2) by (rewrite Hsh2; cbn; rewrite length_insert; exact Hdf1).
  unfold http_FilterFields. rewrite (hl_nhd _ _ _ Hl). replace (HTTP_HDR_FIRST + length ols - HTTP_HDR_FIRST)%nat with (length ols) by lia.
  set (h3 := set_status (set_nhd h2 HTTP_HDR_FIRST) (status obj)).
  destruct (filter_loop_ok (r_mem s) HTTPH_A_DELIVER ols h3 obj (r_lost s) [] HTTP_HDR_FIRST) as (h & E & Hlo & Hsl & Hnh);
    [by apply has_lines_slots|apply slots_nil|exact Hdf2|done|change (HTTP_HDR_FIRST <= shd h2)%nat; lia|].
  change (map HttpLines.plain _) with (object_lines ols) in E, Hsl, Hnh. cbn [app] in Hsl, Hnh.
  assert (Hout : (length (object_lines ols) <= length ols)%nat) by (unfold object_lines; rewrite length_map; apply length_filter).
  change (nhd h3) with HTTP_HDR_FIRST in E, Hsl, Hnh. change (shd h3) with (shd h2) in E, Hsl, Hnh.
  rewrite take_ge in Hsl, Hnh by lia. exists h, (r_lost s + Z.of_nat (length (drop (shd h2 - HTTP_HDR_FIRST) (object_lines ols)))).
  split; [exact E|]. assert (Hshh : shd h = shd h2) by (unfold shd; rewrite (lo_hd _ _ Hlo); done).
  split; [|lia]. assert (Hslot : forall u, (u < HTTP_HDR_FIRST)%nat -> hd h !! u = hd h2 !! u) by (intros u Hu; by destruct (lo_first _ _ Hlo u Hu) as [-> _]).
  constructor; cbn [r_mem r_ws r_http].
  - constructor; try done.
    + split; [unfold shd in *; by rewrite (lo_hd _ _ Hlo), (lo_hdf _ _ Hlo)|exact Hnh|rewrite Hnh; lia|exact Hsl].
    + refine (filter_loop_apart _ _ _ _ _ _ _ _ _ E _ _); [|change (nhd h3) with HTTP_HDR_FIRST; lia].
      intros i t [Hi1 Hi2]%in_seq Ht. refine (Ha i t _ Ht). rewrite (hl_nhd _ _ _ Hl). lia.
    + unfold WSLH. rewrite (lo_logtag _ _ Hlo). done.
  - unfold object_lines. apply Forall_map, Forall_forall. intros x [_ Hx]%list_elem_of_filter. rewrite Forall_forall in Hs1. exact (Hs1 x Hx).
  - exists (mkTxt (literal (str "HTTP/1.1")) (literal (str "HTTP/1.1") + Z.of_nat (length (str "HTTP/1.1")))).
    rewrite Hslot by (unfold HTTP_HDR_PROTO, HTTP_HDR_FIRST; lia). split; [|split; apply L1].
    cbn [h2 put_slot hd h1 set_status]. rewrite list_lookup_insert_ne by done. apply list_lookup_insert_eq. unfold shd in *. unfold HTTP_HDR_PROTO, HTTP_HDR_FIRST in *; lia.
  - exists tr. rewrite Hslot by (unfold HTTP_HDR_RESPONSE, HTTP_HDR_FIRST; lia). split; [|done].
    cbn [h2 put_slot hd]. apply list_lookup_insert_eq. change (HTTP_HDR_RESPONSE < shd h1)%nat. lia.
  - by split.
  - rewrite (lo_status _ _ Hlo). by split.
Qed.

Lemma roomy_less s n k n' k' : roomy s n k -> (n' <= n)%nat -> k' <= k -> roomy s n' k'.
Proof. intros [H1 H2] ? ?. split; lia. Qed.

(** What is added to the lines of an object. *)
Definition response_lines (ols : list line) (mode : Z) (support : bool) (date age : list Z) (xid obj_xid : Z) (doclose : bool) : list line :=
  let ls := object_lines ols in
  (if negb (has mode RES_LEN) then without H_Content_Length ls
   else if support then ls ++ [(str "Accept-Ranges: bytes", 0)] else ls) ++
  (if has mode RES_CHUNKED then [(str "Transfer-Encoding: chunked", 0)] else []) ++
  [(str "Date: " ++ date, 0);
   (str "X-Varnish: " ++ decimal xid ++ (if xid =? obj_xid then [] else str " " ++ decimal obj_xid), 0);
   (str "Age: " ++ age, 0); (str "Via: 1.1 varnish", 0);
   (str "Connection: " ++ (if doclose then str "close" else str "keep-alive"), 0)].

(** The octets of constant strings. *)
Ltac strlen := rewrite ?length_app; repeat match goal with |- context [length (str ?s)] =>
  let n := eval vm_compute in (length (str s)) in change (length (str s)) with n end.

(** The next line is printed. *)
Ltac print_line s H R s' H' R' G' :=
  match goal with |- context [printf s ?text] =>
    match type of R with roomy _ (S ?n) ?k =>
      destruct (printf_ok s _ _ _ _ text n (k - 70) H) as (s' & -> & H' & R' & G');
        [unfold short; strlen; lia|eapply roomy_less; [exact R|lia|strlen; lia]|lia|]
    end
  end; cbn [mbind res_bind].

Lemma x_versions_short xid obj_xid : 0 <= xid < 2 ^ 32 -> 0 <= obj_xid < 2 ^ 32 ->
  Z.of_nat (length (decimal xid ++ (if xid =? obj_xid then [] else str " " ++ decimal obj_xid))) <= 41.
Proof.
  intros H1 H2. pose proof (decimal_short xid). pose proof (decimal_short obj_xid). destruct (xid =? obj_xid); strlen; cbn [length]; lia.
Qed.

Lemma BuildHttp_ok literal s obj st reason ols mode support date age xid obj_xid doclose :
  prepared literal s obj st reason ols -> Z.of_nat (length date) <= 30 -> Z.of_nat (length age) <= 30 ->
  0 <= xid < 2 ^ 32 -> 0 <= obj_xid < 2 ^ 32 ->
  exists s', RES_BuildHttp literal s obj mode support date age xid obj_xid doclose = Ok s' /\
    message s' (str "HTTP/1.1") st reason (response_lines ols mode support date age xid obj_xid doclose) /\
    roomy s' 2 200 /\ goes s s' /\ literals literal s'.
Proof.
  intros Hp Hd Ha Hx Ho. pose proof Hp as [_ _ _ _ _ _ (W1 & W2 & W3 & W4) _ Hlit]. unfold RES_BuildHttp.
  destruct (object_message_ok _ _ _ _ _ _ Hp) as (h & lost & E & Hm & Hroom).
  destruct (http_CopyResp _ _ _ _) as [to|]; [|discriminate E]. cbn [mbind res_bind] in E |- *. rewrite E. cbn [mbind res_bind].
  set (s0 := mkResp _ _ h lost _) in *. assert (G0 : goes s s0) by (split; [by apply kept_refl|done]).
  assert (R0 : roomy s0 10 700) by done. clear E.
  destruct header_names as (N1 & _).
  (* Content-Length, Accept-Ranges *)
  assert (S1 : exists s1, (if negb (has mode RES_LEN) then unset s0 H_Content_Length
      else if support then set_header s0 (literal (str "Accept-Ranges: bytes")) else mret s0) = Ok s1 /\
    message s1 (str "HTTP/1.1") st reason (if negb (has mode RES_LEN) then without H_Content_Length (object_lines ols)
      else if support then object_lines ols ++ [(str "Accept-Ranges: bytes", 0)] else object_lines ols) /\ roomy s1 9 700 /\ goes s0 s1).
  { destruct (has mode RES_LEN); cbn [negb]; [destruct support|].
    - rewrite !Forall_cons in Hlit. destruct Hlit as (_ & _ & _ & L & _). by apply (set_header_ok s0).
    - exists s0. split_and!; [done|done|by eapply roomy_less; [exact R0|lia..]|by eapply message_goes].
    - destruct (unset_ok s0 _ _ _ _ H_Content_Length 10 700 Hm N1 R0) as (s1 & E1 & H1 & R1 & G1). exists s1. split_and!; [done|done|by eapply roomy_less; [exact R1|lia..]|done]. }
  destruct S1 as (s1 & -> & H1 & R1 & G1). cbn [mbind res_bind]. unfold response_lines. set (l1 := if negb _ then _ else _) in *. clearbody l1.
  (* Transfer-Encoding *)
  assert (S2 : exists s2, (if has mode RES_CHUNKED then printf s1 (str "Transfer-Encoding: chunked") else mret s1) = Ok s2 /\
    message s2 (str "HTTP/1.1") st reason (l1 ++ (if has mode RES_CHUNKED then [(str "Transfer-Encoding: chunked", 0)] else [])) /\ roomy s2 8 600 /\ goes s1 s2).
  { destruct (has mode RES_CHUNKED).
    - apply printf_ok; [done|done| |done]. eapply roomy_less; [exact R1|lia|by vm_compute].
    - exists s1. rewrite app_nil_r. split_and!; [done|done|by eapply roomy_less; [exact R1|lia..]|by eapply message_goes]. }
  destruct S2 as (s2 & -> & H2 & R2 & G2). cbn [mbind res_bind]. set (l2 := if has mode RES_CHUNKED then _ else _) in *. clearbody l2.
  (* The others *)
  pose proof (x_versions_short xid obj_xid Hx Ho) as Hxv. set (xv := decimal xid ++ _) in *. clearbody xv.
  change (roomy s2 8 600) in R2.
  print_line s2 H2 R2 s3 H3 R3 G3. print_line s3 H3 R3 s4 H4 R4 G4. print_line s4 H4 R4 s5 H5 R5 G5.
  assert (G05 : goes s s5) by (repeat (eapply goes_trans; [eassumption|]); by eapply message_goes).
  assert (L5 : literal_at (r_mem s5) (r_ws s5) (literal (str "Via: 1.1 varnish")) (str "Via: 1.1 varnish")).
  { rewrite !Forall_cons in Hlit. destruct Hlit as (_ & _ & _ & _ & L & _). by eapply literal_kept; [|apply G05]. }
  destruct (set_header_ok s5 _ _ _ _ (literal (str "Via: 1.1 varnish")) (str "Via: 1.1 varnish") 4 (600 - 70 - 70 - 70) H5) as (s6 & -> & H6 & R6 & G6); [by vm_compute|exact L5|exact R5|]. cbn [mbind res_bind].
  destruct (printf_ok s6 _ _ _ _ (str "Connection: " ++ (if doclose then str "close" else str "keep-alive")) 3 300 H6) as (s7 & -> & H7 & R7 & G7).
  { destruct doclose; by vm_compute. }
  { eapply roomy_less; [exact R6|lia|destruct doclose; vm_compute; congruence]. }
  { lia. }
  exists s7. assert (G07 : goes s s7) by (eapply goes_trans; [exact G05|by eapply goes_trans]). split_and!; [done| |by eapply roomy_less; [exact R7|lia..]|done|].
  - rewrite <- !app_assoc in H7. exact H7.
  - eapply literals_goes; [|exact G07]. unfold literals. rewrite !Forall_cons in Hlit |- *. destruct Hlit as (? & ? & ? & _). split_and!; [done..|]. constructor.
Qed.

(** Building leaves the request alone. *)
Lemma asks_goes s s' req rls : asks s req rls -> lines_apart (r_ws s) req -> goes s s' -> asks s' req rls.
Proof. intros [H1 H2] Ha [Hk _]. split; [|done]. eapply has_lines_kept; [done|done|apply Hk]. Qed.

End BuildThm.
