(* ===== verification/BodyProp.v ===== *)
(** Bodies: what fetching, forwarding and delivering them come to. *)
From S2P Require Import Prelude Vct Ws Mem Http HttpLines HttpCollect HttpDissect HttpWire HttpThm HttpConn Wrw WrwThm Fetch FetchInv Coding FetchThm HttpWrite Response RespThm.
Import Vct Mem Http HttpLines HttpCollect HttpWire HttpThm HttpConn Wrw WrwThm Fetch FetchInv FetchLine Coding FetchThm HttpWrite Response RangeThm RespThm RelayThm BuildThm.

Module BodyProp.

#[local] Arguments body_of : simpl never.
#[local] Notation plenty alloc := (forall k n, is_Some (alloc k n)).

(** ** Fetching *)

(** An object without a body, and a client that waits for all of it. *)
Definition fresh (h : HttpConn.http_conn) (fpass : bool) (w : wrw) : fetch := mkFetch h [] 0 0 0 None fpass w.

Lemma fresh_holds h fpass w : segs_ok h -> holds (fun w d => writing w ([] ++ d)) (fresh h fpass w) [].
Proof. by constructor. Qed.

Lemma FetchBody_fresh (alloc : nat -> Z -> option Z) (nuke : nat -> bool) (fetchfrag fetch_chunksize fetch_maxchunksize nuke_limit : Z)
    (h : HttpConn.http_conn) (fpass : bool) (w : wrw) (bs : body_status) (b : list Z) (do_close : bool)
    (Halloc : gives_space alloc) (Hpar : params_ok fetchfrag fetch_chunksize fetch_maxchunksize nuke_limit)
    (Hs : segs_ok h) (Hlen : Z.of_nat (length (input h)) < SSIZE_MAX) :
  exists f failed cl v, FetchBody alloc nuke fetchfrag fetch_chunksize fetch_maxchunksize nuke_limit (fresh h fpass w) bs b do_close
      = Ok (f, failed, cl, v) /\ out f = w /\
    (failed = false /\ (let d := body_of (store f) in
       frames bs b (broken h) (input h) d (input (conn f)) /\ olen f = Z.of_nat (length d) /\
       cl = (if decide (bs = BS_NONE) then None else Some (Z.of_nat (length d))) /\ v = (if do_close then CloseFd else RecycleFd)) \/
     failed = true /\ cl = None /\ v = CloseFd /\ store f = [] /\ olen f = 0 /\
       (plenty alloc -> forall d r, ~ frames bs b (broken h) (input h) d r)).
Proof.
  destruct (FetchBody_ok _ alloc nuke fetchfrag fetch_chunksize fetch_maxchunksize nuke_limit Halloc Hpar (fresh h fpass w) bs b do_close
    (fresh_holds h fpass w Hs) eq_refl Hlen) as (f & failed & cl & v & d & E & (_ & Hsc & _ & Ho) & _ & _ & Hc).
  exists f, failed, cl, v. split_and!; [done|by apply Ho|].
  destruct Hc as [(-> & Hf & Hfr & -> & ->)|(-> & -> & -> & Hst & Hl & _ & Hp & _)]; [left|right; by split_and!].
  pose proof (ho_body _ _ _ Hf) as Hb. destruct (sctx f); [by destruct Hsc as [Hsc _]; specialize (Hsc eq_refl)|].
  rewrite Hb. cbv zeta. split_and!; try done. apply (ho_len _ _ _ Hf).
Qed.

(** C7. [FetchBody] makes the object hold the body that the framing of the response
    says ([frames], a grammar), and leaves on the connection what is after it, whatever
    pieces the octets come in, and whatever segments the stevedore gives; the object gets
    the [Content-Length] of the body, and the connection is used again unless the response
    says that it closes.  If there is no body by this grammar, which has no trailers and
    no extensions of chunks but has numbers with a sign, or if storage is short, it fails:
    the object is empty and the connection is closed; with storage it fails only then. *)
Theorem fetch_body_correct (alloc : nat -> Z -> option Z) (nuke : nat -> bool) (fetchfrag fetch_chunksize fetch_maxchunksize nuke_limit : Z)
    (h : HttpConn.http_conn) (fpass : bool) (w : wrw) (bs : body_status) (b : list Z) (do_close : bool)
    (Halloc : gives_space alloc) (Hpar : params_ok fetchfrag fetch_chunksize fetch_maxchunksize nuke_limit)
    (Hs : segs_ok h) (Hlen : Z.of_nat (length (input h)) < SSIZE_MAX) :
  exists f failed cl v, FetchBody alloc nuke fetchfrag fetch_chunksize fetch_maxchunksize nuke_limit (fresh h fpass w) bs b do_close
      = Ok (f, failed, cl, v) /\ out f = w /\
    (failed = false /\ (let d := body_of (store f) in
       frames bs b (broken h) (input h) d (input (conn f)) /\ olen f = Z.of_nat (length d) /\
       cl = (if decide (bs = BS_NONE) then None else Some (Z.of_nat (length d))) /\ v = (if do_close then CloseFd else RecycleFd)) \/
     failed = true /\ cl = None /\ v = CloseFd /\ store f = [] /\ olen f = 0 /\
       (plenty alloc -> forall d r, ~ frames bs b (broken h) (input h) d r)).
Proof. by apply FetchBody_fresh. Qed.

(** ** Chunks *)

(** C12. What the gathered writer makes of a body with chunks, whatever the calls that
    write it and that flush, [fetch_chunked] gets back: the body and no more, however the
    octets come and are stored. *)
Theorem chunked_roundtrip (alloc : nat -> Z -> option Z) (nuke : nat -> bool) (fetchfrag fetch_chunksize fetch_maxchunksize nuke_limit : Z)
    (w : wrw) (hd body : list op)
    (Halloc : gives_space alloc) (Hplenty : plenty alloc) (Hpar : params_ok fetchfrag fetch_chunksize fetch_maxchunksize nuke_limit)
    (Hr : ready w) (Hhd : Forall op_ok hd) (Hbody : Forall op_ok body) (Hlen : Z.of_nat (length (concat (map written body))) < 2 ^ 63) :
  exists w' u, send_chunked w hd body = Ok (w', u) /\
    (u = false -> exists e, wr_out w' = wr_out w ++ concat (map written hd) ++ e /\
      forall h rest, segs_ok h -> input h = e ++ rest ->
        exists f, fetch_chunked alloc nuke fetchfrag fetch_chunksize fetch_maxchunksize nuke_limit (fresh h false w) = Ok (f, 0) /\
          body_of (store f) = concat (map written body) /\ input (conn f) = rest).
Proof.
  destruct (send_chunked_ok w hd body Hr Hhd Hbody) as (w' & u & E & _ & _ & Hu). exists w', u. split; [done|]. intros Hf.
  destruct (Hu Hf) as (cs & Hcs & Hd & Eo). exists (concat (map chunk cs) ++ last_chunk). split; [done|]. intros h rest Hs Hi.
  assert (Hde : chunked (input h) (concat (map written body)) rest).
  { rewrite Hi, <- app_assoc, <- Hd. apply chunked_chunks; by rewrite ?Hd. }
  destruct (chunked_ok _ alloc nuke fetchfrag fetch_chunksize fetch_maxchunksize nuke_limit Halloc Hpar (fresh h false w) [] (fresh_holds h false w Hs))
    as (f & i & d & Ef & Hf' & (_ & Hsc & _) & _ & Hc). change (conn (fresh h false w)) with h in Hc.
  destruct Hc as [(-> & Hd2)|(_ & _ & Hp & _)]; [|by destruct (Hp Hplenty _ _ Hde)].
  apply dechunk_iff in Hde, Hd2. rewrite Hde in Hd2. injection Hd2 as Ed Er. subst d. exists f. split_and!; try done.
  pose proof (ho_body _ _ _ Hf') as Hb. destruct (sctx f); [by destruct Hsc as [Hsc _]; specialize (Hsc eq_refl)|done].
Qed.

(** ** Requests *)

(** C11. A request that is sent to a backend, with its body as it comes from the client,
    arrives: what the backend has got is the wire format of the message and as many
    octets as [Content-Length] says, no more of the client's connection is read, and
    dissecting the message gives back its parts. *)
Theorem request_relayed (m : mem) (ws : Ws.ws) (bereq : http) (w : wrw) (h : HttpConn.http_conn)
    (meth url proto : list Z) (ls : list (list Z)) (n : Z)
    (Htag : WSLH bereq = Ok tt) (Hls : has_lines m bereq (map plain_line ls)) (Hsh : Forall short ls)
    (Hm : slot_is m bereq HTTP_HDR_REQ meth) (Hu : slot_is m bereq HTTP_HDR_URL url) (Hp : slot_is m bereq HTTP_HDR_PROTO proto)
    (Hsm : short meth /\ short url /\ short proto) (Hw : ready w) (Hs : segs_ok h) (Hn : 0 <= n < 2 ^ 63) :
  exists w' h' bad, send_request m ws bereq w h (Some (decimal n)) false true = Ok (w', h', bad) /\ ready w' /\
    (bad = false -> exists d, wr_out w' = wr_out w ++ wire_request meth url proto ls ++ d /\
      Z.of_nat (length d) = n /\ input h = d ++ input h') /\
    forall m2 hp lost lo htc, 0 < lo -> rxbuf htc = mkTxt lo (lo + Z.of_nat (length (wire_request meth url proto ls))) ->
      Z.of_nat (length (wire_request meth url proto ls)) < 2 ^ 32 - 1 -> 0 <= maxhdr htc ->
      meth_ok meth = true -> url_ok url = true -> proto_ok proto = true -> forallb (line_ok (maxhdr htc)) ls = true ->
      mapped m2 lo (wire_request meth url proto ls ++ [0])%list -> length (hdf hp) = length (Http.hd hp) ->
      (HTTP_HDR_FIRST + length ls <= shd hp)%nat ->
      exists m3 hp', http_DissectRequest m2 hp lost htc = Ok (m3, hp', lost, 0) /\
        slot_is m3 hp' HTTP_HDR_REQ meth /\ slot_is m3 hp' HTTP_HDR_URL url /\
        slot_is m3 hp' HTTP_HDR_PROTO proto /\ has_lines m3 hp' (map plain_line ls).
Proof.
  assert (Hfst : map fst (map plain_line ls) = ls) by (rewrite map_map; apply map_id).
  assert (Hsh2 : Forall (fun x => short (fst x)) (map plain_line ls)) by (by apply Forall_map).
  unfold send_request. destruct (reserve_ok _ Hw) as (w1 & -> & Hw1 & _). cbn [mbind res_bind]. destruct Hsm as (S1 & S2 & S3).
  destruct (Write_request m ws bereq w1 _ meth url proto _ Hw1 Htag Hls Hsh2 Hm Hu Hp S1 S2 S3) as (w2 & k & -> & Hw2 & _). cbn [mbind res_bind].
  rewrite Hfst in Hw2. unfold FetchReqBody. rewrite strtoumax_decimal by done. cbn [fst].
  destruct (req_loop_ok (fun w d => writing w ([] ++ d)) (S (avail h)) h w2 _ n true Hs Hw2) as (h3 & w3 & i & d & e & -> & _ & Hi & Hw3 & Hc); [lia|rewrite avail_input; lia|].
  cbn [mbind res_bind]. cbn [app] in Hw3.
  assert (Hdis : forall m2 hp lost lo htc, 0 < lo -> rxbuf htc = mkTxt lo (lo + Z.of_nat (length (wire_request meth url proto ls))) ->
      Z.of_nat (length (wire_request meth url proto ls)) < 2 ^ 32 - 1 -> 0 <= maxhdr htc ->
      meth_ok meth = true -> url_ok url = true -> proto_ok proto = true -> forallb (line_ok (maxhdr htc)) ls = true ->
      mapped m2 lo (wire_request meth url proto ls ++ [0])%list -> length (hdf hp) = length (Http.hd hp) ->
      (HTTP_HDR_FIRST + length ls <= shd hp)%nat ->
      exists m3 hp', http_DissectRequest m2 hp lost htc = Ok (m3, hp', lost, 0) /\
        slot_is m3 hp' HTTP_HDR_REQ meth /\ slot_is m3 hp' HTTP_HDR_URL url /\
        slot_is m3 hp' HTTP_HDR_PROTO proto /\ has_lines m3 hp' (map plain_line ls)).
  { intros m2 hp lost lo htc H1 H2 H3 H4 H5 H6 H7 H8 H9 H10 H11.
    destruct (DissectRequest_wire htc m2 hp lost lo meth url proto ls) as (m3 & hp' & E & A1 & A2 & A3 & A4 & _); try done. by exists m3, hp'. }
  destruct (flush_release_ok _ _ Hw3) as (w4 & u & E4 & Hr4 & _ & Hu4).
  destruct Hc as [(-> & Hd & ->)|[(-> & _)|(-> & _)]]; cbn [truth Z.eqb negb mbind res_bind mret res_ret]; rewrite E4; cbn [mbind res_bind mret res_ret];
    exists w4, h3; eexists; (split; [reflexivity|]); split_and!; try done; try (by rewrite orb_true_r).
  cbn [Z.ltb Z.compare]. rewrite orb_false_r. intros Hf. exists d. rewrite (Hu4 Hf), <- !app_assoc. done.
Qed.

(** ** Delivering *)

Section Deliveries.

Context (literal : list Z -> Z) (ESI_Deliver ESI_DeliverChild res_WriteGunzipObj : wrw -> res wrw).

(** C10. [RES_WriteObj] gives a client the answer that is due, and nothing else: the
    response with the whole body of the object; for a [HEAD] the head only; for a request
    whose conditions hold a 304 without body and framing; for a range the 206 with that
    part of the body and its length.  With chunks, the body is what the client decodes.
    The writer is left ready, whether or not the client has gone.  The request asks for no
    range or for one as RFC 2616 writes it, which is no suffix that is longer than the body:
    that one the code gets wrong. *)
Theorem deliver_answers (s : resp) (r : reply) (obj : object) (req : http) (rls : list line) (do_cond wantbody : bool) (mode : Z) (support gzip : bool)
    (rq : option range)
    (Hm : replies s r) (Hlit : literals literal s) (Hroom : roomy s 2 200) (Hw : ready (r_wrw s))
    (Hobj : stored obj (rp_body r)) (Hreq : asks s req rls)
    (Hmode : has mode (Z.lor (Z.lor RES_ESI RES_ESI_CHILD) RES_GUNZIP) = false)
    (Hrq : range_asked rls rq) (Hfit : forall x, rq = Some x -> range_fits x (Z.of_nat (length (rp_body r)))) :
  let unchanged := (o_response obj =? 200) && truth (conds req) && do_cond in
  let part := if has mode RES_LEN && support && (o_response obj =? 200) then rq ≫= (fun x => range_ends x (Z.of_nat (length (rp_body r)))) else None in
  let a := answer r unchanged wantbody part in
  exists s' gone, RES_WriteObj literal ESI_Deliver ESI_DeliverChild res_WriteGunzipObj s obj req do_cond wantbody mode support gzip = Ok (s', gone) /\
    ready (r_wrw s') /\
    (gone = false -> exists e, wr_out (r_wrw s') = wr_out (r_wrw s) ++ wire_reply a ++ e /\
      carries (has mode RES_CHUNKED && wantbody && negb unchanged) e (rp_body a)).
Proof.
  intros unchanged part a. assert (Hl := sd_len _ _ Hobj). assert (Hsz := sd_size _ _ Hobj).
  destruct (wanted_asked rls rq (Z.of_nat (length (rp_body r))) Hrq Hfit) as [Ew Hlow]; [lia|].
  assert (Ep : range_of obj rls mode support = part) by (unfold range_of, part; rewrite Hl, Ew; done).
  destruct (WriteObj_ok literal ESI_Deliver ESI_DeliverChild res_WriteGunzipObj s r obj req rls do_cond wantbody mode support gzip Hm Hlit Hroom Hw Hobj Hreq Hmode)
    as (s' & gone & E & Hr & Hg). exists s', gone. split_and!; [exact E|exact Hr|]. intros Hf. destruct (Hg Hf) as (e & Eo & Hc).
  fold unchanged in Eo, Hc. rewrite Ep in Eo, Hc. exists e. split; [exact Eo|].
  assert (Es : sent part (rp_body (answer r unchanged wantbody part)) = rp_body a).
  { fold a. unfold sent. destruct part as [[low high]|] eqn:Epart; [|done]. rewrite (proj2 (Z.ltb_ge low 0)); [done|].
    apply (Hlow low high). unfold range_of in Ep. rewrite Hl in Ep. revert Ep. by destruct (has mode RES_LEN && support && (o_response obj =? 200)). }
  by rewrite Es in Hc.
Qed.

(** The reply that is built from an object. *)
Definition built_reply (st : Z) (reason : list Z) (ols : list line) (mode : Z) (support : bool) (date age : list Z) (xid obj_xid : Z) (doclose : bool)
    (body : list Z) : reply :=
  mkReply (str "HTTP/1.1") st reason (response_lines ols mode support date age xid obj_xid doclose) body.

(** C8. From an object to the octets on the connection: [RES_BuildHttp] makes a response of
    the message of the object, with its status and reason, its headers without [Date], and
    without its length when that is not known, then
    [Accept-Ranges], [Transfer-Encoding], [Date], [X-Varnish], [Age], [Via] and
    [Connection]; and what [RES_WriteObj] then sends is the answer with these.  The range
    is the one that the code takes from the request; of one that it takes to begin before
    the body ([sent]) no octets are sent. *)
Theorem object_delivered (s : resp) (objh : http) (st : Z) (reason : list Z) (ols : list line) (obj : object) (body : list Z) (req : http) (rls : list line)
    (do_cond wantbody : bool) (mode : Z) (support gzip : bool) (date age : list Z) (xid obj_xid : Z) (doclose : bool)
    (Hp : prepared literal s objh st reason ols) (Hw : ready (r_wrw s)) (Hobj : stored obj body)
    (Hreq : asks s req rls) (Hapart : lines_apart (r_ws s) req)
    (Hdate : Z.of_nat (length date) <= 30) (Hage : Z.of_nat (length age) <= 30) (Hx : 0 <= xid < 2 ^ 32) (Ho : 0 <= obj_xid < 2 ^ 32)
    (Hmode : has mode (Z.lor (Z.lor RES_ESI RES_ESI_CHILD) RES_GUNZIP) = false) :
  let unchanged := (o_response obj =? 200) && truth (conds req) && do_cond in
  let r := built_reply st reason ols mode support date age xid obj_xid doclose body in
  let a := answer r unchanged wantbody (range_of obj rls mode support) in
  exists s1, RES_BuildHttp literal s objh mode support date age xid obj_xid doclose = Ok s1 /\
  exists s' gone, RES_WriteObj literal ESI_Deliver ESI_DeliverChild res_WriteGunzipObj s1 obj req do_cond wantbody mode support gzip = Ok (s', gone) /\
    ready (r_wrw s') /\
    (gone = false -> exists e, wr_out (r_wrw s') = wr_out (r_wrw s) ++ wire_reply a ++ e /\
      carries (has mode RES_CHUNKED && wantbody && negb unchanged) e (sent (range_of obj rls mode support) (rp_body a))).
Proof.
  intros unchanged r a. destruct (BuildHttp_ok literal s objh st reason ols mode support date age xid obj_xid doclose Hp Hdate Hage Hx Ho)
    as (s1 & E & Hm & Hroom & Hg & Hlit).
  exists s1. split; [exact E|]. rewrite <- (proj2 Hg) in Hw |- *.
  apply (WriteObj_ok literal _ _ _ s1 r obj req rls); [exact Hm|done..| |done]. by eapply asks_goes.
Qed.

End Deliveries.

(** C22. A range means what its text says, in each of the three forms of RFC 2616, unless
    it is a suffix longer than the body; and when it is in the body, [res_WriteDirObj] sends
    just the octets from the first to the last of it, however the body is stored, and as many as the
    new [Content-Length] says. *)
Theorem range_right (t : list Z) (r : range) (len : Z) (Hr : range_text t r) (Hfit : range_fits r len) (Hl : 0 < len < 2 ^ 63) :
  parse_range t len = range_ends r len /\
  forall low high w sts, range_ends r len = Some (low, high) -> ready w -> Forall st_ok sts -> Z.of_nat (length (body_of sts)) = len ->
    exists w' gone, (w ← WRW_Reserve w true; w ← res_WriteDirObj w sts len low high; WRW_FlushRelease w) = Ok (w', gone) /\ ready w' /\
      (gone = false -> exists part n, wr_out w' = wr_out w ++ part /\ length part = Z.to_nat (1 + high - low) /\
        (forall i, 0 <= i <= high - low -> part !! Z.to_nat i = body_of sts !! Z.to_nat (low + i)) /\
        content_length (1 + high - low) = str "Content-Length: " ++ n /\ number_text 10 n (Z.of_nat (length part))).
Proof.
  split; [apply parse_range_ok; [done|done|lia]|]. intros low high w sts He Hw Hst Hlen.
  destruct (range_ends_bounds r len low high (range_text_nonneg _ _ Hr) (proj1 Hl) He) as [Hb Hh].
  destruct (reserve_ok w Hw) as (w1 & -> & Hw1 & _). cbn [mbind res_bind].
  destruct (WriteDirObj_ok (fun w d => writing w ([] ++ d)) sts low high w1 (wr_out w) Hw1 Hst Hb) as (w2 & E2 & Hw2); [lia..|]. rewrite Hlen in E2.
  rewrite E2. cbn [mbind res_bind]. destruct (flush_release_ok w2 _ Hw2) as (w3 & u & E3 & Hr3 & _ & Hu). exists w3, u. split_and!; [done|done|].
  intros Hf. exists (slice low high (body_of sts)), (decimal (1 + high - low)). rewrite (Hu Hf). cbn [app].
  assert (Hsl : Z.of_nat (length (slice low high (body_of sts))) = 1 + high - low) by (apply slice_length; lia). split_and!; [done|lia| |done|].
  - intros i Hi. unfold slice. rewrite lookup_drop, lookup_take_lt by lia. f_equal. lia.
  - rewrite Hsl. apply fetch_number_iff; [by left|]. split; [apply decimal_number; lia|lia].
Qed.

(** C9. A client of a stream, of a body that goes to it as it comes, is given the head and
    then exactly the body that is fetched; the object has that body at the end, unless it
    was to be passed.  When fetching fails, what the client is given is a begin of the
    body, only octets that its framing says are of it ([begins]), and the object is empty;
    but with chunks that is a whole message: the last chunk is sent as if that were all. *)
Theorem stream_relayed (alloc : nat -> Z -> option Z) (nuke : nat -> bool) (fetchfrag fetch_chunksize fetch_maxchunksize nuke_limit : Z)
    (s : resp) (r : reply) (h : HttpConn.http_conn) (fpass : bool) (mode : Z) (bs : body_status) (hcl : option (list Z)) (do_close : bool)
    (Halloc : gives_space alloc) (Hpar : params_ok fetchfrag fetch_chunksize fetch_maxchunksize nuke_limit)
    (Hm : replies s r) (Hw : ready (r_wrw s)) (Hroom : roomy s 1 (64 + Z.of_nat (length (default [] hcl))))
    (Hsh : short (str "Content-Length: " ++ default [] hcl)) (Hmode : has mode (Z.lor RES_ESI_CHILD RES_GUNZIP) = false)
    (Hs : segs_ok h) (Hlen : Z.of_nat (length (input h)) < SSIZE_MAX) :
  exists s' f failed gone d, stream_body alloc nuke fetchfrag fetch_chunksize fetch_maxchunksize nuke_limit s h fpass mode bs hcl do_close
      = Ok (s', f, failed, gone) /\ ready (r_wrw s') /\
    (gone = false -> exists e, wr_out (r_wrw s') = wr_out (r_wrw s) ++ wire_reply (stream_head r mode hcl) ++ e /\ carries (has mode RES_CHUNKED) e d) /\
    (failed = false /\ frames bs (default [] hcl) (broken h) (input h) d (input (conn f)) /\ olen f = Z.of_nat (length d) /\
       (fpass = false -> body_of (store f) = d) \/
     failed = true /\ store f = [] /\ begins bs (default [] hcl) (input h) d /\
       (plenty alloc -> forall d' t, ~ frames bs (default [] hcl) (broken h) (input h) d' t) /\
       (forall d' t, frames bs (default [] hcl) (broken h) (input h) d' t -> d `prefix_of` d')).
Proof. by apply stream_body_ok. Qed.

(** ** Examples *)

(** A connection, from what each read finds. *)
Definition conn_of (segs : list (list Z)) (broken : bool) : HttpConn.http_conn := mkHtc (Ws.mkWs 0 0 0 0 0) 0 0 [] [] segs broken.

(** Storage in segments of four octets. *)
Definition ex_alloc (k : nat) (n : Z) : option Z := Some 4.

Lemma ex_alloc_ok : gives_space ex_alloc /\ plenty ex_alloc /\ params_ok 0 128 262144 50.
Proof. split_and!; [by intros k n sp [= <-]|by intros k n; eexists|..]; unfold params_ok; lia. Qed.

Definition ex_w : wrw := mkWrw None 0 (repeat [] 8) 8 0 0 0 8 [] [].

Lemma ex_w_ready : ready ex_w.
Proof. split_and!; [done..|cbn; lia]. Qed.

(** [hello] with chunks, in three pieces. *)
Definition ex_segs : list (list Z) := [str "3" ++ crlf ++ str "h"; str "el" ++ crlf ++ str "2"; crlf ++ str "lo" ++ crlf ++ str "0" ++ crlf ++ crlf].

Lemma fetch_body_correct_witness :
  exists f, FetchBody ex_alloc (fun _ => true) 0 128 262144 50 (fresh (conn_of ex_segs false) false ex_w) BS_CHUNKED [] false
    = Ok (f, false, Some 5, RecycleFd) /\ body_of (store f) = str "hello".
Proof.
  destruct ex_alloc_ok as (H1 & H2 & H3).
  destruct (fetch_body_correct ex_alloc (fun _ => true) 0 128 262144 50 (conn_of ex_segs false) false ex_w BS_CHUNKED [] false H1 H3)
    as (f & failed & cl & v & E & _ & Hc); [by repeat constructor|by vm_compute|].
  assert (Hfr : dechunk (input (conn_of ex_segs false)) = Some (str "hello", [])) by by vm_compute.
  destruct Hc as [(-> & Hd & _ & -> & ->)|(_ & _ & _ & _ & _ & Hp)].
  - cbv zeta in Hd. apply dechunk_iff in Hd. rewrite Hfr in Hd. injection Hd as Hd _. exists f. rewrite E, <- Hd. split; reflexivity.
  - apply dechunk_iff in Hfr. destruct (Hp H2 _ _ Hfr).
Defined.

Lemma chunked_roundtrip_witness :
  exists w' u, send_chunked ex_w [OWrite (str "HEAD")] [OWrite (str "he"); OFlush; OWrite (str "llo")] = Ok (w', u) /\ u = false /\
    exists e, wr_out w' = str "HEAD" ++ e /\
      exists f, fetch_chunked ex_alloc (fun _ => true) 0 128 262144 50 (fresh (conn_of [e; str "more"] false) false ex_w) = Ok (f, 0) /\
        body_of (store f) = str "hello" /\ input (conn f) = str "more".
Proof.
  destruct ex_alloc_ok as (H1 & H2 & H3).
  destruct (chunked_roundtrip ex_alloc (fun _ => true) 0 128 262144 50 ex_w [OWrite (str "HEAD")] [OWrite (str "he"); OFlush; OWrite (str "llo")] H1 H2 H3 ex_w_ready)
    as (w' & u & E & Hu); [by repeat constructor|by repeat constructor|by vm_compute|].
  exists w', u. split; [exact E|].
  assert (E2 : send_chunked ex_w [OWrite (str "HEAD")] [OWrite (str "he"); OFlush; OWrite (str "llo")] = Ok (w', u)) by exact E.
  vm_compute in E2. injection E2 as Ew Eu. split; [by rewrite <- Eu|]. destruct (Hu (eq_sym Eu)) as (e & Eo & Hf).
  change (wr_out ex_w) with (@nil Z) in Eo. exists e. split; [exact Eo|].
  apply (Hf (conn_of [e; str "more"] false) (str "more")).
  - rewrite <- Ew in Eo. cbn in Eo. injection Eo as <-. by repeat constructor.
  - unfold input. cbn. by rewrite ?app_nil_r.
Defined.

(** A memory with the texts of messages, and a free workspace. *)
Definition ex_texts : list (Z * list Z) :=
  [(5000, str "HTTP/1.1"); (5100, str "Partial Content"); (5200, str "Not Modified"); (5300, str "OK");
   (5400, str "Content-Length: 10"); (5500, str "X-A: b"); (5600, str "Range: bytes=2-5"); (5700, str "/i");
   (5800, str "PUT"); (5900, str "Host: h"); (6000, str "Accept-Ranges: bytes"); (6100, str "Via: 1.1 varnish");
   (6200, str "Date: before")].
Definition ex_memory : mem :=
  foldr (fun x m => mem_of (fst x) (snd x ++ [0])%list ∪ m) (mem_of 1024 (repeat 0 1024)) ex_texts.
Definition ex_literal (l : list Z) : Z :=
  if bool_decide (l = str "HTTP/1.1") then 5000 else if bool_decide (l = str "Partial Content") then 5100 else
  if bool_decide (l = str "Not Modified") then 5200 else if bool_decide (l = str "Accept-Ranges: bytes") then 6000 else 6100.

Definition at_text (p n : Z) : txt := mkTxt p (p + n).

(** A response, a request that is read and one that is sent. *)
Definition ex_response : http :=
  mkHttp HTTP_Tx ([no_txt; no_txt; at_text 5000 8; no_txt; at_text 5300 2; at_text 5400 18; at_text 5500 6] ++ repeat no_txt 8)
    (repeat 0 15) 7 200 11 0.
Definition ex_request : http :=
  mkHttp HTTP_Rx ([no_txt; no_txt; no_txt; no_txt; no_txt; at_text 5600 16] ++ repeat no_txt 4) (repeat 0 10) 6 0 11 0.
Definition ex_bereq : http :=
  mkHttp HTTP_Tx ([at_text 5800 3; at_text 5700 2; at_text 5000 8; no_txt; no_txt; at_text 5900 7] ++ repeat no_txt 4) (repeat 0 10) 6 0 11 0.

Definition ex_s : resp := mkResp ex_memory ex_ws ex_response 0 ex_w.
Definition ex_lines2 : list line := [(str "Content-Length: 10", 0); (str "X-A: b", 0)].
Definition ex_body : list Z := str "0123456789".
Definition ex_r : reply := mkReply (str "HTTP/1.1") 200 (str "OK") ex_lines2 ex_body.

Lemma ex_built : built ex_memory ex_ws ex_response ex_lines2.
Proof.
  constructor.
  - apply has_lines_b_ok. by vm_compute.
  - apply lines_apart_b_ok. by vm_compute.
  - apply ex_ws_ok.
  - by vm_compute.
  - by vm_compute.
  - apply mapped_range_b_ok with (p := 1024) (n := 1024). by vm_compute.
  - by vm_compute.
Qed.

Lemma fixed_b hp u t l : Http.hd hp !! u = Some t -> holds_b ex_memory t l = true -> (2048 <=? Http.b t) = true -> fixed ex_memory ex_ws hp u l.
Proof. intros Ht Hh Hb. exists t. split; [done|]. split; [by apply holds_b_ok|]. right. by apply Z.leb_le. Qed.

Lemma ex_replies : replies ex_s ex_r.
Proof.
  constructor.
  - apply ex_built.
  - by repeat constructor.
  - apply (fixed_b _ _ (at_text 5000 8)); by vm_compute.
  - apply (fixed_b _ _ (at_text 5300 2)); by vm_compute.
  - by split.
  - by vm_compute.
Qed.

Lemma ex_literal_at l p : p = ex_literal l -> holds_b ex_memory (mkTxt p (p + Z.of_nat (length l))) l = true -> (2048 <=? p) = true ->
  forallb (fun c => negb (c =? 0)) l = true -> literal_at ex_memory ex_ws (ex_literal l) l.
Proof.
  intros <- Hh Hp Hl. constructor; [by apply holds_b_ok|right; by apply Z.leb_le|].
  apply Forall_forall. intros c Hc. rewrite forallb_forall in Hl. apply Hl. by apply list_elem_of_In.
Qed.

Lemma ex_literals : literals ex_literal ex_s.
Proof. repeat apply Forall_cons_2; [..|done]; (eapply ex_literal_at; [reflexivity|by vm_compute..]). Qed.

(** The body in two segments. *)
Definition ex_object : object := mkObject 200 10 [mkSt 4 (str "0123"); mkSt 8 (str "456789")].

Lemma ex_stored : stored ex_object ex_body.
Proof. constructor; [done| |done|by vm_compute]. by repeat constructor. Qed.

Lemma ex_req_asks : asks ex_s ex_request [(str "Range: bytes=2-5", 0)].
Proof. split; [apply has_lines_b_ok; by vm_compute|]. by repeat constructor. Qed.

Lemma ex_resp_roomy n k : (n <=? 8)%nat = true -> (k <=? 1000) = true -> roomy ex_s n k.
Proof. intros Hn%Nat.leb_le Hk%Z.leb_le. split; cbn; lia. Qed.

Lemma digit_numeral c v : digit 10 c v -> numeral 10 [c] v.
Proof. apply num_one. Qed.

Lemma ex_range_text : range_text (str "bytes=2-5") (FromTo 2 5).
Proof. apply (rt_both [50] 2 [53] 5); [apply digit_numeral; unfold digit; lia|done|apply digit_numeral; unfold digit; lia|done]. Qed.

Lemma ex_range_asked : range_asked [(str "Range: bytes=2-5", 0)] (Some (FromTo 2 5)).
Proof. exists (FromTo 2 5). split; [done|exact ex_range_text]. Qed.

(** Octets 2 to 5 of the body. *)
Lemma deliver_answers_witness :
  exists s' gone, RES_WriteObj ex_literal (fun w => Ok w) (fun w => Ok w) (fun w => Ok w) ex_s ex_object ex_request false true RES_LEN true false = Ok (s', gone) /\
    gone = false /\ wr_out (r_wrw s') = wire_response (str "HTTP/1.1") 206 (str "Partial Content")
      [str "X-A: b"; str "Content-Range: bytes 2-5/10"; str "Content-Length: 4"] ++ str "2345".
Proof.
  destruct (deliver_answers ex_literal (fun w => Ok w) (fun w => Ok w) (fun w => Ok w) ex_s ex_r ex_object ex_request _ false true RES_LEN true false (Some (FromTo 2 5))
    ex_replies ex_literals (ex_resp_roomy 2 200 eq_refl eq_refl) ex_w_ready ex_stored ex_req_asks eq_refl ex_range_asked) as (s' & gone & E & _ & Hg); [by intros x [= <-]|].
  exists s', gone. split; [exact E|].
  assert (Eg : (match RES_WriteObj ex_literal (fun w => Ok w) (fun w => Ok w) (fun w => Ok w) ex_s ex_object ex_request false true RES_LEN true false with
    Ok (_, g) => g | _ => true end) = false) by (by vm_compute).
  rewrite E in Eg. split; [exact Eg|]. destruct (Hg Eg) as (e & -> & Hc).
  change (e = str "2345") in Hc. rewrite Hc. by vm_compute.
Defined.

(** The message of an object; its [Date] is not for delivery. *)
Definition ex_objh : http :=
  mkHttp HTTP_Obj ([no_txt; no_txt; at_text 5000 8; no_txt; at_text 5300 2; at_text 5400 18; at_text 6200 12; at_text 5500 6] ++ repeat no_txt 2)
    (repeat 0 10) 8 200 11 0.
Definition ex_objlines : list line := [(str "Content-Length: 10", 0); (str "Date: before", 0); (str "X-A: b", 0)].
Definition ex_s0 : resp := mkResp ex_memory ex_ws (mkHttp HTTP_Tx (repeat no_txt 20) (repeat 0 20) 5 0 0 0) 0 ex_w.

Lemma ex_prepared : prepared ex_literal ex_s0 ex_objh 200 (str "OK") ex_objlines.
Proof.
  constructor.
  - apply has_lines_b_ok. by vm_compute.
  - apply lines_apart_b_ok. by vm_compute.
  - apply (fixed_b _ _ (at_text 5300 2)); by vm_compute.
  - split; [by repeat constructor|done].
  - by vm_compute.
  - split; [done|]. apply Nat.leb_le. by vm_compute.
  - split; [apply ex_ws_ok|by vm_compute].
  - apply mapped_range_b_ok with (p := 1024) (n := 1024). by vm_compute.
  - repeat apply Forall_cons_2; [..|done]; (eapply ex_literal_at; [reflexivity|by vm_compute..]).
Qed.

Definition ex_built_lines : list (list Z) :=
  [str "Content-Length: 10"; str "X-A: b"; str "Accept-Ranges: bytes"; str "Date: D"; str "X-Varnish: 12 7"; str "Age: 3"; str "Via: 1.1 varnish";
   str "Connection: keep-alive"].

(** Without a range. *)
Lemma object_delivered_witness :
  exists s1, RES_BuildHttp ex_literal ex_s0 ex_objh RES_LEN true (str "D") (str "3") 12 7 false = Ok s1 /\
  exists s' gone, RES_WriteObj ex_literal (fun w => Ok w) (fun w => Ok w) (fun w => Ok w) s1 ex_object ex_bereq false true RES_LEN true false = Ok (s', gone) /\
    gone = false /\ wr_out (r_wrw s') = wire_response (str "HTTP/1.1") 200 (str "OK") ex_built_lines ++ ex_body.
Proof.
  assert (Ha : asks ex_s0 ex_bereq [(str "Host: h", 0)]) by (split; [apply has_lines_b_ok; by vm_compute|by repeat constructor]).
  assert (Hap : lines_apart (r_ws ex_s0) ex_bereq) by (apply lines_apart_b_ok; by vm_compute).
  destruct (object_delivered ex_literal (fun w => Ok w) (fun w => Ok w) (fun w => Ok w) ex_s0 ex_objh 200 (str "OK") ex_objlines ex_object ex_body ex_bereq _
    false true RES_LEN true false (str "D") (str "3") 12 7 false ex_prepared ex_w_ready ex_stored Ha Hap) as (s1 & E1 & s' & gone & E & _ & Hg); [by vm_compute..|].
  exists s1. split; [exact E1|]. exists s', gone. split; [exact E|].
  assert (Eg : (match RES_BuildHttp ex_literal ex_s0 ex_objh RES_LEN true (str "D") (str "3") 12 7 false with
    | Ok s1 => match RES_WriteObj ex_literal (fun w => Ok w) (fun w => Ok w) (fun w => Ok w) s1 ex_object ex_bereq false true RES_LEN true false with
      Ok (_, g) => g | _ => true end | _ => true end) = false) by (by vm_compute).
  rewrite E1, E in Eg. split; [exact Eg|]. destruct (Hg Eg) as (e & -> & Hc).
  change (e = ex_body) in Hc. rewrite Hc. by vm_compute.
Defined.

Lemma range_right_witness :
  parse_range (str "bytes=2-5") 10 = Some (2, 5) /\
  exists w', (w ← WRW_Reserve ex_w true; w ← res_WriteDirObj w (o_store ex_object) 10 2 5; WRW_FlushRelease w) = Ok (w', false) /\
    exists n, content_length 4 = str "Content-Length: " ++ n /\ number_text 10 n 4.
Proof.
  destruct (range_right (str "bytes=2-5") (FromTo 2 5) 10 ex_range_text I) as [E Hs]; [lia|]. split; [exact E|].
  destruct (Hs 2 5 ex_w (o_store ex_object) eq_refl ex_w_ready (sd_segs _ _ ex_stored) eq_refl) as (w' & gone & Ew & _ & Hg).
  assert (Eg : (match (w ← WRW_Reserve ex_w true; w ← res_WriteDirObj w (o_store ex_object) 10 2 5; WRW_FlushRelease w) with
    Ok (_, g) => g | _ => true end) = false) by (by vm_compute).
  rewrite Ew in Eg. subst gone. exists w'. split; [exact Ew|]. destruct (Hg eq_refl) as (part & n & _ & Hl & _ & En & Hn).
  exists n. split; [exact En|]. rewrite Hl in Hn. exact Hn.
Defined.

(** A body of four octets goes on to the backend, one after it does not. *)
Lemma request_relayed_witness :
  exists w' h', send_request ex_memory ex_ws ex_bereq ex_w (conn_of [str "ab"; str "cde"] false) (Some (decimal 4)) false true = Ok (w', h', false) /\
    wr_out w' = wire_request (str "PUT") (str "/i") (str "HTTP/1.1") [str "Host: h"] ++ str "abcd" /\ input h' = str "e".
Proof.
  destruct (request_relayed ex_memory ex_ws ex_bereq ex_w (conn_of [str "ab"; str "cde"] false) (str "PUT") (str "/i") (str "HTTP/1.1") [str "Host: h"] 4)
    as (w' & h' & bad & E & _ & Hb & _).
  - by vm_compute.
  - apply has_lines_b_ok. by vm_compute.
  - by repeat constructor.
  - exists (at_text 5800 3). split; [reflexivity|]. apply holds_b_ok. by vm_compute.
  - exists (at_text 5700 2). split; [reflexivity|]. apply holds_b_ok. by vm_compute.
  - exists (at_text 5000 8). split; [reflexivity|]. apply holds_b_ok. by vm_compute.
  - by split_and!.
  - apply ex_w_ready.
  - by repeat constructor.
  - lia.
  - assert (Eb : (match send_request ex_memory ex_ws ex_bereq ex_w (conn_of [str "ab"; str "cde"] false) (Some (decimal 4)) false true with
      Ok (_, _, b) => b | _ => true end) = false) by (by vm_compute).
    rewrite E in Eb. subst bad. exists w', h'. split; [exact E|]. destruct (Hb eq_refl) as (d & Eo & Hd & Hi).
    change (input (conn_of [str "ab"; str "cde"] false)) with (str "abcd" ++ str "e") in Hi. apply app_inj_1 in Hi as [<- <-]; [|cbn in *; lia].
    split; [exact Eo|reflexivity].
Defined.

(** [hello] is streamed as it comes, and sent with chunks of its own. *)
Lemma stream_relayed_witness :
  exists s' f, stream_body ex_alloc (fun _ => true) 0 128 262144 50 ex_s (conn_of ex_segs false) false RES_CHUNKED BS_CHUNKED None false = Ok (s', f, false, false) /\
    body_of (store f) = str "hello" /\
    exists e, wr_out (r_wrw s') = wire_reply ex_r ++ e /\ chunked e (str "hello") [].
Proof.
  destruct ex_alloc_ok as (H1 & H2 & H3).
  destruct (stream_relayed ex_alloc (fun _ => true) 0 128 262144 50 ex_s ex_r (conn_of ex_segs false) false RES_CHUNKED BS_CHUNKED None false H1 H3 ex_replies ex_w_ready)
    as (s' & f & failed & gone & d & E & _ & Hg & Hc); [by apply ex_resp_roomy|by vm_compute|by vm_compute|by repeat constructor|by vm_compute|].
  assert (Eb : (match stream_body ex_alloc (fun _ => true) 0 128 262144 50 ex_s (conn_of ex_segs false) false RES_CHUNKED BS_CHUNKED None false with
    Ok (_, _, a, b) => a || b | _ => true end) = false) by (by vm_compute).
  rewrite E in Eb. apply orb_false_elim in Eb as [-> ->]. exists s', f. split; [exact E|].
  assert (Hfr : dechunk (input (conn_of ex_segs false)) = Some (str "hello", [])) by by vm_compute.
  destruct Hc as [(_ & Hd & _ & Hb)|(Hf & _)]; [|discriminate Hf]. apply dechunk_iff in Hd. rewrite Hfr in Hd. injection Hd as <- _. split; [by apply Hb|].
  destruct (Hg eq_refl) as (e & Eo & Hcar). exists e. split; [exact Eo|exact Hcar].
Defined.

(** ** What is let through *)

(** A suffix range longer than the body: RFC2616 has the whole body, but the reply
    announces octets from before its begin, and none is sent. *)
Example range_suffix_too_long :
  range_ends (Suffix 20) 10 = Some (0, 9) /\ parse_range (str "bytes=-20") 10 = Some (-10, 9) /\
  content_range (-10) 9 10 = str "Content-Range: bytes -10-9/10" /\ content_length (1 + 9 - -10) = str "Content-Length: 20" /\
  res_WriteDirObj ex_w (o_store ex_object) 10 (-10) 9 = Ok ex_w.
Proof. by vm_compute. Qed.

(** A connection that breaks in the body: fetching fails, but what the client has got
    decodes as a whole body. *)
Example stream_cut_looks_whole :
  match stream_body ex_alloc (fun _ => true) 0 128 262144 50 ex_s (conn_of [str "5" ++ crlf ++ str "hel"] true) false RES_CHUNKED BS_CHUNKED None false with
  | Ok (s', _, failed, gone) => failed = true /\ gone = false /\
      dechunk (drop (length (wire_reply ex_r)) (wr_out (r_wrw s'))) = Some (str "hel", [])
  | Fail _ => False
  end.
Proof. by vm_compute. Qed.

(** Numbers that are none: a negative length wraps to 1, and so does a chunk size, which
    may also have a sign.  A trailer after the last chunk is refused. *)
Example numbers_let_through :
  fetch_number (str "-18446744073709551615") 10 = 1 /\
  dechunk (str "-FFFFFFFFFFFFFFFF" ++ crlf ++ str "a" ++ crlf ++ last_chunk) = Some (str "a", []) /\
  dechunk (str "+1" ++ crlf ++ str "a" ++ crlf ++ last_chunk) = Some (str "a", []) /\
  dechunk (str "0" ++ crlf ++ str "X: y" ++ crlf ++ crlf) = None.
Proof. by vm_compute. Qed.

End BodyProp.
