(* ===== verification/Rfc2616.v ===== *)
(** What RFC2616 says of a response: [bin/varnishd/rfc2616.c], with [http_GetHdrQ] of
    [cache_http.c] and [TIM_parse] of [lib/libvarnish/time.c].

    The functions read headers where they are in memory.  [strptime] and [timegm] of the C
    library are parameters, and so is what the machine makes of a [double] that no [int]
    can hold. *)
From S2P Require Import Prelude Vct Ws Mem Http Double Obj HttpConn Wrw Fetch HttpWrite Response.
From Stdlib Require Import SpecFloat.
Import Vct Mem Http Double Obj HttpConn Fetch Response.

Module Rfc2616.

(** ** Numbers *)

(** [strtoul(s, NULL, 0)], on a string without its NUL. *)
Definition strtoul0 (s : list Z) : Z :=
  let p := spaces s in
  let '(neg, p) := match p with 45 :: p => (true, p) | 43 :: p => (false, p) | _ => (false, p) end in
  let '(radix, p) :=
    match p with
    | 48 :: x :: q => if ((x =? 120) || (x =? 88)) && is_digit 16 q then (16, q) else (8, p)
    | 48 :: _ => (8, p)
    | _ => (10, p)
    end in
  let '(v, _) := digits radix 0 p in
  if 2 ^ 64 <=? v then 2 ^ 64 - 1 else if neg then (- v) mod 2 ^ 64 else v.

(** [*] of doubles, and [.1]. *)
Definition dmul : double -> double -> double := SFmul 53 1024.
Definition d_tenth : double := S754_finite false 7205759403792794 (-56).
Definition d10 : double := of_Z 10.

(** [(int)d]: towards zero. *)
Definition truncated (d : double) : option Z :=
  match d with
  | S754_zero _ => Some 0
  | S754_finite s p e => let v := Z.shiftl (Z.pos p) e in Some (if s then - v else v)
  | _ => None
  end.

(** ** Quality values *)

(** The digits before the point, and after it. *)
Fixpoint q_int (m : mem) (fuel : nat) (h : Z) (a : double) : res (Z * double) :=
  c ← peek m h;
  if vct_isdigit c then
    match fuel with
    | O => Fail FFuel
    | S fuel => q_int m fuel (h + 1) (dadd (dmul a d10) (of_Z (c - 48)))
    end
  else mret (h, a).

Fixpoint q_frac (m : mem) (fuel : nat) (h : Z) (a b : double) : res double :=
  c ← peek m h;
  if vct_isdigit c then
    match fuel with
    | O => Fail FFuel
    | S fuel => q_frac m fuel (h + 1) (dadd a (dmul b (of_Z (c - 48)))) (dmul b d_tenth)
    end
  else mret a.

(** Spaces, and one octet: where it ends if it is there. *)
Definition expect (m : mem) (h c : Z) : res (option Z) :=
  h ← skip vct_issp m h;
  x ← peek m h;
  mret (if x =? c then Some (h + 1) else None).

Definition http_GetHdrQ (m : mem) (hp : http) (hdr field : list Z) : res double :=
  h ← http_GetHdrData m hp hdr field;
  match h with None => mret d0 | Some h =>
  h ← expect m h 59;
  match h with None => mret (of_Z 1) | Some h =>
  h ← expect m h 113;
  match h with None => mret (of_Z 1) | Some h =>
  h ← expect m h 61;
  match h with None => mret (of_Z 1) | Some h =>
  h ← skip vct_issp m h;
  '(h, a) ← q_int m (size m) h d0;
  x ← peek m h;
  if negb (x =? 46) then mret a else q_frac m (size m) (h + 1) a d_tenth
  end end end end.

Definition RFC2616_Req_Gzip (m : mem) (hp : http) : res bool :=
  x ← http_GetHdrData m hp H_Accept_Encoding (str "x-gzip");
  match x with
  | Some _ => mret true
  | None => q ← http_GetHdrQ m hp H_Accept_Encoding (str "gzip"); mret (dlt d0 q)
  end.

(** ** The body *)

(** What there is of a body, whether the connection is to be closed, and where the length
    is, if that is what says it. *)
Definition RFC2616_Body (m : mem) (hp bereq : http) : res (body_status * bool * option Z) :=
  do_close ← (
    old ← (if protover hp <? 11 then k ← http_HdrIs m hp H_Connection (str "keep-alive"); mret (negb k) else mret false);
    if (old : bool) then mret true else http_HdrIs m hp H_Connection (str "close"));
  p ← http_GetReq bereq;
  is_head ← strcaseeq m p (str "head");
  if (is_head : bool) then mret (BS_NONE, do_close, None) else
  if status hp <=? 199 then mret (BS_NONE, do_close, None) else
  if status hp =? 204 then mret (BS_NONE, do_close, None) else
  if status hp =? 304 then mret (BS_NONE, do_close, None) else
  chunked ← http_HdrIs m hp H_Transfer_Encoding (str "chunked");
  if (chunked : bool) then mret (BS_CHUNKED, do_close, None) else
  te ← http_GetHdr m hp H_Transfer_Encoding;
  match te with Some _ => mret (BS_ERROR, do_close, None) | None =>
  cl ← http_GetHdr m hp H_Content_Length;
  match cl with Some b => mret (BS_LENGTH, do_close, Some b) | None =>
  k ← http_HdrIs m hp H_Connection (str "keep-alive");
  if (k : bool) then mret (BS_ZERO, do_close, None) else
  c ← http_HdrIs m hp H_Connection (str "close");
  if (c : bool) then mret (BS_EOF, do_close, None) else
  if protover hp <? 11 then mret (BS_EOF, do_close, None) else
  mret (BS_EOF, do_close, None)
  end end.

(** ** Times *)

Section Times.

Context {tm : Type} (strptime : list Z -> list Z -> option tm) (timegm : tm -> Z).

Definition fmts : list (list Z) :=
  [str "%a, %d %b %Y %T GMT"; str "%A, %d-%b-%y %T GMT"; str "%a %b %d %T %Y"; str "%F %T"].

Fixpoint parse_loop (p : list Z) (fs : list (list Z)) : Z :=
  match fs with
  | [] => 0
  | r :: fs => match strptime p r with Some t => timegm t | None => parse_loop p fs end
  end.

Definition TIM_parse (p : list Z) : Z := parse_loop p fmts.

Context (bad_int : double -> Z).

(** [(int)d] *)
Definition to_int (d : double) : Z :=
  match truncated d with
  | Some z => if (- 2 ^ 31 <=? z) && (z <? 2 ^ 31) then z else bad_int d
  | None => bad_int d
  end.

Definition dabs (d : double) : double := SFabs d.

(** The time a header says, 0 if there is none. *)
Definition header_time (m : mem) (hp : http) (hdr : list Z) : res double :=
  p ← http_GetHdr m hp hdr;
  match p with
  | Some p => s ← string_at m p; mret (of_Z (TIM_parse s))
  | None => mret d0
  end.

(** [http_GetHdrField(hp, H_Cache_Control, "s-maxage", &p) || ...], and [p]. *)
Definition relative (m : mem) (hp : http) : res (option Z) :=
  '(has, p) ← http_GetHdrField m hp H_Cache_Control (str "s-maxage");
  if (has : bool) then mret p else
  '(_, p) ← http_GetHdrField m hp H_Cache_Control (str "max-age");
  mret p.

Definition cacheable (err_code : Z) : bool := bool_decide (err_code ∈ [200; 203; 300; 301; 302; 307; 410; 404]).

Definition RFC2616_Ttl (m : mem) (hp : http) (err_code : Z) (default_ttl : double) (clock_skew : Z) (x : exp) : res exp :=
  vassert (negb (deq (entered x) d0) && negb (isnan (entered x)));;
  let x := set_ttl x default_ttl in
  p ← http_GetHdr m hp H_Age;
  '(x, age) ← match p with
    | Some p => s ← string_at m p; let age := u32 (strtoul0 s) in mret (mkExp (ttl x) (grace x) (keep x) (of_Z age) (entered x), age)
    | None => mret (x, 0)
    end;
  h_expires ← header_time m hp H_Expires;
  h_date ← header_time m hp H_Date;
  if negb (cacheable err_code) then mret (set_ttl x dm1) else
  p ← relative m hp;
  match p with
  | Some p =>
      c ← peek m p;
      s ← string_at m p;
      let max_age := if c =? 45 then 0 else u32 (strtoul0 s) in
      mret (set_ttl x (if max_age <? age then d0 else of_Z (u32 (max_age - age))))
  | None =>
      if deq h_expires d0 then mret x else
      if dlt h_expires h_date then mret (set_ttl x d0) else
      if deq h_date d0 || dlt (dabs (dsub h_date (entered x))) (of_Z clock_skew) then
        if dlt h_expires (entered x) then mret (set_ttl x d0)
        else mret (set_ttl x (dsub h_expires (entered x)))
      else mret (set_ttl x (of_Z (to_int (dsub h_expires h_date))))
  end.

(** ** Conditions *)

(** Whether the client has what it asks for: [sp->http], [sp->obj->http]. *)
Definition RFC2616_Do_Cond (m : mem) (http obj_http : http) (last_modified t_req : double) : res bool :=
  p ← http_GetHdr m http H_If_Modified_Since;
  ims ← match p with
    | None => mret (Some false)
    | Some p =>
        if deq last_modified d0 then mret None else
        s ← string_at m p;
        let ims := of_Z (TIM_parse s) in
        if dlt t_req ims then mret None else
        if dlt ims last_modified then mret None else mret (Some true)
    end;
  match ims with
  | None => mret false
  | Some do_cond =>
      p ← http_GetHdr m http H_If_None_Match;
      match p with
      | None => mret do_cond
      | Some p =>
          e ← http_GetHdr m obj_http H_ETag;
          match e with
          | None => mret do_cond
          | Some e => t ← string_at m e; same ← streq m p t; mret same
          end
      end
  end.

End Times.

(** ** Fetching by what a response says *)

Section Fetched.

Context (alloc : nat -> Z -> option Z) (nuke : nat -> bool).
Context (fetchfrag fetch_chunksize fetch_maxchunksize nuke_limit : Z).

(** [cnt_fetch] looks at the head, and [cnt_fetchbody] fetches what it says. *)
Definition fetch_response (m : mem) (beresp bereq : http) (f : fetch) : res (fetch * bool * option Z * vdi) :=
  '(bs, do_close, p) ← RFC2616_Body m beresp bereq;
  b ← match p with Some p => string_at m p | None => mret [] end;
  FetchBody alloc nuke fetchfrag fetch_chunksize fetch_maxchunksize nuke_limit f bs b do_close.

End Fetched.

End Rfc2616.
