(* ===== verification/Rfc2616Thm.v ===== *)
(** What RFC2616 says of a response: the functions in terms of the header lines. *)
From S2P Require Import Prelude Vct Ws Mem Http HttpLines HttpWire HttpThm Double Obj HttpConn Wrw WrwThm Fetch FetchInv Coding FetchThm HttpWrite Response RespThm BodyProp Rfc2616.
From Stdlib Require Import SpecFloat.
Import Vct Mem Http HttpLines HttpWire HttpThm Double Obj Response RespThm Rfc2616.

Module Rfc2616Thm.

(** ** Headers *)

Definition no_nul (l : list Z) : Prop := Forall (fun c => c <> 0) l.

(** Lines as they are received: without NUL. *)
Definition clean (ls : list line) : Prop := Forall (fun x => no_nul (fst x)) ls.

(** The value of the first header of a name. *)
Definition header (hdr : list Z) (ls : list line) : option (list Z) :=
  match first_named hdr ls 0 with Some (_, l) => Some (value hdr l) | None => None end.

Definition says (hdr val : list Z) (ls : list line) : bool :=
  match header hdr ls with Some v => nocase_eq val v | None => false end.

(** A string at a pointer. *)
Definition points (m : mem) (p : Z) (v : list Z) : Prop := mapped m p (v ++ [0]) /\ no_nul v.

Lemma drop_while_no_nul P l : no_nul l -> no_nul (drop_while P l).
Proof. intros H. induction H as [|c l Hc H IH]; cbn; [constructor|]. destruct (P c); [done|by constructor]. Qed.

Lemma get_header m hp ls hdr : has_lines m hp ls -> clean ls -> header_name hdr ->
  exists r, http_GetHdr m hp hdr = Ok r /\
    match header hdr ls, r with None, None => True | Some v, Some p => points m p v | _, _ => False end.
Proof.
  intros H Hc Hn. destruct (GetHdr_ok m hp ls hdr H Hn) as (r & E & Hr). exists r. split; [done|]. unfold header.
  pose proof (first_named_lookup hdr [] ls) as Hl. cbn [app length] in Hl.
  destruct (first_named hdr ls 0) as [[j l]|], r as [p|]; try done. destruct Hl as (f & Hj & _). split; [done|].
  apply drop_while_no_nul, Forall_drop. apply list_elem_of_lookup_2 in Hj. unfold clean in Hc. rewrite Forall_forall in Hc. by apply (Hc (l, f)).
Qed.

Lemma HdrIs_ok m hp ls hdr val : has_lines m hp ls -> clean ls -> header_name hdr -> Forall (fun c => 0 < c) val ->
  http_HdrIs m hp hdr val = Ok (says hdr val ls).
Proof.
  intros H Hc Hn Hv. unfold http_HdrIs, says. destruct (get_header m hp ls hdr H Hc Hn) as (r & -> & Hr). cbn [mbind res_bind].
  destruct (header hdr ls) as [v|], r as [p|]; try done. destruct Hr. by apply strcaseeq_ok.
Qed.

Lemma string_points m p v : points m p v -> string_at m p = Ok v.
Proof. intros [H1 H2]. apply string_at_ok; [done|]. eapply Forall_impl; [exact H2|]. intros c Hc. by apply negb_true_iff, Z.eqb_neq. Qed.

Lemma skip_points P m p v : points m p v -> P 0 = false -> exists q, skip P m p = Ok q /\ points m q (drop_while P v).
Proof.
  intros [H1 H2] H0. destruct (skip_string P m p v H1 H0) as (l1 & E & _ & H). eexists. split; [exact E|]. split; [done|]. by apply drop_while_no_nul.
Qed.

Lemma peek_points m p v : points m p v -> peek m p = Ok (match v with c :: _ => c | [] => 0 end).
Proof. intros [H _]. destruct v; apply mapped_cons in H as [H _]; by apply peek_ok. Qed.

Lemma points_tail m p c v : points m p (c :: v) -> points m (p + 1) v.
Proof. intros [H1 H2]. apply mapped_cons in H1 as [_ H1]. apply Forall_cons in H2 as [_ H2]. by split. Qed.

(** ** The elements of a header *)

(** The string begins with the field, and the field ends there. *)
Definition begins (field s : list Z) : bool :=
  bool_decide (take (length field) s = field) && match drop (length field) s with [] => true | c :: _ => vct_issepctl c end.

(** What is after the first element that begins with the field: [start] at the begin of
    an element. *)
Fixpoint find_field (field : list Z) (start : bool) (s : list Z) : option (list Z) :=
  match s with
  | [] => None
  | c :: q =>
      if start && (vct_islws c || (c =? 44)) then find_field field true q
      else if start && begins field s then Some (drop (length field) s)
      else find_field field (c =? 44) q
  end.

Lemma find_short field s : forall start, (length s < length field)%nat -> find_field field start s = None.
Proof.
  induction s as [|c s IH]; intros start Hl; cbn [find_field]; [done|]. cbn [length] in Hl.
  rewrite !IH by lia. replace (begins field (c :: s)) with false; [by destruct (_ && _), start|].
  unfold begins. rewrite bool_decide_eq_false_2; [done|]. intros E. apply (f_equal length) in E. rewrite length_take in E. cbn [length] in E. lia.
Qed.

(** Inside an element, up to the next comma. *)
Lemma find_inside field s : find_field field false s = find_field field false (drop_while (fun c => negb (c =? 44)) s).
Proof. induction s as [|c s IH]; cbn [find_field drop_while andb]; [done|]. destruct (c =? 44) eqn:E; [cbn; by rewrite E|exact IH]. Qed.

Lemma find_outside field s : let r := drop_while (fun c => negb (c =? 44)) s in find_field field false r = find_field field true r.
Proof.
  destruct (drop_while_split (fun c => negb (c =? 44)) s) as (l1 & _ & _ & H). cbv zeta. destruct (drop_while _ s) as [|c r]; [done|].
  apply negb_false_iff in H. cbn [find_field andb]. rewrite H. by rewrite orb_true_r.
Qed.

Lemma drop_while_nul s : no_nul s -> drop_while (fun x => negb (x =? 0) && negb (x =? 44)) s = drop_while (fun c => negb (c =? 44)) s.
Proof. intros H. induction H as [|c s Hc H IH]; cbn [drop_while]; [done|]. apply Z.eqb_neq in Hc. by rewrite Hc, IH. Qed.

Lemma memeq_take m p s v : mapped m p s -> (length v <= length s)%nat -> memeq m p v = Ok (bool_decide (take (length v) s = v)).
Proof.
  revert p s. induction v as [|x v IH]; intros p s Hm Hl; cbn [memeq length take]; [by rewrite bool_decide_eq_true_2|].
  destruct s as [|c s]; [cbn in Hl; lia|]. apply mapped_cons in Hm as [H0 Hm]. rewrite (peek_ok _ _ _ H0). cbn [mbind res_bind take].
  destruct (Z.eqb_spec x c) as [->|Hne].
  - rewrite (IH (p + 1) s) by (done || (cbn in Hl; lia)). f_equal. apply bool_decide_ext. split; [by intros ->|by intros [=]].
  - rewrite bool_decide_eq_false_2; [done|]. by intros [= ? ?].
Qed.

Lemma hdrdata_ok m field : field <> [] -> forall fuel h s, points m h s -> (length s < fuel)%nat ->
  exists r, hdrdata_loop m field fuel h (h + Z.of_nat (length s)) = Ok r /\
    match find_field field true s, r with None, None => True | Some v, Some p => points m p (drop_while vct_islws v) | _, _ => False end.
Proof.
  intros Hf. induction fuel as [|fuel IH]; intros h s Hp Hl; [lia|]. cbn [hdrdata_loop].
  destruct (Z.ltb_spec (h + Z.of_nat (length s)) (h + Z.of_nat (length field))) as [Hs|Hs].
  { exists None. split; [done|]. by rewrite find_short by lia. }
  destruct s as [|c s]; [destruct field; [done|cbn in Hs; lia]|]. pose proof Hp as [Hm Hn].
  rewrite (peek_points _ _ _ Hp). cbn [mbind res_bind find_field andb]. cbn [length] in Hl.
  destruct (vct_islws c || (c =? 44)) eqn:Ec.
  { replace (h + Z.of_nat (length (c :: s))) with (h + 1 + Z.of_nat (length s)) by (cbn [length]; lia). apply IH; [by eapply points_tail|lia]. }
  assert (Esp : points m (h + Z.of_nat (length field)) (drop (length field) (c :: s))).
  { split; [|by apply Forall_drop]. rewrite <- (take_drop (length field) (c :: s)), <- app_assoc in Hm. apply mapped_app in Hm as [_ Hm].
    rewrite length_take, Nat.min_l in Hm by lia. done. }
  assert (Eends : (if h + Z.of_nat (length field) =? h + Z.of_nat (length (c :: s)) then mret true
      else x ← peek m (h + Z.of_nat (length field)); mret (vct_issepctl x))
    = Ok (match drop (length field) (c :: s) with [] => true | x :: _ => vct_issepctl x end)).
  { destruct (Z.eqb_spec (h + Z.of_nat (length field)) (h + Z.of_nat (length (c :: s)))) as [E|E].
    - by rewrite drop_ge by lia.
    - rewrite (peek_points _ _ _ Esp). destruct (drop (length field) (c :: s)) as [|x r] eqn:Ed; [|done].
      apply (f_equal length) in Ed. rewrite length_drop in Ed. cbn [length] in *. lia. }
  rewrite Eends. cbn [mbind res_bind]. unfold begins at 1. pose proof Hm as Hm2. apply mapped_app in Hm2 as [Hm2 _].
  set (en := match drop _ _ with [] => true | x :: _ => vct_issepctl x end) in *.
  assert (Esame : (if en then memeq m h field else mret false) = Ok (bool_decide (take (length field) (c :: s) = field) && en)).
  { destruct en; [|by rewrite andb_false_r]. rewrite andb_true_r. apply memeq_take; [done|lia]. }
  rewrite Esame. cbn [mbind res_bind]. destruct (bool_decide _ && en).
  - destruct (skip_points vct_islws m _ _ Esp) as (q & -> & Hq); [by vm_compute|]. cbn [mbind res_bind mret res_ret]. by exists (Some q).
  - apply orb_false_elim in Ec as [_ Ec]. rewrite Ec.
    set (P := fun x => negb (x =? 0) && negb (x =? 44)).
    destruct (skip_string P m h (c :: s) Hm eq_refl) as (l1 & -> & Esplit & Hr). cbn [mbind res_bind].
    set (r := drop_while P (c :: s)) in *. assert (Er : r = drop_while (fun c => negb (c =? 44)) s).
    { unfold r, P. rewrite drop_while_nul by done. cbn [drop_while]. by rewrite Ec. }
    assert (Hlen : (length l1 + length r = S (length s))%nat) by (rewrite <- length_app, <- Esplit; done).
    replace (h + Z.of_nat (length (c :: s))) with (h + Z.of_nat (length l1) + Z.of_nat (length r)) by (cbn [length]; lia).
    rewrite find_inside, find_outside, <- Er. apply IH.
    + split; [done|]. by apply drop_while_no_nul.
    + enough (length r <= length s)%nat by lia. rewrite Er. destruct (drop_while_split (fun c => negb (c =? 44)) s) as (l2 & E2 & _).
      apply (f_equal length) in E2. rewrite length_app in E2. lia.
Qed.

(** The element of a header that begins with a field: what is after the field. *)
Definition field_of (hdr field : list Z) (ls : list line) : option (list Z) :=
  match header hdr ls with Some v => option_map (drop_while vct_islws) (find_field field true v) | None => None end.

Lemma GetHdrData_ok m hp ls hdr field : has_lines m hp ls -> clean ls -> header_name hdr -> field <> [] ->
  exists r, http_GetHdrData m hp hdr field = Ok r /\
    match field_of hdr field ls, r with None, None => True | Some v, Some p => points m p v | _, _ => False end.
Proof.
  intros H Hc Hn Hf. unfold http_GetHdrData, field_of. destruct (get_header m hp ls hdr H Hc Hn) as (r & -> & Hr). cbn [mbind res_bind].
  destruct (header hdr ls) as [v|], r as [p|]; try done; [|by exists None]. unfold str_end.
  destruct Hr as [Hm Hv]. rewrite (skip_run _ m p v 0 Hm); [|by eapply Forall_impl; [exact Hv|]; intros c Hx; apply negb_true_iff, Z.eqb_neq|done]. cbn [mbind res_bind].
  pose proof (mapped_size _ _ _ Hm) as Hsz. rewrite length_app in Hsz. cbn [length] in Hsz.
  destruct (hdrdata_ok m field Hf (S (size m)) p v (conj Hm Hv)) as (r & -> & Hr); [lia|]. exists r. split; [done|].
  by destruct (find_field field true v), r.
Qed.

(** [= value] after a field. *)
Definition equals (r : list Z) : option (list Z) :=
  match drop_while vct_issp r with 61 :: q => Some (drop_while vct_issp q) | _ => None end.

Lemma GetHdrField_ok m hp ls hdr field : has_lines m hp ls -> clean ls -> header_name hdr -> field <> [] ->
  exists r, http_GetHdrField m hp hdr field = Ok (bool_decide (field_of hdr field ls <> None), r) /\
    match field_of hdr field ls ≫= equals, r with None, None => True | Some v, Some p => points m p v | _, _ => False end.
Proof.
  intros H Hc Hn Hf. unfold http_GetHdrField. destruct (GetHdrData_ok m hp ls hdr field H Hc Hn Hf) as (r & -> & Hr). cbn [mbind res_bind].
  destruct (field_of hdr field ls) as [v|], r as [p|]; try done; [|by exists None].
  destruct (skip_points vct_issp m p v Hr eq_refl) as (q & -> & Hq). cbn [mbind res_bind option_bind]. rewrite (peek_points _ _ _ Hq). cbn [mbind res_bind].
  rewrite bool_decide_eq_true_2 by done. unfold equals. destruct (drop_while vct_issp v) as [|c w]; [by exists None|].
  destruct (Z.eqb_spec c 61) as [->|Hne].
  - destruct (skip_points vct_issp m (q + 1) w (points_tail _ _ _ _ Hq) eq_refl) as (q2 & -> & Hq2). cbn [mbind res_bind mret res_ret]. by exists (Some q2).
  - exists None. split; [done|]. destruct c as [|c|c]; try done. repeat (destruct c as [c|c|]; try done).
Qed.

(** ** The body of a response *)

Lemma names_ok : Forall header_name [H_Connection; H_Transfer_Encoding; H_Content_Length; H_Age; H_Expires; H_Date; H_Cache_Control;
  H_If_Modified_Since; H_If_None_Match; H_ETag; H_Accept_Encoding].
Proof. repeat apply Forall_cons_2; [..|done]; apply header_name_b_ok; by vm_compute. Qed.

Ltac name_ok := match goal with |- header_name ?h => refine (proj1 (Forall_forall _ _) names_ok h _); by set_solver end.
Ltac text_ok := repeat constructor; lia.

(** A response whose method has none, or that has none by its status. *)
Definition bodiless (method : list Z) (st : Z) : bool :=
  nocase_eq (str "head") method || (st <=? 199) || (st =? 204) || (st =? 304).

Definition body_rule (method : list Z) (st : Z) (ls : list line) : Fetch.body_status :=
  if bodiless method st then Fetch.BS_NONE
  else if says H_Transfer_Encoding (str "chunked") ls then Fetch.BS_CHUNKED
  else if header H_Transfer_Encoding ls then Fetch.BS_ERROR
  else if header H_Content_Length ls then Fetch.BS_LENGTH
  else if says H_Connection (str "keep-alive") ls then Fetch.BS_ZERO
  else Fetch.BS_EOF.

(** Whether the backend closes the connection. *)
Definition closes (pv : Z) (ls : list line) : bool :=
  (pv <? 11) && negb (says H_Connection (str "keep-alive") ls) || says H_Connection (str "close") ls.

(** A slot that holds a text. *)
Definition in_slot (m : mem) (hp : http) (u : nat) (l : list Z) : Prop := exists t, hd hp !! u = Some t /\ holds m t l.

Section Lines.

Context (m : mem) (hp : http) (ls : list line).
Context (Hls : has_lines m hp ls) (Hclean : clean ls).

Lemma Body_ok bereq method : in_slot m bereq HTTP_HDR_REQ method -> no_nul method ->
  exists p, RFC2616_Body m hp bereq = Ok (body_rule method (status hp) ls, closes (protover hp) ls, p) /\
    match p with
    | Some q => body_rule method (status hp) ls = Fetch.BS_LENGTH /\ exists b, header H_Content_Length ls = Some b /\ points m q b
    | None => body_rule method (status hp) ls <> Fetch.BS_LENGTH
    end.
Proof.
  intros (t & Et & Ht) Hmn. unfold RFC2616_Body, closes.
  rewrite (HdrIs_ok m hp ls H_Connection (str "keep-alive")) by (done || name_ok || text_ok).
  rewrite (HdrIs_ok m hp ls H_Connection (str "close")) by (done || name_ok || text_ok).
  set (ka := says _ (str "keep-alive") ls). set (cl := says H_Connection _ ls).
  assert (Ec : (old ← (if protover hp <? 11 then k ← Ok ka; mret (negb k) else mret false); if (old : bool) then mret true else Ok cl)
    = Ok ((protover hp <? 11) && negb ka || cl)) by (destruct (protover hp <? 11), ka; done).
  rewrite Ec. cbn [mbind res_bind]. unfold http_GetReq, get_hd. rewrite Et. cbn [deref mbind res_bind]. rewrite (holds_Tcheck m t _ Ht). cbn [mbind res_bind mret res_ret].
  rewrite (strcaseeq_ok m (b t) method) by (done || text_ok || apply Ht). cbn [mbind res_bind].
  unfold body_rule, bodiless. destruct (nocase_eq (str "head") method); cbn [orb]; [by exists None|].
  destruct (status hp <=? 199); cbn [orb]; [by exists None|]. destruct (status hp =? 204); cbn [orb]; [by exists None|].
  destruct (status hp =? 304); cbn [orb]; [by exists None|].
  rewrite (HdrIs_ok m hp ls H_Transfer_Encoding (str "chunked")) by (done || name_ok || text_ok). cbn [mbind res_bind].
  destruct (says H_Transfer_Encoding (str "chunked") ls); [by exists None|].
  destruct (get_header m hp ls H_Transfer_Encoding Hls Hclean ltac:(name_ok)) as (r & -> & Hr). cbn [mbind res_bind].
  destruct (header H_Transfer_Encoding ls), r; try done; [by exists None|].
  destruct (get_header m hp ls H_Content_Length Hls Hclean ltac:(name_ok)) as (r & -> & Hr2). cbn [mbind res_bind].
  destruct (header H_Content_Length ls) as [b|], r as [q|]; try done; [exists (Some q); split; [done|]; split; [done|]; by exists b|].
  fold ka. destruct ka; [by exists None|]. destruct cl; [by exists None|]. destruct (protover hp <? 11); by exists None.
Qed.

End Lines.

(** The body [d] of a response and what is after it, [r], in what the backend sends: [cut]
    says that the connection did not end in order. *)
Definition message_body (method : list Z) (st : Z) (ls : list line) (cut : bool) (s d r : list Z) : Prop :=
  if bodiless method st then d = [] /\ r = s
  else match header H_Transfer_Encoding ls with
  | Some e => nocase_eq (str "chunked") e = true /\ Coding.chunked s d r
  | None =>
      match header H_Content_Length ls with
      | Some t => Coding.number_text 10 t (Z.of_nat (length d)) /\ s = d ++ r
      | None => if says H_Connection (str "keep-alive") ls then d = [] /\ r = s else cut = false /\ d = s /\ r = []
      end
  end.

Lemma message_framing method st ls cut s t d r : (body_rule method st ls = Fetch.BS_LENGTH -> header H_Content_Length ls = Some t) ->
  Coding.frames (body_rule method st ls) t cut s d r <-> message_body method st ls cut s d r.
Proof.
  unfold body_rule, message_body, says at 1 3. destruct (bodiless method st); [done|].
  destruct (header H_Transfer_Encoding ls) as [e|].
  { intros _. destruct (nocase_eq (str "chunked") e); cbn; [|by split; [|intros []]]. split; [done|by intros []]. }
  destruct (header H_Content_Length ls) as [b|]; [|by destruct (says _ _ ls)]. intros H. by injection (H eq_refl) as <-.
Qed.

(** ** Seconds *)

(** The text after a number: nothing that could belong to it. *)
Definition ended (rest : list Z) : Prop := match rest with c :: _ => Fetch.digit_val c = None | [] => True end.

Lemma digits_app s : forall acc rest, Forall (FetchLine.is_dig 10) s -> ended rest ->
  Fetch.digits 10 acc (s ++ rest) = (FetchLine.value 10 acc s, rest).
Proof.
  induction s as [|c s IH]; intros acc rest Hs Hr; cbn [app Fetch.digits].
  - destruct rest as [|c r]; [done|]. cbn in Hr |- *. by rewrite Hr.
  - apply Forall_cons in Hs as [(d & Hd & Hdr) Hs]. rewrite Hd, (proj2 (Z.ltb_lt _ _)) by lia. rewrite IH by done.
    unfold FetchLine.value. cbn [fold_left]. replace (FetchLine.dval c) with d by (unfold FetchLine.dval; by rewrite Hd). done.
Qed.

Lemma dec_rev_last fuel n : 0 < n < 10 ^ Z.of_nat fuel -> (0 < fuel)%nat -> last (HttpWrite.dec_rev fuel n) <> Some 48.
Proof.
  revert n. induction fuel as [|fuel IH]; intros n Hn Hf; [lia|]. cbn [HttpWrite.dec_rev].
  destruct (Z.ltb_spec n 10); [cbn; intros [= ?]; lia|].
  assert (Hd : n = 10 * (n / 10) + n mod 10) by (apply Z.div_mod; lia). pose proof (Z.mod_pos_bound n 10 ltac:(lia)).
  rewrite Nat2Z.inj_succ, Z.pow_succ_r in Hn by lia. destruct fuel as [|fuel]; [cbn in Hn; lia|].
  specialize (IH (n / 10) ltac:(lia) ltac:(lia)). destruct (HttpWrite.dec_rev (S fuel) (n / 10)) as [|c r] eqn:E; [|exact IH].
  cbn in E. destruct (n / 10 <? 10); discriminate E.
Qed.

(** A number of seconds is read as it is written. *)
Lemma strtoul0_decimal n rest : 0 <= n < 2 ^ 63 -> ended rest -> strtoul0 (HttpWrite.decimal n ++ rest) = n.
Proof.
  intros Hn Hr. destruct (RangeThm.decimal_ok n) as (H1 & H2 & H3); [lia|].
  assert (Hd : Forall (FetchLine.is_dig 10) (HttpWrite.decimal n)) by (eapply Forall_impl; [exact H1|]; intros c Hc; by apply RangeThm.dec_char_ok).
  assert (Ed := digits_app _ 0 rest Hd Hr). rewrite H2 in Ed.
  destruct (decide (n = 0)) as [->|Hne].
  { unfold strtoul0. change (HttpWrite.decimal 0) with [48]. cbn [app Fetch.spaces HttpConn.isspace Z.eqb Z.leb Z.compare Pos.compare Pos.compare_cont Pos.eqb orb andb].
    destruct rest as [|x q]; [done|]. cbn in Hr.
    replace ((x =? 120) || (x =? 88)) with false; [|symmetry; apply orb_false_intro; apply Z.eqb_neq; intros ->; discriminate Hr].
    cbn [andb]. cbn [Fetch.digits Fetch.digit_val]. cbn. by rewrite Hr. }
  destruct (HttpWrite.decimal n) as [|c s] eqn:Edec; [done|]. assert (Hc : c <> 48).
  { intros ->. unfold HttpWrite.decimal in Edec. rewrite (proj2 (Z.ltb_ge n 0)) in Edec by lia.
    apply (dec_rev_last 20 n); [lia|lia|]. rewrite <- (rev_involutive (HttpWrite.dec_rev 20 n)), Edec. cbn [rev]. by rewrite last_snoc. }
  apply Forall_cons in Hd as [Hdc _]. destruct (FetchLine.dig_char _ _ Hdc) as (Hsp & H45 & H43 & _).
  unfold strtoul0. cbn [app Fetch.spaces]. rewrite Hsp.
  assert (Esign : match c :: s ++ rest with 45 :: p => (true, p) | 43 :: p => (false, p) | _ => (false, c :: s ++ rest) end = (false, c :: s ++ rest)).
  { clear - H45 H43. repeat (destruct c as [|c|c]; try done). }
  rewrite Esign. clear Esign.
  assert (Epre : match c :: s ++ rest with
    | 48 :: x :: q => if ((x =? 120) || (x =? 88)) && Fetch.is_digit 16 q then (16, q) else (8, c :: s ++ rest)
    | 48 :: _ => (8, c :: s ++ rest) | _ => (10, c :: s ++ rest) end = (10, c :: s ++ rest)).
  { clear - Hc. repeat (destruct c as [|c|c]; try done). }
  rewrite Epre. clear Epre. cbn [app] in Ed. rewrite Ed. by rewrite (proj2 (Z.leb_gt _ _)) by lia.
Qed.

(** ** Lifetimes *)

(** [s-maxage] of [Cache-Control], else [max-age]. *)
Definition relative_of (ls : list line) : option (list Z) :=
  match field_of H_Cache_Control (str "s-maxage") ls with
  | Some r => equals r
  | None => field_of H_Cache_Control (str "max-age") ls ≫= equals
  end.

Definition seconds (v : list Z) : Z := match v with 45 :: _ => 0 | _ => u32 (strtoul0 v) end.

Definition age_of (ls : list line) : Z := match header H_Age ls with Some v => u32 (strtoul0 v) | None => 0 end.

Section Times.

Context {tm : Type} (strptime : list Z -> list Z -> option tm) (timegm : tm -> Z) (bad_int : double -> Z).

Definition time_of (hdr : list Z) (ls : list line) : double :=
  match header hdr ls with Some v => of_Z (TIM_parse strptime timegm v) | None => d0 end.

(** How long a response may be used, from the time it has [entered]. *)
Definition lifetime (ls : list line) (st : Z) (default_ttl : double) (clock_skew : Z) (entered : double) : double :=
  let expires := time_of H_Expires ls in
  let date := time_of H_Date ls in
  if negb (cacheable st) then dm1 else
  match relative_of ls with
  | Some v => of_Z (Z.max 0 (seconds v - age_of ls))
  | None =>
      if deq expires d0 then default_ttl
      else if dlt expires date then d0
      else if deq date d0 || dlt (dabs (dsub date entered)) (of_Z clock_skew)
      then if dlt expires entered then d0 else dsub expires entered
      else of_Z (to_int bad_int (dsub expires date))
  end.

Section Lines.

Context (m : mem) (hp : http) (ls : list line).
Context (Hls : has_lines m hp ls) (Hclean : clean ls).

Lemma header_time_ok hdr : header_name hdr -> header_time strptime timegm m hp hdr = Ok (time_of hdr ls).
Proof.
  intros Hn. unfold header_time, time_of. destruct (get_header m hp ls hdr Hls Hclean Hn) as (r & -> & Hr). cbn [mbind res_bind].
  destruct (header hdr ls) as [v|], r as [p|]; try done. by rewrite (string_points _ _ _ Hr).
Qed.

Lemma relative_ok : exists r, relative m hp = Ok r /\
  match relative_of ls, r with None, None => True | Some v, Some p => points m p v | _, _ => False end.
Proof.
  unfold relative, relative_of.
  destruct (GetHdrField_ok m hp ls H_Cache_Control (str "s-maxage") Hls Hclean ltac:(name_ok)) as (r & -> & Hr); [done|]. cbn [mbind res_bind].
  destruct (field_of H_Cache_Control (str "s-maxage") ls) as [v|].
  - rewrite bool_decide_eq_true_2 by done. by exists r.
  - rewrite bool_decide_eq_false_2 by (intros H; by apply H).
    destruct (GetHdrField_ok m hp ls H_Cache_Control (str "max-age") Hls Hclean ltac:(name_ok)) as (r2 & -> & Hr2); [done|]. by exists r2.
Qed.

Lemma u32_range z : 0 <= u32 z < 2 ^ 32.
Proof. unfold u32. apply Z.mod_pos_bound. lia. Qed.

Lemma Ttl_ok st default_ttl clock_skew x : deq (entered x) d0 = false -> isnan (entered x) = false ->
  RFC2616_Ttl strptime timegm bad_int m hp st default_ttl clock_skew x =
    Ok (mkExp (lifetime ls st default_ttl clock_skew (entered x)) (grace x) (keep x)
      (match header H_Age ls with Some _ => of_Z (age_of ls) | None => age x end) (entered x)).
Proof.
  intros He Hnan. unfold RFC2616_Ttl, lifetime. rewrite He, Hnan. cbn [negb andb vassert mbind res_bind]. cbv zeta.
  destruct (get_header m hp ls H_Age Hls Hclean ltac:(name_ok)) as (r & -> & Hr). cbn [mbind res_bind].
  set (x1 := mkExp default_ttl (grace x) (keep x) (match header H_Age ls with Some _ => of_Z (age_of ls) | None => age x end) (entered x)).
  assert (Eage : match r with
      | Some p => s ← string_at m p; let a := u32 (strtoul0 s) in
          mret (mkExp (ttl (set_ttl x default_ttl)) (grace (set_ttl x default_ttl)) (keep (set_ttl x default_ttl)) (of_Z a) (entered (set_ttl x default_ttl)), a)
      | None => mret (set_ttl x default_ttl, 0)
      end = Ok (x1, age_of ls)).
  { unfold x1, age_of. destruct (header H_Age ls) as [v|], r as [p|]; try done. by rewrite (string_points _ _ _ Hr). }
  cbv zeta in Eage. rewrite Eage. cbn [mbind res_bind].
  rewrite (header_time_ok H_Expires), (header_time_ok H_Date) by name_ok. cbn [mbind res_bind].
  destruct (cacheable st); cbn [negb]; [|done].
  destruct relative_ok as (r2 & -> & Hr2). cbn [mbind res_bind].
  destruct (relative_of ls) as [v|], r2 as [p|]; try done.
  - rewrite (peek_points _ _ _ Hr2), (string_points _ _ _ Hr2). cbn [mbind res_bind mret res_ret].
    assert (Es : (if match v with c :: _ => c | [] => 0 end =? 45 then 0 else u32 (strtoul0 v)) = seconds v).
    { unfold seconds. destruct v as [|c v]; [done|]. destruct (Z.eqb_spec c 45) as [->|Hne]; [done|]. destruct c as [|c|c]; try done. repeat (destruct c as [c|c|]; try done). }
    rewrite Es. assert (Ha : 0 <= age_of ls < 2 ^ 32) by (unfold age_of; destruct (header _ _); [apply u32_range|lia]).
    assert (Hs : 0 <= seconds v < 2 ^ 32).
    { rewrite <- Es. destruct (_ =? 45); [lia|apply u32_range]. }
    unfold x1, set_ttl. cbn [ttl grace keep age entered]. destruct (Z.ltb_spec (seconds v) (age_of ls)).
    + by rewrite Z.max_l by lia.
    + by rewrite Z.max_r, u32_small by lia.
  - destruct (deq (time_of H_Expires ls) d0); [done|]. destruct (dlt (time_of H_Expires ls) (time_of H_Date ls)); [done|].
    destruct (_ || _); [|done]. unfold x1 at 1. cbn [entered]. by destruct (dlt (time_of H_Expires ls) (entered x)).
Qed.

End Lines.

(** ** Conditions *)

(** What the client has is what it would get: by time, and by tag. *)
Definition fresh_copy (rls ols : list line) (last_modified t_req : double) : bool :=
  let tagged := match header H_If_None_Match rls, header H_ETag ols with Some t, Some e => Some (bool_decide (t = e)) | _, _ => None end in
  match header H_If_Modified_Since rls with
  | Some v =>
      let ims := of_Z (TIM_parse strptime timegm v) in
      negb (deq last_modified d0) && negb (dlt t_req ims) && negb (dlt ims last_modified) && default true tagged
  | None => default false tagged
  end.

Lemma streq_ok m p s : forall t, points m p t -> no_nul s -> streq m p s = Ok (bool_decide (t = s)).
Proof.
  revert p. induction s as [|x s IH]; intros p t Hp Hs; cbn [streq]; rewrite (peek_points _ _ _ Hp); cbn [mbind res_bind].
  - destruct t as [|c t]; [done|]. destruct Hp as [_ Hn]. apply Forall_cons in Hn as [Hc _]. by rewrite (proj2 (Z.eqb_neq _ _) Hc), bool_decide_eq_false_2.
  - apply Forall_cons in Hs as [Hx Hs]. destruct t as [|c t].
    + rewrite (proj2 (Z.eqb_neq _ _) Hx). by rewrite bool_decide_eq_false_2.
    + destruct (Z.eqb_spec x c) as [->|Hne].
      * rewrite (IH (p + 1) t (points_tail _ _ _ _ Hp) Hs). f_equal. apply bool_decide_ext. split; [by intros ->|by intros [=]].
      * rewrite bool_decide_eq_false_2; [done|]. by intros [= ? ?].
Qed.

Lemma Do_Cond_ok m hp ohp rls ols last_modified t_req : has_lines m hp rls -> clean rls -> has_lines m ohp ols -> clean ols ->
  RFC2616_Do_Cond strptime timegm m hp ohp last_modified t_req = Ok (fresh_copy rls ols last_modified t_req).
Proof.
  intros H1 C1 H2 C2. unfold RFC2616_Do_Cond, fresh_copy.
  destruct (get_header m hp rls H_If_Modified_Since H1 C1 ltac:(name_ok)) as (r & -> & Hr). cbn [mbind res_bind].
  destruct (get_header m hp rls H_If_None_Match H1 C1 ltac:(name_ok)) as (r2 & Er2 & Hr2).
  destruct (get_header m ohp ols H_ETag H2 C2 ltac:(name_ok)) as (r3 & Er3 & Hr3).
  set (tagged := match header H_If_None_Match rls, header H_ETag ols with Some t, Some e => Some (bool_decide (t = e)) | _, _ => None end).
  assert (Etag : forall d : bool, (p ← http_GetHdr m hp H_If_None_Match;
      match p with None => mret d | Some p => e ← http_GetHdr m ohp H_ETag;
        match e with None => mret d | Some e => t ← string_at m e; same ← streq m p t; mret same end end) = Ok (default d tagged)).
  { intros d. rewrite Er2. cbn [mbind res_bind]. unfold tagged. destruct (header H_If_None_Match rls) as [t|], r2 as [p|]; try done.
    rewrite Er3. cbn [mbind res_bind]. destruct (header H_ETag ols) as [e|], r3 as [q|]; try done.
    rewrite (string_points _ _ _ Hr3). cbn [mbind res_bind]. by rewrite (streq_ok m p e t Hr2 (proj2 Hr3)). }
  destruct (header H_If_Modified_Since rls) as [v|], r as [p|]; try done; [|apply Etag].
  destruct (deq last_modified d0); [done|]. rewrite (string_points _ _ _ Hr). cbn [mbind res_bind negb andb]. cbv zeta.
  destruct (dlt t_req _); [done|]. destruct (dlt _ last_modified); [done|]. cbn [negb andb]. apply Etag.
Qed.

End Times.

(** ** Quality values *)

(** The digits before the point and what is left, and those after it. *)
Fixpoint qi (a : double) (s : list Z) : double * list Z :=
  match s with
  | c :: q => if vct_isdigit c then qi (dadd (dmul a d10) (of_Z (c - 48))) q else (a, s)
  | [] => (a, [])
  end.

Fixpoint qf (a b : double) (s : list Z) : double :=
  match s with
  | c :: q => if vct_isdigit c then qf (dadd a (dmul b (of_Z (c - 48)))) (dmul b d_tenth) q else a
  | [] => a
  end.

(** After spaces, [c] and what follows. *)
Definition after (c : Z) (s : list Z) : option (list Z) :=
  match drop_while vct_issp s with x :: q => if x =? c then Some q else None | [] => None end.

Definition q_text (s : list Z) : double :=
  let '(a, t) := qi d0 (drop_while vct_issp s) in match t with 46 :: t => qf a d_tenth t | _ => a end.

(** The quality that the text after an element says. *)
Definition quality (r : list Z) : double :=
  match (after 59 r ≫= after 113) ≫= after 61 with Some s => q_text s | None => of_Z 1 end.

Lemma expect_ok m p c s : points m p s -> c <> 0 ->
  exists r, expect m p c = Ok r /\ match after c s, r with None, None => True | Some v, Some q => points m q v | _, _ => False end.
Proof.
  intros Hp Hc. unfold expect, after. destruct (skip_points vct_issp m p s Hp eq_refl) as (q & -> & Hq). cbn [mbind res_bind].
  rewrite (peek_points _ _ _ Hq). cbn [mbind res_bind mret res_ret]. destruct (drop_while vct_issp s) as [|x t].
  - rewrite (proj2 (Z.eqb_neq 0 c)) by done. by exists None.
  - destruct (Z.eqb_spec x c) as [->|]; [|by exists None]. exists (Some (q + 1)). split; [done|]. by eapply points_tail.
Qed.

Lemma q_int_ok m s : forall fuel p a, points m p s -> (length s <= fuel)%nat ->
  exists q, q_int m fuel p a = Ok (q, fst (qi a s)) /\ points m q (snd (qi a s)).
Proof.
  induction s as [|c s IH]; intros fuel p a Hp Hl.
  - exists p. destruct fuel; cbn [q_int]; rewrite (peek_points _ _ _ Hp); by cbn.
  - destruct fuel as [|fuel]; [cbn in Hl; lia|]. cbn [q_int qi]. rewrite (peek_points _ _ _ Hp). cbn [mbind res_bind].
    destruct (vct_isdigit c); [|by exists p]. apply IH; [by eapply points_tail|cbn in Hl; lia].
Qed.

Lemma q_frac_ok m s : forall fuel p a b, points m p s -> (length s <= fuel)%nat -> q_frac m fuel p a b = Ok (qf a b s).
Proof.
  induction s as [|c s IH]; intros fuel p a b Hp Hl.
  - destruct fuel; cbn [q_frac]; rewrite (peek_points _ _ _ Hp); by cbn.
  - destruct fuel as [|fuel]; [cbn in Hl; lia|]. cbn [q_frac qf]. rewrite (peek_points _ _ _ Hp). cbn [mbind res_bind].
    destruct (vct_isdigit c); [|done]. apply IH; [by eapply points_tail|cbn in Hl; lia].
Qed.

Lemma points_size m p s : points m p s -> (length s <= size m)%nat.
Proof. intros [H _]. apply mapped_size in H. rewrite length_app in H. lia. Qed.

Lemma HdrQ_ok m hp ls hdr field : has_lines m hp ls -> clean ls -> header_name hdr -> field <> [] ->
  http_GetHdrQ m hp hdr field = Ok (match field_of hdr field ls with None => d0 | Some r => quality r end).
Proof.
  intros H Hc Hn Hf. unfold http_GetHdrQ. destruct (GetHdrData_ok m hp ls hdr field H Hc Hn Hf) as (r & -> & Hr). cbn [mbind res_bind].
  destruct (field_of hdr field ls) as [v|], r as [p|]; try done. unfold quality.
  destruct (expect_ok m p 59 v Hr) as (r1 & -> & H1); [done|]. cbn [mbind res_bind]. destruct (after 59 v) as [v1|], r1 as [p1|]; try done. cbn [mbind option_bind].
  destruct (expect_ok m p1 113 v1 H1) as (r2 & -> & H2); [done|]. cbn [mbind res_bind]. destruct (after 113 v1) as [v2|], r2 as [p2|]; try done. cbn [mbind option_bind].
  destruct (expect_ok m p2 61 v2 H2) as (r3 & -> & H3); [done|]. cbn [mbind res_bind]. destruct (after 61 v2) as [v3|], r3 as [p3|]; try done.
  destruct (skip_points vct_issp m p3 v3 H3 eq_refl) as (q & -> & Hq). cbn [mbind res_bind]. unfold q_text.
  destruct (q_int_ok m _ (size m) q d0 Hq (points_size _ _ _ Hq)) as (q2 & -> & Hq2). cbn [mbind res_bind].
  destruct (qi d0 (drop_while vct_issp v3)) as [a t]. cbn [fst snd] in *. rewrite (peek_points _ _ _ Hq2). cbn [mbind res_bind].
  destruct t as [|c t]; [done|]. destruct (Z.eqb_spec c 46) as [->|Hne]; cbn [negb].
  - apply q_frac_ok; [by eapply points_tail|]. eapply points_size. by eapply points_tail.
  - destruct c as [|c|c]; try done. repeat (destruct c as [c|c|]; try done).
Qed.

(** A request that takes compressed responses. *)
Definition takes_gzip (ls : list line) : bool :=
  match field_of H_Accept_Encoding (str "x-gzip") ls with
  | Some _ => true
  | None => match field_of H_Accept_Encoding (str "gzip") ls with Some r => dlt d0 (quality r) | None => false end
  end.

Lemma Req_Gzip_ok m hp ls : has_lines m hp ls -> clean ls -> RFC2616_Req_Gzip m hp = Ok (takes_gzip ls).
Proof.
  intros H Hc. unfold RFC2616_Req_Gzip, takes_gzip.
  destruct (GetHdrData_ok m hp ls H_Accept_Encoding (str "x-gzip") H Hc ltac:(name_ok)) as (r & -> & Hr); [done|]. cbn [mbind res_bind].
  destruct (field_of H_Accept_Encoding (str "x-gzip") ls), r; try done.
  rewrite (HdrQ_ok m hp ls H_Accept_Encoding (str "gzip") H Hc) by (done || name_ok). cbn [mbind res_bind mret res_ret]. by destruct (field_of _ _ ls).
Qed.

(** The quality values of RFC2616 3.9. *)
Definition dec_digits : list (list Z) := map (fun d => [d]) (seqZ 48 10).
Definition up_to_three (ds : list (list Z)) : list (list Z) :=
  let two := d1 ← ds; d2 ← ds; [d1 ++ d2] in
  [[]] ++ ds ++ two ++ (d ← two; d3 ← ds; [d ++ d3]).
Definition qvalues : list (list Z) :=
  [str "0"; str "1"] ++ map (app (str "0.")) (up_to_three dec_digits) ++ map (app (str "1.")) (up_to_three [str "0"]).

(** It is not zero: it has another digit. *)
Definition nonzero (qv : list Z) : bool := existsb (fun c => (48 <? c) && (c <=? 57)) qv.

Lemma qvalues_ok : forallb (fun q => match q with c :: _ => negb (vct_issp c) | [] => false end && Bool.eqb (dlt d0 (q_text q)) (nonzero q)) qvalues = true.
Proof. by vm_compute. Qed.

(** What cannot belong to a quality value. *)
Definition q_ended (rest : list Z) : Prop := match rest with c :: _ => vct_isdigit c = false /\ c <> 46 | [] => True end.

Lemma qi_app s : forall a rest, q_ended rest -> qi a (s ++ rest) = (fst (qi a s), snd (qi a s) ++ rest).
Proof.
  induction s as [|c s IH]; intros a rest Hr; cbn [app qi].
  - destruct rest as [|c r]; [done|]. destruct Hr as [Hr _]. cbn. by rewrite Hr.
  - destruct (vct_isdigit c); [by apply IH|done].
Qed.

Lemma qf_app s : forall a b rest, q_ended rest -> qf a b (s ++ rest) = qf a b s.
Proof.
  induction s as [|c s IH]; intros a b rest Hr; cbn [app qf].
  - destruct rest as [|c r]; [done|]. destruct Hr as [Hr _]. cbn. by rewrite Hr.
  - destruct (vct_isdigit c); [by apply IH|done].
Qed.

Lemma drop_spaces sp s : Forall (fun c => vct_issp c = true) sp -> drop_while vct_issp (sp ++ s) = drop_while vct_issp s.
Proof. intros H. induction H as [|c sp Hc H IH]; [done|]. cbn. by rewrite Hc. Qed.

Lemma after_spaces sp c s : Forall (fun c => vct_issp c = true) sp -> vct_issp c = false -> after c (sp ++ c :: s) = Some s.
Proof. intros H Hc. unfold after. rewrite drop_spaces by done. cbn [drop_while]. by rewrite Hc, Z.eqb_refl. Qed.

Lemma qvalue_ok qv sp rest : qv ∈ qvalues -> Forall (fun c => vct_issp c = true) sp -> q_ended rest -> dlt d0 (q_text (sp ++ qv ++ rest)) = nonzero qv.
Proof.
  intros Hq Hsp Hr. pose proof qvalues_ok as H. rewrite forallb_forall in H. specialize (H qv (proj1 (list_elem_of_In _ _) Hq)).
  apply andb_prop in H as [H1 H2%Bool.eqb_prop]. rewrite <- H2. f_equal. unfold q_text. rewrite drop_spaces by done.
  destruct qv as [|c qv]; [done|]. apply negb_true_iff in H1. cbn [app drop_while]. rewrite H1. change (c :: qv ++ rest) with ((c :: qv) ++ rest).
  rewrite qi_app by done. destruct (qi d0 (c :: qv)) as [a t]. cbn [fst snd]. destruct t as [|x t].
  - cbn [app]. destruct rest as [|y r]; [done|]. destruct Hr as [_ Hr]. destruct y as [|y|y]; try done. repeat (destruct y as [y|y|]; try done).
  - cbn [app]. destruct x as [|x|x]; try done. repeat (destruct x as [x|x|]; try done). by apply qf_app.
Qed.

(** ** What holds *)

#[local] Notation plenty alloc := (forall k n, is_Some (alloc k n)).

(** C13. From the head of a response to the body of an object: whatever its headers and its
    status, [RFC2616_Body] and then [FetchBody] make the object hold the body that these give
    the response ([message_body]), and leave on the connection what is after it.  That is
    none for [HEAD] and the statuses without one; with [Transfer-Encoding: chunked] what the
    chunks hold, and no other coding is taken; else as much as [Content-Length] says; else
    none on a connection that is kept alive, and all up to the end of any other.  The
    connection is closed when the headers say so.  It fails only when there is no such
    body, or storage is short. *)
Theorem response_fetched (alloc : nat -> Z -> option Z) (nuke : nat -> bool) (fetchfrag fetch_chunksize fetch_maxchunksize nuke_limit : Z)
    (m : mem) (beresp bereq : http) (ls : list line) (method : list Z) (h : HttpConn.http_conn) (fpass : bool) (w : Wrw.wrw)
    (Hls : has_lines m beresp ls) (Hclean : clean ls) (Hreq : in_slot m bereq HTTP_HDR_REQ method) (Hmethod : no_nul method)
    (Halloc : FetchInv.gives_space alloc) (Hpar : FetchInv.params_ok fetchfrag fetch_chunksize fetch_maxchunksize nuke_limit)
    (Hs : FetchInv.segs_ok h) (Hlen : Z.of_nat (length (FetchInv.input h)) < Fetch.SSIZE_MAX) :
  let body := message_body method (status beresp) ls (HttpConn.broken h) (FetchInv.input h) in
  exists f failed cl v, fetch_response alloc nuke fetchfrag fetch_chunksize fetch_maxchunksize nuke_limit m beresp bereq (BodyProp.fresh h fpass w)
      = Ok (f, failed, cl, v) /\
    (failed = false /\ body (FetchInv.body_of (Fetch.store f)) (FetchInv.input (Fetch.conn f)) /\
       Fetch.olen f = Z.of_nat (length (FetchInv.body_of (Fetch.store f))) /\
       v = (if closes (protover beresp) ls then Fetch.CloseFd else Fetch.RecycleFd) \/
     failed = true /\ Fetch.store f = [] /\ v = Fetch.CloseFd /\ (plenty alloc -> forall d r, ~ body d r)).
Proof.
  intros body. unfold fetch_response. destruct (Body_ok m beresp ls Hls Hclean bereq method Hreq Hmethod) as (p & -> & Hp). cbn [mbind res_bind].
  set (bs := body_rule _ _ _) in *.
  assert (Hb : exists b, match p with Some p => string_at m p | None => mret [] end = Ok b /\ (bs = Fetch.BS_LENGTH -> header H_Content_Length ls = Some b)).
  { destruct p as [q|]; [|by exists []]. destruct Hp as (_ & b & Eb & Hb). exists b. by rewrite (string_points _ _ _ Hb). }
  destruct Hb as (b & -> & Hb). cbn [mbind res_bind].
  assert (Hm := fun d r => message_framing method (status beresp) ls (HttpConn.broken h) (FetchInv.input h) b d r Hb). fold bs body in Hm.
  destruct (BodyProp.FetchBody_fresh alloc nuke fetchfrag fetch_chunksize fetch_maxchunksize nuke_limit h fpass w bs b (closes (protover beresp) ls) Halloc Hpar Hs Hlen)
    as (f & failed & cl & v & E & _ & Hc).
  exists f, failed, cl, v. split; [exact E|].
  destruct Hc as [(-> & Hd & Ho & _ & ->)|(-> & _ & -> & Hst & _ & Hn)]; [left|right]; split_and!; try done.
  - by apply Hm.
  - intros Hal d r Hd. by apply (Hn Hal d r), Hm.
Qed.

(** [RFC2616_Ttl] gives a response the lifetime of [lifetime], in terms of its headers
    and nothing else; a number of seconds counts as it is written, less the [Age], and a
    relative lifetime is never negative and never depends on dates or clocks. *)
Theorem lifetime_right {tm : Type} (strptime : list Z -> list Z -> option tm) (timegm : tm -> Z) (bad_int : double -> Z)
    (m : mem) (hp : http) (ls : list line) (st : Z) (default_ttl : double) (clock_skew : Z) (x : exp)
    (Hls : has_lines m hp ls) (Hclean : clean ls) (He : deq (entered x) d0 = false) (Hnan : isnan (entered x) = false) :
  (exists x', RFC2616_Ttl strptime timegm bad_int m hp st default_ttl clock_skew x = Ok x' /\
     ttl x' = lifetime strptime timegm bad_int ls st default_ttl clock_skew (entered x) /\
     entered x' = entered x /\ grace x' = grace x /\ keep x' = keep x /\
     (header H_Age ls <> None -> age x' = of_Z (age_of ls))) /\
  forall n rest, 0 <= n < 2 ^ 32 -> ended rest -> relative_of ls = Some (HttpWrite.decimal n ++ rest) -> cacheable st = true ->
    lifetime strptime timegm bad_int ls st default_ttl clock_skew (entered x) = of_Z (Z.max 0 (n - age_of ls)) /\
    finite (of_Z (Z.max 0 (n - age_of ls))) = true.
Proof.
  split.
  - eexists. split; [by apply Ttl_ok|]. cbn [ttl entered grace keep age]. split_and!; try done. by destruct (header H_Age ls).
  - intros n rest Hn Hr Hrel Hc. unfold lifetime. cbv zeta. rewrite Hc, Hrel. cbn [negb].
    assert (Hs : seconds (HttpWrite.decimal n ++ rest) = n).
    { pose proof (strtoul0_decimal n rest ltac:(lia) Hr) as E. assert (Eu : u32 (strtoul0 (HttpWrite.decimal n ++ rest)) = n) by (rewrite E; by apply u32_small).
      unfold seconds. destruct (RangeThm.decimal_ok n) as (H1 & _ & H3); [lia|]. destruct (HttpWrite.decimal n) as [|c s]; [done|]. cbn [app] in *.
      apply Forall_cons in H1 as [Hd _]. unfold RangeThm.dec_char in Hd. destruct c as [|c|c]; try done. repeat (destruct c as [c|c|]; try done; try lia). }
    assert (Ha : 0 <= age_of ls) by (unfold age_of; destruct (header _ _); [apply u32_range|lia]).
    rewrite Hs. split; [done|]. apply of_Z_finite. lia.
Qed.

(** [RFC2616_Do_Cond] answers whether what the client has is what it would get: not
    changed since the time it says, which is not in the future, and with the tag it says
    if the object has one. *)
Theorem condition_right {tm : Type} (strptime : list Z -> list Z -> option tm) (timegm : tm -> Z)
    (m : mem) (hp ohp : http) (rls ols : list line) (last_modified t_req : double)
    (H1 : has_lines m hp rls) (C1 : clean rls) (H2 : has_lines m ohp ols) (C2 : clean ols) :
  RFC2616_Do_Cond strptime timegm m hp ohp last_modified t_req = Ok (fresh_copy strptime timegm rls ols last_modified t_req).
Proof. exact (Do_Cond_ok strptime timegm (fun _ => 0) m hp ohp rls ols last_modified t_req H1 C1 H2 C2). Qed.

(** [RFC2616_Req_Gzip] answers whether the request lists [x-gzip], or lists [gzip] with a
    quality that is not zero; for each of the 1,117 ways to write a quality value, with
    spaces anywhere, the sum of doubles that [http_GetHdrQ] makes of it is zero exactly if
    all its digits are. *)
Theorem gzip_right (m : mem) (hp : http) (ls : list line) (Hls : has_lines m hp ls) (Hclean : clean ls) :
  RFC2616_Req_Gzip m hp = Ok (takes_gzip ls) /\
  forall s1 s2 s3 s4 qv rest, Forall (Forall (fun c => vct_issp c = true)) [s1; s2; s3; s4] -> qv ∈ qvalues -> q_ended rest ->
    dlt d0 (quality (s1 ++ 59 :: s2 ++ 113 :: s3 ++ 61 :: s4 ++ qv ++ rest)) = nonzero qv.
Proof.
  split; [by apply Req_Gzip_ok|]. intros s1 s2 s3 s4 qv rest Hsp Hq Hr. rewrite !Forall_cons in Hsp. destruct Hsp as (S1 & S2 & S3 & S4 & _).
  unfold quality. rewrite !after_spaces by done. cbn [mbind option_bind]. rewrite after_spaces by done. cbn [mbind option_bind].
  rewrite after_spaces by done. by apply qvalue_ok.
Qed.

(** ** Examples *)

Definition ex_headers : list (Z * list Z) :=
  [(5000, str "GET"); (5100, str "Content-Length: 5"); (5200, str "Cache-Control: private, max-age=60, x"); (5300, str "Age: 10");
   (5400, str "Accept-Encoding: deflate, gzip;q=0.5"); (5500, str "If-None-Match: a"); (5600, str "ETag: a")].
Definition ex_mem : mem := foldr (fun x m => mem_of (fst x) (snd x ++ [0])%list ∪ m) ∅ ex_headers.
Definition ex_of (ts : list (Z * Z)) (st pv : Z) : http :=
  mkHttp HTTP_Rx (repeat no_txt 5 ++ map (fun x => BodyProp.at_text (fst x) (snd x)) ts) (repeat 0 (5 + length ts)) (5 + length ts) st pv 0.

Definition ex_beresp : http := ex_of [(5100, 17); (5200, 37); (5300, 7)] 200 11.
Definition ex_belines : list line := [(str "Content-Length: 5", 0); (str "Cache-Control: private, max-age=60, x", 0); (str "Age: 10", 0)].
Definition ex_method : http := mkHttp HTTP_Rx (BodyProp.at_text 5000 3 :: repeat no_txt 4) (repeat 0 5) 5 0 11 0.

Lemma ex_belines_ok : has_lines ex_mem ex_beresp ex_belines /\ clean ex_belines.
Proof. split; [apply has_lines_b_ok; by vm_compute|]. by repeat constructor. Qed.

Lemma ex_in_slot : in_slot ex_mem ex_method HTTP_HDR_REQ (str "GET").
Proof. exists (BodyProp.at_text 5000 3). split; [done|]. apply holds_b_ok. by vm_compute. Qed.

(** [hello], and what follows it. *)
Lemma ex_body : message_body (str "GET") 200 ex_belines false (str "hello!") (str "hello") (str "!").
Proof.
  assert (Eb : bodiless (str "GET") 200 = false) by by vm_compute.
  assert (Et : header H_Transfer_Encoding ex_belines = None) by by vm_compute.
  assert (El : header H_Content_Length ex_belines = Some [53]) by by vm_compute.
  unfold message_body. rewrite Eb, Et, El. split; [|done]. exists [], [], [53], 5. split; [done|]. split; [constructor|].
  split; [apply Coding.num_one; split; [lia|by left]|]. split; [by vm_compute|]. left. split; [by left|done].
Qed.

Lemma response_fetched_witness :
  exists f, fetch_response BodyProp.ex_alloc (fun _ => true) 0 128 262144 50 ex_mem ex_beresp ex_method
      (BodyProp.fresh (BodyProp.conn_of [str "hel"; str "lo!"] false) false BodyProp.ex_w) = Ok (f, false, Some 5, Fetch.RecycleFd) /\
    message_body (str "GET") 200 ex_belines false (str "hello!") (FetchInv.body_of (Fetch.store f)) (FetchInv.input (Fetch.conn f)).
Proof.
  destruct BodyProp.ex_alloc_ok as (A1 & A2 & A3). destruct ex_belines_ok as [Hl Hc].
  destruct (response_fetched BodyProp.ex_alloc (fun _ => true) 0 128 262144 50 ex_mem ex_beresp ex_method ex_belines (str "GET")
    (BodyProp.conn_of [str "hel"; str "lo!"] false) false BodyProp.ex_w Hl Hc ex_in_slot) as (f & failed & cl & v & E & Hb);
    [by repeat constructor|exact A1|exact A3|by repeat constructor|by vm_compute|].
  assert (Ecl : (match fetch_response BodyProp.ex_alloc (fun _ => true) 0 128 262144 50 ex_mem ex_beresp ex_method
      (BodyProp.fresh (BodyProp.conn_of [str "hel"; str "lo!"] false) false BodyProp.ex_w) with Ok (_, _, cl, v) => Some (cl, v) | _ => None end)
    = Some (Some 5, Fetch.RecycleFd)) by by vm_compute.
  rewrite E in Ecl. injection Ecl as -> ->. destruct Hb as [(-> & Hd & _ & _)|(_ & _ & Hv & _)]; [|discriminate Hv].
  exists f. split; [exact E|exact Hd].
Defined.

Definition ex_exp : exp := mkExp d0 d0 d0 d0 (of_Z 1000000).

(** 60 seconds, of which 10 are over. *)
Lemma lifetime_right_witness :
  exists x', RFC2616_Ttl (fun _ _ => Some tt) (fun _ => 0) (fun _ => 0) ex_mem ex_beresp 200 (of_Z 120) 10 ex_exp = Ok x' /\ ttl x' = of_Z 50 /\
    lifetime (fun _ _ => Some tt) (fun _ => 0) (fun _ => 0) ex_belines 200 (of_Z 120) 10 (of_Z 1000000) = of_Z 50.
Proof.
  destruct ex_belines_ok as [Hl Hc].
  destruct (lifetime_right (fun _ _ => Some tt) (fun _ => 0) (fun _ => 0) ex_mem ex_beresp ex_belines 200 (of_Z 120) 10 ex_exp Hl Hc)
    as [(x' & E & Et & _) Hs]; [by vm_compute..|].
  destruct (Hs 60 (str ", x")) as [H60 _]; [lia|by vm_compute|by vm_compute|by vm_compute|].
  assert (E50 : of_Z (Z.max 0 (60 - age_of ex_belines)) = of_Z 50) by (f_equal; by vm_compute). rewrite E50 in H60.
  exists x'. split; [exact E|]. split; [by rewrite Et|exact H60].
Defined.

Definition ex_tag : http := ex_of [(5500, 16)] 0 11.
Definition ex_tagged : http := ex_of [(5600, 7)] 200 11.

Lemma condition_right_witness : RFC2616_Do_Cond (fun _ _ => Some tt) (fun _ => 0) ex_mem ex_tag ex_tagged d0 d0 = Ok true.
Proof.
  rewrite (condition_right (fun _ _ => Some tt) (fun _ => 0) ex_mem ex_tag ex_tagged [(str "If-None-Match: a", 0)] [(str "ETag: a", 0)]).
  - reflexivity.
  - apply has_lines_b_ok. by vm_compute.
  - by repeat constructor.
  - apply has_lines_b_ok. by vm_compute.
  - by repeat constructor.
Defined.

Definition ex_gzip : http := ex_of [(5400, 36)] 0 11.

Lemma ex_qvalue : str "0.001" ∈ qvalues.
Proof. apply list_elem_of_In. assert (H : existsb (fun q => bool_decide (q = str "0.001")) qvalues = true) by by vm_compute.
  apply existsb_exists in H as (q & Hq & E). apply bool_decide_eq_true in E. by rewrite <- E.
Qed.

Lemma gzip_right_witness :
  RFC2616_Req_Gzip ex_mem ex_gzip = Ok true /\ dlt d0 (quality (str " ;q = 0.001,x")) = true.
Proof.
  destruct (gzip_right ex_mem ex_gzip [(str "Accept-Encoding: deflate, gzip;q=0.5", 0)]) as [E Hq].
  - apply has_lines_b_ok. by vm_compute.
  - by repeat constructor.
  - split; [rewrite E; by vm_compute|]. refine (Hq (str " ") [] (str " ") (str " ") (str "0.001") (str ",x") _ _ _).
    + by repeat constructor.
    + exact ex_qvalue.
    + split; [by vm_compute|done].
Defined.

(** Where this is not what RFC2616 says: a number of seconds with a leading zero is octal, one
    of 2^32 is nothing, and the names of directives and parameters are compared with their
    case; a tag the object has none to compare with does not count; a [close] with another
    option, and a [chunked] after another coding, are not seen; and a connection whose end
    was the end of the body is kept. *)
Example rfc_departures :
  seconds (str "010") = 8 /\ seconds (str "4294967296") = 0 /\
  relative_of [(str "Cache-Control: Max-Age=60", 0)] = None /\
  takes_gzip [(str "Accept-Encoding: gzip;Q=0", 0)] = true /\
  (forall v, fresh_copy (fun _ _ => Some tt) (fun _ => 1) [(str "If-Modified-Since: x", 0); (str "If-None-Match: a", 0)] v (of_Z 1) (of_Z 2)
    = match header H_ETag v with Some e => bool_decide (str "a" = e) | None => true end) /\
  closes 11 [(str "Connection: close, TE", 0)] = false /\
  body_rule (str "GET") 200 [(str "Transfer-Encoding: gzip, chunked", 0)] = Fetch.BS_ERROR /\
  body_rule (str "GET") 200 [] = Fetch.BS_EOF /\ closes 11 [] = false.
Proof.
  split_and!; try (by vm_compute). intros v. unfold fresh_copy.
  replace (header H_If_None_Match _) with (Some (str "a")) by (by vm_compute).
  replace (header H_If_Modified_Since _) with (Some (str "x")) by (by vm_compute).
  by destruct (header H_ETag v).
Qed.

End Rfc2616Thm.
